(* ===== verification/_CoqProject ===== *)
-Q . S2P
Prelude.v
Params.v
Kernel.v
Spinlock.v
Wakeup.v
StringC.v
Kalloc.v
Vm.v
Proc.v
Sleeplock.v
Bio.v
Log.v
Crash.v
Transaction.v
Uart.v
Printf.v
Console.v
Fs.v
Blocks.v
Balloc.v
Content.v
Writei.v
Dir.v
Namei.v
Pipe.v
File.v
Fork.v
Exec.v
Syscall.v
Sysfile.v
Virtio.v
Driver.v
Trap.v
User.v
Ulib.v
Uprintf.v
Umalloc.v
Ysh.v
Grep.v
Sh.v
Utils.v
Grind.v
Usertests.v
Testrun.v
Mkfs.v
Mkimage.v
Rootfs.v
Machine.v
