(* ===== verification/Prelude.v ===== *)
(** * Verification of the xv6 kernel and user land of EEE3535-OperatingSystem

    The repository is the RISC-V teaching kernel xv6 with its user programs
    and a course shell, all in C under Shell/: the kernel (kernel/), the
    programs that run on it (user/), and the tool that builds the disk image
    (mkfs/).  This library is a shallow embedding of that code: each C
    function is one definition under its own name, with its early returns,
    panics and the order of its effects, and the theorems are about those
    definitions.

    ** How the code is represented

    Integers are [Z]; [u8], [u32], [u64], [s32] ... are the truncations to a
    C type and stand wherever the C code can leave the range of the type.
    Objects in byte memory go through the little-endian [le_enc]/[le_dec].

    A kernel function is a computation of the monad [M kernel] of this file
    (called [K]): it threads the record [kernel] of all global variables
    (Kernel.v: one record per structure, one field per member) and ends in
    [Ret], in [Panic], in [Swtch] (it gave up the cpu; the rest of the
    function is a continuation that accepts any state in which the scheduler
    may resume it) or in [Spin] (it waits for another hart).  Loops without a
    bound in the code take an ambient fuel and end in [NoFuel]; every theorem
    that says a function returns gives a bound on the fuel that is enough, in
    terms of the data (the number of pages, of blocks, of bytes).

    Where several harts or processes interleave, the code is a step relation:
    [Spinlock.Harts.step] for acquire and release, with the interrupts of each
    hart, one access to the lock per step; [Wakeup.SleepWakeup.step] for sleep,
    wakeup, yield, kill and the scheduler over all processes and channels, one
    lock operation or one access to locked data per step; and [Driver.dstep],
    whose steps are requests, the device and the interrupt handler, for the
    disk driver.

    The assembly routines and the machine-mode boot are lists of instructions
    and a semantics of the instructions they use (Machine.v).

    A user program is a computation of the monad [U] (User.v): it works on
    the memory of its process, an unmapped address is a fault, and its result
    is the tree of the system calls it makes, with one child for every answer
    the kernel can give; [fork] is a call whose two answers are the two
    processes.

    Hardware and anything else the sources only use is a class: [KernelImage]
    (linker symbols), [BlockDevice] (what the disk promises its driver's
    caller), [BlkDevice] (what it promises its driver), [Uart16550],
    [VirtioMmio], [StackJunk] (padding bytes of a
    structure copied from the stack).  The theorems hold for every instance.

    ** Files

    Shared: Prelude (widths, byte order, arrays, the kernel monad and its run
    lemmas and tactics), Params (param.h, memlayout.h, riscv.h, fs.h), Kernel
    (the data).

    Kernel: Spinlock (spinlock.c, riscv.h, part of proc.c), Wakeup (the
    sleep/wakeup protocol of proc.c), StringC (string.c), Kalloc (kalloc.c),
    Vm (vm.c), Proc and Fork (proc.c), Sleeplock (sleeplock.c), Bio (bio.c),
    Log (log.c) with Crash and Transaction, which hold its theorems, Uart
    (uart.c), Printf (printf.c), Console (console.c), Fs (fs.c) with its
    theorems in Blocks and Balloc (blocks and the bitmap), Content and Writei
    (reading and writing a file), Dir (directories) and Namei (paths), Pipe
    (pipe.c), File (file.c), Exec (exec.c), Syscall (syscall.c, sysproc.c),
    Sysfile (sysfile.c), Virtio (virtio_disk.c) with Driver, which holds its
    theorems, Trap (trap.c, plic.c, main.c and the dispatcher of syscall.c),
    Machine (start.c, entry.S, swtch.S, trampoline.S, kernelvec.S).

    User land: User (the system calls of user.h and the monad), Ulib
    (ulib.c), Uprintf (printf.c), Umalloc (umalloc.c), Ysh (ysh.c), Sh
    (sh.c), Grep (grep.c), Utils (cat, echo, wc, ls, kill, ln, mkdir, rm,
    init, zombie, whoami, forktest, stressfs), Grind (grind.c), Usertests
    (the tests of usertests.c) and Testrun (its runner).

    Host: Mkfs (mkfs.c), with its theorem in Mkimage; Rootfs joins it to the
    kernel's file system.

    ** What the theorems show

    - Crash safety and transactions (Crash, Transaction over Log, Bio): a
      commit interrupted after any disk write, and a recovery interrupted any
      number of times, leave the old or the new state; begin_op, log_write
      and end_op group operations, absorb repeated writes and order the disk
      writes log, header, home, header; the reservation of begin_op is one
      block too generous, which log_write turns into a panic.
    - The buffer cache (Bio) keeps its list a permutation in order of use and
      returns the block's content; sleep locks (Sleeplock) are exclusive, a
      waiter looking again at every resumption.
    - Concurrency (Spinlock, Wakeup): mutual exclusion, with interrupt
      handlers that use the lock too, and no lost wakeup in all interleavings;
      nesting of interrupt masking; misuse panics.
    - Memory (Kalloc, Vm): the page allocator refines a stack of pages;
      mappages, copyin and copyout agree with the translation the hardware
      would do.
    - Processes, pipes, console (Proc, Pipe, Console): sleep, wakeup and kill
      change exactly what they should; a pipe is a bounded byte queue; the
      console interrupt handler refines an abstract line editor.
    - The file system (Balloc, Content, Writei, Dir, Namei): balloc returns a
      zeroed free block, readi and writei refine the file's byte list through
      bmap (writei from kernel or user memory, leaving every other block and
      bit of the bitmap alone), dirlink adds the entry that dirlookup finds, and namei follows a
      path through the directory tree, dropping the references it took.
    - The disk driver (Driver): in every interleaving of requests, device and
      interrupts its data stays well formed, and virtio_disk_rw returns with
      the block transferred.
    - Boot, traps and context switches (Machine): start leaves the hart in
      supervisor mode at main, timervec restores what it uses, the trampoline
      saves and restores every user register, swtch and kernelvec resume the
      interrupted code.
    - Encodings and parsing (StringC, Printf, Sh, Grep): the string routines,
      printed integers read back, the shell's parser inverts its printer and
      ends on every line, grep's matcher decides the language of the pattern.
    - User programs (Ysh, Grep, Utils, Umalloc, Grind, Testrun): the shell
      ysh makes exactly the system calls its line stands for, and faults on
      two kinds of input;
      grep and wc give the same result however the input is cut, grep up to
      the first line that does not fit its buffer; malloc and
      free refine a set of free bytes with a circular, sorted, coalesced free
      list; grind never leaks a descriptor and its generator is the minimal
      standard one; usertests reports success exactly if every selected test
      exited with 0 and no page was lost.
    - The disk image (Mkimage, Rootfs): what mkfs writes is what the kernel
      reads, superblock, directory, file contents and bitmap: looking up a
      file's name in the image and reading it gives the file.

    ** Fuel and bounds

    Every [loop]/[uloop] theorem has an explicit bound: walks of a free list
    need its length, once or twice round; page loops the number of pages;
    parsers four steps per character of the line ([Sh.parse_fuel]); the
    search for a free block [2 * length fs + 4]; readi and writei at most 269
    blocks; namei one step per directory entry and path component, with more
    than MAXFILE * BSIZE / 16 = 17152 always enough for a directory; the
    driver's wait and the interrupt handler more than 2 and 8 steps; the test
    runner more than the number of its system calls.  The constants (NBUF,
    LOGSIZE, NPROC, BSIZE ...) are those of the headers.

    ** Not modelled

    - Six tests of user/usertests.c: copyout, rwsbrk, argptest and pgbug give
      the kernel a bad address to store at, where the model of a system call
      has the data and not the address; textwrite and sbrkbugs depend on the
      permissions of pages and on the code being mapped.  The runner is proved
      for every table of quick tests.
    - Instruction fetch and the delivery of traps, which the hardware does:
      the C code starts at [main] on each hart and a context switch is the
      step [Swtch].
    - kernel/ramdisk.c: not compiled by the build, and written against fields
      of struct buf that are gone.
    - kernel/defs.h and user/user.h: prototypes.
    - The host of mkfs: a little-endian machine whose writes succeed and whose
      reads give full blocks up to the end of a file; its files are a parameter
      of the model.
    - Below the buffer cache the file system's theorems use the promise of the
      class [BlockDevice], a transfer that returns; that the driver sleeps and
      transfers is shown apart, in Driver, for a device that reports no I/O
      error.
    - The time the UART takes: [uartputc_sync] tests once whether it may
      transmit and otherwise waits for ever ([Spin]).
    - The name fields of the locks, which only debugging reads.
    - In Wakeup: exit, and the allocation of table entries; in Spinlock's step
      relation: several locks held at once, and a handler that yields.
    - Weak memory: shared accesses are sequentially consistent, as the fences
      around the lock operations make them for locked data.
    - Padding of structures and the contents of uninitialised stack memory,
      except where the kernel copies it out ([StackJunk]); ysh uses the array
      of descriptors of a pipe that could not be made, which are 0 here. *)

From Stdlib Require Export ZArith Lia List.
From stdpp Require Export base gmap list strings sets.

#[export] Set Default Goal Selector "!".
Open Scope Z_scope.

(** ** Machine integers

    A C integer of width [w] is a [Z]; every operation that can leave the
    range of its type is followed by the truncation below, so overflow is
    written where the C code has it. *)
Section Widths.
Definition uwrap (w x : Z) : Z := x mod 2 ^ w.
Definition swrap (w x : Z) : Z :=
  let y := x mod 2 ^ w in if y <? 2 ^ (w - 1) then y else y - 2 ^ w.
End Widths.

(** [uchar], [ushort], [uint], [uint64], [char], [short], [int], [long]
    (kernel/types.h; [char] is unsigned on RISC-V). *)
Definition u8 (x : Z) : Z := uwrap 8 x.
Definition u16 (x : Z) : Z := uwrap 16 x.
Definition u32 (x : Z) : Z := uwrap 32 x.
Definition u64 (x : Z) : Z := uwrap 64 x.
Definition s16 (x : Z) : Z := swrap 16 x.
Definition s32 (x : Z) : Z := swrap 32 x.
Definition s64 (x : Z) : Z := swrap 64 x.

(** The truth value of a C scalar, and the C value of a comparison. *)
Definition ctrue (x : Z) : bool := negb (x =? 0).
Definition cbool (b : bool) : Z := if b then 1 else 0.

(** Unfolds every width to a remainder by a numeral, which [lia] reads. *)
Ltac width_unfold :=
  unfold u8, u16, u32, u64, s16, s32, s64, uwrap, swrap in *;
  change (2 ^ 8) with 256 in *; change (2 ^ 16) with 65536 in *;
  change (2 ^ 32) with 4294967296 in *;
  change (2 ^ 64) with 18446744073709551616 in *;
  change (2 ^ (8 - 1)) with 128 in *; change (2 ^ (16 - 1)) with 32768 in *;
  change (2 ^ (32 - 1)) with 2147483648 in *;
  change (2 ^ (64 - 1)) with 9223372036854775808 in *.

(** [lia] with [/] and [mod] by numerals turned into equations. *)
Ltac zlia := width_unfold; Z.to_euclidean_division_equations; lia.

Lemma uwrap_range w x : 0 <= w -> 0 <= uwrap w x < 2 ^ w.
Proof. intros. apply Z.mod_pos_bound. lia. Qed.

Lemma uwrap_small w x : 0 <= x < 2 ^ w -> uwrap w x = x.
Proof. apply Z.mod_small. Qed.

Lemma u8_small x : 0 <= x < 256 -> u8 x = x.
Proof. apply (uwrap_small 8). Qed.
Lemma u32_small x : 0 <= x < 4294967296 -> u32 x = x.
Proof. apply (uwrap_small 32). Qed.
Lemma u64_small x : 0 <= x < 18446744073709551616 -> u64 x = x.
Proof. apply (uwrap_small 64). Qed.
Lemma s32_small x : -2147483648 <= x < 2147483648 -> s32 x = x.
Proof.
  intros. unfold s32, swrap. change (2 ^ 32) with 4294967296.
  change (2 ^ (32 - 1)) with 2147483648.
  destruct (Z.ltb_spec (x mod 4294967296) 2147483648);
    Z.to_euclidean_division_equations; lia.
Qed.

Create Rewrite HintDb width.
#[export] Hint Rewrite u8_small u32_small u64_small s32_small using lia : width.
Ltac wsimpl := autorewrite with width.

(** ** Little-endian encodings

    The bytes of an object of [n] bytes, least significant first, and back. *)
Fixpoint le_enc (n : nat) (v : Z) : list Z :=
  match n with
  | O => []
  | S n' => v mod 256 :: le_enc n' (v / 256)
  end.

Fixpoint le_dec (l : list Z) : Z :=
  match l with
  | [] => 0
  | b :: l' => b + 256 * le_dec l'
  end.

Definition byte_ok (b : Z) : Prop := 0 <= b < 256.

Lemma length_le_enc n v : length (le_enc n v) = n.
Proof. revert v; induction n; intros; simpl; auto. Qed.

Lemma le_dec_enc n v : le_dec (le_enc n v) = v mod 2 ^ (8 * Z.of_nat n).
Proof.
  revert v; induction n as [|n IH]; intros v; simpl le_enc; simpl le_dec.
  - by rewrite Z.mod_1_r.
  - rewrite IH. replace (8 * Z.of_nat (S n)) with (8 + 8 * Z.of_nat n) by lia.
    rewrite Z.pow_add_r by lia. change (2 ^ 8) with 256.
    rewrite Z.rem_mul_r by lia. lia.
Qed.

Lemma le_enc_byte_ok n v : Forall byte_ok (le_enc n v).
Proof.
  revert v; induction n; intros; simpl; constructor; auto.
  apply Z.mod_pos_bound; lia.
Qed.

Lemma le_dec_range l :
  Forall byte_ok l -> 0 <= le_dec l < 2 ^ (8 * Z.of_nat (length l)).
Proof.
  induction 1 as [|b l Hb Hl IH]; simpl le_dec; simpl length; [done|].
  replace (8 * Z.of_nat (S (length l))) with (8 + 8 * Z.of_nat (length l)) by lia.
  rewrite Z.pow_add_r by lia. change (2 ^ 8) with 256. unfold byte_ok in Hb. lia.
Qed.

Lemma le_enc_dec l : Forall byte_ok l -> le_enc (length l) (le_dec l) = l.
Proof.
  induction 1 as [|b l Hb Hl IH]; simpl; [done|]. unfold byte_ok in Hb.
  f_equal.
  - rewrite (Z.mul_comm 256), Z.mod_add by lia. by apply Z.mod_small.
  - rewrite (Z.mul_comm 256), Z.div_add by lia. rewrite (Z.div_small b) by lia.
    by rewrite Z.add_0_l.
Qed.

(** ** Arrays

    C arrays are lists; [a[i]] with [i] a [Z] (always in range in the code
    that is modelled, see the bounds theorems), and [a[i] = v]. *)
Definition aget {A} (d : A) (l : list A) (i : Z) : A := nth (Z.to_nat i) l d.
Definition aset {A} (l : list A) (i : Z) (v : A) : list A := <[Z.to_nat i := v]> l.

Lemma length_aset {A} (l : list A) i v : length (aset l i v) = length l.
Proof. apply length_insert. Qed.

Lemma aget_lookup {A} (d : A) l i :
  aget d l i = default d (l !! Z.to_nat i).
Proof.
  unfold aget. generalize (Z.to_nat i); clear i; intros i.
  revert i; induction l; intros [|i]; simpl; auto.
Qed.

Lemma aget_aset_eq {A} (d : A) l i v :
  0 <= i < Z.of_nat (length l) -> aget d (aset l i v) i = v.
Proof.
  intros. rewrite aget_lookup. unfold aset.
  rewrite list_lookup_insert_eq by lia. done.
Qed.

Lemma aget_aset_ne {A} (d : A) l i j v :
  0 <= i -> 0 <= j -> i <> j -> aget d (aset l i v) j = aget d l j.
Proof.
  intros. rewrite !aget_lookup. unfold aset.
  rewrite list_lookup_insert_ne by lia. done.
Qed.

(** Updates of one element of a table. *)
Lemma list_alter_ext_lookup {A} `{Inhabited A} (f g : A -> A) (xs : list A) i :
  f (xs !!! i) = g (xs !!! i) -> alter f i xs = alter g i xs.
Proof.
  intros Hf. apply list_eq. intros j. destruct (decide (i = j)) as [->|Hne].
  - rewrite !list_lookup_alter_eq. destruct (xs !! j) as [x|] eqn:E; [|done].
    simpl. f_equal. apply list_lookup_total_correct in E. by rewrite <- E.
  - by rewrite !list_lookup_alter_ne.
Qed.

Lemma list_alter_id_lookup {A} `{Inhabited A} (f : A -> A) (xs : list A) i :
  f (xs !!! i) = xs !!! i -> alter f i xs = xs.
Proof.
  intros Hf. rewrite (list_alter_ext_lookup f id xs i Hf). by apply list_alter_id.
Qed.

Lemma list_alter_out {A} (f : A -> A) (xs : list A) i :
  (length xs <= i)%nat -> alter f i xs = xs.
Proof.
  intros Hi. apply list_eq. intros j. destruct (decide (i = j)) as [->|Hne].
  - rewrite list_lookup_alter_eq, lookup_ge_None_2 by done. done.
  - by rewrite list_lookup_alter_ne.
Qed.

(** The first index of a range that satisfies a test. *)
Lemma find_seq_Some (f : nat -> bool) k p :
  List.find f (seq 0 k) = Some p -> (p < k)%nat /\ f p = true /\ forall q, (q < p)%nat -> f q = false.
Proof.
  assert (H : forall a, List.find f (seq a k) = Some p ->
            (a <= p < a + k)%nat /\ f p = true /\ forall q, (a <= q < p)%nat -> f q = false).
  { induction k as [|k IH]; intros a; [done|]. cbn. destruct (f a) eqn:E.
    - intros [= ->]. split_and!; [lia|lia|done|lia].
    - intros (Hr & Hp & Hq)%IH. split_and!; [lia|lia|done|]. intros q Hle.
      destruct (decide (q = a)) as [->|]; [done|]. apply Hq. lia. }
  intros (Hr & Hp & Hq)%H. split_and!; [lia|done|]. intros. apply Hq. lia.
Qed.

(** ** String literals *)
Fixpoint str_bytes (s : string) : list Z :=
  match s with
  | EmptyString => []
  | String a s' => Z.of_nat (Ascii.nat_of_ascii a) :: str_bytes s'
  end.

(** [\n] at the end of a string literal. *)
Definition nl : string := String (Ascii.ascii_of_nat 10) "".

(** ** The kernel monad

    A kernel function runs on one hart and threads the kernel's global
    variables.  Its outcomes are:
    - [Ret a s]: it returns [a] with the globals in state [s];
    - [Panic m s]: it calls [panic(m)], which never returns;
    - [Swtch s k]: it calls [swtch()] to give up the CPU in state [s]; [k]
      continues it in the state found when the scheduler resumes it;
    - [Spin s]: it busy-waits for another hart (a lock held elsewhere);
    - [NoFuel]: the bound on the iterations of an unbounded loop is reached.
    The bound is ambient: a computation is also a function of it. *)
Inductive outcome (S A : Type) : Type :=
| Ret (a : A) (s : S)
| Panic (msg : string) (s : S)
| Swtch (s : S) (k : S -> outcome S A)
| Spin (s : S)
| NoFuel.
Arguments Ret {S A} _ _.
Arguments Panic {S A} _ _.
Arguments Swtch {S A} _ _.
Arguments Spin {S A} _.
Arguments NoFuel {S A}.

Fixpoint obind {S A B} (o : outcome S A) (f : A -> S -> outcome S B) : outcome S B :=
  match o with
  | Ret a s => f a s
  | Panic m s => Panic m s
  | Swtch s k => Swtch s (fun s' => obind (k s') f)
  | Spin s => Spin s
  | NoFuel => NoFuel
  end.

Definition M (S A : Type) : Type := nat -> S -> outcome S A.

Definition ret {S A} (a : A) : M S A := fun _ s => Ret a s.
Definition bind {S A B} (m : M S A) (f : A -> M S B) : M S B :=
  fun n s => obind (m n s) (fun a s' => f a n s').
Definition gets {S A} (f : S -> A) : M S A := fun _ s => Ret (f s) s.
Definition modify {S} (f : S -> S) : M S unit := fun _ s => Ret tt (f s).
Definition panic {S A} (msg : string) : M S A := fun _ s => Panic msg s.
Definition spin {S A} : M S A := fun _ s => Spin s.
Definition swtch {S} : M S unit := fun _ s => Swtch s (fun s' => Ret tt s').

Declare Scope krn_scope.
Delimit Scope krn_scope with krn.
Notation "'let*' x := m 'in' k" := (bind m (fun x => k))
  (at level 10, x pattern, m at level 100, k at level 200) : krn_scope.
Notation "m ;; k" := (bind m (fun _ => k))
  (at level 100, k at level 200, right associativity) : krn_scope.
Open Scope krn_scope.

Definition when {S} (b : bool) (m : M S unit) : M S unit := if b then m else ret tt.

(** [for(x in l) body]: [body] returns [Some r] to leave the loop with [r]. *)
Fixpoint foreach {S X R} (l : list X) (body : X -> M S (option R)) : M S (option R) :=
  match l with
  | [] => ret None
  | x :: l' =>
      let* r := body x in
      match r with Some v => ret (Some v) | None => foreach l' body end
  end.

(** A loop with no exit: every element is visited. *)
Fixpoint forall_do {S X} (l : list X) (body : X -> M S unit) : M S unit :=
  match l with
  | [] => ret tt
  | x :: l' => body x ;; forall_do l' body
  end.

(** The same with a loop variable [a]: [inl a'] goes on, [inr r] leaves. *)
Fixpoint foreach_acc {S X A R} (l : list X) (a : A) (body : A -> X -> M S (A + R)) : M S (A + R) :=
  match l with
  | [] => ret (inl a)
  | x :: l' =>
      let* r := body a x in
      match r with inl a' => foreach_acc l' a' body | inr v => ret (inr v) end
  end.

(** [for(;;)] and [while]: [inl a] iterates with the loop variables [a],
    [inr b] leaves the loop. *)
Fixpoint iter_upto {S A B} (n : nat) (body : A -> M S (A + B)) (a : A) : M S B :=
  match n with
  | O => fun _ _ => NoFuel
  | Datatypes.S n' =>
      let* r := body a in
      match r with inl a' => iter_upto n' body a' | inr b => ret b end
  end.
Definition loop {S A B} (body : A -> M S (A + B)) (a : A) : M S B :=
  fun n s => iter_upto n body a n s.

(** ** Reasoning about runs *)

(** [m] returns [a] in state [s'] when started in [s]. *)
Lemma bind_ret {S A B} (m : M S A) (f : A -> M S B) n s a s' :
  m n s = Ret a s' -> bind m f n s = f a n s'.
Proof. unfold bind. by intros ->. Qed.

Lemma bind_panic {S A B} (m : M S A) (f : A -> M S B) n s msg s' :
  m n s = Panic msg s' -> bind m f n s = Panic msg s'.
Proof. unfold bind. by intros ->. Qed.

Lemma bind_gets {S A B} (g : S -> A) (f : A -> M S B) n s :
  bind (gets g) f n s = f (g s) n s.
Proof. done. Qed.

Lemma bind_modify {S B} (g : S -> S) (f : unit -> M S B) n s :
  bind (modify g) f n s = f tt n (g s).
Proof. done. Qed.

Lemma bind_ret_l {S A B} (a : A) (f : A -> M S B) n s :
  bind (ret a) f n s = f a n s.
Proof. done. Qed.

(** The same inside the body of a loop, which is itself bound. *)
Lemma bind_bind_ret {S A B C} (m : M S A) (f : A -> M S B) (g : B -> M S C) n s a s' :
  m n s = Ret a s' -> bind (bind m f) g n s = bind (f a) g n s'.
Proof. unfold bind. by intros ->. Qed.
Lemma bind_bind_gets {S A B C} (h : S -> A) (f : A -> M S B) (g : B -> M S C) n s :
  bind (bind (gets h) f) g n s = bind (f (h s)) g n s.
Proof. done. Qed.
Lemma bind_bind_modify {S B C} (h : S -> S) (f : unit -> M S B) (g : B -> M S C) n s :
  bind (bind (modify h) f) g n s = bind (f tt) g n (h s).
Proof. done. Qed.

Lemma bind_inv {S A B} (m : M S A) (f : A -> M S B) n s b s' :
  bind m f n s = Ret b s' ->
  exists a s1, m n s = Ret a s1 /\ f a n s1 = Ret b s'.
Proof. unfold bind. destruct (m n s); simpl; intros; try discriminate; eauto. Qed.

Create Rewrite HintDb krn.
#[export] Hint Rewrite @bind_gets @bind_modify @bind_ret_l : krn.

(** One step of symbolic execution. *)
Ltac kstep :=
  first [ rewrite bind_gets | rewrite bind_modify | rewrite bind_ret_l
        | erewrite bind_ret by eassumption ].
Ltac ksteps := repeat (progress (kstep; cbn beta iota)).

(** Executes the next call with its run lemma, whose premises are at hand. *)
Tactic Notation "kcall" uconstr(lem) :=
  erewrite bind_ret by (apply lem; assumption).

(** Inverts a run that returned, one bind at a time. *)
Ltac kinv H :=
  let a := fresh "a" in let s1 := fresh "s" in
  let H1 := fresh "Hrun" in let H2 := fresh "Hrun" in
  apply bind_inv in H; destruct H as (a & s1 & H1 & H2).

(** [m] repeated [k] times. *)
Fixpoint times {S} (k : nat) (m : M S unit) : M S unit :=
  match k with O => ret tt | Datatypes.S k' => m ;; times k' m end.

Lemma times_snoc {S} k (m : M S unit) n s s1 s2 :
  times k m n s = Ret tt s1 -> m n s1 = Ret tt s2 ->
  times (Datatypes.S k) m n s = Ret tt s2.
Proof.
  revert s. induction k as [|k IH]; intros s H H2; cbn [times] in *.
  - injection H as <-. by rewrite (bind_ret _ _ _ _ _ _ H2).
  - kinv H. destruct a. rewrite (bind_ret _ _ _ _ _ _ Hrun). by apply IH.
Qed.
