(* ===== verification/Params.v ===== *)
(** * Constants and address arithmetic

    The macros of kernel/param.h, memlayout.h, riscv.h, fs.h, stat.h and
    fcntl.h, with the arithmetic facts the other files use: page rounding,
    the three-level index of a virtual address, the page-table-entry
    encoding, and the symbols the linker script defines. *)

From S2P Require Import Prelude.

(** ** kernel/param.h *)
Definition NPROC : Z := 64.
Definition NCPU : Z := 8.
Definition NOFILE : Z := 16.
Definition NFILE : Z := 100.
Definition NINODE : Z := 50.
Definition NDEV : Z := 10.
Definition ROOTDEV : Z := 1.
Definition MAXARG : Z := 32.
Definition MAXOPBLOCKS : Z := 10.
Definition LOGSIZE : Z := MAXOPBLOCKS * 3.
Definition NBUF : Z := MAXOPBLOCKS * 3.
Definition FSSIZE : Z := 2000.
Definition MAXPATH : Z := 128.

(** ** kernel/riscv.h *)
Definition SSTATUS_SPP : Z := Z.shiftl 1 8.
Definition SSTATUS_SPIE : Z := Z.shiftl 1 5.
Definition SSTATUS_SIE : Z := Z.shiftl 1 1.

Definition PGSIZE : Z := 4096.
Definition PGSHIFT : Z := 12.
Definition PGROUNDUP (sz : Z) : Z := Z.land (u64 (sz + PGSIZE - 1)) (Z.lnot (PGSIZE - 1)).
Definition PGROUNDDOWN (a : Z) : Z := Z.land a (Z.lnot (PGSIZE - 1)).

Definition PTE_V : Z := Z.shiftl 1 0.
Definition PTE_R : Z := Z.shiftl 1 1.
Definition PTE_W : Z := Z.shiftl 1 2.
Definition PTE_X : Z := Z.shiftl 1 3.
Definition PTE_U : Z := Z.shiftl 1 4.

Definition PA2PTE (pa : Z) : Z := u64 (Z.shiftl (Z.shiftr pa 12) 10).
Definition PTE2PA (pte : Z) : Z := u64 (Z.shiftl (Z.shiftr pte 10) 12).
Definition PTE_FLAGS (pte : Z) : Z := Z.land pte 0x3FF.

Definition PXMASK : Z := 0x1FF.
Definition PXSHIFT (level : Z) : Z := PGSHIFT + 9 * level.
Definition PX (level va : Z) : Z := Z.land (Z.shiftr va (PXSHIFT level)) PXMASK.
Definition MAXVA : Z := Z.shiftl 1 (9 + 9 + 9 + 12 - 1).

Definition SATP_SV39 : Z := u64 (Z.shiftl 8 60).
Definition MAKE_SATP (pagetable : Z) : Z := Z.lor SATP_SV39 (Z.shiftr pagetable 12).

(** ** kernel/memlayout.h *)
Definition UART0 : Z := 0x10000000.
Definition UART0_IRQ : Z := 10.
Definition VIRTIO0 : Z := 0x10001000.
Definition VIRTIO0_IRQ : Z := 1.
Definition PLIC : Z := 0x0c000000.
Definition KERNBASE : Z := 0x80000000.
Definition PHYSTOP : Z := KERNBASE + 128 * 1024 * 1024.
Definition TRAMPOLINE : Z := MAXVA - PGSIZE.
Definition KSTACK (p : Z) : Z := TRAMPOLINE - (p + 1) * 2 * PGSIZE.
Definition TRAPFRAME : Z := TRAMPOLINE - PGSIZE.

(** ** kernel/fs.h *)
Definition ROOTINO : Z := 1.
Definition BSIZE : Z := 1024.
Definition FSMAGIC : Z := 0x10203040.
Definition NDIRECT : Z := 12.
Definition NINDIRECT : Z := BSIZE / 4.
Definition MAXFILE : Z := NDIRECT + NINDIRECT.
Definition IPB : Z := BSIZE / 64.
Definition BPB : Z := BSIZE * 8.
Definition DIRSIZ : Z := 14.

(** ** kernel/stat.h and kernel/fcntl.h *)
Definition T_DIR : Z := 1.
Definition T_FILE : Z := 2.
Definition T_DEVICE : Z := 3.
Definition O_RDONLY : Z := 0x000.
Definition O_WRONLY : Z := 0x001.
Definition O_RDWR : Z := 0x002.
Definition O_CREATE : Z := 0x200.
Definition O_TRUNC : Z := 0x400.

(** ** Symbols of the linked kernel image

    kernel/kernel.ld places the text at 0x80000000, ends it at [etext], ends
    the image at [end]; the assembly files define the other labels. *)
Class KernelImage := {
  etext : Z;
  end_ : Z;
  trampoline : Z;
  uservec : Z;
  userret : Z;
  kernelvec : Z;
  sym_usertrap : Z;
  sym_forkret : Z;
  etext_aligned : etext mod PGSIZE = 0;
  image_order : KERNBASE < etext /\ etext <= end_ /\ end_ <= PHYSTOP;
  trampoline_aligned : trampoline mod PGSIZE = 0;
  trampoline_range : KERNBASE <= trampoline < etext;
}.

(** The image in the repository (kernel/kernel.sym). *)
#[export] Instance kernel_sym : KernelImage.
Proof.
  refine {| etext := 0x80008000; end_ := 0x80021d60; trampoline := 0x80007000;
            uservec := 0x80007000; userret := 0x8000709c; kernelvec := 0x80005aa0;
            sym_usertrap := 0x800027ce; sym_forkret := 0x800019ce |};
    vm_compute; intuition congruence.
Defined.

(** ** Facts *)
Lemma land_page_mask a : Z.land a (Z.lnot (PGSIZE - 1)) = a - a mod PGSIZE.
Proof.
  change (PGSIZE - 1) with (Z.ones 12). change PGSIZE with (2 ^ 12).
  rewrite <- Z.ldiff_land, Z.ldiff_ones_r by lia.
  rewrite Z.shiftr_div_pow2, Z.shiftl_mul_pow2 by lia.
  pose proof (Z.div_mod a (2 ^ 12)). lia.
Qed.

Lemma PGROUNDDOWN_eq a : PGROUNDDOWN a = a - a mod PGSIZE.
Proof. apply land_page_mask. Qed.

Lemma PGROUNDUP_eq sz :
  0 <= sz <= 2 ^ 64 - PGSIZE ->
  PGROUNDUP sz = (sz + PGSIZE - 1) - (sz + PGSIZE - 1) mod PGSIZE.
Proof.
  intros. unfold PGROUNDUP. rewrite land_page_mask.
  unfold u64. rewrite uwrap_small; [done|]. unfold PGSIZE in *. lia.
Qed.

Lemma PGROUNDUP_spec sz :
  0 <= sz <= 2 ^ 64 - PGSIZE ->
  PGROUNDUP sz mod PGSIZE = 0 /\ sz <= PGROUNDUP sz < sz + PGSIZE.
Proof.
  intros. rewrite PGROUNDUP_eq by done. unfold PGSIZE in *.
  Z.to_euclidean_division_equations; lia.
Qed.

Lemma PGROUNDUP_aligned sz :
  0 <= sz <= 2 ^ 64 - PGSIZE -> sz mod PGSIZE = 0 -> PGROUNDUP sz = sz.
Proof.
  intros. rewrite PGROUNDUP_eq by done. unfold PGSIZE in *.
  Z.to_euclidean_division_equations; lia.
Qed.

Lemma PGROUNDDOWN_spec a :
  PGROUNDDOWN a mod PGSIZE = 0 /\ a - PGSIZE < PGROUNDDOWN a <= a.
Proof.
  rewrite PGROUNDDOWN_eq. unfold PGSIZE. Z.to_euclidean_division_equations; lia.
Qed.

Lemma PGROUNDDOWN_aligned a : a mod PGSIZE = 0 -> PGROUNDDOWN a = a.
Proof. rewrite PGROUNDDOWN_eq. lia. Qed.

Lemma PX_eq level va : 0 <= level -> PX level va = (va / 2 ^ (12 + 9 * level)) mod 512.
Proof.
  intros. unfold PX, PXSHIFT, PXMASK, PGSHIFT. change 0x1FF with (Z.ones 9).
  rewrite Z.land_ones, Z.shiftr_div_pow2 by lia. done.
Qed.

Lemma PX_range level va : 0 <= level -> 0 <= PX level va < 512.
Proof. intros. rewrite PX_eq by done. apply Z.mod_pos_bound; lia. Qed.

(** The three indices and the page offset determine the address. *)
Lemma PX_inj va va' :
  0 <= va < MAXVA -> 0 <= va' < MAXVA -> va mod PGSIZE = 0 -> va' mod PGSIZE = 0 ->
  PX 2 va = PX 2 va' -> PX 1 va = PX 1 va' -> PX 0 va = PX 0 va' -> va = va'.
Proof.
  rewrite !PX_eq by lia. unfold MAXVA, PGSIZE.
  change (2 ^ (12 + 9 * 2)) with 1073741824. change (2 ^ (12 + 9 * 1)) with 2097152.
  change (2 ^ (12 + 9 * 0)) with 4096. change (Z.shiftl 1 _) with 274877906944.
  intros. Z.to_euclidean_division_equations; lia.
Qed.

Lemma PTE2PA_PA2PTE pa flags :
  0 <= pa < 2 ^ 56 -> pa mod PGSIZE = 0 -> 0 <= flags < 1024 ->
  PTE2PA (Z.lor (PA2PTE pa) flags) = pa /\ PTE_FLAGS (Z.lor (PA2PTE pa) flags) = flags.
Proof.
  intros Hpa Hal Hf. unfold PTE2PA, PTE_FLAGS, PA2PTE.
  assert (Hs : u64 (Z.shiftl (Z.shiftr pa 12) 10) = Z.shiftl (pa / 4096) 10).
  { rewrite Z.shiftr_div_pow2 by lia. change (2 ^ 12) with 4096.
    rewrite Z.shiftl_mul_pow2 by lia. apply u64_small.
    change (2 ^ 56) with 72057594037927936 in *. change (2 ^ 10) with 1024.
    Z.to_euclidean_division_equations; lia. }
  assert (Hflag : Z.land flags (Z.ones 10) = flags).
  { rewrite Z.land_ones by lia. apply Z.mod_small. done. }
  rewrite Hs. split.
  - rewrite Z.shiftr_lor. rewrite (Z.shiftr_div_pow2 flags), (Z.div_small flags) by lia.
    rewrite Z.lor_0_r, Z.shiftr_shiftl_l by lia.
    rewrite Z.shiftl_0_r, Z.shiftl_mul_pow2 by lia. change (2 ^ 12) with 4096.
    replace (pa / 4096 * 4096) with pa
      by (unfold PGSIZE in *; Z.to_euclidean_division_equations; lia).
    apply u64_small. change (2 ^ 56) with 72057594037927936 in *. lia.
  - change 0x3FF with (Z.ones 10). rewrite Z.land_lor_distr_l, Hflag.
    rewrite Z.land_ones, Z.shiftl_mul_pow2 by lia. rewrite Z.mod_mul by lia. done.
Qed.
