(* ===== verification/Kernel.v ===== *)
(** * The kernel's data

    One record per C structure and one field per member, in the order of the
    headers; the record [kernel] holds the kernel's global variables.  A
    pointer to an element of a table ([proc], [itable.inode], [ftable.file],
    [bcache.buf]) is the element's index, with [None] for the null pointer; a
    pointer to a page is its physical address.  Spin locks and sleep locks
    are kept in maps indexed by the object that contains them, and a sleep
    channel names the object whose address is used as channel.  [set_f v r]
    is the assignment [r.f = v]. *)

From S2P Require Import Prelude Params.

(** ** Names of locks and channels *)
Inductive slid := SL_buf (i : nat) | SL_inode (i : nat).
Inductive lockid :=
| L_kmem | L_wait | L_pid | L_proc (i : nat) | L_pipe (pa : Z) | L_bcache
| L_sleep (sl : slid) | L_log | L_itable | L_ftable | L_cons | L_uart | L_pr
| L_time | L_vdisk.
Inductive chan :=
| C_none | C_proc (i : nat) | C_sleep (sl : slid) | C_log | C_pipe_nread (pa : Z)
| C_pipe_nwrite (pa : Z) | C_ticks | C_cons_r | C_uart_tx_r | C_disk_free
| C_buf (i : nat).

#[export] Instance slid_eq_dec : EqDecision slid.
Proof. solve_decision. Defined.
#[export] Instance lockid_eq_dec : EqDecision lockid.
Proof. solve_decision. Defined.
#[export] Instance chan_eq_dec : EqDecision chan.
Proof. solve_decision. Defined.

Definition lockid_code (l : lockid) : nat * Z :=
  match l with
  | L_kmem => (0%nat, 0) | L_wait => (1%nat, 0) | L_pid => (2%nat, 0)
  | L_proc i => (3%nat, Z.of_nat i) | L_pipe pa => (4%nat, pa) | L_bcache => (5%nat, 0)
  | L_sleep (SL_buf i) => (6%nat, Z.of_nat i) | L_sleep (SL_inode i) => (7%nat, Z.of_nat i)
  | L_log => (8%nat, 0) | L_itable => (9%nat, 0) | L_ftable => (10%nat, 0)
  | L_cons => (11%nat, 0) | L_uart => (12%nat, 0) | L_pr => (13%nat, 0)
  | L_time => (14%nat, 0) | L_vdisk => (15%nat, 0)
  end.
Definition lockid_decode (c : nat * Z) : lockid :=
  match fst c with
  | 0%nat => L_kmem | 1%nat => L_wait | 2%nat => L_pid
  | 3%nat => L_proc (Z.to_nat (snd c)) | 4%nat => L_pipe (snd c) | 5%nat => L_bcache
  | 6%nat => L_sleep (SL_buf (Z.to_nat (snd c)))
  | 7%nat => L_sleep (SL_inode (Z.to_nat (snd c)))
  | 8%nat => L_log | 9%nat => L_itable | 10%nat => L_ftable
  | 11%nat => L_cons | 12%nat => L_uart | 13%nat => L_pr
  | 14%nat => L_time | _ => L_vdisk
  end.
#[export] Instance lockid_countable : Countable lockid.
Proof.
  refine (inj_countable' lockid_code lockid_decode _).
  intros [| | |i| | |[i|i]| | | | | | | |]; cbn; rewrite ?Nat2Z.id; reflexivity.
Defined.

Definition slid_code (l : slid) : bool * nat :=
  match l with SL_buf i => (true, i) | SL_inode i => (false, i) end.
Definition slid_decode (c : bool * nat) : slid :=
  if fst c then SL_buf (snd c) else SL_inode (snd c).
#[export] Instance slid_countable : Countable slid.
Proof. refine (inj_countable' slid_code slid_decode _). by intros []. Defined.

(** ** Structures *)

(** [struct spinlock] (kernel/spinlock.h); the debugging name is left out. *)
#[projections(primitive)]
Record spinlock := mk_spinlock {
  locked : Z;  (* is the lock held? *)
  lk_cpu : option nat;  (* the cpu holding the lock *)
}.
Definition set_locked (v : Z) (r : spinlock) : spinlock :=
  {| locked := v; lk_cpu := lk_cpu r |}.
Definition set_lk_cpu (v : option nat) (r : spinlock) : spinlock :=
  {| locked := locked r; lk_cpu := v |}.

(** [struct sleeplock] (kernel/sleeplock.h); its spin lock [lk] is [L_sleep]. *)
#[projections(primitive)]
Record sleeplock := mk_sleeplock {
  sl_locked : Z;  (* is the lock held? *)
  sl_pid : Z;  (* process holding the lock *)
}.
Definition set_sl_locked (v : Z) (r : sleeplock) : sleeplock :=
  {| sl_locked := v; sl_pid := sl_pid r |}.
Definition set_sl_pid (v : Z) (r : sleeplock) : sleeplock :=
  {| sl_locked := sl_locked r; sl_pid := v |}.

(** [struct cpu] (kernel/proc.h); the saved registers are the monad's continuation. *)
#[projections(primitive)]
Record cpu := mk_cpu {
  c_proc : option nat;  (* the process running on this cpu, or null *)
  noff : Z;  (* depth of push_off() nesting *)
  intena : Z;  (* were interrupts enabled before push_off()? *)
}.
Definition set_c_proc (v : option nat) (r : cpu) : cpu :=
  {| c_proc := v; noff := noff r; intena := intena r |}.
Definition set_noff (v : Z) (r : cpu) : cpu :=
  {| c_proc := c_proc r; noff := v; intena := intena r |}.
Definition set_intena (v : Z) (r : cpu) : cpu :=
  {| c_proc := c_proc r; noff := noff r; intena := v |}.

(** The supervisor registers of one hart that the C code reads or writes. *)
#[projections(primitive)]
Record hart := mk_hart {
  sstatus : Z;
  sepc : Z;
  scause : Z;
  stval : Z;
  stvec : Z;
  satp : Z;
  sip : Z;
}.
Definition set_sstatus (v : Z) (r : hart) : hart :=
  {| sstatus := v; sepc := sepc r; scause := scause r; stval := stval r; stvec := stvec r; satp := satp r; sip := sip r |}.
Definition set_sepc (v : Z) (r : hart) : hart :=
  {| sstatus := sstatus r; sepc := v; scause := scause r; stval := stval r; stvec := stvec r; satp := satp r; sip := sip r |}.
Definition set_scause (v : Z) (r : hart) : hart :=
  {| sstatus := sstatus r; sepc := sepc r; scause := v; stval := stval r; stvec := stvec r; satp := satp r; sip := sip r |}.
Definition set_stval (v : Z) (r : hart) : hart :=
  {| sstatus := sstatus r; sepc := sepc r; scause := scause r; stval := v; stvec := stvec r; satp := satp r; sip := sip r |}.
Definition set_stvec (v : Z) (r : hart) : hart :=
  {| sstatus := sstatus r; sepc := sepc r; scause := scause r; stval := stval r; stvec := v; satp := satp r; sip := sip r |}.
Definition set_satp (v : Z) (r : hart) : hart :=
  {| sstatus := sstatus r; sepc := sepc r; scause := scause r; stval := stval r; stvec := stvec r; satp := v; sip := sip r |}.
Definition set_sip (v : Z) (r : hart) : hart :=
  {| sstatus := sstatus r; sepc := sepc r; scause := scause r; stval := stval r; stvec := stvec r; satp := satp r; sip := v |}.

(** [enum procstate] (kernel/proc.h). *)
Inductive procstate := UNUSED | USED | SLEEPING | RUNNABLE | RUNNING | ZOMBIE.
#[export] Instance procstate_eq_dec : EqDecision procstate.
Proof. solve_decision. Defined.

(** [struct context] (kernel/proc.h). *)
#[projections(primitive)]
Record context := mk_context {
  ctx_ra : Z;
  ctx_sp : Z;
  ctx_s : list Z;  (* s0 .. s11 *)
}.
Definition set_ctx_ra (v : Z) (r : context) : context :=
  {| ctx_ra := v; ctx_sp := ctx_sp r; ctx_s := ctx_s r |}.
Definition set_ctx_sp (v : Z) (r : context) : context :=
  {| ctx_ra := ctx_ra r; ctx_sp := v; ctx_s := ctx_s r |}.
Definition set_ctx_s (v : list Z) (r : context) : context :=
  {| ctx_ra := ctx_ra r; ctx_sp := ctx_sp r; ctx_s := v |}.

(** [struct proc] (kernel/proc.h). *)
#[projections(primitive)]
Record proc := mk_proc {
  p_state : procstate;
  p_chan : chan;  (* if not none, sleeping on chan *)
  p_killed : Z;
  p_xstate : Z;  (* exit status to be returned to parent's wait *)
  p_pid : Z;
  p_parent : option nat;
  p_kstack : Z;  (* virtual address of kernel stack *)
  p_sz : Z;  (* size of process memory (bytes) *)
  p_pagetable : Z;  (* user page table *)
  p_trapframe : Z;  (* data page for trampoline.S *)
  p_context : context;
  p_ofile : list (option nat);  (* open files *)
  p_cwd : option nat;  (* current directory *)
  p_name : list Z;
}.
Definition set_p_state (v : procstate) (r : proc) : proc :=
  {| p_state := v; p_chan := p_chan r; p_killed := p_killed r; p_xstate := p_xstate r; p_pid := p_pid r; p_parent := p_parent r; p_kstack := p_kstack r; p_sz := p_sz r; p_pagetable := p_pagetable r; p_trapframe := p_trapframe r; p_context := p_context r; p_ofile := p_ofile r; p_cwd := p_cwd r; p_name := p_name r |}.
Definition set_p_chan (v : chan) (r : proc) : proc :=
  {| p_state := p_state r; p_chan := v; p_killed := p_killed r; p_xstate := p_xstate r; p_pid := p_pid r; p_parent := p_parent r; p_kstack := p_kstack r; p_sz := p_sz r; p_pagetable := p_pagetable r; p_trapframe := p_trapframe r; p_context := p_context r; p_ofile := p_ofile r; p_cwd := p_cwd r; p_name := p_name r |}.
Definition set_p_killed (v : Z) (r : proc) : proc :=
  {| p_state := p_state r; p_chan := p_chan r; p_killed := v; p_xstate := p_xstate r; p_pid := p_pid r; p_parent := p_parent r; p_kstack := p_kstack r; p_sz := p_sz r; p_pagetable := p_pagetable r; p_trapframe := p_trapframe r; p_context := p_context r; p_ofile := p_ofile r; p_cwd := p_cwd r; p_name := p_name r |}.
Definition set_p_xstate (v : Z) (r : proc) : proc :=
  {| p_state := p_state r; p_chan := p_chan r; p_killed := p_killed r; p_xstate := v; p_pid := p_pid r; p_parent := p_parent r; p_kstack := p_kstack r; p_sz := p_sz r; p_pagetable := p_pagetable r; p_trapframe := p_trapframe r; p_context := p_context r; p_ofile := p_ofile r; p_cwd := p_cwd r; p_name := p_name r |}.
Definition set_p_pid (v : Z) (r : proc) : proc :=
  {| p_state := p_state r; p_chan := p_chan r; p_killed := p_killed r; p_xstate := p_xstate r; p_pid := v; p_parent := p_parent r; p_kstack := p_kstack r; p_sz := p_sz r; p_pagetable := p_pagetable r; p_trapframe := p_trapframe r; p_context := p_context r; p_ofile := p_ofile r; p_cwd := p_cwd r; p_name := p_name r |}.
Definition set_p_parent (v : option nat) (r : proc) : proc :=
  {| p_state := p_state r; p_chan := p_chan r; p_killed := p_killed r; p_xstate := p_xstate r; p_pid := p_pid r; p_parent := v; p_kstack := p_kstack r; p_sz := p_sz r; p_pagetable := p_pagetable r; p_trapframe := p_trapframe r; p_context := p_context r; p_ofile := p_ofile r; p_cwd := p_cwd r; p_name := p_name r |}.
Definition set_p_kstack (v : Z) (r : proc) : proc :=
  {| p_state := p_state r; p_chan := p_chan r; p_killed := p_killed r; p_xstate := p_xstate r; p_pid := p_pid r; p_parent := p_parent r; p_kstack := v; p_sz := p_sz r; p_pagetable := p_pagetable r; p_trapframe := p_trapframe r; p_context := p_context r; p_ofile := p_ofile r; p_cwd := p_cwd r; p_name := p_name r |}.
Definition set_p_sz (v : Z) (r : proc) : proc :=
  {| p_state := p_state r; p_chan := p_chan r; p_killed := p_killed r; p_xstate := p_xstate r; p_pid := p_pid r; p_parent := p_parent r; p_kstack := p_kstack r; p_sz := v; p_pagetable := p_pagetable r; p_trapframe := p_trapframe r; p_context := p_context r; p_ofile := p_ofile r; p_cwd := p_cwd r; p_name := p_name r |}.
Definition set_p_pagetable (v : Z) (r : proc) : proc :=
  {| p_state := p_state r; p_chan := p_chan r; p_killed := p_killed r; p_xstate := p_xstate r; p_pid := p_pid r; p_parent := p_parent r; p_kstack := p_kstack r; p_sz := p_sz r; p_pagetable := v; p_trapframe := p_trapframe r; p_context := p_context r; p_ofile := p_ofile r; p_cwd := p_cwd r; p_name := p_name r |}.
Definition set_p_trapframe (v : Z) (r : proc) : proc :=
  {| p_state := p_state r; p_chan := p_chan r; p_killed := p_killed r; p_xstate := p_xstate r; p_pid := p_pid r; p_parent := p_parent r; p_kstack := p_kstack r; p_sz := p_sz r; p_pagetable := p_pagetable r; p_trapframe := v; p_context := p_context r; p_ofile := p_ofile r; p_cwd := p_cwd r; p_name := p_name r |}.
Definition set_p_context (v : context) (r : proc) : proc :=
  {| p_state := p_state r; p_chan := p_chan r; p_killed := p_killed r; p_xstate := p_xstate r; p_pid := p_pid r; p_parent := p_parent r; p_kstack := p_kstack r; p_sz := p_sz r; p_pagetable := p_pagetable r; p_trapframe := p_trapframe r; p_context := v; p_ofile := p_ofile r; p_cwd := p_cwd r; p_name := p_name r |}.
Definition set_p_ofile (v : list (option nat)) (r : proc) : proc :=
  {| p_state := p_state r; p_chan := p_chan r; p_killed := p_killed r; p_xstate := p_xstate r; p_pid := p_pid r; p_parent := p_parent r; p_kstack := p_kstack r; p_sz := p_sz r; p_pagetable := p_pagetable r; p_trapframe := p_trapframe r; p_context := p_context r; p_ofile := v; p_cwd := p_cwd r; p_name := p_name r |}.
Definition set_p_cwd (v : option nat) (r : proc) : proc :=
  {| p_state := p_state r; p_chan := p_chan r; p_killed := p_killed r; p_xstate := p_xstate r; p_pid := p_pid r; p_parent := p_parent r; p_kstack := p_kstack r; p_sz := p_sz r; p_pagetable := p_pagetable r; p_trapframe := p_trapframe r; p_context := p_context r; p_ofile := p_ofile r; p_cwd := v; p_name := p_name r |}.
Definition set_p_name (v : list Z) (r : proc) : proc :=
  {| p_state := p_state r; p_chan := p_chan r; p_killed := p_killed r; p_xstate := p_xstate r; p_pid := p_pid r; p_parent := p_parent r; p_kstack := p_kstack r; p_sz := p_sz r; p_pagetable := p_pagetable r; p_trapframe := p_trapframe r; p_context := p_context r; p_ofile := p_ofile r; p_cwd := p_cwd r; p_name := v |}.

(** [struct buf] (kernel/buf.h); its sleep lock is [SL_buf]. *)
#[projections(primitive)]
Record buf := mk_buf {
  b_valid : Z;  (* has data been read from disk? *)
  b_disk : Z;  (* does disk own buf? *)
  b_dev : Z;
  b_blockno : Z;
  b_refcnt : Z;
  b_prev : nat;  (* LRU cache list *)
  b_next : nat;
  b_data : list Z;
}.
Definition set_b_valid (v : Z) (r : buf) : buf :=
  {| b_valid := v; b_disk := b_disk r; b_dev := b_dev r; b_blockno := b_blockno r; b_refcnt := b_refcnt r; b_prev := b_prev r; b_next := b_next r; b_data := b_data r |}.
Definition set_b_disk (v : Z) (r : buf) : buf :=
  {| b_valid := b_valid r; b_disk := v; b_dev := b_dev r; b_blockno := b_blockno r; b_refcnt := b_refcnt r; b_prev := b_prev r; b_next := b_next r; b_data := b_data r |}.
Definition set_b_dev (v : Z) (r : buf) : buf :=
  {| b_valid := b_valid r; b_disk := b_disk r; b_dev := v; b_blockno := b_blockno r; b_refcnt := b_refcnt r; b_prev := b_prev r; b_next := b_next r; b_data := b_data r |}.
Definition set_b_blockno (v : Z) (r : buf) : buf :=
  {| b_valid := b_valid r; b_disk := b_disk r; b_dev := b_dev r; b_blockno := v; b_refcnt := b_refcnt r; b_prev := b_prev r; b_next := b_next r; b_data := b_data r |}.
Definition set_b_refcnt (v : Z) (r : buf) : buf :=
  {| b_valid := b_valid r; b_disk := b_disk r; b_dev := b_dev r; b_blockno := b_blockno r; b_refcnt := v; b_prev := b_prev r; b_next := b_next r; b_data := b_data r |}.
Definition set_b_prev (v : nat) (r : buf) : buf :=
  {| b_valid := b_valid r; b_disk := b_disk r; b_dev := b_dev r; b_blockno := b_blockno r; b_refcnt := b_refcnt r; b_prev := v; b_next := b_next r; b_data := b_data r |}.
Definition set_b_next (v : nat) (r : buf) : buf :=
  {| b_valid := b_valid r; b_disk := b_disk r; b_dev := b_dev r; b_blockno := b_blockno r; b_refcnt := b_refcnt r; b_prev := b_prev r; b_next := v; b_data := b_data r |}.
Definition set_b_data (v : list Z) (r : buf) : buf :=
  {| b_valid := b_valid r; b_disk := b_disk r; b_dev := b_dev r; b_blockno := b_blockno r; b_refcnt := b_refcnt r; b_prev := b_prev r; b_next := b_next r; b_data := v |}.

(** [struct superblock] (kernel/fs.h). *)
#[projections(primitive)]
Record superblock := mk_superblock {
  sb_magic : Z;
  sb_size : Z;
  sb_nblocks : Z;
  sb_ninodes : Z;
  sb_nlog : Z;
  sb_logstart : Z;
  sb_inodestart : Z;
  sb_bmapstart : Z;
}.
Definition set_sb_magic (v : Z) (r : superblock) : superblock :=
  {| sb_magic := v; sb_size := sb_size r; sb_nblocks := sb_nblocks r; sb_ninodes := sb_ninodes r; sb_nlog := sb_nlog r; sb_logstart := sb_logstart r; sb_inodestart := sb_inodestart r; sb_bmapstart := sb_bmapstart r |}.
Definition set_sb_size (v : Z) (r : superblock) : superblock :=
  {| sb_magic := sb_magic r; sb_size := v; sb_nblocks := sb_nblocks r; sb_ninodes := sb_ninodes r; sb_nlog := sb_nlog r; sb_logstart := sb_logstart r; sb_inodestart := sb_inodestart r; sb_bmapstart := sb_bmapstart r |}.
Definition set_sb_nblocks (v : Z) (r : superblock) : superblock :=
  {| sb_magic := sb_magic r; sb_size := sb_size r; sb_nblocks := v; sb_ninodes := sb_ninodes r; sb_nlog := sb_nlog r; sb_logstart := sb_logstart r; sb_inodestart := sb_inodestart r; sb_bmapstart := sb_bmapstart r |}.
Definition set_sb_ninodes (v : Z) (r : superblock) : superblock :=
  {| sb_magic := sb_magic r; sb_size := sb_size r; sb_nblocks := sb_nblocks r; sb_ninodes := v; sb_nlog := sb_nlog r; sb_logstart := sb_logstart r; sb_inodestart := sb_inodestart r; sb_bmapstart := sb_bmapstart r |}.
Definition set_sb_nlog (v : Z) (r : superblock) : superblock :=
  {| sb_magic := sb_magic r; sb_size := sb_size r; sb_nblocks := sb_nblocks r; sb_ninodes := sb_ninodes r; sb_nlog := v; sb_logstart := sb_logstart r; sb_inodestart := sb_inodestart r; sb_bmapstart := sb_bmapstart r |}.
Definition set_sb_logstart (v : Z) (r : superblock) : superblock :=
  {| sb_magic := sb_magic r; sb_size := sb_size r; sb_nblocks := sb_nblocks r; sb_ninodes := sb_ninodes r; sb_nlog := sb_nlog r; sb_logstart := v; sb_inodestart := sb_inodestart r; sb_bmapstart := sb_bmapstart r |}.
Definition set_sb_inodestart (v : Z) (r : superblock) : superblock :=
  {| sb_magic := sb_magic r; sb_size := sb_size r; sb_nblocks := sb_nblocks r; sb_ninodes := sb_ninodes r; sb_nlog := sb_nlog r; sb_logstart := sb_logstart r; sb_inodestart := v; sb_bmapstart := sb_bmapstart r |}.
Definition set_sb_bmapstart (v : Z) (r : superblock) : superblock :=
  {| sb_magic := sb_magic r; sb_size := sb_size r; sb_nblocks := sb_nblocks r; sb_ninodes := sb_ninodes r; sb_nlog := sb_nlog r; sb_logstart := sb_logstart r; sb_inodestart := sb_inodestart r; sb_bmapstart := v |}.

(** [struct inode] (kernel/file.h); its sleep lock is [SL_inode]. *)
#[projections(primitive)]
Record inode := mk_inode {
  i_dev : Z;
  i_inum : Z;
  i_ref : Z;  (* reference count *)
  i_valid : Z;  (* inode has been read from disk? *)
  i_type : Z;
  i_major : Z;
  i_minor : Z;
  i_nlink : Z;
  i_size : Z;
  i_addrs : list Z;  (* NDIRECT + 1 block numbers *)
}.
Definition set_i_dev (v : Z) (r : inode) : inode :=
  {| i_dev := v; i_inum := i_inum r; i_ref := i_ref r; i_valid := i_valid r; i_type := i_type r; i_major := i_major r; i_minor := i_minor r; i_nlink := i_nlink r; i_size := i_size r; i_addrs := i_addrs r |}.
Definition set_i_inum (v : Z) (r : inode) : inode :=
  {| i_dev := i_dev r; i_inum := v; i_ref := i_ref r; i_valid := i_valid r; i_type := i_type r; i_major := i_major r; i_minor := i_minor r; i_nlink := i_nlink r; i_size := i_size r; i_addrs := i_addrs r |}.
Definition set_i_ref (v : Z) (r : inode) : inode :=
  {| i_dev := i_dev r; i_inum := i_inum r; i_ref := v; i_valid := i_valid r; i_type := i_type r; i_major := i_major r; i_minor := i_minor r; i_nlink := i_nlink r; i_size := i_size r; i_addrs := i_addrs r |}.
Definition set_i_valid (v : Z) (r : inode) : inode :=
  {| i_dev := i_dev r; i_inum := i_inum r; i_ref := i_ref r; i_valid := v; i_type := i_type r; i_major := i_major r; i_minor := i_minor r; i_nlink := i_nlink r; i_size := i_size r; i_addrs := i_addrs r |}.
Definition set_i_type (v : Z) (r : inode) : inode :=
  {| i_dev := i_dev r; i_inum := i_inum r; i_ref := i_ref r; i_valid := i_valid r; i_type := v; i_major := i_major r; i_minor := i_minor r; i_nlink := i_nlink r; i_size := i_size r; i_addrs := i_addrs r |}.
Definition set_i_major (v : Z) (r : inode) : inode :=
  {| i_dev := i_dev r; i_inum := i_inum r; i_ref := i_ref r; i_valid := i_valid r; i_type := i_type r; i_major := v; i_minor := i_minor r; i_nlink := i_nlink r; i_size := i_size r; i_addrs := i_addrs r |}.
Definition set_i_minor (v : Z) (r : inode) : inode :=
  {| i_dev := i_dev r; i_inum := i_inum r; i_ref := i_ref r; i_valid := i_valid r; i_type := i_type r; i_major := i_major r; i_minor := v; i_nlink := i_nlink r; i_size := i_size r; i_addrs := i_addrs r |}.
Definition set_i_nlink (v : Z) (r : inode) : inode :=
  {| i_dev := i_dev r; i_inum := i_inum r; i_ref := i_ref r; i_valid := i_valid r; i_type := i_type r; i_major := i_major r; i_minor := i_minor r; i_nlink := v; i_size := i_size r; i_addrs := i_addrs r |}.
Definition set_i_size (v : Z) (r : inode) : inode :=
  {| i_dev := i_dev r; i_inum := i_inum r; i_ref := i_ref r; i_valid := i_valid r; i_type := i_type r; i_major := i_major r; i_minor := i_minor r; i_nlink := i_nlink r; i_size := v; i_addrs := i_addrs r |}.
Definition set_i_addrs (v : list Z) (r : inode) : inode :=
  {| i_dev := i_dev r; i_inum := i_inum r; i_ref := i_ref r; i_valid := i_valid r; i_type := i_type r; i_major := i_major r; i_minor := i_minor r; i_nlink := i_nlink r; i_size := i_size r; i_addrs := v |}.

(** The type of an open file (kernel/file.h). *)
Inductive fdtype := FD_NONE | FD_PIPE | FD_INODE | FD_DEVICE.
#[export] Instance fdtype_eq_dec : EqDecision fdtype.
Proof. solve_decision. Defined.

(** [struct file] (kernel/file.h). *)
#[projections(primitive)]
Record file := mk_file {
  f_type : fdtype;
  f_ref : Z;  (* reference count *)
  f_readable : Z;
  f_writable : Z;
  f_pipe : Z;  (* FD_PIPE: address of the pipe's page *)
  f_ip : option nat;  (* FD_INODE and FD_DEVICE *)
  f_off : Z;  (* FD_INODE *)
  f_major : Z;  (* FD_DEVICE *)
}.
Definition set_f_type (v : fdtype) (r : file) : file :=
  {| f_type := v; f_ref := f_ref r; f_readable := f_readable r; f_writable := f_writable r; f_pipe := f_pipe r; f_ip := f_ip r; f_off := f_off r; f_major := f_major r |}.
Definition set_f_ref (v : Z) (r : file) : file :=
  {| f_type := f_type r; f_ref := v; f_readable := f_readable r; f_writable := f_writable r; f_pipe := f_pipe r; f_ip := f_ip r; f_off := f_off r; f_major := f_major r |}.
Definition set_f_readable (v : Z) (r : file) : file :=
  {| f_type := f_type r; f_ref := f_ref r; f_readable := v; f_writable := f_writable r; f_pipe := f_pipe r; f_ip := f_ip r; f_off := f_off r; f_major := f_major r |}.
Definition set_f_writable (v : Z) (r : file) : file :=
  {| f_type := f_type r; f_ref := f_ref r; f_readable := f_readable r; f_writable := v; f_pipe := f_pipe r; f_ip := f_ip r; f_off := f_off r; f_major := f_major r |}.
Definition set_f_pipe (v : Z) (r : file) : file :=
  {| f_type := f_type r; f_ref := f_ref r; f_readable := f_readable r; f_writable := f_writable r; f_pipe := v; f_ip := f_ip r; f_off := f_off r; f_major := f_major r |}.
Definition set_f_ip (v : option nat) (r : file) : file :=
  {| f_type := f_type r; f_ref := f_ref r; f_readable := f_readable r; f_writable := f_writable r; f_pipe := f_pipe r; f_ip := v; f_off := f_off r; f_major := f_major r |}.
Definition set_f_off (v : Z) (r : file) : file :=
  {| f_type := f_type r; f_ref := f_ref r; f_readable := f_readable r; f_writable := f_writable r; f_pipe := f_pipe r; f_ip := f_ip r; f_off := v; f_major := f_major r |}.
Definition set_f_major (v : Z) (r : file) : file :=
  {| f_type := f_type r; f_ref := f_ref r; f_readable := f_readable r; f_writable := f_writable r; f_pipe := f_pipe r; f_ip := f_ip r; f_off := f_off r; f_major := v |}.

(** [struct pipe] (kernel/pipe.c). *)
#[projections(primitive)]
Record pipe := mk_pipe {
  pi_data : list Z;
  pi_nread : Z;  (* number of bytes read *)
  pi_nwrite : Z;  (* number of bytes written *)
  pi_readopen : Z;
  pi_writeopen : Z;
}.
Definition set_pi_data (v : list Z) (r : pipe) : pipe :=
  {| pi_data := v; pi_nread := pi_nread r; pi_nwrite := pi_nwrite r; pi_readopen := pi_readopen r; pi_writeopen := pi_writeopen r |}.
Definition set_pi_nread (v : Z) (r : pipe) : pipe :=
  {| pi_data := pi_data r; pi_nread := v; pi_nwrite := pi_nwrite r; pi_readopen := pi_readopen r; pi_writeopen := pi_writeopen r |}.
Definition set_pi_nwrite (v : Z) (r : pipe) : pipe :=
  {| pi_data := pi_data r; pi_nread := pi_nread r; pi_nwrite := v; pi_readopen := pi_readopen r; pi_writeopen := pi_writeopen r |}.
Definition set_pi_readopen (v : Z) (r : pipe) : pipe :=
  {| pi_data := pi_data r; pi_nread := pi_nread r; pi_nwrite := pi_nwrite r; pi_readopen := v; pi_writeopen := pi_writeopen r |}.
Definition set_pi_writeopen (v : Z) (r : pipe) : pipe :=
  {| pi_data := pi_data r; pi_nread := pi_nread r; pi_nwrite := pi_nwrite r; pi_readopen := pi_readopen r; pi_writeopen := v |}.

(** [struct log] with its [struct logheader] (kernel/log.c). *)
#[projections(primitive)]
Record log := mk_log {
  l_start : Z;
  l_size : Z;
  l_outstanding : Z;  (* how many FS sys calls are executing *)
  l_committing : Z;  (* in commit(), please wait *)
  l_dev : Z;
  lh_n : Z;
  lh_block : list Z;
}.
Definition set_l_start (v : Z) (r : log) : log :=
  {| l_start := v; l_size := l_size r; l_outstanding := l_outstanding r; l_committing := l_committing r; l_dev := l_dev r; lh_n := lh_n r; lh_block := lh_block r |}.
Definition set_l_size (v : Z) (r : log) : log :=
  {| l_start := l_start r; l_size := v; l_outstanding := l_outstanding r; l_committing := l_committing r; l_dev := l_dev r; lh_n := lh_n r; lh_block := lh_block r |}.
Definition set_l_outstanding (v : Z) (r : log) : log :=
  {| l_start := l_start r; l_size := l_size r; l_outstanding := v; l_committing := l_committing r; l_dev := l_dev r; lh_n := lh_n r; lh_block := lh_block r |}.
Definition set_l_committing (v : Z) (r : log) : log :=
  {| l_start := l_start r; l_size := l_size r; l_outstanding := l_outstanding r; l_committing := v; l_dev := l_dev r; lh_n := lh_n r; lh_block := lh_block r |}.
Definition set_l_dev (v : Z) (r : log) : log :=
  {| l_start := l_start r; l_size := l_size r; l_outstanding := l_outstanding r; l_committing := l_committing r; l_dev := v; lh_n := lh_n r; lh_block := lh_block r |}.
Definition set_lh_n (v : Z) (r : log) : log :=
  {| l_start := l_start r; l_size := l_size r; l_outstanding := l_outstanding r; l_committing := l_committing r; l_dev := l_dev r; lh_n := v; lh_block := lh_block r |}.
Definition set_lh_block (v : list Z) (r : log) : log :=
  {| l_start := l_start r; l_size := l_size r; l_outstanding := l_outstanding r; l_committing := l_committing r; l_dev := l_dev r; lh_n := lh_n r; lh_block := v |}.

(** The console's input buffer (kernel/console.c). *)
#[projections(primitive)]
Record console := mk_console {
  cons_buf : list Z;
  cons_r : Z;  (* read index *)
  cons_w : Z;  (* write index *)
  cons_e : Z;  (* edit index *)
}.
Definition set_cons_buf (v : list Z) (r : console) : console :=
  {| cons_buf := v; cons_r := cons_r r; cons_w := cons_w r; cons_e := cons_e r |}.
Definition set_cons_r (v : Z) (r : console) : console :=
  {| cons_buf := cons_buf r; cons_r := v; cons_w := cons_w r; cons_e := cons_e r |}.
Definition set_cons_w (v : Z) (r : console) : console :=
  {| cons_buf := cons_buf r; cons_r := cons_r r; cons_w := v; cons_e := cons_e r |}.
Definition set_cons_e (v : Z) (r : console) : console :=
  {| cons_buf := cons_buf r; cons_r := cons_r r; cons_w := cons_w r; cons_e := v |}.

(** The transmit buffer of the serial line (kernel/uart.c). *)
#[projections(primitive)]
Record uart := mk_uart {
  tx_buf : list Z;
  tx_w : Z;
  tx_r : Z;
}.
Definition set_tx_buf (v : list Z) (r : uart) : uart :=
  {| tx_buf := v; tx_w := tx_w r; tx_r := tx_r r |}.
Definition set_tx_w (v : Z) (r : uart) : uart :=
  {| tx_buf := tx_buf r; tx_w := v; tx_r := tx_r r |}.
Definition set_tx_r (v : Z) (r : uart) : uart :=
  {| tx_buf := tx_buf r; tx_w := tx_w r; tx_r := v |}.

(** What a DMA descriptor points at: a request header, the data of a buffer
    or the status byte of a request. *)
Inductive daddr := D_null | D_op (i : nat) | D_data (b : nat) | D_status (i : nat).

(** [struct virtq_desc] (kernel/virtio.h). *)
#[projections(primitive)]
Record vdesc := mk_vdesc {
  d_addr : daddr;
  d_len : Z;
  d_flags : Z;
  d_next : Z;
}.
Definition set_d_addr (v : daddr) (r : vdesc) : vdesc :=
  {| d_addr := v; d_len := d_len r; d_flags := d_flags r; d_next := d_next r |}.
Definition set_d_len (v : Z) (r : vdesc) : vdesc :=
  {| d_addr := d_addr r; d_len := v; d_flags := d_flags r; d_next := d_next r |}.
Definition set_d_flags (v : Z) (r : vdesc) : vdesc :=
  {| d_addr := d_addr r; d_len := d_len r; d_flags := v; d_next := d_next r |}.
Definition set_d_next (v : Z) (r : vdesc) : vdesc :=
  {| d_addr := d_addr r; d_len := d_len r; d_flags := d_flags r; d_next := v |}.

(** [struct virtio_blk_req] (kernel/virtio.h). *)
#[projections(primitive)]
Record vreq := mk_vreq {
  r_type : Z;
  r_reserved : Z;
  r_sector : Z;
}.
Definition set_r_type (v : Z) (r : vreq) : vreq :=
  {| r_type := v; r_reserved := r_reserved r; r_sector := r_sector r |}.
Definition set_r_reserved (v : Z) (r : vreq) : vreq :=
  {| r_type := r_type r; r_reserved := v; r_sector := r_sector r |}.
Definition set_r_sector (v : Z) (r : vreq) : vreq :=
  {| r_type := r_type r; r_reserved := r_reserved r; r_sector := v |}.

(** An element of [disk.info] (kernel/virtio_disk.c). *)
#[projections(primitive)]
Record vinfo := mk_vinfo {
  vi_b : option nat;
  vi_status : Z;
}.
Definition set_vi_b (v : option nat) (r : vinfo) : vinfo :=
  {| vi_b := v; vi_status := vi_status r |}.
Definition set_vi_status (v : Z) (r : vinfo) : vinfo :=
  {| vi_b := vi_b r; vi_status := v |}.

(** [struct disk] with its rings (kernel/virtio_disk.c). *)
#[projections(primitive)]
Record vdisk := mk_vdisk {
  v_desc : list vdesc;
  av_idx : Z;  (* avail->idx *)
  av_ring : list Z;  (* avail->ring *)
  us_idx : Z;  (* used->idx, written by the device *)
  us_ring : list Z;  (* used->ring[].id, written by the device *)
  v_free : list Z;  (* is a descriptor free? *)
  v_used_idx : Z;  (* we have looked this far in the used ring *)
  v_info : list vinfo;
  v_ops : list vreq;
}.
Definition set_v_desc (v : list vdesc) (r : vdisk) : vdisk :=
  {| v_desc := v; av_idx := av_idx r; av_ring := av_ring r; us_idx := us_idx r; us_ring := us_ring r; v_free := v_free r; v_used_idx := v_used_idx r; v_info := v_info r; v_ops := v_ops r |}.
Definition set_av_idx (v : Z) (r : vdisk) : vdisk :=
  {| v_desc := v_desc r; av_idx := v; av_ring := av_ring r; us_idx := us_idx r; us_ring := us_ring r; v_free := v_free r; v_used_idx := v_used_idx r; v_info := v_info r; v_ops := v_ops r |}.
Definition set_av_ring (v : list Z) (r : vdisk) : vdisk :=
  {| v_desc := v_desc r; av_idx := av_idx r; av_ring := v; us_idx := us_idx r; us_ring := us_ring r; v_free := v_free r; v_used_idx := v_used_idx r; v_info := v_info r; v_ops := v_ops r |}.
Definition set_us_idx (v : Z) (r : vdisk) : vdisk :=
  {| v_desc := v_desc r; av_idx := av_idx r; av_ring := av_ring r; us_idx := v; us_ring := us_ring r; v_free := v_free r; v_used_idx := v_used_idx r; v_info := v_info r; v_ops := v_ops r |}.
Definition set_us_ring (v : list Z) (r : vdisk) : vdisk :=
  {| v_desc := v_desc r; av_idx := av_idx r; av_ring := av_ring r; us_idx := us_idx r; us_ring := v; v_free := v_free r; v_used_idx := v_used_idx r; v_info := v_info r; v_ops := v_ops r |}.
Definition set_v_free (v : list Z) (r : vdisk) : vdisk :=
  {| v_desc := v_desc r; av_idx := av_idx r; av_ring := av_ring r; us_idx := us_idx r; us_ring := us_ring r; v_free := v; v_used_idx := v_used_idx r; v_info := v_info r; v_ops := v_ops r |}.
Definition set_v_used_idx (v : Z) (r : vdisk) : vdisk :=
  {| v_desc := v_desc r; av_idx := av_idx r; av_ring := av_ring r; us_idx := us_idx r; us_ring := us_ring r; v_free := v_free r; v_used_idx := v; v_info := v_info r; v_ops := v_ops r |}.
Definition set_v_info (v : list vinfo) (r : vdisk) : vdisk :=
  {| v_desc := v_desc r; av_idx := av_idx r; av_ring := av_ring r; us_idx := us_idx r; us_ring := us_ring r; v_free := v_free r; v_used_idx := v_used_idx r; v_info := v; v_ops := v_ops r |}.
Definition set_v_ops (v : list vreq) (r : vdisk) : vdisk :=
  {| v_desc := v_desc r; av_idx := av_idx r; av_ring := av_ring r; us_idx := us_idx r; us_ring := us_ring r; v_free := v_free r; v_used_idx := v_used_idx r; v_info := v_info r; v_ops := v |}.

(** Harts, per-cpu data and locks. *)
#[projections(primitive)]
Record lockst := mk_lockst {
  tp : nat;  (* the hart this code runs on *)
  harts : list hart;
  cpus : list cpu;
  locks : gmap lockid spinlock;
  slocks : gmap slid sleeplock;
}.
Definition set_tp (v : nat) (r : lockst) : lockst :=
  {| tp := v; harts := harts r; cpus := cpus r; locks := locks r; slocks := slocks r |}.
Definition set_harts (v : list hart) (r : lockst) : lockst :=
  {| tp := tp r; harts := v; cpus := cpus r; locks := locks r; slocks := slocks r |}.
Definition set_cpus (v : list cpu) (r : lockst) : lockst :=
  {| tp := tp r; harts := harts r; cpus := v; locks := locks r; slocks := slocks r |}.
Definition set_locks (v : gmap lockid spinlock) (r : lockst) : lockst :=
  {| tp := tp r; harts := harts r; cpus := cpus r; locks := v; slocks := slocks r |}.
Definition set_slocks (v : gmap slid sleeplock) (r : lockst) : lockst :=
  {| tp := tp r; harts := harts r; cpus := cpus r; locks := locks r; slocks := v |}.

(** [struct devsw]: the functions that read and write a device; the only ones
    in the kernel are the console's. *)
Inductive dev_reader := F_consoleread.
Inductive dev_writer := F_consolewrite.
#[projections(primitive)]
Record devsw := mk_devsw {
  dev_read : option dev_reader;
  dev_write : option dev_writer;
}.
Definition set_dev_read (v : option dev_reader) (r : devsw) : devsw := {| dev_read := v; dev_write := dev_write r |}.
Definition set_dev_write (v : option dev_writer) (r : devsw) : devsw := {| dev_read := dev_read r; dev_write := v |}.

(** The kernel's global variables. *)
#[projections(primitive)]
Record kernel := mk_kernel {
  k_lk : lockst;
  k_procs : list proc;
  k_nextpid : Z;
  k_initproc : option nat;
  k_mem : gmap Z Z;  (* physical memory, absent bytes are 0 *)
  k_freelist : Z;  (* kmem.freelist, 0 for null *)
  k_kpgtbl : Z;  (* kernel_pagetable *)
  k_bcache : list buf;  (* bcache.buf, then bcache.head *)
  k_disk : gmap Z (list Z);  (* contents of the disk, absent blocks are 0 *)
  k_dtrace : list (Z * list Z);  (* block writes issued so far, latest first *)
  k_log : log;
  k_sb : superblock;
  k_itable : list inode;
  k_ftable : list file;
  k_pipes : gmap Z pipe;  (* pipes, by the page that holds them *)
  k_cons : console;
  k_uart : uart;
  k_out : list Z;  (* characters written to the UART's THR, in order *)
  k_in : list Z;  (* characters waiting in the UART's receiver *)
  k_mmio : list (Z * Z);  (* other device registers written, in order *)
  k_irq : Z;  (* the interrupt a PLIC claim returns, 0 for none *)
  k_locking : Z;  (* pr.locking of kernel/printf.c *)
  k_panicked : Z;  (* panicked of kernel/printf.c *)
  k_first : Z;  (* the static variable of forkret() *)
  k_started : Z;  (* started of kernel/main.c *)
  k_vdisk : vdisk;
  k_ticks : Z;
  k_devsw : list devsw;
}.
Definition set_k_lk (v : lockst) (r : kernel) : kernel :=
  {| k_lk := v; k_procs := k_procs r; k_nextpid := k_nextpid r; k_initproc := k_initproc r; k_mem := k_mem r; k_freelist := k_freelist r; k_kpgtbl := k_kpgtbl r; k_bcache := k_bcache r; k_disk := k_disk r; k_dtrace := k_dtrace r; k_log := k_log r; k_sb := k_sb r; k_itable := k_itable r; k_ftable := k_ftable r; k_pipes := k_pipes r; k_cons := k_cons r; k_uart := k_uart r; k_out := k_out r; k_in := k_in r; k_mmio := k_mmio r; k_irq := k_irq r; k_locking := k_locking r; k_panicked := k_panicked r; k_first := k_first r; k_started := k_started r; k_vdisk := k_vdisk r; k_ticks := k_ticks r; k_devsw := k_devsw r |}.
Definition set_k_procs (v : list proc) (r : kernel) : kernel :=
  {| k_lk := k_lk r; k_procs := v; k_nextpid := k_nextpid r; k_initproc := k_initproc r; k_mem := k_mem r; k_freelist := k_freelist r; k_kpgtbl := k_kpgtbl r; k_bcache := k_bcache r; k_disk := k_disk r; k_dtrace := k_dtrace r; k_log := k_log r; k_sb := k_sb r; k_itable := k_itable r; k_ftable := k_ftable r; k_pipes := k_pipes r; k_cons := k_cons r; k_uart := k_uart r; k_out := k_out r; k_in := k_in r; k_mmio := k_mmio r; k_irq := k_irq r; k_locking := k_locking r; k_panicked := k_panicked r; k_first := k_first r; k_started := k_started r; k_vdisk := k_vdisk r; k_ticks := k_ticks r; k_devsw := k_devsw r |}.
Definition set_k_nextpid (v : Z) (r : kernel) : kernel :=
  {| k_lk := k_lk r; k_procs := k_procs r; k_nextpid := v; k_initproc := k_initproc r; k_mem := k_mem r; k_freelist := k_freelist r; k_kpgtbl := k_kpgtbl r; k_bcache := k_bcache r; k_disk := k_disk r; k_dtrace := k_dtrace r; k_log := k_log r; k_sb := k_sb r; k_itable := k_itable r; k_ftable := k_ftable r; k_pipes := k_pipes r; k_cons := k_cons r; k_uart := k_uart r; k_out := k_out r; k_in := k_in r; k_mmio := k_mmio r; k_irq := k_irq r; k_locking := k_locking r; k_panicked := k_panicked r; k_first := k_first r; k_started := k_started r; k_vdisk := k_vdisk r; k_ticks := k_ticks r; k_devsw := k_devsw r |}.
Definition set_k_initproc (v : option nat) (r : kernel) : kernel :=
  {| k_lk := k_lk r; k_procs := k_procs r; k_nextpid := k_nextpid r; k_initproc := v; k_mem := k_mem r; k_freelist := k_freelist r; k_kpgtbl := k_kpgtbl r; k_bcache := k_bcache r; k_disk := k_disk r; k_dtrace := k_dtrace r; k_log := k_log r; k_sb := k_sb r; k_itable := k_itable r; k_ftable := k_ftable r; k_pipes := k_pipes r; k_cons := k_cons r; k_uart := k_uart r; k_out := k_out r; k_in := k_in r; k_mmio := k_mmio r; k_irq := k_irq r; k_locking := k_locking r; k_panicked := k_panicked r; k_first := k_first r; k_started := k_started r; k_vdisk := k_vdisk r; k_ticks := k_ticks r; k_devsw := k_devsw r |}.
Definition set_k_mem (v : gmap Z Z) (r : kernel) : kernel :=
  {| k_lk := k_lk r; k_procs := k_procs r; k_nextpid := k_nextpid r; k_initproc := k_initproc r; k_mem := v; k_freelist := k_freelist r; k_kpgtbl := k_kpgtbl r; k_bcache := k_bcache r; k_disk := k_disk r; k_dtrace := k_dtrace r; k_log := k_log r; k_sb := k_sb r; k_itable := k_itable r; k_ftable := k_ftable r; k_pipes := k_pipes r; k_cons := k_cons r; k_uart := k_uart r; k_out := k_out r; k_in := k_in r; k_mmio := k_mmio r; k_irq := k_irq r; k_locking := k_locking r; k_panicked := k_panicked r; k_first := k_first r; k_started := k_started r; k_vdisk := k_vdisk r; k_ticks := k_ticks r; k_devsw := k_devsw r |}.
Definition set_k_freelist (v : Z) (r : kernel) : kernel :=
  {| k_lk := k_lk r; k_procs := k_procs r; k_nextpid := k_nextpid r; k_initproc := k_initproc r; k_mem := k_mem r; k_freelist := v; k_kpgtbl := k_kpgtbl r; k_bcache := k_bcache r; k_disk := k_disk r; k_dtrace := k_dtrace r; k_log := k_log r; k_sb := k_sb r; k_itable := k_itable r; k_ftable := k_ftable r; k_pipes := k_pipes r; k_cons := k_cons r; k_uart := k_uart r; k_out := k_out r; k_in := k_in r; k_mmio := k_mmio r; k_irq := k_irq r; k_locking := k_locking r; k_panicked := k_panicked r; k_first := k_first r; k_started := k_started r; k_vdisk := k_vdisk r; k_ticks := k_ticks r; k_devsw := k_devsw r |}.
Definition set_k_kpgtbl (v : Z) (r : kernel) : kernel :=
  {| k_lk := k_lk r; k_procs := k_procs r; k_nextpid := k_nextpid r; k_initproc := k_initproc r; k_mem := k_mem r; k_freelist := k_freelist r; k_kpgtbl := v; k_bcache := k_bcache r; k_disk := k_disk r; k_dtrace := k_dtrace r; k_log := k_log r; k_sb := k_sb r; k_itable := k_itable r; k_ftable := k_ftable r; k_pipes := k_pipes r; k_cons := k_cons r; k_uart := k_uart r; k_out := k_out r; k_in := k_in r; k_mmio := k_mmio r; k_irq := k_irq r; k_locking := k_locking r; k_panicked := k_panicked r; k_first := k_first r; k_started := k_started r; k_vdisk := k_vdisk r; k_ticks := k_ticks r; k_devsw := k_devsw r |}.
Definition set_k_bcache (v : list buf) (r : kernel) : kernel :=
  {| k_lk := k_lk r; k_procs := k_procs r; k_nextpid := k_nextpid r; k_initproc := k_initproc r; k_mem := k_mem r; k_freelist := k_freelist r; k_kpgtbl := k_kpgtbl r; k_bcache := v; k_disk := k_disk r; k_dtrace := k_dtrace r; k_log := k_log r; k_sb := k_sb r; k_itable := k_itable r; k_ftable := k_ftable r; k_pipes := k_pipes r; k_cons := k_cons r; k_uart := k_uart r; k_out := k_out r; k_in := k_in r; k_mmio := k_mmio r; k_irq := k_irq r; k_locking := k_locking r; k_panicked := k_panicked r; k_first := k_first r; k_started := k_started r; k_vdisk := k_vdisk r; k_ticks := k_ticks r; k_devsw := k_devsw r |}.
Definition set_k_disk (v : gmap Z (list Z)) (r : kernel) : kernel :=
  {| k_lk := k_lk r; k_procs := k_procs r; k_nextpid := k_nextpid r; k_initproc := k_initproc r; k_mem := k_mem r; k_freelist := k_freelist r; k_kpgtbl := k_kpgtbl r; k_bcache := k_bcache r; k_disk := v; k_dtrace := k_dtrace r; k_log := k_log r; k_sb := k_sb r; k_itable := k_itable r; k_ftable := k_ftable r; k_pipes := k_pipes r; k_cons := k_cons r; k_uart := k_uart r; k_out := k_out r; k_in := k_in r; k_mmio := k_mmio r; k_irq := k_irq r; k_locking := k_locking r; k_panicked := k_panicked r; k_first := k_first r; k_started := k_started r; k_vdisk := k_vdisk r; k_ticks := k_ticks r; k_devsw := k_devsw r |}.
Definition set_k_dtrace (v : list (Z * list Z)) (r : kernel) : kernel :=
  {| k_lk := k_lk r; k_procs := k_procs r; k_nextpid := k_nextpid r; k_initproc := k_initproc r; k_mem := k_mem r; k_freelist := k_freelist r; k_kpgtbl := k_kpgtbl r; k_bcache := k_bcache r; k_disk := k_disk r; k_dtrace := v; k_log := k_log r; k_sb := k_sb r; k_itable := k_itable r; k_ftable := k_ftable r; k_pipes := k_pipes r; k_cons := k_cons r; k_uart := k_uart r; k_out := k_out r; k_in := k_in r; k_mmio := k_mmio r; k_irq := k_irq r; k_locking := k_locking r; k_panicked := k_panicked r; k_first := k_first r; k_started := k_started r; k_vdisk := k_vdisk r; k_ticks := k_ticks r; k_devsw := k_devsw r |}.
Definition set_k_log (v : log) (r : kernel) : kernel :=
  {| k_lk := k_lk r; k_procs := k_procs r; k_nextpid := k_nextpid r; k_initproc := k_initproc r; k_mem := k_mem r; k_freelist := k_freelist r; k_kpgtbl := k_kpgtbl r; k_bcache := k_bcache r; k_disk := k_disk r; k_dtrace := k_dtrace r; k_log := v; k_sb := k_sb r; k_itable := k_itable r; k_ftable := k_ftable r; k_pipes := k_pipes r; k_cons := k_cons r; k_uart := k_uart r; k_out := k_out r; k_in := k_in r; k_mmio := k_mmio r; k_irq := k_irq r; k_locking := k_locking r; k_panicked := k_panicked r; k_first := k_first r; k_started := k_started r; k_vdisk := k_vdisk r; k_ticks := k_ticks r; k_devsw := k_devsw r |}.
Definition set_k_sb (v : superblock) (r : kernel) : kernel :=
  {| k_lk := k_lk r; k_procs := k_procs r; k_nextpid := k_nextpid r; k_initproc := k_initproc r; k_mem := k_mem r; k_freelist := k_freelist r; k_kpgtbl := k_kpgtbl r; k_bcache := k_bcache r; k_disk := k_disk r; k_dtrace := k_dtrace r; k_log := k_log r; k_sb := v; k_itable := k_itable r; k_ftable := k_ftable r; k_pipes := k_pipes r; k_cons := k_cons r; k_uart := k_uart r; k_out := k_out r; k_in := k_in r; k_mmio := k_mmio r; k_irq := k_irq r; k_locking := k_locking r; k_panicked := k_panicked r; k_first := k_first r; k_started := k_started r; k_vdisk := k_vdisk r; k_ticks := k_ticks r; k_devsw := k_devsw r |}.
Definition set_k_itable (v : list inode) (r : kernel) : kernel :=
  {| k_lk := k_lk r; k_procs := k_procs r; k_nextpid := k_nextpid r; k_initproc := k_initproc r; k_mem := k_mem r; k_freelist := k_freelist r; k_kpgtbl := k_kpgtbl r; k_bcache := k_bcache r; k_disk := k_disk r; k_dtrace := k_dtrace r; k_log := k_log r; k_sb := k_sb r; k_itable := v; k_ftable := k_ftable r; k_pipes := k_pipes r; k_cons := k_cons r; k_uart := k_uart r; k_out := k_out r; k_in := k_in r; k_mmio := k_mmio r; k_irq := k_irq r; k_locking := k_locking r; k_panicked := k_panicked r; k_first := k_first r; k_started := k_started r; k_vdisk := k_vdisk r; k_ticks := k_ticks r; k_devsw := k_devsw r |}.
Definition set_k_ftable (v : list file) (r : kernel) : kernel :=
  {| k_lk := k_lk r; k_procs := k_procs r; k_nextpid := k_nextpid r; k_initproc := k_initproc r; k_mem := k_mem r; k_freelist := k_freelist r; k_kpgtbl := k_kpgtbl r; k_bcache := k_bcache r; k_disk := k_disk r; k_dtrace := k_dtrace r; k_log := k_log r; k_sb := k_sb r; k_itable := k_itable r; k_ftable := v; k_pipes := k_pipes r; k_cons := k_cons r; k_uart := k_uart r; k_out := k_out r; k_in := k_in r; k_mmio := k_mmio r; k_irq := k_irq r; k_locking := k_locking r; k_panicked := k_panicked r; k_first := k_first r; k_started := k_started r; k_vdisk := k_vdisk r; k_ticks := k_ticks r; k_devsw := k_devsw r |}.
Definition set_k_pipes (v : gmap Z pipe) (r : kernel) : kernel :=
  {| k_lk := k_lk r; k_procs := k_procs r; k_nextpid := k_nextpid r; k_initproc := k_initproc r; k_mem := k_mem r; k_freelist := k_freelist r; k_kpgtbl := k_kpgtbl r; k_bcache := k_bcache r; k_disk := k_disk r; k_dtrace := k_dtrace r; k_log := k_log r; k_sb := k_sb r; k_itable := k_itable r; k_ftable := k_ftable r; k_pipes := v; k_cons := k_cons r; k_uart := k_uart r; k_out := k_out r; k_in := k_in r; k_mmio := k_mmio r; k_irq := k_irq r; k_locking := k_locking r; k_panicked := k_panicked r; k_first := k_first r; k_started := k_started r; k_vdisk := k_vdisk r; k_ticks := k_ticks r; k_devsw := k_devsw r |}.
Definition set_k_cons (v : console) (r : kernel) : kernel :=
  {| k_lk := k_lk r; k_procs := k_procs r; k_nextpid := k_nextpid r; k_initproc := k_initproc r; k_mem := k_mem r; k_freelist := k_freelist r; k_kpgtbl := k_kpgtbl r; k_bcache := k_bcache r; k_disk := k_disk r; k_dtrace := k_dtrace r; k_log := k_log r; k_sb := k_sb r; k_itable := k_itable r; k_ftable := k_ftable r; k_pipes := k_pipes r; k_cons := v; k_uart := k_uart r; k_out := k_out r; k_in := k_in r; k_mmio := k_mmio r; k_irq := k_irq r; k_locking := k_locking r; k_panicked := k_panicked r; k_first := k_first r; k_started := k_started r; k_vdisk := k_vdisk r; k_ticks := k_ticks r; k_devsw := k_devsw r |}.
Definition set_k_uart (v : uart) (r : kernel) : kernel :=
  {| k_lk := k_lk r; k_procs := k_procs r; k_nextpid := k_nextpid r; k_initproc := k_initproc r; k_mem := k_mem r; k_freelist := k_freelist r; k_kpgtbl := k_kpgtbl r; k_bcache := k_bcache r; k_disk := k_disk r; k_dtrace := k_dtrace r; k_log := k_log r; k_sb := k_sb r; k_itable := k_itable r; k_ftable := k_ftable r; k_pipes := k_pipes r; k_cons := k_cons r; k_uart := v; k_out := k_out r; k_in := k_in r; k_mmio := k_mmio r; k_irq := k_irq r; k_locking := k_locking r; k_panicked := k_panicked r; k_first := k_first r; k_started := k_started r; k_vdisk := k_vdisk r; k_ticks := k_ticks r; k_devsw := k_devsw r |}.
Definition set_k_out (v : list Z) (r : kernel) : kernel :=
  {| k_lk := k_lk r; k_procs := k_procs r; k_nextpid := k_nextpid r; k_initproc := k_initproc r; k_mem := k_mem r; k_freelist := k_freelist r; k_kpgtbl := k_kpgtbl r; k_bcache := k_bcache r; k_disk := k_disk r; k_dtrace := k_dtrace r; k_log := k_log r; k_sb := k_sb r; k_itable := k_itable r; k_ftable := k_ftable r; k_pipes := k_pipes r; k_cons := k_cons r; k_uart := k_uart r; k_out := v; k_in := k_in r; k_mmio := k_mmio r; k_irq := k_irq r; k_locking := k_locking r; k_panicked := k_panicked r; k_first := k_first r; k_started := k_started r; k_vdisk := k_vdisk r; k_ticks := k_ticks r; k_devsw := k_devsw r |}.
Definition set_k_in (v : list Z) (r : kernel) : kernel :=
  {| k_lk := k_lk r; k_procs := k_procs r; k_nextpid := k_nextpid r; k_initproc := k_initproc r; k_mem := k_mem r; k_freelist := k_freelist r; k_kpgtbl := k_kpgtbl r; k_bcache := k_bcache r; k_disk := k_disk r; k_dtrace := k_dtrace r; k_log := k_log r; k_sb := k_sb r; k_itable := k_itable r; k_ftable := k_ftable r; k_pipes := k_pipes r; k_cons := k_cons r; k_uart := k_uart r; k_out := k_out r; k_in := v; k_mmio := k_mmio r; k_irq := k_irq r; k_locking := k_locking r; k_panicked := k_panicked r; k_first := k_first r; k_started := k_started r; k_vdisk := k_vdisk r; k_ticks := k_ticks r; k_devsw := k_devsw r |}.
Definition set_k_mmio (v : list (Z * Z)) (r : kernel) : kernel :=
  {| k_lk := k_lk r; k_procs := k_procs r; k_nextpid := k_nextpid r; k_initproc := k_initproc r; k_mem := k_mem r; k_freelist := k_freelist r; k_kpgtbl := k_kpgtbl r; k_bcache := k_bcache r; k_disk := k_disk r; k_dtrace := k_dtrace r; k_log := k_log r; k_sb := k_sb r; k_itable := k_itable r; k_ftable := k_ftable r; k_pipes := k_pipes r; k_cons := k_cons r; k_uart := k_uart r; k_out := k_out r; k_in := k_in r; k_mmio := v; k_irq := k_irq r; k_locking := k_locking r; k_panicked := k_panicked r; k_first := k_first r; k_started := k_started r; k_vdisk := k_vdisk r; k_ticks := k_ticks r; k_devsw := k_devsw r |}.
Definition set_k_irq (v : Z) (r : kernel) : kernel :=
  {| k_lk := k_lk r; k_procs := k_procs r; k_nextpid := k_nextpid r; k_initproc := k_initproc r; k_mem := k_mem r; k_freelist := k_freelist r; k_kpgtbl := k_kpgtbl r; k_bcache := k_bcache r; k_disk := k_disk r; k_dtrace := k_dtrace r; k_log := k_log r; k_sb := k_sb r; k_itable := k_itable r; k_ftable := k_ftable r; k_pipes := k_pipes r; k_cons := k_cons r; k_uart := k_uart r; k_out := k_out r; k_in := k_in r; k_mmio := k_mmio r; k_irq := v; k_locking := k_locking r; k_panicked := k_panicked r; k_first := k_first r; k_started := k_started r; k_vdisk := k_vdisk r; k_ticks := k_ticks r; k_devsw := k_devsw r |}.
Definition set_k_locking (v : Z) (r : kernel) : kernel :=
  {| k_lk := k_lk r; k_procs := k_procs r; k_nextpid := k_nextpid r; k_initproc := k_initproc r; k_mem := k_mem r; k_freelist := k_freelist r; k_kpgtbl := k_kpgtbl r; k_bcache := k_bcache r; k_disk := k_disk r; k_dtrace := k_dtrace r; k_log := k_log r; k_sb := k_sb r; k_itable := k_itable r; k_ftable := k_ftable r; k_pipes := k_pipes r; k_cons := k_cons r; k_uart := k_uart r; k_out := k_out r; k_in := k_in r; k_mmio := k_mmio r; k_irq := k_irq r; k_locking := v; k_panicked := k_panicked r; k_first := k_first r; k_started := k_started r; k_vdisk := k_vdisk r; k_ticks := k_ticks r; k_devsw := k_devsw r |}.
Definition set_k_panicked (v : Z) (r : kernel) : kernel :=
  {| k_lk := k_lk r; k_procs := k_procs r; k_nextpid := k_nextpid r; k_initproc := k_initproc r; k_mem := k_mem r; k_freelist := k_freelist r; k_kpgtbl := k_kpgtbl r; k_bcache := k_bcache r; k_disk := k_disk r; k_dtrace := k_dtrace r; k_log := k_log r; k_sb := k_sb r; k_itable := k_itable r; k_ftable := k_ftable r; k_pipes := k_pipes r; k_cons := k_cons r; k_uart := k_uart r; k_out := k_out r; k_in := k_in r; k_mmio := k_mmio r; k_irq := k_irq r; k_locking := k_locking r; k_panicked := v; k_first := k_first r; k_started := k_started r; k_vdisk := k_vdisk r; k_ticks := k_ticks r; k_devsw := k_devsw r |}.
Definition set_k_first (v : Z) (r : kernel) : kernel :=
  {| k_lk := k_lk r; k_procs := k_procs r; k_nextpid := k_nextpid r; k_initproc := k_initproc r; k_mem := k_mem r; k_freelist := k_freelist r; k_kpgtbl := k_kpgtbl r; k_bcache := k_bcache r; k_disk := k_disk r; k_dtrace := k_dtrace r; k_log := k_log r; k_sb := k_sb r; k_itable := k_itable r; k_ftable := k_ftable r; k_pipes := k_pipes r; k_cons := k_cons r; k_uart := k_uart r; k_out := k_out r; k_in := k_in r; k_mmio := k_mmio r; k_irq := k_irq r; k_locking := k_locking r; k_panicked := k_panicked r; k_first := v; k_started := k_started r; k_vdisk := k_vdisk r; k_ticks := k_ticks r; k_devsw := k_devsw r |}.
Definition set_k_started (v : Z) (r : kernel) : kernel :=
  {| k_lk := k_lk r; k_procs := k_procs r; k_nextpid := k_nextpid r; k_initproc := k_initproc r; k_mem := k_mem r; k_freelist := k_freelist r; k_kpgtbl := k_kpgtbl r; k_bcache := k_bcache r; k_disk := k_disk r; k_dtrace := k_dtrace r; k_log := k_log r; k_sb := k_sb r; k_itable := k_itable r; k_ftable := k_ftable r; k_pipes := k_pipes r; k_cons := k_cons r; k_uart := k_uart r; k_out := k_out r; k_in := k_in r; k_mmio := k_mmio r; k_irq := k_irq r; k_locking := k_locking r; k_panicked := k_panicked r; k_first := k_first r; k_started := v; k_vdisk := k_vdisk r; k_ticks := k_ticks r; k_devsw := k_devsw r |}.
Definition set_k_vdisk (v : vdisk) (r : kernel) : kernel :=
  {| k_lk := k_lk r; k_procs := k_procs r; k_nextpid := k_nextpid r; k_initproc := k_initproc r; k_mem := k_mem r; k_freelist := k_freelist r; k_kpgtbl := k_kpgtbl r; k_bcache := k_bcache r; k_disk := k_disk r; k_dtrace := k_dtrace r; k_log := k_log r; k_sb := k_sb r; k_itable := k_itable r; k_ftable := k_ftable r; k_pipes := k_pipes r; k_cons := k_cons r; k_uart := k_uart r; k_out := k_out r; k_in := k_in r; k_mmio := k_mmio r; k_irq := k_irq r; k_locking := k_locking r; k_panicked := k_panicked r; k_first := k_first r; k_started := k_started r; k_vdisk := v; k_ticks := k_ticks r; k_devsw := k_devsw r |}.
Definition set_k_ticks (v : Z) (r : kernel) : kernel :=
  {| k_lk := k_lk r; k_procs := k_procs r; k_nextpid := k_nextpid r; k_initproc := k_initproc r; k_mem := k_mem r; k_freelist := k_freelist r; k_kpgtbl := k_kpgtbl r; k_bcache := k_bcache r; k_disk := k_disk r; k_dtrace := k_dtrace r; k_log := k_log r; k_sb := k_sb r; k_itable := k_itable r; k_ftable := k_ftable r; k_pipes := k_pipes r; k_cons := k_cons r; k_uart := k_uart r; k_out := k_out r; k_in := k_in r; k_mmio := k_mmio r; k_irq := k_irq r; k_locking := k_locking r; k_panicked := k_panicked r; k_first := k_first r; k_started := k_started r; k_vdisk := k_vdisk r; k_ticks := v; k_devsw := k_devsw r |}.
Definition set_k_devsw (v : list devsw) (r : kernel) : kernel :=
  {| k_lk := k_lk r; k_procs := k_procs r; k_nextpid := k_nextpid r; k_initproc := k_initproc r; k_mem := k_mem r; k_freelist := k_freelist r; k_kpgtbl := k_kpgtbl r; k_bcache := k_bcache r; k_disk := k_disk r; k_dtrace := k_dtrace r; k_log := k_log r; k_sb := k_sb r; k_itable := k_itable r; k_ftable := k_ftable r; k_pipes := k_pipes r; k_cons := k_cons r; k_uart := k_uart r; k_out := k_out r; k_in := k_in r; k_mmio := k_mmio r; k_irq := k_irq r; k_locking := k_locking r; k_panicked := k_panicked r; k_first := k_first r; k_started := k_started r; k_vdisk := k_vdisk r; k_ticks := k_ticks r; k_devsw := v |}.

#[export] Instance spinlock_inhabited : Inhabited spinlock := populate (mk_spinlock 0 None).
#[export] Instance sleeplock_inhabited : Inhabited sleeplock := populate (mk_sleeplock 0 0).
#[export] Instance cpu_inhabited : Inhabited cpu := populate (mk_cpu None 0 0).
#[export] Instance hart_inhabited : Inhabited hart := populate (mk_hart 0 0 0 0 0 0 0).
#[export] Instance buf_inhabited : Inhabited buf := populate (mk_buf 0 0 0 0 0 0 0 []).
#[export] Instance inode_inhabited : Inhabited inode := populate (mk_inode 0 0 0 0 0 0 0 0 0 []).
#[export] Instance file_inhabited : Inhabited file := populate (mk_file FD_NONE 0 0 0 0 None 0 0).
#[export] Instance pipe_inhabited : Inhabited pipe := populate (mk_pipe [] 0 0 0 0).
#[export] Instance devsw_inhabited : Inhabited devsw := populate (mk_devsw None None).
#[export] Instance vdesc_inhabited : Inhabited vdesc := populate (mk_vdesc D_null 0 0 0).
#[export] Instance vinfo_inhabited : Inhabited vinfo := populate (mk_vinfo None 0).
#[export] Instance vreq_inhabited : Inhabited vreq := populate (mk_vreq 0 0 0).
#[export] Instance proc_inhabited : Inhabited proc :=
  populate (mk_proc UNUSED C_none 0 0 0 None 0 0 0 0 (mk_context 0 0 []) [] None []).

(** ** Access to the elements of the tables *)
Definition proc_at (s : kernel) (p : nat) : proc := k_procs s !!! p.
Definition upd_proc (p : nat) (f : proc -> proc) (s : kernel) : kernel :=
  set_k_procs (alter f p (k_procs s)) s.
Definition buf_at (s : kernel) (b : nat) : buf := k_bcache s !!! b.
Definition upd_buf (b : nat) (f : buf -> buf) (s : kernel) : kernel :=
  set_k_bcache (alter f b (k_bcache s)) s.
Definition inode_at (s : kernel) (ip : nat) : inode := k_itable s !!! ip.
Definition upd_inode (ip : nat) (f : inode -> inode) (s : kernel) : kernel :=
  set_k_itable (alter f ip (k_itable s)) s.
Definition file_at (s : kernel) (f : nat) : file := k_ftable s !!! f.
Definition upd_file (i : nat) (f : file -> file) (s : kernel) : kernel :=
  set_k_ftable (alter f i (k_ftable s)) s.
Definition pipe_at (s : kernel) (pi : Z) : pipe := k_pipes s !!! pi.
Definition upd_pipe (pi : Z) (f : pipe -> pipe) (s : kernel) : kernel :=
  set_k_pipes (alter f pi (k_pipes s)) s.
Definition upd_log (f : log -> log) (s : kernel) : kernel := set_k_log (f (k_log s)) s.
Definition upd_lk (f : lockst -> lockst) (s : kernel) : kernel := set_k_lk (f (k_lk s)) s.

(** Kernel computations. *)
Abbreviation K := (M kernel).

(** ** The state before [main]: everything in .bss is zero *)
Definition cpu0 : cpu := mk_cpu None 0 0.
Definition hart0 : hart := mk_hart 0 0 0 0 0 0 0.
Definition proc0 : proc :=
  mk_proc UNUSED C_none 0 0 0 None 0 0 0 0 (mk_context 0 0 (replicate 12 0))
    (replicate (Z.to_nat NOFILE) None) None (replicate 16 0).
Definition buf0 : buf := mk_buf 0 0 0 0 0 0 0 (replicate (Z.to_nat BSIZE) 0).
Definition inode0 : inode := mk_inode 0 0 0 0 0 0 0 0 0 (replicate (Z.to_nat (NDIRECT + 1)) 0).
Definition file0 : file := mk_file FD_NONE 0 0 0 0 None 0 0.
Definition log0 : log := mk_log 0 0 0 0 0 0 (replicate (Z.to_nat LOGSIZE) 0).
Definition bss : kernel := {|
  k_lk := mk_lockst 0 (replicate (Z.to_nat NCPU) hart0) (replicate (Z.to_nat NCPU) cpu0) ∅ ∅;
  k_procs := replicate (Z.to_nat NPROC) proc0; k_nextpid := 1; k_initproc := None;
  k_mem := ∅; k_freelist := 0; k_kpgtbl := 0;
  k_bcache := replicate (Z.to_nat (NBUF + 1)) buf0; k_disk := ∅; k_dtrace := [];
  k_log := log0; k_sb := mk_superblock 0 0 0 0 0 0 0 0;
  k_itable := replicate (Z.to_nat NINODE) inode0;
  k_ftable := replicate (Z.to_nat NFILE) file0; k_pipes := ∅;
  k_cons := mk_console (replicate 128 0) 0 0 0;
  k_uart := mk_uart (replicate 32 0) 0 0; k_out := []; k_in := []; k_mmio := [];
  k_irq := 0; k_locking := 0; k_panicked := 0; k_first := 1; k_started := 0;
  k_vdisk := mk_vdisk (replicate 8 (mk_vdesc D_null 0 0 0)) 0 (replicate 8 0) 0 (replicate 8 0)
    (replicate 8 0) 0 (replicate 8 (mk_vinfo None 0)) (replicate 8 (mk_vreq 0 0 0));
  k_ticks := 0; k_devsw := replicate (Z.to_nat NDEV) (mk_devsw None None) |}.
