(* ===== verification/Spinlock.v ===== *)
(** * Interrupt masking and spin locks

    kernel/spinlock.c, the interrupt inlines of kernel/riscv.h and the
    current-cpu accessors of kernel/proc.c.  [acquire] and [release] run on
    one hart against the shared lock table; a lock held by another hart makes
    [acquire] busy-wait ([Spin]).  The interleaving of several harts inside
    [acquire] and [release] is the step relation of [Module Harts]. *)

From stdpp Require Import functions.
From S2P Require Import Prelude Params Kernel.

(** ** The current hart and cpu *)
Definition cpuid : K nat := gets (fun s => tp (k_lk s)).

Definition cpu_of (l : lockst) : cpu := cpus l !!! tp l.
Definition hart_of (l : lockst) : hart := harts l !!! tp l.
Definition upd_cpu (f : cpu -> cpu) (l : lockst) : lockst :=
  set_cpus (alter f (tp l) (cpus l)) l.
Definition upd_hart (f : hart -> hart) (l : lockst) : lockst :=
  set_harts (alter f (tp l) (harts l)) l.

(** [mycpu()]: the cpu structure of this hart, read. *)
Definition mycpu : K cpu := gets (fun s => cpu_of (k_lk s)).

Definition r_sstatus : K Z := gets (fun s => sstatus (hart_of (k_lk s))).
Definition w_sstatus (x : Z) : K unit := modify (upd_lk (upd_hart (set_sstatus x))).

Definition intr_on : K unit :=
  let* x := r_sstatus in w_sstatus (Z.lor x SSTATUS_SIE).
Definition intr_off : K unit :=
  let* x := r_sstatus in w_sstatus (Z.land x (Z.lnot SSTATUS_SIE)).
Definition intr_get : K Z :=
  let* x := r_sstatus in ret (cbool (negb (Z.land x SSTATUS_SIE =? 0))).

(** [push_off()] and [pop_off()]. *)
Definition push_off : K unit :=
  let* old := intr_get in
  intr_off ;;
  let* c := mycpu in
  when (noff c =? 0) (modify (upd_lk (upd_cpu (set_intena old)))) ;;
  modify (upd_lk (upd_cpu (fun c => set_noff (noff c + 1) c))).

Definition pop_off : K unit :=
  let* i := intr_get in
  if ctrue i then panic "pop_off - interruptible" else
  let* c := mycpu in
  if noff c <? 1 then panic "pop_off" else
  modify (upd_lk (upd_cpu (fun c => set_noff (noff c - 1) c))) ;;
  let* c := mycpu in
  when ((noff c =? 0) && ctrue (intena c)) intr_on.

(** [myproc()]. *)
Definition myproc : K (option nat) :=
  push_off ;;
  let* c := mycpu in
  let p := c_proc c in
  pop_off ;;
  ret p.

(** ** Locks *)
Definition lock_at (l : lockst) (lk : lockid) : spinlock := locks l !!! lk.
Definition upd_lock (lk : lockid) (v : spinlock) (l : lockst) : lockst :=
  set_locks (<[lk := v]> (locks l)) l.

Definition initlock (lk : lockid) : K unit :=
  modify (upd_lk (upd_lock lk (mk_spinlock 0 None))).

Definition holding (lk : lockid) : K bool :=
  let* l := gets (fun s => lock_at (k_lk s) lk) in
  let* id := cpuid in
  ret (ctrue (locked l) && bool_decide (lk_cpu l = Some id)).

Definition acquire (lk : lockid) : K unit :=
  push_off ;;
  let* h := holding lk in
  if h : bool then panic "acquire" else
  let* l := gets (fun s => lock_at (k_lk s) lk) in
  (* __sync_lock_test_and_set(&lk->locked, 1) *)
  if ctrue (locked l) then spin else
  modify (upd_lk (fun t => upd_lock lk (set_locked 1 (lock_at t lk)) t)) ;;
  let* id := cpuid in
  modify (upd_lk (fun t => upd_lock lk (set_lk_cpu (Some id) (lock_at t lk)) t)).

Definition release (lk : lockid) : K unit :=
  let* h := holding lk in
  if negb h then panic "release" else
  modify (upd_lk (fun t => upd_lock lk (set_lk_cpu None (lock_at t lk)) t)) ;;
  (* __sync_lock_release(&lk->locked) *)
  modify (upd_lk (fun t => upd_lock lk (set_locked 0 (lock_at t lk)) t)) ;;
  pop_off.

(** ** The effect on the lock state, as functions

    [acq lk] is what [acquire(lk)] does to the harts, cpus and locks, and
    [rel lk] what [release(lk)] does. *)
Definition sie (x : Z) : Z := cbool (negb (Z.land x SSTATUS_SIE =? 0)).

Definition push (l : lockst) : lockst :=
  upd_cpu (fun c => set_noff (noff c + 1)
                      (if noff c =? 0 then set_intena (sie (sstatus (hart_of l))) c else c))
    (upd_hart (fun h => set_sstatus (Z.land (sstatus h) (Z.lnot SSTATUS_SIE)) h) l).

Definition pop (l : lockst) : lockst :=
  let l' := upd_cpu (fun c => set_noff (noff c - 1) c) l in
  if (noff (cpu_of l') =? 0) && ctrue (intena (cpu_of l'))
  then upd_hart (fun h => set_sstatus (Z.lor (sstatus h) SSTATUS_SIE) h) l' else l'.

Definition acq (lk : lockid) (l : lockst) : lockst :=
  upd_lock lk (mk_spinlock 1 (Some (tp l))) (push l).
Definition rel (lk : lockid) (l : lockst) : lockst :=
  pop (upd_lock lk (mk_spinlock 0 None) l).

(** A lock that is initialised and free. *)
Definition lk_free (lk : lockid) (l : lockst) : Prop :=
  locks l !! lk = Some (mk_spinlock 0 None).
Definition lk_held (lk : lockid) (l : lockst) : Prop :=
  locks l !! lk = Some (mk_spinlock 1 (Some (tp l))).

(** The cpu invariant: this hart exists, interrupts are off inside a
    critical section, and outside [intena] mirrors the hardware bit. *)
Definition cpu_ok (l : lockst) : Prop :=
  (tp l < length (harts l))%nat /\ (tp l < length (cpus l))%nat /\
  0 <= noff (cpu_of l) /\
  (noff (cpu_of l) = 0 -> intena (cpu_of l) = sie (sstatus (hart_of l))) /\
  (0 < noff (cpu_of l) -> sie (sstatus (hart_of l)) = 0) /\
  (intena (cpu_of l) = 0 \/ intena (cpu_of l) = 1).

(** ** Lemmas *)
Section LockLemmas.
Implicit Types l : lockst.

Lemma hart_of_upd_hart f l :
  (tp l < length (harts l))%nat -> hart_of (upd_hart f l) = f (hart_of l).
Proof. intros. by apply list_lookup_total_alter_eq. Qed.
Lemma cpu_of_upd_cpu f l :
  (tp l < length (cpus l))%nat -> cpu_of (upd_cpu f l) = f (cpu_of l).
Proof. intros. by apply list_lookup_total_alter_eq. Qed.
Lemma upd_cpu_ext f g l : f (cpu_of l) = g (cpu_of l) -> upd_cpu f l = upd_cpu g l.
Proof. intros. unfold upd_cpu. f_equal. by apply list_alter_ext_lookup. Qed.
Lemma upd_hart_ext f g l : f (hart_of l) = g (hart_of l) -> upd_hart f l = upd_hart g l.
Proof. intros. unfold upd_hart. f_equal. by apply list_alter_ext_lookup. Qed.
Lemma upd_cpu_cpu f g l : upd_cpu f (upd_cpu g l) = upd_cpu (f ∘ g) l.
Proof. unfold upd_cpu. change (tp (set_cpus _ l)) with (tp l). by rewrite <- list_alter_alter_eq. Qed.
Lemma upd_hart_hart f g l : upd_hart f (upd_hart g l) = upd_hart (f ∘ g) l.
Proof. unfold upd_hart. change (tp (set_harts _ l)) with (tp l). by rewrite <- list_alter_alter_eq. Qed.
Lemma upd_hart_cpu f g l : upd_hart f (upd_cpu g l) = upd_cpu g (upd_hart f l).
Proof. done. Qed.
Lemma upd_cpu_id f l : f (cpu_of l) = cpu_of l -> upd_cpu f l = l.
Proof. intros. unfold upd_cpu. by rewrite list_alter_id_lookup. Qed.
Lemma upd_hart_id f l : f (hart_of l) = hart_of l -> upd_hart f l = l.
Proof. intros. unfold upd_hart. by rewrite list_alter_id_lookup. Qed.
Lemma upd_lk_lk f g s : upd_lk f (upd_lk g s) = upd_lk (f ∘ g) s.
Proof. done. Qed.
Lemma upd_lk_ext f g s : f (k_lk s) = g (k_lk s) -> upd_lk f s = upd_lk g s.
Proof. unfold upd_lk. by intros ->. Qed.
Lemma upd_lk_id f s : f (k_lk s) = k_lk s -> upd_lk f s = s.
Proof. unfold upd_lk. by intros ->. Qed.

Lemma sie_off x : sie (Z.land x (Z.lnot SSTATUS_SIE)) = 0.
Proof.
  unfold sie. rewrite <- Z.land_assoc, (Z.land_comm (Z.lnot _)).
  change (Z.land SSTATUS_SIE (Z.lnot SSTATUS_SIE)) with 0. by rewrite Z.land_0_r.
Qed.

Lemma sie_on x : sie (Z.lor x SSTATUS_SIE) = 1.
Proof.
  unfold sie. assert (Z.land (Z.lor x SSTATUS_SIE) SSTATUS_SIE = SSTATUS_SIE) as ->; [|done].
  rewrite Z.land_lor_distr_l. change (Z.land SSTATUS_SIE SSTATUS_SIE) with SSTATUS_SIE.
  apply Z.bits_inj'. intros i Hi. rewrite Z.lor_spec, Z.land_spec.
  destruct (Z.testbit x i), (Z.testbit SSTATUS_SIE i); done.
Qed.

Lemma sie_cases x : sie x = 0 \/ sie x = 1.
Proof. unfold sie. destruct (_ =? _); auto. Qed.

Lemma sie_bit x : sie x = cbool (Z.testbit x 1).
Proof.
  unfold sie, SSTATUS_SIE. f_equal. rewrite Z.land_comm.
  destruct (Z.testbit x 1) eqn:E.
  - destruct (Z.eqb_spec (Z.land (Z.shiftl 1 1) x) 0) as [H|]; [|done].
    apply (f_equal (fun v => Z.testbit v 1)) in H.
    rewrite Z.land_spec, E in H. done.
  - destruct (Z.eqb_spec (Z.land (Z.shiftl 1 1) x) 0) as [|H]; [done|].
    exfalso. apply H. apply Z.bits_inj'. intros i Hi.
    rewrite Z.land_spec, Z.bits_0. change (Z.shiftl 1 1) with (2 ^ 1).
    destruct (decide (i = 1)) as [->|]; [by rewrite E, andb_false_r|].
    by rewrite Z.pow2_bits_false by lia.
Qed.

(** Masking and unmasking restores the status word. *)
Lemma sstatus_off_on x :
  sie x = 1 -> Z.lor (Z.land x (Z.lnot SSTATUS_SIE)) SSTATUS_SIE = x.
Proof.
  rewrite sie_bit. intros Hb. apply Z.bits_inj'. intros i Hi.
  rewrite Z.lor_spec, Z.land_spec, Z.lnot_spec by done.
  change SSTATUS_SIE with (2 ^ 1).
  destruct (decide (i = 1)) as [->|].
  - rewrite Z.pow2_bits_true by lia. rewrite orb_true_r.
    destruct (Z.testbit x 1); [done|discriminate].
  - rewrite Z.pow2_bits_false by lia. by rewrite andb_true_r, orb_false_r.
Qed.

Lemma sstatus_off_id x : sie x = 0 -> Z.land x (Z.lnot SSTATUS_SIE) = x.
Proof.
  rewrite sie_bit. intros Hb. apply Z.bits_inj'. intros i Hi.
  rewrite Z.land_spec, Z.lnot_spec by done. change SSTATUS_SIE with (2 ^ 1).
  destruct (decide (i = 1)) as [->|].
  - destruct (Z.testbit x 1); [discriminate|done].
  - rewrite Z.pow2_bits_false by lia. by rewrite andb_true_r.
Qed.

Lemma intr_off_run n s :
  intr_off n s = Ret tt (upd_lk (upd_hart (fun h =>
    set_sstatus (Z.land (sstatus h) (Z.lnot SSTATUS_SIE)) h)) s).
Proof.
  unfold intr_off, r_sstatus, w_sstatus. rewrite bind_gets. unfold modify. f_equal.
  apply upd_lk_ext. by apply upd_hart_ext.
Qed.

Lemma push_off_run n s :
  cpu_ok (k_lk s) -> push_off n s = Ret tt (upd_lk push s).
Proof.
  intros (Hh & Hc & _). unfold push_off.
  rewrite (bind_ret intr_get _ n s (sie (sstatus (hart_of (k_lk s)))) s) by done.
  rewrite (bind_ret intr_off _ n s _ _ (intr_off_run n s)).
  unfold mycpu. rewrite bind_gets.
  change (cpu_of (k_lk (upd_lk _ s))) with (cpu_of (k_lk s)).
  destruct (noff (cpu_of (k_lk s)) =? 0) eqn:E; simpl when;
    [rewrite bind_modify | rewrite bind_ret_l]; unfold modify; f_equal;
    rewrite ?upd_lk_lk; apply upd_lk_ext; unfold push, compose; rewrite ?upd_cpu_cpu;
    apply upd_cpu_ext; unfold compose;
    change (cpu_of (upd_hart _ (k_lk s))) with (cpu_of (k_lk s)); rewrite E; done.
Qed.

Lemma pop_off_run n s :
  cpu_ok (k_lk s) -> 0 < noff (cpu_of (k_lk s)) -> pop_off n s = Ret tt (upd_lk pop s).
Proof.
  intros (Hh & Hc & _ & _ & Hoff & _) Hn. unfold pop_off.
  rewrite (bind_ret intr_get _ n s (sie (sstatus (hart_of (k_lk s)))) s) by done.
  rewrite Hoff by done. cbn [ctrue Z.eqb negb].
  unfold mycpu. rewrite bind_gets.
  destruct (Z.ltb_spec (noff (cpu_of (k_lk s))) 1); [lia|].
  rewrite bind_modify, bind_gets. unfold pop.
  change (k_lk (upd_lk ?f s)) with (f (k_lk s)). unfold upd_lk at 2.
  destruct (_ && _) eqn:E; simpl when; [|done].
  unfold intr_on, r_sstatus, w_sstatus. rewrite bind_gets. unfold modify. f_equal.
  rewrite upd_lk_lk. apply (upd_lk_ext _ (fun _ => _)). unfold compose. by apply upd_hart_ext.
Qed.

(** The state of the cpu after one level of masking and back. *)
Lemma cpu_of_push l :
  cpu_ok l -> noff (cpu_of (push l)) = noff (cpu_of l) + 1 /\ sie (sstatus (hart_of (push l))) = 0.
Proof.
  intros (Hh & Hc & _). unfold push. rewrite cpu_of_upd_cpu by done. split.
  - change (cpu_of (upd_hart _ l)) with (cpu_of l).
    destruct (noff (cpu_of l) =? 0); done.
  - change (hart_of (upd_cpu ?f ?l')) with (hart_of l').
    rewrite hart_of_upd_hart by done. simpl. apply sie_off.
Qed.

Lemma push_cpu_ok l : cpu_ok l -> cpu_ok (push l).
Proof.
  intros Hok. destruct (cpu_of_push l Hok) as [Hn Hs].
  destruct Hok as (Hh & Hc & H0 & _ & _ & Hie).
  repeat split; [ | | lia | lia | done | ].
  - unfold push. simpl. by rewrite length_alter.
  - unfold push. simpl. by rewrite length_alter.
  - unfold push. rewrite cpu_of_upd_cpu by done. change (cpu_of (upd_hart _ l)) with (cpu_of l).
    destruct (_ =? 0); cbn; [apply sie_cases|done].
Qed.

Lemma pop_push l : cpu_ok l -> pop (push l) = l.
Proof.
  intros (Hh & Hc & Hn & H0 & Hoff & _). unfold pop, push. rewrite upd_cpu_cpu.
  set (dec := _ ∘ _).
  assert (Hd : dec (cpu_of l) = cpu_of l).
  { unfold dec, compose. destruct (Z.eqb_spec (noff (cpu_of l)) 0) as [E|E].
    - rewrite <- H0 by done. unfold set_noff; simpl. by rewrite Z.add_simpl_r.
    - unfold set_noff; simpl. by rewrite Z.add_simpl_r. }
  rewrite upd_cpu_id by done. change (cpu_of (upd_hart _ l)) with (cpu_of l).
  destruct (_ && _) eqn:E.
  - apply andb_prop in E as [E1 E2]. rewrite H0 in E2 by lia.
    rewrite upd_hart_hart, upd_hart_id; [done|]. unfold compose.
    unfold set_sstatus; simpl. rewrite sstatus_off_on; [done|].
    destruct (sie_cases (sstatus (hart_of l))) as [Es|Es]; rewrite Es in *; done.
  - apply upd_hart_id. unfold set_sstatus. rewrite sstatus_off_id; [done|].
    destruct (decide (noff (cpu_of l) = 0)) as [Hz|]; [|apply Hoff; lia].
    rewrite H0, Hz in E by done.
    destruct (sie_cases (sstatus (hart_of l))) as [Es|Es]; rewrite Es in *; done.
Qed.

Lemma myproc_run n s :
  cpu_ok (k_lk s) -> myproc n s = Ret (c_proc (cpu_of (k_lk s))) s.
Proof.
  intros Hok. destruct (cpu_of_push _ Hok) as [Hn _]. pose proof Hok as (Hh & Hc & H0 & _).
  unfold myproc. rewrite (bind_ret _ _ _ _ _ _ (push_off_run n s Hok)).
  unfold mycpu. rewrite bind_gets. change (k_lk (upd_lk ?f s)) with (f (k_lk s)).
  rewrite (bind_ret _ _ _ _ _ _ (pop_off_run n (upd_lk push s)
             (push_cpu_ok _ Hok) ltac:(change (k_lk (upd_lk push s)) with (push (k_lk s)); lia))).
  unfold ret. rewrite upd_lk_lk, upd_lk_id by (by apply pop_push). f_equal.
  unfold push. rewrite cpu_of_upd_cpu by done.
  change (cpu_of (upd_hart _ (k_lk s))) with (cpu_of (k_lk s)).
  destruct (_ =? 0); done.
Qed.

Lemma lock_at_lookup l lk v : locks l !! lk = Some v -> lock_at l lk = v.
Proof. apply lookup_total_correct. Qed.

Lemma upd_lock_lock lk v w l : upd_lock lk v (upd_lock lk w l) = upd_lock lk v l.
Proof. unfold upd_lock, set_locks; simpl. by rewrite insert_insert_eq. Qed.
Lemma lock_at_upd_lock lk v l : lock_at (upd_lock lk v l) lk = v.
Proof. unfold lock_at, upd_lock; simpl. by rewrite lookup_total_insert_eq. Qed.

Lemma holding_run n s lk :
  holding lk n s = Ret (ctrue (locked (lock_at (k_lk s) lk)) &&
                        bool_decide (lk_cpu (lock_at (k_lk s) lk) = Some (tp (k_lk s)))) s.
Proof. done. Qed.

Lemma holding_true n s lk v :
  locks (k_lk s) !! lk = Some v ->
  ctrue (locked v) = true -> lk_cpu v = Some (tp (k_lk s)) -> holding lk n s = Ret true s.
Proof.
  intros Hl H1 H2. rewrite holding_run, (lock_at_lookup _ _ _ Hl), H1, H2.
  by rewrite bool_decide_true.
Qed.

Lemma acquire_run n s lk :
  cpu_ok (k_lk s) -> lk_free lk (k_lk s) -> acquire lk n s = Ret tt (upd_lk (acq lk) s).
Proof.
  intros Hok Hfree. unfold acquire. rewrite (bind_ret _ _ _ _ _ _ (push_off_run n s Hok)).
  assert (Hl : lock_at (k_lk (upd_lk push s)) lk = mk_spinlock 0 None)
    by by apply lock_at_lookup.
  assert (Hh : holding lk n (upd_lk push s) = Ret false (upd_lk push s))
    by (by rewrite holding_run, Hl).
  rewrite (bind_ret _ _ _ _ _ _ Hh), bind_gets, Hl. cbn [ctrue locked Z.eqb negb].
  unfold cpuid. rewrite bind_modify, bind_gets. unfold modify. f_equal.
  rewrite !upd_lk_lk. apply upd_lk_ext. unfold compose.
  rewrite lock_at_upd_lock, upd_lock_lock.
  change (lock_at (push (k_lk s)) lk) with (lock_at (k_lk (upd_lk push s)) lk). by rewrite Hl.
Qed.

Lemma acquire_held_panics n s lk :
  cpu_ok (k_lk s) -> lk_held lk (k_lk s) -> exists s', acquire lk n s = Panic "acquire" s'.
Proof.
  intros Hok Hh. unfold acquire. rewrite (bind_ret _ _ _ _ _ _ (push_off_run n s Hok)).
  assert (Hr : holding lk n (upd_lk push s) = Ret true (upd_lk push s))
    by (by eapply holding_true).
  rewrite (bind_ret _ _ _ _ _ _ Hr). by eexists.
Qed.

Lemma release_run n s lk :
  cpu_ok (k_lk s) -> lk_held lk (k_lk s) -> 0 < noff (cpu_of (k_lk s)) ->
  release lk n s = Ret tt (upd_lk (rel lk) s).
Proof.
  intros Hok Hh Hn. unfold release.
  assert (Hl : lock_at (k_lk s) lk = mk_spinlock 1 (Some (tp (k_lk s))))
    by by apply lock_at_lookup.
  assert (Hrun : holding lk n s = Ret true s).
  { by eapply holding_true. }
  rewrite (bind_ret _ _ _ _ _ _ Hrun). cbn [negb]. rewrite !bind_modify.
  set (s1 := upd_lk _ (upd_lk _ s)).
  assert (Hs1 : s1 = upd_lk (upd_lock lk (mk_spinlock 0 None)) s).
  { unfold s1. rewrite upd_lk_lk. apply upd_lk_ext. unfold compose.
    by rewrite lock_at_upd_lock, upd_lock_lock, Hl. }
  rewrite Hs1. rewrite pop_off_run; [|done|done]. by rewrite upd_lk_lk.
Qed.

Lemma release_unheld_panics n s lk v :
  locks (k_lk s) !! lk = Some v ->
  locked v = 0 \/ lk_cpu v <> Some (tp (k_lk s)) ->
  release lk n s = Panic "release" s.
Proof.
  intros Hl Hv. unfold release.
  assert (Hrun : holding lk n s = Ret false s); [|by rewrite (bind_ret _ _ _ _ _ _ Hrun)].
  rewrite holding_run, (lock_at_lookup _ _ _ Hl). f_equal.
  destruct Hv as [Hv|Hv]; [by rewrite Hv|].
  rewrite bool_decide_false by done. by rewrite andb_false_r.
Qed.

Lemma acq_cpu_ok lk l : cpu_ok l -> cpu_ok (acq lk l).
Proof. apply push_cpu_ok. Qed.
Lemma acq_noff lk l : cpu_ok l -> noff (cpu_of (acq lk l)) = noff (cpu_of l) + 1.
Proof. intros. by apply cpu_of_push. Qed.
Lemma acq_held lk l : lk_held lk (acq lk l).
Proof. unfold lk_held, acq; cbn. apply lookup_insert_eq. Qed.
Lemma acq_free_ne lk lk' l : lk <> lk' -> lk_free lk' l -> lk_free lk' (acq lk l).
Proof. unfold lk_free, acq; cbn. intros. by rewrite lookup_insert_ne. Qed.

Lemma rel_acq lk l : cpu_ok l -> lk_free lk l -> rel lk (acq lk l) = l.
Proof.
  intros Hok Hf. unfold rel, acq. rewrite upd_lock_lock.
  assert (upd_lock lk (mk_spinlock 0 None) (push l) = push l) as ->; [|by apply pop_push].
  unfold upd_lock. change (locks (push l)) with (locks l). by rewrite insert_id.
Qed.

Lemma release_after_run n s lk :
  cpu_ok (k_lk s) -> lk_free lk (k_lk s) -> release lk n (upd_lk (acq lk) s) = Ret tt s.
Proof.
  intros Hok Hf. rewrite release_run.
  - by rewrite upd_lk_lk, upd_lk_id by (by apply rel_acq).
  - by apply acq_cpu_ok.
  - apply acq_held.
  - change (k_lk (upd_lk (acq lk) s)) with (acq lk (k_lk s)).
    rewrite acq_noff by done. destruct Hok as (_ & _ & ? & _). lia.
Qed.

(** A critical section: acquire, run, release.  The body runs with the
    lock held and leaves the lock state alone, so the whole section is the
    body's own effect. *)
Lemma section_run {A} n s s' lk (body : K A) a :
  cpu_ok (k_lk s) -> lk_free lk (k_lk s) ->
  body n (upd_lk (acq lk) s) = Ret a (upd_lk (acq lk) s') -> k_lk s' = k_lk s ->
  (acquire lk ;; let* x := body in release lk ;; ret x) n s = Ret a s'.
Proof.
  intros Hok Hf Hb Hlk. rewrite (bind_ret _ _ _ _ _ _ (acquire_run n s lk Hok Hf)).
  rewrite (bind_ret _ _ _ _ _ _ Hb). rewrite (bind_ret _ _ _ _ _ _ (release_after_run n s' lk ltac:(by rewrite Hlk) ltac:(by rewrite Hlk))).
  done.
Qed.
End LockLemmas.

(** ** Several harts contending for one lock

    [acquire] and [release] as each hart executes them, one access to the lock
    per step: the two reads of [holding], the atomic swap in the [while], the
    store of [lk->cpu], the store that clears it and the store that clears
    [lk->locked], between the [push_off] and the [pop_off] of the hart.  An
    interrupt may come whenever the hart takes them; its handler runs with
    interrupts off, may acquire and release the lock, and returns to the code
    it interrupted.  A hart whose check fails panics and stops. *)
Module Harts.

(** Where the code on a hart is: outside; in [push_off] after reading
    [intr_get()] and after [intr_off()]; in [acquire] before the two reads of
    [holding], before the swap and before [lk->cpu = mycpu()]; in its critical
    section; in [release] between the two reads of [holding], before
    [lk->cpu = 0], before the unlocking store and before [pop_off]. *)
Inductive pc :=
| Outside | PushRead (old : bool) | PushOff (old : bool) | Check | CheckCpu | Spinning | Acquired
| Critical | Verify | Clear | Releasing | Pop | Panicked.

(** A hart: its code, whether it takes interrupts, the fields of its cpu, and
    the code an interrupt suspended. *)
Record hart := mk_hart { h_pc : pc; h_sie : bool; h_noff : Z; h_intena : bool; h_saved : option pc }.
Record sys := mk_sys { s_lock : spinlock; s_hart : nat -> hart }.
Definition s_pc (s : sys) (h : nat) : pc := h_pc (s_hart s h).
Definition at_pc (c : pc) (x : hart) : hart := mk_hart c (h_sie x) (h_noff x) (h_intena x) (h_saved x).

(** A move of hart [h] in state [x] with the lock [lk]: the code acquires and
    releases the lock, and while interrupts are on a handler may interrupt it,
    which may do the same. *)
Inductive move (h : nat) (lk : spinlock) (x : hart) : spinlock -> hart -> Prop :=
| push_read : h_pc x = Outside -> move h lk x lk (at_pc (PushRead (h_sie x)) x)
| push_intr_off old : h_pc x = PushRead old ->
    move h lk x lk (mk_hart (PushOff old) false (h_noff x) (h_intena x) (h_saved x))
| push_count old : h_pc x = PushOff old ->
    move h lk x lk (mk_hart Check (h_sie x) (h_noff x + 1) (if h_noff x =? 0 then old else h_intena x) (h_saved x))
| check_locked : h_pc x = Check -> move h lk x lk (at_pc (if ctrue (locked lk) then CheckCpu else Spinning) x)
| check_cpu : h_pc x = CheckCpu -> move h lk x lk (at_pc (if decide (lk_cpu lk = Some h) then Panicked else Spinning) x)
| swap_busy : h_pc x = Spinning -> ctrue (locked lk) = true -> move h lk x (set_locked 1 lk) x
| swap_free : h_pc x = Spinning -> ctrue (locked lk) = false -> move h lk x (set_locked 1 lk) (at_pc Acquired x)
| set_cpu : h_pc x = Acquired -> move h lk x (set_lk_cpu (Some h) lk) (at_pc Critical x)
| verify_locked : h_pc x = Critical -> move h lk x lk (at_pc (if ctrue (locked lk) then Verify else Panicked) x)
| verify_cpu : h_pc x = Verify -> move h lk x lk (at_pc (if decide (lk_cpu lk = Some h) then Clear else Panicked) x)
| clear_cpu : h_pc x = Clear -> move h lk x (set_lk_cpu None lk) (at_pc Releasing x)
| unlock : h_pc x = Releasing -> move h lk x (set_locked 0 lk) (at_pc Pop x)
| pop_off_done : h_pc x = Pop -> h_sie x = false -> 1 <= h_noff x ->
    move h lk x lk (mk_hart Outside ((h_noff x - 1 =? 0) && h_intena x) (h_noff x - 1) (h_intena x) (h_saved x))
| pop_off_panic : h_pc x = Pop -> h_sie x = true \/ h_noff x < 1 -> move h lk x lk (at_pc Panicked x)
| interrupt : h_sie x = true -> h_saved x = None -> h_pc x <> Panicked ->
    move h lk x lk (mk_hart Outside false (h_noff x) (h_intena x) (Some (h_pc x)))
| return_from c : h_pc x = Outside -> h_saved x = Some c ->
    move h lk x lk (mk_hart c true (h_noff x) (h_intena x) None).

Inductive step : sys -> sys -> Prop :=
| step_hart h lk f lk' x : move h lk (f h) lk' x -> step (mk_sys lk f) (mk_sys lk' (<[h := x]> f)).

(** At the start the lock is free and every hart outside, with interrupts on
    or off. *)
Definition initial (s : sys) : Prop :=
  s_lock s = mk_spinlock 0 None /\ forall h, h_pc (s_hart s h) = Outside /\ h_noff (s_hart s h) = 0 /\ h_saved (s_hart s h) = None.

Inductive reachable : sys -> Prop :=
| reach_init s : initial s -> reachable s
| reach_step s s' : reachable s -> step s s' -> reachable s'.

Lemma reach_at h x lk f lk' x' : reachable (mk_sys lk f) -> f h = x -> move h lk x lk' x' -> reachable (mk_sys lk' (<[h := x']> f)).
Proof. intros R <- Hm. by eapply reach_step, step_hart. Qed.

(** Has a hart at this point won the swap and not yet given the lock back? *)
Definition owns (c : pc) : bool :=
  match c with Acquired | Critical | Verify | Clear | Releasing => true | _ => false end.
(** Is it named by [lk->cpu]? *)
Definition named (c : pc) : bool := match c with Critical | Verify | Clear => true | _ => false end.
(** What [holding(lk)] evaluates to on hart [h]. *)
Definition holds (lk : spinlock) (h : nat) : bool :=
  ctrue (locked lk) && bool_decide (lk_cpu lk = Some h).

(** ** The invariant *)

(** The interrupt state of one hart: off from [intr_off] to [pop_off], and in
    a handler, which has interrupted code outside [acquire] and [release] or
    before its [intr_off], and does not turn them on again. *)
Definition masked (x : hart) : Prop :=
  match h_pc x with
  | Outside | PushRead _ => h_noff x = 0
  | PushOff _ => h_noff x = 0 /\ h_sie x = false
  | Panicked => False
  | _ => h_noff x = 1 /\ h_sie x = false
  end /\
  match h_saved x with
  | None => True
  | Some c =>
      h_sie x = false /\ match c with Outside | PushRead _ => True | _ => False end /\
      match h_pc x with PushRead b | PushOff b => b = false | Outside => True | _ => h_intena x = false end
  end.

(** At most one hart, [o], owns the lock; [locked] says whether there is one
    and [cpu] names it exactly while it is in its critical section. *)
Record inv_with (o : option nat) (lk : spinlock) (f : nat -> hart) : Prop := {
  v_owner : forall h, owns (h_pc (f h)) = true <-> o = Some h;
  v_locked : ctrue (locked lk) = true <-> o <> None;
  v_named : forall h, lk_cpu lk = Some h <-> named (h_pc (f h)) = true;
  v_masked : forall h, masked (f h);
}.
Definition inv (s : sys) : Prop := exists o, inv_with o (s_lock s) (s_hart s).

Lemma masked_step h lk x lk' x' : (lk_cpu lk = Some h <-> named (h_pc x) = true) -> (owns (h_pc x) = true -> ctrue (locked lk) = true) ->
  masked x -> move h lk x lk' x' -> masked x'.
Proof.
  intros Hn Ho [M1 M2] Hm. destruct x as [c e k i v]; cbn in *. destruct Hm; cbn in *; subst; unfold masked, at_pc; cbn in *;
    repeat case_match; simplify_eq; cbn in *; intuition (subst; cbn in *; try congruence; try lia).
Qed.

(** The invariant after hart [h] moved to [x]: the clauses for the others are
    as they were. *)
Lemma inv_move o o' lk lk' f h x : inv_with o lk f -> masked x ->
  (owns (h_pc x) = true <-> o' = Some h) -> (named (h_pc x) = true <-> lk_cpu lk' = Some h) ->
  (forall h', h <> h' -> o = Some h' <-> o' = Some h') -> (forall h', h <> h' -> lk_cpu lk = Some h' <-> lk_cpu lk' = Some h') ->
  (ctrue (locked lk') = true <-> o' <> None) -> inv_with o' lk' (<[h := x]> f).
Proof.
  intros [V1 V2 V3 V4] Hm Ho Hn Hoo Hcc Hl. split; [|done|..]; intros h'; (destruct (decide (h = h')) as [<-|Hne];
    [rewrite fn_lookup_insert|rewrite fn_lookup_insert_ne by done]); try done.
  - rewrite V1. by apply Hoo.
  - by rewrite <- V3, (Hcc h' Hne).
Qed.
Lemma inv_keep o lk lk' f h x : inv_with o lk f -> masked x -> ctrue (locked lk') = ctrue (locked lk) -> lk_cpu lk' = lk_cpu lk ->
  owns (h_pc x) = owns (h_pc (f h)) -> named (h_pc x) = named (h_pc (f h)) -> inv_with o lk' (<[h := x]> f).
Proof.
  intros V Hm E1 E2 E3 E4. eapply inv_move; [exact V|done|rewrite E3; apply V|rewrite E4, E2; symmetry; apply V|done|by rewrite E2|rewrite E1; apply V].
Qed.

(** [lk->cpu] names nobody but the owner. *)
Lemma cpu_owner o lk f h : inv_with o lk f -> lk_cpu lk = Some h -> o = Some h.
Proof. intros V Hc%V. apply V. by destruct (h_pc (f h)). Qed.

Ltac clause := cbn in *; intros; split; intros; try done; first [intuition congruence | match goal with H : lk_cpu _ = Some ?x, K : forall _, lk_cpu _ = _ -> _ |- _ => apply K in H; congruence end].

Lemma inv_step s s' : inv s -> step s s' -> inv s'.
Proof.
  intros [o V] Hs. destruct Hs as [h lk f lk' x Hm]. cbn in V. unfold inv; cbn [s_lock s_hart].
  pose proof (fun h' => cpu_owner o lk f h' V) as Hco. pose proof V as [V1 V2 V3 V4]. specialize (V1 h). specialize (V3 h). specialize (V4 h).
  assert (Hown : owns (h_pc (f h)) = true -> ctrue (locked lk) = true) by (intros Hw; apply V2; rewrite (proj1 V1 Hw); done).
  pose proof (masked_step h lk (f h) lk' x V3 Hown V4 Hm) as Hx. destruct V4 as [M1 M2].
  destruct Hm as [E|old E|old E|E|E|E Hb|E Hb|E|E|E|E|E|E Hs Hn|E Hp|He Hv Hp|c E Hv]; rewrite ?E in *; cbn in V1, V3, M1.
  all: try (exists o; apply (inv_keep o lk); [exact V|exact Hx|try done; rewrite ?Hb; done|done|..]; rewrite ?E; cbn; repeat case_match; done).
  - assert (o = None) as -> by (destruct o; [|done]; rewrite Hb in V2; destruct V2 as [_ V2]; discriminate V2; done).
    exists (Some h). apply (inv_move None _ lk); [exact V|exact Hx|clause..].
  - assert (o = Some h) as -> by (by apply V1). exists (Some h). apply (inv_move (Some h) _ lk); [exact V|exact Hx|clause..].
  - exists o. apply (inv_keep o lk); rewrite ?E; try done; by rewrite Hown.
  - exists o. apply (inv_keep o lk); rewrite ?E; try done; by rewrite decide_True by (by apply V3).
  - assert (o = Some h) as -> by (by apply V1). exists (Some h). apply (inv_move (Some h) _ lk); [exact V|exact Hx|clause..].
  - assert (o = Some h) as -> by (by apply V1). exists None. apply (inv_move (Some h) _ lk); [exact V|exact Hx|clause..].
  - exists o. apply (inv_keep o lk); try done; cbn; rewrite He in M1; destruct (h_pc (f h)); naive_solver.
  - exists o. rewrite Hv in M2. apply (inv_keep o lk); rewrite ?E; try done; cbn; destruct c; naive_solver.
Qed.

Lemma inv_reachable s : reachable s -> inv s.
Proof.
  induction 1 as [s (Hl & Hh)|]; eauto using inv_step. exists None. rewrite Hl.
  split; [| |intros h; destruct (Hh h) as (E1 & E2 & E3)..]; try done; [intros h; destruct (Hh h) as (-> & _); done|by rewrite E1|].
  unfold masked. by rewrite E1, E2, E3.
Qed.

End Harts.

(** ** Properties *)

(** A state with every lock that the examples use initialised and free, on
    hart 0 with interrupts enabled. *)
Definition boot_lk (lks : list lockid) : lockst :=
  {| tp := 0; harts := replicate 8 (set_sstatus SSTATUS_SIE hart0);
     cpus := replicate 8 (set_intena 1 cpu0);
     locks := list_to_map ((fun l => (l, mk_spinlock 0 None)) <$> lks); slocks := ∅ |}.

(** Acquiring a free lock succeeds with the lock held by this hart and
    its interrupts masked, and releasing it gives back exactly the state
    before: nesting depth, interrupt enable and every lock. *)
Lemma acquire_release n s lk :
  cpu_ok (k_lk s) -> lk_free lk (k_lk s) ->
  exists s1, acquire lk n s = Ret tt s1 /\ holding lk n s1 = Ret true s1 /\
             intr_get n s1 = Ret 0 s1 /\ release lk n s1 = Ret tt s.
Proof.
  intros Hok Hf. exists (upd_lk (acq lk) s). split_and!.
  - by apply acquire_run.
  - eapply holding_true; [apply acq_held|done|done].
  - destruct (cpu_of_push _ Hok) as [_ Hs].
    change (intr_get n (upd_lk (acq lk) s)) with
      (Ret (sie (sstatus (hart_of (push (k_lk s))))) (upd_lk (acq lk) s)). by rewrite Hs.
  - by apply release_after_run.
Qed.

Lemma acquire_release_witness :
  exists s1, acquire L_kmem 5%nat (set_k_lk (boot_lk [L_kmem]) bss) = Ret tt s1 /\
    release L_kmem 5%nat s1 = Ret tt (set_k_lk (boot_lk [L_kmem]) bss).
Proof.
  destruct (acquire_release 5%nat (set_k_lk (boot_lk [L_kmem]) bss) L_kmem) as (s1 & H1 & _ & _ & H2).
  - unfold cpu_ok. cbn. split_and!; auto; try lia; intros; vm_compute in *; congruence.
  - reflexivity.
  - exists s1. split; assumption.
Defined.

(** [push_off] calls nest: after [k] of them interrupts are off and the
    depth has grown by [k], and [k] calls of [pop_off] undo them exactly,
    leaving interrupts on only if they were on before. *)
Lemma push_off_pop_off_nest k n s :
  cpu_ok (k_lk s) ->
  exists s1, times k push_off n s = Ret tt s1 /\
    noff (cpu_of (k_lk s1)) = noff (cpu_of (k_lk s)) + Z.of_nat k /\
    ((0 < k)%nat -> intr_get n s1 = Ret 0 s1) /\
    times k pop_off n s1 = Ret tt s.
Proof.
  revert s. induction k as [|k IH]; intros s Hok.
  - exists s. split_and!; [done|lia|lia|done].
  - pose proof (push_cpu_ok _ Hok) as Hok1. destruct (cpu_of_push _ Hok) as [Hn1 Hs1].
    destruct (IH (upd_lk push s) Hok1) as (s1 & H1 & Hn & Hi & H2).
    exists s1. split_and!.
    + cbn [times]. by rewrite (bind_ret _ _ _ _ _ _ (push_off_run n s Hok)).
    + rewrite Hn. change (k_lk (upd_lk push s)) with (push (k_lk s)). lia.
    + intros _. destruct k as [|k]; [|apply Hi; lia].
      injection H1 as <-. unfold intr_get, r_sstatus. rewrite bind_gets. unfold ret.
      f_equal. apply Hs1.
    + eapply times_snoc; [exact H2|]. rewrite pop_off_run; [|done|].
      * by rewrite upd_lk_lk, upd_lk_id by (by apply pop_push).
      * change (k_lk (upd_lk push s)) with (push (k_lk s)).
        destruct Hok as (_ & _ & ? & _). lia.
Qed.

Lemma push_off_pop_off_nest_witness :
  exists s1, times 3 push_off 5%nat (set_k_lk (boot_lk []) bss) = Ret tt s1 /\
    times 3 pop_off 5%nat s1 = Ret tt (set_k_lk (boot_lk []) bss).
Proof.
  destruct (push_off_pop_off_nest 3%nat 5%nat (set_k_lk (boot_lk []) bss)) as (s1 & H1 & _ & _ & H2).
  - unfold cpu_ok. cbn. split_and!; auto; try lia; intros; vm_compute in *; congruence.
  - exists s1. split; assumption.
Defined.

(** Misuse of a lock is caught: acquiring a lock this hart already holds
    panics, releasing one it does not hold panics, and acquiring one that
    another hart holds waits. *)
Lemma lock_misuse n s lk v :
  cpu_ok (k_lk s) -> locks (k_lk s) !! lk = Some v ->
  (v = mk_spinlock 1 (Some (tp (k_lk s))) -> exists s', acquire lk n s = Panic "acquire" s') /\
  (locked v = 0 \/ lk_cpu v <> Some (tp (k_lk s)) -> release lk n s = Panic "release" s) /\
  (forall h, h <> tp (k_lk s) -> v = mk_spinlock 1 (Some h) -> exists s', acquire lk n s = Spin s').
Proof.
  intros Hok Hl. split_and!.
  - intros ->. by apply acquire_held_panics.
  - by eapply release_unheld_panics.
  - intros h Hne ->. unfold acquire. rewrite (bind_ret _ _ _ _ _ _ (push_off_run n s Hok)).
    assert (Hp : lock_at (k_lk (upd_lk push s)) lk = mk_spinlock 1 (Some h))
      by by apply lock_at_lookup.
    assert (Hr : holding lk n (upd_lk push s) = Ret false (upd_lk push s)).
    { rewrite holding_run, Hp. cbn.
      rewrite bool_decide_false; [done|]. cbn. congruence. }
    rewrite (bind_ret _ _ _ _ _ _ Hr), bind_gets, Hp. by eexists.
Qed.

Lemma lock_misuse_witness :
  release L_kmem 5%nat (set_k_lk (boot_lk [L_kmem]) bss) =
  Panic "release" (set_k_lk (boot_lk [L_kmem]) bss).
Proof.
  apply (lock_misuse 5%nat (set_k_lk (boot_lk [L_kmem]) bss) L_kmem (mk_spinlock 0 None)).
  - unfold cpu_ok. cbn. split_and!; auto; try lia; intros; vm_compute in *; congruence.
  - reflexivity.
  - left. reflexivity.
Defined.

(** C21: Mutual exclusion: in every interleaving of any number of harts that
    acquire and release the lock, each interrupted wherever it takes interrupts
    by a handler that may acquire and release it too, at most one hart is
    between its successful swap and its unlocking store; [holding] is true
    exactly for the hart in its critical section, which has interrupts off; and
    no check in [acquire], [release] or [pop_off] ever panics. *)
Theorem mutual_exclusion s :
  Harts.reachable s ->
  (forall h h', Harts.owns (Harts.s_pc s h) = true -> Harts.owns (Harts.s_pc s h') = true -> h = h') /\
  (forall h, Harts.holds (Harts.s_lock s) h = true <-> Harts.named (Harts.s_pc s h) = true) /\
  (forall h, Harts.owns (Harts.s_pc s h) = true -> Harts.h_sie (Harts.s_hart s h) = false) /\
  (forall h, Harts.s_pc s h <> Harts.Panicked).
Proof.
  intros [o V]%Harts.inv_reachable. pose proof V as [V1 V2 V3 V4]. unfold Harts.s_pc. split_and!.
  - intros h h' H1%V1 H2%V1. congruence.
  - intros h. rewrite <- V3. unfold Harts.holds. split.
    + by intros [_ H%bool_decide_eq_true]%andb_prop.
    + intros Hc. apply andb_true_intro. split; [|by apply bool_decide_true]. apply V2. by rewrite (Harts.cpu_owner _ _ _ h V Hc).
  - intros h Ho. destruct (V4 h) as [M _]. destruct (Harts.h_pc (Harts.s_hart s h)); try done; apply M.
  - intros h E. destruct (V4 h) as [M _]. by rewrite E in M.
Qed.

(** Hart 0 takes the lock, is interrupted in the [push_off] of its next
    [acquire] by a handler that takes it, and hart 1 waits. *)
Definition ex_harts : Harts.sys := Harts.mk_sys (mk_spinlock 0 None) (fun _ => Harts.mk_hart Harts.Outside true 0 true None).
Ltac hop H h x m := eapply (Harts.reach_at h x) in H; [|reflexivity|apply m; first [reflexivity|discriminate]]; cbn in H.
Lemma mutual_exclusion_witness :
  exists s, Harts.reachable s /\ Harts.s_pc s 1%nat = Harts.Spinning /\ Harts.h_saved (Harts.s_hart s 0%nat) = Some (Harts.PushRead true) /\
    Harts.holds (Harts.s_lock s) 0%nat = true /\ Harts.h_sie (Harts.s_hart s 0%nat) = false.
Proof.
  assert (H : Harts.reachable ex_harts) by (apply Harts.reach_init; done). unfold ex_harts in H.
  hop H 0%nat (Harts.mk_hart Harts.Outside true 0 true None) Harts.push_read.
  hop H 0%nat (Harts.mk_hart (Harts.PushRead true) true 0 true None) Harts.interrupt.
  hop H 0%nat (Harts.mk_hart Harts.Outside false 0 true (Some (Harts.PushRead true))) Harts.push_read.
  hop H 0%nat (Harts.mk_hart (Harts.PushRead false) false 0 true (Some (Harts.PushRead true))) (Harts.push_intr_off).
  hop H 0%nat (Harts.mk_hart (Harts.PushOff false) false 0 true (Some (Harts.PushRead true))) (Harts.push_count).
  hop H 0%nat (Harts.mk_hart Harts.Check false 1 false (Some (Harts.PushRead true))) Harts.check_locked.
  hop H 0%nat (Harts.mk_hart Harts.Spinning false 1 false (Some (Harts.PushRead true))) Harts.swap_free.
  hop H 0%nat (Harts.mk_hart Harts.Acquired false 1 false (Some (Harts.PushRead true))) Harts.set_cpu.
  hop H 1%nat (Harts.mk_hart Harts.Outside true 0 true None) Harts.push_read.
  hop H 1%nat (Harts.mk_hart (Harts.PushRead true) true 0 true None) Harts.push_intr_off.
  hop H 1%nat (Harts.mk_hart (Harts.PushOff true) false 0 true None) Harts.push_count.
  hop H 1%nat (Harts.mk_hart Harts.Check false 1 true None) Harts.check_locked.
  hop H 1%nat (Harts.mk_hart Harts.CheckCpu false 1 true None) Harts.check_cpu.
  destruct (mutual_exclusion _ H) as (_ & Hh & Hi & _).
  eexists. split; [exact H|]. split; [reflexivity|]. split; [reflexivity|]. split; [apply Hh; reflexivity|apply Hi; reflexivity].
Defined.
