(* ===== verification/Wakeup.v ===== *)
(** * Sleep and wakeup of concurrent processes

    The protocol of [sleep] and [wakeup] (kernel/proc.c) as every caller uses
    it, for all processes and channels at once.  A channel stands for a
    condition protected by a lock [cond_lock chan]: a process that holds that
    lock and finds the condition false calls [sleep(chan, lk)]; whoever makes
    it true holds the lock and calls [wakeup(chan)] before releasing it.
    Wakers are processes or interrupt handlers on a hart that runs no process.
    Beside them run [yield], [kill] and any number of schedulers.  One
    transition is one operation on a spin lock, or one access to the fields
    of a process under its lock, or one to a condition under its lock, so the
    relation ranges over all interleavings of these.  A process keeps its entry
    of the table: fork and exit are not part of the relation. *)

From stdpp Require Import functions relations.
From S2P Require Import Prelude Params Kernel.

Module SleepWakeup.

(** Who runs kernel code: a process, or a hart without one. *)
Inductive agent := Proc (q : nat) | Idle (h : nat).
#[export] Instance agent_eq_dec : EqDecision agent.
Proof. solve_decision. Defined.
Definition proc_of (a : agent) : option nat := match a with Proc q => Some q | Idle _ => None end.

(** Who holds the lock of a process: an agent, a scheduler that examines the
    process, or the scheduler the process switched to. *)
Inductive holder := By (a : agent) | Scanner | Switched.

(** Where an agent is: outside, or holding the lock of a condition; in [sleep]
    before [acquire(&p->lock)], [release(lk)], [p->chan = chan], [p->state =
    SLEEPING], [sched()], switched out, back from [sched()], before
    [release(&p->lock)] and [acquire(lk)]; in [wakeup] at index [i] of the
    table before [acquire], the test, and [release]; in [yield] and [kill]
    likewise. *)
Inductive point :=
| Out | Hold (l : lockid)
| Go (c : chan) | Locked (c : chan) | Released (c : chan) | Chan (c : chan) | Ready (c : chan)
| Asleep (c : chan) | Back (c : chan) | Tidy (c : chan) | Relock (c : chan)
| Scan (c : chan) (i : nat) | Test (c : chan) (i : nat) | Unp (c : chan) (i : nat)
| YLocked | YReady | Yielded | YBack
| KTest (i : nat) | KUnp (i : nat).

(** The locks of the conditions and of the processes, the fields of the
    processes, the conditions, and where each agent is. *)
Record sys := mk_sys {
  lk : lockid -> option agent; pl : nat -> option holder;
  st : nat -> procstate; ch : nat -> chan; cond : chan -> bool; pc : agent -> point }.

Definition set_lk l o s := mk_sys (<[l := o]> (lk s)) (pl s) (st s) (ch s) (cond s) (pc s).
Definition set_pl q o s := mk_sys (lk s) (<[q := o]> (pl s)) (st s) (ch s) (cond s) (pc s).
Definition set_st q t s := mk_sys (lk s) (pl s) (<[q := t]> (st s)) (ch s) (cond s) (pc s).
Definition set_ch q c s := mk_sys (lk s) (pl s) (st s) (<[q := c]> (ch s)) (cond s) (pc s).
Definition set_cond c b s := mk_sys (lk s) (pl s) (st s) (ch s) (<[c := b]> (cond s)) (pc s).
Definition goto a x s := mk_sys (lk s) (pl s) (st s) (ch s) (cond s) (<[a := x]> (pc s)).

Definition nproc : nat := Z.to_nat NPROC.

(** Where a process goes on when a scheduler runs it. *)
Definition resume (x : point) : option point :=
  match x with Asleep c => Some (Back c) | Yielded => Some YBack | _ => None end.

Section Protocol.
(** The lock of the condition a channel stands for. *)
Variable cond_lock : chan -> lockid.

Inductive step (s : sys) : sys -> Prop :=
| acquire_lk a l : pc s a = Out -> lk s l = None -> step s (goto a (Hold l) (set_lk l (Some a) s))
| release_lk a l : pc s a = Hold l -> step s (goto a Out (set_lk l None s))
| clear_cond a c : pc s a = Hold (cond_lock c) -> step s (set_cond c false s)
(* wakeup(c), with its condition made true or left alone *)
| wakeup_call a c b : pc s a = Hold (cond_lock c) -> step s (goto a (Scan c 0) (set_cond c (b || cond s c) s))
| wakeup_self a c i : pc s a = Scan c i -> (i < nproc)%nat -> proc_of a = Some i -> step s (goto a (Scan c (S i)) s)
| wakeup_acquire a c i : pc s a = Scan c i -> (i < nproc)%nat -> proc_of a <> Some i -> pl s i = None ->
    step s (goto a (Test c i) (set_pl i (Some (By a)) s))
| wakeup_wake a c i : pc s a = Test c i -> st s i = SLEEPING -> ch s i = c ->
    step s (goto a (Unp c i) (set_st i RUNNABLE s))
| wakeup_pass a c i : pc s a = Test c i -> ~ (st s i = SLEEPING /\ ch s i = c) -> step s (goto a (Unp c i) s)
| wakeup_release a c i : pc s a = Unp c i -> step s (goto a (Scan c (S i)) (set_pl i None s))
| wakeup_end a c : pc s a = Scan c nproc -> step s (goto a (Hold (cond_lock c)) s)
(* sleep(c, cond_lock c) *)
| sleep_call q c : pc s (Proc q) = Hold (cond_lock c) -> (q < nproc)%nat -> cond s c = false -> step s (goto (Proc q) (Go c) s)
| sleep_acquire q c : pc s (Proc q) = Go c -> pl s q = None -> step s (goto (Proc q) (Locked c) (set_pl q (Some (By (Proc q))) s))
| sleep_release q c : pc s (Proc q) = Locked c -> step s (goto (Proc q) (Released c) (set_lk (cond_lock c) None s))
| sleep_chan q c : pc s (Proc q) = Released c -> step s (goto (Proc q) (Chan c) (set_ch q c s))
| sleep_state q c : pc s (Proc q) = Chan c -> step s (goto (Proc q) (Ready c) (set_st q SLEEPING s))
| sleep_sched q c : pc s (Proc q) = Ready c -> step s (goto (Proc q) (Asleep c) (set_pl q (Some Switched) s))
| sleep_tidy q c : pc s (Proc q) = Back c -> step s (goto (Proc q) (Tidy c) (set_ch q C_none s))
| sleep_punlock q c : pc s (Proc q) = Tidy c -> step s (goto (Proc q) (Relock c) (set_pl q None s))
| sleep_relock q c : pc s (Proc q) = Relock c -> lk s (cond_lock c) = None ->
    step s (goto (Proc q) (Hold (cond_lock c)) (set_lk (cond_lock c) (Some (Proc q)) s))
(* yield *)
| yield_acquire q : pc s (Proc q) = Out -> (q < nproc)%nat -> pl s q = None -> step s (goto (Proc q) YLocked (set_pl q (Some (By (Proc q))) s))
| yield_state q : pc s (Proc q) = YLocked -> step s (goto (Proc q) YReady (set_st q RUNNABLE s))
| yield_sched q : pc s (Proc q) = YReady -> step s (goto (Proc q) Yielded (set_pl q (Some Switched) s))
| yield_release q : pc s (Proc q) = YBack -> step s (goto (Proc q) Out (set_pl q None s))
(* kill, at an entry of the table whose pid matches or not *)
| kill_acquire a i : pc s a = Out -> (i < nproc)%nat -> pl s i = None -> step s (goto a (KTest i) (set_pl i (Some (By a)) s))
| kill_wake a i : pc s a = KTest i -> st s i = SLEEPING -> step s (goto a (KUnp i) (set_st i RUNNABLE s))
| kill_pass a i : pc s a = KTest i -> step s (goto a (KUnp i) s)
| kill_release a i : pc s a = KUnp i -> step s (goto a Out (set_pl i None s))
(* the schedulers *)
| sched_back q : pl s q = Some Switched -> step s (set_pl q None s)
| sched_acquire q : (q < nproc)%nat -> pl s q = None -> step s (set_pl q (Some Scanner) s)
| sched_skip q : pl s q = Some Scanner -> st s q <> RUNNABLE -> step s (set_pl q None s)
| sched_run q y : pl s q = Some Scanner -> st s q = RUNNABLE -> resume (pc s (Proc q)) = Some y ->
    step s (goto (Proc q) y (set_pl q (Some (By (Proc q))) (set_st q RUNNING s))).

(** At the start every agent is outside, no lock is held and no process sleeps
    or waits for a hart; conditions and channels are arbitrary. *)
Definition initial (s : sys) : Prop :=
  (forall l, lk s l = None) /\ (forall q, pl s q = None) /\ (forall a, pc s a = Out) /\
  forall q, st s q <> SLEEPING /\ st s q <> RUNNABLE.

Inductive reachable : sys -> Prop :=
| reach_init s : initial s -> reachable s
| reach_step s s' : reachable s -> step s s' -> reachable s'.

(** ** The invariant *)

(** The lock of a condition, and the lock of a process, that an agent holds. *)
Definition has_lk (x : point) : option lockid :=
  match x with
  | Hold l => Some l
  | Go c | Locked c | Scan c _ | Test c _ | Unp c _ => Some (cond_lock c)
  | _ => None
  end.
Definition has_pl (a : agent) (x : point) : option nat :=
  match x with
  | Locked _ | Released _ | Chan _ | Ready _ | Back _ | Tidy _ | YLocked | YReady | YBack => proc_of a
  | Test _ i | Unp _ i | KTest i | KUnp i => Some i
  | _ => None
  end.

(** The agent is in [wakeup(c)] and has yet to test process [q]. *)
Definition ahead (c : chan) (q : nat) (x : point) : Prop :=
  match x with
  | Scan c' i | Test c' i => c' = c /\ (i <= q)%nat
  | Unp c' i => c' = c /\ (i < q)%nat
  | _ => False
  end.

(** Ownership of a lock when an agent moves: it keeps, takes or gives up a
    lock, or the lock passes between others. *)
Section Owner.
Context {L T : Type} `{EqDecision L} (inj : agent -> T) (has : agent -> point -> option L).
Definition owns (F : L -> option T) (f : agent -> point) : Prop := forall l a, F l = Some (inj a) <-> has a (f a) = Some l.
Definition foreign (o : option T) : Prop := forall a, o <> Some (inj a).

Lemma owns_keep F f a x : owns F f -> has a x = has a (f a) -> owns F (<[a := x]> f).
Proof. unfold owns. intros H E l b. rewrite H. destruct (decide (a = b)) as [<-|]; [by rewrite fn_lookup_insert, E|by rewrite fn_lookup_insert_ne]. Qed.
Lemma owns_other F f l o : owns F f -> foreign (F l) -> foreign o -> owns (<[l := o]> F) f.
Proof.
  unfold owns. intros H H1 H2 l' b. rewrite <- H. destruct (decide (l = l')) as [<-|]; [rewrite fn_lookup_insert|by rewrite fn_lookup_insert_ne].
  split; intros E; [by apply H2 in E|by apply H1 in E].
Qed.
Lemma owns_drop F f a l o x : owns F f -> Inj (=) (=) inj -> has a (f a) = Some l -> has a x = None -> foreign o -> owns (<[l := o]> F) (<[a := x]> f).
Proof.
  unfold owns. intros H Hi E Ex Ho l' b. destruct (decide (a = b)) as [<-|Hab]; [rewrite (fn_lookup_insert f), Ex|rewrite (fn_lookup_insert_ne f) by done].
  - split; [|done]. destruct (decide (l = l')) as [<-|Hl]; [rewrite fn_lookup_insert; intros E'; by apply Ho in E'|rewrite fn_lookup_insert_ne by done]. rewrite H. congruence.
  - destruct (decide (l = l')) as [<-|Hl]; [rewrite fn_lookup_insert|by rewrite fn_lookup_insert_ne, H].
    split; intros E'; [by apply Ho in E'|]. apply H in E, E'. rewrite E in E'. by injection E' as ?%Hi.
Qed.
Lemma owns_take F f a l x : owns F f -> Inj (=) (=) inj -> foreign (F l) -> has a (f a) = None -> has a x = Some l -> owns (<[l := Some (inj a)]> F) (<[a := x]> f).
Proof.
  unfold owns. intros H Hi Hl E Ex l' b. destruct (decide (a = b)) as [<-|Hab]; [rewrite (fn_lookup_insert f), Ex|rewrite (fn_lookup_insert_ne f) by done].
  - destruct (decide (l = l')) as [<-|Hl']; [by rewrite fn_lookup_insert|rewrite fn_lookup_insert_ne by done]. rewrite H, E. split; congruence.
  - destruct (decide (l = l')) as [<-|Hl']; [rewrite fn_lookup_insert|by rewrite fn_lookup_insert_ne, H].
    split; [by intros [= ?%Hi]|]. intros E'%H. by apply Hl in E'.
Qed.
End Owner.

Lemma foreign_none {T} (inj : agent -> T) : foreign inj None.
Proof. done. Qed.
Lemma foreign_by o : match o with Some (By _) => False | _ => True end -> foreign By o.
Proof. intros H a ->. done. Qed.
#[local] Instance By_inj : Inj (=) (=) By.
Proof. by intros a b [= ->]. Qed.

Definition inv_lk (s : sys) : Prop := owns id (fun _ => has_lk) (lk s) (pc s).
Definition inv_pl (s : sys) : Prop := owns By has_pl (pl s) (pc s).

(** The locks an agent holds at the points of its move. *)
Ltac at_point := cbn beta; repeat match goal with E : pc _ _ = _ |- _ => rewrite E | E : pl _ _ = _ |- _ => rewrite E | E : lk _ _ = _ |- _ => rewrite E end; cbn; done.
Ltac owner :=
  match goal with
  | H : owns _ _ _ _ |- _ =>
    solve
      [ exact H
      | apply owns_keep; [exact H|]; at_point
      | apply owns_other; [exact H|apply foreign_by; at_point|apply foreign_by; done]
      | eapply owns_drop; [exact H|apply _|at_point|done|apply foreign_none]
      | eapply owns_drop; [exact H|apply _|at_point|done|by apply foreign_by]
      | apply (owns_take id); [exact H|apply _|at_point|at_point|done]
      | apply owns_take; [exact H|apply _|apply foreign_by; at_point|at_point|done] ]
  end.
Ltac by_step Hs :=
  destruct Hs; try match goal with E : resume ?x = Some _ |- _ => destruct x eqn:?; try discriminate E; injection E as <- end;
  cbn [lk pl st ch cond pc set_lk set_pl set_st set_ch set_cond goto].

Lemma inv_lk_step s s' : inv_lk s -> step s s' -> inv_lk s'.
Proof. unfold inv_lk. intros H Hs. by_step Hs; owner. Qed.
Lemma inv_pl_step s s' : inv_pl s -> step s s' -> inv_pl s'.
Proof. unfold inv_pl. intros H Hs. by_step Hs; owner. Qed.

(** The lock, state and channel of a process at a point: it is SLEEPING or
    RUNNABLE only where it has stored that itself or sleeps, and from its store
    on its channel is the one it sleeps on. *)
Definition fields_at (o : option holder) (t : procstate) (k : chan) (x : point) : Prop :=
  (o = Some Switched -> is_Some (resume x)) /\
  match x with
  | Chan c => k = c /\ t <> SLEEPING /\ t <> RUNNABLE
  | Ready c => k = c /\ t <> RUNNABLE
  | Asleep c => k = c
  | YReady | Yielded => t <> SLEEPING
  | _ => t <> SLEEPING /\ t <> RUNNABLE
  end.
Definition fields (s : sys) : Prop := forall q, fields_at (pl s q) (st s q) (ch s q) (pc s (Proc q)).

(** Two agents do not hold the lock of one process. *)
Lemma pl_exclusive s a b q : inv_pl s -> has_pl a (pc s a) = Some q -> has_pl b (pc s b) = Some q -> a = b.
Proof. intros H Ha%H Hb%H. rewrite Ha in Hb. by injection Hb. Qed.
(** A process whose lock another agent holds is not at a point where it holds it. *)
Lemma pl_other s a q : inv_pl s -> has_pl a (pc s a) = Some q -> a <> Proc q -> has_pl (Proc q) (pc s (Proc q)) <> Some q.
Proof. intros H Ha Hne Hq. by apply Hne, (pl_exclusive s a (Proc q) q). Qed.

Ltac look :=
  repeat match goal with
  | |- context [<[?x := _]> _ ?x] => rewrite fn_lookup_insert
  | H : context [<[?x := _]> _ ?x] |- _ => rewrite fn_lookup_insert in H
  | |- context [<[?x := _]> _ ?y] => destruct (decide (x = y)); [simplify_eq|rewrite fn_lookup_insert_ne by done]
  | H : context [<[?x := _]> _ ?y] |- _ => destruct (decide (x = y)); [simplify_eq|rewrite fn_lookup_insert_ne in H by done]
  end.

Lemma fields_wake o t k x q : t = SLEEPING -> fields_at o t k x -> has_pl (Proc q) x <> Some q -> fields_at o RUNNABLE k x.
Proof. intros -> [H1 H2] H. split; [done|]. destruct x; cbn in *; try done; naive_solver. Qed.

Lemma fields_step s s' : inv_pl s -> fields s -> step s s' -> fields s'.
Proof.
  intros Hp F Hs q. specialize (F q). by_step Hs; look; try done;
    try (match goal with E : pc s (Proc q) = _ |- _ => rewrite E in F; destruct F as [F1 F2]; cbn in *; split; cbn; [done|intuition congruence] end);
    try (destruct F as [F1 F2]; split; [done|exact F2]);
    match goal with E : pc s ?a = _ |- _ => eapply fields_wake; [done|exact F|]; apply (pl_other s a q Hp); [by rewrite E|congruence] end.
Qed.

(** ** Conditions *)

(** A process between its test of the condition and its release of the lock
    still finds it false; one that is past the release and not yet woken, while
    the condition is true, has a [wakeup] ahead of it. *)
Definition waiting (t : procstate) (c : chan) (x : point) : Prop :=
  match x with
  | Released c' | Chan c' | Ready c' => c' = c
  | Asleep c' => c' = c /\ t = SLEEPING
  | _ => False
  end.
#[local] Instance waiting_dec t c x : Decision (waiting t c x).
Proof. destruct x; cbn; apply _. Defined.
Definition tested (s : sys) : Prop := forall q c, pc s (Proc q) = Go c \/ pc s (Proc q) = Locked c -> cond s c = false.
Definition covered (s : sys) : Prop := forall q c, (q < nproc)%nat -> waiting (st s q) c (pc s (Proc q)) -> cond s c = true ->
  exists a, ahead c q (pc s a).

(** The lock of a condition is not free for others while a process is between
    its test and its release. *)
Lemma lk_exclusive s a b l : inv_lk s -> has_lk (pc s a) = Some l -> has_lk (pc s b) = Some l -> a = b.
Proof. intros H Ha%H Hb%H. rewrite Ha in Hb. by injection Hb. Qed.

Lemma tested_step s s' : inv_lk s -> tested s -> step s s' -> tested s'.
Proof.
  intros Hl T Hs q c Hq. specialize (T q c). revert Hq. by_step Hs; look; try (by auto); try (by intros [?|?]).
  - intros Hq. exfalso. match goal with n : ?a <> Proc q |- _ => apply n, (lk_exclusive s a (Proc q) (cond_lock c) Hl) end; [at_point|].
    by destruct Hq as [-> | ->].
  - by intros [[= ->]|[=]].
  - intros [[=]|[= ->]]. auto.
Qed.

(** A waiting process whose lock another agent holds is asleep. *)
Lemma waiting_asleep s a c q : inv_pl s -> fields s -> has_pl a (pc s a) = Some q -> a <> Proc q -> waiting (st s q) c (pc s (Proc q)) ->
  pc s (Proc q) = Asleep c /\ st s q = SLEEPING /\ ch s q = c.
Proof.
  intros Hp F Ha Hne Hw. pose proof (pl_other s a q Hp Ha Hne) as Ho. destruct (F q) as [_ Fq].
  destruct (pc s (Proc q)); cbn in *; try done. by destruct Hw as [-> ->].
Qed.

(** A [wakeup] stays ahead of a waiting process until it has made it RUNNABLE. *)
Lemma ahead_step s s' a c q : inv_pl s -> fields s -> (q < nproc)%nat -> step s s' -> ahead c q (pc s a) ->
  waiting (st s q) c (pc s (Proc q)) -> waiting (st s' q) c (pc s' (Proc q)) -> ahead c q (pc s' a).
Proof.
  intros Hp F Hq Hs Ha Hw. assert (Hne : a <> Proc q) by (intros ->; by destruct (pc s (Proc q))).
  pose proof (fun H => waiting_asleep s a c q Hp F H Hne Hw) as Hz. revert Ha.
  by_step Hs; look; try done; try (match goal with |- ahead _ _ (pc s ?b) -> _ => match goal with E : pc s b = _ |- _ => rewrite E in *; cbn end end); try done.
  - intros [-> ?] _. split; [done|]. assert (i <> q) by (intros ->; destruct a; naive_solver). lia.
  - intros _ Hr. destruct (Hz eq_refl) as (E & _). rewrite E in Hr. by destruct Hr.
  - intros [-> ?] _. split; [done|lia].
  - intros [-> ?] _. split; [done|]. assert (i <> q) by (intros ->; naive_solver). lia.
  - lia.
Qed.

Lemma waiting_runnable t c x : waiting RUNNABLE c x -> waiting t c x.
Proof. by destruct x; cbn; try intros [_ ?]. Qed.

Lemma covered_step s s' : inv_pl s -> fields s -> tested s -> covered s -> step s s' -> covered s'.
Proof.
  intros Hp F T Cv Hs q c Hq Hw Hc.
  destruct (decide (waiting (st s q) c (pc s (Proc q)) /\ cond s c = true)) as [[Hw0 Hc0]|Hn].
  { destruct (Cv q c Hq Hw0 Hc0) as [a Ha]. exists a. by apply (ahead_step s). }
  revert Hw Hc. clear Hp F Cv. by_step Hs; look; try done; try (by intros; exfalso; apply Hn);
    try (match goal with E : pc s (Proc q) = _ |- _ => rewrite E in Hn end).
  - intros _ _. exists a. rewrite fn_lookup_insert. split; [done|lia].
  - intros Hw Hc. exfalso. apply Hn. split; [by apply waiting_runnable|done].
  - intros Hw Hc. cbn in Hw. subst. rewrite (T q c) in Hc by auto. done.
  - intros Hw Hc. by exfalso; apply Hn.
  - intros Hw Hc. by exfalso; apply Hn.
  - intros [Hw _] Hc. by exfalso; apply Hn.
  - intros Hw Hc. exfalso. apply Hn. split; [by apply waiting_runnable|done].
Qed.

(** ** Reachable states *)
Record inv (s : sys) : Prop := { i_lk : inv_lk s; i_pl : inv_pl s; i_fields : fields s; i_tested : tested s; i_covered : covered s }.

Lemma inv_initial s : initial s -> inv s.
Proof.
  intros (Hl & Hp & Hx & Ht). split.
  - intros l a. by rewrite Hl, Hx.
  - intros q a. by rewrite Hp, Hx.
  - intros q. rewrite Hp, Hx. split; [done|apply Ht].
  - intros q c. rewrite Hx. by intros [?|?].
  - intros q c _. by rewrite Hx.
Qed.
Lemma sw_inv_step s s' : inv s -> step s s' -> inv s'.
Proof. intros [I1 I2 I3 I4 I5] Hs. split; eauto using inv_lk_step, inv_pl_step, fields_step, tested_step, covered_step. Qed.
Lemma sw_inv_reachable s : reachable s -> inv s.
Proof. induction 1; eauto using inv_initial, sw_inv_step. Qed.

(** ** A [wakeup] ahead can always be carried out *)

(** Steps that leave agent [a] and process [q] where they are; [q] may become
    RUNNABLE. *)
Definition aside (a : agent) (q : nat) (s s' : sys) : Prop :=
  rtc step s s' /\ pc s' a = pc s a /\ pc s' (Proc q) = pc s (Proc q) /\ (st s' q = st s q \/ st s' q = RUNNABLE).

Tactic Notation "go" uconstr(r) := eapply rtc_l; [apply r; cbn; look; done|].
Ltac via tac := eexists; split; [split; [tac; apply rtc_refl|]|]; cbn; look; auto.

(** Whoever holds the lock of a process gives it back without waiting. *)
Lemma holder_releases s a q b i : inv_pl s -> pl s i = Some (By b) -> b <> a -> b <> Proc q ->
  exists s', aside a q s s' /\ pl s' i = None.
Proof.
  intros Hp Hb Hba Hbq. apply Hp in Hb as E. destruct (pc s b) as [| |c|c|c|c|c|c|c|c|c|c j|c j|c j| | | | |j|j] eqn:Eb; cbn in E; try done.
  all: try (destruct b as [q0|]; [|done]; injection E as ->); try (injection E as ->).
  - via ltac:(go (sleep_release s i c); go (sleep_chan _ i c); go (sleep_state _ i c); go (sleep_sched _ i c); go (sched_back _ i)).
  - via ltac:(go (sleep_chan s i c); go (sleep_state _ i c); go (sleep_sched _ i c); go (sched_back _ i)).
  - via ltac:(go (sleep_state s i c); go (sleep_sched _ i c); go (sched_back _ i)).
  - via ltac:(go (sleep_sched s i c); go (sched_back _ i)).
  - via ltac:(go (sleep_tidy s i c); go (sleep_punlock _ i c)).
  - via ltac:(go (sleep_punlock s i c)).
  - destruct (decide (st s i = SLEEPING /\ ch s i = c)) as [[Hs Hc]|Hn].
    + via ltac:(go (wakeup_wake s b c i); go (wakeup_release _ b c i)).
    + via ltac:(go (wakeup_pass s b c i); go (wakeup_release _ b c i)).
  - via ltac:(go (wakeup_release s b c i)).
  - via ltac:(go (yield_state s i); go (yield_sched _ i); go (sched_back _ i)).
  - via ltac:(go (yield_sched s i); go (sched_back _ i)).
  - via ltac:(go (yield_release s i)).
  - via ltac:(go (kill_pass s b i); go (kill_release _ b i)).
  - via ltac:(go (kill_release s b i)).
Qed.

(** The lock of any process but [a] can become free. *)
Lemma lock_freed s a q c i : inv s -> pc s (Proc q) = Asleep c -> st s q = SLEEPING -> has_pl a (pc s a) = None -> a <> Proc i ->
  exists s', aside a q s s' /\ pl s' i = None.
Proof.
  intros [_ Hp F _ _] Hx Hst Ha Hai. assert (Hq : has_pl (Proc q) (pc s (Proc q)) = None) by (by rewrite Hx).
  destruct (pl s i) as [[b| |]|] eqn:E.
  - apply (holder_releases s a q b i); [done|done|intros ->|intros ->]; apply Hp in E; congruence.
  - destruct (decide (st s i = RUNNABLE)) as [Hr|Hr]; [|by via ltac:(go (sched_skip s i))].
    destruct (F i) as [_ Fi]. rewrite Hr in Fi.
    assert (Hy : exists y, resume (pc s (Proc i)) = Some y).
    { assert (Hn : has_pl (Proc i) (pc s (Proc i)) <> Some i) by (intros Hh; apply Hp in Hh; congruence).
      destruct (pc s (Proc i)); cbn in *; eauto; naive_solver. }
    destruct Hy as [y Hy]. assert (Hiq : i <> q) by congruence.
    pose proof (sched_run s i y E Hr Hy) as Hs. set (s1 := goto _ _ _) in Hs.
    destruct (holder_releases s1 a q (Proc i) i) as (s2 & (R & A1 & A2 & A3) & Hn); [by apply (inv_pl_step s)|..]; [cbn; by look|congruence|congruence|].
    exists s2. split; [|done]. split; [by eapply rtc_l|]. rewrite A1, A2. cbn in A3 |- *. look; auto.
  - by via ltac:(go (sched_back s i)).
  - exists s. split; [|done]. split_and!; auto using rtc_refl.
Qed.

(** A [wakeup] ahead of a sleeping process can go on to wake it. *)
Lemma inv_rtc s s' : inv s -> rtc step s s' -> inv s'.
Proof. induction 2; eauto using sw_inv_step. Qed.

Section Wakes.
Variables (a : agent) (c : chan) (q : nat).
Hypothesis Hq : (q < nproc)%nat.
(** [a] is in [wakeup(c)] at [x] while [q] sleeps on [c]. *)
Definition at_work (s : sys) (x : point) : Prop := inv s /\ pc s (Proc q) = Asleep c /\ st s q = SLEEPING /\ pc s a = x.
Definition wakes (s : sys) : Prop := exists s', rtc step s s' /\ st s' q = RUNNABLE.

Lemma wakes_rtc s s' : rtc step s s' -> wakes s' -> wakes s.
Proof. intros R (s2 & R2 & H). exists s2. split; [by etrans|done]. Qed.

Lemma unp_wakes s i : at_work s (Unp c i) -> (forall s', at_work s' (Scan c (S i)) -> wakes s') -> wakes s.
Proof.
  intros (I & Hx & Hs & Ha) Hk. assert (Hne : a <> Proc q) by congruence. pose proof (wakeup_release s a c i Ha) as St.
  eapply wakes_rtc; [by apply rtc_once|]. apply Hk. split; [by apply (sw_inv_step s)|]. cbn. by look.
Qed.
Lemma test_wakes s i : at_work s (Test c i) -> (i < q -> forall s', at_work s' (Scan c (S i)) -> wakes s')%nat -> (i <= q)%nat -> wakes s.
Proof.
  intros (I & Hx & Hs & Ha) Hk Hi. assert (Hne : a <> Proc q) by congruence. destruct (i_fields _ I q) as [_ Fq]. rewrite Hx in Fq. cbn in Fq.
  destruct (decide (i = q)) as [->|Hiq].
  { eexists. split; [apply rtc_once, (wakeup_wake s a c q); done|]. cbn. by look. }
  assert (exists s', step s s' /\ at_work s' (Unp c i)) as (s' & St & W).
  { destruct (decide (st s i = SLEEPING /\ ch s i = c)) as [[H1 H2]|Hn].
    - pose proof (wakeup_wake s a c i Ha H1 H2) as St. eexists. split; [exact St|]. split; [by apply (sw_inv_step s)|]. cbn. by look.
    - pose proof (wakeup_pass s a c i Ha Hn) as St. eexists. split; [exact St|]. split; [by apply (sw_inv_step s)|]. cbn. by look. }
  eapply wakes_rtc; [by apply rtc_once|]. eapply unp_wakes; [exact W|]. apply Hk. lia.
Qed.
Lemma scan_wakes : forall k s i, (i + k = q)%nat -> at_work s (Scan c i) -> wakes s.
Proof.
  induction k as [|k IH]; intros s i Hi (I & Hx & Hs & Ha); (assert (Hne : a <> Proc q) by congruence);
    (destruct (decide (proc_of a = Some i)) as [Hm|Hm];
     [|destruct (lock_freed s a q c i I Hx Hs) as (s1 & (R & A1 & A2 & A3) & Hf); [by rewrite Ha|by intros ->|];
       eapply wakes_rtc; [exact R|]; rewrite Ha in A1; rewrite Hx in A2; rewrite Hs in A3;
       (destruct A3 as [A3|A3]; [|exists s1; split; [apply rtc_refl|done]]);
       pose proof (wakeup_acquire s1 a c i A1 ltac:(lia) Hm Hf) as St; eapply wakes_rtc; [by apply rtc_once|];
       apply (test_wakes _ i); [split; [apply (sw_inv_step s1); [by apply (inv_rtc s)|done]|cbn; by look]| |lia]]).
  - exfalso. apply Hne. destruct a; [injection Hm as ->|done]. f_equal. lia.
  - lia.
  - pose proof (wakeup_self s a c i Ha ltac:(lia) Hm) as St. eapply wakes_rtc; [by apply rtc_once|].
    apply (IH _ (S i)); [lia|]. split; [by apply (sw_inv_step s)|]. cbn. by look.
  - intros _ s' W. apply (IH s' (S i)); [lia|done].
Qed.
Lemma ahead_wakes s : inv s -> pc s (Proc q) = Asleep c -> st s q = SLEEPING -> ahead c q (pc s a) -> wakes s.
Proof.
  intros I Hx Hs Ha. assert (Hsc : forall i s', (i <= q)%nat -> at_work s' (Scan c i) -> wakes s') by (intros i s' Hi; apply (scan_wakes (q - i)); lia).
  destruct (pc s a) as [| | | | | | | | | | |c' i|c' i|c' i| | | | | |] eqn:E; try done; destruct Ha as [-> Hi].
  - by apply (Hsc i).
  - apply (test_wakes s i); [done| |done]. intros Hlt s'. apply Hsc. lia.
  - apply (unp_wakes s i); [done|]. intros s'. apply Hsc. lia.
Qed.
End Wakes.
End Protocol.
End SleepWakeup.

(** ** Properties *)

(** C22: No wakeup is lost.  In every interleaving of processes that sleep,
    wake, yield and kill, of interrupt handlers and of schedulers, whenever
    a process is switched out in [sleep] on a channel with state SLEEPING
    although the condition of the channel holds, its channel field is that
    channel, and some other agent holds the lock of the condition and is in
    [wakeup] of the channel, in its scan of the table at or before the entry of
    the process; and there are further steps after which the process is
    RUNNABLE.  So once no [wakeup] runs, a process sleeps only while its
    condition is false. *)
Theorem no_lost_wakeup cond_lock s q c :
  SleepWakeup.reachable cond_lock s -> (q < SleepWakeup.nproc)%nat ->
  SleepWakeup.pc s (SleepWakeup.Proc q) = SleepWakeup.Asleep c ->
  SleepWakeup.st s q = SLEEPING -> SleepWakeup.cond s c = true ->
  SleepWakeup.ch s q = c /\
  (exists a, a <> SleepWakeup.Proc q /\ SleepWakeup.lk s (cond_lock c) = Some a /\ SleepWakeup.ahead c q (SleepWakeup.pc s a)) /\
  exists s', rtc (SleepWakeup.step cond_lock) s s' /\ SleepWakeup.st s' q = RUNNABLE.
Proof.
  intros Hr Hq Hx Hs Hc. apply SleepWakeup.sw_inv_reachable in Hr as I. destruct (SleepWakeup.i_fields _ _ I q) as [_ F]. rewrite Hx in F.
  destruct (SleepWakeup.i_covered _ _ I q c Hq) as [a Ha]; [by rewrite Hx|done|]. split; [done|]. split.
  - exists a. split; [intros ->; by rewrite Hx in Ha|]. split; [|done]. apply (SleepWakeup.i_lk _ _ I).
    destruct (SleepWakeup.pc s a); cbn in Ha |- *; naive_solver.
  - by apply (SleepWakeup.ahead_wakes cond_lock a c q Hq).
Qed.

(** Process 1 tests its condition and releases the lock; before it is asleep a
    handler makes the condition true and starts its [wakeup]. *)
Definition ex_sys : SleepWakeup.sys :=
  SleepWakeup.mk_sys (fun _ => None) (fun _ => None) (fun _ => RUNNING) (fun _ => C_none) (fun _ => false) (fun _ => SleepWakeup.Out).
Lemma no_lost_wakeup_witness : exists s s', SleepWakeup.reachable (fun _ => L_log) s /\ SleepWakeup.st s 1 = SLEEPING /\
  SleepWakeup.cond s C_log = true /\ rtc (SleepWakeup.step (fun _ => L_log)) s s' /\ SleepWakeup.st s' 1 = RUNNABLE.
Proof.
  assert (H : SleepWakeup.reachable (fun _ => L_log) ex_sys) by (apply SleepWakeup.reach_init; repeat split; intros; discriminate).
  eapply SleepWakeup.reach_step in H; [|apply (SleepWakeup.acquire_lk _ _ (SleepWakeup.Proc 1) L_log); reflexivity].
  eapply SleepWakeup.reach_step in H; [|apply (SleepWakeup.sleep_call _ _ 1%nat C_log); [reflexivity|vm_compute; lia|reflexivity]].
  eapply SleepWakeup.reach_step in H; [|apply (SleepWakeup.sleep_acquire _ _ 1%nat C_log); reflexivity].
  eapply SleepWakeup.reach_step in H; [|apply (SleepWakeup.sleep_release _ _ 1%nat C_log); reflexivity].
  eapply SleepWakeup.reach_step in H; [|apply (SleepWakeup.acquire_lk _ _ (SleepWakeup.Idle 7) L_log); reflexivity].
  eapply SleepWakeup.reach_step in H; [|apply (SleepWakeup.wakeup_call _ _ (SleepWakeup.Idle 7) C_log true); reflexivity].
  eapply SleepWakeup.reach_step in H; [|apply (SleepWakeup.sleep_chan _ _ 1%nat C_log); reflexivity].
  eapply SleepWakeup.reach_step in H; [|apply (SleepWakeup.sleep_state _ _ 1%nat C_log); reflexivity].
  eapply SleepWakeup.reach_step in H; [|apply (SleepWakeup.sleep_sched _ _ 1%nat C_log); reflexivity].
  destruct (no_lost_wakeup _ _ 1%nat C_log H) as (_ & _ & s' & R & E); [vm_compute; lia|reflexivity..|].
  eexists _, s'. split; [exact H|]. split; [reflexivity|]. split; [reflexivity|]. split; [exact R|exact E].
Defined.
