(* ===== verification/StringC.v ===== *)
(** * Byte memory and kernel/string.c

    Memory is a finite map from addresses to bytes, absent bytes being 0.  A
    [const char *] argument that is only read is the stream of the bytes it
    points at ([at_mem] for an address, [at_list] for an array inside a
    structure), so the reading functions serve both; the writing functions
    update memory byte by byte in the order of the C loops. *)

From S2P Require Import Prelude.

Abbreviation mem := (gmap Z Z).

(** ** Loads and stores *)
Definition rd (m : mem) (a : Z) : Z := default 0 (m !! a).
Definition wr (m : mem) (a v : Z) : mem := <[a := u8 v]> m.

Fixpoint rd_bytes (m : mem) (a : Z) (n : nat) : list Z :=
  match n with O => [] | S n' => rd m a :: rd_bytes m (a + 1) n' end.
Fixpoint wr_bytes (m : mem) (a : Z) (l : list Z) : mem :=
  match l with [] => m | b :: l' => wr_bytes (wr m a b) (a + 1) l' end.

Definition rd32 (m : mem) (a : Z) : Z := le_dec (rd_bytes m a 4).
Definition wr32 (m : mem) (a v : Z) : mem := wr_bytes m a (le_enc 4 v).
Definition rd64 (m : mem) (a : Z) : Z := le_dec (rd_bytes m a 8).
Definition wr64 (m : mem) (a v : Z) : mem := wr_bytes m a (le_enc 8 v).

(** The bytes a pointer reads. *)
Definition at_mem (m : mem) (a : Z) : Z -> Z := fun i => rd m (a + i).
Definition at_list (l : list Z) : Z -> Z := aget 0 l.

(** ** kernel/string.c *)
Fixpoint memset_loop (m : mem) (cdst c i : Z) (k : nat) : mem :=
  match k with
  | O => m
  | S k' => memset_loop (wr m (cdst + i) c) cdst c (i + 1) k'
  end.
Definition memset (m : mem) (dst c n : Z) : mem := memset_loop m dst c 0 (Z.to_nat n).

Fixpoint memcmp_loop (s1 s2 : Z -> Z) (i : Z) (n : nat) : Z :=
  match n with
  | O => 0
  | S n' => if s1 i =? s2 i then memcmp_loop s1 s2 (i + 1) n' else s1 i - s2 i
  end.
Definition memcmp (v1 v2 : Z -> Z) (n : Z) : Z := memcmp_loop v1 v2 0 (Z.to_nat n).

Fixpoint memmove_down (m : mem) (d s : Z) (n : nat) : mem :=
  match n with
  | O => m
  | S n' => memmove_down (wr m (d - 1) (rd m (s - 1))) (d - 1) (s - 1) n'
  end.
Fixpoint memmove_up (m : mem) (d s : Z) (n : nat) : mem :=
  match n with
  | O => m
  | S n' => memmove_up (wr m d (rd m s)) (d + 1) (s + 1) n'
  end.
Definition memmove (m : mem) (dst src n : Z) : mem :=
  if n =? 0 then m else
  if (src <? dst) && (src + n >? dst)
  then memmove_down m (dst + n) (src + n) (Z.to_nat n)
  else memmove_up m dst src (Z.to_nat n).
Definition memcpy (m : mem) (dst src n : Z) : mem := memmove m dst src n.

Fixpoint strncmp_loop (p q : Z -> Z) (i : Z) (n : nat) : Z :=
  match n with
  | O => 0
  | S n' =>
      if ctrue (p i) && (p i =? q i) then strncmp_loop p q (i + 1) n'
      else u8 (p i) - u8 (q i)
  end.
Definition strncmp (p q : Z -> Z) (n : Z) : Z := strncmp_loop p q 0 (Z.to_nat n).

(** [while(n-- > 0 && ( *s++ = *t++) != 0)]: memory, [s] and the iterations
    left when the loop ends. *)
Fixpoint copy_loop (m : mem) (s t : Z) (n : nat) : mem * Z * nat :=
  match n with
  | O => (m, s, O)
  | S n' =>
      let c := rd m t in
      let m' := wr m s c in
      if c =? 0 then (m', s + 1, n') else copy_loop m' (s + 1) (t + 1) n'
  end.
Definition strncpy (m : mem) (s t n : Z) : mem :=
  let '(m1, s1, k) := copy_loop m s t (Z.to_nat n) in
  memset_loop m1 s1 0 0 k.
Definition safestrcpy (m : mem) (s t n : Z) : mem :=
  if n <=? 0 then m else
  let '(m1, s1, k) := copy_loop m s t (Z.to_nat (n - 1)) in
  wr m1 s1 0.

(** [strlen] has no bound: [fuel] is the longest string it can measure. *)
Fixpoint strlen_loop (s : Z -> Z) (n : Z) (fuel : nat) : option Z :=
  match fuel with
  | O => None
  | S f => if ctrue (s n) then strlen_loop s (n + 1) f else Some n
  end.
Definition strlen (fuel : nat) (s : Z -> Z) : option Z := strlen_loop s 0 fuel.

(** ** Reference definitions: the text a pointer denotes *)

(** The C string of at most [n] bytes at a stream, without its NUL. *)
Fixpoint cstrn (s : Z -> Z) (i : Z) (n : nat) : list Z :=
  match n with
  | O => []
  | S n' => if s i =? 0 then [] else s i :: cstrn s (i + 1) n'
  end.

(** [is_str s l]: the string at [s] is [l], NUL-terminated. *)
Definition is_str (s : Z -> Z) (l : list Z) : Prop :=
  Forall (fun b => 0 < b < 256) l /\
  (forall i, 0 <= i < Z.of_nat (length l) -> s i = aget 0 l i) /\
  s (Z.of_nat (length l)) = 0.

(** What [strncpy] and [safestrcpy] leave in a buffer of [n] bytes. *)
Definition strncpy_bytes (l : list Z) (n : nat) : list Z :=
  take n l ++ replicate (n - length l) 0.
Definition safestrcpy_bytes (l : list Z) (n : nat) : list Z :=
  take (n - 1) l ++ 0 :: (if (n - 1 <=? length l)%nat then [] else [0]).

(** ** Lemmas on memory *)
Lemma rd_wr_eq m a v : rd (wr m a v) a = u8 v.
Proof. unfold rd, wr. by rewrite lookup_insert_eq. Qed.
Lemma rd_wr_ne m a b v : a <> b -> rd (wr m a v) b = rd m b.
Proof. intros. unfold rd, wr. by rewrite lookup_insert_ne. Qed.

Lemma length_rd_bytes m a n : length (rd_bytes m a n) = n.
Proof. revert a; induction n; intros; simpl; auto. Qed.

Lemma lookup_rd_bytes m a n i :
  (i < n)%nat -> rd_bytes m a n !! i = Some (rd m (a + Z.of_nat i)).
Proof.
  revert a i; induction n as [|n IH]; intros a i Hi; [lia|].
  destruct i as [|i]; simpl; [by rewrite Z.add_0_r|].
  rewrite IH by lia. do 2 f_equal. lia.
Qed.

Lemma rd_bytes_ext m m' a n :
  (forall x, a <= x < a + Z.of_nat n -> rd m x = rd m' x) ->
  rd_bytes m a n = rd_bytes m' a n.
Proof.
  intros H. apply list_eq. intros i. destruct (decide (i < n)%nat).
  - rewrite !lookup_rd_bytes by done. f_equal. apply H. lia.
  - rewrite !lookup_ge_None_2; rewrite ?length_rd_bytes; try done; lia.
Qed.

Lemma lookup_wr_bytes_in m a l i b :
  l !! i = Some b -> wr_bytes m a l !! (a + Z.of_nat i) = Some (u8 b).
Proof.
  revert m a i; induction l as [|x l IH]; intros m a i Hi; [done|].
  assert (Hout : forall m a x l, x < a -> wr_bytes m a l !! x = m !! x).
  { clear. intros m a x l; revert m a; induction l as [|y l IH]; intros m a Hx; [done|].
    simpl. rewrite IH by lia. unfold wr. by rewrite lookup_insert_ne by lia. }
  destruct i as [|i]; simpl in *.
  - injection Hi as ->. rewrite Z.add_0_r, Hout by lia. unfold wr. by rewrite lookup_insert_eq.
  - replace (a + Z.of_nat (S i)) with (a + 1 + Z.of_nat i) by lia. by apply IH.
Qed.

Lemma lookup_wr_bytes_out m a l x :
  x < a \/ a + Z.of_nat (length l) <= x -> wr_bytes m a l !! x = m !! x.
Proof.
  revert m a; induction l as [|b l IH]; intros m a Hx; [done|]. simpl in *.
  rewrite IH by lia. unfold wr. rewrite lookup_insert_ne by lia. done.
Qed.

Lemma lookup_wr_bytes m a l x :
  wr_bytes m a l !! x =
  if (a <=? x) && (x <? a + Z.of_nat (length l))
  then Some (u8 (aget 0 l (x - a))) else m !! x.
Proof.
  destruct (Z.leb_spec a x); simpl; [|apply lookup_wr_bytes_out; lia].
  destruct (Z.ltb_spec x (a + Z.of_nat (length l))); [|apply lookup_wr_bytes_out; lia].
  destruct (lookup_lt_is_Some_2 l (Z.to_nat (x - a))) as [b Hb]; [lia|].
  replace x with (a + Z.of_nat (Z.to_nat (x - a))) at 1 by lia.
  rewrite (lookup_wr_bytes_in _ _ _ _ _ Hb). by rewrite aget_lookup, Hb.
Qed.

Lemma rd_wr_bytes_out m a l x :
  x < a \/ a + Z.of_nat (length l) <= x -> rd (wr_bytes m a l) x = rd m x.
Proof. intros. unfold rd. by rewrite lookup_wr_bytes_out. Qed.

Lemma rd_bytes_wr_bytes_out m a l b n :
  b + Z.of_nat n <= a \/ a + Z.of_nat (length l) <= b ->
  rd_bytes (wr_bytes m a l) b n = rd_bytes m b n.
Proof. intros. apply rd_bytes_ext. intros. apply rd_wr_bytes_out. lia. Qed.

Lemma rd_bytes_wr_bytes m a l :
  Forall byte_ok l -> rd_bytes (wr_bytes m a l) a (length l) = l.
Proof.
  intros Hl. apply list_eq. intros i. destruct (decide (i < length l)%nat) as [Hi|].
  - rewrite lookup_rd_bytes by done. destruct (lookup_lt_is_Some_2 l i Hi) as [b Hb].
    unfold rd. rewrite (lookup_wr_bytes_in _ _ _ _ _ Hb), Hb. simpl.
    f_equal. apply u8_small. by apply (Forall_lookup_1 _ _ _ _ Hl Hb).
  - rewrite !lookup_ge_None_2; rewrite ?length_rd_bytes; try done; lia.
Qed.

Lemma rd64_wr64 m a v : rd64 (wr64 m a v) a = u64 v.
Proof.
  unfold rd64, wr64. pose proof (rd_bytes_wr_bytes m a (le_enc 8 v) (le_enc_byte_ok 8 v)) as H.
  rewrite length_le_enc in H. rewrite H, le_dec_enc. done.
Qed.

Lemma rd64_wr_bytes_out m a l b :
  b + 8 <= a \/ a + Z.of_nat (length l) <= b -> rd64 (wr_bytes m a l) b = rd64 m b.
Proof. intros. unfold rd64. rewrite rd_bytes_wr_bytes_out; [done|]. lia. Qed.

Lemma rd64_wr64_ne m a b v : b + 8 <= a \/ a + 8 <= b -> rd64 (wr64 m a v) b = rd64 m b.
Proof. intros. unfold wr64. apply rd64_wr_bytes_out. rewrite length_le_enc. lia. Qed.

Lemma wr_bytes_app m a l l' :
  wr_bytes m a (l ++ l') = wr_bytes (wr_bytes m a l) (a + Z.of_nat (length l)) l'.
Proof.
  revert m a; induction l as [|b l IH]; intros m a; simpl; [by rewrite Z.add_0_r|].
  rewrite IH. f_equal. lia.
Qed.

(** ** Lemmas on the string functions *)
Lemma memset_loop_spec m cdst c i k :
  memset_loop m cdst c i k = wr_bytes m (cdst + i) (replicate k c).
Proof.
  revert m i; induction k as [|k IH]; intros m i; simpl; [done|].
  rewrite IH. f_equal. lia.
Qed.

Lemma memset_spec m dst c n : memset m dst c n = wr_bytes m dst (replicate (Z.to_nat n) c).
Proof. unfold memset. by rewrite memset_loop_spec, Z.add_0_r. Qed.

(** The forward loop is right when the destination does not start inside the
    part of the source still to be read, the backward loop when it does not
    end there. *)
Lemma lookup_memmove_up m d s n x :
  d <= s \/ s + Z.of_nat n <= d ->
  memmove_up m d s n !! x =
  if (d <=? x) && (x <? d + Z.of_nat n) then Some (u8 (rd m (s + (x - d)))) else m !! x.
Proof.
  revert m d s; induction n as [|n IH]; intros m d s H.
  - cbn [memmove_up Z.of_nat]. rewrite Z.add_0_r.
    destruct (Z.leb_spec d x), (Z.ltb_spec x d); simpl; try done; lia.
  - cbn [memmove_up]. rewrite IH by lia.
    destruct (Z.leb_spec (d + 1) x), (Z.ltb_spec x (d + 1 + Z.of_nat n)),
      (Z.leb_spec d x), (Z.ltb_spec x (d + Z.of_nat (S n))); simpl; try lia;
      try (unfold wr; rewrite lookup_insert_ne by lia; done).
    + rewrite rd_wr_ne by lia. do 3 f_equal. lia.
    + replace x with d by lia. unfold wr. rewrite lookup_insert_eq. do 3 f_equal. lia.
Qed.

Lemma lookup_memmove_down m d s n x :
  s <= d \/ d <= s - Z.of_nat n ->
  memmove_down m d s n !! x =
  if (d - Z.of_nat n <=? x) && (x <? d) then Some (u8 (rd m (s + (x - d)))) else m !! x.
Proof.
  revert m d s; induction n as [|n IH]; intros m d s H.
  - cbn [memmove_down Z.of_nat]. rewrite Z.sub_0_r.
    destruct (Z.leb_spec d x), (Z.ltb_spec x d); simpl; try done; lia.
  - cbn [memmove_down]. rewrite IH by lia.
    destruct (Z.leb_spec (d - 1 - Z.of_nat n) x), (Z.ltb_spec x (d - 1)),
      (Z.leb_spec (d - Z.of_nat (S n)) x), (Z.ltb_spec x d); simpl; try lia;
      try (unfold wr; rewrite lookup_insert_ne by lia; done).
    + rewrite rd_wr_ne by lia. do 3 f_equal. lia.
    + replace x with (d - 1) by lia. unfold wr. rewrite lookup_insert_eq. do 3 f_equal. lia.
Qed.

Lemma aget_rd_bytes m a n i :
  0 <= i < Z.of_nat n -> aget 0 (rd_bytes m a n) i = rd m (a + i).
Proof.
  intros. rewrite aget_lookup, lookup_rd_bytes by lia. simpl. f_equal. lia.
Qed.

Lemma memmove_spec m dst src n :
  memmove m dst src n = wr_bytes m dst (rd_bytes m src (Z.to_nat n)).
Proof.
  apply map_eq. intros x. rewrite lookup_wr_bytes, length_rd_bytes. unfold memmove.
  destruct (Z.eqb_spec n 0) as [->|].
  { cbn [Z.to_nat Z.of_nat]. rewrite Z.add_0_r.
    destruct (Z.leb_spec dst x), (Z.ltb_spec x dst); simpl; try done; lia. }
  destruct (Z.ltb_spec src dst), (Z.gtb_spec (src + n) dst); simpl;
    rewrite ?lookup_memmove_down, ?lookup_memmove_up by lia;
    (destruct (Z.leb_spec dst x), (Z.ltb_spec x (dst + Z.of_nat (Z.to_nat n))); simpl;
     [rewrite aget_rd_bytes by lia|..]);
    try destruct (Z.leb_spec (dst + n - Z.of_nat (Z.to_nat n)) x);
    try destruct (Z.ltb_spec x (dst + n)); simpl; try done; try lia.
  do 3 f_equal. lia.
Qed.

Lemma cstrn_lt s i n : (length (cstrn s i n) <= n)%nat.
Proof. revert i; induction n; intros; simpl; [done|]. case_match; simpl; [lia|]. specialize (IHn (i + 1)). lia. Qed.

Lemma strncmp_loop_spec p q i n :
  (forall j, byte_ok (p j)) -> (forall j, byte_ok (q j)) ->
  strncmp_loop p q i n = 0 <-> cstrn p i n = cstrn q i n.
Proof.
  intros Hp Hq. revert i. induction n as [|n IH]; intros i; cbn [strncmp_loop cstrn]; [done|].
  pose proof (Hp i) as Hpi. pose proof (Hq i) as Hqi. unfold byte_ok in *. unfold ctrue.
  destruct (Z.eqb_spec (p i) 0), (Z.eqb_spec (q i) 0), (Z.eqb_spec (p i) (q i)); simpl;
    rewrite ?u8_small by lia; try lia; try (split; [lia|congruence]); try (split; [lia|intros [=]; lia]).
  { split; [done|lia]. }
  rewrite IH. split; [intros ->; congruence|by intros [=]].
Qed.

Lemma is_str_cons s b l :
  is_str s (b :: l) -> s 0 = b /\ 0 < b < 256 /\ is_str (fun j => s (j + 1)) l.
Proof.
  intros (Hb & Hi & H0). inversion Hb; subst. cbn [length] in *.
  split_and!; [by rewrite (Hi 0) by lia|lia|lia|split_and!; [done| |]].
  - intros j Hj. rewrite Hi by lia. unfold aget.
    by replace (Z.to_nat (j + 1)) with (S (Z.to_nat j)) by lia.
  - rewrite <- H0. f_equal. lia.
Qed.

Lemma is_str_nil s : is_str s [] -> s 0 = 0.
Proof. by intros (_ & _ & H). Qed.

Lemma is_str_ext s s' l :
  (forall j, 0 <= j <= Z.of_nat (length l) -> s j = s' j) -> is_str s l -> is_str s' l.
Proof.
  intros He (Hb & Hi & H0). split_and!; [done| |].
  - intros. rewrite <- He by lia. by apply Hi.
  - by rewrite <- He by lia.
Qed.

(** A loop that copies a string of which the destination is clear. *)
Lemma copy_loop_spec m s t l n :
  is_str (at_mem m t) l ->
  s + Z.of_nat n <= t \/ t + Z.of_nat (length l) < s ->
  copy_loop m s t n =
  if (n <=? length l)%nat then (wr_bytes m s (take n l), s + Z.of_nat n, O)
  else (wr_bytes m s (l ++ [0]), s + Z.of_nat (length l) + 1, (n - length l - 1)%nat).
Proof.
  revert m s t l; induction n as [|n IH]; intros m s t l Hl Hd.
  { simpl. by rewrite Z.add_0_r. }
  destruct l as [|b l].
  - apply is_str_nil in Hl. unfold at_mem in Hl. rewrite Z.add_0_r in Hl.
    cbn. rewrite Hl. cbn. by rewrite Z.add_0_r, Nat.sub_0_r.
  - apply is_str_cons in Hl as (H0 & Hb & Hl). unfold at_mem in H0. rewrite Z.add_0_r in H0.
    cbn [copy_loop]. rewrite H0. destruct (Z.eqb_spec b 0); [lia|]. cbn [length] in *.
    rewrite (IH _ _ _ l); [| |lia].
    + cbn [Nat.leb take]. destruct (Nat.leb_spec n (length l)).
      * do 2 f_equal. lia.
      * do 2 f_equal. lia.
    + revert Hl. apply is_str_ext. intros j Hj. unfold at_mem.
      rewrite rd_wr_ne by lia. f_equal. lia.
Qed.

Lemma strlen_loop_spec s l i fuel :
  is_str (fun j => s (i + j)) l -> (length l < fuel)%nat ->
  strlen_loop s i fuel = Some (i + Z.of_nat (length l)).
Proof.
  revert i fuel; induction l as [|b l IH]; intros i fuel Hl Hf;
    (destruct fuel as [|fuel]; [cbn in Hf; lia|]); cbn [strlen_loop length] in *.
  - apply is_str_nil in Hl. rewrite Z.add_0_r in *. by rewrite Hl.
  - apply is_str_cons in Hl as (H0 & Hb & Hl). rewrite Z.add_0_r in H0. rewrite H0.
    unfold ctrue. destruct (Z.eqb_spec b 0); [lia|]. simpl.
    rewrite IH; [f_equal; lia| |lia].
    revert Hl. apply is_str_ext. intros. f_equal. lia.
Qed.

Lemma is_str_written m s l l' :
  Forall (fun b => 0 < b < 256) l -> is_str (at_mem (wr_bytes m s (l ++ 0 :: l')) s) l.
Proof.
  intros Hl. split_and!; [done| |].
  - intros i Hi. destruct (lookup_lt_is_Some_2 l (Z.to_nat i)) as [b Hb]; [lia|].
    unfold at_mem, rd. replace i with (Z.of_nat (Z.to_nat i)) at 1 by lia.
    rewrite (lookup_wr_bytes_in _ _ _ _ b) by (by apply lookup_app_l_Some).
    rewrite aget_lookup, Hb. simpl. apply u8_small.
    pose proof (Forall_lookup_1 _ _ _ _ Hl Hb). simpl in *. lia.
  - unfold at_mem, rd. rewrite (lookup_wr_bytes_in _ _ _ _ 0); [done|].
    by rewrite lookup_app_r, Nat.sub_diag by lia.
Qed.

(** ** Properties *)

(** [memmove] copies the [n] bytes that were at [src] to [dst] and
    touches nothing else, however the two regions overlap, so a later read
    of [dst] sees the old contents of [src]. *)
Lemma memmove_copies m dst src n :
  memmove m dst src n = wr_bytes m dst (rd_bytes m src (Z.to_nat n)) /\
  (forall i, 0 <= i < n -> rd (memmove m dst src n) (dst + i) = u8 (rd m (src + i))) /\
  (forall x, x < dst \/ dst + n <= x -> rd (memmove m dst src n) x = rd m x).
Proof.
  rewrite memmove_spec. split_and!; [done| |].
  - intros i Hi. unfold rd at 1. rewrite lookup_wr_bytes, length_rd_bytes.
    destruct (Z.leb_spec dst (dst + i)), (Z.ltb_spec (dst + i) (dst + Z.of_nat (Z.to_nat n)));
      simpl; try lia. rewrite aget_rd_bytes by lia. do 2 f_equal. lia.
  - intros x Hx. apply rd_wr_bytes_out. rewrite length_rd_bytes. lia.
Qed.

(** The bounded copies: with source and destination apart, [strncpy]
    fills exactly [n] bytes, padding with NULs and truncating without a NUL;
    [safestrcpy] writes at most [n] bytes with a NUL among them, so that
    [strlen] of its result is the shorter of [n - 1] and the source. *)
Lemma bounded_copies m s t l n fuel :
  is_str (at_mem m t) l -> 0 < n -> s + n <= t \/ t + Z.of_nat (length l) < s ->
  (Z.to_nat n < fuel)%nat ->
  strncpy m s t n = wr_bytes m s (strncpy_bytes l (Z.to_nat n)) /\
  length (strncpy_bytes l (Z.to_nat n)) = Z.to_nat n /\
  (length (safestrcpy_bytes l (Z.to_nat n)) <= Z.to_nat n)%nat /\
  safestrcpy m s t n = wr_bytes m s (safestrcpy_bytes l (Z.to_nat n)) /\
  strlen fuel (at_mem (safestrcpy m s t n) s) = Some (Z.min (n - 1) (Z.of_nat (length l))).
Proof.
  intros Hl Hn Hd Hf.
  assert (Hsafe : safestrcpy m s t n = wr_bytes m s (safestrcpy_bytes l (Z.to_nat n))).
  { unfold safestrcpy, safestrcpy_bytes. destruct (Z.leb_spec n 0); [lia|].
    rewrite (copy_loop_spec _ _ _ l) by (done || lia).
    replace (Z.to_nat (n - 1)) with (Z.to_nat n - 1)%nat by lia.
    destruct (Nat.leb_spec (Z.to_nat n - 1) (length l)).
    - rewrite wr_bytes_app, length_take, Nat.min_l by lia. done.
    - rewrite take_ge by lia. rewrite !wr_bytes_app. done. }
  split_and!; [|unfold strncpy_bytes; rewrite length_app, length_take, length_replicate; lia| |done|].
  - unfold strncpy, strncpy_bytes. rewrite (copy_loop_spec _ _ _ l) by (done || lia).
    destruct (Nat.leb_spec (Z.to_nat n) (length l)); rewrite memset_loop_spec, Z.add_0_r.
    + replace (Z.to_nat n - length l)%nat with O by lia. by rewrite app_nil_r.
    + rewrite take_ge by lia. rewrite !wr_bytes_app.
      destruct (Z.to_nat n - length l)%nat as [|k] eqn:E; [lia|]. cbn [Nat.sub]. by rewrite Nat.sub_0_r.
  - unfold safestrcpy_bytes. rewrite length_app, length_take.
    destruct (Nat.leb_spec (Z.to_nat n - 1) (length l)); cbn [length]; lia.
  - rewrite Hsafe. unfold strlen. rewrite (strlen_loop_spec _ (take (Z.to_nat n - 1) l)).
    + rewrite length_take. f_equal. lia.
    + apply is_str_written. destruct Hl as (Hb & _). by apply Forall_take.
    + rewrite length_take. lia.
Qed.

Lemma bounded_copies_witness :
  let m := wr_bytes ∅ 100 [104; 105; 0] in
  safestrcpy m 0 100 2 = wr_bytes m 0 [104; 0] /\
  strlen 10 (at_mem (safestrcpy m 0 100 2) 0) = Some 1.
Proof.
  destruct (bounded_copies (wr_bytes ∅ 100 [104; 105; 0]) 0 100 [104; 105] 2 10) as (_ & _ & _ & H1 & H2).
  - split_and!; [repeat constructor; lia| |reflexivity].
    intros i Hi. cbn in Hi. assert (i = 0 \/ i = 1) as [-> | ->] by lia; reflexivity.
  - lia.
  - lia.
  - cbn. lia.
  - split; [exact H1|exact H2].
Defined.
