(* ===== verification/Kalloc.v ===== *)
(** * The physical page allocator

    kernel/kalloc.c.  The free list is threaded through the free pages
    themselves: the first eight bytes of a free page hold the address of the
    next one.  [kmem_inv s l] says that the list in memory is [l]; the
    theorems show that [kfree] and [kalloc] are push and pop on it. *)

From S2P Require Import Prelude Params Kernel Spinlock StringC.

Definition upd_mem (f : mem -> mem) (s : kernel) : kernel := set_k_mem (f (k_mem s)) s.

Section Kalloc.
Context `{KernelImage}.

(** ** kernel/kalloc.c *)
Definition kfree (pa : Z) : K unit :=
  if negb (pa mod PGSIZE =? 0) || (pa <? end_) || (pa >=? PHYSTOP) then panic "kfree" else
  modify (upd_mem (fun m => memset m pa 1 PGSIZE)) ;;
  acquire L_kmem ;;
  modify (fun s => upd_mem (fun m => wr64 m pa (k_freelist s)) s) ;;
  modify (set_k_freelist pa) ;;
  release L_kmem.

Definition kalloc : K Z :=
  acquire L_kmem ;;
  let* r := gets k_freelist in
  when (ctrue r) (modify (fun s => set_k_freelist (rd64 (k_mem s) r) s)) ;;
  release L_kmem ;;
  when (ctrue r) (modify (upd_mem (fun m => memset m r 5 PGSIZE))) ;;
  ret r.

Definition freerange (pa_start pa_end : Z) : K unit :=
  loop (fun p =>
    if p + PGSIZE <=? pa_end then kfree p ;; ret (inl (p + PGSIZE)) else ret (inr tt))
    (PGROUNDUP pa_start).

Definition kinit : K unit := initlock L_kmem ;; freerange end_ PHYSTOP.

(** ** The abstract free list *)
Definition page_ok (p : Z) : Prop := p mod PGSIZE = 0 /\ end_ <= p < PHYSTOP.

Fixpoint free_chain (m : mem) (h : Z) (l : list Z) : Prop :=
  match l with
  | [] => h = 0
  | p :: l' => h = p /\ page_ok p /\ free_chain m (rd64 m p) l'
  end.
Definition kmem_inv (s : kernel) (l : list Z) : Prop :=
  free_chain (k_mem s) (k_freelist s) l /\ NoDup l.

(** ** Effects on the state *)
Definition kfree_st (pa : Z) (s : kernel) : kernel :=
  set_k_freelist pa (upd_mem (fun m => wr64 (memset m pa 1 PGSIZE) pa (k_freelist s)) s).
Definition kalloc_st (s : kernel) : kernel :=
  let r := k_freelist s in
  if r =? 0 then s else
  upd_mem (fun m => memset m r 5 PGSIZE) (set_k_freelist (rd64 (k_mem s) r) s).

(** ** Lemmas *)
Lemma page_ok_bounds p : page_ok p -> 0 < p < 2 ^ 56.
Proof.
  intros [_ Hp]. pose proof image_order as Ho. unfold PHYSTOP, KERNBASE in *.
  change (2 ^ 56) with 72057594037927936. lia.
Qed.

(** Two pages are the same or do not overlap. *)
Lemma pages_apart p q :
  p mod PGSIZE = 0 -> q mod PGSIZE = 0 -> p <> q -> p + PGSIZE <= q \/ q + PGSIZE <= p.
Proof. unfold PGSIZE. intros. Z.to_euclidean_division_equations. lia. Qed.

Lemma kfree_run n s pa :
  cpu_ok (k_lk s) -> lk_free L_kmem (k_lk s) -> page_ok pa ->
  kfree pa n s = Ret tt (kfree_st pa s).
Proof.
  intros Hok Hl [Ha Hr]. unfold kfree. rewrite Ha.
  destruct (Z.ltb_spec pa end_), (Z.geb_spec pa PHYSTOP); try lia. cbn [Z.eqb negb orb].
  rewrite bind_modify. kcall acquire_run.
  rewrite !bind_modify. by apply (release_after_run n (kfree_st pa s)).
Qed.

Lemma kfree_bad n s pa :
  ~ page_ok pa -> kfree pa n s = Panic "kfree" s.
Proof.
  intros Hb. unfold kfree, page_ok in *.
  destruct (Z.eqb_spec (pa mod PGSIZE) 0), (Z.ltb_spec pa end_), (Z.geb_spec pa PHYSTOP);
    try done. exfalso. apply Hb. split; [done|lia].
Qed.

Lemma kalloc_run n s :
  cpu_ok (k_lk s) -> lk_free L_kmem (k_lk s) ->
  kalloc n s = Ret (k_freelist s) (kalloc_st s).
Proof.
  intros Hok Hl. unfold kalloc, kalloc_st.
  rewrite (bind_ret _ _ _ _ _ _ (acquire_run n s L_kmem Hok Hl)).
  rewrite bind_gets. change (k_freelist (upd_lk (acq L_kmem) s)) with (k_freelist s).
  unfold ctrue. destruct (Z.eqb_spec (k_freelist s) 0) as [E|E]; cbn [negb when].
  - rewrite bind_ret_l, (bind_ret _ _ _ _ _ _ (release_after_run n s L_kmem Hok Hl)). done.
  - rewrite bind_modify.
    set (s1 := set_k_freelist (rd64 (k_mem s) (k_freelist s)) s).
    by rewrite (bind_ret _ _ _ _ _ _ (release_after_run n s1 L_kmem Hok Hl)).
Qed.

(** Two states that differ in physical memory and the free list only. *)
Definition mem_only (s s' : kernel) : Prop :=
  s' = set_k_freelist (k_freelist s') (set_k_mem (k_mem s') s).
Lemma mem_only_refl s : mem_only s s.
Proof. done. Qed.
Lemma mem_only_trans s s1 s2 : mem_only s s1 -> mem_only s1 s2 -> mem_only s s2.
Proof. unfold mem_only. intros E1 E2. rewrite E2, E1. done. Qed.
Lemma mem_only_upd_mem f s : mem_only s (upd_mem f s).
Proof. done. Qed.
Lemma mem_only_freelist v s : mem_only s (set_k_freelist v s).
Proof. done. Qed.
Lemma mem_only_kalloc s : mem_only s (kalloc_st s).
Proof.
  unfold kalloc_st. destruct (_ =? 0); [apply mem_only_refl|].
  eapply mem_only_trans; [apply mem_only_freelist|apply mem_only_upd_mem].
Qed.
Lemma mem_only_kfree pa s : mem_only s (kfree_st pa s).
Proof. eapply mem_only_trans; [apply mem_only_upd_mem|apply mem_only_freelist]. Qed.
Lemma mem_only_lk s s' : mem_only s s' -> k_lk s' = k_lk s.
Proof. by intros ->. Qed.

(** The chain only reads the free pages. *)
Lemma free_chain_ext m m' h l :
  (forall p, p ∈ l -> rd64 m p = rd64 m' p) -> free_chain m h l -> free_chain m' h l.
Proof.
  revert h; induction l as [|p l IH]; intros h He; simpl; [done|].
  intros (-> & Hp & Hc). split_and!; [done|done|].
  rewrite <- He by left. apply IH; [|done]. intros. apply He. by right.
Qed.

Lemma free_chain_pages m h l : free_chain m h l -> Forall page_ok l.
Proof. revert h; induction l; simpl; [constructor|]. intros h (_ & Hp & Hc). constructor; eauto. Qed.

(** A write inside one page leaves the links of the other pages alone. *)
Lemma free_chain_write m pa bs h l :
  pa mod PGSIZE = 0 -> (length bs <= 4096)%nat -> pa ∉ l ->
  free_chain m h l -> free_chain (wr_bytes m pa bs) h l.
Proof.
  intros Hpa Hlen Hni Hc. pose proof (free_chain_pages _ _ _ Hc) as Hp.
  revert Hc. apply free_chain_ext. intros p Hin. symmetry. apply rd64_wr_bytes_out.
  rewrite Forall_forall in Hp. destruct (Hp p Hin) as [Hal _].
  destruct (pages_apart p pa Hal Hpa); [congruence|..]; unfold PGSIZE in *; lia.
Qed.

Lemma kfree_inv s pa l :
  page_ok pa -> pa ∉ l -> kmem_inv s l -> kmem_inv (kfree_st pa s) (pa :: l).
Proof.
  intros Hp Hni [Hc Hnd]. split; [|by constructor].
  assert (Hh : u64 (k_freelist s) = k_freelist s).
  { destruct l as [|q l]; simpl in Hc; [by rewrite Hc|].
    destruct Hc as (-> & Hq%page_ok_bounds & _). apply u64_small.
    change (2 ^ 56) with 72057594037927936 in Hq. lia. }
  cbn [free_chain]. split_and!; [done|done|].
  change (k_mem (kfree_st pa s)) with (wr64 (memset (k_mem s) pa 1 PGSIZE) pa (k_freelist s)).
  rewrite rd64_wr64, Hh.
  unfold wr64. rewrite memset_spec.
  destruct Hp as [Ha _].
  apply free_chain_write; [done|rewrite length_le_enc; lia|done|].
  apply free_chain_write; [done|rewrite length_replicate; reflexivity|done|done].
Qed.

Lemma kalloc_inv s p l :
  kmem_inv s (p :: l) ->
  k_freelist s = p /\ page_ok p /\ kmem_inv (kalloc_st s) l /\
  kalloc_st s = upd_mem (fun m => memset m p 5 PGSIZE)
                  (set_k_freelist (k_freelist (kalloc_st s)) s).
Proof.
  intros [(Hh & Hp & Hc) Hnd]. apply NoDup_cons in Hnd as [Hni Hnd].
  pose proof (page_ok_bounds _ Hp). unfold kalloc_st, kmem_inv. rewrite Hh.
  destruct (Z.eqb_spec p 0); [lia|].
  split_and!; [done|done| |done|done].
  change (k_mem (upd_mem ?f (set_k_freelist ?v s))) with (f (k_mem s)); cbn beta.
  rewrite memset_spec. apply free_chain_write; [apply Hp|rewrite length_replicate; reflexivity|done|done].
Qed.

(** The pages of a range, in the order [freerange] leaves them on the list. *)
Fixpoint pages_onto (p : Z) (k : nat) (l : list Z) : list Z :=
  match k with O => l | S k' => pages_onto (p + PGSIZE) k' (p :: l) end.

Lemma elem_of_pages_onto p k l x :
  x ∈ pages_onto p k l <-> x ∈ l \/ exists i, (i < k)%nat /\ x = p + Z.of_nat i * PGSIZE.
Proof.
  revert p l; induction k as [|k IH]; intros p l; cbn [pages_onto].
  - split; [by left|]. intros [?|(i & ? & _)]; [done|lia].
  - rewrite IH, elem_of_cons. split.
    + intros [[->|?]|(i & Hi & ->)]; [right; exists O; lia|by left|right; exists (S i); lia].
    + intros [?|(i & Hi & ->)]; [by left; right|].
      destruct i as [|i]; [left; left; lia|right; exists i; lia].
Qed.

Lemma length_pages_onto p k l : length (pages_onto p k l) = (k + length l)%nat.
Proof. revert p l; induction k as [|k IH]; intros; cbn [pages_onto]; [done|]. rewrite IH. simpl. lia. Qed.

(** The loop of [freerange] from page [p], [k] pages before the end. *)
Lemma freerange_loop n f p k pa_end s l :
  cpu_ok (k_lk s) -> lk_free L_kmem (k_lk s) -> kmem_inv s l -> (k < f)%nat ->
  p mod PGSIZE = 0 -> end_ <= p -> pa_end <= PHYSTOP ->
  p + Z.of_nat k * PGSIZE <= pa_end < p + Z.of_nat (S k) * PGSIZE ->
  Forall (fun q => q < p) l ->
  exists s', iter_upto f (fun p =>
      if p + PGSIZE <=? pa_end then kfree p ;; ret (inl (p + PGSIZE)) else ret (inr tt)) p n s
    = Ret tt s' /\ kmem_inv s' (pages_onto p k l) /\ k_lk s' = k_lk s.
Proof.
  revert f p s l; induction k as [|k IH]; intros f p s l Hok Hlk Hinv Hf Hp He Hend Hk Hall;
    (destruct f as [|f]; [lia|]); cbn [iter_upto pages_onto].
  - destruct (Z.leb_spec (p + PGSIZE) pa_end); [unfold PGSIZE in *; lia|].
    exists s. by rewrite bind_ret_l.
  - destruct (Z.leb_spec (p + PGSIZE) pa_end); [|unfold PGSIZE in *; lia].
    assert (Hpo : page_ok p) by (split; [done|unfold PGSIZE in *; lia]).
    assert (Hni : p ∉ l) by (intros Hin; rewrite Forall_forall in Hall; specialize (Hall p Hin); simpl in Hall; lia).
    rewrite (bind_ret _ _ n s (inl (p + PGSIZE)) (kfree_st p s)) by (by kcall kfree_run).
    destruct (IH f (p + PGSIZE) (kfree_st p s) (p :: l)) as (s' & H1 & H2 & H3);
      [done|done|by apply kfree_inv|lia| |unfold PGSIZE; lia|done|unfold PGSIZE in *; lia| |..].
    + rewrite <- Hp. unfold PGSIZE. rewrite <- (Z.mod_add p 1 4096) by lia. done.
    + constructor; [unfold PGSIZE; lia|]. eapply Forall_impl; [exact Hall|]. simpl. intros; unfold PGSIZE; lia.
    + exists s'. rewrite H1. split_and!; done.
Qed.

(** ** Properties *)

(** C23: [kfree] pushes a page on the free list and [kalloc] pops one: with
    the list in memory being [l], a page that is not on it can be freed, the
    list is then [pa :: l] and only that page was written; [kalloc] returns 0
    on an empty list and otherwise the head, filled with junk, leaving the
    tail; so a page is never handed out twice. *)
Theorem kalloc_kfree_refine n s l :
  cpu_ok (k_lk s) -> lk_free L_kmem (k_lk s) -> kmem_inv s l ->
  (forall pa, page_ok pa -> pa ∉ l ->
     exists s', kfree pa n s = Ret tt s' /\ kmem_inv s' (pa :: l) /\ k_lk s' = k_lk s /\
       (forall x, x < pa \/ pa + PGSIZE <= x -> rd (k_mem s') x = rd (k_mem s) x)) /\
  (forall pa, ~ page_ok pa -> kfree pa n s = Panic "kfree" s) /\
  match l with
  | [] => kalloc n s = Ret 0 s
  | p :: l' =>
      exists s', kalloc n s = Ret p s' /\ page_ok p /\ p ∉ l' /\ kmem_inv s' l' /\ k_lk s' = k_lk s /\
        rd_bytes (k_mem s') p 4096 = replicate 4096 5 /\
        (forall x, x < p \/ p + PGSIZE <= x -> rd (k_mem s') x = rd (k_mem s) x)
  end.
Proof.
  intros Hok Hl Hinv. split_and!.
  - intros pa Hp Hni. exists (kfree_st pa s).
    split_and!; [by apply kfree_run|by apply kfree_inv|done|].
    intros x Hx. change (k_mem (kfree_st pa s)) with (wr64 (memset (k_mem s) pa 1 PGSIZE) pa (k_freelist s)).
    unfold wr64. rewrite memset_spec, !rd_wr_bytes_out; rewrite ?length_le_enc, ?length_replicate;
      unfold PGSIZE in *; try done; lia.
  - intros. by apply kfree_bad.
  - destruct l as [|p l].
    + rewrite kalloc_run by done. destruct Hinv as [Hh _]. cbn in Hh. unfold kalloc_st. by rewrite Hh.
    + destruct (kalloc_inv _ _ _ Hinv) as (Hh & Hp & Hinv' & Hst). exists (kalloc_st s).
      rewrite kalloc_run, Hh by done. destruct Hinv as [_ [Hni _]%NoDup_cons].
      assert (Hm : k_mem (kalloc_st s) = wr_bytes (k_mem s) p (replicate (Z.to_nat PGSIZE) 5))
        by (rewrite Hst, <- memset_spec; done).
      split_and!; [done|done|done|done|by rewrite Hst| |].
      * rewrite Hm. apply (rd_bytes_wr_bytes _ _ (replicate 4096 5)).
        apply Forall_replicate. unfold byte_ok. lia.
      * intros x Hx. rewrite Hm. apply rd_wr_bytes_out. rewrite length_replicate. unfold PGSIZE in *. lia.
Qed.

(** C24: [freerange] terminates and puts every whole page between its bounds
    on the free list, each once, keeping what was there. *)
Theorem freerange_refines n s l pa_start pa_end k :
  cpu_ok (k_lk s) -> lk_free L_kmem (k_lk s) -> kmem_inv s l -> (k < n)%nat ->
  end_ <= pa_start <= PHYSTOP -> pa_end <= PHYSTOP ->
  PGROUNDUP pa_start + Z.of_nat k * PGSIZE <= pa_end < PGROUNDUP pa_start + Z.of_nat (S k) * PGSIZE ->
  Forall (fun q => q < pa_start) l ->
  exists s', freerange pa_start pa_end n s = Ret tt s' /\ k_lk s' = k_lk s /\
    kmem_inv s' (pages_onto (PGROUNDUP pa_start) k l) /\
    (forall x, x ∈ pages_onto (PGROUNDUP pa_start) k l <->
       x ∈ l \/ (x mod PGSIZE = 0 /\ pa_start <= x /\ x + PGSIZE <= pa_end)).
Proof.
  intros Hok Hlk Hinv Hf Hs He Hk Hall.
  assert (Hup : PGROUNDUP pa_start mod PGSIZE = 0 /\ pa_start <= PGROUNDUP pa_start < pa_start + PGSIZE).
  { apply PGROUNDUP_spec. pose proof image_order. unfold PHYSTOP, KERNBASE, PGSIZE in *.
    change (2 ^ 64) with 18446744073709551616. lia. }
  destruct (freerange_loop n n (PGROUNDUP pa_start) k pa_end s l) as (s' & H1 & H2 & H3);
    try done; [apply Hup|lia| |].
  { eapply Forall_impl; [exact Hall|]. simpl. intros; lia. }
  exists s'. split_and!; [done|done|done|].
  intros x. rewrite elem_of_pages_onto. unfold PGSIZE in *. split; intros [?|Hx]; try (by left); right.
  - destruct Hx as (i & Hi & ->). rewrite Z.mod_add by lia. lia.
  - destruct Hx as (Hx1 & Hx2 & Hx3). exists (Z.to_nat ((x - PGROUNDUP pa_start) / 4096)).
    Z.to_euclidean_division_equations. lia.
Qed.

End Kalloc.

(** ** Witnesses *)

(** Three free pages of the linked image, two of them on the list. *)
Definition ex_kmem : kernel :=
  kfree_st 0x80023000 (kfree_st 0x80022000 (set_k_lk (boot_lk [L_kmem]) bss)).

Lemma ex_cpu_ok lks : cpu_ok (boot_lk lks).
Proof. unfold cpu_ok. cbn. split_and!; auto; try lia; intros; vm_compute in *; congruence. Qed.

Lemma ex_kmem_inv : kmem_inv ex_kmem [0x80023000; 0x80022000].
Proof.
  apply kfree_inv; [split; [reflexivity|vm_compute; intuition congruence]|set_solver|].
  apply kfree_inv; [split; [reflexivity|vm_compute; intuition congruence]|set_solver|].
  split; [reflexivity|constructor].
Qed.

Lemma kalloc_kfree_refine_witness :
  exists s', kalloc 5%nat ex_kmem = Ret 0x80023000 s' /\ kmem_inv s' [0x80022000].
Proof.
  destruct (kalloc_kfree_refine 5%nat ex_kmem [0x80023000; 0x80022000]) as (_ & _ & s' & H1 & _ & _ & H2 & _).
  - apply ex_cpu_ok.
  - reflexivity.
  - apply ex_kmem_inv.
  - exists s'. split; assumption.
Defined.

Lemma freerange_refines_witness :
  exists s', freerange end_ 0x80024000 5%nat (set_k_lk (boot_lk [L_kmem]) bss) = Ret tt s' /\
    kmem_inv s' [0x80023000; 0x80022000].
Proof.
  destruct (freerange_refines 5%nat (set_k_lk (boot_lk [L_kmem]) bss) [] end_ 0x80024000 2)
    as (s' & H1 & _ & H2 & _).
  - apply ex_cpu_ok.
  - reflexivity.
  - split; [reflexivity|constructor].
  - lia.
  - vm_compute; intuition congruence.
  - vm_compute; congruence.
  - vm_compute; intuition congruence.
  - constructor.
  - exists s'. split; [exact H1|exact H2].
Defined.
