(* ===== verification/Vm.v ===== *)
(** * Virtual memory

    kernel/vm.c and [proc_mapstacks] of kernel/proc.c: Sv39 page tables kept
    in physical memory, the kernel's direct map, user address spaces and the
    copies between kernel and user memory.  A [pte_t *] is the physical
    address of the entry.  Kernel buffers that [copyout] reads or [copyin]
    fills are lists of bytes. *)

From S2P Require Import Prelude Params Kernel Spinlock StringC Kalloc.

Definition pte_read (a : Z) : K Z := gets (fun s => rd64 (k_mem s) a).
Definition pte_write (a v : Z) : K unit := modify (upd_mem (fun m => wr64 m a v)).
Definition mem_set (dst c n : Z) : K unit := modify (upd_mem (fun m => memset m dst c n)).
Definition mem_put (dst : Z) (l : list Z) : K unit := modify (upd_mem (fun m => wr_bytes m dst l)).

(** Bitwise or of 64-bit values is a 64-bit value. *)
Lemma u64_lor a b : u64 a = a -> u64 b = b -> u64 (Z.lor a b) = Z.lor a b.
Proof.
  unfold u64, uwrap. rewrite <- !Z.land_ones by lia. intros Ha Hb.
  by rewrite Z.land_lor_distr_l, Ha, Hb.
Qed.

(** Page-sized loops are only reasoned about through their lemmas. *)
#[local] Opaque memset wr_bytes.

Section Vm.
Context `{KernelImage}.

(** The loop of [walk]: [level] counts down to the leaf table. *)
Fixpoint walk_from (level : nat) (pagetable va : Z) (alloc : bool) : K Z :=
  match level with
  | O => ret (pagetable + 8 * PX 0 va)
  | S level' =>
      let pte := pagetable + 8 * PX (Z.of_nat level) va in
      let* v := pte_read pte in
      if ctrue (Z.land v PTE_V) then walk_from level' (PTE2PA v) va alloc
      else if negb alloc then ret 0 else
        let* pg := kalloc in
        if pg =? 0 then ret 0 else
        mem_set pg 0 PGSIZE ;;
        pte_write pte (Z.lor (PA2PTE pg) PTE_V) ;;
        walk_from level' pg va alloc
  end.
Definition walk (pagetable va : Z) (alloc : bool) : K Z :=
  if va >=? MAXVA then panic "walk" else walk_from 2 pagetable va alloc.

Definition walkaddr (pagetable va : Z) : K Z :=
  if va >=? MAXVA then ret 0 else
  let* pte := walk pagetable va false in
  if pte =? 0 then ret 0 else
  let* v := pte_read pte in
  if Z.land v PTE_V =? 0 then ret 0 else
  if Z.land v PTE_U =? 0 then ret 0 else
  ret (PTE2PA v).

Definition mappages (pagetable va size pa perm : Z) : K Z :=
  if size =? 0 then panic "mappages: size" else
  let a := PGROUNDDOWN va in
  let last := PGROUNDDOWN (u64 (va + size - 1)) in
  loop (fun '(a, pa) =>
    let* pte := walk pagetable a true in
    if pte =? 0 then ret (inr (-1)) else
    let* v := pte_read pte in
    if ctrue (Z.land v PTE_V) then panic "mappages: remap" else
    pte_write pte (Z.lor (Z.lor (PA2PTE pa) perm) PTE_V) ;;
    if a =? last then ret (inr 0) else
    ret (inl (u64 (a + PGSIZE), u64 (pa + PGSIZE)))) (a, pa).

Definition kvmmap (kpgtbl va pa sz perm : Z) : K unit :=
  let* r := mappages kpgtbl va sz pa perm in
  when (ctrue r) (panic "kvmmap").

(** [proc_mapstacks] of kernel/proc.c. *)
Definition proc_mapstacks (kpgtbl : Z) : K unit :=
  forall_do (seqZ 0 NPROC) (fun p =>
    let* pa := kalloc in
    when (pa =? 0) (panic "kalloc") ;;
    kvmmap kpgtbl (KSTACK p) pa PGSIZE (Z.lor PTE_R PTE_W)).

Definition kvmmake : K Z :=
  let* kpgtbl := kalloc in
  mem_set kpgtbl 0 PGSIZE ;;
  kvmmap kpgtbl UART0 UART0 PGSIZE (Z.lor PTE_R PTE_W) ;;
  kvmmap kpgtbl VIRTIO0 VIRTIO0 PGSIZE (Z.lor PTE_R PTE_W) ;;
  kvmmap kpgtbl PLIC PLIC 0x400000 (Z.lor PTE_R PTE_W) ;;
  kvmmap kpgtbl KERNBASE KERNBASE (etext - KERNBASE) (Z.lor PTE_R PTE_X) ;;
  kvmmap kpgtbl etext etext (PHYSTOP - etext) (Z.lor PTE_R PTE_W) ;;
  kvmmap kpgtbl TRAMPOLINE trampoline PGSIZE (Z.lor PTE_R PTE_X) ;;
  proc_mapstacks kpgtbl ;;
  ret kpgtbl.

Definition kvminit : K unit :=
  let* kpgtbl := kvmmake in modify (set_k_kpgtbl kpgtbl).

(** [sfence_vma] orders the table walks of the hardware, which read [k_mem]
    directly here. *)
Definition kvminithart : K unit :=
  modify (fun s => upd_lk (upd_hart (set_satp (MAKE_SATP (k_kpgtbl s)))) s).

Definition uvmunmap (pagetable va npages : Z) (do_free : bool) : K unit :=
  if negb (va mod PGSIZE =? 0) then panic "uvmunmap: not aligned" else
  loop (fun a =>
    if negb (a <? u64 (va + npages * PGSIZE)) then ret (inr tt) else
    let* pte := walk pagetable a false in
    if pte =? 0 then panic "uvmunmap: walk" else
    let* v := pte_read pte in
    if Z.land v PTE_V =? 0 then panic "uvmunmap: not mapped" else
    if PTE_FLAGS v =? PTE_V then panic "uvmunmap: not a leaf" else
    when do_free (kfree (PTE2PA v)) ;;
    pte_write pte 0 ;;
    ret (inl (u64 (a + PGSIZE)))) va.

Definition uvmcreate : K Z :=
  let* pagetable := kalloc in
  if pagetable =? 0 then ret 0 else
  mem_set pagetable 0 PGSIZE ;;
  ret pagetable.

Definition uvmfirst (pagetable : Z) (src : list Z) : K unit :=
  let sz := Z.of_nat (length src) in
  if sz >=? PGSIZE then panic "uvmfirst: more than a page" else
  let* mem := kalloc in
  mem_set mem 0 PGSIZE ;;
  mappages pagetable 0 PGSIZE mem (Z.lor (Z.lor (Z.lor PTE_W PTE_R) PTE_X) PTE_U) ;;
  mem_put mem src.

Definition uvmdealloc (pagetable oldsz newsz : Z) : K Z :=
  if newsz >=? oldsz then ret oldsz else
  when (PGROUNDUP newsz <? PGROUNDUP oldsz)
    (let npages := s32 ((PGROUNDUP oldsz - PGROUNDUP newsz) / PGSIZE) in
     uvmunmap pagetable (PGROUNDUP newsz) (u64 npages) true) ;;
  ret newsz.

Definition uvmalloc (pagetable oldsz newsz xperm : Z) : K Z :=
  if newsz <? oldsz then ret oldsz else
  let oldsz := PGROUNDUP oldsz in
  loop (fun a =>
    if negb (a <? newsz) then ret (inr newsz) else
    let* mem := kalloc in
    if mem =? 0 then uvmdealloc pagetable a oldsz ;; ret (inr 0) else
    mem_set mem 0 PGSIZE ;;
    let* r := mappages pagetable a PGSIZE mem (Z.lor (Z.lor PTE_R PTE_U) xperm) in
    if ctrue r then kfree mem ;; uvmdealloc pagetable a oldsz ;; ret (inr 0) else
    ret (inl (u64 (a + PGSIZE)))) oldsz.

(** [freewalk] recurses over the tree of table pages; [d] bounds the depth. *)
Fixpoint freewalk_depth (d : nat) (pagetable : Z) : K unit :=
  match d with
  | O => fun _ _ => NoFuel
  | S d' =>
      forall_do (seqZ 0 512) (fun i =>
        let* pte := pte_read (pagetable + 8 * i) in
        if ctrue (Z.land pte PTE_V) && (Z.land pte (Z.lor (Z.lor PTE_R PTE_W) PTE_X) =? 0) then
          let child := PTE2PA pte in
          freewalk_depth d' child ;;
          pte_write (pagetable + 8 * i) 0
        else when (ctrue (Z.land pte PTE_V)) (panic "freewalk: leaf")) ;;
      kfree pagetable
  end.
Definition freewalk (pagetable : Z) : K unit := fun n s => freewalk_depth n pagetable n s.

Definition uvmfree (pagetable sz : Z) : K unit :=
  when (sz >? 0) (uvmunmap pagetable 0 (PGROUNDUP sz / PGSIZE) true) ;;
  freewalk pagetable.

Definition uvmcopy (old new sz : Z) : K Z :=
  let err i := uvmunmap new 0 (i / PGSIZE) true ;; ret (inr (-1)) in
  loop (fun i =>
    if negb (i <? sz) then ret (inr 0) else
    let* pte := walk old i false in
    if pte =? 0 then panic "uvmcopy: pte should exist" else
    let* v := pte_read pte in
    if Z.land v PTE_V =? 0 then panic "uvmcopy: page not present" else
    let pa := PTE2PA v in
    let flags := PTE_FLAGS v in
    let* mem := kalloc in
    if mem =? 0 then err i else
    modify (upd_mem (fun m => memmove m mem pa PGSIZE)) ;;
    let* r := mappages new i PGSIZE mem flags in
    if ctrue r then kfree mem ;; err i else
    ret (inl (u64 (i + PGSIZE)))) 0.

Definition uvmclear (pagetable va : Z) : K unit :=
  let* pte := walk pagetable va false in
  if pte =? 0 then panic "uvmclear" else
  let* v := pte_read pte in
  pte_write pte (Z.land v (Z.lnot PTE_U)).

(** [copyout(pagetable, dstva, src, len)] with [src] the [len] bytes. *)
Definition copyout_body (pagetable : Z) : Z * list Z -> K (Z * list Z + Z) := fun '(dstva, src) =>
  let len := Z.of_nat (length src) in
  if negb (len >? 0) then ret (inr 0) else
  let va0 := PGROUNDDOWN dstva in
  let* pa0 := walkaddr pagetable va0 in
  if pa0 =? 0 then ret (inr (-1)) else
  let n := PGSIZE - (dstva - va0) in
  let n := if n >? len then len else n in
  mem_put (pa0 + (dstva - va0)) (take (Z.to_nat n) src) ;;
  ret (inl (u64 (va0 + PGSIZE), drop (Z.to_nat n) src)).
Definition copyout (pagetable dstva : Z) (src : list Z) : K Z :=
  loop (copyout_body pagetable) (dstva, src).

(** [copyin(pagetable, dst, srcva, len)] returns its result and the bytes it
    stored at [dst] (also those stored before a failure). *)
Definition copyin_body (pagetable : Z) : list Z * Z * Z -> K (list Z * Z * Z + Z * list Z) :=
  fun '(dst, srcva, len) =>
  if negb (len >? 0) then ret (inr (0, dst)) else
  let va0 := PGROUNDDOWN srcva in
  let* pa0 := walkaddr pagetable va0 in
  if pa0 =? 0 then ret (inr (-1, dst)) else
  let n := PGSIZE - (srcva - va0) in
  let n := if n >? len then len else n in
  let* bs := gets (fun s => rd_bytes (k_mem s) (pa0 + (srcva - va0)) (Z.to_nat n)) in
  ret (inl (dst ++ bs, u64 (va0 + PGSIZE), len - n)).
Definition copyin (pagetable srcva len : Z) : K (Z * list Z) :=
  loop (copyin_body pagetable) ([], srcva, len).

(** The inner loop of [copyinstr]: the bytes copied from [p], and whether a
    NUL was among them; at most [n] bytes are read. *)
Fixpoint copy_until_nul (m : mem) (p : Z) (n : nat) : list Z * bool :=
  match n with
  | O => ([], false)
  | S n' =>
      if rd m p =? 0 then ([0], true)
      else let '(l, b) := copy_until_nul m (p + 1) n' in (rd m p :: l, b)
  end.

(** [copyinstr(pagetable, dst, srcva, max)], with the bytes stored at [dst]. *)
Definition copyinstr (pagetable srcva max : Z) : K (Z * list Z) :=
  loop (fun '(dst, srcva, max) =>
    if negb (max >? 0) then ret (inr (-1, dst)) else
    let va0 := PGROUNDDOWN srcva in
    let* pa0 := walkaddr pagetable va0 in
    if pa0 =? 0 then ret (inr (-1, dst)) else
    let n := PGSIZE - (srcva - va0) in
    let n := if n >? max then max else n in
    let* r := gets (fun s => copy_until_nul (k_mem s) (pa0 + (srcva - va0)) (Z.to_nat n)) in
    let '(bs, got_null) := r : list Z * bool in
    if got_null then ret (inr (0, dst ++ bs)) else
    ret (inl (dst ++ bs, u64 (va0 + PGSIZE), max - n))) ([], srcva, max).

(** ** The mapping a page table denotes *)

(** [node m pt q]: the table page reached from [pt] by the indices [q]. *)
Fixpoint node (m : mem) (pt : Z) (q : list Z) : option Z :=
  match q with
  | [] => Some pt
  | i :: q' =>
      let v := rd64 m (pt + 8 * i) in
      if ctrue (Z.land v PTE_V) then node m (PTE2PA v) q' else None
  end.

(** The address of the leaf entry of [va], and the entry itself (0 when a
    table on the way is missing). *)
Definition leaf (m : mem) (pt va : Z) : option Z :=
  (fun t => t + 8 * PX 0 va) <$> node m pt [PX 2 va; PX 1 va].
Definition pte_of (m : mem) (pt va : Z) : Z := default 0 (rd64 m <$> leaf m pt va).

(** The table pages form a tree of allocated pages: no page is reached by
    two index sequences, and none is on the free list [l]. *)
Definition valid_path (q : list Z) : Prop :=
  Forall (fun i => 0 <= i < 512) q /\ (length q <= 2)%nat.
Definition pt_wf (m : mem) (pt : Z) (l : list Z) : Prop :=
  (forall q t, valid_path q -> node m pt q = Some t -> page_ok t /\ t ∉ l) /\
  (forall q q' t, valid_path q -> valid_path q' ->
     node m pt q = Some t -> node m pt q' = Some t -> q = q').
Definition vm_inv (s : kernel) (pt : Z) (l : list Z) : Prop :=
  cpu_ok (k_lk s) /\ lk_free L_kmem (k_lk s) /\ kmem_inv s l /\ pt_wf (k_mem s) pt l.

(** ** Lemmas: reading the table *)
Lemma walk_false n s pt va :
  va < MAXVA -> walk pt va false n s = Ret (default 0 (leaf (k_mem s) pt va)) s.
Proof.
  intros Hva. unfold walk. destruct (Z.geb_spec va MAXVA); [lia|].
  unfold leaf. cbn [walk_from node]. unfold pte_read. rewrite !bind_gets.
  change (Z.of_nat 2) with 2. change (Z.of_nat 1) with 1.
  destruct (ctrue _); cbn [negb]; [|done]. rewrite bind_gets.
  destruct (ctrue _); cbn [negb]; done.
Qed.

Lemma leaf_pos m pt l va a :
  0 <= va -> pt_wf m pt l -> leaf m pt va = Some a -> 0 < a.
Proof.
  intros Hva [Hp _] Hl. unfold leaf in Hl. apply fmap_Some in Hl as (t & Ht & ->).
  apply Hp in Ht as [Ht _].
  - pose proof (page_ok_bounds _ Ht). pose proof (PX_range 0 va). lia.
  - split; [|simpl; lia]. repeat constructor; apply PX_range; lia.
Qed.

(** Addresses of entries in different pages, or at different indices, are
    apart. *)
Lemma entries_apart t t' i j :
  t mod PGSIZE = 0 -> t' mod PGSIZE = 0 -> 0 <= i < 512 -> 0 <= j < 512 ->
  t <> t' \/ i <> j -> t' + 8 * j + 8 <= t + 8 * i \/ t + 8 * i + 8 <= t' + 8 * j.
Proof.
  intros Ht Ht' Hi Hj Hne. destruct (decide (t = t')) as [->|Hn]; [lia|].
  destruct (pages_apart t t' Ht Ht' Hn); unfold PGSIZE in *; lia.
Qed.

Lemma rd64_entry_ne m t t' i j v :
  page_ok t -> page_ok t' -> 0 <= i < 512 -> 0 <= j < 512 -> t <> t' \/ i <> j ->
  rd64 (wr64 m (t + 8 * i) v) (t' + 8 * j) = rd64 m (t' + 8 * j).
Proof. intros [] [] ? ? ?. apply rd64_wr64_ne. by apply entries_apart. Qed.

Lemma rd64_page_ne m pg bs t j :
  page_ok pg -> page_ok t -> t <> pg -> 0 <= j < 512 -> (length bs <= 4096)%nat ->
  rd64 (wr_bytes m pg bs) (t + 8 * j) = rd64 m (t + 8 * j).
Proof.
  intros [Hp _] [Ht _] Hne Hj Hlen. apply rd64_wr_bytes_out.
  destruct (pages_apart t pg Ht Hp Hne); unfold PGSIZE in *; lia.
Qed.

Lemma rd64_zeroed m pg j : 0 <= j < 512 -> rd64 (memset m pg 0 PGSIZE) (pg + 8 * j) = 0.
Proof.
  intros Hj. rewrite memset_spec. unfold rd64.
  assert (E : rd_bytes (wr_bytes m pg (replicate (Z.to_nat PGSIZE) 0)) (pg + 8 * j) 8 = replicate 8 0).
  { apply list_eq. intros k. destruct (decide (k < 8)%nat).
    - rewrite lookup_rd_bytes, lookup_replicate_2 by done. f_equal. unfold rd.
      rewrite <- Z.add_assoc. replace (8 * j + Z.of_nat k) with (Z.of_nat (Z.to_nat (8 * j) + k)) by lia.
      rewrite (lookup_wr_bytes_in _ _ _ _ 0); [done|]. apply lookup_replicate_2.
      unfold PGSIZE. lia.
    - rewrite !lookup_ge_None_2; rewrite ?length_rd_bytes, ?length_replicate; try done; lia. }
  by rewrite E.
Qed.

Lemma valid_path_1 i : valid_path [i] <-> 0 <= i < 512.
Proof.
  unfold valid_path. rewrite Forall_singleton. simpl. split; [tauto|]. intros; split; [done|lia].
Qed.
Lemma valid_path_2 i j : valid_path [i; j] <-> 0 <= i < 512 /\ 0 <= j < 512.
Proof.
  unfold valid_path. rewrite Forall_cons, Forall_singleton. simpl. split; [tauto|]. intros; split; [done|lia].
Qed.
Lemma valid_path_nil : valid_path [].
Proof. split; [constructor|simpl; lia]. Qed.
Lemma valid_path_cases q :
  valid_path q -> q = [] \/ (exists a, q = [a] /\ 0 <= a < 512) \/
                  (exists a b, q = [a; b] /\ 0 <= a < 512 /\ 0 <= b < 512).
Proof.
  intros Hq. destruct q as [|a [|b [|c q]]]; [by left| | |].
  - right; left. exists a. by apply valid_path_1 in Hq.
  - right; right. exists a, b. by apply valid_path_2 in Hq.
  - destruct Hq as [_ Hl]. simpl in Hl. lia.
Qed.
Lemma valid_path_va va : valid_path [PX 2 va; PX 1 va].
Proof. apply valid_path_2. split; apply PX_range; lia. Qed.

Lemma node_cons2 m pt a b c :
  node m pt [a] = Some c ->
  node m pt [a; b] = (if ctrue (Z.land (rd64 m (c + 8 * b)) PTE_V)
                      then Some (PTE2PA (rd64 m (c + 8 * b))) else None).
Proof. cbn [node]. destruct (ctrue _); [|done]. by intros [= ->]. Qed.
Lemma node_cons2_None m pt a b : node m pt [a] = None -> node m pt [a; b] = None.
Proof. cbn [node]. by destruct (ctrue _). Qed.

(** ** Lemmas: changing the table *)

(** Two memories that agree on the entries of the two upper levels have the
    same table pages. *)
Lemma node_ext m m' pt l :
  pt_wf m pt l ->
  (forall q t j, valid_path q -> (length q <= 1)%nat -> node m pt q = Some t -> 0 <= j < 512 ->
     rd64 m' (t + 8 * j) = rd64 m (t + 8 * j)) ->
  forall q, valid_path q -> node m' pt q = node m pt q.
Proof.
  intros [Hp _] He q [->|[(a & -> & Ha)|(a & b & -> & Ha & Hb)]]%valid_path_cases; [done| |].
  - cbn [node]. by rewrite (He [] pt) by (done || apply valid_path_nil || simpl; lia).
  - assert (H1 : node m' pt [a] = node m pt [a]).
    { cbn [node]. by rewrite (He [] pt) by (done || apply valid_path_nil || simpl; lia). }
    destruct (node m pt [a]) as [c|] eqn:Hc; [|by rewrite !node_cons2_None].
    rewrite !(node_cons2 _ _ _ _ c) by done.
    by rewrite (He [a] c) by (done || (by apply valid_path_1) || simpl; lia).
Qed.

Lemma pt_wf_ext m m' pt l l' :
  pt_wf m pt l -> (forall q, valid_path q -> node m' pt q = node m pt q) ->
  (forall x, x ∈ l' -> x ∈ l) -> pt_wf m' pt l'.
Proof.
  intros [Hp Hi] He Hl. split.
  - intros q t Hq. rewrite He by done. intros Ht. destruct (Hp q t Hq Ht). split; [done|]. auto.
  - intros q q' t Hq Hq'. rewrite !He by done. by apply Hi.
Qed.

(** Linking the zeroed page [pg] at an empty entry of an upper table. *)
Definition links (m m' : mem) (t i pg v : Z) : Prop :=
  (forall t' j, page_ok t' -> t' <> pg -> 0 <= j < 512 -> t' <> t \/ j <> i ->
     rd64 m' (t' + 8 * j) = rd64 m (t' + 8 * j)) /\
  (forall j, 0 <= j < 512 -> rd64 m' (pg + 8 * j) = 0) /\
  rd64 m' (t + 8 * i) = v.

Lemma link_node m m' pt l q t i pg v :
  pt_wf m pt (pg :: l) -> page_ok pg -> valid_path q -> (length q <= 1)%nat ->
  node m pt q = Some t -> 0 <= i < 512 -> ctrue (Z.land (rd64 m (t + 8 * i)) PTE_V) = false ->
  links m m' t i pg v -> ctrue (Z.land v PTE_V) = true -> PTE2PA v = pg ->
  forall p, valid_path p ->
    node m' pt p = if decide (p = q ++ [i]) then Some pg else node m pt p.
Proof.
  intros [Hp Hi] Hpg Hq Hl1 Ht Hir Hinv (Hne & Hz & Hv) HV HPA.
  assert (Hok : forall q t, valid_path q -> node m pt q = Some t -> page_ok t /\ t <> pg).
  { intros q0 t0 Hq0 Ht0. destruct (Hp q0 t0 Hq0 Ht0) as [? Hn].
    split; [done|]. intros ->. apply Hn. left. }
  destruct (Hok [] pt valid_path_nil eq_refl) as [Hpt Hptn].
  destruct (valid_path_cases q Hq) as [->|[(a0 & -> & Ha0)|(a0 & b0 & -> & _)]]; [| |simpl in Hl1; lia].
  - (* the root entry [i] *)
    injection Ht as <-. intros p [->|[(a & -> & Ha)|(a & b & -> & Ha & Hb)]]%valid_path_cases.
    + by rewrite decide_False.
    + cbn [app]. destruct (decide (a = i)) as [->|Hai].
      * rewrite decide_True by done. cbn [node]. by rewrite Hv, HV, HPA.
      * rewrite decide_False by congruence. cbn [node]. by rewrite Hne by auto.
    + rewrite decide_False by done. destruct (decide (a = i)) as [->|Hai].
      * rewrite (node_cons2 m' _ _ _ pg) by (cbn [node]; by rewrite Hv, HV, HPA).
        rewrite Hz by done. change (ctrue (Z.land 0 PTE_V)) with false. cbn [node]. by rewrite Hinv.
      * assert (H1 : node m' pt [a] = node m pt [a]) by (cbn [node]; by rewrite Hne by auto).
        destruct (node m pt [a]) as [c|] eqn:Hc; [|by rewrite !node_cons2_None].
        rewrite !(node_cons2 _ _ _ _ c) by done.
        destruct (Hok [a] c) as [? ?]; [by apply valid_path_1|done|].
        rewrite Hne; [done|done|done|done|]. left. intros ->.
        discriminate (Hi [a] [] pt ltac:(by apply valid_path_1) valid_path_nil Hc eq_refl).
  - (* entry [i] of the second-level table [t] *)
    destruct (Hok [a0] t Hq Ht) as [Htok Htn].
    assert (Htpt : pt <> t) by (intros ->; discriminate (Hi [a0] [] t Hq valid_path_nil Ht eq_refl)).
    assert (H1 : forall a, 0 <= a < 512 -> node m' pt [a] = node m pt [a])
      by (intros; cbn [node]; by rewrite Hne by auto).
    intros p [->|[(a & -> & Ha)|(a & b & -> & Ha & Hb)]]%valid_path_cases.
    + by rewrite decide_False.
    + rewrite decide_False by done. by apply H1.
    + specialize (H1 a Ha). cbn [app]. destruct (node m pt [a]) as [c|] eqn:Hc.
      * rewrite !(node_cons2 _ _ _ _ c) by done. destruct (Hok [a] c) as [Hc1 Hc2]; [by apply valid_path_1|done|].
        destruct (decide (a = a0 /\ b = i)) as [[-> ->]|Hn].
        -- rewrite decide_True by done. assert (c = t) as -> by congruence. by rewrite Hv, HV, HPA.
        -- rewrite decide_False by (intros [=]; tauto). rewrite Hne; [done|done|done|done|].
           destruct (decide (b = i)) as [->|]; [left; intros ->; apply Hn|by right].
           split; [|done]. pose proof (Hi [a] [a0] t ltac:(by apply valid_path_1) Hq Hc Ht). congruence.
      * rewrite !node_cons2_None by done. rewrite decide_False; [done|]. intros [= -> ->]. congruence.
Qed.

Lemma link_wf m m' pt l q t i pg v :
  pt_wf m pt (pg :: l) -> pg ∉ l -> page_ok pg -> valid_path q -> (length q <= 1)%nat ->
  node m pt q = Some t -> 0 <= i < 512 -> ctrue (Z.land (rd64 m (t + 8 * i)) PTE_V) = false ->
  links m m' t i pg v -> ctrue (Z.land v PTE_V) = true -> PTE2PA v = pg ->
  pt_wf m' pt l /\ (forall va, pte_of m' pt va = pte_of m pt va).
Proof.
  intros Hwf Hni Hpg Hq Hl1 Ht Hir Hinv Hlk HV HPA.
  pose proof (link_node _ _ _ _ _ _ _ _ _ Hwf Hpg Hq Hl1 Ht Hir Hinv Hlk HV HPA) as Hn.
  destruct Hwf as [Hp Hi]. destruct Hlk as (Hne & Hz & Hv). split; [split|].
  - intros q0 t0 Hq0. rewrite Hn by done. case_decide.
    + intros [= <-]. done.
    + intros Ht0. destruct (Hp _ _ Hq0 Ht0) as [? Hni0]. split; [done|]. set_solver.
  - intros q1 q2 t0 Hq1 Hq2. rewrite !Hn by done. repeat case_decide; subst; try congruence.
    + intros [= <-] H2. destruct (Hp _ _ Hq2 H2). set_solver.
    + intros H1 [= <-]. destruct (Hp _ _ Hq1 H1). set_solver.
    + by apply Hi.
  - intros va. unfold pte_of, leaf. pose proof (valid_path_va va) as Hva.
    pose proof (PX_range 0 va ltac:(lia)) as Hr. rewrite Hn by done. case_decide as Hd.
    + cbn [fmap option_fmap option_map default]. rewrite Hz by done.
      destruct (valid_path_cases q Hq) as [->|[(a0 & -> & Ha0)|(a0 & b0 & -> & _)]];
        [done| |simpl in Hl1; lia].
      injection Hd as <- <-. by rewrite (node_cons2 _ _ _ _ t), Hinv.
    + destruct (node m pt [PX 2 va; PX 1 va]) as [t'|] eqn:Ht'; [|done]. cbn.
      destruct (Hp _ _ Hva Ht') as [? ?]. apply Hne; [done|set_solver|done|].
      left. intros ->. pose proof (Hi _ _ _ Hva Hq Ht' Ht) as E. rewrite <- E in Hl1. simpl in Hl1. lia.
Qed.

(** What may change when a page table is extended: free pages become tables,
    the translation stays, and no byte outside the free pages and the
    tables is written. *)
Definition outside (m : mem) (pt : Z) (l : list Z) (x : Z) : Prop :=
  forall pg, pg ∈ l \/ (exists q, valid_path q /\ node m pt q = Some pg) ->
    x < pg \/ pg + PGSIZE <= x.
Record vm_grows (s s' : kernel) (pt : Z) (l l' : list Z) : Prop := {
  vg_inv : vm_inv s' pt l';
  vg_state : mem_only s s';
  vg_free : exists used, l = used ++ l';
  vg_nodes : forall q t, valid_path q -> node (k_mem s') pt q = Some t ->
    t ∈ l \/ exists q', valid_path q' /\ node (k_mem s) pt q' = Some t;
  vg_frame : forall x, outside (k_mem s) pt l x -> rd (k_mem s') x = rd (k_mem s) x;
}.

Lemma vm_grows_refl s pt l : vm_inv s pt l -> vm_grows s s pt l l.
Proof. intros. split; [done|done|by exists []|by eauto|done]. Qed.

Lemma vm_grows_trans s s1 s2 pt l l1 l2 :
  vm_grows s s1 pt l l1 -> vm_grows s1 s2 pt l1 l2 -> vm_grows s s2 pt l l2.
Proof.
  intros [I1 E1 [u1 F1] N1 X1] [I2 E2 [u2 F2] N2 X2].
  assert (Hout : forall x, outside (k_mem s) pt l x -> outside (k_mem s1) pt l1 x).
  { intros x Hx pg [Hpg|(q & Hq & Hn)]; apply Hx.
    - left. set_solver.
    - by apply N1 in Hn as [?|?]; [left|right|]. }
  split; [done| | | |].
  - by eapply mem_only_trans.
  - exists (u1 ++ u2). by rewrite <- app_assoc, <- F2.
  - intros q t Hq Ht. apply N2 in Ht as [?|(q' & Hq' & Ht)]; [left; set_solver| |done]. by apply N1 in Ht.
  - intros x Hx. rewrite X2 by auto. by apply X1.
Qed.

Lemma PA2PTE_V pg : page_ok pg ->
  PTE2PA (Z.lor (PA2PTE pg) PTE_V) = pg /\
  ctrue (Z.land (Z.lor (PA2PTE pg) PTE_V) PTE_V) = true /\
  u64 (Z.lor (PA2PTE pg) PTE_V) = Z.lor (PA2PTE pg) PTE_V.
Proof.
  intros Hpg. pose proof (page_ok_bounds _ Hpg) as Hb. destruct Hpg as [Hal _].
  split_and!.
  - by apply PTE2PA_PA2PTE; [lia| |vm_compute; split; congruence].
  - unfold ctrue. rewrite Z.land_comm, Z.lor_comm.
    assert (Z.land PTE_V (Z.lor PTE_V (PA2PTE pg)) = PTE_V) as ->; [|done].
    apply Z.bits_inj'. intros k Hk. rewrite Z.land_spec, Z.lor_spec.
    by destruct (Z.testbit PTE_V k), (Z.testbit (PA2PTE pg) k).
  - apply u64_lor; [|done]. unfold PA2PTE, u64, uwrap. by rewrite Z.mod_mod.
Qed.

Lemma free_chain_entry m t i v h l :
  page_ok t -> 0 <= i < 512 -> t ∉ l ->
  free_chain m h l -> free_chain (wr_bytes m (t + 8 * i) (le_enc 8 v)) h l.
Proof.
  intros [Ht _] Hi Hni Hc. pose proof (free_chain_pages _ _ _ Hc) as Hp.
  revert Hc. apply free_chain_ext. intros p Hin. symmetry. apply rd64_wr_bytes_out.
  rewrite Forall_forall in Hp. destruct (Hp p Hin) as [Hal _]. rewrite length_le_enc.
  destruct (pages_apart p t Hal Ht); [congruence|..]; unfold PGSIZE in *; lia.
Qed.

(** ** Lemmas: [walk] with allocation *)
Definition link_st (pg a : Z) (s : kernel) : kernel :=
  upd_mem (fun m => wr64 (memset m pg 0 PGSIZE) a (Z.lor (PA2PTE pg) PTE_V)) (kalloc_st s).

Lemma link_st_grows s pt pg l q t i :
  vm_inv s pt (pg :: l) -> valid_path q -> (length q <= 1)%nat ->
  node (k_mem s) pt q = Some t -> 0 <= i < 512 ->
  ctrue (Z.land (rd64 (k_mem s) (t + 8 * i)) PTE_V) = false ->
  let s' := link_st pg (t + 8 * i) s in
  vm_grows s s' pt (pg :: l) l /\ node (k_mem s') pt (q ++ [i]) = Some pg /\
  (forall va, pte_of (k_mem s') pt va = pte_of (k_mem s) pt va).
Proof.
  intros (Hok & Hlk & Hkm & Hwf) Hq Hl1 Ht Hi Hinv s'.
  destruct (kalloc_inv _ _ _ Hkm) as (Hh & Hpg & Hkm' & Hst).
  destruct (PA2PTE_V pg Hpg) as (HPA & HV & H64). set (v := Z.lor (PA2PTE pg) PTE_V) in *.
  destruct (proj1 Hwf _ _ Hq Ht) as [Htok Htni]. assert (Htn : t <> pg) by (intros ->; apply Htni; left).
  assert (Hm : k_mem s' = wr64 (memset (memset (k_mem s) pg 5 PGSIZE) pg 0 PGSIZE) (t + 8 * i) v).
  { unfold s', link_st. change (k_mem (upd_mem ?f ?x)) with (f (k_mem x)). by rewrite Hst. }
  assert (Hlen : forall c, (length (replicate (Z.to_nat PGSIZE) c) <= 4096)%nat)
    by (intros c; rewrite (length_replicate (A:=Z)); unfold PGSIZE; lia).
  assert (Hlinks : links (k_mem s) (k_mem s') t i pg v).
  { rewrite Hm. split_and!.
    - intros t' j Ht' Hn' Hj Hne. rewrite rd64_entry_ne; try assumption;
        [|destruct Hne; [left|right]; congruence].
      rewrite !memset_spec. rewrite !rd64_page_ne; auto.
    - intros j Hj. rewrite (rd64_entry_ne _ t pg i j v Htok Hpg Hi Hj (or_introl Htn)).
      by apply rd64_zeroed.
    - by rewrite rd64_wr64. }
  assert (Hni : pg ∉ l) by (destruct Hkm as [_ [? _]%NoDup_cons]; done).
  pose proof (link_node _ _ _ _ _ _ _ _ _ Hwf Hpg Hq Hl1 Ht Hi Hinv Hlinks HV HPA) as Hnode.
  destruct (link_wf _ _ _ _ _ _ _ _ _ Hwf Hni Hpg Hq Hl1 Ht Hi Hinv Hlinks HV HPA) as [Hwf' Hpte].
  assert (Hqi : valid_path (q ++ [i])).
  { split; [|rewrite length_app; simpl; lia]. apply Forall_app. split; [apply Hq|by constructor]. }
  split_and!; [split|by rewrite Hnode, decide_True by done|done].
  - split_and!; [by unfold s', link_st; rewrite Hst|by unfold s', link_st; rewrite Hst| |done].
    split; [|apply Hkm']. rewrite Hm. unfold s', link_st.
    change (k_freelist (upd_mem ?f ?x)) with (k_freelist x).
    destruct Hkm' as [Hc _]. assert (Hc' : free_chain (memset (k_mem s) pg 5 PGSIZE) (k_freelist (kalloc_st s)) l)
      by (rewrite Hst in Hc; done).
    rewrite (memset_spec _ _ 0). unfold wr64. apply free_chain_entry; [exact Htok|exact Hi|intros Hin; apply Htni; by right|].
    apply free_chain_write; [apply Hpg|apply Hlen|exact Hni|exact Hc'].
  - eapply mem_only_trans; [apply mem_only_kalloc|apply mem_only_upd_mem].
  - by exists [pg].
  - intros q0 t0 Hq0. rewrite Hnode by done. case_decide; [intros [= <-]; left; left|by eauto].
  - intros x Hx. rewrite Hm. unfold wr64. rewrite !memset_spec, !rd_wr_bytes_out; [done|..].
    + rewrite length_replicate. apply Hx. left. left.
    + rewrite length_replicate. apply Hx. left. left.
    + rewrite length_le_enc. assert (x < t \/ t + PGSIZE <= x) by (apply Hx; eauto).
      unfold PGSIZE in *. lia.
Qed.

(** One level of the walk: the table below exists, or is allocated, or
    memory is exhausted. *)
Lemma walk_from_step n s pt l va level q t :
  vm_inv s pt l -> valid_path q -> (length q <= 1)%nat -> node (k_mem s) pt q = Some t ->
  walk_from (S level) t va true n s = Ret 0 s /\ l = [] \/
  exists s' l' t', walk_from (S level) t va true n s = walk_from level t' va true n s' /\
    vm_grows s s' pt l l' /\ (forall va, pte_of (k_mem s') pt va = pte_of (k_mem s) pt va) /\
    node (k_mem s') pt (q ++ [PX (Z.of_nat (S level)) va]) = Some t' /\
    (length l <= length l' + 1)%nat.
Proof.
  intros Hinv Hq Hl1 Ht. pose proof Hinv as (Hok & Hlk & Hkm & Hwf).
  set (i := PX (Z.of_nat (S level)) va). assert (Hi : 0 <= i < 512) by (apply PX_range; lia).
  cbn [walk_from]. fold i. unfold pte_read. rewrite bind_gets.
  destruct (ctrue (Z.land (rd64 (k_mem s) (t + 8 * i)) PTE_V)) eqn:HV; cbn [negb].
  - right. exists s, l, (PTE2PA (rd64 (k_mem s) (t + 8 * i))).
    split_and!; [done|by apply vm_grows_refl|done| |lia].
    destruct (valid_path_cases q Hq) as [->|[(a0 & -> & Ha0)|(a0 & b0 & -> & _)]]; [| |simpl in Hl1; lia].
    + injection Ht as <-. cbn [app node]. by rewrite HV.
    + cbn [app]. by rewrite (node_cons2 _ _ _ _ t), HV.
  - kcall kalloc_run. destruct l as [|pg l].
    + left. destruct Hkm as [Hh _]. cbn in Hh. unfold kalloc_st. by rewrite Hh.
    + destruct (kalloc_inv _ _ _ Hkm) as (Hh & Hpg & _ & _). rewrite Hh.
      pose proof (page_ok_bounds _ Hpg). destruct (Z.eqb_spec pg 0); [lia|].
      destruct (link_st_grows s pt pg l q t i Hinv Hq Hl1 Ht Hi HV) as (Hg & Hn & Hp).
      right. exists (link_st pg (t + 8 * i) s), l, pg. split_and!; try done. simpl. lia.
Qed.

Lemma walk_true n s pt l va :
  va < MAXVA -> vm_inv s pt l ->
  exists s' l', vm_grows s s' pt l l' /\
    (forall va, pte_of (k_mem s') pt va = pte_of (k_mem s) pt va) /\
    (walk pt va true n s = Ret 0 s' /\ l' = [] /\ (length l < 2)%nat \/
     exists a, walk pt va true n s = Ret a s' /\ leaf (k_mem s') pt va = Some a /\
       (length l <= length l' + 2)%nat).
Proof.
  intros Hva Hinv. unfold walk. destruct (Z.geb_spec va MAXVA); [lia|].
  destruct (walk_from_step n s pt l va 1 [] pt) as [[E ->]|(s1 & l1 & t1 & E1 & G1 & P1 & N1 & L1)];
    try done; [apply valid_path_nil|simpl; lia| |].
  { exists s, []. split_and!; [by apply vm_grows_refl|done|left; split_and!; [done|done|simpl; lia]]. }
  destruct (walk_from_step n s1 pt l1 va 0 [PX 2 va] t1) as [[E ->]|(s2 & l2 & t2 & E2 & G2 & P2 & N2 & L2)];
    [apply G1|apply valid_path_1, PX_range; lia|simpl; lia|done| |].
  { exists s1, []. rewrite E1, E. split_and!; [done|done|left; split_and!; [done|done|simpl in *; lia]]. }
  exists s2, l2. rewrite E1, E2.
  split_and!; [by eapply vm_grows_trans|by intros; rewrite P2|]. right.
  exists (t2 + 8 * PX 0 va). split_and!; [done| |lia]. unfold leaf.
  change [PX 2 va; PX 1 va] with ([PX 2 va] ++ [PX (Z.of_nat 1) va]). by rewrite N2.
Qed.

(** ** Lemmas: writing a leaf entry *)
Lemma PX_same va va' :
  0 <= va < MAXVA -> 0 <= va' < MAXVA ->
  PX 2 va = PX 2 va' -> PX 1 va = PX 1 va' -> PX 0 va = PX 0 va' ->
  va / PGSIZE = va' / PGSIZE.
Proof.
  rewrite !PX_eq by lia. unfold MAXVA, PGSIZE.
  change (2 ^ (12 + 9 * 2)) with 1073741824. change (2 ^ (12 + 9 * 1)) with 2097152.
  change (2 ^ (12 + 9 * 0)) with 4096. change (Z.shiftl 1 _) with 274877906944.
  intros. Z.to_euclidean_division_equations; lia.
Qed.

Lemma PX_page level va va' : 0 <= level -> va / PGSIZE = va' / PGSIZE -> PX level va = PX level va'.
Proof.
  intros Hl E. rewrite !PX_eq by done. rewrite Z.pow_add_r by lia. change (2 ^ 12) with PGSIZE.
  rewrite <- !Z.div_div by (unfold PGSIZE; lia). by rewrite E.
Qed.

Definition leaf_st (a v : Z) (s : kernel) : kernel := upd_mem (fun m => wr64 m a v) s.

Lemma leaf_st_spec s pt l va a v :
  0 <= va < MAXVA -> vm_inv s pt l -> leaf (k_mem s) pt va = Some a ->
  vm_grows s (leaf_st a v s) pt l l /\
  forall va', 0 <= va' < MAXVA ->
    pte_of (k_mem (leaf_st a v s)) pt va' =
    if decide (va' / PGSIZE = va / PGSIZE) then u64 v else pte_of (k_mem s) pt va'.
Proof.
  intros Hva (Hok & Hlk & Hkm & Hwf) Hl.
  unfold leaf in Hl. apply fmap_Some in Hl as (t & Ht & ->).
  set (i := PX 0 va). assert (Hi : 0 <= i < 512) by (apply PX_range; lia).
  pose proof (valid_path_va va) as Hq. destruct (proj1 Hwf _ _ Hq Ht) as [Htok Htni].
  assert (Hm : k_mem (leaf_st (t + 8 * i) v s) = wr64 (k_mem s) (t + 8 * i) v) by done.
  assert (Hnode : forall q, valid_path q ->
            node (wr64 (k_mem s) (t + 8 * i) v) pt q = node (k_mem s) pt q).
  { apply (node_ext _ _ _ l Hwf). intros q t' j Hq' Hl1 Ht' Hj.
    destruct (proj1 Hwf _ _ Hq' Ht') as [Ht'ok _]. apply rd64_entry_ne; try done.
    left. intros ->. pose proof (proj2 Hwf _ _ _ Hq Hq' Ht Ht') as E.
    rewrite <- E in Hl1. simpl in Hl1. lia. }
  split; [split|].
  - split_and!; [done|done| |by eapply pt_wf_ext]. split; [|apply Hkm].
    rewrite Hm. unfold wr64. apply free_chain_entry; [done|done|done|apply Hkm].
  - apply mem_only_upd_mem.
  - by exists [].
  - intros q t' Hq'. rewrite Hm, Hnode by done. eauto.
  - intros x Hx. rewrite Hm. unfold wr64. apply rd_wr_bytes_out. rewrite length_le_enc.
    assert (x < t \/ t + PGSIZE <= x) by (apply Hx; eauto). unfold PGSIZE in *. lia.
  - intros va' Hva'. rewrite Hm. unfold pte_of, leaf. rewrite Hnode by apply valid_path_va.
    case_decide as Hd.
    + rewrite !(PX_page _ va' va) by (lia || done). rewrite Ht. cbn. apply rd64_wr64.
    + destruct (node (k_mem s) pt [PX 2 va'; PX 1 va']) as [t'|] eqn:Ht'; [|done]. cbn.
      destruct (proj1 Hwf _ _ (valid_path_va va') Ht') as [Ht'ok _].
      apply rd64_entry_ne; try done; [apply PX_range; lia|].
      destruct (decide (t = t')) as [<-|]; [|by left]. right. intros Hx. apply Hd. symmetry.
      pose proof (proj2 Hwf _ _ _ Hq (valid_path_va va') Ht Ht') as [= E2 E1].
      apply PX_same; auto.
Qed.

Lemma pte_of_page m pt va va' : va / PGSIZE = va' / PGSIZE -> pte_of m pt va = pte_of m pt va'.
Proof. intros E. unfold pte_of, leaf. by rewrite !(PX_page _ va va') by (lia || done). Qed.

(** ** Lemmas: the loop of [mappages] *)
Definition new_pte (pa perm : Z) : Z := Z.lor (Z.lor (PA2PTE pa) perm) PTE_V.

Lemma mappages_iter pt last perm n : forall k f s l a pa,
  vm_inv s pt l -> (k < f)%nat ->
  0 <= a -> a mod PGSIZE = 0 -> last = a + Z.of_nat k * PGSIZE -> last < MAXVA ->
  0 <= pa -> pa + Z.of_nat k * PGSIZE < 2 ^ 64 ->
  (forall va, 0 <= va < MAXVA -> a / PGSIZE <= va / PGSIZE <= last / PGSIZE ->
     ctrue (Z.land (pte_of (k_mem s) pt va) PTE_V) = false) ->
  exists s' l' r,
    iter_upto f (fun '(a, pa) =>
      let* pte := walk pt a true in
      if pte =? 0 then ret (inr (-1)) else
      let* v := pte_read pte in
      if ctrue (Z.land v PTE_V) then panic "mappages: remap" else
      pte_write pte (Z.lor (Z.lor (PA2PTE pa) perm) PTE_V) ;;
      if a =? last then ret (inr 0) else
      ret (inl (u64 (a + PGSIZE), u64 (pa + PGSIZE)))) (a, pa) n s = Ret r s' /\
    vm_grows s s' pt l l' /\
    (forall va, 0 <= va < MAXVA -> ~ (a / PGSIZE <= va / PGSIZE <= last / PGSIZE) ->
       pte_of (k_mem s') pt va = pte_of (k_mem s) pt va) /\
    (r = -1 /\ l' = [] /\ (length l < 2 * S k)%nat \/
     r = 0 /\ (length l <= length l' + 2 * S k)%nat /\ forall va, 0 <= va < MAXVA -> a / PGSIZE <= va / PGSIZE <= last / PGSIZE ->
       pte_of (k_mem s') pt va = u64 (new_pte (pa + (va / PGSIZE - a / PGSIZE) * PGSIZE) perm)).
Proof.
  intros k. induction k as [|k IH]; intros f s l a pa Hinv Hf Ha Hal Hlast Hmax Hpa Hpak Hfree;
    (destruct f as [|f]; [lia|]); cbn [iter_upto];
    (assert (Hamax : a < MAXVA) by (unfold PGSIZE in *; lia));
    destruct (walk_true n s pt l a Hamax Hinv) as (s1 & l1 & G1 & P1 & [(E1 & Hnil & Hlen)|(pte & E1 & L1 & Hlen)]).
  all: rewrite (bind_bind_ret _ _ _ _ _ _ _ E1).
  1,3: exists s1, l1, (-1); cbn [Z.eqb]; rewrite bind_ret_l; split_and!; auto; try (left; split_and!; [done|done|lia]).
  all: pose proof (vg_inv _ _ _ _ _ G1) as I1; pose proof (leaf_pos _ _ _ _ _ Ha (proj2 (proj2 (proj2 I1))) L1);
    (destruct (Z.eqb_spec pte 0); [lia|]); unfold pte_read;
    rewrite bind_bind_gets;
    (assert (Hv : rd64 (k_mem s1) pte = pte_of (k_mem s) pt a)
       by (rewrite <- P1; unfold pte_of; by rewrite L1));
    rewrite Hv, Hfree by (done || (split; [done|]; apply Z.div_le_mono; unfold PGSIZE in *; lia));
    unfold pte_write; rewrite bind_bind_modify;
    destruct (leaf_st_spec s1 pt l1 a pte (new_pte pa perm) (conj Ha Hamax) I1 L1) as [G2 P2];
    fold (new_pte pa perm); change (upd_mem _ s1) with (leaf_st pte (new_pte pa perm) s1).
  - assert (last = a) as -> by lia. rewrite Z.eqb_refl, bind_ret_l. exists (leaf_st pte (new_pte pa perm) s1), l1, 0.
    split_and!; [done|by eapply vm_grows_trans| |right; split_and!; [done|lia|]].
    + intros va Hva Hn. rewrite P2, decide_False by (done || lia). done.
    + intros va Hva Hr.
      rewrite P2, decide_True by (done || lia). do 2 f_equal. unfold PGSIZE in *; lia.
  - destruct (Z.eqb_spec a last); [unfold PGSIZE in *; lia|]. rewrite bind_ret_l.
    assert (Hstep : (a + PGSIZE) / PGSIZE = a / PGSIZE + 1)
      by (unfold PGSIZE; Z.to_euclidean_division_equations; lia).
    assert (Hlk : last / PGSIZE = a / PGSIZE + Z.of_nat (S k))
      by (subst last; unfold PGSIZE; rewrite Z.div_add by lia; lia).
    rewrite !u64_small by (unfold PGSIZE, MAXVA in *; change (Z.shiftl 1 _) with 274877906944 in *;
                           change (2 ^ 64) with 18446744073709551616 in *; lia).
    destruct (IH f (leaf_st pte (new_pte pa perm) s1) l1 (a + PGSIZE) (pa + PGSIZE))
      as (s3 & l3 & r & E3 & G3 & O3 & R3).
    + apply G2.
    + lia.
    + unfold PGSIZE; lia.
    + unfold PGSIZE in *; Z.to_euclidean_division_equations; lia.
    + unfold PGSIZE in *; lia.
    + done.
    + unfold PGSIZE; lia.
    + unfold PGSIZE in *; lia.
    + intros va Hva Hr. rewrite P2, decide_False, P1 by (done || lia). apply Hfree; [done|lia].
    + exists s3, l3, r. split_and!; [done|by eapply vm_grows_trans; [eapply vm_grows_trans|]| |].
      * intros va Hva Hn. rewrite O3, P2, decide_False, P1 by (done || lia). done.
      * destruct R3 as [(-> & Hnil & HL)|(-> & HL & R3)]; [left; split_and!; [done|done|lia]|right]. split_and!; [done|lia|]. intros va Hva Hr.
        destruct (decide (va / PGSIZE = a / PGSIZE)) as [E|Hne].
        -- rewrite O3, P2, decide_True by (done || lia). do 2 f_equal. unfold PGSIZE in *; lia.
        -- rewrite R3 by (done || lia). do 2 f_equal. rewrite Hstep. unfold PGSIZE; lia.
Qed.

(** ** Lemmas: user memory through the page table *)

(** The physical page of a user address (0 when the user may not access it),
    the physical address of a user byte, and the user's view of memory. *)
Definition upage (m : mem) (pt va : Z) : Z :=
  if va >=? MAXVA then 0 else
  let v := pte_of m pt va in
  if Z.land v PTE_V =? 0 then 0 else if Z.land v PTE_U =? 0 then 0 else PTE2PA v.
Definition uphys (m : mem) (pt va : Z) : Z := upage m pt va + va mod PGSIZE.
Definition uview (m : mem) (pt va : Z) : option Z :=
  if upage m pt va =? 0 then None else Some (rd m (uphys m pt va)).

(** User pages are allocated pages, not tables, and mapped once. *)
Definition uspace (m : mem) (pt : Z) (l : list Z) : Prop :=
  (forall va, 0 <= va -> upage m pt va <> 0 ->
     page_ok (upage m pt va) /\ upage m pt va ∉ l /\
     forall q, valid_path q -> node m pt q <> Some (upage m pt va)) /\
  (forall va va', 0 <= va -> 0 <= va' -> upage m pt va <> 0 ->
     upage m pt va = upage m pt va' -> va / PGSIZE = va' / PGSIZE).

Lemma walkaddr_run n s pt l va :
  0 <= va -> pt_wf (k_mem s) pt l -> walkaddr pt va n s = Ret (upage (k_mem s) pt va) s.
Proof.
  intros Hva Hwf. unfold walkaddr, upage. destruct (Z.geb_spec va MAXVA); [done|].
  rewrite (bind_ret _ _ _ _ _ _ (walk_false n s pt va ltac:(lia))).
  unfold pte_of. destruct (leaf (k_mem s) pt va) as [a|] eqn:Hl; cbn [default fmap option_fmap option_map id]; [|done].
  pose proof (leaf_pos _ _ _ _ _ Hva Hwf Hl). destruct (Z.eqb_spec a 0); [lia|].
  unfold pte_read. rewrite bind_gets. destruct (_ =? 0); [done|]. destruct (_ =? 0); done.
Qed.

Lemma upage_page m pt va va' : va / PGSIZE = va' / PGSIZE -> upage m pt va = upage m pt va'.
Proof.
  intros E. unfold upage. rewrite (pte_of_page _ _ _ _ E).
  assert (Hm : MAXVA = 67108864 * PGSIZE) by reflexivity. rewrite Hm in *.
  destruct (Z.geb_spec va (67108864 * PGSIZE)), (Z.geb_spec va' (67108864 * PGSIZE)); try done;
    exfalso; unfold PGSIZE in *; Z.to_euclidean_division_equations; lia.
Qed.

(** A stretch of user memory inside one page is contiguous. *)
Lemma uphys_add m pt va j :
  0 <= j < PGSIZE - va mod PGSIZE -> uphys m pt (va + j) = uphys m pt va + j.
Proof.
  intros Hj. unfold uphys.
  assert (E : (va + j) / PGSIZE = va / PGSIZE /\ (va + j) mod PGSIZE = va mod PGSIZE + j)
    by (unfold PGSIZE in *; Z.to_euclidean_division_equations; lia).
  destruct E as [E ->]. rewrite (upage_page _ _ _ _ E). lia.
Qed.

Definition ubytes (m : mem) (pt va : Z) (k : nat) : list Z :=
  map (fun i => rd m (uphys m pt (va + Z.of_nat i))) (seq 0 k).

Lemma ubytes_app m pt va j k :
  ubytes m pt va (j + k) = ubytes m pt va j ++ ubytes m pt (va + Z.of_nat j) k.
Proof.
  unfold ubytes. rewrite seq_app, map_app. f_equal. simpl.
  apply list_eq. intros i. rewrite !list_lookup_fmap. destruct (decide (i < k)%nat).
  - rewrite !lookup_seq_lt by done. simpl. do 3 f_equal. lia.
  - by rewrite !lookup_seq_ge by lia.
Qed.

Lemma ubytes_page m pt va k :
  Z.of_nat k <= PGSIZE - va mod PGSIZE -> rd_bytes m (uphys m pt va) k = ubytes m pt va k.
Proof.
  intros Hk. apply list_eq. intros i. unfold ubytes. rewrite list_lookup_fmap.
  destruct (decide (i < k)%nat).
  - rewrite lookup_rd_bytes, lookup_seq_lt by done. simpl. by rewrite uphys_add by lia.
  - rewrite lookup_seq_ge by lia. apply lookup_ge_None_2. rewrite length_rd_bytes. lia.
Qed.

(** The size of the piece that [copyin] and [copyout] move at once. *)
Definition chunk (va len : Z) : Z :=
  let n := PGSIZE - (va - PGROUNDDOWN va) in if n >? len then len else n.

Lemma chunk_spec va len : 0 <= va -> 0 < len ->
  0 < chunk va len <= len /\ chunk va len <= PGSIZE - va mod PGSIZE /\
  (chunk va len = len \/ PGROUNDDOWN va + PGSIZE = va + chunk va len) /\
  va - PGROUNDDOWN va = va mod PGSIZE /\ PGROUNDDOWN va / PGSIZE = va / PGSIZE /\
  0 <= va mod PGSIZE < PGSIZE /\ 0 <= PGROUNDDOWN va.
Proof.
  intros Hv Hl. unfold chunk. rewrite PGROUNDDOWN_eq.
  assert (0 <= va mod PGSIZE < PGSIZE) by (apply Z.mod_pos_bound; unfold PGSIZE; lia).
  assert ((va - va mod PGSIZE) / PGSIZE = va / PGSIZE)
    by (unfold PGSIZE; Z.to_euclidean_division_equations; lia).
  assert (va mod PGSIZE <= va) by (apply Z.mod_le; unfold PGSIZE; lia).
  replace (va - (va - va mod PGSIZE)) with (va mod PGSIZE) by lia.
  destruct (Z.gtb_spec (PGSIZE - va mod PGSIZE) len); split_and!; (done || lia).
Qed.

Definition mapped_range (m : mem) (pt va len : Z) : Prop :=
  forall i, 0 <= i < len -> upage m pt (va + i) <> 0.

Lemma copyin_iter pt l n : forall f s len srcva dst,
  pt_wf (k_mem s) pt l -> 0 <= srcva -> 0 <= len -> srcva + len <= MAXVA -> (Z.to_nat len < f)%nat ->
  (mapped_range (k_mem s) pt srcva len ->
     iter_upto f (copyin_body pt) (dst, srcva, len) n s = Ret (0, dst ++ ubytes (k_mem s) pt srcva (Z.to_nat len)) s) /\
  (~ mapped_range (k_mem s) pt srcva len ->
     exists bs, iter_upto f (copyin_body pt) (dst, srcva, len) n s = Ret (-1, bs) s).
Proof.
  induction f as [|f IH]; intros s len srcva dst Hwf Hs Hl0 Hmax Hf; [lia|].
  cbn [iter_upto]. unfold copyin_body at 1 3.
  destruct (Z.gtb_spec len 0) as [Hl|Hl]; cbn [negb].
  2:{ assert (len = 0) as -> by lia. rewrite bind_ret_l. split.
      - intros _. simpl. by rewrite app_nil_r.
      - intros Hn. exfalso. apply Hn. intros i Hi. lia. }
  destruct (chunk_spec srcva len Hs Hl) as (Hc & Hcp & Hend & Hoff & Hpg & Hmod & Hrd).
  rewrite (bind_bind_ret _ _ _ _ _ _ _ (walkaddr_run n s pt l (PGROUNDDOWN srcva) ltac:(lia) Hwf)).
  rewrite (upage_page _ _ _ _ Hpg).
  destruct (Z.eqb_spec (upage (k_mem s) pt srcva) 0) as [E|E].
  { rewrite bind_ret_l. split.
    - intros Hm. exfalso. apply (Hm 0); [lia|]. by rewrite Z.add_0_r.
    - intros _. by eexists. }
  rewrite bind_bind_gets. change (if _ >? len then _ else _) with (chunk srcva len).
  set (c := chunk srcva len) in *. rewrite bind_ret_l.
  assert (Hb : rd_bytes (k_mem s) (upage (k_mem s) pt srcva + (srcva - PGROUNDDOWN srcva)) (Z.to_nat c)
               = ubytes (k_mem s) pt srcva (Z.to_nat c))
    by (rewrite Hoff; apply (ubytes_page _ _ srcva); lia).
  rewrite Hb. rewrite u64_small by (unfold MAXVA, PGSIZE in *; change (Z.shiftl 1 _) with 274877906944 in *; lia).
  assert (Hinpage : forall i, 0 <= i < c -> upage (k_mem s) pt (srcva + i) <> 0).
  { intros i Hi. rewrite (upage_page _ _ _ srcva); [done|].
    unfold PGSIZE in *. Z.to_euclidean_division_equations; lia. }
  destruct Hend as [Hend|Hend].
  - (* the last piece *)
    rewrite Hend, Z.sub_diag. destruct f as [|f]; [lia|]. cbn [iter_upto]. unfold copyin_body at 1 3. cbn.
    split; [by intros _|]. intros Hn. exfalso. apply Hn. intros i Hi. apply Hinpage. lia.
  - rewrite Hend.
    destruct (IH s (len - c) (srcva + c) (dst ++ ubytes (k_mem s) pt srcva (Z.to_nat c)) Hwf
                ltac:(lia) ltac:(lia) ltac:(lia) ltac:(lia)) as [IH1 IH2]. split.
    + intros Hm. rewrite IH1 by (intros i Hi; rewrite <- Z.add_assoc; apply Hm; lia).
      rewrite <- app_assoc. do 3 f_equal. replace (srcva + c) with (srcva + Z.of_nat (Z.to_nat c)) by lia.
      rewrite <- ubytes_app. f_equal. lia.
    + intros Hn. apply IH2. intros Hm. apply Hn. intros i Hi.
      destruct (decide (i < c)); [apply Hinpage; lia|].
      replace (srcva + i) with (srcva + c + (i - c)) by lia. apply Hm. lia.
Qed.

(** A write inside a page [pg] that is neither free nor a table. *)
Lemma rd64_data_write m pg off bs t j :
  page_ok pg -> page_ok t -> t <> pg -> 0 <= j < 512 ->
  0 <= off -> off + Z.of_nat (length bs) <= PGSIZE ->
  rd64 (wr_bytes m (pg + off) bs) (t + 8 * j) = rd64 m (t + 8 * j).
Proof.
  intros [Hp _] [Ht _] Hne Hj Ho Hlen. apply rd64_wr_bytes_out.
  destruct (pages_apart t pg Ht Hp Hne); unfold PGSIZE in *; lia.
Qed.

Lemma free_chain_data m pg off bs h l :
  page_ok pg -> pg ∉ l -> 0 <= off -> off + Z.of_nat (length bs) <= PGSIZE ->
  free_chain m h l -> free_chain (wr_bytes m (pg + off) bs) h l.
Proof.
  intros Hpg Hni Ho Hlen Hc. pose proof (free_chain_pages _ _ _ Hc) as Hp.
  revert Hc. apply free_chain_ext. intros p Hin. rewrite Forall_forall in Hp.
  pose proof (rd64_data_write m pg off bs p 0 Hpg (Hp p Hin) ltac:(intros ->; done) ltac:(lia) Ho Hlen) as E.
  by rewrite Z.mul_0_r, Z.add_0_r in E.
Qed.

Lemma uwrite_step s pt l va bs :
  vm_inv s pt l -> uspace (k_mem s) pt l -> 0 <= va -> upage (k_mem s) pt va <> 0 ->
  Z.of_nat (length bs) <= PGSIZE - va mod PGSIZE ->
  let s' := upd_mem (fun m => wr_bytes m (uphys m pt va) bs) s in
  vm_inv s' pt l /\ uspace (k_mem s') pt l /\
  (forall va', upage (k_mem s') pt va' = upage (k_mem s) pt va') /\
  (forall va', 0 <= va' -> uview (k_mem s') pt va' =
     if (va <=? va') && (va' <? va + Z.of_nat (length bs))
     then Some (u8 (aget 0 bs (va' - va))) else uview (k_mem s) pt va').
Proof.
  intros (Hok & Hlk & Hkm & Hwf) [Hu Hinj] Hva Hne Hlen s'.
  destruct (Hu va Hva Hne) as (Hpg & Hpl & Hpt).
  assert (Hmod : 0 <= va mod PGSIZE < PGSIZE) by (apply Z.mod_pos_bound; unfold PGSIZE; lia).
  assert (Hm : k_mem s' = wr_bytes (k_mem s) (upage (k_mem s) pt va + va mod PGSIZE) bs) by done.
  assert (Hent : forall q t j, valid_path q -> node (k_mem s) pt q = Some t -> 0 <= j < 512 ->
            rd64 (k_mem s') (t + 8 * j) = rd64 (k_mem s) (t + 8 * j)).
  { intros q t j Hq Ht Hj. rewrite Hm. apply rd64_data_write; try (done || lia).
    - by eapply Hwf.
    - intros ->. by apply (Hpt q). }
  assert (Hnode : forall q, valid_path q -> node (k_mem s') pt q = node (k_mem s) pt q)
    by (apply (node_ext _ _ _ l Hwf); eauto).
  assert (Hpte : forall va', pte_of (k_mem s') pt va' = pte_of (k_mem s) pt va').
  { intros va'. unfold pte_of, leaf. rewrite Hnode by apply valid_path_va.
    destruct (node (k_mem s) pt _) as [t|] eqn:Ht; [|done]. cbn.
    eapply Hent; [apply valid_path_va|done|apply PX_range; lia]. }
  assert (Hup : forall va', upage (k_mem s') pt va' = upage (k_mem s) pt va')
    by (intros; unfold upage; by rewrite Hpte).
  split_and!; [|split| |]; try done.
  - split_and!; [done|done| |by eapply pt_wf_ext]. split; [|apply Hkm].
    rewrite Hm. apply free_chain_data; [done|done|lia|lia|apply Hkm].
  - intros va'. rewrite Hup. intros H0 H1. destruct (Hu va' H0 H1) as (? & ? & Hq).
    split_and!; [done|done|]. intros q Hv. rewrite Hnode by done. by apply Hq.
  - intros va1 va2. rewrite !Hup. by apply Hinj.
  - intros va' Hva'. unfold uview, uphys. rewrite Hup.
    assert (Hmod' : 0 <= va' mod PGSIZE < PGSIZE) by (apply Z.mod_pos_bound; unfold PGSIZE; lia).
    destruct (decide (va' / PGSIZE = va / PGSIZE)) as [E|E].
    + rewrite (upage_page _ _ _ _ E). destruct (Z.eqb_spec (upage (k_mem s) pt va) 0); [done|].
      assert (Hrel : va' mod PGSIZE - va mod PGSIZE = va' - va)
        by (unfold PGSIZE in *; Z.to_euclidean_division_equations; lia).
      unfold rd. rewrite Hm, lookup_wr_bytes.
      destruct (Z.leb_spec va va'), (Z.ltb_spec va' (va + Z.of_nat (length bs))),
        (Z.leb_spec (upage (k_mem s) pt va + va mod PGSIZE) (upage (k_mem s) pt va + va' mod PGSIZE)),
        (Z.ltb_spec (upage (k_mem s) pt va + va' mod PGSIZE)
           (upage (k_mem s) pt va + va mod PGSIZE + Z.of_nat (length bs))); cbn; try lia; try done.
      do 3 f_equal. lia.
    + destruct (Z.eqb_spec (upage (k_mem s) pt va') 0) as [E0|E0].
      * destruct (Z.leb_spec va va'), (Z.ltb_spec va' (va + Z.of_nat (length bs))); cbn; try done.
        exfalso. apply E. unfold PGSIZE in *. Z.to_euclidean_division_equations; lia.
      * assert (Hpp : upage (k_mem s) pt va' <> upage (k_mem s) pt va)
          by (intros Heq; apply E, Hinj; done).
        destruct (Hu va' Hva' E0) as ([Hal' _] & _). destruct Hpg as [Hal _].
        rewrite Hm, rd_wr_bytes_out by (destruct (pages_apart _ _ Hal' Hal Hpp); lia).
        destruct (Z.leb_spec va va'), (Z.ltb_spec va' (va + Z.of_nat (length bs))); cbn; try done.
        exfalso. apply E. unfold PGSIZE in *. Z.to_euclidean_division_equations; lia.
Qed.

Lemma copyout_iter pt l n : forall f s src dstva,
  vm_inv s pt l -> uspace (k_mem s) pt l -> 0 <= dstva ->
  dstva + Z.of_nat (length src) <= MAXVA -> (length src < f)%nat ->
  mapped_range (k_mem s) pt dstva (Z.of_nat (length src)) ->
  exists s', iter_upto f (copyout_body pt) (dstva, src) n s = Ret 0 s' /\
    mem_only s s' /\ vm_inv s' pt l /\ uspace (k_mem s') pt l /\
    (forall va, upage (k_mem s') pt va = upage (k_mem s) pt va) /\
    (forall va, 0 <= va -> uview (k_mem s') pt va =
       if (dstva <=? va) && (va <? dstva + Z.of_nat (length src))
       then Some (u8 (aget 0 src (va - dstva))) else uview (k_mem s) pt va).
Proof.
  induction f as [|f IH]; intros s src dstva Hinv Hus Hd Hmax Hf Hmap; [lia|].
  cbn [iter_upto]. unfold copyout_body at 1.
  destruct (Z.gtb_spec (Z.of_nat (length src)) 0) as [Hl|Hl]; cbn [negb].
  2:{ exists s. rewrite bind_ret_l. split_and!; try done. intros va Hva.
      destruct (Z.leb_spec dstva va), (Z.ltb_spec va (dstva + Z.of_nat (length src))); try done; lia. }
  destruct (chunk_spec dstva _ Hd Hl) as (Hc & Hcp & Hend & Hoff & Hpg & Hmod & Hrd).
  rewrite (bind_bind_ret _ _ _ _ _ _ _ (walkaddr_run n s pt l (PGROUNDDOWN dstva) Hrd (proj2 (proj2 (proj2 Hinv))))).
  rewrite (upage_page _ _ _ _ Hpg).
  pose proof (Hmap 0 ltac:(lia)) as H0. rewrite Z.add_0_r in H0.
  destruct (Z.eqb_spec (upage (k_mem s) pt dstva) 0) as [E|_]; [done|].
  unfold mem_put. rewrite bind_bind_modify, bind_ret_l.
  change (if _ >? Z.of_nat (length src) then _ else _) with (chunk dstva (Z.of_nat (length src))).
  set (c := chunk dstva (Z.of_nat (length src))) in *. rewrite Hoff.
  assert (Hlt : length (take (Z.to_nat c) src) = Z.to_nat c) by (rewrite length_take; lia).
  destruct (uwrite_step s pt l dstva (take (Z.to_nat c) src) Hinv Hus Hd H0) as (I1 & U1 & P1 & V1); [lia|].
  set (s1 := upd_mem _ s) in *.
  change (upd_mem _ s) with s1.
  assert (Hld : length (drop (Z.to_nat c) src) = (length src - Z.to_nat c)%nat) by apply length_drop.
  assert (Hnext : u64 (PGROUNDDOWN dstva + PGSIZE) = dstva + c \/ drop (Z.to_nat c) src = []).
  { destruct Hend as [Hend|Hend].
    - right. apply drop_ge. lia.
    - left. rewrite Hend. apply u64_small. unfold MAXVA in *. change (Z.shiftl 1 _) with 274877906944 in *. lia. }
  assert (Hmid : forall va, 0 <= va -> uview (k_mem s1) pt va =
            if (dstva <=? va) && (va <? dstva + c) then Some (u8 (aget 0 src (va - dstva))) else uview (k_mem s) pt va).
  { intros va Hva. rewrite V1, Hlt by done. replace (Z.of_nat (Z.to_nat c)) with c by lia.
    destruct (Z.leb_spec dstva va), (Z.ltb_spec va (dstva + c)); cbn [andb]; try done.
    rewrite !aget_lookup, lookup_take_lt by lia. done. }
  destruct Hnext as [Hnext|Hnil].
  - rewrite Hnext.
    destruct (IH s1 (drop (Z.to_nat c) src) (dstva + c)) as (s' & E' & M' & I' & U' & P' & V');
      [done|done|lia|rewrite Hld; lia|rewrite Hld; lia| |].
    { intros i Hi. rewrite P1, <- Z.add_assoc. apply Hmap. rewrite Hld in Hi. lia. }
    exists s'. split_and!; [done|by eapply mem_only_trans; [apply mem_only_upd_mem|]|done|done|by intros; rewrite P', P1|].
    intros va Hva. rewrite V', Hmid, Hld by done.
    destruct (Z.leb_spec (dstva + c) va), (Z.ltb_spec va (dstva + c + Z.of_nat (length src - Z.to_nat c))),
      (Z.leb_spec dstva va), (Z.ltb_spec va (dstva + c)), (Z.ltb_spec va (dstva + Z.of_nat (length src)));
      cbn [andb]; try lia; try done.
    rewrite !aget_lookup, lookup_drop. do 4 f_equal. lia.
  - rewrite Hnil in *. destruct f as [|f]; [lia|]. cbn [iter_upto]. unfold copyout_body at 1. cbn.
    exists s1. split_and!; [done|apply mem_only_upd_mem|done|done|done|].
    cbn in Hld. assert (c = Z.of_nat (length src)) as <- by lia. done.
Qed.

(** An empty table maps nothing. *)
Lemma empty_table s pt l :
  cpu_ok (k_lk s) -> lk_free L_kmem (k_lk s) -> kmem_inv s l -> page_ok pt -> pt ∉ l ->
  (forall j, 0 <= j < 512 -> rd64 (k_mem s) (pt + 8 * j) = 0) ->
  vm_inv s pt l /\ forall va, pte_of (k_mem s) pt va = 0.
Proof.
  intros Hok Hlk Hkm Hpt Hni Hz.
  assert (Hn : forall q t, valid_path q -> node (k_mem s) pt q = Some t -> q = [] /\ t = pt).
  { intros q t [->|[(a & -> & Ha)|(a & b & -> & Ha & Hb)]]%valid_path_cases; cbn [node].
    - by intros [= <-].
    - by rewrite Hz.
    - by rewrite Hz. }
  split; [split_and!; try done; split|].
  - intros q t Hq Ht. by destruct (Hn q t Hq Ht) as [_ ->].
  - intros q q' t Hq Hq' Ht Ht'. destruct (Hn q t Hq Ht), (Hn q' t Hq' Ht'). congruence.
  - intros va. unfold pte_of, leaf. destruct (node (k_mem s) pt _) as [t|] eqn:Ht; [|done].
    apply Hn in Ht as [? _]; [done|apply valid_path_va].
Qed.

Lemma flags_or perm x : 0 <= perm < 1024 -> 0 <= x < 1024 -> 0 <= Z.lor perm x < 1024.
Proof.
  intros Hp Hx. change 1024 with (2 ^ 10) in *.
  assert (0 <= Z.lor perm x) by (apply Z.lor_nonneg; lia). split; [done|].
  destruct (Z.eqb_spec (Z.lor perm x) 0) as [->|]; [done|].
  apply Z.log2_lt_pow2; [lia|]. rewrite Z.log2_lor by lia.
  destruct (Z.eq_dec perm 0) as [->|], (Z.eq_dec x 0) as [->|]; [done|..];
    apply Z.max_lub_lt; try done; apply Z.log2_lt_pow2; lia.
Qed.

Lemma new_pte_spec pa perm :
  0 <= pa < 2 ^ 56 -> pa mod PGSIZE = 0 -> 0 <= perm < 1024 ->
  u64 (new_pte pa perm) = new_pte pa perm /\ PTE2PA (new_pte pa perm) = pa /\
  PTE_FLAGS (new_pte pa perm) = Z.lor perm PTE_V.
Proof.
  intros Hpa Hal Hp. unfold new_pte. rewrite <- Z.lor_assoc.
  assert (Hf : 0 <= Z.lor perm PTE_V < 1024) by (apply flags_or; [done|vm_compute; split; congruence]).
  destruct (PTE2PA_PA2PTE pa (Z.lor perm PTE_V) Hpa Hal Hf) as [H1 H2].
  split_and!; [|done|done]. apply u64_lor; [|by apply u64_small; lia].
  unfold PA2PTE, u64, uwrap. by rewrite Z.mod_mod.
Qed.

(** ** Properties *)

(** C25: [mappages] installs exactly the requested translation: on a table
    whose pages in the range are unmapped it returns 0 with every page of the
    range mapped to consecutive physical pages with permissions [perm|PTE_V],
    or -1 with the free list empty afterwards (and shorter before than twice
    the number of pages, the most tables that could be needed); in both
    cases every other translation, the shape of the table, the free
    list and all memory outside the tables and the free pages are kept. *)
Theorem mappages_maps n s pt l va size pa perm k :
  vm_inv s pt l -> 0 <= va -> 0 < size -> va + size <= MAXVA ->
  0 <= pa -> pa mod PGSIZE = 0 -> pa + size + PGSIZE <= 2 ^ 56 -> 0 <= perm < 1024 ->
  Z.of_nat k = (va + size - 1) / PGSIZE - va / PGSIZE -> (k < n)%nat ->
  (forall x, va / PGSIZE <= x / PGSIZE <= (va + size - 1) / PGSIZE ->
     ctrue (Z.land (pte_of (k_mem s) pt x) PTE_V) = false) ->
  exists s' l' r, mappages pt va size pa perm n s = Ret r s' /\ vm_grows s s' pt l l' /\
    (forall x, 0 <= x < MAXVA -> ~ (va / PGSIZE <= x / PGSIZE <= (va + size - 1) / PGSIZE) ->
       pte_of (k_mem s') pt x = pte_of (k_mem s) pt x) /\
    (r = -1 /\ l' = [] /\ (length l < 2 * S k)%nat \/
     r = 0 /\ forall x, va / PGSIZE <= x / PGSIZE <= (va + size - 1) / PGSIZE ->
       PTE2PA (pte_of (k_mem s') pt x) = pa + (x / PGSIZE - va / PGSIZE) * PGSIZE /\
       PTE_FLAGS (pte_of (k_mem s') pt x) = Z.lor perm PTE_V).
Proof.
  intros Hinv Hva Hsz Hmax Hpa Hal Hpm Hperm Hk Hn Hfree. unfold mappages.
  destruct (Z.eqb_spec size 0); [lia|].
  assert (HM : MAXVA = 67108864 * PGSIZE) by reflexivity.
  rewrite u64_small by (rewrite HM in Hmax; unfold PGSIZE in *; lia).
  set (a := PGROUNDDOWN va). set (last := PGROUNDDOWN (va + size - 1)).
  assert (Ha : a = va / PGSIZE * PGSIZE /\ last = (va + size - 1) / PGSIZE * PGSIZE)
    by (unfold a, last; rewrite !PGROUNDDOWN_eq; unfold PGSIZE; Z.to_euclidean_division_equations; lia).
  destruct Ha as [Ha Hlast].
  assert (Hda : a / PGSIZE = va / PGSIZE /\ last / PGSIZE = (va + size - 1) / PGSIZE)
    by (rewrite Ha, Hlast, !Z.div_mul by (unfold PGSIZE; lia); done).
  assert (Hd0 : 0 <= va / PGSIZE) by (apply Z.div_pos; unfold PGSIZE; lia).
  assert (Hd1 : (va + size - 1) / PGSIZE < 67108864)
    by (apply Z.div_lt_upper_bound; unfold PGSIZE in *; lia).
  assert (Hdk : Z.of_nat k * PGSIZE < size + PGSIZE)
    by (rewrite Hk; unfold PGSIZE in *; Z.to_euclidean_division_equations; lia).
  destruct (mappages_iter pt last perm n k n s l a pa) as (s' & l' & r & E & G & O & R); try done.
  - unfold PGSIZE in *; lia.
  - rewrite Ha, Z.mod_mul by (unfold PGSIZE; lia). done.
  - rewrite Hk, Ha, Hlast. unfold PGSIZE; lia.
  - rewrite Hlast, HM. unfold PGSIZE in *; lia.
  - change (2 ^ 56) with 72057594037927936 in Hpm. change (2 ^ 64) with 18446744073709551616. lia.
  - intros x Hx Hr. apply Hfree. lia.
  - exists s', l', r. destruct Hda as [Hda1 Hda2]. rewrite Hda1, Hda2 in *.
    split_and!; [done|done|done|]. destruct R as [?|(-> & _ & R)]; [by left|right].
    split; [done|]. intros x Hx.
    assert (Hxr : 0 <= x < MAXVA)
      by (rewrite HM; unfold PGSIZE in *; Z.to_euclidean_division_equations; lia).
    rewrite R by done.
    set (pa' := pa + (x / PGSIZE - va / PGSIZE) * PGSIZE).
    assert (Hpa' : 0 <= pa' < 2 ^ 56 /\ pa' mod PGSIZE = 0).
    { unfold pa'. rewrite Z.mod_add by (unfold PGSIZE; lia). split; [|done].
      change (2 ^ 56) with 72057594037927936 in *. unfold PGSIZE in *. lia. }
    destruct (new_pte_spec pa' perm (proj1 Hpa') (proj2 Hpa') Hperm) as (-> & ? & ?). done.
Qed.

(** [copyin] reads what the user sees: it returns 0 with the user's bytes
    at [srcva .. srcva+len) when every page of the range is mapped for the
    user, and -1 when some page is not; the kernel's state is not changed. *)
Lemma copyin_reads n s pt l srcva len :
  pt_wf (k_mem s) pt l -> 0 <= srcva -> 0 <= len -> srcva + len <= MAXVA -> (Z.to_nat len < n)%nat ->
  (mapped_range (k_mem s) pt srcva len ->
     copyin pt srcva len n s = Ret (0, ubytes (k_mem s) pt srcva (Z.to_nat len)) s /\
     forall i, 0 <= i < len ->
       uview (k_mem s) pt (srcva + i) = ubytes (k_mem s) pt srcva (Z.to_nat len) !! Z.to_nat i) /\
  (~ mapped_range (k_mem s) pt srcva len -> exists bs, copyin pt srcva len n s = Ret (-1, bs) s).
Proof.
  intros Hwf Hs Hl Hmax Hn. destruct (copyin_iter pt l n n s len srcva []) as [H1 H2]; try done.
  split; [|exact H2]. intros Hm. split; [by apply H1|]. intros i Hi. unfold uview, ubytes.
  destruct (Z.eqb_spec (upage (k_mem s) pt (srcva + i)) 0) as [E|_]; [by apply (Hm i) in E|].
  rewrite list_lookup_fmap, lookup_seq_lt by lia. simpl. do 3 f_equal. lia.
Qed.

(** C26: [copyout] writes what the user will see: on a mapped range it returns
    0, the user's view of memory is updated at exactly [dstva .. dstva+len)
    with the source bytes, the page table and free list stay well formed, and
    a following [copyin] of the range returns the bytes written. *)
Theorem copyout_writes n s pt l dstva src :
  vm_inv s pt l -> uspace (k_mem s) pt l -> 0 <= dstva ->
  dstva + Z.of_nat (length src) <= MAXVA -> (length src < n)%nat -> Forall byte_ok src ->
  mapped_range (k_mem s) pt dstva (Z.of_nat (length src)) ->
  exists s', copyout pt dstva src n s = Ret 0 s' /\
    mem_only s s' /\ vm_inv s' pt l /\ uspace (k_mem s') pt l /\
    (forall va, 0 <= va -> uview (k_mem s') pt va =
       if (dstva <=? va) && (va <? dstva + Z.of_nat (length src))
       then src !! Z.to_nat (va - dstva) else uview (k_mem s) pt va) /\
    copyin pt dstva (Z.of_nat (length src)) n s' = Ret (0, src) s'.
Proof.
  intros Hinv Hus Hd Hmax Hn Hb Hmap.
  destruct (copyout_iter pt l n n s src dstva) as (s' & E & M & I & U & P & V); try done.
  assert (Hsrc : forall i, 0 <= i < Z.of_nat (length src) ->
            Some (u8 (aget 0 src i)) = src !! Z.to_nat i).
  { intros i Hi. destruct (lookup_lt_is_Some_2 src (Z.to_nat i)) as [b Hbi]; [lia|].
    rewrite aget_lookup, Hbi. simpl. f_equal. apply u8_small. apply (Forall_lookup_1 _ _ _ _ Hb Hbi). }
  exists s'. split_and!; try done.
  - intros va Hva. rewrite V by done.
    destruct (Z.leb_spec dstva va), (Z.ltb_spec va (dstva + Z.of_nat (length src))); cbn; try done.
    apply Hsrc. lia.
  - assert (Hmap' : mapped_range (k_mem s') pt dstva (Z.of_nat (length src)))
      by (intros i Hi; rewrite P; by apply Hmap).
    destruct (copyin_iter pt l n n s' (Z.of_nat (length src)) dstva []) as [H1 _];
      try done; [apply I|lia|lia|]. unfold copyin, loop. rewrite H1 by done. do 2 f_equal.
    rewrite Nat2Z.id. apply list_eq. intros i. unfold ubytes. rewrite app_nil_l, list_lookup_fmap.
    destruct (decide (i < length src)%nat).
    + rewrite lookup_seq_lt by done. simpl. specialize (V (dstva + Z.of_nat i) ltac:(lia)).
      specialize (Hmap' (Z.of_nat i) ltac:(lia)). unfold uview in V at 1.
      apply Z.eqb_neq in Hmap'. rewrite Hmap' in V. rewrite V.
      destruct (Z.leb_spec dstva (dstva + Z.of_nat i)),
        (Z.ltb_spec (dstva + Z.of_nat i) (dstva + Z.of_nat (length src))); cbn; try lia.
      rewrite Hsrc by lia. f_equal. lia.
    + rewrite lookup_seq_ge by lia. symmetry. apply lookup_ge_None_2. lia.
Qed.

End Vm.

(** ** Witnesses

    Four pages of the image: one is a user page, one the root of a page
    table, two are free for the lower tables. *)
Definition ex_P (i : Z) : Z := 0x80022000 + i * PGSIZE.
Definition ex_free4 : kernel :=
  kfree_st (ex_P 3) (kfree_st (ex_P 2) (kfree_st (ex_P 1) (kfree_st (ex_P 0)
    (set_k_lk (boot_lk [L_kmem]) bss)))).
Definition ex_vm : kernel :=
  upd_mem (fun m => memset m (ex_P 2) 0 PGSIZE) (kalloc_st (kalloc_st ex_free4)).
Definition ex_perm : Z := Z.lor (Z.lor PTE_R PTE_W) PTE_U.

Lemma ex_page_ok i : 0 <= i < 4 -> page_ok (ex_P i).
Proof.
  intros Hi. assert (i = 0 \/ i = 1 \/ i = 2 \/ i = 3) as [->|[->|[->| ->]]] by lia;
    (split; [reflexivity|vm_compute; split; congruence]).
Qed.

Lemma ex_free4_inv : kmem_inv ex_free4 [ex_P 3; ex_P 2; ex_P 1; ex_P 0].
Proof.
  unfold ex_free4. repeat (apply kfree_inv;
    [apply ex_page_ok; lia
    |rewrite ?not_elem_of_cons; repeat split; try (by vm_compute); apply not_elem_of_nil|]).
  split; [reflexivity|constructor].
Qed.

Lemma ex_vm_inv :
  vm_inv ex_vm (ex_P 2) [ex_P 1; ex_P 0] /\ forall va, pte_of (k_mem ex_vm) (ex_P 2) va = 0.
Proof.
  destruct (kalloc_inv _ _ _ ex_free4_inv) as (_ & _ & H1 & _).
  destruct (kalloc_inv _ _ _ H1) as (_ & _ & H2 & _).
  assert (Hni : ex_P 2 ∉ [ex_P 1; ex_P 0])
    by (rewrite !not_elem_of_cons; repeat split; try (by vm_compute); apply not_elem_of_nil).
  assert (Hlk : k_lk ex_vm = boot_lk [L_kmem]).
  { unfold ex_vm. change (k_lk (upd_mem ?f ?s)) with (k_lk s).
    by rewrite !(mem_only_lk _ _ (mem_only_kalloc _)). }
  apply empty_table; rewrite ?Hlk; [apply ex_cpu_ok|done| |apply ex_page_ok; lia|done|].
  - split; [|apply H2]. unfold ex_vm.
    change (k_mem (upd_mem ?f ?s)) with (f (k_mem s)); cbn beta. rewrite memset_spec.
    apply free_chain_write; [reflexivity|rewrite length_replicate; unfold PGSIZE; lia|done|apply H2].
  - intros j Hj. unfold ex_vm. change (k_mem (upd_mem ?f ?s)) with (f (k_mem s)); cbn beta.
    by apply rd64_zeroed.
Qed.

Lemma ex_vm_zero j : 0 <= j < 512 -> rd64 (k_mem ex_vm) (ex_P 2 + 8 * j) = 0.
Proof.
  intros Hj. unfold ex_vm. change (k_mem (upd_mem ?f ?s)) with (f (k_mem s)); cbn beta.
  by apply rd64_zeroed.
Qed.

(** The facts about this state, with the state itself kept abstract. *)
Lemma ex_vm_state : exists s,
  vm_inv s (ex_P 2) [ex_P 1; ex_P 0] /\ (forall va, pte_of (k_mem s) (ex_P 2) va = 0) /\
  (forall j, 0 <= j < 512 -> rd64 (k_mem s) (ex_P 2 + 8 * j) = 0).
Proof. exists ex_vm. split; [apply ex_vm_inv|]. split; [apply ex_vm_inv|exact ex_vm_zero]. Qed.

Lemma mappages_maps_witness : exists s s',
  mappages (ex_P 2) 0x1000 PGSIZE (ex_P 3) ex_perm 5%nat s = Ret 0 s' /\
  PTE2PA (pte_of (k_mem s') (ex_P 2) 0x1234) = ex_P 3.
Proof.
  destruct ex_vm_state as (s & Hinv & Hpte & _). exists s.
  destruct (mappages_maps 5%nat s (ex_P 2) [ex_P 1; ex_P 0] 0x1000 PGSIZE (ex_P 3) ex_perm 0%nat)
    as (s' & l' & r & E & _ & _ & [(_ & _ & Hlen)|[-> R]]).
  - exact Hinv.
  - lia.
  - reflexivity.
  - by vm_compute.
  - by vm_compute.
  - reflexivity.
  - by vm_compute.
  - by vm_compute.
  - reflexivity.
  - lia.
  - intros x _. by rewrite Hpte.
  - simpl in Hlen. lia.
  - exists s'. split; [exact E|]. destruct (R 0x1234) as [H _]; [|exact H].
    split; vm_compute; discriminate.
Defined.

(** The same table with the user page mapped at 0x1000. *)
Lemma ex_user_state : exists s l,
  vm_inv s (ex_P 2) l /\ uspace (k_mem s) (ex_P 2) l /\
  mapped_range (k_mem s) (ex_P 2) 0x1000 3.
Proof.
  destruct ex_vm_state as (s & Hinv & Hpte & Hz).
  destruct (mappages_iter (ex_P 2) 0x1000 ex_perm 5 0 5 s [ex_P 1; ex_P 0] 0x1000 (ex_P 3))
    as (s' & l' & r & _ & G & O & [(_ & _ & Hlen)|(-> & Hlen & R)]);
    [done|lia|lia|done|done|by vm_compute|by vm_compute|by vm_compute| | |].
  { intros va Hva _. by rewrite Hpte. }
  { simpl in Hlen. lia. }
  assert (Hup : forall va, 0 <= va -> upage (k_mem s') (ex_P 2) va =
            if decide (va / PGSIZE = 1) then ex_P 3 else 0).
  { intros va Hva. unfold upage. destruct (Z.geb_spec va MAXVA) as [Hge|Hlt].
    - rewrite decide_False; [done|]. change MAXVA with 274877906944 in Hge. unfold PGSIZE.
      Z.to_euclidean_division_equations; lia.
    - case_decide as Hd.
      + rewrite R by (change (0x1000 / PGSIZE) with 1; lia). rewrite Hd. by vm_compute.
      + rewrite O by (change (0x1000 / PGSIZE) with 1; lia). by rewrite Hpte. }
  destruct (vg_free _ _ _ _ _ G) as [used Hused].
  assert (Hn : forall q, valid_path q -> node (k_mem s') (ex_P 2) q <> Some (ex_P 3)).
  { intros q Hq Hq'. destruct (vg_nodes _ _ _ _ _ G q _ Hq Hq') as [Hin|(q' & Hv' & Hq0)].
    - revert Hin. rewrite !elem_of_cons, elem_of_nil. vm_compute; intuition congruence.
    - destruct (valid_path_cases q' Hv') as [->|[(a & -> & Ha)|(a & b & -> & Ha & Hb)]];
        cbn [node] in Hq0; rewrite ?Hz in Hq0 by done; try done. }
  exists s', l'. split_and!; [apply G|split|].
  - intros va Hva. rewrite Hup by done. case_decide; [|done]. intros _.
    split_and!; [apply ex_page_ok; lia| |done].
    intros Hin. assert (Hin' : ex_P 3 ∈ [ex_P 1; ex_P 0]) by (rewrite Hused; apply elem_of_app; by right).
    revert Hin'. rewrite !elem_of_cons, elem_of_nil. vm_compute; intuition congruence.
  - intros va va' Hva Hva'. rewrite !Hup by done. repeat case_decide; by try congruence.
  - intros i Hi. rewrite Hup by lia. rewrite decide_True; [done|].
    unfold PGSIZE; Z.to_euclidean_division_equations; lia.
Qed.

Lemma copyin_reads_witness : exists s bs,
  copyin (ex_P 2) 0x1000 3 10%nat s = Ret (0, bs) s /\ length bs = 3%nat.
Proof.
  destruct ex_user_state as (s & l & Hinv & _ & Hmap). exists s.
  destruct (copyin_reads 10%nat s (ex_P 2) l 0x1000 3) as [H1 _].
  - apply Hinv.
  - lia.
  - lia.
  - by vm_compute.
  - simpl. lia.
  - destruct (H1 Hmap) as [E _]. eexists. split; [exact E|reflexivity].
Defined.

Lemma copyout_writes_witness : exists s s',
  copyout (ex_P 2) 0x1000 [10; 20; 30] 10%nat s = Ret 0 s' /\
  copyin (ex_P 2) 0x1000 3 10%nat s' = Ret (0, [10; 20; 30]) s'.
Proof.
  destruct ex_user_state as (s & l & Hinv & Hus & Hmap). exists s.
  destruct (copyout_writes 10%nat s (ex_P 2) l 0x1000 [10; 20; 30]) as (s' & H1 & _ & _ & _ & _ & H2).
  - exact Hinv.
  - exact Hus.
  - lia.
  - by vm_compute.
  - simpl. lia.
  - repeat constructor; unfold byte_ok; lia.
  - exact Hmap.
  - exists s'. split; [exact H1|exact H2].
Defined.
