(* ===== verification/Proc.v ===== *)
(** * Processes: the table, sleep and wakeup, the scheduler

    kernel/proc.c except the operations that need the file system ([fork],
    [exit], [userinit], [forkret], see Fork.v).  A [struct proc *] is the
    index of the process in the table; dereferencing a null [myproc()] is a
    page fault in the kernel, which ends in the panic of [kerneltrap].
    [swtch] is the monad's [Swtch]: the state in which the scheduler resumes
    the thread is arbitrary. *)

From S2P Require Import Prelude Params Kernel Spinlock StringC Kalloc Vm.

(** Dereferencing a process pointer; [myproc()] where the code does so at once. *)
Definition deref (p : option nat) : K nat :=
  match p with Some i => ret i | None => panic "kerneltrap" end.
Definition the_proc : K nat := let* p := myproc in deref p.

Definition pget {A} (p : nat) (f : proc -> A) : K A := gets (fun s => f (proc_at s p)).
Definition pset (p : nat) (f : proc -> proc) : K unit := modify (upd_proc p f).

(** The indices of the process table, in the order of the loops over it. *)
Definition proc_ix : list nat := seq 0 (Z.to_nat NPROC).

(** Fields of [struct trapframe] (kernel/proc.h), by byte offset. *)
Definition TF_kernel_satp : Z := 0.
Definition TF_kernel_sp : Z := 8.
Definition TF_kernel_trap : Z := 16.
Definition TF_epc : Z := 24.
Definition TF_kernel_hartid : Z := 32.
Definition TF_sp : Z := 48.
Definition TF_a0 : Z := 112.
Definition TF_a1 : Z := 120.
Definition TF_a2 : Z := 128.
Definition TF_a3 : Z := 136.
Definition TF_a4 : Z := 144.
Definition TF_a5 : Z := 152.
Definition TF_a7 : Z := 168.
Definition tf_get (p : nat) (off : Z) : K Z :=
  gets (fun s => rd64 (k_mem s) (p_trapframe (proc_at s p) + off)).
Definition tf_set (p : nat) (off v : Z) : K unit :=
  modify (fun s => upd_mem (fun m => wr64 m (p_trapframe (proc_at s p) + off) v) s).

Section Proc.
Context `{KernelImage}.

Definition procinit : K unit :=
  initlock L_pid ;;
  initlock L_wait ;;
  forall_do proc_ix (fun p =>
    initlock (L_proc p) ;;
    pset p (set_p_state UNUSED) ;;
    pset p (set_p_kstack (KSTACK (Z.of_nat p)))).

Definition allocpid : K Z :=
  acquire L_pid ;;
  let* pid := gets k_nextpid in
  modify (fun s => set_k_nextpid (s32 (k_nextpid s + 1)) s) ;;
  release L_pid ;;
  ret pid.

Definition proc_pagetable (p : nat) : K Z :=
  let* pagetable := uvmcreate in
  if pagetable =? 0 then ret 0 else
  let* r := mappages pagetable TRAMPOLINE PGSIZE trampoline (Z.lor PTE_R PTE_X) in
  if r <? 0 then uvmfree pagetable 0 ;; ret 0 else
  let* tf := pget p p_trapframe in
  let* r := mappages pagetable TRAPFRAME PGSIZE tf (Z.lor PTE_R PTE_W) in
  if r <? 0 then
    uvmunmap pagetable TRAMPOLINE 1 false ;;
    uvmfree pagetable 0 ;;
    ret 0
  else ret pagetable.

Definition proc_freepagetable (pagetable sz : Z) : K unit :=
  uvmunmap pagetable TRAMPOLINE 1 false ;;
  uvmunmap pagetable TRAPFRAME 1 false ;;
  uvmfree pagetable sz.

Definition freeproc (p : nat) : K unit :=
  let* tf := pget p p_trapframe in
  when (ctrue tf) (kfree tf) ;;
  pset p (set_p_trapframe 0) ;;
  let* pt := pget p p_pagetable in
  let* sz := pget p p_sz in
  when (ctrue pt) (proc_freepagetable pt sz) ;;
  pset p (set_p_pagetable 0) ;;
  pset p (set_p_sz 0) ;;
  pset p (set_p_pid 0) ;;
  pset p (set_p_parent None) ;;
  pset p (fun q => set_p_name (<[0%nat := 0]> (p_name q)) q) ;;
  pset p (set_p_chan C_none) ;;
  pset p (set_p_killed 0) ;;
  pset p (set_p_xstate 0) ;;
  pset p (set_p_state UNUSED).

(** [allocproc] returns with [p->lock] held. *)
Definition allocproc : K (option nat) :=
  let* found := foreach proc_ix (fun p =>
    acquire (L_proc p) ;;
    let* st := pget p p_state in
    if decide (st = UNUSED) then ret (Some p) else release (L_proc p) ;; ret None) in
  match found with
  | None => ret None
  | Some p =>
      let* pid := allocpid in
      pset p (set_p_pid pid) ;;
      pset p (set_p_state USED) ;;
      let* tf := kalloc in
      pset p (set_p_trapframe tf) ;;
      if tf =? 0 then freeproc p ;; release (L_proc p) ;; ret None else
      let* pt := proc_pagetable p in
      pset p (set_p_pagetable pt) ;;
      if pt =? 0 then freeproc p ;; release (L_proc p) ;; ret None else
      let* kstack := pget p p_kstack in
      pset p (set_p_context (mk_context sym_forkret (kstack + PGSIZE) (replicate 12 0))) ;;
      ret (Some p)
  end.

Definition growproc (n : Z) : K Z :=
  let* p := the_proc in
  let* sz := pget p p_sz in
  let* pt := pget p p_pagetable in
  let* r :=
    if n >? 0 then
      let* sz := uvmalloc pt sz (u64 (sz + n)) PTE_W in
      ret (if sz =? 0 then None else Some sz)
    else if n <? 0 then let* sz := uvmdealloc pt sz (u64 (sz + n)) in ret (Some sz)
    else ret (Some sz) in
  match r with
  | None => ret (-1)
  | Some sz => pset p (set_p_sz sz) ;; ret 0
  end.

(** ** Switching *)
Definition sched : K unit :=
  let* p := the_proc in
  let* h := holding (L_proc p) in
  if negb h then panic "sched p->lock" else
  let* c := mycpu in
  if negb (noff c =? 1) then panic "sched locks" else
  let* st := pget p p_state in
  if decide (st = RUNNING) then panic "sched running" else
  let* i := intr_get in
  if ctrue i then panic "sched interruptible" else
  let* c := mycpu in
  let ie := intena c in
  swtch ;;
  modify (upd_lk (upd_cpu (set_intena ie))).

Definition yield_ : K unit :=
  let* p := the_proc in
  acquire (L_proc p) ;;
  pset p (set_p_state RUNNABLE) ;;
  sched ;;
  release (L_proc p).

Definition sleep (ch : chan) (lk : lockid) : K unit :=
  let* p := the_proc in
  acquire (L_proc p) ;;
  release lk ;;
  pset p (set_p_chan ch) ;;
  pset p (set_p_state SLEEPING) ;;
  sched ;;
  pset p (set_p_chan C_none) ;;
  release (L_proc p) ;;
  acquire lk.

Definition wakeup (ch : chan) : K unit :=
  forall_do proc_ix (fun p =>
    let* me := myproc in
    if decide (me = Some p) then ret tt else
    acquire (L_proc p) ;;
    let* q := pget p id in
    when (bool_decide (p_state q = SLEEPING) && bool_decide (p_chan q = ch))
      (pset p (set_p_state RUNNABLE)) ;;
    release (L_proc p)).

(** The scheduler of one cpu never returns. *)
Definition scheduler : K unit :=
  modify (upd_lk (upd_cpu (set_c_proc None))) ;;
  loop (fun _ : unit =>
    intr_on ;;
    forall_do proc_ix (fun p =>
      acquire (L_proc p) ;;
      let* st := pget p p_state in
      when (bool_decide (st = RUNNABLE))
        (pset p (set_p_state RUNNING) ;;
         modify (upd_lk (upd_cpu (set_c_proc (Some p)))) ;;
         swtch ;;
         modify (upd_lk (upd_cpu (set_c_proc None)))) ;;
      release (L_proc p)) ;;
    ret (inl tt)) tt.

(** ** Killing and waiting *)
Definition kill (pid : Z) : K Z :=
  let* r := foreach proc_ix (fun p =>
    acquire (L_proc p) ;;
    let* q := pget p id in
    if p_pid q =? pid then
      pset p (set_p_killed 1) ;;
      let* st := pget p p_state in
      when (bool_decide (st = SLEEPING)) (pset p (set_p_state RUNNABLE)) ;;
      release (L_proc p) ;;
      ret (Some 0)
    else release (L_proc p) ;; ret None) in
  ret (default (-1) r).

Definition setkilled (p : nat) : K unit :=
  acquire (L_proc p) ;;
  pset p (set_p_killed 1) ;;
  release (L_proc p).

Definition killed (p : nat) : K Z :=
  acquire (L_proc p) ;;
  let* k := pget p p_killed in
  release (L_proc p) ;;
  ret k.

Definition reparent (p : nat) : K unit :=
  forall_do proc_ix (fun pp =>
    let* par := pget pp p_parent in
    if decide (par = Some p) then
      let* ip := gets k_initproc in
      pset pp (set_p_parent ip) ;;
      match ip with Some i => wakeup (C_proc i) | None => wakeup C_none end
    else ret tt).

(** The scan of [wait] over the table: [inr r] when it returns [r]. *)
Definition wait_scan (p : nat) (addr : Z) : K (bool + Z) :=
  foreach_acc proc_ix false (fun havekids pp =>
    let* par := pget pp p_parent in
    if decide (par = Some p) then
      acquire (L_proc pp) ;;
      let* q := pget pp id in
      if decide (p_state q = ZOMBIE) then
        let pid := p_pid q in
        let* bad :=
          if negb (addr =? 0) then
            let* pt := pget p p_pagetable in
            let* r := copyout pt addr (le_enc 4 (p_xstate q)) in ret (r <? 0)
          else ret false in
        if bad : bool then
          release (L_proc pp) ;; release L_wait ;; ret (inr (-1))
        else
          freeproc pp ;; release (L_proc pp) ;; release L_wait ;; ret (inr pid)
      else release (L_proc pp) ;; ret (inl true)
    else ret (inl havekids)).

Definition wait (addr : Z) : K Z :=
  let* p := the_proc in
  acquire L_wait ;;
  loop (fun _ : unit =>
    let* r := wait_scan p addr in
    match r with
    | inr pid => ret (inr pid)
    | inl havekids =>
        let* stop := if negb havekids then ret true else let* k := killed p in ret (ctrue k) in
        if stop : bool then release L_wait ;; ret (inr (-1))
        else sleep (C_proc p) L_wait ;; ret (inl tt)
    end) tt.

(** ** Copies to and from user or kernel memory

    A kernel destination is the caller's buffer, which receives the bytes
    itself, and a kernel source is the bytes. *)
Definition either_copyout (user_dst : option Z) (src : list Z) : K Z :=
  let* p := myproc in
  match user_dst with
  | Some dst => let* p := deref p in let* pt := pget p p_pagetable in copyout pt dst src
  | None => ret 0
  end.

Definition either_copyin (src : Z + list Z) (len : Z) : K (Z * list Z) :=
  let* p := myproc in
  match src with
  | inl src => let* p := deref p in let* pt := pget p p_pagetable in copyin pt src len
  | inr bs => ret (0, take (Z.to_nat len) bs)
  end.

(** ** Lemmas: updates of the table *)
Definition upd_procs (f : nat -> proc -> proc) (l : list nat) (s : kernel) : kernel :=
  foldl (fun s p => upd_proc p (f p) s) s l.

Lemma upd_procs_lk f l s : k_lk (upd_procs f l s) = k_lk s.
Proof. unfold upd_procs. revert s; induction l as [|p l IH]; intros s; [done|]. cbn. by rewrite IH. Qed.

Lemma upd_procs_rest f l s :
  upd_procs f l s = set_k_procs (k_procs (upd_procs f l s)) s.
Proof. unfold upd_procs. revert s; induction l as [|p l IH]; intros s; [done|]. cbn. rewrite IH at 1. done. Qed.

Lemma upd_procs_length f l s : length (k_procs (upd_procs f l s)) = length (k_procs s).
Proof.
  unfold upd_procs. revert s; induction l as [|p l IH]; intros s; [done|]. cbn. rewrite IH.
  apply length_alter.
Qed.

Lemma proc_at_upd_eq p f s : (p < length (k_procs s))%nat -> proc_at (upd_proc p f s) p = f (proc_at s p).
Proof. intros. by apply list_lookup_total_alter_eq. Qed.
Lemma proc_at_upd_ne p q f s : p <> q -> proc_at (upd_proc p f s) q = proc_at s q.
Proof. intros. by apply list_lookup_total_alter_ne. Qed.
Lemma upd_proc_upd p f g s : upd_proc p f (upd_proc p g s) = upd_proc p (f ∘ g) s.
Proof. unfold upd_proc, set_k_procs; cbn. f_equal. by rewrite <- list_alter_alter_eq. Qed.
Lemma upd_proc_id p f s : f (proc_at s p) = proc_at s p -> upd_proc p f s = s.
Proof. intros E. unfold upd_proc. by rewrite list_alter_id_lookup. Qed.
Lemma upd_proc_ext p f g s : f (proc_at s p) = g (proc_at s p) -> upd_proc p f s = upd_proc p g s.
Proof. intros E. unfold upd_proc. f_equal. by apply list_alter_ext_lookup. Qed.

Lemma proc_at_upd_procs f l s p :
  NoDup l -> (p < length (k_procs s))%nat ->
  proc_at (upd_procs f l s) p = if decide (p ∈ l) then f p (proc_at s p) else proc_at s p.
Proof.
  unfold upd_procs. intros Hnd Hp. revert s Hp; induction Hnd as [|q l Hni Hnd IH]; intros s Hp; cbn.
  - by rewrite decide_False by set_solver.
  - rewrite IH by (unfold upd_proc; cbn; by rewrite length_alter).
    destruct (decide (p = q)) as [->|Hne].
    + rewrite decide_False by done. rewrite decide_True by left. by apply proc_at_upd_eq.
    + rewrite proc_at_upd_ne by done. repeat case_decide; set_solver.
Qed.

Definition proc_locks_free (l : lockst) : Prop := forall p, p ∈ proc_ix -> lk_free (L_proc p) l.

(** ** Lemmas: [wakeup] *)
Definition wake_one (me : option nat) (ch : chan) (p : nat) (q : proc) : proc :=
  if decide (me = Some p) then q else
  if bool_decide (p_state q = SLEEPING) && bool_decide (p_chan q = ch)
  then set_p_state RUNNABLE q else q.
Definition wakeup_st (me : option nat) (ch : chan) (s : kernel) : kernel :=
  upd_procs (wake_one me ch) proc_ix s.

(** [wakeup] needs the process locks free, except the caller's own, which it
    does not take. *)
Lemma wakeup_run n s ch :
  cpu_ok (k_lk s) ->
  (forall p, p ∈ proc_ix -> Some p <> c_proc (cpu_of (k_lk s)) -> lk_free (L_proc p) (k_lk s)) ->
  wakeup ch n s = Ret tt (wakeup_st (c_proc (cpu_of (k_lk s))) ch s).
Proof.
  unfold wakeup, wakeup_st. generalize proc_ix as l. intros l Hok Hfree.
  set (me := c_proc (cpu_of (k_lk s))) in *. unfold upd_procs.
  assert (Hme : c_proc (cpu_of (k_lk s)) = me) by done. clearbody me.
  revert s Hok Hfree Hme. induction l as [|p l IH]; intros s Hok Hfree Hme; [done|].
  cbn [forall_do foldl].
  rewrite (bind_bind_ret _ _ _ _ _ _ _ (myproc_run n s Hok)), Hme.
  unfold wake_one at 2. case_decide as Hd.
  - rewrite bind_ret_l. rewrite upd_proc_id by done.
    apply IH; [done| |done]. intros q Hq. apply Hfree. by right.
  - assert (Hf : lk_free (L_proc p) (k_lk s)) by (apply Hfree; [by left|congruence]).
    rewrite (bind_bind_ret _ _ _ _ _ _ _ (acquire_run n s (L_proc p) Hok Hf)).
    unfold pget. rewrite bind_bind_gets. unfold id.
    change (proc_at (upd_lk _ s) p) with (proc_at s p).
    set (b := bool_decide _ && bool_decide _).
    set (s1 := upd_proc p (fun q => if bool_decide (p_state q = SLEEPING) && bool_decide (p_chan q = ch)
                 then set_p_state RUNNABLE q else q) s).
    rewrite (bind_bind_ret _ _ _ n (upd_lk (acq (L_proc p)) s) tt (upd_lk (acq (L_proc p)) s1)).
    2:{ unfold when, s1, pset. destruct b eqn:E.
        - unfold modify. f_equal. change (upd_lk ?f (upd_proc p ?g s)) with (upd_proc p g (upd_lk f s)).
          apply upd_proc_ext. change (proc_at (upd_lk _ s) p) with (proc_at s p).
          unfold b in E. by rewrite E.
        - rewrite upd_proc_id; [done|]. unfold b in E. by rewrite E. }
    rewrite (bind_ret _ _ _ _ _ _ (release_after_run n s1 (L_proc p) Hok Hf)).
    apply IH; [done| |done]. intros q Hq. apply Hfree. by right.
Qed.

(** ** Lemmas: [kill], [killed], [allocpid] *)
Definition find_pid (pid : Z) (l : list nat) (s : kernel) : option nat :=
  List.find (fun p => p_pid (proc_at s p) =? pid) l.
Definition kill_one (q : proc) : proc :=
  let q := set_p_killed 1 q in
  if bool_decide (p_state q = SLEEPING) then set_p_state RUNNABLE q else q.

Lemma kill_run n s pid :
  cpu_ok (k_lk s) -> proc_locks_free (k_lk s) ->
  kill pid n s = match find_pid pid proc_ix s with
                 | Some p => Ret 0 (upd_proc p kill_one s)
                 | None => Ret (-1) s
                 end.
Proof.
  unfold kill, proc_locks_free. generalize proc_ix as l. intros l Hok Hfree.
  set (body := fun p : nat => _).
  assert (Hl : foreach l body n s = match find_pid pid l s with
                 | Some p => Ret (Some 0) (upd_proc p kill_one s) | None => Ret None s end).
  2:{ unfold bind. rewrite Hl. by destruct (find_pid pid l s). }
  induction l as [|p l IH]; [done|]. cbn [foreach find_pid List.find]. unfold body at 1.
  assert (Hf : lk_free (L_proc p) (k_lk s)) by (apply Hfree; left).
  rewrite (bind_bind_ret _ _ _ _ _ _ _ (acquire_run n s (L_proc p) Hok Hf)).
  unfold pget, id. rewrite bind_bind_gets. change (proc_at (upd_lk _ s) p) with (proc_at s p).
  destruct (p_pid (proc_at s p) =? pid) eqn:E.
  - unfold pset. rewrite bind_bind_modify, bind_bind_gets.
    rewrite (bind_bind_ret _ _ _ n _ tt (upd_lk (acq (L_proc p)) (upd_proc p kill_one s))).
    + by rewrite (bind_bind_ret _ _ _ _ _ _ _ (release_after_run n (upd_proc p kill_one s) (L_proc p) Hok Hf)).
    + change (upd_lk ?f (upd_proc p ?g s)) with (upd_proc p g (upd_lk f s)).
      set (s0 := upd_lk (acq (L_proc p)) s).
      destruct (decide (p < length (k_procs s0))%nat) as [Hp|Hp].
      * rewrite proc_at_upd_eq by done. unfold when, kill_one.
        change (p_state (set_p_killed 1 (proc_at s0 p))) with (p_state (proc_at s0 p)).
        destruct (bool_decide (p_state (proc_at s0 p) = SLEEPING)) eqn:Es; unfold modify, ret; f_equal.
        -- rewrite upd_proc_upd. apply upd_proc_ext. unfold compose.
           change (p_state (set_p_killed 1 (proc_at s0 p))) with (p_state (proc_at s0 p)). by rewrite Es.
        -- apply upd_proc_ext.
           change (p_state (set_p_killed 1 (proc_at s0 p))) with (p_state (proc_at s0 p)). by rewrite Es.
      * assert (Hid : forall f, upd_proc p f s0 = s0).
        { intros f. unfold upd_proc. rewrite list_alter_out by lia. done. }
        rewrite !Hid. unfold when. destruct (bool_decide _); unfold modify, ret; f_equal. apply Hid.
  - rewrite (bind_bind_ret _ _ _ _ _ _ _ (release_after_run n s (L_proc p) Hok Hf)), bind_ret_l.
    apply IH. intros q Hq. apply Hfree. by right.
Qed.

Lemma killed_run n s p :
  cpu_ok (k_lk s) -> lk_free (L_proc p) (k_lk s) ->
  killed p n s = Ret (p_killed (proc_at s p)) s.
Proof.
  intros Hok Hf. unfold killed. rewrite (bind_ret _ _ _ _ _ _ (acquire_run n s (L_proc p) Hok Hf)).
  unfold pget. rewrite bind_gets. by rewrite (bind_ret _ _ _ _ _ _ (release_after_run n s (L_proc p) Hok Hf)).
Qed.

Lemma allocpid_run n s :
  cpu_ok (k_lk s) -> lk_free L_pid (k_lk s) ->
  allocpid n s = Ret (k_nextpid s) (set_k_nextpid (s32 (k_nextpid s + 1)) s).
Proof.
  intros Hok Hf. unfold allocpid. rewrite (bind_ret _ _ _ _ _ _ (acquire_run n s L_pid Hok Hf)).
  rewrite bind_gets, bind_modify.
  by rewrite (bind_ret _ _ _ _ _ _ (release_after_run n (set_k_nextpid (s32 (k_nextpid s + 1)) s) L_pid Hok Hf)).
Qed.

(** ** Lemmas: [sched] and [sleep] *)
Lemma the_proc_run n s p :
  cpu_ok (k_lk s) -> c_proc (cpu_of (k_lk s)) = Some p -> the_proc n s = Ret p s.
Proof. intros Hok Hp. unfold the_proc. by rewrite (bind_ret _ _ _ _ _ _ (myproc_run n s Hok)), Hp. Qed.

(** With only its own lock held and its state changed, a process passes the
    checks of [sched] and switches; the value of [intena] is the thread's. *)
Lemma sched_run n s p :
  cpu_ok (k_lk s) -> c_proc (cpu_of (k_lk s)) = Some p -> lk_held (L_proc p) (k_lk s) ->
  noff (cpu_of (k_lk s)) = 1 -> p_state (proc_at s p) <> RUNNING ->
  sched n s = Swtch s (fun s' => Ret tt (upd_lk (upd_cpu (set_intena (intena (cpu_of (k_lk s))))) s')).
Proof.
  intros Hok Hp Hh Hn Hst. unfold sched.
  rewrite (bind_ret _ _ _ _ _ _ (the_proc_run n s p Hok Hp)).
  rewrite (bind_ret _ _ _ _ _ _ (holding_true n s (L_proc p) _ Hh eq_refl eq_refl)). cbn [negb].
  unfold mycpu. rewrite bind_gets, Hn. change (negb (1 =? 1)) with false. cbn iota. unfold pget. rewrite bind_gets.
  rewrite decide_False by done.
  destruct Hok as (Hh' & Hc & H0 & H1 & H2 & _).
  rewrite (bind_ret intr_get _ n s (sie (sstatus (hart_of (k_lk s)))) s) by done.
  rewrite H2 by lia. cbn [ctrue Z.eqb negb]. rewrite bind_gets. done.
Qed.

Lemma rel_cpu_ok lk l : cpu_ok l -> 1 < noff (cpu_of l) -> cpu_ok (rel lk l) /\
  noff (cpu_of (rel lk l)) = noff (cpu_of l) - 1 /\ c_proc (cpu_of (rel lk l)) = c_proc (cpu_of l) /\
  tp (rel lk l) = tp l /\ (forall lk', lk' <> lk -> locks (rel lk l) !! lk' = locks l !! lk') /\
  locks (rel lk l) !! lk = Some (mk_spinlock 0 None).
Proof.
  intros (Hh & Hc & H0 & H1 & H2 & H3) Hn.
  set (l1 := upd_cpu (fun c => set_noff (noff c - 1) c) (upd_lock lk (mk_spinlock 0 None) l)).
  assert (Hcpu : cpu_of l1 = set_noff (noff (cpu_of l) - 1) (cpu_of l))
    by exact (cpu_of_upd_cpu (fun c => set_noff (noff c - 1) c) (upd_lock lk (mk_spinlock 0 None) l) Hc).
  assert (Hrel : rel lk l = l1).
  { unfold rel, pop. fold l1. rewrite Hcpu. cbn [noff set_noff].
    destruct (Z.eqb_spec (noff (cpu_of l) - 1) 0); [lia|done]. }
  rewrite Hrel. unfold cpu_ok. rewrite Hcpu. cbn.
  split_and!; [done|by rewrite length_alter|lia|lia|auto with lia|done|done|done|done| |].
  - intros lk' Hne. by rewrite lookup_insert_ne.
  - apply lookup_insert_eq.
Qed.

(** Giving back the last lock restores the interrupt state recorded when the
    first was taken. *)
Lemma rel_last lk l : cpu_ok l -> noff (cpu_of l) = 1 ->
  cpu_ok (rel lk l) /\ (forall lk', lk' <> lk -> locks (rel lk l) !! lk' = locks l !! lk') /\
  locks (rel lk l) !! lk = Some (mk_spinlock 0 None) /\ noff (cpu_of (rel lk l)) = 0 /\ c_proc (cpu_of (rel lk l)) = c_proc (cpu_of l).
Proof.
  intros (Hh & Hc & H0 & H1 & H2 & H3) Hn.
  set (l1 := upd_cpu (fun c => set_noff (noff c - 1) c) (upd_lock lk (mk_spinlock 0 None) l)).
  assert (Hcpu : cpu_of l1 = set_noff (noff (cpu_of l) - 1) (cpu_of l))
    by exact (cpu_of_upd_cpu (fun c => set_noff (noff c - 1) c) (upd_lock lk (mk_spinlock 0 None) l) Hc).
  unfold rel, pop. fold l1. rewrite Hcpu, Hn. cbn [noff set_noff intena].
  change (1 - 1 =? 0) with true. cbn [andb].
  destruct H3 as [H3|H3]; rewrite H3; cbn [ctrue Z.eqb negb].
  - unfold cpu_ok. rewrite Hcpu. cbn [noff intena set_noff].
    split_and!; [done|unfold l1; cbn; by rewrite length_alter|lia| |lia|by left| | |lia|done].
    + intros _. rewrite H3. symmetry. apply H2. lia.
    + intros lk' Hne. cbn. by rewrite lookup_insert_ne.
    + cbn. apply lookup_insert_eq.
  - set (l2 := upd_hart _ l1). assert (Hcpu2 : cpu_of l2 = cpu_of l1) by done.
    assert (Hhart : hart_of l2 = set_sstatus (Z.lor (sstatus (hart_of l1)) SSTATUS_SIE) (hart_of l1))
      by exact (hart_of_upd_hart (fun h => set_sstatus (Z.lor (sstatus h) SSTATUS_SIE) h) l1 Hh).
    unfold cpu_ok. rewrite Hcpu2, Hcpu, Hhart. cbn [noff intena set_noff sstatus set_sstatus].
    split_and!; [unfold l2; cbn; by rewrite length_alter|unfold l2; cbn; by rewrite length_alter|lia| |lia|by right| | |lia|done].
    + intros _. by rewrite H3, sie_on.
    + intros lk' Hne. cbn. by rewrite lookup_insert_ne.
    + cbn. apply lookup_insert_eq.
Qed.

Lemma acq_c_proc lk l : cpu_ok l -> c_proc (cpu_of (acq lk l)) = c_proc (cpu_of l).
Proof.
  intros (Hh & Hc & _). change (cpu_of (acq lk l)) with (cpu_of (push l)). unfold push.
  rewrite cpu_of_upd_cpu by done. change (cpu_of (upd_hart _ l)) with (cpu_of l).
  destruct (_ =? 0); done.
Qed.

(** The state in which [sleep] switches out. *)
Definition sleep_st (p : nat) (ch : chan) (lk : lockid) (s : kernel) : kernel :=
  upd_proc p (fun q => set_p_state SLEEPING (set_p_chan ch q))
    (upd_lk (fun l => rel lk (acq (L_proc p) l)) s).

Lemma sleep_out n s p ch lk :
  cpu_ok (k_lk s) -> c_proc (cpu_of (k_lk s)) = Some p -> (p < length (k_procs s))%nat ->
  lk_held lk (k_lk s) -> lk <> L_proc p -> lk_free (L_proc p) (k_lk s) ->
  noff (cpu_of (k_lk s)) = 1 ->
  let s1 := sleep_st p ch lk s in
  cpu_ok (k_lk s1) /\ lk_free lk (k_lk s1) /\ lk_held (L_proc p) (k_lk s1) /\ noff (cpu_of (k_lk s1)) = 1 /\
  exists ie, (ie = 0 \/ ie = 1) /\ sleep ch lk n s = Swtch s1 (fun s2 =>
    (pset p (set_p_chan C_none) ;; release (L_proc p) ;; acquire lk) n
      (upd_lk (upd_cpu (set_intena ie)) s2)).
Proof.
  intros Hok Hp Hlen Hh Hne Hf Hn s1.
  pose proof (acq_cpu_ok (L_proc p) _ Hok) as Hok1. pose proof (acq_noff (L_proc p) _ Hok) as Hn1.
  pose proof (acq_c_proc (L_proc p) _ Hok) as Hp1.
  destruct (rel_cpu_ok lk _ Hok1 ltac:(lia)) as (Hok2 & Hn2 & Hp2 & Ht2 & Hl2 & Hlk2).
  set (l2 := rel lk (acq (L_proc p) (k_lk s))) in *.
  assert (Hs1 : k_lk s1 = l2) by done. rewrite Hs1.
  assert (Hheld : lk_held (L_proc p) l2).
  { unfold lk_held. rewrite Hl2, Ht2 by congruence. apply acq_held. }
  split_and!; [done|done|done|lia|].
  exists (intena (cpu_of l2)). split; [apply Hok2|]. unfold sleep.
  rewrite (bind_ret _ _ _ _ _ _ (the_proc_run n s p Hok Hp)).
  rewrite (bind_ret _ _ _ _ _ _ (acquire_run n s (L_proc p) Hok Hf)).
  rewrite (bind_ret _ _ _ _ _ _ (release_run n (upd_lk (acq (L_proc p)) s) lk Hok1
            ltac:(unfold lk_held; cbn; by rewrite lookup_insert_ne by congruence)
            ltac:(change (k_lk (upd_lk (acq (L_proc p)) s)) with (acq (L_proc p) (k_lk s)); lia))).
  unfold pset at 1 2. rewrite !bind_modify.
  rewrite upd_lk_lk, upd_proc_upd. change (upd_proc p _ _) with s1.
  unfold bind at 1. rewrite (sched_run n s1 p).
  - done.
  - done.
  - rewrite Hs1. congruence.
  - done.
  - rewrite Hs1. lia.
  - unfold s1, sleep_st. rewrite proc_at_upd_eq by done. done.
Qed.

(** Back from the scheduler: the channel is cleared and the locks exchanged. *)
Lemma sleep_in n s2 p lk ie : ie = 0 \/ ie = 1 -> cpu_ok (k_lk s2) -> lk_held (L_proc p) (k_lk s2) -> lk_free lk (k_lk s2) ->
  noff (cpu_of (k_lk s2)) = 1 -> lk <> L_proc p ->
  exists l3, (pset p (set_p_chan C_none) ;; release (L_proc p) ;; acquire lk) n (upd_lk (upd_cpu (set_intena ie)) s2)
      = Ret tt (upd_proc p (set_p_chan C_none) (set_k_lk l3 s2)) /\
    cpu_ok l3 /\ lk_held lk l3 /\ lk_free (L_proc p) l3 /\ noff (cpu_of l3) = 1 /\ c_proc (cpu_of l3) = c_proc (cpu_of (k_lk s2)) /\
    (forall lk', lk' <> lk -> lk' <> L_proc p -> locks l3 !! lk' = locks (k_lk s2) !! lk') /\
    slocks l3 = slocks (k_lk s2).
Proof.
  intros Hie Hok2 Hh2 Hf2 Hn2 Hne. unfold pset. rewrite bind_modify.
  set (s2' := upd_proc p (set_p_chan C_none) (upd_lk (upd_cpu (set_intena ie)) s2)).
  destruct Hok2 as (Ha & Hb & Hc & Hd & He & _).
  assert (Hcpu : cpu_of (k_lk s2') = set_intena ie (cpu_of (k_lk s2))) by (by apply cpu_of_upd_cpu).
  assert (Hok2' : cpu_ok (k_lk s2')).
  { unfold cpu_ok. rewrite Hcpu. cbn. split_and!; [done|by rewrite length_alter|done|lia|done|done]. }
  rewrite (bind_ret _ _ _ _ _ _ (release_run n s2' (L_proc p) Hok2' Hh2 ltac:(rewrite Hcpu; cbn; lia))).
  destruct (rel_last (L_proc p) (k_lk s2') Hok2' ltac:(rewrite Hcpu; cbn; lia)) as (Hok3 & Hl3 & Hfp & Hn3 & Hp3).
  set (l2 := rel (L_proc p) (k_lk s2')) in *.
  assert (Hlk3 : lk_free lk l2) by (unfold lk_free; rewrite Hl3 by done; exact Hf2).
  rewrite (acquire_run n (upd_lk (rel (L_proc p)) s2') lk Hok3 Hlk3).
  exists (acq lk l2). split; [done|]. split_and!.
  - by apply acq_cpu_ok.
  - apply acq_held.
  - apply acq_free_ne; [done|exact Hfp].
  - rewrite acq_noff by done. lia.
  - rewrite acq_c_proc by done. rewrite Hp3, Hcpu. done.
  - intros lk' N1 N2. change (locks (acq lk l2)) with (<[lk := mk_spinlock 1 (Some (tp (push l2)))]> (locks l2)). rewrite lookup_insert_ne by done. by rewrite Hl3 by done.
  - change (slocks (acq lk l2)) with (slocks l2). unfold l2, rel, pop. by case_match.
Qed.

(** ** Properties *)

(** [sleep] gives up the condition lock and the cpu together: it switches
    out holding only its own process lock, with the condition lock free and
    the process SLEEPING on the channel; when the scheduler resumes it with
    that lock held, it clears the channel and returns holding the condition
    lock and not its own. *)
Lemma sleep_releases_and_reacquires n s p ch lk :
  cpu_ok (k_lk s) -> c_proc (cpu_of (k_lk s)) = Some p -> (p < length (k_procs s))%nat ->
  lk_held lk (k_lk s) -> lk <> L_proc p -> lk_free (L_proc p) (k_lk s) ->
  noff (cpu_of (k_lk s)) = 1 ->
  exists s1 k, sleep ch lk n s = Swtch s1 k /\
    lk_free lk (k_lk s1) /\ lk_held (L_proc p) (k_lk s1) /\ noff (cpu_of (k_lk s1)) = 1 /\
    p_state (proc_at s1 p) = SLEEPING /\ p_chan (proc_at s1 p) = ch /\
    (forall q, q <> p -> proc_at s1 q = proc_at s q) /\
    (forall s2, cpu_ok (k_lk s2) -> (p < length (k_procs s2))%nat ->
       lk_held (L_proc p) (k_lk s2) -> lk_free lk (k_lk s2) -> noff (cpu_of (k_lk s2)) = 1 ->
       exists s3, k s2 = Ret tt s3 /\ lk_held lk (k_lk s3) /\ lk_free (L_proc p) (k_lk s3) /\
         proc_at s3 p = set_p_chan C_none (proc_at s2 p)).
Proof.
  intros Hok Hp Hlen Hh Hne Hf Hn.
  destruct (sleep_out n s p ch lk Hok Hp Hlen Hh Hne Hf Hn) as (Hok1 & H1 & H2 & H3 & ie & Hie & E).
  eexists _, _. split; [exact E|].
  split_and!; [done|done|done| | |intros q Hq; exact (proc_at_upd_ne p q _ _ (not_eq_sym Hq))|].
  1,2: unfold sleep_st; rewrite proc_at_upd_eq by done; done.
  intros s2 Hok2 Hlen2 Hh2 Hf2 Hn2.
  destruct (sleep_in n s2 p lk ie Hie Hok2 Hh2 Hf2 Hn2 Hne) as (l3 & E3 & _ & H4 & H5 & _). rewrite E3. eexists. split; [reflexivity|].
  split_and!; [done|done|]. by rewrite proc_at_upd_eq.
Qed.

(** [wakeup] makes RUNNABLE exactly the other processes that are SLEEPING
    on the channel and changes nothing else: no other field of any process,
    no lock, no other part of the kernel. *)
Lemma wakeup_exact n s ch :
  cpu_ok (k_lk s) -> proc_locks_free (k_lk s) -> length (k_procs s) = Z.to_nat NPROC ->
  exists s', wakeup ch n s = Ret tt s' /\ s' = set_k_procs (k_procs s') s /\
    length (k_procs s') = length (k_procs s) /\
    forall p, (p < length (k_procs s))%nat ->
      proc_at s' p =
      if bool_decide (p_state (proc_at s p) = SLEEPING) && bool_decide (p_chan (proc_at s p) = ch)
         && negb (bool_decide (c_proc (cpu_of (k_lk s)) = Some p))
      then set_p_state RUNNABLE (proc_at s p) else proc_at s p.
Proof.
  intros Hok Hf Hlen. eexists. split; [apply wakeup_run; auto|]. unfold wakeup_st.
  split_and!; [apply upd_procs_rest|apply upd_procs_length|]. intros p Hp.
  rewrite proc_at_upd_procs by (done || apply NoDup_seq).
  rewrite decide_True by (apply elem_of_seq; lia). unfold wake_one.
  destruct (decide (c_proc (cpu_of (k_lk s)) = Some p)) as [E|E].
  - rewrite (bool_decide_true _ E). by rewrite andb_false_r.
  - rewrite (bool_decide_false _ E). by rewrite andb_true_r.
Qed.

(** [kill] marks the first process with the given pid killed and makes it
    RUNNABLE if it was SLEEPING, returning 0; it returns -1 and changes
    nothing when no process has that pid. *)
Lemma kill_exact n s pid :
  cpu_ok (k_lk s) -> proc_locks_free (k_lk s) -> length (k_procs s) = Z.to_nat NPROC ->
  (exists p, kill pid n s = Ret 0 (upd_proc p kill_one s) /\ (p < length (k_procs s))%nat /\
     p_pid (proc_at s p) = pid /\
     (forall q, (q < p)%nat -> p_pid (proc_at s q) <> pid) /\
     (p_killed (proc_at (upd_proc p kill_one s) p) = 1 /\
      p_state (proc_at (upd_proc p kill_one s) p) <> SLEEPING)) \/
  (kill pid n s = Ret (-1) s /\ forall q, (q < length (k_procs s))%nat -> p_pid (proc_at s q) <> pid).
Proof.
  intros Hok Hf Hlen. rewrite kill_run by done. unfold find_pid, proc_ix. rewrite Hlen.
  destruct (List.find _ _) as [p|] eqn:E.
  - left. exists p. destruct (find_seq_Some _ _ _ E) as (Hp & Hpid & Hlt). apply Z.eqb_eq in Hpid.
    split_and!; [done|done|done| | |].
    + intros q Hq. specialize (Hlt q Hq). by apply Z.eqb_neq in Hlt.
    + rewrite proc_at_upd_eq by lia. unfold kill_one. case_bool_decide; done.
    + rewrite proc_at_upd_eq by lia. unfold kill_one. case_bool_decide; done.
  - right. split; [done|]. intros q Hq. apply Z.eqb_neq.
    apply (List.find_none _ _ E). apply in_seq. lia.
Qed.

End Proc.

(** ** Witnesses *)
Definition ex_procs : kernel :=
  upd_proc 3 (fun q => set_p_state SLEEPING (set_p_chan C_ticks (set_p_pid 7 q)))
    (set_k_lk (boot_lk (L_kmem :: L_time :: map L_proc proc_ix)) bss).

Lemma ex_procs_free : proc_locks_free (k_lk ex_procs).
Proof.
  intros p Hp. assert (H : forallb (fun p => match locks (k_lk ex_procs) !! L_proc p with
      | Some (mk_spinlock 0 None) => true | _ => false end) proc_ix = true) by (by vm_compute).
  rewrite forallb_forall in H. apply list_elem_of_In in Hp. apply H in Hp. unfold lk_free.
  destruct (locks (k_lk ex_procs) !! L_proc p) as [[[] []]|]; done.
Qed.

Lemma wakeup_exact_witness : exists s',
  wakeup C_ticks 1%nat ex_procs = Ret tt s' /\ p_state (proc_at s' 3) = RUNNABLE.
Proof.
  destruct (wakeup_exact 1%nat ex_procs C_ticks) as (s' & E & _ & _ & H).
  - apply ex_cpu_ok.
  - apply ex_procs_free.
  - reflexivity.
  - exists s'. split; [exact E|]. rewrite (H 3%nat); [reflexivity|vm_compute; lia].
Defined.

Lemma kill_exact_witness :
  kill 9 1%nat ex_procs = Ret (-1) ex_procs \/ exists p, p_pid (proc_at ex_procs p) = 9.
Proof.
  destruct (kill_exact 1%nat ex_procs 9) as [(p & _ & _ & H & _)|[E _]].
  - apply ex_cpu_ok.
  - apply ex_procs_free.
  - reflexivity.
  - right. exists p. exact H.
  - left. exact E.
Defined.

(** Process 3 running on hart 0 with [tickslock] held. *)
Definition ex_running : kernel :=
  upd_lk (acq L_time) (upd_lk (upd_cpu (set_c_proc (Some 3%nat))) ex_procs).

Lemma sleep_releases_and_reacquires_witness : exists s1 k,
  sleep C_ticks L_time 1%nat ex_running = Swtch s1 k /\ p_state (proc_at s1 3) = SLEEPING.
Proof.
  destruct (sleep_releases_and_reacquires 1%nat ex_running 3 C_ticks L_time) as (s1 & k & E & _ & _ & _ & H & _).
  - apply acq_cpu_ok. unfold cpu_ok. cbn. split_and!; auto; try lia; intros; vm_compute in *; congruence.
  - reflexivity.
  - vm_compute; lia.
  - by vm_compute.
  - discriminate.
  - by vm_compute.
  - by vm_compute.
  - exists s1, k. split; [exact E|exact H].
Defined.
