(* ===== verification/Sleeplock.v ===== *)
(** * Sleep locks

    kernel/sleeplock.c: locks held across disk operations, whose waiters give
    up the cpu.  The lock's fields are protected by its spin lock. *)

From S2P Require Import Prelude Params Kernel Spinlock StringC Kalloc Vm Proc.

Definition sl_at (s : kernel) (lk : slid) : sleeplock := slocks (k_lk s) !!! lk.
Definition upd_sl (lk : slid) (f : sleeplock -> sleeplock) : kernel -> kernel :=
  upd_lk (fun l => set_slocks (<[lk := f (slocks l !!! lk)]> (slocks l)) l).

Definition initsleeplock (lk : slid) : K unit :=
  initlock (L_sleep lk) ;;
  modify (upd_sl lk (set_sl_locked 0)) ;;
  modify (upd_sl lk (set_sl_pid 0)).

Definition acquiresleep (lk : slid) : K unit :=
  acquire (L_sleep lk) ;;
  loop (fun _ : unit =>
    let* l := gets (fun s => sl_locked (sl_at s lk)) in
    if ctrue l then sleep (C_sleep lk) (L_sleep lk) ;; ret (inl tt) else ret (inr tt)) tt ;;
  modify (upd_sl lk (set_sl_locked 1)) ;;
  let* p := the_proc in
  let* pid := pget p p_pid in
  modify (upd_sl lk (set_sl_pid pid)) ;;
  release (L_sleep lk).

Definition releasesleep (lk : slid) : K unit :=
  acquire (L_sleep lk) ;;
  modify (upd_sl lk (set_sl_locked 0)) ;;
  modify (upd_sl lk (set_sl_pid 0)) ;;
  wakeup (C_sleep lk) ;;
  release (L_sleep lk).

Definition holdingsleep (lk : slid) : K bool :=
  acquire (L_sleep lk) ;;
  let* l := gets (fun s => sl_at s lk) in
  let* r :=
    if ctrue (sl_locked l) then
      let* p := the_proc in let* pid := pget p p_pid in ret (sl_pid l =? pid)
    else ret false in
  release (L_sleep lk) ;;
  ret r.

(** ** Lemmas *)

(** Process [p] runs on this hart, and the locks of all processes are free. *)
Definition running (s : kernel) (p : nat) : Prop :=
  cpu_ok (k_lk s) /\ c_proc (cpu_of (k_lk s)) = Some p /\ (p < length (k_procs s))%nat /\
  p ∈ proc_ix /\ proc_locks_free (k_lk s).

Lemma acq_locks_ne lk lk' l : lk <> lk' -> locks (acq lk l) !! lk' = locks l !! lk'.
Proof. intros. unfold acq. cbn. by rewrite lookup_insert_ne. Qed.

Lemma running_upd_sl s p lk f : running s p -> running (upd_sl lk f s) p.
Proof. done. Qed.

Lemma running_wakeup s p ch : running s p -> running (wakeup_st (Some p) ch s) p.
Proof.
  intros (Hok & Hp & Hlen & Hpx & Hf). unfold running, wakeup_st.
  rewrite !upd_procs_lk, upd_procs_length. done.
Qed.

Lemma upd_sl_sl lk f g s : upd_sl lk f (upd_sl lk g s) = upd_sl lk (f ∘ g) s.
Proof.
  unfold upd_sl, upd_lk, set_k_lk, set_slocks. cbn. by rewrite lookup_total_insert_eq, insert_insert_eq.
Qed.
Lemma sl_at_upd_eq lk f s : sl_at (upd_sl lk f s) lk = f (sl_at s lk).
Proof. unfold sl_at, upd_sl. cbn. apply lookup_total_insert_eq. Qed.
Lemma sl_at_upd_ne lk lk' f s : lk <> lk' -> sl_at (upd_sl lk f s) lk' = sl_at s lk'.
Proof. intros. unfold sl_at, upd_sl. cbn. by apply lookup_total_insert_ne. Qed.
Lemma sl_at_wakeup me ch s lk : sl_at (wakeup_st me ch s) lk = sl_at s lk.
Proof. unfold sl_at, wakeup_st. by rewrite upd_procs_lk. Qed.

Lemma upd_sl_ext lk f g s : f (sl_at s lk) = g (sl_at s lk) -> upd_sl lk f s = upd_sl lk g s.
Proof. intros E. unfold upd_sl, upd_lk, sl_at in *. by rewrite E. Qed.

(** [wakeup] while a lock other than a process's is held. *)
Lemma wakeup_locked n s p lk ch :
  running s p -> (forall q, lk <> L_proc q) ->
  wakeup ch n (upd_lk (acq lk) s) = Ret tt (upd_lk (acq lk) (wakeup_st (Some p) ch s)).
Proof.
  intros (Hok & Hp & Hlen & Hpx & Hf) Hne. rewrite wakeup_run.
  - change (k_lk (upd_lk (acq lk) s)) with (acq lk (k_lk s)). by rewrite acq_c_proc, Hp by done.
  - exact (acq_cpu_ok _ _ Hok).
  - intros x Hx _. apply acq_free_ne; [done|by apply Hf].
Qed.

(** [myproc()->pid] while a lock is held. *)
Lemma the_proc_locked n s p lk :
  running s p -> the_proc n (upd_lk (acq lk) s) = Ret p (upd_lk (acq lk) s).
Proof.
  intros (Hok & Hp & _). apply the_proc_run; [exact (acq_cpu_ok _ _ Hok)|].
  etrans; [exact (acq_c_proc _ _ Hok)|done].
Qed.

Definition sl_taken (s : kernel) (p : nat) : sleeplock := mk_sleeplock 1 (p_pid (proc_at s p)).
Definition sl_freed : sleeplock := mk_sleeplock 0 0.

Lemma acquiresleep_run n s p lk :
  running s p -> lk_free (L_sleep lk) (k_lk s) -> sl_locked (sl_at s lk) = 0 -> (1 <= n)%nat ->
  acquiresleep lk n s = Ret tt (upd_sl lk (fun _ => sl_taken s p) s).
Proof.
  intros Hr Hf H0 Hn. pose proof Hr as (Hok & Hp & Hlen & Hpx & Hpf). unfold acquiresleep.
  rewrite (bind_ret _ _ _ _ _ _ (acquire_run n s (L_sleep lk) Hok Hf)).
  set (s0 := upd_lk (acq (L_sleep lk)) s). destruct n as [|n]; [lia|].
  rewrite (bind_ret (loop _ _) _ (S n) s0 tt s0).
  2:{ unfold loop. cbn [iter_upto]. rewrite bind_bind_gets.
      change (sl_at s0 lk) with (sl_at s lk). by rewrite H0. }
  rewrite bind_modify. rewrite (bind_ret _ _ _ _ _ _ (the_proc_locked (S n) (upd_sl lk (set_sl_locked 1) s) p (L_sleep lk)
    (running_upd_sl _ _ _ _ Hr))).
  unfold pget. rewrite bind_gets, bind_modify.
  etrans; [exact (release_after_run (S n) (upd_sl lk (set_sl_pid (p_pid (proc_at s p))) (upd_sl lk (set_sl_locked 1) s)) (L_sleep lk) Hok Hf)|].
  by rewrite upd_sl_sl.
Qed.

Lemma releasesleep_run n s p lk :
  running s p -> lk_free (L_sleep lk) (k_lk s) ->
  releasesleep lk n s = Ret tt (wakeup_st (Some p) (C_sleep lk) (upd_sl lk (fun _ => sl_freed) s)).
Proof.
  intros Hr Hf. pose proof Hr as (Hok & _). unfold releasesleep.
  rewrite (bind_ret _ _ _ _ _ _ (acquire_run n s (L_sleep lk) Hok Hf)). rewrite !bind_modify.
  rewrite (bind_ret _ _ _ _ _ _ (wakeup_locked n (upd_sl lk (set_sl_pid 0) (upd_sl lk (set_sl_locked 0) s)) p
    (L_sleep lk) (C_sleep lk) Hr ltac:(discriminate))).
  rewrite upd_sl_sl. apply release_after_run; unfold wakeup_st; by rewrite upd_procs_lk.
Qed.

Definition sl_mine (s : kernel) (p : nat) (lk : slid) : bool :=
  ctrue (sl_locked (sl_at s lk)) && (sl_pid (sl_at s lk) =? p_pid (proc_at s p)).

Lemma holdingsleep_run n s p lk :
  running s p -> lk_free (L_sleep lk) (k_lk s) -> holdingsleep lk n s = Ret (sl_mine s p lk) s.
Proof.
  intros Hr Hf. pose proof Hr as (Hok & _). unfold holdingsleep, sl_mine.
  rewrite (bind_ret _ _ _ _ _ _ (acquire_run n s (L_sleep lk) Hok Hf)). rewrite bind_gets.
  change (sl_at (upd_lk (acq (L_sleep lk)) s) lk) with (sl_at s lk).
  destruct (ctrue (sl_locked (sl_at s lk))); cbn [andb].
  - rewrite (bind_bind_ret _ _ _ _ _ _ _ (the_proc_locked n s p (L_sleep lk) Hr)).
    unfold pget. rewrite bind_bind_gets, bind_ret_l.
    by rewrite (bind_ret _ _ _ _ _ _ (release_after_run n s (L_sleep lk) Hok Hf)).
  - rewrite bind_ret_l. by rewrite (bind_ret _ _ _ _ _ _ (release_after_run n s (L_sleep lk) Hok Hf)).
Qed.

Lemma sl_mine_taken s p lk : sl_mine (upd_sl lk (fun _ => sl_taken s p) s) p lk = true.
Proof. unfold sl_mine. rewrite sl_at_upd_eq. cbn. by rewrite Z.eqb_refl. Qed.

(** ** Waiting for the lock *)

(** The body of the loop of [acquiresleep], and what follows the loop. *)
Definition acq_body (lk : slid) (_ : unit) : K (unit + unit) :=
  let* l := gets (fun s => sl_locked (sl_at s lk)) in
  if ctrue l then sleep (C_sleep lk) (L_sleep lk) ;; ret (inl tt) else ret (inr tt).
Definition acq_rest (lk : slid) : K unit :=
  modify (upd_sl lk (set_sl_locked 1)) ;;
  let* p := the_proc in
  let* pid := pget p p_pid in
  modify (upd_sl lk (set_sl_pid pid)) ;;
  release (L_sleep lk).

(** Process [p] runs with the inner spin lock of [lk] as its only lock. *)
Definition inside (lk : slid) (p : nat) (s : kernel) : Prop :=
  running s p /\ lk_held (L_sleep lk) (k_lk s) /\ noff (cpu_of (k_lk s)) = 1.
(** The scheduler has switched back to [p], which slept on [lk]: it holds the
    lock of [p] and no other. *)
Definition resumed (lk : slid) (p : nat) (s : kernel) : Prop :=
  cpu_ok (k_lk s) /\ c_proc (cpu_of (k_lk s)) = Some p /\ (p < length (k_procs s))%nat /\ p ∈ proc_ix /\
  noff (cpu_of (k_lk s)) = 1 /\ lk_held (L_proc p) (k_lk s) /\ lk_free (L_sleep lk) (k_lk s) /\
  forall q, q ∈ proc_ix -> q <> p -> lk_free (L_proc q) (k_lk s).

(** [p] has the lock: [acquiresleep], resumed in [s], ended with the lock free
    in [s] and taken for [p]. *)
Definition acquired (lk : slid) (p n : nat) (s : kernel) (o : outcome kernel unit) : Prop :=
  exists s', o = Ret tt s' /\ sl_locked (sl_at s lk) = 0 /\ sl_at s' lk = sl_taken s p /\
    (forall lk', lk' <> lk -> sl_at s' lk' = sl_at s lk') /\ p_chan (proc_at s' p) = C_none /\
    running s' p /\ lk_free (L_sleep lk) (k_lk s') /\ holdingsleep lk n s' = Ret true s'.

(** An [acquiresleep] that waits: it has switched out, asleep on the channel of
    the lock, with the inner spin lock free and the lock [l] as it found it.
    Each of its next [m] resumptions finds the lock free and takes it, or finds
    it held and waits again. *)
Fixpoint waits (lk : slid) (p n m : nat) (l : sleeplock) (o : outcome kernel unit) : Prop :=
  exists s1 k, o = Swtch s1 k /\ sl_at s1 lk = l /\ lk_free (L_sleep lk) (k_lk s1) /\
    p_state (proc_at s1 p) = SLEEPING /\ p_chan (proc_at s1 p) = C_sleep lk /\
    match m with
    | O => True
    | S m => forall s2, resumed lk p s2 ->
        if decide (sl_locked (sl_at s2 lk) = 0) then acquired lk p n s2 (k s2)
        else waits lk p n m (sl_at s2 lk) (k s2)
    end.

Lemma acq_rest_run n s p lk : inside lk p s ->
  exists l', acq_rest lk n s = Ret tt (set_k_lk l' (upd_sl lk (fun _ => sl_taken s p) s)) /\
    running (set_k_lk l' (upd_sl lk (fun _ => sl_taken s p) s)) p /\ lk_free (L_sleep lk) l' /\
    slocks l' = <[lk := sl_taken s p]> (slocks (k_lk s)).
Proof.
  intros ((Hok & Hp & Hlen & Hpx & Hpf) & Hh & Hn1). unfold acq_rest. rewrite bind_modify.
  rewrite (bind_ret _ _ _ _ _ _ (the_proc_run n (upd_sl lk (set_sl_locked 1) s) p Hok Hp)).
  unfold pget. rewrite bind_gets, bind_modify, upd_sl_sl.
  set (s2 := upd_sl lk (fun _ => sl_taken s p) s).
  destruct (rel_last (L_sleep lk) (k_lk s2) Hok Hn1) as (Hok' & Hl' & Hf' & _ & Hp').
  exists (rel (L_sleep lk) (k_lk s2)). split_and!; [| |done|].
  - etrans; [apply (release_run n s2 (L_sleep lk) Hok Hh)|done]. change (cpu_of (k_lk s2)) with (cpu_of (k_lk s)). lia.
  - split_and!; [done|etrans; [exact Hp'|exact Hp]|done|done|]. intros q Hq. unfold lk_free. etrans; [apply Hl'; done|]. by apply Hpf.
  - unfold rel, pop. by case_match.
Qed.

(** Back from [sleep] the process is inside again. *)
Lemma resumed_inside n s2 p lk ie : ie = 0 \/ ie = 1 -> resumed lk p s2 ->
  exists s3, (pset p (set_p_chan C_none) ;; release (L_proc p) ;; acquire (L_sleep lk)) n (upd_lk (upd_cpu (set_intena ie)) s2) = Ret tt s3 /\
    inside lk p s3 /\ slocks (k_lk s3) = slocks (k_lk s2) /\ proc_at s3 p = set_p_chan C_none (proc_at s2 p).
Proof.
  intros Hie (Hok & Hp & Hlen & Hpx & Hn1 & Hh & Hf & Hq).
  destruct (sleep_in n s2 p (L_sleep lk) ie Hie Hok Hh Hf Hn1) as (l3 & E & Hok3 & Hh3 & Hf3 & Hn3 & Hp3 & Hl3 & Hs3); [done|].
  eexists. split; [exact E|]. split_and!; [|exact Hs3|by rewrite proc_at_upd_eq].
  split; [|done]. split_and!; [exact Hok3|by etrans|cbn; by rewrite length_alter|done|].
  intros q Hqx. destruct (decide (q = p)) as [->|Hne]; [done|]. unfold lk_free. etrans; [apply Hl3; congruence|]. by apply Hq.
Qed.

(** One round of the loop: it sleeps while the lock is held, and a resumption
    starts the next round; it takes the lock when it is free. *)
Lemma acq_round_held n p lk f s : inside lk p s -> sl_locked (sl_at s lk) <> 0 ->
  exists s1 k, (iter_upto (S f) (acq_body lk) tt ;; acq_rest lk) n s = Swtch s1 k /\ sl_at s1 lk = sl_at s lk /\
    lk_free (L_sleep lk) (k_lk s1) /\ p_state (proc_at s1 p) = SLEEPING /\ p_chan (proc_at s1 p) = C_sleep lk /\
    forall s2, resumed lk p s2 -> exists s3, k s2 = (iter_upto f (acq_body lk) tt ;; acq_rest lk) n s3 /\
      inside lk p s3 /\ slocks (k_lk s3) = slocks (k_lk s2) /\ proc_at s3 p = set_p_chan C_none (proc_at s2 p).
Proof.
  intros ((Hok & Hp & Hlen & Hpx & Hpf) & Hh & Hn1) Hheld.
  destruct (sleep_out n s p (C_sleep lk) (L_sleep lk) Hok Hp Hlen Hh ltac:(done) (Hpf p Hpx) Hn1) as (_ & H1 & _ & _ & ie & Hie & E).
  set (s1 := sleep_st p (C_sleep lk) (L_sleep lk) s) in *.
  assert (Eb : acq_body lk tt n s = Swtch s1 (fun s2 => obind ((pset p (set_p_chan C_none) ;; release (L_proc p) ;; acquire (L_sleep lk)) n
    (upd_lk (upd_cpu (set_intena ie)) s2)) (fun _ s3 => Ret (inl tt) s3))).
  { unfold acq_body. rewrite bind_gets. unfold ctrue. destruct (Z.eqb_spec (sl_locked (sl_at s lk)) 0); [done|]. cbn [negb]. unfold bind at 1. by rewrite E. }
  cbn [iter_upto]. unfold bind at 1 2. rewrite Eb. cbn [obind]. eexists s1, _. split; [reflexivity|].
  split_and!; [unfold s1, sleep_st, sl_at; cbn; unfold rel, pop; by case_match|done|unfold s1, sleep_st; by rewrite proc_at_upd_eq..|].
  intros s2 Hr. destruct (resumed_inside n s2 p lk ie Hie Hr) as (s3 & E3 & Hin3 & Hl3 & Hp3). exists s3. rewrite E3. by cbn [obind].
Qed.

Lemma acq_round_free n p lk f s : inside lk p s -> sl_locked (sl_at s lk) = 0 -> exists s',
  (iter_upto (S f) (acq_body lk) tt ;; acq_rest lk) n s = Ret tt s' /\ sl_at s' lk = sl_taken s p /\
  (forall lk', lk' <> lk -> sl_at s' lk' = sl_at s lk') /\ proc_at s' p = proc_at s p /\ running s' p /\ lk_free (L_sleep lk) (k_lk s').
Proof.
  intros Hin Hz. destruct (acq_rest_run n s p lk Hin) as (l' & E & Hr & Hf & Hsl).
  set (s' := set_k_lk l' _) in *. exists s'.
  assert (Hat : forall lk', sl_at s' lk' = (<[lk := sl_taken s p]> (slocks (k_lk s))) !!! lk') by (intros; unfold sl_at; by rewrite <- Hsl).
  split_and!; [|by rewrite Hat, lookup_total_insert_eq|intros lk' Hne; by rewrite Hat, lookup_total_insert_ne|done|done|done].
  rewrite (bind_ret _ _ _ _ tt s); [exact E|]. cbn [iter_upto]. unfold acq_body at 1. by rewrite bind_bind_gets, Hz.
Qed.

Lemma acq_loop_waits n p lk : forall m f s, (m < f)%nat -> inside lk p s -> sl_locked (sl_at s lk) <> 0 ->
  waits lk p n m (sl_at s lk) ((iter_upto f (acq_body lk) tt ;; acq_rest lk) n s).
Proof.
  induction m as [|m IH]; intros f s Hm Hin Hheld; (destruct f as [|f]; [lia|]);
    destruct (acq_round_held n p lk f s Hin Hheld) as (s1 & k & E & H1 & H2 & H3 & H4 & Hk); exists s1, k; (split_and!; try done).
  intros s2 Hr. destruct (Hk s2 Hr) as (s3 & E3 & Hin3 & Hl3 & Hp3). rewrite E3.
  assert (Hsl : forall lk', sl_at s3 lk' = sl_at s2 lk') by (intros; unfold sl_at; by rewrite Hl3).
  case_decide as Hz; [|rewrite <- Hsl; apply (IH f); [lia|done|by rewrite Hsl]].
  destruct f as [|f]; [lia|]. destruct (acq_round_free n p lk f s3 Hin3) as (s4 & E4 & T4 & O4 & P4 & R4 & F4); [by rewrite Hsl|].
  exists s4. split_and!; try done.
  - rewrite T4. unfold sl_taken. by rewrite Hp3.
  - intros lk' Hne. by rewrite O4, Hsl.
  - by rewrite P4, Hp3.
  - rewrite (holdingsleep_run n s4 p lk R4 F4). f_equal. unfold sl_mine. rewrite T4, P4. cbn. by rewrite Z.eqb_refl.
Qed.

(** ** Property *)

(** C32: a sleep lock is exclusive and its owner is recorded.  Acquiring a free
    lock marks it held by the caller, so that [holdingsleep] holds, and
    releasing it marks it free and makes every process that sleeps on it
    RUNNABLE.  Acquiring a lock that is held leaves its owner unchanged and
    sleeps on the lock's channel with the inner spin lock released; whenever
    the process is resumed it looks again: if the lock is held it sleeps again,
    owner unchanged, and only if the lock is free does it take it and return,
    for as many resumptions as the loop bound allows ([waits]).  So of several
    processes woken by one release, one takes the lock and the others go on
    waiting. *)
Theorem sleeplock_protocol n s p lk :
  running s p -> lk_free (L_sleep lk) (k_lk s) -> noff (cpu_of (k_lk s)) = 0 -> (1 <= n)%nat ->
  (sl_locked (sl_at s lk) = 0 -> exists s1, acquiresleep lk n s = Ret tt s1 /\
     sl_at s1 lk = sl_taken s p /\ holdingsleep lk n s1 = Ret true s1 /\
     exists s2, releasesleep lk n s1 = Ret tt s2 /\ sl_at s2 lk = sl_freed /\
       holdingsleep lk n s2 = Ret false s2 /\
       forall q, (q < length (k_procs s))%nat -> q ∈ proc_ix -> q <> p ->
         p_state (proc_at s q) = SLEEPING -> p_chan (proc_at s q) = C_sleep lk ->
         p_state (proc_at s2 q) = RUNNABLE) /\
  (sl_locked (sl_at s lk) <> 0 -> waits lk p n (pred n) (sl_at s lk) (acquiresleep lk n s)).
Proof.
  intros Hr Hf H0 Hn. pose proof Hr as (Hok & Hp & Hlen & Hpx & Hpf). split.
  - intros Hfree. eexists. split; [by apply acquiresleep_run|].
    set (s1 := upd_sl lk (fun _ => sl_taken s p) s).
    split; [apply sl_at_upd_eq|]. split.
    { rewrite (holdingsleep_run n s1 p lk Hr Hf). f_equal. exact (sl_mine_taken s p lk). }
    eexists. split; [by apply (releasesleep_run n s1 p)|].
    split; [rewrite sl_at_wakeup; apply sl_at_upd_eq|]. split.
    + rewrite (holdingsleep_run n _ p lk); [|by apply running_wakeup|unfold wakeup_st; by rewrite upd_procs_lk].
      unfold sl_mine. by rewrite sl_at_wakeup, sl_at_upd_eq.
    + intros q Hq Hqx Hne Hst Hch. unfold wakeup_st.
      rewrite proc_at_upd_procs by (done || apply NoDup_seq). rewrite decide_True by done.
      unfold wake_one. rewrite decide_False by congruence.
      change (proc_at (upd_sl lk (fun _ => sl_freed) s1) q) with (proc_at s q).
      by rewrite Hst, Hch, !bool_decide_true by done.
  - intros Hheld. unfold acquiresleep.
    rewrite (bind_ret _ _ _ _ _ _ (acquire_run n s (L_sleep lk) Hok Hf)).
    apply (acq_loop_waits n p lk (pred n) n (upd_lk (acq (L_sleep lk)) s)); [lia| |done]. split_and!.
    + split_and!; [exact (acq_cpu_ok _ _ Hok)|etrans; [exact (acq_c_proc _ _ Hok)|done]|done|done|].
      intros q Hq. apply acq_free_ne; [done|by apply Hpf].
    + apply acq_held.
    + etrans; [exact (acq_noff _ _ Hok)|lia].
Qed.

(** Process 3 takes the lock of buffer 0 while process 4 sleeps on it. *)
Definition ex_sleeplock : kernel :=
  upd_proc 4 (fun q => set_p_state SLEEPING (set_p_chan (C_sleep (SL_buf 0)) q))
   (set_k_lk (upd_cpu (set_c_proc (Some 3%nat)) (boot_lk (L_sleep (SL_buf 0) :: map L_proc proc_ix))) bss).

Lemma ex_sleeplock_running : running ex_sleeplock 3.
Proof.
  split_and!.
  - unfold cpu_ok. cbn. split_and!; auto; try lia; intros; vm_compute in *; congruence.
  - reflexivity.
  - vm_compute; lia.
  - apply elem_of_seq. vm_compute. lia.
  - intros q Hq. assert (H : forallb (fun p => match locks (k_lk ex_sleeplock) !! L_proc p with
      | Some (mk_spinlock 0 None) => true | _ => false end) proc_ix = true) by (by vm_compute).
    rewrite forallb_forall in H. apply list_elem_of_In in Hq. apply H in Hq. unfold lk_free.
    destruct (locks (k_lk ex_sleeplock) !! L_proc q) as [[[] []]|]; done.
Qed.

(** A hart that switches to [p] holds the lock of [p]. *)
Lemma running_resumed lk p s : running s p -> lk_free (L_sleep lk) (k_lk s) -> noff (cpu_of (k_lk s)) = 0 ->
  resumed lk p (upd_lk (acq (L_proc p)) s).
Proof.
  intros (Hok & Hp & Hlen & Hpx & Hpf) Hf H0. split_and!.
  - exact (acq_cpu_ok _ _ Hok).
  - etrans; [exact (acq_c_proc _ _ Hok)|done].
  - done.
  - done.
  - etrans; [exact (acq_noff _ _ Hok)|lia].
  - apply acq_held.
  - by apply acq_free_ne.
  - intros q Hq Hne. apply acq_free_ne; [congruence|by apply Hpf].
Qed.

(** The free lock is taken and given back, and process 4 is woken; the lock
    held by process 9 is waited for, and taken at the second resumption, when
    it is free. *)
Lemma sleeplock_protocol_witness :
  (exists s1 s2, acquiresleep (SL_buf 0) 1%nat ex_sleeplock = Ret tt s1 /\
    releasesleep (SL_buf 0) 1%nat s1 = Ret tt s2 /\ p_state (proc_at s2 4) = RUNNABLE) /\
  exists held back s1 k1 s2 k2 s3, sl_locked (sl_at held (SL_buf 0)) = 1 /\
    acquiresleep (SL_buf 0) 3%nat held = Swtch s1 k1 /\ k1 (upd_lk (acq (L_proc 3)) held) = Swtch s2 k2 /\
    k2 (upd_lk (acq (L_proc 3)) back) = Ret tt s3 /\ sl_at s3 (SL_buf 0) = sl_taken back 3.
Proof.
  split.
  - destruct (sleeplock_protocol 1%nat ex_sleeplock 3 (SL_buf 0)) as [H _].
    + exact ex_sleeplock_running.
    + by vm_compute.
    + reflexivity.
    + lia.
    + destruct H as (s1 & E1 & _ & _ & s2 & E2 & _ & _ & Hq); [reflexivity|].
      exists s1, s2. split; [exact E1|]. split; [exact E2|].
      apply (Hq 4%nat); [vm_compute; lia|apply elem_of_seq; vm_compute; lia|lia|reflexivity|reflexivity].
  - set (held := upd_sl (SL_buf 0) (fun _ => mk_sleeplock 1 9) ex_sleeplock). exists held, ex_sleeplock.
    assert (Hr : running held 3) by exact ex_sleeplock_running. assert (Hf : lk_free (L_sleep (SL_buf 0)) (k_lk held)) by (by vm_compute).
    destruct (sleeplock_protocol 3%nat held 3 (SL_buf 0) Hr Hf eq_refl) as [_ (s1 & k1 & E1 & _ & _ & _ & _ & W1)]; [lia|discriminate|].
    destruct (W1 _ (running_resumed _ _ _ Hr Hf eq_refl)) as (s2 & k2 & E2 & _ & _ & _ & _ & W2).
    destruct (W2 _ (running_resumed (SL_buf 0) 3 ex_sleeplock ex_sleeplock_running Hf eq_refl)) as (s3 & E3 & _ & T3 & _).
    exists s1, k1, s2, k2, s3. split_and!; [reflexivity|exact E1|exact E2|exact E3|exact T3].
Defined.
