(* ===== verification/Bio.v ===== *)
(** * The buffer cache

    kernel/bio.c: a fixed set of block buffers on a doubly linked list in
    order of last use.  A [struct buf *] is the index of the buffer; the list
    head [bcache.head] is the buffer with index [NBUF].

    The disk driver is used through the interface [BlockDevice]: what
    [virtio_disk_rw] promises its caller, that the transfer is complete when
    it returns. *)

From S2P Require Import Prelude Params Kernel Spinlock StringC Kalloc Vm Proc Sleeplock.

(** ** The disk *)
Definition zero_block : list Z := replicate (Z.to_nat BSIZE) 0.
Definition disk_block (s : kernel) (bno : Z) : list Z := default zero_block (k_disk s !! bno).

(** The effect of a completed transfer; every write is also recorded in the
    order in which it reaches the disk. *)
Definition disk_effect (b : nat) (write : bool) (s : kernel) : kernel :=
  let q := buf_at s b in
  if write then
    set_k_dtrace (k_dtrace s ++ [(b_blockno q, b_data q)])
      (set_k_disk (<[b_blockno q := b_data q]> (k_disk s)) s)
  else upd_buf b (set_b_data (disk_block s (b_blockno q))) s.

Class BlockDevice := {
  disk_rw : nat -> bool -> K unit;
  disk_rw_done : forall b w n s, disk_rw b w n s = Ret tt (disk_effect b w s);
}.

(** A device that completes each transfer at once. *)
#[export] Instance sync_device : BlockDevice.
Proof. refine {| disk_rw := fun b w => modify (disk_effect b w) |}. done. Defined.

Definition HEAD : nat := Z.to_nat NBUF.
Definition bget_f {A} (b : nat) (f : buf -> A) : K A := gets (fun s => f (buf_at s b)).
Definition bset (b : nat) (f : buf -> buf) : K unit := modify (upd_buf b f).

Section Bio.
Context `{KernelImage} `{BlockDevice}.

(** Unlinks nothing: inserts [b] between the head and its successor. *)
Definition link_front (b : nat) : K unit :=
  let* hn := bget_f HEAD b_next in
  bset b (set_b_next hn) ;;
  bset b (set_b_prev HEAD).

Definition binit : K unit :=
  initlock L_bcache ;;
  bset HEAD (set_b_prev HEAD) ;;
  bset HEAD (set_b_next HEAD) ;;
  forall_do (seq 0 (Z.to_nat NBUF)) (fun b =>
    link_front b ;;
    initsleeplock (SL_buf b) ;;
    let* hn := bget_f HEAD b_next in
    bset hn (set_b_prev b) ;;
    bset HEAD (set_b_next b)).

(** The two scans of [bget]: forward for the block, backward for a buffer
    that nobody uses. *)
Definition bget_cached (dev blockno : Z) : K (option nat) :=
  let* b := bget_f HEAD b_next in
  loop (fun b =>
    if decide (b = HEAD) then ret (inr None) else
    let* q := bget_f b id in
    if (b_dev q =? dev) && (b_blockno q =? blockno) then ret (inr (Some b))
    else ret (inl (b_next q))) b.

Definition bget_free : K (option nat) :=
  let* b := bget_f HEAD b_prev in
  loop (fun b =>
    if decide (b = HEAD) then ret (inr None) else
    let* q := bget_f b id in
    if b_refcnt q =? 0 then ret (inr (Some b)) else ret (inl (b_prev q))) b.

Definition bget (dev blockno : Z) : K nat :=
  acquire L_bcache ;;
  let* c := bget_cached dev blockno in
  match c with
  | Some b =>
      bset b (fun q => set_b_refcnt (u32 (b_refcnt q + 1)) q) ;;
      release L_bcache ;;
      acquiresleep (SL_buf b) ;;
      ret b
  | None =>
      let* f := bget_free in
      match f with
      | Some b =>
          bset b (set_b_dev dev) ;;
          bset b (set_b_blockno blockno) ;;
          bset b (set_b_valid 0) ;;
          bset b (set_b_refcnt 1) ;;
          release L_bcache ;;
          acquiresleep (SL_buf b) ;;
          ret b
      | None => panic "bget: no buffers"
      end
  end.

Definition bread (dev blockno : Z) : K nat :=
  let* b := bget dev blockno in
  let* v := bget_f b b_valid in
  when (negb (ctrue v))
    (disk_rw b false ;; bset b (set_b_valid 1)) ;;
  ret b.

Definition bwrite (b : nat) : K unit :=
  let* h := holdingsleep (SL_buf b) in
  if negb h then panic "bwrite" else disk_rw b true.

Definition brelse (b : nat) : K unit :=
  let* h := holdingsleep (SL_buf b) in
  if negb h then panic "brelse" else
  releasesleep (SL_buf b) ;;
  acquire L_bcache ;;
  bset b (fun q => set_b_refcnt (u32 (b_refcnt q - 1)) q) ;;
  let* q := bget_f b id in
  when (b_refcnt q =? 0)
    (let* q := bget_f b id in
     bset (b_next q) (set_b_prev (b_prev q)) ;;
     let* q := bget_f b id in
     bset (b_prev q) (set_b_next (b_next q)) ;;
     link_front b ;;
     let* hn := bget_f HEAD b_next in
     bset hn (set_b_prev b) ;;
     bset HEAD (set_b_next b)) ;;
  release L_bcache.

Definition bpin (b : nat) : K unit :=
  acquire L_bcache ;;
  bset b (fun q => set_b_refcnt (u32 (b_refcnt q + 1)) q) ;;
  release L_bcache.

Definition bunpin (b : nat) : K unit :=
  acquire L_bcache ;;
  bset b (fun q => set_b_refcnt (u32 (b_refcnt q - 1)) q) ;;
  release L_bcache.

End Bio.

(** ** The LRU list *)
Definition nx (bs : list buf) (i : nat) : nat := b_next (bs !!! i).
Definition pv (bs : list buf) (i : nat) : nat := b_prev (bs !!! i).
Definition linked (bs : list buf) (x y : nat) : Prop := nx bs x = y /\ pv bs y = x.
Fixpoint chain (bs : list buf) (x : nat) (l : list nat) : Prop :=
  match l with [] => True | y :: l' => linked bs x y /\ chain bs y l' end.
(** The buffers in list order, most recently used first. *)
Definition ring (bs : list buf) (l : list nat) : Prop :=
  length bs = S HEAD /\ l ≡ₚ seq 0 HEAD /\ chain bs HEAD (l ++ [HEAD]).

Lemma chain_app bs x l1 y l2 :
  chain bs x (l1 ++ y :: l2) <-> chain bs x (l1 ++ [y]) /\ chain bs y l2.
Proof. revert x. induction l1 as [|z l1 IH]; intros x; cbn; [tauto|]. rewrite IH. tauto. Qed.

Lemma chain_ext bs bs' x l :
  (forall y, y ∈ removelast (x :: l) -> nx bs' y = nx bs y) -> (forall y, y ∈ l -> pv bs' y = pv bs y) ->
  chain bs x l -> chain bs' x l.
Proof.
  revert x. induction l as [|z l IH]; intros x Hn Hp; [done|]. cbn [chain]. intros [[H1 H2] H3].
  change (removelast (x :: z :: l)) with (x :: removelast (z :: l)) in Hn. split.
  - split; [rewrite Hn by (by left)|rewrite Hp by (by left)]; done.
  - apply IH; [|intros; apply Hp; by right|done]. intros. apply Hn. by right.
Qed.

Lemma chain_last bs x l y : chain bs x (l ++ [y]) -> linked bs (List.last (x :: l) HEAD) y.
Proof.
  revert x. induction l as [|z l IH]; intros x; cbn [app chain]; [tauto|].
  intros [_ H]. by apply IH in H.
Qed.
Lemma chain_init bs x l y : chain bs x (l ++ [y]) -> chain bs x l.
Proof. revert x. induction l as [|z l IH]; intros x; cbn; [done|]. intros [? ?]. eauto. Qed.

Lemma last_in x (l : list nat) : List.last (x :: l) HEAD ∈ x :: l.
Proof.
  revert x. induction l as [|z l IH]; intros x; [by left|]. right. apply (IH z).
Qed.
Lemma last_not_removelast x (l : list nat) :
  NoDup (x :: l) -> List.last (x :: l) HEAD ∉ removelast (x :: l).
Proof.
  revert x. induction l as [|z l IH]; intros x Hnd; [set_solver|].
  change (removelast (x :: z :: l)) with (x :: removelast (z :: l)).
  change (List.last (x :: z :: l) HEAD) with (List.last (z :: l) HEAD).
  apply NoDup_cons in Hnd as [Hx Hnd]. apply not_elem_of_cons. split; [|by apply IH].
  intros E. apply Hx. rewrite <- E. apply last_in.
Qed.
Lemma removelast_in x (l : list nat) : x ∈ removelast l -> x ∈ l.
Proof.
  intros Hx. destruct l as [|y l]; [done|]. rewrite (app_removelast_last HEAD (l := y :: l)) by done.
  apply elem_of_app. by left.
Qed.

(** Taking [b] out from between its neighbours. *)
Lemma chain_unlink bs bs' x l1 b y l2 :
  chain bs x (l1 ++ b :: y :: l2) -> NoDup (x :: l1 ++ b :: removelast (y :: l2)) ->
  NoDup (l1 ++ b :: y :: l2) ->
  (forall i, nx bs' i = if decide (i = List.last (x :: l1) HEAD) then y else nx bs i) ->
  (forall i, pv bs' i = if decide (i = y) then List.last (x :: l1) HEAD else pv bs i) ->
  chain bs' x (l1 ++ y :: l2).
Proof.
  rewrite chain_app. intros [H1 [H2 H3]] Hnd1 Hnd2 Hn Hp. apply chain_app.
  assert (Hnd3 : NoDup ((x :: l1) ++ [b] ++ removelast (y :: l2))) by done.
  rewrite !NoDup_app in Hnd3. destruct Hnd3 as (Hd1 & Hd2 & Hd3 & _ & Hd4).
  rewrite NoDup_app in Hnd2. destruct Hnd2 as (He1 & He2 & He3).
  apply NoDup_cons in He3 as [He3 He4]. apply NoDup_cons in He4 as [He4 He5]. split.
  - apply chain_init in H1. clear H2 H3. set (w := List.last (x :: l1) HEAD) in *.
    assert (Hx : chain bs' x l1).
    { apply (chain_ext bs); [| |done].
      - intros i Hi. rewrite Hn, decide_False; [done|]. intros ->. by apply (last_not_removelast x l1).
      - intros i Hi. rewrite Hp, decide_False; [done|]. intros ->. apply (He2 y Hi). right. by left. }
    assert (Hw : linked bs' w y) by (split; [by rewrite Hn, decide_True|by rewrite Hp, decide_True]).
    clear -Hx Hw. revert x w Hx Hw. induction l1 as [|z l1 IH]; intros x w Hx Hw; cbn; [done|].
    destruct Hx as [Hx1 Hx2]. split; [done|]. by apply IH.
  - apply (chain_ext bs); [| |done].
    + intros i Hi. rewrite Hn, decide_False; [done|]. intros ->.
      apply (Hd2 _ (last_in x l1)). apply elem_of_app. by right.
    + intros i Hi. rewrite Hp, decide_False; [done|]. intros ->. done.
Qed.

(** Putting [b] between [x] and its successor. *)
Lemma chain_link bs bs' x b y l :
  chain bs x (y :: l) -> b <> x -> b ∉ y :: l -> x ∉ removelast (y :: l) -> y ∉ l ->
  (forall i, nx bs' i = if decide (i = x) then b else if decide (i = b) then y else nx bs i) ->
  (forall i, pv bs' i = if decide (i = y) then b else if decide (i = b) then x else pv bs i) ->
  chain bs' x (b :: y :: l).
Proof.
  intros [_ H] Hbx Hb Hx Hy Hn Hp. apply not_elem_of_cons in Hb as [Hby Hbl].
  split; [|split].
  - split; [by rewrite Hn, decide_True|]. by rewrite Hp, decide_False, decide_True.
  - split; [by rewrite Hn, decide_False, decide_True|]. by rewrite Hp, decide_True.
  - apply (chain_ext bs); [| |done].
    + intros i Hi. rewrite Hn, !decide_False; [done| |].
      * intros ->. apply removelast_in in Hi. set_solver.
      * intros ->. done.
    + intros i Hi. rewrite Hp, !decide_False; [done| |]; intros ->; set_solver.
Qed.

Lemma ring_NoDup bs l : ring bs l -> NoDup l /\ HEAD ∉ l /\ forall b, b ∈ l <-> (b < HEAD)%nat.
Proof.
  intros (_ & Hp & _). assert (Hin : forall b, b ∈ l <-> (b < HEAD)%nat).
  { intros b. rewrite Hp, elem_of_seq. lia. }
  split_and!; [rewrite Hp; apply NoDup_seq| |done]. rewrite Hin. lia.
Qed.
Lemma ring_length bs l : ring bs l -> length l = HEAD.
Proof. intros (_ & Hp & _). rewrite (Permutation_length Hp). apply length_seq. Qed.

Section Scans.
Context `{KernelImage} `{BlockDevice}.

Definition hit (dev blockno : Z) (q : buf) : bool := (b_dev q =? dev) && (b_blockno q =? blockno).

(** A scan in list order finds the first buffer that satisfies the test. *)
Lemma scan_fwd (test : buf -> bool) n s : forall f l x,
  chain (k_bcache s) x (l ++ [HEAD]) -> HEAD ∉ l -> (length l < f)%nat ->
  iter_upto f (fun b => if decide (b = HEAD) then ret (inr None) else
    let* q := bget_f b id in if test q then ret (inr (Some b)) else ret (inl (b_next q)))
    (nx (k_bcache s) x) n s = Ret (List.find (fun b => test (buf_at s b)) l) s.
Proof.
  induction f as [|f IH]; intros l x Hc Hh Hl; [lia|]. cbn [iter_upto].
  destruct l as [|y l]; cbn [app chain List.find] in *; destruct Hc as [[Hx _] Hc]; rewrite Hx.
  - by rewrite decide_True.
  - apply not_elem_of_cons in Hh as [Hy Hh]. rewrite decide_False by done.
    unfold bget_f. rewrite bind_bind_gets. unfold id. destruct (test (buf_at s y)); [done|].
    rewrite bind_ret_l. apply IH; [done|done|]. cbn in Hl. lia.
Qed.

Lemma scan_bwd (test : buf -> bool) n s : forall f l y,
  chain (k_bcache s) HEAD (rev l ++ [y]) -> HEAD ∉ l -> (length l < f)%nat ->
  iter_upto f (fun b => if decide (b = HEAD) then ret (inr None) else
    let* q := bget_f b id in if test q then ret (inr (Some b)) else ret (inl (b_prev q)))
    (pv (k_bcache s) y) n s = Ret (List.find (fun b => test (buf_at s b)) l) s.
Proof.
  induction f as [|f IH]; intros l x Hc Hh Hl; [lia|]. cbn [iter_upto].
  apply chain_last in Hc as Hx. destruct Hx as [_ Hx].
  destruct l as [|y l]; cbn [rev List.find] in *; rewrite Hx.
  - by rewrite decide_True.
  - apply not_elem_of_cons in Hh as [Hy Hh].
    assert (E : List.last (HEAD :: rev l ++ [y]) HEAD = y) by (by rewrite app_comm_cons, List.last_last).
    rewrite E, decide_False by done.
    unfold bget_f. rewrite bind_bind_gets. unfold id. destruct (test (buf_at s y)); [done|].
    rewrite bind_ret_l. apply IH; [|done|cbn in Hl; lia].
    rewrite <- app_assoc in Hc. apply chain_app in Hc. apply Hc.
Qed.

Lemma bget_cached_run n s l dev blockno :
  ring (k_bcache s) l -> (HEAD < n)%nat ->
  bget_cached dev blockno n s = Ret (List.find (fun b => hit dev blockno (buf_at s b)) l) s.
Proof.
  intros Hr Hn. destruct (ring_NoDup _ _ Hr) as (_ & Hh & _). pose proof (ring_length _ _ Hr) as Hl.
  unfold bget_cached, bget_f at 1. rewrite bind_gets. apply (scan_fwd (hit dev blockno)); [apply Hr|done|lia].
Qed.

Lemma bget_free_run n s l :
  ring (k_bcache s) l -> (HEAD < n)%nat ->
  bget_free n s = Ret (List.find (fun b => b_refcnt (buf_at s b) =? 0) (rev l)) s.
Proof.
  intros Hr Hn. destruct (ring_NoDup _ _ Hr) as (_ & Hh & _). pose proof (ring_length _ _ Hr) as Hl.
  unfold bget_free, bget_f at 1. rewrite bind_gets. apply (scan_bwd (fun q => b_refcnt q =? 0)).
  - rewrite rev_involutive. apply Hr.
  - rewrite list_elem_of_In, <- in_rev, <- list_elem_of_In. done.
  - rewrite length_rev. lia.
Qed.

End Scans.

(** ** The cache invariant *)
Definition caches (s : kernel) (b : nat) (dev bno : Z) : Prop :=
  b_dev (buf_at s b) = dev /\ b_blockno (buf_at s b) = bno.

(** Everything but the list pointers. *)
Definition core (q : buf) : buf := set_b_prev 0 (set_b_next 0 q).

(** The list is a ring of all the buffers; a block of a device is cached at
    most once; a buffer nobody uses is unlocked and agrees with the disk. *)
Record cache_inv (s : kernel) : Prop := {
  ci_ring : exists l, ring (k_bcache s) l;
  ci_once : forall i j, (i < HEAD)%nat -> (j < HEAD)%nat ->
    b_dev (buf_at s i) <> 0 -> b_dev (buf_at s i) = b_dev (buf_at s j) ->
    b_blockno (buf_at s i) = b_blockno (buf_at s j) -> i = j;
  ci_ref : forall i, (i < HEAD)%nat -> 0 <= b_refcnt (buf_at s i);
  ci_unused : forall i, (i < HEAD)%nat -> b_refcnt (buf_at s i) = 0 ->
    sl_locked (sl_at s (SL_buf i)) = 0 /\
    (b_valid (buf_at s i) <> 0 -> b_data (buf_at s i) = disk_block s (b_blockno (buf_at s i)));
}.

(** What the operations of the cache change. *)
Definition bio_frame (p : nat) (s s' : kernel) : Prop :=
  s' = set_k_dtrace (k_dtrace s') (set_k_disk (k_disk s') (set_k_bcache (k_bcache s')
         (set_k_procs (k_procs s') (set_k_lk (k_lk s') s)))) /\
  k_lk s' = set_slocks (slocks (k_lk s')) (k_lk s) /\
  length (k_procs s') = length (k_procs s) /\ proc_at s' p = proc_at s p /\
  (forall i, sl_at s' (SL_inode i) = sl_at s (SL_inode i)).

(** The caller: a running process, with the locks of the cache free. *)
Definition bio_user (s : kernel) (p : nat) : Prop :=
  running s p /\ lk_free L_bcache (k_lk s) /\
  forall b, (b < HEAD)%nat -> lk_free (L_sleep (SL_buf b)) (k_lk s).

Lemma bio_frame_refl p s : bio_frame p s s.
Proof. done. Qed.
Lemma bio_frame_trans p s s1 s2 : bio_frame p s s1 -> bio_frame p s1 s2 -> bio_frame p s s2.
Proof.
  intros (E1 & L1 & N1 & P1 & S1) (E2 & L2 & N2 & P2 & S2). split_and!; [|by rewrite L2, L1|congruence|congruence|intros i; by rewrite S2].
  rewrite E2 at 1. rewrite E1 at 1. done.
Qed.
Lemma bio_frame_user p s s' : bio_frame p s s' -> bio_user s p -> bio_user s' p.
Proof.
  intros (_ & L & N & _) ((H1 & H2 & H3 & H4 & H5) & H6 & H7). unfold bio_user, running. rewrite L, N. done.
Qed.
Lemma frame_wakeup p s ch : running s p -> bio_frame p s (wakeup_st (Some p) ch s).
Proof.
  intros (_ & _ & Hlen & Hpx & _). split_and!.
  - unfold wakeup_st. by rewrite upd_procs_rest.
  - unfold wakeup_st. by rewrite upd_procs_lk.
  - unfold wakeup_st. by rewrite upd_procs_length.
  - unfold wakeup_st. rewrite proc_at_upd_procs by (done || apply NoDup_seq). rewrite decide_True by done.
    unfold wake_one. by rewrite decide_True.
  - intros i. apply sl_at_wakeup.
Qed.
Lemma frame_upd_sl p s b f : bio_frame p s (upd_sl (SL_buf b) f s).
Proof. split_and!; try done. intros i. by apply sl_at_upd_ne. Qed.
Lemma frame_upd_buf p s b f : bio_frame p s (upd_buf b f s).
Proof. done. Qed.
Lemma frame_bcache p s bs : bio_frame p s (set_k_bcache bs s).
Proof. done. Qed.
Lemma frame_disk p s b w : bio_frame p s (disk_effect b w s).
Proof. by destruct w. Qed.

Lemma wakeup_lk me ch s : k_lk (wakeup_st me ch s) = k_lk s.
Proof. apply upd_procs_lk. Qed.
Lemma wakeup_bcache me ch s : k_bcache (wakeup_st me ch s) = k_bcache s.
Proof. unfold wakeup_st. by rewrite upd_procs_rest. Qed.
Lemma wakeup_disk me ch s : k_disk (wakeup_st me ch s) = k_disk s /\ k_dtrace (wakeup_st me ch s) = k_dtrace s.
Proof. unfold wakeup_st. by rewrite upd_procs_rest. Qed.
Lemma buf_at_wakeup me ch s b : buf_at (wakeup_st me ch s) b = buf_at s b.
Proof. unfold buf_at. by rewrite wakeup_bcache. Qed.

Lemma sl_at_upd_buf b f s lk : sl_at (upd_buf b f s) lk = sl_at s lk.
Proof. done. Qed.
Lemma length_upd_buf b f s : length (k_bcache (upd_buf b f s)) = length (k_bcache s).
Proof. apply length_alter. Qed.
Lemma buf_at_upd_eq b f s : (b < length (k_bcache s))%nat -> buf_at (upd_buf b f s) b = f (buf_at s b).
Proof. intros. by apply list_lookup_total_alter_eq. Qed.
Lemma buf_at_upd_ne b i f s : b <> i -> buf_at (upd_buf b f s) i = buf_at s i.
Proof. intros. by apply list_lookup_total_alter_ne. Qed.
Lemma upd_buf_upd b f g s : upd_buf b f (upd_buf b g s) = upd_buf b (f ∘ g) s.
Proof. unfold upd_buf, set_k_bcache; cbn. f_equal. by rewrite <- list_alter_alter_eq. Qed.

(** Updates that leave the pointers alone keep the ring. *)
Lemma ring_upd bs l b f :
  (forall q, b_next (f q) = b_next q /\ b_prev (f q) = b_prev q) -> ring bs l -> ring (alter f b bs) l.
Proof.
  intros Hf (H1 & H2 & H3). split_and!; [by rewrite length_alter|done|].
  assert (Hi : forall i, nx (alter f b bs) i = nx bs i /\ pv (alter f b bs) i = pv bs i).
  { intros i. unfold nx, pv. destruct (decide (b = i)) as [->|Hne].
    - destruct (decide (i < length bs)%nat) as [Hlt|Hge].
      + rewrite list_lookup_total_alter_eq by done. apply Hf.
      + by rewrite list_alter_out by lia.
    - by rewrite list_lookup_total_alter_ne. }
  revert H3. apply chain_ext; intros; apply Hi.
Qed.

Lemma ring_same s s' l :
  length (k_bcache s') = length (k_bcache s) ->
  (forall y, b_next (buf_at s' y) = b_next (buf_at s y) /\ b_prev (buf_at s' y) = b_prev (buf_at s y)) ->
  ring (k_bcache s) l -> ring (k_bcache s') l.
Proof.
  intros Hl Hy (L1 & L2 & L3). split_and!; [congruence|done|]. revert L3. apply chain_ext; intros y _; apply Hy.
Qed.

Section Runs.
Context {KI : KernelImage} {BD : BlockDevice}.

Definition take_ref (q : buf) : buf := set_b_refcnt (u32 (b_refcnt q + 1)) q.
Definition recycle (dev bno : Z) (q : buf) : buf :=
  set_b_refcnt 1 (set_b_valid 0 (set_b_blockno bno (set_b_dev dev q))).

Lemma bget_hit_run n s p l dev bno b :
  bio_user s p -> ring (k_bcache s) l -> (HEAD < n)%nat ->
  List.find (fun b => hit dev bno (buf_at s b)) l = Some b -> (b < HEAD)%nat ->
  sl_locked (sl_at s (SL_buf b)) = 0 ->
  bget dev bno n s = Ret b (upd_sl (SL_buf b) (fun _ => sl_taken s p) (upd_buf b take_ref s)).
Proof.
  intros (Hr & Hf & Hfs) Hl Hn Hb Hlt H0. pose proof Hr as (Hok & _). unfold bget.
  rewrite (bind_ret _ _ _ _ _ _ (acquire_run n s L_bcache Hok Hf)).
  rewrite (bind_ret _ _ _ _ _ _ (bget_cached_run n (upd_lk (acq L_bcache) s) l dev bno Hl Hn)).
  change (List.find _ l) with (List.find (fun b => hit dev bno (buf_at s b)) l). rewrite Hb.
  unfold bset. rewrite bind_modify.
  rewrite (bind_ret _ _ _ _ _ _ (release_after_run n (upd_buf b take_ref s) L_bcache Hok Hf)).
  rewrite (bind_ret _ _ _ _ _ _ (acquiresleep_run n (upd_buf b take_ref s) p (SL_buf b) Hr (Hfs b Hlt) H0 ltac:(lia))).
  done.
Qed.

Lemma bget_miss_run n s p l dev bno b :
  bio_user s p -> ring (k_bcache s) l -> (HEAD < n)%nat ->
  List.find (fun b => hit dev bno (buf_at s b)) l = None ->
  List.find (fun b => b_refcnt (buf_at s b) =? 0) (rev l) = Some b -> (b < HEAD)%nat ->
  sl_locked (sl_at s (SL_buf b)) = 0 ->
  bget dev bno n s = Ret b (upd_sl (SL_buf b) (fun _ => sl_taken s p) (upd_buf b (recycle dev bno) s)).
Proof.
  intros (Hr & Hf & Hfs) Hl Hn Hb Hfree Hlt H0. pose proof Hr as (Hok & _). unfold bget.
  rewrite (bind_ret _ _ _ _ _ _ (acquire_run n s L_bcache Hok Hf)).
  rewrite (bind_ret _ _ _ _ _ _ (bget_cached_run n (upd_lk (acq L_bcache) s) l dev bno Hl Hn)).
  change (List.find _ l) with (List.find (fun b => hit dev bno (buf_at s b)) l). rewrite Hb.
  rewrite (bind_ret _ _ _ _ _ _ (bget_free_run n (upd_lk (acq L_bcache) s) l Hl Hn)).
  change (List.find _ (rev l)) with (List.find (fun b => b_refcnt (buf_at s b) =? 0) (rev l)). rewrite Hfree.
  unfold bset. rewrite !bind_modify, !upd_buf_upd.
  change (upd_buf b ?f (upd_lk ?g s)) with (upd_lk g (upd_buf b f s)).
  rewrite (bind_ret _ _ _ _ _ _ (release_after_run n (upd_buf b (recycle dev bno) s) L_bcache Hok Hf)).
  rewrite (bind_ret _ _ _ _ _ _ (acquiresleep_run n (upd_buf b (recycle dev bno) s) p (SL_buf b) Hr (Hfs b Hlt) H0 ltac:(lia))).
  done.
Qed.

(** With every buffer in use and the block not cached, [bget] panics. *)
Lemma bget_none_run n s l dev bno :
  cpu_ok (k_lk s) -> lk_free L_bcache (k_lk s) -> ring (k_bcache s) l -> (HEAD < n)%nat ->
  List.find (fun b => hit dev bno (buf_at s b)) l = None ->
  List.find (fun b => b_refcnt (buf_at s b) =? 0) (rev l) = None ->
  exists s', bget dev bno n s = Panic "bget: no buffers" s'.
Proof.
  intros Hok Hf Hl Hn Hb Hfree. unfold bget.
  rewrite (bind_ret _ _ _ _ _ _ (acquire_run n s L_bcache Hok Hf)).
  rewrite (bind_ret _ _ _ _ _ _ (bget_cached_run n (upd_lk (acq L_bcache) s) l dev bno Hl Hn)).
  change (List.find _ l) with (List.find (fun b => hit dev bno (buf_at s b)) l). rewrite Hb.
  rewrite (bind_ret _ _ _ _ _ _ (bget_free_run n (upd_lk (acq L_bcache) s) l Hl Hn)).
  change (List.find _ (rev l)) with (List.find (fun b => b_refcnt (buf_at s b) =? 0) (rev l)). rewrite Hfree.
  by eexists.
Qed.

(** What the invariant says of the scans. *)
Lemma find_hit s l dev bno :
  cache_inv s -> ring (k_bcache s) l -> dev <> 0 ->
  match List.find (fun b => hit dev bno (buf_at s b)) l with
  | Some b => (b < HEAD)%nat /\ caches s b dev bno
  | None => forall b, (b < HEAD)%nat -> ~ caches s b dev bno
  end.
Proof.
  intros Hinv Hl Hd. destruct (ring_NoDup _ _ Hl) as (_ & _ & Hin).
  destruct (List.find _ l) as [b|] eqn:E.
  - apply List.find_some in E as [Hb Ht]. apply list_elem_of_In, Hin in Hb. split; [done|].
    unfold hit in Ht. apply andb_true_iff in Ht as [H1 H2]. by apply Z.eqb_eq in H1, H2.
  - intros b Hb [H1 H2]. apply Hin, list_elem_of_In in Hb. apply (List.find_none _ _ E) in Hb.
    unfold hit in Hb. by rewrite H1, H2, !Z.eqb_refl in Hb.
Qed.

Lemma find_free s l :
  ring (k_bcache s) l ->
  match List.find (fun b => b_refcnt (buf_at s b) =? 0) (rev l) with
  | Some b => (b < HEAD)%nat /\ b_refcnt (buf_at s b) = 0
  | None => forall b, (b < HEAD)%nat -> b_refcnt (buf_at s b) <> 0
  end.
Proof.
  intros Hl. destruct (ring_NoDup _ _ Hl) as (_ & _ & Hin).
  destruct (List.find _ (rev l)) as [b|] eqn:E.
  - apply List.find_some in E as [Hb Ht]. apply in_rev, list_elem_of_In, Hin in Hb. split; [done|].
    by apply Z.eqb_eq in Ht.
  - intros b Hb E0. apply Hin, list_elem_of_In in Hb. rewrite in_rev in Hb. apply (List.find_none _ _ E) in Hb.
    by rewrite E0 in Hb.
Qed.

(** A change of one buffer that stays in use. *)
Lemma cache_inv_upd s s' b :
  cache_inv s -> (exists l, ring (k_bcache s') l) ->
  (forall i, i <> b -> buf_at s' i = buf_at s i) ->
  (forall i, i <> b -> sl_at s' (SL_buf i) = sl_at s (SL_buf i)) -> k_disk s' = k_disk s ->
  0 < b_refcnt (buf_at s' b) ->
  (forall i, (i < HEAD)%nat -> i <> b -> ~ (b_dev (buf_at s' b) <> 0 /\
     caches s i (b_dev (buf_at s' b)) (b_blockno (buf_at s' b)))) -> cache_inv s'.
Proof.
  intros Hinv Hr Hne Hsl Hd Hrc Hk. split; [done| | |].
  - intros i j Hi Hj. destruct (decide (i = b)) as [->|Hib], (decide (j = b)) as [->|Hjb];
      rewrite ?(Hne i), ?(Hne j) by done; [done| | |by apply (ci_once s Hinv)].
    + intros Hz E1 E2. exfalso. by apply (Hk j Hj Hjb).
    + intros Hz E1 E2. exfalso. apply (Hk i Hi Hib). split; [congruence|done].
  - intros i Hi. destruct (decide (i = b)) as [->|Hib]; [lia|]. rewrite Hne by done. by apply Hinv.
  - intros i Hi. destruct (decide (i = b)) as [->|Hib]; [lia|]. rewrite Hne by done. intros Hz.
    destruct (ci_unused s Hinv i Hi Hz) as [? ?]. rewrite Hsl by done. unfold disk_block in *. by rewrite Hd.
Qed.

(** [bread] once [bget] has returned buffer [b], whose block is [bno]. *)
Lemma bread_after n s s1 dev bno b :
  bget dev bno n s = Ret b s1 -> (b < length (k_bcache s1))%nat -> b_blockno (buf_at s1 b) = bno ->
  exists f, bread dev bno n s = Ret b (upd_buf b f s1) /\
    f (buf_at s1 b) = if b_valid (buf_at s1 b) =? 0
                      then set_b_valid 1 (set_b_data (disk_block s1 bno) (buf_at s1 b)) else buf_at s1 b.
Proof.
  intros E Hb Hbno. unfold bread. rewrite (bind_ret _ _ _ _ _ _ E). unfold bget_f. rewrite bind_gets.
  unfold ctrue. destruct (Z.eqb_spec (b_valid (buf_at s1 b)) 0) as [Hv|Hv]; cbn [negb when].
  - unfold bset. rewrite (bind_bind_ret _ _ _ _ _ _ _ (disk_rw_done b false n s1)).
    exists (fun q => set_b_valid 1 (set_b_data (disk_block s1 bno) q)). split; [|done].
    rewrite bind_ret with (a := tt) (s' := upd_buf b (fun q => set_b_valid 1 (set_b_data (disk_block s1 bno) q)) s1); [done|].
    unfold modify. f_equal. unfold disk_effect. by rewrite upd_buf_upd, Hbno.
  - rewrite bind_ret_l. exists id. split; [|done]. unfold upd_buf, ret. rewrite list_alter_id by done. done.
Qed.

(** [bread] of a block whose buffer, if any, is not locked. *)
Definition bread_post (s : kernel) (p : nat) (dev bno : Z) (b : nat) (s' : kernel) : Prop :=
  bio_frame p s s' /\ cache_inv s' /\ (b < HEAD)%nat /\
  caches s' b dev bno /\ b_valid (buf_at s' b) <> 0 /\ sl_at s' (SL_buf b) = sl_taken s p /\
  ((caches s b dev bno /\ b_refcnt (buf_at s' b) = b_refcnt (buf_at s b) + 1 /\
    b_data (buf_at s' b) = if b_valid (buf_at s b) =? 0 then disk_block s bno else b_data (buf_at s b)) \/
   ((forall i, (i < HEAD)%nat -> ~ caches s i dev bno) /\ b_refcnt (buf_at s b) = 0 /\
    b_refcnt (buf_at s' b) = 1 /\ b_data (buf_at s' b) = disk_block s bno)) /\
  (forall i, i <> b -> buf_at s' i = buf_at s i) /\
  (forall i, i <> b -> sl_at s' (SL_buf i) = sl_at s (SL_buf i)) /\
  k_disk s' = k_disk s /\ k_dtrace s' = k_dtrace s.

Lemma bread_hit_spec n s p l dev bno b :
  bio_user s p -> cache_inv s -> ring (k_bcache s) l -> dev <> 0 -> (HEAD < n)%nat ->
  List.find (fun b => hit dev bno (buf_at s b)) l = Some b -> (b < HEAD)%nat -> caches s b dev bno ->
  sl_locked (sl_at s (SL_buf b)) = 0 -> b_refcnt (buf_at s b) + 1 < 2 ^ 32 ->
  exists s', bread dev bno n s = Ret b s' /\ bread_post s p dev bno b s'.
Proof.
  intros Hu Hinv Hl Hd Hn Ehit Hb Hc H0 Hrc. assert (Hlen : length (k_bcache s) = S HEAD) by apply Hl.
  set (s1 := upd_sl (SL_buf b) (fun _ => sl_taken s p) (upd_buf b take_ref s)).
  assert (Hb1 : buf_at s1 b = take_ref (buf_at s b)) by (apply buf_at_upd_eq; lia).
  assert (Hrc1 : b_refcnt (take_ref (buf_at s b)) = b_refcnt (buf_at s b) + 1).
  { pose proof (ci_ref s Hinv b Hb). cbn. change (2 ^ 32) with 4294967296 in Hrc. apply u32_small. lia. }
  assert (Hlen1 : (b < length (k_bcache s1))%nat) by (unfold s1; cbn; rewrite length_alter; lia).
  destruct (bread_after n s s1 dev bno b) as (f & E & Ef);
    [by apply (bget_hit_run n s p l)|done|rewrite Hb1; exact (proj2 Hc)|]. rewrite Hb1 in Ef.
  exists (upd_buf b f s1). split; [done|].
  assert (Hb2 : buf_at (upd_buf b f s1) b = f (take_ref (buf_at s b))) by (by rewrite buf_at_upd_eq, Hb1).
  assert (Hne : forall i, i <> b -> buf_at (upd_buf b f s1) i = buf_at s i)
    by (intros i Hi; rewrite buf_at_upd_ne by congruence; exact (buf_at_upd_ne b i take_ref s ltac:(congruence))).
  assert (Hsl : forall i, i <> b -> sl_at s1 (SL_buf i) = sl_at s (SL_buf i))
    by (intros i Hi; exact (sl_at_upd_ne (SL_buf b) (SL_buf i) _ (upd_buf b take_ref s) ltac:(congruence))).
  assert (Hcore : b_refcnt (f (take_ref (buf_at s b))) = b_refcnt (buf_at s b) + 1 /\
    b_dev (f (take_ref (buf_at s b))) = dev /\ b_blockno (f (take_ref (buf_at s b))) = bno /\
    b_valid (f (take_ref (buf_at s b))) <> 0 /\ b_data (f (take_ref (buf_at s b))) =
      (if b_valid (buf_at s b) =? 0 then disk_block s bno else b_data (buf_at s b)) /\
    b_next (f (take_ref (buf_at s b))) = b_next (buf_at s b) /\ b_prev (f (take_ref (buf_at s b))) = b_prev (buf_at s b)).
  { rewrite Ef. change (b_valid (take_ref (buf_at s b))) with (b_valid (buf_at s b)). destruct Hc as [Hc1 Hc2].
    destruct (Z.eqb_spec (b_valid (buf_at s b)) 0);
      (split; [exact Hrc1|]; split; [exact Hc1|]; split; [exact Hc2|done]). }
  destruct Hcore as (C1 & C2 & C3 & C4 & C5 & C6 & C7).
  pose proof (ci_ref s Hinv b Hb) as Href.
  split; [split_and!; try done; intros i; exact (sl_at_upd_ne (SL_buf b) (SL_inode i) _ s ltac:(done))|]. split; [|split; [done|]].
  { apply (cache_inv_upd s _ b); [done| |done|exact Hsl|done| |].
    - exists l. apply (ring_same s); [|intros y; destruct (decide (y = b)) as [->|Hy]; [by rewrite Hb2|by rewrite Hne]|done].
      etrans; [apply length_upd_buf|]. exact (length_upd_buf b _ s).
    - rewrite Hb2. lia.
    - rewrite Hb2, C2, C3. intros i Hi Hib [_ [H1 H2]]. apply Hib, (ci_once s Hinv); try done; [congruence| |];
      destruct Hc; congruence. }
  unfold caches. rewrite Hb2. split; [done|]. split; [done|]. split; [exact (sl_at_upd_eq (SL_buf b) _ _)|].
  split; [by left|]. split; [done|]. split; [exact Hsl|done].
Qed.

Lemma bread_miss_spec n s p l dev bno b :
  bio_user s p -> cache_inv s -> ring (k_bcache s) l -> dev <> 0 -> (HEAD < n)%nat ->
  List.find (fun b => hit dev bno (buf_at s b)) l = None ->
  (forall i, (i < HEAD)%nat -> ~ caches s i dev bno) ->
  List.find (fun b => b_refcnt (buf_at s b) =? 0) (rev l) = Some b -> (b < HEAD)%nat ->
  b_refcnt (buf_at s b) = 0 ->
  exists s', bread dev bno n s = Ret b s' /\ bread_post s p dev bno b s'.
Proof.
  intros Hu Hinv Hl Hd Hn Ehit Hno Efree Hb Hz. assert (Hlen : length (k_bcache s) = S HEAD) by apply Hl.
  destruct (ci_unused s Hinv b Hb Hz) as [H0 _].
  set (s1 := upd_sl (SL_buf b) (fun _ => sl_taken s p) (upd_buf b (recycle dev bno) s)).
  assert (Hb1 : buf_at s1 b = recycle dev bno (buf_at s b)) by (apply buf_at_upd_eq; lia).
  assert (Hlen1 : (b < length (k_bcache s1))%nat) by (unfold s1; cbn; rewrite length_alter; lia).
  destruct (bread_after n s s1 dev bno b) as (f & E & Ef);
    [by apply (bget_miss_run n s p l)|done|by rewrite Hb1|]. rewrite Hb1 in Ef. cbn in Ef.
  exists (upd_buf b f s1). split; [done|].
  assert (Hb2 : buf_at (upd_buf b f s1) b = f (recycle dev bno (buf_at s b))) by (by rewrite buf_at_upd_eq, Hb1).
  assert (Hne : forall i, i <> b -> buf_at (upd_buf b f s1) i = buf_at s i)
    by (intros i Hi; rewrite buf_at_upd_ne by congruence; exact (buf_at_upd_ne b i (recycle dev bno) s ltac:(congruence))).
  assert (Hsl : forall i, i <> b -> sl_at s1 (SL_buf i) = sl_at s (SL_buf i))
    by (intros i Hi; exact (sl_at_upd_ne (SL_buf b) (SL_buf i) _ (upd_buf b (recycle dev bno) s) ltac:(congruence))).
  split; [split_and!; try done; intros i; exact (sl_at_upd_ne (SL_buf b) (SL_inode i) _ s ltac:(done))|]. split; [|split; [done|]].
  { apply (cache_inv_upd s _ b); [done| |done|exact Hsl|done| |].
    - exists l. apply (ring_same s); [|intros y; destruct (decide (y = b)) as [->|Hy]; [by rewrite Hb2, Ef|by rewrite Hne]|done].
      etrans; [apply length_upd_buf|]. exact (length_upd_buf b _ s).
    - by rewrite Hb2, Ef.
    - rewrite Hb2, Ef. intros i Hi Hib [_ Hc]. by apply (Hno i). }
  unfold caches. rewrite Hb2, Ef. split; [done|]. split; [done|]. split; [exact (sl_at_upd_eq (SL_buf b) _ _)|].
  split; [right; by split_and!|]. split; [done|]. split; [exact Hsl|done].
Qed.

Lemma bread_spec n s p dev bno :
  bio_user s p -> cache_inv s -> dev <> 0 -> (HEAD < n)%nat ->
  (forall b, (b < HEAD)%nat -> caches s b dev bno ->
     sl_locked (sl_at s (SL_buf b)) = 0 /\ b_refcnt (buf_at s b) + 1 < 2 ^ 32) ->
  (exists b, (b < HEAD)%nat /\ (caches s b dev bno \/ b_refcnt (buf_at s b) = 0)) ->
  exists b s', bread dev bno n s = Ret b s' /\ bread_post s p dev bno b s'.
Proof.
  intros Hu Hinv Hd Hn Hunl Hex. destruct (ci_ring s Hinv) as [l Hl].
  pose proof (find_hit s l dev bno Hinv Hl Hd) as Hhit. pose proof (find_free s l Hl) as Hfree.
  destruct (List.find (fun b => hit dev bno (buf_at s b)) l) as [b|] eqn:Ehit.
  - destruct Hhit as [Hb Hc]. destruct (Hunl b Hb Hc) as [H0 Hrc]. exists b. by apply (bread_hit_spec n s p l).
  - destruct (List.find _ (rev l)) as [b|] eqn:Ef.
    + destruct Hfree as [Hb Hz]. exists b. by apply (bread_miss_spec n s p l).
    + exfalso. destruct Hex as (b & Hb & [Hc|Hz]); [by apply (Hhit b)|by apply (Hfree b)].
Qed.

End Runs.

(** ** Moving a buffer to the front of the list *)
Definition mv_unlink (b : nat) (bs : list buf) : list buf :=
  let bs1 := alter (set_b_prev (pv bs b)) (nx bs b) bs in
  alter (set_b_next (nx bs1 b)) (pv bs1 b) bs1.
Definition mv_link (b : nat) (bs : list buf) : list buf :=
  let bs1 := alter (set_b_next (nx bs HEAD)) b bs in
  let bs2 := alter (set_b_prev HEAD) b bs1 in
  alter (set_b_next b) HEAD (alter (set_b_prev b) (nx bs2 HEAD) bs2).

Lemma nx_set_next bs i v j : (i < length bs)%nat ->
  nx (alter (set_b_next v) i bs) j = if decide (j = i) then v else nx bs j.
Proof.
  intros. unfold nx. case_decide as E.
  - subst. by rewrite list_lookup_total_alter_eq.
  - by rewrite list_lookup_total_alter_ne by congruence.
Qed.
Lemma pv_set_prev bs i v j : (i < length bs)%nat ->
  pv (alter (set_b_prev v) i bs) j = if decide (j = i) then v else pv bs j.
Proof.
  intros. unfold pv. case_decide as E.
  - subst. by rewrite list_lookup_total_alter_eq.
  - by rewrite list_lookup_total_alter_ne by congruence.
Qed.
Lemma alter_same {B} (g : buf -> B) f (bs : list buf) (i j : nat) :
  (forall q, g (f q) = g q) -> g (alter f i bs !!! j) = g (bs !!! j).
Proof.
  intros Hg. destruct (decide (i = j)) as [->|Hne].
  - destruct (decide (j < length bs)%nat); [by rewrite list_lookup_total_alter_eq|by rewrite list_alter_out by lia].
  - by rewrite list_lookup_total_alter_ne.
Qed.
Lemma nx_set_prev bs i v j : nx (alter (set_b_prev v) i bs) j = nx bs j.
Proof. by apply (alter_same b_next). Qed.
Lemma pv_set_next bs i v j : pv (alter (set_b_next v) i bs) j = pv bs j.
Proof. by apply (alter_same b_prev). Qed.

Lemma mv_core b bs j : core (mv_link b (mv_unlink b bs) !!! j) = core (bs !!! j).
Proof. unfold mv_link, mv_unlink. by rewrite !(alter_same core). Qed.
Lemma mv_length b bs : length (mv_link b (mv_unlink b bs)) = length bs.
Proof. unfold mv_link, mv_unlink. by rewrite !length_alter. Qed.

Lemma snoc_cons {A} (l : list A) (z : A) : exists y l', l ++ [z] = y :: l'.
Proof. destruct l as [|y l]; eexists _, _; reflexivity. Qed.

Lemma mv_unlink_chain bs l1 b l2 :
  length bs = S HEAD -> chain bs HEAD (l1 ++ b :: l2 ++ [HEAD]) -> NoDup (HEAD :: l1 ++ b :: l2) ->
  (forall i, i ∈ l1 ++ b :: l2 -> (i < HEAD)%nat) ->
  chain (mv_unlink b bs) HEAD (l1 ++ l2 ++ [HEAD]).
Proof.
  intros Hlen Hc Hnd Hlt. set (w := List.last (HEAD :: l1) HEAD).
  destruct (snoc_cons l2 HEAD) as (y & l2' & E). rewrite E in *.
  assert (Hrl : removelast (y :: l2') = l2) by (rewrite <- E; apply removelast_last).
  assert (Hnd2 : NoDup (l1 ++ b :: y :: l2')).
  { rewrite <- E. replace (l1 ++ b :: l2 ++ [HEAD]) with ((l1 ++ b :: l2) ++ [HEAD]) by (by rewrite <- app_assoc).
    apply NoDup_cons in Hnd as [Hh Hnd]. apply NoDup_app. split_and!; [done| |apply NoDup_singleton].
    intros x Hx ->%list_elem_of_singleton. done. }
  pose proof Hc as Hc'. apply chain_app in Hc' as [Hc1 [[Hb1 Hb2] _]].
  apply chain_last in Hc1 as [_ Hpb]. fold w in Hpb.
  assert (Hby : b <> y) by (apply NoDup_app in Hnd2 as (_ & _ & Hx); apply NoDup_cons in Hx as [Hx _]; set_solver).
  assert (Hin : forall i, i ∈ HEAD :: l1 ++ b :: y :: l2' -> (i < length bs)%nat).
  { intros i Hi. rewrite Hlen. rewrite <- E in Hi. destruct (decide (i = HEAD)) as [->|Hi']; [lia|].
    assert (Hi2 : i ∈ l1 ++ b :: l2) by set_solver. apply Hlt in Hi2. lia. }
  assert (Hwin : (w < length bs)%nat).
  { apply Hin. pose proof (last_in HEAD l1) as Hw. fold w in Hw. set_solver. }
  assert (Hyin : (y < length bs)%nat) by (apply Hin; set_solver).
  apply (chain_unlink bs _ HEAD l1 b y l2'); [done|by rewrite Hrl|done| |].
  - intros i. unfold mv_unlink. rewrite Hpb, Hb1. rewrite nx_set_prev, pv_set_prev by done.
    rewrite decide_False, Hpb, Hb1 by done. rewrite nx_set_next by (by rewrite length_alter).
    by rewrite nx_set_prev.
  - intros i. unfold mv_unlink. rewrite Hpb, Hb1. rewrite nx_set_prev, pv_set_prev by done.
    rewrite decide_False, Hpb, Hb1 by done. rewrite pv_set_next. by rewrite pv_set_prev.
Qed.

Lemma mv_link_chain bs l b :
  length bs = S HEAD -> chain bs HEAD (l ++ [HEAD]) -> NoDup (HEAD :: l) ->
  (forall i, i ∈ l -> (i < HEAD)%nat) -> (b < HEAD)%nat -> b ∉ l ->
  chain (mv_link b bs) HEAD (b :: l ++ [HEAD]).
Proof.
  intros Hlen Hc Hnd Hlt Hb Hbl. apply NoDup_cons in Hnd as [Hh Hnd].
  assert (Hndh : NoDup (l ++ [HEAD])).
  { apply NoDup_app. split_and!; [done| |apply NoDup_singleton]. intros x Hx ->%list_elem_of_singleton. done. }
  assert (Hrl0 : removelast (l ++ [HEAD]) = l) by apply removelast_last.
  assert (Hbl0 : b ∉ l ++ [HEAD]) by (rewrite elem_of_app, list_elem_of_singleton; intros [?| ->]; [done|lia]).
  assert (Hlt0 : forall i, i ∈ l ++ [HEAD] -> (i < length bs)%nat).
  { intros i. rewrite elem_of_app, list_elem_of_singleton, Hlen. intros [Hi%Hlt| ->]; lia. }
  destruct (snoc_cons l HEAD) as (y & l' & E). rewrite E in *. clear E.
  pose proof Hc as [[Hy _] _]. apply NoDup_cons in Hndh as [Hyl _].
  assert (Hyin : (y < length bs)%nat) by (apply Hlt0; left).
  assert (Hhn : nx (alter (set_b_prev HEAD) b (alter (set_b_next y) b bs)) HEAD = y).
  { rewrite nx_set_prev, nx_set_next by lia. rewrite decide_False by lia. done. }
  apply (chain_link bs); [done|lia|done|by rewrite Hrl0|done| |].
  - intros i. unfold mv_link. rewrite Hy, Hhn. rewrite nx_set_next by (rewrite !length_alter; lia).
    case_decide; [done|]. rewrite !nx_set_prev. by rewrite nx_set_next by lia.
  - intros i. unfold mv_link. rewrite Hy, Hhn. rewrite pv_set_next.
    rewrite pv_set_prev by (rewrite !length_alter; lia). case_decide; [done|].
    rewrite pv_set_prev by (rewrite !length_alter; lia). case_decide; [done|]. by rewrite pv_set_next.
Qed.

(** The buffer moves to the front and the order of the others stays. *)
Lemma mv_ring bs l b :
  ring bs l -> (b < HEAD)%nat ->
  exists l1 l2, l = l1 ++ b :: l2 /\ ring (mv_link b (mv_unlink b bs)) (b :: l1 ++ l2).
Proof.
  intros Hr Hb. destruct (ring_NoDup _ _ Hr) as (Hnd & Hh & Hin). destruct Hr as (Hlen & Hp & Hc).
  destruct (list_elem_of_split l b) as (l1 & l2 & ->); [by apply Hin|]. exists l1, l2. split; [done|].
  assert (Hnd' : NoDup (HEAD :: l1 ++ b :: l2)) by (by apply NoDup_cons).
  assert (Hperm : l1 ++ b :: l2 ≡ₚ b :: l1 ++ l2) by (symmetry; apply Permutation_middle).
  assert (Hnd2 : NoDup (b :: l1 ++ l2)) by (by rewrite <- Hperm).
  split_and!; [by rewrite mv_length|by rewrite <- Hperm|].
  rewrite <- app_comm_cons. apply mv_link_chain.
  - unfold mv_unlink. by rewrite !length_alter.
  - rewrite <- app_assoc. apply mv_unlink_chain; [done| |done|intros i; apply Hin].
    by rewrite <- app_assoc in Hc.
  - apply NoDup_cons. apply NoDup_cons in Hnd2 as [_ Hnd2]. split; [|done]. intros Hx. apply Hh.
    rewrite Hperm. by right.
  - intros i Hi. apply Hin. rewrite Hperm. by right.
  - done.
  - by apply NoDup_cons in Hnd2 as [? _].
Qed.

(** Two buffers with the same core agree in every field but the pointers. *)
Lemma core_fields q q' : core q = core q' ->
  b_valid q = b_valid q' /\ b_dev q = b_dev q' /\ b_blockno q = b_blockno q' /\
  b_refcnt q = b_refcnt q' /\ b_data q = b_data q'.
Proof.
  intros E. split_and!; [by apply (f_equal b_valid) in E|by apply (f_equal b_dev) in E
    |by apply (f_equal b_blockno) in E|by apply (f_equal b_refcnt) in E|by apply (f_equal b_data) in E].
Qed.

(** The invariant only depends on the cores. *)
Lemma cache_inv_core s s' :
  cache_inv s -> (exists l, ring (k_bcache s') l) -> (forall i, core (buf_at s' i) = core (buf_at s i)) ->
  (forall i, sl_at s' (SL_buf i) = sl_at s (SL_buf i)) -> k_disk s' = k_disk s -> cache_inv s'.
Proof.
  intros Hinv Hr Hc Hsl Hd.
  assert (Hf : forall i, _) by (intros i; exact (core_fields _ _ (Hc i))).
  split; [done| | |].
  - intros i j Hi Hj. destruct (Hf i) as (_ & -> & -> & _), (Hf j) as (_ & -> & -> & _). by apply (ci_once s Hinv).
  - intros i Hi. destruct (Hf i) as (_ & _ & _ & -> & _). by apply Hinv.
  - intros i Hi. destruct (Hf i) as (-> & _ & -> & -> & ->). rewrite Hsl. unfold disk_block. rewrite Hd.
    by apply (ci_unused s Hinv).
Qed.

Section Release.
#[local] Opaque wakeup_st.
Context {KI : KernelImage} {BD : BlockDevice}.

Definition drop_ref (q : buf) : buf := set_b_refcnt (u32 (b_refcnt q - 1)) q.

(** What [brelse] leaves: the reference gone, the lock free, the buffer at
    the front of the list if nobody uses it. *)
Definition brelse_st (p b : nat) (s : kernel) : kernel :=
  let s1 := upd_buf b drop_ref (wakeup_st (Some p) (C_sleep (SL_buf b)) (upd_sl (SL_buf b) (fun _ => sl_freed) s)) in
  if b_refcnt (buf_at s1 b) =? 0 then set_k_bcache (mv_link b (mv_unlink b (k_bcache s1))) s1 else s1.

Lemma brelse_run n s p b :
  bio_user s p -> (b < HEAD)%nat -> sl_mine s p (SL_buf b) = true ->
  brelse b n s = Ret tt (brelse_st p b s).
Proof.
  intros (Hr & Hf & Hfs) Hb Hm. unfold brelse.
  rewrite (bind_ret _ _ _ _ _ _ (holdingsleep_run n s p (SL_buf b) Hr (Hfs b Hb))), Hm. cbn [negb].
  rewrite (bind_ret _ _ _ _ _ _ (releasesleep_run n s p (SL_buf b) Hr (Hfs b Hb))).
  set (s1 := wakeup_st (Some p) (C_sleep (SL_buf b)) (upd_sl (SL_buf b) (fun _ => sl_freed) s)).
  assert (Hlk : k_lk s1 = k_lk (upd_sl (SL_buf b) (fun _ => sl_freed) s)) by apply wakeup_lk.
  assert (Hok1 : cpu_ok (k_lk s1)) by (rewrite Hlk; apply Hr).
  assert (Hf1 : lk_free L_bcache (k_lk s1)) by (rewrite Hlk; exact Hf).
  rewrite (bind_ret _ _ _ _ _ _ (acquire_run n s1 L_bcache Hok1 Hf1)).
  unfold bset at 1. rewrite bind_modify. unfold bget_f at 1. rewrite bind_gets. unfold id at 1.
  set (s2 := upd_buf b drop_ref s1).
  change (upd_buf b _ (upd_lk (acq L_bcache) s1)) with (upd_lk (acq L_bcache) s2).
  change (buf_at (upd_lk (acq L_bcache) s2) b) with (buf_at s2 b).
  unfold brelse_st. fold s1. fold s2. destruct (b_refcnt (buf_at s2 b) =? 0); cbn [when].
  - rewrite bind_ret with (a := tt)
      (s' := upd_lk (acq L_bcache) (set_k_bcache (mv_link b (mv_unlink b (k_bcache s2))) s2)) by reflexivity.
    apply release_after_run; done.
  - rewrite bind_ret_l. apply release_after_run; done.
Qed.

Lemma brelse_spec n s p b :
  bio_user s p -> cache_inv s -> (b < HEAD)%nat -> sl_mine s p (SL_buf b) = true ->
  0 < b_refcnt (buf_at s b) < 2 ^ 32 ->
  (b_refcnt (buf_at s b) = 1 -> b_valid (buf_at s b) <> 0 ->
     b_data (buf_at s b) = disk_block s (b_blockno (buf_at s b))) ->
  exists s', brelse b n s = Ret tt s' /\ bio_frame p s s' /\ cache_inv s' /\
    (forall i, core (buf_at s' i) = if decide (i = b)
       then set_b_refcnt (b_refcnt (buf_at s b) - 1) (core (buf_at s b)) else core (buf_at s i)) /\
    (forall i, sl_at s' (SL_buf i) = if decide (i = b) then sl_freed else sl_at s (SL_buf i)) /\
    k_disk s' = k_disk s /\ k_dtrace s' = k_dtrace s.
Proof.
  intros Hu Hinv Hb Hm Hrc Hclean. destruct (ci_ring s Hinv) as [l Hl].
  assert (Hlen : length (k_bcache s) = S HEAD) by apply Hl.
  exists (brelse_st p b s). split; [by apply brelse_run|].
  set (s0 := upd_sl (SL_buf b) (fun _ => sl_freed) s).
  set (s1 := upd_buf b drop_ref (wakeup_st (Some p) (C_sleep (SL_buf b)) s0)).
  assert (Hu8 : b_refcnt (drop_ref (buf_at s b)) = b_refcnt (buf_at s b) - 1).
  { cbn. change (2 ^ 32) with 4294967296 in Hrc. apply u32_small. lia. }
  assert (Hbc : k_bcache (wakeup_st (Some p) (C_sleep (SL_buf b)) s0) = k_bcache s)
    by exact (wakeup_bcache (Some p) (C_sleep (SL_buf b)) s0).
  assert (Hb1 : buf_at s1 b = drop_ref (buf_at s b)).
  { unfold s1. rewrite buf_at_upd_eq by (rewrite Hbc; lia). by rewrite (buf_at_wakeup _ _ s0 b). }
  assert (Hne : forall i, i <> b -> buf_at s1 i = buf_at s i).
  { intros i Hi. unfold s1. rewrite buf_at_upd_ne by congruence. exact (buf_at_wakeup _ _ s0 i). }
  assert (Hsl1 : forall i, sl_at s1 (SL_buf i) = if decide (i = b) then sl_freed else sl_at s (SL_buf i)).
  { intros i. unfold s1. rewrite sl_at_upd_buf, sl_at_wakeup. case_decide as E.
    - subst. apply sl_at_upd_eq.
    - apply sl_at_upd_ne. congruence. }
  assert (Hd1 : k_disk s1 = k_disk s /\ k_dtrace s1 = k_dtrace s)
    by exact (wakeup_disk (Some p) (C_sleep (SL_buf b)) s0).
  assert (Hr1 : ring (k_bcache s1) l).
  { unfold s1. change (k_bcache (upd_buf b ?f ?x)) with (alter f b (k_bcache x)). rewrite Hbc. by apply ring_upd. }
  assert (Hinv1 : cache_inv s1).
  { split; [by exists l| | |].
    - intros i j Hi Hj. destruct (decide (i = b)) as [->|Hib], (decide (j = b)) as [->|Hjb];
        rewrite ?Hb1, ?(Hne i), ?(Hne j) by done; [done|by apply (ci_once s Hinv)..].
    - intros i Hi. destruct (decide (i = b)) as [->|Hib]; [rewrite Hb1; lia|]. rewrite Hne by done. by apply Hinv.
    - intros i Hi. rewrite Hsl1. destruct (decide (i = b)) as [->|Hib].
      + rewrite Hb1, Hu8. intros Hz. split; [done|]. unfold disk_block. rewrite (proj1 Hd1).
        apply Hclean. lia.
      + rewrite Hne by done. unfold disk_block. rewrite (proj1 Hd1). by apply (ci_unused s Hinv). }
  assert (Hfr : bio_frame p s s1).
  { apply (bio_frame_trans p s s0); [apply frame_upd_sl|].
    eapply bio_frame_trans; [apply (frame_wakeup p s0); apply Hu|apply frame_upd_buf]. }
  assert (Hcore1 : forall i, core (buf_at s1 i) = if decide (i = b)
       then set_b_refcnt (b_refcnt (buf_at s b) - 1) (core (buf_at s b)) else core (buf_at s i)).
  { intros i. case_decide as E; [subst; rewrite Hb1|by rewrite Hne]. unfold core, drop_ref. cbn in Hu8 |- *. by rewrite Hu8. }
  unfold brelse_st. fold s0. fold s1. destruct (b_refcnt (buf_at s1 b) =? 0); [|done].
  set (s2 := set_k_bcache _ s1).
  assert (Hc2 : forall i, core (buf_at s2 i) = core (buf_at s1 i)) by (intros i; apply mv_core).
  split; [eapply bio_frame_trans; [exact Hfr|apply frame_bcache]|].
  split; [|split; [by intros i; rewrite Hc2|]].
  2:{ split; [exact Hsl1|exact Hd1]. }
  apply (cache_inv_core s1); [done| |done|done|done].
  destruct (mv_ring _ _ b Hr1 Hb) as (l1 & l2 & _ & Hr2). by eexists.
Qed.

Lemma bwrite_run n s p b :
  bio_user s p -> (b < HEAD)%nat -> sl_mine s p (SL_buf b) = true ->
  bwrite b n s = Ret tt (disk_effect b true s).
Proof.
  intros (Hr & Hf & Hfs) Hb Hm. unfold bwrite.
  rewrite (bind_ret _ _ _ _ _ _ (holdingsleep_run n s p (SL_buf b) Hr (Hfs b Hb))), Hm. apply disk_rw_done.
Qed.

Lemma bpin_run n s b :
  cpu_ok (k_lk s) -> lk_free L_bcache (k_lk s) -> bpin b n s = Ret tt (upd_buf b take_ref s).
Proof.
  intros Hok Hf. unfold bpin. rewrite (bind_ret _ _ _ _ _ _ (acquire_run n s L_bcache Hok Hf)).
  unfold bset. rewrite bind_modify. exact (release_after_run n (upd_buf b take_ref s) L_bcache Hok Hf).
Qed.

Lemma bunpin_run n s b :
  cpu_ok (k_lk s) -> lk_free L_bcache (k_lk s) -> bunpin b n s = Ret tt (upd_buf b drop_ref s).
Proof.
  intros Hok Hf. unfold bunpin. rewrite (bind_ret _ _ _ _ _ _ (acquire_run n s L_bcache Hok Hf)).
  unfold bset. rewrite bind_modify. exact (release_after_run n (upd_buf b drop_ref s) L_bcache Hok Hf).
Qed.

End Release.

(** ** [binit] *)
Section Init.
Context {KI : KernelImage} {BD : BlockDevice}.

Definition head_self (bs : list buf) : list buf :=
  alter (set_b_next HEAD) HEAD (alter (set_b_prev HEAD) HEAD bs).

(** One iteration, on the list and on the locks. *)
Definition init_buf (b : nat) (s : kernel) : kernel :=
  set_k_bcache (mv_link b (k_bcache s))
    (upd_sl (SL_buf b) (fun _ => sl_freed)
      (upd_lk (upd_lock (L_sleep (SL_buf b)) (mk_spinlock 0 None)) s)).

Lemma binit_run n s :
  binit n s = Ret tt (foldl (fun s b => init_buf b s)
    (set_k_bcache (head_self (k_bcache s)) (upd_lk (upd_lock L_bcache (mk_spinlock 0 None)) s)) (seq 0 HEAD)).
Proof.
  unfold binit, initlock, bset. rewrite !bind_modify. change (seq 0 (Z.to_nat NBUF)) with (seq 0 HEAD).
  generalize (seq 0 HEAD) as l. intros l. set (s0 := set_k_bcache _ _).
  change (upd_buf HEAD _ _) with s0. generalize s0. clear.
  induction l as [|b l IH]; intros s0; [done|]. cbn [forall_do foldl].
  rewrite bind_ret with (a := tt) (s' := init_buf b s0); [apply IH|].
  unfold init_buf. rewrite <- (upd_sl_ext _ (set_sl_pid 0 ∘ set_sl_locked 0)) by done.
  rewrite <- upd_sl_sl. reflexivity.
Qed.

(** What the first [k] iterations have done. *)
Record init_done (s s' : kernel) (k : nat) : Prop := {
  id_chain : chain (k_bcache s') HEAD (rev (seq 0 k) ++ [HEAD]);
  id_len : length (k_bcache s') = length (k_bcache s);
  id_core : forall i, core (buf_at s' i) = core (buf_at s i);
  id_sl : forall i, (i < k)%nat -> sl_at s' (SL_buf i) = sl_freed /\ lk_free (L_sleep (SL_buf i)) (k_lk s');
  id_lock : lk_free L_bcache (k_lk s') /\
    forall lk, lk <> L_bcache -> (forall i, lk <> L_sleep (SL_buf i)) -> locks (k_lk s') !! lk = locks (k_lk s) !! lk;
  id_frame : s' = set_k_bcache (k_bcache s') (set_k_lk (k_lk s') s) /\
    k_lk s' = set_slocks (slocks (k_lk s')) (set_locks (locks (k_lk s')) (k_lk s));
  id_isl : forall i, sl_at s' (SL_inode i) = sl_at s (SL_inode i);
}.

Lemma init_done_step s s' k :
  length (k_bcache s) = S HEAD -> (k < HEAD)%nat -> init_done s s' k -> init_done s (init_buf k s') (S k).
Proof.
  intros Hlen Hk [Hc Hl Hcore Hsl [Hlk Hlks] [Hf1 Hf2] Hisl]. split.
  - rewrite seq_S, rev_app_distr. cbn [rev app Nat.add]. apply mv_link_chain.
    + change (k_bcache _) with (k_bcache s'). lia.
    + exact Hc.
    + apply NoDup_cons. rewrite list_elem_of_In, <- in_rev, in_seq. split; [lia|].
      apply NoDup_ListNoDup, NoDup_rev, NoDup_ListNoDup, NoDup_seq.
    + intros i. rewrite list_elem_of_In, <- in_rev, in_seq. lia.
    + done.
    + rewrite list_elem_of_In, <- in_rev, in_seq. lia.
  - unfold init_buf, mv_link. cbn. by rewrite !length_alter.
  - intros i. rewrite <- Hcore. unfold buf_at, init_buf, mv_link. cbn. by rewrite !(alter_same core).
  - intros i Hi. destruct (decide (i = k)) as [->|Hne].
    + split; [exact (sl_at_upd_eq (SL_buf k) _ _)|]. unfold lk_free. cbn. apply lookup_insert_eq.
    + destruct (Hsl i ltac:(lia)) as [H1 H2]. split.
      * etrans; [|exact H1]. exact (sl_at_upd_ne (SL_buf k) (SL_buf i) _ _ ltac:(congruence)).
      * unfold lk_free in *. cbn. by rewrite lookup_insert_ne by congruence.
  - split.
    + unfold lk_free in *. cbn. by rewrite lookup_insert_ne.
    + intros lk H1 H2. cbn. rewrite lookup_insert_ne by (intros <-; by apply (H2 k)). by apply Hlks.
  - split.
    + exact (f_equal (fun x => set_k_bcache (k_bcache (init_buf k s')) (set_k_lk (k_lk (init_buf k s')) x)) Hf1).
    + exact (f_equal (fun x => set_slocks (slocks (k_lk (init_buf k s'))) (set_locks (locks (k_lk (init_buf k s'))) x)) Hf2).
  - intros i. rewrite <- Hisl. exact (sl_at_upd_ne (SL_buf k) (SL_inode i) _ _ ltac:(done)).
Qed.

Lemma binit_done n s :
  length (k_bcache s) = S HEAD -> exists s', binit n s = Ret tt s' /\ init_done s s' HEAD.
Proof.
  intros Hlen. rewrite binit_run. eexists. split; [reflexivity|].
  set (s0 := set_k_bcache _ _). assert (H0 : init_done s s0 0).
  { split.
    - cbn. split; [|done]. unfold s0, head_self, linked. cbn.
      rewrite nx_set_next, pv_set_next, pv_set_prev by (rewrite ?length_alter; lia).
      by rewrite !decide_True by done.
    - unfold s0, head_self. cbn. by rewrite !length_alter.
    - intros i. unfold s0, head_self, buf_at. cbn. by rewrite !(alter_same core).
    - lia.
    - split; [unfold lk_free; cbn; apply lookup_insert_eq|]. intros lk H1 _. cbn. by rewrite lookup_insert_ne.
    - done.
    - done. }
  clearbody s0.
  assert (Hk : forall m k s1, (k + m = HEAD)%nat -> init_done s s1 k ->
    init_done s (foldl (fun s b => init_buf b s) s1 (seq k m)) HEAD); [|by apply (Hk HEAD 0%nat)].
  induction m as [|m IH]; intros k s1 Hkm H1.
  - replace HEAD with k by lia. done.
  - cbn [seq foldl]. apply IH; [lia|]. by apply init_done_step; [|lia|].
Qed.

Definition zeroed_cache (s : kernel) : Prop :=
  forall i, (i < HEAD)%nat -> b_dev (buf_at s i) = 0 /\ b_refcnt (buf_at s i) = 0 /\ b_valid (buf_at s i) = 0.

Lemma init_done_inv s s' :
  length (k_bcache s) = S HEAD -> zeroed_cache s -> init_done s s' HEAD -> cache_inv s' /\ zeroed_cache s'.
Proof.
  intros Hlen Hz [Hc Hl Hcore Hsl _ _ _].
  assert (Hf' : zeroed_cache s').
  { intros i Hi. destruct (core_fields _ _ (Hcore i)) as (-> & -> & _ & -> & _). by apply Hz. }
  split; [|done]. split.
  - exists (rev (seq 0 HEAD)). split_and!; [lia|symmetry; apply Permutation_rev|done].
  - intros i j Hi Hj Hd. destruct (Hf' i Hi) as [Hd' _]. done.
  - intros i Hi. destruct (Hf' i Hi) as (_ & -> & _). done.
  - intros i Hi _. destruct (Hf' i Hi) as (_ & _ & ->). split; [|done]. by destruct (Hsl i Hi) as [-> _].
Qed.

(** ** Properties *)

(** [binit] establishes the cache invariant from the zeroed cache: the
    buffers form one ring, none is in use, and their locks are free. *)
Lemma binit_establishes n s :
  length (k_bcache s) = S HEAD -> zeroed_cache s ->
  exists s', binit n s = Ret tt s' /\ cache_inv s' /\ lk_free L_bcache (k_lk s') /\
    (forall i, (i < HEAD)%nat -> lk_free (L_sleep (SL_buf i)) (k_lk s') /\ b_refcnt (buf_at s' i) = 0) /\
    k_disk s' = k_disk s.
Proof.
  intros Hlen Hz. destruct (binit_done n s Hlen) as (s' & E & D). exists s'. split; [done|].
  destruct (init_done_inv s s' Hlen Hz D) as [Hinv Hz']. destruct D as [_ _ _ Hsl [Hlk _] [Hf _] _].
  split; [done|]. split; [done|]. split; [|by rewrite Hf].
  intros i Hi. split; [by apply Hsl|]. by apply Hz'.
Qed.

(** C30: [bread] returns the block: a buffer that caches it, valid and locked
    by the caller, holding the cached content, or the disk's when the block
    was not cached; the reference count goes up by one, no other buffer
    changes, and the cache invariant holds again.  With every buffer in use
    and the block not cached it panics. *)
Theorem bread_returns_block n s p dev bno :
  bio_user s p -> cache_inv s -> dev <> 0 -> (HEAD < n)%nat ->
  (forall b, (b < HEAD)%nat -> caches s b dev bno ->
     sl_locked (sl_at s (SL_buf b)) = 0 /\ b_refcnt (buf_at s b) + 1 < 2 ^ 32) ->
  (exists b s', bread dev bno n s = Ret b s' /\ bread_post s p dev bno b s') \/
  ((forall b, (b < HEAD)%nat -> ~ caches s b dev bno /\ b_refcnt (buf_at s b) <> 0) /\
   exists s', bread dev bno n s = Panic "bget: no buffers" s').
Proof.
  intros Hu Hinv Hd Hn Hunl. destruct (ci_ring s Hinv) as [l Hl].
  pose proof (find_hit s l dev bno Hinv Hl Hd) as Hhit. pose proof (find_free s l Hl) as Hfree.
  destruct (List.find (fun b => hit dev bno (buf_at s b)) l) as [b|] eqn:Ehit.
  { left. destruct Hhit as [Hb Hc]. apply bread_spec; try done. exists b. auto. }
  destruct (List.find _ (rev l)) as [b|] eqn:Ef.
  { left. destruct Hfree as [Hb Hz]. apply bread_spec; try done. exists b. auto. }
  right. split; [intros b Hb; split; [by apply Hhit|by apply Hfree]|].
  destruct Hu as ((Hok & _) & Hf & _).
  destruct (bget_none_run n s l dev bno Hok Hf Hl Hn Ehit Ef) as [s' E].
  exists s'. unfold bread. by rewrite (bind_panic _ _ _ _ _ _ E).
Qed.

(** C31: [brelse] gives the buffer back: the caller's lock is freed and the
    reference dropped, contents and other buffers are unchanged and the cache
    invariant holds again; a buffer whose last reference goes becomes the most
    recently used one, the others keeping their order, so that [bget] recycles
    the least recently used.  A buffer the caller does not hold makes it
    panic. *)
Theorem brelse_is_lru n s p l b :
  bio_user s p -> cache_inv s -> ring (k_bcache s) l -> (b < HEAD)%nat ->
  (sl_mine s p (SL_buf b) = false -> exists s', brelse b n s = Panic "brelse" s') /\
  (sl_mine s p (SL_buf b) = true -> 0 < b_refcnt (buf_at s b) < 2 ^ 32 ->
   (b_refcnt (buf_at s b) = 1 -> b_valid (buf_at s b) <> 0 ->
      b_data (buf_at s b) = disk_block s (b_blockno (buf_at s b))) ->
   exists s' l', brelse b n s = Ret tt s' /\ cache_inv s' /\ ring (k_bcache s') l' /\
     sl_at s' (SL_buf b) = sl_freed /\
     core (buf_at s' b) = set_b_refcnt (b_refcnt (buf_at s b) - 1) (core (buf_at s b)) /\
     (forall i, i <> b -> core (buf_at s' i) = core (buf_at s i)) /\
     if b_refcnt (buf_at s b) =? 1
     then exists l1 l2, l = l1 ++ b :: l2 /\ l' = b :: l1 ++ l2 else l' = l).
Proof.
  intros Hu Hinv Hl Hb. pose proof Hu as (Hr & Hf & Hfs). split.
  - intros Hm. unfold brelse.
    rewrite (bind_ret _ _ _ _ _ _ (holdingsleep_run n s p (SL_buf b) Hr (Hfs b Hb))), Hm. by eexists.
  - intros Hm Hrc Hclean. destruct (brelse_spec n s p b Hu Hinv Hb Hm Hrc Hclean) as (s' & E & _ & I & C & S & _).
    pose proof E as E'. rewrite (brelse_run n s p b Hu Hb Hm) in E'. injection E' as E'.
    assert (Hex : exists l', ring (k_bcache s') l' /\ if b_refcnt (buf_at s b) =? 1
      then exists l1 l2, l = l1 ++ b :: l2 /\ l' = b :: l1 ++ l2 else l' = l).
    { rewrite <- E'. unfold brelse_st. set (s0 := upd_sl _ _ s). set (s1 := upd_buf b drop_ref _).
      assert (Hbc : k_bcache (wakeup_st (Some p) (C_sleep (SL_buf b)) s0) = k_bcache s)
        by exact (wakeup_bcache (Some p) (C_sleep (SL_buf b)) s0).
      assert (Hr1 : ring (k_bcache s1) l).
      { unfold s1. change (k_bcache (upd_buf b ?f ?x)) with (alter f b (k_bcache x)). rewrite Hbc. by apply ring_upd. }
      assert (Hz : (b_refcnt (buf_at s1 b) =? 0) = (b_refcnt (buf_at s b) =? 1)).
      { unfold s1. rewrite buf_at_upd_eq by (rewrite Hbc; destruct Hl; lia). rewrite (buf_at_wakeup _ _ s0 b).
        change (buf_at s0 b) with (buf_at s b). cbn. change (2 ^ 32) with 4294967296 in Hrc.
        rewrite u32_small by lia. apply eq_true_iff_eq. rewrite !Z.eqb_eq. lia. }
      rewrite Hz. destruct (b_refcnt (buf_at s b) =? 1); [|by exists l].
      destruct (mv_ring _ _ b Hr1 Hb) as (l1 & l2 & E1 & Hr2). exists (b :: l1 ++ l2). split; [exact Hr2|]. by exists l1, l2. }
    destruct Hex as (l' & Hl' & Hcase). exists s', l'. split; [done|]. split; [done|]. split; [done|].
    split; [rewrite S; by rewrite decide_True|]. split; [rewrite C; by rewrite decide_True|].
    split; [|done]. intros i Hi. rewrite C. by rewrite decide_False.
Qed.

End Init.

(** ** Witnesses: the cache as [binit] leaves it, used by process 3 *)
Definition ex_boot : kernel :=
  set_k_lk (upd_cpu (set_c_proc (Some 3%nat)) (boot_lk (L_log :: L_itable :: map (fun i => L_sleep (SL_inode i)) (seq 0 (Z.to_nat NINODE)) ++ map L_proc proc_ix))) bss.

Lemma ex_boot_running : running ex_boot 3.
Proof.
  split_and!.
  - unfold cpu_ok. cbn. split_and!; auto; try lia; intros; vm_compute in *; congruence.
  - reflexivity.
  - vm_compute; lia.
  - apply elem_of_seq. vm_compute. lia.
  - intros q Hq. assert (H : forallb (fun p => match locks (k_lk ex_boot) !! L_proc p with
      | Some (mk_spinlock 0 None) => true | _ => false end) proc_ix = true) by (by vm_compute).
    rewrite forallb_forall in H. apply list_elem_of_In in Hq. apply H in Hq. unfold lk_free.
    destruct (locks (k_lk ex_boot) !! L_proc q) as [[[] []]|]; done.
Qed.

Lemma ex_boot_zeroed : zeroed_cache ex_boot.
Proof.
  intros i Hi. unfold buf_at. change (k_bcache ex_boot) with (replicate (Z.to_nat (NBUF + 1)) buf0).
  rewrite lookup_total_replicate_2; [done|]. revert Hi. unfold HEAD, NBUF, MAXOPBLOCKS. lia.
Qed.

Lemma ex_bio_state : exists s, binit 1%nat ex_boot = Ret tt s /\
  bio_user s 3 /\ cache_inv s /\ zeroed_cache s /\ k_disk s = ∅ /\ k_log s = log0 /\ lk_free L_log (k_lk s) /\
  noff (cpu_of (k_lk s)) = 0 /\ lk_free L_itable (k_lk s) /\
  (forall i, (i < Z.to_nat NINODE)%nat -> lk_free (L_sleep (SL_inode i)) (k_lk s) /\ sl_locked (sl_at s (SL_inode i)) = 0).
Proof.
  destruct (binit_done 1%nat ex_boot) as (s & E & D); [reflexivity|].
  destruct (init_done_inv ex_boot s eq_refl ex_boot_zeroed D) as [Hinv Hz].
  destruct D as [_ _ _ Hsl [Hlk Hlks] [Hf1 Hf2] Hisl]. exists s. split; [done|].
  destruct ex_boot_running as (R1 & R2 & R3 & R4 & R5).
  split_and!; [|done|done|rewrite Hf1; reflexivity|rewrite Hf1; reflexivity| | | |].
  - split_and!.
    + assert (Hps : k_procs s = k_procs ex_boot) by (rewrite Hf1; reflexivity).
      unfold running. rewrite Hf2, Hps. split_and!; [exact R1|exact R2|exact R3|exact R4|].
      intros q Hq. unfold lk_free. cbn. rewrite Hlks by done. by apply R5.
    + done.
    + intros b Hb. by apply Hsl.
  - unfold lk_free. by rewrite Hlks.
  - rewrite Hf2. reflexivity.
  - unfold lk_free. by rewrite Hlks.
  - intros i Hi. split; [|rewrite Hisl; by vm_compute]. unfold lk_free. rewrite Hlks by done.
    assert (H : forallb (fun i => match locks (k_lk ex_boot) !! L_sleep (SL_inode i) with
      | Some (mk_spinlock 0 None) => true | _ => false end) (seq 0 (Z.to_nat NINODE)) = true) by (by vm_compute).
    rewrite forallb_forall in H. specialize (H i ltac:(apply in_seq; lia)). destruct (locks (k_lk ex_boot) !! L_sleep (SL_inode i)) as [[[] []]|]; done.
Qed.

Lemma binit_establishes_witness : exists s', binit 1%nat ex_boot = Ret tt s' /\ cache_inv s'.
Proof.
  destruct (binit_establishes 1%nat ex_boot) as (s' & E & I & _).
  - reflexivity.
  - exact ex_boot_zeroed.
  - exists s'. split; [exact E|exact I].
Defined.

Lemma bread_returns_block_witness : exists s b s',
  bread 1 33 31%nat s = Ret b s' /\ b_data (buf_at s' b) = zero_block.
Proof.
  destruct ex_bio_state as (s & _ & Hu & Hinv & Hz & Hd & _). exists s.
  assert (Hno : forall b, (b < HEAD)%nat -> ~ caches s b 1 33).
  { intros b Hb [H1 _]. destruct (Hz b Hb) as [H2 _]. rewrite H1 in H2. discriminate. }
  destruct (bread_returns_block 31%nat s 3 1 33) as [(b & s' & E & P)|[Hall _]].
  - exact Hu.
  - exact Hinv.
  - lia.
  - vm_compute. lia.
  - intros b Hb Hc. exfalso. by apply (Hno b).
  - exists b, s'. split; [exact E|]. destruct P as (_ & _ & Hb & _ & _ & _ & [[Hc _]|(_ & _ & _ & D)] & _).
    + exfalso. by apply (Hno b).
    + rewrite D. unfold disk_block. by rewrite Hd.
  - exfalso. destruct (Hall 0%nat) as [_ Hr]; [vm_compute; lia|]. apply Hr. apply Hz. vm_compute. lia.
Defined.

Lemma brelse_is_lru_witness : exists s s' l', brelse 7 31%nat s = Ret tt s' /\ ring (k_bcache s') (7%nat :: l').
Proof.
  destruct ex_bio_state as (s & _ & Hu & Hinv & Hz & Hd & _).
  set (s1 := upd_sl (SL_buf 7) (fun _ => sl_taken s 3) (upd_buf 7 (set_b_refcnt 1) s)).
  destruct (ci_ring s Hinv) as [l Hl]. assert (Hlen : length (k_bcache s) = S HEAD) by apply Hl.
  assert (H7 : (7 < HEAD)%nat) by (vm_compute; lia).
  assert (Hb1 : buf_at s1 7 = set_b_refcnt 1 (buf_at s 7)) by (apply buf_at_upd_eq; lia).
  assert (Hl1 : ring (k_bcache s1) l) by (apply ring_upd; [done|exact Hl]).
  assert (Hm : sl_mine s1 3 (SL_buf 7) = true)
    by (exact (sl_mine_taken (upd_buf 7 (set_b_refcnt 1) s) 3 (SL_buf 7))).
  assert (Hinv1 : cache_inv s1).
  { apply (cache_inv_upd s s1 7); [done|by exists l| | |done|by rewrite Hb1|].
    - intros i Hi. exact (buf_at_upd_ne 7 i _ s (not_eq_sym Hi)).
    - intros i Hi. exact (sl_at_upd_ne (SL_buf 7) (SL_buf i) _ (upd_buf 7 (set_b_refcnt 1) s) ltac:(congruence)).
    - rewrite Hb1. intros i Hi _ [Hne _]. apply Hne. exact (proj1 (Hz 7%nat H7)). }
  exists s1. destruct (brelse_is_lru 31%nat s1 3 l 7) as [_ H].
  - exact Hu.
  - exact Hinv1.
  - exact Hl1.
  - exact H7.
  - destruct H as (s' & l' & E & _ & Hr & _ & _ & _ & Hcase).
    + exact Hm.
    + rewrite Hb1. done.
    + rewrite Hb1. intros _ Hv. exfalso. apply Hv. exact (proj2 (proj2 (Hz 7%nat H7))).
    + rewrite Hb1 in Hcase. destruct Hcase as (l1 & l2 & _ & ->). exists s', (l1 ++ l2). split; [exact E|exact Hr].
Defined.
