(* ===== verification/Log.v ===== *)
(** * The write-ahead log

    kernel/log.c: file system operations run between [begin_op] and [end_op];
    the blocks they modify stay in the cache until the last outstanding
    operation ends, then [commit] copies them to the log area, writes the log
    header, installs the blocks at their home locations and erases the
    header.  [initlog] replays a committed log after a crash. *)

From S2P Require Import Prelude Params Kernel Spinlock StringC Kalloc Vm Proc Sleeplock Bio.

(** [struct logheader] in a block: [n] and the block numbers, 32-bit each. *)
Definition lh_enc (n : Z) (block : list Z) (data : list Z) : list Z :=
  let bs := le_enc 4 n ++ concat (map (le_enc 4) (take (Z.to_nat n) block)) in
  bs ++ drop (length bs) data.
Definition lh_n_dec (data : list Z) : Z := s32 (le_dec (take 4 data)).
Definition lh_block_dec (data : list Z) (i : nat) : Z :=
  s32 (le_dec (take 4 (drop (4 * (i + 1)) data))).

Section Log.
Context `{KernelImage} `{BlockDevice}.

Definition lget {A} (f : log -> A) : K A := gets (fun s => f (k_log s)).
Definition lset (f : log -> log) : K unit := modify (upd_log f).

Definition install_trans (recovering : bool) : K unit :=
  let* n := lget lh_n in
  forall_do (seq 0 (Z.to_nat n)) (fun tail =>
    let* lg := lget id in
    let* lbuf := bread (l_dev lg) (l_start lg + Z.of_nat tail + 1) in
    let* dbuf := bread (l_dev lg) (u32 (aget 0 (lh_block lg) (Z.of_nat tail))) in
    let* data := bget_f lbuf b_data in
    bset dbuf (set_b_data data) ;;
    bwrite dbuf ;;
    when (negb recovering) (bunpin dbuf) ;;
    brelse lbuf ;;
    brelse dbuf).

Definition read_head : K unit :=
  let* lg := lget id in
  let* b := bread (l_dev lg) (l_start lg) in
  let* data := bget_f b b_data in
  lset (set_lh_n (lh_n_dec data)) ;;
  forall_do (seq 0 (Z.to_nat (lh_n_dec data))) (fun i =>
    lset (fun l => set_lh_block (<[i := lh_block_dec data i]> (lh_block l)) l)) ;;
  brelse b.

Definition write_head : K unit :=
  let* lg := lget id in
  let* b := bread (l_dev lg) (l_start lg) in
  bset b (fun q => set_b_data (lh_enc (lh_n lg) (lh_block lg) (b_data q)) q) ;;
  bwrite b ;;
  brelse b.

Definition recover_from_log : K unit :=
  read_head ;;
  install_trans true ;;
  lset (set_lh_n 0) ;;
  write_head.

(** [sizeof(struct logheader)] is 4 * (LOGSIZE + 1). *)
Definition initlog (dev : Z) : K unit :=
  if 4 * (LOGSIZE + 1) >=? BSIZE then panic "initlog: too big logheader" else
  initlock L_log ;;
  let* sb := gets k_sb in
  lset (set_l_start (sb_logstart sb)) ;;
  lset (set_l_size (sb_nlog sb)) ;;
  lset (set_l_dev dev) ;;
  recover_from_log.

Definition begin_op : K unit :=
  acquire L_log ;;
  loop (fun _ : unit =>
    let* lg := lget id in
    if ctrue (l_committing lg) then sleep C_log L_log ;; ret (inl tt)
    else if lh_n lg + (l_outstanding lg + 1) * MAXOPBLOCKS >? LOGSIZE then
      sleep C_log L_log ;; ret (inl tt)
    else
      lset (fun l => set_l_outstanding (l_outstanding l + 1) l) ;;
      release L_log ;;
      ret (inr tt)) tt.

Definition write_log : K unit :=
  let* n := lget lh_n in
  forall_do (seq 0 (Z.to_nat n)) (fun tail =>
    let* lg := lget id in
    let* to := bread (l_dev lg) (l_start lg + Z.of_nat tail + 1) in
    let* from := bread (l_dev lg) (u32 (aget 0 (lh_block lg) (Z.of_nat tail))) in
    let* data := bget_f from b_data in
    bset to (set_b_data data) ;;
    bwrite to ;;
    brelse from ;;
    brelse to).

Definition commit : K unit :=
  let* n := lget lh_n in
  when (n >? 0)
    (write_log ;;
     write_head ;;
     install_trans false ;;
     lset (set_lh_n 0) ;;
     write_head).

Definition end_op : K unit :=
  acquire L_log ;;
  lset (fun l => set_l_outstanding (l_outstanding l - 1) l) ;;
  let* lg := lget id in
  if ctrue (l_committing lg) then panic "log.committing" else
  let do_commit := l_outstanding lg =? 0 in
  (if do_commit then lset (set_l_committing 1) else wakeup C_log) ;;
  release L_log ;;
  when do_commit
    (commit ;;
     acquire L_log ;;
     lset (set_l_committing 0) ;;
     wakeup C_log ;;
     release L_log).

(** The index at which [log_write] stores a block number: its position in
    the header, or the end. *)
Fixpoint absorb_index (block : list Z) (n : nat) (bno : Z) (i : nat) : nat :=
  match n with
  | O => i
  | S n' => match block with
            | x :: block' => if u32 x =? bno then i else absorb_index block' n' bno (S i)
            | [] => i
            end
  end.

Definition log_write (b : nat) : K unit :=
  acquire L_log ;;
  let* lg := lget id in
  if (lh_n lg >=? LOGSIZE) || (lh_n lg >=? l_size lg - 1) then panic "too big a transaction" else
  if l_outstanding lg <? 1 then panic "log_write outside of trans" else
  let* bno := bget_f b b_blockno in
  let i := absorb_index (lh_block lg) (Z.to_nat (lh_n lg)) bno 0 in
  lset (fun l => set_lh_block (<[i := s32 bno]> (lh_block l)) l) ;;
  when (Z.of_nat i =? lh_n lg)
    (bpin b ;; lset (fun l => set_lh_n (lh_n l + 1) l)) ;;
  release L_log.

End Log.

(** ** The disk as a sequence of writes *)
Definition apply_writes (t : list (Z * list Z)) (d : gmap Z (list Z)) : gmap Z (list Z) :=
  foldl (fun d w => <[w.1 := w.2]> d) d t.
Definition dblk (d : gmap Z (list Z)) (x : Z) : list Z := default zero_block (d !! x).

(** [s'] differs from [s] by the writes [t], whatever happened to the cache. *)
Definition wrote (p : nat) (s s' : kernel) (t : list (Z * list Z)) : Prop :=
  bio_frame p s s' /\ k_disk s' = apply_writes t (k_disk s) /\ k_dtrace s' = k_dtrace s ++ t.

Lemma apply_writes_app t1 t2 d : apply_writes (t1 ++ t2) d = apply_writes t2 (apply_writes t1 d).
Proof. apply foldl_app. Qed.
Lemma wrote_trans p s s1 s2 t1 t2 : wrote p s s1 t1 -> wrote p s1 s2 t2 -> wrote p s s2 (t1 ++ t2).
Proof.
  intros (F1 & D1 & T1) (F2 & D2 & T2). split_and!; [by eapply bio_frame_trans|by rewrite apply_writes_app, D2, D1|].
  by rewrite T2, T1, app_assoc.
Qed.
Lemma wrote_nil p s s' : bio_frame p s s' -> k_disk s' = k_disk s -> k_dtrace s' = k_dtrace s -> wrote p s s' [].
Proof. intros. split_and!; [done|done|by rewrite app_nil_r]. Qed.
Lemma frame_locks p s s' : bio_frame p s s' -> locks (k_lk s') = locks (k_lk s).
Proof. intros (_ & -> & _). done. Qed.
Lemma frame_log p s s' : bio_frame p s s' -> k_log s' = k_log s.
Proof. intros (E & _). by rewrite E. Qed.

(** ** A process that holds two buffers *)
Section TwoBuffers.
Context {KI : KernelImage} {BD : BlockDevice}.

(** The cache at rest: nothing locked, references small, one device. *)
Record quiet (s : kernel) (p : nat) (dev : Z) : Prop := {
  q_user : bio_user s p;
  q_inv : cache_inv s;
  q_dev : dev <> 0 /\ forall b, (b < HEAD)%nat -> b_valid (buf_at s b) <> 0 -> b_dev (buf_at s b) = dev;
  q_unlocked : forall b, (b < HEAD)%nat -> sl_locked (sl_at s (SL_buf b)) = 0;
  q_ref : forall b, (b < HEAD)%nat -> b_refcnt (buf_at s b) < 2 ^ 31;
}.

(** The references to a block and the content [bread] finds. *)
Definition refs (s : kernel) (dev x r : Z) : Prop :=
  (exists b, (b < HEAD)%nat /\ caches s b dev x /\ b_refcnt (buf_at s b) = r) \/
  ((forall b, (b < HEAD)%nat -> ~ caches s b dev x) /\ r = 0).
Definition content (s : kernel) (dev x : Z) (c : list Z) : Prop :=
  (exists b, (b < HEAD)%nat /\ caches s b dev x /\ b_valid (buf_at s b) <> 0 /\ b_data (buf_at s b) = c) \/
  ((forall b, (b < HEAD)%nat -> caches s b dev x -> b_valid (buf_at s b) = 0) /\ c = disk_block s x).

(** Buffer [b] as [bread] hands it out, the rest of the cache as in [s]. *)
Record got (s : kernel) (p : nat) (dev x : Z) (b : nat) (s' : kernel) : Prop := {
  g_post : bread_post s p dev x b s';
  g_mine : sl_mine s' p (SL_buf b) = true;
  g_refs : forall r, refs s dev x r -> b_refcnt (buf_at s' b) = r + 1;
  g_content : forall c, content s dev x c -> b_data (buf_at s' b) = c;
}.

Lemma bread_got n s p dev x :
  bio_user s p -> cache_inv s -> dev <> 0 -> (HEAD < n)%nat ->
  (forall b, (b < HEAD)%nat -> caches s b dev x ->
     sl_locked (sl_at s (SL_buf b)) = 0 /\ b_refcnt (buf_at s b) < 2 ^ 31) ->
  (exists b, (b < HEAD)%nat /\ (caches s b dev x \/ b_refcnt (buf_at s b) = 0)) ->
  exists b s', bread dev x n s = Ret b s' /\ got s p dev x b s'.
Proof.
  intros Hu Hinv Hd Hn Hunl Hex.
  destruct (bread_spec n s p dev x) as (b & s' & E & P); try done.
  { intros b Hb Hc. destruct (Hunl b Hb Hc) as [H1 H2]. split; [done|].
    change (2 ^ 31) with 2147483648 in H2. change (2 ^ 32) with 4294967296. lia. }
  exists b, s'. split; [done|]. pose proof P as (F & I & Hb & C & V & T & Cs & _ & _ & _).
  assert (Huniq : forall i, (i < HEAD)%nat -> caches s i dev x -> caches s b dev x -> i = b).
  { intros i Hi [E1 E2] [E3 E4]. apply (ci_once s Hinv); congruence. }
  split; [done| | |].
  - unfold sl_mine. rewrite T. cbn. destruct F as (_ & _ & _ & -> & _). apply Z.eqb_refl.
  - intros r [(i & Hi & Hc & Hr)|[Hno ->]]; destruct Cs as [(Hc' & Hr' & _)|(Hno' & _ & Hr' & _)]; rewrite Hr'.
    + by rewrite <- (Huniq i Hi Hc Hc'), Hr.
    + by apply Hno' in Hc.
    + by apply Hno in Hc'.
    + done.
  - intros c [(i & Hi & Hc & Hv & Hdt)|[Hno ->]]; destruct Cs as [(Hc' & _ & Hd')|(Hno' & _ & _ & Hd')]; rewrite Hd'.
    + rewrite <- (Huniq i Hi Hc Hc'). apply Z.eqb_neq in Hv. by rewrite Hv, Hdt.
    + by apply Hno' in Hc.
    + rewrite (Hno b Hb Hc'). done.
    + done.
Qed.

Lemma caches_eq s s' b dev x : buf_at s' b = buf_at s b -> caches s' b dev x <-> caches s b dev x.
Proof. intros E. unfold caches. by rewrite E. Qed.

(** An unused block is on disk as [bread] will find it. *)
Lemma content_unused s p dev x : quiet s p dev -> refs s dev x 0 -> content s dev x (disk_block s x).
Proof.
  intros Q [(b & Hb & Hc & Hr)|[Hno _]].
  - destruct (decide (b_valid (buf_at s b) = 0)) as [Hv|Hv].
    + right. split; [|done]. intros i Hi Hci. assert (i = b) as ->; [|done].
      destruct Hc, Hci. apply (ci_once s (q_inv _ _ _ Q)); try congruence. destruct (q_dev _ _ _ Q). congruence.
    + left. exists b. split_and!; [done|exact Hc|done|].
      destruct (ci_unused s (q_inv _ _ _ Q) b Hb Hr) as [_ Hd]. rewrite (Hd Hv). by rewrite (proj2 Hc).
  - right. split; [|done]. intros i Hi Hc. by apply Hno in Hc.
Qed.

(** Two blocks read and held: [x] unused before, [y] with [r] references. *)
Record held2 (s : kernel) (p : nat) (dev x y r : Z) (c : list Z) (a b : nat) (s' : kernel) : Prop := {
  h_frame : bio_frame p s s';
  h_inv : cache_inv s';
  h_ab : (a < HEAD)%nat /\ (b < HEAD)%nat /\ a <> b;
  h_a : caches s' a dev x /\ b_valid (buf_at s' a) <> 0 /\ b_refcnt (buf_at s' a) = 1 /\
        b_data (buf_at s' a) = disk_block s x /\ sl_mine s' p (SL_buf a) = true;
  h_b : caches s' b dev y /\ b_valid (buf_at s' b) <> 0 /\ b_refcnt (buf_at s' b) = r + 1 /\
        b_data (buf_at s' b) = c /\ sl_mine s' p (SL_buf b) = true;
  h_before : b_refcnt (buf_at s a) = 0 /\ b_refcnt (buf_at s b) = r /\ (0 < r -> caches s b dev y);
  h_rest : forall i, i <> a -> i <> b -> buf_at s' i = buf_at s i /\ sl_at s' (SL_buf i) = sl_at s (SL_buf i);
  h_disk : k_disk s' = k_disk s /\ k_dtrace s' = k_dtrace s;
}.

Lemma got_before s p dev x b s' r :
  cache_inv s -> dev <> 0 -> got s p dev x b s' -> refs s dev x r ->
  b_refcnt (buf_at s b) = r /\ (0 < r -> caches s b dev x).
Proof.
  intros Hinv Hd [(_ & _ & Hb & _ & _ & _ & Cs & _) _ Hr _] Hrefs. specialize (Hr r Hrefs).
  destruct Cs as [(Hc & Hr1 & _)|(Hno & Hz & Hr1 & _)].
  - split; [lia|done].
  - split; [lia|]. intros. exfalso. lia.
Qed.

Lemma got_other s p dev x y b s' r :
  cache_inv s -> dev <> 0 -> x <> y -> got s p dev x b s' -> refs s dev y r -> refs s' dev y r.
Proof.
  intros Hinv Hd Hxy [(_ & _ & Hb & Cx & _ & _ & Cs & Hne & _) _ _ _] Hy.
  assert (Hby : ~ caches s' b dev y) by (intros [_ E]; destruct Cx; congruence).
  assert (Hs : forall i, (i < HEAD)%nat -> caches s' i dev y -> i <> b /\ caches s i dev y).
  { intros i Hi Hc. destruct (decide (i = b)) as [->|Hib]; [done|]. split; [done|].
    by apply (caches_eq _ _ _ _ _ (Hne i Hib)). }
  destruct Hy as [(i & Hi & Hc & Hr)|[Hno ->]].
  - destruct (decide (i = b)) as [->|Hib].
    + destruct Cs as [([_ E] & _)|(_ & Hz & _)]; [destruct Hc; congruence|]. right. split; [|congruence].
      intros j Hj Hcj. destruct (Hs j Hj Hcj) as [Hjb [E1 E2]]. destruct Hc as [E3 E4].
      apply Hjb, (ci_once s Hinv); congruence.
    + left. exists i. rewrite caches_eq by (by apply Hne). by rewrite Hne.
  - right. split; [|done]. intros i Hi Hc. destruct (Hs i Hi Hc) as [_ Hc']. by apply Hno in Hc'.
Qed.

(** Content that is in use or only on disk is not disturbed. *)
Lemma got_content s p dev x y b s' c r :
  cache_inv s -> dev <> 0 -> x <> y -> got s p dev x b s' -> refs s dev y r -> content s dev y c ->
  (r = 0 -> c = disk_block s y) -> content s' dev y c.
Proof.
  intros Hinv Hd Hxy [(_ & _ & Hb & Cx & _ & _ & Cs & Hne & _ & Hdk & _) _ _ _] Hy Hct H0.
  assert (Hby : ~ caches s' b dev y) by (intros [_ E]; destruct Cx; congruence).
  assert (Hs : forall i, (i < HEAD)%nat -> caches s' i dev y -> i <> b /\ caches s i dev y).
  { intros i Hi Hc. destruct (decide (i = b)) as [->|Hib]; [done|]. split; [done|].
    by apply (caches_eq _ _ _ _ _ (Hne i Hib)). }
  assert (Hdb : disk_block s' y = disk_block s y) by (unfold disk_block; by rewrite Hdk).
  destruct Hct as [(i & Hi & Hc & Hv & Hdt)|[Hno ->]].
  - destruct (decide (i = b)) as [->|Hib].
    + destruct Cs as [([_ E] & _)|(_ & Hz & _)]; [destruct Hc; congruence|]. right. split.
      * intros j Hj Hcj. destruct (Hs j Hj Hcj) as [Hjb [E1 E2]]. destruct Hc as [E3 E4].
        exfalso. apply Hjb, (ci_once s Hinv); congruence.
      * rewrite Hdb. apply H0. destruct Hy as [(j & Hj & [E1 E2] & Hr)|[Hno _]]; [|by apply Hno in Hc].
        destruct Hc as [E3 E4]. rewrite <- Hr, <- Hz. do 2 f_equal. apply (ci_once s Hinv); congruence.
    + left. exists i. rewrite caches_eq by (by apply Hne). by rewrite Hne.
  - right. split; [|done]. intros i Hi Hc. destruct (Hs i Hi Hc) as [Hib Hc']. rewrite Hne by done. by apply Hno.
Qed.

Lemma bread2 n s p dev x y r c :
  quiet s p dev -> x <> y -> (HEAD < n)%nat -> refs s dev x 0 -> refs s dev y r -> 0 <= r -> content s dev y c ->
  (r = 0 -> c = disk_block s y) ->
  (exists b, (b < HEAD)%nat /\ b_refcnt (buf_at s b) = 0) ->
  (0 < r \/ exists b1 b2, b1 <> b2 /\ (b1 < HEAD)%nat /\ (b2 < HEAD)%nat /\
     b_refcnt (buf_at s b1) = 0 /\ b_refcnt (buf_at s b2) = 0) ->
  exists a s1 b s2, bread dev x n s = Ret a s1 /\ bread dev y n s1 = Ret b s2 /\ held2 s p dev x y r c a b s2.
Proof.
  intros Q Hxy Hn Hx Hy Hr Hc H0 Hfree Hfree2. pose proof (q_inv _ _ _ Q) as Hinv.
  destruct (q_dev _ _ _ Q) as [Hd Hone].
  destruct (bread_got n s p dev x) as (a & s1 & E1 & G1); [apply Q|done|done|done| | |].
  { intros b Hb _. split; [by apply (q_unlocked s p dev Q)|by apply (q_ref s p dev Q)]. }
  { destruct Hfree as (b & Hb & Hz). exists b. auto. }
  pose proof G1 as [(F1 & I1 & Ha & Ca & Va & Ta & Cs1 & Hne1 & Hsl1 & Hdk1 & Ht1) M1 R1 D1].
  specialize (R1 0 Hx). specialize (D1 _ (content_unused s p dev x Q Hx)).
  destruct (got_before s p dev x a s1 0 Hinv Hd G1 Hx) as [Hza _].
  pose proof (got_other s p dev x y a s1 r Hinv Hd Hxy G1 Hy) as Hy1.
  pose proof (got_content s p dev x y a s1 c r Hinv Hd Hxy G1 Hy Hc H0) as Hc1.
  assert (Hay : ~ caches s1 a dev y) by (intros [_ E]; destruct Ca; congruence).
  destruct (bread_got n s1 p dev y) as (b & s2 & E2 & G2); [by eapply bio_frame_user; [|apply Q]|done|done|done| | |].
  { intros b Hb Hcb. assert (b <> a) by (intros ->; done). rewrite Hsl1, Hne1 by done. split; [by apply (q_unlocked s p dev Q)|by apply (q_ref s p dev Q)]. }
  { destruct Hy1 as [(i & Hi & Hci & _)|[Hno ->]]; [exists i; auto|].
    destruct Hfree2 as [?|(b1 & b2 & Hb12 & Hb1 & Hb2 & Hz1 & Hz2)]; [lia|].
    destruct (decide (b1 = a)) as [->|Hne]; [exists b2|exists b1]; (split; [done|right; by rewrite Hne1]). }
  pose proof G2 as [(F2 & I2 & Hb & Cb & Vb & Tb & Cs2 & Hne2 & Hsl2 & Hdk2 & Ht2) M2 R2 D2].
  specialize (R2 r Hy1). specialize (D2 c Hc1).
  destruct (got_before s1 p dev y b s2 r I1 Hd G2 Hy1) as [Hzb Hpb].
  assert (Hab : a <> b).
  { intros <-. destruct Cs2 as [[Hc' _]|(_ & Hz & _)]; [done|]. rewrite R1 in Hz. lia. }
  assert (Hb1 : buf_at s1 b = buf_at s b) by (apply Hne1; congruence).
  assert (Ha2 : buf_at s2 a = buf_at s1 a) by (by apply Hne2).
  exists a, s1, b, s2. split; [done|]. split; [done|]. split.
  - by eapply bio_frame_trans.
  - done.
  - done.
  - rewrite (caches_eq s1 s2) by done. rewrite Ha2. split_and!; try done.
    unfold sl_mine. rewrite Hsl2 by done. destruct F2 as (_ & _ & _ & -> & _). exact M1.
  - done.
  - rewrite <- Hb1. split_and!; [done|done|]. intros Hpos. apply (caches_eq s s1); [done|]. by apply Hpb.
  - intros i Hia Hib. rewrite Hne2, Hsl2, Hne1, Hsl1 by done. done.
  - split; congruence.
Qed.

Lemma release2 n s p u v :
  bio_user s p -> cache_inv s -> u <> v -> (u < HEAD)%nat -> (v < HEAD)%nat ->
  sl_mine s p (SL_buf u) = true -> sl_mine s p (SL_buf v) = true ->
  0 < b_refcnt (buf_at s u) < 2 ^ 32 -> 0 < b_refcnt (buf_at s v) < 2 ^ 32 ->
  (forall w, w = u \/ w = v -> b_refcnt (buf_at s w) = 1 -> b_data (buf_at s w) = disk_block s (b_blockno (buf_at s w))) ->
  exists s', (brelse u ;; brelse v) n s = Ret tt s' /\ bio_frame p s s' /\ cache_inv s' /\
    (forall i, core (buf_at s' i) = if decide (i = u \/ i = v)
       then set_b_refcnt (b_refcnt (buf_at s i) - 1) (core (buf_at s i)) else core (buf_at s i)) /\
    (forall i, sl_at s' (SL_buf i) = if decide (i = u \/ i = v) then sl_freed else sl_at s (SL_buf i)) /\
    k_disk s' = k_disk s /\ k_dtrace s' = k_dtrace s.
Proof.
  intros Hu Hinv Huv Hu1 Hv1 Mu Mv Ru Rv Hclean.
  destruct (brelse_spec n s p u) as (s1 & E1 & F1 & I1 & C1 & S1 & D1 & T1); try done; [by intros H _; apply Hclean; auto|].
  destruct (core_fields _ _ (eq_trans (C1 v) (decide_False (P := v = u) _ _ (not_eq_sym Huv)))) as (V & _ & B & R & Dt).
  destruct (brelse_spec n s1 p v) as (s2 & E2 & F2 & I2 & C2 & S2 & D2 & T2); try done.
  { by eapply bio_frame_user. }
  { unfold sl_mine. rewrite S1, decide_False by done. destruct F1 as (_ & _ & _ & -> & _). exact Mv. }
  { rewrite R. exact Rv. }
  { rewrite R, V, B, Dt. unfold disk_block. rewrite D1. intros H _. apply Hclean; auto. }
  exists s2. rewrite (bind_ret _ _ _ _ _ _ E1). split; [done|].
  split; [by eapply bio_frame_trans|]. split; [done|]. split_and!.
  - intros i. rewrite C2. destruct (decide (i = v)) as [->|Hv].
    + rewrite decide_True by auto. rewrite C1, decide_False by done. by rewrite R.
    + rewrite C1. destruct (decide (i = u)) as [->|Hiu]; [by rewrite decide_True by auto|].
      by rewrite decide_False by (intros [?|?]; done).
  - intros i. rewrite S2, S1. destruct (decide (i = v)) as [->|Hv]; [by rewrite decide_True by auto|].
    destruct (decide (i = u)) as [->|Hiu]; [by rewrite decide_True by auto|].
    by rewrite decide_False by (intros [?|?]; done).
  - congruence.
  - congruence.
Qed.

(** The buffers after the two are given back. *)
Record settled (s : kernel) (p : nat) (dev y rb : Z) (d : list Z) (a b : nat) (s4 s' : kernel) : Prop := {
  st_quiet : quiet s' p dev;
  st_frame : bio_frame p s s';
  st_disk : k_disk s' = k_disk s4 /\ k_dtrace s' = k_dtrace s4;
  st_rest : forall i, i <> a -> i <> b -> core (buf_at s' i) = core (buf_at s i);
  st_a : b_refcnt (buf_at s' a) = 0;
  st_b : caches s' b dev y /\ b_valid (buf_at s' b) <> 0 /\ b_refcnt (buf_at s' b) = rb - 1 /\ b_data (buf_at s' b) = d;
}.

Lemma settle n s p dev x y r c a b s2 s4 rb u v :
  quiet s p dev -> held2 s p dev x y r c a b s2 -> bio_frame p s2 s4 -> cache_inv s4 ->
  (forall i, i <> a -> i <> b -> buf_at s4 i = buf_at s2 i) ->
  (forall i, sl_at s4 (SL_buf i) = sl_at s2 (SL_buf i)) ->
  caches s4 a dev x -> b_refcnt (buf_at s4 a) = 1 -> b_data (buf_at s4 a) = disk_block s4 x ->
  caches s4 b dev y -> b_valid (buf_at s4 b) <> 0 -> b_refcnt (buf_at s4 b) = rb -> 1 <= rb <= r + 1 ->
  (rb = 1 -> b_data (buf_at s4 b) = disk_block s4 y) ->
  (u = a /\ v = b) \/ (u = b /\ v = a) ->
  exists s', (brelse u ;; brelse v) n s4 = Ret tt s' /\ settled s p dev y rb (b_data (buf_at s4 b)) a b s4 s'.
Proof.
  intros Q H F I Hrest Hsl Ca Ra Da Cb Vb Rb Hrb Db Huv.
  destruct (h_ab _ _ _ _ _ _ _ _ _ _ H) as (Ha & Hb & Hab).
  destruct (h_before _ _ _ _ _ _ _ _ _ _ H) as (Hza & Hzb & _).
  pose proof (q_ref s p dev Q b Hb) as Hrlt. rewrite Hzb in Hrlt. change (2 ^ 31) with 2147483648 in Hrlt.
  assert (Hu4 : bio_user s4 p).
  { eapply bio_frame_user; [|apply Q]. eapply bio_frame_trans; [apply H|exact F]. }
  assert (Hm : forall w, w = a \/ w = b -> sl_mine s4 p (SL_buf w) = true).
  { intros w Hw. unfold sl_mine. rewrite Hsl. destruct F as (_ & _ & _ & -> & _).
    destruct Hw as [->| ->]; [apply (h_a _ _ _ _ _ _ _ _ _ _ H)|apply (h_b _ _ _ _ _ _ _ _ _ _ H)]. }
  assert (Hbl : forall w, w = u \/ w = v -> w = a \/ w = b) by (destruct Huv as [[-> ->]|[-> ->]]; tauto).
  assert (Hbl' : forall w, w = u \/ w = v <-> w = a \/ w = b) by (destruct Huv as [[-> ->]|[-> ->]]; tauto).
  destruct (release2 n s4 p u v) as (s' & E & F' & I' & C' & S' & D' & T'); [done|done| | | |by apply Hm, Hbl; auto|by apply Hm, Hbl; auto| | | |].
  { destruct Huv as [[-> ->]|[-> ->]]; [done|by apply not_eq_sym]. }
  { destruct Huv as [[-> ->]|[-> ->]]; done. }
  { destruct Huv as [[-> ->]|[-> ->]]; done. }
  { change (2 ^ 32) with 4294967296. destruct Huv as [[-> ->]|[-> ->]]; lia. }
  { change (2 ^ 32) with 4294967296. destruct Huv as [[-> ->]|[-> ->]]; lia. }
  { intros w Hw%Hbl. destruct Hw as [->| ->].
    - intros _. by rewrite (proj2 Ca).
    - intros H1. rewrite (proj2 Cb). apply Db. lia. }
  exists s'. split; [done|].
  assert (Ca' : core (buf_at s' a) = set_b_refcnt 0 (core (buf_at s4 a))).
  { rewrite C', decide_True by (apply Hbl'; auto). by rewrite Ra. }
  assert (Cb' : core (buf_at s' b) = set_b_refcnt (rb - 1) (core (buf_at s4 b))).
  { rewrite C', decide_True by (apply Hbl'; auto). by rewrite Rb. }
  assert (Cr' : forall i, i <> a -> i <> b -> core (buf_at s' i) = core (buf_at s i)).
  { intros i Hia Hib. rewrite C', decide_False by (rewrite Hbl'; tauto). rewrite Hrest by done.
    by rewrite (proj1 (h_rest _ _ _ _ _ _ _ _ _ _ H i Hia Hib)). }
  destruct (core_fields (buf_at s' a) (set_b_refcnt 0 (buf_at s4 a)) Ca') as (_ & Ea & _ & Er & _). cbn in Ea, Er.
  destruct (core_fields (buf_at s' b) (set_b_refcnt (rb - 1) (buf_at s4 b)) Cb') as (Fv & Fd & Fn & Fr & Ft). cbn in Fv, Fd, Fn, Fr, Ft.
  split.
  - split.
    + by eapply bio_frame_user.
    + done.
    + split; [apply Q|]. intros i Hi. destruct (decide (i = a)) as [->|Hia]; [intros _; rewrite Ea; apply Ca|].
      destruct (decide (i = b)) as [->|Hib]; [intros _; rewrite Fd; apply Cb|].
      destruct (core_fields _ _ (Cr' i Hia Hib)) as (-> & -> & _). by apply (q_dev s p dev Q).
    + intros i Hi. rewrite S'. case_decide as Hc; [done|]. rewrite Hbl' in Hc.
      rewrite Hsl. rewrite (proj2 (h_rest _ _ _ _ _ _ _ _ _ _ H i ltac:(tauto) ltac:(tauto))). by apply (q_unlocked s p dev Q).
    + intros i Hi. change (2 ^ 31) with 2147483648. destruct (decide (i = a)) as [->|Hia]; [lia|].
      destruct (decide (i = b)) as [->|Hib]; [lia|].
      destruct (core_fields _ _ (Cr' i Hia Hib)) as (_ & _ & _ & -> & _). by apply (q_ref s p dev Q).
  - eapply bio_frame_trans; [apply H|]. by eapply bio_frame_trans.
  - done.
  - exact Cr'.
  - done.
  - unfold caches. rewrite Fd, Fn, Fv, Fr, Ft. done.
Qed.

Lemma disk_effect_block s b x :
  disk_block (disk_effect b true s) x = if decide (x = b_blockno (buf_at s b)) then b_data (buf_at s b) else disk_block s x.
Proof.
  unfold disk_effect, disk_block. cbn. case_decide as E.
  - subst. by rewrite lookup_insert_eq.
  - by rewrite lookup_insert_ne by congruence.
Qed.

Lemma cache_inv_write s dev b :
  cache_inv s -> dev <> 0 -> (b < HEAD)%nat -> 0 < b_refcnt (buf_at s b) -> b_dev (buf_at s b) = dev ->
  (forall i, (i < HEAD)%nat -> b_valid (buf_at s i) <> 0 -> b_dev (buf_at s i) = dev) ->
  cache_inv (disk_effect b true s).
Proof.
  intros Hinv Hd Hb Hr Hbd Hone. split; [apply Hinv|apply Hinv|apply Hinv|].
  intros i Hi Hz. change (buf_at (disk_effect b true s) i) with (buf_at s i) in *.
  destruct (ci_unused s Hinv i Hi Hz) as [H1 H2]. split; [exact H1|]. intros Hv.
  rewrite disk_effect_block. case_decide as E; [|by apply H2]. exfalso.
  assert (i = b) as ->; [|lia]. apply (ci_once s Hinv); try done; rewrite Hone by done; congruence.
Qed.

(** What one iteration leaves, seen from the blocks: those in use keep their
    buffers, except the home block [y], and the unused stay unused. *)
Record copied (s : kernel) (p : nat) (dev y r' : Z) (d : list Z) (t : list (Z * list Z)) (s' : kernel) : Prop := {
  cp_quiet : quiet s' p dev;
  cp_wrote : wrote p s s' t;
  cp_used : forall i, (i < HEAD)%nat -> 0 < b_refcnt (buf_at s i) -> ~ caches s i dev y ->
    core (buf_at s' i) = core (buf_at s i);
  cp_unused : forall i, (i < HEAD)%nat -> b_refcnt (buf_at s i) = 0 -> b_refcnt (buf_at s' i) = 0;
  cp_home : forall i, (i < HEAD)%nat -> 0 < b_refcnt (buf_at s i) -> caches s i dev y ->
    caches s' i dev y /\ b_valid (buf_at s' i) <> 0 /\ b_refcnt (buf_at s' i) = r' /\ b_data (buf_at s' i) = d;
}.

Lemma settled_copied s p dev x y r c a b s2 s4 s' rb d t :
  quiet s p dev -> held2 s p dev x y r c a b s2 -> settled s p dev y rb d a b s4 s' -> 1 <= rb ->
  (r = 0 -> rb = 1) ->
  k_disk s4 = apply_writes t (k_disk s) -> k_dtrace s4 = k_dtrace s ++ t ->
  copied s p dev y (rb - 1) d t s'.
Proof.
  intros Q H S Hrb Hr0 Hd Ht. destruct (h_before _ _ _ _ _ _ _ _ _ _ H) as (Hza & Hzb & Hpb).
  destruct (h_ab _ _ _ _ _ _ _ _ _ _ H) as (Ha & Hb & Hab).
  destruct S as [Sq Sf [Sd St] Sr Sa (Sb1 & Sb2 & Sb3 & Sb4)]. destruct (q_dev s p dev Q) as [Hdev _].
  split.
  - done.
  - split_and!; [done|congruence|congruence].
  - intros i Hi Hp Hnc. apply Sr; [intros ->; lia|]. intros ->. apply Hnc, Hpb. lia.
  - intros i Hi Hz. destruct (decide (i = a)) as [->|Hia]; [done|].
    destruct (decide (i = b)) as [->|Hib]; [rewrite Sb3; lia|].
    by destruct (core_fields _ _ (Sr i Hia Hib)) as (_ & _ & _ & -> & _).
  - intros i Hi Hp Hc. assert (i = b) as ->; [|done].
    destruct (decide (r = 0)) as [E|E].
    + destruct (decide (i = a)) as [->|Hia]; [lia|]. destruct (decide (i = b)) as [->|Hib]; [done|]. exfalso.
      pose proof (proj1 (h_rest _ _ _ _ _ _ _ _ _ _ H i Hia Hib)) as Ei.
      destruct (h_b _ _ _ _ _ _ _ _ _ _ H) as ([E1 E2] & _). destruct Hc as [E3 E4].
      apply Hib, (ci_once s2 (h_inv _ _ _ _ _ _ _ _ _ _ H)); rewrite ?Ei; congruence.
    + assert (Hcb : caches s b dev y) by (apply Hpb; pose proof (ci_ref s (q_inv s p dev Q) b Hb); lia).
      destruct Hc as [E1 E2], Hcb as [E3 E4]. apply (ci_once s (q_inv s p dev Q)); congruence.
Qed.

Lemma one_dev_held s p dev x y r c a b s2 i :
  quiet s p dev -> held2 s p dev x y r c a b s2 -> (i < HEAD)%nat -> b_valid (buf_at s2 i) <> 0 -> b_dev (buf_at s2 i) = dev.
Proof.
  intros Q H Hi. destruct (decide (i = a)) as [->|Hia]; [intros _; apply (h_a _ _ _ _ _ _ _ _ _ _ H)|].
  destruct (decide (i = b)) as [->|Hib]; [intros _; apply (h_b _ _ _ _ _ _ _ _ _ _ H)|].
  rewrite (proj1 (h_rest _ _ _ _ _ _ _ _ _ _ H i Hia Hib)). by apply (q_dev s p dev Q).
Qed.

(** Filling a held buffer and writing it out keeps the invariant. *)
Lemma held_write n s p dev x y r c a b s2 w d :
  quiet s p dev -> held2 s p dev x y r c a b s2 -> w = a \/ w = b -> 0 <= r ->
  let s3 := upd_buf w (set_b_data d) s2 in let s4 := disk_effect w true s3 in
  (bset w (set_b_data d) ;; bwrite w) n s2 = Ret tt s4 /\ cache_inv s4 /\ bio_frame p s2 s4 /\
  (forall i, buf_at s4 i = if decide (i = w) then set_b_data d (buf_at s2 w) else buf_at s2 i) /\
  (forall i, sl_at s4 (SL_buf i) = sl_at s2 (SL_buf i)) /\
  k_disk s4 = <[b_blockno (buf_at s2 w) := d]> (k_disk s) /\
  k_dtrace s4 = k_dtrace s ++ [(b_blockno (buf_at s2 w), d)].
Proof.
  intros Q H Hw Hr s3 s4. destruct (h_ab _ _ _ _ _ _ _ _ _ _ H) as (Ha & Hb & Hab).
  assert (Hwl : (w < HEAD)%nat) by (destruct Hw; congruence). destruct (q_dev s p dev Q) as [Hdev _].
  pose proof (h_inv _ _ _ _ _ _ _ _ _ _ H) as I2.
  assert (Hlen : length (k_bcache s2) = S HEAD) by (destruct (ci_ring s2 I2) as [l [? _]]; done).
  assert (Hb3 : forall i, buf_at s3 i = if decide (i = w) then set_b_data d (buf_at s2 w) else buf_at s2 i).
  { intros i. case_decide as E; [subst; apply buf_at_upd_eq; lia|]. apply buf_at_upd_ne. congruence. }
  assert (Hu2 : bio_user s2 p) by (eapply bio_frame_user; [apply H|apply Q]).
  assert (Hm : sl_mine s2 p (SL_buf w) = true).
  { destruct Hw as [->| ->]; [apply (h_a _ _ _ _ _ _ _ _ _ _ H)|apply (h_b _ _ _ _ _ _ _ _ _ _ H)]. }
  assert (Hrw : 0 < b_refcnt (buf_at s2 w)).
  { destruct Hw as [->| ->]; [destruct (h_a _ _ _ _ _ _ _ _ _ _ H) as (_ & _ & -> & _); lia
                             |destruct (h_b _ _ _ _ _ _ _ _ _ _ H) as (_ & _ & -> & _); lia]. }
  assert (Hdw : b_dev (buf_at s2 w) = dev).
  { destruct Hw as [->| ->]; [apply (h_a _ _ _ _ _ _ _ _ _ _ H)|apply (h_b _ _ _ _ _ _ _ _ _ _ H)]. }
  assert (Hbw : buf_at s3 w = set_b_data d (buf_at s2 w)) by (rewrite Hb3; by rewrite decide_True).
  assert (I3 : cache_inv s3).
  { apply (cache_inv_upd s2 s3 w); [done| | |done|done|rewrite Hbw; done|].
    - destruct (ci_ring s2 I2) as [l Hl]. exists l. by apply ring_upd.
    - intros i Hi. rewrite Hb3. by rewrite decide_False.
    - rewrite Hbw. intros i Hi Hiw [_ [E1 E2]]. apply Hiw, (ci_once s2 I2); cbn in *; congruence. }
  split; [|split; [|split; [done|split; [exact Hb3|split; [done|]]]]].
  - unfold bset. rewrite bind_modify. by apply (bwrite_run n s3 p w).
  - apply (cache_inv_write s3 dev w); [done|done|done|by rewrite Hbw|by rewrite Hbw|].
    intros i Hi. rewrite Hb3. case_decide; [done|]. by eapply one_dev_held.
  - destruct (h_disk _ _ _ _ _ _ _ _ _ _ H) as [Ed Et]. unfold s4, disk_effect. rewrite Hbw. cbn.
    change (k_disk s3) with (k_disk s2). change (k_dtrace s3) with (k_dtrace s2). by rewrite Ed, Et.
Qed.

(** One iteration of [write_log]: home block [y], in use, to log block [x]. *)
Lemma log_copy n s p dev x y r c :
  quiet s p dev -> x <> y -> (HEAD < n)%nat -> refs s dev x 0 -> refs s dev y r -> 1 <= r -> content s dev y c ->
  (exists b, (b < HEAD)%nat /\ b_refcnt (buf_at s b) = 0) ->
  exists s', (let* to := bread dev x in let* from := bread dev y in
     let* data := bget_f from b_data in bset to (set_b_data data) ;; bwrite to ;; brelse from ;; brelse to) n s = Ret tt s' /\
    copied s p dev y r c [(x, c)] s'.
Proof.
  intros Q Hxy Hn Hx Hy Hr Hc Hfree.
  destruct (bread2 n s p dev x y r c Q Hxy Hn Hx Hy ltac:(lia) Hc ltac:(lia) Hfree ltac:(left; lia))
    as (a & s1 & b & s2 & E1 & E2 & H).
  destruct (h_a _ _ _ _ _ _ _ _ _ _ H) as (Ca & Va & Ra & Da & Ma).
  destruct (h_b _ _ _ _ _ _ _ _ _ _ H) as (Cb & Vb & Rb & Db & Mb).
  destruct (h_ab _ _ _ _ _ _ _ _ _ _ H) as (Ha & Hb & Hab).
  destruct (held_write n s p dev x y r c a b s2 a c Q H ltac:(auto) ltac:(lia)) as (E4 & I4 & F4 & B4 & S4 & D4 & T4).
  set (s4 := disk_effect a true (upd_buf a (set_b_data c) s2)) in *.
  rewrite (proj2 Ca) in D4, T4.
  assert (Ba : buf_at s4 a = set_b_data c (buf_at s2 a)) by (rewrite B4; by rewrite decide_True).
  assert (Bb : buf_at s4 b = buf_at s2 b) by (rewrite B4; by rewrite decide_False).
  destruct (settle n s p dev x y r c a b s2 s4 (r + 1) b a) as (s' & E' & S'); try done.
  - intros i Hia Hib. rewrite B4. by rewrite decide_False.
  - unfold caches. rewrite Ba. exact Ca.
  - by rewrite Ba.
  - rewrite Ba. unfold disk_block. rewrite D4, lookup_insert_eq. done.
  - unfold caches. rewrite Bb. exact Cb.
  - by rewrite Bb.
  - by rewrite Bb.
  - lia.
  - lia.
  - by right.
  - exists s'. split.
    + rewrite (bind_ret _ _ _ _ _ _ E1), (bind_ret _ _ _ _ _ _ E2).
      rewrite (bind_ret (bget_f b b_data) _ n s2 c s2) by (exact (f_equal (fun v => Ret v s2) Db)).
      unfold bind in E4 |- * at 1. unfold bset, modify in E4 |- *. cbn [obind] in E4 |- *.
      unfold bind at 1. rewrite E4. cbn [obind]. exact E'.
    + rewrite Bb, Db in S'. replace r with (r + 1 - 1) at 1 by lia.
      apply (settled_copied s p dev x y r c a b s2 s4 s' (r + 1) c [(x, c)]); try done; lia.
Qed.

(** One iteration of [install_trans]: log block [x] to home block [y]. *)
Lemma install_copy n s p dev x y r c (recovering : bool) :
  quiet s p dev -> x <> y -> (HEAD < n)%nat -> refs s dev x 0 -> refs s dev y r ->
  content s dev y c -> r = (if recovering then 0 else Z.max 1 r) -> (r = 0 -> c = disk_block s y) ->
  (exists b, (b < HEAD)%nat /\ b_refcnt (buf_at s b) = 0) ->
  (0 < r \/ exists b1 b2, b1 <> b2 /\ (b1 < HEAD)%nat /\ (b2 < HEAD)%nat /\
     b_refcnt (buf_at s b1) = 0 /\ b_refcnt (buf_at s b2) = 0) ->
  exists s', (let* lbuf := bread dev x in let* dbuf := bread dev y in
     let* data := bget_f lbuf b_data in bset dbuf (set_b_data data) ;; bwrite dbuf ;;
     when (negb recovering) (bunpin dbuf) ;; brelse lbuf ;; brelse dbuf) n s = Ret tt s' /\
    copied s p dev y (if recovering then 0 else r - 1) (disk_block s x) [(y, disk_block s x)] s'.
Proof.
  intros Q Hxy Hn Hx Hy Hc Hr Hc0 Hfree Hfree2.
  assert (Hr0 : 0 <= r) by (destruct recovering; lia).
  destruct (bread2 n s p dev x y r c Q Hxy Hn Hx Hy Hr0 Hc Hc0 Hfree Hfree2) as (a & s1 & b & s2 & E1 & E2 & H).
  destruct (h_a _ _ _ _ _ _ _ _ _ _ H) as (Ca & Va & Ra & Da & Ma).
  destruct (h_b _ _ _ _ _ _ _ _ _ _ H) as (Cb & Vb & Rb & Db & Mb).
  destruct (h_ab _ _ _ _ _ _ _ _ _ _ H) as (Ha & Hb & Hab).
  destruct (h_before _ _ _ _ _ _ _ _ _ _ H) as (_ & Hzb & _).
  pose proof (q_ref s p dev Q b Hb) as Hlt. rewrite Hzb in Hlt. change (2 ^ 31) with 2147483648 in Hlt.
  set (d := disk_block s x).
  destruct (held_write n s p dev x y r c a b s2 b d Q H ltac:(auto) ltac:(lia)) as (E4 & I4 & F4 & B4 & S4 & D4 & T4).
  set (s3 := disk_effect b true (upd_buf b (set_b_data d) s2)) in *.
  rewrite (proj2 Cb) in D4, T4.
  set (s4 := if recovering then s3 else upd_buf b drop_ref s3).
  set (rb := if recovering then 1 else r).
  assert (Hlen : length (k_bcache s3) = S HEAD) by (destruct (ci_ring s3 I4) as [l [? _]]; done).
  assert (E5 : when (negb recovering) (bunpin b) n s3 = Ret tt s4).
  { unfold s4. destruct recovering; [done|].
    assert (Hu3 : bio_user s3 p).
    { eapply bio_frame_user; [|apply Q]. eapply bio_frame_trans; [apply H|exact F4]. }
    apply bunpin_run; apply Hu3. }
  assert (B3a : buf_at s3 a = buf_at s2 a) by (rewrite B4; by rewrite decide_False).
  assert (B3b : buf_at s3 b = set_b_data d (buf_at s2 b)) by (rewrite B4; by rewrite decide_True).
  assert (Bb : buf_at s4 b = set_b_refcnt rb (set_b_data d (buf_at s2 b))).
  { unfold s4, rb. destruct recovering.
    - rewrite B3b. replace 1 with (b_refcnt (buf_at s2 b)) by lia. done.
    - rewrite buf_at_upd_eq by lia. rewrite B3b. unfold drop_ref. cbn. rewrite Rb.
      rewrite u32_small by lia. by replace (r + 1 - 1) with r by lia. }
  assert (Bo : forall i, i <> b -> buf_at s4 i = buf_at s3 i).
  { intros i Hi. unfold s4. destruct recovering; [done|]. apply buf_at_upd_ne. congruence. }
  assert (Hd4 : k_disk s4 = k_disk s3 /\ k_dtrace s4 = k_dtrace s3 /\ (forall i, sl_at s4 (SL_buf i) = sl_at s3 (SL_buf i)) /\ bio_frame p s3 s4)
    by (unfold s4; destruct recovering; done).
  destruct Hd4 as (Hd4 & Ht4 & Hs4 & Hf4).
  assert (I5 : cache_inv s4).
  { apply (cache_inv_upd s3 s4 b); [done| |done|done|done| |].
    - destruct (ci_ring s3 I4) as [l Hl]. exists l. unfold s4. destruct recovering; [done|]. by apply ring_upd.
    - rewrite Bb. cbn. unfold rb. destruct recovering; lia.
    - rewrite Bb. intros i Hi Hib [Hnz [E1' E2']]. apply Hib, (ci_once s3 I4); try done.
      + rewrite E1'. exact Hnz.
      + rewrite B3b. exact E1'.
      + rewrite B3b. exact E2'. }
  destruct (settle n s p dev x y r c a b s2 s4 rb a b) as (s' & E' & S'); try done.
  - intros i Hia Hib. rewrite Bo, B4 by done. by rewrite decide_False.
  - unfold caches. rewrite Bo, B3a by done. exact Ca.
  - by rewrite Bo, B3a by done.
  - rewrite Bo, B3a by done. rewrite Da. unfold disk_block. rewrite Hd4, D4, lookup_insert_ne by done. done.
  - unfold caches. rewrite Bb. exact Cb.
  - by rewrite Bb.
  - by rewrite Bb.
  - unfold rb. destruct recovering; lia.
  - intros _. rewrite Bb. unfold disk_block. rewrite Hd4, D4, lookup_insert_eq. done.
  - by left.
  - exists s'. split.
    + rewrite (bind_ret _ _ _ _ _ _ E1), (bind_ret _ _ _ _ _ _ E2).
      rewrite (bind_ret (bget_f a b_data) _ n s2 d s2) by (exact (f_equal (fun v => Ret v s2) Da)).
      unfold bind in E4 |- * at 1. unfold bset, modify in E4 |- *. cbn [obind] in E4 |- *.
      unfold bind at 1. rewrite E4. cbn [obind]. rewrite (bind_ret _ _ _ _ _ _ E5). exact E'.
    + replace (if recovering then 0 else r - 1) with (rb - 1) by (unfold rb; destruct recovering; lia).
      rewrite Bb in S'. change (b_data (set_b_refcnt rb (set_b_data d (buf_at s2 b)))) with d in S'.
      apply (settled_copied s p dev x y r c a b s2 s4 s' rb d [(y, d)]); try done.
      * unfold rb. destruct recovering; lia.
      * unfold rb. intros ->. destruct recovering; lia.
      * by rewrite Hd4, D4.
      * by rewrite Ht4, T4.
Qed.

(** The same for one unused block: nothing in use changes. *)
Record kept (s : kernel) (p : nat) (dev : Z) (t : list (Z * list Z)) (s' : kernel) : Prop := {
  kp_quiet : quiet s' p dev;
  kp_wrote : wrote p s s' t;
  kp_used : forall i, (i < HEAD)%nat -> 0 < b_refcnt (buf_at s i) -> core (buf_at s' i) = core (buf_at s i);
  kp_unused : forall i, (i < HEAD)%nat -> b_refcnt (buf_at s i) = 0 -> b_refcnt (buf_at s' i) = 0;
}.

(** Giving back the one buffer that is held, once it agrees with the disk. *)
Lemma give_back n s p dev x b s1 s2 t :
  quiet s p dev -> refs s dev x 0 -> got s p dev x b s1 -> wrote p s1 s2 t -> cache_inv s2 ->
  (forall i, i <> b -> buf_at s2 i = buf_at s1 i) -> (forall i, sl_at s2 (SL_buf i) = sl_at s1 (SL_buf i)) ->
  caches s2 b dev x -> b_refcnt (buf_at s2 b) = 1 -> b_data (buf_at s2 b) = disk_block s2 x ->
  exists s', brelse b n s2 = Ret tt s' /\ kept s p dev t s'.
Proof.
  intros Q Hx G (F2 & D2 & T2) I2 Hne2 Hsl2 C2 R2 Dt2. pose proof (q_inv s p dev Q) as Hinv.
  destruct (q_dev s p dev Q) as [Hd Hone]. destruct (got_before s p dev x b s1 0 Hinv Hd G Hx) as [Hz _].
  destruct G as [(F1 & I1 & Hb & C1 & V1 & T1 & _ & Hne1 & Hsl1 & Hdk1 & Htr1) M1 R1 D1].
  assert (Fs : bio_frame p s s2) by (by eapply bio_frame_trans).
  destruct (brelse_spec n s2 p b) as (s' & E & F' & I' & C' & S' & D' & T').
  - eapply bio_frame_user; [exact Fs|apply Q].
  - done.
  - done.
  - unfold sl_mine. rewrite Hsl2. destruct F2 as (_ & _ & _ & -> & _). exact M1.
  - rewrite R2. done.
  - intros _ _. by rewrite (proj2 C2).
  - exists s'. split; [done|].
    assert (Cb : core (buf_at s' b) = core (set_b_refcnt 0 (buf_at s2 b))) by (rewrite C', decide_True by done; by rewrite R2).
    assert (Co : forall i, i <> b -> core (buf_at s' i) = core (buf_at s i)).
    { intros i Hi. rewrite C', decide_False by done. by rewrite Hne2, Hne1. }
    destruct (core_fields _ _ Cb) as (_ & Ed & _ & Er & _). cbn in Ed, Er.
    split; [split| | |].
    + eapply bio_frame_user; [exact F'|]. eapply bio_frame_user; [exact Fs|apply Q].
    + done.
    + split; [done|]. intros i Hi. destruct (decide (i = b)) as [->|Hib]; [intros _; rewrite Ed; apply C2|].
      destruct (core_fields _ _ (Co i Hib)) as (-> & -> & _). by apply Hone.
    + intros i Hi. rewrite S'. case_decide; [done|]. rewrite Hsl2, Hsl1 by done. by apply (q_unlocked s p dev Q).
    + intros i Hi. destruct (decide (i = b)) as [->|Hib]; [rewrite Er; done|].
      destruct (core_fields _ _ (Co i Hib)) as (_ & _ & _ & -> & _). by apply (q_ref s p dev Q).
    + split_and!; [by eapply bio_frame_trans|congruence|congruence].
    + intros i Hi Hp. apply Co. intros ->. lia.
    + intros i Hi Hz'. destruct (decide (i = b)) as [->|Hib]; [done|].
      by destruct (core_fields _ _ (Co i Hib)) as (_ & _ & _ & -> & _).
Qed.

Lemma bread_unused n s p dev x :
  quiet s p dev -> (HEAD < n)%nat -> refs s dev x 0 ->
  (exists b, (b < HEAD)%nat /\ b_refcnt (buf_at s b) = 0) ->
  exists b s1, bread dev x n s = Ret b s1 /\ got s p dev x b s1 /\
    b_refcnt (buf_at s1 b) = 1 /\ b_data (buf_at s1 b) = disk_block s x.
Proof.
  intros Q Hn Hx Hfree. destruct (bread_got n s p dev x) as (b & s1 & E & G); [apply Q|apply Q|apply Q|done| | |].
  { intros b Hb _. split; [by apply (q_unlocked s p dev Q)|by apply (q_ref s p dev Q)]. }
  { destruct Hfree as (b & Hb & Hz). exists b. auto. }
  exists b, s1. split; [done|]. split; [done|]. pose proof (g_refs _ _ _ _ _ _ G 0 Hx) as R1.
  split; [lia|]. apply (g_content _ _ _ _ _ _ G). by apply (content_unused s p dev x).
Qed.

(** Rewriting one unused block. *)
Lemma rewrite_block n s p dev x (g : list Z -> list Z) :
  quiet s p dev -> (HEAD < n)%nat -> refs s dev x 0 ->
  (exists b, (b < HEAD)%nat /\ b_refcnt (buf_at s b) = 0) ->
  exists s', (let* b := bread dev x in bset b (fun q => set_b_data (g (b_data q)) q) ;; bwrite b ;; brelse b) n s = Ret tt s' /\
    kept s p dev [(x, g (disk_block s x))] s'.
Proof.
  intros Q Hn Hx Hfree. destruct (bread_unused n s p dev x Q Hn Hx Hfree) as (b & s1 & E1 & G & R1 & Dt1).
  destruct (q_dev s p dev Q) as [Hd Hone].
  pose proof (g_post _ _ _ _ _ _ G) as (F1 & I1 & Hb & C1 & V1 & T1 & Cs & Hne1 & Hsl1 & Hdk1 & Htr1).
  set (f := fun q : buf => set_b_data (g (b_data q)) q). set (s2 := upd_buf b f s1).
  assert (Hlen : length (k_bcache s1) = S HEAD) by (destruct (ci_ring s1 I1) as [l [? _]]; done).
  assert (B2 : buf_at s2 b = f (buf_at s1 b)) by (apply buf_at_upd_eq; lia).
  assert (N2 : forall i, i <> b -> buf_at s2 i = buf_at s1 i) by (intros; apply buf_at_upd_ne; congruence).
  assert (Hone2 : forall i, (i < HEAD)%nat -> b_valid (buf_at s2 i) <> 0 -> b_dev (buf_at s2 i) = dev).
  { intros i Hi. destruct (decide (i = b)) as [->|Hib]; [intros _; rewrite B2; apply C1|].
    rewrite N2, Hne1 by done. by apply Hone. }
  assert (I2 : cache_inv s2).
  { apply (cache_inv_upd s1 s2 b); [done| |done|done|done|rewrite B2; change (0 < b_refcnt (buf_at s1 b)); lia|].
    - destruct (ci_ring s1 I1) as [l Hl]. exists l. by apply ring_upd.
    - rewrite B2. intros i Hi Hib [Hnz [E1' E2']]. apply Hib, (ci_once s1 I1); try done. rewrite E1'. exact Hnz. }
  set (s3 := disk_effect b true s2).
  assert (I3 : cache_inv s3).
  { apply (cache_inv_write s2 dev b); [done|done|done| |rewrite B2; apply C1|done]. rewrite B2. change (0 < b_refcnt (buf_at s1 b)). lia. }
  assert (Hbno : b_blockno (buf_at s2 b) = x) by (rewrite B2; apply C1).
  assert (Hdt : b_data (buf_at s2 b) = g (disk_block s x)) by (rewrite B2; change (g (b_data (buf_at s1 b)) = g (disk_block s x)); by rewrite Dt1).
  destruct (give_back n s p dev x b s1 s3 [(x, g (disk_block s x))] Q Hx G) as (s' & E' & K'); try done.
  - split_and!; [done| |].
    + change (k_disk s3) with (<[b_blockno (buf_at s2 b) := b_data (buf_at s2 b)]> (k_disk s1)). by rewrite Hbno, Hdt.
    + change (k_dtrace s3) with (k_dtrace s1 ++ [(b_blockno (buf_at s2 b), b_data (buf_at s2 b))]). by rewrite Hbno, Hdt.
  - unfold caches. change (buf_at s3 b) with (buf_at s2 b). rewrite B2. exact C1.
  - change (buf_at s3 b) with (buf_at s2 b). by rewrite B2.
  - change (buf_at s3 b) with (buf_at s2 b). unfold s3. rewrite disk_effect_block. by rewrite decide_True.
  - exists s'. split; [|done]. rewrite (bind_ret _ _ _ _ _ _ E1). unfold bset. rewrite bind_modify.
    assert (Hu2 : bio_user s2 p) by exact (bio_frame_user p s s1 F1 (q_user s p dev Q)).
    rewrite (bind_ret _ _ _ _ _ _ (bwrite_run n s2 p b Hu2 Hb (g_mine _ _ _ _ _ _ G))).
    exact E'.
Qed.
End TwoBuffers.

(** ** The transaction in the cache *)
Section Commit.
Context {KI : KernelImage} {BD : BlockDevice}.

(** Block [h] is held in the cache with content [d]. *)
Definition pin (s : kernel) (dev h : Z) (d : list Z) : Prop :=
  exists b, (b < HEAD)%nat /\ caches s b dev h /\ b_valid (buf_at s b) <> 0 /\
    1 <= b_refcnt (buf_at s b) /\ b_data (buf_at s b) = d.
Definition some_free (s : kernel) : Prop := exists b, (b < HEAD)%nat /\ b_refcnt (buf_at s b) = 0.

(** What an iteration may do to the cache, [y] being the block it uses. *)
Definition calm (dev : Z) (Y : Z -> Prop) (s s' : kernel) : Prop :=
  (forall i, (i < HEAD)%nat -> 0 < b_refcnt (buf_at s i) -> (forall y, Y y -> ~ caches s i dev y) ->
     core (buf_at s' i) = core (buf_at s i)) /\
  (forall i, (i < HEAD)%nat -> b_refcnt (buf_at s i) = 0 -> b_refcnt (buf_at s' i) = 0) /\
  (forall i y, (i < HEAD)%nat -> 0 < b_refcnt (buf_at s i) -> Y y -> caches s i dev y -> caches s' i dev y).

Lemma copied_calm s p dev y r' d t s' : copied s p dev y r' d t s' -> calm dev (eq y) s s'.
Proof.
  intros [_ _ Hu Hz Hh]. split_and!; [|done|].
  - intros i Hi Hp Hn. apply Hu; [done|done|]. by apply Hn.
  - intros i y' Hi Hp <- Hc. by apply Hh.
Qed.
Lemma kept_calm s p dev t s' : kept s p dev t s' -> calm dev (fun _ => False) s s'.
Proof. intros [_ _ Hu Hz]. split_and!; [|done|done]. intros i Hi Hp _. by apply Hu. Qed.

Lemma calm_free dev Y s s' : calm dev Y s s' -> some_free s -> some_free s'.
Proof. intros (_ & Hz & _) (b & Hb & H0). exists b. auto. Qed.

Lemma calm_pin dev Y s s' h d :
  calm dev Y s s' -> ~ Y h -> pin s dev h d -> pin s' dev h d.
Proof.
  intros (Hu & _ & _) Hy (b & Hb & Hc & Hv & Hr & Hd). exists b. split; [done|].
  assert (E : core (buf_at s' b) = core (buf_at s b)).
  { apply Hu; [done|lia|]. intros y HY [_ E]. destruct Hc. congruence. }
  destruct (core_fields _ _ E) as (Ev & Ed & Eb & Er & Et). unfold caches.
  rewrite Ev, Ed, Eb, Er, Et. done.
Qed.

Lemma calm_refs0 dev Y s s' x :
  calm dev Y s s' -> cache_inv s -> dev <> 0 -> ~ Y x -> refs s dev x 0 -> refs s' dev x 0.
Proof.
  intros (Hu & Hz & Hh) Hinv Hd HY Hx.
  assert (Hs : forall i, (i < HEAD)%nat -> caches s' i dev x -> b_refcnt (buf_at s' i) = 0).
  { intros i Hi Hc. destruct (decide (b_refcnt (buf_at s i) = 0)) as [E|E]; [by apply Hz|]. exfalso.
    assert (Hp : 0 < b_refcnt (buf_at s i)) by (pose proof (ci_ref s Hinv i Hi); lia).
    assert (Hcore : core (buf_at s' i) = core (buf_at s i)).
    { apply Hu; [done|done|]. intros y HYy Hcy. pose proof (Hh i y Hi Hp HYy Hcy) as [_ E2].
      destruct Hc as [_ E1]. congruence. }
    destruct (core_fields _ _ Hcore) as (_ & E1 & E2 & _).
    assert (Hcs : caches s i dev x) by (unfold caches in *; rewrite E1, E2 in Hc; done).
    destruct Hx as [(j & Hj & [F1 F2] & Hr)|[Hno _]]; [|by apply (Hno i)].
    assert (i = j) as ->; [|lia]. destruct Hcs. apply (ci_once s Hinv); congruence. }
  destruct (decide (Exists (fun i => caches s' i dev x) (seq 0 HEAD))) as [He|He].
  - apply Exists_exists in He as (i & Hi%elem_of_seq & Hc). left. exists i. split_and!; [lia|done|]. apply Hs; [lia|done].
  - right. split; [|done]. intros i Hi Hc. apply He, Exists_exists. exists i. split; [apply elem_of_seq; lia|done].
Qed.

Lemma pin_refs s dev h d : cache_inv s -> pin s dev h d -> exists r, 1 <= r /\ refs s dev h r /\ content s dev h d.
Proof.
  intros Hinv (b & Hb & Hc & Hv & Hr & Hd). exists (b_refcnt (buf_at s b)). split; [done|]. split.
  - left. exists b. done.
  - left. exists b. done.
Qed.

Variables (dev start : Z) (hs : list Z) (ds : list (list Z)).

(** The header in memory lists the blocks [hs]. *)
Definition log_lists (lg : log) : Prop :=
  l_dev lg = dev /\ l_start lg = start /\ lh_n lg = Z.of_nat (length hs) /\
  forall i h, hs !! i = Some h -> u32 (aget 0 (lh_block lg) (Z.of_nat i)) = h.
(** They are distinct and outside the log. *)
Definition log_apart : Prop :=
  dev <> 0 /\ NoDup hs /\ length ds = length hs /\
  forall h, h ∈ hs -> ~ (start <= h <= start + Z.of_nat (length hs)).

Record ready (s : kernel) (p : nat) (k : nat) : Prop := {
  rd_quiet : quiet s p dev;
  rd_lists : log_lists (k_log s);
  rd_free : some_free s;
  rd_log : forall x, start <= x <= start + Z.of_nat (length hs) -> refs s dev x 0;
  rd_pins : forall i h d, (k <= i)%nat -> hs !! i = Some h -> ds !! i = Some d -> pin s dev h d;
}.

Lemma ready_calm s p k Y s' t :
  ready s p k -> quiet s' p dev -> wrote p s s' t -> calm dev Y s s' ->
  (forall y, Y y -> ~ (start <= y <= start + Z.of_nat (length hs))) ->
  forall k', (forall i h d, (k' <= i)%nat -> hs !! i = Some h -> ds !! i = Some d -> pin s' dev h d) ->
  ready s' p k'.
Proof.
  intros [Q L F X P] Q' (W & _) C HY k' P'. split; [done| | | |done].
  - by rewrite (frame_log p s s' W).
  - by eapply calm_free.
  - intros x Hx. apply (calm_refs0 dev Y s); [done|apply Q|apply Q| |by apply X].
    intros Hy. by apply (HY x).
Qed.

Definition log_writes (k m : nat) : list (Z * list Z) :=
  map (fun i => (start + Z.of_nat i + 1, ds !!! i)) (seq k m).
Definition home_writes (k m : nat) : list (Z * list Z) :=
  map (fun i => (hs !!! i, ds !!! i)) (seq k m).

Lemma write_log_run n s p :
  log_apart -> (HEAD < n)%nat -> ready s p 0 ->
  exists s', write_log n s = Ret tt s' /\ ready s' p 0 /\ wrote p s s' (log_writes 0 (length hs)).
Proof.
  intros (Hd & Hnd & Hlen & Hap) Hn R0. unfold write_log, lget at 1. rewrite bind_gets.
  destruct (rd_lists _ _ _ R0) as (_ & _ & Hnn & _). change (lh_n (k_log s)) with (lh_n (k_log s)).
  rewrite Hnn, Nat2Z.id. unfold log_writes.
  assert (Hloop : forall m k s, (k + m = length hs)%nat -> ready s p 0 ->
    exists s', forall_do (seq k m) (fun tail => let* lg := lget id in
       let* to := bread (l_dev lg) (l_start lg + Z.of_nat tail + 1) in
       let* from := bread (l_dev lg) (u32 (aget 0 (lh_block lg) (Z.of_nat tail))) in
       let* data := bget_f from b_data in
       bset to (set_b_data data) ;; bwrite to ;; brelse from ;; brelse to) n s = Ret tt s' /\
    ready s' p 0 /\ wrote p s s' (log_writes k m)); [|by apply Hloop].
  clear R0 Hnn s. induction m as [|m IH]; intros k s Hkm R.
  - exists s. split; [done|]. split; [done|]. by apply wrote_nil.
  - cbn [seq forall_do]. destruct (lookup_lt_is_Some_2 hs k) as [h Hh]; [lia|].
    destruct (lookup_lt_is_Some_2 ds k) as [d Hdk]; [lia|].
    pose proof (rd_pins _ _ _ R k h d ltac:(lia) Hh Hdk) as Hpin. pose proof (rd_quiet _ _ _ R) as Q.
    destruct (pin_refs s dev h d (q_inv s p dev Q) Hpin) as (r & Hr & Href & Hct).
    destruct (rd_lists _ _ _ R) as (L1 & L2 & L3 & L4).
    assert (Hout : ~ (start <= h <= start + Z.of_nat (length hs))) by exact (Hap h (list_elem_of_lookup_2 _ _ _ Hh)).
    destruct (log_copy n s p dev (start + Z.of_nat k + 1) h r d) as (s1 & E1 & C1); try assumption.
    { intros <-. apply Hout. lia. }
    { apply (rd_log _ _ _ R). lia. }
    { apply R. }
    destruct (IH (S k) s1) as (s' & E' & R' & W'); [lia| |].
    { apply (ready_calm s p 0 (eq h) s1 _ R (cp_quiet _ _ _ _ _ _ _ _ C1) (cp_wrote _ _ _ _ _ _ _ _ C1)
              (copied_calm _ _ _ _ _ _ _ _ C1)); [by intros y <-|].
      intros i h' d' _ Hh' Hd'. destruct (decide (h' = h)) as [->|Hne].
      - assert (i = k) as -> by (by eapply NoDup_lookup). assert (d' = d) as -> by congruence.
        destruct Hpin as (b & Hb & Hc & Hv & Hrb & Hdb). exists b. split; [done|].
        destruct (cp_home _ _ _ _ _ _ _ _ C1 b Hb ltac:(lia) Hc) as (H1 & H2 & H3 & H4). split_and!; try done. lia.
      - apply (calm_pin dev (eq h) s); [by eapply copied_calm|congruence|]. apply (rd_pins _ _ _ R i); [lia|done|done]. }
    exists s'. split; [|split; [done|]].
    + unfold lget at 1. rewrite bind_bind_gets. unfold id. rewrite L1, L2, (L4 k h Hh).
      rewrite (bind_ret _ _ _ _ _ _ E1). exact E'.
    + unfold log_writes. cbn [seq map]. rewrite (list_lookup_total_correct ds k d Hdk).
      exact (wrote_trans p s s1 s' [_] _ (cp_wrote _ _ _ _ _ _ _ _ C1) W').
Qed.


Lemma write_head_run n s p k :
  log_apart -> (HEAD < n)%nat -> ready s p k ->
  exists s', write_head n s = Ret tt s' /\ ready s' p k /\
    wrote p s s' [(start, lh_enc (lh_n (k_log s)) (lh_block (k_log s)) (disk_block s start))].
Proof.
  intros (Hd & _) Hn R. destruct (rd_lists _ _ _ R) as (L1 & L2 & L3 & L4).
  destruct (rewrite_block n s p dev start (lh_enc (lh_n (k_log s)) (lh_block (k_log s)))) as (s' & E & C);
    [apply R|done|apply (rd_log _ _ _ R); lia|apply R|].
  exists s'. split; [|split].
  - unfold write_head, lget. rewrite bind_gets. unfold id. rewrite L1, L2. exact E.
  - apply (ready_calm s p k _ s' _ R (kp_quiet _ _ _ _ _ C) (kp_wrote _ _ _ _ _ C) (kept_calm _ _ _ _ _ C)); [done|].
    intros i h d Hi Hh Hdi. apply (calm_pin dev (fun _ => False) s); [by eapply kept_calm|tauto|].
    by apply (rd_pins _ _ _ R i).
  - apply C.
Qed.

Lemma install_loop n p : log_apart -> (HEAD < n)%nat -> forall m k s,
  (k + m = length hs)%nat -> ready s p k ->
  (forall i d, ds !! i = Some d -> disk_block s (start + Z.of_nat i + 1) = d) ->
  exists s', forall_do (seq k m) (fun tail => let* lg := lget id in
     let* lbuf := bread (l_dev lg) (l_start lg + Z.of_nat tail + 1) in
     let* dbuf := bread (l_dev lg) (u32 (aget 0 (lh_block lg) (Z.of_nat tail))) in
     let* data := bget_f lbuf b_data in
     bset dbuf (set_b_data data) ;; bwrite dbuf ;; when (negb false) (bunpin dbuf) ;;
     brelse lbuf ;; brelse dbuf) n s = Ret tt s' /\
    ready s' p (k + m) /\ wrote p s s' (home_writes k m).
Proof.
  intros (Hd & Hnd & Hlen & Hap) Hn. induction m as [|m IH]; intros k s Hkm R Hdisk.
  - exists s. rewrite Nat.add_0_r. split; [done|]. split; [done|]. by apply wrote_nil.
  - cbn [seq forall_do]. destruct (lookup_lt_is_Some_2 hs k) as [h Hh]; [lia|].
    destruct (lookup_lt_is_Some_2 ds k) as [d Hdk]; [lia|].
    pose proof (rd_pins _ _ _ R k h d ltac:(lia) Hh Hdk) as Hpin. pose proof (rd_quiet _ _ _ R) as Q.
    destruct (pin_refs s dev h d (q_inv s p dev Q) Hpin) as (r & Hr & Href & Hct).
    destruct (rd_lists _ _ _ R) as (L1 & L2 & L3 & L4).
    assert (Hout : ~ (start <= h <= start + Z.of_nat (length hs))) by exact (Hap h (list_elem_of_lookup_2 _ _ _ Hh)).
    destruct (install_copy n s p dev (start + Z.of_nat k + 1) h r d false) as (s1 & E1 & C1); try assumption.
    { intros <-. apply Hout. lia. }
    { apply (rd_log _ _ _ R). lia. }
    { lia. }
    { lia. }
    { apply R. }
    { left. lia. }
    rewrite (Hdisk k d Hdk) in C1. pose proof (cp_wrote _ _ _ _ _ _ _ _ C1) as W1.
    destruct (IH (S k) s1) as (s' & E' & R' & W'); [lia| | |].
    { apply (ready_calm s p k (eq h) s1 _ R (cp_quiet _ _ _ _ _ _ _ _ C1) W1
              (copied_calm _ _ _ _ _ _ _ _ C1)); [by intros y <-|].
      intros i h' d' Hi Hh' Hd'. apply (calm_pin dev (eq h) s); [by eapply copied_calm| |].
      - intros <-. assert (i = k) by (by eapply NoDup_lookup). lia.
      - apply (rd_pins _ _ _ R i); [lia|done|done]. }
    { intros i d' Hd'. rewrite <- (Hdisk i d' Hd'). unfold disk_block. destruct W1 as (_ & -> & _). cbn.
      rewrite lookup_insert_ne; [done|]. intros ->. apply Hout.
      apply lookup_lt_Some in Hd'. lia. }
    exists s'. split; [|split].
    + unfold lget at 1. rewrite bind_bind_gets. unfold id. rewrite L1, L2, (L4 k h Hh).
      rewrite (bind_ret _ _ _ _ _ _ E1). exact E'.
    + by replace (k + S m)%nat with (S k + m)%nat by lia.
    + unfold home_writes. cbn [seq map]. rewrite (list_lookup_total_correct ds k d Hdk), (list_lookup_total_correct hs k h Hh).
      exact (wrote_trans p s s1 s' [_] _ W1 W').
Qed.

Lemma quiet_log s p f : quiet s p dev -> quiet (upd_log f s) p dev.
Proof. intros [Q1 Q2 Q3 Q4 Q5]. split; [done|destruct Q2; by split|done|done|done]. Qed.

(** The block writes of a commit, in order. *)
Definition commit_writes (blk : list Z) (old : list Z) : list (Z * list Z) :=
  log_writes 0 (length hs) ++
  [(start, lh_enc (Z.of_nat (length hs)) blk old)] ++
  home_writes 0 (length hs) ++
  [(start, lh_enc 0 blk (lh_enc (Z.of_nat (length hs)) blk old))].

Lemma apply_writes_out t d x : (forall w, w ∈ t -> w.1 <> x) -> apply_writes t d !! x = d !! x.
Proof.
  revert d. induction t as [|w t IH]; intros d Hw; [done|]. cbn. unfold apply_writes in IH. rewrite IH.
  - rewrite lookup_insert_ne; [done|]. apply Hw. by left.
  - intros w' Hw'. apply Hw. by right.
Qed.

Lemma log_writes_at d k m i :
  (k <= i < k + m)%nat -> apply_writes (log_writes k m) d !! (start + Z.of_nat i + 1) = Some (ds !!! i).
Proof.
  revert d k. induction m as [|m IH]; intros d k Hi; [lia|]. unfold log_writes. cbn [seq map].
  change (apply_writes ((start + Z.of_nat k + 1, ds !!! k) :: log_writes (S k) m) d !! (start + Z.of_nat i + 1) = Some (ds !!! i)).
  cbn. destruct (decide (i = k)) as [->|Hne].
  - fold (apply_writes (log_writes (S k) m) (<[start + Z.of_nat k + 1 := ds !!! k]> d)).
    rewrite apply_writes_out; [apply lookup_insert_eq|].
    intros w (j & <- & Hj%in_seq)%list_elem_of_In%in_map_iff. cbn. lia.
  - apply IH. lia.
Qed.

Lemma commit_run n s p :
  log_apart -> (HEAD < n)%nat -> ready s p 0 -> hs <> [] ->
  exists s', commit n s = Ret tt s' /\ quiet s' p dev /\ k_log s' = set_lh_n 0 (k_log s) /\
    k_disk s' = apply_writes (commit_writes (lh_block (k_log s)) (disk_block s start)) (k_disk s) /\
    k_dtrace s' = k_dtrace s ++ commit_writes (lh_block (k_log s)) (disk_block s start) /\
    locks (k_lk s') = locks (k_lk s).
Proof.
  intros Hap Hn R Hne. pose proof Hap as (Hd & Hnd & Hlen & Hout).
  destruct (rd_lists _ _ _ R) as (L1 & L2 & L3 & L4).
  unfold commit, lget. rewrite bind_gets.
  change (lh_n (k_log s)) with (lh_n (k_log s)). rewrite L3.
  destruct (Z.gtb_spec (Z.of_nat (length hs)) 0) as [_|Hz]; [|destruct hs; [done|cbn in Hz; lia]]. cbn [when].
  destruct (write_log_run n s p Hap Hn R) as (s1 & E1 & R1 & W1).
  rewrite (bind_ret _ _ _ _ _ _ E1).
  destruct (write_head_run n s1 p 0 Hap Hn R1) as (s2 & E2 & R2 & W2).
  rewrite (bind_ret _ _ _ _ _ _ E2).
  assert (K1 : k_log s1 = k_log s) by (eapply frame_log; apply W1).
  assert (K2 : k_log s2 = k_log s) by (rewrite <- K1; eapply frame_log; apply W2).
  assert (Hold : disk_block s1 start = disk_block s start).
  { unfold disk_block. destruct W1 as (_ & -> & _). rewrite apply_writes_out; [done|].
    intros w (j & <- & Hj)%list_elem_of_In%in_map_iff. cbn. lia. }
  rewrite K1, L3, Hold in W2.
  destruct (install_loop n p Hap Hn (length hs) 0 s2) as (s3 & E3 & R3 & W3); [done|done| |].
  { intros i d Hi. unfold disk_block. destruct W2 as (_ & -> & _). cbn. rewrite lookup_insert_ne by lia.
    destruct W1 as (_ & -> & _). pose proof (lookup_lt_Some _ _ _ Hi).
    rewrite log_writes_at by lia. cbn. by apply list_lookup_total_correct. }
  rewrite (bind_ret _ _ n s2 tt s3).
  2:{ unfold install_trans, lget at 1. rewrite bind_gets. change (lh_n (k_log s2)) with (lh_n (k_log s2)).
      rewrite K2, L3, Nat2Z.id. exact E3. }
  assert (K3 : k_log s3 = k_log s) by (rewrite <- K2; eapply frame_log; apply W3).
  unfold lset at 1. rewrite bind_modify. set (s4 := upd_log (set_lh_n 0) s3).
  assert (Hh3 : disk_block s3 start = lh_enc (Z.of_nat (length hs)) (lh_block (k_log s)) (disk_block s start)).
  { unfold disk_block. destruct W3 as (_ & -> & _). rewrite apply_writes_out.
    - destruct W2 as (_ & -> & _). cbn. by rewrite lookup_insert_eq.
    - intros w (j & <- & Hj%in_seq)%list_elem_of_In%in_map_iff. cbn. intros E.
      destruct (lookup_lt_is_Some_2 hs j) as [h Hh]; [lia|]. rewrite (list_lookup_total_correct hs j h Hh) in E.
      apply (Hout h); [by eapply list_elem_of_lookup_2|lia]. }
  destruct (rewrite_block n s4 p dev start (lh_enc 0 (lh_block (k_log s)))) as (s5 & E5 & C5).
  - by apply quiet_log, R3.
  - done.
  - apply (rd_log _ _ _ R3). lia.
  - apply (rd_free _ _ _ R3).
  - exists s5. destruct (kp_wrote _ _ _ _ _ C5) as (F5 & D5 & T5).
    change (disk_block s4 start) with (disk_block s3 start) in D5, T5. rewrite Hh3 in D5, T5. split_and!.
    + unfold write_head, lget. rewrite bind_gets. unfold id.
      change (k_log s4) with (set_lh_n 0 (k_log s3)). rewrite K3. cbn [l_dev l_start lh_n lh_block set_lh_n].
      rewrite L1, L2. exact E5.
    + apply C5.
    + rewrite (frame_log p s4 s5 F5). change (k_log s4) with (set_lh_n 0 (k_log s3)). by rewrite K3.
    + rewrite D5. change (k_disk s4) with (k_disk s3). destruct W3 as (_ & -> & _), W2 as (_ & -> & _), W1 as (_ & -> & _).
      unfold commit_writes. by rewrite !apply_writes_app.
    + rewrite T5. change (k_dtrace s4) with (k_dtrace s3). destruct W3 as (_ & _ & ->), W2 as (_ & _ & ->), W1 as (_ & _ & ->).
      unfold commit_writes. by rewrite !app_assoc.
    + rewrite (frame_locks p s4 s5 F5). change (k_lk s4) with (k_lk s3). rewrite (frame_locks p s2 s3), (frame_locks p s1 s2);
        [apply (frame_locks p s s1)|..]; by (apply W1 || apply W2 || apply W3).
Qed.


(** ** Recovery *)
Definition unused (s : kernel) : Prop := forall b, (b < HEAD)%nat -> b_refcnt (buf_at s b) = 0.

Lemma unused_refs s p x : quiet s p dev -> unused s -> refs s dev x 0.
Proof.
  intros Q U. destruct (decide (Exists (fun i => caches s i dev x) (seq 0 HEAD))) as [He|He].
  - apply Exists_exists in He as (i & Hi%elem_of_seq & Hc). left. exists i. split_and!; [lia|done|apply U; lia].
  - right. split; [|done]. intros i Hi Hc. apply He, Exists_exists. exists i. split; [apply elem_of_seq; lia|done].
Qed.
Lemma unused_free s : unused s -> some_free s.
Proof. intros U. exists 0%nat. split; [vm_compute; lia|apply U; vm_compute; lia]. Qed.

Lemma recover_loop n p :
  (HEAD < n)%nat -> length ds = length hs ->
  (forall h, h ∈ hs -> ~ (start <= h <= start + Z.of_nat (length hs))) -> forall m k s,
  (k + m = length hs)%nat -> quiet s p dev -> unused s -> log_lists (k_log s) ->
  (forall i d, ds !! i = Some d -> disk_block s (start + Z.of_nat i + 1) = d) ->
  exists s', forall_do (seq k m) (fun tail => let* lg := lget id in
     let* lbuf := bread (l_dev lg) (l_start lg + Z.of_nat tail + 1) in
     let* dbuf := bread (l_dev lg) (u32 (aget 0 (lh_block lg) (Z.of_nat tail))) in
     let* data := bget_f lbuf b_data in
     bset dbuf (set_b_data data) ;; bwrite dbuf ;; when (negb true) (bunpin dbuf) ;;
     brelse lbuf ;; brelse dbuf) n s = Ret tt s' /\
    quiet s' p dev /\ unused s' /\ wrote p s s' (home_writes k m).
Proof.
  intros Hn Hlen Hap. induction m as [|m IH]; intros k s Hkm Q U L Hdisk.
  - exists s. split; [done|]. split; [done|]. split; [done|]. by apply wrote_nil.
  - cbn [seq forall_do]. destruct (lookup_lt_is_Some_2 hs k) as [h Hh]; [lia|].
    destruct (lookup_lt_is_Some_2 ds k) as [d Hdk]; [lia|]. pose proof L as (L1 & L2 & L3 & L4).
    assert (Hout : ~ (start <= h <= start + Z.of_nat (length hs))) by exact (Hap h (list_elem_of_lookup_2 _ _ _ Hh)).
    destruct (install_copy n s p dev (start + Z.of_nat k + 1) h 0 (disk_block s h) true) as (s1 & E1 & C1); try done.
    { intros <-. apply Hout. lia. }
    { by eapply unused_refs. }
    { by eapply unused_refs. }
    { apply (content_unused s p dev h Q). by eapply unused_refs. }
    { by apply unused_free. }
    { right. exists 0%nat, 1%nat. split_and!; [done|vm_compute; lia|vm_compute; lia|apply U; vm_compute; lia|apply U; vm_compute; lia]. }
    rewrite (Hdisk k d Hdk) in C1. pose proof (cp_wrote _ _ _ _ _ _ _ _ C1) as W1.
    destruct (IH (S k) s1) as (s' & E' & Q' & U' & W'); [lia|apply C1| | | |].
    { intros b Hb. apply (cp_unused _ _ _ _ _ _ _ _ C1 b Hb). by apply U. }
    { rewrite (frame_log p s s1); [done|apply W1]. }
    { intros i d' Hd'. rewrite <- (Hdisk i d' Hd'). unfold disk_block. destruct W1 as (_ & -> & _). cbn.
      rewrite lookup_insert_ne; [done|]. intros ->. apply Hout. apply lookup_lt_Some in Hd'. lia. }
    exists s'. split; [|split; [done|split; [done|]]].
    + unfold lget at 1. rewrite bind_bind_gets. unfold id. rewrite L1, L2, (L4 k h Hh).
      rewrite (bind_ret _ _ _ _ _ _ E1). exact E'.
    + unfold home_writes. cbn [seq map]. rewrite (list_lookup_total_correct ds k d Hdk), (list_lookup_total_correct hs k h Hh).
      exact (wrote_trans p s s1 s' [_] _ W1 W').
Qed.

(** [read_head]: the header of the disk becomes the header in memory. *)
Fixpoint fill_block (hdr : list Z) (k m : nat) (blk : list Z) : list Z :=
  match m with O => blk | S m' => fill_block hdr (S k) m' (<[k := lh_block_dec hdr k]> blk) end.

Lemma fill_loop n hdr : forall m k s,
  forall_do (seq k m) (fun i => lset (fun l => set_lh_block (<[i := lh_block_dec hdr i]> (lh_block l)) l)) n s =
  Ret tt (upd_log (fun l => set_lh_block (fill_block hdr k m (lh_block l)) l) s).
Proof.
  induction m as [|m IH]; intros k s; cbn [seq forall_do fill_block]; [done|].
  unfold lset at 1. rewrite bind_modify. rewrite IH. done.
Qed.

Lemma fill_block_length hdr : forall m k blk, length (fill_block hdr k m blk) = length blk.
Proof. induction m as [|m IH]; intros k blk; cbn; [done|]. by rewrite IH, length_insert. Qed.

Lemma fill_block_at hdr : forall m k blk i, (k + m <= length blk)%nat ->
  fill_block hdr k m blk !! i = if decide (k <= i < k + m)%nat then Some (lh_block_dec hdr i) else blk !! i.
Proof.
  induction m as [|m IH]; intros k blk i Hl; cbn [fill_block].
  - by rewrite decide_False by lia.
  - rewrite IH by (rewrite length_insert; lia). destruct (decide (i = k)) as [->|Hne].
    + rewrite decide_False by lia. rewrite decide_True by lia. apply list_lookup_insert_eq. lia.
    + rewrite list_lookup_insert_ne by done. repeat case_decide; try done; lia.
Qed.

Lemma wakeup_set_log me ch x s : wakeup_st me ch (set_k_log x s) = set_k_log x (wakeup_st me ch s).
Proof.
  unfold wakeup_st, upd_procs. generalize proc_ix. intros l. revert s.
  induction l as [|q l IH]; intros s; [done|]. cbn. by rewrite <- IH.
Qed.

Lemma read_head_run n s p :
  quiet s p dev -> unused s -> (HEAD < n)%nat -> l_dev (k_log s) = dev -> l_start (k_log s) = start ->
  let hdr := disk_block s start in
  let lg := set_lh_block (fill_block hdr 0 (Z.to_nat (lh_n_dec hdr)) (lh_block (k_log s))) (set_lh_n (lh_n_dec hdr) (k_log s)) in
  exists s', read_head n s = Ret tt s' /\ quiet s' p dev /\ unused s' /\ wrote p (set_k_log lg s) s' [].
Proof.
  intros Q U Hn L1 L2 hdr lg. destruct (bread_unused n s p dev start Q Hn (unused_refs s p start Q U) (unused_free s U))
    as (b & s1 & E1 & G & R1 & D1).
  pose proof (g_post _ _ _ _ _ _ G) as (F1 & I1 & Hb & C1 & V1 & T1 & Cs & Hne1 & Hsl1 & Hdk1 & Htr1).
  assert (K1 : k_log s1 = k_log s) by (by eapply frame_log).
  destruct (give_back n s p dev start b s1 s1 [] Q (unused_refs s p start Q U) G) as (s2 & E2 & C2); try done.
  { by apply wrote_nil. }
  { rewrite D1. unfold disk_block. by rewrite Hdk1. }
  assert (Hs2 : s2 = brelse_st p b s1).
  { rewrite (brelse_run n s1 p b) in E2; [by injection E2|eapply bio_frame_user; [exact F1|apply Q]|done|apply G]. }
  exists (set_k_log lg s2). destruct (kp_wrote _ _ _ _ _ C2) as (F2 & D2 & T2). split_and!.
  - unfold read_head, lget at 1. rewrite bind_gets. unfold id. rewrite L1, L2. rewrite (bind_ret _ _ _ _ _ _ E1).
    rewrite (bind_ret (bget_f b b_data) _ n s1 hdr s1) by (exact (f_equal (fun v => Ret v s1) D1)).
    unfold lset at 1. rewrite bind_modify. rewrite (bind_ret _ _ _ _ _ _ (fill_loop n hdr _ _ _)).
    rewrite (brelse_run n _ p b).
    + f_equal. rewrite Hs2. unfold lg. rewrite <- K1. unfold brelse_st.
      set (s0 := upd_log _ _).
      change s0 with (set_k_log (k_log s0) s1).
      change (upd_sl ?l ?f (set_k_log ?x s1)) with (set_k_log x (upd_sl l f s1)). rewrite wakeup_set_log.
      set (w := wakeup_st _ _ _). change (upd_buf b drop_ref (set_k_log ?x w)) with (set_k_log x (upd_buf b drop_ref w)).
      change (buf_at (set_k_log ?x ?y) b) with (buf_at y b). destruct (b_refcnt (buf_at (upd_buf b drop_ref w) b) =? 0); reflexivity.
    + exact (bio_frame_user p s s1 F1 (q_user s p dev Q)).
    + done.
    + apply G.
  - destruct (kp_quiet _ _ _ _ _ C2) as [Q1 Q2 Q3 Q4 Q5]. split; [done|destruct Q2; by split|done|done|done].
  - intros i Hi. apply (kp_unused _ _ _ _ _ C2 i Hi). by apply U.
  - split_and!; [|exact D2|exact T2]. destruct F2 as (F2 & F2').
    split; [exact (f_equal (set_k_log lg) F2)|exact F2'].
Qed.

(** The disk holds a header that lists [hs] and the log holds [ds]. *)
Definition logged (d : gmap Z (list Z)) : Prop :=
  lh_n_dec (dblk d start) = Z.of_nat (length hs) /\
  (forall i h, hs !! i = Some h -> u32 (lh_block_dec (dblk d start) i) = h) /\
  (forall i x, ds !! i = Some x -> dblk d (start + Z.of_nat i + 1) = x).

Lemma recover_run n s p :
  (HEAD < n)%nat -> length ds = length hs ->
  (forall h, h ∈ hs -> ~ (start <= h <= start + Z.of_nat (length hs))) ->
  quiet s p dev -> unused s -> l_dev (k_log s) = dev -> l_start (k_log s) = start ->
  (length hs <= length (lh_block (k_log s)))%nat -> logged (k_disk s) ->
  exists s' blk, recover_from_log n s = Ret tt s' /\ quiet s' p dev /\ unused s' /\ lh_n (k_log s') = 0 /\
    k_disk s' = apply_writes (home_writes 0 (length hs) ++ [(start, lh_enc 0 blk (dblk (k_disk s) start))]) (k_disk s) /\
    k_dtrace s' = k_dtrace s ++ home_writes 0 (length hs) ++ [(start, lh_enc 0 blk (dblk (k_disk s) start))].
Proof.
  intros Hn Hlen Hout Q U L1 L2 Hcap (Hnum & Hblk & Hlog).
  destruct (read_head_run n s p Q U Hn L1 L2) as (s1 & E1 & Q1 & U1 & W1).
  set (lg := set_lh_block _ _) in W1. change (disk_block s start) with (dblk (k_disk s) start) in lg.
  assert (K1 : k_log s1 = lg) by (apply (frame_log p (set_k_log lg s) s1), W1).
  assert (D1 : k_disk s1 = k_disk s) by apply W1.
  assert (T1 : k_dtrace s1 = k_dtrace s) by (destruct W1 as (_ & _ & ->); apply app_nil_r).
  assert (LL : log_lists (k_log s1)).
  { rewrite K1. unfold log_lists. split_and!; [exact L1|exact L2|exact Hnum|]. intros i h Hi.
    rewrite <- (Hblk i h Hi). f_equal. unfold aget. rewrite Nat2Z.id. pose proof (lookup_lt_Some _ _ _ Hi).
    change (lh_block lg) with (fill_block (dblk (k_disk s) start) 0 (Z.to_nat (lh_n_dec (dblk (k_disk s) start))) (lh_block (k_log s))).
    rewrite Hnum, Nat2Z.id. apply nth_lookup_Some. rewrite fill_block_at by lia. by rewrite decide_True by lia. }
  destruct (recover_loop n p Hn Hlen Hout (length hs) 0 s1) as (s2 & E2 & Q2 & U2 & W2); try done.
  { intros i x Hi. rewrite <- (Hlog i x Hi). unfold disk_block, dblk. by rewrite D1. }
  assert (K2 : k_log s2 = lg) by (rewrite <- K1; eapply frame_log; apply W2).
  set (s3 := upd_log (set_lh_n 0) s2).
  assert (Hh : disk_block s3 start = dblk (k_disk s) start).
  { change (disk_block s3 start) with (disk_block s2 start). unfold disk_block, dblk. destruct W2 as (_ & -> & _). rewrite apply_writes_out; [by rewrite D1|].
    intros w (j & <- & Hj%in_seq)%list_elem_of_In%in_map_iff. cbn. intros E.
    destruct (lookup_lt_is_Some_2 hs j) as [h Hj']; [lia|]. rewrite (list_lookup_total_correct hs j h Hj') in E.
    apply (Hout h); [by eapply list_elem_of_lookup_2|lia]. }
  destruct (rewrite_block n s3 p dev start (lh_enc 0 (lh_block lg))) as (s4 & E4 & C4).
  - by apply quiet_log.
  - done.
  - by apply (unused_refs s3 p); [apply quiet_log|].
  - by apply (unused_free s3).
  - exists s4, (lh_block lg). destruct (kp_wrote _ _ _ _ _ C4) as (F4 & D4 & T4). rewrite Hh in D4, T4. split_and!.
    + unfold recover_from_log. rewrite (bind_ret _ _ _ _ _ _ E1).
      rewrite (bind_ret (install_trans true) _ n s1 tt s2).
      2:{ unfold install_trans, lget at 1. rewrite bind_gets. change (lh_n (k_log s1)) with (lh_n (k_log s1)).
          destruct LL as (_ & _ & -> & _). rewrite Nat2Z.id. exact E2. }
      unfold lset at 1. rewrite bind_modify. fold s3. unfold write_head, lget. rewrite bind_gets. unfold id.
      change (k_log s3) with (set_lh_n 0 (k_log s2)). rewrite K2. cbn [l_dev l_start lh_n lh_block set_lh_n].
      change (l_dev lg) with (l_dev (k_log s)). change (l_start lg) with (l_start (k_log s)). rewrite L1, L2. exact E4.
    + apply C4.
    + intros b Hb. apply (kp_unused _ _ _ _ _ C4 b Hb). by apply U2.
    + by rewrite (frame_log p s3 s4 F4).
    + rewrite D4. change (k_disk s3) with (k_disk s2). destruct W2 as (_ & -> & _). rewrite D1. by rewrite apply_writes_app.
    + rewrite T4. change (k_dtrace s3) with (k_dtrace s2). destruct W2 as (_ & _ & ->). by rewrite T1, app_assoc.
Qed.

End Commit.
