(* ===== verification/Crash.v ===== *)
(** * Crash safety of the log

    kernel/log.c, "commit" and "recover_from_log": the writes of a commit and
    of a recovery reach the disk one at a time and the machine may stop
    between any two of them.  After a crash, and after any number of crashes
    during recovery, [initlog] brings the disk back to the state before the
    transaction or to the state after it, never to a mixture; the write of
    the log header is the point that decides which. *)

From S2P Require Import Prelude Params Kernel Spinlock StringC Kalloc Vm Proc Sleeplock Bio Log.

(** ** The header block *)
Lemma u32_s32 x : u32 (s32 x) = u32 x.
Proof.
  unfold u32, s32, uwrap, swrap. change (2 ^ 32) with 4294967296. change (2 ^ (32 - 1)) with 2147483648.
  destruct (_ <? _); Z.to_euclidean_division_equations; lia.
Qed.

Lemma take_concat_enc4 l r i x :
  l !! i = Some x -> take 4 (drop (4 * i) (concat (map (le_enc 4) l) ++ r)) = le_enc 4 x.
Proof.
  revert i. induction l as [|y l IH]; intros i Hi; [done|]. cbn [map concat].
  destruct i as [|i]; cbn [lookup list_lookup] in Hi.
  - injection Hi as ->. change (drop (4 * 0) ?z) with z. rewrite <- !app_assoc, take_app_le by (by rewrite length_le_enc).
    apply take_ge. by rewrite length_le_enc.
  - rewrite <- app_assoc, drop_app_ge by (rewrite length_le_enc; lia). rewrite length_le_enc.
    replace (4 * S i - 4)%nat with (4 * i)%nat by lia. by apply IH.
Qed.

Lemma lh_n_dec_enc n blk old : 0 <= n < 2 ^ 31 -> lh_n_dec (lh_enc n blk old) = n.
Proof.
  intros Hn. unfold lh_n_dec, lh_enc. rewrite <- !app_assoc, take_app_le by (by rewrite length_le_enc).
  rewrite take_ge by (by rewrite length_le_enc). rewrite le_dec_enc.
  change (2 ^ (8 * Z.of_nat 4)) with 4294967296. change (2 ^ 31) with 2147483648 in Hn.
  rewrite Z.mod_small by lia. apply s32_small. lia.
Qed.

Lemma lh_block_dec_enc m blk old i x :
  (i < m)%nat -> blk !! i = Some x -> u32 (lh_block_dec (lh_enc (Z.of_nat m) blk old) i) = u32 x.
Proof.
  intros Hi Hx. unfold lh_block_dec, lh_enc. rewrite Nat2Z.id, <- !app_assoc, u32_s32.
  rewrite drop_app_ge by (rewrite length_le_enc; lia). rewrite length_le_enc.
  replace (4 * (i + 1) - 4)%nat with (4 * i)%nat by lia.
  erewrite take_concat_enc4; [|by rewrite lookup_take_lt]. rewrite le_dec_enc.
  unfold u32, uwrap. change (2 ^ (8 * Z.of_nat 4)) with (2 ^ 32). by rewrite Zmod_mod.
Qed.

(** ** Disks that agree *)
Lemma dblk_apply_agree t d d' x :
  dblk d x = dblk d' x \/ x ∈ t.*1 -> dblk (apply_writes t d) x = dblk (apply_writes t d') x.
Proof.
  revert d d'. induction t as [|[y v] t IH]; intros d d' Hx.
  - destruct Hx as [?|[]%elem_of_nil]. done.
  - apply (IH (<[y := v]> d) (<[y := v]> d')). unfold dblk. destruct (decide (y = x)) as [->|Hne].
    + left. by rewrite !lookup_insert_eq.
    + rewrite !lookup_insert_ne by done. destruct Hx as [Hx|[Hx|Hx]%list_elem_of_In]; [by left|done|].
      right. by apply list_elem_of_In.
Qed.

Lemma dblk_apply_out t d x : x ∉ t.*1 -> dblk (apply_writes t d) x = dblk d x.
Proof.
  intros Hx. unfold dblk. rewrite apply_writes_out; [done|]. intros w Hw <-. apply Hx.
  by apply list_elem_of_fmap_2.
Qed.

Lemma take_fst {A} j (t : list (Z * A)) x : x ∈ (take j t).*1 -> x ∈ t.*1.
Proof.
  rewrite !list_elem_of_fmap. intros (w & -> & Hw). exists w. split; [done|].
  rewrite <- (take_drop j t). apply elem_of_app. by left.
Qed.

Section CrashSafety.
Context {KI : KernelImage} {BD : BlockDevice}.
Variables (dev start : Z) (hs : list Z) (ds : list (list Z)) (old : gmap Z (list Z)).
Hypothesis Hap : log_apart dev start hs ds.
Hypothesis Hcap : Z.of_nat (length hs) <= LOGSIZE.

Definition in_log (x : Z) : Prop := start <= x <= start + Z.of_nat (length hs).
(** The disk when the transaction has taken place. *)
Definition new : gmap Z (list Z) := apply_writes (home_writes hs ds 0 (length hs)) old.
Definition same (d d' : gmap Z (list Z)) : Prop := forall x, ~ in_log x -> dblk d x = dblk d' x.
Definition empty_log (d : gmap Z (list Z)) : Prop := lh_n_dec (dblk d start) = 0.

(** Disks a crash may leave: before and after the commit point. *)
Definition before (d : gmap Z (list Z)) : Prop := empty_log d /\ same d old.
Definition after (d : gmap Z (list Z)) : Prop :=
  (empty_log d /\ same d new) \/
  (logged start hs ds d /\ forall x, ~ in_log x -> x ∉ hs -> dblk d x = dblk old x).

(** A machine started on disk [d]: [binit] has run, nothing is cached. *)
Record booted (q : nat) (d : gmap Z (list Z)) (s : kernel) : Prop := {
  bt_quiet : quiet s q dev;
  bt_unused : unused s;
  bt_start : sb_logstart (k_sb s) = start;
  bt_block : length (lh_block (k_log s)) = Z.to_nat LOGSIZE;
  bt_disk : k_disk s = d;
}.

Lemma same_trans d1 d2 d3 : same d1 d2 -> same d2 d3 -> same d1 d3.
Proof. intros H1 H2 x Hx. by rewrite H1, H2. Qed.
Lemma same_header d v : same (<[start := v]> d) d.
Proof. intros x Hx. unfold dblk. rewrite lookup_insert_ne; [done|]. intros <-. apply Hx. unfold in_log. lia. Qed.
Lemma empty_header d blk hdr : empty_log (<[start := lh_enc 0 blk hdr]> d).
Proof. unfold empty_log, dblk. rewrite lookup_insert_eq. apply lh_n_dec_enc. lia. Qed.

Lemma hs_out x : x ∈ hs -> ~ in_log x.
Proof. destruct Hap as (_ & _ & _ & H). intros Hx. by apply H. Qed.

Lemma home_fst m x : (m <= length hs)%nat -> x ∈ (home_writes hs ds 0 m).*1 -> x ∈ hs.
Proof.
  intros Hm. unfold home_writes. rewrite list_elem_of_fmap. intros (w & -> & Hw).
  apply list_elem_of_fmap in Hw as (i & -> & Hi%elem_of_seq). cbn.
  destruct (lookup_lt_is_Some_2 hs i) as [h Hh]; [lia|]. rewrite (list_lookup_total_correct hs i h Hh).
  by eapply list_elem_of_lookup_2.
Qed.
Lemma home_all x : x ∈ hs -> x ∈ (home_writes hs ds 0 (length hs)).*1.
Proof.
  intros [i Hi]%list_elem_of_lookup. unfold home_writes. rewrite list_elem_of_fmap. exists (x, ds !!! i). split; [done|].
  apply list_elem_of_fmap. exists i. rewrite (list_lookup_total_correct hs i x Hi). split; [done|].
  apply elem_of_seq. apply lookup_lt_Some in Hi. lia.
Qed.
Lemma log_fst m x : (m <= length hs)%nat -> x ∈ (log_writes start ds 0 m).*1 -> in_log x /\ x <> start.
Proof.
  intros Hm. unfold log_writes. rewrite list_elem_of_fmap. intros (w & -> & Hw).
  apply list_elem_of_fmap in Hw as (i & -> & Hi%elem_of_seq). unfold in_log. cbn. lia.
Qed.

(** Installing some of the blocks keeps a committed disk committed. *)
Lemma installing t d : (forall x, x ∈ t.*1 -> x ∈ hs) ->
  logged start hs ds d /\ (forall x, ~ in_log x -> x ∉ hs -> dblk d x = dblk old x) ->
  logged start hs ds (apply_writes t d) /\ (forall x, ~ in_log x -> x ∉ hs -> dblk (apply_writes t d) x = dblk old x).
Proof.
  intros Ht [(H1 & H2 & H3) Hs]. assert (Hin : forall x, in_log x -> dblk (apply_writes t d) x = dblk d x).
  { intros x Hx. apply dblk_apply_out. intros Hxt. by apply (hs_out x); [apply Ht|]. }
  split; [split_and!|].
  - rewrite Hin by (unfold in_log; lia). done.
  - intros i h Hi. rewrite Hin by (unfold in_log; lia). by apply H2.
  - intros i v Hi. rewrite Hin; [by apply H3|]. destruct Hap as (_ & _ & Hl & _). apply lookup_lt_Some in Hi. unfold in_log. lia.
  - intros x Hx Hh. rewrite dblk_apply_out; [by apply Hs|]. intros Hxt. by apply Hh, Ht.
Qed.

(** A complete installation is the new state. *)
Lemma installed d : (forall x, ~ in_log x -> x ∉ hs -> dblk d x = dblk old x) ->
  same (apply_writes (home_writes hs ds 0 (length hs)) d) new.
Proof.
  intros Hs x Hx. apply dblk_apply_agree. destruct (decide (x ∈ hs)) as [Hh|Hh]; [right; by apply home_all|left; by apply Hs].
Qed.

(** [initlog] sets the log up and recovers. *)
Lemma quiet_initlock s p : quiet s p dev -> quiet (upd_lk (upd_lock L_log (mk_spinlock 0 None)) s) p dev.
Proof.
  intros [((R1 & R2 & R3 & R4 & R5) & F1 & F2) Q2 Q3 Q4 Q5]. split; [|by destruct Q2|done|done|done].
  assert (Hne : forall lk, lk <> L_log -> lk_free lk (k_lk s) -> lk_free lk (upd_lock L_log (mk_spinlock 0 None) (k_lk s))).
  { intros lk Hlk Hf. unfold lk_free, upd_lock. cbn. by rewrite lookup_insert_ne. }
  split_and!; [|by apply Hne|intros b Hb; by apply Hne, F2].
  split_and!; [exact R1|exact R2|exact R3|exact R4|]. intros q Hq. by apply Hne, R5.
Qed.

Lemma initlog_booted n s q d : booted q d s -> exists s0,
  initlog dev n s = recover_from_log n s0 /\ quiet s0 q dev /\ unused s0 /\ l_dev (k_log s0) = dev /\
  l_start (k_log s0) = start /\ length (lh_block (k_log s0)) = Z.to_nat LOGSIZE /\
  k_disk s0 = d /\ k_dtrace s0 = k_dtrace s.
Proof.
  intros [Q U Hst Hbl Hd]. eexists. split.
  { unfold initlog. change (4 * (LOGSIZE + 1) >=? BSIZE) with false. cbv iota. unfold initlock, lset.
    rewrite bind_modify, bind_gets, !bind_modify. reflexivity. }
  split_and!; try done. by do 3 apply quiet_log; apply quiet_initlock.
Qed.

(** Recovery keeps the disk on its side of the commit point at every write
    and ends with an empty log. *)
Definition recovers (side : gmap Z (list Z) -> Prop) (goal : gmap Z (list Z)) (n : nat) (s : kernel) (d : gmap Z (list Z)) : Prop :=
  exists s' t, initlog dev n s = Ret tt s' /\ k_dtrace s' = k_dtrace s ++ t /\ k_disk s' = apply_writes t d /\
    (forall j, side (apply_writes (take j t) d)) /\ empty_log (k_disk s') /\ same (k_disk s') goal.

Lemma recover_empty n s q d goal (side : gmap Z (list Z) -> Prop) :
  booted q d s -> (HEAD < n)%nat -> empty_log d -> same d goal ->
  (forall d', empty_log d' -> same d' goal -> side d') -> recovers side goal n s d.
Proof.
  intros B Hn He Hs Hside. destruct (initlog_booted n s q d B) as (s0 & E0 & Q & U & L1 & L2 & L3 & D0 & T0).
  destruct (recover_run dev start [] [] n s0 q) as (s' & blk & E & _ & _ & _ & D & T); try done.
  { intros h []%elem_of_nil. }
  { cbn. lia. }
  { rewrite D0. split; [done|]. split; intros i ? Hi; by rewrite lookup_nil in Hi. }
  exists s', [(start, lh_enc 0 blk (dblk d start))]. rewrite E0, T, T0, D, D0. split_and!; [done|done|done| | |].
  - intros [|j]; [by apply Hside|]. cbn [take]. rewrite firstn_nil. apply Hside; [apply empty_header|].
    eapply same_trans; [apply same_header|done].
  - apply empty_header.
  - eapply same_trans; [apply same_header|done].
Qed.

Lemma recover_before n s q d : booted q d s -> (HEAD < n)%nat -> before d -> recovers before old n s d.
Proof. intros B Hn [He Hs]. by apply (recover_empty n s q). Qed.

Lemma recover_after n s q d : booted q d s -> (HEAD < n)%nat -> after d -> recovers after new n s d.
Proof.
  intros B Hn [[He Hs]|[Hl Hs]]; [apply (recover_empty n s q); try done; intros; left; done|].
  destruct (initlog_booted n s q d B) as (s0 & E0 & Q & U & L1 & L2 & L3 & D0 & T0).
  destruct Hap as (Hd & Hnd & Hlen & Hout).
  destruct (recover_run dev start hs ds n s0 q) as (s' & blk & E & _ & _ & _ & D & T); try done.
  { rewrite L3. lia. }
  { by rewrite D0. }
  rewrite D0 in D, T. set (h0 := (start, lh_enc 0 blk (dblk d start))) in *.
  exists s', (home_writes hs ds 0 (length hs) ++ [h0]). rewrite E0, T, T0, D.
  assert (Hfull : empty_log (apply_writes (home_writes hs ds 0 (length hs) ++ [h0]) d) /\
                  same (apply_writes (home_writes hs ds 0 (length hs) ++ [h0]) d) new).
  { rewrite apply_writes_app. split; [apply empty_header|]. eapply same_trans; [apply same_header|]. by apply installed. }
  split_and!; [done|done|done| |apply Hfull|apply Hfull]. intros j.
  destruct (decide (j <= length (home_writes hs ds 0 (length hs)))%nat) as [Hj|Hj].
  - right. rewrite take_app_le by done. apply installing; [|done]. intros x Hx%take_fst. by apply (home_fst (length hs)).
  - left. rewrite take_ge; [done|]. rewrite length_app. cbn. lia.
Qed.

(** The crash points of a commit. *)
Lemma commit_crash blk hdr k :
  lh_n_dec (dblk old start) = 0 -> (forall i h, hs !! i = Some h -> exists x, blk !! i = Some x /\ u32 x = h) ->
  let d := apply_writes (take k (commit_writes start hs ds blk hdr)) old in
  if decide (k <= length hs)%nat then before d else after d.
Proof.
  intros He Hblk d. subst d. unfold commit_writes. destruct Hap as (Hd & Hnd & Hlen & Hout).
  assert (Hll : length (log_writes start ds 0 (length hs)) = length hs) by (unfold log_writes; by rewrite length_map, length_seq).
  assert (Hlh : length (home_writes hs ds 0 (length hs)) = length hs) by (unfold home_writes; by rewrite length_map, length_seq).
  assert (Hlog : forall x, (x ∈ (log_writes start ds 0 (length hs)).*1) -> in_log x /\ x <> start) by (intros x; by apply log_fst).
  case_decide as Hk.
  - rewrite take_app_le by lia. split.
    + unfold empty_log. rewrite dblk_apply_out; [done|]. intros Hx%take_fst%Hlog. naive_solver.
    + intros x Hx. apply dblk_apply_out. intros Hx'%take_fst%Hlog. naive_solver.
  - rewrite take_app_ge by lia. rewrite Hll, apply_writes_app.
    set (d1 := apply_writes (log_writes start ds 0 (length hs)) old).
    destruct (k - length hs)%nat as [|k'] eqn:Ek; [lia|]. cbn [app take].
    set (h := lh_enc (Z.of_nat (length hs)) blk hdr).
    change (apply_writes ((start, h) :: ?t) d1) with (apply_writes t (<[start := h]> d1)). set (d2 := <[start := h]> d1).
    assert (Hl2 : logged start hs ds d2 /\ forall x, ~ in_log x -> x ∉ hs -> dblk d2 x = dblk old x).
    { assert (Hh : dblk d2 start = h) by (unfold d2, dblk; by rewrite lookup_insert_eq). split; [split_and!|].
      - rewrite Hh. apply lh_n_dec_enc. change LOGSIZE with 30 in Hcap. lia.
      - intros i x Hi. rewrite Hh. destruct (Hblk i x Hi) as (y & Hy & <-). apply lh_block_dec_enc; [by eapply lookup_lt_Some|done].
      - intros i x Hi. unfold d2, dblk. rewrite lookup_insert_ne by lia. unfold d1. pose proof (lookup_lt_Some _ _ _ Hi).
        rewrite (log_writes_at start ds old 0 (length hs) i) by lia. cbn. by apply list_lookup_total_correct.
      - intros x Hx Hxh. unfold d2. rewrite (same_header d1 h x Hx). apply dblk_apply_out.
        intros Hx'%Hlog. naive_solver. }
    destruct (decide (k' <= length hs)%nat) as [Hk'|Hk'].
    + rewrite take_app_le by lia. right. apply installing; [|done]. intros x Hx%take_fst. by apply (home_fst (length hs)).
    + rewrite take_ge by (rewrite length_app; cbn; lia). left. rewrite apply_writes_app.
      split; [apply empty_header|]. eapply same_trans; [apply same_header|]. apply installed. apply Hl2.
Qed.

(** Crashes during recovery: [initlog] is started on the disk, stops after
    some of its writes, and is started again. *)
Inductive crashes : gmap Z (list Z) -> gmap Z (list Z) -> Prop :=
| crashes_none d : crashes d d
| crashes_more d n q s s' j d' :
    booted q d s -> (HEAD < n)%nat -> initlog dev n s = Ret tt s' ->
    crashes (apply_writes (take j (drop (length (k_dtrace s)) (k_dtrace s'))) d) d' -> crashes d d'.

Lemma crashes_keep (side : gmap Z (list Z) -> Prop) goal d d' :
  (forall n s q d, booted q d s -> (HEAD < n)%nat -> side d -> recovers side goal n s d) ->
  crashes d d' -> side d -> side d'.
Proof.
  intros Hrec Hc. induction Hc as [|d n q s s' j d' B Hn E _ IH]; [done|]. intros Hd. apply IH.
  destruct (Hrec n s q d B Hn Hd) as (s2 & t & E2 & T & _ & Hj & _). rewrite E in E2. injection E2 as ->.
  rewrite T, drop_app_length. apply Hj.
Qed.
End CrashSafety.

Section Atomicity.
Context {KI : KernelImage} {BD : BlockDevice}.

(** C1: A transaction is atomic across crashes: [commit] ends with the
    blocks of the transaction installed and the log empty; if the machine
    stops after any number [k] of its disk writes, and then again any number
    of times in the middle of recovery, the next [initlog] that runs to its
    end leaves an empty log and, outside the log area, exactly the disk before
    the transaction when the header write had not happened ([k] at most the
    number of logged blocks) and exactly the disk after it otherwise. *)
Theorem commit_atomic n s p dev start hs ds :
  log_apart dev start hs ds -> Z.of_nat (length hs) <= LOGSIZE -> hs <> [] -> (HEAD < n)%nat ->
  ready dev start hs ds s p 0 -> (length hs <= length (lh_block (k_log s)))%nat -> empty_log start (k_disk s) ->
  exists s', commit n s = Ret tt s' /\ lh_n (k_log s') = 0 /\
    empty_log start (k_disk s') /\ same start hs (k_disk s') (new hs ds (k_disk s)) /\
    let t := drop (length (k_dtrace s)) (k_dtrace s') in
    k_disk s' = apply_writes t (k_disk s) /\
    forall k d q m sb, crashes dev start (apply_writes (take k t) (k_disk s)) d ->
      booted dev start q d sb -> (HEAD < m)%nat ->
      exists sr, initlog dev m sb = Ret tt sr /\ empty_log start (k_disk sr) /\
        same start hs (k_disk sr) (if decide (k <= length hs)%nat then k_disk s else new hs ds (k_disk s)).
Proof.
  intros Hap Hcap Hne Hn R Hlen He. destruct (commit_run dev start hs ds n s p Hap Hn R Hne) as (s' & E & _ & Hlg & D & T & _).
  assert (Hblk : forall i h, hs !! i = Some h -> exists x, lh_block (k_log s) !! i = Some x /\ u32 x = h).
  { intros i h Hi. destruct (rd_lists _ _ _ _ _ _ _ R) as (_ & _ & _ & Hu). specialize (Hu i h Hi). apply lookup_lt_Some in Hi.
    destruct (lookup_lt_is_Some_2 (lh_block (k_log s)) i) as [x Hx]; [lia|]. exists x. split; [done|]. rewrite <- Hu.
    unfold aget. rewrite Nat2Z.id. f_equal. symmetry. by apply nth_lookup_Some. }
  exists s'. cbv zeta. rewrite T, drop_app_length.
  pose proof (fun k => commit_crash dev start hs ds (k_disk s) Hap Hcap _ (disk_block s start) k He Hblk) as Hk. cbv zeta in Hk.
  assert (Hall : empty_log start (k_disk s') /\ same start hs (k_disk s') (new hs ds (k_disk s))).
  { rewrite D. unfold commit_writes. rewrite !apply_writes_app. split; [apply (empty_header start hs)|].
    eapply same_trans; [apply same_header|]. apply (installed start hs ds (k_disk s)). intros x Hx _.
    etransitivity; [apply (same_header start hs); exact Hx|]. apply dblk_apply_out.
    intros [Hx' _]%(log_fst start hs ds); done. }
  split_and!; [done|by rewrite Hlg|apply Hall|apply Hall|exact D|]. intros k d q m sb Hc B Hm.
  specialize (Hk k). case_decide.
  - pose proof (crashes_keep dev start hs _ (k_disk s) _ d (recover_before dev start hs (k_disk s)) Hc Hk) as Hd.
    destruct (recover_before dev start hs (k_disk s) m sb q d B Hm Hd) as (sr & t & E2 & _ & _ & _ & H5 & H6). by exists sr.
  - pose proof (crashes_keep dev start hs _ _ _ d (recover_after dev start hs ds (k_disk s) Hap Hcap) Hc Hk) as Hd.
    destruct (recover_after dev start hs ds (k_disk s) Hap Hcap m sb q d B Hm Hd) as (sr & t & E2 & _ & _ & _ & H5 & H6). by exists sr.
Qed.
End Atomicity.

(** ** A concrete transaction: block 40 of device 1, the log at block 2. *)
Definition ex_data : list Z := replicate (Z.to_nat BSIZE) 7.
Definition ex_pinned (q : buf) : buf := set_b_data ex_data (set_b_valid 1 (set_b_refcnt 1 (set_b_blockno 40 (set_b_dev 1 q)))).
Definition ex_log : log := mk_log 2 30 0 1 1 1 (40 :: replicate 29 0).

Lemma ex_quiet s : bio_user s 3 -> cache_inv s -> zeroed_cache s -> quiet s 3 1.
Proof.
  intros Hu Hi Hz. split; [done|done|split; [done|]| |].
  - intros b Hb Hv. by destruct (Hz b Hb) as (_ & _ & E).
  - intros b Hb. apply (ci_unused s Hi b Hb). apply Hz. done.
  - intros b Hb. destruct (Hz b Hb) as (_ & -> & _). lia.
Qed.

(** A machine just booted on any disk. *)
Lemma ex_booted d : exists s, booted 1 2 3 d s.
Proof.
  destruct ex_bio_state as (s & _ & Hu & Hinv & Hz & Hd & Hlog & _).
  exists (set_k_sb (mk_superblock 0 0 0 0 0 2 0 0) (set_k_disk d s)). split; [|intros b Hb; by apply (Hz b Hb)|done|by cbn; rewrite Hlog|done].
  apply ex_quiet; [exact Hu| |exact Hz]. destruct Hinv as [C1 C2 C3 C4]. split; [exact C1|exact C2|exact C3|].
  intros i Hi Hr. split; [by apply (C4 i)|]. intros Hv. by destruct (Hz i Hi) as (_ & _ & E).
Qed.

(** The transaction in the cache, ready to be committed. *)
Lemma ex_ready : exists s, ready 1 2 [40] [ex_data] s 3 0 /\ k_disk s = ∅ /\ k_log s = ex_log /\
  lk_free L_log (k_lk s) /\ noff (cpu_of (k_lk s)) = 0.
Proof.
  destruct ex_bio_state as (s & _ & Hu & Hinv & Hz & Hd & Hlog & Hfl & Hn0 & _). set (s1 := upd_buf 0 ex_pinned s).
  exists (set_k_log ex_log s1). destruct (ci_ring s Hinv) as [l Hl]. assert (Hlen : length (k_bcache s) = S HEAD) by apply Hl.
  assert (H0 : (0 < HEAD)%nat) by (vm_compute; lia).
  assert (B0 : buf_at s1 0 = ex_pinned (buf_at s 0)) by (apply buf_at_upd_eq; lia).
  assert (Bn : forall i, i <> 0%nat -> buf_at s1 i = buf_at s i) by (intros; apply buf_at_upd_ne; congruence).
  assert (Hinv1 : cache_inv s1).
  { apply (cache_inv_upd s s1 0); [done|exists l; by apply ring_upd|done|done|done|by rewrite B0|].
    intros i Hi _ [_ [E _]]. rewrite B0 in E. destruct (Hz i Hi) as [E' _]. rewrite E' in E. done. }
  assert (Q : quiet s1 3 1).
  { destruct (ex_quiet s Hu Hinv Hz) as [Q1 Q2 [Q3 Q3'] Q4 Q5]. split; [exact Q1|done|split; [done|]|exact Q4|].
    - intros b Hb. destruct (decide (b = 0%nat)) as [->|Hn]; [by rewrite B0|]. rewrite Bn by done. by apply Q3'.
    - intros b Hb. destruct (decide (b = 0%nat)) as [->|Hn]; [by rewrite B0|]. rewrite Bn by done. by apply Q5. }
  split; [split|split; [exact Hd|split; [done|split; [exact Hfl|exact Hn0]]]].
  - exact (quiet_log 1 s1 3 (fun _ => ex_log) Q).
  - split_and!; [done|done|done|]. intros i h Hi. destruct i as [|i]; [by injection Hi as <-|done].
  - exists 1%nat. split; [vm_compute; lia|]. change (b_refcnt (buf_at s1 1) = 0). rewrite Bn by done. apply Hz. vm_compute. lia.
  - intros x Hx. right. split; [|done]. intros b Hb [E1 E2]. change (b_dev (buf_at s1 b) = 1) in E1.
    change (b_blockno (buf_at s1 b) = x) in E2. destruct (decide (b = 0%nat)) as [->|Hn].
    + rewrite B0 in E2. cbn in E2, Hx. lia.
    + rewrite Bn in E1 by done. destruct (Hz b Hb) as [E' _]. rewrite E' in E1. done.
  - intros i h d _ Hh Hd'. destruct i as [|i]; [|done]. injection Hh as <-. injection Hd' as <-.
    exists 0%nat. split; [done|]. unfold caches. change (buf_at (set_k_log ex_log s1) 0) with (buf_at s1 0). rewrite B0.
    split_and!; done.
Qed.

(** Stopped right after the header write, the transaction survives. *)
Lemma commit_atomic_witness : exists s s' sb sr,
  commit 31%nat s = Ret tt s' /\ dblk (k_disk s) 40 = zero_block /\ dblk (k_disk sb) 40 = zero_block /\
  initlog 1 31%nat sb = Ret tt sr /\ dblk (k_disk sr) 40 = ex_data.
Proof.
  destruct ex_ready as (s & R & Hd & Hl & _). exists s.
  destruct (commit_atomic 31%nat s 3 1 2 [40] [ex_data]) as (s' & E & _ & _ & _ & D & Hc).
  - split_and!; [done|apply NoDup_singleton|done|]. intros h ->%list_elem_of_singleton. cbn. lia.
  - done.
  - done.
  - vm_compute. lia.
  - exact R.
  - rewrite Hl. cbn. lia.
  - rewrite Hd. reflexivity.
  - set (t := drop _ _) in *. exists s'. destruct (ex_booted (apply_writes (take 2 t) (k_disk s))) as [sb B]. exists sb.
    destruct (Hc 2%nat _ 3%nat 31%nat sb (crashes_none _ _ _) B) as (sr & E2 & _ & Hs); [vm_compute; lia|].
    assert (Ht : take 2 t = [(3, ex_data); (2, lh_enc 1 (lh_block (k_log s)) (disk_block s 2))]).
    { subst t. destruct (commit_run 1 2 [40] [ex_data] 31%nat s 3) as (s2 & E' & _ & _ & _ & T & _); [..|done|].
      - split_and!; [done|apply NoDup_singleton|done|]. intros h ->%list_elem_of_singleton. cbn. lia.
      - vm_compute. lia.
      - exact R.
      - rewrite E in E'. injection E' as <-. rewrite T, drop_app_length. reflexivity. }
    exists sr. split_and!; [done|by rewrite Hd| |done|].
    + rewrite (bt_disk _ _ _ _ _ B), Ht, Hd. unfold dblk. cbn [apply_writes foldl fst snd].
      rewrite !lookup_insert_ne by done. reflexivity.
    + rewrite (Hs 40) by (unfold in_log; cbn; lia). rewrite decide_False by (cbn; lia).
      unfold new, dblk. cbn -[ex_data]. by rewrite lookup_insert_eq.
Defined.
