(* ===== verification/Transaction.v ===== *)
(** * File system transactions

    kernel/log.c, [begin_op], [log_write] and [end_op]: operations reserve log
    space, record the blocks they modify, and the last one to end commits. *)

From S2P Require Import Prelude Params Kernel Spinlock StringC Kalloc Vm Proc Sleeplock Bio Log Crash.

Section Transaction.
Context {KI : KernelImage} {BD : BlockDevice}.

(** The block numbers the header in memory lists. *)
Definition logged_blocks (lg : log) : list Z := map u32 (take (Z.to_nat (lh_n lg)) (lh_block lg)).
Definition log_wf (lg : log) : Prop :=
  0 <= lh_n lg <= LOGSIZE /\ length (lh_block lg) = Z.to_nat LOGSIZE /\ NoDup (logged_blocks lg).

Lemma absorb_index_spec blk bno : forall n i, (n <= length blk)%nat ->
  exists j, absorb_index blk n bno i = (i + j)%nat /\ (j <= n)%nat /\
    bno ∉ map u32 (take j blk) /\ ((j < n)%nat -> exists x, blk !! j = Some x /\ u32 x = bno).
Proof.
  induction blk as [|y blk IH]; intros [|n] i Hn; cbn [length] in Hn; [| lia | |].
  1,2: exists 0%nat; cbn; split_and!; [lia|lia|apply not_elem_of_nil|lia].
  cbn [absorb_index]. destruct (Z.eqb_spec (u32 y) bno) as [E|E].
  - exists 0%nat. cbn. split_and!; [lia|lia|apply not_elem_of_nil|]. intros _. by exists y.
  - destruct (IH n (S i)) as (j & E1 & H1 & H2 & H3); [lia|]. exists (S j). rewrite E1. split_and!; [lia|lia| |].
    + cbn [take map]. rewrite not_elem_of_cons. split; [congruence|done].
    + intros Hj. apply H3. lia.
Qed.

(** The effect of [log_write] on the header. *)
Definition log_add (bno : Z) (lg : log) : log :=
  let i := absorb_index (lh_block lg) (Z.to_nat (lh_n lg)) bno 0 in
  let lg1 := set_lh_block (<[i := s32 bno]> (lh_block lg)) lg in
  if Z.of_nat i =? lh_n lg then set_lh_n (lh_n lg + 1) lg1 else lg1.

Lemma insert_same_u32 blk j x bno m :
  blk !! j = Some x -> u32 x = u32 bno -> map u32 (take m (<[j := s32 bno]> blk)) = map u32 (take m blk).
Proof.
  intros Hj E. apply list_eq. intros i. change (map u32 ?l) with (u32 <$> l). rewrite !list_lookup_fmap.
  destruct (decide (i < m)%nat) as [Hi|Hi]; [|by rewrite !lookup_take_ge by lia]. rewrite !lookup_take_lt by lia.
  destruct (decide (i = j)) as [->|Hn]; [|by rewrite list_lookup_insert_ne].
  rewrite list_lookup_insert_eq by (by eapply lookup_lt_Some). rewrite Hj. cbn. by rewrite u32_s32, E.
Qed.

Lemma log_add_blocks bno lg : log_wf lg -> 0 <= bno < 2 ^ 32 -> lh_n lg < LOGSIZE ->
  log_wf (log_add bno lg) /\
  logged_blocks (log_add bno lg) = (if decide (bno ∈ logged_blocks lg) then logged_blocks lg else logged_blocks lg ++ [bno]) /\
  (Z.of_nat (absorb_index (lh_block lg) (Z.to_nat (lh_n lg)) bno 0) =? lh_n lg) = bool_decide (bno ∉ logged_blocks lg).
Proof.
  intros (Hn & Hl & Hd) Hb Hlt. change LOGSIZE with 30 in *. change (2 ^ 32) with 4294967296 in Hb. unfold log_add.
  destruct (absorb_index_spec (lh_block lg) bno (Z.to_nat (lh_n lg)) 0) as (j & E & Hj & Hno & Hyes); [lia|]. rewrite E. cbn [Nat.add].
  destruct (Z.eqb_spec (Z.of_nat j) (lh_n lg)) as [Ej|Ej].
  - assert (Hni : bno ∉ logged_blocks lg) by (unfold logged_blocks; rewrite <- Ej, Nat2Z.id; exact Hno).
    rewrite decide_False by done. rewrite bool_decide_true by done.
    assert (Hlb : logged_blocks (set_lh_n (lh_n lg + 1) (set_lh_block (<[j:=s32 bno]> (lh_block lg)) lg)) = logged_blocks lg ++ [bno]).
    { unfold logged_blocks. cbn [lh_n lh_block set_lh_n set_lh_block]. rewrite <- Ej. rewrite Nat2Z.id.
      replace (Z.to_nat (Z.of_nat j + 1)) with (S j) by lia.
      rewrite (take_S_r _ j (s32 bno)) by (apply list_lookup_insert_eq; lia). rewrite take_insert_ge by lia.
      rewrite map_app. cbn. by rewrite u32_s32, u32_small by lia. }
    split; [|done]. split; [change LOGSIZE with 30; cbn; lia|]. split; [by cbn; rewrite length_insert|]. rewrite Hlb. apply NoDup_app.
    split_and!; [done| |apply NoDup_singleton]. by intros x Hx ->%list_elem_of_singleton.
  - destruct Hyes as (x & Hx & Ex); [lia|].
    assert (Hin : bno ∈ logged_blocks lg).
    { unfold logged_blocks. rewrite <- Ex. apply list_elem_of_fmap_2. apply (list_elem_of_lookup_2 _ j).
      by rewrite lookup_take_lt by lia. }
    rewrite decide_True by done. rewrite bool_decide_false by (intros H; by apply H).
    assert (Hlb : logged_blocks (set_lh_block (<[j:=s32 bno]> (lh_block lg)) lg) = logged_blocks lg).
    { apply (insert_same_u32 _ _ x); [done|]. by rewrite Ex, u32_small by lia. }
    split; [|done]. split; [change LOGSIZE with 30; cbn; lia|]. split; [by cbn; rewrite length_insert|by rewrite Hlb].
Qed.

Lemma log_write_run n s b :
  cpu_ok (k_lk s) -> lk_free L_log (k_lk s) -> lk_free L_bcache (k_lk s) ->
  lh_n (k_log s) < LOGSIZE -> lh_n (k_log s) < l_size (k_log s) - 1 -> 1 <= l_outstanding (k_log s) ->
  let bno := b_blockno (buf_at s b) in
  let i := absorb_index (lh_block (k_log s)) (Z.to_nat (lh_n (k_log s))) bno 0 in
  log_write b n s = Ret tt (set_k_log (log_add bno (k_log s)) (if Z.of_nat i =? lh_n (k_log s) then upd_buf b take_ref s else s)).
Proof.
  intros Hok Hf Hfb H1 H2 H3 bno i. unfold log_write. rewrite (bind_ret _ _ _ _ _ _ (acquire_run n s L_log Hok Hf)).
  unfold lget. rewrite bind_gets. unfold id. set (s0 := upd_lk (acq L_log) s). change (k_log s0) with (k_log s).
  destruct (Z.geb_spec (lh_n (k_log s)) LOGSIZE); [lia|]. destruct (Z.geb_spec (lh_n (k_log s)) (l_size (k_log s) - 1)); [lia|].
  cbn [orb]. destruct (Z.ltb_spec (l_outstanding (k_log s)) 1); [lia|].
  rewrite (bind_ret (bget_f b b_blockno) _ n s0 bno s0) by reflexivity. fold i.
  unfold lset. rewrite bind_modify. set (s1 := upd_log _ s0). unfold log_add. fold i.
  destruct (Z.of_nat i =? lh_n (k_log s)) eqn:Ei; cbn [when].
  - rewrite bind_bind_ret with (a := tt) (s' := upd_buf b take_ref s1).
    2:{ apply bpin_run; [by apply acq_cpu_ok|by apply acq_free_ne]. }
    rewrite bind_modify.
    match goal with |- _ = Ret tt ?x => exact (release_after_run n x L_log Hok Hf) end.
  - rewrite bind_ret_l. match goal with |- _ = Ret tt ?x => exact (release_after_run n x L_log Hok Hf) end.
Qed.

Lemma log_write_full n s b :
  cpu_ok (k_lk s) -> lk_free L_log (k_lk s) -> LOGSIZE <= lh_n (k_log s) \/ l_size (k_log s) - 1 <= lh_n (k_log s) ->
  log_write b n s = Panic "too big a transaction" (upd_lk (acq L_log) s).
Proof.
  intros Hok Hf Hn. unfold log_write. rewrite (bind_ret _ _ _ _ _ _ (acquire_run n s L_log Hok Hf)).
  unfold lget. rewrite bind_gets. unfold id. set (s0 := upd_lk (acq L_log) s). change (k_log s0) with (k_log s).
  destruct (Z.geb_spec (lh_n (k_log s)) LOGSIZE); [done|]. destruct (Z.geb_spec (lh_n (k_log s)) (l_size (k_log s) - 1)); [done|lia].
Qed.

Definition room (lg : log) : Prop := l_committing lg = 0 /\ lh_n lg + (l_outstanding lg + 1) * MAXOPBLOCKS <= LOGSIZE.

Lemma begin_op_run n s :
  cpu_ok (k_lk s) -> lk_free L_log (k_lk s) -> (1 <= n)%nat -> room (k_log s) ->
  begin_op n s = Ret tt (upd_log (fun l => set_l_outstanding (l_outstanding l + 1) l) s).
Proof.
  intros Hok Hf Hn [Hc Hr]. unfold begin_op. rewrite (bind_ret _ _ _ _ _ _ (acquire_run n s L_log Hok Hf)).
  unfold loop. destruct n as [|n]; [lia|]. cbn [iter_upto]. unfold lget at 1. rewrite bind_bind_gets. unfold id.
  change (k_log (upd_lk (acq L_log) s)) with (k_log s). rewrite Hc. change (ctrue 0) with false. cbv iota.
  destruct (Z.gtb_spec (lh_n (k_log s) + (l_outstanding (k_log s) + 1) * MAXOPBLOCKS) LOGSIZE); [lia|].
  unfold lset. rewrite bind_bind_modify.
  erewrite bind_bind_ret; [reflexivity|].
  exact (release_after_run (S n) (upd_log (fun l => set_l_outstanding (l_outstanding l + 1) l) s) L_log Hok Hf).
Qed.
End Transaction.

(** C16: [log_write] keeps the list of modified blocks free of duplicates: a
    block already in the transaction is absorbed, a new one is appended to the
    header and its buffer gains a reference, which keeps it in the cache until
    the commit; nothing else changes.  Without space in the log, or outside a
    transaction, it panics. *)
Theorem log_write_absorbs {KI : KernelImage} {BD : BlockDevice} n s b :
  cpu_ok (k_lk s) -> lk_free L_log (k_lk s) -> lk_free L_bcache (k_lk s) -> log_wf (k_log s) ->
  0 <= b_blockno (buf_at s b) < 2 ^ 32 ->
  let bno := b_blockno (buf_at s b) in
  if (LOGSIZE <=? lh_n (k_log s)) || (l_size (k_log s) - 1 <=? lh_n (k_log s))
  then exists s', log_write b n s = Panic "too big a transaction" s'
  else if l_outstanding (k_log s) <? 1 then exists s', log_write b n s = Panic "log_write outside of trans" s'
  else exists lg, log_wf lg /\ l_outstanding lg = l_outstanding (k_log s) /\
    (bno ∈ logged_blocks (k_log s) -> logged_blocks lg = logged_blocks (k_log s) /\
       log_write b n s = Ret tt (set_k_log lg s)) /\
    (bno ∉ logged_blocks (k_log s) -> logged_blocks lg = logged_blocks (k_log s) ++ [bno] /\
       log_write b n s = Ret tt (set_k_log lg (upd_buf b take_ref s))).
Proof.
  intros Hok Hf Hfb Hwf Hb bno. destruct (_ || _) eqn:Efull.
  - apply orb_true_iff in Efull as [E%Z.leb_le|E%Z.leb_le]; eexists; apply log_write_full; auto.
  - apply orb_false_iff in Efull as [E1%Z.leb_gt E2%Z.leb_gt].
    destruct (Z.ltb_spec (l_outstanding (k_log s)) 1) as [Ho|Ho].
    + exists (upd_lk (acq L_log) s). unfold log_write. rewrite (bind_ret _ _ _ _ _ _ (acquire_run n s L_log Hok Hf)).
      unfold lget. rewrite bind_gets. unfold id. change (k_log (upd_lk (acq L_log) s)) with (k_log s).
      destruct (Z.geb_spec (lh_n (k_log s)) LOGSIZE); [lia|]. destruct (Z.geb_spec (lh_n (k_log s)) (l_size (k_log s) - 1)); [lia|].
      cbn [orb]. destruct (Z.ltb_spec (l_outstanding (k_log s)) 1); [done|lia].
    + destruct (log_add_blocks bno (k_log s) Hwf Hb E1) as (Hw & Hbl & Hi).
      exists (log_add bno (k_log s)). split; [done|]. split; [unfold log_add; by destruct (_ =? _)|].
      rewrite (log_write_run n s b Hok Hf Hfb E1 E2 Ho). fold bno. rewrite Hi.
      split; intros Hin.
      * rewrite decide_True in Hbl by done. rewrite bool_decide_false by (intros H; by apply H). done.
      * rewrite decide_False in Hbl by done. rewrite bool_decide_true by done. done.
Qed.

(** Thirty blocks fit three reservations of MAXOPBLOCKS, but not the log of
    [sb_nlog] = LOGSIZE blocks that mkfs makes, whose first block is the
    header. *)
Lemma log_writes_fill {KI : KernelImage} {BD : BlockDevice} n : forall bs s,
  cpu_ok (k_lk s) -> lk_free L_log (k_lk s) -> lk_free L_bcache (k_lk s) -> log_wf (k_log s) ->
  l_size (k_log s) = LOGSIZE -> 1 <= l_outstanding (k_log s) ->
  NoDup (logged_blocks (k_log s) ++ map (fun b => b_blockno (buf_at s b)) bs) ->
  Forall (fun b => (b < length (k_bcache s))%nat /\ 0 <= b_blockno (buf_at s b) < 2 ^ 32) bs ->
  lh_n (k_log s) + Z.of_nat (length bs) = LOGSIZE -> bs <> [] ->
  exists s', forall_do bs log_write n s = Panic "too big a transaction" s'.
Proof.
  induction bs as [|b bs IH]; intros s Hok Hf Hfb Hwf Hsz Ho Hnd Hbs Hlen Hne; [done|]. clear Hne.
  cbn [length map forall_do] in *. apply Forall_cons in Hbs as [[Hbl Hb] Hbs]. change LOGSIZE with 30 in *.
  destruct (decide (bs = [])) as [->|Hne].
  - exists (upd_lk (acq L_log) s). cbn in Hlen. by rewrite (bind_panic _ _ _ _ _ _ (log_write_full n s b Hok Hf ltac:(right; lia))).
  - assert (0 < length bs)%nat by (destruct bs; [done|cbn; lia]).
    assert (Hnew : b_blockno (buf_at s b) ∉ logged_blocks (k_log s)).
    { apply NoDup_app in Hnd as (_ & Hnd & _). intros Hin. apply (Hnd _ Hin). by left. }
    destruct (log_add_blocks (b_blockno (buf_at s b)) (k_log s) Hwf Hb) as (Hw & Hbk & Hi); [change LOGSIZE with 30; lia|].
    rewrite decide_False in Hbk by done. rewrite bool_decide_true in Hi by done.
    erewrite bind_ret.
    2:{ apply log_write_run; try done; [change LOGSIZE with 30; lia|lia]. }
    rewrite Hi. set (s1 := set_k_log _ _).
    assert (Hbb : forall i, b_blockno (buf_at s1 i) = b_blockno (buf_at s i)).
    { intros i. change (buf_at s1 i) with (buf_at (upd_buf b take_ref s) i). destruct (decide (i = b)) as [->|Hib].
      - by rewrite buf_at_upd_eq.
      - by rewrite buf_at_upd_ne by congruence. }
    assert (Hln : lh_n (k_log s1) = lh_n (k_log s) + 1).
    { change (k_log s1) with (log_add (b_blockno (buf_at s b)) (k_log s)). unfold log_add. by rewrite Hi. }
    apply IH; try done.
    + change (k_log s1) with (log_add (b_blockno (buf_at s b)) (k_log s)). unfold log_add. by destruct (_ =? _).
    + change (k_log s1) with (log_add (b_blockno (buf_at s b)) (k_log s)). unfold log_add. by destruct (_ =? _).
    + change (k_log s1) with (log_add (b_blockno (buf_at s b)) (k_log s)). rewrite Hbk, <- app_assoc.
      rewrite (map_ext _ (fun i => b_blockno (buf_at s i)) Hbb). exact Hnd.
    + eapply Forall_impl; [exact Hbs|]. intros i [Hi1 Hi2]. rewrite Hbb. split; [|done].
      change (k_bcache s1) with (alter take_ref b (k_bcache s)). by rewrite length_alter.
    + rewrite Hln. lia.
Qed.

(** The log [initlog] leaves on the file system mkfs makes. *)
Definition boot_log (s : kernel) : Prop :=
  length (lh_block (k_log s)) = Z.to_nat LOGSIZE /\ lh_n (k_log s) = 0 /\
  l_outstanding (k_log s) = 0 /\ l_committing (k_log s) = 0 /\ l_size (k_log s) = LOGSIZE.

(** C17: The space [begin_op] promises is not there: on the file system mkfs
    makes (a log of LOGSIZE blocks, header included), three operations that
    start on an empty log pass the reservation of [begin_op] together, and
    when they then write MAXOPBLOCKS distinct blocks each, as they are allowed
    to, [log_write] panics. *)
Theorem log_reservation_overrun {KI : KernelImage} {BD : BlockDevice} n s bs :
  cpu_ok (k_lk s) -> lk_free L_log (k_lk s) -> lk_free L_bcache (k_lk s) -> (1 <= n)%nat ->
  boot_log s -> Z.of_nat (length bs) = 3 * MAXOPBLOCKS -> NoDup (map (fun b => b_blockno (buf_at s b)) bs) ->
  Forall (fun b => (b < length (k_bcache s))%nat /\ 0 <= b_blockno (buf_at s b) < 2 ^ 32) bs ->
  exists s', (begin_op ;; begin_op ;; begin_op ;; forall_do bs log_write) n s = Panic "too big a transaction" s'.
Proof.
  intros Hok Hf Hfb Hn (Hlen & Hl0 & Ho & Hc & Hsz) Hbs Hnd Hall.
  rewrite (bind_ret _ _ _ _ _ _ (begin_op_run n s Hok Hf Hn ltac:(split; [done|rewrite Hl0, Ho; vm_compute; congruence]))).
  set (f := fun l => set_l_outstanding (l_outstanding l + 1) l).
  rewrite (bind_ret _ _ _ _ _ _ (begin_op_run n (upd_log f s) Hok Hf Hn ltac:(split; [done|cbn; rewrite Hl0, Ho; vm_compute; congruence]))).
  rewrite (bind_ret _ _ _ _ _ _ (begin_op_run n (upd_log f (upd_log f s)) Hok Hf Hn ltac:(split; [done|cbn; rewrite Hl0, Ho; vm_compute; congruence]))).
  apply log_writes_fill; try done.
  - unfold log_wf, logged_blocks. cbn. rewrite Hl0. split_and!; try done. constructor.
  - cbn. lia.
  - unfold logged_blocks. cbn. rewrite Hl0. exact Hnd.
  - cbn. rewrite Hl0, Hbs. done.
  - intros ->. done.
Qed.

(** Thirty buffers in use, each with a block of its own. *)
Definition ex_thirty (s : kernel) : kernel :=
  set_k_bcache (map (fun i => set_b_blockno (Z.of_nat i + 50) buf0) (seq 0 31))
    (set_k_log (set_l_size 30 log0) s).
Lemma log_reservation_overrun_witness : exists s s',
  (begin_op ;; begin_op ;; begin_op ;; forall_do (seq 0 30) log_write) 1%nat s = Panic "too big a transaction" s'.
Proof.
  destruct ex_bio_state as (s & _ & ((Hok & _) & Hfb & _) & _ & _ & _ & _ & Hf & _). exists (ex_thirty s).
  apply (log_reservation_overrun 1%nat (ex_thirty s) (seq 0 30)).
  - exact Hok.
  - exact Hf.
  - exact Hfb.
  - lia.
  - by repeat split.
  - reflexivity.
  - apply (bool_decide_unpack _). vm_compute. exact I.
  - apply (bool_decide_unpack _). vm_compute. exact I.
Defined.

Definition ex_open (s : kernel) : kernel :=
  set_k_bcache (map (fun i => set_b_blockno (Z.of_nat i + 50) buf0) (seq 0 31))
    (set_k_log (set_l_outstanding 1 (set_l_size 30 log0)) s).
Lemma log_write_absorbs_witness : exists s s1, log_write 3 1%nat s = Ret tt s1 /\ logged_blocks (k_log s1) = [53].
Proof.
  destruct ex_bio_state as (s & _ & ((Hok & _) & Hfb & _) & _ & _ & _ & _ & Hf & _). exists (ex_open s).
  destruct (log_write_absorbs 1%nat (ex_open s) 3) as (lg & _ & _ & _ & [Hb E]).
  - exact Hok.
  - exact Hf.
  - exact Hfb.
  - split_and!; [done|done|done|constructor].
  - vm_compute. split; congruence.
  - apply not_elem_of_nil.
  - eexists. split; [exact E|]. exact Hb.
Defined.

(** ** Starting and ending an operation *)
Section Operations.
Context {KI : KernelImage} {BD : BlockDevice}.

#[export] Instance room_dec lg : Decision (room lg) := _.

Definition end_lg (lg : log) : log := set_l_outstanding (l_outstanding lg - 1) lg.

Lemma log_wakeup n s p :
  running s p -> wakeup C_log n (upd_lk (acq L_log) s) = Ret tt (upd_lk (acq L_log) (wakeup_st (Some p) C_log s)).
Proof.
  intros (Hok & Hp & _ & _ & Hpf). rewrite wakeup_run.
  - change (k_lk (upd_lk (acq L_log) s)) with (acq L_log (k_lk s)). by rewrite acq_c_proc, Hp by done.
  - exact (acq_cpu_ok _ _ Hok).
  - intros x Hx _. apply acq_free_ne; [done|by apply Hpf].
Qed.

Lemma end_op_more n s p :
  running s p -> lk_free L_log (k_lk s) -> l_committing (k_log s) = 0 -> 1 < l_outstanding (k_log s) ->
  end_op n s = Ret tt (wakeup_st (Some p) C_log (upd_log end_lg s)).
Proof.
  intros Hr Hf Hc Ho. pose proof Hr as (Hok & _). unfold end_op.
  rewrite (bind_ret _ _ _ _ _ _ (acquire_run n s L_log Hok Hf)). unfold lset, lget. rewrite bind_modify, bind_gets. unfold id.
  set (s1 := upd_log _ _). change (k_log s1) with (end_lg (k_log s)).
  change (l_committing (end_lg (k_log s))) with (l_committing (k_log s)). rewrite Hc. change (ctrue 0) with false. cbv iota.
  change (l_outstanding (end_lg (k_log s))) with (l_outstanding (k_log s) - 1).
  destruct (Z.eqb_spec (l_outstanding (k_log s) - 1) 0); [lia|].
  change s1 with (upd_lk (acq L_log) (upd_log end_lg s)).
  rewrite (bind_ret _ _ _ _ _ _ (log_wakeup n (upd_log end_lg s) p Hr)).
  rewrite (bind_ret _ _ _ _ _ _ (release_after_run n (wakeup_st (Some p) C_log (upd_log end_lg s)) L_log
    ltac:(rewrite wakeup_lk; exact Hok) ltac:(rewrite wakeup_lk; exact Hf))). done.
Qed.

Lemma ready_log dev start hs ds s p k f :
  (forall l, l_dev (f l) = l_dev l /\ l_start (f l) = l_start l /\ lh_n (f l) = lh_n l /\ lh_block (f l) = lh_block l) ->
  ready dev start hs ds s p k -> ready dev start hs ds (upd_log f s) p k.
Proof.
  intros Hfl [R1 R2 R3 R4 R5]. split; [by apply quiet_log| |done|done|done].
  destruct (Hfl (k_log s)) as (E1 & E2 & E3 & E4). unfold log_lists. change (k_log (upd_log f s)) with (f (k_log s)).
  by rewrite E1, E2, E3, E4.
Qed.

Lemma end_op_last dev start hs ds n s p :
  log_apart dev start hs ds -> hs <> [] -> (HEAD < n)%nat -> ready dev start hs ds s p 0 ->
  lk_free L_log (k_lk s) -> l_committing (k_log s) = 0 -> l_outstanding (k_log s) = 1 ->
  exists s', end_op n s = Ret tt s' /\ k_log s' = set_lh_n 0 (end_lg (k_log s)) /\
    let t := commit_writes start hs ds (lh_block (k_log s)) (disk_block s start) in
    k_disk s' = apply_writes t (k_disk s) /\ k_dtrace s' = k_dtrace s ++ t.
Proof.
  intros Hap Hne Hn R Hf Hc Ho. pose proof (rd_quiet _ _ _ _ _ _ _ R) as Q. pose proof (q_user _ _ _ Q) as (Hr & _ & _).
  pose proof Hr as (Hok & _). unfold end_op.
  rewrite (bind_ret _ _ _ _ _ _ (acquire_run n s L_log Hok Hf)). unfold lset, lget. rewrite bind_modify, bind_gets. unfold id.
  set (s1 := upd_log _ _). change (k_log s1) with (end_lg (k_log s)).
  change (l_committing (end_lg (k_log s))) with (l_committing (k_log s)). rewrite Hc. change (ctrue 0) with false. cbv iota.
  change (l_outstanding (end_lg (k_log s))) with (l_outstanding (k_log s) - 1). rewrite Ho. change (1 - 1 =? 0) with true. cbv iota.
  rewrite bind_modify. set (f := fun l => set_l_committing 1 (end_lg l)).
  change (upd_log (set_l_committing 1) s1) with (upd_lk (acq L_log) (upd_log f s)).
  rewrite (bind_ret _ _ _ _ _ _ (release_after_run n (upd_log f s) L_log Hok Hf)). cbn [when].
  destruct (commit_run dev start hs ds n (upd_log f s) p Hap Hn (ready_log dev start hs ds s p 0 f (fun l => conj eq_refl (conj eq_refl (conj eq_refl eq_refl))) R) Hne)
    as (s2 & E2 & Q2 & L2 & D2 & T2 & K2).
  rewrite (bind_ret _ _ _ _ _ _ E2). pose proof (q_user _ _ _ Q2) as (Hr2 & _ & _). pose proof Hr2 as (Hok2 & _).
  assert (Hf2 : lk_free L_log (k_lk s2)) by (unfold lk_free; rewrite K2; exact Hf).
  rewrite (bind_ret _ _ _ _ _ _ (acquire_run n s2 L_log Hok2 Hf2)). rewrite bind_modify.
  change (upd_log (set_l_committing 0) (upd_lk (acq L_log) s2)) with (upd_lk (acq L_log) (upd_log (set_l_committing 0) s2)).
  rewrite (bind_ret _ _ _ _ _ _ (log_wakeup n (upd_log (set_l_committing 0) s2) p Hr2)).
  eexists. split.
  { apply release_after_run; rewrite wakeup_lk; [exact Hok2|exact Hf2]. }
  split; [|split].
  - unfold wakeup_st. rewrite upd_procs_rest. change (k_log (upd_log ?g s2)) with (g (k_log s2)).
    change (set_l_committing 0 (k_log s2) = set_lh_n 0 (end_lg (k_log s))). rewrite L2.
    change (k_log (upd_log f s)) with (f (k_log s)). unfold f. destruct (k_log s). cbn in Hc |- *. by rewrite Hc.
  - rewrite (proj1 (wakeup_disk _ _ _)). exact D2.
  - rewrite (proj2 (wakeup_disk _ _ _)). exact T2.
Qed.
End Operations.

(** C15: Operations are grouped into transactions: [begin_op] starts an
    operation when the log has room for MAXOPBLOCKS more blocks and no commit
    is running, and otherwise sleeps on the log with its lock released;
    [end_op] of an operation that is not the last writes nothing to the disk;
    the last one commits all modified blocks, in the order log blocks, header,
    home blocks, cleared header, and leaves the log empty. *)
Theorem operations_group {KI : KernelImage} {BD : BlockDevice} n s p dev start hs ds :
  (HEAD < n)%nat -> running s p -> lk_free L_log (k_lk s) -> noff (cpu_of (k_lk s)) = 0 ->
  (room (k_log s) -> begin_op n s = Ret tt (upd_log (fun l => set_l_outstanding (l_outstanding l + 1) l) s)) /\
  (~ room (k_log s) -> exists s1 k, begin_op n s = Swtch s1 k /\ k_log s1 = k_log s /\ lk_free L_log (k_lk s1) /\
     p_state (proc_at s1 p) = SLEEPING /\ p_chan (proc_at s1 p) = C_log) /\
  (l_committing (k_log s) = 0 -> 1 < l_outstanding (k_log s) -> exists s', end_op n s = Ret tt s' /\
     l_outstanding (k_log s') = l_outstanding (k_log s) - 1 /\ logged_blocks (k_log s') = logged_blocks (k_log s) /\
     k_disk s' = k_disk s /\ k_dtrace s' = k_dtrace s) /\
  (l_committing (k_log s) = 0 -> l_outstanding (k_log s) = 1 -> hs <> [] ->
     log_apart dev start hs ds -> ready dev start hs ds s p 0 -> exists s', end_op n s = Ret tt s' /\
     l_outstanding (k_log s') = 0 /\ l_committing (k_log s') = 0 /\ logged_blocks (k_log s') = [] /\
     let t := commit_writes start hs ds (lh_block (k_log s)) (disk_block s start) in
     k_disk s' = apply_writes t (k_disk s) /\ k_dtrace s' = k_dtrace s ++ t).
Proof.
  intros Hn Hr Hf Hn0. pose proof Hr as (Hok & Hp & Hlen & Hpx & Hpf). assert (Hn1 : (1 <= n)%nat) by lia.
  split_and!.
  - intros. by apply begin_op_run.
  - intros Hnr. unfold begin_op. rewrite (bind_ret _ _ _ _ _ _ (acquire_run n s L_log Hok Hf)).
    unfold loop. destruct n as [|n]; [lia|]. cbn [iter_upto]. unfold lget at 1. rewrite bind_bind_gets. unfold id.
    change (k_log (upd_lk (acq L_log) s)) with (k_log s).
    destruct (sleep_out (S n) (upd_lk (acq L_log) s) p C_log L_log) as (_ & H1 & _ & _ & ie & _ & E).
    { exact (acq_cpu_ok _ _ Hok). }
    { etrans; [exact (acq_c_proc _ _ Hok)|done]. }
    { done. }
    { apply acq_held. }
    { done. }
    { apply acq_free_ne; [done|by apply Hpf]. }
    { etrans; [exact (acq_noff _ _ Hok)|lia]. }
    assert (Hs : p_state (proc_at (sleep_st p C_log L_log (upd_lk (acq L_log) s)) p) = SLEEPING /\
                 p_chan (proc_at (sleep_st p C_log L_log (upd_lk (acq L_log) s)) p) = C_log)
      by (unfold sleep_st; by rewrite proc_at_upd_eq).
    destruct (ctrue (l_committing (k_log s))) eqn:Ec.
    + eexists _, _. unfold bind at 1 2. rewrite E. split; [reflexivity|]. split_and!; [done|exact H1|apply Hs|apply Hs].
    + destruct (Z.gtb_spec (lh_n (k_log s) + (l_outstanding (k_log s) + 1) * MAXOPBLOCKS) LOGSIZE) as [|Hle].
      * eexists _, _. unfold bind at 1 2. rewrite E. split; [reflexivity|]. split_and!; [done|exact H1|apply Hs|apply Hs].
      * exfalso. apply Hnr. split; [|lia]. unfold ctrue in Ec. apply negb_false_iff, Z.eqb_eq in Ec. done.
  - intros Hc Ho. eexists. split; [by apply (end_op_more n s p)|]. rewrite (proj1 (wakeup_disk _ _ _)), (proj2 (wakeup_disk _ _ _)).
    unfold wakeup_st. rewrite upd_procs_rest. done.
  - intros Hc Ho Hne Hap R. destruct (end_op_last dev start hs ds n s p) as (s' & E & L & DT); try done.
    exists s'. split; [done|]. rewrite L. split_and!; [cbn; lia|done|done|exact DT].
Qed.

(** An operation begins, and the last one commits block 40. *)
Lemma operations_group_witness : exists s s1 s', begin_op 31%nat s = Ret tt s1 /\ end_op 31%nat s1 = Ret tt s' /\
  logged_blocks (k_log s') = [] /\ length (k_dtrace s') = (length (k_dtrace s1) + 4)%nat.
Proof.
  destruct ex_ready as (s0 & R0 & Hd & Hl & Hf & Hn0). set (g := fun l : log => set_l_committing 0 (set_l_outstanding 0 l)).
  set (s := upd_log g s0). exists s.
  pose proof (ready_log 1 2 [40] [ex_data] s0 3 0 g (fun l => conj eq_refl (conj eq_refl (conj eq_refl eq_refl))) R0) as R.
  fold s in R. pose proof (q_user _ _ _ (rd_quiet _ _ _ _ _ _ _ R)) as (Hr & _ & _).
  assert (Hap : log_apart 1 2 [40] [ex_data]).
  { split_and!; [done|apply NoDup_singleton|done|]. intros h ->%list_elem_of_singleton. cbn. lia. }
  assert (Hlg : k_log s = g ex_log) by (unfold s; cbn; by rewrite Hl).
  set (s1 := upd_log (fun l => set_l_outstanding (l_outstanding l + 1) l) s). exists s1.
  pose proof (ready_log 1 2 [40] [ex_data] s 3 0 (fun l => set_l_outstanding (l_outstanding l + 1) l)
    (fun l => conj eq_refl (conj eq_refl (conj eq_refl eq_refl))) R) as R1. fold s1 in R1.
  destruct (operations_group 31%nat s 3 1 2 [40] [ex_data]) as (Hbegin & _).
  - vm_compute. lia.
  - exact Hr.
  - exact Hf.
  - exact Hn0.
  - destruct (operations_group 31%nat s1 3 1 2 [40] [ex_data]) as (_ & _ & _ & Hend).
    + vm_compute. lia.
    + exact Hr.
    + exact Hf.
    + exact Hn0.
    + destruct Hend as (s' & E & _ & _ & Hb & _ & T).
      * unfold s1. change (l_committing (k_log s) = 0). by rewrite Hlg.
      * unfold s1. change (l_outstanding (k_log s) + 1 = 1). by rewrite Hlg.
      * done.
      * exact Hap.
      * exact R1.
      * exists s'. split_and!; [|exact E|exact Hb|].
        -- apply Hbegin. rewrite Hlg. split; [reflexivity|]. vm_compute. congruence.
        -- rewrite T, length_app. reflexivity.
Defined.
