(* ===== verification/Uart.v ===== *)
(** * The serial line

    kernel/uart.c: output through a ring buffer that the transmit interrupt
    drains ([uartputc], [uartstart]) and synchronous output for the kernel
    ([uartputc_sync]).  The device is the class [Uart16550]: whether its
    transmit holding register can take a byte; received characters wait in
    [k_in] and transmitted ones are appended to [k_out].  Busy-waiting for
    the device, or after a panic, is [Spin]. *)

From S2P Require Import Prelude Params Kernel Spinlock StringC Kalloc Vm Proc.

Class Uart16550 := { tx_idle : kernel -> bool }.

(** A line that always accepts a byte, and one whose register is full. *)
Definition fast_line : Uart16550 := {| tx_idle := fun _ => true |}.
Definition stuck_line : Uart16550 := {| tx_idle := fun _ => false |}.

Definition RHR : Z := 0.
Definition THR : Z := 0.
Definition IER : Z := 1.
Definition FCR : Z := 2.
Definition LCR : Z := 3.
Definition UART_TX_BUF_SIZE : Z := 32.

Definition WriteReg (reg v : Z) : K unit :=
  modify (fun s => set_k_mmio (k_mmio s ++ [(UART0 + reg, v)]) s).
Definition WriteTHR (c : Z) : K unit := modify (fun s => set_k_out (k_out s ++ [u8 c]) s).
Definition upd_uart (f : uart -> uart) (s : kernel) : kernel := set_k_uart (f (k_uart s)) s.

Section Uart.
Context `{KernelImage} `{Uart16550}.

Definition uartinit : K unit :=
  WriteReg IER 0x00 ;;
  WriteReg LCR (Z.shiftl 1 7) ;;
  WriteReg 0 0x03 ;;
  WriteReg 1 0x00 ;;
  WriteReg LCR (Z.shiftl 3 0) ;;
  WriteReg FCR (Z.lor (Z.shiftl 1 0) (Z.shiftl 3 1)) ;;
  WriteReg IER (Z.lor (Z.shiftl 1 1) (Z.shiftl 1 0)) ;;
  initlock L_uart.

Definition uartputc_sync (c : Z) : K unit :=
  push_off ;;
  let* p := gets k_panicked in
  if ctrue p then spin else
  let* idle := gets tx_idle in
  if negb idle then spin else
  WriteTHR c ;;
  pop_off.

Definition uartstart : K unit :=
  loop (fun _ : unit =>
    let* u := gets k_uart in
    if tx_w u =? tx_r u then ret (inr tt) else
    let* idle := gets tx_idle in
    if negb idle then ret (inr tt) else
    let c := aget 0 (tx_buf u) (tx_r u mod UART_TX_BUF_SIZE) in
    modify (upd_uart (fun u => set_tx_r (u64 (tx_r u + 1)) u)) ;;
    wakeup C_uart_tx_r ;;
    WriteTHR c ;;
    ret (inl tt)) tt.

Definition uartputc (c : Z) : K unit :=
  acquire L_uart ;;
  let* p := gets k_panicked in
  if ctrue p then spin else
  loop (fun _ : unit =>
    let* u := gets k_uart in
    if tx_w u =? u64 (tx_r u + UART_TX_BUF_SIZE) then
      sleep C_uart_tx_r L_uart ;; ret (inl tt)
    else ret (inr tt)) tt ;;
  modify (upd_uart (fun u => set_tx_buf (aset (tx_buf u) (tx_w u mod UART_TX_BUF_SIZE) (u8 c)) u)) ;;
  modify (upd_uart (fun u => set_tx_w (u64 (tx_w u + 1)) u)) ;;
  uartstart ;;
  release L_uart.

Definition uartgetc : K Z :=
  let* i := gets k_in in
  match i with
  | [] => ret (-1)
  | c :: rest => modify (set_k_in rest) ;; ret c
  end.

End Uart.
