(* ===== verification/Printf.v ===== *)
(** * Kernel output

    kernel/printf.c and [consputc] of kernel/console.c.  The arguments of
    [printf] are a list of values, as [va_arg] consumes them; a format that
    asks for more arguments than given is not covered (undefined in C) and
    reads 0. *)

From S2P Require Import Prelude Params Kernel Spinlock StringC Kalloc Vm Proc Uart.

Definition BACKSPACE : Z := 0x100.

Definition digits : list Z := str_bytes "0123456789abcdef".

(** A variadic argument: an [int] or [uint64], or a [char *] with its text. *)
Inductive arg := AInt (v : Z) | AStr (s : option (list Z)).

(** The digits [printint] collects, least significant first: [x] is a [uint],
    so 32 divisions always reach 0. *)
Fixpoint digit_loop (x base : Z) (fuel : nat) : list Z :=
  match fuel with
  | O => []
  | S f => aget 0 digits (x mod base) :: (if x / base =? 0 then [] else digit_loop (x / base) base f)
  end.

(** What [printint(xx, base, sign)] prints. *)
Definition printint_chars (xx base : Z) (sign : bool) : list Z :=
  let neg := sign && (xx <? 0) in
  let x := if neg then u32 (- xx) else u32 xx in
  rev (digit_loop x base 32 ++ (if neg then [45] else [])).

Definition printptr_chars (x : Z) : list Z :=
  str_bytes "0x" ++
  map (fun i => aget 0 digits (Z.shiftr (u64 (Z.shiftl x (4 * i))) 60)) (seqZ 0 16).

(** The scan of the format: the characters printed. *)
Fixpoint format (fmt : list Z) (args : list arg) : list Z :=
  match fmt with
  | [] => []
  | c :: fmt' =>
      if negb (c =? 37) then c :: format fmt' args else
      match fmt' with
      | [] => []
      | c :: fmt' =>
          let v := match args with AInt v :: _ => v | _ => 0 end in
          let str := match args with AStr (Some l) :: _ => l | _ => str_bytes "(null)" end in
          let rest := tail args in
          if c =? 100 then printint_chars (s32 v) 10 true ++ format fmt' rest
          else if c =? 120 then printint_chars (s32 v) 16 true ++ format fmt' rest
          else if c =? 112 then printptr_chars v ++ format fmt' rest
          else if c =? 115 then str ++ format fmt' rest
          else if c =? 37 then 37 :: format fmt' args
          else 37 :: c :: format fmt' args
      end
  end.

Section Printf.
Context `{KernelImage} `{Uart16550}.

Definition consputc (c : Z) : K unit :=
  if c =? BACKSPACE then uartputc_sync 8 ;; uartputc_sync 32 ;; uartputc_sync 8
  else uartputc_sync c.

Definition printint (xx base : Z) (sign : bool) : K unit :=
  forall_do (printint_chars xx base sign) consputc.

Definition printptr (x : Z) : K unit := forall_do (printptr_chars x) consputc.

Definition printf (fmt : string) (args : list arg) : K unit :=
  let* locking := gets k_locking in
  when (ctrue locking) (acquire L_pr) ;;
  forall_do (format (str_bytes fmt) args) consputc ;;
  when (ctrue locking) (release L_pr).

(** What [panic(s)] prints before it stops the machine; the [Panic] outcome
    of the monad is this point. *)
Definition panic_message (s : string) : K unit :=
  modify (set_k_locking 0) ;;
  printf "panic: " [] ;;
  printf s [] ;;
  forall_do [10] consputc ;;
  modify (set_k_panicked 1).

Definition printfinit : K unit :=
  initlock L_pr ;;
  modify (set_k_locking 1).

End Printf.

(** ** Reading numbers back *)

(** The value of a digit character, of a numeral written most significant
    digit first, and of one with an optional minus sign. *)
Definition digit_value (c : Z) : Z := if c <=? 57 then c - 48 else c - 87.
Definition numeral_value (base : Z) (l : list Z) : Z :=
  fold_left (fun acc c => acc * base + digit_value c) l 0.
Definition read_int (base : Z) (l : list Z) : Z :=
  match l with
  | c :: l' => if c =? 45 then - numeral_value base l' else numeral_value base l
  | [] => 0
  end.

(** ** Lemmas *)
Lemma digit_value_digits d : 0 <= d < 16 -> digit_value (aget 0 digits d) = d /\ aget 0 digits d <> 45.
Proof.
  intros Hd. assert (H : forallb (fun i => (digit_value (aget 0 digits i) =? i) &&
      negb (aget 0 digits i =? 45)) (seqZ 0 16) = true) by (by vm_compute).
  rewrite forallb_forall in H. specialize (H d). rewrite andb_true_iff, negb_true_iff in H.
  rewrite Z.eqb_eq, Z.eqb_neq in H. apply H. apply list_elem_of_In, elem_of_seqZ. lia.
Qed.

Lemma digit_loop_last x base fuel :
  digit_loop x base (S fuel) =
  aget 0 digits (x mod base) :: (if x / base =? 0 then [] else digit_loop (x / base) base fuel).
Proof. done. Qed.

Lemma digit_loop_spec base fuel : forall x,
  2 <= base <= 16 -> 0 <= x < base ^ Z.of_nat fuel -> (0 < fuel)%nat ->
  numeral_value base (rev (digit_loop x base fuel)) = x /\
  (length (digit_loop x base fuel) <= fuel)%nat /\
  (forall c, c ∈ digit_loop x base fuel -> c <> 45) /\ digit_loop x base fuel <> [].
Proof.
  induction fuel as [|f IH]; intros x Hb Hx Hf; [lia|]. rewrite digit_loop_last.
  destruct (digit_value_digits (x mod base)) as [Hd Hn].
  { pose proof (Z.mod_pos_bound x base). lia. }
  assert (Hq : 0 <= x / base) by (apply Z.div_pos; lia).
  destruct (Z.eqb_spec (x / base) 0) as [E|E].
  - split_and!; [|cbn; lia| |done].
    + unfold numeral_value. cbn [rev app fold_left]. rewrite Hd. apply Z.div_small_iff in E; [|lia]. rewrite Z.mod_small; lia.
    + intros c Hc. apply list_elem_of_singleton in Hc as ->. done.
  - assert (Hlt : x / base < base ^ Z.of_nat f).
    { apply Z.div_lt_upper_bound; [lia|]. rewrite <- Z.pow_succ_r by lia.
      replace (Z.succ (Z.of_nat f)) with (Z.of_nat (S f)) by lia. lia. }
    destruct f as [|f']; [change (base ^ Z.of_nat 0) with 1 in Hlt; lia|].
    destruct (IH (x / base)) as (IH1 & IH2 & IH3 & _); [lia|lia|lia|].
    set (f := S f') in *.
    split_and!; [|cbn [length]; lia| |done].
    + cbn [rev]. unfold numeral_value in *. rewrite fold_left_app. cbn [fold_left].
      rewrite IH1, Hd. pose proof (Z.div_mod x base). lia.
    + intros c [->|Hc]%elem_of_cons; [done|by apply IH3].
Qed.

(** Fewer digits are enough for smaller numbers. *)
Lemma digit_loop_length base x k : forall fuel,
  2 <= base <= 16 -> 0 <= x < base ^ Z.of_nat k -> (0 < k <= fuel)%nat ->
  (length (digit_loop x base fuel) <= k)%nat.
Proof.
  revert x. induction k as [|k IH]; intros x fuel Hb Hx Hk; [lia|].
  destruct fuel as [|fuel]; [lia|]. rewrite digit_loop_last.
  destruct (Z.eqb_spec (x / base) 0) as [E|E]; [cbn; lia|]. cbn [length].
  assert (0 <= x / base) by (apply Z.div_pos; lia).
  assert (x / base < base ^ Z.of_nat k).
  { apply Z.div_lt_upper_bound; [lia|]. rewrite <- Z.pow_succ_r by lia.
    replace (Z.succ (Z.of_nat k)) with (Z.of_nat (S k)) by lia. lia. }
  destruct k as [|k]; [change (base ^ Z.of_nat 0) with 1 in *; lia|].
  specialize (IH (x / base) fuel). lia.
Qed.

(** ** Properties *)

(** C36: [printint] prints every [int] correctly in bases 10 and 16: reading
    the printed characters back gives the number, INT_MIN included, and the
    characters with the sign fit the function's 16-byte buffer. *)
Theorem printint_reads_back xx base :
  -2147483648 <= xx < 2147483648 -> base = 10 \/ base = 16 ->
  read_int base (printint_chars xx base true) = xx /\
  (length (printint_chars xx base true) <= 16)%nat.
Proof.
  intros Hx Hb. assert (Hb' : 2 <= base <= 16) by lia. unfold printint_chars. cbn [andb].
  set (x := if xx <? 0 then u32 (- xx) else u32 xx).
  assert (Hxr : 0 <= x <= 2147483648 /\ x = Z.abs xx).
  { unfold x. destruct (Z.ltb_spec xx 0); rewrite u32_small by lia; lia. }
  destruct Hxr as [Hxr Habs]. clearbody x.
  assert (Hpow : forall k, 16 <= k -> x < base ^ k).
  { intros k Hk. apply Z.lt_le_trans with (base ^ 16); [|by apply Z.pow_le_mono_r; lia].
    destruct Hb as [-> | ->]; [change (10 ^ 16) with 10000000000000000|change (16 ^ 16) with 18446744073709551616]; lia. }
  destruct (digit_loop_spec base 32 x Hb') as (Hval & _ & Hno & Hne);
    [split; [lia|apply Hpow; lia]|lia|].
  assert (Hlen : (length (digit_loop x base 32) <= 15)%nat).
  { apply digit_loop_length; [done| |lia]. split; [lia|].
    destruct Hb as [-> | ->]; [change (10 ^ Z.of_nat 15) with 1000000000000000
                              |change (16 ^ Z.of_nat 15) with 1152921504606846976]; lia. }
  rewrite rev_app_distr, length_app, !length_rev. destruct (Z.ltb_spec xx 0) as [Hneg|Hpos].
  - split; [|cbn [length]; lia]. cbn [rev app read_int]. change (45 =? 45) with true. cbn iota.
    rewrite Hval. lia.
  - split; [|cbn [length]; lia]. cbn [rev app].
    destruct (rev (digit_loop x base 32)) as [|c l] eqn:E.
    { apply (f_equal (@rev Z)) in E. rewrite rev_involutive in E. done. }
    assert (Hc : c <> 45).
    { apply Hno. apply list_elem_of_In, in_rev. rewrite E. left. done. }
    unfold read_int. destruct (Z.eqb_spec c 45); [done|]. rewrite Hval. lia.
Qed.

Lemma printint_reads_back_witness :
  read_int 10 (printint_chars (-2147483648) 10 true) = -2147483648.
Proof. apply (printint_reads_back (-2147483648) 10); [lia|by left]. Defined.
