(* ===== verification/Console.v ===== *)
(** * The console

    kernel/console.c, [uartintr] of kernel/uart.c and [procdump] of
    kernel/proc.c.  Input characters are edited in a ring buffer by the
    interrupt handler [consoleintr] and handed out in lines by
    [consoleread].  The abstract console is a pair of queues: the characters
    of complete lines, and the line being edited. *)

From S2P Require Import Prelude Params Kernel Spinlock StringC Kalloc Vm Proc Uart Printf.

Definition INPUT_BUF_SIZE : Z := 128.
(** [C(x)]: control characters. *)
Definition Ctl (x : Z) : Z := x - 64.
Definition CTRL_D : Z := Ctl 68.
Definition CTRL_H : Z := Ctl 72.
Definition CTRL_P : Z := Ctl 80.
Definition CTRL_U : Z := Ctl 85.

Definition upd_cons (f : console -> console) (s : kernel) : kernel := set_k_cons (f (k_cons s)) s.
Definition cset (f : console -> console) : K unit := modify (upd_cons f).

Definition state_name (st : procstate) : string :=
  match st with
  | UNUSED => "unused" | USED => "used" | SLEEPING => "sleep " | RUNNABLE => "runble"
  | RUNNING => "run   " | ZOMBIE => "zombie"
  end.

Section Console.
Context `{KernelImage} `{Uart16550}.

Definition procdump : K unit :=
  printf nl [] ;;
  forall_do proc_ix (fun p =>
    let* q := pget p id in
    if decide (p_state q = UNUSED) then ret tt else
    printf "%d %s %s" [AInt (p_pid q); AStr (Some (str_bytes (state_name (p_state q))));
                       AStr (Some (cstrn (at_list (p_name q)) 0 16))] ;;
    printf nl []).

Definition consolewrite (src : Z + list Z) (n : Z) : K Z :=
  let* r := foreach_acc (seqZ 0 n) 0 (fun i _ =>
    let* r := either_copyin match src with inl a => inl (u64 (a + i)) | inr l => inr (drop (Z.to_nat i) l) end 1 in
    let '(r, bs) := r : Z * list Z in
    if r =? -1 then ret (inr i) else
    uartputc (aget 0 bs 0) ;;
    ret (inl (i + 1))) in
  match r with inl i => ret i | inr i => ret i end.

(** [consoleread(1, dst, n)]: only [fileread] calls it, for a user buffer. *)
Definition consoleread (dst n : Z) : K Z :=
  let target := u32 n in
  acquire L_cons ;;
  loop (fun '(dst, n) =>
    if negb (n >? 0) then release L_cons ;; ret (inr (s32 (target - n))) else
    let* dead := loop (fun _ : unit =>
      let* c := gets (fun s => k_cons s) in
      if cons_r c =? cons_w c then
        let* p := the_proc in
        let* k := killed p in
        if ctrue k then release L_cons ;; ret (inr true)
        else sleep C_cons_r L_cons ;; ret (inl tt)
      else ret (inr false)) tt in
    if dead : bool then ret (inr (-1)) else
    let* k := gets (fun s => k_cons s) in
    let c := aget 0 (cons_buf k) (cons_r k mod INPUT_BUF_SIZE) in
    cset (fun k => set_cons_r (u32 (cons_r k + 1)) k) ;;
    if c =? CTRL_D then
      when (u32 n <? target) (cset (fun k => set_cons_r (u32 (cons_r k - 1)) k)) ;;
      release L_cons ;; ret (inr (s32 (target - n)))
    else
      let* r := either_copyout (Some dst) [c] in
      if r =? -1 then release L_cons ;; ret (inr (s32 (target - n))) else
      let n := n - 1 in
      if c =? 10 then release L_cons ;; ret (inr (s32 (target - n)))
      else ret (inl (u64 (dst + 1), n))) (dst, n).

Definition consoleintr (c : Z) : K unit :=
  acquire L_cons ;;
  (if c =? CTRL_P then procdump
   else if c =? CTRL_U then
     loop (fun _ : unit =>
       let* k := gets (fun s => k_cons s) in
       if negb (cons_e k =? cons_w k) &&
          negb (aget 0 (cons_buf k) (u32 (cons_e k - 1) mod INPUT_BUF_SIZE) =? 10)
       then cset (fun k => set_cons_e (u32 (cons_e k - 1)) k) ;;
            consputc BACKSPACE ;; ret (inl tt)
       else ret (inr tt)) tt
   else if (c =? CTRL_H) || (c =? 127) then
     let* k := gets (fun s => k_cons s) in
     when (negb (cons_e k =? cons_w k))
       (cset (fun k => set_cons_e (u32 (cons_e k - 1)) k) ;; consputc BACKSPACE)
   else
     let* k := gets (fun s => k_cons s) in
     when (negb (c =? 0) && (u32 (cons_e k - cons_r k) <? INPUT_BUF_SIZE))
       (let c := if c =? 13 then 10 else c in
        consputc c ;;
        cset (fun k => set_cons_buf (aset (cons_buf k) (cons_e k mod INPUT_BUF_SIZE) (u8 c)) k) ;;
        cset (fun k => set_cons_e (u32 (cons_e k + 1)) k) ;;
        let* k := gets (fun s => k_cons s) in
        when ((c =? 10) || (c =? CTRL_D) || (u32 (cons_e k - cons_r k) =? INPUT_BUF_SIZE))
          (cset (fun k => set_cons_w (cons_e k) k) ;;
           wakeup C_cons_r))) ;;
  release L_cons.

Definition uartintr : K unit :=
  loop (fun _ : unit =>
    let* c := uartgetc in
    if c =? -1 then ret (inr tt) else consoleintr c ;; ret (inl tt)) tt ;;
  acquire L_uart ;;
  uartstart ;;
  release L_uart.

(** The major number of the console (kernel/file.h), and the device switch. *)
Definition CONSOLE : Z := 1.
Definition dev_at (s : kernel) (i : Z) : devsw := k_devsw s !!! Z.to_nat i.
Definition upd_dev (i : Z) (f : devsw -> devsw) (s : kernel) : kernel := set_k_devsw (alter f (Z.to_nat i) (k_devsw s)) s.

Definition consoleinit : K unit :=
  initlock L_cons ;;
  uartinit ;;
  modify (upd_dev CONSOLE (set_dev_read (Some F_consoleread))) ;;
  modify (upd_dev CONSOLE (set_dev_write (Some F_consolewrite))).

(** ** The abstract console *)
Record editor := mk_editor { ed_lines : list Z; ed_line : list Z }.

(** What a typed character does: [^U] erases the line, backspace and delete
    its last character; anything else is stored while there is room, and an
    end of line, [^D] or a full buffer completes the line. *)
Definition edit (c : Z) (ed : editor) : editor :=
  if c =? CTRL_P then ed
  else if c =? CTRL_U then mk_editor (ed_lines ed) []
  else if (c =? CTRL_H) || (c =? 127) then mk_editor (ed_lines ed) (removelast (ed_line ed))
  else if negb (c =? 0) && (Z.of_nat (length (ed_lines ed) + length (ed_line ed)) <? INPUT_BUF_SIZE) then
    let c := if c =? 13 then 10 else c in
    let line := ed_line ed ++ [u8 c] in
    if (c =? 10) || (c =? CTRL_D) ||
       (Z.of_nat (length (ed_lines ed) + length line) =? INPUT_BUF_SIZE)
    then mk_editor (ed_lines ed ++ line) []
    else mk_editor (ed_lines ed) line
  else ed.

(** The part of the ring of [len] characters from index [a]. *)
Definition ring (buf : list Z) (a : Z) (len : nat) : list Z :=
  map (fun i => aget 0 buf ((a + Z.of_nat i) mod INPUT_BUF_SIZE)) (seq 0 len).

(** [k] implements [ed]: the lines are at [r .. w) and the line being edited
    at [w .. e), indices counting modulo 2^32; a line in progress has no end
    of line in it. *)
Definition cons_rep (k : console) (ed : editor) : Prop :=
  length (cons_buf k) = 128%nat /\ 0 <= cons_r k < 4294967296 /\
  cons_w k = u32 (cons_r k + Z.of_nat (length (ed_lines ed))) /\
  cons_e k = u32 (cons_r k + Z.of_nat (length (ed_lines ed ++ ed_line ed))) /\
  (length (ed_lines ed ++ ed_line ed) <= 128)%nat /\
  ed_lines ed ++ ed_line ed = ring (cons_buf k) (cons_r k) (length (ed_lines ed ++ ed_line ed)) /\
  Forall (fun c => c <> 10) (ed_line ed).

(** ** Lemmas: output *)
Definition echo (c : Z) : list Z := if c =? BACKSPACE then [8; 32; 8] else [u8 c].
Definition out_st (l : list Z) (s : kernel) : kernel := set_k_out (k_out s ++ l) s.

Lemma out_st_app l l' s : out_st l' (out_st l s) = out_st (l ++ l') s.
Proof. unfold out_st; cbn. by rewrite <- app_assoc. Qed.

Section Quiet.
Context (Hidle : forall s, tx_idle s = true).

Lemma uartputc_sync_run n s c :
  cpu_ok (k_lk s) -> k_panicked s = 0 -> uartputc_sync c n s = Ret tt (out_st [u8 c] s).
Proof.
  intros Hok Hp. unfold uartputc_sync. kcall push_off_run.
  rewrite bind_gets. change (k_panicked (upd_lk push s)) with (k_panicked s). rewrite Hp.
  cbn [ctrue Z.eqb negb]. rewrite bind_gets, Hidle. cbn [negb].
  unfold WriteTHR. rewrite bind_modify.
  destruct (cpu_of_push _ Hok) as [Hn _]. pose proof Hok as (_ & _ & Hn0 & _).
  set (s1 := set_k_out _ _).
  rewrite (pop_off_run n s1 (push_cpu_ok _ Hok)) by (change (k_lk s1) with (push (k_lk s)); lia).
  f_equal. change (upd_lk pop s1) with (out_st [u8 c] (upd_lk (pop ∘ push) s)).
  by rewrite upd_lk_id by (by apply pop_push).
Qed.

Lemma consputc_run n s c :
  cpu_ok (k_lk s) -> k_panicked s = 0 -> consputc c n s = Ret tt (out_st (echo c) s).
Proof.
  intros Hok Hp. unfold consputc, echo. destruct (c =? BACKSPACE).
  - rewrite (bind_ret _ _ _ _ _ _ (uartputc_sync_run n s 8 Hok Hp)).
    rewrite (bind_ret _ _ _ _ _ _ (uartputc_sync_run n (out_st [u8 8] s) 32 Hok Hp)).
    rewrite uartputc_sync_run by done. by rewrite !out_st_app.
  - by apply uartputc_sync_run.
Qed.

(** ** Lemmas: the ring *)
Lemma length_ring buf a len : length (ring buf a len) = len.
Proof. unfold ring. by rewrite length_map, length_seq. Qed.

Lemma lookup_ring buf a len i :
  (i < len)%nat -> ring buf a len !! i = Some (aget 0 buf ((a + Z.of_nat i) mod INPUT_BUF_SIZE)).
Proof. intros. unfold ring. rewrite list_lookup_fmap, lookup_seq_lt by done. done. Qed.

Lemma ring_S buf a len :
  ring buf a (S len) = ring buf a len ++ [aget 0 buf ((a + Z.of_nat len) mod INPUT_BUF_SIZE)].
Proof. unfold ring. rewrite seq_S, map_app. done. Qed.

Lemma u32_ring x : u32 x mod INPUT_BUF_SIZE = x mod INPUT_BUF_SIZE.
Proof. unfold INPUT_BUF_SIZE. zlia. Qed.

Lemma ring_set buf a len c :
  length buf = 128%nat -> 0 <= a -> (len < 128)%nat ->
  ring (aset buf ((a + Z.of_nat len) mod INPUT_BUF_SIZE) c) a (S len) = ring buf a len ++ [c].
Proof.
  intros Hb Ha Hl. rewrite ring_S. f_equal.
  - apply list_eq. intros i. destruct (decide (i < len)%nat).
    + rewrite !lookup_ring by done. f_equal. unfold INPUT_BUF_SIZE in *.
      apply aget_aset_ne; [apply Z.mod_pos_bound; lia|apply Z.mod_pos_bound; lia|].
      Z.to_euclidean_division_equations; lia.
    + rewrite !lookup_ge_None_2; rewrite ?length_ring; try done; lia.
  - f_equal. apply aget_aset_eq. rewrite Hb. unfold INPUT_BUF_SIZE. apply (Z.mod_pos_bound _ 128). lia.
Qed.

(** The distance between two indices at most the buffer size apart. *)
Lemma u32_dist r k : 0 <= k <= 128 -> u32 (u32 (r + k) - r) = k.
Proof. intros. zlia. Qed.
Lemma u32_ne r a b : 0 <= a < b -> b <= 128 -> u32 (r + b) <> u32 (r + a).
Proof. intros. zlia. Qed.
Lemma u32_pred x : u32 (u32 x - 1) = u32 (x - 1).
Proof. zlia. Qed.
Lemma u32_succ x : u32 (u32 x + 1) = u32 (x + 1).
Proof. zlia. Qed.

Lemma upd_procs_acq lk f l s :
  upd_procs f l (upd_lk (acq lk) s) = upd_lk (acq lk) (upd_procs f l s).
Proof. unfold upd_procs. revert s; induction l as [|p l IH]; intros s; [done|]. cbn. by rewrite <- IH. Qed.
Lemma wakeup_st_acq lk me ch s :
  wakeup_st me ch (upd_lk (acq lk) s) = upd_lk (acq lk) (wakeup_st me ch s).
Proof. apply upd_procs_acq. Qed.

(** ** Lemmas: erasing *)

(** Removing the last character of a non-empty line. *)
Lemma cons_rep_erase k lines line c :
  cons_rep k (mk_editor lines (line ++ [c])) ->
  cons_e k <> cons_w k /\
  aget 0 (cons_buf k) (u32 (cons_e k - 1) mod INPUT_BUF_SIZE) = c /\ c <> 10 /\
  cons_rep (set_cons_e (u32 (cons_e k - 1)) k) (mk_editor lines line).
Proof.
  unfold cons_rep; cbn [ed_lines ed_line]. rewrite app_assoc.
  rewrite !(length_app (lines ++ line)). cbn [length]. set (len := length (lines ++ line)).
  intros (Hb & Hr & Hw & He & Hlen & Hring & Hno).
  assert (Hll : (length lines <= len)%nat) by (unfold len; rewrite length_app; lia).
  replace (len + 1)%nat with (S len) in * by lia. rewrite ring_S in Hring.
  apply app_inj_tail in Hring as [Hring Hc].
  assert (He1 : u32 (cons_e k - 1) = u32 (cons_r k + Z.of_nat len)).
  { rewrite He, u32_pred. f_equal. lia. }
  rewrite Forall_app, Forall_singleton in Hno. rewrite He1. cbn.
  split_and!; try done; try tauto; try lia.
  - rewrite He, Hw. apply u32_ne; lia.
  - rewrite u32_ring. done.
Qed.

Lemma cons_rep_empty k lines : cons_rep k (mk_editor lines []) -> cons_e k = cons_w k.
Proof. unfold cons_rep; cbn. rewrite app_nil_r. intros (_ & _ & -> & -> & _). done. Qed.

Lemma kill_line_iter n : forall line f s lines,
  cpu_ok (k_lk s) -> k_panicked s = 0 -> cons_rep (k_cons s) (mk_editor lines line) ->
  (length line < f)%nat ->
  exists k out, cons_rep k (mk_editor lines []) /\
    iter_upto f (fun _ : unit =>
       let* k := gets (fun s => k_cons s) in
       if negb (cons_e k =? cons_w k) &&
          negb (aget 0 (cons_buf k) (u32 (cons_e k - 1) mod INPUT_BUF_SIZE) =? 10)
       then cset (fun k => set_cons_e (u32 (cons_e k - 1)) k) ;;
            consputc BACKSPACE ;; ret (inl tt)
       else ret (inr tt)) tt n s = Ret tt (out_st out (set_k_cons k s)).
Proof.
  induction line as [|c line IH] using rev_ind; intros f s lines Hok Hp Hrep Hf;
    (destruct f as [|f]; [lia|]); cbn [iter_upto]; rewrite bind_bind_gets; cbv beta.
  - pose proof (cons_rep_empty _ _ Hrep) as E. apply Z.eqb_eq in E. rewrite E. cbn. exists (k_cons s), [].
    split; [done|]. unfold out_st; cbn. by rewrite app_nil_r.
  - destruct (cons_rep_erase _ _ _ _ Hrep) as (H1 & H2 & H3 & H4).
    rewrite H2. apply Z.eqb_neq in H1, H3. rewrite H1, H3. cbn [negb andb].
    unfold cset. rewrite bind_bind_modify.
    rewrite (bind_bind_ret _ _ _ _ _ _ _ (consputc_run n (upd_cons (fun k => set_cons_e (u32 (cons_e k - 1)) k) s) BACKSPACE Hok Hp)), bind_ret_l.
    set (s1 := out_st _ _).
    destruct (IH f s1 lines Hok Hp H4) as (k & out & Hk & E); [rewrite length_app in Hf; cbn in Hf; lia|].
    unfold cset in E. rewrite E. exists k, (echo BACKSPACE ++ out). split; [done|].
    unfold s1, out_st; cbn. by rewrite <- app_assoc.
Qed.

(** A character stored at the end of the line being edited. *)
Lemma cons_rep_put k lines line c : cons_rep k (mk_editor lines line) -> (length (lines ++ line) < 128)%nat ->
  let k' := set_cons_e (u32 (cons_e k + 1)) (set_cons_buf (aset (cons_buf k) (cons_e k mod INPUT_BUF_SIZE) (u8 c)) k) in
  let len := length (lines ++ line ++ [u8 c]) in
  length (cons_buf k') = 128%nat /\ cons_e k' = u32 (cons_r k + Z.of_nat len) /\
  lines ++ line ++ [u8 c] = ring (cons_buf k') (cons_r k') len /\ (len <= 128)%nat /\ u32 (cons_e k' - cons_r k') = Z.of_nat len.
Proof.
  intros (Hb & Hr & Hw & He & Hlen & Hring & Hno) Hroom k' len. cbn [ed_lines ed_line] in *.
  assert (Hlen1 : len = S (length (lines ++ line))) by (unfold len; rewrite app_assoc, (length_app (lines ++ line)); cbn; lia).
  assert (He' : cons_e k' = u32 (cons_r k + Z.of_nat len)).
  { change (cons_e k') with (u32 (cons_e k + 1)). rewrite He, u32_succ, Hlen1. f_equal. lia. }
  split_and!; [unfold k'; cbn; by rewrite length_aset|done| |lia|rewrite He'; apply u32_dist; lia].
  rewrite Hlen1. change (cons_r k') with (cons_r k). change (cons_buf k') with (aset (cons_buf k) (cons_e k mod INPUT_BUF_SIZE) (u8 c)).
  rewrite He, u32_ring, ring_set by (done || lia). by rewrite <- Hring, app_assoc.
Qed.

(** ** Properties *)

(** The cases of the handler: a line killed, a character erased, another
    character. *)
Section Edits.
Context (n : nat) (s : kernel) (c : Z) (lines line : list Z).
Context (Hok : cpu_ok (k_lk s)) (Hf : lk_free L_cons (k_lk s)) (Hpf : proc_locks_free (k_lk s)) (Hp : k_panicked s = 0).
Context (Hn : (128 < n)%nat) (Hc : 0 <= c < 256) (HP : (c =? CTRL_P) = false) (Hrep : cons_rep (k_cons s) (mk_editor lines line)).
Let s1 : kernel := upd_lk (acq L_cons) s.
Let Hok1 : cpu_ok (k_lk s1) := acq_cpu_ok L_cons _ Hok.
Definition edited : Prop :=
  exists s', consoleintr c n s = Ret tt s' /\ cons_rep (k_cons s') (edit c (mk_editor lines line)) /\
    s' = set_k_procs (k_procs s') (set_k_out (k_out s') (set_k_cons (k_cons s') s)).

(** Leaving the critical section. *)
Lemma cons_leave s2 : k_lk s2 = k_lk s -> release L_cons n (upd_lk (acq L_cons) s2) = Ret tt s2.
Proof. intros E. apply release_after_run; by rewrite E. Qed.
Lemma edits_kill : (c =? CTRL_U) = true -> edited.
Proof.
  intros EU. unfold edited, consoleintr, edit. rewrite (bind_ret _ _ _ _ _ _ (acquire_run n s L_cons Hok Hf)). rewrite HP, EU.
  assert (Hl : (length line < n)%nat) by (destruct Hrep as (_ & _ & _ & _ & Hlen & _); cbn in Hlen; rewrite length_app in Hlen; lia).
  destruct (kill_line_iter n line n s1 lines Hok1 Hp Hrep Hl) as (k & out & Hk & E).
  erewrite (bind_ret (loop _ _)) by exact E. exists (out_st out (set_k_cons k s)).
  split; [exact (cons_leave (out_st out (set_k_cons k s)) eq_refl)|by split].
Qed.
Lemma edits_erase : (c =? CTRL_U) = false -> (c =? CTRL_H) || (c =? 127) = true -> edited.
Proof.
  intros EU EH. unfold edited, consoleintr, edit. rewrite (bind_ret _ _ _ _ _ _ (acquire_run n s L_cons Hok Hf)). rewrite HP, EU, EH.
  cbn [ed_lines ed_line]. rewrite bind_bind_gets. change (k_cons (upd_lk (acq L_cons) s)) with (k_cons s). clear Hn. revert Hrep.
  destruct line as [|x line' _] using rev_ind; intros Hrep'.
  - pose proof (cons_rep_empty _ _ Hrep') as E. apply Z.eqb_eq in E. rewrite E. cbn [negb when].
    rewrite bind_ret_l. exists s. split; [exact (cons_leave s eq_refl)|by split].
  - destruct (cons_rep_erase _ _ _ _ Hrep') as (H1 & _ & _ & H4). apply Z.eqb_neq in H1. rewrite H1.
    cbn [negb when]. unfold cset. rewrite bind_bind_modify.
    set (s2 := upd_cons (fun k => set_cons_e (u32 (cons_e k - 1)) k) s).
    rewrite (bind_ret _ _ _ _ _ _ (consputc_run n (upd_lk (acq L_cons) s2) BACKSPACE Hok1 Hp)).
    exists (out_st (echo BACKSPACE) s2). rewrite removelast_last.
    split; [exact (cons_leave (out_st (echo BACKSPACE) s2) eq_refl)|by split].
Qed.
Lemma edits_put : (c =? CTRL_U) = false -> (c =? CTRL_H) || (c =? 127) = false -> edited.
Proof.
  intros EU EH. unfold edited, consoleintr, edit. rewrite (bind_ret _ _ _ _ _ _ (acquire_run n s L_cons Hok Hf)). rewrite HP, EU, EH. clear EH.
  cbn [ed_lines ed_line]. rewrite bind_bind_gets. fold s1. change (k_cons s1) with (k_cons s).
  pose proof Hrep as (Hb & Hr & Hw & He & Hlen & Hring & Hno). cbn [ed_lines ed_line] in *.
  rewrite <- length_app.
  assert (Hd : u32 (cons_e (k_cons s) - cons_r (k_cons s)) = Z.of_nat (length (lines ++ line)))
    by (rewrite He; apply u32_dist; lia).
  rewrite Hd. destruct (negb (c =? 0) && _) eqn:Eroom; cbn [when].
  2:{ rewrite bind_ret_l. exists s. split; [exact (cons_leave s eq_refl)|by split]. }
  apply andb_prop in Eroom as [_ Hroom%Z.ltb_lt]. unfold INPUT_BUF_SIZE in Hroom.
  set (c' := if c =? 13 then 10 else c).
  rewrite (bind_bind_ret _ _ _ _ _ _ _ (consputc_run n s1 c' Hok1 Hp)).
  unfold cset. rewrite !bind_bind_modify, bind_bind_gets.
  set (k' := set_cons_e (u32 (cons_e (k_cons s) + 1))
               (set_cons_buf (aset (cons_buf (k_cons s)) (cons_e (k_cons s) mod INPUT_BUF_SIZE) (u8 c')) (k_cons s))).
  set (s2 := set_k_cons k' (out_st (echo c') s)).
  change (upd_cons _ (upd_cons _ (out_st (echo c') s1))) with (upd_lk (acq L_cons) s2).
  change (k_cons (upd_lk (acq L_cons) s2)) with k'.
  destruct (cons_rep_put _ lines line c' Hrep ltac:(lia)) as (Hbuf' & He' & Hring' & Hlen' & Hd'). fold k' in Hbuf', He', Hring', Hd'.
  rewrite Hd', <- length_app. destruct (_ || _) eqn:Ewake; cbn [when].
  - (* the line is complete *)
    rewrite bind_bind_modify.
    set (s3 := upd_cons (fun k => set_cons_w (cons_e k) k) s2).
    change (upd_cons _ (upd_lk _ s2)) with (upd_lk (acq L_cons) s3).
    rewrite (bind_ret _ _ _ _ _ _ (wakeup_run n (upd_lk (acq L_cons) s3) C_cons_r Hok1
               ltac:(intros q Hq _; apply acq_free_ne; [discriminate|by apply Hpf]))).
    rewrite wakeup_st_acq. set (me := c_proc _).
    assert (Hlk3 : k_lk (wakeup_st me C_cons_r s3) = k_lk s) by (unfold wakeup_st; by rewrite upd_procs_lk).
    rewrite (cons_leave _ Hlk3). eexists. split; [reflexivity|].
    unfold wakeup_st. rewrite upd_procs_rest. split; [|done].
    change (k_cons (set_k_procs _ s3)) with (set_cons_w (cons_e k') k').
    unfold cons_rep. cbn [ed_lines ed_line]. rewrite app_nil_r.
    split_and!; try done; cbn; lia.
  - rewrite bind_ret_l. exists s2. split_and!; [exact (cons_leave s2 eq_refl)| |done].
    change (k_cons s2) with k'. unfold cons_rep. cbn [ed_lines ed_line].
    split_and!; try done; try (cbn; lia). apply Forall_app. split; [done|]. apply Forall_singleton.
    apply orb_false_iff in Ewake as [Ewake _]. apply orb_false_iff in Ewake as [Ewake _].
    apply Z.eqb_neq in Ewake. rewrite u8_small; [done|]. unfold c'. destruct (c =? 13); lia.
Qed.
End Edits.

(** C35: The interrupt handler is the line editor: on a console that
    represents an abstract editor, [consoleintr(c)] (for any character but
    [^P], which lists processes) terminates in a console that represents
    [edit c] of it, on a UART that is always ready to transmit, whatever the position of the ring's indices, wrap-around
    of the 32-bit counters included; it only changes the console, the output
    and, when it completes a line, the processes waiting for input. *)
Theorem consoleintr_edits n s c ed :
  cpu_ok (k_lk s) -> lk_free L_cons (k_lk s) -> proc_locks_free (k_lk s) ->
  k_panicked s = 0 -> (128 < n)%nat -> 0 <= c < 256 -> c <> CTRL_P ->
  cons_rep (k_cons s) ed ->
  exists s', consoleintr c n s = Ret tt s' /\ cons_rep (k_cons s') (edit c ed) /\
    s' = set_k_procs (k_procs s') (set_k_out (k_out s') (set_k_cons (k_cons s') s)).
Proof.
  intros Hok Hf Hpf Hp Hn Hc HP Hrep. apply Z.eqb_neq in HP. destruct ed as [lines line].
  destruct (c =? CTRL_U) eqn:EU; [by apply edits_kill|].
  destruct ((c =? CTRL_H) || (c =? 127)) eqn:EH; [by apply edits_erase|by apply edits_put].
Qed.

End Quiet.
End Console.

(** ** Witness: a line in progress is completed by carriage return *)
Definition ex_cons : kernel :=
  set_k_cons (mk_console (replicate 128 0) 4294967295 4294967295 4294967295)
    (set_k_lk (boot_lk (L_cons :: map L_proc proc_ix)) bss).

Lemma consoleintr_edits_witness : exists s',
  @consoleintr fast_line 104 200%nat ex_cons = Ret tt s' /\
  cons_rep (k_cons s') (mk_editor [] [104]).
Proof.
  destruct (@consoleintr_edits fast_line (fun _ => eq_refl) 200%nat ex_cons 104 (mk_editor [] []))
    as (s' & E & R & _).
  - apply ex_cpu_ok.
  - by vm_compute.
  - intros p Hp. assert (H : forallb (fun p => match locks (k_lk ex_cons) !! L_proc p with
      | Some (mk_spinlock 0 None) => true | _ => false end) proc_ix = true) by (by vm_compute).
    rewrite forallb_forall in H. apply list_elem_of_In in Hp. apply H in Hp. unfold lk_free.
    destruct (locks (k_lk ex_cons) !! L_proc p) as [[[] []]|]; done.
  - reflexivity.
  - lia.
  - lia.
  - discriminate.
  - unfold cons_rep. cbn. split_and!; (done || lia || constructor).
  - exists s'. split; [exact E|exact R].
Defined.
