(* ===== verification/Fs.v ===== *)
(** * The file system: blocks, inodes, directories, path names

    kernel/fs.c over the log and the buffer cache.  An inode pointer is the
    index in [itable.inode]; path names and directory names are lists of
    bytes without the terminating NUL.  A read into a kernel buffer returns
    the bytes read beside the count, and a write from the kernel takes the
    bytes. *)

From S2P Require Import Prelude Params Kernel Spinlock StringC Kalloc Vm Proc Sleeplock Bio Log Uart Printf.

(** ** On-disk structures *)

(** A stretch of a block, and replacing it. *)
Definition slice (off len : nat) (data : list Z) : list Z := take len (drop off data).
Definition put (off : nat) (bs data : list Z) : list Z :=
  take off data ++ bs ++ drop (off + length bs) data.

(** [struct dinode] (kernel/fs.h), 64 bytes. *)
Record dinode := mk_dinode {
  di_type : Z; di_major : Z; di_minor : Z; di_nlink : Z; di_size : Z; di_addrs : list Z }.
Definition dinode_enc (d : dinode) : list Z :=
  le_enc 2 (di_type d) ++ le_enc 2 (di_major d) ++ le_enc 2 (di_minor d) ++
  le_enc 2 (di_nlink d) ++ le_enc 4 (di_size d) ++ concat (map (le_enc 4) (di_addrs d)).
Definition dinode_dec (l : list Z) : dinode :=
  {| di_type := s16 (le_dec (slice 0 2 l)); di_major := s16 (le_dec (slice 2 2 l));
     di_minor := s16 (le_dec (slice 4 2 l)); di_nlink := s16 (le_dec (slice 6 2 l));
     di_size := le_dec (slice 8 4 l);
     di_addrs := map (fun i => le_dec (slice (12 + 4 * i) 4 l)) (seq 0 13) |}.

(** [struct dirent] (kernel/fs.h), 16 bytes. *)
Record dirent := mk_dirent { de_inum : Z; de_name : list Z }.
Definition dirent_enc (d : dirent) : list Z := le_enc 2 (de_inum d) ++ de_name d.
Definition dirent_dec (l : list Z) : dirent :=
  {| de_inum := le_dec (slice 0 2 l); de_name := slice 2 14 l |}.

(** [struct superblock], eight 32-bit words. *)
Definition sb_dec (l : list Z) : superblock :=
  let w i := le_dec (slice (4 * i) 4 l) in
  {| sb_magic := w 0%nat; sb_size := w 1%nat; sb_nblocks := w 2%nat; sb_ninodes := w 3%nat;
     sb_nlog := w 4%nat; sb_logstart := w 5%nat; sb_inodestart := w 6%nat; sb_bmapstart := w 7%nat |}.

Definition IBLOCK (i : Z) (sb : superblock) : Z := u32 (i / IPB + sb_inodestart sb).
Definition BBLOCK (b : Z) (sb : superblock) : Z := u32 (b / BPB + sb_bmapstart sb).

(** The bit of block [bi] of a bitmap block. *)
Definition bit_mask (bi : Z) : Z := Z.shiftl 1 (bi mod 8).
Definition bit_free (data : list Z) (bi : Z) : bool := Z.land (aget 0 data (bi / 8)) (bit_mask bi) =? 0.
Definition bit_set (bi : Z) (data : list Z) : list Z :=
  aset data (bi / 8) (Z.lor (aget 0 data (bi / 8)) (bit_mask bi)).
Definition bit_clear (bi : Z) (data : list Z) : list Z :=
  aset data (bi / 8) (Z.land (aget 0 data (bi / 8)) (Z.lnot (bit_mask bi))).

(** ** Paths *)
Definition SLASH : Z := 47.
Fixpoint skip_slashes (path : list Z) : list Z :=
  match path with
  | c :: path' => if c =? SLASH then skip_slashes path' else path
  | [] => []
  end.
(** The characters before the next slash, and the rest. *)
Fixpoint span_elem (path : list Z) : list Z * list Z :=
  match path with
  | c :: path' =>
      if c =? SLASH then ([], path)
      else let '(e, r) := span_elem path' in (c :: e, r)
  | [] => ([], [])
  end.
(** [skipelem(path, name)]: the rest of the path and the name, or null. *)
Definition skipelem (path : list Z) : option (list Z * list Z) :=
  let path := skip_slashes path in
  match path with
  | [] => None
  | _ =>
      let '(s, rest) := span_elem path in
      let name := if Z.of_nat (length s) >=? DIRSIZ then take (Z.to_nat DIRSIZ) s else s in
      Some (skip_slashes rest, name)
  end.

Definition namecmp (s t : list Z) : Z := strncmp (at_list s) (at_list t) DIRSIZ.

Definition iget_f {A} (ip : nat) (f : inode -> A) : K A := gets (fun s => f (inode_at s ip)).
Definition iset (ip : nat) (f : inode -> inode) : K unit := modify (upd_inode ip f).
Definition bdata (b : nat) (f : list Z -> list Z) : K unit :=
  bset b (fun q => set_b_data (f (b_data q)) q).

Section Fs.
Context `{KernelImage} `{BlockDevice} `{Uart16550}.

(** ** Blocks *)
Definition readsb (dev : Z) : K unit :=
  let* bp := bread dev 1 in
  let* data := bget_f bp b_data in
  modify (set_k_sb (sb_dec data)) ;;
  brelse bp.

Definition fsinit (dev : Z) : K unit :=
  readsb dev ;;
  let* sb := gets k_sb in
  if negb (sb_magic sb =? FSMAGIC) then panic "invalid file system" else
  initlog dev.

Definition bzero (dev bno : Z) : K unit :=
  let* bp := bread dev bno in
  bdata bp (fun _ => replicate (Z.to_nat BSIZE) 0) ;;
  log_write bp ;;
  brelse bp.

Definition balloc (dev : Z) : K Z :=
  let* sb := gets k_sb in
  let nbm := (sb_size sb + BPB - 1) / BPB in
  let* r := foreach (map (Z.mul BPB) (seqZ 0 nbm)) (fun b =>
    let* bp := bread dev (BBLOCK b sb) in
    let* data := bget_f bp b_data in
    match List.find (bit_free data) (seqZ 0 (Z.min BPB (sb_size sb - b))) with
    | Some bi =>
        bdata bp (bit_set bi) ;;
        log_write bp ;;
        brelse bp ;;
        bzero dev (b + bi) ;;
        ret (Some (b + bi))
    | None => brelse bp ;; ret None
    end) in
  match r with
  | Some b => ret b
  | None => printf ("balloc: out of blocks" +:+ nl) [] ;; ret 0
  end.

Definition bfree (dev b : Z) : K unit :=
  let* sb := gets k_sb in
  let* bp := bread dev (BBLOCK b sb) in
  let bi := b mod BPB in
  let* data := bget_f bp b_data in
  if bit_free data bi then panic "freeing free block" else
  bdata bp (bit_clear bi) ;;
  log_write bp ;;
  brelse bp.

(** ** Inodes *)
Definition iinit : K unit :=
  initlock L_itable ;;
  forall_do (seq 0 (Z.to_nat NINODE)) (fun i => initsleeplock (SL_inode i)).

Definition iget (dev inum : Z) : K nat :=
  acquire L_itable ;;
  let* r := foreach_acc (seq 0 (Z.to_nat NINODE)) None (fun empty ip =>
    let* q := iget_f ip id in
    if (i_ref q >? 0) && (i_dev q =? dev) && (i_inum q =? inum) then
      iset ip (fun q => set_i_ref (i_ref q + 1) q) ;;
      release L_itable ;;
      ret (inr ip)
    else ret (inl (match empty with None => if i_ref q =? 0 then Some ip else None | _ => empty end))) in
  match r with
  | inr ip => ret ip
  | inl None => panic "iget: no inodes"
  | inl (Some ip) =>
      iset ip (set_i_dev dev) ;;
      iset ip (set_i_inum inum) ;;
      iset ip (set_i_ref 1) ;;
      iset ip (set_i_valid 0) ;;
      release L_itable ;;
      ret ip
  end.

Definition dinode_off (inum : Z) : nat := Z.to_nat (64 * (inum mod IPB)).

Definition ialloc (dev type : Z) : K (option nat) :=
  let* sb := gets k_sb in
  let* r := foreach (seqZ 1 (sb_ninodes sb - 1)) (fun inum =>
    let* bp := bread dev (IBLOCK inum sb) in
    let* data := bget_f bp b_data in
    let dip := dinode_dec (slice (dinode_off inum) 64 data) in
    if di_type dip =? 0 then
      bdata bp (put (dinode_off inum) (dinode_enc (mk_dinode type 0 0 0 0 (replicate 13 0)))) ;;
      log_write bp ;;
      brelse bp ;;
      let* ip := iget dev inum in
      ret (Some ip)
    else brelse bp ;; ret None) in
  match r with
  | Some ip => ret (Some ip)
  | None => printf ("ialloc: no inodes" +:+ nl) [] ;; ret None
  end.

Definition iupdate (ip : nat) : K unit :=
  let* q := iget_f ip id in
  let* sb := gets k_sb in
  let* bp := bread (i_dev q) (IBLOCK (i_inum q) sb) in
  let* q := iget_f ip id in
  bdata bp (put (dinode_off (i_inum q))
    (dinode_enc (mk_dinode (i_type q) (i_major q) (i_minor q) (i_nlink q) (i_size q) (i_addrs q)))) ;;
  log_write bp ;;
  brelse bp.

Definition idup (ip : nat) : K nat :=
  acquire L_itable ;;
  iset ip (fun q => set_i_ref (i_ref q + 1) q) ;;
  release L_itable ;;
  ret ip.

Definition ilock (ipo : option nat) : K unit :=
  match ipo with
  | None => panic "ilock"
  | Some ip =>
      let* q := iget_f ip id in
      if i_ref q <? 1 then panic "ilock" else
      acquiresleep (SL_inode ip) ;;
      let* q := iget_f ip id in
      when (i_valid q =? 0)
        (let* sb := gets k_sb in
         let* bp := bread (i_dev q) (IBLOCK (i_inum q) sb) in
         let* data := bget_f bp b_data in
         let dip := dinode_dec (slice (dinode_off (i_inum q)) 64 data) in
         iset ip (set_i_type (di_type dip)) ;;
         iset ip (set_i_major (di_major dip)) ;;
         iset ip (set_i_minor (di_minor dip)) ;;
         iset ip (set_i_nlink (di_nlink dip)) ;;
         iset ip (set_i_size (di_size dip)) ;;
         iset ip (set_i_addrs (di_addrs dip)) ;;
         brelse bp ;;
         iset ip (set_i_valid 1) ;;
         when (di_type dip =? 0) (panic "ilock: no type"))
  end.

Definition iunlock (ipo : option nat) : K unit :=
  match ipo with
  | None => panic "iunlock"
  | Some ip =>
      let* h := holdingsleep (SL_inode ip) in
      let* q := iget_f ip id in
      if negb h || (i_ref q <? 1) then panic "iunlock" else
      releasesleep (SL_inode ip)
  end.

(** ** Content *)
Definition word (data : list Z) (i : Z) : Z := le_dec (slice (4 * Z.to_nat i) 4 data).

Definition itrunc (ip : nat) : K unit :=
  forall_do (seqZ 0 NDIRECT) (fun i =>
    let* q := iget_f ip id in
    when (ctrue (aget 0 (i_addrs q) i))
      (bfree (i_dev q) (aget 0 (i_addrs q) i) ;;
       iset ip (fun q => set_i_addrs (aset (i_addrs q) i 0) q))) ;;
  let* q := iget_f ip id in
  when (ctrue (aget 0 (i_addrs q) NDIRECT))
    (let* bp := bread (i_dev q) (aget 0 (i_addrs q) NDIRECT) in
     forall_do (seqZ 0 NINDIRECT) (fun j =>
       let* data := bget_f bp b_data in
       when (ctrue (word data j)) (bfree (i_dev q) (word data j))) ;;
     brelse bp ;;
     bfree (i_dev q) (aget 0 (i_addrs q) NDIRECT) ;;
     iset ip (fun q => set_i_addrs (aset (i_addrs q) NDIRECT 0) q)) ;;
  iset ip (set_i_size 0) ;;
  iupdate ip.

Definition iput (ip : nat) : K unit :=
  acquire L_itable ;;
  let* q := iget_f ip id in
  when ((i_ref q =? 1) && ctrue (i_valid q) && (i_nlink q =? 0))
    (acquiresleep (SL_inode ip) ;;
     release L_itable ;;
     itrunc ip ;;
     iset ip (set_i_type 0) ;;
     iupdate ip ;;
     iset ip (set_i_valid 0) ;;
     releasesleep (SL_inode ip) ;;
     acquire L_itable) ;;
  iset ip (fun q => set_i_ref (i_ref q - 1) q) ;;
  release L_itable.

Definition iunlockput (ip : nat) : K unit := iunlock (Some ip) ;; iput ip.

Definition bmap (ip : nat) (bn : Z) : K Z :=
  let* q := iget_f ip id in
  if bn <? NDIRECT then
    let addr := aget 0 (i_addrs q) bn in
    if addr =? 0 then
      let* addr := balloc (i_dev q) in
      if addr =? 0 then ret 0 else
      iset ip (fun q => set_i_addrs (aset (i_addrs q) bn addr) q) ;;
      ret addr
    else ret addr
  else
  let bn := bn - NDIRECT in
  if bn <? NINDIRECT then
    let addr := aget 0 (i_addrs q) NDIRECT in
    let* addr :=
      if addr =? 0 then
        let* addr := balloc (i_dev q) in
        when (ctrue addr) (iset ip (fun q => set_i_addrs (aset (i_addrs q) NDIRECT addr) q)) ;;
        ret addr
      else ret addr in
    if addr =? 0 then ret 0 else
    let* bp := bread (i_dev q) addr in
    let* data := bget_f bp b_data in
    let addr := word data bn in
    let* addr :=
      if addr =? 0 then
        let* addr := balloc (i_dev q) in
        when (ctrue addr)
          (bdata bp (put (4 * Z.to_nat bn) (le_enc 4 addr)) ;; log_write bp) ;;
        ret addr
      else ret addr in
    brelse bp ;;
    ret addr
  else panic "bmap: out of range".

(** [struct stat] as [stati] fills it: dev, ino, type, nlink, size. *)
Definition stati (ip : nat) : K (Z * Z * Z * Z * Z) :=
  let* q := iget_f ip id in
  ret (i_dev q, i_inum q, i_type q, i_nlink q, i_size q).

(** [readi]: the count, and the bytes copied to a kernel destination. *)
Definition readi (ip : nat) (user_dst : option Z) (off n : Z) : K (Z * list Z) :=
  let* q := iget_f ip id in
  if (off >? i_size q) || (u32 (off + n) <? off) then ret (0, []) else
  let n := if u32 (off + n) >? i_size q then i_size q - off else n in
  loop (fun '(tot, off, dst, acc) =>
    if negb (tot <? n) then ret (inr (s32 tot, acc)) else
    let* addr := bmap ip (off / BSIZE) in
    if addr =? 0 then ret (inr (s32 tot, acc)) else
    let* dev := iget_f ip i_dev in
    let* bp := bread dev addr in
    let m := Z.min (n - tot) (BSIZE - off mod BSIZE) in
    let* data := bget_f bp b_data in
    let bs := slice (Z.to_nat (off mod BSIZE)) (Z.to_nat m) data in
    let* r := either_copyout dst bs in
    if r =? -1 then brelse bp ;; ret (inr (-1, acc)) else
    brelse bp ;;
    ret (inl (tot + m, off + m, option_map (fun d => u64 (d + m)) dst, acc ++ bs)))
    (0, off, user_dst, []).

(** Advances a source by [m] bytes. *)
Definition src_skip (src : Z + list Z) (m : Z) : Z + list Z :=
  match src with inl a => inl (u64 (a + m)) | inr l => inr (drop (Z.to_nat m) l) end.

Definition writei (ip : nat) (src : Z + list Z) (off n : Z) : K Z :=
  let* q := iget_f ip id in
  if (off >? i_size q) || (u32 (off + n) <? off) then ret (-1) else
  if u32 (off + n) >? MAXFILE * BSIZE then ret (-1) else
  let* r := loop (fun '(tot, off, src) =>
    if negb (tot <? n) then ret (inr (tot, off)) else
    let* addr := bmap ip (off / BSIZE) in
    if addr =? 0 then ret (inr (tot, off)) else
    let* dev := iget_f ip i_dev in
    let* bp := bread dev addr in
    let m := Z.min (n - tot) (BSIZE - off mod BSIZE) in
    let* r := either_copyin src m in
    let '(r, bs) := r : Z * list Z in
    bdata bp (put (Z.to_nat (off mod BSIZE)) bs) ;;
    if r =? -1 then brelse bp ;; ret (inr (tot, off)) else
    log_write bp ;;
    brelse bp ;;
    ret (inl (tot + m, off + m, src_skip src m))) (0, off, src) in
  let '(tot, off) := r : Z * Z in
  let* q := iget_f ip id in
  when (off >? i_size q) (iset ip (set_i_size off)) ;;
  iupdate ip ;;
  ret (s32 tot).

(** ** Directories *)
Definition dirlookup (dp : nat) (name : list Z) : K (option (nat * Z)) :=
  let* q := iget_f dp id in
  if negb (i_type q =? T_DIR) then panic "dirlookup not DIR" else
  loop (fun off =>
    let* q := iget_f dp id in
    if negb (off <? i_size q) then ret (inr None) else
    let* r := readi dp None off 16 in
    let '(cnt, bs) := r : Z * list Z in
    if negb (cnt =? 16) then panic "dirlookup read" else
    let de := dirent_dec bs in
    if de_inum de =? 0 then ret (inl (off + 16)) else
    if namecmp name (de_name de) =? 0 then
      let* ip := iget (i_dev q) (de_inum de) in ret (inr (Some (ip, off)))
    else ret (inl (off + 16))) 0.

Definition dirlink (dp : nat) (name : list Z) (inum : Z) : K Z :=
  let* r := dirlookup dp name in
  match r with
  | Some (ip, _) => iput ip ;; ret (-1)
  | None =>
      let* off := loop (fun off =>
        let* q := iget_f dp id in
        if negb (off <? i_size q) then ret (inr off) else
        let* r := readi dp None off 16 in
        let '(cnt, bs) := r : Z * list Z in
        if negb (cnt =? 16) then panic "dirlink read" else
        if de_inum (dirent_dec bs) =? 0 then ret (inr off) else ret (inl (off + 16))) 0 in
      let de := mk_dirent (u16 inum) (strncpy_bytes (cstrn (at_list name) 0 (Z.to_nat DIRSIZ)) (Z.to_nat DIRSIZ)) in
      let* r := writei dp (inr (dirent_enc de)) off 16 in
      ret (if negb (r =? 16) then -1 else 0)
  end.

(** ** Path names *)
Definition namex (path : list Z) (nameiparent : bool) : K (option (nat * list Z)) :=
  let* ip :=
    if aget 0 path 0 =? SLASH then iget ROOTDEV ROOTINO
    else let* p := the_proc in
         let* cwd := pget p p_cwd in
         match cwd with Some c => idup c | None => panic "kerneltrap" end in
  loop (fun '(ip, path, name) =>
    match skipelem path with
    | None =>
        if nameiparent then iput ip ;; ret (inr None) else ret (inr (Some (ip, name)))
    | Some (path, name) =>
        ilock (Some ip) ;;
        let* q := iget_f ip id in
        if negb (i_type q =? T_DIR) then iunlockput ip ;; ret (inr None) else
        if nameiparent && bool_decide (path = []) then
          iunlock (Some ip) ;; ret (inr (Some (ip, name)))
        else
          let* next := dirlookup ip name in
          match next with
          | None => iunlockput ip ;; ret (inr None)
          | Some (nx, _) => iunlockput ip ;; ret (inl (nx, path, name))
          end
    end) (ip, path, []).

Definition namei (path : list Z) : K (option nat) :=
  let* r := namex path false in ret (option_map fst r).
Definition nameiparent (path : list Z) : K (option (nat * list Z)) := namex path true.

End Fs.

(** ** Lemmas: slices of blocks *)
Lemma length_put off bs data :
  (off + length bs <= length data)%nat -> length (put off bs data) = length data.
Proof. intros. unfold put. rewrite !length_app, length_take, length_drop. lia. Qed.

Lemma slice_put_eq off bs data :
  (off + length bs <= length data)%nat -> slice off (length bs) (put off bs data) = bs.
Proof.
  intros. unfold slice, put. rewrite drop_app_ge by (rewrite length_take; lia).
  rewrite length_take, Nat.min_l, Nat.sub_diag by lia. rewrite drop_0, take_app_le by lia. by apply take_ge.
Qed.

Lemma lookup_slice off len data i :
  (i < len)%nat -> slice off len data !! i = data !! (off + i)%nat.
Proof. intros. unfold slice. by rewrite lookup_take_lt, lookup_drop by done. Qed.

Lemma lookup_put_out off bs data i :
  (off + length bs <= length data)%nat -> (i < off)%nat \/ (off + length bs <= i)%nat ->
  put off bs data !! i = data !! i.
Proof.
  intros Hl Hi. unfold put. destruct (decide (i < off)%nat).
  - rewrite lookup_app_l by (rewrite length_take; lia). by rewrite lookup_take_lt.
  - rewrite lookup_app_r, length_take, Nat.min_l by (rewrite ?length_take; lia).
    rewrite lookup_app_r, lookup_drop by lia. f_equal. lia.
Qed.

Lemma slice_put_ne off bs data off' len :
  (off + length bs <= length data)%nat ->
  (off' + len <= off)%nat \/ (off + length bs <= off')%nat ->
  slice off' len (put off bs data) = slice off' len data.
Proof.
  intros Hl Hd. apply list_eq. intros i. destruct (decide (i < len)%nat).
  - rewrite !lookup_slice, lookup_put_out by lia. done.
  - unfold slice. rewrite !lookup_take_ge by lia. done.
Qed.

Lemma slice_app_l off len l l' :
  (off + len <= length l)%nat -> slice off len (l ++ l') = slice off len l.
Proof.
  intros. unfold slice. rewrite drop_app_le by lia. rewrite take_app_le; [done|].
  rewrite length_drop. lia.
Qed.
Lemma slice_app_r off len l l' :
  (length l <= off)%nat -> slice off len (l ++ l') = slice (off - length l) len l'.
Proof. intros. unfold slice. by rewrite drop_app_ge by lia. Qed.
Lemma slice_all l : slice 0 (length l) l = l.
Proof. unfold slice. rewrite drop_0. by apply take_ge. Qed.

(** ** Lemmas: the inode and directory codecs *)
Definition dinode_wf (d : dinode) : Prop :=
  -32768 <= di_type d < 32768 /\ -32768 <= di_major d < 32768 /\
  -32768 <= di_minor d < 32768 /\ -32768 <= di_nlink d < 32768 /\
  0 <= di_size d < 4294967296 /\ length (di_addrs d) = 13%nat /\
  Forall (fun a => 0 <= a < 4294967296) (di_addrs d).

Lemma le_dec_enc2 v : s16 (le_dec (le_enc 2 v)) = s16 v.
Proof. rewrite le_dec_enc. change (8 * Z.of_nat 2) with 16. unfold s16, swrap. rewrite Z.mod_mod by lia. done. Qed.
Lemma s16_small v : -32768 <= v < 32768 -> s16 v = v.
Proof.
  intros. unfold s16, swrap. change (2 ^ 16) with 65536. change (2 ^ (16 - 1)) with 32768.
  destruct (Z.ltb_spec (v mod 65536) 32768); Z.to_euclidean_division_equations; lia.
Qed.
Lemma le_dec_enc4 v : 0 <= v < 4294967296 -> le_dec (le_enc 4 v) = v.
Proof. intros. rewrite le_dec_enc. by apply Z.mod_small. Qed.

Lemma length_concat_enc4 l : length (concat (map (le_enc 4) l)) = (4 * length l)%nat.
Proof. induction l as [|a l IH]; cbn [map concat length]; [done|]. rewrite length_app, IH, length_le_enc. lia. Qed.

Lemma slice_concat_enc4 l i a :
  l !! i = Some a -> slice (4 * i) 4 (concat (map (le_enc 4) l)) = le_enc 4 a.
Proof.
  revert i; induction l as [|x l IH]; intros i Hi; [done|]. cbn [map concat].
  destruct i as [|i]; cbn in Hi.
  - injection Hi as ->. rewrite slice_app_l by (rewrite length_le_enc; lia).
    rewrite <- (slice_all (le_enc 4 a)) at 2. by rewrite length_le_enc.
  - rewrite slice_app_r by (rewrite length_le_enc; lia). rewrite length_le_enc.
    replace (4 * S i - 4)%nat with (4 * i)%nat by lia. by apply IH.
Qed.

Lemma length_dinode_enc d : length (di_addrs d) = 13%nat -> length (dinode_enc d) = 64%nat.
Proof. intros Hd. unfold dinode_enc. rewrite !length_app, length_concat_enc4, Hd, !length_le_enc. done. Qed.

(** Finds field [k] bytes into an encoding made of fields. *)
Ltac field_slice :=
  repeat first [ rewrite slice_app_l by (rewrite ?length_le_enc; lia)
               | rewrite slice_app_r by (rewrite ?length_le_enc; lia); rewrite ?length_le_enc; cbn [Nat.sub] ];
  match goal with |- context [slice 0 ?n (le_enc ?n ?v)] =>
    replace (slice 0 n (le_enc n v)) with (le_enc n v)
      by (rewrite <- (slice_all (le_enc n v)) at 1; by rewrite length_le_enc) end.

Lemma dinode_dec_enc d : dinode_wf d -> dinode_dec (dinode_enc d) = d.
Proof.
  destruct d as [ty ma mi nl sz addrs]. unfold dinode_wf, dinode_dec, dinode_enc. cbn [di_type di_major di_minor di_nlink di_size di_addrs].
  intros (H1 & H2 & H3 & H4 & H5 & H6 & H7). f_equal.
  - field_slice. rewrite le_dec_enc2. by apply s16_small.
  - field_slice. rewrite le_dec_enc2. by apply s16_small.
  - field_slice. rewrite le_dec_enc2. by apply s16_small.
  - field_slice. rewrite le_dec_enc2. by apply s16_small.
  - field_slice. by apply le_dec_enc4.
  - apply list_eq. intros i. rewrite list_lookup_fmap. destruct (decide (i < 13)%nat) as [Hi|Hi].
    + rewrite lookup_seq_lt by done. cbn [fmap option_fmap option_map].
      destruct (lookup_lt_is_Some_2 addrs i) as [a Ha]; [lia|]. rewrite Ha.
      do 5 (rewrite slice_app_r by (rewrite ?length_le_enc; lia)). rewrite !length_le_enc.
      replace (12 + 4 * (0 + i) - 2 - 2 - 2 - 2 - 4)%nat with (4 * i)%nat by lia.
      rewrite (slice_concat_enc4 _ _ a Ha), le_dec_enc4; [done|].
      by apply (Forall_lookup_1 _ _ _ _ H7 Ha).
    + rewrite lookup_seq_ge by lia. symmetry. apply lookup_ge_None_2. lia.
Qed.

Lemma dirent_dec_enc d :
  0 <= de_inum d < 65536 -> length (de_name d) = 14%nat -> dirent_dec (dirent_enc d) = d.
Proof.
  destruct d as [inum name]. unfold dirent_dec, dirent_enc; cbn [de_inum de_name]. intros Hi Hn. f_equal.
  - field_slice. rewrite le_dec_enc. by apply Z.mod_small.
  - rewrite slice_app_r by (rewrite length_le_enc; lia). rewrite length_le_enc. cbn [Nat.sub].
    rewrite <- Hn. apply slice_all.
Qed.

(** ** Lemmas: the bitmap *)
Lemma bit_free_testbit data bi : bit_free data bi = negb (Z.testbit (aget 0 data (bi / 8)) (bi mod 8)).
Proof.
  unfold bit_free, bit_mask. assert (Hm : 0 <= bi mod 8 < 8) by (apply Z.mod_pos_bound; lia).
  set (x := aget 0 data (bi / 8)). rewrite Z.shiftl_1_l.
  destruct (Z.testbit x (bi mod 8)) eqn:E; cbn.
  - apply Z.eqb_neq. intros H. apply (f_equal (fun v => Z.testbit v (bi mod 8))) in H.
    rewrite Z.land_spec, E, Z.pow2_bits_true, Z.bits_0 in H by lia. done.
  - apply Z.eqb_eq. apply Z.bits_inj'. intros k Hk. rewrite Z.land_spec, Z.bits_0.
    destruct (decide (k = bi mod 8)) as [->|Hne]; [by rewrite E|].
    rewrite Z.pow2_bits_false by lia. apply andb_false_r.
Qed.

(** Two bits of the bitmap are in different bytes or at different places. *)
Lemma bit_index_ne bi bi' : bi / 8 = bi' / 8 -> bi mod 8 = bi' mod 8 -> bi = bi'.
Proof. intros. Z.to_euclidean_division_equations. lia. Qed.

Section BitUpdate.
Context (data : list Z) (bi : Z) (Hlen : length data = 1024%nat) (Hbi : 0 <= bi < BPB).

Lemma bi_byte j : 0 <= j < BPB -> 0 <= j / 8 < 1024.
Proof. unfold BPB, BSIZE. intros. Z.to_euclidean_division_equations; lia. Qed.

Lemma aget_bit_update v j :
  0 <= j < BPB -> aget 0 (aset data (bi / 8) v) (j / 8) =
  if decide (j / 8 = bi / 8) then v else aget 0 data (j / 8).
Proof.
  intros Hj. pose proof (bi_byte _ Hbi). pose proof (bi_byte _ Hj). case_decide as E.
  - rewrite E. apply aget_aset_eq. lia.
  - apply aget_aset_ne; lia.
Qed.

Lemma bit_free_set j :
  0 <= j < BPB -> bit_free (bit_set bi data) j = if decide (j = bi) then false else bit_free data j.
Proof.
  intros Hj. rewrite !bit_free_testbit. unfold bit_set. rewrite aget_bit_update by done.
  unfold bit_mask. rewrite Z.shiftl_1_l. assert (0 <= bi mod 8 < 8) by (apply Z.mod_pos_bound; lia).
  case_decide as E; [|rewrite decide_False by (intros ->; done); done].
  rewrite Z.lor_spec, E. case_decide as E'.
  - subst. rewrite Z.pow2_bits_true by lia. by rewrite orb_true_r.
  - rewrite Z.pow2_bits_false; [by rewrite orb_false_r|]. intros Hm. apply E'. symmetry. by apply bit_index_ne.
Qed.

Lemma bit_free_clear j :
  0 <= j < BPB -> bit_free (bit_clear bi data) j = if decide (j = bi) then true else bit_free data j.
Proof.
  intros Hj. rewrite !bit_free_testbit. unfold bit_clear. rewrite aget_bit_update by done.
  unfold bit_mask. rewrite Z.shiftl_1_l. assert (0 <= bi mod 8 < 8) by (apply Z.mod_pos_bound; lia).
  assert (0 <= j mod 8 < 8) by (apply Z.mod_pos_bound; lia).
  case_decide as E; [|rewrite decide_False by (intros ->; done); done].
  rewrite Z.land_spec, Z.lnot_spec, E by lia. case_decide as E'.
  - subst. rewrite Z.pow2_bits_true by lia. by rewrite andb_false_r.
  - rewrite Z.pow2_bits_false; [by rewrite andb_true_r|]. intros Hm. apply E'. symmetry. by apply bit_index_ne.
Qed.
End BitUpdate.

(** ** Lemmas: path names *)

(** The reference: the non-empty components of a path, split at slashes. *)
Fixpoint components_from (cur path : list Z) : list (list Z) :=
  match path with
  | [] => match cur with [] => [] | _ => [cur] end
  | c :: path' =>
      if c =? SLASH then (match cur with [] => [] | _ => [cur] end) ++ components_from [] path'
      else components_from (cur ++ [c]) path'
  end.
Definition components (path : list Z) : list (list Z) := components_from [] path.

Lemma skip_slashes_components path : components (skip_slashes path) = components path.
Proof.
  induction path as [|c path IH]; [done|]. cbn [skip_slashes]. unfold components in *.
  cbn [components_from]. destruct (c =? SLASH) eqn:E; [done|]. cbn [components_from]. by rewrite E.
Qed.

Lemma skip_slashes_length path : (length (skip_slashes path) <= length path)%nat.
Proof. induction path as [|c path IH]; [done|]. cbn. destruct (c =? SLASH); cbn; lia. Qed.

Lemma skip_slashes_head path : match skip_slashes path with [] => True | c :: _ => c <> SLASH end.
Proof.
  induction path as [|c path IH]; [done|]. cbn [skip_slashes].
  destruct (c =? SLASH) eqn:E; [done|]. by apply Z.eqb_neq in E.
Qed.

Lemma span_elem_spec path e r :
  span_elem path = (e, r) ->
  path = e ++ r /\ Forall (fun c => c <> SLASH) e /\ match r with [] => True | c :: _ => c = SLASH end.
Proof.
  revert e r; induction path as [|c path IH]; intros e r; cbn [span_elem].
  - intros [= <- <-]. done.
  - destruct (c =? SLASH) eqn:E.
    + intros [= <- <-]. apply Z.eqb_eq in E. split_and!; [done|constructor|done].
    + destruct (span_elem path) as [e' r'] eqn:Es. intros [= <- <-].
      destruct (IH _ _ eq_refl) as (-> & H1 & H2). apply Z.eqb_neq in E.
      split_and!; [done|by constructor|done].
Qed.

Lemma components_from_elem cur e r :
  Forall (fun c => c <> SLASH) e -> cur ++ e <> [] ->
  match r with [] => True | c :: _ => c = SLASH end ->
  components_from cur (e ++ r) = (cur ++ e) :: components r.
Proof.
  intros He Hne Hr. revert cur Hne; induction He as [|c e Hc He IH]; intros cur Hne.
  - rewrite app_nil_r in Hne. rewrite app_nil_r. cbn [app].
    destruct r as [|c r]; cbn [components_from].
    + by destruct cur.
    + subst c. change (SLASH =? SLASH) with true. unfold components. cbn [components_from].
      change (SLASH =? SLASH) with true. by destruct cur.
  - cbn [app components_from]. apply Z.eqb_neq in Hc. rewrite Hc.
    rewrite IH by (by destruct cur). by rewrite <- app_assoc.
Qed.

Lemma components_nil path : components path = [] <-> skip_slashes path = [].
Proof.
  rewrite <- skip_slashes_components. pose proof (skip_slashes_head path) as Hh.
  destruct (skip_slashes path) as [|c p]; [done|]. split; [|done]. intros Hc. exfalso.
  destruct (span_elem (c :: p)) as [e r] eqn:E.
  destruct (span_elem_spec _ _ _ E) as (Hp & He & Hr).
  assert (e <> []).
  { intros ->. cbn in Hp. subst r. done. }
  rewrite Hp in Hc. unfold components in Hc. rewrite components_from_elem in Hc by done. done.
Qed.

(** ** Properties *)

(** [skipelem] takes path names apart correctly: it returns null exactly
    when the path has no component, and otherwise the first component, cut
    to DIRSIZ bytes, and a strictly shorter path that denotes the remaining
    components, starts with no slash, and is empty exactly when the
    component was the last one. *)
Lemma skipelem_components path :
  match skipelem path with
  | None => components path = []
  | Some (rest, name) =>
      exists e, components path = e :: components rest /\ name = take (Z.to_nat DIRSIZ) e /\
        e <> [] /\ Forall (fun c => c <> SLASH) e /\
        (length rest < length path)%nat /\ (rest = [] <-> components rest = []) /\
        match rest with [] => True | c :: _ => c <> SLASH end
  end.
Proof.
  unfold skipelem. pose proof (skip_slashes_head path) as Hh.
  pose proof (skip_slashes_length path) as Hl. pose proof (components_nil path) as Hn.
  rewrite <- skip_slashes_components.
  destruct (skip_slashes path) as [|c p] eqn:Ep; [done|].
  destruct (span_elem (c :: p)) as [e r] eqn:Es.
  destruct (span_elem_spec _ _ _ Es) as (Hp & He & Hr).
  assert (Hne : e <> []) by (intros ->; cbn in Hp; subst r; done).
  exists e. rewrite skip_slashes_components. split_and!; try done.
  - rewrite Hp. by apply components_from_elem.
  - destruct (Z.geb_spec (Z.of_nat (length e)) DIRSIZ); [done|]. symmetry. apply take_ge. lia.
  - rewrite Hp, length_app in Hl. pose proof (skip_slashes_length r).
    destruct e; [done|]. cbn in Hl. lia.
  - symmetry. apply components_nil.
  - apply skip_slashes_head.
Qed.

(** An inode survives its trip to disk: writing the encoding of a
    well-formed inode into its slot of an inode block, as [iupdate] does, and
    decoding the slot, as [ilock] does, gives the inode back, and every other
    inode of the block is unchanged. *)
Lemma inode_slot_roundtrip d inum data :
  dinode_wf d -> 0 <= inum -> length data = Z.to_nat BSIZE ->
  let data' := put (dinode_off inum) (dinode_enc d) data in
  dinode_dec (slice (dinode_off inum) 64 data') = d /\ length data' = Z.to_nat BSIZE /\
  forall inum', 0 <= inum' -> inum' mod IPB <> inum mod IPB ->
    dinode_dec (slice (dinode_off inum') 64 data') = dinode_dec (slice (dinode_off inum') 64 data).
Proof.
  intros Hwf Hi Hlen data'. unfold data'.
  assert (Henc : length (dinode_enc d) = 64%nat) by (apply length_dinode_enc; apply Hwf).
  assert (Hm : forall j, 0 <= j mod IPB < 16) by (intros; apply Z.mod_pos_bound; reflexivity).
  pose proof (Hm inum). unfold BSIZE in *.
  assert (Hfit : (dinode_off inum + length (dinode_enc d) <= length data)%nat)
    by (unfold dinode_off; lia).
  split_and!.
  - rewrite <- Henc at 1. rewrite slice_put_eq by done. by apply dinode_dec_enc.
  - by rewrite length_put.
  - intros inum' Hi' Hne. pose proof (Hm inum'). rewrite slice_put_ne; [done|done|].
    unfold dinode_off in *. lia.
Qed.

Lemma inode_slot_roundtrip_witness :
  let d := mk_dinode 2 0 0 1 5 (replicate 13 7) in
  dinode_dec (slice (dinode_off 3) 64 (put (dinode_off 3) (dinode_enc d) (replicate (Z.to_nat BSIZE) 0))) = d.
Proof.
  apply (inode_slot_roundtrip (mk_dinode 2 0 0 1 5 (replicate 13 7)) 3 (replicate (Z.to_nat BSIZE) 0)).
  - unfold dinode_wf. cbn [di_type di_major di_minor di_nlink di_size di_addrs].
    split_and!; try lia; [reflexivity|apply Forall_replicate; lia].
  - lia.
  - reflexivity.
Defined.
