(* ===== verification/Blocks.v ===== *)
(** * Blocks, as the file system sees them

    kernel/fs.c works on the blocks of a device through [bread], [log_write]
    and [brelse] (kernel/bio.c, kernel/log.c).  Between two commits the
    content of a block is what its buffer holds, or what the disk holds when
    it has no buffer: the view.  This file gives the four operations a
    specification on the view, for a process that holds some buffers inside a
    transaction: reading and releasing leave the view alone, updating a held
    buffer changes one block, and [log_write] makes the change stay. *)

From S2P Require Import Prelude Params Kernel Spinlock StringC Kalloc Vm Proc Sleeplock Bio Log Crash Transaction Fs.

Section Blocks.
Context {KI : KernelImage} {BD : BlockDevice}.
Variable dev : Z.

(** ** The view *)
Definition loaded (s : kernel) (x : Z) (b : nat) : bool :=
  hit dev x (buf_at s b) && ctrue (b_valid (buf_at s b)).
Definition view (s : kernel) (x : Z) : list Z :=
  match List.find (loaded s x) (seq 0 HEAD) with
  | Some b => b_data (buf_at s b)
  | None => disk_block s x
  end.

Lemma loaded_spec s x b : loaded s x b = true <-> caches s b dev x /\ b_valid (buf_at s b) <> 0.
Proof. unfold loaded, hit, caches, ctrue. rewrite !andb_true_iff, negb_true_iff, !Z.eqb_eq, Z.eqb_neq. done. Qed.

Lemma view_loaded s x b :
  cache_inv s -> dev <> 0 -> (b < HEAD)%nat -> caches s b dev x -> b_valid (buf_at s b) <> 0 ->
  view s x = b_data (buf_at s b).
Proof.
  intros Hinv Hd Hb Hc Hv. unfold view. destruct (List.find _ _) as [i|] eqn:E.
  - apply List.find_some in E as [Hi Hl]. apply in_seq in Hi. apply loaded_spec in Hl as [[E1 E2] _].
    destruct Hc as [E3 E4]. do 2 f_equal. apply (ci_once s Hinv); [lia|done|congruence..].
  - pose proof (List.find_none _ _ E b ltac:(apply in_seq; lia)) as Hn.
    by rewrite (proj2 (loaded_spec s x b)) in Hn.
Qed.
Lemma view_unloaded s x :
  (forall b, (b < HEAD)%nat -> caches s b dev x -> b_valid (buf_at s b) = 0) -> view s x = disk_block s x.
Proof.
  intros Hn. unfold view. destruct (List.find _ _) as [i|] eqn:E; [|done].
  apply List.find_some in E as [Hi Hl]. apply in_seq in Hi. apply loaded_spec in Hl as [Hc Hv].
  exfalso. apply Hv, Hn; [lia|done].
Qed.
Lemma view_cases s x :
  (exists b, (b < HEAD)%nat /\ caches s b dev x /\ b_valid (buf_at s b) <> 0 /\ view s x = b_data (buf_at s b)) \/
  ((forall b, (b < HEAD)%nat -> caches s b dev x -> b_valid (buf_at s b) = 0) /\ view s x = disk_block s x).
Proof.
  unfold view. destruct (List.find _ _) as [i|] eqn:E.
  - left. apply List.find_some in E as [Hi Hl]. apply in_seq in Hi. apply loaded_spec in Hl as [Hc Hv]. exists i. split_and!; [lia|done..].
  - right. split; [|done]. intros b Hb Hc. pose proof (List.find_none _ _ E b ltac:(apply in_seq; lia)) as Hn.
    destruct (decide (b_valid (buf_at s b) = 0)) as [|Hv]; [done|]. by rewrite (proj2 (loaded_spec s x b)) in Hn.
Qed.
Lemma content_view s x : content s dev x (view s x).
Proof.
  destruct (view_cases s x) as [(b & Hb & Hc & Hv & ->)|[Hn ->]]; [left; by exists b|by right].
Qed.

(** Two states whose buffers have the same cores, and the same disk, have the
    same view. *)
Lemma view_core s s' x :
  (forall i, (i < HEAD)%nat -> b_valid (buf_at s' i) = b_valid (buf_at s i) /\ b_dev (buf_at s' i) = b_dev (buf_at s i) /\
     b_blockno (buf_at s' i) = b_blockno (buf_at s i) /\ b_data (buf_at s' i) = b_data (buf_at s i)) ->
  k_disk s' = k_disk s -> view s' x = view s x.
Proof.
  intros Hc Hd. unfold view.
  assert (E : List.find (loaded s' x) (seq 0 HEAD) = List.find (loaded s x) (seq 0 HEAD)).
  { assert (Hl : forall i, i ∈ seq 0 HEAD -> loaded s' x i = loaded s x i).
    { intros i Hi%elem_of_seq. unfold loaded, hit. destruct (Hc i) as (-> & -> & -> & _); [lia|done]. }
    revert Hl. generalize (seq 0 HEAD). intros l. induction l as [|i l IH]; intros Hl; [done|]. cbn.
    rewrite (Hl i) by (apply elem_of_cons; by left). rewrite IH; [done|]. intros j Hj. apply Hl, elem_of_cons. by right. }
  rewrite E. clear E. destruct (List.find (loaded s x) _) as [i|] eqn:Ef; [|unfold disk_block; by rewrite Hd].
  apply List.find_some in Ef as [Hi _]. apply in_seq in Hi. apply Hc. lia.
Qed.

(** ** What the file system's use of the cache may change *)
Definition fs_frame (p : nat) (s s' : kernel) : Prop :=
  s' = set_k_log (k_log s') (set_k_bcache (k_bcache s') (set_k_procs (k_procs s') (set_k_lk (k_lk s') s))) /\
  k_lk s' = set_slocks (slocks (k_lk s')) (k_lk s) /\
  length (k_procs s') = length (k_procs s) /\ proc_at s' p = proc_at s p /\
  k_log s' = set_lh_n (lh_n (k_log s')) (set_lh_block (lh_block (k_log s')) (k_log s)) /\
  (forall i, sl_at s' (SL_inode i) = sl_at s (SL_inode i)).

Lemma fs_frame_refl p s : fs_frame p s s.
Proof. done. Qed.
Lemma fs_frame_trans p s s1 s2 : fs_frame p s s1 -> fs_frame p s1 s2 -> fs_frame p s s2.
Proof.
  intros (E1 & L1 & N1 & P1 & G1 & S1) (E2 & L2 & N2 & P2 & G2 & S2).
  split_and!; [|by rewrite L2, L1|congruence|congruence|by rewrite G2, G1|intros i; by rewrite S2].
  rewrite E2 at 1. rewrite E1 at 1. done.
Qed.
Lemma fs_frame_bio p s s' :
  bio_frame p s s' -> k_disk s' = k_disk s -> k_dtrace s' = k_dtrace s -> fs_frame p s s'.
Proof.
  intros (E & L & N & P & S) Hd Ht. split_and!; [|done|done|done| |done].
  - rewrite E at 1. rewrite Hd, Ht. rewrite E. by destruct s.
  - rewrite E. cbn. by destruct (k_log s).
Qed.
Lemma fs_frame_user p s s' : fs_frame p s s' -> bio_user s p -> bio_user s' p.
Proof.
  intros (_ & L & N & _) ((H1 & H2 & H3 & H4 & H5) & H6 & H7). unfold bio_user, running. rewrite L, N. done.
Qed.
Lemma fs_frame_fields p s s' : fs_frame p s s' ->
  k_disk s' = k_disk s /\ k_dtrace s' = k_dtrace s /\ k_itable s' = k_itable s /\ k_sb s' = k_sb s /\
  locks (k_lk s') = locks (k_lk s) /\ l_size (k_log s') = l_size (k_log s) /\
  l_outstanding (k_log s') = l_outstanding (k_log s).
Proof. intros (E & L & _ & _ & G & _). rewrite G, L. rewrite E. done. Qed.
Lemma fs_frame_lock p s s' lk : fs_frame p s s' -> lk_free lk (k_lk s) -> lk_free lk (k_lk s').
Proof. intros F. destruct (fs_frame_fields p s s' F) as (_ & _ & _ & _ & L & _). unfold lk_free. by rewrite L. Qed.

(** ** A process that holds the buffers [H] inside a transaction *)
Definition buf_logged (s : kernel) (q : buf) : Prop := b_dev q = dev /\ b_blockno q ∈ logged_blocks (k_log s).
#[local] Instance buf_logged_dec s q : Decision (buf_logged s q) := _.

Record intx (H : list nat) (p : nat) (s : kernel) : Prop := {
  t_user : bio_user s p;
  t_lock : lk_free L_log (k_lk s);
  t_inv : cache_inv s;
  t_log : log_wf (k_log s);
  t_dev : dev <> 0 /\ forall b, (b < HEAD)%nat -> b_valid (buf_at s b) <> 0 \/ 0 < b_refcnt (buf_at s b) ->
    b_dev (buf_at s b) = dev;
  t_held : NoDup H /\ forall b, b ∈ H -> (b < HEAD)%nat /\ sl_mine s p (SL_buf b) = true /\ b_valid (buf_at s b) <> 0;
  t_rest : forall b, (b < HEAD)%nat -> b ∉ H -> sl_locked (sl_at s (SL_buf b)) = 0;
  t_ref : forall b, (b < HEAD)%nat -> b_refcnt (buf_at s b) =
    (if decide (b ∈ H) then 1 else 0) + (if decide (buf_logged s (buf_at s b)) then 1 else 0);
  t_pinned : forall x, x ∈ logged_blocks (k_log s) ->
    exists b, (b < HEAD)%nat /\ caches s b dev x /\ b_valid (buf_at s b) <> 0;
}.

(** Blocks are cached at most once. *)
Lemma intx_once H p s b b' x :
  intx H p s -> (b < HEAD)%nat -> (b' < HEAD)%nat -> caches s b dev x -> caches s b' dev x -> b = b'.
Proof. intros I Hb Hb' [E1 E2] [E3 E4]. destruct (t_dev _ _ _ I). apply (ci_once s (t_inv _ _ _ I)); congruence. Qed.

(** A block that is neither held nor logged is on the disk as it is seen. *)
Lemma view_clean H p s x :
  intx H p s -> x ∉ logged_blocks (k_log s) -> (forall b, b ∈ H -> ~ caches s b dev x) -> view s x = disk_block s x.
Proof.
  intros I Hx HH. destruct (view_cases s x) as [(b & Hb & Hc & Hv & ->)|[_ ->]]; [|done].
  destruct (ci_unused s (t_inv _ _ _ I) b Hb) as [_ Hd].
  - rewrite (t_ref _ _ _ I b Hb). rewrite decide_False by (intros Hin; by apply (HH b)).
    rewrite decide_False; [done|]. intros [_ Hin]. apply Hx. by rewrite <- (proj2 Hc).
  - rewrite (Hd Hv). by rewrite (proj2 Hc).
Qed.

(** With fewer buffers held and blocks logged than the cache has buffers,
    one is free. *)
Lemma intx_free H p s :
  intx H p s -> (length H + length (logged_blocks (k_log s)) < HEAD)%nat -> some_free s.
Proof.
  intros I Hlen. destruct (decide (Exists (fun b => b_refcnt (buf_at s b) = 0) (seq 0 HEAD))) as [He|He].
  { apply Exists_exists in He as (b & Hb%elem_of_seq & Hz). exists b. split; [lia|done]. }
  exfalso. rewrite <- Forall_Exists_neg, Forall_forall in He.
  set (R := filter (fun b => b ∉ H) (seq 0 HEAD)).
  assert (HR : forall b, b ∈ R -> (b < HEAD)%nat /\ buf_logged s (buf_at s b)).
  { intros b [Hn Hs]%list_elem_of_filter. pose proof (He b Hs) as Hz. apply elem_of_seq in Hs. split; [lia|].
    rewrite (t_ref _ _ _ I b) in Hz by lia. rewrite decide_False in Hz by done. by case_decide. }
  assert (H1 : (length R <= length (logged_blocks (k_log s)))%nat).
  { rewrite <- (length_map (fun b => b_blockno (buf_at s b))). apply submseteq_length, NoDup_submseteq.
    - apply NoDup_fmap_2_strong; [|apply NoDup_filter, NoDup_seq].
      intros a b Ha Hb E. destruct (HR a Ha) as [La [Da _]], (HR b Hb) as [Lb [Db _]].
      destruct (t_dev _ _ _ I). apply (ci_once s (t_inv _ _ _ I)); congruence.
    - intros x Hx. apply list_elem_of_fmap in Hx as (b & -> & Hb). by apply HR. }
  assert (H2 : (HEAD <= length (H ++ R))%nat).
  { rewrite <- (length_seq HEAD 0) at 1. apply submseteq_length, NoDup_submseteq; [apply NoDup_seq|].
    intros b Hb. apply elem_of_app. destruct (decide (b ∈ H)); [by left|right]. by apply list_elem_of_filter. }
  rewrite length_app in H2. lia.
Qed.

Lemma intx_ref H p s b : intx H p s -> (b < HEAD)%nat -> 0 <= b_refcnt (buf_at s b) <= 2.
Proof. intros I Hb. rewrite (t_ref _ _ _ I b Hb). do 2 case_decide; lia. Qed.
Lemma intx_held_ref H p s b : intx H p s -> b ∈ H -> 1 <= b_refcnt (buf_at s b).
Proof. intros I Hb. rewrite (t_ref _ _ _ I b) by (by apply (t_held _ _ _ I)). rewrite decide_True by done. case_decide; lia. Qed.
Lemma buf_logged_caches s s' b b' x :
  k_log s' = k_log s -> caches s b dev x -> caches s' b' dev x -> buf_logged s' (buf_at s' b') <-> buf_logged s (buf_at s b).
Proof. unfold buf_logged. intros -> [-> ->] [-> ->]. done. Qed.

(** ** Reading a block *)
Lemma got_view H p s x b s1 y :
  intx H p s -> got s p dev x b s1 -> view s1 y = view s y.
Proof.
  intros I G. pose proof G as [(_ & I1 & Hb & C1 & V1 & _ & Cs & Hne & _ & Hdk & _) _ _ Hct].
  pose proof (t_inv _ _ _ I) as Hinv. destruct (t_dev _ _ _ I) as [Hd _].
  destruct (decide (y = x)) as [->|Hyx].
  { rewrite (view_loaded s1 x b) by done. apply Hct, content_view. }
  assert (Hs : forall i, (i < HEAD)%nat -> caches s1 i dev y -> i <> b /\ caches s i dev y).
  { intros i Hi Hc. assert (i <> b) by (intros ->; destruct C1, Hc; congruence). split; [done|].
    by apply (caches_eq _ _ _ _ _ (Hne i ltac:(done))). }
  destruct (view_cases s y) as [(i & Hi & Hc & Hv & Ev)|[Hn Ev]]; rewrite Ev.
  - destruct (decide (i = b)) as [->|Hib].
    + destruct Cs as [([_ E] & _)|(_ & Hz & _)]; [destruct Hc; congruence|].
      rewrite view_unloaded.
      * destruct (ci_unused s Hinv b Hb Hz) as [_ ->]; [|done]. rewrite (proj2 Hc). unfold disk_block. by rewrite Hdk.
      * intros j Hj Hcj. destruct (Hs j Hj Hcj) as [Hjb Hcj']. exfalso. apply Hjb. by apply (intx_once H p s j b y).
    + rewrite (view_loaded s1 y i); [by rewrite Hne|done..| |by rewrite Hne].
      by apply (caches_eq _ _ _ _ _ (Hne i Hib)).
  - rewrite view_unloaded; [unfold disk_block; by rewrite Hdk|].
    intros j Hj Hcj. destruct (Hs j Hj Hcj) as [Hjb Hcj']. rewrite Hne by done. by apply Hn.
Qed.

Lemma got_intx H p s x b s1 :
  intx H p s -> (forall i, i ∈ H -> ~ caches s i dev x) -> got s p dev x b s1 ->
  b ∉ H /\ intx (b :: H) p s1.
Proof.
  intros I HH G. pose proof G as [(F & I1 & Hb & C1 & V1 & T1 & Cs & Hne & Hsl & Hdk & Htr) M1 _ _].
  pose proof (frame_log p s s1 F) as Hlog. destruct (t_dev _ _ _ I) as [Hd Hone]. destruct (t_held _ _ _ I) as [Hnd Hheld].
  assert (Hmiss : b_refcnt (buf_at s b) = 0 -> b ∉ H /\ ~ buf_logged s (buf_at s b)).
  { intros Hz. rewrite (t_ref _ _ _ I b Hb) in Hz. do 2 case_decide; try lia; done. }
  assert (HbH : b ∉ H).
  { destruct Cs as [(Hc & _)|(_ & Hz & _)]; [intros Hin; by apply (HH b)|by apply Hmiss]. }
  split; [done|]. split.
  - eapply bio_frame_user; [exact F|apply I].
  - unfold lk_free. rewrite (frame_locks p s s1 F). apply (t_lock _ _ _ I).
  - done.
  - rewrite Hlog. apply I.
  - split; [done|]. intros i Hi. destruct (decide (i = b)) as [->|Hib]; [intros _; apply C1|]. rewrite Hne by done. by apply Hone.
  - split; [by constructor|]. intros i [->|Hin]%elem_of_cons; [done|]. destruct (Hheld i Hin) as (Hi & Hm & Hv).
    assert (i <> b) by (intros ->; done). rewrite Hne by done. split_and!; [done| |done].
    unfold sl_mine. rewrite Hsl by done. destruct F as (_ & _ & _ & -> & _). exact Hm.
  - intros i Hi Hn. rewrite not_elem_of_cons in Hn. destruct Hn as [Hib Hin]. rewrite Hsl by done. by apply (t_rest _ _ _ I).
  - intros i Hi. destruct (decide (i = b)) as [->|Hib].
    + rewrite decide_True by (by left). destruct Cs as [(Hc & -> & _)|(Hno & Hz & -> & _)].
      * rewrite (t_ref _ _ _ I b Hb). rewrite decide_False by done.
        rewrite (decide_ext _ _ 1 0 (buf_logged_caches s s1 b b x Hlog Hc C1)). lia.
      * rewrite decide_False; [done|]. intros [_ Hin]. rewrite Hlog, (proj2 C1) in Hin.
        destruct (t_pinned _ _ _ I x Hin) as (j & Hj & Hcj & _). by apply (Hno j).
    + rewrite Hne, (t_ref _ _ _ I i Hi) by done. f_equal; apply decide_ext; [rewrite elem_of_cons; naive_solver|unfold buf_logged; by rewrite Hlog].
  - intros y Hy. rewrite Hlog in Hy. destruct (t_pinned _ _ _ I y Hy) as (j & Hj & Hcj & Hvj).
    destruct (decide (j = b)) as [->|Hjb].
    + destruct Cs as [(Hc & _)|(_ & Hz & _)].
      * exists b. assert (y = x) as -> by (destruct Hc, Hcj; congruence). done.
      * exfalso. apply (Hmiss Hz). destruct Hcj as [E1 E2]. split; [done|]. by rewrite E2.
    + exists j. rewrite Hne by done. split_and!; [done| |done]. by apply (caches_eq _ _ _ _ _ (Hne j Hjb)).
Qed.

(** [s'] differs from [s] by cache traffic: the view is the same. *)
Definition same_view (p : nat) (s s' : kernel) : Prop := fs_frame p s s' /\ forall y, view s' y = view s y.

(** [bread] hands out the block as it is seen. *)
Lemma bread_tx n H p s x :
  intx H p s -> (HEAD < n)%nat -> (length H + length (logged_blocks (k_log s)) < HEAD)%nat ->
  (forall i, i ∈ H -> ~ caches s i dev x) ->
  exists b s1, bread dev x n s = Ret b s1 /\ b ∉ H /\ intx (b :: H) p s1 /\ same_view p s s1 /\
    caches s1 b dev x /\ b_data (buf_at s1 b) = view s x /\ k_log s1 = k_log s /\
    (forall i, i ∈ H -> buf_at s1 i = buf_at s i).
Proof.
  intros I Hn Hroom HH. destruct (bread_got n s p dev x) as (b & s1 & E & G); [apply I|apply I|apply I|done| | |].
  { intros b Hb Hc. split; [apply (t_rest _ _ _ I b Hb); intros Hin; by apply (HH b)|].
    pose proof (intx_ref _ _ _ _ I Hb). change (2 ^ 31) with 2147483648. lia. }
  { destruct (intx_free _ _ _ I Hroom) as (b & Hb & Hz). exists b. auto. }
  destruct (got_intx H p s x b s1 I HH G) as [HbH I1].
  pose proof G as [(F & _ & Hb & C1 & V1 & _ & _ & Hne & _ & Hdk & Htr) _ _ Hct].
  exists b, s1. split_and!; try done.
  - split; [by apply fs_frame_bio|]. intros y. by apply (got_view H p s x b).
  - apply Hct, content_view.
  - by apply (frame_log p).
  - intros i Hi. apply Hne. by intros ->.
Qed.

(** ** Releasing a block *)
Lemma brelse_tx n H b p s :
  intx (b :: H) p s ->
  (b_blockno (buf_at s b) ∈ logged_blocks (k_log s) \/ b_data (buf_at s b) = disk_block s (b_blockno (buf_at s b))) ->
  exists s', brelse b n s = Ret tt s' /\ intx H p s' /\ same_view p s s' /\ k_log s' = k_log s /\
    (forall i, core (buf_at s' i) = if decide (i = b)
       then set_b_refcnt (b_refcnt (buf_at s b) - 1) (core (buf_at s b)) else core (buf_at s i)).
Proof.
  intros I Hclean. destruct (t_held _ _ _ I) as [Hnd Hheld]. apply NoDup_cons in Hnd as [HbH Hnd].
  destruct (Hheld b) as (Hb & Hm & Hv); [by apply elem_of_cons; left|].
  pose proof (intx_held_ref _ _ _ b I ltac:(by apply elem_of_cons; left)) as Hr1.
  pose proof (intx_ref _ _ _ b I Hb) as Hr2. destruct (t_dev _ _ _ I) as [Hd Hone].
  assert (Hbd : b_dev (buf_at s b) = dev) by (apply Hone; [done|by left]).
  destruct (brelse_spec n s p b) as (s' & E & F & I' & C & S' & D & T); [apply I|apply I|done|done| | |].
  { change (2 ^ 32) with 4294967296. lia. }
  { intros H1 _. destruct Hclean as [Hin|?]; [|done]. exfalso. rewrite (t_ref _ _ _ I b Hb) in H1.
    rewrite decide_True in H1 by (by apply elem_of_cons; left). rewrite decide_True in H1 by done. lia. }
  assert (Cf : forall i, b_valid (buf_at s' i) = b_valid (buf_at s i) /\ b_dev (buf_at s' i) = b_dev (buf_at s i) /\
     b_blockno (buf_at s' i) = b_blockno (buf_at s i) /\ b_data (buf_at s' i) = b_data (buf_at s i) /\
     b_refcnt (buf_at s' i) = b_refcnt (buf_at s i) - (if decide (i = b) then 1 else 0)).
  { intros i. specialize (C i). destruct (decide (i = b)) as [->|Hib].
    - by destruct (core_fields _ (set_b_refcnt (b_refcnt (buf_at s b) - 1) (buf_at s b)) C) as (-> & -> & -> & -> & ->).
    - destruct (core_fields _ _ C) as (-> & -> & -> & -> & ->). split_and!; [done..|lia]. }
  pose proof (frame_log p s s' F) as Hlog.
  exists s'. split; [done|]. split; [|split; [|done]].
  - split.
    + eapply bio_frame_user; [exact F|apply I].
    + unfold lk_free. rewrite (frame_locks p s s' F). apply (t_lock _ _ _ I).
    + done.
    + rewrite Hlog. apply I.
    + split; [done|]. intros i Hi. destruct (Cf i) as (-> & -> & _ & _ & ->). intros [?|?]; apply Hone; auto. right. case_decide; lia.
    + split; [done|]. intros i Hi. destruct (Hheld i) as (Hi1 & Hm1 & Hv1); [by apply elem_of_cons; right|].
      destruct (Cf i) as (-> & _). split_and!; [done| |done]. unfold sl_mine. rewrite S', decide_False by (by intros ->).
      destruct F as (_ & _ & _ & -> & _). exact Hm1.
    + intros i Hi Hn. rewrite S'. case_decide as Eb; [done|]. apply (t_rest _ _ _ I i Hi). by rewrite not_elem_of_cons.
    + intros i Hi. destruct (Cf i) as (_ & Ed & Eb & _ & ->). rewrite (t_ref _ _ _ I i Hi).
      rewrite (decide_ext (buf_logged s' (buf_at s' i)) (buf_logged s (buf_at s i)) 1 0) by (unfold buf_logged; by rewrite Hlog, Ed, Eb).
      destruct (decide (i = b)) as [->|Hib].
      * rewrite (decide_True 1 0) by (by apply elem_of_cons; left). rewrite (decide_False (P := b ∈ H)) by done. lia.
      * rewrite (decide_ext (i ∈ b :: H) (i ∈ H) 1 0) by (rewrite elem_of_cons; naive_solver). lia.
    + intros y Hy. rewrite Hlog in Hy. destruct (t_pinned _ _ _ I y Hy) as (j & Hj & [E1 E2] & Hvj). exists j.
      destruct (Cf j) as (Ev & Ed & Eb & _). split_and!; [done|split; congruence|congruence].
  - split; [by apply fs_frame_bio|]. intros y. apply view_core; [|done]. intros i _. destruct (Cf i) as (? & ? & ? & ? & _). done.
Qed.

(** ** Changing a held block *)
Lemma bdata_tx H p s b x d :
  intx H p s -> b ∈ H -> caches s b dev x ->
  let s' := upd_buf b (set_b_data d) s in
  intx H p s' /\ fs_frame p s s' /\ (forall y, view s' y = if decide (y = x) then d else view s y).
Proof.
  intros I Hin Hx s'. destruct (t_held _ _ _ I) as [Hnd Hheld]. destruct (Hheld b Hin) as (Hb & Hm & Hv).
  pose proof (t_inv _ _ _ I) as Hinv. destruct (t_dev _ _ _ I) as [Hd Hone].
  assert (Hlen : (b < length (k_bcache s))%nat) by (destruct (ci_ring s Hinv) as [l [Hl _]]; rewrite Hl; lia).
  assert (Hb' : buf_at s' b = set_b_data d (buf_at s b)) by (by apply buf_at_upd_eq).
  assert (Hne : forall i, i <> b -> buf_at s' i = buf_at s i) by (intros; apply buf_at_upd_ne; congruence).
  assert (Cf : forall i, b_valid (buf_at s' i) = b_valid (buf_at s i) /\ b_dev (buf_at s' i) = b_dev (buf_at s i) /\
     b_blockno (buf_at s' i) = b_blockno (buf_at s i) /\ b_refcnt (buf_at s' i) = b_refcnt (buf_at s i)).
  { intros i. destruct (decide (i = b)) as [->|Hib]; [by rewrite Hb'|by rewrite Hne]. }
  assert (Ccx : forall i y, caches s' i dev y <-> caches s i dev y).
  { intros i y. unfold caches. by destruct (Cf i) as (_ & -> & -> & _). }
  assert (I' : cache_inv s').
  { apply (cache_inv_upd s s' b); [done| |done|done|done| |].
    - destruct (ci_ring s Hinv) as [l Hl]. exists l. by apply ring_upd.
    - destruct (Cf b) as (_ & _ & _ & ->). pose proof (intx_held_ref _ _ _ _ I Hin). lia.
    - destruct (Cf b) as (_ & -> & -> & _). intros i Hi Hib [Hnz [E1 E2]]. apply Hib, (ci_once s Hinv); congruence. }
  split; [|split; [done|]].
  - split; try apply I; [done| | | |].
    + split; [done|]. intros i Hi. destruct (Cf i) as (-> & -> & _ & ->). by apply Hone.
    + split; [done|]. intros i Hi. destruct (Cf i) as (-> & _). by apply Hheld.
    + intros i Hi. destruct (Cf i) as (_ & Ed & Eb & ->). rewrite (t_ref _ _ _ I i Hi). f_equal. apply decide_ext.
      unfold buf_logged. by rewrite Ed, Eb.
    + intros y Hy. destruct (t_pinned _ _ _ I y Hy) as (j & Hj & Hc & Hvj). exists j. rewrite Ccx. destruct (Cf j) as (-> & _). done.
  - intros y. case_decide as Ey.
    + subst y. rewrite (view_loaded s' x b); [by rewrite Hb'|done..|by apply Ccx|by destruct (Cf b) as (-> & _)].
    + destruct (view_cases s y) as [(i & Hi & Hc & Hvi & ->)|[Hn ->]].
      * assert (i <> b) by (intros ->; destruct Hx, Hc; congruence).
        rewrite (view_loaded s' y i); [by rewrite Hne|done..|by apply Ccx|by destruct (Cf i) as (-> & _)].
      * change (disk_block s y) with (disk_block s' y). apply view_unloaded. intros i Hi Hc. destruct (Cf i) as (-> & _). apply Hn; [done|by apply Ccx].
Qed.

(** ** Recording a changed block in the transaction *)
Definition log_has_room (s : kernel) : Prop :=
  lh_n (k_log s) < LOGSIZE /\ lh_n (k_log s) < l_size (k_log s) - 1 /\ 1 <= l_outstanding (k_log s).

Lemma log_write_tx n H p s b x :
  intx H p s -> b ∈ H -> caches s b dev x -> 0 <= x < 2 ^ 32 -> log_has_room s ->
  exists s', log_write b n s = Ret tt s' /\ intx H p s' /\ same_view p s s' /\
    logged_blocks (k_log s') = (if decide (x ∈ logged_blocks (k_log s)) then logged_blocks (k_log s) else logged_blocks (k_log s) ++ [x]) /\
    (forall i, caches s' i = caches s i /\ b_data (buf_at s' i) = b_data (buf_at s i)).
Proof.
  intros I Hin Hx Hr (Hl1 & Hl2 & Hl3). destruct (t_held _ _ _ I) as [Hnd Hheld]. destruct (Hheld b Hin) as (Hb & Hm & Hv).
  pose proof (t_inv _ _ _ I) as Hinv. destruct (t_dev _ _ _ I) as [Hd Hone]. pose proof (t_user _ _ _ I) as ((Hok & _) & Hfb & _).
  assert (Hlen : (b < length (k_bcache s))%nat) by (destruct (ci_ring s Hinv) as [l [Hl _]]; rewrite Hl; lia).
  destruct (log_add_blocks x (k_log s) (t_log _ _ _ I) Hr Hl1) as (Hw & Hbl & Hi).
  pose proof (log_write_run n s b Hok (t_lock _ _ _ I) Hfb Hl1 Hl2 Hl3) as E. cbv zeta in E. rewrite (proj2 Hx), Hi in E.
  set (s' := set_k_log _ _) in E. exists s'. split; [done|].
  assert (Cf : forall i, b_valid (buf_at s' i) = b_valid (buf_at s i) /\ b_dev (buf_at s' i) = b_dev (buf_at s i) /\
     b_blockno (buf_at s' i) = b_blockno (buf_at s i) /\ b_data (buf_at s' i) = b_data (buf_at s i) /\
     b_refcnt (buf_at s' i) = b_refcnt (buf_at s i) + (if decide (i = b /\ x ∉ logged_blocks (k_log s)) then 1 else 0)).
  { intros i. unfold s'. case_bool_decide as Ex.
    - change (buf_at (set_k_log ?l ?z) i) with (buf_at z i). destruct (decide (i = b)) as [->|Hib].
      + rewrite buf_at_upd_eq, decide_True by done. split_and!; [done..|]. pose proof (intx_ref _ _ _ _ I Hb). cbn. apply u32_small. lia.
      + rewrite buf_at_upd_ne, decide_False by naive_solver. split_and!; [done..|lia].
    - rewrite decide_False by naive_solver. split_and!; [done..|change (buf_at (set_k_log ?l ?z) i) with (buf_at z i); lia]. }
  assert (Hlog : k_log s' = log_add x (k_log s)) by done.
  assert (Hsl : forall i, sl_at s' (SL_buf i) = sl_at s (SL_buf i)) by (intros i; unfold s'; by case_bool_decide).
  assert (Hcc : forall i, caches s' i = caches s i) by (intros i; unfold caches; by destruct (Cf i) as (_ & -> & -> & _)).
  assert (Hin' : forall y, y ∈ logged_blocks (k_log s') <-> y = x \/ y ∈ logged_blocks (k_log s)).
  { intros y. rewrite Hlog, Hbl. destruct (decide (x ∈ _)); rewrite ?elem_of_app, ?list_elem_of_singleton; naive_solver. }
  assert (I' : cache_inv s').
  { apply (cache_inv_upd s s' b); [done| | | | | |].
    - destruct (ci_ring s Hinv) as [l Hl]. exists l. unfold s'. case_bool_decide; [by apply ring_upd|done].
    - intros i Hib. unfold s'. case_bool_decide; [|done]. apply (buf_at_upd_ne b i); congruence.
    - done.
    - unfold s'. by case_bool_decide.
    - destruct (Cf b) as (_ & _ & _ & _ & ->). pose proof (intx_held_ref _ _ _ _ I Hin). destruct (decide (b = b /\ _)); lia.
    - destruct (Cf b) as (_ & -> & -> & _). intros i Hi' Hib [Hnz [E1 E2]]. apply Hib, (ci_once s Hinv); congruence. }
  split; [|split; [|split; [by rewrite Hlog|]]].
  - split; try done.
    + unfold s'. case_bool_decide; exact (t_user _ _ _ I).
    + unfold s'. case_bool_decide; exact (t_lock _ _ _ I).
    + split; [done|]. intros i Hi'. destruct (Cf i) as (-> & -> & _ & _ & ->). intros Hor. apply Hone; [done|].
      destruct Hor as [?|?]; [by left|]. destruct (decide (i = b /\ _)) as [[-> _]|]; [by left|right; lia].
    + split; [done|]. intros i Hi'. destruct (Cf i) as (-> & _). destruct (Hheld i Hi') as (? & Hmi & ?). split_and!; [done| |done].
      unfold s'. by case_bool_decide.
    + intros i Hi' Hn. rewrite Hsl. by apply (t_rest _ _ _ I).
    + intros i Hi'. destruct (Cf i) as (_ & Ed & Eb & _ & ->). rewrite (t_ref _ _ _ I i Hi').
      assert (Hlg : buf_logged s' (buf_at s' i) <-> buf_logged s (buf_at s i) \/ (i = b /\ x ∉ logged_blocks (k_log s)) \/ (i = b /\ buf_logged s (buf_at s i))).
      { unfold buf_logged. rewrite Hin', Ed, Eb. split.
        - intros [E1 [E2|E2]]; [|by left]. assert (i = b) as -> by (apply (intx_once H p s i b x); done).
          destruct (decide (x ∈ logged_blocks (k_log s))) as [Hy|Hy]; [left|by right; left]. by rewrite (proj2 Hx).
        - intros [[E1 E2]|[[-> E2]|[-> [E1 E2]]]]; [by auto| |by auto]. destruct Hx as [E3 E4]. by rewrite E3, E4; auto. }
      assert (Hexcl : buf_logged s (buf_at s i) -> ~ (i = b /\ x ∉ logged_blocks (k_log s))).
      { intros [_ E2] [-> Hn]. apply Hn. by rewrite <- (proj2 Hx). }
      destruct (decide (buf_logged s' (buf_at s' i))) as [D1|D1], (decide (buf_logged s (buf_at s i))) as [D2|D2],
        (decide (i = b /\ x ∉ logged_blocks (k_log s))) as [D3|D3]; try lia; exfalso; tauto.
    + intros y [->|Hy]%Hin'.
      * exists b. rewrite Hcc. destruct (Cf b) as (-> & _). done.
      * destruct (t_pinned _ _ _ I y Hy) as (j & Hj & Hc & Hvj). exists j. rewrite Hcc. destruct (Cf j) as (-> & _). done.
  - split.
    + split_and!; unfold s'; case_bool_decide; try done; unfold log_add; by destruct (_ =? _).
    + intros y. apply view_core; [|unfold s'; by case_bool_decide]. intros i _. destruct (Cf i) as (? & ? & ? & ? & _). done.
  - intros i. split; [done|]. by destruct (Cf i) as (_ & _ & _ & -> & _).
Qed.
End Blocks.

(** ** The state after [binit], in an open transaction, on a given disk *)
Definition ex_lg : log := set_l_outstanding 1 (set_l_size 30 log0).
Lemma ex_tx_state d sb it : exists s, intx 1 [] 3 s /\ k_log s = ex_lg /\ k_disk s = d /\ k_sb s = sb /\ k_itable s = it /\ lk_free L_itable (k_lk s) /\
  (forall x, view 1 s x = default zero_block (d !! x)) /\
  (forall i, (i < Z.to_nat NINODE)%nat -> lk_free (L_sleep (SL_inode i)) (k_lk s) /\ sl_locked (sl_at s (SL_inode i)) = 0).
Proof.
  destruct ex_bio_state as (s0 & _ & Hu & Hinv & Hz & _ & _ & Hf & _ & Hfi & Hfs).
  set (s := set_k_itable it (set_k_sb sb (set_k_log ex_lg (set_k_disk d s0)))). exists s.
  assert (Hb : forall b, buf_at s b = buf_at s0 b) by done.
  assert (Hno : forall b x, (b < HEAD)%nat -> ~ caches s b 1 x).
  { intros b x H1 [H2 _]. rewrite Hb in H2. destruct (Hz b H1) as [E _]. rewrite E in H2. done. }
  split_and!; try done.
  - split; try done.
    + split; [exact (ci_ring s0 Hinv)|exact (ci_once s0 Hinv)|exact (ci_ref s0 Hinv)|].
      intros i Hi H0. split; [exact (proj1 (ci_unused s0 Hinv i Hi H0))|]. intros Hv. exfalso. apply Hv, (Hz i Hi).
    + split_and!; [done|done|done|constructor].
    + split; [done|]. intros b H1 Hor. exfalso. destruct (Hz b H1) as (_ & E1 & E2). rewrite Hb, E1, E2 in Hor. destruct Hor; [done|lia].
    + split; [constructor|]. intros b H1. by apply elem_of_nil in H1.
    + intros b H1 _. change (sl_at s (SL_buf b)) with (sl_at s0 (SL_buf b)). apply (ci_unused s0 Hinv b H1). apply (Hz b H1).
    + intros b H1. rewrite decide_False by (by intros ?%elem_of_nil). rewrite decide_False by (intros [_ H2]; by apply elem_of_nil in H2).
      rewrite Hb. apply (Hz b H1).
    + intros x H1. by apply elem_of_nil in H1.
  - intros x. apply view_unloaded. intros b H1 Hc. exfalso. by apply (Hno b x).
Qed.
