(* ===== verification/Balloc.v ===== *)
(** * Allocating and freeing disk blocks

    kernel/fs.c, [bzero], [balloc] and [bfree] on the view of Blocks.v: the
    bitmap block, the block handed out, and the log space they take. *)

From S2P Require Import Prelude Params Kernel Spinlock StringC Kalloc Vm Proc Sleeplock Bio Log Crash Transaction Uart Printf Fs Blocks.

Lemma upd_buf_data b f s :
  upd_buf b (fun q => set_b_data (f (b_data q)) q) s = upd_buf b (set_b_data (f (b_data (buf_at s b)))) s.
Proof. unfold upd_buf. f_equal. by apply list_alter_ext_lookup. Qed.

Lemma bget_data b n s d : b_data (buf_at s b) = d -> bget_f b b_data n s = Ret d s.
Proof. by intros <-. Qed.

(** ** Log space *)

(** From [s0] to [s], inodes aside, the only blocks that joined the
    transaction are in [L]. *)
Definition grown (p : nat) (s0 : kernel) (L : list Z) (s : kernel) : Prop :=
  fs_frame p (set_k_itable (k_itable s) s0) s /\ forall y, y ∈ logged_blocks (k_log s) -> y ∈ logged_blocks (k_log s0) \/ y ∈ L.
(** The log has room for [k] more blocks. *)
Definition budget (s0 : kernel) (k : nat) : Prop :=
  log_wf (k_log s0) /\ lh_n (k_log s0) + Z.of_nat k <= LOGSIZE /\ lh_n (k_log s0) + Z.of_nat k < l_size (k_log s0) /\
  1 <= l_outstanding (k_log s0).

Lemma length_logged lg : log_wf lg -> Z.of_nat (length (logged_blocks lg)) = lh_n lg.
Proof. intros (Hn & Hl & _). unfold logged_blocks. rewrite length_map, length_take, Hl. change LOGSIZE with 30 in *. lia. Qed.
Lemma grown_length p s0 L s : log_wf (k_log s) -> grown p s0 L s ->
  (length (logged_blocks (k_log s)) <= length (logged_blocks (k_log s0)) + length L)%nat.
Proof.
  intros (_ & _ & Hnd) [_ Hg]. rewrite <- length_app. apply submseteq_length, NoDup_submseteq; [done|].
  intros y Hy. rewrite elem_of_app. by apply Hg.
Qed.
Lemma grown_room p s0 k L s : budget s0 k -> log_wf (k_log s) -> grown p s0 L s -> (length L < k)%nat -> log_has_room s.
Proof.
  intros (H0 & H1 & H2 & H3) Hw Hg Hk. pose proof (grown_length p s0 L s Hw Hg). pose proof (length_logged _ H0).
  pose proof (length_logged _ Hw). destruct (fs_frame_fields p _ s (proj1 Hg)) as (_ & _ & _ & _ & _ & Es & Eo).
  unfold log_has_room. rewrite Es, Eo. cbn. lia.
Qed.
Lemma grown_free p s0 k L s m : budget s0 k -> log_wf (k_log s) -> grown p s0 L s -> (m + length L < k)%nat ->
  (m + length (logged_blocks (k_log s)) < HEAD)%nat.
Proof.
  intros (H0 & H1 & _) Hw Hg Hk. pose proof (grown_length p s0 L s Hw Hg). pose proof (length_logged _ H0).
  change LOGSIZE with 30 in H1. change HEAD with 30%nat. lia.
Qed.
Lemma grown_refl p s0 L : grown p s0 L s0.
Proof. split; [apply fs_frame_refl|]. by left. Qed.
Lemma grown_sub p s0 L L' s : L ⊆ L' -> grown p s0 L s -> grown p s0 L' s.
Proof. intros Hs [F Hg]. split; [done|]. intros y Hy. destruct (Hg y Hy) as [?|?]; [by left|right; by apply Hs]. Qed.
Lemma grown_same p s0 L s s' : grown p s0 L s -> fs_frame p s s' -> k_log s' = k_log s -> grown p s0 L s'.
Proof.
  intros [F Hg] F' E. destruct (fs_frame_fields p s s' F') as (_ & _ & Ei & _). split; [|by rewrite E].
  rewrite Ei. by eapply fs_frame_trans.
Qed.
Lemma grown_fields p s0 L s : grown p s0 L s ->
  k_disk s = k_disk s0 /\ k_dtrace s = k_dtrace s0 /\ k_sb s = k_sb s0 /\ locks (k_lk s) = locks (k_lk s0).
Proof. intros [F _]. by destruct (fs_frame_fields p _ s F) as (-> & -> & _ & -> & -> & _). Qed.
Lemma grown_inode p s0 L s ip f : grown p s0 L s -> grown p s0 L (upd_inode ip f s).
Proof. intros [(E & F) Hg]. split; [|done]. split; [|exact F]. rewrite E at 1. done. Qed.

(** The inodes and the held buffers [H] are as they were. *)
Definition still (H : list nat) (s s' : kernel) : Prop :=
  k_itable s' = k_itable s /\ forall i, i ∈ H -> caches s' i = caches s i /\ b_data (buf_at s' i) = b_data (buf_at s i).
Lemma still_trans H s s1 s2 : still H s s1 -> still H s1 s2 -> still H s s2.
Proof. intros [E1 A] [E2 B]. split; [congruence|]. intros i Hi. destruct (B i Hi) as [-> ->]. by apply A. Qed.
Lemma still_buf p H s s' : fs_frame p s s' -> (forall i, i ∈ H -> buf_at s' i = buf_at s i) -> still H s s'.
Proof. intros F E. split; [by apply (fs_frame_fields p)|]. intros i Hi. unfold caches. by rewrite (E i Hi). Qed.
Lemma still_core p H s s' : fs_frame p s s' -> (forall i, i ∈ H -> core (buf_at s' i) = core (buf_at s i)) -> still H s s'.
Proof.
  intros F E. split; [by apply (fs_frame_fields p)|]. intros i Hi. unfold caches.
  by destruct (core_fields _ _ (E i Hi)) as (_ & -> & -> & _ & ->).
Qed.

(** ** The layout of the disk *)

(** [D] is the first data block; the bitmap takes one block, as it does for
    the FSSIZE = 2000 blocks of mkfs. *)
Record geometry (sb : superblock) (D : Z) : Prop := {
  ge_size : 0 < D <= sb_size sb /\ sb_size sb <= BPB;
  ge_bitmap : 0 < sb_bmapstart sb < D;
  ge_inodes : forall i, 0 <= i < sb_ninodes sb -> 0 < IBLOCK i sb < D /\ IBLOCK i sb <> sb_bmapstart sb;
}.
Lemma BBLOCK_one sb D a : geometry sb D -> 0 <= a < BPB -> BBLOCK a sb = sb_bmapstart sb.
Proof.
  intros [[H1 H2] H3 _] Ha. unfold BBLOCK. rewrite Z.div_small by done. change BPB with 8192 in *. apply u32_small. lia.
Qed.
(** The bit of a block in the view [V]. *)
Definition is_free (sb : superblock) (V : Z -> list Z) (a : Z) : bool := bit_free (V (sb_bmapstart sb)) a.
(** Blocks have BSIZE bytes; what is not a data block is not free. *)
Record vok (sb : superblock) (D : Z) (V : Z -> list Z) : Prop := {
  vo_len : forall x, length (V x) = Z.to_nat BSIZE;
  vo_meta : forall a, 0 <= a < D -> is_free sb V a = false;
}.
(** The block [balloc] takes. *)
Definition first_free (sb : superblock) (V : Z -> list Z) : option Z := List.find (is_free sb V) (seqZ 0 (sb_size sb)).
(** What [balloc] makes of the view. *)
Definition alloc_view (sb : superblock) (a : Z) (V : Z -> list Z) (y : Z) : list Z :=
  if decide (y = a) then zero_block
  else if decide (y = sb_bmapstart sb) then bit_set a (V (sb_bmapstart sb)) else V y.

Lemma first_free_data sb D V a : geometry sb D -> vok sb D V -> first_free sb V = Some a -> D <= a < sb_size sb /\ is_free sb V a = true.
Proof.
  intros G Hv [Ha Hf]%List.find_some. apply list_elem_of_In, elem_of_seqZ in Ha. split; [|done].
  destruct (decide (a < D)) as [Hlt|]; [|lia]. rewrite (vo_meta _ _ _ Hv a) in Hf; [done|lia].
Qed.
Lemma alloc_view_free sb D V a x : geometry sb D -> vok sb D V -> D <= a < sb_size sb -> 0 <= x < sb_size sb ->
  is_free sb (alloc_view sb a V) x = if decide (x = a) then false else is_free sb V x.
Proof.
  intros G Hv Ha Hx. destruct (ge_size _ _ G). destruct (ge_bitmap _ _ G). unfold is_free, alloc_view. rewrite decide_False by lia.
  rewrite decide_True by done. apply bit_free_set; [apply Hv|lia|lia].
Qed.
Lemma length_bit_set a data : length (bit_set a data) = length data.
Proof. apply length_aset. Qed.
Lemma alloc_view_ok sb D V a : geometry sb D -> vok sb D V -> D <= a < sb_size sb -> vok sb D (alloc_view sb a V).
Proof.
  intros G Hv Ha. pose proof (ge_size _ _ G). split.
  - intros x. unfold alloc_view. case_decide; [apply length_replicate|]. case_decide; [rewrite length_bit_set|]; apply Hv.
  - intros x Hx. rewrite (alloc_view_free sb D) by (done || lia). case_decide; [done|]. by apply (vo_meta _ _ _ Hv).
Qed.

Section Balloc.
Context {KI : KernelImage} {BD : BlockDevice} {UA : Uart16550}.
Variables (dev : Z) (p : nat) (s0 : kernel) (k n : nat).
Hypothesis Hbud : budget s0 k.
Hypothesis Hfuel : (HEAD < n)%nat.
Notation view := (view dev).
Notation intx := (intx dev).

(** [bread] inside the operation. *)
Lemma bread_at H L s x :
  intx H p s -> grown p s0 L s -> (length H + length L < k)%nat -> (forall i, i ∈ H -> ~ caches s i dev x) ->
  exists b s1, bread dev x n s = Ret b s1 /\ intx (b :: H) p s1 /\ grown p s0 L s1 /\ (forall y, view s1 y = view s y) /\
    caches s1 b dev x /\ b_data (buf_at s1 b) = view s x /\ still H s s1 /\
    (x ∈ logged_blocks (k_log s1) \/ b_data (buf_at s1 b) = disk_block s1 x).
Proof.
  intros I Hg Hk HH. destruct (bread_tx dev n H p s x I Hfuel) as (b & s1 & E & HbH & I1 & [F V] & C & Dt & El & Hne).
  { apply (grown_free p s0 k L s); [done|apply I|done|done]. }
  { done. }
  exists b, s1. split; [done|]. split; [done|]. split; [by eapply grown_same|]. split; [done|]. split; [done|]. split; [done|].
  split; [by apply (still_buf p)|]. rewrite El. destruct (decide (x ∈ logged_blocks (k_log s))) as [Hx|Hx]; [by left|right].
  rewrite Dt, (view_clean dev H p s x I Hx HH). unfold disk_block. by destruct (fs_frame_fields p s s1 F) as (-> & _).
Qed.

(** Changing a held block, recording it and releasing it. *)
Lemma update_at H L b x f s :
  intx (b :: H) p s -> grown p s0 L s -> caches s b dev x -> x ∈ L -> (length L < k)%nat -> 0 <= x < 2 ^ 32 ->
  exists s1 s2 s', bdata b f n s = Ret tt s1 /\ log_write b n s1 = Ret tt s2 /\ brelse b n s2 = Ret tt s' /\
    intx H p s' /\ grown p s0 L s' /\ still H s s' /\
    (forall y, view s' y = if decide (y = x) then f (b_data (buf_at s b)) else view s y).
Proof.
  intros I Hg C HL Hk Hx. destruct (t_held _ _ _ _ I) as [Hnd _]. apply NoDup_cons in Hnd as [HbH _].
  assert (Hb : b ∈ b :: H) by (apply elem_of_cons; by left).
  destruct (bdata_tx dev (b :: H) p s b x (f (b_data (buf_at s b))) I Hb C) as (I1 & F1 & V1).
  set (s1 := upd_buf b _ s) in *.
  assert (E1 : bdata b f n s = Ret tt s1) by (unfold bdata, bset, modify; by rewrite upd_buf_data).
  assert (Hne1 : forall i, i <> b -> buf_at s1 i = buf_at s i) by (intros; apply buf_at_upd_ne; congruence).
  assert (C1 : caches s1 b dev x).
  { unfold caches, s1. rewrite buf_at_upd_eq; [exact C|]. destruct (ci_ring s (t_inv _ _ _ _ I)) as [l [-> _]].
    pose proof (proj1 (proj2 (t_held _ _ _ _ I) b Hb)). lia. }
  assert (G1 : grown p s0 L s1) by (by apply (grown_same p s0 L s)).
  destruct (log_write_tx dev n (b :: H) p s1 b x I1 Hb C1 Hx) as (s2 & E2 & I2 & [F2 V2] & L2 & Hc2).
  { apply (grown_room p s0 k L); [done|apply I1|done|done]. }
  assert (HL2 : forall y, y ∈ logged_blocks (k_log s2) <-> y = x \/ y ∈ logged_blocks (k_log s1)).
  { intros y. rewrite L2. destruct (decide _); rewrite ?elem_of_app, ?list_elem_of_singleton; naive_solver. }
  assert (G2 : grown p s0 L s2).
  { split; [|intros y [->|Hy]%HL2; [by right|by apply (proj2 G1)]].
    destruct (fs_frame_fields p s1 s2 F2) as (_ & _ & Ei & _). rewrite Ei. eapply fs_frame_trans; [apply G1|done]. }
  assert (C2 : caches s2 b dev x) by (by rewrite (proj1 (Hc2 b))).
  destruct (brelse_tx dev n H b p s2 I2) as (s' & E' & I' & [F' V'] & L' & Hc').
  { left. rewrite (proj2 C2). apply HL2. by left. }
  exists s1, s2, s'. split_and!; try done.
  - by apply (grown_same p s0 L s2).
  - apply (still_trans H s s1); [apply (still_buf p); [done|]; intros i Hi; apply Hne1; by intros ->|].
    apply (still_trans H s1 s2); [split; [by apply (fs_frame_fields p)|]; intros i _; apply Hc2|]. apply (still_core p); [done|]. intros i Hi. rewrite Hc', decide_False by (by intros ->). done.
  - intros y. by rewrite V', V2, V1.
Qed.

(** Releasing a block that was only read. *)
Lemma release_at H L b x s :
  intx (b :: H) p s -> grown p s0 L s -> caches s b dev x ->
  x ∈ logged_blocks (k_log s) \/ b_data (buf_at s b) = disk_block s x ->
  exists s', brelse b n s = Ret tt s' /\ intx H p s' /\ grown p s0 L s' /\ still H s s' /\ (forall y, view s' y = view s y).
Proof.
  intros I Hg C Hcl. destruct (t_held _ _ _ _ I) as [Hnd _]. apply NoDup_cons in Hnd as [HbH _].
  destruct (brelse_tx dev n H b p s I) as (s' & E' & I' & [F' V'] & L' & Hc'); [by rewrite (proj2 C)|].
  exists s'. split_and!; try done; [by apply (grown_same p s0 L s)|].
  apply (still_core p); [done|]. intros i Hi. rewrite Hc', decide_False by (by intros ->). done.
Qed.

Lemma bzero_at H L x s :
  intx H p s -> grown p s0 L s -> x ∈ L -> (length H + length L < k)%nat -> 0 <= x < 2 ^ 32 ->
  (forall i, i ∈ H -> ~ caches s i dev x) ->
  exists s', bzero dev x n s = Ret tt s' /\ intx H p s' /\ grown p s0 L s' /\ still H s s' /\
    (forall y, view s' y = if decide (y = x) then zero_block else view s y).
Proof.
  intros I Hg HL Hk Hx HH. destruct (bread_at H L s x I Hg Hk HH) as (b & s1 & E1 & I1 & G1 & V1 & C1 & _ & S1 & _).
  destruct (update_at H L b x (fun _ => zero_block) s1 I1 G1 C1 HL ltac:(lia) Hx) as (s2 & s3 & s4 & E2 & E3 & E4 & I4 & G4 & S4 & V4).
  exists s4. split_and!; try done.
  - unfold bzero. rewrite (bind_ret _ _ _ _ _ _ E1). change (replicate (Z.to_nat BSIZE) 0) with zero_block.
    by rewrite (bind_ret _ _ _ _ _ _ E2), (bind_ret _ _ _ _ _ _ E3).
  - by eapply still_trans.
  - intros y. rewrite V4. case_decide; [done|apply V1].
Qed.

Variables (sb : superblock) (D : Z).
Hypothesis Hgeo : geometry sb D.
Hypothesis Hsb : k_sb s0 = sb.

Lemma grown_sb L s : grown p s0 L s -> k_sb s = sb.
Proof. intros Hg. by destruct (grown_fields p s0 L s Hg) as (_ & _ & -> & _). Qed.
Lemma gets_sb L s : grown p s0 L s -> gets k_sb n s = Ret sb s.
Proof. intros Hg. unfold gets. f_equal. by apply (grown_sb L). Qed.

(** The held buffers are of allocated blocks. *)
Definition holds_alloc (H : list nat) (s : kernel) : Prop :=
  forall i, i ∈ H -> exists x, caches s i dev x /\ D <= x < sb_size sb /\ is_free sb (view s) x = false.

Lemma balloc_at H L s a :
  intx H p s -> grown p s0 L s -> sb_bmapstart sb ∈ L -> (length H + S (length L) < k)%nat ->
  vok sb D (view s) -> holds_alloc H s -> first_free sb (view s) = Some a ->
  exists s', balloc dev n s = Ret a s' /\ intx H p s' /\ grown p s0 (a :: L) s' /\ still H s s' /\
    (forall y, view s' y = alloc_view sb a (view s) y).
Proof.
  intros I Hg HL Hk Hv Hal Hfree. set (BM := sb_bmapstart sb) in *. pose proof (ge_size _ _ Hgeo) as Hsz. pose proof (ge_bitmap _ _ Hgeo) as Hbm. fold BM in Hbm.
  destruct (first_free_data sb D _ a Hgeo Hv Hfree) as [Ha Hfa]. change BPB with 8192 in Hsz.
  assert (Hbb : BBLOCK 0 sb = BM) by (by apply (BBLOCK_one sb D)).
  destruct (bread_at H L s BM I Hg ltac:(lia)) as (b & s1 & E1 & I1 & G1 & V1 & C1 & D1 & S1 & _).
  { intros i Hi [_ Hc]. destruct (Hal i Hi) as (x & [_ Hx] & Hx' & _). lia. }
  destruct (update_at H L b BM (bit_set a) s1 I1 G1 C1 HL ltac:(lia) ltac:(lia)) as (s2 & s3 & s4 & E2 & E3 & E4 & I4 & G4 & S4 & V4).
  assert (S14 : still H s s4) by (by eapply still_trans).
  destruct (bzero_at H (a :: L) a s4 I4) as (s5 & E5 & I5 & G5 & S5 & V5).
  { apply (grown_sub p s0 L); [set_solver|done]. }
  { apply elem_of_cons. by left. }
  { cbn. lia. }
  { lia. }
  { intros i Hi Hc. rewrite (proj1 (proj2 S14 i Hi)) in Hc. destruct (Hal i Hi) as (x & [_ Hx] & _ & Hf). destruct Hc as [_ Hc].
    assert (x = a) as -> by congruence. congruence. }
  exists s5. split_and!; try done.
  - unfold balloc. rewrite (bind_ret _ _ _ _ _ _ (gets_sb L s Hg)).
    assert (Hnbm : (sb_size sb + BPB - 1) / BPB = 1) by (change BPB with 8192; symmetry; apply Z.div_unique with (r := sb_size sb - 1); lia).
    rewrite Hnbm. change (map (Z.mul BPB) (seqZ 0 1)) with [0]. cbn [foreach]. rewrite Hbb.
    rewrite bind_bind_ret with (a := Some a) (s' := s5); [done|].
    rewrite (bind_ret _ _ _ _ _ _ E1), (bind_ret _ _ _ _ _ _ (bget_data b n s1 _ D1)).
    replace (List.find _ _) with (Some a).
    2:{ rewrite <- Hfree. unfold first_free, is_free. fold BM. do 2 f_equal. change BPB with 8192. lia. }
    rewrite (bind_ret _ _ _ _ _ _ E2), (bind_ret _ _ _ _ _ _ E3), (bind_ret _ _ _ _ _ _ E4), (bind_ret _ _ _ _ _ _ E5). done.
  - by eapply still_trans.
  - intros y. rewrite V5. unfold alloc_view. fold BM. case_decide; [done|]. rewrite V4, D1. case_decide; [done|apply V1].
Qed.

(** Freeing a block clears its bit; freeing it again is a panic. *)
Lemma bfree_at H L s a :
  intx H p s -> grown p s0 L s -> sb_bmapstart sb ∈ L -> (length H + length L < k)%nat -> 0 <= a < sb_size sb ->
  (forall i, i ∈ H -> ~ caches s i dev (sb_bmapstart sb)) ->
  if is_free sb (view s) a then exists s', bfree dev a n s = Panic "freeing free block" s'
  else exists s', bfree dev a n s = Ret tt s' /\ intx H p s' /\ grown p s0 L s' /\ still H s s' /\
    (forall y, view s' y = if decide (y = sb_bmapstart sb) then bit_clear a (view s y) else view s y).
Proof.
  intros I Hg HL Hk Ha HH. pose proof (ge_size _ _ Hgeo) as Hsz. pose proof (ge_bitmap _ _ Hgeo) as Hbm. change BPB with 8192 in *.
  destruct (bread_at H L s (sb_bmapstart sb) I Hg Hk HH) as (b & s1 & E1 & I1 & G1 & V1 & C1 & D1 & S1 & _).
  unfold bfree. rewrite (bind_ret _ _ _ _ _ _ (gets_sb L s Hg)).
  rewrite (BBLOCK_one sb D a Hgeo ltac:(change BPB with 8192; lia)). rewrite (bind_ret _ _ _ _ _ _ E1), (bind_ret _ _ _ _ _ _ (bget_data b n s1 _ D1)).
  rewrite Z.mod_small by (change BPB with 8192; lia). fold (is_free sb (view s) a). destruct (is_free sb (view s) a); [by eexists|].
  destruct (update_at H L b (sb_bmapstart sb) (bit_clear a) s1 I1 G1 C1 HL ltac:(lia) ltac:(lia)) as (s2 & s3 & s4 & E2 & E3 & E4 & I4 & G4 & S4 & V4).
  exists s4. split_and!; try done.
  - by rewrite (bind_ret _ _ _ _ _ _ E2), (bind_ret _ _ _ _ _ _ E3).
  - by eapply still_trans.
  - intros y. rewrite V4, D1. case_decide; [by subst|apply V1].
Qed.
End Balloc.

(** C29: The block allocator on a file system whose bitmap marks the blocks
    below the data area: inside a transaction with log space, [balloc] returns
    the first free block, which is a data block; the block is marked, zeroed
    and recorded in the log with the bitmap, no other block changes and
    nothing is written to the disk.  [bfree] gives the bitmap its former
    bits, and freeing the block once more is a panic. *)
Theorem balloc_allocates {KI : KernelImage} {BD : BlockDevice} {UA : Uart16550} n dev p s sb D a :
  (HEAD < n)%nat -> intx dev [] p s -> budget s 3 -> k_sb s = sb -> geometry sb D -> vok sb D (view dev s) ->
  first_free sb (view dev s) = Some a ->
  exists s', balloc dev n s = Ret a s' /\ intx dev [] p s' /\ D <= a < sb_size sb /\ vok sb D (view dev s') /\
    is_free sb (view dev s) a = true /\ view dev s' a = zero_block /\
    (forall x, 0 <= x < sb_size sb -> is_free sb (view dev s') x = negb (x =? a) && is_free sb (view dev s) x) /\
    (forall y, y <> a -> y <> sb_bmapstart sb -> view dev s' y = view dev s y) /\
    k_disk s' = k_disk s /\ k_dtrace s' = k_dtrace s /\
    (forall y, y ∈ logged_blocks (k_log s') -> y ∈ logged_blocks (k_log s) \/ y = a \/ y = sb_bmapstart sb) /\
    exists s'', bfree dev a n s' = Ret tt s'' /\ intx dev [] p s'' /\
      (forall x, 0 <= x < sb_size sb -> is_free sb (view dev s'') x = is_free sb (view dev s) x) /\
      exists s3, bfree dev a n s'' = Panic "freeing free block" s3.
Proof.
  intros Hn I Hb Hsb G Hv Hf. destruct (first_free_data sb D _ a G Hv Hf) as [Ha Hfa].
  pose proof (ge_size _ _ G) as Hsz. pose proof (ge_bitmap _ _ G) as Hbm.
  destruct (balloc_at dev p s 3 n Hb Hn sb D G Hsb [] [sb_bmapstart sb] s a I) as (s1 & E1 & I1 & G1 & _ & V1); try done.
  { apply grown_refl. }
  { by apply list_elem_of_singleton. }
  { cbn. lia. }
  { intros i Hi. by apply elem_of_nil in Hi. }
  assert (Hb1 : forall x, 0 <= x < sb_size sb -> is_free sb (view dev s1) x = negb (x =? a) && is_free sb (view dev s) x).
  { intros x Hx. unfold is_free at 1. rewrite V1. fold (is_free sb (alloc_view sb a (view dev s)) x). rewrite (alloc_view_free sb D) by done.
    case_decide as E; [by rewrite E, Z.eqb_refl|]. apply Z.eqb_neq in E. by rewrite E. }
  assert (Hv1 : vok sb D (view dev s1)).
  { destruct (alloc_view_ok sb D (view dev s) a G Hv Ha) as [W1 W2]. split; [intros x; rewrite V1; apply W1|].
    intros x Hx. unfold is_free. rewrite V1. by apply W2. }
  pose proof (bfree_at dev p s 3 n Hb Hn sb D G Hsb [] [a; sb_bmapstart sb] s1 a I1 G1) as Hfree.
  rewrite Hb1, Z.eqb_refl in Hfree by lia. cbn [negb andb] in Hfree.
  destruct Hfree as (s2 & E2 & I2 & G2 & _ & V2); [apply elem_of_cons; right; by apply list_elem_of_singleton|cbn; lia|lia|intros i Hi; by apply elem_of_nil in Hi|].
  assert (Hb2 : forall x, 0 <= x < sb_size sb -> is_free sb (view dev s2) x = is_free sb (view dev s) x).
  { intros x Hx. unfold is_free at 1. rewrite V2, decide_True, bit_free_clear by (apply Hv1 || done || lia). case_decide as E; [by subst|].
    fold (is_free sb (view dev s1) x). rewrite Hb1 by done. apply Z.eqb_neq in E. by rewrite E. }
  pose proof (bfree_at dev p s 3 n Hb Hn sb D G Hsb [] [a; sb_bmapstart sb] s2 a I2 G2) as Hagain. rewrite Hb2, Hfa in Hagain by lia.
  exists s1. destruct (grown_fields p s _ s1 G1) as (Ed & Et & _ & _). split_and!; try done; try lia.
  - rewrite V1. unfold alloc_view. by rewrite decide_True.
  - intros y Hy1 Hy2. rewrite V1. unfold alloc_view. by rewrite !decide_False.
  - intros y Hy. destruct (proj2 G1 y Hy) as [?|Hin]; [by left|right]. rewrite !elem_of_cons, elem_of_nil in Hin. tauto.
  - exists s2. split_and!; [done|done|done|]. apply Hagain; [apply elem_of_cons; right; by apply list_elem_of_singleton|cbn; lia|lia|intros i Hi; by apply elem_of_nil in Hi].
Qed.

(** ** A small file system: mkfs's layout, blocks 0 to 45 in use *)
Definition ex_sb : superblock := mk_superblock FSMAGIC 2000 1954 200 30 2 32 45.
Definition ex_bitmap : list Z := [255; 255; 255; 255; 255; 63] ++ replicate 1018 0.
Lemma ex_geometry : geometry ex_sb 46.
Proof.
  split; [vm_compute; intuition congruence|vm_compute; done|].
  intros i Hi. cbn in Hi. unfold IBLOCK. change IPB with 16. cbn [sb_inodestart sb_bmapstart ex_sb].
  rewrite u32_small; Z.to_euclidean_division_equations; lia.
Qed.
Lemma ex_vok V : (forall x, length (V x) = Z.to_nat BSIZE) -> forallb (fun a => negb (bit_free (V 45) a)) (seqZ 0 46) = true -> vok ex_sb 46 V.
Proof.
  intros Hl H. split; [done|]. intros a Ha. unfold is_free. change (sb_bmapstart ex_sb) with 45.
  rewrite forallb_forall in H. specialize (H a). rewrite negb_true_iff in H. apply H, list_elem_of_In, elem_of_seqZ. lia.
Qed.
Lemma ex_fs_state it : exists s, intx 1 [] 3 s /\ budget s 29 /\ k_sb s = ex_sb /\ k_itable s = it /\ vok ex_sb 46 (view 1 s) /\
  (forall x, view 1 s x = if decide (x = 45) then ex_bitmap else zero_block).
Proof.
  destruct (ex_tx_state {[45 := ex_bitmap]} ex_sb it) as (s & I & Hl & Hd & Hs & Hi & _ & Hv & _). exists s.
  assert (Hv' : forall x, view 1 s x = if decide (x = 45) then ex_bitmap else zero_block).
  { intros x. rewrite Hv. case_decide as E; [subst; by rewrite lookup_singleton_eq|by rewrite lookup_singleton_ne]. }
  split_and!; try done.
  - unfold budget. rewrite Hl. split_and!; [apply (t_log _ _ _ _) in I; by rewrite Hl in I|vm_compute; congruence|vm_compute; done|vm_compute; congruence].
  - apply ex_vok; [intros x; rewrite Hv'; by case_decide|]. rewrite Hv'. by vm_compute.
Qed.

#[local] Existing Instance fast_line.
(** Block 46 is the first one handed out. *)
Lemma balloc_allocates_witness : exists s s', balloc 1 31%nat s = Ret 46 s' /\ view 1 s' 46 = zero_block.
Proof.
  destruct (ex_fs_state []) as (s & I & B & Hsb & _ & Hv & HV). exists s.
  destruct (balloc_allocates 31%nat 1 3 s ex_sb 46 46) as (s' & E & _ & _ & _ & _ & Hz & _).
  - vm_compute. lia.
  - exact I.
  - destruct B as (B1 & B2 & B3 & B4). split_and!; [exact B1|lia|lia|exact B4].
  - exact Hsb.
  - exact ex_geometry.
  - exact Hv.
  - unfold first_free. etrans; [|assert (E : List.find (bit_free ex_bitmap) (seqZ 0 2000) = Some 46) by (by vm_compute); exact E].
    unfold is_free. change (sb_bmapstart ex_sb) with 45. by rewrite HV.
  - exists s'. split; [exact E|exact Hz].
Defined.
