(* ===== verification/Content.v ===== *)
(** * The content of a file

    kernel/fs.c, [bmap], [readi] and [writei]: the blocks an inode owns, the
    bytes of the file they hold, and what reading and writing do to them.
    The file system is the view of Blocks.v with the layout of Balloc.v; the
    inode is the one locked in the inode table. *)

From S2P Require Import Prelude Params Kernel Spinlock StringC Kalloc Vm Proc Sleeplock Bio Log Crash Transaction Uart Printf Fs Blocks Balloc.

(** ** The blocks of an inode *)
Definition ind (q : inode) : Z := aget 0 (i_addrs q) NDIRECT.
(** The address of block [bn] of the file (0: none). *)
Definition blk_addr (V : Z -> list Z) (q : inode) (bn : Z) : Z :=
  if bn <? NDIRECT then aget 0 (i_addrs q) bn
  else if ind q =? 0 then 0 else word (V (ind q)) (bn - NDIRECT).
Definition in_file (bn : Z) : Prop := 0 <= bn < MAXFILE.
Definition owned (V : Z -> list Z) (q : inode) (a : Z) : Prop :=
  a <> 0 /\ (a = ind q \/ exists bn, in_file bn /\ blk_addr V q bn = a).
(** The byte at offset [o]. *)
Definition fbyte (V : Z -> list Z) (q : inode) (o : Z) : Z := aget 0 (V (blk_addr V q (o / BSIZE))) (o mod BSIZE).
Definition frange (V : Z -> list Z) (q : inode) (o m : Z) : list Z := map (fbyte V q) (seqZ o m).

(** ** Entries of the indirect block *)
Lemma le_dec_zeros m : le_dec (replicate m 0) = 0.
Proof. induction m as [|m IH]; [done|]. cbn [replicate le_dec]. rewrite IH. done. Qed.
Lemma word_zero j : 0 <= j < NINDIRECT -> word zero_block j = 0.
Proof.
  intros Hj. change NINDIRECT with 256 in Hj. unfold word, slice, zero_block. rewrite drop_replicate, take_replicate.
  apply le_dec_zeros.
Qed.
Lemma word_put data a j j' :
  length data = Z.to_nat BSIZE -> 0 <= j < NINDIRECT -> 0 <= j' < NINDIRECT -> 0 <= a < 4294967296 ->
  word (put (4 * Z.to_nat j) (le_enc 4 a) data) j' = if decide (j' = j) then a else word data j'.
Proof.
  intros Hl Hj Hj' Ha. change NINDIRECT with 256 in *. change (Z.to_nat BSIZE) with 1024%nat in Hl. unfold word. case_decide as E.
  - subst j'. pose proof (slice_put_eq (4 * Z.to_nat j) (le_enc 4 a) data) as E. rewrite length_le_enc in E. rewrite E by lia. by apply le_dec_enc4.
  - rewrite slice_put_ne; [done| |]; rewrite length_le_enc; lia.
Qed.

Section Layout.
Variables (sb : superblock) (D : Z).
Hypothesis Hgeo : geometry sb D.
Notation is_free := (is_free sb).
Notation BM := (sb_bmapstart sb).

(** A well-formed inode: its blocks are data blocks in use, each of them in
    one place, and every block below the size is there. *)
Record iwf (V : Z -> list Z) (q : inode) : Prop := {
  iw_addrs : length (i_addrs q) = 13%nat;
  iw_size : 0 <= i_size q <= MAXFILE * BSIZE;
  iw_owned : forall a, owned V q a -> D <= a < sb_size sb /\ is_free V a = false;
  iw_inj : forall bn bn', in_file bn -> in_file bn' -> blk_addr V q bn <> 0 -> blk_addr V q bn = blk_addr V q bn' -> bn = bn';
  iw_ind : forall bn, in_file bn -> ind q <> 0 -> blk_addr V q bn <> ind q;
  iw_full : forall bn, 0 <= bn -> bn * BSIZE < i_size q -> blk_addr V q bn <> 0;
}.

(** [V] and [q] become [V'] and [q'] by taking free blocks for the file and
    changing blocks of the file; no block moves. *)
Record evolves (V : Z -> list Z) (q : inode) (V' : Z -> list Z) (q' : inode) : Prop := {
  ev_ok : vok sb D V';
  ev_wf : iwf V' q';
  ev_q : q' = set_i_addrs (i_addrs q') q;
  ev_addr : forall bn, in_file bn -> blk_addr V q bn <> 0 -> blk_addr V' q' bn = blk_addr V q bn;
  ev_ind : ind q <> 0 -> ind q' = ind q;
  ev_new : forall x, owned V' q' x -> owned V q x \/ is_free V x = true;
  ev_other : forall y, y <> BM -> ~ owned V' q' y -> V' y = V y;
  ev_bits : forall x, 0 <= x < sb_size sb -> is_free V' x = true -> is_free V x = true;
  ev_taken : forall x, 0 <= x < sb_size sb -> is_free V x = true -> is_free V' x = false -> owned V' q' x;
}.

Lemma ev_mono V q V' q' x : evolves V q V' q' -> owned V q x -> owned V' q' x.
Proof.
  intros E [Hx [->|(bn & Hb & <-)]]; split; try done.
  - left. symmetry. by apply (ev_ind _ _ _ _ E).
  - right. exists bn. split; [done|]. by apply (ev_addr _ _ _ _ E).
Qed.
Lemma owned_data V q x : iwf V q -> owned V q x -> 0 <= x < sb_size sb /\ x <> BM.
Proof. intros W Ho. destruct (iw_owned _ _ W x Ho). pose proof (ge_size _ _ Hgeo). pose proof (ge_bitmap _ _ Hgeo). lia. Qed.

Lemma ev_refl V q : vok sb D V -> iwf V q -> evolves V q V q.
Proof. intros Hv W. split; auto; try done. intros x _ E1 E2. congruence. Qed.

Lemma ev_trans V q V1 q1 V2 q2 : evolves V q V1 q1 -> evolves V1 q1 V2 q2 -> evolves V q V2 q2.
Proof.
  intros A B. split.
  - apply B.
  - apply B.
  - rewrite (ev_q _ _ _ _ B), (ev_q _ _ _ _ A). done.
  - intros bn Hb Hn. pose proof (ev_addr _ _ _ _ A bn Hb Hn) as E. rewrite <- E. apply (ev_addr _ _ _ _ B); congruence.
  - intros Hn. pose proof (ev_ind _ _ _ _ A Hn) as E. rewrite <- E. apply (ev_ind _ _ _ _ B). congruence.
  - intros x Hx. pose proof (proj1 (owned_data _ _ x (ev_wf _ _ _ _ B) Hx)) as Hr.
    destruct (ev_new _ _ _ _ B x Hx) as [H1|H1]; [by apply (ev_new _ _ _ _ A)|right; by apply (ev_bits _ _ _ _ A)].
  - intros y Hy Hn. rewrite (ev_other _ _ _ _ B y Hy Hn). apply (ev_other _ _ _ _ A y Hy). intros Ho. by apply Hn, (ev_mono V1 q1).
  - intros x Hx Hf. apply (ev_bits _ _ _ _ A x Hx). by apply (ev_bits _ _ _ _ B).
  - intros x Hx Hf Hn. destruct (is_free V1 x) eqn:E1; [by apply (ev_taken _ _ _ _ B)|].
    apply (ev_mono V1 q1); [done|]. by apply (ev_taken _ _ _ _ A).
Qed.

(** Another file keeps its blocks and its bytes. *)
Lemma ev_disjoint V q V' q' r :
  evolves V q V' q' -> iwf V r -> (forall x, owned V q x -> ~ owned V r x) ->
  (forall bn, in_file bn -> blk_addr V' r bn = blk_addr V r bn) /\
  (forall x, owned V r x -> V' x = V x) /\ (forall x, owned V' r x <-> owned V r x) /\
  (forall x, owned V' q' x -> ~ owned V' r x).
Proof.
  intros E W Hd.
  assert (Hd' : forall x, owned V' q' x -> ~ owned V r x).
  { intros x Hq Hr. destruct (ev_new _ _ _ _ E x Hq) as [H|H]; [by apply (Hd x)|]. destruct (iw_owned _ _ W x Hr). congruence. }
  assert (Hs : forall x, owned V r x -> V' x = V x).
  { intros x Hr. apply (ev_other _ _ _ _ E); [by apply (owned_data V r)|]. intros Hq. by apply (Hd' x). }
  assert (Ha : forall bn, in_file bn -> blk_addr V' r bn = blk_addr V r bn).
  { intros bn Hb. unfold blk_addr. destruct (bn <? NDIRECT); [done|]. destruct (Z.eqb_spec (ind r) 0) as [|Hi]; [done|].
    rewrite Hs; [done|]. split; [done|by left]. }
  assert (Ho : forall x, owned V' r x <-> owned V r x).
  { intros x. unfold owned. split; intros [H1 [H2|(bn & Hb & H2)]]; (split; [done|]); [by left| |by left|];
      right; exists bn; (split; [done|]); by rewrite <- H2, Ha. }
  split_and!; try done. intros x Hq. rewrite Ho. by apply Hd'.
Qed.

Lemma ev_disjoint_wf V q V' q' r :
  evolves V q V' q' -> iwf V r -> (forall x, owned V q x -> ~ owned V r x) -> iwf V' r.
Proof.
  intros E W Hd. destruct (ev_disjoint V q V' q' r E W Hd) as (Ha & _ & Ho & _). destruct W as [W1 W2 W3 W4 W5 W6].
  assert (Hin : forall bn, 0 <= bn -> bn * BSIZE < i_size r -> in_file bn) by (unfold in_file; change BSIZE with 1024 in *; lia).
  split; try done.
  - intros x Hx%Ho. destruct (W3 x Hx) as [H1 H2]. split; [done|]. destruct (is_free V' x) eqn:Ef; [|done].
    rewrite (ev_bits _ _ _ _ E x) in H2; [done| |done]. pose proof (ge_size _ _ Hgeo). lia.
  - intros bn bn' Hb Hb'. rewrite !Ha by done. by apply W4.
  - intros bn Hb. rewrite Ha by done. by apply W5.
  - intros bn H1 H2. rewrite Ha by (by apply Hin). by apply W6.
Qed.

(** ** One more block: slot [t] of the file, or the indirect block ([t] = -1) *)
Lemma ev_add V q V' q' a t :
  vok sb D V' -> iwf V q -> length (i_addrs q') = 13%nat -> q' = set_i_addrs (i_addrs q') q ->
  D <= a < sb_size sb -> is_free V a = true ->
  (forall x, 0 <= x < sb_size sb -> is_free V' x = if decide (x = a) then false else is_free V x) ->
  (forall bn, in_file bn -> blk_addr V' q' bn = if decide (bn = t) then a else blk_addr V q bn) ->
  (in_file t -> blk_addr V q t = 0) ->
  (ind q' = if decide (t = -1) then a else ind q) -> (t = -1 -> ind q = 0) -> t = -1 \/ in_file t ->
  (forall y, y <> BM -> y <> a -> y = 0 \/ y <> ind q' -> V' y = V y) ->
  evolves V q V' q'.
Proof.
  intros Hv W Hlen Hq Ha Hfa Hbits Haddr Ht0 Hind Hi0 Ht Hother. pose proof (ge_size _ _ Hgeo) as Hsz. destruct W as [W1 W2 W3 W4 W5 W6].
  assert (Hold : forall x, owned V q x -> x <> a) by (intros x Hx ->; destruct (W3 a Hx); congruence).
  assert (Hown : forall x, owned V' q' x -> owned V q x \/ x = a).
  { intros x [Hx [E|(bn & Hb & E)]].
    - rewrite Hind in E. destruct (decide (t = -1)); [by right|left; split; [done|by left]].
    - rewrite Haddr in E by done. destruct (decide (bn = t)); [by right|]. left. split; [done|]. right. by exists bn. }
  assert (Hmono : forall x, owned V q x -> owned V' q' x).
  { intros x [Hx [E|(bn & Hb & E)]]; (split; [done|]).
    - left. rewrite Hind. destruct (decide (t = -1)) as [Et|]; [|done]. congruence || (specialize (Hi0 Et); congruence).
    - right. exists bn. split; [done|]. rewrite Haddr by done. destruct (decide (bn = t)) as [Et|]; [|done]. subst bn. rewrite Ht0 in E by done. congruence. }
  assert (Hslot : forall bn, in_file bn -> blk_addr V q bn <> a).
  { intros bn Hb E. assert (Ho : owned V q a); [|by apply Hold in Ho]. split; [lia|]. right. by exists bn. }
  split; try done.
  - split; try done.
    + rewrite Hq. exact W2.
    + intros x Hx. destruct (Hown x Hx) as [Ho| ->].
      * destruct (W3 x Ho) as [H1 H2]. split; [done|]. rewrite Hbits by lia. by destruct (decide (x = a)).
      * split; [done|]. rewrite Hbits by lia. by rewrite decide_True.
    + intros bn bn' Hb Hb' Hn E. rewrite !Haddr in E by done. rewrite Haddr in Hn by done.
      destruct (decide (bn = t)) as [->|N1], (decide (bn' = t)) as [->|N2]; try done.
      * exfalso. by apply (Hslot bn').
      * exfalso. by apply (Hslot bn).
      * by apply W4.
    + intros bn Hb. rewrite Haddr, Hind by done. destruct (decide (bn = t)) as [->|N].
      * rewrite decide_False by (unfold in_file in Hb; lia). intros Hn E. apply (Hold (ind q)); [split; [done|by left]|done].
      * destruct (decide (t = -1)); [intros _; by apply Hslot|by apply W5].
    + intros bn H1 H2. rewrite Hq in H2. change (i_size (set_i_addrs (i_addrs q') q)) with (i_size q) in H2.
      rewrite Haddr by (unfold in_file; change BSIZE with 1024 in *; lia). destruct (decide (bn = t)); [lia|by apply W6].
  - intros bn Hb Hn. rewrite Haddr by done. destruct (decide (bn = t)) as [Et|]; [|done]. subst. by rewrite Ht0 in Hn.
  - intros Hn. rewrite Hind. destruct (decide (t = -1)) as [Et|]; [|done]. by rewrite Hi0 in Hn.
  - intros x Hx. destruct (Hown x Hx) as [?| ->]; [by left|by right].
  - intros y Hy Hn. assert (y <> a).
    { intros ->. apply Hn. split; [lia|]. destruct Ht as [->|Ht]; [left; rewrite Hind; by rewrite decide_True|].
      right. exists t. split; [done|]. rewrite Haddr by done. by rewrite decide_True. }
    apply Hother; [done|done|]. destruct (decide (y = 0)) as [|Hy0]; [by left|right]. intros ->. apply Hn. split; [done|by left].
  - intros x Hx. rewrite Hbits by done. by destruct (decide (x = a)).
  - intros x Hx Hf Hn. rewrite Hbits in Hn by done. destruct (decide (x = a)) as [Ex|]; [|congruence]. subst x. split; [lia|].
    destruct Ht as [->|Ht]; [left; by rewrite Hind, decide_True|]. right. exists t. split; [done|]. by rewrite Haddr, decide_True.
Qed.

Section Add.
Variables (V V' : Z -> list Z) (q : inode) (a : Z).
Hypothesis Hv : vok sb D V.
Hypothesis W : iwf V q.
Hypothesis Hfree : first_free sb V = Some a.

Lemma owned_apart x : owned V q x -> x <> a /\ x <> BM /\ alloc_view sb a V x = V x.
Proof.
  intros Hx. destruct (first_free_data sb D V a Hgeo Hv Hfree) as [Ha Hfa]. destruct (owned_data V q x W Hx) as [_ Hb].
  assert (x <> a) by (intros ->; destruct (iw_owned _ _ W a Hx); congruence). unfold alloc_view. by rewrite !decide_False.
Qed.
Lemma ind_owned : ind q <> 0 -> owned V q (ind q).
Proof. intros. split; [done|by left]. Qed.
Lemma blk_owned bn : in_file bn -> blk_addr V q bn <> 0 -> owned V q (blk_addr V q bn).
Proof. intros. split; [done|]. right. by exists bn. Qed.

(** A block for a direct slot, or for the indirect block. *)
Lemma ev_direct j :
  (forall y, V' y = alloc_view sb a V y) -> 0 <= j <= NDIRECT -> aget 0 (i_addrs q) j = 0 ->
  let q' := set_i_addrs (aset (i_addrs q) j a) q in
  evolves V q V' q' /\ V' a = zero_block /\
  (forall bn, in_file bn -> blk_addr V' q' bn = if decide (bn = j /\ j < NDIRECT) then a else blk_addr V q bn).
Proof.
  intros HV Hj Hz q'. change NDIRECT with 12 in *. destruct (first_free_data sb D V a Hgeo Hv Hfree) as [Ha Hfa].
  assert (Hga : forall i, 0 <= i <= 12 -> aget 0 (aset (i_addrs q) j a) i = if decide (i = j) then a else aget 0 (i_addrs q) i).
  { intros i Hi. pose proof (iw_addrs _ _ W). case_decide as E; [subst; apply aget_aset_eq; lia|apply aget_aset_ne; lia]. }
  assert (Hind : ind q' = if decide (j = 12) then a else ind q).
  { unfold ind, q'. cbn [i_addrs set_i_addrs]. change NDIRECT with 12. rewrite Hga by lia. do 2 case_decide; congruence. }
  assert (Haddr : forall bn, in_file bn -> blk_addr V' q' bn = if decide (bn = j /\ j < 12) then a else blk_addr V q bn).
  { intros bn Hb. unfold in_file in Hb. change MAXFILE with 268 in Hb. unfold blk_addr. change NDIRECT with 12.
    destruct (Z.ltb_spec bn 12) as [H1|H1].
    - unfold q'. cbn [i_addrs set_i_addrs]. rewrite Hga by lia. destruct (decide (bn = j)) as [E|E]; [by rewrite decide_True by lia|by rewrite decide_False by lia].
    - rewrite (decide_False (P := bn = j /\ j < 12)) by lia. rewrite Hind. destruct (decide (j = 12)) as [E|E].
      + subst j. change (aget 0 (i_addrs q) 12) with (ind q) in Hz. rewrite Hz. destruct (Z.eqb_spec a 0); [done|].
        rewrite HV. unfold alloc_view. rewrite decide_True by done. apply word_zero. change NINDIRECT with 256. lia.
      + destruct (Z.eqb_spec (ind q) 0) as [|Hi]; [done|]. rewrite HV. by destruct (owned_apart _ (ind_owned Hi)) as (_ & _ & ->). }
  split; [|split; [rewrite HV; unfold alloc_view; by rewrite decide_True|done]].
  apply (ev_add V q V' q' a (if decide (j = 12) then -1 else j)); try done.
  - destruct (alloc_view_ok sb D V a Hgeo Hv Ha) as [A1 A2]. split; [intros; rewrite HV; apply A1|]. intros. unfold Balloc.is_free. rewrite HV. by apply A2.
  - cbn. rewrite length_aset. apply W.
  - intros x Hx. unfold Balloc.is_free at 1. rewrite HV. by apply (alloc_view_free sb D).
  - intros bn Hb. rewrite Haddr by done. unfold in_file in Hb. destruct (decide (j = 12)).
    + rewrite !decide_False by lia. done.
    + destruct (decide (bn = j)); [by rewrite !decide_True by lia|by rewrite !decide_False by lia].
  - destruct (decide (j = 12)) as [|E]; [unfold in_file; lia|]. intros _. unfold blk_addr. change NDIRECT with 12. destruct (Z.ltb_spec j 12); [done|lia].
  - rewrite Hind. destruct (decide (j = 12)); [done|]. by rewrite decide_False by lia.
  - destruct (decide (j = 12)) as [->|]; [done|lia].
  - destruct (decide (j = 12)); [by left|right]. unfold in_file. change MAXFILE with 268. lia.
  - intros y H1 H2 _. rewrite HV. unfold alloc_view. by rewrite !decide_False.
Qed.

(** A block for an entry of the indirect block. *)
Lemma ev_entry bn :
  (forall y, V' y = if decide (y = ind q) then put (4 * Z.to_nat (bn - NDIRECT)) (le_enc 4 a) (V (ind q)) else alloc_view sb a V y) ->
  NDIRECT <= bn < MAXFILE -> ind q <> 0 -> blk_addr V q bn = 0 ->
  evolves V q V' q /\ V' a = zero_block /\
  (forall bn', in_file bn' -> blk_addr V' q bn' = if decide (bn' = bn) then a else blk_addr V q bn').
Proof.
  intros HV Hb Hi Hz. change NDIRECT with 12 in *. change MAXFILE with 268 in *. destruct (first_free_data sb D V a Hgeo Hv Hfree) as [Ha Hfa].
  pose proof (ge_size _ _ Hgeo) as Hsz. change BPB with 8192 in Hsz. destruct (owned_apart _ (ind_owned Hi)) as (Hia & Hib & _).
  assert (Haddr : forall bn', in_file bn' -> blk_addr V' q bn' = if decide (bn' = bn) then a else blk_addr V q bn').
  { intros bn' Hb'. unfold in_file in Hb'. change MAXFILE with 268 in Hb'. unfold blk_addr. change NDIRECT with 12.
    destruct (Z.ltb_spec bn' 12) as [H1|H1]; [by rewrite decide_False by lia|]. apply Z.eqb_neq in Hi as Hi'. rewrite Hi'.
    rewrite HV, decide_True by done. rewrite word_put; [|apply Hv|change NINDIRECT with 256; lia..|lia].
    destruct (decide (bn' = bn)); [by rewrite decide_True by lia|by rewrite decide_False by lia]. }
  split; [|split; [rewrite HV, decide_False by done; unfold alloc_view; by rewrite decide_True|done]].
  apply (ev_add V q V' q a bn); try done.
  - destruct (alloc_view_ok sb D V a Hgeo Hv Ha) as [A1 A2]. split.
    + intros x. rewrite HV. case_decide; [|apply A1]. rewrite length_put; [apply Hv|]. rewrite length_le_enc, (vo_len _ _ _ Hv). change (Z.to_nat BSIZE) with 1024%nat. lia.
    + intros x Hx. unfold Balloc.is_free. rewrite HV, decide_False by congruence. by apply A2.
  - apply W.
  - intros x Hx. unfold Balloc.is_free at 1. rewrite HV, decide_False by congruence. by apply (alloc_view_free sb D).
  - rewrite decide_False by lia. done.
  - lia.
  - right. unfold in_file. change MAXFILE with 268. lia.
  - intros y H1 H2 H3. rewrite HV. rewrite decide_False by (destruct H3; congruence). unfold alloc_view. by rewrite !decide_False.
Qed.
End Add.

(** ** Writing a block of the file *)
Lemma ev_data V V' q a d bn :
  vok sb D V -> iwf V q -> in_file bn -> blk_addr V q bn = a -> a <> 0 -> length d = Z.to_nat BSIZE ->
  (forall y, V' y = if decide (y = a) then d else V y) ->
  evolves V q V' q /\ (forall bn', blk_addr V' q bn' = blk_addr V q bn').
Proof.
  intros Hv W Hb Ha Hn Hd HV. assert (Ho : owned V q a) by (split; [done|right; by exists bn]).
  destruct (owned_data V q a W Ho) as [_ Hbm].
  assert (Haddr : forall bn', blk_addr V' q bn' = blk_addr V q bn').
  { intros bn'. unfold blk_addr. destruct (bn' <? NDIRECT); [done|]. destruct (Z.eqb_spec (ind q) 0) as [|Hi]; [done|].
    rewrite HV, decide_False; [done|]. rewrite <- Ha. intros E. by apply (iw_ind _ _ W bn). }
  assert (Hfr : forall x, is_free V' x = is_free V x) by (intros x; unfold Balloc.is_free; rewrite HV, decide_False by congruence; done).
  assert (Hown : forall x, owned V' q x <-> owned V q x) by (intros x; unfold owned; by setoid_rewrite Haddr).
  destruct W as [W1 W2 W3 W4 W5 W6]. split; [|done]. split; try done.
  - destruct Hv as [A1 A2]. split; [intros x; rewrite HV; by case_decide|]. intros x Hx. rewrite Hfr. by apply A2.
  - split; try done.
    + intros x. rewrite Hown, Hfr. apply W3.
    + intros b1 b2. rewrite !Haddr. apply W4.
    + intros b1. rewrite Haddr. apply W5.
    + intros b1. rewrite Haddr. apply W6.
  - intros x. rewrite Hown. by left.
  - intros y Hy Hno. rewrite HV, decide_False; [done|]. intros ->. by apply Hno, Hown.
  - intros x _. by rewrite Hfr.
  - intros x _. rewrite Hfr. congruence.
Qed.
End Layout.

(** ** Counting free blocks *)
Definition nfree (sb : superblock) (V : Z -> list Z) : nat := length (filter (fun x => is_free sb V x = true) (seqZ 0 (sb_size sb))).
Lemma nfree_first sb V : (0 < nfree sb V)%nat -> exists a, first_free sb V = Some a.
Proof.
  unfold nfree, first_free. intros Hn. destruct (List.find _ _) as [a|] eqn:E; [by exists a|]. exfalso.
  destruct (filter _ _) as [|x l] eqn:Ef; [by apply Nat.lt_irrefl in Hn|].
  assert (Hx : x ∈ filter (fun x => is_free sb V x = true) (seqZ 0 (sb_size sb))) by (rewrite Ef; apply elem_of_cons; by left).
  apply list_elem_of_filter in Hx as [Hf Hx]. by rewrite (List.find_none _ _ E x) in Hf by (by apply list_elem_of_In).
Qed.
Lemma nfree_take sb V V' a : 0 <= a < sb_size sb -> is_free sb V a = true ->
  (forall x, 0 <= x < sb_size sb -> is_free sb V' x = if decide (x = a) then false else is_free sb V x) ->
  nfree sb V = S (nfree sb V').
Proof.
  intros Ha Hf Hb. unfold nfree. set (l := seqZ 0 (sb_size sb)).
  assert (E : filter (fun x => is_free sb V x = true) l ≡ₚ a :: filter (fun x => is_free sb V' x = true) l).
  { apply NoDup_Permutation; [apply NoDup_filter, NoDup_seqZ| |].
    - apply NoDup_cons. split; [|apply NoDup_filter, NoDup_seqZ]. rewrite list_elem_of_filter, Hb, decide_True by done. by intros [? _].
    - intros x. rewrite elem_of_cons, !list_elem_of_filter. unfold l. rewrite elem_of_seqZ. split.
      + intros [H1 H2]. destruct (decide (x = a)); [by left|right]. rewrite Hb, decide_False by (done || lia). done.
      + intros [->|[H1 H2]]; [split; [done|lia]|]. rewrite Hb in H1 by lia. by destruct (decide (x = a)). }
  by rewrite E.
Qed.
Lemma nfree_bm sb V V' : V' (sb_bmapstart sb) = V (sb_bmapstart sb) -> nfree sb V' = nfree sb V.
Proof. intros E. unfold nfree, is_free. by rewrite E. Qed.
(** One if the indirect block is missing. *)
Definition ind_need (q : inode) : nat := if ind q =? 0 then 1 else 0.

Section Bmap.
Context {KI : KernelImage} {BD : BlockDevice} {UA : Uart16550}.
Variables (dev : Z) (p : nat) (n : nat).
Hypothesis Hfuel : (HEAD < n)%nat.
Notation view := (view dev).
Notation intx := (intx dev).

Lemma intx_inode H s ip f : intx H p s -> intx H p (upd_inode ip f s).
Proof. intros [I1 I2 [J1 J2 J3 J4] I4 I5 I6 I7 I8 I9]. split; try done. Qed.
Lemma inode_at_upd_eq ip f s : (ip < length (k_itable s))%nat -> inode_at (upd_inode ip f s) ip = f (inode_at s ip).
Proof. intros. by apply list_lookup_total_alter_eq. Qed.
Lemma inode_at_upd_ne ip i f s : ip <> i -> inode_at (upd_inode ip f s) i = inode_at s i.
Proof. intros. by apply list_lookup_total_alter_ne. Qed.
Lemma inode_still s s' ip : k_itable s' = k_itable s -> inode_at s' ip = inode_at s ip.
Proof. unfold inode_at. by intros ->. Qed.

(** A block that is there is found, and nothing changes. *)
Lemma bmap_found s ip bn a :
  intx [] p s -> (length (logged_blocks (k_log s)) < HEAD)%nat -> i_dev (inode_at s ip) = dev ->
  in_file bn -> blk_addr (view s) (inode_at s ip) bn = a -> a <> 0 ->
  exists s', bmap ip bn n s = Ret a s' /\ intx [] p s' /\ same_view dev p s s' /\ k_log s' = k_log s.
Proof.
  intros I Hroom Hdev Hb Ea Hn. unfold bmap. unfold iget_f. rewrite bind_gets. unfold id. unfold blk_addr in Ea.
  destruct (Z.ltb_spec bn NDIRECT) as [H1|H1].
  - rewrite Ea. destruct (Z.eqb_spec a 0); [done|]. exists s. split; [done|]. split; [done|]. split; [split; [apply fs_frame_refl|done]|done].
  - unfold in_file in Hb. change MAXFILE with 268 in Hb. change NDIRECT with 12 in *.
    destruct (Z.ltb_spec (bn - 12) NINDIRECT) as [H2|H2]; [|change NINDIRECT with 256 in H2; lia].
    change (aget 0 (i_addrs (inode_at s ip)) 12) with (ind (inode_at s ip)).
    destruct (Z.eqb_spec (ind (inode_at s ip)) 0) as [|Hi]; [congruence|]. rewrite bind_ret_l. apply Z.eqb_neq in Hi as Hi'. rewrite Hi', Hdev.
    destruct (bread_tx dev n [] p s (ind (inode_at s ip)) I Hfuel Hroom) as (b & s1 & E1 & _ & I1 & [F1 V1] & C1 & D1 & L1 & _).
    { intros i Hin. by apply elem_of_nil in Hin. }
    rewrite (bind_ret _ _ _ _ _ _ E1), (bind_ret _ _ _ _ _ _ (bget_data b n s1 _ D1)). rewrite Ea.
    destruct (Z.eqb_spec a 0); [done|]. rewrite bind_ret_l.
    destruct (brelse_tx dev n [] b p s1 I1) as (s2 & E2 & I2 & [F2 V2] & L2 & _).
    { rewrite (proj2 C1), L1. destruct (decide (ind (inode_at s ip) ∈ logged_blocks (k_log s))) as [|Hno]; [by left|right].
      rewrite D1, (view_clean dev [] p s _ I Hno) by (intros i Hin; by apply elem_of_nil in Hin).
      unfold disk_block. by destruct (fs_frame_fields p s s1 F1) as (-> & _). }
    exists s2. rewrite (bind_ret _ _ _ _ _ _ E2). split_and!; try done; [|by rewrite L2].
    split; [by eapply fs_frame_trans|]. intros y. by rewrite V2, V1.
Qed.

Variables (s0 : kernel) (k : nat) (sb : superblock) (D : Z).
Hypothesis Hbud : budget s0 k.
Hypothesis Hgeo : geometry sb D.
Hypothesis Hsb : k_sb s0 = sb.

(** The inode [ip] is well formed, and its indirect block, if any, is among
    the blocks [L] the operation may log. *)
Record writable (L : list Z) (s : kernel) (ip : nat) : Prop := {
  wr_tx : intx [] p s;
  wr_grown : grown p s0 L s;
  wr_bm : sb_bmapstart sb ∈ L;
  wr_ok : vok sb D (view s);
  wr_wf : iwf sb D (view s) (inode_at s ip);
  wr_dev : i_dev (inode_at s ip) = dev;
  wr_ip : (ip < length (k_itable s))%nat;
  wr_ind : ind (inode_at s ip) <> 0 -> ind (inode_at s ip) ∈ L;
}.

(** [bmap] gave block [bn] the address [a]. *)
Record bmapped (L : list Z) (s : kernel) (ip : nat) (bn a : Z) (L' : list Z) (s' : kernel) : Prop := {
  bm_wr : writable L' s' ip;
  bm_sub : L ⊆ L';
  bm_in : a ∈ L';
  bm_len : (length L' + ind_need (inode_at s' ip) <= S (length L + ind_need (inode_at s ip)))%nat;
  bm_nfree : (nfree sb (view s) + ind_need (inode_at s' ip) <= S (nfree sb (view s') + ind_need (inode_at s ip)))%nat;
  bm_ev : evolves sb D (view s) (inode_at s ip) (view s') (inode_at s' ip);
  bm_addr : a <> 0 /\ blk_addr (view s') (inode_at s' ip) bn = a;
  bm_data : forall bn', in_file bn' -> blk_addr (view s) (inode_at s ip) bn' <> 0 ->
    view s' (blk_addr (view s) (inode_at s ip) bn') = view s (blk_addr (view s) (inode_at s ip) bn');
  bm_others : length (k_itable s') = length (k_itable s) /\ forall i, i <> ip -> inode_at s' i = inode_at s i;
}.

Lemma bmapped_found L s ip bn a :
  writable L s ip -> in_file bn -> blk_addr (view s) (inode_at s ip) bn = a -> a <> 0 -> (length L < k)%nat ->
  exists s', bmap ip bn n s = Ret a s' /\ bmapped L s ip bn a (a :: L) s'.
Proof.
  intros [I G B Hv W Hd Hip Hi] Hb Ea Hn Hk.
  destruct (bmap_found s ip bn a I) as (s' & E & I' & [F' V'] & L'); try done.
  { apply (grown_free p s0 k L s 0); [done|apply I|done|lia]. }
  exists s'. split; [done|]. assert (Eit : k_itable s' = k_itable s) by (by apply (fs_frame_fields p)).
  assert (Eq : inode_at s' ip = inode_at s ip) by (by apply inode_still).
  destruct (ev_data sb D Hgeo (view s) (view s') (inode_at s ip) a (view s a) bn) as [Ev Had]; try done.
  { apply Hv. }
  { intros y. rewrite V'. case_decide; [by subst|done]. }
  split; rewrite ?Eq; try done.
  - split; rewrite ?Eq; try done.
    + apply (grown_sub p s0 L); [set_solver|]. by apply (grown_same p s0 L s).
    + set_solver.
    + apply Ev.
    + apply Ev.
    + by rewrite Eit.
    + intros Hni. apply elem_of_cons. right. by apply Hi.
  - set_solver.
  - apply elem_of_cons. by left.
  - rewrite (nfree_bm sb (view s) (view s') (V' _)). lia.
  - split; [done|]. by rewrite Had.
  - split; [by rewrite Eit|]. intros i _. by apply inode_still.
Qed.

(** A direct block, or the indirect block. *)
Lemma take_slot L s ip j : let q := inode_at s ip in
  writable L s ip -> 0 <= j <= NDIRECT -> aget 0 (i_addrs q) j = 0 -> (S (length L) < k)%nat -> (0 < nfree sb (view s))%nat ->
  exists a s1, balloc dev n s = Ret a s1 /\ a <> 0 /\
    let s' := upd_inode ip (fun q => set_i_addrs (aset (i_addrs q) j a) q) s1 in
    writable (a :: L) s' ip /\ nfree sb (view s) = S (nfree sb (view s')) /\ inode_at s' ip = set_i_addrs (aset (i_addrs q) j a) q /\
    evolves sb D (view s) q (view s') (inode_at s' ip) /\
    (forall bn, in_file bn -> blk_addr (view s') (inode_at s' ip) bn = if decide (bn = j /\ j < NDIRECT) then a else blk_addr (view s) q bn) /\
    (forall bn, in_file bn -> blk_addr (view s) q bn <> 0 -> view s' (blk_addr (view s) q bn) = view s (blk_addr (view s) q bn)) /\
    length (k_itable s') = length (k_itable s) /\ (forall i, i <> ip -> inode_at s' i = inode_at s i).
Proof.
  intros q [I G B Hv W Hd Hip Hi] Hj Hz Hk Hnf. destruct (nfree_first sb (view s) Hnf) as [a Hfree].
  destruct (balloc_at dev p s0 k n Hbud Hfuel sb D Hgeo Hsb [] L s a I G B Hk Hv) as (s1 & E1 & I1 & G1 & [Eit _] & V1); [|done|].
  { intros i Hin. by apply elem_of_nil in Hin. }
  destruct (first_free_data sb D _ a Hgeo Hv Hfree) as [Ha Hfa]. pose proof (ge_size _ _ Hgeo) as Hsz.
  exists a, s1. split; [done|]. split; [lia|]. set (s' := upd_inode _ _ s1).
  assert (Eq : inode_at s' ip = set_i_addrs (aset (i_addrs q) j a) q).
  { unfold s'. rewrite inode_at_upd_eq by (by rewrite Eit). by rewrite (inode_still s s1 ip Eit). }
  assert (V' : forall y, view s' y = alloc_view sb a (view s) y) by exact V1.
  destruct (ev_direct sb D Hgeo (view s) (view s') q a Hv W Hfree j V' Hj Hz) as (Ev & _ & Had). rewrite <- Eq in Ev, Had.
  split_and!; try done.
  - split; try done.
    + by apply intx_inode.
    + by apply grown_inode.
    + set_solver.
    + apply Ev.
    + apply Ev.
    + rewrite Eq. exact Hd.
    + unfold s'. cbn. rewrite length_alter. by rewrite Eit.
    + intros Hni. rewrite elem_of_cons. destruct (decide (j = NDIRECT)) as [->|Hne].
      * left. rewrite Eq. unfold ind. cbn [i_addrs set_i_addrs]. apply aget_aset_eq. pose proof (iw_addrs _ _ _ _ W). fold q in H. change NDIRECT with 12 in *. lia.
      * right. destruct (decide (ind q = 0)) as [E0|E0].
        -- exfalso. apply Hni. rewrite Eq. unfold ind. cbn [i_addrs set_i_addrs]. rewrite aget_aset_ne; [exact E0|..]; change NDIRECT with 12 in *; lia.
        -- rewrite (ev_ind _ _ _ _ _ _ Ev E0). by apply Hi.
  - apply (nfree_take sb (view s) (view s') a); [lia|done|]. intros x Hx. unfold is_free at 1. rewrite V'. by apply (alloc_view_free sb D).
  - intros bn Hb Hn. rewrite V'. by destruct (owned_apart sb D Hgeo (view s) q a Hv W Hfree _ (blk_owned (view s) q bn Hb Hn)) as (_ & _ & ->).
  - unfold s'. cbn. rewrite length_alter. by rewrite Eit.
  - intros i Hne. unfold s'. rewrite inode_at_upd_ne by done. by apply inode_still.
Qed.

(** An entry of the indirect block: the end of [bmap]. *)
Definition map_entry (i j : Z) : K Z :=
  let* bp := bread dev i in
  let* data := bget_f bp b_data in
  let addr := word data j in
  let* addr :=
    if addr =? 0 then
      let* addr := balloc dev in
      when (ctrue addr)
        (bdata bp (put (4 * Z.to_nat j) (le_enc 4 addr)) ;; log_write bp) ;;
      ret addr
    else ret addr in
  brelse bp ;;
  ret addr.

Lemma take_entry L s ip bn : let q := inode_at s ip in
  writable L s ip -> NDIRECT <= bn < MAXFILE -> ind q <> 0 -> blk_addr (view s) q bn = 0 ->
  (length L + 2 < k)%nat -> (0 < nfree sb (view s))%nat ->
  exists a s', map_entry (ind q) (bn - NDIRECT) n s = Ret a s' /\ bmapped L s ip bn a (a :: L) s'.
Proof.
  intros q [I G B Hv W Hd Hip Hi] Hb Hnz Hz Hk Hnf. destruct (nfree_first sb (view s) Hnf) as [a Hfree].
  destruct (first_free_data sb D _ a Hgeo Hv Hfree) as [Ha Hfa]. pose proof (ge_size _ _ Hgeo) as Hsz. change BPB with 8192 in Hsz.
  destruct (iw_owned _ _ _ _ W _ (ind_owned _ _ Hnz)) as [Hir Hif]. fold q in Hir, Hif.
  destruct (bread_at dev p s0 k n Hbud Hfuel [] L s (ind q) I G ltac:(cbn; lia)) as (b & s1 & E1 & I1 & G1 & V1 & C1 & D1 & [T1 _] & _).
  { intros i Hin. by apply elem_of_nil in Hin. }
  assert (Hv1 : vok sb D (view s1)).
  { destruct Hv as [A1 A2]. split; [intros; rewrite V1; apply A1|]. intros. unfold is_free. rewrite V1. by apply A2. }
  assert (Hff1 : first_free sb (view s1) = Some a).
  { rewrite <- Hfree. unfold first_free, is_free. by rewrite V1. }
  destruct (balloc_at dev p s0 k n Hbud Hfuel sb D Hgeo Hsb [b] L s1 a I1 G1 B ltac:(cbn; lia) Hv1) as (s2 & E2 & I2 & G2 & S2 & V2); [|done|].
  { intros i ->%list_elem_of_singleton. exists (ind q). split_and!; [done|lia|lia|]. unfold is_free. rewrite V1. exact Hif. }
  destruct (proj2 S2 b ltac:(by apply list_elem_of_singleton)) as [C2 D2].
  destruct (update_at dev p s0 k n Hbud Hfuel [] (a :: L) b (ind q) (put (4 * Z.to_nat (bn - NDIRECT)) (le_enc 4 a)) s2 I2 G2)
    as (s3 & s4 & s5 & E3 & E4 & E5 & I5 & G5 & [T5 _] & V5).
  { by rewrite C2. }
  { apply elem_of_cons. right. by apply Hi. }
  { cbn. lia. }
  { lia. }
  assert (Eit : k_itable s5 = k_itable s) by (rewrite T5, (proj1 S2); exact T1).
  assert (Eq : inode_at s5 ip = q) by (by apply inode_still).
  assert (HV : forall y, view s5 y = if decide (y = ind q) then put (4 * Z.to_nat (bn - NDIRECT)) (le_enc 4 a) (view s (ind q)) else alloc_view sb a (view s) y).
  { intros y. rewrite V5, D2, D1. case_decide; [done|]. rewrite V2. unfold alloc_view. by rewrite !V1. }
  destruct (ev_entry sb D Hgeo (view s) (view s5) q a Hv W Hfree bn HV Hb Hnz Hz) as (Ev & _ & Had).
  exists a, s5. split.
  - unfold map_entry. rewrite (bind_ret _ _ _ _ _ _ E1), (bind_ret _ _ _ _ _ _ (bget_data b n s1 _ D1)).
    assert (Ew : word (view s (ind q)) (bn - NDIRECT) = 0).
    { rewrite <- Hz. unfold blk_addr. destruct (Z.ltb_spec bn NDIRECT); [lia|]. apply Z.eqb_neq in Hnz. by rewrite Hnz. }
    rewrite Ew. change (0 =? 0) with true. cbv iota. rewrite (bind_bind_ret _ _ _ _ _ _ _ E2).
    unfold ctrue. destruct (Z.eqb_spec a 0); [lia|]. cbn [negb when].
    rewrite bind_bind_ret with (a := tt) (s' := s4) by (by rewrite (bind_ret _ _ _ _ _ _ E3)).
    by rewrite bind_ret_l, (bind_ret _ _ _ _ _ _ E5).
  - split; rewrite ?Eq; try done.
    + split; rewrite ?Eq; try done.
      * apply elem_of_cons. by right.
      * apply Ev.
      * apply Ev.
      * by rewrite Eit.
      * intros _. apply elem_of_cons. right. by apply Hi.
    + intros x Hx. apply elem_of_cons. by right.
    + apply elem_of_cons. by left.
    + fold q. rewrite (nfree_take sb (view s) (view s5) a); [lia|lia|done|]. intros x Hx. unfold is_free at 1. rewrite HV.
      rewrite decide_False by (pose proof (ge_bitmap _ _ Hgeo); lia). by apply (alloc_view_free sb D).
    + split; [lia|]. rewrite Had by (unfold in_file; change NDIRECT with 12 in Hb; lia). by rewrite decide_True.
    + intros bn' Hb' Hn'. fold q in Hn' |- *. rewrite HV. rewrite decide_False by (by apply (iw_ind _ _ _ _ W)).
      by destruct (owned_apart sb D Hgeo (view s) q a Hv W Hfree _ (blk_owned (view s) q bn' Hb' Hn')) as (_ & _ & ->).
    + split; [by rewrite Eit|]. intros i _. by apply inode_still.
Qed.

Lemma bmap_at L s ip bn :
  writable L s ip -> in_file bn -> (length L + ind_need (inode_at s ip) + 2 < k)%nat -> (ind_need (inode_at s ip) < nfree sb (view s))%nat ->
  exists a L' s', bmap ip bn n s = Ret a s' /\ bmapped L s ip bn a L' s'.
Proof.
  intros Wr Hb Hk Hnf. set (q := inode_at s ip) in *. destruct (decide (blk_addr (view s) q bn = 0)) as [Hz|Hn].
  2:{ destruct (bmapped_found L s ip bn _ Wr Hb eq_refl Hn ltac:(lia)) as (s' & E & Bm). by exists (blk_addr (view s) q bn), (blk_addr (view s) q bn :: L), s'. }
  pose proof Wr as [_ _ _ _ W Hd Hip _]. fold q in W, Hd. unfold bmap, iget_f. rewrite bind_gets. unfold id. fold q. unfold in_file in Hb. change MAXFILE with 268 in Hb.
  pose proof Hz as Hz'. unfold blk_addr in Hz'. destruct (Z.ltb_spec bn NDIRECT) as [H1|H1].
  - change NDIRECT with 12 in *. rewrite Hz'. change (0 =? 0) with true. cbv iota. rewrite Hd.
    destruct (take_slot L s ip bn Wr ltac:(change NDIRECT with 12; lia) Hz' ltac:(lia) ltac:(lia)) as (a & s1 & E1 & Ha & R). cbv zeta in R. fold q in R.
    rewrite (bind_ret _ _ _ _ _ _ E1). destruct (Z.eqb_spec a 0); [done|]. unfold iset. rewrite bind_modify.
    set (s' := upd_inode _ _ s1) in *. destruct R as (Wr' & Hnf' & Eq & Ev & Had & Hdt & Hlen & Hoth). exists a, (a :: L), s'. split; [done|].
    assert (Ein : ind_need (inode_at s' ip) = ind_need q).
    { unfold ind_need, ind. rewrite Eq. cbn [i_addrs set_i_addrs]. rewrite aget_aset_ne; [done|..]; change NDIRECT with 12; lia. }
    split; try done; fold q; rewrite ?Ein.
    + intros x Hx. apply elem_of_cons. by right.
    + apply elem_of_cons. by left.
    + cbn. lia.
    + lia.
    + split; [done|]. rewrite Had by (unfold in_file; change MAXFILE with 268; lia). rewrite decide_True; [done|]. change NDIRECT with 12. lia.
  - change NDIRECT with 12 in *. destruct (Z.ltb_spec (bn - 12) NINDIRECT) as [H2|H2]; [|change NINDIRECT with 256 in H2; lia].
    change (aget 0 (i_addrs q) 12) with (ind q). destruct (Z.eqb_spec (ind q) 0) as [Hi0|Hi].
    + assert (Hin1 : ind_need q = 1%nat) by (unfold ind_need; by rewrite Hi0). rewrite Hd.
      destruct (take_slot L s ip 12 Wr ltac:(change NDIRECT with 12; lia) Hi0 ltac:(lia) ltac:(lia)) as (i & s1 & E1 & Ha & R). cbv zeta in R. fold q in R.
      rewrite (bind_bind_ret _ _ _ _ _ _ _ E1). unfold ctrue. destruct (Z.eqb_spec i 0); [done|]. cbn [negb when]. unfold iset. rewrite bind_bind_modify, bind_ret_l.
      destruct (Z.eqb_spec i 0); [done|]. set (s' := upd_inode _ _ s1) in *. destruct R as (Wr' & Hnf' & Eq & Ev & Had & Hdt & Hlen & Hoth).
      assert (Hind : ind (inode_at s' ip) = i).
      { unfold ind. rewrite Eq. cbn [i_addrs set_i_addrs]. change NDIRECT with 12. apply aget_aset_eq. pose proof (iw_addrs _ _ _ _ W). lia. }
      assert (Hin0 : ind_need (inode_at s' ip) = 0%nat) by (unfold ind_need; rewrite Hind; by destruct (Z.eqb_spec i 0)).
      assert (Hsame : forall bn', in_file bn' -> blk_addr (view s') (inode_at s' ip) bn' = blk_addr (view s) q bn').
      { intros bn' Hb'. rewrite Had by done. rewrite decide_False; [done|]. change NDIRECT with 12. lia. }
      assert (Hbn : in_file bn) by (unfold in_file; change MAXFILE with 268; lia).
      destruct (take_entry (i :: L) s' ip bn Wr') as (a & s2 & E2 & Bm).
      { change NDIRECT with 12. change MAXFILE with 268. lia. }
      { by rewrite Hind. }
      { by rewrite Hsame. }
      { cbn. lia. }
      { lia. }
      rewrite Hind in E2. change (map_entry i (bn - NDIRECT)) with (map_entry i (bn - 12)) in E2.
      exists a, (a :: i :: L), s2. split; [exact E2|]. destruct Bm as [M1 M2 M3 M4 M5 M6 M7 M8 [M9 M10]]. rewrite Hin0 in M4, M5.
      split; try done; fold q; rewrite ?Hin1.
      * intros x Hx. apply M2, elem_of_cons. by right.
      * cbn in M4 |- *. lia.
      * lia.
      * by eapply ev_trans.
      * intros bn' Hb' Hn'. rewrite <- (Hsame bn') at 1 by done. rewrite M8 by (done || by rewrite Hsame). rewrite Hsame by done. by apply Hdt.
      * split; [congruence|]. intros j Hj. rewrite M10 by done. by apply Hoth.
    + rewrite bind_ret_l. apply Z.eqb_neq in Hi as Hi'. rewrite Hi'. rewrite Hd.
      destruct (take_entry L s ip bn Wr) as (a & s2 & E2 & Bm); [change NDIRECT with 12; change MAXFILE with 268; lia|done|done|lia|lia|].
      exists a, (a :: L), s2. split; [exact E2|done].
Qed.
End Bmap.

(** ** Bytes of a file and slices of its blocks *)
Lemma length_frange V q o m : length (frange V q o m) = Z.to_nat m.
Proof. unfold frange. by rewrite length_map, length_seqZ. Qed.
Lemma frange_app V q o a b : 0 <= a -> 0 <= b -> frange V q o (a + b) = frange V q o a ++ frange V q (o + a) b.
Proof. intros. unfold frange. rewrite seqZ_app by done. apply map_app. Qed.
Lemma blk_addr_ext V V' q bn : (forall y, V' y = V y) -> blk_addr V' q bn = blk_addr V q bn.
Proof. intros E. unfold blk_addr. by rewrite E. Qed.
Lemma fbyte_ext V V' q o : (forall y, V' y = V y) -> fbyte V' q o = fbyte V q o.
Proof. intros E. unfold fbyte. by rewrite (blk_addr_ext V V'), E. Qed.
Lemma frange_block V q o m : 0 <= o -> 0 <= m <= BSIZE - o mod BSIZE ->
  length (V (blk_addr V q (o / BSIZE))) = Z.to_nat BSIZE ->
  frange V q o m = slice (Z.to_nat (o mod BSIZE)) (Z.to_nat m) (V (blk_addr V q (o / BSIZE))).
Proof.
  intros Ho Hm Hl. change BSIZE with 1024 in *. change (Z.to_nat 1024) with 1024%nat in Hl. pose proof (Z.mod_pos_bound o 1024 ltac:(lia)) as Hr.
  apply list_eq. intros i. destruct (decide (i < Z.to_nat m)%nat) as [Hi|Hi].
  - rewrite lookup_slice by done. unfold frange. change (map ?f ?l) with (f <$> l). rewrite list_lookup_fmap, lookup_seqZ_lt by lia. cbn.
    assert (Hd : (o + Z.of_nat i) / 1024 = o / 1024) by (symmetry; apply (Z.div_unique _ _ _ (o mod 1024 + Z.of_nat i)); [lia|]; pose proof (Z.div_mod o 1024); lia).
    assert (Hd2 : (o + Z.of_nat i) mod 1024 = o mod 1024 + Z.of_nat i) by (pose proof (Z.div_mod (o + Z.of_nat i) 1024); pose proof (Z.div_mod o 1024); lia).
    unfold fbyte. change BSIZE with 1024. rewrite Hd, Hd2. unfold aget. replace (Z.to_nat (o mod 1024 + Z.of_nat i)) with (Z.to_nat (o mod 1024) + i)%nat by lia.
    set (data := V _) in *. destruct (lookup_lt_is_Some_2 data (Z.to_nat (o mod 1024) + i)) as [x Hx]; [lia|]. by rewrite Hx, (nth_lookup_Some _ _ _ _ Hx).
  - rewrite !lookup_ge_None_2; [done| |rewrite length_frange; lia]. unfold slice. rewrite length_take. lia.
Qed.

(** ** Reading *)
Section Readi.
Context {KI : KernelImage} {BD : BlockDevice} {UA : Uart16550}.
Variables (dev : Z) (p : nat) (n : nat) (sb : superblock) (D : Z).
Hypothesis Hfuel : (HEAD < n)%nat.
Hypothesis Hgeo : geometry sb D.
Notation view := (view dev).
Notation intx := (intx dev).

(** What reading needs of the state: the inode is well formed and a buffer
    can be had. *)
Record readable (s : kernel) (ip : nat) : Prop := {
  rd_tx : intx [] p s;
  rd_room : (length (logged_blocks (k_log s)) < HEAD)%nat;
  rd_ok : vok sb D (view s);
  rd_wf : iwf sb D (view s) (inode_at s ip);
  rd_dev : i_dev (inode_at s ip) = dev;
}.
(** The states that differ from [s] by cache traffic only. *)
Definition calm_view (s s' : kernel) : Prop := intx [] p s' /\ same_view dev p s s' /\ k_log s' = k_log s.
Lemma calm_view_trans s s1 s2 : calm_view s s1 -> calm_view s1 s2 -> calm_view s s2.
Proof.
  intros (_ & [F1 V1] & L1) (I2 & [F2 V2] & L2). split_and!; [done| |congruence].
  split; [by eapply fs_frame_trans|]. intros y. by rewrite V2, V1.
Qed.
Lemma calm_itable s s' : calm_view s s' -> k_itable s' = k_itable s.
Proof. intros (_ & [F _] & _). by apply (fs_frame_fields p). Qed.
Lemma calm_inode s s' i : calm_view s s' -> inode_at s' i = inode_at s i.
Proof. intros C. by apply inode_still, calm_itable. Qed.
Lemma iwf_ext V V' q : (forall y, V' y = V y) -> iwf sb D V q -> iwf sb D V' q.
Proof.
  intros E [W1 W2 W3 W4 W5 W6]. assert (Ha : forall bn, blk_addr V' q bn = blk_addr V q bn) by (intros; by apply blk_addr_ext).
  split; try done.
  - intros a Ho. unfold is_free. rewrite E. apply W3. unfold owned in *. setoid_rewrite Ha in Ho. done.
  - intros b1 b2. rewrite !Ha. apply W4.
  - intros b1. rewrite Ha. apply W5.
  - intros b1. rewrite Ha. apply W6.
Qed.
Lemma vok_ext V V' : (forall y, V' y = V y) -> vok sb D V -> vok sb D V'.
Proof. intros E [A1 A2]. split; [intros; rewrite E; apply A1|]. intros. unfold is_free. rewrite E. by apply A2. Qed.
Lemma readable_calm s s' ip : readable s ip -> calm_view s s' -> readable s' ip.
Proof.
  intros [R1 R2 R3 R4 R5] C. pose proof C as (I' & [F' V'] & L'). pose proof (calm_inode s s' ip C) as Eq.
  split; rewrite ?Eq, ?L'; try done; [by apply (vok_ext (view s))|by apply (iwf_ext (view s))].
Qed.

(** One block: [bmap], [bread], copy and [brelse]. *)
Lemma read_block s ip o : readable s ip -> 0 <= o < i_size (inode_at s ip) ->
  let a := blk_addr (view s) (inode_at s ip) (o / BSIZE) in
  exists s1 b s2 s3, bmap ip (o / BSIZE) n s = Ret a s1 /\ a <> 0 /\ bread dev a n s1 = Ret b s2 /\
    b_data (buf_at s2 b) = view s a /\ brelse b n s2 = Ret tt s3 /\ running s2 p /\ k_itable s1 = k_itable s /\ calm_view s s3.
Proof.
  intros R Ho a. pose proof R as [I Hroom Hv W Hd]. set (q := inode_at s ip) in *.
  assert (Hb : in_file (o / BSIZE)).
  { pose proof (iw_size _ _ _ _ W). unfold in_file. change MAXFILE with 268 in *. change BSIZE with 1024 in *. split; [apply Z.div_pos; lia|apply Z.div_lt_upper_bound; lia]. }
  assert (Ha : a <> 0).
  { apply (iw_full _ _ _ _ W); [apply Hb|]. change BSIZE with 1024 in *. pose proof (Z.mul_div_le o 1024). fold q. lia. }
  destruct (bmap_found dev p n Hfuel s ip (o / BSIZE) a I Hroom Hd Hb eq_refl Ha) as (s1 & E1 & I1 & SV1 & L1).
  assert (C1 : calm_view s s1) by done. assert (Hnone : forall i, i ∈ [] -> ~ caches s1 i dev a) by (intros i Hi; by apply elem_of_nil in Hi).
  destruct (bread_tx dev n [] p s1 a I1 Hfuel) as (b & s2 & E2 & _ & I2 & [F2 V2] & Cb & Db & L2 & _); [by rewrite L1|done|].
  destruct (brelse_tx dev n [] b p s2 I2) as (s3 & E3 & I3 & [F3 V3] & L3 & _).
  { rewrite (proj2 Cb), L2. destruct (decide (a ∈ logged_blocks (k_log s1))) as [|Hno]; [by left|right].
    rewrite Db, (view_clean dev [] p s1 a I1 Hno Hnone). unfold disk_block. by destruct (fs_frame_fields p s1 s2 F2) as (-> & _). }
  exists s1, b, s2, s3. split_and!; try done.
  - rewrite Db. apply SV1.
  - apply (t_user _ _ _ _ I2).
  - by apply calm_itable.
  - apply (calm_view_trans s s1); [done|]. split_and!; [done| |congruence]. split; [by eapply fs_frame_trans|]. intros y. by rewrite V3, V2.
Qed.

Lemma either_copyout_kernel s bs : running s p -> either_copyout None bs n s = Ret 0 s.
Proof. intros (Hok & _). unfold either_copyout. by rewrite (bind_ret _ _ _ _ _ _ (myproc_run n s Hok)). Qed.

(** The body of the loop of [readi], with [m] bytes to copy. *)
Definition readi_step (ip : nat) (m : Z) (st : Z * Z * option Z * list Z) : K ((Z * Z * option Z * list Z) + (Z * list Z)) :=
  let '(tot, off, dst, acc) := st in
  if negb (tot <? m) then ret (inr (s32 tot, acc)) else
  let* addr := bmap ip (off / BSIZE) in
  if addr =? 0 then ret (inr (s32 tot, acc)) else
  let* dev := iget_f ip i_dev in
  let* bp := bread dev addr in
  let c := Z.min (m - tot) (BSIZE - off mod BSIZE) in
  let* data := bget_f bp b_data in
  let bs := slice (Z.to_nat (off mod BSIZE)) (Z.to_nat c) data in
  let* r := either_copyout dst bs in
  if r =? -1 then brelse bp ;; ret (inr (-1, acc)) else
  brelse bp ;;
  ret (inl (tot + c, off + c, option_map (fun d => u64 (d + c)) dst, acc ++ bs)).

Lemma iget_dev s ip d : i_dev (inode_at s ip) = d -> iget_f ip i_dev n s = Ret d s.
Proof. by intros <-. Qed.

Lemma readi_step_run s ip m tot off acc :
  readable s ip -> 0 <= tot < m -> 0 <= off -> off + (m - tot) <= i_size (inode_at s ip) ->
  let c := Z.min (m - tot) (BSIZE - off mod BSIZE) in
  exists s', readi_step ip m (tot, off, None, acc) n s =
      Ret (inl (tot + c, off + c, None, acc ++ frange (view s) (inode_at s ip) off c)) s' /\ calm_view s s'.
Proof.
  intros R Ht Ho Hsz c. unfold readi_step. destruct (Z.ltb_spec tot m); [|lia]. cbn [negb].
  destruct (read_block s ip off R ltac:(lia)) as (s1 & b & s2 & s3 & E1 & Ha & E2 & Db & E3 & Hr & Eit & C3).
  rewrite (bind_ret _ _ _ _ _ _ E1). apply Z.eqb_neq in Ha as Ha'. rewrite Ha'.
  rewrite (bind_ret _ _ _ _ _ _ (iget_dev s1 ip dev ltac:(rewrite (inode_still s s1 ip Eit); exact (rd_dev s ip R)))).
  rewrite (bind_ret _ _ _ _ _ _ E2), (bind_ret _ _ _ _ _ _ (bget_data b n s2 _ Db)). fold c.
  rewrite (bind_ret _ _ _ _ _ _ (either_copyout_kernel s2 _ Hr)). change (0 =? -1) with false. cbv iota.
  rewrite (bind_ret _ _ _ _ _ _ E3). exists s3. split; [|done]. unfold ret. cbn [option_map].
  rewrite frange_block; [done|done| |apply (rd_ok s ip R)]. unfold c. change BSIZE with 1024. pose proof (Z.mod_pos_bound off 1024 ltac:(lia)). lia.
Qed.

Lemma frange_ext V V' q o m : (forall y, V' y = V y) -> frange V' q o m = frange V q o m.
Proof. intros E. unfold frange. apply map_ext. intros x. by apply fbyte_ext. Qed.

(** [f] iterations are enough when they cover the blocks that are left. *)
Lemma readi_loop ip m : forall f s tot off acc,
  readable s ip -> 0 <= tot <= m -> m < 2 ^ 31 -> 0 <= off -> off + (m - tot) <= i_size (inode_at s ip) ->
  (1 <= f)%nat -> (tot < m -> off mod BSIZE + (m - tot) <= (Z.of_nat f - 1) * BSIZE) ->
  exists s', iter_upto f (readi_step ip m) (tot, off, None, acc) n s =
      Ret (m, acc ++ frange (view s) (inode_at s ip) off (m - tot)) s' /\ calm_view s s'.
Proof.
  induction f as [|f IH]; intros s tot off acc R Ht Hm Ho Hsz Hf Hfc; [lia|]. cbn [iter_upto].
  destruct (decide (tot = m)) as [->|Hne].
  - exists s. split; [|split; [apply R|split; [split; [apply fs_frame_refl|done]|done]]].
    unfold readi_step at 1. destruct (Z.ltb_spec m m); [lia|]. cbn [negb]. rewrite bind_ret_l.
    rewrite Z.sub_diag. unfold frange. cbn. rewrite app_nil_r. rewrite s32_small; [done|]. change (2 ^ 31) with 2147483648 in Hm. lia.
  - destruct (readi_step_run s ip m tot off acc R ltac:(lia) Ho Hsz) as (s1 & E1 & C1). cbv zeta in E1.
    set (c := Z.min (m - tot) (BSIZE - off mod BSIZE)) in *. rewrite (bind_ret _ _ _ _ _ _ E1).
    assert (Hc : 0 < c <= m - tot).
    { unfold c. change BSIZE with 1024. pose proof (Z.mod_pos_bound off 1024 ltac:(lia)). lia. }
    specialize (Hfc ltac:(lia)). change BSIZE with 1024 in *. pose proof (Z.mod_pos_bound off 1024 ltac:(lia)) as Hmod.
    destruct (IH s1 (tot + c) (off + c) (acc ++ frange (view s) (inode_at s ip) off c)) as (s2 & E2 & C2).
    + by apply (readable_calm s).
    + lia.
    + done.
    + lia.
    + rewrite (calm_inode s s1 ip C1). lia.
    + lia.
    + intros Hlt. assert (Ec : c = 1024 - off mod 1024) by (unfold c in *; lia).
      assert (Em : (off + c) mod 1024 = 0).
      { rewrite Ec. replace (off + (1024 - off mod 1024)) with ((off / 1024 + 1) * 1024) by (pose proof (Z.div_mod off 1024); lia). apply Z_mod_mult. }
      lia.
    + exists s2. split; [|by apply (calm_view_trans s s1)]. rewrite E2. rewrite (calm_inode s s1 ip C1).
      rewrite (frange_ext (view s) (view s1)) by (apply C1). rewrite <- app_assoc, <- frange_app by lia.
      replace (c + (m - (tot + c))) with (m - tot) by lia. done.
Qed.

(** How many bytes [readi(off, m)] returns. *)
Definition read_count (size off m : Z) : Z :=
  if (off >? size) || (u32 (off + m) <? off) then 0 else if u32 (off + m) >? size then size - off else m.

Lemma readi_run s ip off m :
  readable s ip -> (269 <= n)%nat -> 0 <= off < 2 ^ 32 -> 0 <= m < 2 ^ 32 ->
  let c := read_count (i_size (inode_at s ip)) off m in
  exists s', readi ip None off m n s = Ret (c, frange (view s) (inode_at s ip) off c) s' /\ calm_view s s'.
Proof.
  intros R Hf Ho Hm c. change (2 ^ 32) with 4294967296 in *. pose proof (iw_size _ _ _ _ (rd_wf s ip R)) as Hsz. change MAXFILE with 268 in Hsz. change BSIZE with 1024 in Hsz.
  unfold readi, iget_f. rewrite bind_gets. unfold id. unfold c, read_count. set (size := i_size (inode_at s ip)) in *.
  destruct ((off >? size) || (u32 (off + m) <? off)) eqn:E0.
  { exists s. split; [done|]. split; [apply R|split; [split; [apply fs_frame_refl|done]|done]]. }
  apply orb_false_iff in E0 as [E1 E2]. rewrite Z.gtb_ltb, Z.ltb_ge in E1. rewrite Z.ltb_ge in E2.
  assert (Hu : u32 (off + m) = off + m).
  { unfold u32, uwrap in *. change (2 ^ 32) with 4294967296 in *. destruct (decide (off + m < 4294967296)); [apply Z.mod_small; lia|].
    exfalso. rewrite (Z.mod_eq _ 4294967296) in E2 by lia. assert ((off + m) / 4294967296 = 1) by (symmetry; apply (Z.div_unique _ _ _ (off + m - 4294967296)); lia). lia. }
  rewrite Hu in *. set (m' := if off + m >? size then size - off else m).
  assert (Hm' : 0 <= m' /\ off + m' <= size) by (unfold m'; destruct (Z.gtb_spec (off + m) size); lia).
  change (exists s', loop (readi_step ip m') (0, off, None, []) n s = Ret (m', frange (view s) (inode_at s ip) off m') s' /\ calm_view s s').
  destruct (readi_loop ip m' n s 0 off [] R) as (s' & E & C); try lia.
  { intros _. change BSIZE with 1024. pose proof (Z.mod_le off 1024 ltac:(lia) ltac:(lia)). lia. }
  exists s'. split; [|done]. unfold loop. rewrite E, Z.sub_0_r. done.
Qed.
End Readi.

(** ** Files as sequences of bytes *)
Definition file_bytes (V : Z -> list Z) (q : inode) : list Z := frange V q 0 (i_size q).

Lemma size_in_file V q sb D o : iwf sb D V q -> 0 <= o < i_size q -> in_file (o / BSIZE).
Proof.
  intros W Ho. pose proof (iw_size _ _ _ _ W). unfold in_file. change MAXFILE with 268 in *. change BSIZE with 1024 in *.
  split; [apply Z.div_pos; lia|apply Z.div_lt_upper_bound; lia].
Qed.
Lemma lookup_frange V q m i : (i < Z.to_nat m)%nat -> frange V q 0 m !! i = Some (fbyte V q (Z.of_nat i)).
Proof. intros Hi. unfold frange. change (map ?f ?l) with (f <$> l). rewrite list_lookup_fmap, lookup_seqZ_lt by lia. done. Qed.
Lemma frange_eq V q V' q' o m : (forall x, o <= x < o + m -> fbyte V' q' x = fbyte V q x) -> frange V' q' o m = frange V q o m.
Proof. intros E. unfold frange. apply map_ext_in. intros x Hx%list_elem_of_In. apply elem_of_seqZ in Hx. by apply E. Qed.
(** A range of the file is a slice of its bytes. *)
Lemma frange_slice V q size off m : 0 <= off <= size -> 0 <= m ->
  frange V q off (Z.min m (size - off)) = slice (Z.to_nat off) (Z.to_nat m) (frange V q 0 size).
Proof.
  intros Ho Hm. apply list_eq. intros i. destruct (decide (i < Z.to_nat (Z.min m (size - off)))%nat) as [Hi|Hi].
  - rewrite lookup_slice, lookup_frange by lia. unfold frange. change (map ?f ?l) with (f <$> l). rewrite list_lookup_fmap, lookup_seqZ_lt by lia. cbn. do 2 f_equal. lia.
  - rewrite !lookup_ge_None_2; [done| |rewrite length_frange; lia]. unfold slice. rewrite length_take, length_drop, length_frange. lia.
Qed.

(** C28: [readi] returns the bytes of the file: for a well-formed inode, a
    read into a kernel buffer gets exactly the bytes of the file from the
    offset on, at most the number asked for and none beyond the end (none at
    all when offset plus count overflows 32 bits), and changes nothing but
    the buffers cached: the blocks, the inodes and the log are as before. *)
Theorem readi_reads {KI : KernelImage} {BD : BlockDevice} {UA : Uart16550} dev p n sb D s ip off m :
  geometry sb D -> readable dev p sb D s ip -> (269 <= n)%nat -> 0 <= off < 2 ^ 32 -> 0 <= m < 2 ^ 32 ->
  let bs := if off + m <? 2 ^ 32 then slice (Z.to_nat off) (Z.to_nat m) (file_bytes (view dev s) (inode_at s ip)) else [] in
  exists s', readi ip None off m n s = Ret (Z.of_nat (length bs), bs) s' /\ intx dev [] p s' /\
    (forall x, view dev s' x = view dev s x) /\ (forall i, inode_at s' i = inode_at s i) /\
    k_log s' = k_log s /\ k_disk s' = k_disk s.
Proof.
  intros G R Hn Ho Hm bs. destruct (readi_run dev p n sb D ltac:(change HEAD with 30%nat; lia) s ip off m R Hn Ho Hm) as (s' & E & C).
  pose proof (iw_size _ _ _ _ (rd_wf _ _ _ _ _ _ R)) as Hsz. change MAXFILE with 268 in Hsz. change BSIZE with 1024 in Hsz.
  set (c := read_count (i_size (inode_at s ip)) off m) in *.
  assert (Hb : frange (view dev s) (inode_at s ip) off c = bs /\ 0 <= c).
  { unfold c, read_count, bs, file_bytes. change (2 ^ 32) with 4294967296 in *. set (size := i_size (inode_at s ip)) in *.
    destruct (Z.gtb_spec off size) as [H1|H1]; cbn [orb].
    - split; [|lia]. destruct (off + m <? 4294967296); [|done]. symmetry. apply nil_length_inv. unfold slice. rewrite length_take, length_drop, length_frange. lia.
    - destruct (Z.ltb_spec (off + m) 4294967296) as [H2|H2].
      + rewrite u32_small by lia. destruct (Z.ltb_spec (off + m) off); [lia|]. rewrite <- frange_slice by lia.
        destruct (Z.gtb_spec (off + m) size); (split; [f_equal|]; lia).
      + assert (Hu : u32 (off + m) < off).
        { unfold u32, uwrap. change (2 ^ 32) with 4294967296. rewrite (Z.mod_eq _ 4294967296) by lia.
          assert ((off + m) / 4294967296 = 1) by (symmetry; apply (Z.div_unique _ _ _ (off + m - 4294967296)); lia). lia. }
        apply Z.ltb_lt in Hu. rewrite Hu. done. }
  destruct Hb as [Hb Hc]. exists s'. rewrite Hb in E. assert (Hl : c = Z.of_nat (length bs)) by (rewrite <- Hb, length_frange; lia). rewrite <- Hl.
  pose proof C as (I' & [F' V'] & L'). split_and!; try done.
  - intros i. by apply (calm_inode dev p).
  - apply (fs_frame_fields p s s' F').
Qed.

(** ** A file with one block, block 46 *)
Definition ex_disk (c : list Z) : gmap Z (list Z) :=
  <[45 := [255; 255; 255; 255; 255; 127] ++ replicate 1018 0]> {[46 := c ++ replicate (1024 - length c) 0]}.
Definition ex_file (type : Z) (c : list Z) : inode := mk_inode 1 7 1 1 type 0 0 1 (Z.of_nat (length c)) (46 :: replicate 12 0).
(** Inodes with at most one block. *)
Lemma one_block_iwf sb D V q a : i_addrs q = a :: replicate 12 0 -> 0 <= i_size q <= 1024 -> (a = 0 -> i_size q = 0) ->
  (a <> 0 -> D <= a < sb_size sb /\ is_free sb V a = false) -> iwf sb D V q.
Proof.
  intros Ha Hs H0 Hn. assert (Hind : ind q = 0) by (unfold ind; by rewrite Ha).
  assert (Haddr : forall bn, in_file bn -> blk_addr V q bn = if decide (bn = 0) then a else 0).
  { intros bn Hb. unfold in_file in Hb. unfold blk_addr. rewrite Hind. destruct (Z.ltb_spec bn NDIRECT); [|by rewrite decide_False by (change NDIRECT with 12 in *; lia)].
    unfold aget. rewrite Ha. case_decide as E; [by subst|]. destruct (Z.to_nat bn) as [|j] eqn:Ej; [lia|]. cbn [nth].
    rewrite nth_lookup. destruct (_ !! j) as [x|] eqn:Ex; [|done]. by apply lookup_replicate in Ex as [-> _]. }
  split; try done.
  - by rewrite Ha.
  - change (MAXFILE * BSIZE) with 274432. lia.
  - intros b [Hb [Hi|(bn & Hbn & Hi)]]; [congruence|]. rewrite Haddr in Hi by done. case_decide; [subst; by apply Hn|congruence].
  - intros bn bn' Hb Hb'. rewrite !Haddr by done. do 2 case_decide; congruence.
  - intros bn Hb Hlt. change BSIZE with 1024 in Hlt. assert (bn = 0) as -> by lia. rewrite Haddr; [|unfold in_file; by change MAXFILE with 268].
    rewrite decide_True by done. intros E. specialize (H0 E). lia.
Qed.
Lemma ex_file_state type c its : (length c <= 1024)%nat ->
  exists s, readable 1 3 ex_sb 46 s 0 /\ k_log s = ex_lg /\ inode_at s 0 = ex_file type c /\ k_sb s = ex_sb /\
    k_itable s = ex_file type c :: its /\ lk_free L_itable (k_lk s) /\ (forall x, view 1 s x = default zero_block (ex_disk c !! x)).
Proof.
  intros Hc. destruct (ex_tx_state (ex_disk c) ex_sb (ex_file type c :: its)) as (s & I & Hl & _ & Hs & Hi & Hlk & Hv & _). exists s.
  assert (Eq : inode_at s 0 = ex_file type c) by (unfold inode_at; by rewrite Hi).
  assert (H45 : view 1 s 45 = [255; 255; 255; 255; 255; 127] ++ replicate 1018 0) by (rewrite Hv; unfold ex_disk; by rewrite lookup_insert_eq).
  split; [|done]. split; rewrite ?Eq; try done.
  - rewrite Hl. vm_compute. lia.
  - apply ex_vok; [|rewrite H45; by vm_compute]. intros x. rewrite Hv. unfold ex_disk.
    destruct (decide (x = 45)) as [->|N1]; [by rewrite lookup_insert_eq|rewrite lookup_insert_ne by done].
    destruct (decide (x = 46)) as [->|N2]; [rewrite lookup_singleton_eq|by rewrite lookup_singleton_ne].
    cbn [default from_option id]. rewrite length_app, length_replicate. change (Z.to_nat BSIZE) with 1024%nat. lia.
  - apply (one_block_iwf _ _ _ _ 46); [done|cbn; lia|done|]. intros _. split; [cbn; lia|]. unfold is_free. change (sb_bmapstart ex_sb) with 45. rewrite H45. by vm_compute.
Qed.

#[local] Existing Instance fast_line.
Lemma readi_reads_witness : exists s s', readi 0 None 1 100 269%nat s = Ret (4, str_bytes "ello") s'.
Proof.
  destruct (ex_file_state 2 (str_bytes "hello") []) as (s & R & _ & Eq & _ & _ & _ & Hv); [cbn; lia|]. exists s.
  destruct (readi_reads 1 3 269%nat ex_sb 46 s 0 1 100) as (s' & E & _).
  - exact ex_geometry.
  - exact R.
  - lia.
  - lia.
  - lia.
  - exists s'. rewrite Eq in E. assert (Hb : file_bytes (view 1 s) (ex_file 2 (str_bytes "hello")) = str_bytes "hello").
    { unfold file_bytes. rewrite (frange_ext (fun x => default zero_block (ex_disk (str_bytes "hello") !! x)) (view 1 s)) by exact Hv. vm_compute. reflexivity. }
    rewrite Hb in E. exact E.
Defined.
