(* ===== verification/Writei.v ===== *)
(** * Writing a file

    kernel/fs.c, [writei] and [iupdate], inside a transaction: the file
    becomes its old content with the new bytes put over it, allocating blocks
    as needed; the other files, and the disk, are left alone, and the log
    space taken is bounded by the number of blocks touched. *)

From S2P Require Import Prelude Params Kernel Spinlock StringC Kalloc Vm Proc Sleeplock Bio Log Crash Transaction Uart Printf Fs Blocks Balloc Content.

Lemma aget_put off bs data j :
  (off + length bs <= length data)%nat -> 0 <= j ->
  aget 0 (put off bs data) j =
  if decide (Z.of_nat off <= j < Z.of_nat off + Z.of_nat (length bs)) then aget 0 bs (j - Z.of_nat off) else aget 0 data j.
Proof.
  intros Hl Hj. unfold aget. case_decide as E.
  - unfold put. rewrite app_nth2 by (rewrite length_take; lia). rewrite app_nth1 by (rewrite length_take; lia).
    f_equal. rewrite length_take. lia.
  - rewrite !nth_lookup, lookup_put_out by lia. done.
Qed.

Lemma block_index off o c : 0 <= off -> c <= BSIZE - off mod BSIZE -> off <= o < off + c ->
  o / BSIZE = off / BSIZE /\ o mod BSIZE = off mod BSIZE + (o - off).
Proof.
  intros H1 H2 H3. change BSIZE with 1024 in *. pose proof (Z.mod_pos_bound off 1024 ltac:(lia)). pose proof (Z.div_mod off 1024 ltac:(lia)).
  assert (E : o / 1024 = off / 1024) by (symmetry; apply (Z.div_unique _ _ _ (off mod 1024 + (o - off))); lia).
  split; [done|]. pose proof (Z.div_mod o 1024 ltac:(lia)). lia.
Qed.
Lemma block_index_out off o c : 0 <= off -> 0 <= o -> 0 <= c -> ~ (off <= o < off + c) -> o / BSIZE = off / BSIZE ->
  ~ (off mod BSIZE <= o mod BSIZE < off mod BSIZE + c).
Proof. intros H1 H2 Hc H3 E. change BSIZE with 1024 in *. pose proof (Z.div_mod off 1024 ltac:(lia)). pose proof (Z.div_mod o 1024 ltac:(lia)). lia. Qed.

(** The blocks that [m] bytes at [off] touch. *)
Definition span_blocks (off m : Z) : Z := if m =? 0 then 0 else (off mod BSIZE + m + BSIZE - 1) / BSIZE.

Lemma nblocks_step off m : 0 <= off -> 0 < m ->
  let c := Z.min m (BSIZE - off mod BSIZE) in span_blocks off m = span_blocks (off + c) (m - c) + 1.
Proof.
  intros Ho Hm c. change BSIZE with 1024 in *. pose proof (Z.mod_pos_bound off 1024 ltac:(lia)). unfold span_blocks. change BSIZE with 1024.
  destruct (Z.eqb_spec m 0); [lia|]. destruct (Z.eqb_spec (m - c) 0).
  { symmetry. apply (Z.div_unique _ _ _ (off mod 1024 + m - 1)); lia. }
  assert (Ec : c = 1024 - off mod 1024) by lia.
  assert (Em : (off + c) mod 1024 = 0).
  { rewrite Ec. replace (off + (1024 - off mod 1024)) with ((off / 1024 + 1) * 1024) by (pose proof (Z.div_mod off 1024); lia). apply Z_mod_mult. }
  rewrite Em, Ec. replace (off mod 1024 + m + 1024 - 1) with ((0 + (m - (1024 - off mod 1024)) + 1024 - 1) + 1 * 1024) by lia.
  by rewrite Z.div_add by lia.
Qed.
(** A chunk of [filewrite] touches at most four blocks. *)
Lemma span_chunk off m : 0 <= m -> m <= (MAXOPBLOCKS - 1 - 1 - 2) / 2 * BSIZE -> span_blocks off m + 3 <= MAXOPBLOCKS.
Proof.
  change ((MAXOPBLOCKS - 1 - 1 - 2) / 2 * BSIZE) with 3072. change MAXOPBLOCKS with 10. intros H0 Hm. unfold span_blocks. change BSIZE with 1024.
  destruct (m =? 0); [lia|]. pose proof (Z.mod_pos_bound off 1024 ltac:(lia)). assert ((off mod 1024 + m + 1024 - 1) / 1024 < 5); [apply Z.div_lt_upper_bound; lia|lia].
Qed.
Lemma nblocks_nonneg off m : 0 <= m -> 0 <= span_blocks off m.
Proof. intros. unfold span_blocks. change BSIZE with 1024. pose proof (Z.mod_pos_bound off 1024 ltac:(lia)). destruct (m =? 0); [done|]. apply Z.div_pos; lia. Qed.

(** ** The bytes to write

    What a source holds: a kernel buffer is its bytes; a user address holds
    what the page table of the process [p] maps there. *)
Definition supplies {KI : KernelImage} (p n : nat) (s : kernel) (src : Z + list Z) (bs : list Z) : Prop :=
  match src with
  | inr l => bs = l
  | inl va =>
      let pt := p_pagetable (proc_at s p) in
      (Z.to_nat BSIZE < n)%nat /\ (exists l, pt_wf (k_mem s) pt l) /\ 0 <= va /\ va + Z.of_nat (length bs) <= MAXVA /\
      mapped_range (k_mem s) pt va (Z.of_nat (length bs)) /\ bs = ubytes (k_mem s) pt va (length bs)
  end.

Lemma length_ubytes m pt va k : length (ubytes m pt va k) = k.
Proof. unfold ubytes. by rewrite length_map, length_seq. Qed.
Lemma ubytes_split m pt va bs c : (c <= length bs)%nat -> bs = ubytes m pt va (length bs) ->
  take c bs = ubytes m pt va c /\ drop c bs = ubytes m pt (va + Z.of_nat c) (length bs - c).
Proof.
  intros Hc E. replace (length bs) with (c + (length bs - c))%nat in E at 1 by lia. rewrite ubytes_app in E. split.
  - rewrite E at 1. by rewrite take_app_length' by (symmetry; apply length_ubytes).
  - rewrite E at 1. by rewrite drop_app_length' by (symmetry; apply length_ubytes).
Qed.

Section Supplies.
Context {KI : KernelImage}.
Variables (p n : nat).
Notation supplies := (supplies p n).

Lemma supplies_copyin s src bs c : running s p -> supplies s src bs -> 0 <= c <= BSIZE -> c <= Z.of_nat (length bs) ->
  either_copyin src c n s = Ret (0, take (Z.to_nat c) bs) s.
Proof.
  intros (Hok & Hp & _) Hs Hc Hl. unfold either_copyin. rewrite (bind_ret _ _ _ _ _ _ (myproc_run n s Hok)).
  destruct src as [va|l]; cbn in Hs; [|by subst]. destruct Hs as (Hn & (l & Hwf) & Hva & Hmax & Hmap & E).
  rewrite Hp. unfold deref, pget. rewrite bind_ret_l, bind_gets.
  destruct (copyin_reads n s _ l va c Hwf Hva) as [H _]; [lia|lia|lia|].
  destruct (H ltac:(intros i Hi; apply Hmap; lia)) as [E1 _]. etrans; [exact E1|]. do 2 f_equal. symmetry. by apply (ubytes_split _ _ va bs); [lia|].
Qed.

Lemma supplies_skip s src bs c : supplies s src bs -> 0 <= c <= Z.of_nat (length bs) ->
  supplies s (src_skip src c) (drop (Z.to_nat c) bs).
Proof.
  intros Hs Hc. destruct src as [va|l]; cbn in Hs |- *; [|by subst]. destruct Hs as (Hn & Hwf & Hva & Hmax & Hmap & E).
  assert (HM : MAXVA < 2 ^ 64) by done. rewrite length_drop, u64_small by lia.
  split_and!; [done|done|lia|lia| |].
  - intros i Hi. rewrite <- Z.add_assoc. apply Hmap. lia.
  - destruct (ubytes_split _ _ va bs (Z.to_nat c) ltac:(lia) E) as [_ E2]. rewrite E2. do 2 f_equal; lia.
Qed.

Lemma supplies_grown s L s' src bs : grown p s L s' -> supplies s src bs -> supplies s' src bs.
Proof.
  intros [(E & _ & _ & Hp & _) _]. destruct src as [va|l]; [|done]. unfold supplies. rewrite Hp.
  assert (Em : k_mem s' = k_mem s) by (rewrite E; done). by rewrite Em.
Qed.
End Supplies.

Section Writei.
Context {KI : KernelImage} {BD : BlockDevice} {UA : Uart16550}.
Variables (dev : Z) (p : nat) (n : nat).
Hypothesis Hfuel : (HEAD < n)%nat.
Variables (s0 : kernel) (k : nat) (sb : superblock) (D : Z).
Hypothesis Hbud : budget s0 k.
Hypothesis Hgeo : geometry sb D.
Hypothesis Hsb : k_sb s0 = sb.
Notation view := (view dev).
Notation intx := (intx dev).
Notation writable := (writable dev p s0 sb D).

(** The body of the loop of [writei]. *)
Definition writei_step (ip : nat) (m : Z) (st : Z * Z * (Z + list Z)) : K ((Z * Z * (Z + list Z)) + (Z * Z)) :=
  let '(tot, off, src) := st in
  if negb (tot <? m) then ret (inr (tot, off)) else
  let* addr := bmap ip (off / BSIZE) in
  if addr =? 0 then ret (inr (tot, off)) else
  let* dev := iget_f ip i_dev in
  let* bp := bread dev addr in
  let c := Z.min (m - tot) (BSIZE - off mod BSIZE) in
  let* r := either_copyin src c in
  let '(r, bs) := r : Z * list Z in
  bdata bp (put (Z.to_nat (off mod BSIZE)) bs) ;;
  if r =? -1 then brelse bp ;; ret (inr (tot, off)) else
  log_write bp ;;
  brelse bp ;;
  ret (inl (tot + c, off + c, src_skip src c)).

(** From [s] to [s'], [c] bytes of [bs] were written at [off]. *)
Record written (L : list Z) (s : kernel) (ip : nat) (off c : Z) (bs : list Z) (L' : list Z) (s' : kernel) : Prop := {
  w_wr : writable L' s' ip;
  w_sub : L ⊆ L';
  w_ev : evolves sb D (view s) (inode_at s ip) (view s') (inode_at s' ip);
  w_there : forall o, off <= o < off + c -> blk_addr (view s') (inode_at s' ip) (o / BSIZE) <> 0;
  w_new : forall o, off <= o < off + c -> fbyte (view s') (inode_at s' ip) o = aget 0 bs (o - off);
  w_old : forall o, 0 <= o -> in_file (o / BSIZE) -> ~ (off <= o < off + c) -> blk_addr (view s) (inode_at s ip) (o / BSIZE) <> 0 ->
    fbyte (view s') (inode_at s' ip) o = fbyte (view s) (inode_at s ip) o;
  w_others : length (k_itable s') = length (k_itable s) /\ forall i, i <> ip -> inode_at s' i = inode_at s i;
}.

Lemma writei_step_run L s ip m tot off src rest :
  writable L s ip -> supplies p n s0 src rest -> 0 <= tot < m -> 0 <= off -> in_file (off / BSIZE) ->
  let c := Z.min (m - tot) (BSIZE - off mod BSIZE) in
  c <= Z.of_nat (length rest) ->
  (length L + ind_need (inode_at s ip) + 2 < k)%nat -> (ind_need (inode_at s ip) < nfree sb (view s))%nat ->
  exists L' s', writei_step ip m (tot, off, src) n s = Ret (inl (tot + c, off + c, src_skip src c)) s' /\
    written L s ip off c rest L' s' /\
    (length L' + ind_need (inode_at s' ip) <= S (length L + ind_need (inode_at s ip)))%nat /\
    (nfree sb (view s) + ind_need (inode_at s' ip) <= S (nfree sb (view s') + ind_need (inode_at s ip)))%nat.
Proof.
  intros Wr Hsrc Ht Ho Hb c Hrest Hk Hnf.
  destruct (bmap_at dev p n Hfuel s0 k sb D Hbud Hgeo Hsb L s ip (off / BSIZE) Wr Hb Hk Hnf) as (a & L' & s1 & E1 & [Wr1 M2 M3 M4 M5 Ev1 [Ha Ead] M8 [M9 M10]]).
  pose proof Wr1 as [I1 G1 B1 Hv1 W1 Hd1 Hip1 Hi1]. set (q1 := inode_at s1 ip) in *.
  assert (Hoa : owned (view s1) q1 a) by (split; [done|right; exists (off / BSIZE); done]).
  destruct (iw_owned _ _ _ _ W1 a Hoa) as [Har _]. pose proof (ge_size _ _ Hgeo) as Hsz. change BPB with 8192 in Hsz.
  assert (HkL : (length L' < k)%nat) by lia.
  destruct (bread_at dev p s0 k n Hbud Hfuel [] L' s1 a I1 G1 HkL) as (b & s2 & E2 & I2 & G2 & V2 & C2 & D2 & [T2 _] & _).
  { intros i Hi. by apply elem_of_nil in Hi. }
  set (bs := take (Z.to_nat c) rest). assert (Hmod : 0 <= off mod BSIZE < BSIZE) by (apply Z.mod_pos_bound; done).
  assert (Hc : 0 < c <= BSIZE - off mod BSIZE) by (unfold c; lia).
  assert (Hbl : Z.of_nat (length bs) = c) by (unfold bs; rewrite length_take; lia).
  destruct (update_at dev p s0 k n Hbud Hfuel [] L' b a (put (Z.to_nat (off mod BSIZE)) bs) s2 I2 G2 C2 M3 HkL ltac:(lia))
    as (s3 & s4 & s5 & E3 & E4 & E5 & I5 & G5 & [T5 _] & V5).
  assert (Eit : k_itable s5 = k_itable s1) by congruence. assert (Eq : inode_at s5 ip = q1) by (by apply inode_still).
  assert (Hfit : (Z.to_nat (off mod BSIZE) + length bs <= length (view s1 a))%nat) by (rewrite (vo_len _ _ _ Hv1); change BSIZE with 1024 in *; lia).
  assert (HV : forall y, view s5 y = if decide (y = a) then put (Z.to_nat (off mod BSIZE)) bs (view s1 a) else view s1 y).
  { intros y. rewrite V5, D2. case_decide; [done|apply V2]. }
  destruct (ev_data sb D Hgeo (view s1) (view s5) q1 a (put (Z.to_nat (off mod BSIZE)) bs (view s1 a)) (off / BSIZE)) as [Ev5 Had5]; try done.
  { rewrite length_put by done. apply Hv1. }
  exists L', s5. split_and!.
  - unfold writei_step. destruct (Z.ltb_spec tot m); [|lia]. cbn [negb]. rewrite (bind_ret _ _ _ _ _ _ E1).
    apply Z.eqb_neq in Ha as Ha'. rewrite Ha'. rewrite (bind_ret _ _ _ _ _ _ (iget_dev n s1 ip dev Hd1)). rewrite (bind_ret _ _ _ _ _ _ E2). fold c.
    rewrite (bind_ret _ _ _ _ _ _ (supplies_copyin p n s2 src rest c ltac:(apply (t_user _ _ _ _ I2)) (supplies_grown p n s0 L' s2 src rest G2 Hsrc) ltac:(lia) Hrest)). fold bs. cbv iota beta.
    rewrite (bind_ret _ _ _ _ _ _ E3). change (0 =? -1) with false. cbv iota.
    by rewrite (bind_ret _ _ _ _ _ _ E4), (bind_ret _ _ _ _ _ _ E5).
  - split; rewrite ?Eq; try done.
    + split; rewrite ?Eq; try done; [apply Ev5|apply Ev5|by rewrite Eit].
    + by eapply ev_trans.
    + intros o Hor. destruct (block_index off o c Ho ltac:(lia) Hor) as [E6 E7]. by rewrite E6, Had5, Ead.
    + intros o Hor. destruct (block_index off o c Ho ltac:(lia) Hor) as [E6 E7]. unfold fbyte. rewrite Had5, E6, E7, Ead, HV, decide_True by done.
      rewrite aget_put by (done || lia). rewrite decide_True by lia. unfold bs, aget. replace (off mod BSIZE + (o - off) - Z.of_nat (Z.to_nat (off mod BSIZE))) with (o - off) by lia.
      rewrite !nth_lookup, lookup_take_lt by lia. done.
    + intros o Ho0 Hbo Hout Hn. unfold fbyte. rewrite Had5, HV. pose proof (ev_addr _ _ _ _ _ _ Ev1 _ Hbo Hn) as Ex. fold q1 in Ex. rewrite Ex.
      rewrite <- M8 by done. case_decide as Exa; [|done]. rewrite Exa.
      assert (Ebn : o / BSIZE = off / BSIZE).
      { apply (iw_inj _ _ _ _ W1); [done|done|by rewrite Ex|]. by rewrite Ex, Exa. }
      pose proof (block_index_out off o c Ho Ho0 ltac:(lia) Hout Ebn). rewrite aget_put by (done || apply Z.mod_pos_bound; done).
      rewrite decide_False by lia. done.
    + split; [by rewrite Eit|]. intros i Hne. rewrite (inode_still s1 s5 i Eit). by apply M10.
  - rewrite Eq. done.
  - rewrite Eq, (nfree_bm sb (view s1) (view s5)); [done|]. rewrite HV, decide_False; [done|]. pose proof (ge_bitmap _ _ Hgeo). lia.
Qed.

(** ** The loop *)
Lemma written_trans L s ip off c rest L1 s1 c2 L2 s2 :
  0 <= off -> 0 <= c -> 0 <= c2 -> off + c + c2 <= MAXFILE * BSIZE ->
  written L s ip off c rest L1 s1 -> written L1 s1 ip (off + c) c2 (drop (Z.to_nat c) rest) L2 s2 ->
  written L s ip off (c + c2) rest L2 s2.
Proof.
  intros Ho Hc Hc2 Hmax [_ B1 E1 T1 N1 O1 [P1 Q1]] [Wr2 B2 E2 T2 N2 O2 [P2 Q2]].
  assert (Hin : forall o, 0 <= o < off + c + c2 -> in_file (o / BSIZE)).
  { intros o Hor. unfold in_file. change MAXFILE with 268 in *. change BSIZE with 1024 in *. split; [apply Z.div_pos; lia|apply Z.div_lt_upper_bound; lia]. }
  split; [done|by etrans|by eapply ev_trans| | | |].
  - intros o Hor. destruct (decide (o < off + c)); [|apply T2; lia].
    rewrite (ev_addr _ _ _ _ _ _ E2); [apply T1; lia|apply Hin; lia|apply T1; lia].
  - intros o Hor. destruct (decide (o < off + c)).
    + rewrite O2; [apply N1; lia|lia|apply Hin; lia|lia|apply T1; lia].
    + rewrite N2 by lia. unfold aget. rewrite !nth_lookup, lookup_drop. do 2 f_equal. lia.
  - intros o Ho0 Hb Hout Hn. rewrite O2; [apply O1; [done|done|lia|done]|done|done|lia|]. rewrite (ev_addr _ _ _ _ _ _ E1) by done. done.
  - split; [congruence|]. intros i Hi. rewrite Q2, Q1 by done. done.
Qed.

Lemma written_refl L s ip off rest : writable L s ip -> written L s ip off 0 rest L s.
Proof. intros Wr. split; try done; [apply ev_refl; apply Wr|intros; lia|intros; lia]. Qed.

Lemma writei_loop ip m : forall f L s tot off src rest,
  writable L s ip -> supplies p n s0 src rest -> 0 <= tot <= m -> 0 <= off -> off + (m - tot) <= MAXFILE * BSIZE ->
  m - tot <= Z.of_nat (length rest) ->
  Z.of_nat (length L + ind_need (inode_at s ip) + 1) + span_blocks off (m - tot) < Z.of_nat k ->
  Z.of_nat (ind_need (inode_at s ip)) + span_blocks off (m - tot) <= Z.of_nat (nfree sb (view s)) ->
  span_blocks off (m - tot) < Z.of_nat f ->
  exists L' s', iter_upto f (writei_step ip m) (tot, off, src) n s = Ret (m, off + (m - tot)) s' /\
    written L s ip off (m - tot) rest L' s' /\
    Z.of_nat (length L' + ind_need (inode_at s' ip)) <= Z.of_nat (length L + ind_need (inode_at s ip)) + span_blocks off (m - tot).
Proof.
  induction f as [|f IH]; intros L s tot off src rest Wr Hsrc Ht Ho Hmax Hrest Hk Hnf Hfc; [pose proof (nblocks_nonneg off (m - tot)); lia|]. cbn [iter_upto].
  destruct (decide (tot = m)) as [->|Hne].
  { exists L, s. rewrite Z.sub_diag, Z.add_0_r. split_and!; [|by apply written_refl|change (span_blocks off 0) with 0; lia].
    unfold writei_step at 1. destruct (Z.ltb_spec m m); [lia|]. done. }
  set (c := Z.min (m - tot) (BSIZE - off mod BSIZE)).
  assert (Hc : 0 < c <= m - tot) by (unfold c; change BSIZE with 1024; pose proof (Z.mod_pos_bound off 1024 ltac:(lia)); lia).
  pose proof (nblocks_step off (m - tot) Ho ltac:(lia)) as Hstep. cbv zeta in Hstep. fold c in Hstep.
  pose proof (nblocks_nonneg (off + c) (m - tot - c) ltac:(lia)) as Hnn.
  destruct (writei_step_run L s ip m tot off src rest Wr Hsrc ltac:(lia) Ho) as (L1 & s1 & E1 & W1 & HL1 & HN1).
  { unfold in_file. change MAXFILE with 268 in *. change BSIZE with 1024 in *. split; [apply Z.div_pos; lia|apply Z.div_lt_upper_bound; lia]. }
  { fold c. lia. }
  { lia. }
  { lia. }
  fold c in E1, W1. rewrite (bind_ret _ _ _ _ _ _ E1).
  destruct (IH L1 s1 (tot + c) (off + c) (src_skip src c) (drop (Z.to_nat c) rest)) as (L2 & s2 & E2 & W2 & HL2).
  - apply W1.
  - apply supplies_skip; [done|lia].
  - lia.
  - lia.
  - lia.
  - rewrite length_drop. lia.
  - replace (m - (tot + c)) with (m - tot - c) by lia. lia.
  - replace (m - (tot + c)) with (m - tot - c) by lia. lia.
  - replace (m - (tot + c)) with (m - tot - c) by lia. lia.
  - replace (m - (tot + c)) with (m - tot - c) in * by lia. exists L2, s2. split_and!.
    + rewrite E2. do 2 f_equal. lia.
    + replace (m - tot) with (c + (m - tot - c)) by lia. by eapply written_trans; [..|exact W1|exact W2]; lia.
    + lia.
Qed.

(** ** The inode block *)
Definition dinode_of (q : inode) : dinode := mk_dinode (i_type q) (i_major q) (i_minor q) (i_nlink q) (i_size q) (i_addrs q).

Lemma iupdate_at L s ip : let q := inode_at s ip in let IB := IBLOCK (i_inum q) sb in
  intx [] p s -> grown p s0 L s -> IB ∈ L -> (length L < k)%nat -> i_dev q = dev -> 0 <= i_inum q < sb_ninodes sb ->
  exists s', iupdate ip n s = Ret tt s' /\ intx [] p s' /\ grown p s0 L s' /\ k_itable s' = k_itable s /\
    (forall y, view s' y = if decide (y = IB) then put (dinode_off (i_inum q)) (dinode_enc (dinode_of q)) (view s IB) else view s y).
Proof.
  intros q IB I G HL Hk Hd Hi. destruct (ge_inodes _ _ Hgeo _ Hi) as [HIB _]. fold IB in HIB. pose proof (ge_size _ _ Hgeo) as Hsz. change BPB with 8192 in Hsz.
  destruct (bread_at dev p s0 k n Hbud Hfuel [] L s IB I G Hk) as (b & s2 & E2 & I2 & G2 & V2 & C2 & D2 & [T2 _] & _).
  { intros i Hin. by apply elem_of_nil in Hin. }
  destruct (update_at dev p s0 k n Hbud Hfuel [] L b IB (put (dinode_off (i_inum q)) (dinode_enc (dinode_of q))) s2 I2 G2 C2 HL Hk ltac:(lia))
    as (s3 & s4 & s5 & E3 & E4 & E5 & I5 & G5 & [T5 _] & V5).
  exists s5. split_and!; try done.
  - unfold iupdate, iget_f. rewrite bind_gets. unfold id. rewrite (bind_ret _ _ _ _ _ _ (gets_sb p s0 n sb Hsb L s G)). fold q. rewrite Hd. fold IB.
    rewrite (bind_ret _ _ _ _ _ _ E2). rewrite bind_gets. rewrite (inode_still s s2 ip T2). fold q.
    change (mk_dinode (i_type q) (i_major q) (i_minor q) (i_nlink q) (i_size q) (i_addrs q)) with (dinode_of q).
    by rewrite (bind_ret _ _ _ _ _ _ E3), (bind_ret _ _ _ _ _ _ E4).
  - congruence.
  - intros y. rewrite V5, D2. case_decide; [done|apply V2].
Qed.
End Writei.

(** ** A change below the data area that spares the bitmap *)
Section Meta.
Variables (sb : superblock) (D : Z) (V V' : Z -> list Z) (x0 : Z).
Hypothesis Hgeo : geometry sb D.
Hypothesis HV : forall y, y <> x0 -> V' y = V y.
Hypothesis Hx0 : 0 < x0 < D /\ x0 <> sb_bmapstart sb.

Lemma meta_free x : is_free sb V' x = is_free sb V x.
Proof. unfold is_free. rewrite HV; [done|]. destruct Hx0. congruence. Qed.
Lemma meta_addr q bn : iwf sb D V q -> blk_addr V' q bn = blk_addr V q bn.
Proof.
  intros W. unfold blk_addr. destruct (bn <? NDIRECT); [done|]. destruct (Z.eqb_spec (ind q) 0) as [|Hi]; [done|]. rewrite HV; [done|].
  destruct (iw_owned _ _ _ _ W _ (ind_owned V q Hi)). lia.
Qed.
Lemma meta_owned q x : iwf sb D V q -> owned V' q x <-> owned V q x.
Proof. intros W. unfold owned. split; intros [H1 [H2|(bn & Hb & E)]]; (split; [done|]); try (by left); right; exists bn; (split; [done|]); by rewrite <- E, meta_addr. Qed.
Lemma meta_wf q : iwf sb D V q -> iwf sb D V' q.
Proof.
  intros W. pose proof (fun bn => meta_addr q bn W) as Ha. pose proof (fun x => meta_owned q x W) as Ho. destruct W as [W1 W2 W3 W4 W5 W6].
  split; try done.
  - intros a Hoa%Ho. rewrite meta_free. by apply W3.
  - intros b1 b2. rewrite !Ha. apply W4.
  - intros b1. rewrite Ha. apply W5.
  - intros b1. rewrite Ha. apply W6.
Qed.
Lemma meta_byte q o : iwf sb D V q -> in_file (o / BSIZE) -> fbyte V' q o = fbyte V q o.
Proof.
  intros W Hb. unfold fbyte. rewrite meta_addr by done. rewrite HV; [done|]. destruct (decide (blk_addr V q (o / BSIZE) = 0)) as [->|Hn]; [lia|].
  destruct (iw_owned _ _ _ _ W _ (blk_owned V q _ Hb Hn)). lia.
Qed.
End Meta.

(** ** Files as sequences of bytes *)

(** Bytes that are new in [off .. off + m) and old elsewhere. *)
Lemma frange_put V q V' q' off bs size :
  0 <= off <= size -> let m := Z.of_nat (length bs) in
  (forall o, off <= o < off + m -> fbyte V' q' o = aget 0 bs (o - off)) ->
  (forall o, 0 <= o < size -> ~ (off <= o < off + m) -> fbyte V' q' o = fbyte V q o) ->
  frange V' q' 0 (Z.max size (off + m)) = put (Z.to_nat off) bs (frange V q 0 size).
Proof.
  intros Ho m Hn Hold. apply list_eq. intros i. destruct (decide (i < Z.to_nat (Z.max size (off + m)))%nat) as [Hi|Hi].
  - rewrite lookup_frange by done. unfold put. destruct (decide (Z.of_nat i < off)) as [H1|H1].
    + rewrite lookup_app_l by (rewrite length_take, length_frange; lia). rewrite lookup_take_lt, lookup_frange by lia. f_equal. apply Hold; lia.
    + rewrite lookup_app_r by (rewrite length_take, length_frange; lia). rewrite length_take, length_frange.
      replace (i - _)%nat with (i - Z.to_nat off)%nat by lia. destruct (decide (Z.of_nat i < off + m)) as [H2|H2].
      * rewrite lookup_app_l by lia. rewrite Hn by lia. unfold aget. destruct (lookup_lt_is_Some_2 bs (i - Z.to_nat off)) as [x Hx]; [lia|].
        rewrite Hx. f_equal. apply nth_lookup_Some. rewrite <- Hx. f_equal. lia.
      * rewrite lookup_app_r, lookup_drop by lia. rewrite lookup_frange by lia. rewrite Hold by lia. do 2 f_equal. lia.
  - rewrite !lookup_ge_None_2; [done| |rewrite length_frange; lia]. unfold put. rewrite !length_app, length_take, length_drop, length_frange. lia.
Qed.

(** ** [writei] *)
Section Run.
Context {KI : KernelImage} {BD : BlockDevice} {UA : Uart16550}.
Variables (dev : Z) (p n : nat) (s : kernel) (k : nat) (sb : superblock) (D : Z) (ip : nat) (off : Z) (bs : list Z).
Notation view := (view dev).
Notation q := (inode_at s ip).
Notation m := (Z.of_nat (length bs)).

(** What [writei] needs: a transaction with log space for the blocks touched
    and three more, data blocks to allocate, and a file the bytes fit in. *)
Record write_pre : Prop := {
  wp_fuel : (269 < n)%nat;
  wp_tx : intx dev [] p s;
  wp_budget : budget s k;
  wp_sb : k_sb s = sb;
  wp_geo : geometry sb D;
  wp_ok : vok sb D (view s);
  wp_wf : iwf sb D (view s) q;
  wp_dev : i_dev q = dev /\ 0 <= i_inum q < sb_ninodes sb /\ (ip < length (k_itable s))%nat;
  wp_off : 0 <= off <= i_size q /\ off + m <= MAXFILE * BSIZE;
  wp_log : span_blocks off m + 4 < Z.of_nat k;
  wp_free : span_blocks off m < Z.of_nat (nfree sb (view s));
}.
Hypothesis P : write_pre.
Variable src : Z + list Z.
Hypothesis Hsrc : supplies p n s src bs.

Let Hfuel : (HEAD < n)%nat.
Proof. pose proof (wp_fuel P). change HEAD with 30%nat. lia. Qed.
Notation IB := (IBLOCK (i_inum q) sb).
Definition log_set : list Z := [sb_bmapstart sb; IB] ++ (if ind q =? 0 then [] else [ind q]).

Lemma log_set_length : (length log_set + ind_need q)%nat = 3%nat.
Proof. unfold log_set, ind_need. by destruct (ind q =? 0). Qed.
Lemma log_set_writable : writable dev p s sb D log_set s ip.
Proof.
  destruct P as [_ I _ _ _ Hv W (Hd & _ & Hip) _ _ _]. split; try done; [apply grown_refl|apply elem_of_cons; by left|].
  intros Hi. unfold log_set. apply Z.eqb_neq in Hi. rewrite Hi. apply elem_of_app. right. by apply list_elem_of_singleton.
Qed.

Lemma nblocks_bound : span_blocks off m <= 268.
Proof.
  pose proof (wp_off P) as [Ho Hm]. change MAXFILE with 268 in Hm. change BSIZE with 1024 in Hm. unfold span_blocks. change BSIZE with 1024.
  destruct (m =? 0); [lia|]. pose proof (Z.mod_le off 1024 ltac:(lia) ltac:(lia)). apply Z.lt_succ_r, Z.div_lt_upper_bound; lia.
Qed.

(** The blocks are written, then the inode. *)
Lemma writei_phases : exists L1 s1 s2 s3,
  writei ip src off m n s = Ret m s3 /\ written dev p s sb D log_set s ip off m bs L1 s1 /\
  Z.of_nat (length L1) <= span_blocks off m + 3 /\
  inode_at s2 ip = set_i_size (Z.max (i_size q) (off + m)) (inode_at s1 ip) /\
  length (k_itable s3) = length (k_itable s1) /\ (forall i, i <> ip -> inode_at s3 i = inode_at s1 i) /\
  inode_at s3 ip = inode_at s2 ip /\ intx dev [] p s3 /\ grown p s L1 s3 /\
  (forall y, view s3 y = if decide (y = IB) then put (dinode_off (i_inum q)) (dinode_enc (dinode_of (inode_at s2 ip))) (view s1 IB) else view s1 y).
Proof.
  pose proof P as [Hn I Hbud Hsb Hgeo Hv W (Hd & Hinum & Hip) [Ho Hm] Hlog Hnf]. pose proof log_set_length as HL0. pose proof nblocks_bound as Hnb.
  destruct (writei_loop dev p n Hfuel s k sb D Hbud Hgeo Hsb ip m n log_set s 0 off src bs log_set_writable Hsrc) as (L1 & s1 & E1 & W1 & HL1); try lia.
  { rewrite Z.sub_0_r. lia. }
  { rewrite Z.sub_0_r. unfold ind_need. destruct (ind q =? 0); lia. }
  { rewrite Z.sub_0_r. lia. }
  rewrite Z.sub_0_r in *. pose proof (w_wr _ _ _ _ _ _ _ _ _ _ _ _ _ W1) as [I1 G1 B1 Hv1 Wf1 Hd1 Hip1 Hi1].
  pose proof (ev_q _ _ _ _ _ _ (w_ev _ _ _ _ _ _ _ _ _ _ _ _ _ W1)) as Hq1. set (q1 := inode_at s1 ip) in *.
  assert (Hsz1 : i_size q1 = i_size q) by (rewrite Hq1; done). assert (Hin1 : i_inum q1 = i_inum q) by (rewrite Hq1; done).
  set (s2 := if off + m >? i_size q then upd_inode ip (set_i_size (off + m)) s1 else s1).
  assert (Hq2 : inode_at s2 ip = set_i_size (Z.max (i_size q) (off + m)) q1).
  { unfold s2. destruct (Z.gtb_spec (off + m) (i_size q)).
    - rewrite inode_at_upd_eq by done. fold q1. f_equal. lia.
    - fold q1. rewrite Z.max_l by lia. by rewrite <- Hsz1. }
  assert (I2 : intx dev [] p s2) by (unfold s2; destruct (_ >? _); [by apply intx_inode|done]).
  assert (G2 : grown p s L1 s2) by (unfold s2; destruct (_ >? _); [by apply grown_inode|done]).
  assert (V2 : forall y, view s2 y = view s1 y) by (unfold s2; by destruct (_ >? _)).
  assert (Hin2 : i_inum (inode_at s2 ip) = i_inum q) by (rewrite Hq2; exact Hin1).
  assert (HIB : IB ∈ L1).
  { assert (Hsub : IB ∈ log_set) by (unfold log_set; apply elem_of_cons; right; apply elem_of_cons; by left).
    by apply (w_sub _ _ _ _ _ _ _ _ _ _ _ _ _ W1). }
  destruct (iupdate_at dev p n Hfuel s k sb D Hbud Hgeo Hsb L1 s2 ip I2 G2) as (s3 & E3 & I3 & G3 & T3 & V3).
  { by rewrite Hin2. }
  { lia. }
  { rewrite Hq2. exact Hd1. }
  { by rewrite Hin2. }
  exists L1, s1, s2, s3. rewrite Hin2 in V3.
  split_and!; try done.
  - unfold writei, iget_f. rewrite bind_gets. unfold id. change MAXFILE with 268 in *. change BSIZE with 1024 in *. 
    destruct (Z.gtb_spec off (i_size q)); [lia|]. pose proof (iw_size _ _ _ _ W). 
    assert (Hu : u32 (off + m) = off + m) by (apply u32_small; lia). rewrite Hu.
    destruct (Z.ltb_spec (off + m) off); [lia|]. cbn [orb]. destruct (Z.gtb_spec (off + m) (268 * 1024)); [lia|].
    assert (El : loop (writei_step ip m) (0, off, src) n s = Ret (m, off + m) s1) by (unfold loop; by rewrite E1).
    rewrite (bind_ret _ _ _ _ _ _ El). cbv iota beta. rewrite bind_gets. fold q1.
    rewrite Hsz1. rewrite bind_ret with (a := tt) (s' := s2).
    2:{ unfold s2, when. destruct (off + m >? i_size q); done. }
    rewrite (bind_ret _ _ _ _ _ _ E3). rewrite s32_small by lia. done.
  - lia.
  - rewrite T3. unfold s2. destruct (_ >? _); [|done]. cbn. by rewrite length_alter.
  - intros i Hi. rewrite (inode_still s2 s3 i T3). unfold s2. destruct (_ >? _); [|done]. by apply inode_at_upd_ne.
  - by apply inode_still.
  - intros y. rewrite V3. by rewrite !V2.
Qed.
End Run.

Lemma iwf_size sb D V q z : iwf sb D V q -> i_size q <= z <= MAXFILE * BSIZE ->
  (forall bn, 0 <= bn -> i_size q <= bn * BSIZE < z -> blk_addr V q bn <> 0) -> iwf sb D V (set_i_size z q).
Proof.
  intros [W1 W2 W3 W4 W5 W6] Hz Hf. split; try done; [cbn; lia|]. intros bn Hb Hlt. change (blk_addr V (set_i_size z q) bn) with (blk_addr V q bn).
  change (i_size (set_i_size z q)) with z in Hlt. destruct (decide (bn * BSIZE < i_size q)); [by apply W6|apply Hf; lia].
Qed.

(** The addresses of a well-formed inode fit their 32 bits. *)
Lemma dinode_of_wf sb D V q : geometry sb D -> iwf sb D V q ->
  -32768 <= i_type q < 32768 -> -32768 <= i_major q < 32768 -> -32768 <= i_minor q < 32768 -> -32768 <= i_nlink q < 32768 ->
  dinode_wf (dinode_of q).
Proof.
  intros G W H1 H2 H3 H4. pose proof (iw_size _ _ _ _ W) as Hs. pose proof (iw_addrs _ _ _ _ W) as Hl. change MAXFILE with 268 in Hs. change BSIZE with 1024 in Hs.
  unfold dinode_wf, dinode_of. cbn [di_type di_major di_minor di_nlink di_size di_addrs]. split_and!; try lia.
  apply Forall_lookup. intros i a Ha. pose proof (lookup_lt_Some _ _ _ Ha) as Hi. pose proof (ge_size _ _ G). change BPB with 8192 in *.
  destruct (decide (a = 0)) as [|Hn]; [lia|]. assert (Eg : aget 0 (i_addrs q) (Z.of_nat i) = a) by (unfold aget; rewrite Nat2Z.id; by apply nth_lookup_Some).
  assert (Ho : owned V q a).
  { split; [done|]. destruct (decide (i = 12)%nat) as [->|]; [left; by rewrite <- Eg|right]. exists (Z.of_nat i).
    unfold in_file, blk_addr. change MAXFILE with 268. change NDIRECT with 12. split; [lia|]. destruct (Z.ltb_spec (Z.of_nat i) 12); [done|lia]. }
  destruct (iw_owned _ _ _ _ W a Ho). lia.
Qed.

(** Writing an inode into its block. *)
Lemma inode_block_put sb D V V' IB inum d :
  vok sb D V -> dinode_wf d -> (forall y, V' y = if decide (y = IB) then put (dinode_off inum) (dinode_enc d) (V IB) else V y) ->
  0 < IB < D /\ IB <> sb_bmapstart sb ->
  vok sb D V' /\ dinode_dec (slice (dinode_off inum) 64 (V' IB)) = d.
Proof.
  intros [A1 A2] Hd HV Hx. assert (Henc : length (dinode_enc d) = 64%nat) by (apply length_dinode_enc; apply Hd).
  assert (Hoff : (dinode_off inum + length (dinode_enc d) <= length (V IB))%nat).
  { rewrite A1, Henc. unfold dinode_off. pose proof (Z.mod_pos_bound inum IPB ltac:(done)). change IPB with 16 in *. change (Z.to_nat BSIZE) with 1024%nat. lia. }
  split; [split|].
  - intros x. rewrite HV. case_decide; [|apply A1]. by rewrite length_put.
  - intros x Hx'. unfold is_free. rewrite HV, decide_False by (destruct Hx; congruence). by apply A2.
  - rewrite HV, decide_True by done. pose proof (slice_put_eq _ _ _ Hoff) as Es. rewrite Henc in Es. rewrite Es. by apply dinode_dec_enc.
Qed.

(** What a write that may allocate does to the blocks: a block of the file was
    its own or a free one; a block that is neither the file's, nor the bitmap,
    nor the inode's [IB] is the same block; and of the blocks the bitmap counts,
    exactly those of the file that were free are no longer free. *)
Record alloc_frame (sb : superblock) (IB : Z) (V : Z -> list Z) (q : inode) (V' : Z -> list Z) (q' : inode) : Prop := {
  af_new : forall x, owned V' q' x -> owned V q x \/ is_free sb V x = true;
  af_kept : forall x, owned V q x -> owned V' q' x;
  af_other : forall y, y <> sb_bmapstart sb -> y <> IB -> ~ owned V' q' y -> V' y = V y;
  af_free : forall x, 0 <= x < sb_size sb -> is_free sb V' x = true <-> is_free sb V x = true /\ ~ owned V' q' x;
}.

(** Growing the file, then writing its inode to [IB], is such a write. *)
Lemma alloc_frame_meta sb D IB V q V1 V' q1 q' :
  geometry sb D -> evolves sb D V q V1 q1 -> (forall y, y <> IB -> V' y = V1 y) -> 0 < IB < D /\ IB <> sb_bmapstart sb ->
  (forall x, owned V' q' x <-> owned V1 q1 x) -> iwf sb D V1 q1 -> alloc_frame sb IB V q V' q'.
Proof.
  intros G Ev HV HI Ho W1. pose proof (meta_free sb D V1 V' IB HV HI) as Hf. split.
  - intros x Hx%Ho. by apply (ev_new _ _ _ _ _ _ Ev).
  - intros x Hx. apply Ho. by apply (ev_mono sb D V q).
  - intros y Hb Hi Hy. rewrite HV by done. apply (ev_other _ _ _ _ _ _ Ev); [done|]. by rewrite <- Ho.
  - intros x Hx. rewrite Hf. split.
    + intros Hfx. split; [by apply (ev_bits _ _ _ _ _ _ Ev)|]. rewrite Ho. intros Hox. destruct (iw_owned _ _ _ _ W1 x Hox). congruence.
    + intros [Hfx Hn]. destruct (is_free sb V1 x) eqn:E; [done|]. exfalso. apply Hn, Ho. by apply (ev_taken _ _ _ _ _ _ Ev).
Qed.

(** What a write leaves behind. *)
Definition write_post {KI : KernelImage} {BD : BlockDevice} (dev : Z) (p : nat) (s : kernel) (sb : superblock) (D : Z) (ip : nat) (off : Z) (bs : list Z) (s' : kernel) : Prop :=
  let q := inode_at s ip in let q' := inode_at s' ip in let m := Z.of_nat (length bs) in let V := view dev s in let V' := view dev s' in
  intx dev [] p s' /\
    file_bytes V' q' = put (Z.to_nat off) bs (file_bytes V q) /\ i_size q' = Z.max (i_size q) (off + m) /\
    vok sb D V' /\ iwf sb D V' q' /\ q' = set_i_size (i_size q') (set_i_addrs (i_addrs q') q) /\
    dinode_dec (slice (dinode_off (i_inum q)) 64 (V' (IBLOCK (i_inum q) sb))) = dinode_of q' /\
    (forall r, iwf sb D V r -> (forall x, owned V q x -> ~ owned V r x) ->
       iwf sb D V' r /\ file_bytes V' r = file_bytes V r /\ (forall x, owned V' q' x -> ~ owned V' r x)) /\
    (forall i, i <> ip -> inode_at s' i = inode_at s i) /\ k_disk s' = k_disk s /\ k_dtrace s' = k_dtrace s /\ k_sb s' = k_sb s /\ locks (k_lk s') = locks (k_lk s) /\
    Z.of_nat (length (logged_blocks (k_log s'))) <= Z.of_nat (length (logged_blocks (k_log s))) + span_blocks off m + 3 /\
    alloc_frame sb (IBLOCK (i_inum q) sb) V q V' q'.

Definition ints16 (q : inode) : Prop :=
  -32768 <= i_type q < 32768 /\ -32768 <= i_major q < 32768 /\ -32768 <= i_minor q < 32768 /\ -32768 <= i_nlink q < 32768.

Lemma writei_run {KI : KernelImage} {BD : BlockDevice} {UA : Uart16550} dev p n s k sb D ip off src bs :
  write_pre dev p n s k sb D ip off bs -> supplies p n s src bs -> ints16 (inode_at s ip) ->
  exists s', writei ip src off (Z.of_nat (length bs)) n s = Ret (Z.of_nat (length bs)) s' /\ write_post dev p s sb D ip off bs s'.
Proof.
  intros P Hsrc Hty. set (q := inode_at s ip) in *. set (m := Z.of_nat (length bs)).
  destruct (writei_phases dev p n s k sb D ip off bs P src Hsrc) as (L1 & s1 & s2 & s3 & E & W1 & HL & Hq2 & _ & Hoth & Hq3 & I3 & G3 & V3).
  pose proof P as [_ I _ _ Hgeo Hv W (Hd & Hinum & Hip) [Ho Hm] _ _]. fold q in W, Hd, Hinum, Ho, Hq2, V3. fold m in Hm, Hq2, W1, HL, E.
  pose proof W1 as [Wr1 _ Ev There New Old [_ Oth1]]. fold q in Ev, Old. set (q1 := inode_at s1 ip) in *.
  pose proof (ev_q _ _ _ _ _ _ Ev) as Hq1. assert (Hsz1 : i_size q1 = i_size q) by (rewrite Hq1; done).
  set (IB := IBLOCK (i_inum q) sb) in *. destruct (ge_inodes _ _ Hgeo _ Hinum) as [HIB HIB2]. fold IB in HIB, HIB2.
  assert (HV3 : forall y, y <> IB -> view dev s3 y = view dev s1 y) by (intros y Hy; by rewrite V3, decide_False).
  assert (Hx0 : 0 < IB < D /\ IB <> sb_bmapstart sb) by done.
  assert (W2 : iwf sb D (view dev s1) (set_i_size (Z.max (i_size q) (off + m)) q1)).
  { apply iwf_size; [apply Ev|rewrite Hsz1; pose proof (iw_size _ _ _ _ W); fold m; lia|]. rewrite Hsz1. intros bn Hb Hlt.
    change BSIZE with 1024 in *. specialize (There (bn * 1024)). rewrite Z.div_mul in There by lia. apply There. lia. }
  assert (Hdw : dinode_wf (dinode_of (inode_at s2 ip))).
  { apply (dinode_of_wf sb D (view dev s1)); [done|by rewrite Hq2|..]; rewrite Hq2, Hq1; apply Hty. }
  destruct (inode_block_put sb D (view dev s1) (view dev s3) IB (i_inum q) (dinode_of (inode_at s2 ip)) (wr_ok _ _ _ _ _ _ _ _ Wr1) Hdw V3 Hx0) as [Hv3 Hdec].
  assert (Hwf3 : iwf sb D (view dev s3) (inode_at s3 ip)) by (rewrite Hq3, Hq2; by apply (meta_wf sb D (view dev s1) (view dev s3) IB)).
  exists s3. split; [done|]. unfold write_post. rewrite Hq3, Hq2 in *. cbv zeta. fold q. fold m. split_and!; try done.
  - unfold file_bytes. change (i_size (set_i_size ?z q1)) with z. apply frange_put; [done| |].
    + intros o Hor. rewrite (meta_byte sb D (view dev s1) (view dev s3) IB); [by apply New|done|done|done|].
      apply (size_in_file (view dev s1) (set_i_size (Z.max (i_size q) (off + m)) q1) sb D); [done|cbn; fold m in Hor; lia].
    + intros o Hor Hout. rewrite (meta_byte sb D (view dev s1) (view dev s3) IB); [|done|done|done|by apply (size_in_file (view dev s) q sb D)].
      apply Old; [lia|by apply (size_in_file (view dev s) q sb D)|done|]. apply (iw_full _ _ _ _ W); [apply Z.div_pos; [lia|done]|].
      change BSIZE with 1024 in *. pose proof (Z.mul_div_le o 1024). lia.
  - rewrite Hq1. done.
  - intros r Wr Hdis. pose proof (ev_disjoint_wf sb D Hgeo _ _ _ _ r Ev Wr Hdis) as Wr'. destruct (ev_disjoint sb D Hgeo _ _ _ _ r Ev Wr Hdis) as (Had & Hdt & _ & Hdis').
    split_and!.
    + by apply (meta_wf sb D (view dev s1) (view dev s3) IB).
    + apply frange_eq. intros o Hor. pose proof (size_in_file _ r sb D o Wr ltac:(lia)) as Hb. rewrite (meta_byte sb D (view dev s1) (view dev s3) IB) by done.
      unfold fbyte. rewrite Had by done. rewrite Hdt; [done|]. apply blk_owned; [done|]. apply (iw_full _ _ _ _ Wr); [apply Hb|].
      change BSIZE with 1024 in *. pose proof (Z.mul_div_le o 1024). lia.
    + intros x Hx1 Hx2. apply (meta_owned sb D (view dev s1) (view dev s3) IB) in Hx1, Hx2; try done. by apply (Hdis' x).
  - intros i Hi. rewrite Hoth, Oth1 by done. done.
  - apply (grown_fields p s L1 s3 G3).
  - apply (grown_fields p s L1 s3 G3).
  - apply (grown_fields p s L1 s3 G3).
  - apply (grown_fields p s L1 s3 G3).
  - pose proof (grown_length p s L1 s3 (t_log _ _ _ _ I3) G3). lia.
  - apply (alloc_frame_meta sb D IB _ _ (view dev s1) _ q1 _ Hgeo); try done; [|apply Ev].
    intros x. exact (meta_owned sb D (view dev s1) (view dev s3) IB HV3 Hx0 (set_i_size (Z.max (i_size q) (off + m)) q1) x W2).
Qed.

Lemma writei_refuses {KI : KernelImage} {BD : BlockDevice} {UA : Uart16550} n s ip src o c :
  0 <= o < 2 ^ 32 -> 0 <= c < 2 ^ 32 -> i_size (inode_at s ip) < o \/ 2 ^ 32 <= o + c \/ MAXFILE * BSIZE < o + c ->
  writei ip src o c n s = Ret (-1) s.
Proof.
  intros Ho Hc Hbad. set (q := inode_at s ip) in *. unfold writei, iget_f. rewrite bind_gets. unfold id. fold q. change (2 ^ 32) with 4294967296 in *.
    destruct (Z.gtb_spec o (i_size q)) as [|Hle]; [done|]. cbn [orb]. destruct (Z.ltb_spec (u32 (o + c)) o) as [|Hu]; [done|].
    assert (Hs : o + c < 4294967296).
    { destruct (decide (o + c < 4294967296)); [done|]. exfalso. unfold u32, uwrap in Hu. change (2 ^ 32) with 4294967296 in Hu.
      rewrite (Z.mod_eq _ 4294967296) in Hu by lia. assert ((o + c) / 4294967296 = 1) by (symmetry; apply (Z.div_unique _ _ _ (o + c - 4294967296)); lia). lia. }
    rewrite u32_small by lia. destruct (Z.gtb_spec (o + c) (MAXFILE * BSIZE)); [done|lia].
Qed.


#[local] Existing Instance fast_line.
(** A transaction on a file "hello", with a page mapped for the user. *)
Lemma intx_memory dev H p s m pt : intx dev H p s -> intx dev H p (set_k_mem m (upd_proc p (set_p_pagetable pt) s)).
Proof.
  intros [[(R1 & R2 & R3 & R4 & R5) I1] I2 [J1 J2 J3 J4] I4 I5 [I6 I6'] I7 I8 I9].
  assert (Hp : p_pid (proc_at (set_k_mem m (upd_proc p (set_p_pagetable pt) s)) p) = p_pid (proc_at s p))
    by (change (proc_at (set_k_mem _ ?x) p) with (proc_at x p); by rewrite proc_at_upd_eq).
  split; try done.
  - split; [|done]. split_and!; try done. cbn. by rewrite length_alter.
  - split; [done|]. intros b Hb. unfold sl_mine. rewrite Hp. by apply I6'.
Qed.

Lemma ex_write_state n : (270 <= n)%nat -> exists s,
  (forall bs, length bs = 3%nat -> write_pre 1 3 n s 29 ex_sb 46 0 3 bs) /\ ints16 (inode_at s 0) /\
  file_bytes (view 1 s) (inode_at s 0) = str_bytes "hello" /\
  exists l, pt_wf (k_mem s) (p_pagetable (proc_at s 3)) l /\ mapped_range (k_mem s) (p_pagetable (proc_at s 3)) 0x1000 3.
Proof.
  intros Hn. destruct (ex_file_state 2 (str_bytes "hello") []) as (s & [I Hr Hv W Hd] & Hl & Eq & Hs & Hi & _ & HV); [cbn; lia|].
  destruct ex_user_state as (u & l & Hinv & _ & Hmap). pose proof (intx_memory 1 [] 3 s (k_mem u) (ex_P 2) I) as I'.
  set (s1 := set_k_mem (k_mem u) (upd_proc 3 (set_p_pagetable (ex_P 2)) s)) in *. exists s1.
  assert (Ept : p_pagetable (proc_at s1 3) = ex_P 2).
  { change (proc_at s1 3) with (proc_at (upd_proc 3 (set_p_pagetable (ex_P 2)) s) 3). rewrite proc_at_upd_eq; [done|]. apply (t_user _ _ _ _ I). }
  split; [intros bs Hb; split; rewrite ?Hb; try done|split; [|split]].
  - unfold budget. change (k_log s1) with (k_log s). rewrite Hl. split_and!; [rewrite <- Hl; apply (t_log _ _ _ _ I)|vm_compute; congruence|vm_compute; done|vm_compute; congruence].
  - exact ex_geometry.
  - change (inode_at s1 0) with (inode_at s 0). split_and!; [exact Hd|rewrite Eq; cbn; lia..|]. change (k_itable s1) with (k_itable s). rewrite Hi. cbn. lia.
  - change (inode_at s1 0) with (inode_at s 0). rewrite Eq. vm_compute. intuition congruence.
  - change (view 1 s1) with (view 1 s). rewrite (nfree_bm ex_sb (fun x => default zero_block (ex_disk (str_bytes "hello") !! x)) (view 1 s)) by apply HV. vm_compute. done.
  - change (inode_at s1 0) with (inode_at s 0). rewrite Eq. unfold ints16. cbn. lia.
  - change (inode_at s1 0) with (inode_at s 0). rewrite Eq. unfold file_bytes. change (view 1 s1) with (view 1 s).
    rewrite (frange_ext (fun x => default zero_block (ex_disk (str_bytes "hello") !! x)) (view 1 s)) by exact HV. vm_compute. reflexivity.
  - exists l. rewrite Ept. split; [apply Hinv|exact Hmap].
Qed.

