(* ===== verification/Dir.v ===== *)
(** * Directories

    kernel/fs.c, [iget], [dirlookup] and [dirlink]: a directory is the list of
    16-byte entries its content holds; looking a name up finds its first entry
    in use and takes a reference to the inode, linking puts an entry into the
    first unused slot. *)

From S2P Require Import Prelude Params Kernel Spinlock StringC Kalloc Vm Proc Sleeplock Bio Log Crash Transaction Uart Printf Fs Blocks Balloc Content Writei.

(** ** The inode table *)
Definition ihit (dev inum : Z) (q : inode) : bool := (i_ref q >? 0) && (i_dev q =? dev) && (i_inum q =? inum).
(** The entry [iget] uses: the one that is in use for the inode, else the
    first unused one. *)
Definition iget_slot (s : kernel) (dev inum : Z) : option nat :=
  match List.find (fun i => ihit dev inum (inode_at s i)) (seq 0 (Z.to_nat NINODE)) with
  | Some ip => Some ip
  | None => List.find (fun i => i_ref (inode_at s i) =? 0) (seq 0 (Z.to_nat NINODE))
  end.
(** What becomes of it. *)
Definition iget_upd (dev inum : Z) (q : inode) : inode :=
  if ihit dev inum q then set_i_ref (i_ref q + 1) q
  else set_i_valid 0 (set_i_ref 1 (set_i_inum inum (set_i_dev dev q))).

Section Iget.
Context {KI : KernelImage}.

Lemma upd_inode_upd ip f g s : upd_inode ip f (upd_inode ip g s) = upd_inode ip (f ∘ g) s.
Proof. unfold upd_inode, set_k_itable; cbn. f_equal. by rewrite <- list_alter_alter_eq. Qed.
Lemma upd_inode_ext ip f g s : f (inode_at s ip) = g (inode_at s ip) -> upd_inode ip f s = upd_inode ip g s.
Proof. intros E. unfold upd_inode. f_equal. by apply list_alter_ext_lookup. Qed.

(** The scan of the table. *)
Lemma iget_scan n dev inum s : cpu_ok (k_lk s) -> lk_free L_itable (k_lk s) -> forall l e,
  foreach_acc l e (fun empty ip =>
    let* q := iget_f ip id in
    if (i_ref q >? 0) && (i_dev q =? dev) && (i_inum q =? inum) then
      iset ip (fun q => set_i_ref (i_ref q + 1) q) ;; release L_itable ;; ret (inr ip)
    else ret (inl (match empty with None => if i_ref q =? 0 then Some ip else None | _ => empty end))) n (upd_lk (acq L_itable) s)
  = match List.find (fun i => ihit dev inum (inode_at s i)) l with
    | Some ip => Ret (inr ip) (upd_inode ip (fun q => set_i_ref (i_ref q + 1) q) s)
    | None => Ret (inl (match e with Some _ => e | None => List.find (fun i => i_ref (inode_at s i) =? 0) l end)) (upd_lk (acq L_itable) s)
    end.
Proof.
  intros Hok Hf. induction l as [|i l IH]; intros e; cbn [foreach_acc List.find]; [by destruct e|].
  unfold iget_f at 1. rewrite bind_bind_gets. unfold id. change (inode_at (upd_lk (acq L_itable) s) i) with (inode_at s i).
  fold (ihit dev inum (inode_at s i)). destruct (ihit dev inum (inode_at s i)).
  - unfold iset. rewrite bind_bind_modify.
    change (upd_inode i ?f (upd_lk (acq L_itable) s)) with (upd_lk (acq L_itable) (upd_inode i f s)).
    erewrite bind_bind_ret; [|exact (release_after_run n (upd_inode i _ s) L_itable Hok Hf)]. done.
  - rewrite bind_ret_l. rewrite IH. destruct (List.find _ l); [done|]. destruct e; [done|]. by destruct (i_ref (inode_at s i) =? 0).
Qed.

Lemma iget_run n dev inum s : cpu_ok (k_lk s) -> lk_free L_itable (k_lk s) ->
  match iget_slot s dev inum with
  | Some ip => iget dev inum n s = Ret ip (upd_inode ip (iget_upd dev inum) s)
  | None => exists s', iget dev inum n s = Panic "iget: no inodes" s'
  end.
Proof.
  intros Hok Hf. unfold iget, iget_slot. rewrite (bind_ret _ _ _ _ _ _ (acquire_run n s L_itable Hok Hf)).
  pose proof (iget_scan n dev inum s Hok Hf (seq 0 (Z.to_nat NINODE)) None) as E.
  destruct (List.find (fun i => ihit dev inum (inode_at s i)) _) as [ip|] eqn:Eh.
  - rewrite (bind_ret _ _ _ _ _ _ E). unfold ret. f_equal. apply upd_inode_ext. unfold iget_upd.
    apply List.find_some in Eh as [_ ->]. done.
  - rewrite (bind_ret _ _ _ _ _ _ E). destruct (List.find (fun i => i_ref (inode_at s i) =? 0) _) as [ip|] eqn:Ef; [|eexists; reflexivity]. unfold iset. rewrite !bind_modify.
    erewrite bind_ret; [|exact (release_after_run n (upd_inode ip (set_i_valid 0) (upd_inode ip (set_i_ref 1) (upd_inode ip (set_i_inum inum) (upd_inode ip (set_i_dev dev) s)))) L_itable Hok Hf)].
    rewrite !upd_inode_upd. unfold ret. f_equal. apply upd_inode_ext. unfold iget_upd.
    apply List.find_some in Ef as [Hin _]. rewrite (List.find_none _ _ Eh ip Hin). done.
Qed.
End Iget.

(** ** Directories as lists of entries *)
Definition dname (l : list Z) : list Z := cstrn (at_list l) 0 (Z.to_nat DIRSIZ).
Definition dir_entry (V : Z -> list Z) (q : inode) (i : nat) : dirent := dirent_dec (slice (16 * i) 16 (file_bytes V q)).
Definition dir_size (q : inode) : nat := Z.to_nat (i_size q / 16).
(** An entry in use with the name [nm]. *)
Definition names (nm : list Z) (e : dirent) : bool := negb (de_inum e =? 0) && bool_decide (dname (de_name e) = dname nm).
(** The first one: the reference for [dirlookup]. *)
Definition dir_find (V : Z -> list Z) (q : inode) (nm : list Z) : option nat :=
  List.find (fun i => names nm (dir_entry V q i)) (seq 0 (dir_size q)).

Lemma byte_ok_at_list l j : Forall byte_ok l -> byte_ok (at_list l j).
Proof.
  intros Hl. unfold at_list, aget. rewrite nth_lookup. destruct (l !! Z.to_nat j) as [x|] eqn:E; [|by cbn].
  by apply (Forall_lookup_1 _ _ _ _ Hl E).
Qed.
Lemma namecmp_dname a b : Forall byte_ok a -> Forall byte_ok b -> (namecmp a b =? 0) = bool_decide (dname b = dname a).
Proof.
  intros Ha Hb. pose proof (strncmp_loop_spec (at_list a) (at_list b) 0 (Z.to_nat DIRSIZ) (fun j => byte_ok_at_list a j Ha) (fun j => byte_ok_at_list b j Hb)) as E.
  unfold namecmp, strncmp, dname. destruct (Z.eqb_spec (strncmp_loop (at_list a) (at_list b) 0 (Z.to_nat DIRSIZ)) 0) as [H|H]; symmetry.
  - apply bool_decide_true. symmetry. by apply E.
  - apply bool_decide_false. intros Hd. apply H, E. done.
Qed.
Lemma byte_ok_slice l a b : Forall byte_ok l -> Forall byte_ok (slice a b l).
Proof. intros. unfold slice. by apply Forall_take, Forall_drop. Qed.

Section Dirlookup.
Context {KI : KernelImage} {BD : BlockDevice} {UA : Uart16550}.
Variables (dev : Z) (p n : nat) (sb : superblock) (D : Z) (dp : nat) (name : list Z).
Hypothesis Hgeo : geometry sb D.
Hypothesis Hfuel : (269 <= n)%nat.
Notation view := (view dev).
Let Hf : (HEAD < n)%nat.
Proof. change HEAD with 30%nat. lia. Qed.

(** A directory that can be read: entries of 16 bytes. *)
Record dir_ok (s : kernel) : Prop := {
  do_read : readable dev p sb D s dp;
  do_type : i_type (inode_at s dp) = T_DIR;
  do_size : i_size (inode_at s dp) mod 16 = 0;
  do_bytes : Forall byte_ok (file_bytes (view s) (inode_at s dp));
  do_lock : lk_free L_itable (k_lk s);
}.
Lemma dir_ok_calm s s' : dir_ok s -> calm_view dev p s s' -> dir_ok s'.
Proof.
  intros [R T S B L] C. pose proof (calm_inode dev p s s' dp C) as Eq. split; rewrite ?Eq; try done; [by apply (readable_calm dev p sb D s)| |].
  - unfold file_bytes. rewrite (frange_ext (view s) (view s')) by apply C. exact B.
  - apply (fs_frame_lock p s); [apply C|done].
Qed.

(** One entry read. *)
Lemma read_entry s i : dir_ok s -> (i < dir_size (inode_at s dp))%nat ->
  exists s', readi dp None (16 * Z.of_nat i) 16 n s = Ret (16, slice (16 * i) 16 (file_bytes (view s) (inode_at s dp))) s' /\ calm_view dev p s s'.
Proof.
  intros [R T S B _] Hi. set (size := i_size (inode_at s dp)). unfold dir_size in Hi. fold size in Hi.
  pose proof (iw_size _ _ _ _ (rd_wf _ _ _ _ _ _ R)) as Hsz. change MAXFILE with 268 in Hsz. change BSIZE with 1024 in Hsz. fold size in Hsz.
  assert (Hlt : 16 * Z.of_nat i + 16 <= size) by (pose proof (Z.mul_div_le size 16); lia).
  destruct (readi_run dev p n sb D Hf s dp (16 * Z.of_nat i) 16 R Hfuel) as (s' & E & C); [change (2 ^ 32) with 4294967296; lia|done|].
  fold size in E. assert (Hc : read_count size (16 * Z.of_nat i) 16 = 16).
  { unfold read_count. rewrite u32_small by lia. destruct (Z.gtb_spec (16 * Z.of_nat i) size); [lia|]. destruct (Z.ltb_spec (16 * Z.of_nat i + 16) (16 * Z.of_nat i)); [lia|].
    cbn [orb]. destruct (Z.gtb_spec (16 * Z.of_nat i + 16) size); lia. }
  rewrite Hc in E. exists s'. split; [|done]. rewrite E. f_equal. f_equal.
  pose proof (frange_slice (view s) (inode_at s dp) size (16 * Z.of_nat i) 16 ltac:(lia) ltac:(lia)) as Es. rewrite Z.min_l in Es by lia.
  rewrite Es. unfold file_bytes. fold size. f_equal. lia.
Qed.

Definition dirlookup_step (off : Z) : K (Z + option (nat * Z)) :=
  let* q := iget_f dp id in
  if negb (off <? i_size q) then ret (inr None) else
  let* r := readi dp None off 16 in
  let '(cnt, bs) := r : Z * list Z in
  if negb (cnt =? 16) then panic "dirlookup read" else
  let de := dirent_dec bs in
  if de_inum de =? 0 then ret (inl (off + 16)) else
  if namecmp name (de_name de) =? 0 then
    let* ip := iget (i_dev q) (de_inum de) in ret (inr (Some (ip, off)))
  else ret (inl (off + 16)).

Hypothesis Hname : Forall byte_ok name.

(** Entry [j] is taken: a reference to its inode, or a panic. *)
Definition took (s s' : kernel) {A} (inum : Z) (f : nat -> A) (r : outcome kernel A) : Prop :=
  match iget_slot s dev inum with
  | Some ip => r = Ret (f ip) (upd_inode ip (iget_upd dev inum) s')
  | None => exists s2, r = Panic "iget: no inodes" s2
  end.
Lemma iget_slot_still s s' inum : k_itable s' = k_itable s -> iget_slot s' dev inum = iget_slot s dev inum.
Proof. intros E. unfold iget_slot, inode_at. by rewrite E. Qed.
Lemma took_iget {A} s s' inum (f : nat -> A) : dir_ok s' -> k_itable s' = k_itable s ->
  took s s' inum f (bind (iget dev inum) (fun ip => ret (f ip)) n s').
Proof.
  intros Hd E. unfold took. rewrite <- (iget_slot_still s s' inum E).
  pose proof (t_user _ _ _ _ (rd_tx _ _ _ _ _ _ (do_read s' Hd))) as ((Hok & _) & _).
  pose proof (iget_run n dev inum s' Hok (do_lock s' Hd)) as Hr. destruct (iget_slot s' dev inum) as [ip|].
  - by rewrite (bind_ret _ _ _ _ _ _ Hr).
  - destruct Hr as [s2 Hr]. exists s2. by apply bind_panic.
Qed.

Lemma dirlookup_step_run s i : dir_ok s -> (i < dir_size (inode_at s dp))%nat ->
  let e := dir_entry (view s) (inode_at s dp) i in
  exists s', calm_view dev p s s' /\
    if names name e then took s s' (de_inum e) (fun ip => inr (Some (ip, 16 * Z.of_nat i))) (dirlookup_step (16 * Z.of_nat i) n s)
    else dirlookup_step (16 * Z.of_nat i) n s = Ret (inl (16 * Z.of_nat (S i))) s'.
Proof.
  intros Hd Hi e. destruct (read_entry s i Hd Hi) as (s' & E & C). exists s'. split; [done|]. unfold dirlookup_step, iget_f. rewrite bind_gets. unfold id.
  pose proof (do_size s Hd) as Hm. unfold dir_size in Hi. pose proof (Z.mul_div_le (i_size (inode_at s dp)) 16 ltac:(lia)).
  destruct (Z.ltb_spec (16 * Z.of_nat i) (i_size (inode_at s dp))); [|lia]. cbn [negb]. rewrite (bind_ret _ _ _ _ _ _ E). cbv iota beta.
  change (16 =? 16) with true. cbn [negb]. fold (dir_entry (view s) (inode_at s dp) i). fold e. unfold names.
  replace (16 * Z.of_nat i + 16) with (16 * Z.of_nat (S i)) by lia. destruct (de_inum e =? 0); [done|]. cbn [negb andb].
  rewrite namecmp_dname; [|done|unfold e, dir_entry, dirent_dec; cbn [de_name]; by apply byte_ok_slice, byte_ok_slice, Hd].
  rewrite (rd_dev _ _ _ _ _ _ (do_read s Hd)). case_bool_decide; [|done]. apply took_iget; [by apply (dir_ok_calm s)|by apply (calm_itable dev p)].
Qed.

(** The loop from entry [i] on, [m] entries being left. *)
Lemma dirlookup_loop : forall m i f s, dir_ok s -> (i + m)%nat = dir_size (inode_at s dp) -> (m < f)%nat ->
  exists s', calm_view dev p s s' /\
    match List.find (fun i => names name (dir_entry (view s) (inode_at s dp) i)) (seq i m) with
    | Some j => took s s' (de_inum (dir_entry (view s) (inode_at s dp) j)) (fun ip => Some (ip, 16 * Z.of_nat j)) (iter_upto f dirlookup_step (16 * Z.of_nat i) n s)
    | None => iter_upto f dirlookup_step (16 * Z.of_nat i) n s = Ret None s'
    end.
Proof.
  induction m as [|m IH]; intros i f s Hd Hi Hlt; (destruct f as [|f]; [lia|]); cbn [iter_upto seq List.find].
  - exists s. split; [split; [apply Hd|split; [split; [apply fs_frame_refl|done]|done]]|]. unfold dirlookup_step at 1, iget_f. rewrite bind_bind_gets. unfold id.
    destruct (Z.ltb_spec (16 * Z.of_nat i) (i_size (inode_at s dp))) as [Hc|]; [|done]. exfalso.
    pose proof (do_size s Hd) as Hm. unfold dir_size in Hi. pose proof (Z.div_mod (i_size (inode_at s dp)) 16 ltac:(lia)). lia.
  - destruct (dirlookup_step_run s i Hd ltac:(lia)) as (s1 & C1 & E1).
    destruct (names name (dir_entry (view s) (inode_at s dp) i)).
    + exists s1. split; [done|]. unfold took in *. destruct (iget_slot s dev _) as [ip|]; [by rewrite (bind_ret _ _ _ _ _ _ E1)|].
      destruct E1 as [s2 E1]. exists s2. by apply bind_panic.
    + destruct (IH (S i) f s1) as (s2 & C2 & E2); [by apply (dir_ok_calm s)|rewrite (calm_inode dev p s s1 dp C1); lia|lia|].
      exists s2. split; [by apply (calm_view_trans dev p s s1)|]. rewrite (bind_ret _ _ _ _ _ _ E1).
      unfold dir_entry, file_bytes in *. rewrite (calm_inode dev p s s1 dp C1), (frange_ext (view s) (view s1)) in E2 by apply C1.
      destruct (List.find _ _); [|done]. unfold took in *. by rewrite (iget_slot_still s s1) in E2 by (by apply (calm_itable dev p)).
Qed.

Lemma dirlookup_run s : dir_ok s -> (dir_size (inode_at s dp) < n)%nat ->
  exists s', calm_view dev p s s' /\
    match dir_find (view s) (inode_at s dp) name with
    | Some j => took s s' (de_inum (dir_entry (view s) (inode_at s dp) j)) (fun ip => Some (ip, 16 * Z.of_nat j)) (dirlookup dp name n s)
    | None => dirlookup dp name n s = Ret None s'
    end.
Proof.
  intros Hd Hn. destruct (dirlookup_loop (dir_size (inode_at s dp)) 0 n s Hd) as (s' & C & E); [done|done|]. exists s'. split; [done|].
  assert (Eq : dirlookup dp name n s = iter_upto n dirlookup_step 0 n s).
  { unfold dirlookup, iget_f at 1. rewrite bind_gets. unfold id at 1. rewrite (do_type s Hd). done. }
  rewrite Eq. exact E.
Qed.
End Dirlookup.

(** ** A new entry *)
Lemma cstrn_padded l m : forall i, Forall (fun b => b <> 0) l -> 0 <= i -> forall s, (forall j, (j < length l)%nat -> s (i + Z.of_nat j) = aget 0 l (Z.of_nat j)) ->
  s (i + Z.of_nat (length l)) = 0 \/ m = length l -> (length l <= m)%nat -> cstrn s i m = l.
Proof.
  revert m. induction l as [|b l IH]; intros m i Hl Hi s Hs H0 Hm.
  - destruct m as [|m]; [done|]. cbn [cstrn]. destruct H0 as [H0|H0]; [|done]. cbn in H0. rewrite Z.add_0_r in H0. by rewrite H0.
  - apply Forall_cons in Hl as [Hb Hl]. destruct m as [|m]; [cbn in Hm; lia|]. cbn [cstrn].
    pose proof (Hs 0%nat ltac:(cbn; lia)) as H1. rewrite Z.add_0_r in H1. change (aget 0 (b :: l) (Z.of_nat 0)) with b in H1. rewrite H1.
    destruct (Z.eqb_spec b 0); [done|]. f_equal. apply IH; [done|lia| | |cbn in Hm; lia].
    + intros j Hj. replace (i + 1 + Z.of_nat j) with (i + Z.of_nat (S j)) by lia. rewrite Hs by (cbn; lia). unfold aget. rewrite !Nat2Z.id. done.
    + cbn [length] in H0. destruct H0 as [H0|H0]; [left|right; lia]. rewrite <- H0. f_equal. lia.
Qed.
Lemma cstrn_nonzero s i m : Forall (fun b => b <> 0) (cstrn s i m).
Proof. revert i. induction m as [|m IH]; intros i; cbn [cstrn]; [constructor|]. destruct (Z.eqb_spec (s i) 0); [constructor|by constructor]. Qed.

(** The name field of an entry denotes the name it was made from. *)
Definition name_field (name : list Z) : list Z := strncpy_bytes (cstrn (at_list name) 0 (Z.to_nat DIRSIZ)) (Z.to_nat DIRSIZ).
Lemma length_name_field name : length (name_field name) = 14%nat.
Proof.
  unfold name_field, strncpy_bytes. pose proof (cstrn_lt (at_list name) 0 (Z.to_nat DIRSIZ)). change (Z.to_nat DIRSIZ) with 14%nat in *.
  rewrite length_app, length_take, length_replicate. lia.
Qed.
Lemma dname_field name : dname (name_field name) = dname name.
Proof.
  pose proof (cstrn_lt (at_list name) 0 (Z.to_nat DIRSIZ)) as Hl. unfold dname at 1. unfold name_field, strncpy_bytes. fold (dname name) in *.
  rewrite take_ge by done. change (Z.to_nat DIRSIZ) with 14%nat in *. apply cstrn_padded; [apply cstrn_nonzero|lia| | |done].
  - intros j Hj. unfold at_list, aget. rewrite Z.add_0_l, Nat2Z.id. by rewrite app_nth1.
  - destruct (decide (length (dname name) = 14%nat)) as [E|E]; [by right|left]. unfold at_list, aget. rewrite Z.add_0_l, Nat2Z.id, app_nth2, Nat.sub_diag by lia.
    rewrite nth_lookup. by rewrite lookup_replicate_2 by lia.
Qed.
Definition new_entry (name : list Z) (inum : Z) : dirent := mk_dirent (u16 inum) (name_field name).
Lemma length_dirent_enc e : length (de_name e) = 14%nat -> length (dirent_enc e) = 16%nat.
Proof. intros. unfold dirent_enc. rewrite length_app, length_le_enc. lia. Qed.

(** The first unused slot, or the end. *)
Definition dir_slot (V : Z -> list Z) (q : inode) : nat :=
  default (dir_size q) (List.find (fun i => de_inum (dir_entry V q i) =? 0) (seq 0 (dir_size q))).

Lemma dir_slot_spec V q : (dir_slot V q <= dir_size q)%nat /\
  ((dir_slot V q < dir_size q)%nat -> de_inum (dir_entry V q (dir_slot V q)) = 0).
Proof.
  unfold dir_slot. destruct (List.find _ _) as [x|] eqn:Ef; cbn [default from_option]; [|split; [done|intros H; by apply Nat.lt_irrefl in H]].
  apply List.find_some in Ef as [Hx Hz]. apply in_seq in Hx. apply Z.eqb_eq in Hz. split; [cbn; lia|done].
Qed.

(** The entries after [enc] was put at slot [j]. *)
Lemma entry_put V q V' q' j e : (j <= dir_size q)%nat -> i_size q mod 16 = 0 -> 0 <= i_size q -> 0 <= de_inum e < 65536 -> length (de_name e) = 14%nat ->
  i_size q' = Z.max (i_size q) (16 * Z.of_nat j + 16) -> file_bytes V' q' = put (16 * j) (dirent_enc e) (file_bytes V q) ->
  dir_size q' = Nat.max (dir_size q) (S j) /\ i_size q' mod 16 = 0 /\ dir_entry V' q' j = e /\
  (forall i, (i < dir_size q)%nat -> i <> j -> dir_entry V' q' i = dir_entry V q i).
Proof.
  intros Hj Hm H0 He Hn Hs Hf. unfold dir_size in *. pose proof (Z.div_mod (i_size q) 16 ltac:(lia)) as Hdm. set (c := i_size q / 16) in *. pose proof (length_dirent_enc e Hn) as Hl.
  assert (Hc : 0 <= c) by (apply Z.div_pos; lia). assert (Hsz : i_size q' = 16 * Z.max c (Z.of_nat j + 1)) by lia.
  assert (Hlf : length (file_bytes V q) = Z.to_nat (i_size q)) by (unfold file_bytes; apply length_frange).
  split_and!.
  - rewrite Hsz. rewrite (Z.mul_comm 16), Z.div_mul by lia. lia.
  - rewrite Hsz. rewrite (Z.mul_comm 16). apply Z_mod_mult.
  - unfold dir_entry. rewrite Hf. unfold put, slice. rewrite drop_app_ge by (rewrite length_take; lia). rewrite length_take, Hlf.
    replace (16 * j - _)%nat with 0%nat by lia. rewrite drop_0, take_app_le, take_ge by lia. by apply dirent_dec_enc.
  - intros i Hi Hij. unfold dir_entry. rewrite Hf. f_equal. destruct (decide (j < Z.to_nat c)%nat).
    + apply slice_put_ne; rewrite Hl; lia.
    + unfold put. rewrite slice_app_l by (rewrite length_take; lia). by rewrite (take_ge (file_bytes V q)) by lia.
Qed.

(** Lookups after the new entry: the new name is found at slot [j], every
    other name where it was. *)
Lemma find_app {A} (f : A -> bool) l1 l2 : List.find f (l1 ++ l2) = match List.find f l1 with Some x => Some x | None => List.find f l2 end.
Proof. induction l1 as [|a l1 IH]; [done|]. cbn. by destruct (f a). Qed.
Lemma find_ext_in {A} (f g : A -> bool) l : (forall x, x ∈ l -> f x = g x) -> List.find f l = List.find g l.
Proof.
  induction l as [|a l IH]; intros E; [done|]. cbn. rewrite (E a) by (apply elem_of_cons; by left). rewrite IH; [done|].
  intros x Hx. apply E, elem_of_cons. by right.
Qed.
Lemma find_new f g j m : (j <= m)%nat -> List.find f (seq 0 m) = None -> (forall i, (i < m)%nat -> i <> j -> g i = f i) -> g j = true ->
  List.find g (seq 0 (Nat.max m (S j))) = Some j.
Proof.
  intros Hj Hf Hg Hgj. replace (Nat.max m (S j)) with (j + (1 + (m - S j)))%nat by lia. rewrite seq_app, find_app.
  rewrite (find_ext_in g f).
  - replace m with (j + (m - j))%nat in Hf by lia. rewrite seq_app, find_app in Hf. destruct (List.find f (seq 0 j)) eqn:E; [done|]. cbn. by rewrite Hgj.
  - intros x Hx%elem_of_seq. apply Hg; lia.
Qed.
Lemma find_same f g j m : (j <= m)%nat -> (forall i, (i < m)%nat -> i <> j -> g i = f i) -> g j = false -> ((j < m)%nat -> f j = false) ->
  List.find g (seq 0 (Nat.max m (S j))) = List.find f (seq 0 m).
Proof.
  intros Hj Hg Hgj Hfj. destruct (decide (j = m)) as [->|Hne].
  - replace (Nat.max m (S m)) with (m + 1)%nat by lia. rewrite seq_app, find_app. cbn. rewrite Hgj.
    rewrite (find_ext_in g f); [by destruct (List.find f _)|]. intros x Hx%elem_of_seq. apply Hg; lia.
  - rewrite Nat.max_l by lia. apply find_ext_in. intros x Hx%elem_of_seq. destruct (decide (x = j)) as [->|]; [rewrite Hgj, Hfj by lia; done|apply Hg; lia].
Qed.

Lemma dir_find_new V q V' q' j name inum : (j <= dir_size q)%nat -> ((j < dir_size q)%nat -> de_inum (dir_entry V q j) = 0) ->
  dir_find V q name = None -> 0 < inum < 65536 ->
  dir_size q' = Nat.max (dir_size q) (S j) -> dir_entry V' q' j = new_entry name inum ->
  (forall i, (i < dir_size q)%nat -> i <> j -> dir_entry V' q' i = dir_entry V q i) ->
  forall nm, dir_find V' q' nm = if decide (dname nm = dname name) then Some j else dir_find V q nm.
Proof.
  intros Hj Hz Hno Hin Hs He Ho nm. unfold dir_find. rewrite Hs. assert (Hu : u16 inum = inum) by (unfold u16, uwrap; apply Z.mod_small; lia).
  assert (Hnj : names nm (dir_entry V' q' j) = bool_decide (dname name = dname nm)).
  { rewrite He. unfold names, new_entry. cbn [de_inum de_name]. rewrite Hu, dname_field. destruct (Z.eqb_spec inum 0); [lia|]. done. }
  destruct (decide (dname nm = dname name)) as [E|E].
  - apply (find_new (fun i => names name (dir_entry V q i))); [done|exact Hno| |by rewrite Hnj, bool_decide_true by done].
    intros i Hi Hij. rewrite (Ho i Hi Hij). unfold names. by rewrite E.
  - apply (find_same (fun i => names nm (dir_entry V q i))); [done| |by rewrite Hnj, bool_decide_false by congruence|].
    + intros i Hi Hij. by rewrite (Ho i Hi Hij).
    + intros Hlt. unfold names. by rewrite (Hz Hlt).
Qed.

Lemma span_entry j : 0 <= j -> span_blocks (16 * j) 16 = 1.
Proof. intros. unfold span_blocks. change BSIZE with 1024. cbn [Z.eqb]. Z.to_euclidean_division_equations. lia. Qed.

Section Dirlink.
Context {KI : KernelImage} {BD : BlockDevice} {UA : Uart16550}.
Variables (dev : Z) (p n : nat) (sb : superblock) (D : Z) (dp : nat).
Hypothesis Hgeo : geometry sb D.
Hypothesis Hfuel : (269 < n)%nat.
Notation view := (view dev).
Notation dir_ok := (dir_ok dev p sb D dp).

(** The loop of [dirlink] that looks for an unused entry. *)
Definition slot_step (off : Z) : K (Z + Z) :=
  let* q := iget_f dp id in
  if negb (off <? i_size q) then ret (inr off) else
  let* r := readi dp None off 16 in
  let '(cnt, bs) := r : Z * list Z in
  if negb (cnt =? 16) then panic "dirlink read" else
  if de_inum (dirent_dec bs) =? 0 then ret (inr off) else ret (inl (off + 16)).

Lemma slot_loop : forall m i f s, dir_ok s -> (i + m)%nat = dir_size (inode_at s dp) -> (m < f)%nat ->
  exists s', calm_view dev p s s' /\ iter_upto f slot_step (16 * Z.of_nat i) n s =
    Ret (16 * Z.of_nat (default (i + m)%nat (List.find (fun i => de_inum (dir_entry (view s) (inode_at s dp) i) =? 0) (seq i m)))) s'.
Proof.
  induction m as [|m IH]; intros i f s Hd Hi Hlt; (destruct f as [|f]; [lia|]); cbn [iter_upto seq List.find].
  - exists s. split; [split; [apply Hd|split; [split; [apply fs_frame_refl|done]|done]]|]. unfold slot_step at 1, iget_f. rewrite bind_bind_gets. unfold id.
    destruct (Z.ltb_spec (16 * Z.of_nat i) (i_size (inode_at s dp))) as [Hc|]; [|cbn; by rewrite Nat.add_0_r]. exfalso.
    pose proof (do_size _ _ _ _ _ _ Hd) as Hm. unfold dir_size in Hi. pose proof (Z.div_mod (i_size (inode_at s dp)) 16 ltac:(lia)). lia.
  - destruct (read_entry dev p n sb D dp ltac:(lia) s i Hd ltac:(lia)) as (s1 & E1 & C1).
    assert (Hb : 16 * Z.of_nat i < i_size (inode_at s dp)) by (unfold dir_size in Hi; pose proof (Z.mul_div_le (i_size (inode_at s dp)) 16 ltac:(lia)); lia).
    unfold slot_step at 1, iget_f. rewrite bind_bind_gets. unfold id. destruct (Z.ltb_spec (16 * Z.of_nat i) (i_size (inode_at s dp))); [|lia]. cbn [negb].
    rewrite (bind_bind_ret _ _ _ _ _ _ _ E1). cbv iota beta. change (16 =? 16) with true. cbn [negb]. fold (dir_entry (view s) (inode_at s dp) i).
    destruct (de_inum (dir_entry (view s) (inode_at s dp) i) =? 0); [by exists s1|].
    destruct (IH (S i) f s1) as (s2 & C2 & E2); [by apply (dir_ok_calm dev p sb D dp s)|rewrite (calm_inode dev p s s1 dp C1); lia|lia|].
    exists s2. split; [by apply (calm_view_trans dev p s s1)|]. rewrite bind_ret_l. replace (16 * Z.of_nat i + 16) with (16 * Z.of_nat (S i)) by lia. rewrite E2.
    unfold dir_entry, file_bytes. rewrite (calm_inode dev p s s1 dp C1), (frange_ext (view s) (view s1)) by apply C1. by rewrite Nat.add_succ_r.
Qed.

(** What [dirlink] needs. *)
Record link_pre (s : kernel) (name : list Z) (inum : Z) : Prop := {
  lp_dir : dir_ok s;
  lp_fuel : (dir_size (inode_at s dp) < n)%nat;
  lp_budget : budget s 6;
  lp_sb : k_sb s = sb;
  lp_inode : 0 <= i_inum (inode_at s dp) < sb_ninodes sb /\ (dp < length (k_itable s))%nat /\ ints16 (inode_at s dp);
  lp_max : i_size (inode_at s dp) + 16 <= MAXFILE * BSIZE;
  lp_free : (2 <= nfree sb (view s))%nat;
  lp_name : Forall byte_ok name /\ 0 < inum < 65536 /\ dir_find (view s) (inode_at s dp) name = None;
}.

Lemma dirlink_run s name inum : link_pre s name inum -> let j := dir_slot (view s) (inode_at s dp) in
  exists s1 s', calm_view dev p s s1 /\ dirlink dp name inum n s = Ret 0 s' /\
    write_post dev p s1 sb D dp (16 * Z.of_nat j) (dirent_enc (new_entry name inum)) s'.
Proof.
  intros [Hd Hn Hb Hs (Hi & Hdp & H16) Hmax Hnf (Hbn & Hin & Hno)] j. set (q := inode_at s dp) in *.
  destruct (dirlookup_run dev p n sb D dp name ltac:(lia) Hbn s Hd Hn) as (s1 & C1 & E1). fold q in E1. rewrite Hno in E1.
  assert (Hd1 : dir_ok s1) by (by apply (dir_ok_calm dev p sb D dp s)). pose proof (calm_inode dev p s s1 dp C1) as Eq1. fold q in Eq1.
  destruct (slot_loop (dir_size q) 0 n s1 Hd1) as (s2 & C2 & E2); [by rewrite Eq1|done|].
  assert (C12 : calm_view dev p s s2) by (by apply (calm_view_trans dev p s s1)). pose proof (calm_inode dev p s s2 dp C12) as Eq2. fold q in Eq2.
  assert (Hj : (j <= dir_size q)%nat) by apply dir_slot_spec.
  assert (Ej : default (0 + dir_size q)%nat (List.find (fun i => de_inum (dir_entry (view s1) (inode_at s1 dp) i) =? 0) (seq 0 (dir_size q))) = j).
  { rewrite Eq1. unfold j, dir_slot, dir_entry, file_bytes. by rewrite (frange_ext (view s) (view s1)) by apply C1. }
  rewrite Ej in E2. pose proof (dir_ok_calm dev p sb D dp s s2 Hd C12) as [[I2 _ Hv2 W2 Hdev2] _ Hsz _ _].
  pose proof C12 as (_ & [F2 V2] & L2). destruct (fs_frame_fields p s s2 F2) as (_ & _ & Eit & Esb & _).
  pose proof (length_dirent_enc (new_entry name inum) (length_name_field name)) as Hlen.
  assert (Hszj : 16 * Z.of_nat j <= i_size q) by (unfold dir_size in Hj; pose proof (Z.mul_div_le (i_size q) 16 ltac:(lia)); pose proof (iw_size _ _ _ _ W2); rewrite Eq2 in *; lia).
  destruct (writei_run dev p n s2 6 sb D dp (16 * Z.of_nat j) (inr (dirent_enc (new_entry name inum))) (dirent_enc (new_entry name inum))) as (s3 & E3 & P3).
  - split; rewrite ?Hlen, ?Eq2; try done.
    + unfold budget. by rewrite L2.
    + by rewrite Esb.
    + by rewrite Eq2 in W2.
    + rewrite Eq2 in Hdev2. rewrite Eit. done.
    + change (Z.of_nat 16) with 16. lia.
    + change (Z.of_nat 16) with 16. rewrite span_entry by lia. lia.
    + change (Z.of_nat 16) with 16. rewrite span_entry by lia. rewrite (nfree_bm sb (view s) (view s2)) by apply V2. lia.
  - done.
  - by rewrite Eq2.
  - exists s2, s3. split; [done|]. split; [|done]. rewrite Hlen in E3. change (Z.of_nat 16) with 16 in E3. unfold dirlink.
    rewrite (bind_ret _ _ _ _ _ _ E1). assert (El : loop slot_step 0 n s1 = Ret (16 * Z.of_nat j) s2) by (unfold loop; by rewrite <- E2).
    rewrite (bind_ret _ _ _ _ _ _ El). fold (name_field name). fold (new_entry name inum). by rewrite (bind_ret _ _ _ _ _ _ E3).
Qed.
End Dirlink.

Lemma byte_ok_cstrn f i m : (forall j, byte_ok (f j)) -> Forall byte_ok (cstrn f i m).
Proof. intros Hf. revert i. induction m as [|m IH]; intros i; cbn [cstrn]; [constructor|]. destruct (f i =? 0); [constructor|]. by constructor. Qed.
Lemma byte_ok_entry name inum : Forall byte_ok name -> Forall byte_ok (dirent_enc (new_entry name inum)).
Proof.
  intros Hn. unfold dirent_enc, new_entry, name_field, strncpy_bytes. cbn [de_inum de_name]. apply Forall_app. split; [apply le_enc_byte_ok|].
  apply Forall_app. split; [apply Forall_take, byte_ok_cstrn; intros j; by apply byte_ok_at_list|]. apply Forall_replicate. unfold byte_ok. lia.
Qed.
Lemma byte_ok_put off bs l : Forall byte_ok bs -> Forall byte_ok l -> Forall byte_ok (put off bs l).
Proof. intros. unfold put. apply Forall_app. split; [by apply Forall_take|]. apply Forall_app. split; [done|by apply Forall_drop]. Qed.

(** [dirlookup] finds a name's first entry: in a directory whose size is
    a multiple of 16, the entries are compared by their names up to 14 bytes,
    unused ones apart; without a match the result is null and nothing
    changes; for the first match the result is a reference to the inode
    table's entry of that inode (the one in use for it with its count raised,
    else the first unused one, to be loaded later) and the offset of the
    entry, and a full table is a panic.  Looking into what is no directory is
    a panic. *)
Lemma dirlookup_finds {KI : KernelImage} {BD : BlockDevice} {UA : Uart16550} dev p n sb D dp name s :
  (269 <= n)%nat -> length (k_itable s) = Z.to_nat NINODE -> dir_ok dev p sb D dp s -> (dir_size (inode_at s dp) < n)%nat -> Forall byte_ok name ->
  (forall nm s0, i_type (inode_at s0 dp) <> T_DIR -> dirlookup dp nm n s0 = Panic "dirlookup not DIR" s0) /\
  match dir_find (view dev s) (inode_at s dp) name with
  | None => exists s', dirlookup dp name n s = Ret None s' /\ calm_view dev p s s'
  | Some j =>
      let inum := de_inum (dir_entry (view dev s) (inode_at s dp) j) in
      match iget_slot s dev inum with
      | None => exists s', dirlookup dp name n s = Panic "iget: no inodes" s'
      | Some ip => exists s', dirlookup dp name n s = Ret (Some (ip, 16 * Z.of_nat j)) s' /\ (forall x, view dev s' x = view dev s x) /\
          i_dev (inode_at s' ip) = dev /\ i_inum (inode_at s' ip) = inum /\
          inode_at s' ip = iget_upd dev inum (inode_at s ip) /\ (forall i, i <> ip -> inode_at s' i = inode_at s i)
      end
  end.
Proof.
  intros Hn Hlen Hd Hsz Hb. split.
  { intros nm s0 Ht. unfold dirlookup, iget_f. rewrite bind_gets. unfold id. apply Z.eqb_neq in Ht. by rewrite Ht. }
  destruct (dirlookup_run dev p n sb D dp name Hn Hb s Hd Hsz) as (s' & C & E). destruct (dir_find _ _ name) as [j|]; [|by exists s'].
  cbv zeta. set (inum := de_inum _) in *. unfold took in E. destruct (iget_slot s dev inum) as [ip|] eqn:Es; [|done].
  assert (Hip : (ip < Z.to_nat NINODE)%nat).
  { unfold iget_slot in Es. destruct (List.find (fun i => ihit dev inum (inode_at s i)) _) as [x|] eqn:E1.
    - injection Es as ->. apply List.find_some in E1 as [Hx _]. apply in_seq in Hx. lia.
    - apply List.find_some in Es as [Hx _]. apply in_seq in Hx. lia. }
  assert (Ei : inode_at (upd_inode ip (iget_upd dev inum) s') ip = iget_upd dev inum (inode_at s ip)).
  { rewrite inode_at_upd_eq by (rewrite (calm_itable dev p s s' C); lia). by rewrite (calm_inode dev p s s' ip C). }
  eexists. split; [exact E|]. rewrite Ei. split_and!; try done.
  - intros x. exact (proj2 (proj1 (proj2 C)) x).
  - unfold iget_upd. destruct (ihit dev inum (inode_at s ip)) eqn:Eh; [|done]. unfold ihit in Eh. apply andb_true_iff in Eh as [Eh _]. by apply andb_true_iff in Eh as [_ ?%Z.eqb_eq].
  - unfold iget_upd. destruct (ihit dev inum (inode_at s ip)) eqn:Eh; [|done]. unfold ihit in Eh. by apply andb_true_iff in Eh as [_ ?%Z.eqb_eq].
  - intros i Hi. rewrite inode_at_upd_ne by done. by apply (calm_inode dev p).
Qed.

(** C27: [dirlink] and [dirlookup] agree: linking a new name to inode [inum]
    in a transaction with log space returns 0 and leaves a directory in which
    the new name is found at the slot used, with that inode number, every
    other name is found where it was, and all other entries are unchanged; a
    [dirlookup] of the name then takes a reference to the inode. *)
Theorem dirlink_adds {KI : KernelImage} {BD : BlockDevice} {UA : Uart16550} dev p n sb D dp s name inum :
  geometry sb D -> (269 < n)%nat -> (dir_size (inode_at s dp) + 1 < n)%nat -> link_pre dev p n sb D dp s name inum ->
  let j := dir_slot (view dev s) (inode_at s dp) in
  exists s', dirlink dp name inum n s = Ret 0 s' /\ dir_ok dev p sb D dp s' /\
    let V := view dev s in let q := inode_at s dp in let V' := view dev s' in let q' := inode_at s' dp in
    (forall nm, dir_find V' q' nm = if decide (dname nm = dname name) then Some j else dir_find V q nm) /\
    de_inum (dir_entry V' q' j) = inum /\ (forall i, (i < dir_size q)%nat -> i <> j -> dir_entry V' q' i = dir_entry V q i) /\
    k_disk s' = k_disk s /\
    exists s2, calm_view dev p s' s2 /\ took dev s' s2 inum (fun ip => Some (ip, 16 * Z.of_nat j)) (dirlookup dp name n s').
Proof.
  intros G Hn Hsz P j. pose proof P as [Hd _ Hb Hsb (Hi & Hdp & H16) Hmax Hnf (Hbn & Hin & Hno)].
  destruct (dirlink_run dev p n sb D dp G Hn s name inum P) as (s1 & s' & C1 & E & Post). fold j in Post.
  pose proof (calm_inode dev p s s1 dp C1) as Eq1. destruct (dir_slot_spec (view dev s) (inode_at s dp)) as [Hj1 Hj2]. fold j in Hj1, Hj2.
  assert (Ef1 : file_bytes (view dev s1) (inode_at s1 dp) = file_bytes (view dev s) (inode_at s dp)).
  { rewrite Eq1. unfold file_bytes. apply frange_ext, C1. }
  destruct Post as (I' & Ef & Es & Hv' & W' & Hq' & _ & _ & _ & Edk & _ & _ & Elk & Elog & _). rewrite Ef1 in Ef. rewrite Eq1 in Es, Hq'.
  pose proof (length_dirent_enc (new_entry name inum) (length_name_field name)) as Hlen. rewrite Hlen in Es, Elog. change (Z.of_nat 16) with 16 in Es, Elog.
  rewrite span_entry in Elog by lia. pose proof (iw_size _ _ _ _ (rd_wf _ _ _ _ _ _ (do_read _ _ _ _ _ _ Hd))) as Hs0.
  destruct (entry_put (view dev s) (inode_at s dp) (view dev s') (inode_at s' dp) j (new_entry name inum)) as (Ds & Dm & De & Do); try done.
  { apply (do_size _ _ _ _ _ _ Hd). }
  { lia. }
  { cbn. unfold u16, uwrap. apply Z.mod_pos_bound. done. }
  { apply length_name_field. }
  { rewrite Ef. f_equal. lia. }
  assert (Hd' : dir_ok dev p sb D dp s').
  { split; [split; try done| | | |].
    - destruct Hb as (Hb1 & Hb2 & _). pose proof (length_logged _ Hb1). destruct C1 as (_ & _ & L1). rewrite L1 in Elog. change LOGSIZE with 30 in Hb2. change HEAD with 30%nat. lia.
    - rewrite Hq'. exact (rd_dev _ _ _ _ _ _ (do_read _ _ _ _ _ _ Hd)).
    - rewrite Hq'. exact (do_type _ _ _ _ _ _ Hd).
    - done.
    - rewrite Ef. apply byte_ok_put; [by apply byte_ok_entry|apply (do_bytes _ _ _ _ _ _ Hd)].
    - unfold lk_free. rewrite Elk. apply (fs_frame_lock p s s1); [apply C1|apply (do_lock _ _ _ _ _ _ Hd)]. }
  assert (Hfind : forall nm, dir_find (view dev s') (inode_at s' dp) nm = if decide (dname nm = dname name) then Some j else dir_find (view dev s) (inode_at s dp) nm)
    by (by apply (dir_find_new (view dev s) (inode_at s dp) (view dev s') (inode_at s' dp) j name inum)).
  assert (Hu : u16 inum = inum) by (unfold u16, uwrap; apply Z.mod_small; lia).
  exists s'. split; [done|]. split; [done|]. cbv zeta. split; [done|]. split; [by rewrite De; cbn|]. split; [done|]. split.
  { rewrite Edk. destruct C1 as (_ & [F1 _] & _). by destruct (fs_frame_fields p s s1 F1) as (-> & _). }
  destruct (dirlookup_run dev p n sb D dp name ltac:(lia) Hbn s' Hd') as (s2 & C2 & E2); [rewrite Ds; lia|].
  exists s2. split; [done|]. rewrite Hfind, decide_True in E2 by done. rewrite De in E2. cbn [de_inum new_entry] in E2. by rewrite Hu in E2.
Qed.

(** ** A directory with "." and an unused entry *)
Definition ex_dir : list Z := dirent_enc (new_entry (str_bytes ".") 1) ++ replicate 16 0.
Lemma ex_dir_state : exists s, dir_ok 1 3 ex_sb 46 0 s /\ inode_at s 0 = ex_file T_DIR ex_dir /\ k_log s = ex_lg /\ k_sb s = ex_sb /\
  k_itable s = ex_file T_DIR ex_dir :: replicate 49 inode0 /\ file_bytes (view 1 s) (inode_at s 0) = ex_dir /\
  forall x, view 1 s x = default zero_block (ex_disk ex_dir !! x).
Proof.
  destruct (ex_file_state T_DIR ex_dir (replicate 49 inode0)) as (s & R & Hl & Eq & Hs & Hi & Hlk & Hv); [vm_compute; lia|]. exists s.
  assert (Hb : file_bytes (view 1 s) (inode_at s 0) = ex_dir).
  { rewrite Eq. unfold file_bytes. rewrite (frange_ext (fun x => default zero_block (ex_disk ex_dir !! x)) (view 1 s)) by exact Hv. vm_compute. reflexivity. }
  split_and!; try done. split; try done.
  - by rewrite Eq.
  - by rewrite Eq.
  - rewrite Hb. apply Forall_app. split; [apply byte_ok_entry; repeat constructor; unfold byte_ok; lia|apply Forall_replicate; unfold byte_ok; lia].
Qed.
Lemma ex_dir_entry V q i : file_bytes V q = ex_dir -> dir_entry V q i = dirent_dec (slice (16 * i) 16 ex_dir).
Proof. intros E. unfold dir_entry. by rewrite E. Qed.

#[local] Existing Instance fast_line.
Lemma dirlookup_finds_witness : exists s s', dirlookup 0 (str_bytes ".") 269%nat s = Ret (Some (1%nat, 0)) s' /\ i_inum (inode_at s' 1) = 1.
Proof.
  destruct ex_dir_state as (s & Hd & Eq & _ & _ & Hi & Hb & _). exists s.
  destruct (dirlookup_finds 1 3 269%nat ex_sb 46 0 (str_bytes ".") s) as [_ H].
  - lia.
  - by rewrite Hi.
  - exact Hd.
  - rewrite Eq. vm_compute. lia.
  - repeat constructor; unfold byte_ok; lia.
  - assert (Ef : dir_find (view 1 s) (inode_at s 0) (str_bytes ".") = Some 0%nat).
    { unfold dir_find. assert (H2 : dir_size (inode_at s 0) = 2%nat) by (by rewrite Eq). rewrite H2. cbn [seq List.find]. rewrite !(ex_dir_entry _ _ _ Hb). by vm_compute. }
    rewrite Ef in H. rewrite (ex_dir_entry _ _ _ Hb) in H. cbv zeta in H. set (inum := de_inum _) in H. assert (Hn : inum = 1) by (by vm_compute). rewrite Hn in H.
    assert (Es : iget_slot s 1 1 = Some 1%nat) by (unfold iget_slot, inode_at; rewrite Hi; by vm_compute). rewrite Es in H.
    destruct H as (s' & E & _ & _ & Hin & _). exists s'. split; [exact E|exact Hin].
Defined.

(** The new entry takes the unused slot. *)
Lemma dirlink_adds_witness : exists s s', dirlink 0 (str_bytes "README") 9 270%nat s = Ret 0 s' /\
  dir_find (view 1 s') (inode_at s' 0) (str_bytes "README") = Some 1%nat.
Proof.
  destruct ex_dir_state as (s & Hd & Eq & Hl & Hs & Hi & Hb & HV). exists s.
  assert (Hno : dir_find (view 1 s) (inode_at s 0) (str_bytes "README") = None).
  { unfold dir_find. assert (H2 : dir_size (inode_at s 0) = 2%nat) by (by rewrite Eq). rewrite H2. cbn [seq List.find]. rewrite !(ex_dir_entry _ _ _ Hb). by vm_compute. }
  assert (Hsl : dir_slot (view 1 s) (inode_at s 0) = 1%nat).
  { unfold dir_slot. assert (H2 : dir_size (inode_at s 0) = 2%nat) by (by rewrite Eq). rewrite H2. cbn [seq List.find]. rewrite !(ex_dir_entry _ _ _ Hb). by vm_compute. }
  destruct (dirlink_adds 1 3 270%nat ex_sb 46 0 s (str_bytes "README") 9) as (s' & E & _ & Hf & _).
  - exact ex_geometry.
  - lia.
  - rewrite Eq. vm_compute. lia.
  - split; try done.
    + rewrite Eq. vm_compute. lia.
    + unfold budget. rewrite Hl. split_and!; [rewrite <- Hl; apply (t_log _ _ _ _ (rd_tx _ _ _ _ _ _ (do_read _ _ _ _ _ _ Hd)))|vm_compute; congruence|vm_compute; done|vm_compute; congruence].
    + rewrite Eq, Hi. split; [cbn; lia|split; [cbn; lia|unfold ints16; cbn; unfold T_DIR; lia]].
    + rewrite Eq. vm_compute. congruence.
    + rewrite (nfree_bm ex_sb (fun x => default zero_block (ex_disk ex_dir !! x)) (view 1 s)) by apply HV. apply Nat.leb_le. vm_compute. reflexivity.
    + split; [repeat constructor; unfold byte_ok; lia|split; [lia|exact Hno]].
  - exists s'. split; [exact E|]. rewrite Hf, Hsl. by rewrite decide_True.
Defined.
