(* ===== verification/Namei.v ===== *)
(** * Path names

    kernel/fs.c, [ilock], [iunlock], [iput] and [namex]: resolving a path name
    walks the tree of directories on the disk.  The reference is a function on
    the blocks alone ([resolve]); [namex] follows it through the inode table,
    loading the inodes it passes and giving their references back. *)

From S2P Require Import Prelude Params Kernel Spinlock StringC Kalloc Vm Proc Sleeplock Bio Log Crash Transaction Uart Printf Fs Blocks Balloc Content Writei Dir.

(** ** The tree on the disk *)
Definition load_dinode (d : dinode) (q : inode) : inode :=
  set_i_valid 1 (set_i_addrs (di_addrs d) (set_i_size (di_size d) (set_i_nlink (di_nlink d) (set_i_minor (di_minor d)
    (set_i_major (di_major d) (set_i_type (di_type d) q)))))).
Definition as_inode (d : dinode) : inode := load_dinode d inode0.

Section Tree.
Variables (sb : superblock) (V : Z -> list Z).
Definition disk_inode (inum : Z) : dinode := dinode_dec (slice (dinode_off inum) 64 (V (IBLOCK inum sb))).
Definition used (inum : Z) : Prop := 0 <= inum < sb_ninodes sb /\ di_type (disk_inode inum) <> 0.
(** The inode a directory has under a name. *)
Definition child (inum : Z) (name : list Z) : option Z :=
  let d := disk_inode inum in
  if di_type d =? T_DIR then
    match dir_find V (as_inode d) name with
    | Some j => Some (de_inum (dir_entry V (as_inode d) j))
    | None => None
    end
  else None.
Fixpoint resolve (inum : Z) (names : list (list Z)) : option Z :=
  match names with
  | [] => Some inum
  | c :: names' => match child inum c with Some i => resolve i names' | None => None end
  end.
(** The directory that has or would have the last component, and its name. *)
Definition resolve_parent (inum : Z) (names : list (list Z)) : option (Z * list Z) :=
  match last names, resolve inum (removelast names) with
  | Some c, Some i => if di_type (disk_inode i) =? T_DIR then Some (i, take (Z.to_nat DIRSIZ) c) else None
  | _, _ => None
  end.

(** Inodes in use are well-formed, and entries of directories refer to inodes
    in use, that are linked (or to the directory itself). *)
Record tree_ok (D : Z) : Prop := {
  to_vok : vok sb D V;
  to_iwf : forall inum, used inum -> iwf sb D V (as_inode (disk_inode inum));
  to_dir : forall inum, used inum -> di_type (disk_inode inum) = T_DIR ->
    di_size (disk_inode inum) mod 16 = 0 /\ Forall byte_ok (file_bytes V (as_inode (disk_inode inum)));
  to_entry : forall inum j, used inum -> di_type (disk_inode inum) = T_DIR -> (j < dir_size (as_inode (disk_inode inum)))%nat ->
    let i := de_inum (dir_entry V (as_inode (disk_inode inum)) j) in
    i <> 0 -> used i /\ (di_nlink (disk_inode i) <> 0 \/ i = inum);
}.
End Tree.

(** ** Paths *)
Lemma dname_take c : dname (take (Z.to_nat DIRSIZ) c) = dname c.
Proof.
  unfold dname. change (Z.to_nat DIRSIZ) with 14%nat.
  assert (E : forall m i, 0 <= i -> (Z.to_nat i + m <= 14)%nat -> cstrn (at_list (take 14 c)) i m = cstrn (at_list c) i m).
  { induction m as [|m IH]; intros i Hi Hm; [done|]. cbn [cstrn].
    assert (at_list (take 14 c) i = at_list c i) as ->; [unfold at_list, aget; rewrite !nth_lookup, lookup_take_lt by lia; done|].
    destruct (at_list c i =? 0); [done|]. rewrite IH by lia. done. }
  apply E; cbn; lia.
Qed.
Lemma dir_find_take V q c : dir_find V q (take (Z.to_nat DIRSIZ) c) = dir_find V q c.
Proof. unfold dir_find, names. by rewrite dname_take. Qed.

Lemma skip_slashes_forall P path : Forall P path -> Forall P (skip_slashes path).
Proof. induction path as [|c path IH]; [done|]. intros H. cbn [skip_slashes]. destruct (c =? SLASH); [|done]. apply IH. by apply Forall_cons in H as [_ H]. Qed.
Lemma skipelem_forall P path rest name : Forall P path -> skipelem path = Some (rest, name) -> Forall P rest /\ Forall P name.
Proof.
  intros H. apply skip_slashes_forall in H. unfold skipelem. destruct (skip_slashes path) as [|c l] eqn:E; [done|].
  destruct (span_elem (c :: l)) as [e r] eqn:Es. destruct (span_elem_spec _ _ _ Es) as (Hp & _ & _). rewrite Hp in H. apply Forall_app in H as [He Hr].
  intros [= <- <-]. split; [by apply skip_slashes_forall|]. destruct (_ >=? _); [by apply Forall_take|done].
Qed.

(** ** Sums over the inode table *)
Definition total (g : inode -> Z) (s : kernel) : Z := foldr Z.add 0 (map (fun i => g (inode_at s i)) (seq 0 (Z.to_nat NINODE))).
(** The references to an inode, and the unused entries. *)
Definition nref (dev inum : Z) : kernel -> Z := total (fun q => if ihit dev inum q then i_ref q else 0).
Definition unused : kernel -> Z := total (fun q => if i_ref q =? 0 then 1 else 0).

Lemma sum_upd (f g : nat -> Z) i l : NoDup l -> i ∈ l -> (forall j, j <> i -> g j = f j) ->
  foldr Z.add 0 (map g l) = foldr Z.add 0 (map f l) - f i + g i.
Proof.
  induction l as [|a l IH]; intros Hl Hi E; [by apply elem_of_nil in Hi|]. apply NoDup_cons in Hl as [Ha Hl]. cbn [map foldr].
  destruct (decide (a = i)) as [->|Hne].
  - assert (map g l = map f l) as ->; [|lia]. apply map_ext_in. intros j Hj. apply E. intros ->. by apply Ha, list_elem_of_In.
  - apply elem_of_cons in Hi as [->|Hi]; [done|]. rewrite (IH Hl Hi E), (E a Hne). lia.
Qed.
Lemma total_upd g s s' ip : (ip < Z.to_nat NINODE)%nat -> (forall i, i <> ip -> inode_at s' i = inode_at s i) ->
  total g s' = total g s - g (inode_at s ip) + g (inode_at s' ip).
Proof.
  intros Hip E. unfold total. apply (sum_upd (fun i => g (inode_at s i)) (fun i => g (inode_at s' i)) ip); [apply NoDup_seq|apply elem_of_seq; lia|].
  intros j Hj. by rewrite E.
Qed.
Lemma total_itable g s s' : k_itable s' = k_itable s -> total g s' = total g s.
Proof. intros E. unfold total, inode_at. by rewrite E. Qed.
Lemma unused_slot s : 1 <= unused s -> exists ip, List.find (fun i => i_ref (inode_at s i) =? 0) (seq 0 (Z.to_nat NINODE)) = Some ip.
Proof.
  unfold unused, total. generalize (seq 0 (Z.to_nat NINODE)). intros l. induction l as [|i l IH]; cbn [map foldr List.find]; [lia|].
  destruct (i_ref (inode_at s i) =? 0); [by exists i|]. rewrite Z.add_0_l. exact IH.
Qed.

(** ** Locking and unlocking inodes *)
Section Locking.
Context {KI : KernelImage} {BD : BlockDevice} {UA : Uart16550}.
Variables (dev : Z) (p n : nat).

(** Steps that leave the blocks and the log alone. *)
Definition quiet_step (s s' : kernel) : Prop :=
  intx dev [] p s' /\ (forall x, view dev s' x = view dev s x) /\ k_log s' = k_log s /\ k_sb s' = k_sb s /\
  locks (k_lk s') = locks (k_lk s) /\ p_pid (proc_at s' p) = p_pid (proc_at s p) /\ length (k_itable s') = length (k_itable s).
Lemma quiet_step_trans s s1 s2 : quiet_step s s1 -> quiet_step s1 s2 -> quiet_step s s2.
Proof.
  intros (_ & V1 & L1 & S1 & K1 & P1 & N1) (I2 & V2 & L2 & S2 & K2 & P2 & N2). split; [done|]. split; [intros x; by rewrite V2|]. split_and!; congruence.
Qed.
Lemma quiet_calm s s' : calm_view dev p s s' -> quiet_step s s'.
Proof.
  intros (I & [F Hv] & L). destruct (fs_frame_fields p s s' F) as (_ & _ & Ei & Es & El & _). destruct F as (_ & _ & _ & P & _ & _).
  split; [done|]. split; [done|]. split_and!; try done; [by rewrite P|by rewrite Ei].
Qed.
Lemma quiet_inode s ip f : intx dev [] p s -> quiet_step s (upd_inode ip f s).
Proof. intros I. split; [by apply intx_inode|]. split; [done|]. split_and!; try done. cbn. apply length_alter. Qed.

Lemma intx_upd_isl H ip f s : intx dev H p s -> intx dev H p (upd_sl (SL_inode ip) f s).
Proof.
  intros I. pose proof (fun i => sl_at_upd_ne (SL_inode ip) (SL_buf i) f s ltac:(done)) as Hsl. destruct I as [I1 I2 [J1 J2 J3 J4] I4 I5 [I6 I6'] I7 I8 I9].
  split; try done.
  - split; try done. intros i. change (buf_at (upd_sl (SL_inode ip) f s) i) with (buf_at s i). rewrite Hsl. apply J4.
  - split; [done|]. intros b Hb. unfold sl_mine. rewrite Hsl. by apply I6'.
  - intros b Hb Hn. rewrite Hsl. by apply I7.
Qed.
Lemma intx_procs H s ps : intx dev H p s -> length ps = length (k_procs s) ->
  p_pid (proc_at (set_k_procs ps s) p) = p_pid (proc_at s p) -> intx dev H p (set_k_procs ps s).
Proof.
  intros [[(R1 & R2 & R3 & R4 & R5) I1] I2 [J1 J2 J3 J4] I4 I5 [I6 I6'] I7 I8 I9] Hl Hp. split; try done.
  - split; [|done]. unfold running. cbn. rewrite Hl. done.
  - split; [done|]. intros b Hb. unfold sl_mine. rewrite Hp. by apply I6'.
Qed.
Lemma intx_wakeup H s ch : intx dev H p s -> intx dev H p (wakeup_st (Some p) ch s).
Proof.
  intros I. destruct (frame_wakeup p s ch) as (_ & _ & Hl & Hp & _); [apply (t_user _ _ _ _ I)|].
  unfold wakeup_st in *. rewrite upd_procs_rest in Hl, Hp |- *. apply intx_procs; [done|done|by rewrite Hp].
Qed.

(** [ilock]: the sleep lock is taken, and the inode is loaded. *)
Definition locked_by (s s' : kernel) (ip : nat) : Prop :=
  sl_mine s' p (SL_inode ip) = true /\ forall i, i <> ip -> sl_at s' (SL_inode i) = sl_at s (SL_inode i).
Definition touched (s s' : kernel) (ip : nat) (q : inode) : Prop :=
  inode_at s' ip = q /\ forall i, i <> ip -> inode_at s' i = inode_at s i.

Lemma load_run s ip sb d : let q := inode_at s ip in
  intx dev [] p s -> (HEAD < n)%nat -> (length (logged_blocks (k_log s)) < HEAD)%nat -> k_sb s = sb ->
  (ip < length (k_itable s))%nat -> i_dev q = dev ->
  d = disk_inode sb (view dev s) (i_inum q) -> di_type d <> 0 ->
  exists s', (let* q := iget_f ip id in
      when (i_valid q =? 0)
        (let* sb := gets k_sb in
         let* bp := bread (i_dev q) (IBLOCK (i_inum q) sb) in
         let* data := bget_f bp b_data in
         let dip := dinode_dec (slice (dinode_off (i_inum q)) 64 data) in
         iset ip (set_i_type (di_type dip)) ;;
         iset ip (set_i_major (di_major dip)) ;;
         iset ip (set_i_minor (di_minor dip)) ;;
         iset ip (set_i_nlink (di_nlink dip)) ;;
         iset ip (set_i_size (di_size dip)) ;;
         iset ip (set_i_addrs (di_addrs dip)) ;;
         brelse bp ;;
         iset ip (set_i_valid 1) ;;
         when (di_type dip =? 0) (panic "ilock: no type"))) n s = Ret tt s' /\ quiet_step s s' /\
    touched s s' ip (if i_valid q =? 0 then load_dinode d q else q) /\ (forall i, sl_at s' (SL_inode i) = sl_at s (SL_inode i)).
Proof.
  intros q I Hn Hroom Hsb Hip Hd Hdd Hty. unfold iget_f. rewrite bind_gets. unfold id. fold q. destruct (i_valid q =? 0) eqn:Hv; cbn [when].
  2:{ exists s. split; [done|]. split; [split; [done|]; split; [done|]; by split_and!|]. by split. }
  destruct (bread_tx dev n [] p s (IBLOCK (i_inum q) sb) I Hn Hroom) as (b & s2 & E2 & _ & I2 & [F2 V2] & C2 & D2 & L2 & _).
  { intros i Hi. by apply elem_of_nil in Hi. }
  set (f := fun q : inode => set_i_addrs (di_addrs d) (set_i_size (di_size d) (set_i_nlink (di_nlink d) (set_i_minor (di_minor d)
    (set_i_major (di_major d) (set_i_type (di_type d) q)))))).
  set (s3 := upd_inode ip f s2). assert (I3 : intx dev [b] p s3) by (by apply intx_inode).
  destruct (brelse_tx dev n [] b p s3 I3) as (s4 & E4 & I4 & [F4 V4] & L4 & _).
  { change (buf_at s3 b) with (buf_at s2 b). change (k_log s3) with (k_log s2). rewrite (proj2 C2), L2.
    destruct (decide (IBLOCK (i_inum q) sb ∈ logged_blocks (k_log s))) as [|Hno]; [by left|right].
    rewrite D2, (view_clean dev [] p s _ I Hno) by (intros i Hi; by apply elem_of_nil in Hi).
    change (disk_block s3 ?x) with (disk_block s2 x). unfold disk_block. by destruct (fs_frame_fields p s s2 F2) as (-> & _). }
  destruct (fs_frame_fields p s s2 F2) as (_ & _ & T2 & B2 & K2 & _). destruct (fs_frame_fields p s3 s4 F4) as (_ & _ & T4 & B4 & K4 & _).
  assert (Hl3 : length (k_itable s3) = length (k_itable s)) by (unfold s3; cbn; rewrite length_alter; by rewrite T2).
  exists (upd_inode ip (set_i_valid 1) s4). split; [|split; [|split]].
  - rewrite (bind_ret (gets k_sb) _ n s sb s) by (unfold gets; f_equal; exact Hsb). rewrite Hd, (bind_ret _ _ _ _ _ _ E2).
    rewrite (bind_ret _ _ _ _ _ _ (bget_data b n s2 _ D2)). fold (disk_inode sb (view dev s) (i_inum q)).
    rewrite <- Hdd. unfold iset. rewrite !bind_modify. rewrite !upd_inode_upd.
    change (upd_inode ip _ s2) with s3. rewrite (bind_ret _ _ _ _ _ _ E4), bind_modify. apply Z.eqb_neq in Hty. by rewrite Hty.
  - apply (quiet_step_trans s s4); [|by apply quiet_inode]. destruct F2 as (_ & _ & _ & P2 & _), F4 as (_ & _ & _ & P4 & _).
    split; [done|]. split; [intros x; rewrite V4; change (view dev s3 x) with (view dev s2 x); apply V2|].
    split; [rewrite L4; exact L2|]. split; [rewrite B4; exact B2|]. split; [rewrite K4; exact K2|]. split; [rewrite P4; exact (f_equal p_pid P2)|]. by rewrite T4.
  - split.
    + rewrite inode_at_upd_eq by (by rewrite T4, Hl3). rewrite (inode_still s3 s4 ip T4). unfold s3. rewrite inode_at_upd_eq by (by rewrite T2).
      rewrite (inode_still s s2 ip T2). done.
    + intros i Hi. rewrite inode_at_upd_ne by done. rewrite (inode_still s3 s4 i T4). unfold s3. rewrite inode_at_upd_ne by done. by apply inode_still.
  - intros i. change (sl_at (upd_inode ip (set_i_valid 1) s4) (SL_inode i)) with (sl_at s4 (SL_inode i)).
    destruct F2 as (_ & _ & _ & _ & _ & S2), F4 as (_ & _ & _ & _ & _ & S4). rewrite S4. exact (S2 i).
Qed.

Lemma ilock_run s ip sb d : let q := inode_at s ip in
  intx dev [] p s -> (HEAD < n)%nat -> (length (logged_blocks (k_log s)) < HEAD)%nat -> k_sb s = sb ->
  lk_free (L_sleep (SL_inode ip)) (k_lk s) -> sl_locked (sl_at s (SL_inode ip)) = 0 ->
  (ip < length (k_itable s))%nat -> i_dev q = dev -> 1 <= i_ref q ->
  d = disk_inode sb (view dev s) (i_inum q) -> di_type d <> 0 ->
  exists s', ilock (Some ip) n s = Ret tt s' /\ quiet_step s s' /\ touched s s' ip (if i_valid q =? 0 then load_dinode d q else q) /\ locked_by s s' ip.
Proof.
  intros q I Hn Hroom Hsb Hf H0 Hip Hd Hr Hdd Hty. pose proof (t_user _ _ _ _ I) as (Hrun & _).
  set (s1 := upd_sl (SL_inode ip) (fun _ => sl_taken s p) s). assert (I1 : intx dev [] p s1) by (by apply intx_upd_isl).
  destruct (load_run s1 ip sb d I1 Hn Hroom Hsb Hip Hd Hdd Hty) as (s' & E & Q & T & S). exists s'. split; [|split; [|split; [exact T|split]]].
  - unfold ilock. unfold iget_f at 1. rewrite bind_gets. unfold id at 1. fold q. destruct (Z.ltb_spec (i_ref q) 1); [lia|].
    rewrite (bind_ret _ _ _ _ _ _ (acquiresleep_run n s p (SL_inode ip) Hrun Hf H0 ltac:(lia))). fold s1. exact E.
  - apply (quiet_step_trans s s1); [|done]. split; [done|]. split; [done|]. by split_and!.
  - destruct Q as (_ & _ & _ & _ & _ & P & _). unfold sl_mine. rewrite S, P. unfold s1. exact (sl_mine_taken s p (SL_inode ip)).
  - intros i Hi. rewrite S. apply sl_at_upd_ne. congruence.
Qed.

(** [iunlock] gives the sleep lock back. *)
Lemma iunlock_run s ip :
  intx dev [] p s -> lk_free (L_sleep (SL_inode ip)) (k_lk s) -> sl_mine s p (SL_inode ip) = true -> 1 <= i_ref (inode_at s ip) ->
  exists s', iunlock (Some ip) n s = Ret tt s' /\ quiet_step s s' /\ k_itable s' = k_itable s /\
    sl_at s' (SL_inode ip) = sl_freed /\ (forall i, i <> ip -> sl_at s' (SL_inode i) = sl_at s (SL_inode i)).
Proof.
  intros I Hf Hm Hr. pose proof (t_user _ _ _ _ I) as (Hrun & _).
  set (s1 := upd_sl (SL_inode ip) (fun _ => sl_freed) s). assert (I1 : intx dev [] p s1) by (by apply intx_upd_isl).
  set (s' := wakeup_st (Some p) (C_sleep (SL_inode ip)) s1). exists s'.
  assert (Es : s' = set_k_procs (k_procs s') s1) by apply upd_procs_rest.
  destruct (frame_wakeup p s1 (C_sleep (SL_inode ip))) as (_ & Hlk & _ & Hp & Hs); [exact Hrun|]. fold s' in Hlk, Hp, Hs.
  split; [|split; [|split; [|split]]].
  - unfold iunlock. rewrite (bind_ret _ _ _ _ _ _ (holdingsleep_run n s p (SL_inode ip) Hrun Hf)), Hm. unfold iget_f. rewrite bind_gets. unfold id.
    destruct (Z.ltb_spec (i_ref (inode_at s ip)) 1); [lia|]. cbn [negb orb]. apply (releasesleep_run n s p); done.
  - split; [by apply intx_wakeup|]. split_and!; try (by rewrite Es); try done. by rewrite Hp.
  - by rewrite Es.
  - rewrite Hs. apply sl_at_upd_eq.
  - intros i Hi. rewrite Hs. apply sl_at_upd_ne. congruence.
Qed.

(** [iput] of an inode that is linked or still in use elsewhere. *)
Lemma iput_run s ip : let q := inode_at s ip in
  intx dev [] p s -> lk_free L_itable (k_lk s) -> i_valid q = 0 \/ i_nlink q <> 0 \/ 2 <= i_ref q ->
  iput ip n s = Ret tt (upd_inode ip (fun q => set_i_ref (i_ref q - 1) q) s).
Proof.
  intros q I Hf Hk. pose proof (t_user _ _ _ _ I) as ((Hok & _) & _). unfold iput. rewrite (bind_ret _ _ _ _ _ _ (acquire_run n s L_itable Hok Hf)).
  unfold iget_f. rewrite bind_gets. unfold id. change (inode_at (upd_lk (acq L_itable) s) ip) with q.
  assert ((i_ref q =? 1) && ctrue (i_valid q) && (i_nlink q =? 0) = false) as ->.
  { destruct Hk as [Hk|[Hk|Hk]]; [rewrite Hk; by rewrite andb_false_r|apply Z.eqb_neq in Hk; rewrite Hk; apply andb_false_r|]. destruct (Z.eqb_spec (i_ref q) 1); [lia|done]. }
  cbn [when]. rewrite bind_ret_l. unfold iset. rewrite bind_modify.
  exact (release_after_run n (upd_inode ip (fun q => set_i_ref (i_ref q - 1) q) s) L_itable Hok Hf).
Qed.
Lemma idup_run s ip : intx dev [] p s -> lk_free L_itable (k_lk s) ->
  idup ip n s = Ret ip (upd_inode ip (fun q => set_i_ref (i_ref q + 1) q) s).
Proof.
  intros I Hf. pose proof (t_user _ _ _ _ I) as ((Hok & _) & _). unfold idup. rewrite (bind_ret _ _ _ _ _ _ (acquire_run n s L_itable Hok Hf)).
  unfold iset. rewrite bind_modify. by rewrite (bind_ret _ _ _ _ _ _ (release_after_run n (upd_inode ip (fun q => set_i_ref (i_ref q + 1) q) s) L_itable Hok Hf)).
Qed.
End Locking.

(** ** The inode table and the tree *)
Section Walk.
Context {KI : KernelImage} {BD : BlockDevice} {UA : Uart16550}.
Variables (dev : Z) (p n : nat) (sb : superblock) (D : Z) (V : Z -> list Z).
Notation quiet_step := (quiet_step dev p).
Notation dnode := (disk_inode sb V).
Notation used := (used sb V).

(** The entries in use stand for different inodes of the tree, and the loaded
    ones agree with it. *)
Record table_ok (s : kernel) : Prop := {
  tb_len : length (k_itable s) = Z.to_nat NINODE;
  tb_ref : forall i, (i < Z.to_nat NINODE)%nat -> 0 <= i_ref (inode_at s i);
  tb_used : forall i, (i < Z.to_nat NINODE)%nat -> 0 < i_ref (inode_at s i) ->
    i_dev (inode_at s i) = dev /\ used (i_inum (inode_at s i)) /\
    (i_valid (inode_at s i) <> 0 -> inode_at s i = load_dinode (dnode (i_inum (inode_at s i))) (inode_at s i));
  tb_once : forall i j, (i < Z.to_nat NINODE)%nat -> (j < Z.to_nat NINODE)%nat -> 0 < i_ref (inode_at s i) -> 0 < i_ref (inode_at s j) ->
    i_inum (inode_at s i) = i_inum (inode_at s j) -> i = j;
}.
(** A process in a transaction that holds no buffer, and at most the inode
    [L]. *)
Record walking (L : option nat) (s : kernel) : Prop := {
  wk_tx : intx dev [] p s;
  wk_room : (length (logged_blocks (k_log s)) < HEAD)%nat;
  wk_sb : k_sb s = sb;
  wk_view : forall x, view dev s x = V x;
  wk_lock : lk_free L_itable (k_lk s);
  wk_isl : forall i, (i < Z.to_nat NINODE)%nat -> lk_free (L_sleep (SL_inode i)) (k_lk s);
  wk_table : table_ok s;
  wk_free : forall i, (i < Z.to_nat NINODE)%nat -> L <> Some i -> sl_locked (sl_at s (SL_inode i)) = 0;
  wk_held : forall i, L = Some i -> sl_mine s p (SL_inode i) = true;
}.

Lemma table_upd s s' ip q : table_ok s -> length (k_itable s') = length (k_itable s) -> (ip < Z.to_nat NINODE)%nat -> touched s s' ip q -> 0 <= i_ref q ->
  (0 < i_ref q -> i_dev q = dev /\ used (i_inum q) /\ (i_valid q <> 0 -> q = load_dinode (dnode (i_inum q)) q) /\
    forall i, (i < Z.to_nat NINODE)%nat -> i <> ip -> 0 < i_ref (inode_at s i) -> i_inum (inode_at s i) <> i_inum q) ->
  table_ok s'.
Proof.
  intros [H1 H2 H3 H4] Hl Hip [Hq Ho] Hr Hu. split; [congruence| | |].
  - intros i Hi. destruct (decide (i = ip)) as [->|Hne]; [by rewrite Hq|]. rewrite Ho by done. by apply H2.
  - intros i Hi. destruct (decide (i = ip)) as [->|Hne]; [rewrite Hq; intros H0; destruct (Hu H0) as (? & ? & ? & _); done|]. rewrite Ho by done. by apply H3.
  - intros i j Hi Hj. destruct (decide (i = ip)) as [->|Hne], (decide (j = ip)) as [->|Hne']; [done| | |by rewrite !Ho by done; apply H4].
    + rewrite Hq, (Ho j) by done. intros Hi0 Hj0 E. destruct (Hu Hi0) as (_ & _ & _ & Hx). by destruct (Hx j Hj Hne' Hj0).
    + rewrite Hq, (Ho i) by done. intros Hi0 Hj0 E. destruct (Hu Hj0) as (_ & _ & _ & Hx). by destruct (Hx i Hi Hne Hi0).
Qed.
Lemma table_same s s' : table_ok s -> k_itable s' = k_itable s -> table_ok s'.
Proof. intros [H1 H2 H3 H4] E. unfold inode_at in *. split; unfold inode_at; rewrite E; done. Qed.
(** An update that keeps the identity of an entry in use. *)
Lemma table_same_id s s' ip q : table_ok s -> length (k_itable s') = length (k_itable s) -> (ip < Z.to_nat NINODE)%nat -> touched s s' ip q ->
  0 < i_ref (inode_at s ip) -> 0 <= i_ref q -> i_dev q = i_dev (inode_at s ip) -> i_inum q = i_inum (inode_at s ip) ->
  (i_valid q <> 0 -> q = load_dinode (dnode (i_inum q)) q) -> table_ok s'.
Proof.
  intros T Hl Hip Hq H0 Hr Hd Hi Hv. apply (table_upd s s' ip q); try done. intros _. destruct (tb_used s T ip Hip H0) as (Hd0 & Hu0 & _).
  rewrite Hd, Hi. split; [done|]. split; [done|]. split; [rewrite Hi in Hv; exact Hv|]. intros i Hin Hne Hri E. by apply Hne, (tb_once s T).
Qed.

Lemma walking_step L L' s s' : walking L s -> quiet_step s s' -> table_ok s' ->
  (forall i, (i < Z.to_nat NINODE)%nat -> L' <> Some i -> sl_locked (sl_at s' (SL_inode i)) = 0) ->
  (forall i, L' = Some i -> sl_mine s' p (SL_inode i) = true) -> walking L' s'.
Proof.
  intros [W1 W2 W3 W4 W5 W6 W7 W8 W9] (I & HV & L0 & S0 & K0 & P0 & N0) T Hf Hm. split; try done.
  - by rewrite L0.
  - congruence.
  - intros x. by rewrite HV.
  - unfold lk_free. by rewrite K0.
  - intros i Hi. unfold lk_free. rewrite K0. by apply W6.
Qed.
(** Steps that do not touch the sleep locks of inodes. *)
Lemma walking_keep L s s' : walking L s -> quiet_step s s' -> table_ok s' -> (forall i, sl_at s' (SL_inode i) = sl_at s (SL_inode i)) -> walking L s'.
Proof.
  intros W Q T S. apply (walking_step L L s); try done.
  - intros i Hi Hn. rewrite S. by apply (wk_free _ _ W).
  - intros i Hi. destruct Q as (_ & _ & _ & _ & _ & P & _). unfold sl_mine. rewrite S, P. by apply (wk_held _ _ W).
Qed.

Hypothesis Hfuel : MAXFILE * BSIZE / 16 < Z.of_nat n.
Hypothesis Htree : tree_ok sb V D.
Let Hfuel' : 17152 < Z.of_nat n.
Proof. exact Hfuel. Qed.
Let Hhead : (HEAD < n)%nat.
Proof. change HEAD with 30%nat. lia. Qed.

Definition at_slot (s : kernel) (ip : nat) : Prop := (ip < Z.to_nat NINODE)%nat /\ 1 <= i_ref (inode_at s ip).
Definition loaded_at (s : kernel) (ip : nat) : Prop := inode_at s ip = load_dinode (dnode (i_inum (inode_at s ip))) (inode_at s ip).
Definition one (P : Prop) `{Decision P} : Z := if decide P then 1 else 0.

Lemma nref_ref s s' ip q' j : at_slot s ip -> touched s s' ip q' -> table_ok s -> i_dev q' = i_dev (inode_at s ip) -> i_inum q' = i_inum (inode_at s ip) ->
  0 <= i_ref q' -> nref dev j s' = nref dev j s + (if decide (j = i_inum (inode_at s ip)) then i_ref q' - i_ref (inode_at s ip) else 0).
Proof.
  intros [Hip Hr] [Hq Ho] T Hd Hi H0. unfold nref. rewrite (total_upd _ s s' ip Hip Ho), Hq. generalize (total (fun q => if ihit dev j q then i_ref q else 0) s). intros t.
  destruct (tb_used s T ip Hip ltac:(lia)) as (Hdev & _).
  unfold ihit. rewrite Hd, Hi, Hdev, Z.eqb_refl. destruct (Z.gtb_spec (i_ref (inode_at s ip)) 0); [|lia]. cbn [andb].
  destruct (decide (j = i_inum (inode_at s ip))) as [->|Hne].
  - rewrite Z.eqb_refl. destruct (Z.gtb_spec (i_ref q') 0); cbn [andb]; lia.
  - destruct (Z.eqb_spec (i_inum (inode_at s ip)) j); [congruence|]. rewrite andb_false_r. lia.
Qed.
Lemma unused_ref s s' ip q' : at_slot s ip -> touched s s' ip q' -> unused s' = unused s + (if decide (i_ref q' = 0) then 1 else 0).
Proof.
  intros [Hip Hr] [Hq Ho]. unfold unused. rewrite (total_upd _ s s' ip Hip Ho), Hq. destruct (Z.eqb_spec (i_ref (inode_at s ip)) 0); [lia|].
  destruct (Z.eqb_spec (i_ref q') 0), (decide (i_ref q' = 0)); lia || done.
Qed.

Lemma walk_ilock s ip : walking None s -> at_slot s ip -> let q := inode_at s ip in
  exists s', ilock (Some ip) n s = Ret tt s' /\ walking (Some ip) s' /\ touched s s' ip (load_dinode (dnode (i_inum q)) q) /\
    (forall j, nref dev j s' = nref dev j s) /\ unused s' = unused s.
Proof.
  intros W [Hip Hr] q. pose proof (wk_table _ _ W) as T. destruct (tb_used s T ip Hip ltac:(lia)) as (Hd & Hu & Hc). fold q in Hd, Hu, Hc, Hr.
  assert (Ed : dnode (i_inum q) = disk_inode sb (view dev s) (i_inum q)) by (unfold disk_inode; by rewrite (wk_view _ _ W)).
  assert (Hlen : (ip < length (k_itable s))%nat) by (by rewrite (tb_len s T)).
  destruct (ilock_run dev p n s ip sb (dnode (i_inum q)) (wk_tx _ _ W) Hhead (wk_room _ _ W) (wk_sb _ _ W) (wk_isl _ _ W ip Hip)
    (wk_free _ _ W ip Hip ltac:(done)) Hlen Hd Hr Ed (proj2 Hu)) as (s' & E & Q & Tq & Lq).
  assert (Eq : (if i_valid q =? 0 then load_dinode (dnode (i_inum q)) q else q) = load_dinode (dnode (i_inum q)) q).
  { destruct (Z.eqb_spec (i_valid q) 0); [done|]. by apply Hc. }
  fold q in Tq. rewrite Eq in Tq. exists s'. split; [done|].
  assert (T' : table_ok s') by (apply (table_same_id s s' ip _ T ltac:(apply Q) Hip Tq); fold q; try done; cbn; lia).
  split; [|split; [done|split]].
  - destruct Lq as [Lm Lo]. apply (walking_step None (Some ip) s); try done; [|by intros i [= <-]].
    intros i Hi Hne. rewrite Lo by congruence. by apply (wk_free _ _ W).
  - intros j. rewrite (nref_ref s s' ip (load_dinode (dnode (i_inum q)) q) j); try done; [|cbn; lia]. cbn. case_decide; fold q; lia.
  - rewrite (unused_ref s s' ip _ (conj Hip Hr) Tq). rewrite decide_False; [lia|]. cbn. lia.
Qed.

Lemma walk_iunlock s ip : walking (Some ip) s -> at_slot s ip ->
  exists s', iunlock (Some ip) n s = Ret tt s' /\ walking None s' /\ k_itable s' = k_itable s.
Proof.
  intros W [Hip Hr]. destruct (iunlock_run dev p n s ip) as (s' & E & Q & Ei & S1 & S2); try apply W; try done.
  exists s'. split; [done|]. split; [|done]. apply (walking_step (Some ip) None s); try done; [by apply (table_same s), Ei; apply W|].
  intros i Hi _. destruct (decide (i = ip)) as [->|Hne]; [by rewrite S1|]. rewrite S2 by done. apply (wk_free _ _ W); [done|congruence].
Qed.

(** Giving a reference back without freeing the inode. *)
Definition kept (s : kernel) (ip : nat) : Prop := di_nlink (dnode (i_inum (inode_at s ip))) <> 0 \/ 2 <= i_ref (inode_at s ip).
Lemma walk_iput s ip : walking None s -> at_slot s ip -> kept s ip -> let q := inode_at s ip in
  exists s', iput ip n s = Ret tt s' /\ walking None s' /\ touched s s' ip (set_i_ref (i_ref q - 1) q).
Proof.
  intros W [Hip Hr] Hk q. pose proof (wk_table _ _ W) as T. destruct (tb_used s T ip Hip ltac:(lia)) as (_ & _ & Hc).
  assert (Hk' : i_valid q = 0 \/ i_nlink q <> 0 \/ 2 <= i_ref q).
  { destruct (decide (i_valid q = 0)) as [|Hv]; [by left|right]. destruct Hk as [Hk|Hk]; [left|by right].
    fold q in Hc, Hk. rewrite (Hc Hv). exact Hk. }
  eexists. split; [apply (iput_run dev p n); [apply W|apply W|done]|].
  set (s' := upd_inode ip _ s). assert (Tq : touched s s' ip (set_i_ref (i_ref q - 1) q)).
  { split; [unfold s'; by rewrite inode_at_upd_eq by (by rewrite (tb_len s T))|]. intros i Hi. by apply inode_at_upd_ne. }
  assert (Q : quiet_step s s') by (apply quiet_inode, W). split; [|done].
  apply (walking_keep None s); try done.
  apply (table_same_id s s' ip _ T ltac:(apply Q) Hip Tq); fold q in Hr |- *; try done; [lia|cbn; lia|].
  intros Hv. cbn in Hv. fold q in Hc. exact (f_equal (set_i_ref (i_ref q - 1)) (Hc Hv)).
Qed.
Lemma walk_iunlockput s ip : walking (Some ip) s -> at_slot s ip -> kept s ip -> let q := inode_at s ip in
  exists s', iunlockput ip n s = Ret tt s' /\ walking None s' /\ touched s s' ip (set_i_ref (i_ref q - 1) q).
Proof.
  intros W Ha Hk q. destruct (walk_iunlock s ip W Ha) as (s1 & E1 & W1 & Ei). assert (Eq : forall i, inode_at s1 i = inode_at s i) by (intros i; by apply inode_still).
  destruct (walk_iput s1 ip W1) as (s2 & E2 & W2 & [T1 T2]); [unfold at_slot; by rewrite Eq|unfold kept; by rewrite Eq|]. rewrite Eq in T1. exists s2.
  split; [unfold iunlockput; by rewrite (bind_ret _ _ _ _ _ _ E1)|]. split; [done|]. split; [done|]. intros i Hi. rewrite T2 by done. apply Eq.
Qed.

(** Taking a reference. *)
Definition took_ref (s s' : kernel) (ip : nat) (inum : Z) : Prop :=
  let q := inode_at s ip in
  (0 < i_ref q /\ i_inum q = inum /\ touched s s' ip (set_i_ref (i_ref q + 1) q)) \/
  (i_ref q = 0 /\ touched s s' ip (set_i_valid 0 (set_i_ref 1 (set_i_inum inum (set_i_dev dev q))))).

Lemma took_ref_still s s1 s2 ip inum : k_itable s1 = k_itable s -> took_ref s1 s2 ip inum -> took_ref s s2 ip inum.
Proof. intros E. unfold took_ref, touched, inode_at. by rewrite E. Qed.
Lemma touched_upd s ip f : table_ok s -> (ip < Z.to_nat NINODE)%nat -> touched s (upd_inode ip f s) ip (f (inode_at s ip)).
Proof. intros T Hip. split; [apply inode_at_upd_eq; by rewrite (tb_len s T)|]. intros i Hi. by apply inode_at_upd_ne. Qed.

Lemma iget_slot_took s inum ip : table_ok s -> iget_slot s dev inum = Some ip ->
  (ip < Z.to_nat NINODE)%nat /\ took_ref s (upd_inode ip (iget_upd dev inum) s) ip inum /\
  (i_ref (inode_at s ip) = 0 -> forall i, (i < Z.to_nat NINODE)%nat -> 0 < i_ref (inode_at s i) -> i_inum (inode_at s i) <> inum).
Proof.
  intros T. unfold iget_slot. destruct (List.find (fun i => ihit dev inum (inode_at s i)) _) as [x|] eqn:E1.
  - intros [= ->]. apply List.find_some in E1 as [Hx Hh]. apply in_seq in Hx. assert (Hip : (ip < Z.to_nat NINODE)%nat) by lia. split; [done|].
    pose proof (touched_upd s ip (iget_upd dev inum) T Hip) as Ht. unfold iget_upd at 2 in Ht. rewrite Hh in Ht.
    unfold ihit in Hh. apply andb_true_iff in Hh as [Hh Hi%Z.eqb_eq]. apply andb_true_iff in Hh as [Hr _]. rewrite Z.gtb_lt in Hr. split; [by left|lia].
  - intros E2. apply List.find_some in E2 as [Hx Hz]. apply in_seq in Hx. apply Z.eqb_eq in Hz. assert (Hip : (ip < Z.to_nat NINODE)%nat) by lia. split; [done|].
    pose proof (touched_upd s ip (iget_upd dev inum) T Hip) as Ht. unfold iget_upd at 2, ihit in Ht. rewrite Hz in Ht. split; [by right|].
    intros _ i Hi Hr E. pose proof (List.find_none _ _ E1 i ltac:(apply in_seq; lia)) as Hn. unfold ihit in Hn. destruct (tb_used s T i Hi Hr) as (Hd & _).
    rewrite Hd, E, !Z.eqb_refl, !andb_true_r in Hn. rewrite Z.gtb_ltb in Hn. apply Z.ltb_ge in Hn. lia.
Qed.
Lemma took_walking L s s' ip inum : walking L s -> used inum -> (ip < Z.to_nat NINODE)%nat -> took_ref s s' ip inum ->
  (i_ref (inode_at s ip) = 0 -> forall i, (i < Z.to_nat NINODE)%nat -> 0 < i_ref (inode_at s i) -> i_inum (inode_at s i) <> inum) ->
  quiet_step s s' -> (forall i, sl_at s' (SL_inode i) = sl_at s (SL_inode i)) ->
  walking L s' /\ at_slot s' ip /\ i_inum (inode_at s' ip) = inum /\ (forall j, nref dev j s' = nref dev j s + one (j = inum)).
Proof.
  intros W Hu Hip Ht Hno Q S. pose proof (wk_table _ _ W) as T. unfold one. destruct Ht as [(Hr & Hi & Ht)|(Hr & Ht)].
  - assert (T' : table_ok s').
    { apply (table_same_id s s' ip _ T ltac:(apply Q) Hip Ht); try done; [cbn; lia|]. intros Hv. destruct (tb_used s T ip Hip Hr) as (_ & _ & Hc).
      exact (f_equal (set_i_ref (i_ref (inode_at s ip) + 1)) (Hc Hv)). }
    split; [by apply (walking_keep L s)|]. pose proof Ht as [Eq _]. split; [split; [done|rewrite Eq; cbn; lia]|]. split; [by rewrite Eq|]. intros j.
    assert (Ha : at_slot s ip) by (split; [done|lia]). rewrite (nref_ref s s' ip _ j Ha Ht T) by (done || (cbn; lia)). rewrite Hi. case_decide; cbn; lia.
  - assert (T' : table_ok s').
    { apply (table_upd s s' ip _ T ltac:(apply Q) Hip Ht); [cbn; lia|]. intros _. split; [done|]. split; [done|]. split; [done|].
      intros i Hin _ Hri. by apply (Hno Hr). }
    split; [by apply (walking_keep L s)|]. pose proof Ht as [Eq Ho]. split; [split; [done|rewrite Eq; cbn; lia]|]. split; [by rewrite Eq|]. intros j.
    unfold nref. rewrite (total_upd _ s s' ip Hip Ho), Eq. generalize (total (fun q => if ihit dev j q then i_ref q else 0) s). intros t.
    unfold ihit. cbn. rewrite Hr, Z.eqb_refl. cbn. destruct (Z.eqb_spec inum j), (decide (j = inum)); lia || congruence.
Qed.

(** The unused entries, with the one about to be given back. *)
Definition avail (s : kernel) (ip : nat) : Z := unused s + one (i_ref (inode_at s ip) = 1).
Lemma unused_took s s' ip inum : (ip < Z.to_nat NINODE)%nat -> took_ref s s' ip inum -> unused s' = unused s - one (i_ref (inode_at s ip) = 0).
Proof.
  intros Hip Ht. unfold one. destruct Ht as [(Hr & _ & Ht)|(Hr & Ht)].
  - assert (Ha : at_slot s ip) by (split; [done|lia]). rewrite (unused_ref s s' ip _ Ha Ht). rewrite !decide_False; [lia|lia|cbn; lia].
  - destruct Ht as [Eq Ho]. unfold unused. rewrite (total_upd _ s s' ip Hip Ho), Eq. rewrite decide_True by done. rewrite Hr. cbn. lia.
Qed.
(** One round: a reference to the next inode taken, the one to the current
    inode given back. *)
Lemma avail_round s s1 s2 ip nx inum : at_slot s ip -> (nx < Z.to_nat NINODE)%nat -> took_ref s s1 nx inum ->
  touched s1 s2 ip (set_i_ref (i_ref (inode_at s1 ip) - 1) (inode_at s1 ip)) -> 2 <= avail s ip ->
  1 <= i_ref (inode_at s2 nx) /\ 2 <= avail s2 nx /\ (nx = ip -> i_ref (inode_at s2 nx) = i_ref (inode_at s ip)).
Proof.
  intros [Hip Hr] Hnx Ht [Eq2 Ho2] Ha. pose proof (unused_took s s1 nx inum Hnx Ht) as U1. unfold avail, one in *.
  assert (H1 : 1 <= i_ref (inode_at s1 ip) /\ (nx <> ip -> i_ref (inode_at s1 ip) = i_ref (inode_at s ip))).
  { destruct Ht as [(Hr1 & _ & [Eq Ho])|(Hr1 & [Eq Ho])]; (destruct (decide (nx = ip)) as [->|Hne]; [rewrite Eq; cbn; split; [lia|done]|rewrite Ho by done; done]). }
  pose proof (unused_ref s1 s2 ip _ (conj Hip (proj1 H1)) (conj Eq2 Ho2)) as U2. cbn [i_ref set_i_ref] in U2.
  destruct (decide (nx = ip)) as [->|Hne].
  - destruct Ht as [(Hr1 & _ & [Eq Ho])|(Hr1 & _)]; [|lia]. rewrite Eq2, Eq in *. cbn [i_ref set_i_ref] in *. repeat case_decide; lia.
  - rewrite (proj2 H1 Hne) in U2. rewrite (Ho2 nx Hne).
    destruct Ht as [(Hr1 & _ & [Eq Ho])|(Hr1 & [Eq Ho])]; rewrite Eq; cbn [i_ref set_i_ref set_i_valid]; repeat case_decide; lia.
Qed.

(** ** One component *)
Lemma loaded_bytes s d q : (forall x, view dev s x = V x) -> file_bytes (view dev s) (load_dinode d q) = file_bytes V (as_inode d).
Proof. intros E. change (file_bytes (view dev s) (load_dinode d q)) with (file_bytes (view dev s) (as_inode d)). unfold file_bytes. by apply frange_ext. Qed.
Lemma loaded_find s d q name : (forall x, view dev s x = V x) -> dir_find (view dev s) (load_dinode d q) name = dir_find V (as_inode d) name.
Proof. intros E. unfold dir_find, dir_entry. by rewrite (loaded_bytes s d q E). Qed.
Lemma loaded_entry s d q j : (forall x, view dev s x = V x) -> dir_entry (view dev s) (load_dinode d q) j = dir_entry V (as_inode d) j.
Proof. intros E. unfold dir_entry. by rewrite (loaded_bytes s d q E). Qed.

Lemma walk_dir_ok s ip : walking (Some ip) s -> at_slot s ip -> loaded_at s ip -> i_type (inode_at s ip) = T_DIR ->
  dir_ok dev p sb D ip s /\ (dir_size (inode_at s ip) < n)%nat.
Proof.
  intros W [Hip Hr] Hl Ht. destruct (tb_used s (wk_table _ _ W) ip Hip ltac:(lia)) as (Hd & Hu & _). pose proof (wk_view _ _ W) as HV.
  set (inum := i_inum (inode_at s ip)) in *. set (d := dnode inum) in *. pose proof (to_iwf _ _ _ Htree inum Hu) as Hw.
  assert (Hty : di_type d = T_DIR) by (rewrite Hl in Ht; exact Ht). destruct (to_dir _ _ _ Htree inum Hu Hty) as [Hm Hb]. fold d in Hm, Hb, Hw.
  assert (Hw' : iwf sb D (view dev s) (inode_at s ip)).
  { apply (iwf_ext sb D V); [done|]. rewrite Hl. fold inum d. exact (let 'Build_iwf _ _ _ _ a b c e f g := Hw in Build_iwf _ _ _ (load_dinode d (inode_at s ip)) a b c e f g). }
  assert (R : readable dev p sb D s ip).
  { split; [exact (wk_tx _ _ W)|exact (wk_room _ _ W)| |done|done]. apply (vok_ext sb D V); [done|]. exact (to_vok _ _ _ Htree). }
  split; [split; [done|done| | |exact (wk_lock _ _ W)]|].
  - rewrite Hl. exact Hm.
  - rewrite Hl. fold inum d. by rewrite (loaded_bytes s d _ HV).
  - pose proof (iw_size _ _ _ _ Hw') as Hs. unfold dir_size. change MAXFILE with 268 in Hs. change BSIZE with 1024 in Hs.
    pose proof (Z.div_le_mono (i_size (inode_at s ip)) 274432 16 ltac:(lia) ltac:(lia)). change (274432 / 16) with 17152 in *.
    pose proof (Z.div_pos (i_size (inode_at s ip)) 16). lia.
Qed.

Lemma walk_lookup s ip name : walking (Some ip) s -> at_slot s ip -> loaded_at s ip -> i_type (inode_at s ip) = T_DIR ->
  Forall byte_ok name -> 1 <= unused s -> let inum := i_inum (inode_at s ip) in
  exists s1, walking (Some ip) s1 /\ match child sb V inum name with
    | Some t => exists nx off, dirlookup ip name n s = Ret (Some (nx, off)) s1 /\ at_slot s1 nx /\ i_inum (inode_at s1 nx) = t /\
        (di_nlink (dnode t) <> 0 \/ t = inum) /\ took_ref s s1 nx t /\ (forall j, nref dev j s1 = nref dev j s + one (j = t))
    | None => dirlookup ip name n s = Ret None s1 /\ k_itable s1 = k_itable s
    end.
Proof.
  intros W Ha Hl Ht Hb Hun inum. destruct (walk_dir_ok s ip W Ha Hl Ht) as [Hd Hn]. pose proof (wk_view _ _ W) as HV. pose proof (wk_table _ _ W) as T.
  destruct (dirlookup_run dev p n sb D ip name ltac:(lia) Hb s Hd Hn) as (s1 & C & E). pose proof (calm_itable dev p s s1 C) as Ei.
  assert (S1 : forall i, sl_at s1 (SL_inode i) = sl_at s (SL_inode i)) by (destruct C as (_ & [(_ & _ & _ & _ & _ & S) _] & _); exact S).
  assert (W1 : walking (Some ip) s1) by (apply (walking_keep (Some ip) s); [done|by apply quiet_calm|by apply (table_same s)|done]).
  unfold child. fold inum. assert (Hty : di_type (dnode inum) = T_DIR) by (rewrite Hl in Ht; exact Ht).
  rewrite Hty, Z.eqb_refl. rewrite Hl, (loaded_find s _ _ _ HV) in E. fold inum in E. destruct (dir_find V (as_inode (dnode inum)) name) as [j|] eqn:Ef; [|by exists s1].
  rewrite (loaded_entry s _ _ j HV) in E. set (t := de_inum _) in *.
  apply List.find_some in Ef as [Hj Hnm]. apply in_seq in Hj. unfold names in Hnm. apply andb_true_iff in Hnm as [Hnz%negb_true_iff%Z.eqb_neq _]. fold t in Hnz.
  destruct Ha as [Hip Hr]. destruct (tb_used s T ip Hip ltac:(lia)) as (_ & Hu & _). fold inum in Hu.
  destruct (to_entry _ _ _ Htree inum j Hu Hty ltac:(lia) Hnz) as [Hut Hlk]. fold t in Hut, Hlk.
  unfold took in E. destruct (iget_slot s dev t) as [nx|] eqn:Es.
  2:{ exfalso. unfold iget_slot in Es. destruct (List.find (fun i => ihit dev t (inode_at s i)) _); [done|]. destruct (unused_slot s Hun) as [x Hx]. by rewrite Hx in Es. }
  rewrite <- (iget_slot_still dev s s1 t Ei) in Es. destruct (iget_slot_took s1 t nx (wk_table _ _ W1) Es) as (Hnx & Htk & Hno).
  set (s2 := upd_inode nx (iget_upd dev t) s1) in *. exists s2.
  destruct (took_walking (Some ip) s1 s2 nx t W1 Hut Hnx Htk Hno) as (W2 & A2 & I2 & N2); [apply quiet_inode, W1|done|].
  split; [done|]. exists nx, (16 * Z.of_nat j). split; [done|]. split; [done|]. split; [done|]. split; [done|]. split.
  - by apply (took_ref_still s s1).
  - intros i. rewrite N2. f_equal. by apply total_itable.
Qed.

(** ** The walk *)
(** The loop of [namex] on the tree. *)
Fixpoint tree_walk (parent : bool) (inum : Z) (name : list Z) (names : list (list Z)) : option (Z * list Z) :=
  match names with
  | [] => if parent then None else Some (inum, name)
  | c :: names' =>
      if negb (di_type (dnode inum) =? T_DIR) then None
      else if parent && bool_decide (names' = []) then Some (inum, take (Z.to_nat DIRSIZ) c)
      else match child sb V inum c with Some t => tree_walk parent t (take (Z.to_nat DIRSIZ) c) names' | None => None end
  end.
Lemma walk_resolve names : forall inum name, option_map fst (tree_walk false inum name names) = resolve sb V inum names.
Proof.
  induction names as [|c names IH]; intros inum name; [done|]. cbn [tree_walk resolve]. unfold child.
  destruct (di_type (dnode inum) =? T_DIR); [|done]. cbn [negb andb]. destruct (dir_find V _ c); [apply IH|done].
Qed.
Lemma walk_parent names : forall inum name, tree_walk true inum name names = resolve_parent sb V inum names.
Proof.
  induction names as [|c names IH]; intros inum name; [done|]. cbn [tree_walk]. destruct names as [|c' names].
  - rewrite bool_decide_true by done. change (resolve_parent sb V inum [c]) with (if di_type (dnode inum) =? T_DIR then Some (inum, take (Z.to_nat DIRSIZ) c) else None). by destruct (di_type (dnode inum) =? T_DIR).
  - rewrite bool_decide_false by done. cbn [andb]. unfold resolve_parent. change (last (c :: c' :: names)) with (last (c' :: names)).
    change (removelast (c :: c' :: names)) with (c :: removelast (c' :: names)). cbn [resolve].
    destruct (di_type (dnode inum) =? T_DIR) eqn:Et; cbn [negb].
    + destruct (child sb V inum c) as [t|]; [apply IH|]. by destruct (last (c' :: names)).
    + assert (child sb V inum c = None) as -> by (unfold child; by rewrite Et). by destruct (last (c' :: names)).
Qed.

Definition namex_step (nameiparent : bool) '(ip, path, name) : K (nat * list Z * list Z + option (nat * list Z)) :=
  match skipelem path with
  | None =>
      if nameiparent then iput ip ;; ret (inr None) else ret (inr (Some (ip, name)))
  | Some (path, name) =>
      ilock (Some ip) ;;
      let* q := iget_f ip id in
      if negb (i_type q =? T_DIR) then iunlockput ip ;; ret (inr None) else
      if nameiparent && bool_decide (path = []) then
        iunlock (Some ip) ;; ret (inr (Some (ip, name)))
      else
        let* next := dirlookup ip name in
        match next with
        | None => iunlockput ip ;; ret (inr None)
        | Some (nx, _) => iunlockput ip ;; ret (inl (nx, path, name))
        end
  end.

(** The current inode, referenced once by the walk. *)
Record at_inode (s : kernel) (ip : nat) : Prop := {
  ai_walk : walking None s;
  ai_slot : at_slot s ip;
  ai_kept : kept s ip;
  ai_avail : 2 <= avail s ip;
}.
(** What the rest of the walk does. *)
Definition walked (s : kernel) (inum : Z) (r : option (Z * list Z)) (o : outcome kernel (option (nat * list Z))) : Prop :=
  exists s', walking None s' /\ match r with
  | Some (t, nm) => exists ip, o = Ret (Some (ip, nm)) s' /\ at_slot s' ip /\ i_inum (inode_at s' ip) = t /\
      forall j, nref dev j s' = nref dev j s - one (j = inum) + one (j = t)
  | None => o = Ret None s' /\ forall j, nref dev j s' = nref dev j s - one (j = inum)
  end.

Lemma nref_put s s' ip : table_ok s -> at_slot s ip -> touched s s' ip (set_i_ref (i_ref (inode_at s ip) - 1) (inode_at s ip)) ->
  forall j, nref dev j s' = nref dev j s - one (j = i_inum (inode_at s ip)).
Proof.
  intros T A Ht j. rewrite (nref_ref s s' ip _ j A Ht T) by (done || (destruct A; cbn; lia)). cbn. unfold one. case_decide; lia.
Qed.

Lemma walked_later s s1 inum i1 r o : (forall j, nref dev j s1 = nref dev j s - one (j = inum) + one (j = i1)) -> walked s1 i1 r o -> walked s inum r o.
Proof.
  intros E (s' & W & H). exists s'. split; [done|]. destruct r as [[t nm]|].
  - destruct H as (ip & H1 & H2 & H3 & H4). exists ip. split_and!; try done. intros j. rewrite H4, E. lia.
  - destruct H as (H1 & H2). split; [done|]. intros j. rewrite H2, E. lia.
Qed.

(** The current inode locked and loaded. *)
Record inside (s s1 : kernel) (ip : nat) : Prop := {
  in_walk : walking (Some ip) s1;
  in_inode : inode_at s1 ip = load_dinode (dnode (i_inum (inode_at s ip))) (inode_at s ip);
  in_slot : at_slot s1 ip;
  in_kept : kept s1 ip;
  in_avail : 2 <= avail s1 ip;
  in_nref : forall j, nref dev j s1 = nref dev j s;
}.
Lemma walk_enter s ip : at_inode s ip -> exists s1, inside s s1 ip /\ forall {A B} (k : inode -> K A) (g : A -> K B),
  bind (ilock (Some ip) ;; let* q := iget_f ip id in k q) g n s = bind (k (inode_at s1 ip)) g n s1.
Proof.
  intros [W A K Av]. destruct (walk_ilock s ip W A) as (s1 & E1 & W1 & [T1 T1o] & N1 & U1). exists s1. split.
  - split; [done|done| | | |done].
    + unfold at_slot. rewrite T1. exact A.
    + unfold kept. rewrite T1. exact K.
    + unfold avail. rewrite U1, T1. exact Av.
  - intros X Y k g. rewrite (bind_bind_ret _ _ _ _ _ _ _ E1). unfold iget_f. by rewrite bind_bind_gets.
Qed.

(** Leaving without a result. *)
Lemma walk_leave s s1 s2 ip : inside s s1 ip -> walking (Some ip) s2 -> k_itable s2 = k_itable s1 ->
  exists s3, iunlockput ip n s2 = Ret tt s3 /\ walking None s3 /\ forall j, nref dev j s3 = nref dev j s - one (j = i_inum (inode_at s ip)).
Proof.
  intros [W1 T1 A1 K1 _ N1] W2 Ei. assert (Eq2 : inode_at s2 ip = inode_at s1 ip) by (by apply inode_still).
  assert (A2 : at_slot s2 ip) by (unfold at_slot; by rewrite Eq2). destruct (walk_iunlockput s2 ip W2 A2) as (s3 & E3 & W3 & Ht3); [unfold kept; by rewrite Eq2|].
  exists s3. split_and!; try done. intros j. rewrite (nref_put s2 s3 ip (wk_table _ _ W2) A2 Ht3 j), Eq2, T1. unfold nref. rewrite (total_itable _ s1 s2 Ei).
  fold (nref dev j s1). by rewrite N1.
Qed.

(** A directory: its entry is looked up. *)
Lemma walk_round s s1 ip name : inside s s1 ip -> di_type (dnode (i_inum (inode_at s ip))) = T_DIR -> Forall byte_ok name ->
  let inum := i_inum (inode_at s ip) in
  match child sb V inum name with
  | Some t => exists nx off s2 s3, dirlookup ip name n s1 = Ret (Some (nx, off)) s2 /\ iunlockput ip n s2 = Ret tt s3 /\
      at_inode s3 nx /\ i_inum (inode_at s3 nx) = t /\ forall j, nref dev j s3 = nref dev j s - one (j = inum) + one (j = t)
  | None => exists s2 s3, dirlookup ip name n s1 = Ret None s2 /\ iunlockput ip n s2 = Ret tt s3 /\ walking None s3 /\
      forall j, nref dev j s3 = nref dev j s - one (j = inum)
  end.
Proof.
  intros In Hty Hb inum. pose proof In as [W1 T1 A1 K1 Av1 N1]. assert (I1 : i_inum (inode_at s1 ip) = inum) by (by rewrite T1).
  assert (L1 : loaded_at s1 ip) by (unfold loaded_at; rewrite I1, T1; done).
  destruct (walk_lookup s1 ip name W1 A1 L1) as (s2 & W2 & H2); [by rewrite T1|done|unfold avail, one in Av1; case_decide; lia|]. rewrite I1 in H2.
  destruct (child sb V inum name) as [t|].
  - destruct H2 as (nx & off & E2 & A2 & I2 & Hlk & Tk & N2). exists nx, off, s2.
    assert (Eq2 : at_slot s2 ip /\ i_inum (inode_at s2 ip) = inum /\ kept s2 ip).
    { unfold at_slot, kept in *. destruct Tk as [(Hr & _ & [Eq Ho])|(Hr & [Eq Ho])]; (destruct (decide (nx = ip)) as [->|Hne]; [rewrite !Eq; cbn; destruct A1; split_and!; try done; lia|rewrite !Ho by done; done]). }
    destruct Eq2 as (A2i & I2i & K2). destruct (walk_iunlockput s2 ip W2 A2i K2) as (s3 & E3 & W3 & Ht3). exists s3. split; [done|]. split; [done|].
    destruct (avail_round s1 s2 s3 ip nx t A1 (proj1 A2) Tk Ht3 Av1) as (R3 & Av3 & Eqn). pose proof Ht3 as [Eq3 Ho3].
    assert (I3 : i_inum (inode_at s3 nx) = t) by (destruct (decide (nx = ip)) as [->|Hne]; [by rewrite Eq3|by rewrite Ho3]).
    split; [split; [done|split; [apply A2|done]| |done]|].
    + unfold kept. rewrite I3. destruct Hlk as [Hlk|Hlk]; [by left|]. assert (nx = ip) as -> by (apply (tb_once s2 (wk_table _ _ W2)); [apply A2|apply A2i|destruct A2; lia|destruct A2i; lia|congruence]).
      rewrite (Eqn eq_refl). unfold kept in K1. rewrite I1 in K1. by rewrite Hlk.
    + split; [done|]. intros j. rewrite (nref_put s2 s3 ip (wk_table _ _ W2) A2i Ht3 j), N2, N1, I2i. lia.
  - destruct H2 as (E2 & Ei). destruct (walk_leave s s1 s2 ip In W2 Ei) as (s3 & E3 & W3 & N3). by exists s2, s3.
Qed.

(** The end of the path. *)
Lemma walk_end {A} parent ip s name (g : A + option (nat * list Z) -> K (option (nat * list Z))) : at_inode s ip -> (forall r, g (inr r) = ret r) ->
  walked s (i_inum (inode_at s ip)) (tree_walk parent (i_inum (inode_at s ip)) name [])
    (bind (if parent then iput ip ;; ret (inr None) else ret (inr (Some (ip, name)))) g n s).
Proof.
  intros [W Sl K Av] Hg. destruct parent; cbn [tree_walk].
  - destruct (walk_iput s ip W Sl K) as (s' & E & W' & Ht). exists s'. split; [done|]. rewrite (bind_bind_ret _ _ _ _ _ _ _ E), bind_ret_l, Hg. split; [done|].
    by apply nref_put; [apply W|..].
  - rewrite bind_ret_l, Hg. exists s. split; [done|]. exists ip. split_and!; try done; try apply Sl. intros j. lia.
Qed.
(** The parent of the last component. *)
Lemma walk_stop s s1 ip : inside s s1 ip -> exists s2, iunlock (Some ip) n s1 = Ret tt s2 /\ walking None s2 /\ at_slot s2 ip /\
  i_inum (inode_at s2 ip) = i_inum (inode_at s ip) /\ forall j, nref dev j s2 = nref dev j s.
Proof.
  intros [W1 T1 A1 K1 _ N1]. destruct (walk_iunlock s1 ip W1 A1) as (s2 & E2 & W2 & Ei). exists s2. split; [done|]. split; [done|].
  unfold at_slot. rewrite (inode_still s1 s2 ip Ei). split; [done|]. split; [by rewrite T1|]. intros j. unfold nref. rewrite (total_itable _ s1 s2 Ei). apply N1.
Qed.

Lemma walk_loop parent : forall names f path name ip s, at_inode s ip -> components path = names -> Forall byte_ok path -> (length names < f)%nat ->
  walked s (i_inum (inode_at s ip)) (tree_walk parent (i_inum (inode_at s ip)) name names) (iter_upto f (namex_step parent) (ip, path, name) n s).
Proof.
  induction names as [|c names IH]; intros f path name ip s A Hc Hb Hf; (destruct f as [|f]; [cbn in Hf; lia|]); cbn [iter_upto]; pose proof (skipelem_components path) as Hs;
    unfold namex_step at 1; destruct (skipelem path) as [[rest nm]|] eqn:Es; try (destruct Hs as (e & He & _); congruence); try congruence.
  { by apply walk_end. }
  destruct Hs as (e & He & Hnm & _ & _ & _ & Hre & _). rewrite He in Hc. injection Hc as -> Hrest. destruct (skipelem_forall _ _ _ _ Hb Es) as [Hbr Hbn].
  destruct (walk_enter s ip A) as (s1 & In & E1). rewrite E1. clear E1. cbn [tree_walk length] in *. set (inum := i_inum (inode_at s ip)).
  rewrite (in_inode _ _ _ In). change (i_type (load_dinode ?d ?q)) with (di_type d). fold inum.
  destruct (di_type (dnode inum) =? T_DIR) eqn:Et; cbn [negb].
  2:{ destruct (walk_leave s s1 s1 ip In (in_walk _ _ _ In) eq_refl) as (s2 & E2 & W2 & N2). exists s2. split; [done|]. by rewrite (bind_bind_ret _ _ _ _ _ _ _ E2). }
  apply Z.eqb_eq in Et. assert (Eb : bool_decide (rest = []) = bool_decide (names = [])) by (apply bool_decide_ext; by rewrite Hre, Hrest). rewrite Eb.
  destruct (parent && bool_decide (names = [])).
  { destruct (walk_stop s s1 ip In) as (s2 & E2 & W2 & A2 & I2 & N2). exists s2. split; [done|]. exists ip. rewrite (bind_bind_ret _ _ _ _ _ _ _ E2), Hnm.
    split_and!; try done; try apply A2. intros j. rewrite N2. lia. }
  pose proof (walk_round s s1 ip nm In Et Hbn) as H. fold inum in H.
  assert (Ec : child sb V inum nm = child sb V inum c) by (rewrite Hnm; unfold child; by rewrite dir_find_take). cbv zeta in H. rewrite Ec in H. destruct (child sb V inum c) as [t|].
  - destruct H as (nx & off & s2 & s3 & E2 & E3 & A3 & I3 & N3). rewrite (bind_bind_ret _ _ _ _ _ _ _ E2). cbv beta iota.
    rewrite (bind_bind_ret _ _ _ _ _ _ _ E3), bind_ret_l. cbv beta iota. apply (walked_later s s3 inum t); [done|]. rewrite <- Hnm, <- I3. apply IH; [done|done|done|lia].
  - destruct H as (s2 & s3 & E2 & E3 & W3 & N3). exists s3. split; [done|]. rewrite (bind_bind_ret _ _ _ _ _ _ _ E2). cbv beta iota.
    by rewrite (bind_bind_ret _ _ _ _ _ _ _ E3).
Qed.

(** ** The start *)
Definition start_inum (s : kernel) (path : list Z) : Z :=
  if aget 0 path 0 =? SLASH then ROOTINO
  else match p_cwd (proc_at s p) with Some c => i_inum (inode_at s c) | None => 0 end.
(** Two unused entries, a root directory, and a current directory for
    relative paths. *)
Record walk_pre (s : kernel) (path : list Z) : Prop := {
  wp_walk : walking None s;
  wp_unused : 2 <= unused s;
  wp_path : Forall byte_ok path;
  wp_root : used ROOTINO /\ di_nlink (dnode ROOTINO) <> 0;
  wp_cwd : aget 0 path 0 <> SLASH -> exists c, p_cwd (proc_at s p) = Some c /\ at_slot s c;
}.
Definition namex_start (path : list Z) : K nat :=
  if aget 0 path 0 =? SLASH then iget ROOTDEV ROOTINO
  else let* p := the_proc in
       let* cwd := pget p p_cwd in
       match cwd with Some c => idup c | None => panic "kerneltrap" end.

Lemma took_at_inode s s' ip inum : walking None s -> 2 <= unused s -> used inum -> (ip < Z.to_nat NINODE)%nat -> took_ref s s' ip inum ->
  (i_ref (inode_at s ip) = 0 -> forall i, (i < Z.to_nat NINODE)%nat -> 0 < i_ref (inode_at s i) -> i_inum (inode_at s i) <> inum) ->
  di_nlink (dnode inum) <> 0 \/ 0 < i_ref (inode_at s ip) -> s' = upd_inode ip (fun _ => inode_at s' ip) s ->
  at_inode s' ip /\ i_inum (inode_at s' ip) = inum /\ (forall j, nref dev j s' = nref dev j s + one (j = inum)).
Proof.
  intros W Hun Hu Hip Ht Hno Hk Es. pose proof (unused_took s s' ip inum Hip Ht) as U.
  destruct (took_walking None s s' ip inum W Hu Hip Ht Hno) as (W' & A' & I' & N'); [rewrite Es; apply quiet_inode, W|by rewrite Es|].
  split; [|done]. unfold kept, avail, one in *. split; [done|done| |].
  - unfold kept. rewrite I'. destruct Hk as [Hk|Hk]; [by left|]. right. destruct Ht as [(_ & _ & [Eq _])|(Hr & _)]; [rewrite Eq; cbn; lia|lia].
  - unfold avail, one. destruct Ht as [(Hr & _ & [Eq _])|(Hr & [Eq _])]; rewrite Eq; cbn [i_ref set_i_ref set_i_valid]; repeat case_decide; lia.
Qed.
Lemma upd_inode_const s ip f : table_ok s -> (ip < Z.to_nat NINODE)%nat -> upd_inode ip f s = upd_inode ip (fun _ => inode_at (upd_inode ip f s) ip) s.
Proof. intros T Hip. apply upd_inode_ext. symmetry. apply inode_at_upd_eq. by rewrite (tb_len s T). Qed.

Hypothesis Hdev : dev = ROOTDEV.
Lemma namex_start_run s path : walk_pre s path -> exists ip s', namex_start path n s = Ret ip s' /\ at_inode s' ip /\
  i_inum (inode_at s' ip) = start_inum s path /\ (forall j, nref dev j s' = nref dev j s + one (j = start_inum s path)).
Proof.
  intros [W Hun Hb [Hu Hnl] Hc]. pose proof (wk_table _ _ W) as T. pose proof (t_user _ _ _ _ (wk_tx _ _ W)) as ((Hok & Hp & _) & _).
  unfold namex_start, start_inum. destruct (Z.eqb_spec (aget 0 path 0) SLASH) as [Ep|Ep].
  - pose proof (iget_run n dev ROOTINO s Hok (wk_lock _ _ W)) as E. destruct (iget_slot s dev ROOTINO) as [ip|] eqn:Es.
    2:{ exfalso. unfold iget_slot in Es. destruct (List.find (fun i => ihit dev ROOTINO (inode_at s i)) _); [done|]. destruct (unused_slot s ltac:(lia)) as [x Hx]. by rewrite Hx in Es. }
    destruct (iget_slot_took s ROOTINO ip T Es) as (Hip & Ht & Hno). rewrite Hdev in E at 1. eexists ip, _. split; [exact E|].
    apply (took_at_inode s _ ip ROOTINO); try done; [by left|by apply upd_inode_const].
  - destruct (Hc Ep) as (c & Ec & Hip & Hr). rewrite (bind_ret _ _ _ _ _ _ (the_proc_run n s p Hok Hp)). unfold pget. rewrite bind_gets, Ec.
    eexists c, _. split; [apply (idup_run dev p n); [apply W|apply W]|]. destruct (tb_used s T c Hip ltac:(lia)) as (_ & Huc & _).
    apply (took_at_inode s _ c); try done; [|lia|right; lia|by apply upd_inode_const].
    left. split; [lia|]. split; [done|]. exact (touched_upd s c (fun q => set_i_ref (i_ref q + 1) q) T Hip).
Qed.

Lemma namex_run parent s path : walk_pre s path -> (length (components path) < n)%nat -> let start := start_inum s path in
  exists s', walking None s' /\ match tree_walk parent start [] (components path) with
  | Some (t, nm) => exists ip, namex path parent n s = Ret (Some (ip, nm)) s' /\ at_slot s' ip /\ i_inum (inode_at s' ip) = t /\
      forall j, nref dev j s' = nref dev j s + one (j = t)
  | None => namex path parent n s = Ret None s' /\ forall j, nref dev j s' = nref dev j s
  end.
Proof.
  intros P Hl start. destruct (namex_start_run s path P) as (ip & s1 & E1 & A1 & I1 & N1). fold start in I1, N1.
  destruct (walk_loop parent (components path) n path [] ip s1 A1 eq_refl (wp_path _ _ P) Hl) as (s' & W' & H). rewrite I1 in H. exists s'. split; [done|].
  assert (E : namex path parent n s = iter_upto n (namex_step parent) (ip, path, []) n s1).
  { unfold namex. fold (namex_start path). rewrite (bind_ret _ _ _ _ _ _ E1). reflexivity. }
  rewrite E. destruct (tree_walk parent start [] (components path)) as [[t nm]|].
  - destruct H as (ip' & H1 & H2 & H3 & H4). exists ip'. split_and!; try done; try apply H2. intros j. rewrite H4, N1. lia.
  - destruct H as (H1 & H2). split; [done|]. intros j. rewrite H2, N1. lia.
Qed.
End Walk.

(** C2: [namei] and [nameiparent] resolve path names as the tree of
    directories in the blocks [V] of the disk says: in a transaction, with two
    unused entries in
    the inode table, a path is followed component by component (names compare
    up to 14 bytes) from the root directory when it starts with a slash, else
    from the current directory.  [namei] returns a reference to the inode the
    path leads to, or null when a component is missing or something on the
    way is no directory; [nameiparent] the directory of the last component
    and its name.  The only reference left is the one returned, no lock is
    held at the end, and the inode table still agrees with the disk. *)
Theorem namei_resolves {KI : KernelImage} {BD : BlockDevice} {UA : Uart16550} p n sb D V s path :
  tree_ok sb V D -> MAXFILE * BSIZE / 16 < Z.of_nat n -> (length (components path) < n)%nat -> walk_pre ROOTDEV p sb V s path ->
  let from := start_inum p s path in
  (exists s', walking ROOTDEV p sb V None s' /\
    match resolve sb V from (components path) with
    | Some t => exists ip, namei path n s = Ret (Some ip) s' /\ at_slot s' ip /\ i_inum (inode_at s' ip) = t /\
        forall j, nref ROOTDEV j s' = nref ROOTDEV j s + one (j = t)
    | None => namei path n s = Ret None s' /\ forall j, nref ROOTDEV j s' = nref ROOTDEV j s
    end) /\
  (exists s', walking ROOTDEV p sb V None s' /\
    match resolve_parent sb V from (components path) with
    | Some (t, name) => exists ip, nameiparent path n s = Ret (Some (ip, name)) s' /\ at_slot s' ip /\ i_inum (inode_at s' ip) = t /\
        forall j, nref ROOTDEV j s' = nref ROOTDEV j s + one (j = t)
    | None => nameiparent path n s = Ret None s' /\ forall j, nref ROOTDEV j s' = nref ROOTDEV j s
    end).
Proof.
  intros Ht Hn Hl P from. split.
  - destruct (namex_run ROOTDEV p n sb D V Hn Ht eq_refl false s path P Hl) as (s' & W & H). fold from in H. exists s'. split; [done|].
    rewrite <- (walk_resolve sb V _ from []). destruct (tree_walk sb V false from [] (components path)) as [[t nm]|]; cbn [option_map fst].
    + destruct H as (ip & E & H). exists ip. split; [unfold namei; by rewrite (bind_ret _ _ _ _ _ _ E)|exact H].
    + destruct H as (E & H). split; [unfold namei; by rewrite (bind_ret _ _ _ _ _ _ E)|exact H].
  - destruct (namex_run ROOTDEV p n sb D V Hn Ht eq_refl true s path P Hl) as (s' & W & H). fold from in H. exists s'. split; [done|].
    rewrite <- (walk_parent sb V _ from []). exact H.
Qed.

(** ** A disk with /etc/rc *)
Definition ex_root : list Z := dirent_enc (new_entry (str_bytes ".") 1) ++ dirent_enc (new_entry (str_bytes "etc") 2).
Definition ex_etc : list Z := dirent_enc (new_entry (str_bytes "..") 1) ++ dirent_enc (new_entry (str_bytes "rc") 3).
Definition ex_inodes : list Z :=
  put 64 (dinode_enc (mk_dinode T_DIR 0 0 1 32 (46 :: replicate 12 0)) ++ dinode_enc (mk_dinode T_DIR 0 0 1 32 (47 :: replicate 12 0)) ++
    dinode_enc (mk_dinode T_FILE 0 0 1 0 (replicate 13 0))) zero_block.
Definition ex_tree_disk : gmap Z (list Z) :=
  list_to_map [(32, ex_inodes); (45, [255; 255; 255; 255; 255; 255] ++ replicate 1018 0); (46, ex_root ++ replicate 992 0); (47, ex_etc ++ replicate 992 0)].
Definition ex_blocks (x : Z) : list Z := default zero_block (ex_tree_disk !! x).

Lemma ex_blocks_len x : length (ex_blocks x) = Z.to_nat BSIZE.
Proof.
  unfold ex_blocks. destruct (ex_tree_disk !! x) as [b|] eqn:E; [|done]. apply elem_of_list_to_map_2 in E.
  repeat (apply elem_of_cons in E as [[= _ ->]|E]; [by vm_compute|]). by apply elem_of_nil in E.
Qed.
Lemma ex_used inum : used ex_sb ex_blocks inum -> inum = 1 \/ inum = 2 \/ inum = 3.
Proof.
  intros [Hr Ht]. change (sb_ninodes ex_sb) with 200 in Hr.
  assert (H : forallb (fun i => (di_type (disk_inode ex_sb ex_blocks i) =? 0) || (i =? 1) || (i =? 2) || (i =? 3)) (seqZ 0 200) = true) by (by vm_compute).
  rewrite forallb_forall in H. specialize (H inum ltac:(apply list_elem_of_In, elem_of_seqZ; lia)).
  rewrite !orb_true_iff, !Z.eqb_eq in H. tauto.
Qed.
Lemma ex_tree_ok : tree_ok ex_sb ex_blocks 46.
Proof.
  split.
  - apply ex_vok; [apply ex_blocks_len|by vm_compute].
  - intros inum [->|[->| ->]]%ex_used; [apply (one_block_iwf _ _ _ _ 46)|apply (one_block_iwf _ _ _ _ 47)|apply (one_block_iwf _ _ _ _ 0)];
      try (vm_compute; first [reflexivity|intuition congruence]); intros _; (split; [vm_compute; intuition congruence|by vm_compute]).
  - intros inum [->|[->| ->]]%ex_used Ht; [| |by vm_compute in Ht];
      (split; [by vm_compute|apply (bool_decide_unpack _); by vm_compute]).
  - intros inum j [->|[->| ->]]%ex_used Ht Hj i Hi; [| |by vm_compute in Ht];
      (destruct j as [|[|j]]; [| |exfalso; vm_compute in Hj; lia]);
      (split; [split; [split; by vm_compute|by vm_compute]|left; by vm_compute]).
Qed.

#[local] Existing Instance fast_line.
Lemma ex_walk_state path : Forall byte_ok path -> aget 0 path 0 = SLASH -> exists s, walk_pre 1 3 ex_sb ex_blocks s path /\ (forall j, nref 1 j s = 0).
Proof.
  intros Hb Hp. destruct (ex_tx_state ex_tree_disk ex_sb (replicate 50 inode0)) as (s & I & Hl & _ & Hs & Hi & Hlk & HV & Hsl). exists s.
  assert (Hz : forall i, (i < Z.to_nat NINODE)%nat -> inode_at s i = inode0).
  { intros i H. unfold inode_at. rewrite Hi. apply lookup_total_replicate_2. exact H. }
  split.
  - split; [|unfold unused, total, inode_at; rewrite Hi; vm_compute; congruence|done| |done].
    + split; try done.
      * rewrite Hl. vm_compute. lia.
      * intros i H. by apply Hsl.
      * split; [by rewrite Hi|intros i H; by rewrite Hz|intros i H; by rewrite Hz|intros i j H; by rewrite Hz].
      * intros i H _. by apply Hsl.
    + split; [split|]; by vm_compute.
  - intros j. unfold nref, total, inode_at. rewrite Hi. unfold ihit. by vm_compute.
Qed.

(** A path through a directory is followed; the parent of a missing file too. *)
Lemma namei_resolves_witness :
  (exists s s' ip, namei (str_bytes "/etc/rc") (Z.to_nat 17153) s = Ret (Some ip) s' /\ i_inum (inode_at s' ip) = 3 /\ nref ROOTDEV 3 s' = 1) /\
  (exists s s' ip, nameiparent (str_bytes "//etc/passwd") (Z.to_nat 17153) s = Ret (Some (ip, str_bytes "passwd")) s' /\ i_inum (inode_at s' ip) = 2).
Proof.
  split.
  - destruct (ex_walk_state (str_bytes "/etc/rc")) as (s & P & Hz); [repeat constructor; unfold byte_ok; lia|by vm_compute|]. exists s.
    destruct (namei_resolves 3 (Z.to_nat 17153) ex_sb 46 ex_blocks s (str_bytes "/etc/rc")) as [(s' & _ & H) _].
    + exact ex_tree_ok.
    + by vm_compute.
    + apply Nat.ltb_lt. by vm_compute.
    + exact P.
    + assert (Er : resolve ex_sb ex_blocks (start_inum 3 s (str_bytes "/etc/rc")) (components (str_bytes "/etc/rc")) = Some 3) by (by vm_compute).
      rewrite Er in H. destruct H as (ip & E & _ & Hi & Hn). exists s', ip. split; [exact E|]. split; [exact Hi|]. rewrite (Hn 3), Hz. reflexivity.
  - destruct (ex_walk_state (str_bytes "//etc/passwd")) as (s & P & _); [repeat constructor; unfold byte_ok; lia|by vm_compute|]. exists s.
    destruct (namei_resolves 3 (Z.to_nat 17153) ex_sb 46 ex_blocks s (str_bytes "//etc/passwd")) as [_ (s' & _ & H)].
    + exact ex_tree_ok.
    + by vm_compute.
    + apply Nat.ltb_lt. by vm_compute.
    + exact P.
    + assert (Er : resolve_parent ex_sb ex_blocks (start_inum 3 s (str_bytes "//etc/passwd")) (components (str_bytes "//etc/passwd")) = Some (2, str_bytes "passwd")) by (by vm_compute).
      rewrite Er in H. destruct H as (ip & E & _ & Hi & _). exists s', ip. split; [exact E|exact Hi].
Defined.
