(* ===== verification/Pipe.v ===== *)
(** * Pipes

    kernel/pipe.c except [pipealloc], which allocates file structures (see
    File.v).  A [struct pipe *] is the address of the page that holds it and
    the structure itself is an entry of [k_pipes].  The abstract pipe is the
    queue of the bytes written and not yet read. *)

From S2P Require Import Prelude Params Kernel Spinlock StringC Kalloc Vm Proc.

Definition PIPESIZE : Z := 512.

Section Pipe.
Context `{KernelImage}.

Definition piget {A} (pi : Z) (f : pipe -> A) : K A := gets (fun s => f (pipe_at s pi)).
Definition piset (pi : Z) (f : pipe -> pipe) : K unit := modify (upd_pipe pi f).

(** [kfree] of the page of [pi]: the structure goes with its page. *)
Definition pipefree (pi : Z) : K unit :=
  modify (fun s => set_k_pipes (delete pi (k_pipes s)) s) ;;
  kfree pi.

Definition pipeclose (pi writable : Z) : K unit :=
  acquire (L_pipe pi) ;;
  (if ctrue writable then
     piset pi (set_pi_writeopen 0) ;; wakeup (C_pipe_nread pi)
   else
     piset pi (set_pi_readopen 0) ;; wakeup (C_pipe_nwrite pi)) ;;
  let* q := piget pi id in
  if (pi_readopen q =? 0) && (pi_writeopen q =? 0) then
    release (L_pipe pi) ;; pipefree pi
  else release (L_pipe pi).

(** [pi->data[pi->nwrite++ % PIPESIZE] = ch]. *)
Definition pipe_put (ch : Z) (q : pipe) : pipe :=
  set_pi_nwrite (u32 (pi_nwrite q + 1))
    (set_pi_data (aset (pi_data q) (pi_nwrite q mod PIPESIZE) ch) q).
(** [ch = pi->data[pi->nread++ % PIPESIZE]]. *)
Definition pipe_next (q : pipe) : Z := aget 0 (pi_data q) (pi_nread q mod PIPESIZE).
Definition pipe_skip (q : pipe) : pipe := set_pi_nread (u32 (pi_nread q + 1)) q.

(** The body of [pipewrite]'s loop: [inr (true, i)] returns -1, [inr (false,
    i)] leaves the loop. *)
Definition pipewrite_body (pi : Z) (pr : option nat) (addr n : Z) (i : Z) : K (Z + bool * Z) :=
  if negb (i <? n) then ret (inr (false, i)) else
  let* q := piget pi id in
  let* dead := if pi_readopen q =? 0 then ret true
               else let* p := deref pr in let* k := killed p in ret (ctrue k) in
  if dead : bool then release (L_pipe pi) ;; ret (inr (true, i)) else
  let* q := piget pi id in
  if pi_nwrite q =? u32 (pi_nread q + PIPESIZE) then
    wakeup (C_pipe_nread pi) ;;
    sleep (C_pipe_nwrite pi) (L_pipe pi) ;;
    ret (inl i)
  else
    let* p := deref pr in
    let* pt := pget p p_pagetable in
    let* r := copyin pt (u64 (addr + i)) 1 in
    let '(r, bs) := r : Z * list Z in
    if r =? -1 then ret (inr (false, i)) else
    piset pi (pipe_put (aget 0 bs 0)) ;;
    ret (inl (i + 1)).

Definition pipewrite (pi addr n : Z) : K Z :=
  let* pr := myproc in
  acquire (L_pipe pi) ;;
  let* r := loop (pipewrite_body pi pr addr n) 0 in
  let '(dead, i) := r : bool * Z in
  if dead then ret (-1) else
  wakeup (C_pipe_nread pi) ;;
  release (L_pipe pi) ;;
  ret i.

(** The copy loop of [piperead]. *)
Definition piperead_body (pi : Z) (pr : option nat) (addr n : Z) (i : Z) : K (Z + Z) :=
  if negb (i <? n) then ret (inr i) else
  let* q := piget pi id in
  if pi_nread q =? pi_nwrite q then ret (inr i) else
  piset pi pipe_skip ;;
  let* p := deref pr in
  let* pt := pget p p_pagetable in
  let* r := copyout pt (u64 (addr + i)) [pipe_next q] in
  if r =? -1 then ret (inr i) else ret (inl (i + 1)).

(** Its wait for a writer: [true] when the reader was killed. *)
Definition piperead_wait (pi : Z) (pr : option nat) : K bool :=
  loop (fun _ : unit =>
    let* q := piget pi id in
    if (pi_nread q =? pi_nwrite q) && ctrue (pi_writeopen q) then
      let* p := deref pr in
      let* k := killed p in
      if ctrue k then release (L_pipe pi) ;; ret (inr true)
      else sleep (C_pipe_nread pi) (L_pipe pi) ;; ret (inl tt)
    else ret (inr false)) tt.

Definition piperead (pi addr n : Z) : K Z :=
  let* pr := myproc in
  acquire (L_pipe pi) ;;
  let* dead := piperead_wait pi pr in
  if dead : bool then ret (-1) else
  let* i := loop (piperead_body pi pr addr n) 0 in
  wakeup (C_pipe_nwrite pi) ;;
  release (L_pipe pi) ;;
  ret i.

End Pipe.

(** ** The queue *)

(** The number of bytes in the pipe: the counters wrap at 2^32. *)
Definition pipe_len (q : pipe) : Z := u32 (pi_nwrite q - pi_nread q).
Definition pipe_q (q : pipe) : list Z :=
  map (fun j => aget 0 (pi_data q) (u32 (pi_nread q + Z.of_nat j) mod PIPESIZE))
      (seq 0 (Z.to_nat (pipe_len q))).
Definition pipe_wf (q : pipe) : Prop :=
  length (pi_data q) = 512%nat /\
  0 <= pi_nread q < 4294967296 /\ 0 <= pi_nwrite q < 4294967296 /\ pipe_len q <= PIPESIZE.

Lemma length_pipe_q q : length (pipe_q q) = Z.to_nat (pipe_len q).
Proof. unfold pipe_q. by rewrite length_map, length_seq. Qed.

(** The counters' difference is the length of the queue: the tests of the
    code for a full and an empty pipe. *)
Lemma pipe_full_test q : pipe_wf q ->
  (pi_nwrite q =? u32 (pi_nread q + PIPESIZE)) = (pipe_len q =? PIPESIZE).
Proof.
  intros (_ & Hr & Hw & Hl). unfold pipe_len, PIPESIZE in *.
  apply eq_true_iff_eq. rewrite !Z.eqb_eq. zlia.
Qed.
Lemma pipe_empty_test q : pipe_wf q ->
  (pi_nread q =? pi_nwrite q) = (pipe_len q =? 0).
Proof.
  intros (_ & Hr & Hw & Hl). unfold pipe_len, PIPESIZE in *.
  apply eq_true_iff_eq. rewrite !Z.eqb_eq. zlia.
Qed.

Lemma pipe_put_spec q ch : pipe_wf q -> pipe_len q < PIPESIZE ->
  pipe_wf (pipe_put ch q) /\ pipe_len (pipe_put ch q) = pipe_len q + 1 /\
  pipe_q (pipe_put ch q) = pipe_q q ++ [ch].
Proof.
  intros (Hd & Hr & Hw & Hl) Hlt.
  assert (Hlen : pipe_len (pipe_put ch q) = pipe_len q + 1)
    by (unfold pipe_len, pipe_put, PIPESIZE in *; cbn; zlia).
  assert (Hr0 : 0 <= pipe_len q) by (apply (uwrap_range 32); lia).
  split_and!; [|done|].
  - split_and!.
    + cbn. by rewrite length_aset.
    + apply Hr.
    + apply Hr.
    + cbn. apply (uwrap_range 32). lia.
    + cbn. apply (uwrap_range 32). lia.
    + lia.
  - unfold pipe_q. rewrite Hlen. replace (Z.to_nat (pipe_len q + 1)) with (Z.to_nat (pipe_len q) + 1)%nat by lia.
    rewrite seq_app, map_app. f_equal.
    + apply map_ext_in. intros j Hj%in_seq. cbn [pi_data pi_nread pipe_put set_pi_nwrite set_pi_data].
      apply aget_aset_ne.
      * apply Z.mod_pos_bound. done.
      * apply Z.mod_pos_bound. done.
      * unfold pipe_len, PIPESIZE in *. zlia.
    + cbn [seq map pi_data pi_nread pipe_put set_pi_nwrite set_pi_data]. f_equal.
      replace (u32 (pi_nread q + Z.of_nat (0 + Z.to_nat (pipe_len q)))) with (pi_nwrite q)
        by (unfold pipe_len, PIPESIZE in *; zlia).
      apply aget_aset_eq. rewrite Hd. unfold PIPESIZE. apply Z.mod_pos_bound. lia.
Qed.

Lemma pipe_skip_spec q : pipe_wf q -> 0 < pipe_len q ->
  pipe_wf (pipe_skip q) /\ pipe_len (pipe_skip q) = pipe_len q - 1 /\
  pipe_q q = pipe_next q :: pipe_q (pipe_skip q).
Proof.
  intros (Hd & Hr & Hw & Hl) Hlt.
  assert (Hlen : pipe_len (pipe_skip q) = pipe_len q - 1)
    by (unfold pipe_len, pipe_skip, PIPESIZE in *; cbn; zlia).
  split_and!; [|done|].
  - split_and!; [done| | |apply Hw|apply Hw|].
    + cbn. apply (uwrap_range 32). lia.
    + cbn. apply (uwrap_range 32). lia.
    + lia.
  - unfold pipe_q. rewrite Hlen.
    replace (Z.to_nat (pipe_len q)) with (S (Z.to_nat (pipe_len q - 1))) by lia.
    cbn [seq map]. f_equal.
    + unfold pipe_next. f_equal. rewrite Z.add_0_r, u32_small; done.
    + rewrite <- seq_shift, map_map. apply map_ext_in. intros j Hj%in_seq.
      cbn [pi_data pi_nread pipe_skip set_pi_nread]. f_equal. f_equal. zlia.
Qed.

(** ** Runs *)
Section Runs.
Context `{KernelImage}.

Definition pipe_st (pi : Z) (q : pipe) (s : kernel) : kernel :=
  set_k_pipes (<[pi := q]> (k_pipes s)) s.

Lemma pipe_st_at pi q s : pipe_at (pipe_st pi q s) pi = q.
Proof. unfold pipe_at. cbn. apply lookup_total_insert_eq. Qed.
Lemma pipe_st_upd pi f q s : upd_pipe pi f (pipe_st pi q s) = pipe_st pi (f q) s.
Proof.
  unfold upd_pipe, pipe_st, set_k_pipes. cbn. f_equal. apply map_eq. intros k.
  destruct (decide (k = pi)) as [->|Hne].
  - by rewrite lookup_alter_eq, !lookup_insert_eq.
  - by rewrite lookup_alter_ne, !lookup_insert_ne by congruence.
Qed.
Lemma pipe_st_id pi q s : k_pipes s !! pi = Some q -> pipe_st pi q s = s.
Proof. intros E. unfold pipe_st. by rewrite insert_id. Qed.

(** A process [p] of hart [tp] that holds no lock, in a system whose process
    locks and pipe lock are free. *)
Definition pipe_user (s : kernel) (p : nat) (pi : Z) : Prop :=
  cpu_ok (k_lk s) /\ c_proc (cpu_of (k_lk s)) = Some p /\ noff (cpu_of (k_lk s)) = 0 /\
  (p < length (k_procs s))%nat /\ proc_locks_free (k_lk s) /\ lk_free (L_pipe pi) (k_lk s) /\
  p ∈ proc_ix /\ p_killed (proc_at s p) = 0.

Lemma acq_procs_free lk l : (forall p, lk <> L_proc p) -> proc_locks_free l -> proc_locks_free (acq lk l).
Proof. intros Hne Hf p Hp. apply acq_free_ne; auto. Qed.

Lemma ubytes_1 m pt va : ubytes m pt va 1 = [rd m (uphys m pt va)].
Proof. unfold ubytes. cbn [seq map]. replace (va + Z.of_nat 0) with va by lia. done. Qed.

Lemma copyin_byte n s pt l va :
  pt_wf (k_mem s) pt l -> 0 <= va < MAXVA -> upage (k_mem s) pt va <> 0 -> (2 <= n)%nat ->
  copyin pt va 1 n s = Ret (0, [rd (k_mem s) (uphys (k_mem s) pt va)]) s.
Proof.
  intros Hwf Hva Hup Hn. destruct (copyin_iter pt l n n s 1 va []) as [H1 _]; try (done || lia).
  unfold copyin, loop. rewrite H1.
  - change (Z.to_nat 1) with 1%nat. by rewrite ubytes_1.
  - intros i Hi. assert (i = 0) as -> by lia. by rewrite Z.add_0_r.
Qed.

(** One byte moves from the user's memory to the end of the queue. *)
Lemma pipewrite_step n s p pi q l addr len i :
  pipe_user s p pi -> pt_wf (k_mem s) (p_pagetable (proc_at s p)) l ->
  0 <= addr -> addr + len <= MAXVA -> mapped_range (k_mem s) (p_pagetable (proc_at s p)) addr len ->
  (2 <= n)%nat -> 0 <= i < len -> pipe_wf q -> pi_readopen q <> 0 -> pipe_len q < PIPESIZE ->
  pipewrite_body pi (Some p) addr len i n (upd_lk (acq (L_pipe pi)) (pipe_st pi q s)) =
  Ret (inl (i + 1)) (upd_lk (acq (L_pipe pi))
    (pipe_st pi (pipe_put (rd (k_mem s) (uphys (k_mem s) (p_pagetable (proc_at s p)) (addr + i))) q) s)).
Proof.
  intros (Hok & Hp & Hn0 & Hlen & Hpf & Hf & Hpx & Hk) Hwf Ha Hmax Hmap Hn Hi Hq Hro Hroom.
  unfold pipewrite_body. destruct (Z.ltb_spec i len); [|lia]. cbn [negb].
  set (s0 := upd_lk (acq (L_pipe pi)) (pipe_st pi q s)).
  assert (Hat : pipe_at s0 pi = q) by exact (pipe_st_at pi q s).
  assert (Hok0 : cpu_ok (k_lk s0)) by exact (acq_cpu_ok _ _ Hok).
  assert (Hf0 : lk_free (L_proc p) (k_lk s0)) by (apply acq_free_ne; [done|by apply Hpf]).
  unfold piget, id. rewrite bind_gets, Hat.
  destruct (Z.eqb_spec (pi_readopen q) 0); [done|]. unfold deref.
  rewrite bind_bind_ret with (a := p) (s' := s0) by done.
  rewrite (bind_bind_ret _ _ _ _ _ _ _ (killed_run n s0 p Hok0 Hf0)).
  change (proc_at s0 p) with (proc_at s p). rewrite Hk. cbn [ctrue Z.eqb negb]. rewrite bind_ret_l.
  rewrite bind_gets, Hat, pipe_full_test by done.
  destruct (Z.eqb_spec (pipe_len q) PIPESIZE); [lia|]. rewrite bind_ret_l. unfold pget. rewrite bind_gets.
  change (proc_at s0 p) with (proc_at s p).
  assert (HM : MAXVA = 274877906944) by done.
  rewrite (u64_small (addr + i)) by lia.
  rewrite (bind_ret _ _ _ _ _ _ (copyin_byte n s0 _ l (addr + i) Hwf ltac:(lia) (Hmap i Hi) Hn)).
  cbn [Z.eqb]. unfold piset. rewrite bind_modify. unfold ret. f_equal.
  unfold s0. change (upd_pipe pi ?f (upd_lk ?g ?x)) with (upd_lk g (upd_pipe pi f x)).
  by rewrite pipe_st_upd.
Qed.

(** [k] bytes, as long as there is room. *)
Lemma pipewrite_fill n s p pi l addr len :
  pipe_user s p pi -> pt_wf (k_mem s) (p_pagetable (proc_at s p)) l ->
  0 <= addr -> addr + len <= MAXVA -> mapped_range (k_mem s) (p_pagetable (proc_at s p)) addr len ->
  (2 <= n)%nat ->
  forall k f i q, 0 <= i -> i + Z.of_nat k <= len -> pipe_wf q -> pi_readopen q <> 0 ->
  pipe_len q + Z.of_nat k <= PIPESIZE ->
  exists q', pipe_wf q' /\ pi_readopen q' <> 0 /\ pipe_len q' = pipe_len q + Z.of_nat k /\
    pipe_q q' = pipe_q q ++ ubytes (k_mem s) (p_pagetable (proc_at s p)) (addr + i) k /\
    iter_upto (k + f) (pipewrite_body pi (Some p) addr len) i n (upd_lk (acq (L_pipe pi)) (pipe_st pi q s)) =
    iter_upto f (pipewrite_body pi (Some p) addr len) (i + Z.of_nat k) n (upd_lk (acq (L_pipe pi)) (pipe_st pi q' s)).
Proof.
  intros Hu Hwf Ha Hmax Hmap Hn. induction k as [|k IH]; intros f i q Hi Hik Hq Hro Hl.
  - exists q. split_and!; [done|done|lia| |].
    + by rewrite app_nil_r.
    + cbn [Nat.add]. by rewrite Z.add_0_r.
  - set (ch := rd (k_mem s) (uphys (k_mem s) (p_pagetable (proc_at s p)) (addr + i))).
    destruct (pipe_put_spec q ch Hq ltac:(lia)) as (Hq1 & Hl1 & Hc1).
    destruct (IH f (i + 1) (pipe_put ch q)) as (q' & Hq' & Hro' & Hl' & Hc' & E); [lia|lia|done|done|lia|].
    exists q'. split_and!; [done|done|lia| |].
    + rewrite Hc', Hc1, <- app_assoc. f_equal.
      replace (S k) with (1 + k)%nat by lia. rewrite ubytes_app. f_equal.
      * by rewrite ubytes_1.
      * f_equal. lia.
    + cbn [Nat.add iter_upto].
      rewrite (bind_ret _ _ _ _ _ _ (pipewrite_step n s p pi q l addr len i Hu Hwf Ha Hmax Hmap Hn ltac:(lia) Hq Hro ltac:(lia))).
      fold ch. replace (i + Z.of_nat (S k)) with (i + 1 + Z.of_nat k) by lia. exact E.
Qed.


(** One byte moves from the front of the queue to the user's memory. *)
Lemma piperead_step n s p pi q l addr len i :
  pipe_user s p pi -> vm_inv s (p_pagetable (proc_at s p)) l ->
  uspace (k_mem s) (p_pagetable (proc_at s p)) l ->
  0 <= addr -> addr + len <= MAXVA -> mapped_range (k_mem s) (p_pagetable (proc_at s p)) addr len ->
  (2 <= n)%nat -> 0 <= i < len -> pipe_wf q -> 0 < pipe_len q ->
  exists s', piperead_body pi (Some p) addr len i n (upd_lk (acq (L_pipe pi)) (pipe_st pi q s)) =
    Ret (inl (i + 1)) (upd_lk (acq (L_pipe pi)) (pipe_st pi (pipe_skip q) s')) /\
    mem_only s s' /\ vm_inv s' (p_pagetable (proc_at s p)) l /\
    uspace (k_mem s') (p_pagetable (proc_at s p)) l /\
    (forall va, upage (k_mem s') (p_pagetable (proc_at s p)) va = upage (k_mem s) (p_pagetable (proc_at s p)) va) /\
    (forall va, 0 <= va -> uview (k_mem s') (p_pagetable (proc_at s p)) va =
       if va =? addr + i then Some (u8 (pipe_next q)) else uview (k_mem s) (p_pagetable (proc_at s p)) va).
Proof.
  intros (Hok & Hp & Hn0 & Hlen & Hpf & Hf & Hpx & Hk) Hinv Hus Ha Hmax Hmap Hn Hi Hq Hl.
  unfold piperead_body. destruct (Z.ltb_spec i len); [|lia]. cbn [negb].
  set (s0 := upd_lk (acq (L_pipe pi)) (pipe_st pi q s)).
  unfold piget, id. rewrite bind_gets. rewrite (pipe_st_at pi q s : pipe_at s0 pi = q).
  rewrite pipe_empty_test by done. destruct (Z.eqb_spec (pipe_len q) 0); [lia|].
  unfold piset. rewrite bind_modify. unfold deref. rewrite bind_ret_l. unfold pget. rewrite bind_gets.
  set (s1 := upd_pipe pi pipe_skip s0).
  change (proc_at s1 p) with (proc_at s p). set (pt := p_pagetable (proc_at s p)) in *.
  assert (HM : MAXVA = 274877906944) by done. rewrite (u64_small (addr + i)) by lia.
  destruct Hinv as (_ & Hkf & Hkm & Hwf).
  assert (Hinv1 : vm_inv s1 pt l)
    by (split_and!; [exact (acq_cpu_ok _ _ Hok)|exact (acq_free_ne (L_pipe pi) L_kmem (k_lk s) ltac:(discriminate) Hkf)|exact Hkm|exact Hwf]).
  destruct (copyout_iter pt l n n s1 [pipe_next q] (addr + i)) as (x & E & M & I & U & P & V);
    [exact Hinv1|exact Hus|lia|cbn [length]; lia|cbn [length]; lia| |].
  { intros j Hj. cbn [length] in Hj. assert (j = 0) as -> by lia. rewrite Z.add_0_r. exact (Hmap i Hi). }
  exists (set_k_freelist (k_freelist x) (set_k_mem (k_mem x) s)).
  rewrite (bind_ret _ _ _ _ _ _ (E : copyout pt (addr + i) [pipe_next q] n s1 = Ret 0 x)).
  split; [|split_and!; [done| | |exact P|]].
  - cbn [Z.eqb]. unfold ret. f_equal. rewrite M. unfold s1, s0.
    change (upd_pipe pi ?f (upd_lk ?g ?x)) with (upd_lk g (upd_pipe pi f x)). by rewrite pipe_st_upd.
  - destruct I as (_ & _ & I3 & I4). split_and!; [exact Hok|exact Hkf|exact I3|exact I4].
  - exact U.
  - intros va Hva. etrans; [exact (V va Hva)|]. cbn [length]. destruct (Z.eqb_spec va (addr + i)) as [->|Hne].
    + rewrite Z.leb_refl, Z.sub_diag. destruct (Z.ltb_spec (addr + i) (addr + i + Z.of_nat 1)); [done|lia].
    + destruct (Z.leb_spec (addr + i) va), (Z.ltb_spec va (addr + i + Z.of_nat 1)); try done; lia.
Qed.

Lemma mem_only_user s s' p pi : mem_only s s' -> pipe_user s p pi -> pipe_user s' p pi.
Proof. intros E. by rewrite E. Qed.

Lemma piperead_drain n p pi pt l addr len :
  0 <= addr -> addr + len <= MAXVA -> (2 <= n)%nat ->
  forall k f i q s, pipe_user s p pi -> p_pagetable (proc_at s p) = pt -> vm_inv s pt l ->
  uspace (k_mem s) pt l -> mapped_range (k_mem s) pt addr len ->
  0 <= i -> i + Z.of_nat k <= len -> pipe_wf q -> Z.of_nat k <= pipe_len q -> Forall byte_ok (pipe_q q) ->
  exists q' s', pipe_wf q' /\ pi_writeopen q' = pi_writeopen q /\ pi_readopen q' = pi_readopen q /\
    pipe_len q' = pipe_len q - Z.of_nat k /\
    pipe_q q' = drop k (pipe_q q) /\ mem_only s s' /\ vm_inv s' pt l /\ uspace (k_mem s') pt l /\
    (forall va, 0 <= va -> uview (k_mem s') pt va =
       if (addr + i <=? va) && (va <? addr + i + Z.of_nat k)
       then pipe_q q !! Z.to_nat (va - (addr + i)) else uview (k_mem s) pt va) /\
    iter_upto (k + f) (piperead_body pi (Some p) addr len) i n (upd_lk (acq (L_pipe pi)) (pipe_st pi q s)) =
    iter_upto f (piperead_body pi (Some p) addr len) (i + Z.of_nat k) n (upd_lk (acq (L_pipe pi)) (pipe_st pi q' s')).
Proof.
  intros Ha Hmax Hn. induction k as [|k IH]; intros f i q s Hu Hpt Hinv Hus Hmap Hi Hik Hq Hl Hb.
  - exists q, s. split_and!; try done; [lia| |].
    + intros va Hva. destruct (Z.leb_spec (addr + i) va), (Z.ltb_spec va (addr + i + Z.of_nat 0)); try done; lia.
    + cbn [Nat.add]. by rewrite Z.add_0_r.
  - destruct (pipe_skip_spec q Hq ltac:(lia)) as (Hq1 & Hl1 & Hc1).
    destruct (piperead_step n s p pi q l addr len i Hu) as (s1 & E1 & M1 & I1 & U1 & P1 & V1);
      try (rewrite Hpt; done); [done|done|done|lia|done|lia|]. rewrite Hpt in *.
    rewrite Hc1 in Hb. apply Forall_cons in Hb as [Hb0 Hb].
    destruct (IH f (i + 1) (pipe_skip q) s1) as (q' & s' & Hq' & W' & R' & Hl' & Hc' & M' & I' & U' & V' & E');
      try done; [by apply (mem_only_user s)|by rewrite M1| |lia|lia|lia|].
    { intros j Hj. rewrite P1. by apply Hmap. }
    exists q', s'. split_and!; [done|done|done|lia| |by eapply mem_only_trans|done|done| |].
    + by rewrite Hc', Hc1.
    + intros va Hva. rewrite V', V1 by done. rewrite Hc1. unfold byte_ok in Hb0.
      destruct (Z.eqb_spec va (addr + i)) as [->|Hne].
      * rewrite Z.leb_refl, Z.sub_diag. destruct (Z.leb_spec (addr + (i + 1)) (addr + i)); [lia|]. cbn [andb].
        destruct (Z.ltb_spec (addr + i) (addr + i + Z.of_nat (S k))); [|lia]. cbn. by rewrite u8_small.
      * destruct (Z.leb_spec (addr + (i + 1)) va), (Z.ltb_spec va (addr + (i + 1) + Z.of_nat k)),
          (Z.leb_spec (addr + i) va), (Z.ltb_spec va (addr + i + Z.of_nat (S k))); cbn [andb]; try done; try lia.
        replace (Z.to_nat (va - (addr + i))) with (S (Z.to_nat (va - (addr + (i + 1))))) by lia. done.
    + cbn [Nat.add iter_upto]. rewrite (bind_ret _ _ _ _ _ _ E1).
      replace (i + Z.of_nat (S k)) with (i + 1 + Z.of_nat k) by lia. exact E'.
Qed.


(** Going to sleep with the pipe's lock, the only one held. *)
Lemma pipe_sleep n s p pi ch :
  pipe_user s p pi ->
  exists s1 k, sleep ch (L_pipe pi) n (upd_lk (acq (L_pipe pi)) s) = Swtch s1 k /\
    k_pipes s1 = k_pipes s /\ lk_free (L_pipe pi) (k_lk s1) /\
    p_state (proc_at s1 p) = SLEEPING /\ p_chan (proc_at s1 p) = ch.
Proof.
  intros (Hok & Hp & Hn0 & Hlen & Hpf & Hf & Hpx & Hk).
  destruct (sleep_out n (upd_lk (acq (L_pipe pi)) s) p ch (L_pipe pi)) as (_ & H1 & _ & _ & ie & _ & E).
  - exact (acq_cpu_ok _ _ Hok).
  - etrans; [exact (acq_c_proc _ _ Hok)|done].
  - done.
  - apply acq_held.
  - done.
  - apply acq_free_ne; [done|by apply Hpf].
  - etrans; [exact (acq_noff _ _ Hok)|lia].
  - eexists _, _. split; [exact E|]. split_and!; [done|exact H1| |];
      unfold sleep_st; by rewrite proc_at_upd_eq.
Qed.

(** [wakeup] with the pipe's lock held. *)
Lemma pipe_wakeup n s p pi ch :
  pipe_user s p pi ->
  wakeup ch n (upd_lk (acq (L_pipe pi)) s) = Ret tt (upd_lk (acq (L_pipe pi)) (wakeup_st (Some p) ch s)).
Proof.
  intros (Hok & Hp & Hn0 & Hlen & Hpf & Hf & Hpx & Hk).
  rewrite wakeup_run.
  - change (k_lk (upd_lk (acq (L_pipe pi)) s)) with (acq (L_pipe pi) (k_lk s)).
    by rewrite acq_c_proc, Hp by done.
  - exact (acq_cpu_ok _ _ Hok).
  - intros x Hx _. apply acq_free_ne; [done|by apply Hpf].
Qed.

Lemma wakeup_user s p pi ch :
  pipe_user s p pi -> pipe_user (wakeup_st (Some p) ch s) p pi.
Proof.
  intros (Hok & Hp & Hn0 & Hlen & Hpf & Hf & Hpx & Hk). unfold pipe_user, wakeup_st.
  rewrite !upd_procs_lk, upd_procs_length. split_and!; try done.
  rewrite proc_at_upd_procs by (done || apply NoDup_seq). rewrite decide_True by done.
  unfold wake_one. by rewrite decide_True.
Qed.

Lemma pipe_st_user s p pi q : pipe_user s p pi -> pipe_user (pipe_st pi q s) p pi.
Proof. done. Qed.
Lemma wakeup_pipes me ch s : k_pipes (wakeup_st me ch s) = k_pipes s.
Proof. unfold wakeup_st. by rewrite upd_procs_rest. Qed.

(** Leaving with a wakeup and the release of the lock. *)
Lemma pipe_leave n s p pi ch (i : Z) :
  pipe_user s p pi ->
  (wakeup ch ;; release (L_pipe pi) ;; ret i : K Z) n (upd_lk (acq (L_pipe pi)) s) =
  Ret i (wakeup_st (Some p) ch s).
Proof.
  intros Hu. rewrite (bind_ret _ _ _ _ _ _ (pipe_wakeup n s p pi ch Hu)).
  destruct (wakeup_user s p pi ch Hu) as (Hok & _ & _ & _ & _ & Hf & _).
  by rewrite (bind_ret _ _ _ _ _ _ (release_after_run n _ _ Hok Hf)).
Qed.

(** The iteration of [pipewrite] that finds the pipe full. *)
Lemma pipewrite_full n s p pi q addr len i :
  pipe_user s p pi -> i < len -> pipe_wf q -> pi_readopen q <> 0 -> pipe_len q = PIPESIZE ->
  exists s1 k, pipewrite_body pi (Some p) addr len i n (upd_lk (acq (L_pipe pi)) (pipe_st pi q s)) = Swtch s1 k /\
    k_pipes s1 !! pi = Some q /\ lk_free (L_pipe pi) (k_lk s1) /\
    p_state (proc_at s1 p) = SLEEPING /\ p_chan (proc_at s1 p) = C_pipe_nwrite pi.
Proof.
  intros Hu Hi Hq Hro Hfull. pose proof Hu as (Hok & Hp & Hn0 & Hlen & Hpf & Hf & Hpx & Hk).
  unfold pipewrite_body. destruct (Z.ltb_spec i len); [|lia]. cbn [negb].
  set (s0 := upd_lk (acq (L_pipe pi)) (pipe_st pi q s)).
  assert (Hat : pipe_at s0 pi = q) by exact (pipe_st_at pi q s).
  assert (Hok0 : cpu_ok (k_lk s0)) by exact (acq_cpu_ok _ _ Hok).
  assert (Hf0 : lk_free (L_proc p) (k_lk s0)) by (apply acq_free_ne; [done|by apply Hpf]).
  unfold piget, id. rewrite bind_gets, Hat.
  destruct (Z.eqb_spec (pi_readopen q) 0); [done|]. unfold deref.
  rewrite bind_bind_ret with (a := p) (s' := s0) by done.
  rewrite (bind_bind_ret _ _ _ _ _ _ _ (killed_run n s0 p Hok0 Hf0)).
  change (proc_at s0 p) with (proc_at s p). rewrite Hk. cbn [ctrue Z.eqb negb]. rewrite bind_ret_l.
  rewrite bind_gets, Hat, pipe_full_test, Hfull by done. rewrite Z.eqb_refl.
  rewrite (bind_ret _ _ _ _ _ _ (pipe_wakeup n (pipe_st pi q s) p pi (C_pipe_nread pi) Hu)).
  destruct (pipe_sleep n (wakeup_st (Some p) (C_pipe_nread pi) (pipe_st pi q s)) p pi (C_pipe_nwrite pi))
    as (s1 & k & E & Hpi & H1 & H2 & H3); [by apply wakeup_user|].
  unfold bind. rewrite E. eexists _, _. split; [reflexivity|]. split_and!; [|done|done|done].
  rewrite Hpi, wakeup_pipes. apply lookup_insert_eq.
Qed.

(** ** Properties *)

(** C33: [pipewrite] appends the user's bytes to the queue in order.  When
    they fit it returns their number and wakes the readers; when they do not
    it has appended exactly as many as there was room for when it goes to
    sleep on the pipe, with the pipe's lock released. *)
Theorem pipewrite_appends n s p pi q l addr len :
  pipe_user s p pi -> k_pipes s !! pi = Some q -> pipe_wf q -> pi_readopen q <> 0 ->
  pt_wf (k_mem s) (p_pagetable (proc_at s p)) l -> 0 <= addr -> 0 <= len -> addr + len <= MAXVA ->
  mapped_range (k_mem s) (p_pagetable (proc_at s p)) addr len -> (Z.to_nat len + 2 <= n)%nat ->
  (pipe_len q + len <= PIPESIZE -> exists q',
     pipewrite pi addr len n s = Ret len (wakeup_st (Some p) (C_pipe_nread pi) (pipe_st pi q' s)) /\
     pipe_wf q' /\
     pipe_q q' = pipe_q q ++ ubytes (k_mem s) (p_pagetable (proc_at s p)) addr (Z.to_nat len)) /\
  (PIPESIZE < pipe_len q + len -> exists q' s1 k,
     pipewrite pi addr len n s = Swtch s1 k /\ k_pipes s1 !! pi = Some q' /\ pipe_wf q' /\
     pipe_q q' = pipe_q q ++ ubytes (k_mem s) (p_pagetable (proc_at s p)) addr (Z.to_nat (PIPESIZE - pipe_len q)) /\
     lk_free (L_pipe pi) (k_lk s1) /\
     p_state (proc_at s1 p) = SLEEPING /\ p_chan (proc_at s1 p) = C_pipe_nwrite pi).
Proof.
  intros Hu Hpi Hq Hro Hwf Ha Hl Hmax Hmap Hn.
  pose proof Hu as (Hok & Hp & Hn0 & Hlen & Hpf & Hf & Hpx & Hk).
  assert (Hpos : 0 <= pipe_len q) by (apply (uwrap_range 32); lia).
  unfold pipewrite. rewrite (bind_ret _ _ _ _ _ _ (myproc_run n s Hok)), Hp.
  rewrite (bind_ret _ _ _ _ _ _ (acquire_run n s (L_pipe pi) Hok Hf)).
  assert (Es : upd_lk (acq (L_pipe pi)) s = upd_lk (acq (L_pipe pi)) (pipe_st pi q s)) by (by rewrite pipe_st_id).
  rewrite Es. split; intros Hroom.
  - destruct (pipewrite_fill n s p pi l addr len Hu Hwf Ha Hmax Hmap ltac:(lia) (Z.to_nat len) (n - Z.to_nat len) 0 q)
      as (q' & Hq' & Hro' & Hl' & Hc' & E); [lia|lia|done|done|lia|].
    replace (Z.to_nat len + (n - Z.to_nat len))%nat with n in E by lia.
    replace (n - Z.to_nat len)%nat with (S (n - Z.to_nat len - 1)) in E by lia. cbn [iter_upto] in E.
    unfold pipewrite_body at 2 in E. destruct (Z.ltb_spec (0 + Z.of_nat (Z.to_nat len)) len); [lia|]. cbn [negb] in E.
    rewrite bind_ret_l in E. erewrite (bind_ret (loop _ _)) by exact E. cbn beta iota.
    rewrite (pipe_leave n _ p pi _ _ (pipe_st_user s p pi q' Hu)).
    exists q'. rewrite Z.add_0_r in Hc'. split; [f_equal; lia|]. split; [exact Hq'|exact Hc'].
  - destruct (pipewrite_fill n s p pi l addr len Hu Hwf Ha Hmax Hmap ltac:(lia) (Z.to_nat (PIPESIZE - pipe_len q))
      (n - Z.to_nat (PIPESIZE - pipe_len q)) 0 q)
      as (q' & Hq' & Hro' & Hl' & Hc' & E); [lia| |done|done| |].
    { destruct Hq as (_ & _ & _ & Hq). lia. }
    { destruct Hq as (_ & _ & _ & Hq). lia. }
    destruct Hq as (Hq1 & Hq2 & Hq3 & Hq4).
    replace (Z.to_nat (PIPESIZE - pipe_len q) + (n - Z.to_nat (PIPESIZE - pipe_len q)))%nat with n in E by lia.
    unfold bind at 1, loop at 1. rewrite E. replace (n - Z.to_nat (PIPESIZE - pipe_len q))%nat
      with (S (n - Z.to_nat (PIPESIZE - pipe_len q) - 1)) by lia. cbn [iter_upto]. unfold bind at 1.
    destruct (pipewrite_full n s p pi q' addr len (0 + Z.of_nat (Z.to_nat (PIPESIZE - pipe_len q))) Hu)
      as (s1 & k & E1 & H1 & H2 & H3 & H4); [lia|done|done|lia|].
    rewrite E1. cbn [obind]. rewrite Z.add_0_r in Hc'.
    exists q'. eexists s1, _. split; [reflexivity|]. split; [done|]. split; [exact Hq'|]. done.
Qed.

(** C34: [piperead] takes bytes from the front of the queue: it returns as many
    as it wants or as there are, the user finds them at [addr] in order and
    the rest of the user's memory is unchanged, the rest of the queue stays,
    and the writers are woken; so it returns 0 at the end of file (nothing
    queued and no writer).  While there is a writer and nothing is queued it
    sleeps with the pipe released. *)
Theorem piperead_takes n s p pi q l addr len :
  pipe_user s p pi -> k_pipes s !! pi = Some q -> pipe_wf q -> Forall byte_ok (pipe_q q) ->
  vm_inv s (p_pagetable (proc_at s p)) l -> uspace (k_mem s) (p_pagetable (proc_at s p)) l ->
  0 <= addr -> 0 <= len -> addr + len <= MAXVA ->
  mapped_range (k_mem s) (p_pagetable (proc_at s p)) addr len -> (Z.to_nat len + 2 <= n)%nat ->
  (0 < pipe_len q \/ pi_writeopen q = 0 ->
     let c := Z.min len (pipe_len q) in exists q' s',
     piperead pi addr len n s = Ret c (wakeup_st (Some p) (C_pipe_nwrite pi) (pipe_st pi q' s')) /\
     mem_only s s' /\ vm_inv s' (p_pagetable (proc_at s p)) l /\ pipe_wf q' /\
     pipe_q q' = drop (Z.to_nat c) (pipe_q q) /\
     (forall va, 0 <= va -> uview (k_mem s') (p_pagetable (proc_at s p)) va =
        if (addr <=? va) && (va <? addr + c) then pipe_q q !! Z.to_nat (va - addr)
        else uview (k_mem s) (p_pagetable (proc_at s p)) va)) /\
  (pipe_len q = 0 -> pi_writeopen q <> 0 -> exists s1 k,
     piperead pi addr len n s = Swtch s1 k /\ k_pipes s1 !! pi = Some q /\ lk_free (L_pipe pi) (k_lk s1) /\
     p_state (proc_at s1 p) = SLEEPING /\ p_chan (proc_at s1 p) = C_pipe_nread pi).
Proof.
  intros Hu Hpi Hq Hb Hinv Hus Ha Hl Hmax Hmap Hn.
  pose proof Hu as (Hok & Hp & Hn0 & Hlen & Hpf & Hf & Hpx & Hk).
  assert (Hpos : 0 <= pipe_len q) by (apply (uwrap_range 32); lia).
  unfold piperead. rewrite (bind_ret _ _ _ _ _ _ (myproc_run n s Hok)), Hp.
  rewrite (bind_ret _ _ _ _ _ _ (acquire_run n s (L_pipe pi) Hok Hf)).
  assert (Es : upd_lk (acq (L_pipe pi)) s = upd_lk (acq (L_pipe pi)) (pipe_st pi q s)) by (by rewrite pipe_st_id).
  rewrite Es.
  set (s0 := upd_lk (acq (L_pipe pi)) (pipe_st pi q s)).
  assert (Hat : pipe_at s0 pi = q) by exact (pipe_st_at pi q s).
  assert (Hok0 : cpu_ok (k_lk s0)) by exact (acq_cpu_ok _ _ Hok).
  assert (Hf0 : lk_free (L_proc p) (k_lk s0)) by (apply acq_free_ne; [done|by apply Hpf]).
  split.
  - intros Hgo. set (c := Z.min len (pipe_len q)). rewrite (bind_ret (piperead_wait pi (Some p)) _ n s0 false s0).
    2:{ unfold piperead_wait, loop. destruct n as [|m]; [lia|]. cbn [iter_upto]. unfold piget, id.
        rewrite bind_bind_gets, Hat, pipe_empty_test by done.
        destruct (Z.eqb_spec (pipe_len q) 0); [|done].
        destruct Hgo as [Hgo|Hgo]; [lia|]. by rewrite Hgo. }
    destruct (piperead_drain n p pi _ l addr len Ha Hmax ltac:(lia) (Z.to_nat c) (n - Z.to_nat c) 0 q s Hu eq_refl)
      as (q' & s' & Hq' & _ & _ & Hl' & Hc' & M' & I' & U' & V' & E); try done; [lia|lia|].
    replace (Z.to_nat c + (n - Z.to_nat c))%nat with n in E by lia.
    replace (n - Z.to_nat c)%nat with (S (n - Z.to_nat c - 1)) in E by lia. cbn [iter_upto] in E.
    rewrite (bind_ret (piperead_body pi (Some p) addr len _) _ n _ (inr c) (upd_lk (acq (L_pipe pi)) (pipe_st pi q' s'))) in E.
    2:{ unfold piperead_body, piget, id. destruct (Z.ltb_spec (0 + Z.of_nat (Z.to_nat c)) len); cbn [negb].
        - rewrite bind_gets. rewrite (pipe_st_at pi q' s' : pipe_at (upd_lk (acq (L_pipe pi)) (pipe_st pi q' s')) pi = q').
          rewrite pipe_empty_test by done. destruct (Z.eqb_spec (pipe_len q') 0); [|lia]. unfold ret. do 2 f_equal. lia.
        - unfold ret. do 2 f_equal. lia. }
    cbn beta iota. rewrite bind_ret with (a := c) (s' := upd_lk (acq (L_pipe pi)) (pipe_st pi q' s')) by exact E.
    rewrite (pipe_leave n _ p pi _ _ (pipe_st_user s' p pi q' (mem_only_user s s' p pi M' Hu))).
    exists q', s'. do 2 (split; [done|]). split; [exact I'|]. split; [exact Hq'|]. split; [done|].
    intros va Hva. rewrite V' by done. replace (Z.of_nat (Z.to_nat c)) with c by lia. by rewrite !Z.add_0_r.
  - intros He Hw. unfold bind at 1. unfold piperead_wait, loop at 1. destruct n as [|m]; [lia|].
    cbn [iter_upto]. unfold piget, id. rewrite bind_bind_gets, Hat, pipe_empty_test, He by done.
    change (0 =? 0) with true. unfold ctrue at 1. destruct (Z.eqb_spec (pi_writeopen q) 0); [done|]. cbn [negb andb].
    unfold deref. rewrite bind_bind_ret with (a := p) (s' := s0) by done.
    rewrite (bind_bind_ret _ _ _ _ _ _ _ (killed_run (S m) s0 p Hok0 Hf0)).
    change (proc_at s0 p) with (proc_at s p). rewrite Hk. cbn [ctrue Z.eqb negb].
    destruct (pipe_sleep (S m) (pipe_st pi q s) p pi (C_pipe_nread pi) Hu) as (s1 & k & E & Hpi' & H1 & H2 & H3).
    fold s0 in E. unfold bind. rewrite E. cbn [obind]. eexists _, _. split; [reflexivity|].
    split_and!; [|done|done|done]. rewrite Hpi'. apply lookup_insert_eq.
Qed.

End Runs.

(** ** Witnesses

    Process 3, with a user page mapped at 0x1000, and one pipe. *)
Definition ex_pipe_lk (pi : Z) : lockst :=
  upd_cpu (set_c_proc (Some 3%nat)) (boot_lk (L_kmem :: L_pipe pi :: map L_proc proc_ix)).
Definition ex_pipe_procs : list proc := alter (set_p_pagetable (ex_P 2)) 3%nat (k_procs bss).

Lemma ex_pipe_lk_ok pi : cpu_ok (ex_pipe_lk pi) /\ noff (cpu_of (ex_pipe_lk pi)) = 0.
Proof. split; [|done]. unfold cpu_ok. cbn. split_and!; auto; try lia; intros; vm_compute in *; congruence. Qed.

Lemma ex_pipe_free : proc_locks_free (ex_pipe_lk 0).
Proof.
  intros p Hp. assert (H : forallb (fun p => match locks (ex_pipe_lk 0) !! L_proc p with
      | Some (mk_spinlock 0 None) => true | _ => false end) proc_ix = true) by (by vm_compute).
  rewrite forallb_forall in H. apply list_elem_of_In in Hp. apply H in Hp. unfold lk_free.
  destruct (locks (ex_pipe_lk 0) !! L_proc p) as [[[] []]|]; done.
Qed.

Lemma ex_pipe_state q : exists s l,
  pipe_user s 3 0 /\ k_pipes s !! 0 = Some q /\ p_pagetable (proc_at s 3) = ex_P 2 /\
  vm_inv s (ex_P 2) l /\ uspace (k_mem s) (ex_P 2) l /\ mapped_range (k_mem s) (ex_P 2) 0x1000 3.
Proof.
  destruct ex_user_state as (s & l & (_ & _ & Hk & Hw) & Hus & Hmap).
  exists (set_k_lk (ex_pipe_lk 0) (set_k_procs ex_pipe_procs (set_k_pipes {[0 := q]} s))), l.
  destruct (ex_pipe_lk_ok 0) as [Hok Hn].
  split; [|split; [|split; [|split; [|split; [exact Hus|exact Hmap]]]]].
  - split_and!; [exact Hok|reflexivity|exact Hn|vm_compute; lia|exact ex_pipe_free|by vm_compute| |reflexivity].
    apply elem_of_seq. vm_compute. lia.
  - apply lookup_singleton_eq.
  - reflexivity.
  - split_and!; [exact Hok|by vm_compute|exact Hk|exact Hw].
Qed.

Definition ex_pipe (r w : Z) : pipe := mk_pipe (replicate 512 7) r w 1 1.

Lemma pipewrite_appends_witness : exists s s' q' bs,
  pipewrite 0 0x1000 3 10%nat s = Ret 3 s' /\ pipe_q q' = pipe_q (ex_pipe 4294967295 1) ++ bs /\ length bs = 3%nat.
Proof.
  destruct (ex_pipe_state (ex_pipe 4294967295 1)) as (s & l & Hu & Hq & Hpt & Hinv & Hus & Hmap). exists s.
  destruct (pipewrite_appends 10%nat s 3 0 (ex_pipe 4294967295 1) l 0x1000 3) as [H1 _].
  - exact Hu.
  - exact Hq.
  - vm_compute; intuition congruence.
  - discriminate.
  - rewrite Hpt. apply Hinv.
  - lia.
  - lia.
  - by vm_compute.
  - rewrite Hpt. exact Hmap.
  - simpl. lia.
  - destruct H1 as (q' & E & _ & Hc); [by vm_compute|].
    eexists _, q', _. split; [exact E|]. split; [exact Hc|reflexivity].
Defined.

Lemma piperead_takes_witness : exists s s' q',
  piperead 0 0x1000 3 10%nat s = Ret 2 s' /\ pipe_q (ex_pipe 4294967295 1) = [7; 7] /\ pipe_q q' = [].
Proof.
  destruct (ex_pipe_state (ex_pipe 4294967295 1)) as (s & l & Hu & Hq & Hpt & Hinv & Hus & Hmap). exists s.
  destruct (piperead_takes 10%nat s 3 0 (ex_pipe 4294967295 1) l 0x1000 3) as [H1 _].
  - exact Hu.
  - exact Hq.
  - vm_compute; intuition congruence.
  - vm_compute. repeat constructor; congruence.
  - rewrite Hpt. exact Hinv.
  - rewrite Hpt. exact Hus.
  - lia.
  - lia.
  - by vm_compute.
  - rewrite Hpt. exact Hmap.
  - simpl. lia.
  - destruct H1 as (q' & s' & E & _ & _ & _ & Hc & _); [left; by vm_compute|].
    eexists _, q'. split; [exact E|]. split; [reflexivity|exact Hc].
Defined.
