(* ===== verification/File.v ===== *)
(** * Open files

    kernel/file.c and [pipealloc] of kernel/pipe.c.  A [struct file *] is its
    index in the table [ftable]; a device is read and written by the
    functions in its entry of the device switch. *)

From S2P Require Import Prelude Params Kernel Spinlock StringC Kalloc Vm Proc Sleeplock Bio Log Uart Printf Console Fs Pipe.

Definition fget {A} (i : nat) (f : file -> A) : K A := gets (fun s => f (file_at s i)).
Definition fset (i : nat) (f : file -> file) : K unit := modify (upd_file i f).
Definition file_ix : list nat := seq 0 (Z.to_nat NFILE).

(** The content of stack bytes that the code does not initialise: the four
    bytes of padding of the [struct stat] of [filestat]. *)
Class StackJunk := { stat_pad : list Z; stat_pad_length : length stat_pad = 4%nat }.
#[export] Instance zero_stack : StackJunk.
Proof. by refine {| stat_pad := [0; 0; 0; 0] |}. Defined.

(** [struct stat] in memory (kernel/stat.h), with the padding before the size. *)
Definition stat_enc `{StackJunk} (st : Z * Z * Z * Z * Z) : list Z :=
  let '(dev, ino, type, nlink, size) := st in
  le_enc 4 dev ++ le_enc 4 ino ++ le_enc 2 type ++ le_enc 2 nlink ++ stat_pad ++ le_enc 8 size.

Section File.
Context `{KernelImage} `{BlockDevice} `{Uart16550}.

Definition fileinit : K unit := initlock L_ftable.

Definition filealloc : K (option nat) :=
  acquire L_ftable ;;
  let* r := foreach file_ix (fun f =>
    let* rc := fget f f_ref in
    if rc =? 0 then
      fset f (set_f_ref 1) ;;
      release L_ftable ;;
      ret (Some f)
    else ret None) in
  match r with
  | Some f => ret (Some f)
  | None => release L_ftable ;; ret None
  end.

Definition filedup (f : nat) : K nat :=
  acquire L_ftable ;;
  let* rc := fget f f_ref in
  if rc <? 1 then panic "filedup" else
  fset f (fun q => set_f_ref (s32 (f_ref q + 1)) q) ;;
  release L_ftable ;;
  ret f.

Definition fileclose (f : nat) : K unit :=
  acquire L_ftable ;;
  let* rc := fget f f_ref in
  if rc <? 1 then panic "fileclose" else
  fset f (fun q => set_f_ref (f_ref q - 1) q) ;;
  let* rc := fget f f_ref in
  if rc >? 0 then release L_ftable else
  let* ff := fget f id in
  fset f (set_f_ref 0) ;;
  fset f (set_f_type FD_NONE) ;;
  release L_ftable ;;
  match f_type ff with
  | FD_PIPE => pipeclose (f_pipe ff) (f_writable ff)
  | FD_INODE | FD_DEVICE =>
      begin_op ;;
      match f_ip ff with Some ip => iput ip | None => panic "kerneltrap" end ;;
      end_op
  | FD_NONE => ret tt
  end.

Definition filestat `{StackJunk} (f : nat) (addr : Z) : K Z :=
  let* p := myproc in
  let* q := fget f id in
  match f_type q with
  | FD_INODE | FD_DEVICE =>
      ilock (f_ip q) ;;
      let* st := match f_ip q with Some ip => stati ip | None => panic "kerneltrap" end in
      iunlock (f_ip q) ;;
      let* p := deref p in
      let* pt := pget p p_pagetable in
      let* r := copyout pt addr (stat_enc st) in
      ret (if r <? 0 then -1 else 0)
  | _ => ret (-1)
  end.

Definition fileread (f : nat) (addr n : Z) : K Z :=
  let* q := fget f id in
  if f_readable q =? 0 then ret (-1) else
  match f_type q with
  | FD_PIPE => piperead (f_pipe q) addr n
  | FD_DEVICE =>
      if (f_major q <? 0) || (f_major q >=? NDEV) then ret (-1) else
      let* r := gets (fun s => dev_read (dev_at s (f_major q))) in
      match r with
      | None => ret (-1)
      | Some F_consoleread => consoleread addr n
      end
  | FD_INODE =>
      ilock (f_ip q) ;;
      match f_ip q with
      | None => panic "kerneltrap"
      | Some ip =>
          let* r := readi ip (Some addr) (f_off q) (u32 n) in
          when (fst r >? 0) (fset f (fun q => set_f_off (u32 (f_off q + fst r)) q)) ;;
          iunlock (f_ip q) ;;
          ret (fst r)
      end
  | FD_NONE => panic "fileread"
  end.

(** The bytes of one transaction of [filewrite]. *)
Definition filewrite_max : Z := (MAXOPBLOCKS - 1 - 1 - 2) / 2 * BSIZE.

Definition filewrite (f : nat) (addr n : Z) : K Z :=
  let* q := fget f id in
  if f_writable q =? 0 then ret (-1) else
  match f_type q with
  | FD_PIPE => pipewrite (f_pipe q) addr n
  | FD_DEVICE =>
      if (f_major q <? 0) || (f_major q >=? NDEV) then ret (-1) else
      let* r := gets (fun s => dev_write (dev_at s (f_major q))) in
      match r with
      | None => ret (-1)
      | Some F_consolewrite => consolewrite (inl addr) n
      end
  | FD_INODE =>
      let* i := loop (fun i =>
        if negb (i <? n) then ret (inr i) else
        let n1 := if n - i >? filewrite_max then filewrite_max else n - i in
        begin_op ;;
        let* q := fget f id in
        ilock (f_ip q) ;;
        match f_ip q with
        | None => panic "kerneltrap"
        | Some ip =>
            let* r := writei ip (inl (u64 (addr + i))) (f_off q) n1 in
            when (r >? 0) (fset f (fun q => set_f_off (u32 (f_off q + r)) q)) ;;
            iunlock (f_ip q) ;;
            end_op ;;
            if negb (r =? n1) then ret (inr i) else ret (inl (i + r))
        end) 0 in
      ret (if i =? n then n else -1)
  | FD_NONE => panic "filewrite"
  end.

(** ** [pipealloc]

    The structure is laid out in the page [kalloc] returns, after the 24
    bytes of its lock; its data starts with what the page holds. *)
Definition pipealloc : K (option (nat * nat)) :=
  let* f0 := filealloc in
  match f0 with
  | None => ret None
  | Some f0 =>
      let* f1 := filealloc in
      match f1 with
      | None => fileclose f0 ;; ret None
      | Some f1 =>
          let* pi := kalloc in
          if pi =? 0 then fileclose f0 ;; fileclose f1 ;; ret None else
          modify (fun s => set_k_pipes
            (<[pi := mk_pipe (rd_bytes (k_mem s) (pi + 24) 512) 0 0 1 1]> (k_pipes s)) s) ;;
          initlock (L_pipe pi) ;;
          fset f0 (fun q => set_f_pipe pi (set_f_writable 0 (set_f_readable 1 (set_f_type FD_PIPE q)))) ;;
          fset f1 (fun q => set_f_pipe pi (set_f_writable 1 (set_f_readable 0 (set_f_type FD_PIPE q)))) ;;
          ret (Some (f0, f1))
      end
  end.

End File.
