(* ===== verification/Fork.v ===== *)
(** * Creating and ending processes

    The functions of kernel/proc.c that use the file system: [userinit],
    [fork] and [exit]. *)

From S2P Require Import Prelude Params Kernel Spinlock StringC Kalloc Vm Proc Sleeplock Bio Log Uart Printf Console Fs Pipe File.

(** The first user program: it calls [exec] on the path /init. *)
Definition initcode : list Z := [
  0x17; 0x05; 0x00; 0x00; 0x13; 0x05; 0x45; 0x02;
  0x97; 0x05; 0x00; 0x00; 0x93; 0x85; 0x35; 0x02;
  0x93; 0x08; 0x70; 0x00; 0x73; 0x00; 0x00; 0x00;
  0x93; 0x08; 0x20; 0x00; 0x73; 0x00; 0x00; 0x00;
  0xef; 0xf0; 0x9f; 0xff; 0x2f; 0x69; 0x6e; 0x69;
  0x74; 0x00; 0x00; 0x24; 0x00; 0x00; 0x00; 0x00;
  0x00; 0x00; 0x00; 0x00].

(** [sizeof(struct trapframe)]: 36 registers. *)
Definition TF_SIZE : nat := 288.

(** [safestrcpy(p->name, s, sizeof(p->name))]. *)
Definition set_name (p : nat) (l : list Z) : K unit :=
  pset p (fun q => set_p_name (put 0 (safestrcpy_bytes l 16) (p_name q)) q).

Definition fd_ix : list nat := seq 0 (Z.to_nat NOFILE).
Definition ofile (p : nat) (fd : nat) : K (option nat) :=
  gets (fun s => mjoin (p_ofile (proc_at s p) !! fd)).
Definition set_ofile (p : nat) (fd : nat) (f : option nat) : K unit :=
  pset p (fun q => set_p_ofile (<[fd := f]> (p_ofile q)) q).

(** The sleep channel of a process pointer. *)
Definition proc_chan (p : option nat) : chan := match p with Some i => C_proc i | None => C_none end.

Section Fork.
Context `{KernelImage} `{BlockDevice} `{Uart16550}.

Definition userinit : K unit :=
  let* po := allocproc in
  modify (set_k_initproc po) ;;
  let* p := deref po in
  let* pt := pget p p_pagetable in
  uvmfirst pt initcode ;;
  pset p (set_p_sz PGSIZE) ;;
  tf_set p TF_epc 0 ;;
  tf_set p TF_sp PGSIZE ;;
  set_name p (str_bytes "initcode") ;;
  let* cwd := namei [SLASH] in
  pset p (set_p_cwd cwd) ;;
  pset p (set_p_state RUNNABLE) ;;
  release (L_proc p).

Definition fork : K Z :=
  let* po := myproc in
  let* npo := allocproc in
  match npo with
  | None => ret (-1)
  | Some np =>
      let* p := deref po in
      let* old := pget p p_pagetable in
      let* new := pget np p_pagetable in
      let* sz := pget p p_sz in
      let* r := uvmcopy old new sz in
      if r <? 0 then freeproc np ;; release (L_proc np) ;; ret (-1) else
      pset np (set_p_sz sz) ;;
      modify (fun s => upd_mem (fun m => wr_bytes m (p_trapframe (proc_at s np))
        (rd_bytes m (p_trapframe (proc_at s p)) TF_SIZE)) s) ;;
      tf_set np TF_a0 0 ;;
      forall_do fd_ix (fun fd =>
        let* f := ofile p fd in
        match f with
        | Some f => let* f := filedup f in set_ofile np fd (Some f)
        | None => ret tt
        end) ;;
      let* cwd := pget p p_cwd in
      let* c := match cwd with Some c => idup c | None => panic "kerneltrap" end in
      pset np (set_p_cwd (Some c)) ;;
      let* name := pget p p_name in
      set_name np (cstrn (at_list name) 0 16) ;;
      let* pid := pget np p_pid in
      release (L_proc np) ;;
      acquire L_wait ;;
      pset np (set_p_parent (Some p)) ;;
      release L_wait ;;
      acquire (L_proc np) ;;
      pset np (set_p_state RUNNABLE) ;;
      release (L_proc np) ;;
      ret pid
  end.

(** [exit] does not return. *)
Definition exit {A} (status : Z) : K A :=
  let* po := myproc in
  let* ini := gets k_initproc in
  if decide (po = ini) then panic "init exiting" else
  let* p := deref po in
  forall_do fd_ix (fun fd =>
    let* f := ofile p fd in
    match f with
    | Some f => fileclose f ;; set_ofile p fd None
    | None => ret tt
    end) ;;
  begin_op ;;
  let* cwd := pget p p_cwd in
  match cwd with Some c => iput c | None => panic "kerneltrap" end ;;
  end_op ;;
  pset p (set_p_cwd None) ;;
  acquire L_wait ;;
  reparent p ;;
  let* par := pget p p_parent in
  wakeup (proc_chan par) ;;
  acquire (L_proc p) ;;
  pset p (set_p_xstate status) ;;
  pset p (set_p_state ZOMBIE) ;;
  release L_wait ;;
  sched ;;
  panic "zombie exit".

End Fork.
