(* ===== verification/Exec.v ===== *)
(** * [exec]

    kernel/exec.c and the file formats of kernel/elf.h.  The arguments are
    the strings [sys_exec] fetched.  [goto bad] is [exec_bad], given the
    page table built so far, the size it covers and the inode still locked. *)

From S2P Require Import Prelude Params Kernel Spinlock StringC Kalloc Vm Proc Sleeplock Bio Log Uart Printf Console Fs Pipe File Fork.

Definition ELF_MAGIC : Z := 0x464C457F.
Definition ELF_PROG_LOAD : Z := 1.

(** [struct elfhdr] and [struct proghdr]: the fields that [exec] reads. *)
Record elfhdr := mk_elfhdr { e_magic : Z; e_entry : Z; e_phoff : Z; e_phnum : Z }.
Definition elfhdr_dec (bs : list Z) : elfhdr :=
  mk_elfhdr (le_dec (slice 0 4 bs)) (le_dec (slice 24 8 bs)) (le_dec (slice 32 8 bs)) (le_dec (slice 56 2 bs)).
Record proghdr := mk_proghdr {
  ph_type : Z; ph_flags : Z; ph_off : Z; ph_vaddr : Z; ph_filesz : Z; ph_memsz : Z }.
Definition proghdr_dec (bs : list Z) : proghdr :=
  mk_proghdr (le_dec (slice 0 4 bs)) (le_dec (slice 4 4 bs)) (le_dec (slice 8 8 bs))
    (le_dec (slice 16 8 bs)) (le_dec (slice 32 8 bs)) (le_dec (slice 40 8 bs)).

Definition flags2perm (flags : Z) : Z :=
  let perm := if ctrue (Z.land flags 0x1) then PTE_X else 0 in
  if ctrue (Z.land flags 0x2) then Z.lor perm PTE_W else perm.

(** The text after the last slash. *)
Fixpoint last_elem (path last : list Z) : list Z :=
  match path with
  | [] => last
  | c :: path' => last_elem path' (if c =? SLASH then path' else last)
  end.

Section Exec.
Context `{KernelImage} `{BlockDevice} `{Uart16550}.

Definition loadseg (pagetable va : Z) (ip : nat) (offset sz : Z) : K Z :=
  loop (fun i =>
    if negb (i <? sz) then ret (inr 0) else
    let* pa := walkaddr pagetable (u64 (va + i)) in
    if pa =? 0 then panic "loadseg: address should exist" else
    let n := if sz - i <? PGSIZE then sz - i else PGSIZE in
    let* r := readi ip None (u32 (offset + i)) n in
    mem_put pa (snd r) ;;
    if negb (u32 (fst r) =? n) then ret (inr (-1)) else ret (inl (u32 (i + PGSIZE)))) 0.

Definition exec_bad (pagetable sz : Z) (ip : option nat) : K Z :=
  when (ctrue pagetable) (proc_freepagetable pagetable sz) ;;
  match ip with
  | Some ip => iunlockput ip ;; end_op
  | None => ret tt
  end ;;
  ret (-1).

(** One iteration of the loop over the program headers: the size and the
    offset after it, or the size when it fails. *)
Definition exec_seg (pagetable : Z) (ip : nat) (sz off : Z) : K (Z * Z + Z) :=
  let next := s32 (off + 56) in
  let* r := readi ip None (u32 off) 56 in
  if negb (fst r =? 56) then ret (inr sz) else
  let ph := proghdr_dec (snd r) in
  if negb (ph_type ph =? ELF_PROG_LOAD) then ret (inl (sz, next)) else
  if ph_memsz ph <? ph_filesz ph then ret (inr sz) else
  if u64 (ph_vaddr ph + ph_memsz ph) <? ph_vaddr ph then ret (inr sz) else
  if negb (ph_vaddr ph mod PGSIZE =? 0) then ret (inr sz) else
  let* sz1 := uvmalloc pagetable sz (u64 (ph_vaddr ph + ph_memsz ph)) (flags2perm (ph_flags ph)) in
  if sz1 =? 0 then ret (inr sz) else
  let* r := loadseg pagetable (ph_vaddr ph) ip (u32 (ph_off ph)) (u32 (ph_filesz ph)) in
  if r <? 0 then ret (inr sz1) else ret (inl (sz1, next)).

(** Pushes the argument strings: the stack pointer and [ustack] so far. *)
Definition exec_args (pagetable stackbase sp : Z) (argv : list (list Z)) : K (Z * list Z + unit) :=
  foreach_acc argv (sp, []) (fun '(sp, ustack) arg =>
    if Z.of_nat (length ustack) >=? MAXARG then ret (inr tt) else
    let sp := u64 (sp - (Z.of_nat (length arg) + 1)) in
    let sp := sp - sp mod 16 in
    if sp <? stackbase then ret (inr tt) else
    let* r := copyout pagetable sp (arg ++ [0]) in
    if r <? 0 then ret (inr tt) else ret (inl (sp, ustack ++ [sp]))).

Definition exec (path : list Z) (argv : list (list Z)) : K Z :=
  let* po := myproc in
  begin_op ;;
  let* ipo := namei path in
  match ipo with
  | None => end_op ;; ret (-1)
  | Some ip =>
      ilock (Some ip) ;;
      let* r := readi ip None 0 64 in
      if negb (fst r =? 64) then exec_bad 0 0 (Some ip) else
      let elf := elfhdr_dec (snd r) in
      if negb (e_magic elf =? ELF_MAGIC) then exec_bad 0 0 (Some ip) else
      let* p := deref po in
      let* pagetable := proc_pagetable p in
      if pagetable =? 0 then exec_bad 0 0 (Some ip) else
      let* r := foreach_acc (seqZ 0 (e_phnum elf)) (0, s32 (e_phoff elf))
                  (fun '(sz, off) _ => exec_seg pagetable ip sz off) in
      match r with
      | inr sz => exec_bad pagetable sz (Some ip)
      | inl (sz, _) =>
          iunlockput ip ;;
          end_op ;;
          let* p := the_proc in
          let* oldsz := pget p p_sz in
          let sz := PGROUNDUP sz in
          let* sz1 := uvmalloc pagetable sz (u64 (sz + 2 * PGSIZE)) PTE_W in
          if sz1 =? 0 then exec_bad pagetable sz None else
          let sz := sz1 in
          uvmclear pagetable (sz - 2 * PGSIZE) ;;
          let stackbase := sz - PGSIZE in
          let* r := exec_args pagetable stackbase sz argv in
          match r with
          | inr _ => exec_bad pagetable sz None
          | inl (sp, ustack) =>
              let argc := Z.of_nat (length ustack) in
              let sp := u64 (sp - (argc + 1) * 8) in
              let sp := sp - sp mod 16 in
              if sp <? stackbase then exec_bad pagetable sz None else
              let* r := copyout pagetable sp (concat (map (le_enc 8) (ustack ++ [0]))) in
              if r <? 0 then exec_bad pagetable sz None else
              tf_set p TF_a1 sp ;;
              set_name p (last_elem path path) ;;
              let* oldpagetable := pget p p_pagetable in
              pset p (set_p_pagetable pagetable) ;;
              pset p (set_p_sz sz) ;;
              tf_set p TF_epc (e_entry elf) ;;
              tf_set p TF_sp sp ;;
              proc_freepagetable oldpagetable oldsz ;;
              ret (s32 argc)
          end
      end
  end.

End Exec.
