(* ===== verification/Syscall.v ===== *)
(** * System call arguments and the calls on processes

    The argument fetching of kernel/syscall.c and kernel/sysproc.c.  A system
    call returns a [uint64]; a negative result is the two's complement that
    storing it in the trap frame gives. *)

From S2P Require Import Prelude Params Kernel Spinlock StringC Kalloc Vm Proc Sleeplock Bio Log Uart Printf Console Fs Pipe File Fork Exec.

Section Args.
Context `{KernelImage}.

(** [fetchaddr(addr, ip)]: the word stored at [ip], or an error. *)
Definition fetchaddr (addr : Z) : K (option Z) :=
  let* p := the_proc in
  let* sz := pget p p_sz in
  if (addr >=? sz) || (u64 (addr + 8) >? sz) then ret None else
  let* pt := pget p p_pagetable in
  let* r := copyin pt addr 8 in
  if negb (fst r =? 0) then ret None else ret (Some (le_dec (snd r))).

(** [fetchstr(addr, buf, max)]: its result and the bytes stored at [buf]. *)
Definition fetchstr (addr max : Z) : K (Z * list Z) :=
  let* p := the_proc in
  let* pt := pget p p_pagetable in
  let* r := copyinstr pt addr max in
  if fst r <? 0 then ret (-1, snd r) else
  ret (Z.of_nat (length (cstrn (at_list (snd r)) 0 (length (snd r)))), snd r).

Definition argraw (n : Z) : K Z :=
  let* p := the_proc in
  if n =? 0 then tf_get p TF_a0
  else if n =? 1 then tf_get p TF_a1
  else if n =? 2 then tf_get p TF_a2
  else if n =? 3 then tf_get p TF_a3
  else if n =? 4 then tf_get p TF_a4
  else if n =? 5 then tf_get p TF_a5
  else panic "argraw".

Definition argint (n : Z) : K Z := let* v := argraw n in ret (s32 v).
Definition argaddr (n : Z) : K Z := argraw n.

(** The string without its NUL, or an error. *)
Definition argstr (n max : Z) : K (option (list Z)) :=
  let* addr := argaddr n in
  let* r := fetchstr addr max in
  ret (if fst r <? 0 then None else Some (take (Z.to_nat (fst r)) (snd r))).

End Args.

Section Sysproc.
Context `{KernelImage} `{BlockDevice} `{Uart16550}.

Definition sys_exit : K Z := let* n := argint 0 in exit n.

Definition sys_getpid : K Z := let* p := the_proc in pget p p_pid.

Definition sys_fork : K Z := fork.

Definition sys_wait : K Z := let* p := argaddr 0 in wait p.

Definition sys_sbrk : K Z :=
  let* n := argint 0 in
  let* p := the_proc in
  let* addr := pget p p_sz in
  let* r := growproc n in
  ret (if r <? 0 then -1 else addr).

(** [ticks - ticks0 < n] compares unsigned integers. *)
Definition sys_sleep : K Z :=
  let* n := argint 0 in
  acquire L_time ;;
  let* ticks0 := gets (fun s => k_ticks s) in
  loop (fun _ : unit =>
    let* t := gets (fun s => k_ticks s) in
    if negb (u32 (t - ticks0) <? u32 n) then release L_time ;; ret (inr 0) else
    let* p := the_proc in
    let* k := killed p in
    if ctrue k then release L_time ;; ret (inr (-1)) else
    sleep C_ticks L_time ;;
    ret (inl tt)) tt.

Definition sys_kill : K Z := let* pid := argint 0 in kill pid.

Definition sys_uptime : K Z :=
  acquire L_time ;;
  let* xticks := gets (fun s => k_ticks s) in
  release L_time ;;
  ret xticks.

End Sysproc.
