(* ===== verification/Sysfile.v ===== *)
(** * File system calls

    kernel/sysfile.c.  [goto bad] and [goto fail] are the local continuations
    of the functions that have them. *)

From S2P Require Import Prelude Params Kernel Spinlock StringC Kalloc Vm Proc Sleeplock Bio Log Uart Printf Console Fs Pipe File Fork Exec Syscall.

Section Sysfile.
Context `{KernelImage} `{BlockDevice} `{Uart16550}.

(** [argfd(n, &fd, &f)]: the descriptor and its file, or an error. *)
Definition argfd (n : Z) : K (option (nat * nat)) :=
  let* fd := argint n in
  if (fd <? 0) || (fd >=? NOFILE) then ret None else
  let* p := the_proc in
  let* f := ofile p (Z.to_nat fd) in
  ret (match f with Some f => Some (Z.to_nat fd, f) | None => None end).

Definition fdalloc (f : nat) : K Z :=
  let* p := the_proc in
  let* r := foreach fd_ix (fun fd =>
    let* g := ofile p fd in
    match g with
    | None => set_ofile p fd (Some f) ;; ret (Some (Z.of_nat fd))
    | Some _ => ret None
    end) in
  ret (default (-1) r).

Definition sys_dup : K Z :=
  let* a := argfd 0 in
  match a with
  | None => ret (-1)
  | Some (_, f) =>
      let* fd := fdalloc f in
      if fd <? 0 then ret (-1) else
      filedup f ;;
      ret fd
  end.

Definition sys_read : K Z :=
  let* p := argaddr 1 in
  let* n := argint 2 in
  let* a := argfd 0 in
  match a with None => ret (-1) | Some (_, f) => fileread f p n end.

Definition sys_write : K Z :=
  let* p := argaddr 1 in
  let* n := argint 2 in
  let* a := argfd 0 in
  match a with None => ret (-1) | Some (_, f) => filewrite f p n end.

Definition sys_close : K Z :=
  let* a := argfd 0 in
  match a with
  | None => ret (-1)
  | Some (fd, f) =>
      let* p := the_proc in
      set_ofile p fd None ;;
      fileclose f ;;
      ret 0
  end.

Definition sys_fstat `{StackJunk} : K Z :=
  let* st := argaddr 1 in
  let* a := argfd 0 in
  match a with None => ret (-1) | Some (_, f) => filestat f st end.

Definition sys_link : K Z :=
  let* old := argstr 0 MAXPATH in
  match old with
  | None => ret (-1)
  | Some old =>
      let* new := argstr 1 MAXPATH in
      match new with
      | None => ret (-1)
      | Some new =>
          begin_op ;;
          let* ipo := namei old in
          match ipo with
          | None => end_op ;; ret (-1)
          | Some ip =>
              ilock (Some ip) ;;
              let* q := iget_f ip id in
              if i_type q =? T_DIR then iunlockput ip ;; end_op ;; ret (-1) else
              iset ip (fun q => set_i_nlink (s16 (i_nlink q + 1)) q) ;;
              iupdate ip ;;
              iunlock (Some ip) ;;
              let bad :=
                ilock (Some ip) ;;
                iset ip (fun q => set_i_nlink (s16 (i_nlink q - 1)) q) ;;
                iupdate ip ;;
                iunlockput ip ;;
                end_op ;;
                ret (-1) in
              let* dpo := nameiparent new in
              match dpo with
              | None => bad
              | Some (dp, name) =>
                  ilock (Some dp) ;;
                  let* qd := iget_f dp id in
                  let* q := iget_f ip id in
                  let* r := if negb (i_dev qd =? i_dev q) then ret (-1) else dirlink dp name (i_inum q) in
                  if r <? 0 then iunlockput dp ;; bad else
                  iunlockput dp ;;
                  iput ip ;;
                  end_op ;;
                  ret 0
              end
          end
      end
  end.

Definition isdirempty (dp : nat) : K bool :=
  loop (fun off =>
    let* q := iget_f dp id in
    if negb (off <? i_size q) then ret (inr true) else
    let* r := readi dp None off 16 in
    if negb (fst r =? 16) then panic "isdirempty: readi" else
    if negb (de_inum (dirent_dec (snd r)) =? 0) then ret (inr false) else
    ret (inl (off + 16))) 32.

Definition sys_unlink : K Z :=
  let* path := argstr 0 MAXPATH in
  match path with
  | None => ret (-1)
  | Some path =>
      begin_op ;;
      let* dpo := nameiparent path in
      match dpo with
      | None => end_op ;; ret (-1)
      | Some (dp, name) =>
          ilock (Some dp) ;;
          let bad := iunlockput dp ;; end_op ;; ret (-1) in
          if (namecmp name (str_bytes ".") =? 0) || (namecmp name (str_bytes "..") =? 0) then bad else
          let* r := dirlookup dp name in
          match r with
          | None => bad
          | Some (ip, off) =>
              ilock (Some ip) ;;
              let* q := iget_f ip id in
              if i_nlink q <? 1 then panic "unlink: nlink < 1" else
              let* empty := if i_type q =? T_DIR then isdirempty ip else ret true in
              if negb empty then iunlockput ip ;; bad else
              let* w := writei dp (inr (replicate 16 0)) off 16 in
              if negb (w =? 16) then panic "unlink: writei" else
              when (i_type q =? T_DIR)
                (iset dp (fun q => set_i_nlink (s16 (i_nlink q - 1)) q) ;; iupdate dp) ;;
              iunlockput dp ;;
              iset ip (fun q => set_i_nlink (s16 (i_nlink q - 1)) q) ;;
              iupdate ip ;;
              iunlockput ip ;;
              end_op ;;
              ret 0
          end
      end
  end.

(** [create] returns the inode locked. *)
Definition create (path : list Z) (type major minor : Z) : K (option nat) :=
  let* dpo := nameiparent path in
  match dpo with
  | None => ret None
  | Some (dp, name) =>
      ilock (Some dp) ;;
      let* r := dirlookup dp name in
      match r with
      | Some (ip, _) =>
          iunlockput dp ;;
          ilock (Some ip) ;;
          let* q := iget_f ip id in
          if (type =? T_FILE) && ((i_type q =? T_FILE) || (i_type q =? T_DEVICE)) then ret (Some ip)
          else iunlockput ip ;; ret None
      | None =>
          let* dev := iget_f dp i_dev in
          let* ipo := ialloc dev type in
          match ipo with
          | None => iunlockput dp ;; ret None
          | Some ip =>
              ilock (Some ip) ;;
              iset ip (set_i_major (s16 major)) ;;
              iset ip (set_i_minor (s16 minor)) ;;
              iset ip (set_i_nlink 1) ;;
              iupdate ip ;;
              let fail :=
                iset ip (set_i_nlink 0) ;;
                iupdate ip ;;
                iunlockput ip ;;
                iunlockput dp ;;
                ret None in
              let* inum := iget_f ip i_inum in
              let* dinum := iget_f dp i_inum in
              let* bad :=
                if type =? T_DIR then
                  let* r := dirlink ip (str_bytes ".") inum in
                  if r <? 0 then ret true else
                  let* r := dirlink ip (str_bytes "..") dinum in ret (r <? 0)
                else ret false in
              if bad : bool then fail else
              let* r := dirlink dp name inum in
              if r <? 0 then fail else
              when (type =? T_DIR)
                (iset dp (fun q => set_i_nlink (s16 (i_nlink q + 1)) q) ;; iupdate dp) ;;
              iunlockput dp ;;
              ret (Some ip)
          end
      end
  end.

(** The inode [sys_open] opens, locked: created or looked up. *)
Definition open_inode (path : list Z) (omode : Z) : K (option nat) :=
  if ctrue (Z.land omode O_CREATE) then create path T_FILE 0 0 else
  let* ipo := namei path in
  match ipo with
  | None => ret None
  | Some ip =>
      ilock (Some ip) ;;
      let* q := iget_f ip id in
      if (i_type q =? T_DIR) && negb (omode =? O_RDONLY) then iunlockput ip ;; ret None
      else ret (Some ip)
  end.

Definition sys_open : K Z :=
  let* omode := argint 1 in
  let* path := argstr 0 MAXPATH in
  match path with
  | None => ret (-1)
  | Some path =>
      begin_op ;;
      let* ipo := open_inode path omode in
      match ipo with
      | None => end_op ;; ret (-1)
      | Some ip =>
          let* q := iget_f ip id in
          if (i_type q =? T_DEVICE) && ((i_major q <? 0) || (i_major q >=? NDEV)) then
            iunlockput ip ;; end_op ;; ret (-1)
          else
          let* fo := filealloc in
          match fo with
          | None => iunlockput ip ;; end_op ;; ret (-1)
          | Some f =>
              let* fd := fdalloc f in
              if fd <? 0 then fileclose f ;; iunlockput ip ;; end_op ;; ret (-1) else
              (if i_type q =? T_DEVICE then
                 fset f (set_f_type FD_DEVICE) ;; fset f (set_f_major (i_major q))
               else
                 fset f (set_f_type FD_INODE) ;; fset f (set_f_off 0)) ;;
              fset f (set_f_ip (Some ip)) ;;
              fset f (set_f_readable (cbool (negb (ctrue (Z.land omode O_WRONLY))))) ;;
              fset f (set_f_writable (cbool (ctrue (Z.land omode O_WRONLY) || ctrue (Z.land omode O_RDWR)))) ;;
              when (ctrue (Z.land omode O_TRUNC) && (i_type q =? T_FILE)) (itrunc ip) ;;
              iunlock (Some ip) ;;
              end_op ;;
              ret fd
          end
      end
  end.

(** The common end of [sys_mkdir] and [sys_mknod]. *)
Definition make_node (path : option (list Z)) (type major minor : Z) : K Z :=
  let* ipo := match path with None => ret None | Some path => create path type major minor end in
  match ipo with
  | None => end_op ;; ret (-1)
  | Some ip => iunlockput ip ;; end_op ;; ret 0
  end.

Definition sys_mkdir : K Z :=
  begin_op ;;
  let* path := argstr 0 MAXPATH in
  make_node path T_DIR 0 0.

Definition sys_mknod : K Z :=
  begin_op ;;
  let* major := argint 1 in
  let* minor := argint 2 in
  let* path := argstr 0 MAXPATH in
  make_node path T_DEVICE major minor.

Definition sys_chdir : K Z :=
  let* po := myproc in
  begin_op ;;
  let* path := argstr 0 MAXPATH in
  let* ipo := match path with None => ret None | Some path => namei path end in
  match ipo with
  | None => end_op ;; ret (-1)
  | Some ip =>
      ilock (Some ip) ;;
      let* q := iget_f ip id in
      if negb (i_type q =? T_DIR) then iunlockput ip ;; end_op ;; ret (-1) else
      iunlock (Some ip) ;;
      let* p := deref po in
      let* cwd := pget p p_cwd in
      match cwd with Some c => iput c | None => panic "kerneltrap" end ;;
      end_op ;;
      pset p (set_p_cwd (Some ip)) ;;
      ret 0
  end.

(** The loop of [sys_exec]: the pages and strings fetched so far; [inr true]
    when all were fetched, [inr false] for [goto bad]. *)
Definition exec_fetch (uargv : Z) : K (bool * list (Z * list Z)) :=
  loop (fun args =>
    let i := Z.of_nat (length args) in
    if i >=? MAXARG then ret (inr (false, args)) else
    let* uarg := fetchaddr (u64 (uargv + 8 * i)) in
    match uarg with
    | None => ret (inr (false, args))
    | Some uarg =>
        if uarg =? 0 then ret (inr (true, args)) else
        let* page := kalloc in
        if page =? 0 then ret (inr (false, args)) else
        let* r := fetchstr uarg PGSIZE in
        mem_put page (snd r) ;;
        if fst r <? 0 then ret (inr (false, args ++ [(page, [])]))
        else ret (inl (args ++ [(page, take (Z.to_nat (fst r)) (snd r))]))
    end) [].

Definition sys_exec : K Z :=
  let* uargv := argaddr 1 in
  let* path := argstr 0 MAXPATH in
  match path with
  | None => ret (-1)
  | Some path =>
      let* a := exec_fetch uargv in
      let '(ok, args) := a : bool * list (Z * list Z) in
      let* r := if ok then exec path (map snd args) else ret (-1) in
      forall_do (map fst args) kfree ;;
      ret r
  end.

Definition sys_pipe : K Z :=
  let* po := myproc in
  let* fdarray := argaddr 0 in
  let* fs := pipealloc in
  match fs with
  | None => ret (-1)
  | Some (rf, wf) =>
      let* p := deref po in
      let clean := fileclose rf ;; fileclose wf ;; ret (-1) in
      let* fd0 := fdalloc rf in
      if fd0 <? 0 then clean else
      let* fd1 := fdalloc wf in
      if fd1 <? 0 then set_ofile p (Z.to_nat fd0) None ;; clean else
      let* pt := pget p p_pagetable in
      let* r := copyout pt fdarray (le_enc 4 fd0) in
      let* r := if r <? 0 then ret r else copyout pt (u64 (fdarray + 4)) (le_enc 4 fd1) in
      if r <? 0 then
        set_ofile p (Z.to_nat fd0) None ;; set_ofile p (Z.to_nat fd1) None ;; clean
      else ret 0
  end.

End Sysfile.
