(* ===== verification/Virtio.v ===== *)
(** * The disk driver

    kernel/virtio_disk.c.  The driver's bookkeeping and the rings it shares
    with the device are the record [vdisk]; the addresses in descriptors name
    the objects they point at.  Reads of the device's registers are a
    parameter, the class [VirtioMmio]; writes are recorded in [k_mmio].  The
    device itself appears as what may have changed in the used ring, in the
    status bytes and in the buffers whenever the driver looks. *)

From S2P Require Import Prelude Params Kernel Spinlock StringC Kalloc Vm Proc Sleeplock Bio.

Class VirtioMmio := { mmio_read : Z -> kernel -> Z }.

Definition VIRTIO_MMIO_MAGIC_VALUE : Z := 0x000.
Definition VIRTIO_MMIO_VERSION : Z := 0x004.
Definition VIRTIO_MMIO_DEVICE_ID : Z := 0x008.
Definition VIRTIO_MMIO_VENDOR_ID : Z := 0x00c.
Definition VIRTIO_MMIO_DEVICE_FEATURES : Z := 0x010.
Definition VIRTIO_MMIO_DRIVER_FEATURES : Z := 0x020.
Definition VIRTIO_MMIO_QUEUE_SEL : Z := 0x030.
Definition VIRTIO_MMIO_QUEUE_NUM_MAX : Z := 0x034.
Definition VIRTIO_MMIO_QUEUE_NUM : Z := 0x038.
Definition VIRTIO_MMIO_QUEUE_READY : Z := 0x044.
Definition VIRTIO_MMIO_QUEUE_NOTIFY : Z := 0x050.
Definition VIRTIO_MMIO_INTERRUPT_STATUS : Z := 0x060.
Definition VIRTIO_MMIO_INTERRUPT_ACK : Z := 0x064.
Definition VIRTIO_MMIO_STATUS : Z := 0x070.
Definition VIRTIO_MMIO_QUEUE_DESC_LOW : Z := 0x080.
Definition VIRTIO_MMIO_QUEUE_DESC_HIGH : Z := 0x084.
Definition VIRTIO_MMIO_DRIVER_DESC_LOW : Z := 0x090.
Definition VIRTIO_MMIO_DRIVER_DESC_HIGH : Z := 0x094.
Definition VIRTIO_MMIO_DEVICE_DESC_LOW : Z := 0x0a0.
Definition VIRTIO_MMIO_DEVICE_DESC_HIGH : Z := 0x0a4.

Definition VIRTIO_CONFIG_S_ACKNOWLEDGE : Z := 1.
Definition VIRTIO_CONFIG_S_DRIVER : Z := 2.
Definition VIRTIO_CONFIG_S_DRIVER_OK : Z := 4.
Definition VIRTIO_CONFIG_S_FEATURES_OK : Z := 8.

(** The feature bits the driver turns off: RO, SCSI, CONFIG_WCE, MQ,
    ANY_LAYOUT, EVENT_IDX, INDIRECT_DESC. *)
Definition unwanted_features : list Z := [5; 7; 11; 12; 27; 29; 28].

Definition NUM : Z := 8.
Definition VRING_DESC_F_NEXT : Z := 1.
Definition VRING_DESC_F_WRITE : Z := 2.
Definition VIRTIO_BLK_T_IN : Z := 0.
Definition VIRTIO_BLK_T_OUT : Z := 1.

(** ** Access to the driver's structure *)
Definition upd_vdisk (f : vdisk -> vdisk) (s : kernel) : kernel := set_k_vdisk (f (k_vdisk s)) s.
Definition vget {A} (f : vdisk -> A) : K A := gets (fun s => f (k_vdisk s)).
Definition vset (f : vdisk -> vdisk) : K unit := modify (upd_vdisk f).
Definition desc0 : vdesc := mk_vdesc D_null 0 0 0.
Definition info0 : vinfo := mk_vinfo None 0.
Definition desc_at (d : vdisk) (i : Z) : vdesc := aget desc0 (v_desc d) i.
Definition put_desc (i : Z) (v : vdesc) (d : vdisk) : vdisk := set_v_desc (aset (v_desc d) i v) d.
Definition upd_info (i : Z) (f : vinfo -> vinfo) (d : vdisk) : vdisk :=
  set_v_info (aset (v_info d) i (f (aget info0 (v_info d) i))) d.

Section Virtio.
Context `{KernelImage} `{VirtioMmio}.

Definition R_read (r : Z) : K Z := gets (fun s => mmio_read r s).
Definition R_write (r v : Z) : K unit :=
  modify (fun s => set_k_mmio (k_mmio s ++ [(VIRTIO0 + r, u32 v)]) s).

Definition virtio_disk_init : K unit :=
  initlock L_vdisk ;;
  let* magic := R_read VIRTIO_MMIO_MAGIC_VALUE in
  let* version := R_read VIRTIO_MMIO_VERSION in
  let* device := R_read VIRTIO_MMIO_DEVICE_ID in
  let* vendor := R_read VIRTIO_MMIO_VENDOR_ID in
  if negb (magic =? 0x74726976) || negb (version =? 2) || negb (device =? 2) || negb (vendor =? 0x554d4551)
  then panic "could not find virtio disk" else
  let status := 0 in
  R_write VIRTIO_MMIO_STATUS status ;;
  let status := Z.lor status VIRTIO_CONFIG_S_ACKNOWLEDGE in
  R_write VIRTIO_MMIO_STATUS status ;;
  let status := Z.lor status VIRTIO_CONFIG_S_DRIVER in
  R_write VIRTIO_MMIO_STATUS status ;;
  let* features := R_read VIRTIO_MMIO_DEVICE_FEATURES in
  R_write VIRTIO_MMIO_DRIVER_FEATURES
    (fold_left (fun f b => Z.land f (Z.lnot (Z.shiftl 1 b))) unwanted_features features) ;;
  let status := Z.lor status VIRTIO_CONFIG_S_FEATURES_OK in
  R_write VIRTIO_MMIO_STATUS status ;;
  let* status := R_read VIRTIO_MMIO_STATUS in
  if negb (ctrue (Z.land status VIRTIO_CONFIG_S_FEATURES_OK)) then panic "virtio disk FEATURES_OK unset" else
  R_write VIRTIO_MMIO_QUEUE_SEL 0 ;;
  let* ready := R_read VIRTIO_MMIO_QUEUE_READY in
  if ctrue ready then panic "virtio disk should not be ready" else
  let* max := R_read VIRTIO_MMIO_QUEUE_NUM_MAX in
  if max =? 0 then panic "virtio disk has no queue 0" else
  if max <? NUM then panic "virtio disk max queue too short" else
  let* desc := kalloc in
  let* avail := kalloc in
  let* used := kalloc in
  if (desc =? 0) || (avail =? 0) || (used =? 0) then panic "virtio disk kalloc" else
  mem_set desc 0 PGSIZE ;;
  mem_set avail 0 PGSIZE ;;
  mem_set used 0 PGSIZE ;;
  vset (fun d => set_us_ring (replicate 8 0) (set_us_idx 0 (set_av_ring (replicate 8 0)
    (set_av_idx 0 (set_v_desc (replicate 8 desc0) d))))) ;;
  R_write VIRTIO_MMIO_QUEUE_NUM NUM ;;
  R_write VIRTIO_MMIO_QUEUE_DESC_LOW desc ;;
  R_write VIRTIO_MMIO_QUEUE_DESC_HIGH (Z.shiftr desc 32) ;;
  R_write VIRTIO_MMIO_DRIVER_DESC_LOW avail ;;
  R_write VIRTIO_MMIO_DRIVER_DESC_HIGH (Z.shiftr avail 32) ;;
  R_write VIRTIO_MMIO_DEVICE_DESC_LOW used ;;
  R_write VIRTIO_MMIO_DEVICE_DESC_HIGH (Z.shiftr used 32) ;;
  R_write VIRTIO_MMIO_QUEUE_READY 0x1 ;;
  forall_do (seqZ 0 NUM) (fun i => vset (fun d => set_v_free (aset (v_free d) i 1) d)) ;;
  let status := Z.lor status VIRTIO_CONFIG_S_DRIVER_OK in
  R_write VIRTIO_MMIO_STATUS status.

(** ** Descriptors *)
Definition alloc_desc : K Z :=
  let* r := foreach (seqZ 0 NUM) (fun i =>
    let* free := vget v_free in
    if ctrue (aget 0 free i) then
      vset (fun d => set_v_free (aset (v_free d) i 0) d) ;; ret (Some i)
    else ret None) in
  ret (default (-1) r).

Definition free_desc (i : Z) : K unit :=
  if i >=? NUM then panic "free_desc 1" else
  let* free := vget v_free in
  if ctrue (aget 0 free i) then panic "free_desc 2" else
  vset (put_desc i desc0) ;;
  vset (fun d => set_v_free (aset (v_free d) i 1) d) ;;
  wakeup C_disk_free.

Definition free_chain (i : Z) : K unit :=
  loop (fun i =>
    let* d := vget (fun d => desc_at d i) in
    free_desc i ;;
    if ctrue (Z.land (d_flags d) VRING_DESC_F_NEXT) then ret (inl (d_next d)) else ret (inr tt)) i.

(** The three indices, or an error. *)
Definition alloc3_desc : K (option (list Z)) :=
  let* r := foreach_acc (seqZ 0 3) [] (fun idx _ =>
    let* i := alloc_desc in
    if i <? 0 then forall_do idx free_desc ;; ret (inr tt) else ret (inl (idx ++ [i]))) in
  ret (match r with inl idx => Some idx | inr _ => None end).

(** ** Requests *)

(** Formats the three descriptors of a transfer and hands them to the device. *)
Definition virtio_submit (b : nat) (write : bool) (sector i0 i1 i2 : Z) : K unit :=
  vset (fun d => set_v_ops (aset (v_ops d) i0
    (mk_vreq (if write then VIRTIO_BLK_T_OUT else VIRTIO_BLK_T_IN) 0 sector)) d) ;;
  vset (put_desc i0 (mk_vdesc (D_op (Z.to_nat i0)) 16 VRING_DESC_F_NEXT i1)) ;;
  vset (put_desc i1 (mk_vdesc (D_data b) BSIZE
    (Z.lor (if write then 0 else VRING_DESC_F_WRITE) VRING_DESC_F_NEXT) i2)) ;;
  vset (upd_info i0 (set_vi_status 0xff)) ;;
  vset (put_desc i2 (mk_vdesc (D_status (Z.to_nat i0)) 1 VRING_DESC_F_WRITE 0)) ;;
  bset b (set_b_disk 1) ;;
  vset (upd_info i0 (set_vi_b (Some b))) ;;
  vset (fun d => set_av_ring (aset (av_ring d) (av_idx d mod NUM) i0) d) ;;
  vset (fun d => set_av_idx (u16 (av_idx d + 1)) d) ;;
  R_write VIRTIO_MMIO_QUEUE_NOTIFY 0.

Definition virtio_disk_rw (b : nat) (write : bool) : K unit :=
  let* bno := bget_f b b_blockno in
  let sector := u32 (bno * (BSIZE / 512)) in
  acquire L_vdisk ;;
  let* idx := loop (fun _ : unit =>
    let* r := alloc3_desc in
    match r with
    | Some idx => ret (inr idx)
    | None => sleep C_disk_free L_vdisk ;; ret (inl tt)
    end) tt in
  let i0 := aget 0 idx 0 in
  virtio_submit b write sector i0 (aget 0 idx 1) (aget 0 idx 2) ;;
  loop (fun _ : unit =>
    let* w := bget_f b b_disk in
    if w =? 1 then sleep (C_buf b) L_vdisk ;; ret (inl tt) else ret (inr tt)) tt ;;
  vset (upd_info i0 (set_vi_b None)) ;;
  free_chain i0 ;;
  release L_vdisk.

Definition virtio_disk_intr : K unit :=
  acquire L_vdisk ;;
  let* st := R_read VIRTIO_MMIO_INTERRUPT_STATUS in
  R_write VIRTIO_MMIO_INTERRUPT_ACK (Z.land st 0x3) ;;
  loop (fun _ : unit =>
    let* d := vget id in
    if v_used_idx d =? us_idx d then ret (inr tt) else
    let i := aget 0 (us_ring d) (v_used_idx d mod NUM) in
    let inf := aget info0 (v_info d) i in
    if negb (vi_status inf =? 0) then panic "virtio_disk_intr status" else
    match vi_b inf with
    | None => panic "kerneltrap"
    | Some b =>
        bset b (set_b_disk 0) ;;
        wakeup (C_buf b) ;;
        vset (fun d => set_v_used_idx (u16 (v_used_idx d + 1)) d) ;;
        ret (inl tt)
    end) tt ;;
  release L_vdisk.

End Virtio.
