(* ===== verification/Driver.v ===== *)
(** * The disk driver under interleaving

    The protocol between kernel/virtio_disk.c and the device.  Processes run
    the critical sections of [virtio_disk_rw] (allocation and submission, and
    completion after the wait), interrupts run [virtio_disk_intr], and the
    device takes requests from the available ring and finishes them in any
    order; all of them are steps of one transition system.  [dinv] says how
    the driver's tables describe the requests in flight; it holds in every
    reachable state, no section panics, and a request whose buffer is no
    longer owned by the device has been transferred since it was started. *)

From S2P Require Import Prelude Params Kernel Spinlock StringC Kalloc Vm Proc Sleeplock Bio Virtio.

(** ** Requests and chains *)

(** A call of [virtio_disk_rw] that has been submitted: its buffer, direction
    and descriptors ([idx]); with the block and the number of disk writes at
    the time of the call, for the statements below. *)
Record req := mk_req {
  rq_buf : nat;
  rq_write : bool;
  rq_0 : Z;
  rq_1 : Z;
  rq_2 : Z;
  rq_bno : Z;
  rq_start : nat;
}.
Definition owned (r : req) : list Z := [rq_0 r; rq_1 r; rq_2 r].
Definition owned_all (l : list req) : list Z := concat (map owned l).

Definition sector_of (bno : Z) : Z := u32 (bno * (BSIZE / 512)).
Definition op0 : vreq := mk_vreq 0 0 0.
Definition op_at (d : vdisk) (i : Z) : vreq := aget op0 (v_ops d) i.
Definition info_at (d : vdisk) (i : Z) : vinfo := aget info0 (v_info d) i.

(** A request as the device sees it: a chain of three descriptors. *)
Definition chained (d : vdisk) (r : req) : Prop :=
  desc_at d (rq_0 r) = mk_vdesc (D_op (Z.to_nat (rq_0 r))) 16 VRING_DESC_F_NEXT (rq_1 r) /\
  desc_at d (rq_1 r) = mk_vdesc (D_data (rq_buf r)) BSIZE (Z.lor (if rq_write r then 0 else VRING_DESC_F_WRITE) VRING_DESC_F_NEXT) (rq_2 r) /\
  desc_at d (rq_2 r) = mk_vdesc (D_status (Z.to_nat (rq_0 r))) 1 VRING_DESC_F_WRITE 0 /\
  op_at d (rq_0 r) = mk_vreq (if rq_write r then VIRTIO_BLK_T_OUT else VIRTIO_BLK_T_IN) 0 (sector_of (rq_bno r)).

(** What a device does with such a chain: the transfer at the sector, status
    0, and the head of the chain in the used ring. *)
Definition dev_transfer (b : nat) (w : bool) (bno : Z) (s : kernel) : kernel :=
  if w then set_k_dtrace (k_dtrace s ++ [(bno, b_data (buf_at s b))])
         (set_k_disk (<[bno := b_data (buf_at s b)]> (k_disk s)) s)
  else upd_buf b (set_b_data (disk_block s bno)) s.
Definition push_used (i : Z) (d : vdisk) : vdisk :=
  set_us_idx (u16 (us_idx d + 1)) (set_us_ring (aset (us_ring d) (us_idx d mod NUM) i) (upd_info i (set_vi_status 0) d)).
Definition served (r : req) (s : kernel) : kernel :=
  upd_vdisk (push_used (rq_0 r)) (dev_transfer (rq_buf r) (rq_write r) (sector_of (rq_bno r) / (BSIZE / 512)) s).

(** The device: [blk_done i s s'] when it finishes the chain at [i].  A chain
    of the form above is carried out, without an error. *)
Class BlkDevice := {
  blk_done : Z -> kernel -> kernel -> Prop;
  blk_done_served : forall r s s', chained (k_vdisk s) r -> blk_done (rq_0 r) s s' -> s' = served r s;
}.

(** ** The invariant *)

(** Positions [from], [from + 1], ... of a ring, up to [to], hold [q]. *)
Definition ring_holds (ring : list Z) (from to : Z) (q : list Z) : Prop :=
  to = u16 (from + Z.of_nat (length q)) /\
  forall (k : nat) (i : Z), q !! k = Some i -> aget 0 ring ((from + Z.of_nat k) mod NUM) = i.

Definition replay (d : gmap Z (list Z)) (tr : list (Z * list Z)) : gmap Z (list Z) :=
  fold_left (fun d e => <[fst e := snd e]> d) tr d.
(** The transfer of a request took place after its start: a write is among
    the later writes, a read has the content the block had at some later
    moment. *)
Definition transferred (d0 : gmap Z (list Z)) (s : kernel) (r : req) : Prop :=
  let data := b_data (buf_at s (rq_buf r)) in
  if rq_write r then (rq_bno r, data) ∈ drop (rq_start r) (k_dtrace s)
  else exists k, (rq_start r <= k <= length (k_dtrace s))%nat /\ data = default zero_block (replay d0 (take k (k_dtrace s)) !! rq_bno r).

Definition req_ok (s : kernel) (r : req) : Prop :=
  chained (k_vdisk s) r /\ vi_b (info_at (k_vdisk s) (rq_0 r)) = Some (rq_buf r) /\
  (rq_buf r < length (k_bcache s))%nat /\ b_blockno (buf_at s (rq_buf r)) = rq_bno r /\ 0 <= rq_bno r < 2 ^ 31 /\
  (rq_start r <= length (k_dtrace s))%nat.
Definition status_is (d : vdisk) (v : Z) (r : req) : Prop := vi_status (info_at d (rq_0 r)) = v.
Definition disk_is (s : kernel) (v : Z) (r : req) : Prop := b_disk (buf_at s (rq_buf r)) = v.

Definition tables_ok (d : vdisk) : Prop :=
  length (v_desc d) = 8%nat /\ length (v_free d) = 8%nat /\ length (av_ring d) = 8%nat /\ length (us_ring d) = 8%nat /\
  length (v_info d) = 8%nat /\ length (v_ops d) = 8%nat /\ 0 <= av_idx d < 2 ^ 16 /\ 0 <= us_idx d < 2 ^ 16 /\ 0 <= v_used_idx d < 2 ^ 16.
Definition free_ok (d : vdisk) (own : list Z) : Prop :=
  NoDup own /\ Forall (fun i => 0 <= i < NUM) own /\
  forall i, 0 <= i < NUM -> aget 0 (v_free d) i = if bool_decide (i ∈ own) then 0 else 1.

(** The requests in flight: [qa] in the available ring, [tk] taken by the
    device, [qu] in the used ring, [dn] seen by the interrupt handler. *)
Record dreqs (d0 : gmap Z (list Z)) (s : kernel) (seen : Z) (qa tk qu dn : list req) : Prop := {
  dr_ok : Forall (req_ok s) (qa ++ tk ++ qu ++ dn);
  dr_bufs : NoDup (map rq_buf (qa ++ tk ++ qu ++ dn));
  dr_busy : Forall (disk_is s 1) (qa ++ tk ++ qu);
  dr_idle : Forall (disk_is s 0) dn;
  dr_wait : Forall (status_is (k_vdisk s) 0xff) (qa ++ tk);
  dr_zero : Forall (status_is (k_vdisk s) 0) qu;
  dr_avail : ring_holds (av_ring (k_vdisk s)) seen (av_idx (k_vdisk s)) (map rq_0 qa);
  dr_used : ring_holds (us_ring (k_vdisk s)) (v_used_idx (k_vdisk s)) (us_idx (k_vdisk s)) (map rq_0 qu);
  dr_disk : k_disk s = replay d0 (k_dtrace s);
  dr_done : Forall (transferred d0 s) (qu ++ dn);
}.
Record dinv (d0 : gmap Z (list Z)) (s : kernel) (seen : Z) (qa tk qu dn : list req) : Prop := {
  di_tables : tables_ok (k_vdisk s);
  di_seen : 0 <= seen < 2 ^ 16;
  di_free : free_ok (k_vdisk s) (owned_all (qa ++ tk ++ qu ++ dn));
  di_reqs : dreqs d0 s seen qa tk qu dn;
}.

(** ** Lemmas: lists of requests *)
Lemma Forall_impl_in {A} (P Q : A -> Prop) l : Forall P l -> (forall x, x ∈ l -> P x -> Q x) -> Forall Q l.
Proof. rewrite !Forall_forall. eauto. Qed.
Lemma owned_all_app l1 l2 : owned_all (l1 ++ l2) = owned_all l1 ++ owned_all l2.
Proof. unfold owned_all. by rewrite map_app, concat_app. Qed.
Lemma owned_all_length l : length (owned_all l) = (3 * length l)%nat.
Proof. induction l as [|r l IH]; [done|]. change (owned_all (r :: l)) with (owned r ++ owned_all l). rewrite length_app, IH. cbn. lia. Qed.
Lemma owned_all_perm l l' : l ≡ₚ l' -> owned_all l ≡ₚ owned_all l'.
Proof. induction 1 as [|r l l' _ IH|r r' l|l l' l'' _ IH1 _ IH2]; [done|by apply (Permutation_app_head (owned r))| |by trans (owned_all l')].
  unfold owned_all. cbn [map concat]. rewrite !(assoc_L (++)). apply Permutation_app_tail, Permutation_app_comm. Qed.
Lemma owned_all_in r l i : r ∈ l -> i ∈ owned r -> i ∈ owned_all l.
Proof. intros (l1 & l2 & ->)%list_elem_of_split Hi. rewrite owned_all_app. apply elem_of_app. right. apply elem_of_app. by left. Qed.
Lemma free_ok_perm d own own' : own ≡ₚ own' -> free_ok d own -> free_ok d own'.
Proof.
  intros Hp (H1 & H2 & H3). split_and!; [by rewrite <- Hp|by rewrite <- Hp|]. intros i Hi. rewrite H3 by done.
  by rewrite (bool_decide_ext (i ∈ own) (i ∈ own')) by (by rewrite Hp).
Qed.
(** At most two requests fit. *)
Lemma free_ok_length d own : free_ok d own -> (length own <= 8)%nat.
Proof.
  intros (H1 & H2 & _). change 8%nat with (length (seqZ 0 NUM)). apply submseteq_length, NoDup_submseteq; [done|].
  intros i Hi. apply elem_of_seqZ. rewrite Forall_forall in H2. specialize (H2 i Hi). lia.
Qed.

(** Two requests in flight share no descriptor. *)
Lemma owned_disjoint l r r' i : NoDup (owned_all l) -> r ∈ l -> r' ∈ l -> i ∈ owned r -> i ∈ owned r' -> r = r'.
Proof.
  intros Hn (l1 & l2 & ->)%list_elem_of_split Hr' Hi Hi'. rewrite owned_all_app in Hn. change (owned_all (r :: l2)) with (owned r ++ owned_all l2) in Hn.
  apply NoDup_app in Hn as (_ & Hn1 & Hn2). apply NoDup_app in Hn2 as (_ & Hn2 & _).
  apply elem_of_app in Hr' as [Hr'|[->|Hr']%elem_of_cons]; [|done|].
  - destruct (Hn1 i); [by apply (owned_all_in r')|apply elem_of_app; by left].
  - destruct (Hn2 i Hi). by apply (owned_all_in r').
Qed.

(** ** Lemmas: rings *)
Lemma u16_mod_num x : u16 x mod NUM = x mod NUM.
Proof. change NUM with 8. zlia. Qed.
Lemma u16_shift_mod f k : (u16 (f + 1) + k) mod NUM = (f + (k + 1)) mod NUM.
Proof. change NUM with 8. zlia. Qed.
Lemma ring_push ring f t q i : ring_holds ring f t q -> (length q < 8)%nat -> length ring = 8%nat ->
  ring_holds (aset ring (t mod NUM) i) f (u16 (t + 1)) (q ++ [i]).
Proof.
  intros [-> Hq] Hl Hr. split; [rewrite length_app; cbn [length]; zlia|]. intros k j Hk. rewrite u16_mod_num. change NUM with 8 in *.
  destruct (decide (k = length q)) as [->|Hne].
  - rewrite lookup_app_r, Nat.sub_diag in Hk by lia. injection Hk as <-. apply aget_aset_eq. rewrite Hr. zlia.
  - pose proof (lookup_lt_Some _ _ _ Hk) as Hlt. rewrite length_app in Hlt. cbn in Hlt. rewrite lookup_app_l in Hk by lia. rewrite <- (Hq k j Hk).
    apply aget_aset_ne; [zlia|zlia|]. zlia.
Qed.
Lemma ring_pop ring f t i q : ring_holds ring f t (i :: q) -> aget 0 ring (f mod NUM) = i /\ ring_holds ring (u16 (f + 1)) t q.
Proof.
  intros [-> Hq]. split; [rewrite <- (Hq 0%nat i) by done; f_equal; f_equal; lia|]. split; [cbn [length]; zlia|].
  intros k j Hk. rewrite u16_shift_mod, <- (Hq (S k) j) by done. f_equal. f_equal. lia.
Qed.
Lemma ring_empty ring f t q : ring_holds ring f t q -> 0 <= f < 2 ^ 16 -> (length q <= 8)%nat -> (f =? t) = bool_decide (q = []).
Proof.
  intros [-> _] Hf Hl. destruct q as [|i q].
  - rewrite bool_decide_true by done. apply Z.eqb_eq. cbn. zlia.
  - rewrite bool_decide_false by done. apply Z.eqb_neq. cbn [length] in *. zlia.
Qed.

Section Sections.
Context `{KI : KernelImage} `{VM : VirtioMmio}.

(** What waking processes up needs. *)
Definition calm (s : kernel) : Prop :=
  cpu_ok (k_lk s) /\ forall p, p ∈ proc_ix -> Some p <> c_proc (cpu_of (k_lk s)) -> lk_free (L_proc p) (k_lk s).
Lemma calm_eq s s' : k_lk s' = k_lk s -> calm s -> calm s'.
Proof. unfold calm. by intros ->. Qed.

(** ** Lemmas: allocating descriptors *)
Definition take_desc (i : Z) (d : vdisk) : vdisk := set_v_free (aset (v_free d) i 0) d.
Definition clear_desc (i : Z) (d : vdisk) : vdisk := set_v_free (aset (v_free d) i 1) (put_desc i desc0 d).

Lemma alloc_desc_run n s :
  (exists i, 0 <= i < NUM /\ aget 0 (v_free (k_vdisk s)) i <> 0 /\ alloc_desc n s = Ret i (upd_vdisk (take_desc i) s)) \/
  ((forall i, 0 <= i < NUM -> aget 0 (v_free (k_vdisk s)) i = 0) /\ alloc_desc n s = Ret (-1) s).
Proof.
  unfold alloc_desc. match goal with |- context [foreach _ ?f] => set (body := f) end.
  assert (Eb : forall i, body i n s = if ctrue (aget 0 (v_free (k_vdisk s)) i) then Ret (Some i) (upd_vdisk (take_desc i) s) else Ret None s).
  { intros i. unfold body, vget. rewrite bind_gets. by destruct (ctrue _). }
  assert (H : forall l, (exists i, i ∈ l /\ aget 0 (v_free (k_vdisk s)) i <> 0 /\ foreach l body n s = Ret (Some i) (upd_vdisk (take_desc i) s)) \/
    ((forall i, i ∈ l -> aget 0 (v_free (k_vdisk s)) i = 0) /\ foreach l body n s = Ret None s)).
  { clearbody body. induction l as [|i l IH]; [right; split; [intros i Hi; by apply elem_of_nil in Hi|done]|]. cbn [foreach]. specialize (Eb i).
    destruct (ctrue (aget 0 (v_free (k_vdisk s)) i)) eqn:E; rewrite (bind_ret _ _ _ _ _ _ Eb).
    - left. exists i. split; [by left|]. split; [intros E0; by rewrite E0 in E|]. done.
    - assert (E0 : aget 0 (v_free (k_vdisk s)) i = 0) by (unfold ctrue in E; lia). destruct IH as [(j & ? & ? & ?)|(Hz & ?)].
      + left. exists j. split; [by right|done].
      + right. split; [intros j [->|Hj]%elem_of_cons; [done|by apply Hz]|done]. }
  destruct (H (seqZ 0 NUM)) as [(i & Hi & Hf & E)|(Hz & E)]; rewrite (bind_ret _ _ _ _ _ _ E).
  - left. exists i. split; [apply elem_of_seqZ in Hi; lia|done].
  - right. split; [intros i Hi; apply Hz, elem_of_seqZ; lia|done].
Qed.

Lemma free_desc_run n s i : calm s -> 0 <= i < NUM -> aget 0 (v_free (k_vdisk s)) i = 0 ->
  free_desc i n s = Ret tt (wakeup_st (c_proc (cpu_of (k_lk s))) C_disk_free (upd_vdisk (clear_desc i) s)).
Proof.
  intros [Hc Hp] Hi Hf. unfold free_desc. destruct (Z.geb_spec i NUM); [lia|].
  unfold vget. rewrite bind_gets.
  replace (ctrue _) with false by (symmetry; change (ctrue (aget 0 (v_free (k_vdisk s)) i) = false); by rewrite Hf). unfold vset. rewrite !bind_modify. by rewrite wakeup_run.
Qed.

Lemma vfree_set i v d j : tables_ok d -> 0 <= i < NUM -> 0 <= j < NUM ->
  aget 0 (aset (v_free d) i v) j = if decide (j = i) then v else aget 0 (v_free d) j.
Proof.
  intros (_ & Hl & _) Hi Hj. change NUM with 8 in *. case_decide as E; [subst; apply aget_aset_eq; rewrite Hl; lia|]. apply aget_aset_ne; lia.
Qed.
Lemma take_ok i d own : tables_ok d -> free_ok d own -> 0 <= i < NUM -> i ∉ own -> tables_ok (take_desc i d) /\ free_ok (take_desc i d) (i :: own).
Proof.
  intros Ht (H1 & H2 & H3) Hi Hn. split.
  - destruct Ht as (? & ? & ?). unfold tables_ok, take_desc. cbn. by rewrite length_aset.
  - split_and!; [by apply NoDup_cons|by apply Forall_cons|]. intros j Hj. unfold take_desc. cbn [v_free set_v_free]. rewrite vfree_set by done.
    case_decide as E; [subst; by rewrite bool_decide_true by (by left)|]. rewrite H3 by done.
    by rewrite (bool_decide_ext (j ∈ own) (j ∈ i :: own)) by (rewrite elem_of_cons; tauto).
Qed.
Lemma clear_ok i d own : tables_ok d -> free_ok d (i :: own) -> tables_ok (clear_desc i d) /\ free_ok (clear_desc i d) own.
Proof.
  intros Ht (H1 & H2 & H3). apply NoDup_cons in H1 as [Hn H1]. apply Forall_cons in H2 as [Hi H2]. split.
  - destruct Ht as (? & ? & ?). unfold tables_ok, clear_desc, put_desc. cbn. by rewrite !length_aset.
  - split_and!; [done|done|]. intros j Hj. unfold clear_desc. cbn [v_free set_v_free put_desc]. change (v_free (put_desc i desc0 d)) with (v_free d). rewrite vfree_set by done.
    case_decide as E; [subst; by rewrite bool_decide_false|]. rewrite H3 by done.
    by rewrite (bool_decide_ext (j ∈ own) (j ∈ i :: own)) by (rewrite elem_of_cons; tauto).
Qed.
Lemma desc_at_clear i d j : 0 <= i -> 0 <= j -> j <> i -> desc_at (clear_desc i d) j = desc_at d j.
Proof. intros. unfold desc_at, clear_desc. cbn. by apply aget_aset_ne. Qed.

(** What giving descriptors back does not touch. *)
Record undone (own : list Z) (s s' : kernel) : Prop := {
  un_lk : k_lk s' = k_lk s;
  un_bcache : k_bcache s' = k_bcache s;
  un_disk : k_disk s' = k_disk s;
  un_dtrace : k_dtrace s' = k_dtrace s;
  un_desc : forall i, i ∈ own -> desc_at (k_vdisk s') i = desc_at (k_vdisk s) i;
  un_av : av_idx (k_vdisk s') = av_idx (k_vdisk s) /\ av_ring (k_vdisk s') = av_ring (k_vdisk s);
  un_us : us_idx (k_vdisk s') = us_idx (k_vdisk s) /\ us_ring (k_vdisk s') = us_ring (k_vdisk s) /\ v_used_idx (k_vdisk s') = v_used_idx (k_vdisk s);
  un_info : v_info (k_vdisk s') = v_info (k_vdisk s);
  un_ops : v_ops (k_vdisk s') = v_ops (k_vdisk s);
}.
Lemma undone_refl own s : undone own s s.
Proof. by constructor. Qed.
Lemma undone_trans own s1 s2 s3 : undone own s1 s2 -> undone own s2 s3 -> undone own s1 s3.
Proof.
  intros [? ? ? ? U1 ? ? ? ?] [? ? ? ? U2 ? ? ? ?]. constructor; try congruence; try (destruct_and?; split_and!; congruence). intros i Hi. by rewrite U2, U1.
Qed.
Lemma undone_take own i s : undone own s (upd_vdisk (take_desc i) s).
Proof. by constructor. Qed.

Lemma free_desc_undone n s i own : calm s -> tables_ok (k_vdisk s) -> free_ok (k_vdisk s) (i :: own) ->
  exists s', free_desc i n s = Ret tt s' /\ undone own s s' /\ tables_ok (k_vdisk s') /\ free_ok (k_vdisk s') own.
Proof.
  intros Hc Ht Hf. pose proof Hf as (H1 & H2 & H3). apply Forall_cons in H2 as [Hi Ho].
  eexists. split; [apply free_desc_run; [done|done|]; rewrite H3 by done; by rewrite bool_decide_true by (by left)|].
  unfold wakeup_st. rewrite upd_procs_rest. destruct (clear_ok i _ own Ht Hf). split; [|done].
  constructor; try done. intros j Hj. apply NoDup_cons in H1 as [Hn _]. rewrite Forall_forall in Ho. specialize (Ho j Hj).
  apply (desc_at_clear i); [lia|lia|]. by intros ->.
Qed.
Lemma undone_calm own s s' : undone own s s' -> calm s -> calm s'.
Proof. intros U. apply calm_eq, U. Qed.
Lemma undone_weaken own own' s s' : own ⊆ own' -> undone own' s s' -> undone own s s'.
Proof. intros Hs [? ? ? ? U ? ? ? ?]. constructor; try done. intros i Hi. by apply U, Hs. Qed.

Lemma free_all_undone n own l : forall s, calm s -> tables_ok (k_vdisk s) -> free_ok (k_vdisk s) (l ++ own) ->
  exists s', forall_do l free_desc n s = Ret tt s' /\ undone own s s' /\ tables_ok (k_vdisk s') /\ free_ok (k_vdisk s') own.
Proof.
  induction l as [|i l IH]; intros s Hc Ht Hf; [by exists s|].
  destruct (free_desc_undone n s i (l ++ own) Hc Ht Hf) as (s1 & E1 & U1 & Ht1 & Hf1).
  destruct (IH s1 (undone_calm _ _ _ U1 Hc) Ht1 Hf1) as (s2 & E2 & U2 & Ht2 & Hf2). exists s2. cbn [forall_do]. rewrite (bind_ret _ _ _ _ _ _ E1).
  split; [done|]. split; [|done]. apply (undone_trans own s s1); [|done]. apply (undone_weaken own (l ++ own)); [set_solver|done].
Qed.

Lemma alloc_desc_ok n s own : tables_ok (k_vdisk s) -> free_ok (k_vdisk s) own ->
  (exists i, 0 <= i < NUM /\ i ∉ own /\ alloc_desc n s = Ret i (upd_vdisk (take_desc i) s) /\
     tables_ok (k_vdisk (upd_vdisk (take_desc i) s)) /\ free_ok (k_vdisk (upd_vdisk (take_desc i) s)) (i :: own)) \/
  ((8 <= length own)%nat /\ alloc_desc n s = Ret (-1) s).
Proof.
  intros Ht Hf. pose proof Hf as (H1 & H2 & H3). destruct (alloc_desc_run n s) as [(i & Hi & Hz & E)|(Hz & E)].
  - left. exists i. assert (Hn : i ∉ own) by (intros Hin; apply Hz; rewrite H3 by done; by rewrite bool_decide_true). destruct (take_ok i _ own Ht Hf Hi Hn). done.
  - right. split; [|done]. change 8%nat with (length (seqZ 0 NUM)). apply submseteq_length, NoDup_submseteq; [apply NoDup_seqZ|].
    intros i Hi%elem_of_seqZ. specialize (H3 i ltac:(lia)). rewrite Hz in H3 by lia. by case_bool_decide.
Qed.

Definition alloc_body (idx : list Z) (_ : Z) : K (list Z + unit) :=
  let* i := alloc_desc in if i <? 0 then forall_do idx free_desc ;; ret (inr tt) else ret (inl (idx ++ [i])).
Lemma alloc_body_run n s idx own x : calm s -> tables_ok (k_vdisk s) -> free_ok (k_vdisk s) (idx ++ own) ->
  (exists i, let s' := upd_vdisk (take_desc i) s in alloc_body idx x n s = Ret (inl (idx ++ [i])) s' /\ tables_ok (k_vdisk s') /\ free_ok (k_vdisk s') ((idx ++ [i]) ++ own)) \/
  (exists s', alloc_body idx x n s = Ret (inr tt) s' /\ undone own s s' /\ tables_ok (k_vdisk s') /\ free_ok (k_vdisk s') own /\ (8 <= length idx + length own)%nat).
Proof.
  intros Hc Ht Hf. unfold alloc_body. destruct (alloc_desc_ok n s (idx ++ own) Ht Hf) as [(i & Hi & _ & E & Ht1 & Hf1)|(Hl & E)]; rewrite (bind_ret _ _ _ _ _ _ E).
  - left. exists i. destruct (Z.ltb_spec i 0); [lia|]. split; [done|]. split; [done|]. eapply free_ok_perm; [|exact Hf1].
    rewrite <- (assoc_L (++)). symmetry. apply (Permutation_middle idx own i) || apply Permutation_sym, Permutation_middle.
  - right. destruct (free_all_undone n own idx s Hc Ht Hf) as (s' & E' & U & Ht' & Hf'). exists s'. cbn [Z.ltb Z.compare]. rewrite (bind_ret _ _ _ _ _ _ E').
    rewrite length_app in Hl. done.
Qed.
Lemma foreach_acc_inl {X A R} (l : list X) x a a' (body : A -> X -> K (A + R)) n s s' : body a x n s = Ret (inl a') s' ->
  foreach_acc (x :: l) a body n s = foreach_acc l a' body n s'.
Proof. intros E. cbn [foreach_acc]. by rewrite (bind_ret _ _ _ _ _ _ E). Qed.
Lemma foreach_acc_inr {X A R} (l : list X) x a v (body : A -> X -> K (A + R)) n s s' : body a x n s = Ret (inr v) s' ->
  foreach_acc (x :: l) a body n s = Ret (inr v) s'.
Proof. intros E. cbn [foreach_acc]. by rewrite (bind_ret _ _ _ _ _ _ E). Qed.

(** [alloc3_desc] takes three descriptors, or none when not enough are free. *)
Lemma alloc3_run n s own : calm s -> tables_ok (k_vdisk s) -> free_ok (k_vdisk s) own ->
  (exists i0 i1 i2, let s' := upd_vdisk (take_desc i2) (upd_vdisk (take_desc i1) (upd_vdisk (take_desc i0) s)) in
     alloc3_desc n s = Ret (Some [i0; i1; i2]) s' /\ tables_ok (k_vdisk s') /\ free_ok (k_vdisk s') ([i0; i1; i2] ++ own)) \/
  (exists s', alloc3_desc n s = Ret None s' /\ undone own s s' /\ tables_ok (k_vdisk s') /\ free_ok (k_vdisk s') own /\ (5 < length own)%nat).
Proof.
  intros Hc Ht Hf. unfold alloc3_desc. change (seqZ 0 3) with [0; 1; 2]. fold alloc_body.
  destruct (alloc_body_run n s [] own 0 Hc Ht Hf) as [(i0 & E0 & Ht0 & Hf0)|(s' & E & U & Ht' & Hf' & Hl)].
  2: { right. exists s'. rewrite (bind_ret _ _ _ _ _ _ (foreach_acc_inr _ _ _ _ _ _ _ _ E)). cbn in Hl. split_and!; try done. lia. }
  set (s0 := upd_vdisk (take_desc i0) s) in *. assert (U0 : undone own s s0) by apply undone_take.
  destruct (alloc_body_run n s0 _ own 1 (undone_calm _ _ _ U0 Hc) Ht0 Hf0) as [(i1 & E1 & Ht1 & Hf1)|(s' & E & U & Ht' & Hf' & Hl)].
  2: { right. exists s'. rewrite (bind_ret _ _ _ _ _ _ (eq_trans (foreach_acc_inl _ _ _ _ _ _ _ _ E0) (foreach_acc_inr _ _ _ _ _ _ _ _ E))).
    cbn in Hl. split_and!; try done; [by apply (undone_trans own s s0)|lia]. }
  set (s1 := upd_vdisk (take_desc i1) s0) in *. assert (U1 : undone own s s1) by (apply (undone_trans own s s0); [done|apply undone_take]).
  destruct (alloc_body_run n s1 _ own 2 (undone_calm _ _ _ U1 Hc) Ht1 Hf1) as [(i2 & E2 & Ht2 & Hf2)|(s' & E & U & Ht' & Hf' & Hl)].
  - left. exists i0, i1, i2. fold s0 s1. split; [|done].
    assert (E : foreach_acc [0; 1; 2] [] alloc_body n s = Ret (inl [i0; i1; i2]) (upd_vdisk (take_desc i2) s1)).
    { rewrite (foreach_acc_inl _ _ _ _ _ _ _ _ E0), (foreach_acc_inl _ _ _ _ _ _ _ _ E1). exact (foreach_acc_inl [] _ _ _ _ _ _ _ E2). }
    by rewrite (bind_ret _ _ _ _ _ _ E).
  - right. exists s'. rewrite (bind_ret _ _ _ _ _ _ (eq_trans (foreach_acc_inl _ _ _ _ _ _ _ _ E0) (eq_trans (foreach_acc_inl _ _ _ _ _ _ _ _ E1) (foreach_acc_inr _ _ _ _ _ _ _ _ E)))).
    cbn in Hl. split_and!; try done; [by apply (undone_trans own s s1)|lia].
Qed.

(** ** Lemmas: the invariant under changes *)
Lemma req_ok_frame s s' r :
  (forall i, i ∈ owned r -> desc_at (k_vdisk s') i = desc_at (k_vdisk s) i) -> op_at (k_vdisk s') (rq_0 r) = op_at (k_vdisk s) (rq_0 r) ->
  vi_b (info_at (k_vdisk s') (rq_0 r)) = vi_b (info_at (k_vdisk s) (rq_0 r)) -> length (k_bcache s') = length (k_bcache s) ->
  b_blockno (buf_at s' (rq_buf r)) = b_blockno (buf_at s (rq_buf r)) -> (length (k_dtrace s) <= length (k_dtrace s'))%nat ->
  req_ok s r -> req_ok s' r.
Proof.
  intros Hd Ho Hi Hl Hb Ht ((H0 & H1 & H2 & H3) & H4 & H5 & H6 & H7 & H8). unfold req_ok, chained.
  rewrite !Hd by (unfold owned; set_solver). rewrite Ho, Hi, Hl, Hb. split_and!; try done; lia.
Qed.

(** The requests only depend on the descriptors they own. *)
Lemma dreqs_undone d0 s s' seen qa tk qu dn : dreqs d0 s seen qa tk qu dn -> undone (owned_all (qa ++ tk ++ qu ++ dn)) s s' -> dreqs d0 s' seen qa tk qu dn.
Proof.
  intros [Hr Hb Hbu Hid Hw Hz Ha Hu Hdk Hdn] [Ulk Ubc Udk Udt Ud [Uai Uar] (Uui & Uur & Uus) Uin Uop].
  assert (Eb : forall b, buf_at s' b = buf_at s b) by (intros; unfold buf_at; by rewrite Ubc).
  constructor; try done.
  - eapply Forall_impl_in; [exact Hr|]. intros r Hin. apply req_ok_frame; rewrite ?Eb, ?Ubc, ?Udt; try done.
    + intros i Hi. by apply Ud, (owned_all_in r).
    + unfold op_at. by rewrite Uop.
    + unfold info_at. by rewrite Uin.
  - eapply Forall_impl; [exact Hbu|]. intros r. unfold disk_is. by rewrite Eb.
  - eapply Forall_impl; [exact Hid|]. intros r. unfold disk_is. by rewrite Eb.
  - eapply Forall_impl; [exact Hw|]. intros r. unfold status_is, info_at. by rewrite Uin.
  - eapply Forall_impl; [exact Hz|]. intros r. unfold status_is, info_at. by rewrite Uin.
  - by rewrite Uai, Uar.
  - by rewrite Uui, Uur, Uus.
  - by rewrite Udk, Udt.
  - eapply Forall_impl; [exact Hdn|]. intros r. unfold transferred. by rewrite Eb, Udt.
Qed.
Lemma dinv_undone d0 s s' seen qa tk qu dn : dinv d0 s seen qa tk qu dn -> undone (owned_all (qa ++ tk ++ qu ++ dn)) s s' ->
  tables_ok (k_vdisk s') -> free_ok (k_vdisk s') (owned_all (qa ++ tk ++ qu ++ dn)) -> dinv d0 s' seen qa tk qu dn.
Proof. intros I U Ht Hf. constructor; [done|apply I|done|]. eapply dreqs_undone; [apply I|done]. Qed.

(** ** Lemmas: submission *)
Definition submit_vd (b : nat) (w : bool) (sector i0 i1 i2 : Z) (d : vdisk) : vdisk :=
  let d := set_v_ops (aset (v_ops d) i0 (mk_vreq (if w then VIRTIO_BLK_T_OUT else VIRTIO_BLK_T_IN) 0 sector)) d in
  let d := put_desc i0 (mk_vdesc (D_op (Z.to_nat i0)) 16 VRING_DESC_F_NEXT i1) d in
  let d := put_desc i1 (mk_vdesc (D_data b) BSIZE (Z.lor (if w then 0 else VRING_DESC_F_WRITE) VRING_DESC_F_NEXT) i2) d in
  let d := upd_info i0 (set_vi_status 0xff) d in
  let d := put_desc i2 (mk_vdesc (D_status (Z.to_nat i0)) 1 VRING_DESC_F_WRITE 0) d in
  let d := upd_info i0 (set_vi_b (Some b)) d in
  let d := set_av_ring (aset (av_ring d) (av_idx d mod NUM) i0) d in
  set_av_idx (u16 (av_idx d + 1)) d.
Definition submitted (b : nat) (w : bool) (sector i0 i1 i2 : Z) (s : kernel) : kernel :=
  set_k_mmio (k_mmio s ++ [(VIRTIO0 + VIRTIO_MMIO_QUEUE_NOTIFY, u32 0)]) (upd_buf b (set_b_disk 1) (upd_vdisk (submit_vd b w sector i0 i1 i2) s)).
Lemma submit_run n s b w sector i0 i1 i2 : virtio_submit b w sector i0 i1 i2 n s = Ret tt (submitted b w sector i0 i1 i2 s).
Proof. reflexivity. Qed.

Definition submit_req (r : req) : vdisk -> vdisk := submit_vd (rq_buf r) (rq_write r) (sector_of (rq_bno r)) (rq_0 r) (rq_1 r) (rq_2 r).
Lemma desc_at_put d i j v : length (v_desc d) = 8%nat -> 0 <= i < NUM -> 0 <= j < NUM ->
  desc_at (put_desc i v d) j = if decide (j = i) then v else desc_at d j.
Proof.
  intros Hl Hi Hj. change NUM with 8 in *. unfold desc_at, put_desc. cbn [v_desc set_v_desc].
  case_decide as E; [subst; apply aget_aset_eq; lia|apply aget_aset_ne; lia].
Qed.
Lemma submit_req_spec r d : tables_ok d -> NoDup (owned r) -> Forall (fun i => 0 <= i < NUM) (owned r) ->
  let d' := submit_req r d in
  tables_ok d' /\ chained d' r /\ info_at d' (rq_0 r) = mk_vinfo (Some (rq_buf r)) 0xff /\
  (forall j, 0 <= j < NUM -> j ∉ owned r -> desc_at d' j = desc_at d j) /\
  (forall j, 0 <= j < NUM -> j <> rq_0 r -> op_at d' j = op_at d j /\ info_at d' j = info_at d j).
Proof.
  intros (L1 & L2 & L3 & L4 & L5 & L6 & A1 & A2 & A3) Hn Hr d'. destruct r as [b w i0 i1 i2 bno st]. unfold owned in *. cbn [rq_0 rq_1 rq_2 rq_buf rq_write rq_bno] in *.
  rewrite !NoDup_cons, !not_elem_of_cons in Hn. destruct Hn as ((N1 & N2 & _) & (N3 & _) & _). rewrite !Forall_cons in Hr. destruct Hr as (R0 & R1 & R2 & _).
  set (da := set_v_ops (aset (v_ops d) i0 (mk_vreq (if w then VIRTIO_BLK_T_OUT else VIRTIO_BLK_T_IN) 0 (sector_of bno))) d).
  set (v0 := mk_vdesc (D_op (Z.to_nat i0)) 16 VRING_DESC_F_NEXT i1).
  set (v1 := mk_vdesc (D_data b) BSIZE (Z.lor (if w then 0 else VRING_DESC_F_WRITE) VRING_DESC_F_NEXT) i2).
  set (v2 := mk_vdesc (D_status (Z.to_nat i0)) 1 VRING_DESC_F_WRITE 0).
  assert (Ed : forall j, 0 <= j < NUM -> desc_at d' j = if decide (j = i2) then v2 else if decide (j = i1) then v1 else if decide (j = i0) then v0 else desc_at d j).
  { intros j Hj. change (desc_at d' j) with (desc_at (put_desc i2 v2 (put_desc i1 v1 (put_desc i0 v0 da))) j).
    rewrite !desc_at_put by (done || (cbn; by rewrite ?length_aset)). done. }
  assert (Ei : v_info d' = aset (aset (v_info d) i0 (set_vi_status 0xff (info_at d i0))) i0
    (set_vi_b (Some b) (aget info0 (aset (v_info d) i0 (set_vi_status 0xff (info_at d i0))) i0))) by done.
  change NUM with 8 in *. split_and!.
  - unfold tables_ok, d', submit_req, submit_vd, put_desc, upd_info. cbn. rewrite !length_aset. split_and!; try done; zlia.
  - unfold chained. cbn [rq_0 rq_1 rq_2 rq_buf rq_write rq_bno]. rewrite !Ed by done.
    rewrite (decide_False (P := i0 = i2)), (decide_False (P := i0 = i1)), (decide_False (P := i1 = i2)) by congruence. rewrite !decide_True by done.
    split_and!; try done. change (op_at d' i0) with (aget op0 (v_ops da) i0). cbn [v_ops da set_v_ops]. apply aget_aset_eq. lia.
  - unfold info_at at 1. rewrite Ei, aget_aset_eq by (rewrite length_aset; lia). rewrite aget_aset_eq by lia. done.
  - intros j Hj Hnin. rewrite !not_elem_of_cons in Hnin. rewrite Ed by done. by rewrite !decide_False by tauto.
  - intros j Hj Hne. split; [change (op_at d' j) with (aget op0 (v_ops da) j); apply aget_aset_ne; lia|].
    unfold info_at at 1. rewrite Ei, !aget_aset_ne by lia. done.
Qed.

Lemma snoc_perm (qa l : list req) r : (qa ++ [r]) ++ l ≡ₚ r :: qa ++ l.
Proof. rewrite <- (assoc_L (++)). symmetry. apply Permutation_middle. Qed.
Lemma buf_at_set_disk b v s c : (b < length (k_bcache s))%nat ->
  b_data (buf_at (upd_buf b (set_b_disk v) s) c) = b_data (buf_at s c) /\ b_blockno (buf_at (upd_buf b (set_b_disk v) s) c) = b_blockno (buf_at s c) /\
  b_disk (buf_at (upd_buf b (set_b_disk v) s) c) = if decide (c = b) then v else b_disk (buf_at s c).
Proof.
  intros Hb. case_decide as E; [subst; by rewrite buf_at_upd_eq|]. by rewrite buf_at_upd_ne.
Qed.

(** A submitted request is in the available ring. *)
Lemma submit_dinv d0 s s1 seen qa tk qu dn b w i0 i1 i2 :
  let all := qa ++ tk ++ qu ++ dn in let bno := b_blockno (buf_at s b) in let r := mk_req b w i0 i1 i2 bno (length (k_dtrace s)) in
  dinv d0 s seen qa tk qu dn -> undone (owned_all all) s s1 -> tables_ok (k_vdisk s1) -> free_ok (k_vdisk s1) ([i0; i1; i2] ++ owned_all all) ->
  (b < length (k_bcache s))%nat -> b ∉ map rq_buf all -> 0 <= bno < 2 ^ 31 ->
  dinv d0 (submitted b w (sector_of bno) i0 i1 i2 s1) seen (qa ++ [r]) tk qu dn.
Proof.
  intros all bno r I U Ht Hf Hb Hnb Hbno. pose proof Hf as (Hn & Hrg & _).
  apply NoDup_app in Hn as (Hn3 & Hdis & Hno). apply Forall_app in Hrg as [Hr3 Hro].
  destruct (submit_req_spec r (k_vdisk s1) Ht Hn3 Hr3) as (T & C & Ir & D & OI).
  set (d2 := submit_req r (k_vdisk s1)) in *.
  assert (Hfr : v_free d2 = v_free (k_vdisk s1)) by done.
  assert (Hrest : av_idx d2 = u16 (av_idx (k_vdisk s1) + 1) /\ av_ring d2 = aset (av_ring (k_vdisk s1)) (av_idx (k_vdisk s1) mod NUM) i0 /\
    us_idx d2 = us_idx (k_vdisk s1) /\ us_ring d2 = us_ring (k_vdisk s1) /\ v_used_idx d2 = v_used_idx (k_vdisk s1)) by done.
  set (s2 := submitted b w (sector_of bno) i0 i1 i2 s1).
  assert (Ev : k_vdisk s2 = d2) by done. assert (Edk : k_disk s2 = k_disk s1 /\ k_dtrace s2 = k_dtrace s1) by done.
  destruct U as [Ulk Ubc Udk Udt Ud [Uai Uar] (Uui & Uur & Uus) Uin Uop].
  assert (El : length (k_bcache s2) = length (k_bcache s)) by (rewrite <- Ubc; exact (length_upd_buf b (set_b_disk 1) s1)).
  assert (Eb : forall c, b_data (buf_at s2 c) = b_data (buf_at s c) /\ b_blockno (buf_at s2 c) = b_blockno (buf_at s c) /\
    b_disk (buf_at s2 c) = if decide (c = b) then 1 else b_disk (buf_at s c)).
  { intros c. assert (Hb1 : (b < length (k_bcache s1))%nat) by (by rewrite Ubc). pose proof (buf_at_set_disk b 1 s1 c Hb1) as H.
    assert (E1 : buf_at s1 c = buf_at s c) by (unfold buf_at; by rewrite Ubc). rewrite E1 in H. exact H. }
  clearbody s2 d2. destruct Edk as [Edk Edt]. destruct Hrest as (Ra & Rr & Rui & Rur & Rus).
  assert (Hne : forall x, x ∈ all -> rq_buf x <> b) by (intros x Hx E; apply Hnb; rewrite <- E; apply list_elem_of_fmap; eauto).
  assert (H0 : forall x, x ∈ all -> 0 <= rq_0 x < NUM /\ rq_0 x <> i0).
  { intros x Hx. assert (Hin : rq_0 x ∈ owned_all all) by (apply (owned_all_in x); [done|unfold owned; set_solver]).
    rewrite Forall_forall in Hro. split; [by apply Hro|]. intros E. apply (Hdis i0); [set_solver|by rewrite <- E]. }
  destruct I as [It Is If [Ir0 Ibu Iby Iid Iw Iz Ia Iu Idk Idn]].
  constructor; [by rewrite Ev|done| |constructor; try done]; rewrite ?Ev.
  - eapply free_ok_perm; [|unfold free_ok; rewrite Hfr; exact Hf].
    change ([i0; i1; i2] ++ owned_all all) with (owned_all (r :: all)). apply owned_all_perm. symmetry. apply snoc_perm.
  - rewrite snoc_perm. apply Forall_cons. split.
    + unfold req_ok. rewrite Ev, Ir, El. destruct (Eb b) as (_ & E2 & _). cbn [rq_buf rq_bno rq_start r]. rewrite E2, Edt, Udt. split_and!; try done; lia.
    + eapply Forall_impl_in; [exact Ir0|]. intros x Hx. destruct (H0 x Hx) as [Hx0 Hx1]. apply req_ok_frame.
      * intros i Hi. rewrite Ev. assert (Hin : i ∈ owned_all all) by (by apply (owned_all_in x)). rewrite D; [by apply Ud| |].
        -- rewrite Forall_forall in Hro. by apply Hro.
        -- intros Hi'. by apply (Hdis i).
      * rewrite Ev. rewrite (proj1 (OI (rq_0 x) Hx0 Hx1)). unfold op_at. by rewrite Uop.
      * rewrite Ev. rewrite (proj2 (OI (rq_0 x) Hx0 Hx1)). unfold info_at. by rewrite Uin.
      * done.
      * apply Eb.
      * by rewrite Edt, Udt.
  - rewrite (Permutation_map rq_buf (snoc_perm _ _ _)). cbn [map]. apply NoDup_cons. done.
  - rewrite snoc_perm. apply Forall_cons. split; [unfold disk_is; rewrite (proj2 (proj2 (Eb _))); by rewrite decide_True|].
    eapply Forall_impl_in; [exact Iby|]. intros x Hx. unfold disk_is. rewrite (proj2 (proj2 (Eb _))), decide_False; [done|]. apply Hne. unfold all. set_solver.
  - eapply Forall_impl_in; [exact Iid|]. intros x Hx. unfold disk_is. rewrite (proj2 (proj2 (Eb _))), decide_False; [done|]. apply Hne. unfold all. set_solver.
  - rewrite snoc_perm. apply Forall_cons. split; [unfold status_is; change (rq_0 r) with i0 in *; by rewrite Ir|].
    eapply Forall_impl_in; [exact Iw|]. intros x Hx. assert (Hxa : x ∈ all) by (unfold all; set_solver). destruct (H0 x Hxa).
    unfold status_is. rewrite (proj2 (OI (rq_0 x) ltac:(done) ltac:(done))). unfold info_at. by rewrite Uin.
  - eapply Forall_impl_in; [exact Iz|]. intros x Hx. assert (Hxa : x ∈ all) by (unfold all; set_solver). destruct (H0 x Hxa).
    unfold status_is. rewrite (proj2 (OI (rq_0 x) ltac:(done) ltac:(done))). unfold info_at. by rewrite Uin.
  - rewrite Ra, Rr, Uai, Uar. rewrite map_app. apply ring_push; [done| |apply It]. rewrite length_map.
    pose proof (free_ok_length _ _ If) as Hlen. fold all in Hlen. rewrite owned_all_length in Hlen. unfold all in Hlen. rewrite length_app in Hlen. lia.
  - by rewrite Rui, Rur, Rus, Uui, Uur, Uus.
  - by rewrite Edk, Edt, Udk, Udt.
  - eapply Forall_impl; [exact Idn|]. intros x. unfold transferred. by rewrite (proj1 (Eb _)), Edt, Udt.
Qed.

(** ** Lemmas: completion *)
Definition disk_finish (i0 : Z) : K unit := vset (upd_info i0 (set_vi_b None)) ;; free_chain i0.

Lemma iter_inl {A B} (body : A -> K (A + B)) m n a a' s s' : body a n s = Ret (inl a') s' -> iter_upto (S m) body a n s = iter_upto m body a' n s'.
Proof. intros E. cbn [iter_upto]. by rewrite (bind_ret _ _ _ _ _ _ E). Qed.
Lemma iter_inr {A B} (body : A -> K (A + B)) m n a b s s' : body a n s = Ret (inr b) s' -> iter_upto (S m) body a n s = Ret b s'.
Proof. intros E. cbn [iter_upto]. by rewrite (bind_ret _ _ _ _ _ _ E). Qed.

Definition chain_body (i : Z) : K (Z + unit) :=
  let* d := vget (fun d => desc_at d i) in free_desc i ;; if ctrue (Z.land (d_flags d) VRING_DESC_F_NEXT) then ret (inl (d_next d)) else ret (inr tt).
Lemma chain_body_run n s i own v : calm s -> tables_ok (k_vdisk s) -> free_ok (k_vdisk s) (i :: own) -> desc_at (k_vdisk s) i = v ->
  exists s', chain_body i n s = Ret (if ctrue (Z.land (d_flags v) VRING_DESC_F_NEXT) then inl (d_next v) else inr tt) s' /\
    undone own s s' /\ tables_ok (k_vdisk s') /\ free_ok (k_vdisk s') own.
Proof.
  intros Hc Ht Hf <-. destruct (free_desc_undone n s i own Hc Ht Hf) as (s' & E & U & ? & ?). exists s'. split; [|done].
  unfold chain_body, vget. rewrite bind_gets, (bind_ret _ _ _ _ _ _ E). by destruct (ctrue _).
Qed.
Lemma free_chain_run n s r own : (2 < n)%nat -> calm s -> tables_ok (k_vdisk s) -> free_ok (k_vdisk s) (owned r ++ own) -> chained (k_vdisk s) r ->
  exists s', free_chain (rq_0 r) n s = Ret tt s' /\ undone own s s' /\ tables_ok (k_vdisk s') /\ free_ok (k_vdisk s') own.
Proof.
  intros Hn Hc Ht Hf (C0 & C1 & C2 & _). unfold free_chain, loop. fold chain_body. destruct n as [|[|[|n]]]; try lia. set (N := S (S (S n))) at 2. clearbody N.
  destruct (chain_body_run N s (rq_0 r) _ _ Hc Ht Hf C0) as (s1 & E1 & U1 & T1 & F1). cbn in E1. rewrite (iter_inl _ _ _ _ _ _ _ E1).
  rewrite <- (un_desc _ _ _ U1) in C1, C2 by set_solver. pose proof (undone_calm _ _ _ U1 Hc) as Hc1.
  destruct (chain_body_run N s1 (rq_1 r) _ _ Hc1 T1 F1 C1) as (s2 & E2 & U2 & T2 & F2). cbn [d_flags d_next] in E2.
  assert (El : ctrue (Z.land (Z.lor (if rq_write r then 0 else VRING_DESC_F_WRITE) VRING_DESC_F_NEXT) VRING_DESC_F_NEXT) = true) by (by destruct (rq_write r)).
  rewrite El in E2. rewrite (iter_inl _ _ _ _ _ _ _ E2). rewrite <- (un_desc _ _ _ U2) in C2 by set_solver. pose proof (undone_calm _ _ _ U2 Hc1) as Hc2.
  destruct (chain_body_run N s2 (rq_2 r) _ _ Hc2 T2 F2 C2) as (s3 & E3 & U3 & T3 & F3). cbn in E3. rewrite (iter_inr _ _ _ _ _ _ _ E3).
  exists s3. split; [done|]. split; [|done]. apply (undone_trans own s s2); [apply (undone_trans own s s1)|done]; eapply undone_weaken; [|exact U1| |exact U2]; set_solver.
Qed.

Lemma done_perm (qa tk qu dn1 dn2 : list req) r : qa ++ tk ++ qu ++ dn1 ++ r :: dn2 ≡ₚ r :: qa ++ tk ++ qu ++ dn1 ++ dn2.
Proof. rewrite !(assoc_L (++)). symmetry. apply Permutation_middle. Qed.
Lemma dreqs_drop d0 s seen qa tk qu dn1 r dn2 : dreqs d0 s seen qa tk qu (dn1 ++ r :: dn2) -> dreqs d0 s seen qa tk qu (dn1 ++ dn2).
Proof.
  intros [Hr Hb Hbu Hid Hw Hz Ha Hu Hdk Hdn]. constructor; try done.
  - rewrite done_perm in Hr. by apply Forall_cons in Hr as [_ ?].
  - rewrite (Permutation_map rq_buf (done_perm _ _ _ _ _ _)) in Hb. by apply NoDup_cons in Hb as [_ ?].
  - rewrite Forall_app, Forall_cons in Hid. rewrite Forall_app. tauto.
  - rewrite !Forall_app, Forall_cons in Hdn. rewrite !Forall_app. tauto.
Qed.
Lemma dreqs_info d0 s seen qa tk qu dn i0 f : tables_ok (k_vdisk s) -> 0 <= i0 < NUM ->
  (forall x, x ∈ qa ++ tk ++ qu ++ dn -> 0 <= rq_0 x < NUM /\ rq_0 x <> i0) ->
  dreqs d0 s seen qa tk qu dn -> dreqs d0 (upd_vdisk (upd_info i0 f) s) seen qa tk qu dn.
Proof.
  intros Ht Hi0 Hne [Hr Hb Hbu Hid Hw Hz Ha Hu Hdk Hdn]. change NUM with 8 in *.
  assert (Ei : forall x, x ∈ qa ++ tk ++ qu ++ dn -> info_at (upd_info i0 f (k_vdisk s)) (rq_0 x) = info_at (k_vdisk s) (rq_0 x)).
  { intros x Hx. destruct (Hne x Hx). unfold info_at, upd_info. cbn [v_info set_v_info]. apply aget_aset_ne; lia. }
  constructor; try done.
  - eapply Forall_impl_in; [exact Hr|]. intros x Hx. apply req_ok_frame; try done. change (k_vdisk (upd_vdisk (upd_info i0 f) s)) with (upd_info i0 f (k_vdisk s)). by rewrite Ei.
  - eapply Forall_impl_in; [exact Hw|]. intros x Hx. unfold status_is. change (k_vdisk (upd_vdisk (upd_info i0 f) s)) with (upd_info i0 f (k_vdisk s)).
    rewrite Ei by set_solver. done.
  - eapply Forall_impl_in; [exact Hz|]. intros x Hx. unfold status_is. change (k_vdisk (upd_vdisk (upd_info i0 f) s)) with (upd_info i0 f (k_vdisk s)).
    rewrite Ei by set_solver. done.
Qed.

(** The heads of the requests are distinct descriptors. *)
Lemma heads_ok d l : free_ok d (owned_all l) -> (forall x, x ∈ l -> 0 <= rq_0 x < NUM) /\ NoDup (map rq_0 l).
Proof.
  intros (Hn & Hr & _). split.
  - intros x Hx. rewrite Forall_forall in Hr. apply Hr, (owned_all_in x); [done|]. unfold owned. set_solver.
  - clear Hr. induction l as [|x l IH]; [by apply NoDup_nil|]. change (owned_all (x :: l)) with (owned x ++ owned_all l) in Hn.
    apply NoDup_app in Hn as (_ & Hd & Hn). cbn [map]. apply NoDup_cons. split; [|by apply IH]. intros (y & E & Hy)%list_elem_of_fmap.
    apply (Hd (rq_0 x)); [unfold owned; set_solver|]. rewrite E. apply (owned_all_in y); [done|]. unfold owned. set_solver.
Qed.
Lemma head_fresh d l r : free_ok d (owned_all (r :: l)) -> forall x, x ∈ l -> 0 <= rq_0 x < NUM /\ rq_0 x <> rq_0 r.
Proof.
  intros Hf x Hx. destruct (heads_ok d _ Hf) as [H1 H2]. split; [apply H1; by right|]. cbn in H2. apply NoDup_cons in H2 as [Hn _].
  intros E. apply Hn. rewrite <- E. apply list_elem_of_fmap. eauto.
Qed.

Lemma disk_finish_run n d0 s seen qa tk qu dn1 r dn2 : (2 < n)%nat -> calm s -> dinv d0 s seen qa tk qu (dn1 ++ r :: dn2) ->
  exists s', disk_finish (rq_0 r) n s = Ret tt s' /\ k_lk s' = k_lk s /\ k_bcache s' = k_bcache s /\ k_disk s' = k_disk s /\ k_dtrace s' = k_dtrace s /\
    dinv d0 s' seen qa tk qu (dn1 ++ dn2).
Proof.
  intros Hn Hc [Ht Hs Hf Hd]. set (rest := qa ++ tk ++ qu ++ dn1 ++ dn2).
  pose proof (free_ok_perm _ _ _ (owned_all_perm _ _ (done_perm _ _ _ _ _ _)) Hf) as Hf'. pose proof (heads_ok _ _ Hf') as [Hh _]. pose proof (head_fresh _ _ _ Hf') as Hfr.
  fold rest in Hf', Hfr. specialize (Hh r ltac:(by left)). set (s1 := upd_vdisk (upd_info (rq_0 r) (set_vi_b None)) s).
  assert (T1 : tables_ok (k_vdisk s1)) by (destruct Ht as (? & ? & ? & ? & ? & ?); unfold tables_ok, s1, upd_info; cbn; by rewrite length_aset).
  pose proof (dreqs_info d0 s seen qa tk qu (dn1 ++ dn2) (rq_0 r) (set_vi_b None) Ht Hh Hfr (dreqs_drop _ _ _ _ _ _ _ _ _ Hd)) as Hd1. fold s1 in Hd1.
  assert (Cr : chained (k_vdisk s1) r).
  { pose proof (dr_ok _ _ _ _ _ _ _ Hd) as Hr. rewrite done_perm in Hr. by apply Forall_cons in Hr as [(? & _) _]. }
  destruct (free_chain_run n s1 r (owned_all rest) Hn Hc T1 Hf' Cr) as (s' & E & U & T' & F'). exists s'.
  unfold disk_finish, vset. rewrite bind_modify. split; [done|]. split_and!; try apply U. constructor; try done. by apply (dreqs_undone d0 s1).
Qed.

(** ** Lemmas: the interrupt handler *)

(** The processes sleeping on one of the channels, but for the caller, have
    become RUNNABLE. *)
Definition woken (me : option nat) (chs : list chan) (s s' : kernel) : Prop :=
  length (k_procs s') = length (k_procs s) /\
  forall p, p ∈ proc_ix -> (p < length (k_procs s))%nat ->
    proc_at s' p = if bool_decide (p_state (proc_at s p) = SLEEPING /\ p_chan (proc_at s p) ∈ chs /\ me <> Some p)
                   then set_p_state RUNNABLE (proc_at s p) else proc_at s p.
Lemma woken_nil me s s' : k_procs s' = k_procs s -> woken me [] s s'.
Proof.
  intros E. split; [by rewrite E|]. intros p _ _. rewrite bool_decide_false by (intros (_ & H & _); by apply elem_of_nil in H). unfold proc_at. by rewrite E.
Qed.
Lemma woken_cons me ch chs s s1 s' : k_procs s1 = k_procs (wakeup_st me ch s) -> woken me chs s1 s' -> woken me (ch :: chs) s s'.
Proof.
  intros E [Hl Hw]. assert (El : length (k_procs s1) = length (k_procs s)) by (rewrite E; unfold wakeup_st; apply upd_procs_length).
  split; [congruence|]. intros p Hp Hlt. rewrite (Hw p Hp) by lia.
  assert (E1 : proc_at s1 p = wake_one me ch p (proc_at s p)).
  { unfold proc_at at 1. rewrite E. change (k_procs (wakeup_st me ch s) !!! p) with (proc_at (wakeup_st me ch s) p). unfold wakeup_st.
    rewrite proc_at_upd_procs by (done || apply NoDup_seq). by rewrite decide_True. }
  rewrite E1. unfold wake_one. destruct (decide (me = Some p)) as [Em|Em].
  { rewrite !bool_decide_false by tauto. done. }
  destruct (bool_decide (p_state (proc_at s p) = SLEEPING) && bool_decide (p_chan (proc_at s p) = ch)) eqn:Eb.
  - apply andb_prop in Eb as [Hs Hc]. apply bool_decide_eq_true in Hs, Hc. rewrite (bool_decide_false (_ /\ _)) by (intros (H & _); done).
    rewrite bool_decide_true; [done|]. rewrite Hc. split_and!; [done|by left|done].
  - rewrite (bool_decide_ext _ (p_state (proc_at s p) = SLEEPING /\ p_chan (proc_at s p) ∈ ch :: chs /\ me <> Some p)); [done|].
    rewrite elem_of_cons. split; [tauto|]. intros (H1 & [H2|H2] & _); [|tauto]. by rewrite !bool_decide_true in Eb.
Qed.

(** The handler moves the oldest finished request to those seen. *)
Lemma seen_perm (qa tk qu dn : list req) r : qa ++ tk ++ (r :: qu) ++ dn ≡ₚ qa ++ tk ++ qu ++ r :: dn.
Proof. do 2 apply Permutation_app_head. apply Permutation_middle. Qed.
Lemma intr_move d0 s s1 seen qa tk r qu dn : dinv d0 s seen qa tk (r :: qu) dn ->
  k_vdisk s1 = set_v_used_idx (u16 (v_used_idx (k_vdisk s) + 1)) (k_vdisk s) -> k_bcache s1 = k_bcache (upd_buf (rq_buf r) (set_b_disk 0) s) ->
  k_disk s1 = k_disk s -> k_dtrace s1 = k_dtrace s -> dinv d0 s1 seen qa tk qu (r :: dn).
Proof.
  intros [Ht Hs Hf [Hr Hb Hbu Hid Hw Hz Ha Hu Hdk Hdn]] Ev Ebc Ed Et.
  rewrite !Forall_app, Forall_cons in Hbu. destruct Hbu as (Ba & Bt & Br & Bu).
  assert (Hrb : (rq_buf r < length (k_bcache s))%nat) by (rewrite !Forall_app, Forall_cons in Hr; apply Hr).
  assert (Eb : forall c, b_data (buf_at s1 c) = b_data (buf_at s c) /\ b_blockno (buf_at s1 c) = b_blockno (buf_at s c) /\
    b_disk (buf_at s1 c) = if decide (c = rq_buf r) then 0 else b_disk (buf_at s c)).
  { intros c. pose proof (buf_at_set_disk (rq_buf r) 0 s c Hrb) as H. unfold buf_at at 1 3 5. rewrite Ebc. exact H. }
  assert (Hne : forall x, x ∈ qa ++ tk ++ qu ++ dn -> rq_buf x <> rq_buf r).
  { intros x Hx E. rewrite (Permutation_map rq_buf (seen_perm _ _ _ _ _)), (Permutation_map rq_buf (done_perm qa tk qu [] dn r)) in Hb.
    cbn [map] in Hb. apply NoDup_cons in Hb as [Hn _]. apply Hn. rewrite <- E. apply list_elem_of_fmap. eauto. }
  assert (Hkeep : forall v l, l ⊆ qa ++ tk ++ qu ++ dn -> Forall (disk_is s v) l -> Forall (disk_is s1 v) l).
  { intros v l Hl H. eapply Forall_impl_in; [exact H|]. intros x Hx. unfold disk_is. rewrite (proj2 (proj2 (Eb _))), decide_False; [done|]. by apply Hne, Hl. }
  constructor; [| |rewrite Ev|constructor]; try done.
  - rewrite Ev. destruct Ht as (? & ? & ? & ? & ? & ? & ? & ? & ?). unfold tables_ok. cbn. split_and!; try done; zlia.
  - by apply (free_ok_perm _ _ _ (owned_all_perm _ _ (seen_perm _ _ _ _ _))).
  - rewrite <- seen_perm. eapply Forall_impl_in; [exact Hr|]. intros x Hx. apply req_ok_frame; try (by rewrite Ev); [|apply Eb|by rewrite Et].
    rewrite Ebc. apply length_upd_buf.
  - by rewrite <- (Permutation_map rq_buf (seen_perm _ _ _ _ _)).
  - apply (Hkeep 1); [set_solver|]. by rewrite !Forall_app.
  - apply Forall_cons. split; [unfold disk_is; rewrite (proj2 (proj2 (Eb _))); by rewrite decide_True|]. apply Hkeep; [set_solver|done].
  - by rewrite Ev.
  - apply Forall_cons in Hz as [_ Hz]. by rewrite Ev.
  - by rewrite Ev.
  - rewrite Ev. by apply ring_pop in Hu as [_ Hu].
  - by rewrite Ed, Et.
  - cbn [app] in Hdn. apply Forall_cons in Hdn as [Hd1 Hd2]. rewrite Forall_app in Hd2. rewrite Forall_app, Forall_cons.
    assert (Ht' : forall x, transferred d0 s x -> transferred d0 s1 x) by (intros x; unfold transferred; by rewrite (proj1 (Eb _)), Et).
    split_and!; [| by apply Ht'|]; (eapply Forall_impl; [apply Hd2|done]).
Qed.

Definition intr_body (_ : unit) : K (unit + unit) :=
  let* d := vget id in
  if v_used_idx d =? us_idx d then ret (inr tt) else
  let i := aget 0 (us_ring d) (v_used_idx d mod NUM) in
  let inf := aget info0 (v_info d) i in
  if negb (vi_status inf =? 0) then panic "virtio_disk_intr status" else
  match vi_b inf with
  | None => panic "kerneltrap"
  | Some b => bset b (set_b_disk 0) ;; wakeup (C_buf b) ;; vset (fun d => set_v_used_idx (u16 (v_used_idx d + 1)) d) ;; ret (inl tt)
  end.
Definition intr_state (r : req) (s : kernel) : kernel :=
  upd_vdisk (fun d => set_v_used_idx (u16 (v_used_idx d + 1)) d)
    (wakeup_st (c_proc (cpu_of (k_lk s))) (C_buf (rq_buf r)) (upd_buf (rq_buf r) (set_b_disk 0) s)).
Lemma used_short d0 s seen qa tk qu dn : dinv d0 s seen qa tk qu dn -> (length (map rq_0 qu) <= 8)%nat.
Proof.
  intros [_ _ Hf _]. apply free_ok_length in Hf. rewrite owned_all_length, !length_app in Hf. rewrite length_map. lia.
Qed.
Lemma intr_body_run n d0 s seen qa tk r qu dn : calm s -> dinv d0 s seen qa tk (r :: qu) dn -> intr_body tt n s = Ret (inl tt) (intr_state r s).
Proof.
  intros [Hc Hp] I. pose proof (used_short _ _ _ _ _ _ _ I) as Hl. destruct I as [Ht Hs Hf [Hr _ _ _ _ Hz _ Hu _ _]].
  unfold intr_body, vget. rewrite bind_gets. unfold id at 1 2.
  rewrite (ring_empty _ _ _ _ Hu) by (done || apply Ht). rewrite bool_decide_false by done. cbv zeta. unfold id.
  destruct (ring_pop _ _ _ _ _ Hu) as [Ei _]. rewrite Ei.
  apply Forall_cons in Hz as [Hz _]. unfold status_is, info_at in Hz. rewrite Hz. cbn [Z.eqb negb].
  rewrite !Forall_app, Forall_cons in Hr. destruct Hr as (_ & _ & ((_ & Hb & _) & _) & _). unfold info_at in Hb. rewrite Hb.
  unfold bset, vset. rewrite bind_modify, (bind_ret _ _ _ _ _ _ (wakeup_run n (upd_buf (rq_buf r) (set_b_disk 0) s) (C_buf (rq_buf r)) Hc Hp)). done.
Qed.

Lemma intr_loop_run d0 n qu : forall m s seen qa tk dn, (length qu < m)%nat -> calm s -> dinv d0 s seen qa tk qu dn ->
  exists s' dn', iter_upto m intr_body tt n s = Ret tt s' /\ dn' ≡ₚ qu ++ dn /\ dinv d0 s' seen qa tk [] dn' /\
    k_lk s' = k_lk s /\ k_disk s' = k_disk s /\ k_dtrace s' = k_dtrace s /\ woken (c_proc (cpu_of (k_lk s))) (map (fun r => C_buf (rq_buf r)) qu) s s'.
Proof.
  induction qu as [|r qu IH]; intros m s seen qa tk dn Hm Hc I; (destruct m as [|m]; [cbn in Hm; lia|]).
  - exists s, dn. assert (E : intr_body tt n s = Ret (inr tt) s).
    { destruct I as [Ht _ _ [_ _ _ _ _ _ _ Hu _ _]]. unfold intr_body, vget. rewrite bind_gets. unfold id at 1 2.
      rewrite (ring_empty _ _ _ _ Hu) by (cbn; lia || apply Ht). by rewrite bool_decide_true. }
    rewrite (iter_inr _ _ _ _ _ _ _ E). split_and!; try done. by apply woken_nil.
  - rewrite (iter_inl _ _ _ _ _ _ _ (intr_body_run n d0 s seen qa tk r qu dn Hc I)). set (s1 := intr_state r s).
    assert (F : k_vdisk s1 = set_v_used_idx (u16 (v_used_idx (k_vdisk s) + 1)) (k_vdisk s) /\ k_bcache s1 = k_bcache (upd_buf (rq_buf r) (set_b_disk 0) s) /\
      k_disk s1 = k_disk s /\ k_dtrace s1 = k_dtrace s /\ k_lk s1 = k_lk s /\ k_procs s1 = k_procs (wakeup_st (c_proc (cpu_of (k_lk s))) (C_buf (rq_buf r)) s)).
    { unfold s1, intr_state. set (me := c_proc _). assert (Ep : forall s', wakeup_st me (C_buf (rq_buf r)) s' = set_k_procs (k_procs (wakeup_st me (C_buf (rq_buf r)) s')) s') by (intros; apply upd_procs_rest).
      rewrite Ep. by split_and!. }
    destruct F as (F1 & F2 & F3 & F4 & F5 & F6). clearbody s1.
    destruct (IH m s1 seen qa tk (r :: dn) ltac:(cbn in Hm; lia) (calm_eq _ _ F5 Hc) (intr_move _ _ _ _ _ _ _ _ _ I F1 F2 F3 F4))
      as (s' & dn' & E & P & I' & L & D & T & W). exists s', dn'. split; [done|]. split; [by rewrite P, <- Permutation_middle|].
    rewrite F5 in W. split_and!; try done; try congruence. cbn [map]. by apply (woken_cons _ _ _ s s1).
Qed.

Lemma calm_acq s : calm s -> calm (upd_lk (acq L_vdisk) s).
Proof.
  intros [Hc Hp]. split; [by apply acq_cpu_ok|]. intros p Hin Hne. apply acq_free_ne; [discriminate|]. apply Hp; [done|].
  change (k_lk (upd_lk (acq L_vdisk) s)) with (acq L_vdisk (k_lk s)) in Hne. by rewrite acq_c_proc in Hne.
Qed.
(** A state that differs in the locks, the processes and the device registers
    describes the same requests. *)
Lemma dinv_same d0 s s' seen qa tk qu dn : k_vdisk s' = k_vdisk s -> k_bcache s' = k_bcache s -> k_disk s' = k_disk s -> k_dtrace s' = k_dtrace s ->
  dinv d0 s seen qa tk qu dn -> dinv d0 s' seen qa tk qu dn.
Proof.
  intros Ev Eb Ed Et [Ht Hs Hf [Hr Hb Hbu Hid Hw Hz Ha Hu Hdk Hdn]]. constructor; [by rewrite Ev|done|by rewrite Ev|]. rewrite <- Ev in *.
  assert (E : forall b, buf_at s' b = buf_at s b) by (intros; unfold buf_at; by rewrite Eb).
  constructor; try done.
  - eapply Forall_impl; [exact Hr|]. intros r. unfold req_ok. by rewrite E, Eb, Et, Ev.
  - eapply Forall_impl; [exact Hbu|]. intros r. unfold disk_is. by rewrite E.
  - eapply Forall_impl; [exact Hid|]. intros r. unfold disk_is. by rewrite E.
  - by rewrite Ed, Et.
  - eapply Forall_impl; [exact Hdn|]. intros r. unfold transferred. by rewrite E, Et.
Qed.

(** The whole handler. *)
Lemma virtio_disk_intr_run d0 n s seen qa tk qu dn : (8 < n)%nat -> calm s -> lk_free L_vdisk (k_lk s) -> dinv d0 s seen qa tk qu dn ->
  exists s' dn', virtio_disk_intr n s = Ret tt s' /\ dn' ≡ₚ qu ++ dn /\ dinv d0 s' seen qa tk [] dn' /\ k_lk s' = k_lk s /\
    k_disk s' = k_disk s /\ k_dtrace s' = k_dtrace s /\ woken (c_proc (cpu_of (k_lk s))) (map (fun r => C_buf (rq_buf r)) qu) s s'.
Proof.
  intros Hn Hc Hl I. unfold virtio_disk_intr. rewrite (bind_ret _ _ _ _ _ _ (acquire_run n s L_vdisk (proj1 Hc) Hl)).
  unfold R_read, R_write. rewrite bind_gets, bind_modify. set (s1 := set_k_mmio _ _).
  assert (I1 : dinv d0 s1 seen qa tk qu dn) by (by apply (dinv_same d0 s)). assert (C1 : calm s1) by (exact (calm_acq s Hc)).
  assert (L1 : k_lk s1 = acq L_vdisk (k_lk s)) by done. assert (P1 : k_procs s1 = k_procs s /\ k_disk s1 = k_disk s /\ k_dtrace s1 = k_dtrace s) by done.
  clearbody s1. pose proof (used_short _ _ _ _ _ _ _ I) as Hs. rewrite length_map in Hs.
  destruct (intr_loop_run d0 n qu n s1 seen qa tk dn ltac:(lia) C1 I1) as (s2 & dn' & E & P & I2 & L2 & D2 & T2 & W).
  assert (E' : loop intr_body tt n s1 = Ret tt s2) by exact E. fold intr_body. rewrite (bind_ret _ _ _ _ _ _ E').
  rewrite L1 in L2. rewrite release_run.
  - exists (upd_lk (rel L_vdisk) s2), dn'. split_and!; try done.
    + by apply (dinv_same d0 s2).
    + change (k_lk (upd_lk (rel L_vdisk) s2)) with (rel L_vdisk (k_lk s2)). rewrite L2. apply rel_acq; [apply Hc|done].
    + etrans; [exact D2|apply P1].
    + etrans; [exact T2|apply P1].
    + rewrite L1, acq_c_proc in W by apply Hc. destruct W as [Wl W]. destruct P1 as (P1 & _). unfold woken, proc_at in *. rewrite P1 in *. done.
  - rewrite L2. apply acq_cpu_ok, Hc.
  - rewrite L2. apply acq_held.
  - rewrite L2, acq_noff by apply Hc. destruct Hc as [(_ & _ & H & _) _]. lia.
Qed.

(** ** Lemmas: the device *)
Lemma take_perm (qa tk l : list req) r : (r :: qa) ++ tk ++ l ≡ₚ qa ++ (tk ++ [r]) ++ l.
Proof. rewrite <- (assoc_L (++) tk). cbn [app]. by rewrite <- (Permutation_middle tk), <- Permutation_middle. Qed.
Lemma serve_perm (qa t1 t2 qu dn : list req) r : qa ++ (t1 ++ r :: t2) ++ qu ++ dn ≡ₚ qa ++ (t1 ++ t2) ++ (qu ++ [r]) ++ dn.
Proof.
  apply Permutation_app_head. rewrite <- (assoc_L (++) qu). cbn [app]. rewrite <- !(assoc_L (++)). apply Permutation_app_head. cbn [app].
  rewrite !(assoc_L (++)). apply Permutation_middle.
Qed.
Lemma take_dinv d0 s seen r qa tk qu dn : dinv d0 s seen (r :: qa) tk qu dn ->
  aget 0 (av_ring (k_vdisk s)) (seen mod NUM) = rq_0 r /\ dinv d0 s (u16 (seen + 1)) qa (tk ++ [r]) qu dn.
Proof.
  intros [Ht Hs Hf [Hr Hb Hbu Hid Hw Hz Ha Hu Hdk Hdn]]. destruct (ring_pop _ _ _ _ _ Ha) as [E Ha']. split; [done|].
  constructor; [done|zlia| |constructor; try done].
  - by apply (free_ok_perm _ _ _ (owned_all_perm _ _ (take_perm _ _ _ _))).
  - by rewrite <- take_perm.
  - by rewrite <- (Permutation_map rq_buf (take_perm _ _ _ _)).
  - by rewrite <- take_perm.
  - pose proof (take_perm qa tk [] r) as P. rewrite !app_nil_r in P. by rewrite <- P.
Qed.

Lemma replay_snoc d tr e : replay d (tr ++ [e]) = <[fst e := snd e]> (replay d tr).
Proof. unfold replay. by rewrite fold_left_app. Qed.
(** A completed transfer stays one while the trace grows. *)
Lemma transferred_grows d0 s s' l x : k_dtrace s' = k_dtrace s ++ l -> b_data (buf_at s' (rq_buf x)) = b_data (buf_at s (rq_buf x)) ->
  (rq_start x <= length (k_dtrace s))%nat -> transferred d0 s x -> transferred d0 s' x.
Proof.
  intros Et Eb Hst. unfold transferred. rewrite Et, Eb. destruct (rq_write x).
  - intros H. rewrite drop_app_le by done. apply elem_of_app. by left.
  - intros (k & Hk & E). exists k. rewrite length_app. split; [lia|]. by rewrite take_app_le by lia.
Qed.
Lemma sector_roundtrip bno : 0 <= bno < 2 ^ 31 -> sector_of bno / (BSIZE / 512) = bno.
Proof. unfold sector_of. change (BSIZE / 512) with 2. intros H. rewrite u32_small by lia. apply Z.div_mul. lia. Qed.

(** What the transfer changes. *)
Lemma served_facts d0 s r : req_ok s r -> k_disk s = replay d0 (k_dtrace s) ->
  let s' := served r s in
  k_vdisk s' = push_used (rq_0 r) (k_vdisk s) /\ length (k_bcache s') = length (k_bcache s) /\ k_disk s' = replay d0 (k_dtrace s') /\
  (exists l, k_dtrace s' = k_dtrace s ++ l) /\ transferred d0 s' r /\
  (forall c, b_blockno (buf_at s' c) = b_blockno (buf_at s c) /\ b_disk (buf_at s' c) = b_disk (buf_at s c) /\
             (c <> rq_buf r -> b_data (buf_at s' c) = b_data (buf_at s c))).
Proof.
  intros (_ & _ & Hl & _ & Hbno & Hst) Hd s'. unfold s', served. rewrite sector_roundtrip by done. unfold dev_transfer, transferred. destruct (rq_write r) eqn:Ew.
  - set (e := (rq_bno r, b_data (buf_at s (rq_buf r)))). split_and!; try done; try (by exists [e]).
    + change (<[rq_bno r := b_data (buf_at s (rq_buf r))]> (k_disk s) = replay d0 (k_dtrace s ++ [e])). rewrite replay_snoc. by rewrite <- Hd.
    + change (e ∈ drop (rq_start r) (k_dtrace s ++ [e])). rewrite drop_app_le by done. set_solver.
  - set (s1 := upd_buf (rq_buf r) (set_b_data (disk_block s (rq_bno r))) s).
    assert (Eb : forall c, buf_at s1 c = if decide (c = rq_buf r) then set_b_data (disk_block s (rq_bno r)) (buf_at s c) else buf_at s c).
    { intros c. case_decide as E; [subst; by apply buf_at_upd_eq|by apply buf_at_upd_ne]. }
    change (buf_at (upd_vdisk (push_used (rq_0 r)) s1)) with (buf_at s1). split_and!; try done.
    + apply length_upd_buf.
    + exists []. by rewrite app_nil_r.
    + exists (length (k_dtrace s)). split; [done|]. rewrite Eb, decide_True by done. cbn [b_data set_b_data].
      change (k_dtrace (upd_vdisk (push_used (rq_0 r)) s1)) with (k_dtrace s). rewrite take_ge by done. unfold disk_block. by rewrite Hd.
    + intros c. rewrite Eb. by case_decide.
Qed.

Lemma served_dinv d0 s seen qa t1 r t2 qu dn : dinv d0 s seen qa (t1 ++ r :: t2) qu dn ->
  chained (k_vdisk s) r /\ dinv d0 (served r s) seen qa (t1 ++ t2) (qu ++ [r]) dn.
Proof.
  intros I. pose proof (used_short _ _ _ _ _ _ _ I) as Hul. destruct I as [Ht Hs Hf [Hr Hb Hbu Hid Hw Hz Ha Hu Hdk Hdn]].
  set (all := qa ++ (t1 ++ r :: t2) ++ qu ++ dn) in *. set (rest := qa ++ t1 ++ (t2 ++ qu ++ dn)).
  assert (Pall : all ≡ₚ r :: rest).
  { unfold all, rest. rewrite <- (assoc_L (++) t1). cbn [app]. rewrite !(assoc_L (++) qa). symmetry. apply Permutation_middle. }
  assert (Hrr : req_ok s r) by (rewrite Forall_forall in Hr; apply Hr; rewrite Pall; by left).
  destruct (served_facts d0 s r Hrr Hdk) as (Ev & El & Ed & (tr & Et) & Tr & Eb). set (s' := served r s) in *. clearbody s'.
  pose proof (head_fresh _ _ _ (free_ok_perm _ _ _ (owned_all_perm _ _ Pall) Hf)) as Hfr.
  assert (H0r : 0 <= rq_0 r < NUM) by (apply (proj1 (heads_ok _ _ Hf)); rewrite Pall; by left).
  assert (Hfb : forall x, x ∈ rest -> rq_buf x <> rq_buf r).
  { intros x Hx E. rewrite (Permutation_map rq_buf Pall) in Hb. cbn [map] in Hb. apply NoDup_cons in Hb as [Hn _]. apply Hn. rewrite <- E. apply list_elem_of_fmap. eauto. }
  change NUM with 8 in *. destruct Ht as (L1 & L2 & L3 & L4 & L5 & L6 & A1 & A2 & A3).
  assert (Ei : info_at (k_vdisk s') (rq_0 r) = set_vi_status 0 (info_at (k_vdisk s) (rq_0 r))).
  { rewrite Ev. unfold push_used, upd_info, info_at. cbn [v_info set_us_idx set_us_ring set_v_info]. apply aget_aset_eq. lia. }
  assert (Eo : forall x, x ∈ rest -> info_at (k_vdisk s') (rq_0 x) = info_at (k_vdisk s) (rq_0 x)).
  { intros x Hx. destruct (Hfr x Hx). rewrite Ev. unfold push_used, upd_info, info_at. cbn [v_info set_us_idx set_us_ring set_v_info]. apply aget_aset_ne; lia. }
  split; [apply Hrr|]. constructor; [|done| |constructor].
  - rewrite Ev. unfold tables_ok, push_used, upd_info. cbn. rewrite !length_aset. split_and!; try done; zlia.
  - rewrite Ev. by apply (free_ok_perm _ _ _ (owned_all_perm _ _ (serve_perm _ _ _ _ _ _))).
  - rewrite <- serve_perm. fold all. eapply Forall_impl_in; [exact Hr|]. intros x Hx. rewrite Pall in Hx. apply req_ok_frame; try (by rewrite Ev).
    + apply elem_of_cons in Hx as [->|Hx]; [by rewrite Ei|by rewrite Eo].
    + done.
    + apply Eb.
    + rewrite Et, length_app. lia.
  - by rewrite <- (Permutation_map rq_buf (serve_perm _ _ _ _ _ _)).
  - pose proof (serve_perm qa t1 t2 qu [] r) as P. rewrite !app_nil_r in P. rewrite <- P. eapply Forall_impl; [exact Hbu|]. intros x. unfold disk_is. by rewrite (proj1 (proj2 (Eb _))).
  - eapply Forall_impl; [exact Hid|]. intros x. unfold disk_is. by rewrite (proj1 (proj2 (Eb _))).
  - rewrite !Forall_app, Forall_cons in Hw. rewrite !Forall_app.
    assert (Hk : forall l, l ⊆ rest -> Forall (status_is (k_vdisk s) 255) l -> Forall (status_is (k_vdisk s') 255) l).
    { intros l Hl H. eapply Forall_impl_in; [exact H|]. intros x Hx. unfold status_is. by rewrite Eo by (by apply Hl). }
    unfold rest in Hk. split_and!; (apply Hk; [set_solver|tauto]).
  - apply Forall_app. split; [|apply Forall_singleton; unfold status_is; by rewrite Ei].
    eapply Forall_impl_in; [exact Hz|]. intros x Hx. unfold status_is. rewrite Eo; [done|]. unfold rest. set_solver.
  - by rewrite Ev.
  - rewrite Ev, map_app. cbn [us_ring us_idx v_used_idx push_used set_us_idx set_us_ring]. apply ring_push; [done| |done].
    apply free_ok_length in Hf. rewrite owned_all_length, (Permutation_length Pall) in Hf. unfold rest in Hf. cbn in Hf. rewrite !length_app in Hf. rewrite length_map. lia.
  - done.
  - rewrite Forall_app in Hdn. destruct Hdn as [D1 D2]. rewrite !Forall_app, Forall_singleton.
    assert (Hk : forall x, x ∈ rest -> transferred d0 s x -> transferred d0 s' x).
    { intros x Hx. apply (transferred_grows d0 s s' tr); [done|by apply Eb, Hfb|]. rewrite Forall_forall in Hr. apply Hr. rewrite Pall. by right. }
    split_and!; [|done|]; (eapply Forall_impl_in; [eassumption|]; intros x Hx; apply Hk; unfold rest; set_solver).
Qed.

(** ** Lemmas: initialisation *)

(** A block device of the expected kind with a queue that is long enough. *)
Definition disk_present : Prop := forall s,
  mmio_read VIRTIO_MMIO_MAGIC_VALUE s = 0x74726976 /\ mmio_read VIRTIO_MMIO_VERSION s = 2 /\ mmio_read VIRTIO_MMIO_DEVICE_ID s = 2 /\
  mmio_read VIRTIO_MMIO_VENDOR_ID s = 0x554d4551 /\ Z.testbit (mmio_read VIRTIO_MMIO_STATUS s) 3 = true /\
  mmio_read VIRTIO_MMIO_QUEUE_READY s = 0 /\ NUM <= mmio_read VIRTIO_MMIO_QUEUE_NUM_MAX s.
(** The driver's structure before initialisation: static storage, all zero. *)
Definition vdisk_blank (d : vdisk) : Prop :=
  length (v_free d) = 8%nat /\ length (v_info d) = 8%nat /\ length (v_ops d) = 8%nat /\ v_used_idx d = 0.

Lemma features_ok v : Z.testbit v 3 = true -> ctrue (Z.land v VIRTIO_CONFIG_S_FEATURES_OK) = true.
Proof.
  intros H. unfold ctrue. destruct (Z.eqb_spec (Z.land v VIRTIO_CONFIG_S_FEATURES_OK) 0) as [E|]; [|done].
  assert (Hb : Z.testbit (Z.land v VIRTIO_CONFIG_S_FEATURES_OK) 3 = true) by (by rewrite Z.land_spec, H). by rewrite E in Hb.
Qed.
Lemma all_free d : length (v_free d) = 8%nat -> forall n s, k_vdisk s = d ->
  forall_do (seqZ 0 NUM) (fun i => vset (fun d => set_v_free (aset (v_free d) i 1) d)) n s = Ret tt (upd_vdisk (set_v_free (replicate 8 1)) s).
Proof.
  intros Hl n s E. subst d. destruct (v_free (k_vdisk s)) as [|f0 [|f1 [|f2 [|f3 [|f4 [|f5 [|f6 [|f7 [|]]]]]]]]] eqn:Ef; try done.
  change (seqZ 0 NUM) with [0; 1; 2; 3; 4; 5; 6; 7]. cbn [forall_do]. unfold vset. rewrite !bind_modify. unfold ret. f_equal.
  unfold upd_vdisk. cbn [k_vdisk set_k_vdisk v_free set_v_free]. rewrite Ef. done.
Qed.
Lemma fresh_dinv d0 s : k_disk s = replay d0 (k_dtrace s) -> length (v_info (k_vdisk s)) = 8%nat -> length (v_ops (k_vdisk s)) = 8%nat ->
  v_desc (k_vdisk s) = replicate 8 desc0 -> v_free (k_vdisk s) = replicate 8 1 -> av_ring (k_vdisk s) = replicate 8 0 -> us_ring (k_vdisk s) = replicate 8 0 ->
  av_idx (k_vdisk s) = 0 -> us_idx (k_vdisk s) = 0 -> v_used_idx (k_vdisk s) = 0 -> dinv d0 s 0 [] [] [] [].
Proof.
  intros Hd Hi Ho Ed Ef Ea Eu E1 E2 E3. constructor; [|lia| |constructor; try done].
  - unfold tables_ok. rewrite Ed, Ef, Ea, Eu, E1, E2, E3. split_and!; try done; lia.
  - unfold free_ok. rewrite Ef. split_and!; [by apply NoDup_nil|done|]. intros i Hi'. change NUM with 8 in Hi'. rewrite aget_lookup, lookup_replicate_2 by lia.
    by rewrite bool_decide_false by apply not_elem_of_nil.
  - by apply NoDup_nil.
  - rewrite E2, E3. split; [done|]. intros k i Hk. done.
Qed.

Lemma init_run d0 n s p0 p1 p2 l : disk_present -> cpu_ok (k_lk s) -> lk_free L_kmem (k_lk s) -> kmem_inv s (p0 :: p1 :: p2 :: l) ->
  vdisk_blank (k_vdisk s) -> k_disk s = replay d0 (k_dtrace s) ->
  exists s', virtio_disk_init n s = Ret tt s' /\ dinv d0 s' 0 [] [] [] [] /\ lk_free L_vdisk (k_lk s') /\ cpu_ok (k_lk s').
Proof.
  intros Hdev Hok Hl Hk (B1 & B2 & B3 & B4) Hd.
  unfold virtio_disk_init, initlock, R_read, R_write. rewrite bind_modify. set (s1 := upd_lk _ s).
  assert (S1 : cpu_ok (k_lk s1) /\ lk_free L_kmem (k_lk s1) /\ lk_free L_vdisk (k_lk s1)).
  { split_and!; [done| |]; unfold lk_free, s1; cbn; [by rewrite lookup_insert_ne|by rewrite lookup_insert_eq]. }
  destruct S1 as (C1 & L1 & V1). assert (K1 : kmem_inv s1 (p0 :: p1 :: p2 :: l)) by exact Hk.
  assert (D1 : k_vdisk s1 = k_vdisk s /\ k_disk s1 = k_disk s /\ k_dtrace s1 = k_dtrace s) by done. clearbody s1.
  rewrite !bind_gets. destruct (Hdev s1) as (R1 & R2 & R3 & R4 & _). rewrite R1, R2, R3, R4. cbn [Z.eqb negb orb Pos.eqb]. cbv zeta.
  rewrite !bind_modify, bind_gets, !bind_modify, bind_gets. rewrite (features_ok _ (proj1 (proj2 (proj2 (proj2 (proj2 (Hdev _))))))). cbn [negb].
  set (st := mmio_read VIRTIO_MMIO_STATUS _). clearbody st.
  rewrite !bind_modify, bind_gets. match goal with |- context [mmio_read VIRTIO_MMIO_QUEUE_READY ?x] => set (s2 := x) end.
  assert (C2 : cpu_ok (k_lk s2)) by exact C1. assert (L2 : lk_free L_kmem (k_lk s2)) by exact L1. assert (V2 : lk_free L_vdisk (k_lk s2)) by exact V1.
  assert (K2 : kmem_inv s2 (p0 :: p1 :: p2 :: l)) by exact K1.
  assert (D2 : k_vdisk s2 = k_vdisk s /\ k_disk s2 = k_disk s /\ k_dtrace s2 = k_dtrace s) by exact D1. clearbody s2. clear D1 K1 V1 L1 C1.
  destruct (Hdev s2) as (_ & _ & _ & _ & _ & R5 & R6). rewrite R5. cbn [ctrue negb Z.eqb]. rewrite bind_gets.
  destruct (Z.eqb_spec (mmio_read VIRTIO_MMIO_QUEUE_NUM_MAX s2) 0); [change NUM with 8 in *; lia|]. destruct (Z.ltb_spec (mmio_read VIRTIO_MMIO_QUEUE_NUM_MAX s2) NUM); [lia|].
  destruct (kalloc_inv _ _ _ K2) as (F0 & P0 & K3 & _). rewrite (bind_ret _ _ _ _ _ _ (kalloc_run n s2 C2 L2)).
  pose proof (mem_only_kalloc s2) as M2. set (s3 := kalloc_st s2) in *. pose proof (mem_only_lk _ _ M2) as E3.
  assert (C3 : cpu_ok (k_lk s3)) by (by rewrite E3). assert (L3 : lk_free L_kmem (k_lk s3)) by (by rewrite E3).
  destruct (kalloc_inv _ _ _ K3) as (F1 & P1 & K4 & _). rewrite (bind_ret _ _ _ _ _ _ (kalloc_run n s3 C3 L3)).
  pose proof (mem_only_trans _ _ _ M2 (mem_only_kalloc s3)) as M3. set (s4 := kalloc_st s3) in *. pose proof (mem_only_lk _ _ M3) as E4.
  assert (C4 : cpu_ok (k_lk s4)) by (by rewrite E4). assert (L4 : lk_free L_kmem (k_lk s4)) by (by rewrite E4).
  destruct (kalloc_inv _ _ _ K4) as (F2 & P2 & _ & _). rewrite (bind_ret _ _ _ _ _ _ (kalloc_run n s4 C4 L4)).
  pose proof (mem_only_trans _ _ _ M3 (mem_only_kalloc s4)) as M4. set (s5 := kalloc_st s4) in *. pose proof (mem_only_lk _ _ M4) as E5.
  rewrite F0, F1, F2. apply page_ok_bounds in P0, P1, P2.
  destruct (Z.eqb_spec p0 0); [lia|]. destruct (Z.eqb_spec p1 0); [lia|]. destruct (Z.eqb_spec p2 0); [lia|]. cbn [orb].
  assert (D5 : k_vdisk s5 = k_vdisk s /\ k_disk s5 = k_disk s /\ k_dtrace s5 = k_dtrace s) by (by rewrite M4).
  assert (C5 : cpu_ok (k_lk s5) /\ lk_free L_vdisk (k_lk s5)) by (by rewrite E5). clearbody s5. clear M4 M3 M2. destruct D5 as (D5 & D6 & D7).
  unfold mem_set. rewrite !bind_modify. unfold vset at 1. rewrite !bind_modify. match goal with |- context [(forall_do _ _ ;; _) n ?x] => set (s6 := x) end.
  assert (V6 : v_free (k_vdisk s6) = v_free (k_vdisk s5)) by done.
  assert (Hf6 : length (v_free (k_vdisk s6)) = 8%nat) by (by rewrite V6, D5). rewrite (bind_ret _ _ _ _ _ _ (all_free _ Hf6 n s6 eq_refl)). unfold modify.
  eexists. split; [reflexivity|]. split; [|exact C5 || (split; apply C5)].
  apply fresh_dinv; try done; cbn; rewrite ?D5, ?D6, ?D7; try done.
Qed.

(** ** Lemmas: [virtio_disk_rw] as a whole *)
Lemma bind_swtch {A B} (m : K A) (f : A -> K B) n s s1 k : m n s = Swtch s1 k -> bind m f n s = Swtch s1 (fun s2 => obind (k s2) (fun a s' => f a n s')).
Proof. unfold bind. by intros ->. Qed.

Definition wait_body (b : nat) (_ : unit) : K (unit + unit) :=
  let* w := bget_f b b_disk in if w =? 1 then sleep (C_buf b) L_vdisk ;; ret (inl tt) else ret (inr tt).
Definition desc_body (_ : unit) : K (unit + list Z) :=
  let* r := alloc3_desc in match r with Some idx => ret (inr idx) | None => sleep C_disk_free L_vdisk ;; ret (inl tt) end.
Lemma rw_eq b w : virtio_disk_rw b w =
  (let* bno := bget_f b b_blockno in
   acquire L_vdisk ;;
   let* idx := loop desc_body tt in
   virtio_submit b w (sector_of bno) (aget 0 idx 0) (aget 0 idx 1) (aget 0 idx 2) ;;
   loop (wait_body b) tt ;;
   vset (upd_info (aget 0 idx 0) (set_vi_b None)) ;; free_chain (aget 0 idx 0) ;; release L_vdisk).
Proof. reflexivity. Qed.

(** The process [p] runs, holding no lock. *)
Definition at_ease (s : kernel) (p : nat) : Prop :=
  cpu_ok (k_lk s) /\ c_proc (cpu_of (k_lk s)) = Some p /\ noff (cpu_of (k_lk s)) = 0 /\ (p < length (k_procs s))%nat /\
  (forall q, q ∈ proc_ix -> lk_free (L_proc q) (k_lk s)) /\ p ∈ proc_ix /\ lk_free L_vdisk (k_lk s).
(** The scheduler has switched to [p]: its lock is held, no other. *)
Definition switched_to (s : kernel) (p : nat) : Prop :=
  cpu_ok (k_lk s) /\ c_proc (cpu_of (k_lk s)) = Some p /\ noff (cpu_of (k_lk s)) = 1 /\ lk_held (L_proc p) (k_lk s) /\
  (forall q, q ∈ proc_ix -> q <> p -> lk_free (L_proc q) (k_lk s)) /\ lk_free L_vdisk (k_lk s).

Lemma calm_procs_free s : cpu_ok (k_lk s) -> (forall q, q ∈ proc_ix -> lk_free (L_proc q) (k_lk s)) -> calm s.
Proof. intros Hc Hp. split; [done|]. intros q Hq _. by apply Hp. Qed.

(** The first half: the request is queued and the process asleep. *)
Lemma rw_start n d0 s seen qa tk qu dn p b w : (0 < n)%nat -> at_ease s p -> dinv d0 s seen qa tk qu dn ->
  (length (qa ++ tk ++ qu ++ dn) <= 1)%nat -> (b < length (k_bcache s))%nat -> b ∉ map rq_buf (qa ++ tk ++ qu ++ dn) ->
  0 <= b_blockno (buf_at s b) < 2 ^ 31 ->
  exists i0 i1 i2 s1 k ie, (ie = 0 \/ ie = 1) /\ virtio_disk_rw b w n s = Swtch s1 k /\
    (forall s2 s3, (pset p (set_p_chan C_none) ;; release (L_proc p) ;; acquire L_vdisk) n (upd_lk (upd_cpu (set_intena ie)) s2) = Ret tt s3 ->
       k s2 = (iter_upto (pred n) (wait_body b) tt ;; vset (upd_info i0 (set_vi_b None)) ;; free_chain i0 ;; release L_vdisk) n s3) /\
    dinv d0 s1 seen (qa ++ [mk_req b w i0 i1 i2 (b_blockno (buf_at s b)) (length (k_dtrace s))]) tk qu dn /\
    lk_free L_vdisk (k_lk s1) /\ p_state (proc_at s1 p) = SLEEPING /\ p_chan (proc_at s1 p) = C_buf b /\ k_disk s1 = k_disk s /\ k_dtrace s1 = k_dtrace s.
Proof.
  intros Hn (Hok & Hp & Hn0 & Hpl & Hpf & Hpx & Hv) I Hlen Hb Hnb Hbno. rewrite rw_eq. unfold bget_f at 1. rewrite bind_gets.
  rewrite (bind_ret _ _ _ _ _ _ (acquire_run n s L_vdisk Hok Hv)). set (s0 := upd_lk (acq L_vdisk) s).
  assert (C0 : calm s0) by (apply calm_acq, calm_procs_free; done).
  assert (I0 : dinv d0 s0 seen qa tk qu dn) by (by apply (dinv_same d0 s)).
  destruct (alloc3_run n s0 _ C0 (di_tables _ _ _ _ _ _ _ I0) (di_free _ _ _ _ _ _ _ I0)) as [(i0 & i1 & i2 & E & T & F)|(s' & _ & _ & _ & _ & Hl)];
    [|rewrite owned_all_length in Hl; lia].
  set (s1 := upd_vdisk (take_desc i2) (upd_vdisk (take_desc i1) (upd_vdisk (take_desc i0) s0))) in *.
  assert (U : undone (owned_all (qa ++ tk ++ qu ++ dn)) s0 s1) by (by constructor).
  assert (El : loop desc_body tt n s0 = Ret [i0; i1; i2] s1).
  { destruct n as [|m]; [lia|]. unfold loop. apply iter_inr. unfold desc_body. by rewrite (bind_ret _ _ _ _ _ _ E). }
  rewrite (bind_ret _ _ _ _ _ _ El). change (aget 0 [i0; i1; i2] 0) with i0. change (aget 0 [i0; i1; i2] 1) with i1. change (aget 0 [i0; i1; i2] 2) with i2.
  rewrite (bind_ret _ _ _ _ _ _ (submit_run n s1 b w _ _ _ _)).
  pose proof (submit_dinv d0 s0 s1 seen qa tk qu dn b w i0 i1 i2 I0 U T F Hb Hnb Hbno) as I2.
  change (b_blockno (buf_at s0 b)) with (b_blockno (buf_at s b)) in I2. change (k_dtrace s0) with (k_dtrace s) in I2.
  set (s2 := submitted _ _ _ _ _ _ s1) in *.
  assert (L2 : k_lk s2 = acq L_vdisk (k_lk s)) by done. assert (F2 : k_procs s2 = k_procs s /\ k_disk s2 = k_disk s /\ k_dtrace s2 = k_dtrace s) by done.
  clearbody s2. destruct F2 as (F2 & F3 & F4).
  assert (Hd1 : b_disk (buf_at s2 b) = 1).
  { destruct I2 as [_ _ _ [_ _ Hbu _ _ _ _ _ _ _]]. rewrite Forall_app in Hbu. destruct Hbu as [Hbu _]. rewrite Forall_app, Forall_singleton in Hbu. apply Hbu. }
  destruct (sleep_out n s2 p (C_buf b) L_vdisk) as (_ & S1 & _ & _ & ie & Hie & Es).
  { rewrite L2. by apply acq_cpu_ok. } { by rewrite L2, acq_c_proc. } { by rewrite F2. } { rewrite L2. apply acq_held. } { discriminate. }
  { rewrite L2. apply acq_free_ne; [discriminate|by apply Hpf]. } { rewrite L2, acq_noff by done. lia. }
  assert (Eg : bget_f b b_disk n s2 = Ret 1 s2) by (unfold bget_f, gets; f_equal; exact Hd1).
  assert (Eb : wait_body b tt n s2 = Swtch (sleep_st p (C_buf b) L_vdisk s2) (fun s3 => obind ((pset p (set_p_chan C_none) ;; release (L_proc p) ;; acquire L_vdisk) n
    (upd_lk (upd_cpu (set_intena ie)) s3)) (fun _ s4 => Ret (inl tt) s4))).
  { unfold wait_body. rewrite (bind_ret _ _ _ _ _ _ Eg). cbn [Z.eqb Pos.eqb]. by rewrite (bind_swtch _ _ _ _ _ _ Es). }
  assert (El2 : exists m, n = S m) by (destruct n as [|m]; [lia|by exists m]). destruct El2 as [m Em].
  eexists i0, i1, i2, _, _, ie. split; [done|]. split; [|split].
  - apply bind_swtch. unfold loop. rewrite Em at 1. cbn [iter_upto]. exact (bind_swtch _ _ _ _ _ _ Eb).
  - cbn beta. intros s3 s4 E4. rewrite E4. assert (Ep : pred n = m) by lia. by rewrite Ep.
  - split_and!; try done; [|unfold sleep_st; rewrite proc_at_upd_eq by (cbn; by rewrite F2); done..]. by apply (dinv_same d0 s2).
Qed.

(** The second half: resumed after the interrupt, the process returns with its
    descriptors freed. *)
Lemma rw_end n m d0 s seen qa tk qu dn1 r dn2 p ie : (2 < n)%nat -> (0 < m)%nat -> ie = 0 \/ ie = 1 -> switched_to s p -> p ∈ proc_ix ->
  dinv d0 s seen qa tk qu (dn1 ++ r :: dn2) ->
  exists s3 s', (pset p (set_p_chan C_none) ;; release (L_proc p) ;; acquire L_vdisk) n (upd_lk (upd_cpu (set_intena ie)) s) = Ret tt s3 /\
    (iter_upto m (wait_body (rq_buf r)) tt ;; vset (upd_info (rq_0 r) (set_vi_b None)) ;; free_chain (rq_0 r) ;; release L_vdisk) n s3 = Ret tt s' /\
    dinv d0 s' seen qa tk qu (dn1 ++ dn2) /\ k_bcache s' = k_bcache s /\ k_disk s' = k_disk s /\ k_dtrace s' = k_dtrace s /\
    cpu_ok (k_lk s') /\ noff (cpu_of (k_lk s')) = 0 /\ lk_free L_vdisk (k_lk s') /\ forall q, q ∈ proc_ix -> lk_free (L_proc q) (k_lk s').
Proof.
  intros Hn Hm Hie (Hok & Hc & Hn1 & Hh & Hpf & Hv) Hpx I.
  destruct (sleep_in n s p L_vdisk ie Hie Hok Hh Hv Hn1 ltac:(discriminate)) as (l3 & E3 & O3 & H3 & P3 & N3 & C3 & K3 & _).
  set (s3 := upd_proc p (set_p_chan C_none) (set_k_lk l3 s)) in *.
  assert (I3 : dinv d0 s3 seen qa tk qu (dn1 ++ r :: dn2)) by (by apply (dinv_same d0 s)).
  assert (Hd0 : b_disk (buf_at s3 (rq_buf r)) = 0).
  { destruct I3 as [_ _ _ [_ _ _ Hid _ _ _ _ _ _]]. rewrite Forall_app, Forall_cons in Hid. apply Hid. }
  assert (Hpl : forall q, q ∈ proc_ix -> lk_free (L_proc q) l3).
  { intros q Hq. destruct (decide (q = p)) as [->|Hne]; [done|]. unfold lk_free. rewrite K3 by congruence. by apply Hpf. }
  assert (L3 : k_lk s3 = l3) by done. assert (F3 : k_bcache s3 = k_bcache s /\ k_disk s3 = k_disk s /\ k_dtrace s3 = k_dtrace s) by done.
  assert (C4 : calm s3) by (by apply calm_procs_free; rewrite L3). clearbody s3.
  destruct (disk_finish_run n d0 s3 seen qa tk qu dn1 r dn2 Hn C4 I3) as (s4 & E4 & L4 & B4 & D4 & T4 & I4). rewrite L3 in L4.
  exists s3, (upd_lk (rel L_vdisk) s4). split; [done|].
  assert (Eg : bget_f (rq_buf r) b_disk n s3 = Ret 0 s3) by (unfold bget_f, gets; f_equal; exact Hd0).
  assert (Ew : iter_upto m (wait_body (rq_buf r)) tt n s3 = Ret tt s3).
  { destruct m as [|m]; [lia|]. apply iter_inr. unfold wait_body. by rewrite (bind_ret _ _ _ _ _ _ Eg). }
  destruct (rel_last L_vdisk l3 O3 N3) as (O5 & K5 & V5 & N5 & _). split.
  - rewrite (bind_ret _ _ _ _ _ _ Ew). unfold disk_finish, vset in E4. rewrite bind_modify in E4. unfold vset. rewrite bind_modify, (bind_ret _ _ _ _ _ _ E4).
    apply release_run; rewrite L4; [done|done|lia].
  - change (k_lk (upd_lk (rel L_vdisk) s4)) with (rel L_vdisk (k_lk s4)). rewrite L4. destruct F3 as (F1 & F2 & F3). split_and!; try done.
    + by apply (dinv_same d0 s4).
    + etrans; [exact B4|done].
    + etrans; [exact D4|done].
    + etrans; [exact T4|done].
    + intros q Hq. unfold lk_free. rewrite K5 by discriminate. by apply Hpl.
Qed.
End Sections.

(** ** The transition system *)

(** The kernel, the device's position in the available ring and the chains it
    has taken, and the calls of [virtio_disk_rw] between submission and
    return. *)
Record dsys := mk_dsys { ds_k : kernel; ds_seen : Z; ds_taken : list Z; ds_calls : list req }.

Section System.
Context `{KI : KernelImage} `{VM : VirtioMmio} `{BD : BlkDevice}.

Inductive dstep : dsys -> dsys -> Prop :=
| d_submit n s seen tk cs b w i0 i1 i2 s1 s2 :
    calm s -> (b < length (k_bcache s))%nat -> b ∉ map rq_buf cs -> 0 <= b_blockno (buf_at s b) < 2 ^ 31 ->
    alloc3_desc n s = Ret (Some [i0; i1; i2]) s1 ->
    virtio_submit b w (sector_of (b_blockno (buf_at s b))) i0 i1 i2 n s1 = Ret tt s2 ->
    dstep (mk_dsys s seen tk cs) (mk_dsys s2 seen tk (mk_req b w i0 i1 i2 (b_blockno (buf_at s b)) (length (k_dtrace s)) :: cs))
| d_full n s seen tk cs s1 :
    calm s -> alloc3_desc n s = Ret None s1 -> dstep (mk_dsys s seen tk cs) (mk_dsys s1 seen tk cs)
| d_take s seen tk cs :
    seen <> av_idx (k_vdisk s) ->
    dstep (mk_dsys s seen tk cs) (mk_dsys s (u16 (seen + 1)) (tk ++ [aget 0 (av_ring (k_vdisk s)) (seen mod NUM)]) cs)
| d_done s seen t1 i t2 cs s1 :
    blk_done i s s1 -> dstep (mk_dsys s seen (t1 ++ i :: t2) cs) (mk_dsys s1 seen (t1 ++ t2) cs)
| d_intr n s seen tk cs s1 :
    (8 < n)%nat -> calm s -> lk_free L_vdisk (k_lk s) -> virtio_disk_intr n s = Ret tt s1 ->
    dstep (mk_dsys s seen tk cs) (mk_dsys s1 seen tk cs)
| d_finish n s seen tk cs1 c cs2 s1 :
    (2 < n)%nat -> calm s -> b_disk (buf_at s (rq_buf c)) <> 1 -> disk_finish (rq_0 c) n s = Ret tt s1 ->
    dstep (mk_dsys s seen tk (cs1 ++ c :: cs2)) (mk_dsys s1 seen tk (cs1 ++ cs2))
| d_other s seen tk cs s1 :
    k_vdisk s1 = k_vdisk s -> k_disk s1 = k_disk s -> k_dtrace s1 = k_dtrace s -> length (k_bcache s1) = length (k_bcache s) ->
    (forall c, c ∈ cs -> buf_at s1 (rq_buf c) = buf_at s (rq_buf c)) ->
    dstep (mk_dsys s seen tk cs) (mk_dsys s1 seen tk cs).

Definition well_formed (d0 : gmap Z (list Z)) (x : dsys) : Prop :=
  exists qa tk qu dn, dinv d0 (ds_k x) (ds_seen x) qa tk qu dn /\ map rq_0 tk = ds_taken x /\ ds_calls x ≡ₚ qa ++ tk ++ qu ++ dn.

Lemma dinv_other d0 s s1 seen qa tk qu dn : k_vdisk s1 = k_vdisk s -> k_disk s1 = k_disk s -> k_dtrace s1 = k_dtrace s -> length (k_bcache s1) = length (k_bcache s) ->
  (forall c, c ∈ qa ++ tk ++ qu ++ dn -> buf_at s1 (rq_buf c) = buf_at s (rq_buf c)) -> dinv d0 s seen qa tk qu dn -> dinv d0 s1 seen qa tk qu dn.
Proof.
  intros Ev Ed Et El Eb [Ht Hs Hf [Hr Hb Hbu Hid Hw Hz Ha Hu Hdk Hdn]]. constructor; [by rewrite Ev|done|by rewrite Ev|]. rewrite <- Ev in *. constructor; try done.
  - eapply Forall_impl_in; [exact Hr|]. intros r Hin. unfold req_ok. by rewrite (Eb r Hin), El, Et, Ev.
  - eapply Forall_impl_in; [exact Hbu|]. intros r Hin. unfold disk_is. rewrite Eb by set_solver. done.
  - eapply Forall_impl_in; [exact Hid|]. intros r Hin. unfold disk_is. rewrite Eb by set_solver. done.
  - by rewrite Ed, Et.
  - eapply Forall_impl_in; [exact Hdn|]. intros r Hin. unfold transferred. rewrite Eb by set_solver. by rewrite Et.
Qed.

(** A call whose buffer is not the device's any more has been seen by the
    handler. *)
Lemma idle_done d0 s seen qa tk qu dn c : dinv d0 s seen qa tk qu dn -> c ∈ qa ++ tk ++ qu ++ dn -> b_disk (buf_at s (rq_buf c)) <> 1 -> c ∈ dn.
Proof.
  intros [_ _ _ [_ _ Hbu _ _ _ _ _ _ _]] Hin Hne. rewrite Forall_forall in Hbu.
  assert (Hn : c ∉ qa ++ tk ++ qu) by (intros H; by apply Hne, Hbu). set_solver.
Qed.
Lemma split_map (tk : list req) t1 i t2 : map rq_0 tk = t1 ++ i :: t2 -> exists k1 r k2, tk = k1 ++ r :: k2 /\ rq_0 r = i /\ map rq_0 k1 = t1 /\ map rq_0 k2 = t2.
Proof.
  revert t1. induction tk as [|r tk IH]; intros t1 E; [by destruct t1|]. destruct t1 as [|a t1]; cbn in E; injection E as E1 E2.
  - by exists [], r, tk.
  - destruct (IH t1 E2) as (k1 & r' & k2 & -> & ? & <- & ?). exists (r :: k1), r', k2. cbn. by rewrite E1.
Qed.

Lemma dstep_well_formed d0 x y : dstep x y -> well_formed d0 x -> well_formed d0 y.
Proof.
  intros [n s seen tk cs b w i0 i1 i2 s1 s2 Hc Hb Hnb Hbno Ea Es | n s seen tk cs s1 Hc Ea | s seen tk cs Hne | s seen t1 i t2 cs s1 Hd
    | n s seen tk cs s1 Hn Hc Hl Ei | n s seen tk cs1 c cs2 s1 Hn Hc Hne Ef | s seen tk cs s1 Ev Ed Et El Eb] (qa & tk' & qu & dn & I & Etk & P); cbn [ds_k ds_seen ds_taken ds_calls] in *.
  - rewrite (Permutation_map rq_buf P) in Hnb. destruct (alloc3_run n s _ Hc (di_tables _ _ _ _ _ _ _ I) (di_free _ _ _ _ _ _ _ I)) as [(j0 & j1 & j2 & E & T & F)|(s' & E & _)];
      rewrite E in Ea; [|done]. injection Ea as -> -> -> <-. rewrite submit_run in Es. injection Es as <-.
    eexists (qa ++ [_]), tk', qu, dn. split_and!; [eapply submit_dinv; [exact I|by constructor|done..]|done|]. cbn [ds_calls]. rewrite snoc_perm. by apply Permutation_skip.
  - destruct (alloc3_run n s _ Hc (di_tables _ _ _ _ _ _ _ I) (di_free _ _ _ _ _ _ _ I)) as [(j0 & j1 & j2 & E & _)|(s' & E & U & T & F & _)]; rewrite E in Ea; [done|].
    injection Ea as <-. exists qa, tk', qu, dn. split; [|done]. by eapply dinv_undone.
  - destruct qa as [|r qa].
    { destruct I as [_ Hs _ [_ _ _ _ _ _ Ha _ _ _]]. pose proof (ring_empty _ _ _ _ Ha Hs ltac:(cbn; lia)) as E. rewrite bool_decide_true in E by done. by apply Z.eqb_eq in E. }
    destruct (take_dinv _ _ _ _ _ _ _ _ I) as [E I']. exists qa, (tk' ++ [r]), qu, dn. split; [done|]. split; [rewrite map_app, E, Etk; done|]. cbn [ds_calls]. by rewrite <- take_perm.
  - destruct (split_map _ _ _ _ Etk) as (k1 & r & k2 & -> & <- & <- & <-). destruct (served_dinv _ _ _ _ _ _ _ _ _ I) as [C I'].
    rewrite (blk_done_served r s s1 C Hd). exists qa, (k1 ++ k2), (qu ++ [r]), dn. split; [done|]. split; [by rewrite map_app|]. cbn [ds_calls]. by rewrite <- serve_perm.
  - destruct (virtio_disk_intr_run d0 n s seen qa tk' qu dn Hn Hc Hl I) as (s' & dn' & E & P' & I' & _). rewrite E in Ei. injection Ei as <-.
    exists qa, tk', [], dn'. split; [done|]. split; [done|]. cbn [ds_calls]. by rewrite P, P'.
  - assert (Hin : c ∈ dn) by (apply (idle_done d0 s seen qa tk' qu dn); [done|rewrite <- P; set_solver|done]). apply list_elem_of_split in Hin as (dn1 & dn2 & ->).
    destruct (disk_finish_run n d0 s seen qa tk' qu dn1 c dn2 Hn Hc I) as (s' & E & _ & _ & _ & _ & I'). rewrite E in Ef. injection Ef as <-.
    exists qa, tk', qu, (dn1 ++ dn2). split; [done|]. split; [done|]. cbn [ds_calls]. rewrite done_perm, <- Permutation_middle in P. by apply Permutation_cons_inv in P.
  - exists qa, tk', qu, dn. split; [|done]. eapply dinv_other; try done. intros c Hin. apply Eb. by rewrite P.
Qed.
Lemma reachable_well_formed d0 x y : rtc dstep x y -> well_formed d0 x -> well_formed d0 y.
Proof. induction 1 as [|x y z Hs _ IH]; [done|]. intros H. by apply IH, (dstep_well_formed d0 x). Qed.

(** ** Lemmas: what the sections do in a well-formed state *)
Lemma calls_length d0 x : well_formed d0 x -> (length (ds_calls x) <= 2)%nat.
Proof.
  intros (qa & tk & qu & dn & [_ _ Hf _] & _ & P). apply free_ok_length in Hf. rewrite owned_all_length in Hf. rewrite (Permutation_length P). lia.
Qed.
Lemma alloc3_well_formed d0 m x : well_formed d0 x -> calm (ds_k x) ->
  exists r s1, alloc3_desc m (ds_k x) = Ret r s1 /\ (r = None <-> length (ds_calls x) = 2%nat).
Proof.
  intros W Hc. pose proof (calls_length d0 x W) as Hl. destruct W as (qa & tk & qu & dn & I & _ & P). rewrite (Permutation_length P) in *.
  destruct (alloc3_run m _ _ Hc (di_tables _ _ _ _ _ _ _ I) (di_free _ _ _ _ _ _ _ I)) as [(i0 & i1 & i2 & E & _ & F)|(s' & E & _ & _ & _ & Hn)];
    eexists _, _; (split; [exact E|]).
  - apply free_ok_length in F. rewrite length_app, owned_all_length in F. cbn [length] in F. split; [done|lia].
  - rewrite owned_all_length in Hn. split; [lia|done].
Qed.
(** The handler passes every finished request on and wakes its process. *)
Lemma intr_well_formed d0 m x : (8 < m)%nat -> well_formed d0 x -> calm (ds_k x) -> lk_free L_vdisk (k_lk (ds_k x)) ->
  exists s1, virtio_disk_intr m (ds_k x) = Ret tt s1 /\ well_formed d0 (mk_dsys s1 (ds_seen x) (ds_taken x) (ds_calls x)) /\
    forall c, c ∈ ds_calls x -> vi_status (info_at (k_vdisk (ds_k x)) (rq_0 c)) = 0 ->
      b_disk (buf_at s1 (rq_buf c)) = 0 /\
      forall p, p ∈ proc_ix -> (p < length (k_procs (ds_k x)))%nat -> c_proc (cpu_of (k_lk (ds_k x))) <> Some p ->
        b_disk (buf_at (ds_k x) (rq_buf c)) = 1 -> p_state (proc_at (ds_k x) p) = SLEEPING -> p_chan (proc_at (ds_k x) p) = C_buf (rq_buf c) ->
        p_state (proc_at s1 p) = RUNNABLE.
Proof.
  intros Hm (qa & tk & qu & dn & I & Etk & P) Hc Hl. destruct (virtio_disk_intr_run d0 m _ _ qa tk qu dn Hm Hc Hl I) as (s1 & dn' & E & P' & I' & _ & _ & _ & [_ W]).
  exists s1. split; [done|]. split; [exists qa, tk, [], dn'; split_and!; try done; cbn [ds_calls]; by rewrite P, P'|].
  intros c Hin Hst. rewrite P in Hin. destruct I as [_ _ _ [_ _ _ Hid Hw _ _ _ _ _]]. destruct I' as [_ _ _ [_ _ _ Hid' _ _ _ _ _ _]]. rewrite Forall_forall in Hw, Hid, Hid'.
  assert (Hn : c ∉ qa ++ tk) by (intros H; specialize (Hw c H); unfold status_is in Hw; lia).
  assert (Hq : c ∈ qu ++ dn) by set_solver. split; [apply (Hid' c); by rewrite P'|].
  intros p Hp Hlt Hme Hd Hs Hch. rewrite (W p Hp Hlt), bool_decide_true; [done|]. split_and!; [done| |done]. rewrite Hch. apply list_elem_of_fmap. exists c. split; [done|].
  apply elem_of_app in Hq as [Hq|Hq]; [done|]. specialize (Hid c Hq). unfold disk_is in Hid. lia.
Qed.
Lemma idle_transferred d0 x c : well_formed d0 x -> c ∈ ds_calls x -> b_disk (buf_at (ds_k x) (rq_buf c)) <> 1 -> transferred d0 (ds_k x) c.
Proof.
  intros (qa & tk & qu & dn & I & _ & P) Hin Hne. rewrite P in Hin. pose proof (idle_done _ _ _ _ _ _ _ _ I Hin Hne) as Hd.
  destruct I as [_ _ _ [_ _ _ _ _ _ _ _ _ Hdn]]. rewrite Forall_forall in Hdn. apply Hdn, elem_of_app. by right.
Qed.

(** ** Properties *)

(** C8: the driver's tables are well formed in every state the driver, the
    device and the rest of the kernel can reach from initialisation: every
    descriptor is free or belongs to exactly one request, requests in flight
    are chains of three that the rings and the status bytes describe, and
    there are at most two.  The device is one that reports no I/O error
    ([BlkDevice]).  In each such state allocation gives three
    descriptors or, exactly when two requests are in flight, none, and the
    interrupt handler and the completion of a call return: none of the
    driver's panics is reachable. *)
Theorem driver_well_formed d0 n s p0 p1 p2 l :
  disk_present -> cpu_ok (k_lk s) -> lk_free L_kmem (k_lk s) -> kmem_inv s (p0 :: p1 :: p2 :: l) -> vdisk_blank (k_vdisk s) ->
  k_disk s = replay d0 (k_dtrace s) ->
  exists s0, virtio_disk_init n s = Ret tt s0 /\ forall x, rtc dstep (mk_dsys s0 0 [] []) x ->
    well_formed d0 x /\ (length (ds_calls x) <= 2)%nat /\
    forall m, (8 < m)%nat -> calm (ds_k x) ->
      (exists r s1, alloc3_desc m (ds_k x) = Ret r s1 /\ (r = None <-> length (ds_calls x) = 2%nat)) /\
      (lk_free L_vdisk (k_lk (ds_k x)) -> exists s1, virtio_disk_intr m (ds_k x) = Ret tt s1) /\
      (forall c, c ∈ ds_calls x -> b_disk (buf_at (ds_k x) (rq_buf c)) <> 1 -> exists s1, disk_finish (rq_0 c) m (ds_k x) = Ret tt s1).
Proof.
  intros Hdev Hok Hl Hk Hb Hd. destruct (init_run d0 n s p0 p1 p2 l Hdev Hok Hl Hk Hb Hd) as (s0 & E & I & _). exists s0. split; [done|].
  intros x Hr. assert (W : well_formed d0 x) by (apply (reachable_well_formed d0 _ _ Hr); by exists [], [], [], []).
  split; [done|]. split; [by apply (calls_length d0)|]. intros m Hm Hc. split; [by apply (alloc3_well_formed d0)|]. split.
  - intros Hv. destruct (intr_well_formed d0 m x Hm W Hc Hv) as (s1 & E1 & _). eauto.
  - intros c Hin Hne. destruct W as (qa & tk & qu & dn & Iv & _ & P). rewrite P in Hin. pose proof (idle_done _ _ _ _ _ _ _ _ Iv Hin Hne) as Hdn.
    apply list_elem_of_split in Hdn as (dn1 & dn2 & ->). destruct (disk_finish_run m d0 _ _ _ _ _ dn1 c dn2 ltac:(lia) Hc Iv) as (s1 & E1 & _). eauto.
Qed.

(** C7: [virtio_disk_rw] carries out its transfer, on a device that reports no
    I/O error ([BlkDevice]).  Called with three
    descriptors free, it queues the request and goes to sleep on its buffer.
    Whatever the other calls, the device and the handler do then: when the
    device has finished the request, the interrupt handler clears the
    buffer's flag and makes the process RUNNABLE; and when the process is
    resumed with the flag clear, the call returns, with its descriptors free
    again, after its transfer has been made: a write has reached the disk
    since the call began, a read has the content its block had at a moment
    since then. *)
Theorem disk_rw_transfers d0 n x p b w :
  (2 < n)%nat -> well_formed d0 x -> at_ease (ds_k x) p -> (length (ds_calls x) <= 1)%nat ->
  (b < length (k_bcache (ds_k x)))%nat -> b ∉ map rq_buf (ds_calls x) -> 0 <= b_blockno (buf_at (ds_k x) b) < 2 ^ 31 ->
  exists s1 k i0 i1 i2, let c := mk_req b w i0 i1 i2 (b_blockno (buf_at (ds_k x) b)) (length (k_dtrace (ds_k x))) in
    virtio_disk_rw b w n (ds_k x) = Swtch s1 k /\ p_state (proc_at s1 p) = SLEEPING /\ p_chan (proc_at s1 p) = C_buf b /\
    forall y, rtc dstep (mk_dsys s1 (ds_seen x) (ds_taken x) (c :: ds_calls x)) y -> c ∈ ds_calls y ->
      (calm (ds_k y) -> lk_free L_vdisk (k_lk (ds_k y)) -> exists s2, virtio_disk_intr (8 + n)%nat (ds_k y) = Ret tt s2 /\
         (vi_status (info_at (k_vdisk (ds_k y)) i0) = 0 -> b_disk (buf_at s2 b) = 0 /\
           (b_disk (buf_at (ds_k y) b) = 1 -> (p < length (k_procs (ds_k y)))%nat -> c_proc (cpu_of (k_lk (ds_k y))) <> Some p ->
            p_state (proc_at (ds_k y) p) = SLEEPING -> p_chan (proc_at (ds_k y) p) = C_buf b -> p_state (proc_at s2 p) = RUNNABLE))) /\
      (switched_to (ds_k y) p -> b_disk (buf_at (ds_k y) b) <> 1 -> exists s2, k (ds_k y) = Ret tt s2 /\ transferred d0 s2 c /\
         exists cs, ds_calls y ≡ₚ c :: cs /\ well_formed d0 (mk_dsys s2 (ds_seen y) (ds_taken y) cs)).
Proof.
  intros Hn W He Hlen Hb Hnb Hbno. pose proof He as (_ & _ & _ & _ & _ & Hpx & _). destruct W as (qa & tk & qu & dn & I & Etk & P).
  rewrite (Permutation_length P) in Hlen. rewrite (Permutation_map rq_buf P) in Hnb.
  destruct (rw_start n d0 (ds_k x) _ qa tk qu dn p b w ltac:(lia) He I Hlen Hb Hnb Hbno) as (i0 & i1 & i2 & s1 & k & ie & Hie & E & Hk & I1 & _ & S1 & S2 & _).
  exists s1, k, i0, i1, i2. set (c := mk_req b w i0 i1 i2 _ _) in *. cbv zeta. split; [done|]. split; [done|]. split; [done|].
  intros y Hr Hin. assert (W : well_formed d0 y).
  { apply (reachable_well_formed d0 _ _ Hr). exists (qa ++ [c]), tk, qu, dn. split; [done|]. split; [done|]. cbn [ds_calls]. rewrite snoc_perm. by apply Permutation_skip. }
  split.
  - intros Hc Hl. destruct (intr_well_formed d0 (8 + n)%nat y ltac:(lia) W Hc Hl) as (s2 & E2 & _ & H2). exists s2. split; [done|].
    intros Hst. destruct (H2 c Hin Hst) as [H3 H4]. split; [done|]. intros. by apply (H4 p).
  - intros Hres Hne. pose proof (idle_transferred d0 y c W Hin Hne) as Ht. destruct W as (qa' & tk' & qu' & dn' & I' & Etk' & P'). rewrite P' in Hin.
    pose proof (idle_done _ _ _ _ _ _ _ c I' Hin Hne) as Hdn. apply list_elem_of_split in Hdn as (dn1 & dn2 & ->).
    destruct (rw_end n (pred n) d0 (ds_k y) _ qa' tk' qu' dn1 c dn2 p ie Hn ltac:(lia) Hie Hres Hpx I') as (s3 & s' & E3 & E4 & I4 & B4 & _ & T4 & _).
    exists s'. split; [rewrite (Hk _ _ E3); exact E4|]. split; [unfold transferred, buf_at in *; by rewrite B4, T4|].
    exists (qa' ++ tk' ++ qu' ++ dn1 ++ dn2). split; [by rewrite P', done_perm|]. by exists qa', tk', qu', (dn1 ++ dn2).
Qed.
End System.

(** ** Witnesses *)

(** The registers of a present disk, and a device that follows the chain. *)
Definition ex_mmio : VirtioMmio :=
  {| mmio_read := fun r _ => if r =? VIRTIO_MMIO_MAGIC_VALUE then 0x74726976 else if r =? VIRTIO_MMIO_VERSION then 2 else if r =? VIRTIO_MMIO_DEVICE_ID then 2
       else if r =? VIRTIO_MMIO_VENDOR_ID then 0x554d4551 else if r =? VIRTIO_MMIO_STATUS then 11 else if r =? VIRTIO_MMIO_QUEUE_NUM_MAX then 1024 else 0 |}.
Definition follow (i : Z) (s : kernel) : kernel :=
  let d := k_vdisk s in
  match d_addr (desc_at d (d_next (desc_at d i))) with
  | D_data b => upd_vdisk (push_used i) (dev_transfer b (r_type (op_at d i) =? VIRTIO_BLK_T_OUT) (r_sector (op_at d i) / (BSIZE / 512)) s)
  | _ => s
  end.
Definition ex_device : BlkDevice.
Proof.
  refine {| blk_done := fun i s s' => s' = follow i s |}. intros r s s' (H0 & H1 & _ & H3) ->. unfold follow.
  rewrite H0. cbn [d_next]. rewrite H1. cbn [d_addr]. rewrite H3. unfold served. cbn [r_type r_sector]. by destruct (rq_write r).
Defined.

Definition ex_vboot : kernel := kfree_st 0x80024000 (kfree_st 0x80023000 (kfree_st 0x80022000 (set_k_lk (boot_lk [L_kmem]) bss))).
Lemma ex_vboot_inv : kmem_inv ex_vboot [0x80024000; 0x80023000; 0x80022000].
Proof.
  apply kfree_inv; [split; [reflexivity|vm_compute; intuition congruence]|set_solver|].
  apply kfree_inv; [split; [reflexivity|vm_compute; intuition congruence]|set_solver|].
  apply kfree_inv; [split; [reflexivity|vm_compute; intuition congruence]|set_solver|].
  split; [reflexivity|constructor].
Qed.
Lemma driver_well_formed_witness : exists s0, @virtio_disk_init ex_mmio 1%nat ex_vboot = Ret tt s0 /\ well_formed ∅ (mk_dsys s0 0 [] []).
Proof.
  destruct (@driver_well_formed _ ex_mmio ex_device ∅ 1%nat ex_vboot 0x80024000 0x80023000 0x80022000 []) as (s0 & E & H).
  - intros s. split_and!; try reflexivity. vm_compute. congruence.
  - apply ex_cpu_ok.
  - reflexivity.
  - apply ex_vboot_inv.
  - split_and!; reflexivity.
  - reflexivity.
  - exists s0. split; [exact E|]. exact (proj1 (H _ (rtc_refl _ _))).
Defined.

(** Process 3 with the driver initialised. *)
Definition ex_drv : kernel :=
  set_k_vdisk (mk_vdisk (replicate 8 desc0) 0 (replicate 8 0) 0 (replicate 8 0) (replicate 8 1) 0 (replicate 8 info0) (replicate 8 op0))
    (set_k_lk (upd_cpu (set_c_proc (Some 3%nat)) (boot_lk (L_vdisk :: map L_proc proc_ix))) bss).
Lemma ex_drv_ease : at_ease ex_drv 3.
Proof.
  split_and!.
  - unfold cpu_ok. cbn. split_and!; auto; try lia; intros; vm_compute in *; congruence.
  - reflexivity.
  - reflexivity.
  - vm_compute; lia.
  - intros q Hq. assert (H : forallb (fun p => match locks (k_lk ex_drv) !! L_proc p with
      | Some (mk_spinlock 0 None) => true | _ => false end) proc_ix = true) by (by vm_compute).
    rewrite forallb_forall in H. apply list_elem_of_In in Hq. apply H in Hq. unfold lk_free.
    destruct (locks (k_lk ex_drv) !! L_proc q) as [[[] []]|]; done.
  - apply elem_of_seq. vm_compute. lia.
  - by vm_compute.
Qed.
Lemma disk_rw_transfers_witness : exists s1 k, virtio_disk_rw 5%nat true 3%nat ex_drv = Swtch s1 k /\ p_state (proc_at s1 3) = SLEEPING.
Proof.
  destruct (@disk_rw_transfers ex_mmio ex_device ∅ 3%nat (mk_dsys ex_drv 0 [] []) 3%nat 5%nat true) as (s1 & k & i0 & i1 & i2 & E & H & _).
  - lia.
  - exists [], [], [], []. split; [|split; reflexivity]. apply fresh_dinv; reflexivity.
  - apply ex_drv_ease.
  - cbn; lia.
  - vm_compute; lia.
  - apply not_elem_of_nil.
  - vm_compute; intuition congruence.
  - exists s1, k. split; [exact E|exact H].
Defined.
