(* ===== verification/Trap.v ===== *)
(** * Traps, interrupts and the system call dispatcher

    kernel/trap.c, kernel/plic.c, the table and dispatcher of
    kernel/syscall.c, and [forkret] of kernel/proc.c.  The jump to [userret]
    that ends [usertrapret] is its result: the address and its argument. *)

From S2P Require Import Prelude Params Kernel Spinlock StringC Kalloc Vm Proc Sleeplock Bio Log Uart Printf Console Fs Pipe File Fork Exec Syscall Sysfile Virtio.

(** ** Registers *)
Definition hart_get (f : hart -> Z) : K Z := gets (fun s => f (hart_of (k_lk s))).
Definition hart_set (f : hart -> hart) : K unit := modify (upd_lk (upd_hart f)).
Definition r_sepc : K Z := hart_get sepc.
Definition w_sepc (x : Z) : K unit := hart_set (set_sepc x).
Definition r_scause : K Z := hart_get scause.
Definition r_stval : K Z := hart_get stval.
Definition r_satp : K Z := hart_get satp.
Definition w_stvec (x : Z) : K unit := hart_set (set_stvec x).
Definition r_sip : K Z := hart_get sip.
Definition w_sip (x : Z) : K unit := hart_set (set_sip x).

Definition mmio_write32 (a v : Z) : K unit :=
  modify (fun s => set_k_mmio (k_mmio s ++ [(a, u32 v)]) s).

(** ** The interrupt controller *)
Definition PLIC_SENABLE (hart : Z) : Z := PLIC + 0x2080 + hart * 0x100.
Definition PLIC_SPRIORITY (hart : Z) : Z := PLIC + 0x201000 + hart * 0x2000.
Definition PLIC_SCLAIM (hart : Z) : Z := PLIC + 0x201004 + hart * 0x2000.

Definition plicinit : K unit :=
  mmio_write32 (PLIC + UART0_IRQ * 4) 1 ;;
  mmio_write32 (PLIC + VIRTIO0_IRQ * 4) 1.

Definition plicinithart : K unit :=
  let* hart := cpuid in
  mmio_write32 (PLIC_SENABLE (Z.of_nat hart)) (Z.lor (Z.shiftl 1 UART0_IRQ) (Z.shiftl 1 VIRTIO0_IRQ)) ;;
  mmio_write32 (PLIC_SPRIORITY (Z.of_nat hart)) 0.

Definition plic_claim : K Z := let* irq := gets (fun s => k_irq s) in ret (s32 irq).

Definition plic_complete (irq : Z) : K unit :=
  let* hart := cpuid in
  mmio_write32 (PLIC_SCLAIM (Z.of_nat hart)) irq.

Section Trap.
Context `{KernelImage} `{BlockDevice} `{Uart16550} `{VirtioMmio} `{StackJunk}.

Definition trapinit : K unit := initlock L_time.
Definition trapinithart : K unit := w_stvec kernelvec.

Definition clockintr : K unit :=
  acquire L_time ;;
  modify (fun s => set_k_ticks (u32 (k_ticks s + 1)) s) ;;
  wakeup C_ticks ;;
  release L_time.

(** 2 for a timer interrupt, 1 for another device, 0 if not recognised. *)
Definition devintr : K Z :=
  let* cause := r_scause in
  if ctrue (Z.land cause 0x8000000000000000) && (Z.land cause 0xff =? 9) then
    let* irq := plic_claim in
    (if irq =? UART0_IRQ then uartintr
     else if irq =? VIRTIO0_IRQ then virtio_disk_intr
     else when (ctrue irq) (printf ("unexpected interrupt irq=%d" +:+ nl) [AInt irq])) ;;
    when (ctrue irq) (plic_complete irq) ;;
    ret 1
  else if cause =? 0x8000000000000001 then
    let* id := cpuid in
    when (bool_decide (id = 0%nat)) clockintr ;;
    let* x := r_sip in
    w_sip (Z.land x (Z.lnot 2)) ;;
    ret 2
  else ret 0.

(** ** System calls *)
Definition NSYSCALLS : Z := 22.
(** [syscalls[num]]. *)
Definition syscalls (num : Z) : option (K Z) :=
  nth (Z.to_nat num)
    [None; Some sys_fork; Some sys_exit; Some sys_wait; Some sys_pipe; Some sys_read; Some sys_kill;
     Some sys_exec; Some sys_fstat; Some sys_chdir; Some sys_dup; Some sys_getpid; Some sys_sbrk;
     Some sys_sleep; Some sys_uptime; Some sys_open; Some sys_write; Some sys_mknod; Some sys_unlink;
     Some sys_link; Some sys_mkdir; Some sys_close] None.

Definition syscall : K unit :=
  let* p := the_proc in
  let* a7 := tf_get p TF_a7 in
  let num := s32 a7 in
  match (if (num >? 0) && (num <? NSYSCALLS) then syscalls num else None) with
  | Some f => let* r := f in tf_set p TF_a0 r
  | None =>
      let* q := pget p id in
      printf ("%d %s: unknown sys call %d" +:+ nl)
        [AInt (p_pid q); AStr (Some (cstrn (at_list (p_name q)) 0 16)); AInt num] ;;
      tf_set p TF_a0 (-1)
  end.

(** ** Traps *)
Definition usertrapret : K (Z * Z) :=
  let* p := the_proc in
  intr_off ;;
  w_stvec (TRAMPOLINE + (uservec - trampoline)) ;;
  let* ksatp := r_satp in
  tf_set p TF_kernel_satp ksatp ;;
  let* kstack := pget p p_kstack in
  tf_set p TF_kernel_sp (kstack + PGSIZE) ;;
  tf_set p TF_kernel_trap sym_usertrap ;;
  let* hartid := cpuid in
  tf_set p TF_kernel_hartid (Z.of_nat hartid) ;;
  let* x := r_sstatus in
  w_sstatus (Z.lor (Z.land x (Z.lnot SSTATUS_SPP)) SSTATUS_SPIE) ;;
  let* epc := tf_get p TF_epc in
  w_sepc epc ;;
  let* pt := pget p p_pagetable in
  ret (TRAMPOLINE + (userret - trampoline), MAKE_SATP pt).

Definition usertrap : K (Z * Z) :=
  let* x := r_sstatus in
  if negb (Z.land x SSTATUS_SPP =? 0) then panic "usertrap: not from user mode" else
  w_stvec kernelvec ;;
  let* p := the_proc in
  let* pc := r_sepc in
  tf_set p TF_epc pc ;;
  let* cause := r_scause in
  let* which_dev :=
    if cause =? 8 then
      let* k := killed p in
      when (ctrue k) (exit (-1)) ;;
      let* epc := tf_get p TF_epc in
      tf_set p TF_epc (epc + 4) ;;
      intr_on ;;
      syscall ;;
      ret 0
    else
      let* which_dev := devintr in
      when (which_dev =? 0)
        (let* pid := pget p p_pid in
         let* cause := r_scause in
         printf ("usertrap(): unexpected scause %p pid=%d" +:+ nl) [AInt cause; AInt pid] ;;
         let* pc := r_sepc in
         let* tval := r_stval in
         printf ("            sepc=%p stval=%p" +:+ nl) [AInt pc; AInt tval] ;;
         setkilled p) ;;
      ret which_dev in
  let* k := killed p in
  when (ctrue k) (exit (-1)) ;;
  when (which_dev =? 2) yield_ ;;
  usertrapret.

Definition kerneltrap : K unit :=
  let* pc := r_sepc in
  let* status := r_sstatus in
  let* cause := r_scause in
  if Z.land status SSTATUS_SPP =? 0 then panic "kerneltrap: not from supervisor mode" else
  let* i := intr_get in
  if ctrue i then panic "kerneltrap: interrupts enabled" else
  let* which_dev := devintr in
  if which_dev =? 0 then
    printf ("scause %p" +:+ nl) [AInt cause] ;;
    let* pc := r_sepc in
    let* tval := r_stval in
    printf ("sepc=%p stval=%p" +:+ nl) [AInt pc; AInt tval] ;;
    panic "kerneltrap"
  else
  let* go :=
    if which_dev =? 2 then
      let* p := myproc in
      match p with
      | None => ret false
      | Some _ => let* p := the_proc in let* st := pget p p_state in ret (bool_decide (st = RUNNING))
      end
    else ret false in
  when go yield_ ;;
  w_sepc pc ;;
  w_sstatus status.

(** The first thing a new process runs, with its lock held. *)
Definition forkret : K (Z * Z) :=
  let* p := the_proc in
  release (L_proc p) ;;
  let* first := gets (fun s => k_first s) in
  when (ctrue first) (modify (set_k_first 0) ;; fsinit ROOTDEV) ;;
  usertrapret.

(** ** kernel/main.c *)
Definition main : K unit :=
  let* id := cpuid in
  (if decide (id = 0%nat) then
     consoleinit ;;
     printfinit ;;
     printf nl [] ;;
     printf ("EEE3535 Operating Systems: booting xv6-riscv kernel" +:+ nl) [] ;;
     kinit ;;
     kvminit ;;
     kvminithart ;;
     procinit ;;
     trapinit ;;
     trapinithart ;;
     plicinit ;;
     plicinithart ;;
     binit ;;
     iinit ;;
     fileinit ;;
     virtio_disk_init ;;
     userinit ;;
     modify (set_k_started 1)
   else
     let* started := gets (fun s => k_started s) in
     if started =? 0 then spin else
     printf ("hart %d starting" +:+ nl) [AInt (Z.of_nat id)] ;;
     kvminithart ;;
     trapinithart ;;
     plicinithart) ;;
  scheduler.

End Trap.
