(* ===== verification/User.v ===== *)
(** * User programs

    The programs under user/ run as processes: they read and write their own
    memory and call the kernel.  A run of a program is the tree of the system
    calls it makes: [UCall c k] is the call [c], with [k] the rest of the run
    for every answer of the kernel, so that [fork], which returns twice, is
    one node whose two children are the continuations for 0 and for the pid.
    The memory of the process is a finite map, an address outside it faults
    (the kernel kills the process).  Strings and arrays a call hands to the
    kernel are part of the call, data the kernel hands back is part of the
    answer. *)

From S2P Require Import Prelude.

Notation umem := (gmap Z Z).

(** A string argument: [None] when it runs into unmapped memory, where the
    kernel's [fetchstr] gives up. *)
Definition ustr : Type := option (list Z).

(** The system calls of user/user.h. *)
Inductive call : Type :=
| Fork
| Wait (status : Z)
| Pipe
| Write (fd : Z) (data : option (list Z))
| Read (fd n : Z)
| Close (fd : Z)
| Kill (pid : Z)
| Exec (path : ustr) (argv : list ustr)
| Open (path : ustr) (mode : Z)
| Mknod (path : ustr) (major minor : Z)
| Unlink (path : ustr)
| Fstat (fd : Z)
| Link (old new : ustr)
| Mkdir (path : ustr)
| Chdir (path : ustr)
| Dup (fd : Z)
| Getpid
| Sbrk (n : Z)
| Sleep (n : Z)
| Uptime.

(** The answer: the return value and the data stored for the caller (the
    bytes of [read], the two descriptors of [pipe], the fields of [fstat]). *)
Record answer := mk_answer { rv : Z; rdata : list Z }.

Inductive uout (A : Type) : Type :=
| URet (a : A) (m : umem)
| UCall (c : call) (k : answer -> uout A)
| UExit (status : Z)
| UFault
| UNoFuel.
Arguments URet {A} _ _.
Arguments UCall {A} _ _.
Arguments UExit {A} _.
Arguments UFault {A}.
Arguments UNoFuel {A}.

Fixpoint uobind {A B} (o : uout A) (f : A -> umem -> uout B) : uout B :=
  match o with
  | URet a m => f a m
  | UCall c k => UCall c (fun r => uobind (k r) f)
  | UExit z => UExit z
  | UFault => UFault
  | UNoFuel => UNoFuel
  end.

(** A piece of a program: a function of the loop bound and the memory. *)
Definition U (A : Type) : Type := nat -> umem -> uout A.
Definition uret {A} (a : A) : U A := fun _ m => URet a m.
Definition ubind {A B} (p : U A) (f : A -> U B) : U B :=
  fun n m => uobind (p n m) (fun a m' => f a n m').

Declare Scope usr_scope.
Delimit Scope usr_scope with usr.
Notation "'let*' x := m 'in' k" := (ubind m (fun x => k))
  (at level 10, x pattern, m at level 100, k at level 200) : usr_scope.
Notation "m ;; k" := (ubind m (fun _ => k))
  (at level 100, k at level 200, right associativity) : usr_scope.
Open Scope usr_scope.

Definition uwhen (b : bool) (p : U unit) : U unit := if b then p else uret tt.
Definition sys (c : call) : U answer := fun _ m => UCall c (fun r => URet r m).
Definition sysv (c : call) : U Z := let* r := sys c in uret (rv r).
Definition uexit {A} (status : Z) : U A := fun _ _ => UExit status.

(** Loads and stores of one byte. *)
Definition ld (a : Z) : U Z := fun _ m => match m !! a with Some v => URet v m | None => UFault end.
Definition st (a v : Z) : U unit :=
  fun _ m => match m !! a with Some _ => URet tt (<[a := u8 v]> m) | None => UFault end.

(** [while] and [for(;;)]: [inl] goes round again, [inr] leaves. *)
Fixpoint uiter {A B} (n : nat) (body : A -> U (A + B)) (a : A) : U B :=
  match n with
  | O => fun _ _ => UNoFuel
  | S n' => let* r := body a in match r with inl a' => uiter n' body a' | inr b => uret b end
  end.
Definition uloop {A B} (body : A -> U (A + B)) (a : A) : U B := fun n m => uiter n body a n m.

Fixpoint uforall {X} (l : list X) (body : X -> U unit) : U unit :=
  match l with
  | [] => uret tt
  | x :: l' => body x ;; uforall l' body
  end.

(** What the kernel reads at a string pointer: [copyinstr] into a page-sized
    buffer. *)
Fixpoint kstr (n : nat) (m : umem) (a : Z) : ustr :=
  match n with
  | O => None
  | S n' => match m !! a with
            | None => None
            | Some c => if c =? 0 then Some [] else option_map (cons c) (kstr n' m (a + 1))
            end
  end.
Definition MAXSTR : nat := Z.to_nat 4096.
Definition strarg (a : Z) : U ustr := fun _ m => URet (kstr MAXSTR m a) m.

(** What it reads at a buffer. *)
Fixpoint kbytes (n : nat) (m : umem) (a : Z) : option (list Z) :=
  match n with
  | O => Some []
  | S n' => match m !! a, kbytes n' m (a + 1) with Some c, Some l => Some (c :: l) | _, _ => None end
  end.
Definition bytesarg (a n : Z) : U (option (list Z)) := fun _ m => URet (kbytes (Z.to_nat n) m a) m.

(** The data of an answer stored at [a]. *)
Fixpoint st_bytes (a : Z) (l : list Z) : U unit :=
  match l with [] => uret tt | c :: l' => st a c ;; st_bytes (a + 1) l' end.

(** The calls of a run and what is left of it, for given answers. *)
Fixpoint feed {A} (rs : list answer) (o : uout A) : list call * uout A :=
  match rs, o with
  | r :: rs', UCall c k => let '(cs, o') := feed rs' (k r) in (c :: cs, o')
  | _, _ => ([], o)
  end.

(** ** Runs *)
Lemma ubind_ret {A B} (p : U A) (f : A -> U B) n m a m' :
  p n m = URet a m' -> ubind p f n m = f a n m'.
Proof. unfold ubind. by intros ->. Qed.
Lemma ubind_uret {A B} (a : A) (f : A -> U B) n m : ubind (uret a) f n m = f a n m.
Proof. done. Qed.
Lemma ubind_fault {A B} (p : U A) (f : A -> U B) n m : p n m = UFault -> ubind p f n m = UFault.
Proof. unfold ubind. by intros ->. Qed.
Lemma ubind_ubind_ret {A B C} (p : U A) (f : A -> U B) (g : B -> U C) n m a m' :
  p n m = URet a m' -> ubind (ubind p f) g n m = ubind (f a) g n m'.
Proof. unfold ubind. by intros ->. Qed.
Lemma ubind_ld {B} a v (f : Z -> U B) n m : m !! a = Some v -> ubind (ld a) f n m = f v n m.
Proof. unfold ubind, ld. by intros ->. Qed.
Lemma ubind_st {B} a v w (f : unit -> U B) n m : m !! a = Some w -> ubind (st a v) f n m = f tt n (<[a := u8 v]> m).
Proof. unfold ubind, st. by intros ->. Qed.
Lemma ubind_sys {B} c (f : answer -> U B) n m : ubind (sys c) f n m = UCall c (fun r => f r n m).
Proof. done. Qed.
Lemma ubind_sysv {B} c (f : Z -> U B) n m : ubind (sysv c) f n m = UCall c (fun r => f (rv r) n m).
Proof. done. Qed.
Lemma ubind_ubind_sys {B C} c (f : answer -> U B) (g : B -> U C) n m :
  ubind (ubind (sys c) f) g n m = UCall c (fun r => ubind (f r) g n m).
Proof. done. Qed.
Lemma ubind_ubind_sysv {B C} c (f : Z -> U B) (g : B -> U C) n m :
  ubind (ubind (sysv c) f) g n m = UCall c (fun r => ubind (f (rv r)) g n m).
Proof. done. Qed.

Lemma uiter_inl {A B} k (body : A -> U (A + B)) a a' n m m' :
  body a n m = URet (inl a') m' -> uiter (S k) body a n m = uiter k body a' n m'.
Proof. intros E. cbn [uiter]. by rewrite (ubind_ret _ _ _ _ _ _ E). Qed.
Lemma uiter_inr {A B} k (body : A -> U (A + B)) a b n m m' :
  body a n m = URet (inr b) m' -> uiter (S k) body a n m = URet b m'.
Proof. intros E. cbn [uiter]. by rewrite (ubind_ret _ _ _ _ _ _ E). Qed.

(** A NUL-terminated string in memory. *)
Definition str_at (m : umem) (a : Z) (l : list Z) : Prop :=
  (forall i c, l !! i = Some c -> m !! (a + Z.of_nat i) = Some c /\ c <> 0) /\
  m !! (a + Z.of_nat (length l)) = Some 0.

Lemma str_at_nil m a : str_at m a [] <-> m !! a = Some 0.
Proof.
  unfold str_at. cbn. rewrite Z.add_0_r. split; [by intros []|]. intros H. split; [|done].
  intros i c Hi. by rewrite lookup_nil in Hi.
Qed.
Lemma str_at_cons m a c l : str_at m a (c :: l) <-> m !! a = Some c /\ c <> 0 /\ str_at m (a + 1) l.
Proof.
  unfold str_at. split.
  - intros [H1 H2]. destruct (H1 0%nat c eq_refl) as [H3 H4]. rewrite Z.add_0_r in H3. split_and!; try done.
    + intros i d Hi. replace (a + 1 + Z.of_nat i) with (a + Z.of_nat (S i)) by lia. by apply H1.
    + cbn in H2. by replace (a + 1 + Z.of_nat (length l)) with (a + Z.of_nat (S (length l))) by lia.
  - intros (H1 & H2 & H3 & H4). split.
    + intros [|i] d Hi; cbn in Hi; [injection Hi as <-; by rewrite Z.add_0_r|].
      replace (a + Z.of_nat (S i)) with (a + 1 + Z.of_nat i) by lia. by apply H3.
    + cbn. by replace (a + Z.of_nat (S (length l))) with (a + 1 + Z.of_nat (length l)) by lia.
Qed.
Lemma str_at_app m a l1 l2 : str_at m a (l1 ++ l2) -> str_at m (a + Z.of_nat (length l1)) l2.
Proof.
  revert a. induction l1 as [|c l1 IH]; intros a; cbn [app length]; [by rewrite Z.add_0_r|].
  rewrite str_at_cons. intros (_ & _ & H). replace (a + Z.of_nat (S (length l1))) with (a + 1 + Z.of_nat (length l1)) by lia. by apply IH.
Qed.
(** Writing a NUL cuts the string. *)
Lemma str_at_cut m a l1 c l2 :
  str_at m a (l1 ++ c :: l2) ->
  str_at (<[a + Z.of_nat (length l1) := 0]> m) a l1 /\
  str_at (<[a + Z.of_nat (length l1) := 0]> m) (a + Z.of_nat (length l1) + 1) l2.
Proof.
  intros [H1 H2]. split.
  - split; [|apply lookup_insert_eq]. intros i d Hi. pose proof (lookup_lt_Some _ _ _ Hi).
    rewrite lookup_insert_ne by lia. apply H1. by rewrite lookup_app_l.
  - split.
    + intros i d Hi. rewrite lookup_insert_ne by lia.
      replace (a + Z.of_nat (length l1) + 1 + Z.of_nat i) with (a + Z.of_nat (length l1 + S i)) by lia.
      apply H1. rewrite lookup_app_r by lia. by replace (length l1 + S i - length l1)%nat with (S i) by lia.
    + rewrite lookup_insert_ne by lia. rewrite <- H2. f_equal. rewrite length_app. cbn. lia.
Qed.
(** Other writes do not matter. *)
Lemma str_at_out m a l x v : str_at m a l -> x < a \/ a + Z.of_nat (length l) < x -> str_at (<[x := v]> m) a l.
Proof.
  intros [H1 H2] Hx. split.
  - intros i c Hi. pose proof (lookup_lt_Some _ _ _ Hi). rewrite lookup_insert_ne by lia. by apply H1.
  - by rewrite lookup_insert_ne by lia.
Qed.
Lemma kstr_at m l : forall a n, str_at m a l -> (length l < n)%nat -> kstr n m a = Some l.
Proof.
  induction l as [|c l IH]; intros a [|n] H Hn; cbn [length] in Hn; try lia; cbn [kstr].
  - apply str_at_nil in H. by rewrite H.
  - apply str_at_cons in H as (H1 & H2 & H3). rewrite H1. destruct (Z.eqb_spec c 0); [done|].
    by rewrite (IH (a + 1) n) by (done || lia).
Qed.

(** ** The descriptors a process holds along a run *)
Definition fd_effect (D : gset Z) (c : call) (r : answer) : gset Z :=
  match c with
  | Open _ _ | Dup _ => if rv r <? 0 then D else {[rv r]} ∪ D
  | Pipe => if rv r <? 0 then D else {[nth 0 (rdata r) 0; nth 1 (rdata r) 0]} ∪ D
  | Close fd => D ∖ {[fd]}
  | _ => D
  end.
(** The kernel hands out descriptors that are not in use. *)
Definition fd_fresh (D : gset Z) (c : call) (r : answer) : Prop :=
  match c with
  | Open _ _ | Dup _ => 0 <= rv r -> rv r ∉ D
  | Pipe => 0 <= rv r -> let a := nth 0 (rdata r) 0 in let b := nth 1 (rdata r) 0 in 0 <= a /\ 0 <= b /\ a <> b /\ a ∉ D /\ b ∉ D
  | _ => True
  end.

(** [runs D o D' a m]: with some answers the process goes from the descriptors
    [D] to [D'] and [o] returns [a]; one that exits does not return. *)
Inductive runs {A} : gset Z -> uout A -> gset Z -> A -> umem -> Prop :=
| runs_ret D a m : runs D (URet a m) D a m
| runs_call D c k r D' a m : fd_fresh D c r -> runs (fd_effect D c r) (k r) D' a m -> runs D (UCall c k) D' a m.

Lemma runs_URet {A} D (a : A) m D' a' m' : runs D (URet a m) D' a' m' -> D' = D /\ a' = a /\ m' = m.
Proof. by inversion 1. Qed.
Lemma runs_UCall {A} D c (k : answer -> uout A) D' a m : runs D (UCall c k) D' a m -> exists r, fd_fresh D c r /\ runs (fd_effect D c r) (k r) D' a m.
Proof. inversion 1; subst. eauto. Qed.
Lemma runs_uobind {A B} (o : uout A) (f : A -> umem -> uout B) : forall D D' b m, runs D (uobind o f) D' b m ->
  exists D1 a m1, runs D o D1 a m1 /\ runs D1 (f a m1) D' b m.
Proof.
  induction o as [a m|c k IH|z| |]; intros D D' b m' H; cbn in H; try by inversion H.
  - exists D, a, m. split; [constructor|done].
  - apply runs_UCall in H as (r & Hf & H). apply IH in H as (D1 & a & m1 & H1 & H2). exists D1, a, m1. split; [|done]. by apply (runs_call D c k r).
Qed.
Lemma runs_ubind {A B} (p : U A) (f : A -> U B) n m D D' b m' : runs D (ubind p f n m) D' b m' ->
  exists D1 a m1, runs D (p n m) D1 a m1 /\ runs D1 (f a n m1) D' b m'.
Proof. apply runs_uobind. Qed.
Lemma runs_uobind_intro {A B} D (o : uout A) D1 a m1 : runs D o D1 a m1 ->
  forall (f : A -> umem -> uout B) D' b m, runs D1 (f a m1) D' b m -> runs D (uobind o f) D' b m.
Proof. induction 1 as [|D c k r D1 a m1 Hf _ IH]; intros f D' b m' H; [done|]. cbn. apply (runs_call D c _ r); [done|]. by apply IH. Qed.
Lemma runs_assoc {A B C} (p : U A) (f : A -> U B) (g : B -> U C) n m D D' c m' : runs D (ubind (ubind p f) g n m) D' c m' ->
  runs D (ubind p (fun a => ubind (f a) g) n m) D' c m'.
Proof.
  intros (D1 & b & m1 & (D2 & a & m2 & H1 & H2)%runs_ubind & H3)%runs_ubind. apply (runs_uobind_intro D _ D2 a m2 H1).
  by apply (runs_uobind_intro D2 _ D1 b m1 H2).
Qed.
Lemma runs_sys c n m D D' r m' : runs D (sys c n m) D' r m' -> fd_fresh D c r /\ D' = fd_effect D c r /\ m' = m.
Proof. intros (r' & Hf & H)%runs_UCall. apply runs_URet in H as (-> & -> & ->). done. Qed.
Lemma runs_sysv c n m D D' v m' : runs D (sysv c n m) D' v m' -> exists r, v = rv r /\ fd_fresh D c r /\ D' = fd_effect D c r /\ m' = m.
Proof. intros (D1 & r & m1 & (Hf & -> & ->)%runs_sys & (-> & -> & ->)%runs_URet)%runs_ubind. eauto. Qed.
Lemma runs_uexit {A} z n m D D' (a : A) m' : runs D (uexit z n m) D' a m' -> False.
Proof. by inversion 1. Qed.
(** After [exit] nothing returns. *)
Lemma runs_dead {A B} (p : U A) z n m D D' (b : B) m' : runs D (ubind p (fun _ => uexit z) n m) D' b m' -> False.
Proof. intros (? & ? & ? & _ & H%runs_uexit)%runs_ubind. done. Qed.

(** Code that gives back every descriptor it gets. *)
Definition fds_ok (D : gset Z) : Prop := forall x, x ∈ D -> 0 <= x.
Definition keeps_fds {A} (p : U A) : Prop := forall n m D D' a m', fds_ok D -> runs D (p n m) D' a m' -> D' = D.
Lemma keeps_ret {A} (a : A) : keeps_fds (uret a).
Proof. by intros n m D D' a' m' _ (-> & _)%runs_URet. Qed.
Lemma keeps_exit {A} z : keeps_fds (@uexit A z).
Proof. by intros n m D D' a m' _ H%runs_uexit. Qed.
Lemma keeps_dead {A B} (p : U A) z : keeps_fds (ubind p (fun _ => @uexit B z)).
Proof. by intros n m D D' a m' _ H%runs_dead. Qed.
Lemma keeps_bind {A B} (p : U A) (f : A -> U B) : keeps_fds p -> (forall a, keeps_fds (f a)) -> keeps_fds (ubind p f).
Proof. intros Hp Hf n m D D' b m' Hd (D1 & a & m1 & H1 & H2)%runs_ubind. apply Hp in H1; [|done]. subst. by apply Hf in H2. Qed.
Lemma keeps_sys c : (forall D r, fd_effect D c r = D) -> keeps_fds (sys c).
Proof. intros Hc n m D D' r m' _ (_ & -> & _)%runs_sys. apply Hc. Qed.
Lemma keeps_sysv c : (forall D r, fd_effect D c r = D) -> keeps_fds (sysv c).
Proof. intros Hc n m D D' r m' _ (r' & _ & _ & -> & _)%runs_sysv. apply Hc. Qed.
Lemma keeps_ld a : keeps_fds (ld a).
Proof. intros n m D D' v m' _ H. unfold ld in H. destruct (m !! a); [|by inversion H]. by apply runs_URet in H as (-> & _). Qed.
Lemma keeps_st a v : keeps_fds (st a v).
Proof. intros n m D D' w m' _ H. unfold st in H. destruct (m !! a); [|by inversion H]. by apply runs_URet in H as (-> & _). Qed.
Lemma keeps_bytesarg a k : keeps_fds (bytesarg a k).
Proof. by intros n m D D' a' m' _ (-> & _)%runs_URet. Qed.
Lemma keeps_strarg a : keeps_fds (strarg a).
Proof. by intros n m D D' a' m' _ (-> & _)%runs_URet. Qed.
Lemma keeps_st_bytes l : forall a, keeps_fds (st_bytes a l).
Proof. induction l as [|c l IH]; intros a; [apply keeps_ret|]. apply keeps_bind; [apply keeps_st|done]. Qed.
Lemma keeps_loop {A B} (body : A -> U (A + B)) : (forall a, keeps_fds (body a)) -> forall a, keeps_fds (uloop body a).
Proof.
  intros Hb. assert (H : forall k a, keeps_fds (uiter k body a)).
  { induction k as [|k IH]; intros a; [intros n m D D' b m' _ H; by inversion H|]. apply keeps_bind; [done|]. intros [a'|b]; [apply IH|apply keeps_ret]. }
  intros a n m D D' b m'. apply H.
Qed.
Lemma keeps_if {A} (b : bool) (p q : U A) : keeps_fds p -> keeps_fds q -> keeps_fds (if b then p else q).
Proof. by destruct b. Qed.
(** A descriptor opened for the time of [f]. *)
Lemma keeps_scoped {A} c (f : Z -> U A) : (exists path mode, c = Open path mode) \/ (exists fd, c = Dup fd) ->
  (forall n m D D' v a m', fds_ok D -> (0 <= v -> v ∉ D) -> runs (if v <? 0 then D else {[v]} ∪ D) (f v n m) D' a m' -> D' = D) -> keeps_fds (ubind (sysv c) f).
Proof.
  intros Hc Hf n m D D' a m' Hd (D1 & v & m1 & (r & -> & Hfr & -> & ->)%runs_sysv & H)%runs_ubind. apply (Hf n m D D' (rv r) a m' Hd).
  - by destruct Hc as [(? & ? & ->)|(? & ->)].
  - by destruct Hc as [(? & ? & ->)|(? & ->)].
Qed.
Create HintDb fds.
#[export] Hint Resolve keeps_ret keeps_exit keeps_dead keeps_bind keeps_sys keeps_sysv keeps_ld keeps_st keeps_bytesarg keeps_strarg keeps_st_bytes keeps_loop keeps_if : fds.
