(* ===== verification/Ulib.v ===== *)
(** * The user library

    user/ulib.c.  A [char *] into a string literal is the rest of the
    literal, other pointers are addresses.  [char] is unsigned on RISC-V. *)

From S2P Require Import Prelude User.

Inductive cptr : Type := Ptr (a : Z) | Lit (s : list Z).
Definition lit (s : string) : cptr := Lit (str_bytes s).
Definition cderef (p : cptr) : U Z :=
  match p with Ptr a => ld a | Lit [] => uret 0 | Lit (c :: _) => uret c end.
Definition cnext (p : cptr) : cptr :=
  match p with Ptr a => Ptr (a + 1) | Lit s => Lit (tail s) end.

Definition strcpy (s t : Z) : U Z :=
  uloop (fun '(s, t) =>
    let* c := ld t in
    st s c ;;
    uret (if c =? 0 then inr tt else inl (s + 1, t + 1))) (s, t) ;;
  uret s.

Definition strcmp (p q : cptr) : U Z :=
  uloop (fun '(p, q) =>
    let* a := cderef p in
    let* b := cderef q in
    uret (if negb (a =? 0) && (a =? b) then inl (cnext p, cnext q) else inr (a - b))) (p, q).

Definition strncmp (p q : cptr) (n : Z) : U Z :=
  uloop (fun '(n, p, q) =>
    if n <=? 0 then uret (inr 0) else
    let* a := cderef p in
    let* b := cderef q in
    uret (if negb (a =? 0) && (a =? b) then inl (n - 1, cnext p, cnext q) else inr (a - b))) (n, p, q).

Definition strlen (s : Z) : U Z :=
  uloop (fun n =>
    let* c := ld (s + n) in
    uret (if c =? 0 then inr (u32 n) else inl (n + 1))) 0.

Definition memset (dst c n : Z) : U Z :=
  uforall (seqZ 0 n) (fun i => st (dst + i) c) ;;
  uret dst.

Definition strchr (s : cptr) (c : Z) : U (option cptr) :=
  uloop (fun s =>
    let* d := cderef s in
    uret (if d =? 0 then inr None else if d =? c then inr (Some s) else inl (cnext s))) s.

Definition gets (buf max : Z) : U Z :=
  let* i := uloop (fun i =>
      if negb (i + 1 <? max) then uret (inr i) else
      let* cc := sys (Read 0 1) in
      if rv cc <? 1 then uret (inr i) else
      let c := nth 0 (rdata cc) 0 in
      st (buf + i) c ;;
      uret (if (c =? 10) || (c =? 13) then inr (i + 1) else inl (i + 1))) 0 in
  st (buf + i) 0 ;;
  uret buf.

(** The result and the fields of [struct stat] the kernel filled in. *)
Definition stat (n : Z) : U (Z * list Z) :=
  let* path := strarg n in
  let* fd := sysv (Open path 0) in
  if fd <? 0 then uret (-1, []) else
  let* r := sys (Fstat fd) in
  let* _ := sysv (Close fd) in
  uret (rv r, rdata r).

Definition atoi (s : Z) : U Z :=
  uloop (fun '(n, s) =>
    let* c := ld s in
    uret (if (48 <=? c) && (c <=? 57) then inl (s32 (n * 10 + c - 48), s + 1) else inr n)) (0, s).

Definition memmove (vdst vsrc n : Z) : U Z :=
  (if vsrc >? vdst
   then uforall (seqZ 0 n) (fun i => let* c := ld (vsrc + i) in st (vdst + i) c)
   else uforall (seqZ 0 n) (fun i => let* c := ld (vsrc + n - 1 - i) in st (vdst + n - 1 - i) c)) ;;
  uret vdst.

Definition memcmp (s1 s2 n : Z) : U Z :=
  uloop (fun i =>
    if n <=? i then uret (inr 0) else
    let* a := ld (s1 + i) in
    let* b := ld (s2 + i) in
    uret (if negb (a =? b) then inr (a - b) else inl (i + 1))) 0.

Definition memcpy (dst src n : Z) : U Z := memmove dst src n.

(** [_main]: the wrapper that exits when [main] returns. *)
Definition start_main (main : U Z) : U unit := main ;; uexit 0.

(** ** What the string functions compute *)
Definition cstr_at (m : umem) (p : cptr) (l : list Z) : Prop :=
  match p with Ptr a => str_at m a l | Lit s => s = l /\ Forall (fun c => c <> 0) l end.

Lemma cstr_at_nil m p n : cstr_at m p [] -> cderef p n m = URet 0 m.
Proof.
  destruct p as [a|s]; cbn.
  - intros H%str_at_nil. unfold ld. by rewrite H.
  - by intros [-> _].
Qed.
Lemma cstr_at_cons m p c l n : cstr_at m p (c :: l) -> cderef p n m = URet c m /\ c <> 0 /\ cstr_at m (cnext p) l.
Proof.
  destruct p as [a|s]; cbn.
  - intros (H1 & H2 & H3)%str_at_cons. unfold ld. by rewrite H1.
  - intros [-> [H1 H2]%Forall_cons]. done.
Qed.

Lemma cderef_run m p l n : cstr_at m p l -> cderef p n m = URet (hd 0 l) m.
Proof. destruct l as [|c l]; intros H; [by apply cstr_at_nil|by apply (cstr_at_cons m p c l n)]. Qed.

Lemma strlen_run m a l n :
  str_at m a l -> (length l < n)%nat -> Z.of_nat (length l) < 2 ^ 32 -> strlen a n m = URet (Z.of_nat (length l)) m.
Proof.
  intros H Hn Hw. unfold strlen, uloop.
  assert (G : forall k l' f, str_at m (a + k) l' -> 0 <= k -> k + Z.of_nat (length l') = Z.of_nat (length l) -> (length l' < f)%nat ->
    uiter f (fun i => let* c := ld (a + i) in uret (if c =? 0 then inr (u32 i) else inl (i + 1))) k n m = URet (Z.of_nat (length l)) m).
  { intros k l'. revert k. induction l' as [|c l' IH]; intros k [|f] Hs Hk Hl Hf; cbn [length] in *; try lia; cbn [uiter].
    - apply str_at_nil in Hs. unfold ubind at 1 2. unfold ld. rewrite Hs. cbn. unfold uret. rewrite u32_small by lia. f_equal. lia.
    - apply str_at_cons in Hs as (H1 & H2 & H3). unfold ubind at 1 2. unfold ld. rewrite H1. cbn [uobind uret].
      destruct (Z.eqb_spec c 0); [done|]. apply IH; [by rewrite Z.add_assoc|lia|lia|lia]. }
  apply (G 0 l n); [by rewrite Z.add_0_r|lia|lia|done].
Qed.

(** The comparison of two texts. *)
Fixpoint cmp (l1 l2 : list Z) : Z :=
  match l1, l2 with
  | c :: l1', d :: l2' => if c =? d then cmp l1' l2' else c - d
  | c :: _, [] => c
  | [], d :: _ => - d
  | [], [] => 0
  end.

Lemma strcmp_run m n l1 : forall p q l2, cstr_at m p l1 -> cstr_at m q l2 -> (length l1 < n)%nat ->
  strcmp p q n m = URet (cmp l1 l2) m.
Proof.
  unfold strcmp, uloop. generalize n at 1 2 as f.
  induction l1 as [|c l1 IH]; intros [|f] p q l2 H1 H2 Hf; cbn [length] in Hf; try lia; cbn [uiter];
    unfold ubind at 1 2; rewrite (cderef_run _ _ _ n H1); cbn [uobind hd]; unfold ubind at 1;
    rewrite (cderef_run _ _ _ n H2); cbn [uobind uret].
  - rewrite Z.eqb_refl. cbn. destruct l2; done.
  - apply (cstr_at_cons m p c l1 n) in H1 as (_ & Hc & H1). destruct (Z.eqb_spec c 0); [done|]. cbn [negb andb].
    destruct l2 as [|d l2]; cbn [hd cmp].
    + destruct (Z.eqb_spec c 0); [done|]. unfold uret. f_equal. lia.
    + apply (cstr_at_cons m q d l2 n) in H2 as (_ & Hd & H2). destruct (Z.eqb_spec c d); [|done]. apply IH; [done|done|lia].
Qed.

Lemma strncmp_run m n l1 : forall p q l2 k, cstr_at m p l1 -> cstr_at m q l2 -> (k < n)%nat ->
  strncmp p q (Z.of_nat k) n m = URet (cmp (take k l1) (take k l2)) m.
Proof.
  unfold strncmp, uloop. generalize n at 1 2 as f.
  intros f p q l2 k. revert f p q l1 l2. induction k as [|k IH]; intros [|f] p q l1 l2 H1 H2 Hf; try lia; cbn [uiter].
  - done.
  - destruct (Z.leb_spec (Z.of_nat (S k)) 0); [lia|].
    unfold ubind at 1 2. rewrite (cderef_run _ _ _ n H1). cbn [uobind]. unfold ubind at 1.
    rewrite (cderef_run _ _ _ n H2). cbn [uobind uret].
    destruct l1 as [|c l1]; cbn [hd take cmp].
    { rewrite Z.eqb_refl. cbn. by destruct l2. }
    apply (cstr_at_cons m p c l1 n) in H1 as (_ & Hc & H1). destruct (Z.eqb_spec c 0); [done|]. cbn [negb andb].
    destruct l2 as [|d l2]; cbn [hd take cmp].
    + destruct (Z.eqb_spec c 0); [done|]. unfold uret. f_equal. lia.
    + apply (cstr_at_cons m q d l2 n) in H2 as (_ & Hd & H2). destruct (Z.eqb_spec c d); [|done].
      replace (Z.of_nat (S k) - 1) with (Z.of_nat k) by lia. apply IH; [done|done|lia].
Qed.

Lemma cmp_eq l1 l2 : Forall (fun c => c <> 0) l1 -> Forall (fun c => c <> 0) l2 -> cmp l1 l2 = 0 <-> l1 = l2.
Proof.
  intros H. revert l2. induction H as [|c l1 Hc _ IH]; intros [|d l2] H2; cbn; try done.
  - apply Forall_cons in H2 as [Hd _]. split; [lia|done].
  - apply Forall_cons in H2 as [Hd H2]. destruct (Z.eqb_spec c d) as [->|Hne].
    + rewrite (IH l2 H2). split; [by intros ->|by intros [= ->]].
    + split; [lia|by intros [= ? ?]].
Qed.

(** The text before the first [c], and after it. *)
Fixpoint cut_at (c : Z) (l : list Z) : option (list Z * list Z) :=
  match l with
  | [] => None
  | d :: l' => if d =? c then Some ([], l') else option_map (fun '(a, b) => (d :: a, b)) (cut_at c l')
  end.

Lemma cut_at_app c l a b : cut_at c l = Some (a, b) -> l = a ++ c :: b /\ Forall (fun d => d <> c) a.
Proof.
  revert a b. induction l as [|d l IH]; intros a b; cbn; [done|]. destruct (Z.eqb_spec d c) as [->|Hne].
  - by intros [= <- <-].
  - destruct (cut_at c l) as [[a' b']|]; cbn; [|done]. intros [= <- <-]. destruct (IH a' b' eq_refl) as [-> ?].
    split; [done|by constructor].
Qed.
Lemma cut_at_None c l : cut_at c l = None <-> Forall (fun d => d <> c) l.
Proof.
  induction l as [|d l IH]; cbn; [by split; [constructor|]|]. destruct (Z.eqb_spec d c) as [->|Hne].
  - split; [done|]. by intros [? _]%Forall_cons.
  - rewrite Forall_cons. destruct (cut_at c l) as [[a b]|]; cbn; [|by rewrite <- IH]. split; [done|]. intros [_ H%IH]. done.
Qed.

Lemma strchr_run m n l c : c <> 0 -> forall a, str_at m a l -> (length l < n)%nat ->
  strchr (Ptr a) c n m = URet (match cut_at c l with Some (x, _) => Some (Ptr (a + Z.of_nat (length x))) | None => None end) m.
Proof.
  intros Hc. unfold strchr, uloop. generalize n at 1 2 as f.
  induction l as [|d l IH]; intros [|f] a H Hf; cbn [length] in Hf; try lia; cbn [uiter]; unfold ubind at 1 2; cbn [cderef].
  - apply str_at_nil in H. unfold ld. rewrite H. done.
  - apply str_at_cons in H as (H1 & H2 & H3). unfold ld. rewrite H1. cbn [uobind uret].
    destruct (Z.eqb_spec d 0); [done|]. cbn [cut_at]. destruct (Z.eqb_spec d c) as [->|Hne].
    + unfold uret. by rewrite Z.add_0_r.
    + cbn [cnext]. rewrite (IH f (a + 1)) by (done || lia). destruct (cut_at c l) as [[x y]|]; cbn [option_map length]; [|done].
      do 3 f_equal. lia.
Qed.

Lemma memset_run n m dst c k : (forall i, 0 <= i < k -> is_Some (m !! (dst + i))) -> 0 <= k ->
  exists m', memset dst c k n m = URet dst m' /\
    forall x, m' !! x = if decide (dst <= x < dst + k) then Some (u8 c) else m !! x.
Proof.
  intros Hm Hk. unfold memset.
  assert (G : forall j s m, 0 <= s -> (forall i, s <= i < s + Z.of_nat j -> is_Some (m !! (dst + i))) ->
    exists m', uforall (seqZ s (Z.of_nat j)) (fun i => st (dst + i) c) n m = URet tt m' /\
      forall x, m' !! x = if decide (dst + s <= x < dst + s + Z.of_nat j) then Some (u8 c) else m !! x).
  { induction j as [|j IH]; intros s m0 Hs H0.
    - exists m0. split; [done|]. intros x. by rewrite decide_False by lia.
    - rewrite seqZ_cons by lia. cbn [uforall]. destruct (H0 s ltac:(lia)) as [w Hw]. rewrite (ubind_st _ c w _ n m0 Hw).
      replace (Z.pred (Z.of_nat (S j))) with (Z.of_nat j) by lia.
      destruct (IH (Z.succ s) (<[dst + s := u8 c]> m0)) as (m' & E & Hx); [lia| |].
      { intros i Hi. rewrite lookup_insert_ne by lia. apply H0. lia. }
      exists m'. split; [done|]. intros x. rewrite Hx. destruct (decide (x = dst + s)) as [->|Hne].
      + rewrite decide_False by lia. rewrite decide_True by lia. apply lookup_insert_eq.
      + rewrite lookup_insert_ne by done. repeat case_decide; try done; lia. }
  destruct (G (Z.to_nat k) 0 m) as (m' & E & Hx); [lia|intros; apply Hm; lia|]. rewrite Z2Nat.id in E, Hx by lia.
  exists m'. rewrite (ubind_ret _ _ _ _ _ _ E). split; [done|]. intros x. by rewrite Hx, Z.add_0_r.
Qed.

(** Copying byte by byte, in the order [f] of the offsets. *)
Definition copied (m m0 : umem) (dst src : Z) (done : Z -> Prop) : Prop :=
  forall x, (done (x - dst) -> m !! x = m0 !! (src + (x - dst))) /\ (~ done (x - dst) -> m !! x = m0 !! x).

Lemma copy_forward n m0 dst src k : dst < src ->
  (forall i, 0 <= i < k -> exists c, m0 !! (src + i) = Some c /\ 0 <= c < 256) -> (forall i, 0 <= i < k -> is_Some (m0 !! (dst + i))) ->
  forall j s m, 0 <= s -> s + Z.of_nat j = k -> copied m m0 dst src (fun i => 0 <= i < s) ->
  exists m', uforall (seqZ s (Z.of_nat j)) (fun i => let* c := ld (src + i) in st (dst + i) c) n m = URet tt m' /\
    copied m' m0 dst src (fun i => 0 <= i < k).
Proof.
  intros Hlt Hs Hd. induction j as [|j IH]; intros s m Hs0 Hj Hc.
  - exists m. split; [done|]. by replace k with s by lia.
  - rewrite seqZ_cons by lia. cbn [uforall]. destruct (Hs s ltac:(lia)) as (c & Ec & Hb). destruct (Hd s ltac:(lia)) as [w Ew].
    assert (E1 : m !! (src + s) = Some c) by (rewrite <- Ec; apply Hc; lia).
    assert (E2 : m !! (dst + s) = Some w) by (rewrite <- Ew; apply Hc; lia).
    rewrite (ubind_ret _ _ n m tt (<[dst + s := c]> m)).
    2:{ rewrite (ubind_ld _ _ _ _ _ E1). unfold st. by rewrite E2, u8_small by lia. }
    replace (Z.pred (Z.of_nat (S j))) with (Z.of_nat j) by lia. apply IH; [lia|lia|]. intros x. split; intros Hx.
    + destruct (decide (x = dst + s)) as [->|Hne].
      * rewrite lookup_insert_eq, <- Ec. f_equal. lia.
      * rewrite lookup_insert_ne by done. apply Hc. lia.
    + rewrite lookup_insert_ne by lia. apply Hc. lia.
Qed.

Lemma copy_backward n m0 dst src k : src <= dst ->
  (forall i, 0 <= i < k -> exists c, m0 !! (src + i) = Some c /\ 0 <= c < 256) -> (forall i, 0 <= i < k -> is_Some (m0 !! (dst + i))) ->
  forall j s m, 0 <= s -> s + Z.of_nat j = k -> copied m m0 dst src (fun i => k - s <= i < k) ->
  exists m', uforall (seqZ s (Z.of_nat j)) (fun i => let* c := ld (src + k - 1 - i) in st (dst + k - 1 - i) c) n m = URet tt m' /\
    copied m' m0 dst src (fun i => 0 <= i < k).
Proof.
  intros Hle Hs Hd. induction j as [|j IH]; intros s m Hs0 Hj Hc.
  - exists m. split; [done|]. by replace (k - s) with 0 in Hc by lia.
  - rewrite seqZ_cons by lia. cbn [uforall]. destruct (Hs (k - 1 - s) ltac:(lia)) as (c & Ec & Hb). destruct (Hd (k - 1 - s) ltac:(lia)) as [w Ew].
    assert (E1 : m !! (src + k - 1 - s) = Some c) by (rewrite <- Ec; replace (src + k - 1 - s) with (src + (k - 1 - s)) by lia; apply Hc; lia).
    assert (E2 : m !! (dst + k - 1 - s) = Some w) by (rewrite <- Ew; replace (dst + k - 1 - s) with (dst + (k - 1 - s)) by lia; apply Hc; lia).
    rewrite (ubind_ret _ _ n m tt (<[dst + k - 1 - s := c]> m)).
    2:{ rewrite (ubind_ld _ _ _ _ _ E1). unfold st. by rewrite E2, u8_small by lia. }
    replace (Z.pred (Z.of_nat (S j))) with (Z.of_nat j) by lia. apply IH; [lia|lia|]. intros x. split; intros Hx.
    + destruct (decide (x = dst + k - 1 - s)) as [->|Hne].
      * rewrite lookup_insert_eq, <- Ec. f_equal. lia.
      * rewrite lookup_insert_ne by done. apply Hc. lia.
    + rewrite lookup_insert_ne by lia. apply Hc. lia.
Qed.

(** [memmove] copies however the regions overlap. *)
Lemma memmove_run n m dst src k : 0 <= k ->
  (forall i, 0 <= i < k -> exists c, m !! (src + i) = Some c /\ 0 <= c < 256) -> (forall i, 0 <= i < k -> is_Some (m !! (dst + i))) ->
  exists m', memmove dst src k n m = URet dst m' /\
    forall x, m' !! x = if decide (dst <= x < dst + k) then m !! (src + (x - dst)) else m !! x.
Proof.
  intros Hk Hs Hd.
  assert (G : exists m', (if src >? dst
     then uforall (seqZ 0 k) (fun i => let* c := ld (src + i) in st (dst + i) c)
     else uforall (seqZ 0 k) (fun i => let* c := ld (src + k - 1 - i) in st (dst + k - 1 - i) c)) n m = URet tt m' /\
     copied m' m dst src (fun i => 0 <= i < k)).
  { replace (seqZ 0 k) with (seqZ 0 (Z.of_nat (Z.to_nat k))) by (by rewrite Z2Nat.id). destruct (Z.gtb_spec src dst).
    - apply (copy_forward n m dst src k); try done; try lia. intros x. split; [lia|done].
    - apply (copy_backward n m dst src k); try done; try lia. intros x. split; [lia|done]. }
  destruct G as (m' & E & Hc). exists m'. unfold memmove. rewrite (ubind_ret _ _ _ _ _ _ E). split; [done|]. intros x.
  case_decide; apply Hc; lia.
Qed.
