(* ===== verification/Uprintf.v ===== *)
(** * Formatted output of user programs

    user/printf.c: every character is one [write] of one byte. *)

From S2P Require Import Prelude User Ulib.

Definition udigits : list Z := str_bytes "0123456789ABCDEF".

Definition putc (fd c : Z) : U unit := let* _ := sys (Write fd (Some [u8 c])) in uret tt.

(** The digits, least significant first; a [uint] has at most 32 of them. *)
Fixpoint udigit_loop (x base : Z) (fuel : nat) : list Z :=
  match fuel with
  | O => []
  | S f => aget 0 udigits (x mod base) :: (if x / base =? 0 then [] else udigit_loop (x / base) base f)
  end.
Definition uprintint_chars (xx base : Z) (sgn : bool) : list Z :=
  let neg := sgn && (xx <? 0) in
  let x := if neg then u32 (- xx) else u32 xx in
  rev (udigit_loop x base 32 ++ (if neg then [45] else [])).
Definition uprintint (fd xx base : Z) (sgn : bool) : U unit := uforall (uprintint_chars xx base sgn) (putc fd).

Definition uprintptr_chars (x : Z) : list Z :=
  str_bytes "0x" ++ map (fun i => aget 0 udigits (Z.shiftr (u64 (Z.shiftl x (4 * i))) 60)) (seqZ 0 16).
Definition uprintptr (fd x : Z) : U unit := uforall (uprintptr_chars x) (putc fd).

(** A variadic argument: an integer or a string pointer. *)
Inductive uarg := UInt (v : Z) | UStr (p : cptr).
Definition arg_int (args : list uarg) : Z := match args with UInt v :: _ => v | _ => 0 end.
Definition arg_str (args : list uarg) : cptr :=
  match args with UStr (Ptr 0) :: _ => lit "(null)" | UStr p :: _ => p | _ => lit "(null)" end.

Definition put_str (fd : Z) (s : cptr) : U unit :=
  uloop (fun s =>
    let* c := cderef s in
    if c =? 0 then uret (inr tt) else putc fd c ;; uret (inl (cnext s))) s.

(** [state] is ['%'] after a percent sign. *)
Fixpoint vprintf_from (fd : Z) (pct : bool) (fmt : list Z) (args : list uarg) : U unit :=
  match fmt with
  | [] => uret tt
  | c :: fmt' =>
      if negb pct then
        if c =? 37 then vprintf_from fd true fmt' args
        else putc fd c ;; vprintf_from fd false fmt' args
      else if c =? 100 then uprintint fd (s32 (arg_int args)) 10 true ;; vprintf_from fd false fmt' (tail args)
      else if c =? 108 then uprintint fd (s32 (arg_int args)) 10 false ;; vprintf_from fd false fmt' (tail args)
      else if c =? 120 then uprintint fd (s32 (arg_int args)) 16 false ;; vprintf_from fd false fmt' (tail args)
      else if c =? 112 then uprintptr fd (u64 (arg_int args)) ;; vprintf_from fd false fmt' (tail args)
      else if c =? 115 then put_str fd (arg_str args) ;; vprintf_from fd false fmt' (tail args)
      else if c =? 99 then putc fd (arg_int args) ;; vprintf_from fd false fmt' (tail args)
      else if c =? 37 then putc fd c ;; vprintf_from fd false fmt' args
      else putc fd 37 ;; putc fd c ;; vprintf_from fd false fmt' args
  end.
Definition vprintf (fd : Z) (fmt : string) (args : list uarg) : U unit := vprintf_from fd false (str_bytes fmt) args.

Definition fprintf (fd : Z) (fmt : string) (args : list uarg) : U unit := vprintf fd fmt args.
Definition printf (fmt : string) (args : list uarg) : U unit := vprintf 1 fmt args.
