(* ===== verification/Umalloc.v ===== *)
(** * The user-level allocator (user/umalloc.c)

    [malloc] and [free] of Kernighan and Ritchie: the free blocks form a
    circular list in address order, threaded through their headers, that
    starts at the empty block [base]; [freep] is where the last search ended.
    Everything, [base] and [freep] included, lives in the memory of the
    process; [sbrk] is the system call. *)

From S2P Require Import Prelude User.

(** An object of [k] bytes in memory. *)
Definition ld_le (k : nat) (a : Z) : U Z :=
  fun _ m => match kbytes k m a with Some l => URet (le_dec l) m | None => UFault end.
Definition st_le (k : nat) (a v : Z) : U unit := st_bytes a (le_enc k v).

(** [union header]: a pointer at offset 0, a [uint] at offset 8, 16 bytes
    ([Align] has the size of the pointer). *)
Definition HEADER : Z := 16.
Definition get_ptr (p : Z) : U Z := ld_le 8 p.
Definition set_ptr (p v : Z) : U unit := st_le 8 p v.
Definition get_size (p : Z) : U Z := ld_le 4 (p + 8).
Definition set_size (p v : Z) : U unit := st_le 4 (p + 8) v.

(** The kernel grows the process by zeroed memory at the returned address, or
    takes the last bytes away (a decrement past address 0 does nothing). *)
Fixpoint map_zero (n : nat) (a : Z) (m : umem) : umem :=
  match n with O => m | S n' => <[a := 0]> (map_zero n' (a + 1) m) end.
Fixpoint unmap (n : nat) (a : Z) (m : umem) : umem :=
  match n with O => m | S n' => delete a (unmap n' (a + 1) m) end.
Definition grown (m : umem) (n r : Z) : umem :=
  if u64 r =? u64 (-1) then m
  else if 0 <=? n then map_zero (Z.to_nat n) r m
  else if r + n <? 0 then m else unmap (Z.to_nat (- n)) (r + n) m.
Definition sbrk (n : Z) : U Z :=
  fun _ m => UCall (Sbrk n) (fun r => URet (rv r) (grown m n (rv r))).

Section Allocator.
(** The addresses of the two static variables. *)
Context (freep base : Z).

(** The loop of [free]: the free block after which [bp] belongs. *)
Definition free_test (bp p : Z) : U (Z + Z) :=
  let* q := get_ptr p in
  if (p <? bp) && (bp <? q) then uret (inr p)
  else if (q <=? p) && ((p <? bp) || (bp <? q)) then uret (inr p)
  else uret (inl q).
Definition free_find (bp : Z) : Z -> U Z := uloop (free_test bp).

(** Its two conditionals: join the block with the next free block, and with
    the previous one. *)
Definition join_next (bp p : Z) : U unit :=
  let* bsize := get_size bp in
  let* q := get_ptr p in
  if bp + HEADER * bsize =? q then
    let* q := get_ptr p in
    let* qsize := get_size q in
    set_size bp (u32 (bsize + qsize)) ;;
    let* q := get_ptr p in
    let* qq := get_ptr q in
    set_ptr bp qq
  else set_ptr bp q.
Definition join_prev (bp p : Z) : U unit :=
  let* psize := get_size p in
  if p + HEADER * psize =? bp then
    let* bsize := get_size bp in
    set_size p (u32 (psize + bsize)) ;;
    let* r := get_ptr bp in
    set_ptr p r
  else set_ptr p bp.

Definition free (ap : Z) : U unit :=
  let bp := ap - HEADER in
  let* f := get_ptr freep in
  let* p := free_find bp f in
  join_next bp p ;;
  join_prev bp p ;;
  set_ptr freep p.

Definition morecore (nu : Z) : U Z :=
  let nu := if nu <? 4096 then 4096 else nu in
  let* p := sbrk (s32 (nu * HEADER)) in
  if u64 p =? u64 (-1) then uret 0
  else
    set_size p nu ;;
    free (p + HEADER) ;;
    get_ptr freep.

(** The first lines of [malloc]: an empty list to begin with. *)
Definition malloc_init : U Z :=
  let* f := get_ptr freep in
  if f =? 0 then
    set_ptr freep base ;;
    set_ptr base base ;;
    set_size base 0 ;;
    uret base
  else uret f.

(** The loop of [malloc]. *)
Definition malloc_test (nunits : Z) (pp : Z * Z) : U (Z * Z + Z) :=
    let '(prevp, p) := pp in
    let* size := get_size p in
    if nunits <=? size then
      let* r :=
        (if size =? nunits then
           let* q := get_ptr p in
           set_ptr prevp q ;;
           uret p
         else
           set_size p (u32 (size - nunits)) ;;
           let* size := get_size p in
           set_size (p + HEADER * size) nunits ;;
           uret (p + HEADER * size)) in
      set_ptr freep prevp ;;
      uret (inr (r + HEADER))
    else
      let* f := get_ptr freep in
      if p =? f then
        let* p := morecore nunits in
        if p =? 0 then uret (inr 0)
        else let* q := get_ptr p in uret (inl (p, q))
      else let* q := get_ptr p in uret (inl (p, q)).
Definition malloc_find (nunits : Z) : Z * Z -> U Z := uloop (malloc_test nunits).

Definition malloc (nbytes : Z) : U Z :=
  let nunits := u32 ((nbytes + HEADER - 1) / HEADER + 1) in
  let* prevp := malloc_init in
  let* p := get_ptr prevp in
  malloc_find nunits (prevp, p).
End Allocator.

(** ** Objects in memory *)
Definition bytes_at (m : umem) (a : Z) (l : list Z) : Prop :=
  forall i c, l !! i = Some c -> m !! (a + Z.of_nat i) = Some c.
Definition mapped (m : umem) (a k : Z) : Prop := forall x, a <= x < a + k -> is_Some (m !! x).
(** Outside [a .. a+k) the memory is the same. *)
Definition same_but (a k : Z) (m m' : umem) : Prop := forall x, x < a \/ a + k <= x -> m' !! x = m !! x.

Lemma bytes_at_cons m a c l : bytes_at m a (c :: l) <-> m !! a = Some c /\ bytes_at m (a + 1) l.
Proof.
  unfold bytes_at. split.
  - intros H. split; [specialize (H 0%nat c eq_refl); by rewrite Z.add_0_r in H|].
    intros i d Hi. specialize (H (S i) d Hi). by replace (a + 1 + Z.of_nat i) with (a + Z.of_nat (S i)) by lia.
  - intros [H1 H2] [|i] d Hi; cbn in Hi; [injection Hi as <-; by rewrite Z.add_0_r|].
    replace (a + Z.of_nat (S i)) with (a + 1 + Z.of_nat i) by lia. by apply H2.
Qed.
Lemma bytes_at_kbytes m l : forall a, bytes_at m a l -> kbytes (length l) m a = Some l.
Proof.
  induction l as [|c l IH]; intros a H; [done|]. apply bytes_at_cons in H as [H1 H2]. cbn [length kbytes].
  by rewrite H1, (IH _ H2).
Qed.
Lemma bytes_at_same m m' a l b k : bytes_at m a l -> same_but b k m m' ->
  a + Z.of_nat (length l) <= b \/ b + k <= a -> bytes_at m' a l.
Proof. intros H Hs Hd i c Hi. pose proof (lookup_lt_Some _ _ _ Hi). rewrite Hs by lia. by apply H. Qed.
Lemma bytes_at_inj m a l l' : bytes_at m a l -> bytes_at m a l' -> length l = length l' -> l = l'.
Proof. intros H1%bytes_at_kbytes H2%bytes_at_kbytes Hl. rewrite Hl in H1. congruence. Qed.

Lemma st_list_run l : forall a n m, mapped m a (Z.of_nat (length l)) -> Forall byte_ok l ->
  exists m', st_bytes a l n m = URet tt m' /\ bytes_at m' a l /\ same_but a (Z.of_nat (length l)) m m'.
Proof.
  induction l as [|c l IH]; intros a n m Hm Hl; cbn [st_bytes length].
  - exists m. split_and!; [done| |by intros x _]. intros i c Hi. by rewrite lookup_nil in Hi.
  - apply Forall_cons in Hl as [Hc Hl]. destruct (Hm a) as [w Hw]; [cbn; lia|]. rewrite (ubind_st a c w) by done. rewrite u8_small by done.
    destruct (IH (a + 1) n (<[a := c]> m)) as (m' & E & B & S); [|done|].
    { intros x Hx. destruct (decide (x = a)) as [->|]; [rewrite lookup_insert_eq; eauto|]. rewrite lookup_insert_ne by done. apply Hm. cbn. lia. }
    exists m'. split_and!; [done| |].
    + apply bytes_at_cons. split; [|done]. rewrite S by lia. by rewrite lookup_insert_eq.
    + intros x Hx. rewrite S by lia. by rewrite lookup_insert_ne by lia.
Qed.

(** A pointer, a size. *)
Definition ptr_at (m : umem) (a p : Z) : Prop := bytes_at m a (le_enc 8 p) /\ 0 <= p < 2 ^ 64.
Definition size_at (m : umem) (a s : Z) : Prop := bytes_at m (a + 8) (le_enc 4 s) /\ 0 <= s < 2 ^ 32.

Lemma get_ptr_run m a p n : ptr_at m a p -> get_ptr a n m = URet p m.
Proof.
  intros [H Hp]. unfold get_ptr, ld_le. apply bytes_at_kbytes in H. rewrite length_le_enc in H. rewrite H, le_dec_enc.
  by rewrite Z.mod_small.
Qed.
Lemma get_size_run m a s n : size_at m a s -> get_size a n m = URet s m.
Proof.
  intros [H Hp]. unfold get_size, ld_le. apply bytes_at_kbytes in H. rewrite length_le_enc in H. rewrite H, le_dec_enc.
  by rewrite Z.mod_small.
Qed.
Lemma set_ptr_run m a p n : mapped m a 8 -> 0 <= p < 2 ^ 64 ->
  exists m', set_ptr a p n m = URet tt m' /\ ptr_at m' a p /\ same_but a 8 m m'.
Proof.
  intros Hm Hp. destruct (st_list_run (le_enc 8 p) a n m) as (m' & E & B & S); rewrite ?length_le_enc; [done|apply le_enc_byte_ok|].
  rewrite length_le_enc in S. by exists m'.
Qed.
Lemma set_size_run m a s n : mapped m (a + 8) 4 -> 0 <= s < 2 ^ 32 ->
  exists m', set_size a s n m = URet tt m' /\ size_at m' a s /\ same_but (a + 8) 4 m m'.
Proof.
  intros Hm Hp. destruct (st_list_run (le_enc 4 s) (a + 8) n m) as (m' & E & B & S); rewrite ?length_le_enc; [done|apply le_enc_byte_ok|].
  rewrite length_le_enc in S. by exists m'.
Qed.
Lemma ptr_at_same m m' a p b k : ptr_at m a p -> same_but b k m m' -> a + 8 <= b \/ b + k <= a -> ptr_at m' a p.
Proof. intros [H Hp] S D. split; [|done]. eapply bytes_at_same; [done..|]. rewrite length_le_enc. lia. Qed.
Lemma size_at_same m m' a s b k : size_at m a s -> same_but b k m m' -> a + 12 <= b \/ b + k <= a + 8 -> size_at m' a s.
Proof. intros [H Hp] S D. split; [|done]. eapply bytes_at_same; [done..|]. rewrite length_le_enc. lia. Qed.
Lemma ptr_at_inj m a p q : ptr_at m a p -> ptr_at m a q -> p = q.
Proof.
  intros [H1 B1] [H2 B2]. pose proof (bytes_at_inj _ _ _ _ H1 H2) as E. rewrite !length_le_enc in E. specialize (E eq_refl).
  apply (f_equal le_dec) in E. rewrite !le_dec_enc in E. by rewrite !Z.mod_small in E.
Qed.
Lemma mapped_same m m' a k b j : mapped m a k -> same_but b j m m' -> mapped m' b j -> mapped m' a k.
Proof.
  intros H S Hb x Hx. destruct (decide (b <= x < b + j)) as [|]; [by apply Hb|]. rewrite S by lia. by apply H.
Qed.
Lemma ptr_at_mapped m a p : ptr_at m a p -> mapped m a 8.
Proof.
  intros [H _] x Hx. destruct (lookup_lt_is_Some_2 (le_enc 8 p) (Z.to_nat (x - a))) as [c Hc]; [rewrite length_le_enc; lia|].
  exists c. rewrite <- (H _ _ Hc). f_equal. lia.
Qed.
Lemma size_at_mapped m a s : size_at m a s -> mapped m (a + 8) 4.
Proof.
  intros [H _] x Hx. destruct (lookup_lt_is_Some_2 (le_enc 4 s) (Z.to_nat (x - (a + 8)))) as [c Hc]; [rewrite length_le_enc; lia|].
  exists c. rewrite <- (H _ _ Hc). f_equal. lia.
Qed.
Lemma is_Some_same b j (m m' : umem) x : same_but b j m m' -> mapped m' b j -> is_Some (m !! x) -> is_Some (m' !! x).
Proof. intros S Hb Hx. destruct (decide (b <= x < b + j)) as [|]; [by apply Hb|]. by rewrite S by lia. Qed.

(** ** The free list

    A block is its address and its size in units of a header. *)
Notation block := (Z * Z)%type.
Definition owned (fs : list block) (x : Z) : Prop := exists b : block, b ∈ fs /\ b.1 <= x < b.1 + 16 * b.2.
Definition hdr (m : umem) (a p s : Z) : Prop := ptr_at m a p /\ size_at m a s.
Definition haddr (L : list block) (e : Z) : Z := match L with [] => e | b :: _ => b.1 end.
(** The headers of the blocks, each pointing to the next, the last to [e]. *)
Fixpoint seg (m : umem) (L : list block) (e : Z) : Prop :=
  match L with [] => True | b :: L' => hdr m b.1 (haddr L' e) b.2 /\ seg m L' e end.
(** Address order, with no two adjacent blocks. *)
Definition before (b : block) (a : Z) : Prop := b.1 + 16 * Z.max b.2 1 <= a /\ b.1 + 16 * b.2 <> a.
Fixpoint asc (L : list block) : Prop :=
  match L with [] => True | b :: L' => match L' with [] => True | c :: _ => before b c.1 end /\ asc L' end.

Lemma seg_app m L1 L2 e : seg m (L1 ++ L2) e <-> seg m L1 (haddr L2 e) /\ seg m L2 e.
Proof.
  induction L1 as [|b L1 IH]; cbn [app seg]; [tauto|]. rewrite IH.
  assert (haddr (L1 ++ L2) e = haddr L1 (haddr L2 e)) as -> by (by destruct L1). tauto.
Qed.
Lemma asc_app L1 b L2 : asc (L1 ++ b :: L2) <-> asc (L1 ++ [b]) /\ asc (b :: L2).
Proof.
  induction L1 as [|c L1 IH]; [cbn; tauto|].
  rewrite <- !app_comm_cons. change (asc (c :: L1 ++ b :: L2)) with (match L1 ++ b :: L2 with [] => True | d :: _ => before c d.1 end /\ asc (L1 ++ b :: L2)).
  change (asc (c :: L1 ++ [b])) with (match L1 ++ [b] with [] => True | d :: _ => before c d.1 end /\ asc (L1 ++ [b])).
  rewrite IH. destruct L1; cbn [app]; tauto.
Qed.
Lemma asc_head b L c : asc (b :: L) -> c ∈ L -> b.1 + 16 * Z.max b.2 1 <= c.1.
Proof.
  revert b. induction L as [|d L IH]; intros b H Hc; [by apply not_elem_of_nil in Hc|].
  destruct H as [[H1 _] H2]. apply elem_of_cons in Hc as [->|Hc]; [done|]. specialize (IH d H2 Hc). lia.
Qed.
Lemma asc_lookup L i j b c : asc L -> (i < j)%nat -> L !! i = Some b -> L !! j = Some c -> b.1 + 16 * Z.max b.2 1 <= c.1.
Proof.
  revert i j. induction L as [|d L IH]; intros [|i] [|j] H Hij Hi Hj; cbn in Hi, Hj; try lia; try done.
  - injection Hi as ->. by apply (asc_head b L c H), (list_elem_of_lookup_2 _ j).
  - destruct H as [_ H]. apply (IH i j); [done|lia|done|done].
Qed.
Lemma asc_inj L i j b c : asc L -> L !! i = Some b -> L !! j = Some c -> b.1 = c.1 -> i = j.
Proof.
  intros H Hi Hj E. destruct (Nat.lt_trichotomy i j) as [Hl|[->|Hl]]; [|done|].
  - pose proof (asc_lookup _ _ _ _ _ H Hl Hi Hj). lia.
  - pose proof (asc_lookup _ _ _ _ _ H Hl Hj Hi). lia.
Qed.
Lemma seg_lookup m L e : forall i b, seg m L e -> L !! i = Some b -> hdr m b.1 (haddr (drop (S i) L) e) b.2.
Proof.
  induction L as [|d L IH]; intros [|i] b H Hi; cbn in Hi; try done.
  - injection Hi as <-. cbn [drop]. by destruct H.
  - destruct H as [_ H]. by apply IH.
Qed.

(** The list as a circle. *)
Definition cell (L : list block) (i : nat) : block := L !!! (i mod length L)%nat.
Lemma cell_lookup L i : L <> [] -> L !! (i mod length L)%nat = Some (cell L i).
Proof.
  intros H. apply list_lookup_lookup_total_lt, Nat.mod_upper_bound. by destruct L.
Qed.
Lemma cell_at L i b : L !! i = Some b -> cell L i = b.
Proof. intros H. unfold cell. rewrite Nat.mod_small by (by eapply lookup_lt_Some). by apply list_lookup_total_correct. Qed.
Lemma mod_S (i k : nat) : (0 < k)%nat -> (S i mod k = if decide (S (i mod k) = k) then 0 else S (i mod k))%nat.
Proof.
  intros Hk. pose proof (Nat.mod_upper_bound i k ltac:(lia)). rewrite <- (Nat.add_1_r i), <- Nat.Div0.add_mod_idemp_l, Nat.add_1_r.
  destruct (decide (S (i mod k) = k)%nat) as [E|]; [rewrite E; apply Nat.Div0.mod_same|apply Nat.mod_small; lia].
Qed.
Lemma ring_next m b0 L i : seg m (b0 :: L) b0.1 ->
  hdr m (cell (b0 :: L) i).1 (cell (b0 :: L) (S i)).1 (cell (b0 :: L) i).2.
Proof.
  intros H. pose proof (cell_lookup (b0 :: L) i ltac:(done)) as E. pose proof (lookup_lt_Some _ _ _ E) as Hlt.
  pose proof (seg_lookup m _ _ _ _ H E) as Hh.
  assert (haddr (drop (S (i mod length (b0 :: L))%nat) (b0 :: L)) b0.1 = (cell (b0 :: L) (S i)).1) as <-; [|done].
  unfold cell. rewrite (mod_S i) by (cbn; lia). destruct (decide _) as [E1|N1].
  - rewrite E1, drop_all. done.
  - destruct (lookup_lt_is_Some_2 (b0 :: L) (S (i mod length (b0 :: L))%nat)) as [c Hc]; [lia|].
    rewrite (drop_S _ _ _ Hc). by rewrite (list_lookup_total_correct _ _ _ Hc).
Qed.

Section Heap.
Context (freep base : Z).

(** The static variables do not overlap. *)
Definition layout : Prop := 0 < freep /\ 0 < base /\ (freep + 8 <= base \/ base + 16 <= freep) /\ freep < 2 ^ 36 /\ base < 2 ^ 36.
Definition static (x : Z) : Prop := freep <= x < freep + 8 \/ base <= x < base + 16.

(** The heap with the free blocks [fs] and the search pointer [f]. *)
Record heap_at (m : umem) (f : Z) (fs : list block) : Prop := mk_heap {
  ha_freep : ptr_at m freep f;
  ha_in : exists s, (f, s) ∈ (base, 0) :: fs;
  ha_ring : seg m ((base, 0) :: fs) base;
  ha_asc : asc ((base, 0) :: fs);
  ha_size : Forall (fun b : block => 1 <= b.2) fs;
  ha_low : Forall (fun b : block => freep + 8 <= b.1) fs;
  ha_top : Forall (fun b : block => b.1 + 16 * b.2 <= 2 ^ 36) fs;
  ha_map : forall x, owned fs x -> is_Some (m !! x) }.
Definition heap (m : umem) (fs : list block) : Prop := exists f, heap_at m f fs.

(** Where the loop of [free] stops. *)
Definition stops (bp c q : Z) : bool := (c <? bp) && (bp <? q) || (q <=? c) && ((c <? bp) || (bp <? q)).
Lemma stops_at L b0 k c j p bp : asc L -> L !! 0%nat = Some b0 -> b0.1 < bp -> L !! k = Some c ->
  L !! j = Some p -> p.1 < bp -> (forall d, L !! S j = Some d -> bp < d.1) ->
  stops bp c.1 (match L !! S k with Some d => d.1 | None => b0.1 end) = bool_decide (k = j).
Proof.
  intros Ha H0 Hb Hk Hj Hp Hn. unfold stops.
  assert (Hle : forall i d, L !! i = Some d -> b0.1 <= d.1).
  { intros [|i] d Hd; [simplify_eq; lia|]. pose proof (asc_lookup L 0 (S i) _ _ Ha ltac:(lia) H0 Hd). lia. }
  pose proof (Hle _ _ Hk).
  assert (Hnext : forall d, L !! S k = Some d -> c.1 < d.1) by (intros d Hd; pose proof (asc_lookup L k (S k) _ _ Ha ltac:(lia) Hk Hd); lia).
  destruct (Nat.lt_trichotomy k j) as [Hl|[->|Hl]].
  - rewrite bool_decide_false by lia. destruct (lookup_lt_is_Some_2 L (S k)) as [d Hd]; [apply lookup_lt_Some in Hj; lia|].
    rewrite Hd. pose proof (Hnext _ Hd). assert (d.1 <= p.1).
    { destruct (decide (S k = j)) as [<-|]; [by simplify_eq|]. pose proof (asc_lookup L (S k) j _ _ Ha ltac:(lia) Hd Hj). lia. }
    destruct (Z.ltb_spec bp d.1), (Z.leb_spec d.1 c.1); lia.
  - rewrite bool_decide_true by done. assert (c = p) as -> by congruence. destruct (Z.ltb_spec p.1 bp); [|lia]. cbn [andb orb]. destruct (L !! S j) as [d|] eqn:Hd.
    + pose proof (Hn _ eq_refl). by destruct (Z.ltb_spec bp d.1); [|lia].
    + destruct (Z.leb_spec b0.1 p.1); [|lia]. by rewrite orb_true_r.
  - rewrite bool_decide_false by lia. destruct (lookup_lt_is_Some_2 L (S j)) as [x Hx]; [apply lookup_lt_Some in Hk; lia|].
    pose proof (Hn _ Hx). assert (bp < c.1).
    { destruct (decide (S j = k)) as [<-|]; [by simplify_eq|]. pose proof (asc_lookup L (S j) k _ _ Ha ltac:(lia) Hx Hk). lia. }
    destruct (Z.ltb_spec c.1 bp); [lia|]. cbn [andb orb]. destruct (L !! S k) as [d|] eqn:Hd.
    + pose proof (Hnext _ eq_refl). by destruct (Z.leb_spec d.1 c.1); [lia|].
    + destruct (Z.ltb_spec bp b0.1); [lia|]. by rewrite andb_false_r.
Qed.

Lemma free_test_run m fs f j p bp n i : heap_at m f fs -> base < bp ->
  ((base, 0) :: fs) !! j = Some p -> p.1 < bp -> (forall c, ((base, 0) :: fs) !! S j = Some c -> bp < c.1) ->
  free_test bp (cell ((base, 0) :: fs) i).1 n m =
  URet (if decide (i mod length ((base, 0%Z) :: fs) = j)%nat then inr p.1 else inl (cell ((base, 0) :: fs) (S i)).1) m.
Proof.
  intros H Hb Hj Hp Hn. set (L := (base, 0) :: fs) in *. destruct (ring_next m (base, 0) fs i (ha_ring _ _ _ H)) as [Hq _]. fold L in Hq.
  pose proof (cell_lookup L i ltac:(done)) as Ei.
  pose proof (stops_at L (base, 0) _ _ j p bp (ha_asc _ _ _ H) eq_refl Hb Ei Hj Hp Hn) as Hs.
  unfold free_test. rewrite (ubind_ret _ _ _ _ _ _ (get_ptr_run _ _ _ n Hq)).
  assert (match L !! S (i mod length L)%nat with Some d => d.1 | None => (base, 0).1 end = (cell L (S i)).1) as En.
  { pose proof (cell_lookup L (S i) ltac:(done)) as E2. rewrite (mod_S i) in E2 by (cbn; lia). destruct (decide _) as [E3|].
    - rewrite E3, lookup_ge_None_2 by done. change (Some (base, 0) = Some (cell L (S i))) in E2. by injection E2 as <-.
    - by rewrite E2. }
  rewrite En in Hs. unfold stops in Hs. destruct (decide _) as [E3|N3].
  - rewrite E3, bool_decide_true in Hs by done. rewrite E3, Hj in Ei. injection Ei as Ep. rewrite <- Ep in *.
    apply orb_true_iff in Hs as [->| ->]; [done|]. by destruct (_ && _).
  - rewrite bool_decide_false in Hs by done. apply orb_false_iff in Hs as [-> ->]. done.
Qed.
(** Going round from [f], the loop of [free] stops at the block before [bp]. *)
Lemma free_find_run m fs f j p bp n : layout -> heap_at m f fs -> base < bp ->
  ((base, 0) :: fs) !! j = Some p -> p.1 < bp -> (forall c, ((base, 0) :: fs) !! S j = Some c -> bp < c.1) ->
  (length fs < n)%nat -> free_find bp f n m = URet p.1 m.
Proof.
  intros HL H Hb Hj Hp Hn Hf. destruct (ha_in _ _ _ H) as (sf & Hfb).
  apply list_elem_of_lookup_1 in Hfb as [i0 Hi0]. change f with (f, sf).1. rewrite <- (cell_at _ _ _ Hi0).
  pose proof (lookup_lt_Some _ _ _ Hi0) as L1. pose proof (lookup_lt_Some _ _ _ Hj) as L2. set (K := length ((base, 0) :: fs)) in *.
  assert (Hd : exists d, (d < n)%nat /\ ((i0 + d) mod K = j)%nat).
  { destruct (Nat.le_gt_cases i0 j).
    - exists (j - i0)%nat. split; [unfold K in *; cbn in *; lia|]. rewrite Nat.mod_small; lia.
    - exists (j + K - i0)%nat. split; [unfold K in *; cbn in *; lia|]. replace (i0 + (j + K - i0))%nat with (j + 1 * K)%nat by lia.
      rewrite Nat.Div0.mod_add. by apply Nat.mod_small. }
  destruct Hd as (d & Hd & Ed). unfold free_find, uloop. revert Hd. generalize n at 1 2. intros k. clear Hi0 L1.
  revert i0 k Ed. induction d as [|d IH]; intros i [|k] Ed Hk; try lia;
    pose proof (free_test_run m fs f j p bp n i H Hb Hj Hp Hn) as E; fold K in E; destruct (decide _) as [Ei|Ni].
  - by apply uiter_inr.
  - by rewrite Nat.add_0_r in Ed.
  - by apply uiter_inr.
  - rewrite (uiter_inl _ _ _ _ _ _ _ E). apply IH; [|lia]. by replace (S i + d)%nat with (i + S d)%nat by lia.
Qed.

Lemma seg_same m m' L e b k : seg m L e -> same_but b k m m' ->
  (forall c, c ∈ L -> c.1 + 16 <= b \/ b + k <= c.1) -> seg m' L e.
Proof.
  induction L as [|c L IH]; intros H S Hd; [done|]. destruct H as [[H1 H2] H3]. split; [|apply IH; [done..|]; intros d Hdl; apply Hd; by right].
  pose proof (Hd c ltac:(by left)). split; [eapply ptr_at_same|eapply size_at_same]; try done; lia.
Qed.
Lemma seg_hdr m L e c : seg m L e -> c ∈ L -> exists p, hdr m c.1 p c.2.
Proof. intros H [i Hi]%list_elem_of_lookup_1. eauto using seg_lookup. Qed.
Lemma same_but_trans b k m1 m2 m3 c j d l : same_but b k m1 m2 -> same_but c j m2 m3 ->
  d <= b -> d <= c -> b + k <= d + l -> c + j <= d + l -> same_but d l m1 m3.
Proof. intros H1 H2 ? ? ? ? x Hx. rewrite H2 by lia. apply H1. lia. Qed.

(** Joining with the next block. *)
Lemma join_next_run m A p B bp s n : seg m (A ++ [p]) (haddr B base) -> seg m B base -> size_at m bp s -> mapped m bp 8 ->
  0 <= s -> bp + 16 * s <= 2 ^ 36 -> 0 < bp -> 0 < base < bp ->
  (forall c, c ∈ A ++ [p] -> c.1 + 16 <= bp) -> (forall c, c ∈ B -> bp + 16 <= c.1 /\ bp + 16 * s <= c.1 /\ 0 <= c.2 /\ c.1 + 16 * c.2 <= 2 ^ 36) ->
  exists m1 s1 B1, join_next bp p.1 n m = URet tt m1 /\ seg m1 (A ++ [p]) (haddr B base) /\ seg m1 B1 base /\
    hdr m1 bp (haddr B1 base) s1 /\ same_but bp 12 m m1 /\
    ((B1 = B /\ s1 = s /\ bp + 16 * s <> haddr B base) \/ exists q, B = q :: B1 /\ s1 = s + q.2 /\ bp + 16 * s = q.1).
Proof.
  intros HA HB Hs Hm Hs0 Htop Hbp Hbase DA DB. apply seg_app in HA as HA'. destruct HA' as [_ [[Hp _] _]].
  unfold join_next. rewrite (ubind_ret _ _ _ _ _ _ (get_size_run _ _ _ n Hs)), (ubind_ret _ _ _ _ _ _ (get_ptr_run _ _ _ n Hp)).
  change (haddr [] (haddr B base)) with (haddr B base) in *. change HEADER with 16.
  assert (SA : forall m' b k, same_but b k m m' -> bp <= b -> seg m' (A ++ [p]) (haddr B base)).
  { intros m' b k S Hb. eapply seg_same; [done..|]. intros c Hc. specialize (DA c Hc). lia. }
  destruct (Z.eqb_spec (bp + 16 * s) (haddr B base)) as [Eq|Ne].
  - destruct B as [|q B1]; [cbn in Eq; lia|]. cbn [haddr] in *. destruct HB as [[Hq1 Hq2] HB1]. destruct (DB q ltac:(by left)) as (D1 & D2 & D3 & D4).
    rewrite (ubind_ret _ _ _ _ _ _ (get_ptr_run _ _ _ n Hp)), (ubind_ret _ _ _ _ _ _ (get_size_run _ _ _ n Hq2)).
    assert (0 <= s + q.2 < 2 ^ 32) by lia. rewrite u32_small by lia.
    destruct (set_size_run m bp (s + q.2) n (size_at_mapped _ _ _ Hs)) as (m0 & E0 & S0 & F0); [done|].
    rewrite (ubind_ret _ _ _ _ _ _ E0). pose proof (ptr_at_same _ _ _ _ _ _ Hp F0 ltac:(specialize (DA p ltac:(apply elem_of_app; right; by left)); lia)) as Hp0.
    pose proof (ptr_at_same _ _ _ _ _ _ Hq1 F0 ltac:(lia)) as Hq0.
    rewrite (ubind_ret _ _ _ _ _ _ (get_ptr_run _ _ _ n Hp0)), (ubind_ret _ _ _ _ _ _ (get_ptr_run _ _ _ n Hq0)).
    destruct (set_ptr_run m0 bp (haddr B1 base) n) as (m1 & E1 & P1 & F1); [|apply Hq1|].
    { intros x Hx. rewrite F0 by lia. by apply Hm. }
    exists m1, (s + q.2), B1. rewrite E1. pose proof (same_but_trans _ _ _ _ _ _ _ bp 12 F0 F1 ltac:(lia) ltac:(lia) ltac:(lia) ltac:(lia)) as F.
    split_and!; [done|by eapply SA| | |done|right; by exists q].
    + eapply seg_same; [done..|]. intros c Hc. destruct (DB c ltac:(by right)). lia.
    + split; [done|]. apply (size_at_same _ _ _ _ _ _ S0 F1); lia.
  - destruct (set_ptr_run m bp (haddr B base) n Hm) as (m1 & E1 & P1 & F1); [apply Hp|].
    exists m1, s, B. rewrite E1. assert (F : same_but bp 12 m m1) by (intros x Hx; apply F1; lia).
    split_and!; [done|by eapply SA| | |done|by left].
    + eapply seg_same; [done..|]. intros c Hc. destruct (DB c Hc). lia.
    + split; [done|]. apply (size_at_same _ _ _ _ _ _ Hs F1); lia.
Qed.

(** Joining with the previous block. *)
Lemma join_prev_run m A p e bp r s n : seg m (A ++ [p]) e -> hdr m bp r s -> p.1 + 16 * Z.max p.2 1 <= bp -> 0 <= p.2 -> 0 < p.1 ->
  0 < bp -> 0 <= s -> bp + 16 * s <= 2 ^ 36 -> (forall c, c ∈ A -> c.1 + 16 <= p.1) ->
  exists m1 M, join_prev bp p.1 n m = URet tt m1 /\ seg m1 (A ++ M) r /\ same_but p.1 12 m m1 /\
    ((p.1 + 16 * p.2 = bp /\ M = [(p.1, p.2 + s)]) \/ (p.1 + 16 * p.2 <> bp /\ M = [p; (bp, s)])).
Proof.
  intros HA [Hr Hs] Hp Hp0 Hp1 Hbp Hs0 Htop DA. apply seg_app in HA as [HA [[Hpp Hps] _]]. cbn [haddr] in *.
  unfold join_prev. rewrite (ubind_ret _ _ _ _ _ _ (get_size_run _ _ _ n Hps)). change HEADER with 16.
  destruct (Z.eqb_spec (p.1 + 16 * p.2) bp) as [Eq|Ne].
  - rewrite (ubind_ret _ _ _ _ _ _ (get_size_run _ _ _ n Hs)). assert (0 <= p.2 + s < 2 ^ 32) by lia. rewrite u32_small by lia.
    destruct (set_size_run m p.1 (p.2 + s) n (size_at_mapped _ _ _ Hps)) as (m0 & E0 & S0 & F0); [done|].
    rewrite (ubind_ret _ _ _ _ _ _ E0). pose proof (ptr_at_same _ _ _ _ _ _ Hr F0 ltac:(lia)) as Hr0.
    rewrite (ubind_ret _ _ _ _ _ _ (get_ptr_run _ _ _ n Hr0)).
    destruct (set_ptr_run m0 p.1 r n) as (m1 & E1 & P1 & F1); [|apply Hr|].
    { intros x Hx. rewrite F0 by lia. by apply (ptr_at_mapped _ _ _ Hpp). }
    pose proof (same_but_trans _ _ _ _ _ _ _ p.1 12 F0 F1 ltac:(lia) ltac:(lia) ltac:(lia) ltac:(lia)) as F.
    exists m1, [(p.1, p.2 + s)]. rewrite E1. split_and!; [done| |done|by left].
    apply seg_app. cbn [haddr seg fst snd]. split; [|split; [|done]].
    + eapply seg_same; [done..|]. intros c Hc. specialize (DA c Hc). lia.
    + split; [done|]. apply (size_at_same _ _ _ _ _ _ S0 F1); lia.
  - destruct (set_ptr_run m p.1 bp n) as (m1 & E1 & P1 & F1); [by eapply ptr_at_mapped|lia|].
    assert (F : same_but p.1 12 m m1) by (intros x Hx; apply F1; lia).
    exists m1, [p; (bp, s)]. rewrite E1. split_and!; [done| |done|by right].
    apply seg_app. cbn [haddr seg fst snd]. split_and!; [| | |done].
    + eapply seg_same; [done..|]. intros c Hc. specialize (DA c Hc). lia.
    + split; [done|]. apply (size_at_same _ _ _ _ _ _ Hps F1); lia.
    + split; [eapply ptr_at_same|eapply size_at_same]; try done; lia.
Qed.

Lemma owned_cons b L x : owned (b :: L) x <-> b.1 <= x < b.1 + 16 * b.2 \/ owned L x.
Proof.
  split.
  - intros (c & Hc & Hx). apply elem_of_cons in Hc as [->|Hc]; [by left|right; by exists c].
  - intros [H|(c & Hc & Hx)]; [exists b|exists c]; (split; [|done]); [by left|by right].
Qed.
Lemma owned_nil x : owned [] x <-> False.
Proof. split; [|done]. intros (c & Hc & _). by apply not_elem_of_nil in Hc. Qed.
Lemma owned_app L1 L2 x : owned (L1 ++ L2) x <-> owned L1 x \/ owned L2 x.
Proof.
  induction L1 as [|b L1 IH]; cbn [app]; [rewrite owned_nil; tauto|]. rewrite !owned_cons, IH. tauto.
Qed.
Lemma asc_last A b c : asc (A ++ [b]) -> b.1 = c.1 -> asc (A ++ [c]).
Proof.
  intros H E. induction A as [|d A IH]; [done|]. destruct H as [H1 H2]. split; [|by apply IH].
  destruct A; cbn in *; congruence.
Qed.
Lemma asc_snoc A b : asc (A ++ [b]) -> forall c, c ∈ A -> c.1 + 16 * Z.max c.2 1 <= b.1.
Proof.
  intros H c Hc. apply list_elem_of_split in Hc as (A1 & A2 & ->). rewrite <- app_assoc in H. cbn [app] in H.
  apply asc_app in H as [_ H]. apply (asc_head _ _ _ H). apply elem_of_app. right. by left.
Qed.
Lemma asc_cons b L : asc (b :: L) <-> (forall c, head L = Some c -> before b c.1) /\ asc L.
Proof. destruct L as [|d L]; cbn; [naive_solver|]. split; [intros [? ?]; split; [by intros ? [= <-]|done]|intros [H ?]; split; [by apply H|done]]. Qed.
Lemma split_before fs bp : forall b0, b0.1 < bp -> asc (b0 :: fs) -> (forall c, c ∈ fs -> c.1 <> bp) ->
  exists A p B, b0 :: fs = A ++ p :: B /\ p.1 < bp /\ forall c, c ∈ B -> bp < c.1.
Proof.
  induction fs as [|d fs IH]; intros b0 Hb Ha Hn.
  - exists [], b0, []. split_and!; [done..|]. intros c Hc. by apply not_elem_of_nil in Hc.
  - destruct (Z.lt_total d.1 bp) as [H|[H|H]].
    + destruct (IH d) as (A & p & B & E & ? & ?); [done|by destruct Ha|intros; apply Hn; by right|].
      exists (b0 :: A), p, B. by rewrite E.
    + exfalso. apply (Hn d); [by left|done].
    + exists [], b0, (d :: fs). split_and!; [done..|]. intros c Hc. apply elem_of_cons in Hc as [->|Hc]; [done|].
      destruct Ha as [_ Ha]. pose proof (asc_head _ _ _ Ha Hc). lia.
Qed.

(** The free blocks after a block has been given back. *)
Lemma joined_blocks A p B bp s s1 B1 M : asc (A ++ p :: B) -> 1 <= s -> 0 <= p.2 -> p.1 + 16 * Z.max p.2 1 <= bp ->
  (forall c, c ∈ B -> bp + 16 * s <= c.1 /\ 1 <= c.2) ->
  ((B1 = B /\ s1 = s /\ bp + 16 * s <> haddr B base) \/ exists q, B = q :: B1 /\ s1 = s + q.2 /\ bp + 16 * s = q.1) ->
  ((p.1 + 16 * p.2 = bp /\ M = [(p.1, p.2 + s1)]) \/ (p.1 + 16 * p.2 <> bp /\ M = [p; (bp, s1)])) ->
  asc (A ++ M ++ B1) /\ (forall x, owned (A ++ M ++ B1) x <-> owned (A ++ p :: B) x \/ bp <= x < bp + 16 * s) /\ s <= s1 /\
  (length (A ++ M ++ B1) <= S (length (A ++ p :: B)))%nat.
Proof.
  intros Ha Hs Hp0 Hp DB H1 H2. apply asc_app in Ha as [HaA HaB]. apply asc_cons in HaB as [_ HaB].
  assert (T : asc B1 /\ (forall d, head B1 = Some d -> bp + 16 * s1 < d.1) /\ s <= s1).
  { destruct H1 as [(-> & -> & Hne)|(q & -> & -> & Eq)].
    - split_and!; [done| |lia]. intros d Hd. destruct B as [|d' B]; [done|]. injection Hd as ->. cbn in Hne.
      destruct (DB d ltac:(by left)). lia.
    - apply asc_cons in HaB as [Hq HaB]. destruct (DB q ltac:(by left)). split_and!; [done| |lia].
      intros d Hd. destruct (Hq d Hd). lia. }
  destruct T as (T1 & T2 & T3).
  assert (O : forall x, owned B1 x \/ bp <= x < bp + 16 * s1 <-> owned B x \/ bp <= x < bp + 16 * s).
  { intros x. destruct H1 as [(-> & -> & _)|(q & -> & -> & Eq)]; [done|]. rewrite owned_cons. destruct (DB q ltac:(by left)) as [Dq1 Dq2].
    assert (bp <= x < bp + 16 * (s + q.2) <-> q.1 <= x < q.1 + 16 * q.2 \/ bp <= x < bp + 16 * s) as -> by lia. tauto. }
  assert (length B1 <= length B)%nat by (destruct H1 as [(-> & _)|(q & -> & _)]; cbn; lia).
  destruct H2 as [(Eq & ->)|(Ne & ->)]; cbn [app].
  - split_and!; [| |done|].
    + apply asc_app. split; [by apply (asc_last A p)|]. apply asc_cons. split; [|done]. intros d Hd. specialize (T2 d Hd). split; cbn; lia.
    + intros x. rewrite !owned_app, !owned_cons. cbn [fst snd]. specialize (O x).
      destruct (decide (p.1 <= x < p.1 + 16 * p.2)), (decide (bp <= x < bp + 16 * s1)); intuition lia.
    + rewrite !length_app. cbn. lia.
  - split_and!; [| |done|].
    + apply asc_app. split; [done|]. apply asc_cons. split; [intros d [= <-]; split; cbn; lia|].
      apply asc_cons. split; [|done]. intros d Hd. specialize (T2 d Hd). split; cbn; lia.
    + intros x. rewrite !owned_app, !owned_cons. cbn [fst snd]. specialize (O x). intuition lia.
    + rewrite !length_app. cbn. lia.
Qed.

(** A block in use: its header holds its size, its memory is its own. *)
Definition in_use (m : umem) (fs : list block) (a s : Z) : Prop :=
  1 <= s /\ size_at m a s /\ mapped m a (16 * s) /\ freep + 8 <= a /\ base + 16 <= a /\ a + 16 * s <= 2 ^ 36 /\
  forall x, a <= x < a + 16 * s -> ~ owned fs x.
(** The allocator writes only its variables and free memory. *)
Definition frame (fs : list block) (m m' : umem) : Prop :=
  forall x, ~ static x -> ~ owned fs x -> m' !! x = m !! x.
Definition good (c : block) : Prop := 1 <= c.2 /\ freep + 8 <= c.1 /\ c.1 + 16 * c.2 <= 2 ^ 36.

Lemma heap_cells m f fs c : layout -> heap_at m f fs -> c ∈ (base, 0) :: fs -> c = (base, 0) \/ (c ∈ fs /\ good c /\ base + 16 <= c.1).
Proof.
  intros HL H Hc. apply elem_of_cons in Hc as [->|Hc]; [by left|right].
  pose proof (proj1 (Forall_forall _ _) (ha_size _ _ _ H) _ Hc). pose proof (proj1 (Forall_forall _ _) (ha_low _ _ _ H) _ Hc).
  pose proof (proj1 (Forall_forall _ _) (ha_top _ _ _ H) _ Hc). pose proof (asc_head _ _ _ (ha_asc _ _ _ H) Hc). cbn in *. done.
Qed.

(** The heap rebuilt from its list. *)
Lemma mk_heap_list m f L : ptr_at m freep f -> (exists s, (f, s) ∈ (base, 0) :: L) -> seg m ((base, 0) :: L) base -> asc ((base, 0) :: L) ->
  (forall c, c ∈ (base, 0) :: L -> c = (base, 0) \/ good c) -> (forall x, owned L x -> is_Some (m !! x)) -> heap_at m f L.
Proof.
  intros H1 H2 H3 H4 H5 H6.
  assert (G : forall c, c ∈ L -> good c).
  { intros c Hc. destruct (H5 c) as [->|]; [by right| |done]. pose proof (asc_head _ _ _ H4 Hc). cbn in *. lia. }
  constructor; try done; apply Forall_forall; intros c Hc; apply (G c Hc).
Qed.
Lemma owned_base fs x : owned ((base, 0) :: fs) x <-> owned fs x.
Proof. rewrite owned_cons. cbn. intuition lia. Qed.

(** Where a block in use lies among the free ones. *)
Lemma in_use_split m f fs bp s : layout -> heap_at m f fs -> in_use m fs bp s ->
  exists A p B, (base, 0) :: fs = A ++ p :: B /\ p.1 + 16 * Z.max p.2 1 <= bp /\ 0 <= p.2 /\ (p = (base, 0) \/ good p) /\
    (forall c, c ∈ A ++ [p] -> c.1 + 16 <= bp) /\ (forall c, c ∈ A -> c.1 + 16 <= p.1) /\
    forall c, c ∈ B -> bp + 16 * s <= c.1 /\ good c.
Proof.
  intros HL H (Hs & _ & _ & _ & Hb & Htop & Hd).
  destruct (split_before fs bp (base, 0)) as (A & p & B & E & Hp & HB); [cbn; lia|apply (ha_asc _ _ _ H)| |].
  { intros c Hc Ebp. destruct (heap_cells m f fs c HL H ltac:(by right)) as [->|(_ & (G & _) & _)]; [cbn in *; lia|].
    apply (Hd c.1); [lia|]. exists c. split; [done|lia]. }
  assert (Hc : forall c, c ∈ A ++ p :: B -> c = (base, 0) \/ (c ∈ fs /\ good c /\ base + 16 <= c.1)) by (intros c Hc; rewrite <- E in Hc; by apply (heap_cells m f fs)).
  assert (Hpc : p ∈ A ++ p :: B) by (apply elem_of_app; right; by left).
  pose proof (ha_asc _ _ _ H) as Ha. rewrite E in Ha. apply asc_app in Ha as [Ha _]. pose proof (asc_snoc _ _ Ha) as DA.
  assert (Hp2 : p.1 + 16 * Z.max p.2 1 <= bp /\ 0 <= p.2).
  { destruct (Hc p Hpc) as [->|(Hin & (G & _) & _)]; [cbn in *; lia|]. split; [|lia]. destruct (decide (bp < p.1 + 16 * p.2)); [|lia].
    exfalso. apply (Hd bp); [lia|]. exists p. split; [done|lia]. }
  exists A, p, B. split_and!; [done|lia|lia|destruct (Hc p Hpc); naive_solver| | |].
  - intros c Hin. apply elem_of_app in Hin as [Hin|Hin%list_elem_of_singleton]; [specialize (DA c Hin)|subst c]; lia.
  - intros c Hin. specialize (DA c Hin). lia.
  - intros c Hin. specialize (HB c Hin). destruct (Hc c ltac:(apply elem_of_app; right; by right)) as [->|(Hfs & G & _)]; [cbn in *; lia|].
    split; [|done]. destruct (decide (c.1 < bp + 16 * s)); [|lia]. exfalso. destruct G. apply (Hd c.1); [lia|]. exists c. split; [done|lia].
Qed.

Lemma good_low p : layout -> p = (base, 0) \/ good p -> 0 < p.1 /\ (p.1 + 12 <= freep \/ freep + 8 <= p.1).
Proof. intros (? & ? & ? & _). intros [->|(? & ? & ?)]; cbn; lia. Qed.

Lemma hdr_mapped m a p s : hdr m a p s -> mapped m a 12.
Proof.
  intros [H1 H2] x Hx. destruct (decide (x < a + 8)); [apply (ptr_at_mapped _ _ _ H1)|apply (size_at_mapped _ _ _ H2)]; lia.
Qed.
(** The two joins and the store of [freep]. *)
Lemma free_links m f fs A p B bp s n : layout -> heap_at m f fs -> in_use m fs bp s -> (base, 0) :: fs = A ++ p :: B ->
  p.1 + 16 * Z.max p.2 1 <= bp -> 0 <= p.2 -> (p = (base, 0) \/ good p) -> (forall c, c ∈ A ++ [p] -> c.1 + 16 <= bp) ->
  (forall c, c ∈ A -> c.1 + 16 <= p.1) -> (forall c, c ∈ B -> bp + 16 * s <= c.1 /\ good c) ->
  exists m' s1 B1 M, (join_next bp p.1 ;; join_prev bp p.1 ;; set_ptr freep p.1) n m = URet tt m' /\
    seg m' (A ++ M ++ B1) base /\ ptr_at m' freep p.1 /\
    (forall x, m' !! x = m !! x \/ is_Some (m' !! x) /\ (freep <= x < freep + 8 \/ bp <= x < bp + 16 \/ p.1 <= x < p.1 + 16)) /\
    ((B1 = B /\ s1 = s /\ bp + 16 * s <> haddr B base) \/ exists q, B = q :: B1 /\ s1 = s + q.2 /\ bp + 16 * s = q.1) /\
    ((p.1 + 16 * p.2 = bp /\ M = [(p.1, p.2 + s1)]) \/ (p.1 + 16 * p.2 <> bp /\ M = [p; (bp, s1)])).
Proof.
  intros HL H (Hs & Hsz & Hmap & Hlow & Hb & Htop & Hd) E Hp Hp0 Hpg DAp DA DB.
  pose proof HL as (HL1 & HL2 & HL3 & HL4). pose proof (ha_ring _ _ _ H) as HR. rewrite E in HR. apply seg_app in HR as [HR1 HR2].
  destruct HR2 as [HR2 HR3]. destruct (good_low p HL Hpg) as [Hpos Hpf].
  destruct (join_next_run m A p B bp s n) as (m1 & s1 & B1 & E1 & S1 & S2 & S3 & F1 & C1); try done; try lia.
  { apply seg_app. split; [done|]. by split. }
  { intros x Hx. apply Hmap. lia. }
  { intros c Hc. destruct (DB c Hc) as [? (? & ? & ?)]. lia. }
  assert (Hs1 : 0 <= s1 /\ bp + 16 * s1 <= 2 ^ 36 /\ forall c, c ∈ B1 -> bp + 16 <= c.1 /\ freep + 8 <= c.1).
  { destruct C1 as [(-> & -> & _)|(q & -> & -> & Eq)].
    - split_and!; [lia..|]. intros c Hc. destruct (DB c Hc) as [? (? & ? & ?)]. lia.
    - destruct (DB q ltac:(by left)) as [? (? & ? & ?)]. split_and!; [lia..|]. intros c Hc. destruct (DB c ltac:(by right)) as [? (? & ? & ?)]. lia. }
  destruct Hs1 as (Hs1 & Hs1t & DB1).
  destruct (join_prev_run m1 A p (haddr B base) bp (haddr B1 base) s1 n) as (m2 & M & E2 & T1 & F2 & C2); try done; [lia|].
  rewrite (ubind_ret _ _ _ _ _ _ E1), (ubind_ret _ _ _ _ _ _ E2).
  assert (Hf : mapped m2 freep 8).
  { intros x Hx. rewrite F2 by lia. rewrite F1 by lia. by apply (ptr_at_mapped _ _ _ (ha_freep _ _ _ H)). }
  destruct (set_ptr_run m2 freep p.1 n Hf) as (m3 & E3 & P3 & F3).
  { destruct Hpg as [->|(? & ? & ?)]; cbn; lia. }
  exists m3, s1, B1, M. split_and!; [done| |done| |done|done].
  - apply (seg_same m2 m3 _ _ freep 8); [|done|].
    + rewrite app_assoc. apply seg_app. split; [done|]. apply (seg_same m1 m2 _ _ p.1 12); [done..|].
      intros c Hc. destruct (DB1 c Hc). lia.
    + assert (DL : forall c, c ∈ A ++ [p] -> c.1 + 16 <= freep \/ freep + 8 <= c.1).
      { intros c Hc. assert (Hin : c ∈ (base, 0) :: fs) by (rewrite E; apply elem_of_app; apply elem_of_app in Hc as [?|?%list_elem_of_singleton]; [by left|subst; right; by left]).
        destruct (heap_cells m f fs c HL H Hin) as [->|(_ & (_ & ? & _) & _)]; cbn; lia. }
      intros c Hc. apply elem_of_app in Hc as [Hc|Hc]; [apply DL, elem_of_app; by left|]. apply elem_of_app in Hc as [Hc|Hc]; [|destruct (DB1 c Hc); lia].
      pose proof (DL p ltac:(apply elem_of_app; right; by left)).
      destruct C2 as [[_ ->]|[_ ->]]; repeat (apply elem_of_cons in Hc as [->|Hc]; [cbn; lia|]); by apply not_elem_of_nil in Hc.
  - intros x. destruct (decide (freep <= x < freep + 8)) as [D3|N3]; [right; split; [by apply (ptr_at_mapped _ _ _ P3)|lia]|].
    rewrite (F3 x) by lia. destruct (decide (p.1 <= x < p.1 + 12)) as [D2|N2].
    + right. split; [|lia]. apply seg_app in T1 as [_ T1].
      destruct C2 as [[_ ->]|[_ ->]]; destruct T1 as [T1 _]; by apply (hdr_mapped _ _ _ _ T1).
    + rewrite (F2 x) by lia. destruct (decide (bp <= x < bp + 12)) as [D1|N1]; [|left; apply F1; lia].
      right. split; [|lia]. by apply (hdr_mapped _ _ _ _ S3).
Qed.

Lemma free_run m f fs bp s n : layout -> heap_at m f fs -> in_use m fs bp s -> (length fs < n)%nat ->
  exists m' f' fs', free freep (bp + 16) n m = URet tt m' /\ heap_at m' f' fs' /\
    (forall x, owned fs' x <-> owned fs x \/ bp <= x < bp + 16 * s) /\ frame fs' m m' /\ (length fs' <= S (length fs))%nat /\
    exists b, b ∈ fs' /\ s <= b.2.
Proof.
  intros HL H HU Hn. destruct (in_use_split m f fs bp s HL H HU) as (A & p & B & E & Hp & Hp0 & Hpg & DAp & DA & DB).
  destruct (free_links m f fs A p B bp s n) as (m' & s1 & B1 & M & E1 & S1 & P1 & F1 & C1 & C2); try done.
  pose proof HU as (Hs & Hsz & Hmap & Hlow & Hb & Htop & Hd). pose proof HL as (HL1 & HL2 & HL3 & HL4).
  pose proof (ha_asc _ _ _ H) as Ha. rewrite E in Ha.
  destruct (joined_blocks A p B bp s s1 B1 M) as (J1 & J2 & J3 & J4); try done.
  { intros c Hc. destruct (DB c Hc) as [? [? _]]. lia. }
  assert (HM : exists s', (p.1, s') ∈ M) by (destruct C2 as [[_ ->]|[_ ->]]; [eexists; by left|exists p.2; rewrite <- surjective_pairing; by left]).
  assert (EL : exists fs', A ++ M ++ B1 = (base, 0) :: fs').
  { destruct A as [|a A]; cbn in E; injection E as E0 E'; [|exists (A ++ M ++ B1); by subst a].
    subst p. cbn in C2. destruct C2 as [[? _]|[_ ->]]; [lia|]. cbn. by eexists. }
  destruct EL as [fs' EL]. rewrite EL in S1, J1, J2, J4.
  assert (O : forall x, owned fs' x <-> owned fs x \/ bp <= x < bp + 16 * s).
  { intros x. rewrite <- (owned_base fs'), J2, <- E, owned_base. done. }
  assert (G : forall c, c ∈ A ++ M ++ B1 -> c = (base, 0) \/ good c).
  { assert (G1 : forall c, c ∈ A ++ p :: B -> c = (base, 0) \/ good c).
    { intros c Hc. rewrite <- E in Hc. destruct (heap_cells m f fs c HL H Hc) as [->|(_ & ? & _)]; [by left|by right]. }
    assert (Gs : good (bp, s1) /\ forall c, c ∈ B1 -> c ∈ B).
    { destruct C1 as [(-> & -> & _)|(q & -> & -> & Eq)]; [by split|]. destruct (DB q ltac:(by left)) as [? (? & ? & ?)].
      split; [unfold good; cbn; lia|intros; by right]. }
    destruct Gs as [(G2a & G2b & G2c) G3]. cbn in G2a, G2b, G2c.
    intros c Hc. apply elem_of_app in Hc as [Hc|Hc]; [apply G1, elem_of_app; by left|].
    apply elem_of_app in Hc as [Hc|Hc]; [|apply G1, elem_of_app; right; right; by apply G3].
    destruct C2 as [[Eq ->]|[_ ->]].
    - apply list_elem_of_singleton in Hc as ->. right. destruct Hpg as [->|(? & ? & ?)]; unfold good; cbn in *; lia.
    - apply elem_of_cons in Hc as [->|Hc]; [done|]. apply list_elem_of_singleton in Hc as ->. right. done. }
  rewrite EL in G.
  exists m', p.1, fs'. split_and!.
  - unfold free. change HEADER with 16. replace (bp + 16 - 16) with bp by lia.
    rewrite (ubind_ret _ _ _ _ _ _ (get_ptr_run _ _ _ n (ha_freep _ _ _ H))).
    rewrite (ubind_ret _ _ _ _ _ _ (free_find_run m fs f (length A) p bp n HL H ltac:(lia)
      ltac:(rewrite E; by apply list_lookup_middle) ltac:(lia)
      ltac:(intros c Hc; rewrite E in Hc; rewrite lookup_app_r in Hc by lia; replace (S (length A) - length A)%nat with 1%nat in Hc by lia;
            destruct B as [|b B]; [done|]; injection Hc as ->; destruct (DB c ltac:(by left)); lia) Hn)). done.
  - apply mk_heap_list; try done.
    + destruct HM as [s' HM]. exists s'. rewrite <- EL. apply elem_of_app. right. apply elem_of_app. by left.
    + intros x Hx. apply O in Hx as Hx'. destruct (F1 x) as [->|[? _]]; [|done]. destruct Hx' as [Hx'|Hx']; [by apply (ha_map _ _ _ H)|by apply Hmap].
  - done.
  - intros x Hst Hno. destruct (F1 x) as [|[_ Hx]]; [done|]. exfalso. destruct Hx as [Hx|[Hx|Hx]].
    + apply Hst. by left.
    + apply Hno, O. right. lia.
    + destruct Hpg as [->|(Hg & _ & _)]; [apply Hst; right; cbn in Hx; lia|]. apply Hno, O. left. apply owned_base. exists p. rewrite E. split; [apply elem_of_app; right; by left|lia].
  - rewrite <- E in J4. cbn in J4. lia.
  - assert (HM2 : exists b, b ∈ M /\ s <= b.2 /\ b.2 <> 0).
    { destruct C2 as [[_ ->]|[_ ->]]; [eexists; split; [by left|cbn; lia]|exists (bp, s1); split; [right; by left|cbn; lia]]. }
    destruct HM2 as (b & Hb1 & Hb2 & Hb3). exists b. split; [|done].
    assert (Hb4 : b ∈ (base, 0) :: fs') by (rewrite <- EL; apply elem_of_app; right; apply elem_of_app; by left).
    apply elem_of_cons in Hb4 as [->|]; [done|done].
Qed.

(** *** Allocation *)
(** What [malloc] achieves: [k] units at [a] leave the free memory. *)
Definition gave (k : Z) (m : umem) (fs : list block) (a : Z) (m' : umem) (fs' : list block) : Prop :=
  heap m' fs' /\ in_use m' fs' a k /\ (forall x, owned fs x <-> owned fs' x \/ a <= x < a + 16 * k) /\ frame fs m m'.

Lemma asc_skip X p B : asc (X ++ [p]) -> asc (p :: B) -> asc (X ++ B).
Proof.
  intros H1 H2. apply asc_cons in H2 as [H2 H3]. induction X as [|x X IH]; [done|]. destruct H1 as [H1 H4]. cbn [app].
  apply asc_cons. split; [|by apply IH]. intros c Hc. destruct X as [|x' X]; cbn in *; [|by injection Hc as ->].
  destruct (H2 c Hc), H1. unfold before. lia.
Qed.
Lemma asc_cut X p B k : asc (X ++ [p]) -> asc (p :: B) -> 1 <= k < p.2 -> asc (X ++ (p.1, p.2 - k) :: B).
Proof.
  intros H1 H2 Hk. apply asc_app. split; [by apply (asc_last X p)|]. apply asc_cons in H2 as [H2 H3]. apply asc_cons. split; [|done].
  intros c Hc. destruct (H2 c Hc). unfold before. cbn. lia.
Qed.

(** The last store of [malloc]. *)
Lemma finish_take m m1 f fs y a k fs' n : layout -> heap_at m f fs ->
  seg m1 ((base, 0) :: fs') base -> asc ((base, 0) :: fs') -> (forall c, c ∈ (base, 0) :: fs' -> c = (base, 0) \/ good c) ->
  (exists s, (y, s) ∈ (base, 0) :: fs') -> (forall x, owned fs x <-> owned fs' x \/ a <= x < a + 16 * k) ->
  (forall x, a <= x < a + 16 * k -> ~ owned fs' x) -> size_at m1 a k -> 1 <= k -> freep + 8 <= a -> base + 16 <= a -> a + 16 * k <= 2 ^ 36 ->
  (forall x, m1 !! x = m !! x \/ is_Some (m1 !! x) /\ (owned fs x \/ base <= x < base + 16)) ->
  exists m', set_ptr freep y n m1 = URet tt m' /\ gave k m fs a m' fs'.
Proof.
  intros HL H S1 A1 G1 [sy Hy] O1 D1 Z1 K1 L1 L2 L3 F1. pose proof HL as (HL1 & HL2 & HL3 & HL4).
  assert (Hfm : mapped m1 freep 8).
  { intros x Hx. destruct (F1 x) as [->|[? _]]; [by apply (ptr_at_mapped _ _ _ (ha_freep _ _ _ H))|done]. }
  destruct (set_ptr_run m1 freep y n Hfm) as (m2 & E2 & P2 & F2).
  { destruct (G1 _ Hy) as [[= -> ->]|(? & ? & ?)]; cbn in *; lia. }
  assert (M2 : forall x, owned fs x -> is_Some (m2 !! x)).
  { intros x Hx. apply (is_Some_same freep 8 m1 m2 x F2); [by eapply ptr_at_mapped|]. destruct (F1 x) as [->|[? _]]; [by apply (ha_map _ _ _ H)|done]. }
  exists m2. split; [done|]. split; [|split; [|split]].
  - exists y. apply mk_heap_list; try done; [by exists sy| |].
    + eapply seg_same; [done..|]. intros c Hc. destruct (G1 c Hc) as [->|(? & ? & ?)]; cbn; lia.
    + intros x Hx. apply M2, O1. by left.
  - split_and!; try done.
    + apply (size_at_same m1 m2 _ _ freep 8); [done..|lia].
    + intros x Hx. apply M2, O1. right. lia.
  - done.
  - intros x Hst Hno. rewrite F2 by (unfold static in Hst; lia). destruct (F1 x) as [|[_ [Hx|Hx]]]; [done|done|].
    exfalso. apply Hst. by right.
Qed.

(** Taking [k] units from the block [p], whose predecessor is [y]. *)
Section Taking.
Context (m : umem) (f : Z) (fs A : list block) (y p : block) (B : list block) (k : Z) (n : nat).
Hypothesis HL : layout.
Hypothesis H : heap_at m f fs.
Hypothesis E : (base, 0) :: fs = A ++ y :: p :: B.
Hypothesis Hk : 1 <= k <= p.2.

(** What surrounds it. *)
Lemma taking_links : seg m A y.1 /\ hdr m y.1 p.1 y.2 /\ ptr_at m p.1 (haddr B base) /\ size_at m p.1 p.2 /\ seg m B base.
Proof.
  pose proof (ha_ring _ _ _ H) as HR. rewrite E in HR. apply seg_app in HR as [? [? [[? ?] ?]]]. done.
Qed.
Lemma taking_cells c : c ∈ A ++ y :: p :: B -> c = (base, 0) \/ (c ∈ fs /\ good c /\ base + 16 <= c.1).
Proof. intros Hc. rewrite <- E in Hc. by apply (heap_cells m f fs). Qed.
Lemma taking_order : asc ((A ++ [y]) ++ [p]) /\ asc (p :: B) /\ (forall c, c ∈ A -> c.1 + 16 <= y.1) /\
  (forall c, c ∈ A ++ [y] -> c.1 + 16 * Z.max c.2 1 <= p.1) /\ (forall c, c ∈ B -> p.1 + 16 * Z.max p.2 1 <= c.1).
Proof.
  pose proof (ha_asc _ _ _ H) as Ha. rewrite E in Ha. replace (A ++ y :: p :: B) with ((A ++ [y]) ++ p :: B) in Ha by (by rewrite <- app_assoc).
  apply asc_app in Ha as [Ha1 Ha2]. split_and!; [done|done| |by apply asc_snoc|intros c; by apply asc_head].
  intros c Hc. rewrite <- app_assoc in Ha1. apply asc_app in Ha1 as [Ha1 _]. pose proof (asc_snoc _ _ Ha1 c Hc). lia.
Qed.
Lemma taking_block : p ∈ fs /\ good p /\ base + 16 <= p.1.
Proof. destruct (taking_cells p) as [->|]; [apply elem_of_app; right; right; by left|cbn in Hk; lia|done]. Qed.
Lemma taking_split : exists A', A ++ [y] = (base, 0) :: A' /\ fs = A' ++ p :: B.
Proof. destruct A as [|a A0]; cbn in E; injection E as <- ->; [by exists []|]. exists (A0 ++ [y]). by rewrite <- app_assoc. Qed.

Ltac taking :=
  pose proof HL as (HL1 & HL2 & HL3 & HL4); destruct taking_links as (HR1 & HRy & HRp & HRps & HRB); destruct taking_order as (Ha1 & Ha2 & DAy & DA & DB);
  destruct taking_block as (Hp1 & (Hp2 & Hp3 & Hp4) & Hp5); destruct taking_split as (A' & EA & Efs);
  pose proof (DA y ltac:(apply elem_of_app; right; by left)) as Dy;
  assert (Hy : y ∈ (base, 0) :: A') by (rewrite <- EA; apply elem_of_app; right; by left);
  assert (Gy : forall c, c ∈ (base, 0) :: A' ++ p :: B -> c = (base, 0) \/ good c)
    by (intros c Hin; rewrite <- Efs, E in Hin; destruct (taking_cells c Hin); naive_solver).

(** A block of exactly that size is unlinked. *)
Lemma take_exact : p.2 = k -> exists m1 m' fs', (let* q := get_ptr p.1 in set_ptr y.1 q ;; uret p.1) n m = URet p.1 m1 /\
  set_ptr freep y.1 n m1 = URet tt m' /\ gave k m fs p.1 m' fs'.
Proof.
  intros Ek. taking.
  destruct (set_ptr_run m y.1 (haddr B base) n) as (m1 & E1 & P1 & F1); [apply (ptr_at_mapped _ _ _ (proj1 HRy))|apply HRp|].
  destruct (finish_take m m1 f fs y.1 p.1 k (A' ++ B) n) as (m2 & E2 & G2); try done; try lia.
  - rewrite app_comm_cons, <- EA, <- app_assoc. apply seg_app. split; [|split; [split|]].
    + apply (seg_same m m1 _ _ y.1 8); [done..|]. intros c Hin. specialize (DAy c Hin). lia.
    + done.
    + apply (size_at_same m m1 _ _ y.1 8); [apply HRy|done|lia].
    + apply (seg_same m m1 _ _ y.1 8); [done..|]. intros c Hin. specialize (DB c Hin). lia.
  - rewrite app_comm_cons, <- EA. by apply (asc_skip _ p).
  - intros c Hin. apply Gy. rewrite app_comm_cons in *. apply elem_of_app in Hin as [?|?]; apply elem_of_app; [by left|right; by right].
  - exists y.2. rewrite <- surjective_pairing, app_comm_cons. apply elem_of_app. by left.
  - intros x. rewrite Efs, !owned_app, owned_cons, Ek. tauto.
  - intros x Hx. rewrite owned_app. intros [(c & Hin & Hcx)|(c & Hin & Hcx)]; [specialize (DA c ltac:(rewrite EA; by right))|specialize (DB c Hin)]; lia.
  - rewrite <- Ek. apply (size_at_same m m1 _ _ y.1 8); [done..|lia].
  - intros x. destruct (decide (y.1 <= x < y.1 + 8)) as [Hx|Hx]; [right|left; apply F1; lia].
    split; [by apply (ptr_at_mapped _ _ _ P1)|]. destruct (taking_cells y) as [Ey|(Hyf & (? & _) & _)]; [apply elem_of_app; right; by left|right; rewrite Ey in Hx; cbn in Hx; lia|].
    left. exists y. split; [done|lia].
  - exists m1, m2, (A' ++ B). split_and!; [|done|done].
    rewrite (ubind_ret _ _ _ _ _ _ (get_ptr_run _ _ _ n HRp)). by rewrite (ubind_ret _ _ _ _ _ _ E1).
Qed.

(** The end of a larger block is cut off. *)
Lemma take_tail : p.2 <> k -> let a := p.1 + 16 * (p.2 - k) in
  exists m2 m' fs', (set_size p.1 (u32 (p.2 - k)) ;; let* size := get_size p.1 in set_size (p.1 + 16 * size) k ;; uret (p.1 + 16 * size)) n m = URet a m2 /\
  set_ptr freep y.1 n m2 = URet tt m' /\ gave k m fs a m' fs'.
Proof.
  intros Nk a. taking. assert (SA : seg m (A ++ [y]) p.1) by (apply seg_app; split; [done|by split]).
  destruct (set_size_run m p.1 (p.2 - k) n) as (m1 & E1 & Z1 & F1); [by apply (size_at_mapped _ _ _ HRps)|lia|].
  assert (Hm1 : forall x, owned fs x -> is_Some (m1 !! x)).
  { intros x Hx. apply (is_Some_same _ _ _ _ x F1); [by apply (size_at_mapped _ _ _ Z1)|by apply (ha_map _ _ _ H)]. }
  destruct (set_size_run m1 a k n) as (m2 & E2 & Z2 & F2); [|lia|].
  { intros x Hx. apply Hm1. exists p. split; [done|]. unfold a in Hx. lia. }
  destruct (finish_take m m2 f fs y.1 a k (A' ++ (p.1, p.2 - k) :: B) n) as (m3 & E3 & G3); try done; try (unfold a; lia).
  - rewrite app_comm_cons, <- EA. apply seg_app. cbn [haddr seg fst snd]. split_and!.
    + apply (seg_same m1 m2 _ _ (a + 8) 4); [apply (seg_same m m1 _ _ (p.1 + 8) 4)|done|]; [done..| |]; intros c Hin; specialize (DA c Hin); unfold a; lia.
    + split; [apply (ptr_at_same m1 m2 _ _ (a + 8) 4); [apply (ptr_at_same m m1 _ _ (p.1 + 8) 4)|done|]; [done..|lia|unfold a; lia]|].
      apply (size_at_same m1 m2 _ _ (a + 8) 4); [done..|unfold a; lia].
    + apply (seg_same m1 m2 _ _ (a + 8) 4); [apply (seg_same m m1 _ _ (p.1 + 8) 4)|done|]; [done..| |]; intros c Hin; specialize (DB c Hin); unfold a; lia.
  - rewrite app_comm_cons, <- EA. apply asc_cut; [done|done|lia].
  - intros c Hin. rewrite app_comm_cons in *. apply elem_of_app in Hin as [?|Hin]; [apply Gy; apply elem_of_app; by left|].
    apply elem_of_cons in Hin as [->|?]; [right; unfold good; cbn; lia|apply Gy; apply elem_of_app; right; by right].
  - exists y.2. rewrite <- surjective_pairing, app_comm_cons. apply elem_of_app. by left.
  - intros x. rewrite Efs, !owned_app, !owned_cons. unfold a. cbn [fst snd]. intuition lia.
  - intros x Hx. rewrite owned_app, owned_cons. unfold a in Hx. cbn [fst snd].
    intros [(c & Hin & Hcx)|[Hcx|(c & Hin & Hcx)]]; [specialize (DA c ltac:(rewrite EA; by right))| |specialize (DB c Hin)]; lia.
  - intros x. destruct (decide (p.1 <= x < p.1 + 16 * p.2)) as [Hx|Hx].
    + right. assert (owned fs x) by (exists p; split; [done|lia]). split; [|by left].
      apply (is_Some_same _ _ _ _ x F2); [by apply (size_at_mapped _ _ _ Z2)|by apply Hm1].
    + left. rewrite F2 by (unfold a; lia). apply F1. lia.
  - exists m2, m3, (A' ++ (p.1, p.2 - k) :: B). split_and!; [|done|done].
    rewrite u32_small by lia. rewrite (ubind_ret _ _ _ _ _ _ E1), (ubind_ret _ _ _ _ _ _ (get_size_run _ _ _ n Z1)). by rewrite (ubind_ret _ _ _ _ _ _ E2).
Qed.

Lemma take_run : exists m' a fs', malloc_test freep k (y.1, p.1) n m = URet (inr (a + 16)) m' /\ gave k m fs a m' fs'.
Proof.
  destruct taking_links as (_ & _ & _ & HRps & _).
  unfold malloc_test. rewrite (ubind_ret _ _ _ _ _ _ (get_size_run _ _ _ n HRps)). destruct (Z.leb_spec k p.2); [|lia]. change HEADER with 16.
  destruct (Z.eqb_spec p.2 k) as [Ek|Nk].
  - destruct (take_exact Ek) as (m1 & m' & fs' & E1 & E2 & G). exists m', p.1, fs'. split; [|done].
    by rewrite (ubind_ret _ _ _ _ _ _ E1), (ubind_ret _ _ _ _ _ _ E2).
  - destruct (take_tail Nk) as (m1 & m' & fs' & E1 & E2 & G). exists m', (p.1 + 16 * (p.2 - k)), fs'. split; [|done].
    by rewrite (ubind_ret _ _ _ _ _ _ E1), (ubind_ret _ _ _ _ _ _ E2).
Qed.
End Taking.

(** Blocks that are too small are passed over. *)
Lemma walk_run m f fs sf i0 k n r : heap_at m f fs -> ((base, 0) :: fs) !! i0 = Some (f, sf) ->
  forall e i, (i0 <= i)%nat -> (i + e < i0 + S (length fs))%nat ->
  (forall j, (i < j <= i + e)%nat -> (cell ((base, 0) :: fs) j).2 < k) ->
  uiter (e + r) (malloc_test freep k) ((cell ((base, 0) :: fs) i).1, (cell ((base, 0) :: fs) (S i)).1) n m =
  uiter r (malloc_test freep k) ((cell ((base, 0) :: fs) (i + e)).1, (cell ((base, 0) :: fs) (S (i + e))).1) n m.
Proof.
  intros H Hi0. set (L := (base, 0) :: fs) in *. induction e as [|e IH]; intros i Hi He Hs; [by rewrite Nat.add_0_r|].
  destruct (ring_next m (base, 0) fs (S i) (ha_ring _ _ _ H)) as [Hq Hz]. fold L in Hq, Hz.
  rewrite Nat.add_succ_l. rewrite (uiter_inl _ _ _ ((cell L (S i)).1, (cell L (S (S i))).1) n m m).
  - rewrite IH; [by rewrite Nat.add_succ_comm|lia|lia|]. intros j Hj. apply Hs. lia.
  - unfold malloc_test. rewrite (ubind_ret _ _ _ _ _ _ (get_size_run _ _ _ n Hz)).
    destruct (Z.leb_spec k (cell L (S i)).2); [specialize (Hs (S i)); lia|].
    rewrite (ubind_ret _ _ _ _ _ _ (get_ptr_run _ _ _ n (ha_freep _ _ _ H))).
    destruct (Z.eqb_spec (cell L (S i)).1 f) as [Ef|]; [|by rewrite (ubind_ret _ _ _ _ _ _ (get_ptr_run _ _ _ n Hq))].
    exfalso. pose proof (asc_inj L _ _ _ _ (ha_asc _ _ _ H) (cell_lookup L (S i) ltac:(done)) Hi0 Ef) as Em.
    assert (HK : length L = S (length fs)) by done. rewrite HK in Em.
    pose proof (lookup_lt_Some _ _ _ Hi0). rewrite HK in *.
    destruct (Nat.lt_ge_cases (S i) (S (length fs))) as [Hlt|Hge]; [rewrite Nat.mod_small in Em; lia|].
    replace (S i) with (S i - S (length fs) + 1 * S (length fs))%nat in Em by lia. rewrite Nat.Div0.mod_add in Em.
    rewrite Nat.mod_small in Em; lia.
Qed.

(** Two cells that follow one another, the second not being [base]. *)
Lemma cells_split fs i : (cell ((base, 0) :: fs) (S i)).2 <> 0 ->
  exists A B, (base, 0) :: fs = A ++ cell ((base, 0) :: fs) i :: cell ((base, 0) :: fs) (S i) :: B.
Proof.
  intros Hnz. set (L := (base, 0) :: fs) in *. pose proof (cell_lookup L i ltac:(done)) as E1. pose proof (cell_lookup L (S i) ltac:(done)) as E2.
  rewrite (mod_S i) in E2 by (cbn; lia). destruct (decide _) as [E|N].
  - change (Some (base, 0) = Some (cell L (S i))) in E2. injection E2 as E2. by rewrite <- E2 in Hnz.
  - exists (take (i mod length L)%nat L), (drop (S (S (i mod length L)%nat)) L).
    by rewrite <- (drop_S _ _ _ E2), <- (drop_S _ _ _ E1), take_drop.
Qed.

(** The search finds a block when there is one. *)
Lemma search_run m f fs q k n d : layout -> heap_at m f fs -> ptr_at m f q -> 1 <= k -> (exists b, b ∈ fs /\ k <= b.2) -> (length fs < d)%nat ->
  exists m' a fs', uiter d (malloc_test freep k) (f, q) n m = URet (a + 16) m' /\ gave k m fs a m' fs'.
Proof.
  intros HL H Hq Hk (b & Hb & Hbk) Hd. set (L := (base, 0) :: fs). destruct (ha_in _ _ _ H) as [sf Hf].
  apply list_elem_of_lookup_1 in Hf as [i0 Hi0]. apply list_elem_of_lookup_1 in Hb as [ib Hib].
  pose proof (lookup_lt_Some _ _ _ Hi0) as Hi0l. pose proof (lookup_lt_Some _ _ _ Hib) as Hibl.
  destruct (List.find (fun e => k <=? (cell L (i0 + S e)).2) (seq 0 (S (length fs)))) as [e|] eqn:Ef.
  - apply find_seq_Some in Ef as (He & Hfit & Hmin). apply Z.leb_le in Hfit.
    destruct (ring_next m (base, 0) fs i0 (ha_ring _ _ _ H)) as [Hn _]. rewrite (cell_at _ _ _ Hi0) in Hn.
    pose proof (ptr_at_inj _ _ _ _ Hq Hn) as ->.
    replace d with (e + S (d - S e))%nat by lia. pose proof (walk_run m f fs sf i0 k n (S (d - S e)) H Hi0 e i0) as W.
    rewrite (cell_at _ _ _ Hi0) in W. cbn [fst] in W. rewrite W; [|lia|lia|].
    + fold L in Hfit. replace (i0 + S e)%nat with (S (i0 + e)) in Hfit by lia. destruct (cells_split fs (i0 + e)) as (A & B & E); [fold L; lia|].
      destruct (take_run m f fs A _ _ B k n HL H E) as (m' & a & fs' & E1 & G); [fold L; lia|].
      exists m', a, fs'. split; [by apply uiter_inr|done].
    + intros j Hj. specialize (Hmin (j - S i0)%nat ltac:(lia)). apply Z.leb_gt in Hmin. by replace (i0 + S (j - S i0))%nat with j in Hmin by lia.
  - exfalso. assert (Hall : forall j, (j < S (length fs))%nat -> (cell L (i0 + S j)).2 < k).
    { intros j Hj. apply Z.leb_gt. apply (List.find_none _ _ Ef). apply in_seq. lia. }
    assert (HK : length L = S (length fs)) by done.
    destruct (Nat.lt_ge_cases i0 (S ib)).
    + specialize (Hall (S ib - S i0)%nat ltac:(lia)). replace (i0 + S (S ib - S i0))%nat with (S ib) in Hall by lia.
      rewrite (cell_at L (S ib) b Hib) in Hall. lia.
    + cbn in Hi0l. specialize (Hall (S ib + length fs - i0)%nat ltac:(lia)). replace (i0 + S (S ib + length fs - i0))%nat with (S ib + 1 * length L)%nat in Hall by lia.
      unfold cell in Hall. rewrite Nat.Div0.mod_add in Hall. fold (cell L (S ib)) in Hall. rewrite (cell_at L (S ib) b Hib) in Hall. lia.
Qed.

(** *** New memory *)
Lemma map_zero_lookup n : forall a m x, map_zero n a m !! x = if decide (a <= x < a + Z.of_nat n) then Some 0 else m !! x.
Proof.
  induction n as [|n IH]; intros a m x; cbn [map_zero]; [destruct (decide _); [lia|done]|].
  destruct (decide (x = a)) as [->|Hne]; [rewrite lookup_insert_eq; destruct (decide _); [done|lia]|].
  rewrite lookup_insert_ne, IH by done. repeat destruct (decide _); try lia; done.
Qed.
(** Where the kernel puts it: past everything in use. *)
Definition new_area (fs : list block) (r k : Z) : Prop :=
  freep + 8 <= r /\ base + 16 <= r /\ (forall b, b ∈ fs -> b.1 + 16 * b.2 <= r) /\ r + 16 * k <= 2 ^ 36.
Lemma heap_at_same m m' f fs r k : layout -> heap_at m f fs -> new_area fs r k -> same_but r (16 * k) m m' -> mapped m' r (16 * k) -> heap_at m' f fs.
Proof.
  intros HL H (Hr1 & Hr2 & Hr3 & Hr4) S Hm. constructor; try apply H.
  - apply (ptr_at_same m m' _ _ r (16 * k)); [apply H|done|lia].
  - eapply seg_same; [apply H|done|]. intros c Hc. destruct (heap_cells m f fs c HL H Hc) as [->|(Hin & (? & _) & _)]; [cbn; lia|].
    specialize (Hr3 c Hin). lia.
  - intros x Hx. apply (is_Some_same r (16 * k) m m' x); [done..|]. by apply H.
Qed.

Lemma morecore_run m f fs k n : layout -> heap_at m f fs -> 1 <= k -> 16 * k < 2 ^ 31 -> (length fs < n)%nat ->
  exists c, morecore freep k n m = UCall (Sbrk (16 * Z.max k 4096)) c /\
    (forall ans, rv ans = -1 -> c ans = URet 0 m) /\
    (forall ans, new_area fs (rv ans) (Z.max k 4096) -> exists m' f' fs', c ans = URet f' m' /\ heap_at m' f' fs' /\
       (forall x, owned fs' x <-> owned fs x \/ rv ans <= x < rv ans + 16 * Z.max k 4096) /\ frame fs' m m' /\
       (length fs' <= S (length fs))%nat /\ exists b, b ∈ fs' /\ k <= b.2).
Proof.
  intros HL H Hk Hk2 Hn. unfold morecore. change HEADER with 16. assert ((if k <? 4096 then 4096 else k) = Z.max k 4096) as -> by (destruct (Z.ltb_spec k 4096); lia).
  set (nu := Z.max k 4096). rewrite s32_small by lia. rewrite (Z.mul_comm nu).
  unfold ubind, sbrk. cbn [uobind]. eexists. split; [done|]. split.
  - intros ans ->. done.
  - intros [r dat]. cbn [rv]. intros HA. pose proof HA as (Hr1 & Hr2 & Hr3 & Hr4). pose proof HL as (HL1 & HL2 & _).
    assert (Er : (u64 r =? u64 (-1)) = false). { rewrite u64_small by lia. change (u64 (-1)) with 18446744073709551615. apply Z.eqb_neq. lia. }
    unfold grown. rewrite Er. destruct (Z.leb_spec 0 (16 * nu)); [|lia]. set (m0 := map_zero (Z.to_nat (16 * nu)) r m).
    assert (Hm0 : mapped m0 r (16 * nu)). { intros x Hx. unfold m0. rewrite map_zero_lookup. destruct (decide _); [done|lia]. }
    assert (F0 : same_but r (16 * nu) m m0). { intros x Hx. unfold m0. rewrite map_zero_lookup. destruct (decide _); [lia|done]. }
    destruct (set_size_run m0 r nu n) as (m1 & E1 & Z1 & F1); [intros x Hx; apply Hm0; lia|lia|].
    pose proof (same_but_trans _ _ _ _ _ _ _ r (16 * nu) F0 F1 ltac:(lia) ltac:(lia) ltac:(lia) ltac:(lia)) as F.
    assert (Hm1 : mapped m1 r (16 * nu)) by (apply (mapped_same m0 m1 _ _ (r + 8) 4); [done|done|by apply (size_at_mapped _ _ _ Z1)]).
    pose proof (heap_at_same m m1 f fs r nu HL H HA F Hm1) as H1.
    destruct (free_run m1 f fs r nu n HL H1) as (m2 & f2 & fs2 & E2 & H2 & O2 & Fr2 & L2 & b & Hb & Hbk); [|done|].
    { split_and!; try done; try lia. intros x Hx (c & Hc & Hcx). specialize (Hr3 c Hc). lia. }
    exists m2, f2, fs2. rewrite E1. cbn [uobind]. rewrite E2. cbn [uobind]. split_and!; [by apply get_ptr_run, H2|done|done| |done|exists b; split; [done|lia]].
    intros x Hst Hno. rewrite Fr2 by done. apply F. destruct (decide (r <= x < r + 16 * nu)); [|lia]. exfalso. apply Hno, O2. by right.
Qed.

(** The first call finds an empty list. *)
Definition fresh (m : umem) : Prop := ptr_at m freep 0 /\ mapped m base 16.
Definition ready (m : umem) (fs : list block) : Prop := heap m fs \/ (fs = [] /\ fresh m).
Lemma malloc_init_run m fs n : layout -> ready m fs ->
  exists f m0, malloc_init freep base n m = URet f m0 /\ heap_at m0 f fs /\ frame [] m m0.
Proof.
  intros HL HR. pose proof HL as (HL1 & HL2 & HL3 & HL4). unfold malloc_init. destruct HR as [[f H]|[-> [Hf Hb]]].
  - rewrite (ubind_ret _ _ _ _ _ _ (get_ptr_run _ _ _ n (ha_freep _ _ _ H))). destruct (ha_in _ _ _ H) as [sf Hin].
    destruct (Z.eqb_spec f 0) as [->|]; [|exists f, m; split_and!; [done|done|by intros x _ _]].
    exfalso. destruct (heap_cells m 0 fs _ HL H Hin) as [[= E1 E2]|(_ & (_ & ? & _) & _)]; cbn in *; lia.
  - rewrite (ubind_ret _ _ _ _ _ _ (get_ptr_run _ _ _ n Hf)). change (0 =? 0) with true. cbv iota.
    destruct (set_ptr_run m freep base n) as (m1 & E1 & P1 & F1); [by eapply ptr_at_mapped|lia|].
    destruct (set_ptr_run m1 base base n) as (m2 & E2 & P2 & F2); [|lia|].
    { intros x Hx. rewrite F1 by lia. apply Hb. lia. }
    destruct (set_size_run m2 base 0 n) as (m3 & E3 & Z3 & F3); [|lia|].
    { intros x Hx. rewrite F2 by lia. rewrite F1 by lia. apply Hb. lia. }
    exists base, m3. rewrite (ubind_ret _ _ _ _ _ _ E1), (ubind_ret _ _ _ _ _ _ E2), (ubind_ret _ _ _ _ _ _ E3).
    split_and!; [done| |].
    + apply mk_heap_list.
      * apply (ptr_at_same m2 m3 _ _ (base + 8) 4); [apply (ptr_at_same m1 m2 _ _ base 8); [done..|lia]|done|lia].
      * exists 0. by left.
      * cbn. split; [|done]. split; [|done]. apply (ptr_at_same m2 m3 _ _ (base + 8) 4); [done..|lia].
      * done.
      * intros c Hc. left. by apply list_elem_of_singleton in Hc.
      * intros x Hx. by apply owned_nil in Hx.
    + intros x Hst _. unfold static in Hst. rewrite F3, F2, F1 by lia. done.
Qed.

(** The units of a request: its bytes rounded up, and a header. *)
Definition units (nbytes : Z) : Z := (nbytes + 15) / 16 + 1.

(** The search when nothing fits: once round, then new memory. *)
Lemma search_grow m f fs q k n : layout -> heap_at m f fs -> ptr_at m f q -> 1 <= k -> 16 * k < 2 ^ 31 ->
  (forall b, b ∈ fs -> b.2 < k) -> (2 * length fs + 3 < n)%nat ->
  exists c, malloc_find freep k (f, q) n m = UCall (Sbrk (16 * Z.max k 4096)) c /\
    (forall ans, rv ans = -1 -> c ans = URet 0 m) /\
    (forall ans, new_area fs (rv ans) (Z.max k 4096) -> exists m' a fs1 fs', c ans = URet (a + 16) m' /\
       (forall x, owned fs1 x <-> owned fs x \/ rv ans <= x < rv ans + 16 * Z.max k 4096) /\ gave k m fs1 a m' fs').
Proof.
  intros HL H Hq Hk Hk2 Hno Hn. destruct (ha_in _ _ _ H) as [sf Hf]. apply list_elem_of_lookup_1 in Hf as [i0 Hi0].
  set (L := (base, 0) :: fs) in *. assert (HK : length L = S (length fs)) by done.
  destruct (ring_next m (base, 0) fs i0 (ha_ring _ _ _ H)) as [Hnx _]. fold L in Hnx. rewrite (cell_at _ _ _ Hi0) in Hnx.
  pose proof (ptr_at_inj _ _ _ _ Hq Hnx) as ->. unfold malloc_find, uloop.
  pose proof (walk_run m f fs sf i0 k n (n - length fs) H Hi0 (length fs) i0) as W. fold L in W. rewrite (cell_at _ _ _ Hi0) in W. cbn [fst] in W.
  assert (EK : cell L (S (i0 + length fs)) = (f, sf)).
  { unfold cell. replace (S (i0 + length fs)) with (i0 + 1 * length L)%nat by lia. rewrite Nat.Div0.mod_add. by apply cell_at in Hi0. }
  replace (uiter n (malloc_test freep k)) with (uiter (length fs + (n - length fs)) (malloc_test freep k)) by (f_equal; lia). rewrite W; [|lia|lia|].
  2:{ intros j Hj. destruct (cell L j) as [a s] eqn:Ec. pose proof (list_elem_of_lookup_2 _ _ _ (cell_lookup L j ltac:(done))) as Hin. rewrite Ec in Hin.
      apply elem_of_cons in Hin as [[= -> ->]|Hin]; [cbn; lia|by apply (Hno _ Hin)]. }
  rewrite EK. cbn [fst]. destruct (morecore_run m f fs k n HL H Hk Hk2) as (c & Em & C1 & C2); [lia|].
  assert (Hz : size_at m f sf) by (apply (ring_next m (base, 0) fs i0 (ha_ring _ _ _ H)) || (destruct (ring_next m (base, 0) fs i0 (ha_ring _ _ _ H)) as [_ Hz]; fold L in Hz; by rewrite (cell_at _ _ _ Hi0) in Hz)).
  destruct (n - length fs)%nat as [|d] eqn:Ed; [lia|]. cbn [uiter]. unfold malloc_test at 1.
  rewrite (ubind_ubind_ret _ _ _ _ _ _ _ (get_size_run _ _ _ n Hz)). assert (k <=? sf = false) as ->.
  { apply Z.leb_gt. pose proof (list_elem_of_lookup_2 _ _ _ Hi0) as Hin. apply elem_of_cons in Hin as [[= _ ->]|Hin]; [lia|by apply (Hno _ Hin)]. }
  rewrite (ubind_ubind_ret _ _ _ _ _ _ _ (get_ptr_run _ _ _ n (ha_freep _ _ _ H))). rewrite Z.eqb_refl.
  unfold ubind at 1. unfold ubind at 1. rewrite Em. cbn [uobind]. eexists. split; [done|]. split.
  - intros ans Ha. rewrite (C1 _ Ha). done.
  - intros ans Ha. destruct (C2 _ Ha) as (m' & f' & fs1 & E1 & H1 & O1 & F1 & L1 & Hb). rewrite E1. cbn [uobind].
    destruct (ha_in _ _ _ H1) as [sf' Hin']. assert (f' =? 0 = false) as ->.
    { apply Z.eqb_neq. pose proof HL as (? & ? & _). destruct (heap_cells m' f' fs1 _ HL H1 Hin') as [[= -> _]|(_ & (_ & ? & _) & _)]; cbn in *; lia. }
    apply list_elem_of_lookup_1 in Hin' as [i1 Hi1]. destruct (ring_next m' (base, 0) fs1 i1 (ha_ring _ _ _ H1)) as [Hq1 _]. rewrite (cell_at _ _ _ Hi1) in Hq1.
    rewrite (ubind_ret _ _ _ _ _ _ (get_ptr_run _ _ _ n Hq1)). cbn [uobind uret].
    destruct (search_run m' f' fs1 _ k n d HL H1 Hq1 Hk Hb) as (m2 & a & fs' & E2 & G); [lia|].
    exists m2, a, fs1, fs'. split; [done|]. split; [done|]. destruct G as (G1 & G2 & G3 & G4). split_and!; [done..|].
    intros x Hst Hno'. rewrite G4 by done. by apply F1.
Qed.
End Heap.

(** C13: [free] of a block [malloc] handed out: it returns, the bytes of the block
    join the free memory and nothing else does, the free list is again
    circular, in address order and without adjacent blocks, and only the
    allocator's variables and free memory are written. *)
Theorem free_returns freep base m fs a s n :
  layout freep base -> heap freep base m fs -> in_use freep base m fs a s -> (length fs < n)%nat ->
  exists m' fs', free freep (a + 16) n m = URet tt m' /\ heap freep base m' fs' /\
    (forall x, owned fs' x <-> owned fs x \/ a <= x < a + 16 * s) /\ frame freep base fs' m m'.
Proof.
  intros HL [f H] HU Hn. destruct (free_run freep base m f fs a s n HL H HU Hn) as (m' & f' & fs' & E & H' & O & F & _).
  exists m', fs'. split_and!; try done. by exists f'.
Qed.

(** C12: [malloc] on any request below 2^31 - 32 bytes: the block is large enough
    for the request; if some free block fits, it returns without a system
    call, and the block it returns was free memory, is no longer, and carries
    its size in its header; if none fits it asks the kernel for memory exactly
    once, returns 0 and changes nothing when the kernel refuses, and otherwise
    allocates from the free memory and the new area.  The memory of the
    program is never written. *)
Theorem malloc_allocates freep base m fs nbytes n :
  layout freep base -> ready freep base m fs -> 0 <= nbytes < 2 ^ 31 - 32 -> (2 * length fs + 3 < n)%nat ->
  let k := units nbytes in
  nbytes <= 16 * (k - 1) /\
  ((exists b, b ∈ fs /\ k <= b.2) ->
    exists m' a fs', malloc freep base nbytes n m = URet (a + 16) m' /\ gave freep base k m fs a m' fs') /\
  ((forall b, b ∈ fs -> b.2 < k) ->
    exists c, malloc freep base nbytes n m = UCall (Sbrk (16 * Z.max k 4096)) c /\
      (forall ans, rv ans = -1 -> exists m', c ans = URet 0 m' /\ heap freep base m' fs /\ frame freep base [] m m') /\
      (forall ans, new_area freep base fs (rv ans) (Z.max k 4096) -> exists m' a fs1 fs', c ans = URet (a + 16) m' /\
         (forall x, owned fs1 x <-> owned fs x \/ rv ans <= x < rv ans + 16 * Z.max k 4096) /\ gave freep base k m fs1 a m' fs')).
Proof.
  intros HL HR Hb Hn k. destruct (malloc_init_run freep base m fs n HL HR) as (f & m0 & E0 & H & F0).
  assert (Hk : 1 <= k /\ 16 * k < 2 ^ 31 /\ nbytes <= 16 * (k - 1)) by (unfold k, units; Z.to_euclidean_division_equations; lia).
  destruct Hk as (Hk1 & Hk2 & Hk3).
  assert (Ek : u32 ((nbytes + HEADER - 1) / HEADER + 1) = k).
  { change HEADER with 16. replace (nbytes + 16 - 1) with (nbytes + 15) by lia. fold (units nbytes). fold k. apply u32_small. lia. }
  destruct (ha_in _ _ _ _ _ H) as [sf Hin]. apply list_elem_of_lookup_1 in Hin as [i Hi].
  destruct (ring_next m0 (base, 0) fs i (ha_ring _ _ _ _ _ H)) as [Hq _]. rewrite (cell_at _ _ _ Hi) in Hq. cbn [fst] in Hq.
  assert (FR : forall L m', frame freep base L m0 m' -> frame freep base L m m').
  { intros L m' F x Hst Hno. rewrite F by done. apply F0; [done|]. intros Hx. by apply owned_nil in Hx. }
  unfold malloc. rewrite Ek, (ubind_ret _ _ _ _ _ _ E0), (ubind_ret _ _ _ _ _ _ (get_ptr_run _ _ _ n Hq)).
  split_and!; [done| |].
  - intros Hfit. destruct (search_run freep base m0 f fs _ k n n HL H Hq Hk1 Hfit) as (m' & a & fs' & E & G1 & G2 & G3 & G4); [lia|].
    exists m', a, fs'. split; [done|]. split_and!; try done. by apply FR.
  - intros Hno. destruct (search_grow freep base m0 f fs _ k n HL H Hq Hk1 Hk2 Hno Hn) as (c & E & C1 & C2).
    exists c. split_and!; [done| |].
    + intros ans Ha. exists m0. split_and!; [by apply C1|by exists f|done].
    + intros ans Ha. destruct (C2 ans Ha) as (m' & a & fs1 & fs' & E1 & O1 & G1 & G2 & G3 & G4). exists m', a, fs1, fs'. split; [done|]. split; [done|].
      refine (conj G1 (conj G2 (conj G3 _))). by apply FR.
Qed.

(** A process whose break is at 0x3000, its variables below. *)
Definition ex_mem : umem := map_zero 64 0x1000 ∅.
Lemma ex_layout : layout 0x1000 0x1010.
Proof. unfold layout. lia. Qed.
Lemma ex_heap_ready : ready 0x1000 0x1010 ex_mem [].
Proof.
  right. split; [done|]. split; [split; [|lia]|].
  - intros i c Hi. destruct (decide (i < 8)%nat) as [H|H]; [|rewrite lookup_ge_None_2 in Hi by (rewrite length_le_enc; lia); done].
    do 8 (destruct i as [|i]; [by injection Hi as <-|]). lia.
  - intros x Hx. unfold ex_mem. rewrite map_zero_lookup. destruct (decide _); [done|lia].
Qed.
Lemma ex_new : new_area 0x1000 0x1010 [] 0x3000 4096.
Proof. unfold new_area. split_and!; try lia. intros b Hb. by apply not_elem_of_nil in Hb. Qed.

Lemma malloc_allocates_witness : exists c, malloc 0x1000 0x1010 100 10%nat ex_mem = UCall (Sbrk 65536) c /\
  exists m' a fs', c (mk_answer 0x3000 []) = URet (a + 16) m' /\ in_use 0x1000 0x1010 m' fs' a 8.
Proof.
  destruct (malloc_allocates 0x1000 0x1010 ex_mem [] 100 10%nat ex_layout ex_heap_ready) as (_ & _ & Hg); [lia|cbn; lia|].
  destruct Hg as (c & E & _ & Hc); [intros b Hb; by apply not_elem_of_nil in Hb|].
  exists c. split; [exact E|]. destruct (Hc (mk_answer 0x3000 []) ex_new) as (m' & a & fs1 & fs' & E1 & _ & G). exists m', a, fs'.
  split; [done|]. apply G.
Defined.

(** Two blocks allocated in turn, the first freed. *)
Definition ex_heap : umem := <[0x3008 := 10]> (map_zero 320 0x3000 (<[0x1000 := 0x10]> (<[0x1001 := 0x10]> (<[0x1010 := 0x10]> (<[0x1011 := 0x10]> ex_mem))))).
Lemma bytes_at_list m a l : forallb (fun '(i, c) => bool_decide (m !! (a + Z.of_nat i) = Some c)) (zip (seq 0 (length l)) l) = true -> bytes_at m a l.
Proof.
  intros H i c Hi. rewrite forallb_forall in H. assert (In (i, c) (zip (seq 0 (length l)) l)) as Hin.
  { apply list_elem_of_In. apply (list_elem_of_lookup_2 _ i). apply lookup_lt_Some in Hi as Hl.
    rewrite lookup_zip_with. rewrite lookup_seq_lt by done. by rewrite Hi. }
  specialize (H _ Hin). cbn in H. by apply bool_decide_eq_true in H.
Qed.
Lemma ex_heap_ok : heap 0x1000 0x1010 ex_heap [].
Proof.
  exists 0x1010. apply mk_heap_list.
  - split; [|lia]. apply bytes_at_list. by vm_compute.
  - exists 0. by left.
  - split; [|done]. split; (split; [|cbn; lia]); apply bytes_at_list; by vm_compute.
  - done.
  - intros c Hc. left. by apply list_elem_of_singleton in Hc.
  - intros x Hx. by apply owned_nil in Hx.
Qed.
Lemma ex_in_use : in_use 0x1000 0x1010 ex_heap [] 0x3000 10.
Proof.
  split_and!; try lia.
  - split; [|lia]. apply bytes_at_list. by vm_compute.
  - intros x Hx. unfold ex_heap. destruct (decide (x = 0x3008)) as [->|]; [by rewrite lookup_insert_eq|].
    rewrite lookup_insert_ne by done. rewrite map_zero_lookup. destruct (decide _); [done|lia].
  - intros x _ Hx. by apply owned_nil in Hx.
Qed.
Lemma free_returns_witness : exists m' fs', free 0x1000 0x3010 5%nat ex_heap = URet tt m' /\ heap 0x1000 0x1010 m' fs' /\ owned fs' 0x3050.
Proof.
  destruct (free_returns 0x1000 0x1010 ex_heap [] 0x3000 10 5%nat ex_layout ex_heap_ok ex_in_use) as (m' & fs' & E & H & O & _); [cbn; lia|].
  exists m', fs'. split; [done|]. split; [done|]. apply O. right. lia.
Defined.

(** A request of 2^31 bytes: the byte count no longer fits the [int] argument
    of [sbrk], the kernel is asked to shrink the process, and the store of the
    size at the unchanged break faults instead of [malloc] returning 0. *)
Theorem malloc_huge_faults :
  feed [mk_answer 0x3000 []] (malloc 0x1000 0x1010 (2 ^ 31) 10%nat ex_mem) = ([Sbrk (- 2147483632)], UFault).
Proof. by vm_compute. Qed.
