(* ===== verification/Ysh.v ===== *)
(** * The shell ysh

    user/ysh.c.  [buf] is the address of the line buffer of [main]; [argv] of
    a simple command is a list, and storing outside its [max_args] elements is
    a fault. *)

From S2P Require Import Prelude User Ulib Uprintf.

Definition buf_size : Z := 128.
Definition max_args : Z := 16.
Definition SP : Z := 32.
Definition SEMI : Z := 59.
Definition BAR : Z := 124.
Definition AMP : Z := 38.
Definition O_RDWR : Z := 2.

Definition readcmd (buf : Z) : U Z :=
  fprintf 1 "$ " [] ;;
  let* _ := memset buf 0 buf_size in
  let* cmd := gets buf buf_size in
  uwhen (negb (cmd =? 0)) (let* n := strlen cmd in st (cmd + u32 (n - 1)) 0) ;;
  uret cmd.

(** The prefix of [runcmd] that trims the line: the new start. *)
Definition skip_leading (cmd : Z) : U Z :=
  uloop (fun cmd => let* c := ld cmd in uret (if c =? SP then inl (cmd + 1) else inr cmd)) cmd.
Definition trim_trailing (cmd : Z) : U unit :=
  let* n := strlen cmd in
  uloop (fun c =>
    let* d := ld c in
    if d =? SP then st c 0 ;; uret (inl (c - 1)) else uret (inr tt)) (cmd + n - 1).

(** Splits a simple command: the addresses of the arguments. *)
Definition split_args (cmd : Z) : U (list Z) :=
  uloop (fun '(argv, cmd) =>
    let* pp := strchr (Ptr cmd) SP in
    match pp with
    | Some (Ptr pp) =>
        st pp 0 ;;
        if Z.of_nat (length argv) <? max_args then uret (inl (argv ++ [cmd], pp + 1)) else (fun _ _ => UFault)
    | _ =>
        if Z.of_nat (length argv) + 1 <? max_args then uret (inr (argv ++ [cmd])) else (fun _ _ => UFault)
    end) ([], cmd).

Definition strargs (l : list Z) : U (list ustr) := fun _ m => URet (map (kstr MAXSTR m) l) m.

(** [runcmd]: the recursion goes to shorter strings, [d] bounds its depth. *)
Fixpoint runcmd (d : nat) (cmd : Z) : U Z :=
  match d with
  | O => fun _ _ => UNoFuel
  | S d' =>
      let* c0 := ld cmd in
      if c0 =? 0 then uret 1 else
      let* cmd := skip_leading cmd in
      trim_trailing cmd ;;
      let* e := strcmp (Ptr cmd) (lit "exit") in
      if e =? 0 then uret 0 else
      let* e := strncmp (Ptr cmd) (lit "cd ") 3 in
      if e =? 0 then
        let* path := strarg (cmd + 3) in
        let* r := sysv (Chdir path) in
        uwhen (r <? 0) (fprintf 2 ("Cannot cd %s" ++ nl) [UStr (Ptr (cmd + 3))]) ;;
        uret 1
      else
      let* s := strchr (Ptr cmd) SEMI in
      let* p := strchr (Ptr cmd) BAR in
      let* n := strlen cmd in
      let* last := ld (cmd + u32 (n - 1)) in
      if last =? AMP then
        let* n := strlen cmd in
        st (cmd + u32 (n - 1)) 0 ;;
        let* pid := sysv Fork in
        uwhen (pid =? 0) (let* _ := runcmd d' cmd in uret tt) ;;
        uret 1
      else match s with
      | Some (Ptr s) =>
          st s 0 ;;
          let* pid := sysv Fork in
          uwhen (pid =? 0) (let* _ := runcmd d' cmd in uexit 0) ;;
          let* _ := sysv (Wait 0) in
          let* _ := runcmd d' (s + 1) in
          uret 1
      | _ => match p with
      | Some (Ptr p) =>
          st p 0 ;;
          let* pid := sysv Fork in
          uwhen (pid =? 0)
            (let* fds := sys Pipe in
             let fd0 := nth 0 (rdata fds) 0 in
             let fd1 := nth 1 (rdata fds) 0 in
             let* pid := sysv Fork in
             if pid =? 0 then
               let* _ := sysv (Close 1) in
               let* _ := sysv (Dup fd1) in
               let* _ := sysv (Close fd0) in
               let* _ := sysv (Close fd1) in
               let* _ := runcmd d' cmd in
               uexit 0
             else
               let* _ := sysv (Close 0) in
               let* _ := sysv (Dup fd0) in
               let* _ := sysv (Close fd0) in
               let* _ := sysv (Close fd1) in
               let* _ := runcmd d' (p + 1) in
               uexit 0) ;;
          let* _ := sysv (Wait 0) in
          uret 1
      | _ =>
          let* argv := split_args cmd in
          let* pid := sysv Fork in
          uwhen (pid =? 0)
            (let* args := strargs argv in
             let* _ := sysv (Exec (nth 0 args None) args) in uret tt) ;;
          let* _ := sysv (Wait 0) in
          uret 1
      end end
  end.

(** [main] reads and runs lines until [exit]; a line of [buf_size] bytes
    nests at most that deep. *)
Definition main (buf : Z) : U unit :=
  uloop (fun _ : unit =>
    let* path := uret (Some (str_bytes "console")) in
    let* fd := sysv (Open path O_RDWR) in
    if fd <? 0 then uret (inr tt)
    else if 3 <=? fd then let* _ := sysv (Close fd) in uret (inr tt)
    else uret (inl tt)) tt ;;
  fprintf 1 ("EEE3535 Operating Systems: starting ysh" ++ nl) [] ;;
  uloop (fun _ : unit =>
    let* cmd := readcmd buf in
    if cmd =? 0 then uret (inr tt) else
    let* r := runcmd (Z.to_nat buf_size) cmd in
    uret (if r =? 0 then inr tt else inl tt)) tt ;;
  fprintf 1 ("EEE3535 Operating Systems: closing ysh" ++ nl) [] ;;
  uexit 0.

(** ** What a line means *)

(** The commands ysh knows. *)
Inductive ycmd : Type :=
| YNop
| YExit
| YCd (path : list Z)
| YBack (c : ycmd)
| YSeq (a b : ycmd)
| YPipe (a b : ycmd)
| YExec (args : list (list Z)).

Fixpoint skip_sp (l : list Z) : list Z :=
  match l with c :: l' => if c =? SP then skip_sp l' else l | [] => [] end.
Definition trim (l : list Z) : list Z := rev (skip_sp (rev (skip_sp l))).

(** The words of a simple command, one per space, empty words included. *)
Fixpoint words (l : list Z) : list (list Z) :=
  match l with
  | [] => [[]]
  | c :: l' => if c =? SP then [] :: words l'
               else match words l' with w :: ws => (c :: w) :: ws | [] => [[c]] end
  end.

(** [&] binds loosest, then [;], then [|]; a line longer than [d] is not
    looked at further. *)
Fixpoint yparse (d : nat) (l : list Z) : ycmd :=
  match d, l with
  | O, _ | _, [] => YNop
  | S d', _ =>
      let l := trim l in
      if bool_decide (l = str_bytes "exit") then YExit
      else if bool_decide (take 3 l = str_bytes "cd ") then YCd (drop 3 l)
      else if bool_decide (last l = Some AMP) then YBack (yparse d' (removelast l))
      else match cut_at SEMI l with
      | Some (a, b) => YSeq (yparse d' a) (yparse d' b)
      | None => match cut_at BAR l with
      | Some (a, b) => YPipe (yparse d' a) (yparse d' b)
      | None => YExec (words l)
      end end
  end.

(** The calls of a process, without its memory. *)
Inductive tree (A : Type) : Type :=
| TRet (a : A)
| TCall (c : call) (k : answer -> tree A)
| TExit (status : Z).
Arguments TRet {A} _.
Arguments TCall {A} _ _.
Arguments TExit {A} _.
Fixpoint tbind {A B} (t : tree A) (f : A -> tree B) : tree B :=
  match t with
  | TRet a => f a
  | TCall c k => TCall c (fun r => tbind (k r) f)
  | TExit z => TExit z
  end.
Fixpoint tput {A} (fd : Z) (l : list Z) (t : tree A) : tree A :=
  match l with [] => t | c :: l' => TCall (Write fd (Some [c])) (fun _ => tput fd l' t) end.
Definition tcalls {A} (l : list call) (t : tree A) : tree A := fold_right (fun c t => TCall c (fun _ => t)) t l.

(** The processes and calls a command stands for; the value says whether the
    shell goes on. *)
Fixpoint ymean (c : ycmd) : tree Z :=
  match c with
  | YNop => TRet 1
  | YExit => TRet 0
  | YCd path => TCall (Chdir (Some path)) (fun r =>
      if rv r <? 0 then tput 2 (str_bytes "Cannot cd " ++ path ++ [10]) (TRet 1) else TRet 1)
  | YBack c => TCall Fork (fun r => if rv r =? 0 then tbind (ymean c) (fun _ => TRet 1) else TRet 1)
  | YSeq a b => TCall Fork (fun r =>
      if rv r =? 0 then tbind (ymean a) (fun _ => TExit 0)
      else TCall (Wait 0) (fun _ => tbind (ymean b) (fun _ => TRet 1)))
  | YPipe a b => TCall Fork (fun r =>
      if rv r =? 0 then TCall Pipe (fun fds =>
        let fd0 := nth 0 (rdata fds) 0 in
        let fd1 := nth 1 (rdata fds) 0 in
        TCall Fork (fun r =>
          if rv r =? 0 then tcalls [Close 1; Dup fd1; Close fd0; Close fd1] (tbind (ymean a) (fun _ => TExit 0))
          else tcalls [Close 0; Dup fd0; Close fd0; Close fd1] (tbind (ymean b) (fun _ => TExit 0))))
      else TCall (Wait 0) (fun _ => TRet 1))
  | YExec args => TCall Fork (fun r =>
      if rv r =? 0 then TCall (Exec (Some (nth 0 args [])) (map Some args)) (fun _ => TCall (Wait 0) (fun _ => TRet 1))
      else TCall (Wait 0) (fun _ => TRet 1))
  end.

(** Every simple command fits [argv], its null pointer included. *)
Fixpoint args_fit (c : ycmd) : Prop :=
  match c with
  | YBack c => args_fit c
  | YSeq a b | YPipe a b => args_fit a /\ args_fit b
  | YExec args => Z.of_nat (length args) < max_args
  | _ => True
  end.

(** A run makes exactly the calls of a tree and returns its value. *)
Fixpoint follows {A} (o : uout A) (t : tree A) : Prop :=
  match o, t with
  | URet a _, TRet b => a = b
  | UCall c k, TCall c' k' => c = c' /\ forall r, follows (k r) (k' r)
  | UExit z, TExit z' => z = z'
  | _, _ => False
  end.

Lemma follows_bind {A B} (o : uout A) (t : tree A) (f : A -> umem -> uout B) (g : A -> tree B) :
  follows o t -> (forall a m, follows (f a m) (g a)) -> follows (uobind o f) (tbind t g).
Proof.
  revert t. induction o as [a m|c k IH| | |]; intros [b|c' k'|z']; cbn; try done.
  - by intros ->.
  - intros [-> H] Hf. split; [done|]. intros r. by apply IH.
Qed.

Lemma follows_put {A} fd l (p : U A) t n m :
  Forall (fun c => 0 <= c < 256) l -> follows (p n m) t -> follows ((uforall l (putc fd) ;; p) n m) (tput fd l t).
Proof.
  intros H Hp. induction H as [|c l Hc _ IH]; [done|]. cbn. split; [by rewrite u8_small by lia|]. intros _. exact IH.
Qed.

(** ** Trimming *)
Lemma skip_sp_split l : exists k, l = replicate k SP ++ skip_sp l.
Proof.
  induction l as [|c l [k IH]]; [by exists 0%nat|]. cbn. destruct (Z.eqb_spec c SP) as [->|Hne]; [|by exists 0%nat].
  exists (S k). cbn. congruence.
Qed.
Lemma skip_sp_head l c l' : skip_sp l = c :: l' -> c <> SP.
Proof.
  induction l as [|d l IH]; cbn; [done|]. destruct (Z.eqb_spec d SP); [done|]. by intros [= -> ->].
Qed.
Lemma skip_sp_length l : (length (skip_sp l) <= length l)%nat.
Proof. destruct (skip_sp_split l) as [k E]. rewrite E at 2. rewrite length_app. lia. Qed.

Definition nonblank (l : list Z) : Prop := exists c, c ∈ l /\ c <> SP.
Lemma skip_sp_nonblank l : nonblank l -> exists c l', skip_sp l = c :: l' /\ c <> SP.
Proof.
  intros (x & Hx & Hne). induction l as [|c l IH]; [by apply elem_of_nil in Hx|]. cbn.
  destruct (Z.eqb_spec c SP) as [->|Hc]; [|eauto]. apply IH. apply elem_of_cons in Hx as [->|]; done.
Qed.

(** What trimming leaves of a line that is not blank. *)
Lemma trim_spec l : nonblank l -> exists c k, skip_sp l = trim l ++ replicate k SP /\
  hd 0 (trim l) = c /\ c <> SP /\ trim l <> [] /\ last (trim l) <> Some SP.
Proof.
  intros (c & l' & E & Hc)%skip_sp_nonblank. unfold trim. rewrite E.
  assert (Hn : nonblank (rev (c :: l'))).
  { exists c. split; [|done]. apply list_elem_of_In, in_rev. rewrite rev_involutive. by left. }
  destruct (skip_sp_split (rev (c :: l'))) as [k Ek]. destruct (skip_sp_nonblank _ Hn) as (d & r & Er & Hd).
  set (t := skip_sp (rev (c :: l'))) in *. exists c, k.
  assert (Hl : c :: l' = rev t ++ replicate k SP).
  { rewrite <- (rev_involutive (c :: l')), Ek, rev_app_distr. f_equal.
    clear. assert (E : forall j, replicate j SP = repeat SP j) by (induction j; cbn; congruence).
    rewrite E. apply rev_repeat. }
  split; [done|]. assert (Ht : rev t <> []) by (rewrite Er; cbn; destruct (rev r); done). split_and!; [|done|done|].
  - destruct (rev t); [done|]. by injection Hl.
  - rewrite Er. cbn. rewrite last_snoc. congruence.
Qed.

Lemma trim_length l : (length (trim l) <= length l)%nat.
Proof.
  unfold trim. rewrite length_rev. etrans; [apply skip_sp_length|]. rewrite length_rev. apply skip_sp_length.
Qed.

Lemma skip_leading_run n m l : forall a, str_at m a l -> (length l < n)%nat -> nonblank l ->
  exists a', skip_leading a n m = URet a' m /\ str_at m a' (skip_sp l) /\ a' = a + Z.of_nat (length l) - Z.of_nat (length (skip_sp l)).
Proof.
  unfold skip_leading, uloop. generalize n at 1 2 as f.
  induction l as [|c l IH]; intros [|f] a H Hf Hb; cbn [length] in Hf; try lia; cbn [uiter].
  - destruct Hb as (x & []%elem_of_nil & _).
  - pose proof H as H'. apply str_at_cons in H as (H1 & H2 & H3). unfold ubind at 1 2. unfold ld at 1. rewrite H1. cbn [uobind uret].
    cbn [skip_sp]. destruct (Z.eqb_spec c SP) as [->|Hc].
    + destruct (IH f (a + 1)) as (a' & E & Hs & Ha); [done|lia| |].
      { destruct Hb as (x & [->|Hx]%elem_of_cons & Hne); [done|by exists x]. }
      exists a'. split_and!; [exact E|done|cbn [length]; lia].
    + exists a. split_and!; [done|done|cbn; lia].
Qed.

Lemma trim_loop_run n a t c : forall k f m,
  str_at m a ((t ++ [c]) ++ replicate k SP) -> c <> SP -> (k < f)%nat ->
  exists m', uiter f (fun c => let* d := ld c in if d =? SP then st c 0 ;; uret (inl (c - 1)) else uret (inr tt))
    (a + Z.of_nat (length t + k)) n m = URet tt m' /\ str_at m' a (t ++ [c]).
Proof.
  induction k as [|k IH]; intros [|f] m H Hc Hf; try lia; cbn [uiter].
  - rewrite app_nil_r in H. exists m. split; [|done]. rewrite Nat.add_0_r.
    destruct H as [H _]. destruct (H (length t) c) as [H1 _]; [by rewrite lookup_app_r, Nat.sub_diag by lia|].
    unfold ubind at 1 2. unfold ld at 1. rewrite H1. cbn [uobind]. by destruct (Z.eqb_spec c SP).
  - assert (E : (t ++ [c]) ++ replicate (S k) SP = ((t ++ [c]) ++ replicate k SP) ++ [SP])
      by (rewrite replicate_S_end; by rewrite app_assoc).
    rewrite E in H. pose proof (str_at_cut m a _ SP [] H) as [H1 _].
    assert (Hx : length ((t ++ [c]) ++ replicate k SP) = (length t + S k)%nat)
      by (rewrite !length_app, length_replicate; cbn; lia). rewrite Hx in H1.
    assert (Hl : m !! (a + Z.of_nat (length t + S k)) = Some SP).
    { destruct H as [H _]. apply H. rewrite lookup_app_r by lia. by rewrite Hx, Nat.sub_diag. }
    destruct (IH f (<[a + Z.of_nat (length t + S k) := 0]> m)) as (m' & E' & Hs); [done|done|lia|].
    exists m'. split; [|done]. rewrite <- E'. unfold ubind at 1 2. unfold ld at 1. rewrite Hl. cbn [uobind].
    rewrite Z.eqb_refl. unfold ubind at 1, st. rewrite Hl. cbn [uobind uret]. do 3 f_equal. lia.
Qed.

Lemma trim_trailing_run n m a l : str_at m a (skip_sp l) -> nonblank l -> (length (skip_sp l) < n)%nat ->
  Z.of_nat (length (skip_sp l)) < 2 ^ 32 ->
  exists m', trim_trailing a n m = URet tt m' /\ str_at m' a (trim l).
Proof.
  intros H Hb Hn Hw. destruct (trim_spec l Hb) as (c & k & E & _ & _ & Hne & Hla).
  destruct (exists_last Hne) as (t & d & Et). rewrite Et in Hla, E |- *. rewrite last_snoc in Hla.
  assert (Hlen : length (skip_sp l) = (length t + S k)%nat) by (rewrite E, !length_app, length_replicate; cbn; lia).
  unfold trim_trailing. rewrite (ubind_ret _ _ _ _ _ _ (strlen_run m a _ n H Hn Hw)). unfold uloop.
  replace (a + Z.of_nat (length (skip_sp l)) - 1) with (a + Z.of_nat (length t + k)) by lia.
  apply trim_loop_run; [by rewrite <- E|congruence|lia].
Qed.

(** The words of a simple command, in memory. *)
Lemma words_cut l : words l = match cut_at SP l with Some (x, y) => x :: words y | None => [l] end.
Proof.
  induction l as [|c l IH]; [done|]. cbn. destruct (Z.eqb_spec c SP); [done|]. rewrite IH.
  by destruct (cut_at SP l) as [[x y]|].
Qed.

Lemma split_args_run n : forall k l a acc ts m f,
  (length l < k)%nat -> str_at m a l -> Forall2 (fun x t => str_at m x t /\ x + Z.of_nat (length t) < a) acc ts ->
  Z.of_nat (length acc + length (words l)) < max_args -> (length l < f)%nat -> (length l < n)%nat ->
  exists addrs m', uiter f (fun '(argv, cmd) =>
    let* pp := strchr (Ptr cmd) SP in
    match pp with
    | Some (Ptr pp) =>
        st pp 0 ;;
        if Z.of_nat (length argv) <? max_args then uret (inl (argv ++ [cmd], pp + 1)) else (fun _ _ => UFault)
    | _ =>
        if Z.of_nat (length argv) + 1 <? max_args then uret (inr (argv ++ [cmd])) else (fun _ _ => UFault)
    end) (acc, a) n m = URet addrs m' /\ Forall2 (fun x t => str_at m' x t) addrs (ts ++ words l).
Proof.
  induction k as [|k IH]; intros l a acc ts m [|f] Hk H Hacc Hfit Hf Hn; try lia. cbn [uiter]. unfold ubind at 1 2.
  rewrite (strchr_run m n l SP) by (done || lia). cbn [uobind]. rewrite words_cut in Hfit |- *.
  destruct (cut_at SP l) as [[x y]|] eqn:Ec; cbn [length] in Hfit.
  - destruct (cut_at_app _ _ _ _ Ec) as [-> Hx]. destruct (str_at_cut m a x SP y H) as [H1 H2].
    rewrite length_app in *. cbn [length] in *.
    set (m1 := <[a + Z.of_nat (length x) := 0]> m) in *.
    destruct (IH y (a + Z.of_nat (length x) + 1) (acc ++ [a]) (ts ++ [x]) m1 f) as (addrs & m' & E & HF); [lia|done| |rewrite length_app; cbn; lia|lia|lia|].
    { apply Forall2_app; [|constructor; [split; [done|lia]|constructor]].
      eapply Forall2_impl; [exact Hacc|]. intros z t [Hz Hb]. split; [|lia]. apply str_at_out; [done|lia]. }
    exists addrs, m'. rewrite <- app_assoc in HF. split; [|done]. rewrite <- E. unfold ubind at 1, st.
    destruct H as [H _]. destruct (H (length x) SP) as [Hs _]; [by rewrite lookup_app_r, Nat.sub_diag by lia|]. rewrite Hs. cbn [uobind].
    destruct (Z.ltb_spec (Z.of_nat (length acc)) max_args); [done|lia].
  - exists (acc ++ [a]), m. destruct (Z.ltb_spec (Z.of_nat (length acc) + 1) max_args); [|lia]. split; [done|].
    apply Forall2_app; [|by constructor]. eapply Forall2_impl; [exact Hacc|]. by intros z t [Hz _].
Qed.

Lemma kstrs_at m addrs ts : Forall2 (fun x t => str_at m x t) addrs ts -> Forall (fun t => (length t < MAXSTR)%nat) ts ->
  map (kstr MAXSTR m) addrs = map Some ts.
Proof.
  induction 1 as [|x t addrs ts Hx _ IH]; intros Hts; [done|]. apply Forall_cons in Hts as [Ht Hts]. cbn.
  by rewrite (kstr_at m t x MAXSTR Hx Ht), IH.
Qed.
Lemma words_bound l : Forall (fun t => (length t <= length l)%nat) (words l).
Proof.
  induction l as [|c l IH]; [repeat constructor|]. cbn. destruct (c =? SP).
  - constructor; [cbn; lia|]. eapply Forall_impl; [exact IH|]. cbn. lia.
  - destruct (words l) as [|w ws]; [by apply Forall_singleton; cbn; lia|]. apply Forall_cons in IH as [H1 H2].
    apply Forall_cons. split; [cbn; lia|]. eapply Forall_impl; [exact H2|]. cbn. lia.
Qed.

(** ** Runs of [runcmd] *)
Lemma put_str_follows {A} fd (p : U A) t n m l : forall f a,
  str_at m a l -> Forall (fun c => 0 <= c < 256) l -> (length l < f)%nat -> follows (p n m) t ->
  follows ((uiter f (fun s => let* c := cderef s in if c =? 0 then uret (inr tt) else putc fd c ;; uret (inl (cnext s))) (Ptr a) ;; p) n m)
    (tput fd l t).
Proof.
  induction l as [|c l IH]; intros [|f] a H Hb Hf Hp; cbn [length] in Hf; try lia.
  - apply str_at_nil in H. unfold ubind. cbn. unfold ld. by rewrite H.
  - apply str_at_cons in H as (H1 & H2 & H3). apply Forall_cons in Hb as [Hc Hb]. unfold ubind. cbn. unfold ld. rewrite H1. cbn.
    destruct (Z.eqb_spec c 0); [done|]. cbn. split; [by rewrite u8_small by lia|]. intros _. apply (IH f (a + 1)); [done|done|lia|done].
Qed.

Lemma follows_assoc {A B C} (o : uout A) (f : A -> umem -> uout B) (g : B -> umem -> uout C) t :
  follows (uobind o (fun a m => uobind (f a m) g)) t -> follows (uobind (uobind o f) g) t.
Proof.
  revert t. induction o as [a m|c k IH|z| |]; intros t; cbn; try done. destruct t as [|c' k'|]; [done| |done].
  intros [-> H]. split; [done|]. intros r. by apply IH.
Qed.

Lemma text_follows {A} (p : U A) fd rest args n m t : forall txt,
  Forall (fun c => c <> 37 /\ 0 <= c < 256) txt -> follows ((vprintf_from fd false rest args ;; p) n m) t ->
  follows ((vprintf_from fd false (txt ++ rest) args ;; p) n m) (tput fd txt t).
Proof.
  intros txt Ht H. induction Ht as [|c txt [Hc Hb] _ IH]; [done|]. cbn [app vprintf_from tput negb].
  destruct (Z.eqb_spec c 37); [done|]. split; [by rewrite u8_small by lia|]. intros r. exact IH.
Qed.

Lemma tput_app {A} fd l1 l2 (t : tree A) : tput fd (l1 ++ l2) t = tput fd l1 (tput fd l2 t).
Proof. induction l1 as [|c l1 IH]; cbn; [done|]. by rewrite IH. Qed.

Lemma cd_message_follows {A} (p : U A) t n m a l :
  str_at m a l -> a <> 0 -> Forall (fun c => 0 <= c < 256) l -> (length l < n)%nat -> follows (p n m) t ->
  follows ((fprintf 2 ("Cannot cd %s" ++ nl) [UStr (Ptr a)] ;; p) n m) (tput 2 (str_bytes "Cannot cd " ++ l ++ [10]) t).
Proof.
  intros H Ha Hb Hn Hp. unfold fprintf, vprintf.
  change (str_bytes ("Cannot cd %s" ++ nl)) with (str_bytes "Cannot cd " ++ [37; 115; 10]). rewrite tput_app.
  apply text_follows.
  { apply (bool_decide_unpack _). vm_compute. exact I. }
  assert (Hs : arg_str [UStr (Ptr a)] = Ptr a) by (cbn; by destruct a).
  change (follows (((put_str 2 (arg_str [UStr (Ptr a)]) ;; vprintf_from 2 false [10] []) ;; p) n m) (tput 2 (l ++ [10]) t)).
  rewrite Hs, tput_app. unfold ubind at 1 2. apply follows_assoc.
  apply (put_str_follows 2 (vprintf_from 2 false [10] [] ;; p) (tput 2 [10] t) n m l n a H Hb Hn).
  split; [done|]. intros r. exact Hp.
Qed.

Lemma nonzero_str m a l : str_at m a l -> Forall (fun c => c <> 0) l.
Proof. intros [H _]. apply Forall_lookup. intros i c Hi. by apply (H i c). Qed.

Lemma nonblank_head l : l <> [] -> hd 0 l <> SP -> nonblank l.
Proof. destruct l as [|c l]; [done|]. intros _ H. exists c. split; [by left|done]. Qed.
Lemma nonblank_last l : l <> [] -> last l <> Some SP -> nonblank l.
Proof.
  intros Hne Hl. destruct (exists_last Hne) as (t & d & ->). rewrite last_snoc in Hl. exists d. split; [|congruence].
  apply elem_of_app. right. by left.
Qed.

(** A line ysh can run: nothing, or something that is not only spaces. *)
Definition line_ok (l : list Z) : Prop := l = [] \/ nonblank l.

(** The parts of a trimmed line are such lines. *)
Lemma part_left x y : hd 0 (x ++ y) <> SP -> line_ok x.
Proof. destruct x as [|c x]; [by left|]. intros H. right. exists c. split; [by left|done]. Qed.
Lemma part_right x c y : last (x ++ c :: y) <> Some SP -> line_ok y.
Proof.
  intros H. destruct (decide (y = [])) as [->|Hy]; [by left|]. right. apply nonblank_last; [done|].
  by rewrite last_app_cons, last_cons in H; destruct (last y) eqn:E; [|apply last_None in E].
Qed.

Section Runcmd.
Variables (n : nat).
Definition fits (m : umem) (a : Z) (l : list Z) : Prop :=
  str_at m a l /\ 0 < a /\ Forall (fun c => 0 <= c < 256) l /\ (length l < n)%nat /\ (length l < MAXSTR)%nat.

Lemma fits_len m a l : fits m a l -> Z.of_nat (length l) < 2 ^ 32.
Proof. intros (_ & _ & _ & _ & H). change MAXSTR with 4096%nat in H. lia. Qed.

(** The common beginning: the line is trimmed in place. *)
Lemma trim_run m a l : fits m a l -> nonblank l ->
  exists a' m' m1, skip_leading a n m = URet a' m1 /\ trim_trailing a' n m1 = URet tt m' /\ fits m' a' (trim l).
Proof.
  intros (Hs & Ha & Hb & Hn & Hm) Hl. destruct (skip_leading_run n m l a Hs Hn Hl) as (a' & E1 & H1 & Ea).
  pose proof (skip_sp_length l). change MAXSTR with 4096%nat in Hm.
  destruct (trim_trailing_run n m a' l H1 Hl) as (m' & E2 & H2); [lia|lia|].
  exists a', m', m. pose proof (trim_length l). split; [done|]. split; [done|]. unfold fits. split_and!; [done|lia| |lia|change MAXSTR with 4096%nat; lia].
  destruct (trim_spec l Hl) as (c & k & E & _). destruct (skip_sp_split l) as [j Ej]. rewrite Ej, E in Hb.
  apply Forall_app in Hb as [_ Hb]. by apply Forall_app in Hb as [Hb _].
Qed.

Lemma fits_cut m a x c y : fits m a (x ++ c :: y) ->
  let m' := <[a + Z.of_nat (length x) := 0]> m in fits m' a x /\ fits m' (a + Z.of_nat (length x) + 1) y.
Proof.
  intros (Hs & Ha & Hb & Hn & Hm). rewrite length_app in *. cbn [length] in *. destruct (str_at_cut m a x c y Hs) as [H1 H2].
  apply Forall_app in Hb as [Hb1 [_ Hb2]%Forall_cons]. unfold fits. split; split_and!; (done || lia).
Qed.
Lemma fits_char m a x c y : fits m a (x ++ c :: y) -> m !! (a + Z.of_nat (length x)) = Some c.
Proof. intros ([Hs _] & _). apply (Hs (length x) c). by rewrite lookup_app_r, Nat.sub_diag by lia. Qed.

Lemma lit_at m s : Forall (fun c => c <> 0) (str_bytes s) -> cstr_at m (lit s) (str_bytes s).
Proof. done. Qed.

Lemma is_exit m a l : fits m a l -> exists e, strcmp (Ptr a) (lit "exit") n m = URet e m /\
  (e =? 0) = bool_decide (l = str_bytes "exit").
Proof.
  intros (Hs & _ & _ & Hn & _). eexists. split; [apply (strcmp_run m n l (Ptr a) (lit "exit") (str_bytes "exit")); [exact Hs|by split; [|repeat constructor]|done]|].
  destruct (Z.eqb_spec (cmp l (str_bytes "exit")) 0) as [E|E]; symmetry.
  - apply bool_decide_true. apply cmp_eq in E; [done|by eapply nonzero_str|by repeat constructor].
  - apply bool_decide_false. intros ->. by apply E.
Qed.
Lemma is_cd m a l : fits m a l -> (3 < n)%nat -> exists e, strncmp (Ptr a) (lit "cd ") 3 n m = URet e m /\
  (e =? 0) = bool_decide (take 3 l = str_bytes "cd ").
Proof.
  intros (Hs & _ & _ & _ & _) Hn. eexists. split; [apply (strncmp_run m n l (Ptr a) (lit "cd ") (str_bytes "cd ") 3); [exact Hs|by split; [|repeat constructor]|done]|].
  change (take 3 (str_bytes "cd ")) with (str_bytes "cd ").
  destruct (Z.eqb_spec (cmp (take 3 l) (str_bytes "cd ")) 0) as [E|E]; symmetry.
  - apply bool_decide_true. apply cmp_eq in E; [done| |by repeat constructor]. by eapply Forall_take, nonzero_str.
  - apply bool_decide_false. intros E'. apply E. by rewrite E'.
Qed.
Lemma last_char m a l : fits m a l -> l <> [] -> exists t d, l = t ++ [d] /\
  strlen a n m = URet (Z.of_nat (length l)) m /\ a + u32 (Z.of_nat (length l) - 1) = a + Z.of_nat (length t) /\
  ld (a + Z.of_nat (length t)) n m = URet d m.
Proof.
  intros Hf Hne. pose proof (fits_len m a l Hf). destruct Hf as (Hs & _ & _ & Hn & _). destruct (exists_last Hne) as (t & d & E). exists t, d.
  split; [done|]. split; [by apply strlen_run|]. rewrite E in *. rewrite length_app in *. cbn [length] in *. split.
  - rewrite u32_small by lia. lia.
  - destruct Hs as [Hs _]. destruct (Hs (length t) d) as [H1 _]; [by rewrite lookup_app_r, Nat.sub_diag by lia|]. unfold ld. by rewrite H1.
Qed.

Lemma exec_follows m a l : fits m a l -> Z.of_nat (length (words l)) < max_args ->
  follows ((let* argv := split_args a in
            let* pid := sysv Fork in
            uwhen (pid =? 0) (let* args := strargs argv in let* _ := sysv (Exec (nth 0 args None) args) in uret tt) ;;
            let* _ := sysv (Wait 0) in uret 1) n m) (ymean (YExec (words l))).
Proof.
  intros (Hs & _ & _ & Hn & Hm) Hw.
  destruct (split_args_run n (S (length l)) l a [] [] m n) as (addrs & m' & E & HF); [lia|done|constructor|done|done|done|].
  rewrite (ubind_ret (split_args a) _ n m addrs m') by exact E. cbn [app] in HF.
  assert (HE : map (kstr MAXSTR m') addrs = map Some (words l)).
  { apply kstrs_at; [done|]. eapply Forall_impl; [apply words_bound|]. cbn. lia. }
  rewrite ubind_sysv. split; [done|]. intros r. cbv beta. destruct (rv r =? 0); cbn [uwhen].
  - assert (Ha : strargs addrs n m' = URet (map Some (words l)) m') by (unfold strargs; by rewrite HE).
    rewrite (ubind_ubind_ret (strargs addrs) _ _ n m' _ m' Ha). split; [|by intros r'; split].
    f_equal. rewrite words_cut. by destruct (cut_at SP l) as [[]|].
  - rewrite ubind_uret. by split.
Qed.
End Runcmd.

Lemma runcmd_follows n : (3 < n)%nat -> forall d l a m,
  fits n m a l -> (length l < d)%nat -> line_ok l -> args_fit (yparse d l) ->
  follows (runcmd d a n m) (ymean (yparse d l)).
Proof.
  intros Hn3. induction d as [|d IH]; intros l a m Hf Hd Hok Hargs; [lia|].
  destruct Hok as [->|Hnb].
  { cbn [runcmd yparse]. destruct Hf as (Hs%str_at_nil & _). unfold ubind, ld. by rewrite Hs. }
  destruct (trim_run n m a l Hf Hnb) as (a' & m' & m1 & E1 & E2 & Hf2). destruct (trim_spec l Hnb) as (c & k & _ & Hc & Hcs & Hne & Hla).
  rewrite <- Hc in Hcs. clear Hc. pose proof (trim_length l) as Htl.
  destruct l as [|c0 l0]; [by destruct Hnb as (? & []%elem_of_nil & _)|].
  cbn [runcmd]. destruct Hf as (Hs & _). pose proof Hs as Hs'. apply str_at_cons in Hs' as (H0 & Hz & _).
  rewrite (ubind_ld _ _ _ _ _ H0). destruct (Z.eqb_spec c0 0); [done|].
  rewrite (ubind_ret _ _ _ _ _ _ E1), (ubind_ret _ _ _ _ _ _ E2). cbn [yparse] in Hargs |- *.
  set (l2 := trim (c0 :: l0)) in *.
  destruct (is_exit n m' a' l2 Hf2) as (e & Ee & He). rewrite (ubind_ret _ _ _ _ _ _ Ee), He.
  case_bool_decide; [done|].
  destruct (is_cd n m' a' l2 Hf2 Hn3) as (e2 & Ee2 & He2). rewrite (ubind_ret _ _ _ _ _ _ Ee2), He2.
  pose proof Hf2 as (Hs2 & Ha2 & Hb2 & Hn2 & Hm2).
  case_bool_decide as Hcd.
  { assert (El : l2 = take 3 l2 ++ drop 3 l2) by (by rewrite take_drop). rewrite El in Hs2, Hb2. apply str_at_app in Hs2.
    rewrite Hcd in Hs2. change (Z.of_nat (length (str_bytes "cd "))) with 3 in Hs2. apply Forall_app in Hb2 as [_ Hb2].
    assert (Hld : (length (drop 3 l2) <= length l2)%nat) by (rewrite length_drop; lia).
    unfold strarg at 1. rewrite (ubind_ret (fun _ m => URet (kstr MAXSTR m (a' + 3)) m) _ n m' (Some (drop 3 l2)) m')
      by (rewrite (kstr_at m' (drop 3 l2) (a' + 3) MAXSTR Hs2); [done|lia]).
    rewrite ubind_sysv. split; [done|]. intros r. cbv beta. destruct (rv r <? 0); cbn [uwhen]; [|done].
    apply (cd_message_follows (uret 1) (TRet 1) n m' (a' + 3) (drop 3 l2)); (done || lia). }
  rewrite (ubind_ret _ _ _ _ _ _ (strchr_run m' n l2 SEMI ltac:(done) a' Hs2 Hn2)).
  rewrite (ubind_ret _ _ _ _ _ _ (strchr_run m' n l2 BAR ltac:(done) a' Hs2 Hn2)).
  destruct (last_char n m' a' l2 Hf2 Hne) as (t & dch & Et & El & Eu & Ed).
  rewrite (ubind_ret _ _ _ _ _ _ El), Eu, (ubind_ret _ _ _ _ _ _ Ed).
  assert (Hlast : last l2 = Some dch) by (rewrite Et; apply last_snoc).
  destruct (Z.eqb_spec dch AMP) as [->|Hamp].
  { rewrite bool_decide_true in Hargs |- * by done. rewrite (ubind_ret _ _ _ _ _ _ El), Eu.
    assert (Hrm : removelast l2 = t) by (rewrite Et; apply removelast_last). rewrite Hrm in Hargs |- *.
    rewrite Et in Hf2. rewrite (ubind_st _ 0 _ _ _ _ (fits_char n m' a' t AMP [] Hf2)). change (u8 0) with 0. destruct (fits_cut n m' a' t AMP [] Hf2) as [Ht _].
    rewrite ubind_sysv. split; [done|]. intros r. cbv beta. destruct (rv r =? 0); cbn [uwhen]; [|done]. unfold ubind at 1 2. apply follows_assoc.
    apply follows_bind; [|done]. apply IH; [exact Ht| | |exact Hargs].
    - rewrite Et, length_app in Htl. cbn in Htl, Hd. lia.
    - apply (part_left t [AMP]). by rewrite <- Et. }
  rewrite bool_decide_false in Hargs |- * by congruence.
  destruct (cut_at SEMI l2) as [[x y]|] eqn:Ecut.
  { destruct (cut_at_app _ _ _ _ Ecut) as [E _]. rewrite E in Hf2, Htl. rewrite (ubind_st _ 0 _ _ _ _ (fits_char n m' a' x SEMI y Hf2)). change (u8 0) with 0.
    destruct (fits_cut n m' a' x SEMI y Hf2) as [Hx Hy]. destruct Hargs as [Hax Hay]. rewrite length_app in Htl. cbn in Htl, Hd.
    rewrite ubind_sysv. split; [done|]. intros r. cbv beta. destruct (rv r =? 0); cbn [uwhen].
    - unfold ubind at 1 2. apply follows_assoc. apply follows_bind; [|done].
      apply IH; [exact Hx|lia| |exact Hax]. apply (part_left x (SEMI :: y)). by rewrite <- E.
    - rewrite ubind_uret, ubind_sysv. split; [done|]. intros r'. unfold ubind at 1. apply follows_bind; [|done].
      apply IH; [exact Hy|lia| |exact Hay]. apply (part_right x SEMI y). by rewrite <- E. }
  destruct (cut_at BAR l2) as [[x y]|] eqn:Ecut2.
  { destruct (cut_at_app _ _ _ _ Ecut2) as [E _]. rewrite E in Hf2, Htl. rewrite (ubind_st _ 0 _ _ _ _ (fits_char n m' a' x BAR y Hf2)). change (u8 0) with 0.
    destruct (fits_cut n m' a' x BAR y Hf2) as [Hx Hy]. destruct Hargs as [Hax Hay]. rewrite length_app in Htl. cbn in Htl, Hd.
    rewrite ubind_sysv. split; [done|]. intros r. cbv beta. destruct (rv r =? 0); cbn [uwhen]; [|by split].
    rewrite ubind_ubind_sys. split; [done|]. intros fds. cbv zeta. rewrite ubind_ubind_sysv. split; [done|]. intros r2. destruct (rv r2 =? 0).
    - do 4 (rewrite ubind_ubind_sysv; split; [done|]; intros ?). unfold ubind at 1 2. apply follows_assoc. apply follows_bind; [|done].
      apply IH; [exact Hx|lia| |exact Hax]. apply (part_left x (BAR :: y)). by rewrite <- E.
    - do 4 (rewrite ubind_ubind_sysv; split; [done|]; intros ?). unfold ubind at 1 2. apply follows_assoc. apply follows_bind; [|done].
      apply IH; [exact Hy|lia| |exact Hay]. apply (part_right x BAR y). by rewrite <- E. }
  exact (exec_follows n m' a' l2 Hf2 Hargs).
Qed.

(** C5: [runcmd] runs what the line says: on a line that is empty or holds
    something besides spaces, whose simple commands have fewer than [max_args]
    words, it makes exactly the system calls, in every process it forks, that
    the parsed command stands for ([exit] ends the shell, [cd] changes the
    directory, [&] runs in the background, [;] in sequence, [|] as a pipeline,
    anything else is executed with its words), and it returns 0 exactly for
    [exit].  A recursion depth above the length of the line is enough. *)
Theorem runcmd_meaning n d l a m :
  (3 < n)%nat -> (length l < d)%nat -> fits n m a l -> line_ok l -> args_fit (yparse d l) ->
  follows (runcmd d a n m) (ymean (yparse d l)).
Proof. intros. by apply runcmd_follows. Qed.

(** ** Lines that stop the shell *)
Lemma skip_blank n m k : forall f a, str_at m a (replicate k SP) -> (k < f)%nat ->
  uiter f (fun cmd => let* c := ld cmd in uret (if c =? SP then inl (cmd + 1) else inr cmd)) a n m = URet (a + Z.of_nat k) m.
Proof.
  induction k as [|k IH]; intros [|f] a H Hf; try lia; cbn [uiter].
  - apply str_at_nil in H. unfold ubind at 1 2. unfold ld at 1. rewrite H. cbn. by rewrite Z.add_0_r.
  - cbn [replicate] in H. apply str_at_cons in H as (H1 & _ & H2). unfold ubind at 1 2. unfold ld at 1. rewrite H1. cbn [uobind uret].
    rewrite Z.eqb_refl, IH by (done || lia). f_equal. lia.
Qed.

Lemma trim_blank n a b : forall k f m, (forall i, 0 <= i < Z.of_nat k -> m !! (a + i) = Some SP) -> m !! (a - 1) = Some b -> b <> SP ->
  (k < f)%nat -> exists m', uiter f (fun c => let* d := ld c in if d =? SP then st c 0 ;; uret (inl (c - 1)) else uret (inr tt))
    (a + Z.of_nat k - 1) n m = URet tt m' /\ (forall x, a + Z.of_nat k <= x -> m' !! x = m !! x).
Proof.
  induction k as [|k IH]; intros [|f] m H Hb Hne Hf; try lia; cbn [uiter].
  - exists m. split; [|done]. replace (a + Z.of_nat 0 - 1) with (a - 1) by lia.
    unfold ubind at 1 2. unfold ld at 1. rewrite Hb. cbn [uobind]. by destruct (Z.eqb_spec b SP).
  - assert (Hl : m !! (a + Z.of_nat (S k) - 1) = Some SP) by (rewrite <- (H (Z.of_nat k)) by lia; f_equal; lia).
    unfold ubind at 1 2. unfold ld at 1. rewrite Hl. cbn [uobind]. rewrite Z.eqb_refl.
    unfold ubind at 1, st. rewrite Hl. cbn [uobind uret]. change (u8 0) with 0.
    destruct (IH f (<[a + Z.of_nat (S k) - 1 := 0]> m)) as (m' & E & Hx); [|by rewrite lookup_insert_ne by lia|done|lia|].
    { intros i Hi. rewrite lookup_insert_ne by lia. apply H. lia. }
    exists m'. replace (a + Z.of_nat (S k) - 1 - 1) with (a + Z.of_nat k - 1) by lia. split; [exact E|].
    intros x Hxx. rewrite Hx by lia. by rewrite lookup_insert_ne by lia.
Qed.

Lemma blank_line_faults n d k a m b :
  (3 < n)%nat -> (S k < n)%nat -> str_at m a (replicate (S k) SP) -> m !! (a - 1) = Some b -> b <> SP ->
  m !! (a + Z.of_nat (S k) + (2 ^ 32 - 1)) = None -> runcmd (S d) a n m = UFault.
Proof.
  intros Hn Hk Hs Hb Hne Hnone.
  cbn [runcmd]. pose proof Hs as Hs'. cbn [replicate] in Hs'. apply str_at_cons in Hs' as (H0 & _ & _).
  rewrite (ubind_ld _ _ _ _ _ H0). change (SP =? 0) with false. cbv iota.
  rewrite (ubind_ret (skip_leading a) _ n m _ m (skip_blank n m (S k) n a Hs Hk)).
  set (e := a + Z.of_nat (S k)).
  assert (He : str_at m e []).
  { destruct Hs as [_ He]. rewrite length_replicate in He. by apply str_at_nil. }
  destruct (trim_blank n a b (S k) n m) as (m' & E & Hx); [|done|done|lia|].
  { intros i Hi. destruct Hs as [Hs _]. destruct (Hs (Z.to_nat i) SP) as [H _]; [apply lookup_replicate; lia|].
    by rewrite Z2Nat.id in H by lia. }
  assert (He' : str_at m' e []) by (apply str_at_nil; rewrite Hx by lia; by apply str_at_nil in He).
  rewrite (ubind_ret (trim_trailing e) _ n m tt m').
  2:{ unfold trim_trailing. rewrite (ubind_ret _ _ _ _ _ _ (strlen_run m e [] n He ltac:(cbn; lia) ltac:(cbn; lia))).
      cbn [length]. unfold uloop. rewrite Z.add_0_r. exact E. }
  rewrite (ubind_ret _ _ _ _ _ _ (strcmp_run m' n [] (Ptr e) (lit "exit") (str_bytes "exit") He' ltac:(by split; [|repeat constructor]) ltac:(cbn; lia))).
  change (cmp [] (str_bytes "exit") =? 0) with false. cbv iota.
  rewrite (ubind_ret _ _ _ _ _ _ (strncmp_run m' n [] (Ptr e) (lit "cd ") (str_bytes "cd ") 3 He' ltac:(by split; [|repeat constructor]) ltac:(lia))).
  change (cmp (take 3 []) (take 3 (str_bytes "cd ")) =? 0) with false. cbv iota.
  rewrite (ubind_ret _ _ _ _ _ _ (strchr_run m' n [] SEMI ltac:(done) e He' ltac:(cbn; lia))).
  rewrite (ubind_ret _ _ _ _ _ _ (strchr_run m' n [] BAR ltac:(done) e He' ltac:(cbn; lia))).
  rewrite (ubind_ret _ _ _ _ _ _ (strlen_run m' e [] n He' ltac:(cbn; lia) ltac:(cbn; lia))).
  apply ubind_fault. unfold ld. change (u32 (Z.of_nat (length (@nil Z)) - 1)) with (2 ^ 32 - 1).
  fold e in Hnone. rewrite Hx by lia. by rewrite Hnone.
Qed.

Lemma eof_faults n m buf r1 r2 r3 :
  (3 < n)%nat -> (forall i, 0 <= i < buf_size -> is_Some (m !! (buf + i))) -> 0 < buf -> m !! (buf + (2 ^ 32 - 1)) = None ->
  rv r3 < 1 ->
  feed [r1; r2; r3] (readcmd buf n m) = ([Write 1 (Some (str_bytes "$")); Write 1 (Some (str_bytes " ")); Read 0 1], UFault).
Proof.
  intros Hn Hbuf Hb0 Hbn Hr.
  destruct (memset_run n m buf 0 buf_size Hbuf ltac:(unfold buf_size; lia)) as (m1 & E1 & Hm1).
  unfold readcmd.
  change ((fprintf 1 "$ " [] ;; ?p) n m) with (UCall (Write 1 (Some [36])) (fun _ => UCall (Write 1 (Some [32])) (fun _ => p n m))).
  cbn [feed]. rewrite (ubind_ret _ _ _ _ _ _ E1).
  assert (Hg : exists k, gets buf buf_size n m1 = UCall (Read 0 1) k /\ k r3 = URet buf m1).
  { unfold gets, uloop. destruct n as [|n]; [lia|]. cbn [uiter].
    change (negb (0 + 1 <? buf_size)) with false. cbv iota. eexists. split; [reflexivity|].
    transitivity ((st (buf + 0) 0 ;; uret buf) (S n) m1).
    - assert (Hlt : (rv r3 <? 1) = true) by (apply Z.ltb_lt; lia).
      cbv beta iota delta [ubind uobind sys uret]. rewrite Hlt. reflexivity.
    - rewrite Z.add_0_r.
      assert (Hb1 : m1 !! buf = Some 0) by (rewrite Hm1, decide_True by (unfold buf_size; lia); done).
      rewrite (ubind_st _ 0 _ _ _ _ Hb1). change (u8 0) with 0. by rewrite insert_id. }
  destruct Hg as (k3 & Eg & Ek). unfold ubind at 1. rewrite Eg. cbn [uobind feed]. rewrite Ek. cbn [uobind].
  assert (Hb1 : m1 !! buf = Some 0) by (rewrite Hm1, decide_True by (unfold buf_size; lia); done).
  destruct (Z.eqb_spec buf 0); [lia|]. cbn [negb uwhen]. rewrite ubind_fault; [done|].
  rewrite (ubind_ret _ _ _ _ _ _ (strlen_run m1 buf [] n ltac:(by apply str_at_nil) ltac:(cbn; lia) ltac:(cbn; lia))).
  unfold st. change (u32 (Z.of_nat (length (@nil Z)) - 1)) with (2 ^ 32 - 1).
  rewrite Hm1, decide_False by (unfold buf_size; lia). by rewrite Hbn.
Qed.

(** C20: Two inputs make ysh access memory outside its buffer: a line of only
    spaces (here with a byte other than a space before the buffer) ends in a
    fault, because [runcmd] indexes the emptied command with [strlen(cmd)-1] =
    2^32-1; and at the end of the input [readcmd] faults the same way when it
    chops the missing newline off the empty line, instead of returning so
    that the shell exits. *)
Theorem ysh_faults n d k a m buf b :
  (3 < n)%nat -> (S k < n)%nat -> str_at m a (replicate (S k) SP) -> m !! (a - 1) = Some b -> b <> SP ->
  m !! (a + Z.of_nat (S k) + (2 ^ 32 - 1)) = None ->
  (forall i, 0 <= i < buf_size -> is_Some (m !! (buf + i))) -> 0 < buf -> m !! (buf + (2 ^ 32 - 1)) = None ->
  runcmd (S d) a n m = UFault /\
  forall r1 r2 r3, rv r3 < 1 ->
    feed [r1; r2; r3] (readcmd buf n m) = ([Write 1 (Some (str_bytes "$")); Write 1 (Some (str_bytes " ")); Read 0 1], UFault).
Proof.
  intros Hn Hk Hs Hb Hne Hnone Hbuf Hb0 Hbn. split.
  - by apply (blank_line_faults n d k a m b).
  - intros. by apply eof_faults.
Qed.

(** ** Examples *)
Definition ex_mem (a : Z) (s : string) : umem :=
  list_to_map (zip (seqZ a 128) (str_bytes s ++ replicate 128 0)).
Lemma runcmd_meaning_witness :
  follows (runcmd 128 1000 200%nat (ex_mem 1000 "ls | wc; echo  hi &")) (ymean (YBack (YSeq
    (YPipe (YExec [str_bytes "ls"]) (YExec [str_bytes "wc"])) (YExec [str_bytes "echo"; []; str_bytes "hi"])))).
Proof.
  apply (runcmd_meaning 200%nat 128%nat (str_bytes "ls | wc; echo  hi &") 1000).
  - lia.
  - cbn. lia.
  - unfold fits. split_and!; [|lia|by apply (bool_decide_unpack _); vm_compute|cbn; lia|vm_compute; lia].
    split; [|by vm_compute]. intros i c Hi.
    assert (Hlt : (i < 19)%nat) by (apply lookup_lt_Some in Hi; exact Hi).
    do 19 (destruct i as [|i]; [injection Hi as <-; split; [by vm_compute|done]|]). lia.
  - right. exists 108. split; [by left|done].
  - vm_compute. tauto.
Defined.

Lemma ysh_faults_witness : let m := ex_mem 1000 "   " in
  runcmd 128 1010 200%nat (<[1009 := 7]> (<[1010 := 32]> m)) = UFault.
Proof.
  apply (ysh_faults 200%nat 127%nat 0%nat 1010 (<[1009 := 7]> (<[1010 := 32]> (ex_mem 1000 "   "))) 1000 7).
  - lia.
  - lia.
  - split; [|by vm_compute]. intros [|i] c Hi; [injection Hi as <-; split; [by vm_compute|done]|done].
  - by vm_compute.
  - done.
  - by vm_compute.
  - intros i Hi. assert (H : forallb (fun i => match (<[1009 := 7]> (<[1010 := 32]> (ex_mem 1000 "   "))) !! (1000 + i) with
      Some _ => true | None => false end) (seqZ 0 128) = true) by (by vm_compute).
    rewrite forallb_forall in H. specialize (H i). rewrite <- list_elem_of_In, elem_of_seqZ in H.
    specialize (H ltac:(unfold buf_size in Hi; lia)). destruct (_ !! (1000 + i)); [by eexists|done].
  - lia.
  - by vm_compute.
Defined.
