(* ===== verification/Grep.v ===== *)
(** * grep

    user/grep.c.  The matcher only moves its pointers forward, so a [char *]
    into the pattern or the text is the rest of the string. *)

From S2P Require Import Prelude User Ulib Uprintf.

Definition STAR : Z := 42.
Definition DOT : Z := 46.
Definition DOLLAR : Z := 36.
Definition CARET : Z := 94.

(** [matchstar(c, re, text)]; [here] is [matchhere(re, _)]. *)
Definition matchstar (here : list Z -> bool) (c : Z) : list Z -> bool :=
  fix loop (text : list Z) : bool :=
    if here text then true else
    match text with
    | [] => false
    | t :: text' => if (t =? c) || (c =? DOT) then loop text' else false
    end.

Fixpoint matchhere (re text : list Z) : bool :=
  match re with
  | [] => true
  | c :: re' =>
      let plain :=
        if (c =? DOLLAR) && bool_decide (re' = []) then bool_decide (text = [])
        else match text with
             | [] => false
             | t :: text' => if (c =? DOT) || (c =? t) then matchhere re' text' else false
             end in
      match re' with
      | d :: re'' => if d =? STAR then matchstar (matchhere re'') c text else plain
      | [] => plain
      end
  end.

(** The loop of [match]: the empty rest of the text is tried too. *)
Fixpoint match_at (re text : list Z) : bool :=
  if matchhere re text then true else
  match text with [] => false | _ :: text' => match_at re text' end.
Definition match_ (re text : list Z) : bool :=
  match re with
  | c :: re' => if c =? CARET then matchhere re' text else match_at re text
  | [] => match_at re text
  end.

(** ** The driver *)
Definition GBUF : Z := 1024.

(** The string at a pointer, read by the matcher. *)
Definition ustring (a : Z) : U (list Z) :=
  uloop (fun '(acc, a) => let* c := ld a in uret (if c =? 0 then inr acc else inl (acc ++ [c], a + 1))) ([], a).

(** The lines that are complete: the start of the rest. *)
Definition grep_lines (pattern : list Z) (p : Z) : U Z :=
  uloop (fun p =>
    let* q := strchr (Ptr p) 10 in
    match q with
    | Some (Ptr q) =>
        st q 0 ;;
        let* text := ustring p in
        uwhen (match_ pattern text)
          (st q 10 ;; let* data := bytesarg p (q + 1 - p) in let* _ := sys (Write 1 data) in uret tt) ;;
        uret (inl (q + 1))
    | _ => uret (inr p)
    end) p.

Definition grep (buf : Z) (pattern : list Z) (fd : Z) : U unit :=
  uloop (fun m =>
    let* r := sys (Read fd (GBUF - m - 1)) in
    if rv r <=? 0 then uret (inr tt) else
    st_bytes (buf + m) (take (Z.to_nat (rv r)) (rdata r)) ;;
    let m := m + rv r in
    st (buf + m) 0 ;;
    let* p := grep_lines pattern buf in
    if m >? 0 then
      let m := m - (p - buf) in
      let* _ := memmove buf p m in
      uret (inl m)
    else uret (inl m)) 0.

Definition grep_main (buf : Z) (argv : list Z) : U unit :=
  match argv with
  | _ :: pat :: files =>
      let* pattern := ustring pat in
      match files with
      | [] => grep buf pattern 0 ;; uexit 0
      | _ =>
          uforall files (fun f =>
            let* path := strarg f in
            let* fd := sysv (Open path 0) in
            if fd <? 0 then printf ("grep: cannot open %s" ++ nl) [UStr (Ptr f)] ;; uexit 1
            else grep buf pattern fd ;; let* _ := sysv (Close fd) in uret tt) ;;
          uexit 0
      end
  | _ => fprintf 2 ("usage: grep pattern [file ...]" ++ nl) [] ;; uexit 1
  end.

(** ** What a pattern means *)
Inductive atom : Type := Any | Chr (c : Z).
Inductive item : Type := One (a : atom) | Star (a : atom) | Eol.
Definition atom_of (c : Z) : atom := if c =? DOT then Any else Chr c.
Definition ok (a : atom) (c : Z) : Prop := match a with Any => True | Chr d => c = d end.

Fixpoint items (re : list Z) : list item :=
  match re with
  | [] => []
  | c :: re' =>
      match re' with
      | d :: re'' => if d =? STAR then Star (atom_of c) :: items re'' else One (atom_of c) :: items re'
      | [] => if c =? DOLLAR then [Eol] else [One (atom_of c)]
      end
  end.

(** The items match [u] when [v] follows. *)
Fixpoint sat (its : list item) (u v : list Z) : Prop :=
  match its with
  | [] => u = []
  | One a :: its => exists c u', u = c :: u' /\ ok a c /\ sat its u' v
  | Star a :: its => exists u1 u2, u = u1 ++ u2 /\ Forall (ok a) u1 /\ sat its u2 v
  | Eol :: its => u = [] /\ v = [] /\ sat its u v
  end.
Definition denotes (re text : list Z) : Prop :=
  match re with
  | c :: re' => if c =? CARET then exists u v, text = u ++ v /\ sat (items re') u v
                else exists pre u v, text = pre ++ u ++ v /\ sat (items re) u v
  | [] => True
  end.

Lemma ok_atom c t : ok (atom_of c) t <-> (t =? c) || (c =? DOT) = true.
Proof.
  unfold atom_of. rewrite orb_true_iff, !Z.eqb_eq. destruct (Z.eqb_spec c DOT) as [->|]; cbn; [tauto|]. split; [auto|]. by intros [->|].
Qed.

Lemma matchstar_spec (h : list Z -> bool) (P : list Z -> Prop) c text :
  (forall t, h t = true <-> P t) ->
  matchstar h c text = true <-> exists u1 u2, text = u1 ++ u2 /\ Forall (ok (atom_of c)) u1 /\ P u2.
Proof.
  intros Hh. induction text as [|t text IH]; cbn [matchstar].
  - destruct (h []) eqn:E; (split; [intros E'; try done|]).
    + exists [], []. rewrite <- Hh. done.
    + done.
    + intros (u1 & u2 & Eu & _ & HP). symmetry in Eu. apply app_eq_nil in Eu as [-> ->]. apply Hh in HP. congruence.
  - destruct (h (t :: text)) eqn:E.
    { split; [|done]. intros _. exists [], (t :: text). split_and!; [done|done|by apply Hh]. }
    destruct ((t =? c) || (c =? DOT)) eqn:Eo.
    + fold (matchstar h c). rewrite IH. split.
      * intros (u1 & u2 & -> & HF & HP). exists (t :: u1), u2. split_and!; [done|constructor; [by apply ok_atom|done]|done].
      * intros ([|x u1] & u2 & Eu & HF & HP).
        -- cbn in Eu. subst u2. apply Hh in HP. congruence.
        -- injection Eu as <- ->. apply Forall_cons in HF as [_ HF]. by exists u1, u2.
    + split; [done|]. intros ([|x u1] & u2 & Eu & HF & HP).
      * cbn in Eu. subst u2. apply Hh in HP. congruence.
      * injection Eu as <- ->. apply Forall_cons in HF as [Hx _]. apply ok_atom in Hx. congruence.
Qed.

Lemma matchhere_spec : forall k re, (length re <= k)%nat -> forall text,
  matchhere re text = true <-> exists u v, text = u ++ v /\ sat (items re) u v.
Proof.
  induction k as [|k IH]; intros re Hk text; (destruct re as [|c re']; [cbn; split; [intros _; by exists [], text|done]|]); cbn [length] in Hk; [lia|].
  assert (Hone : match text with [] => false | t :: text' => if (c =? DOT) || (c =? t) then matchhere re' text' else false end = true <->
    exists u v, text = u ++ v /\ exists d u', u = d :: u' /\ ok (atom_of c) d /\ sat (items re') u' v).
  { destruct text as [|t text].
    - split; [done|]. intros (u & v & Eu & d & u' & -> & _). done.
    - split.
      + destruct ((c =? DOT) || (c =? t)) eqn:Eo; [|done]. intros (u & v & -> & HS)%IH; [|lia]. exists (t :: u), v.
        split; [done|]. exists t, u. split_and!; [done| |done]. apply ok_atom. rewrite orb_comm, (Z.eqb_sym t). done.
      + intros (u & v & Eu & d & u' & -> & Ho & HS). injection Eu as <- ->. apply ok_atom in Ho. rewrite orb_comm, (Z.eqb_sym c t), Ho.
        apply IH; [lia|]. by exists u', v. }
  destruct re' as [|d re'']; cbn [matchhere items].
  - rewrite bool_decide_true, andb_true_r by done. destruct (Z.eqb_spec c DOLLAR) as [->|Hc].
    + rewrite bool_decide_eq_true. split; [by intros ->; exists [], []|]. by intros (u & v & -> & -> & -> & _).
    + exact Hone.
  - rewrite bool_decide_false, andb_false_r by done. destruct (Z.eqb_spec d STAR) as [->|Hd]; [|exact Hone].
    rewrite (matchstar_spec (matchhere re'') (fun t => exists u v, t = u ++ v /\ sat (items re'') u v)); [|intros; apply IH; cbn in Hk; lia].
    split.
    + intros (u1 & u2 & -> & HF & u & v & -> & HS). exists (u1 ++ u), v. split; [by rewrite app_assoc|]. by exists u1, u.
    + intros (u & v & -> & u1 & u2 & -> & HF & HS). exists u1, (u2 ++ v). split; [by rewrite app_assoc|]. split; [done|]. by exists u2, v.
Qed.

Lemma match_at_spec re text : match_at re text = true <-> exists pre u v, text = pre ++ u ++ v /\ sat (items re) u v.
Proof.
  assert (H : forall t, matchhere re t = true <-> exists u v, t = u ++ v /\ sat (items re) u v) by (intros; by apply (matchhere_spec (length re))).
  induction text as [|t text IH]; cbn [match_at].
  - destruct (matchhere re []) eqn:E.
    + split; [|done]. intros _. apply H in E as (u & v & E & HS). by exists [], u, v.
    + split; [done|]. intros (pre & u & v & Eu & HS). destruct pre; [|done]. assert (matchhere re [] = true); [|congruence]. apply H. by exists u, v.
  - destruct (matchhere re (t :: text)) eqn:E.
    + split; [|done]. intros _. apply H in E as (u & v & -> & HS). by exists [], u, v.
    + rewrite IH. split.
      * intros (pre & u & v & -> & HS). by exists (t :: pre), u, v.
      * intros ([|x pre] & u & v & Eu & HS); [|injection Eu as <- ->; by exists pre, u, v].
        assert (matchhere re (t :: text) = true); [|congruence]. apply H. by exists u, v.
Qed.

(** C18: The matcher decides the language of the pattern: [match] succeeds
    exactly when the text (from its start if the pattern begins with [^])
    contains a part described by the pattern, where [c*] is any number of
    [c], [.] is any character and a final [$] is the end of the text. *)
Theorem match_denotes re text : match_ re text = true <-> denotes re text.
Proof.
  destruct re as [|c re]; cbn [match_ denotes].
  - split; [done|]. intros _. by destruct text.
  - destruct (c =? CARET); [by apply (matchhere_spec (length re))|apply match_at_spec].
Qed.

Example match_examples :
  match_ (str_bytes "^a.*c$") (str_bytes "abcabc") = true /\ match_ (str_bytes "x*y") (str_bytes "abc") = false /\
  match_ (str_bytes "$") (str_bytes "") = true.
Proof. by vm_compute. Qed.

(** ** The driver filters lines *)

(** A kernel that serves an input [data]: a read takes the next bytes, as many
    as were asked for or fewer (the sizes say how many of the first reads give
    at most how many bytes less one), and gives 0 at the end of the input or
    when no bytes were asked for.  What is written is collected. *)
Definition next_piece (inp : list Z * list nat) (cap : Z) : list Z :=
  take (match inp.2 with [] => Z.to_nat cap | z :: _ => Nat.min (Z.to_nat cap) (S z) end) inp.1.
Fixpoint serve {A} (inp : list Z * list nat) (o : uout A) {struct o} : list (list Z) * option A :=
  match o with
  | URet a _ => ([], Some a)
  | UCall c k =>
      match c with
      | Read _ cap =>
          let i := next_piece inp cap in
          serve (drop (length i) inp.1, tail inp.2) (k (mk_answer (Z.of_nat (length i)) i))
      | Write _ (Some d) => let '(os, r) := serve inp (k (mk_answer (Z.of_nat (length d)) [])) in (d :: os, r)
      | _ => serve inp (k (mk_answer 0 []))
      end
  | _ => ([], None)
  end.

Lemma next_piece_app inp cap : inp.1 = next_piece inp cap ++ drop (length (next_piece inp cap)) inp.1.
Proof.
  unfold next_piece. set (k := match inp.2 with [] => _ | _ => _ end). rewrite <- (take_drop k inp.1) at 1. f_equal.
  rewrite length_take. destruct (decide (k <= length inp.1)%nat); [by rewrite Nat.min_l|]. rewrite Nat.min_r by lia. by rewrite !drop_ge by lia.
Qed.
Lemma next_piece_length inp cap : Z.of_nat (length (next_piece inp cap)) <= Z.max 0 cap /\
  (inp.1 <> [] -> 0 < cap -> (0 < length (next_piece inp cap))%nat).
Proof.
  unfold next_piece. rewrite length_take. split; [destruct inp.2; lia|]. intros Hd Hc. destruct inp.1; [done|]. cbn [length]. destruct inp.2; lia.
Qed.

(** The complete lines of a text and what follows the last one. *)
Fixpoint lines_of (l : list Z) : list (list Z) * list Z :=
  match l with
  | [] => ([], [])
  | c :: l' =>
      let '(ls, r) := lines_of l' in
      if c =? 10 then ([] :: ls, r) else match ls with [] => ([], c :: r) | x :: xs => ((c :: x) :: xs, r) end
  end.
(** The lines before the first one too long for the buffer. *)
Fixpoint fitting (ls : list (list Z)) : list (list Z) :=
  match ls with
  | [] => []
  | l :: ls => if Z.of_nat (length l) <? GBUF - 1 then l :: fitting ls else []
  end.
Definition selected (pat : list Z) (ls : list (list Z)) : list (list Z) :=
  map (fun l => l ++ [10]) (List.filter (match_ pat) ls).

Lemma lines_of_cut l : lines_of l = match cut_at 10 l with
  | None => ([], l) | Some (x, y) => (x :: (lines_of y).1, (lines_of y).2) end.
Proof.
  induction l as [|c l IH]; [done|]. cbn. destruct (Z.eqb_spec c 10).
  - by destruct (lines_of l).
  - rewrite IH. by destruct (cut_at 10 l) as [[x y]|].
Qed.
Lemma lines_of_app l1 l2 :
  lines_of (l1 ++ l2) = ((lines_of l1).1 ++ (lines_of ((lines_of l1).2 ++ l2)).1, (lines_of ((lines_of l1).2 ++ l2)).2).
Proof.
  induction l1 as [|c l1 IH]; cbn [app lines_of]; [by cbn; destruct (lines_of l2)|]. rewrite IH.
  destruct (lines_of l1) as [ls r]. cbn [fst snd]. destruct (c =? 10) eqn:E; [done|]. destruct ls as [|x ls]; [|done].
  cbn [app fst snd lines_of]. rewrite E. destruct (lines_of (r ++ l2)) as [ls' r']. by destruct ls'.
Qed.
Lemma lines_of_rest : forall k l, (length l <= k)%nat -> Forall (fun c => c <> 10) (lines_of l).2 /\ exists x, l = x ++ (lines_of l).2.
Proof.
  induction k as [|k IH]; intros l Hk; rewrite lines_of_cut; (destruct (cut_at 10 l) as [[x y]|] eqn:E;
    [|split; [by apply cut_at_None|by exists []]]); destruct (cut_at_app _ _ _ _ E) as [-> _]; rewrite length_app in Hk; cbn [length] in Hk; [lia|].
  destruct (IH y) as [H1 [z H2]]; [lia|]. cbn [snd]. split; [done|]. exists (x ++ 10 :: z). rewrite <- app_assoc. cbn. by rewrite <- H2.
Qed.

Lemma serve_assoc {A B C} (o : uout A) (f : A -> umem -> uout B) (g : B -> umem -> uout C) : forall inp,
  serve inp (uobind (uobind o f) g) = serve inp (uobind o (fun a m => uobind (f a m) g)).
Proof.
  induction o as [a m|c k IH|z| |]; intros inp; cbn; try done. destruct c; try apply IH.
  - destruct data; [by rewrite IH|apply IH].
Qed.

Lemma ustring_run m n l : forall f acc a, str_at m a l -> (length l < f)%nat ->
  uiter f (fun '(acc, a) => let* c := ld a in uret (if c =? 0 then inr acc else inl (acc ++ [c], a + 1))) (acc, a) n m = URet (acc ++ l) m.
Proof.
  induction l as [|c l IH]; intros [|f] acc a H Hf; cbn [length] in Hf; try lia; cbn [uiter].
  - apply str_at_nil in H. unfold ubind, ld. rewrite H. cbn. by rewrite app_nil_r.
  - apply str_at_cons in H as (H1 & H2 & H3). unfold ubind at 1 2. unfold ld at 1. rewrite H1. cbn [uobind uret].
    destruct (Z.eqb_spec c 0); [done|]. rewrite (IH f (acc ++ [c])) by (done || lia). by rewrite <- app_assoc.
Qed.

(** Bytes in memory. *)
Definition bytes_at (m : umem) (a : Z) (l : list Z) : Prop := forall i c, l !! i = Some c -> m !! (a + Z.of_nat i) = Some c.
Lemma kbytes_run m l : forall a, bytes_at m a l -> kbytes (length l) m a = Some l.
Proof.
  induction l as [|c l IH]; intros a H; [done|]. cbn [kbytes length]. pose proof (H 0%nat c eq_refl) as H0. rewrite Z.add_0_r in H0. rewrite H0.
  rewrite IH; [done|]. intros i d Hi. replace (a + 1 + Z.of_nat i) with (a + Z.of_nat (S i)) by lia. by apply H.
Qed.
Lemma st_bytes_run n l : forall a m, (forall i, 0 <= i < Z.of_nat (length l) -> is_Some (m !! (a + i))) -> Forall (fun c => 0 <= c < 256) l ->
  exists m', st_bytes a l n m = URet tt m' /\ bytes_at m' a l /\
    (forall x, x < a \/ a + Z.of_nat (length l) <= x -> m' !! x = m !! x).
Proof.
  induction l as [|c l IH]; intros a m Hm Hb; cbn [st_bytes length] in *; [by exists m|]. apply Forall_cons in Hb as [Hc Hb].
  destruct (Hm 0 ltac:(lia)) as [w Hw]. rewrite Z.add_0_r in Hw. rewrite (ubind_st _ _ _ _ _ _ Hw), u8_small by lia.
  destruct (IH (a + 1) (<[a := c]> m)) as (m' & E & H1 & H2); [|done|].
  { intros i Hi. rewrite lookup_insert_ne by lia. replace (a + 1 + i) with (a + (i + 1)) by lia. apply Hm. lia. }
  exists m'. split; [done|]. split.
  - intros [|i] d Hi; [injection Hi as <-|].
    + rewrite Z.add_0_r, H2 by lia. apply lookup_insert_eq.
    + replace (a + Z.of_nat (S i)) with (a + 1 + Z.of_nat i) by lia. by apply H1.
  - intros x Hx. rewrite H2 by lia. by rewrite lookup_insert_ne by lia.
Qed.

(** One pass over the complete lines in the buffer. *)
Lemma grep_lines_run pat n : forall k l p m f, (length l <= k)%nat -> str_at m p l -> (length l < f)%nat -> (length l < n)%nat ->
  exists m', str_at m' (p + Z.of_nat (length l - length (lines_of l).2)) (lines_of l).2 /\
    (forall x, is_Some (m !! x) -> is_Some (m' !! x)) /\
    forall A (K : Z -> umem -> uout A) inp,
      serve inp (uobind (uiter f (fun p =>
        let* q := strchr (Ptr p) 10 in
        match q with
        | Some (Ptr q) =>
            st q 0 ;; let* text := ustring p in
            uwhen (match_ pat text)
              (st q 10 ;; let* data := bytesarg p (q + 1 - p) in let* _ := sys (Write 1 data) in uret tt) ;;
            uret (inl (q + 1))
        | _ => uret (inr p)
        end) p n m) K) =
      (selected pat (lines_of l).1 ++ (serve inp (K (p + Z.of_nat (length l - length (lines_of l).2)) m')).1,
       (serve inp (K (p + Z.of_nat (length l - length (lines_of l).2)) m')).2).
Proof.
  induction k as [|k IH]; intros l p m [|f] Hk Hs Hf Hn; try lia; rewrite lines_of_cut; cbn [uiter];
    pose proof (strchr_run m n l 10 ltac:(done) p Hs Hn) as Eq; destruct (cut_at 10 l) as [[x y]|] eqn:Ec.
  1: { destruct (cut_at_app _ _ _ _ Ec) as [-> _]. rewrite length_app in Hk. cbn in Hk. lia. }
  1, 3: exists m; cbn [fst snd selected List.filter map app]; rewrite Nat.sub_diag, Z.add_0_r; split; [done|]; split; [done|];
    intros A K inp; unfold ubind at 1 2; rewrite Eq; cbn [uobind uret]; by destruct (serve inp (K p m)).
  destruct (cut_at_app _ _ _ _ Ec) as [-> _]. destruct (str_at_cut m p x 10 y Hs) as [H1 H2].
  rewrite length_app in *. cbn [length] in *. set (q := p + Z.of_nat (length x)) in *. set (m1 := <[q := 0]> m) in *.
  assert (Hq : m !! q = Some 10).
  { destruct Hs as [Hs _]. apply (Hs (length x) 10). by rewrite lookup_app_r, Nat.sub_diag by lia. }
  assert (Hq1 : m1 !! q = Some 0) by apply lookup_insert_eq.
  set (m2 := if match_ pat x then <[q := 10]> m1 else m1).
  assert (H2' : str_at m2 (q + 1) y) by (subst m2; destruct (match_ pat x); [apply str_at_out; [done|lia]|done]).
  destruct (IH y (q + 1) m2 f) as (m' & H3 & H4 & H5); [lia|done|lia|lia|].
  destruct (lines_of_rest (length y) y ltac:(lia)) as [_ [z Ez]].
  assert (Hly : (length (lines_of y).2 <= length y)%nat) by (rewrite Ez at 2; rewrite length_app; lia).
  exists m'. cbn [fst snd]. replace (p + Z.of_nat (length x + S (length y) - length (lines_of y).2))
    with (q + 1 + Z.of_nat (length y - length (lines_of y).2)) by lia.
  split; [done|]. split.
  { intros w Hw. apply H4. subst m2 m1. destruct (match_ pat x); destruct (decide (w = q)) as [->|Hne];
      rewrite ?lookup_insert_eq, ?lookup_insert_ne by done; done. }
  intros A K inp. unfold ubind at 1 2. rewrite Eq. cbn [uobind]. rewrite (ubind_st _ 0 _ _ _ _ Hq). change (u8 0) with 0. fold m1.
  rewrite (ubind_ret (ustring p) _ n m1 x m1) by (exact (ustring_run m1 n x n [] p H1 ltac:(lia))).
  assert (Em2 : m2 = if match_ pat x then <[q := 10]> m1 else m1) by done. clearbody m2.
  unfold selected in H5 |- *. cbn [List.filter]. destruct (match_ pat x) eqn:Em; cbn [uwhen].
  - assert (Hd : kbytes (Z.to_nat (q + 1 - p)) m2 p = Some (x ++ [10])).
    { replace (Z.to_nat (q + 1 - p)) with (length (x ++ [10])) by (rewrite length_app; cbn; lia). apply kbytes_run.
      intros i c Hi. apply lookup_app_Some in Hi as [Hi|[Hi1 Hi2]].
      - pose proof (lookup_lt_Some _ _ _ Hi). rewrite Em2, lookup_insert_ne by lia. apply H1. done.
      - apply list_lookup_singleton_Some in Hi2 as [Hi2 <-]. replace (p + Z.of_nat i) with q by lia. rewrite Em2. apply lookup_insert_eq. }
    unfold ubind at 1 2 3. unfold st at 1. rewrite Hq1. cbn [uobind]. change (u8 10) with 10.
    rewrite <- Em2. unfold ubind at 1 2, bytesarg. rewrite Hd. cbn. rewrite H5. done.
  - rewrite ubind_uret. cbn [uobind uret]. rewrite <- Em2. exact (H5 A K inp).
Qed.

Definition mapped (m : umem) (a k : Z) : Prop := forall i, 0 <= i < k -> is_Some (m !! (a + i)).

(** Appending a chunk to the unfinished line. *)
Lemma fill_run n m buf pend i : mapped m buf GBUF -> bytes_at m buf pend -> Forall (fun c => 0 < c < 256) (pend ++ i) ->
  Z.of_nat (length pend + length i) < GBUF ->
  exists m1, (forall B (k : U B), (st_bytes (buf + Z.of_nat (length pend)) i ;;
      st (buf + (Z.of_nat (length pend) + Z.of_nat (length i))) 0 ;; k) n m = k n m1) /\
    str_at m1 buf (pend ++ i) /\ mapped m1 buf GBUF.
Proof.
  intros Hm Hp Hb Hlen. unfold mapped in *. apply Forall_app in Hb as [Hbp Hbi].
  destruct (st_bytes_run n i (buf + Z.of_nat (length pend)) m) as (m0 & E & H1 & H2).
  { intros j Hj. rewrite <- Z.add_assoc. apply Hm. lia. }
  { eapply Forall_impl; [exact Hbi|]. cbn. lia. }
  assert (Hm0 : mapped m0 buf GBUF).
  { intros j Hj. destruct (decide (Z.of_nat (length pend) <= j < Z.of_nat (length pend + length i))) as [Hr|Hr].
    - destruct (lookup_lt_is_Some_2 i (Z.to_nat (j - Z.of_nat (length pend)))) as [c Hc]; [lia|].
      exists c. rewrite <- (H1 _ _ Hc). f_equal. lia.
    - rewrite H2 by lia. by apply Hm. }
  set (e := buf + (Z.of_nat (length pend) + Z.of_nat (length i))).
  destruct (Hm0 (Z.of_nat (length pend) + Z.of_nat (length i)) ltac:(lia)) as [w Hw]. fold e in Hw.
  exists (<[e := 0]> m0). split; [|split].
  - intros B k. rewrite (ubind_ret _ _ _ _ _ _ E), (ubind_st _ _ _ _ _ _ Hw). done.
  - split; [|rewrite length_app, Nat2Z.inj_add; apply lookup_insert_eq]. intros j c Hj.
    pose proof (lookup_lt_Some _ _ _ Hj) as Hlt. rewrite length_app in Hlt. rewrite lookup_insert_ne by lia.
    apply lookup_app_Some in Hj as [Hj|[Hj1 Hj2]].
    + pose proof (lookup_lt_Some _ _ _ Hj). rewrite H2 by lia. split; [by apply Hp|].
      rewrite Forall_lookup in Hbp. specialize (Hbp _ _ Hj). lia.
    + specialize (H1 _ _ Hj2). rewrite Forall_lookup in Hbi. specialize (Hbi _ _ Hj2). split; [|lia]. rewrite <- H1. f_equal. lia.
  - intros j Hj. destruct (decide (buf + j = e)) as [->|Hne]; [rewrite lookup_insert_eq; done|]. rewrite lookup_insert_ne by done. by apply Hm0.
Qed.

Lemma fitting_app l1 l2 : Forall (fun l => Z.of_nat (length l) < GBUF - 1) l1 -> fitting (l1 ++ l2) = l1 ++ fitting l2.
Proof. induction 1 as [|l l1 Hl _ IH]; cbn; [done|]. destruct (Z.ltb_spec (Z.of_nat (length l)) (GBUF - 1)); [by rewrite IH|lia]. Qed.
Lemma lines_of_length : forall k l, (length l <= k)%nat -> Forall (fun x => (length x < length l)%nat) (lines_of l).1.
Proof.
  induction k as [|k IH]; intros l Hk; rewrite lines_of_cut; (destruct (cut_at 10 l) as [[x y]|] eqn:E; [|constructor]);
    destruct (cut_at_app _ _ _ _ E) as [-> _]; rewrite length_app in *; cbn [length fst] in *; [lia|].
  constructor; [lia|]. eapply Forall_impl; [apply (IH y); lia|]. cbn. lia.
Qed.
(** A first line that does not fit: nothing is printed. *)
Lemma fitting_long pend l : Forall (fun c => c <> 10) pend -> GBUF - 1 <= Z.of_nat (length pend) -> fitting (lines_of (pend ++ l)).1 = [].
Proof.
  intros Hn Hl. rewrite lines_of_app. rewrite (lines_of_cut pend), (proj2 (cut_at_None 10 pend) Hn). cbn [fst snd app]. rewrite lines_of_cut.
  destruct (cut_at 10 (pend ++ l)) as [[x y]|] eqn:E; [|done]. cbn [fst fitting].
  assert (Hx : (length pend <= length x)%nat).
  { destruct (cut_at_app _ _ _ _ E) as [Ea _]. destruct (decide (length x < length pend)%nat) as [Hlt|]; [|lia]. exfalso.
    assert (Hc : pend !! length x = Some 10) by (rewrite <- (lookup_app_l _ l) by done; rewrite Ea; by rewrite lookup_app_r, Nat.sub_diag by lia).
    rewrite Forall_lookup in Hn. by apply (Hn _ _ Hc). }
  destruct (Z.ltb_spec (Z.of_nat (length x)) (GBUF - 1)); [lia|done].
Qed.

(** One read: the pieces are appended, the complete lines printed, and the
    unfinished one moved to the front. *)
Definition grep_step (buf : Z) (pat : list Z) (fd : Z) (m : Z) : U (Z + unit) :=
  let* r := sys (Read fd (GBUF - m - 1)) in
  if rv r <=? 0 then uret (inr tt) else
  st_bytes (buf + m) (take (Z.to_nat (rv r)) (rdata r)) ;;
  let m := m + rv r in
  st (buf + m) 0 ;;
  let* p := grep_lines pat buf in
  if m >? 0 then
    let m := m - (p - buf) in
    let* _ := memmove buf p m in
    uret (inl m)
  else uret (inl m).

Lemma grep_step_run buf pat fd n m pend inp : Z.of_nat n > GBUF ->
  let i := next_piece inp (GBUF - Z.of_nat (length pend) - 1) in let l := pend ++ i in
  mapped m buf GBUF -> bytes_at m buf pend -> Forall (fun c => 0 < c < 256) l -> (0 < length i)%nat -> Z.of_nat (length l) < GBUF ->
  exists m', mapped m' buf GBUF /\ bytes_at m' buf (lines_of l).2 /\
    forall A (K : Z + unit -> umem -> uout A),
      serve inp (uobind (grep_step buf pat fd (Z.of_nat (length pend)) n m) K) =
      (selected pat (lines_of l).1 ++ (serve (drop (length i) inp.1, tail inp.2) (K (inl (Z.of_nat (length (lines_of l).2))) m')).1,
       (serve (drop (length i) inp.1, tail inp.2) (K (inl (Z.of_nat (length (lines_of l).2))) m')).2).
Proof.
  intros Hn i l Hm Hp Hb Hi Hlen. assert (Hll : length l = (length pend + length i)%nat) by apply length_app.
  destruct (fill_run n m buf pend i Hm Hp Hb ltac:(lia)) as (m1 & E1 & Hs & Hm1). fold l in Hs.
  destruct (lines_of_rest (length l) l ltac:(lia)) as [Hrest [z Ez]].
  assert (Hly : (length (lines_of l).2 <= length l)%nat) by (rewrite Ez at 2; rewrite length_app; lia).
  destruct (grep_lines_run pat n (length l) l buf m1 n) as (m2 & Hs2 & Hm2 & HK); [lia|done|lia|lia|].
  set (p' := buf + Z.of_nat (length l - length (lines_of l).2)) in *.
  assert (Hb2' : Forall (fun c => 0 < c < 256) (lines_of l).2) by (rewrite Ez in Hb; by apply Forall_app in Hb as [_ Hb]).
  destruct (memmove_run n m2 buf p' (Z.of_nat (length (lines_of l).2))) as (m3 & E3 & Hm3); [lia| | |].
  { intros j Hj. destruct (lookup_lt_is_Some_2 (lines_of l).2 (Z.to_nat j)) as [c Hj']; [lia|]. exists c.
    destruct Hs2 as [Hs2 _]. destruct (Hs2 _ _ Hj') as [Hx _]. rewrite Z2Nat.id in Hx by lia. split; [done|].
    rewrite Forall_lookup in Hb2'. specialize (Hb2' _ _ Hj'). lia. }
  { intros j Hj. apply Hm2, Hm1. lia. }
  exists m3. split; [|split].
  - intros j Hj. rewrite Hm3. case_decide; [|by apply Hm2, Hm1].
    destruct (lookup_lt_is_Some_2 (lines_of l).2 (Z.to_nat j)) as [c Hj']; [lia|]. destruct Hs2 as [Hs2 _]. destruct (Hs2 _ _ Hj') as [Hx _].
    exists c. rewrite <- Hx. f_equal. lia.
  - intros j c Hj. pose proof (lookup_lt_Some _ _ _ Hj). rewrite Hm3, decide_True by lia. destruct Hs2 as [Hs2 _].
    destruct (Hs2 _ _ Hj) as [Hx _]. rewrite <- Hx. f_equal. lia.
  - intros A K. unfold grep_step. unfold ubind at 1. cbn [sys uobind serve]. fold i. cbn [rv rdata].
    destruct (Z.leb_spec (Z.of_nat (length i)) 0); [lia|]. rewrite Nat2Z.id, take_ge by lia. rewrite E1. unfold ubind at 1. rewrite serve_assoc.
    etrans; [apply HK|]. clear HK. destruct (Z.gtb_spec (Z.of_nat (length pend) + Z.of_nat (length i)) 0); [|lia].
    replace (Z.of_nat (length pend) + Z.of_nat (length i) - (p' - buf)) with (Z.of_nat (length (lines_of l).2)) by lia.
    by rewrite (ubind_ret _ _ _ _ _ _ E3).
Qed.

Lemma grep_loop buf pat fd n : Z.of_nat n > GBUF -> forall k inp pend m f, (length inp.1 <= k)%nat -> (k < f)%nat ->
  mapped m buf GBUF -> bytes_at m buf pend -> Forall (fun c => 0 < c < 256) (pend ++ inp.1) ->
  Forall (fun c => c <> 10) pend -> Z.of_nat (length pend) < GBUF ->
  serve inp (uiter f (grep_step buf pat fd) (Z.of_nat (length pend)) n m) = (selected pat (fitting (lines_of (pend ++ inp.1)).1), Some tt).
Proof.
  intros Hn. induction k as [|k IH]; intros inp pend m [|f] Hk Hf Hm Hp Hb Hnl Hlen; try lia; cbn [uiter];
    pose proof (next_piece_app inp (GBUF - Z.of_nat (length pend) - 1)) as Ea; destruct (next_piece_length inp (GBUF - Z.of_nat (length pend) - 1)) as [Hmax Hpos];
    set (i := next_piece inp _) in *; (destruct (decide (length i = 0%nat)) as [Hz|Hz];
    [unfold grep_step at 1; unfold ubind at 1 2; cbn [sys uobind serve]; fold i; rewrite Hz; cbn [rv Z.of_nat Z.leb Z.compare]; cbn [uobind uret serve]|]).
  1,3: (destruct (decide (inp.1 = [])) as [He|He];
    [rewrite He, app_nil_r, lines_of_cut, (proj2 (cut_at_None 10 pend) Hnl); done|rewrite fitting_long; [done|done|];
     destruct (decide (0 < GBUF - Z.of_nat (length pend) - 1)) as [Hc|]; [specialize (Hpos He Hc); lia|lia]]).
  { rewrite Ea, length_app in Hk. lia. }
  rewrite Ea in Hb |- *. rewrite app_assoc in Hb |- *. apply Forall_app in Hb as [Hb1 Hb2].
  destruct (grep_step_run buf pat fd n m pend inp Hn Hm Hp Hb1 ltac:(fold i; lia) ltac:(fold i; rewrite length_app; lia)) as (m' & Hm' & Hp' & HK).
  fold i in Hp', HK. set (l := pend ++ i) in *. assert (Hll : length l = (length pend + length i)%nat) by apply length_app.
  destruct (lines_of_rest (length l) l ltac:(lia)) as [Hrest [z Ez]].
  assert (Hly : (length (lines_of l).2 <= length l)%nat) by (rewrite Ez at 2; rewrite length_app; lia).
  unfold ubind at 1. rewrite HK. rewrite (IH (drop (length i) inp.1, tail inp.2) (lines_of l).2 m' f); cbn [fst snd]; try done; try lia.
  - rewrite (lines_of_app l). cbn [fst]. rewrite fitting_app; [unfold selected; by rewrite List.filter_app, map_app|].
    eapply Forall_impl; [apply (lines_of_length (length l)); lia|]. cbn. lia.
  - rewrite Ea, length_app in Hk. lia.
  - apply Forall_app. split; [|done]. rewrite Ez in Hb1. by apply Forall_app in Hb1 as [_ Hb1].
Qed.

(** C19: grep prints the matching lines.  For an input without NUL bytes,
    however the kernel cuts it into reads of at least one byte, the program
    ends and writes, one [write] per line and in order, exactly the complete
    lines that match the pattern among those before the first line of 1023
    bytes or more: such a line fills the buffer, the next [read] is for no
    bytes, and grep takes its result 0 for the end of the input, so nothing
    after it is searched.  Text after the last newline is not looked at. *)
Theorem grep_filters buf pat fd n m data sizes :
  Z.of_nat n > GBUF -> (length data < n)%nat -> mapped m buf GBUF -> Forall (fun c => 0 < c < 256) data ->
  serve (data, sizes) (grep buf pat fd n m) =
    (map (fun l => l ++ [10]) (List.filter (match_ pat) (fitting (lines_of data).1)), Some tt).
Proof. intros Hn Hf Hm Hb. by apply (grep_loop buf pat fd n Hn (length data) (data, sizes) [] m n). Qed.

Definition ex_gbuf : umem := list_to_map (map (fun i => (i, 0)) (seqZ 5000 1024)).
Lemma ex_gbuf_mapped : mapped ex_gbuf 5000 GBUF.
Proof.
  intros i Hi. assert (H : forallb (fun i => match ex_gbuf !! (5000 + i) with Some _ => true | None => false end) (seqZ 0 1024) = true) by (by vm_compute).
  rewrite forallb_forall in H. specialize (H i). rewrite <- list_elem_of_In, elem_of_seqZ in H.
  specialize (H ltac:(unfold GBUF in Hi; lia)). destruct (ex_gbuf !! (5000 + i)); [by eexists|done].
Qed.

(** Four lines in reads of four and three bytes and the rest; and a line of
    1023 bytes that hides the one after it. *)
Definition ex_long : list Z := str_bytes ("to" ++ nl) ++ replicate 1023 97 ++ str_bytes (nl ++ "two" ++ nl).
Lemma grep_filters_witness :
  serve (str_bytes ("one" ++ nl ++ "two" ++ nl ++ "three" ++ nl), [3; 2]%nat) (grep 5000 (str_bytes "^t") 0 1100%nat ex_gbuf) =
    ([str_bytes ("two" ++ nl); str_bytes ("three" ++ nl)], Some tt) /\
  serve (ex_long, []) (grep 5000 (str_bytes "^t") 0 1100%nat ex_gbuf) = ([str_bytes ("to" ++ nl)], Some tt).
Proof.
  assert (Hn : Z.of_nat 1100 > GBUF) by reflexivity. split.
  - apply (grep_filters 5000 (str_bytes "^t") 0 1100%nat ex_gbuf (str_bytes ("one" ++ nl ++ "two" ++ nl ++ "three" ++ nl)) [3; 2]%nat);
      [exact Hn|apply Nat.ltb_lt; by vm_compute|exact ex_gbuf_mapped|apply (bool_decide_unpack _); vm_compute; exact I].
  - etrans; [apply (grep_filters 5000 (str_bytes "^t") 0 1100%nat ex_gbuf ex_long [] Hn)|by vm_compute];
      [apply Nat.ltb_lt; by vm_compute|exact ex_gbuf_mapped|apply (bool_decide_unpack _); vm_compute; exact I].
Defined.
