(* ===== verification/Sh.v ===== *)
(** * The shell sh

    user/sh.c.  The parser only reads the line, so its pointers [*ps], [es],
    [q] and [eq] are offsets into the text of the line, whose length is [es];
    a character at or after the end is the terminating 0.  The nodes
    [malloc] returns are values of an inductive type with the source's five
    kinds; [parseexec] wraps redirections around a node whose arguments it
    still fills in, which is the list of redirections applied to the finished
    node.  [malloc] is assumed to succeed (its result is not tested either). *)

From S2P Require Import Prelude User Ulib Uprintf.

Definition MAXARGS : Z := 10.
Definition O_RDONLY : Z := 0.
Definition O_WRONLY : Z := 1.
Definition O_RDWR : Z := 2.
Definition O_CREATE : Z := 0x200.
Definition O_TRUNC : Z := 0x400.

(** A counted string: where it starts and where it ends. *)
Notation span := (nat * nat)%type.

Inductive cmd : Type :=
| EXEC (argv : list span)
| REDIR (c : cmd) (file : span) (mode fd : Z)
| PIPE (left right : cmd)
| LIST (left right : cmd)
| BACK (c : cmd).

(** The parser returns, or calls [panic(s)], which exits (after reporting
    what is left of the line, for [PLeftover]); [PFuel] is the bound on its
    recursion. *)
Inductive pres (A : Type) : Type := POk (a : A) | PPanic (msg : string) | PLeftover (rest : list Z) | PFuel.
Arguments POk {A} _.
Arguments PPanic {A} _.
Arguments PLeftover {A} _.
Arguments PFuel {A}.
Definition pbind {A B} (p : pres A) (f : A -> pres B) : pres B :=
  match p with POk a => f a | PPanic s => PPanic s | PLeftover r => PLeftover r | PFuel => PFuel end.
Declare Scope sh_scope.
Notation "'let?' x := m 'in' k" := (pbind m (fun x => k))
  (at level 10, x pattern, m at level 100, k at level 200) : sh_scope.
Open Scope sh_scope.

Definition whitespace : list Z := [32; 9; 13; 10; 11].
Definition symbols : list Z := str_bytes "<|>&;()".
Definition is_ws (c : Z) : bool := bool_decide (c ∈ whitespace).
Definition is_sym (c : Z) : bool := bool_decide (c ∈ symbols).

Section Parser.
Variable line : list Z.
Definition es : nat := length line.
Definition chr (s : nat) : Z := nth s line 0.

(** [while(s < es && test) s++] *)
Fixpoint skip (test : Z -> bool) (n s : nat) : nat :=
  match n with
  | O => s
  | S n' => if (s <? es)%nat && test (chr s) then skip test n' (S s) else s
  end.
Definition skip_while (test : Z -> bool) (s : nat) : nat := skip test es s.

(** The token, its span, and the new [*ps]. *)
Definition gettoken (s : nat) : Z * span * nat :=
  let s := skip_while is_ws s in
  let q := s in
  let c := chr s in
  let '(ret, s) :=
    if c =? 0 then (c, s)
    else if (c =? 124) || (c =? 40) || (c =? 41) || (c =? 59) || (c =? 38) || (c =? 60) then (c, S s)
    else if c =? 62 then if chr (S s) =? 62 then (43, S (S s)) else (c, S s)
    else (97, skip_while (fun c => negb (is_ws c) && negb (is_sym c)) s) in
  (ret, (q, s), skip_while is_ws s).

Definition peek (s : nat) (toks : list Z) : bool * nat :=
  let s := skip_while is_ws s in
  (negb (chr s =? 0) && bool_decide (chr s ∈ toks), s).

(** The redirections at [s], in the order they are wrapped. *)
Fixpoint parseredirs (n : nat) (s : nat) : pres (list (span * Z * Z) * nat) :=
  match n with
  | O => PFuel
  | S n' =>
      let '(b, s) := peek s (str_bytes "<>") in
      if negb b then POk ([], s) else
      let '(tok, _, s) := gettoken s in
      let '(t, file, s) := gettoken s in
      if negb (t =? 97) then PPanic "missing file for redirection" else
      let r := if tok =? 60 then [(file, O_RDONLY, 0)]
               else if tok =? 62 then [(file, Z.lor O_WRONLY (Z.lor O_CREATE O_TRUNC), 1)]
               else if tok =? 43 then [(file, Z.lor O_WRONLY O_CREATE, 1)]
               else [] in
      let? (rs, s) := parseredirs n' s in
      POk (r ++ rs, s)
  end.
Definition wrap (c : cmd) (rs : list (span * Z * Z)) : cmd :=
  fold_left (fun c '(file, mode, fd) => REDIR c file mode fd) rs c.

(** The loop of [parseexec]: the arguments, the redirections and [*ps]. *)
Fixpoint parseargs (n : nat) (argv : list span) (rs : list (span * Z * Z)) (s : nat) :
    pres (list span * list (span * Z * Z) * nat) :=
  match n with
  | O => PFuel
  | S n' =>
      let '(b, s) := peek s (str_bytes "|)&;") in
      if b then POk (argv, rs, s) else
      let '(tok, arg, s) := gettoken s in
      if tok =? 0 then POk (argv, rs, s)
      else if negb (tok =? 97) then PPanic "syntax"
      else
      let argv := argv ++ [arg] in
      if Z.of_nat (length argv) >=? MAXARGS then PPanic "too many args" else
      let? (rs', s) := parseredirs n' s in
      parseargs n' argv (rs ++ rs') s
  end.

(** [while(peek(ps, es, "&"))] of [parseline]. *)
Fixpoint parseback (n : nat) (c : cmd) (s : nat) : pres (cmd * nat) :=
  match n with
  | O => PFuel
  | S n' =>
      let '(b, s) := peek s (str_bytes "&") in
      if negb b then POk (c, s) else
      let '(_, _, s) := gettoken s in
      parseback n' (BACK c) s
  end.

(** The recursive descent; [n] bounds the depth and the loops. *)
Fixpoint parseline (n : nat) (s : nat) : pres (cmd * nat) :=
  match n with
  | O => PFuel
  | S n' =>
      let? (c, s) := parsepipe n' s in
      let? (c, s) := parseback n' c s in
      let '(b, s) := peek s (str_bytes ";") in
      if b then
        let '(_, _, s) := gettoken s in
        let? (r, s) := parseline n' s in
        POk (LIST c r, s)
      else POk (c, s)
  end
with parsepipe (n : nat) (s : nat) : pres (cmd * nat) :=
  match n with
  | O => PFuel
  | S n' =>
      let? (c, s) := parseexec n' s in
      let '(b, s) := peek s (str_bytes "|") in
      if b then
        let '(_, _, s) := gettoken s in
        let? (r, s) := parsepipe n' s in
        POk (PIPE c r, s)
      else POk (c, s)
  end
with parseexec (n : nat) (s : nat) : pres (cmd * nat) :=
  match n with
  | O => PFuel
  | S n' =>
      let '(b, s) := peek s (str_bytes "(") in
      if b then parseblock n' s else
      let? (rs, s) := parseredirs n' s in
      let? (argv, rs, s) := parseargs n' [] rs s in
      POk (wrap (EXEC argv) rs, s)
  end
with parseblock (n : nat) (s : nat) : pres (cmd * nat) :=
  match n with
  | O => PFuel
  | S n' =>
      let '(b, s) := peek s (str_bytes "(") in
      if negb b then PPanic "parseblock" else
      let '(_, _, s) := gettoken s in
      let? (c, s) := parseline n' s in
      let '(b, s) := peek s (str_bytes ")") in
      if negb b then PPanic "syntax - missing )" else
      let '(_, _, s) := gettoken s in
      let? (rs, s) := parseredirs n' s in
      POk (wrap c rs, s)
  end.

(** [nulterminate]: a 0 is stored at the end of every counted string. *)
Fixpoint nulterminate (c : cmd) (buf : list Z) : list Z :=
  match c with
  | EXEC argv => fold_left (fun b '(_, eq) => <[eq := 0]> b) argv buf
  | REDIR c (_, efile) _ _ => <[efile := 0]> (nulterminate c buf)
  | PIPE l r | LIST l r => nulterminate r (nulterminate l buf)
  | BACK c => nulterminate c buf
  end.

(** [parsecmd]: the command and the line with its strings terminated. *)
Definition parsecmd (n : nat) : pres (cmd * list Z) :=
  let? (c, s) := parseline n 0 in
  let '(_, s) := peek s [] in
  if negb (s =? es)%nat then PLeftover (drop s line) else
  POk (c, nulterminate c (line ++ [0])).
End Parser.

(** The C string at an offset of the buffer. *)
Fixpoint cstring (l : list Z) : list Z :=
  match l with [] => [] | c :: l' => if c =? 0 then [] else c :: cstring l' end.
Definition str_in (buf : list Z) (sp : span) : list Z := cstring (drop sp.1 buf).

(** ** Running commands *)
Definition panic {A} (s : string) : U A := fprintf 2 ("%s" ++ nl) [UStr (lit s)] ;; uexit 1.
Definition fork1 : U Z :=
  let* pid := sysv Fork in
  if pid =? -1 then panic "fork" else uret pid.

(** [runcmd] never returns. *)
Fixpoint runcmd (buf : list Z) (c : cmd) : U unit :=
  match c with
  | EXEC argv =>
      match argv with
      | [] => uexit 1
      | a0 :: _ =>
          let* _ := sysv (Exec (Some (str_in buf a0)) (map (fun a => Some (str_in buf a)) argv)) in
          fprintf 2 ("exec %s failed" ++ nl) [UStr (Lit (str_in buf a0))] ;;
          uexit 0
      end
  | REDIR c file mode fd =>
      let* _ := sysv (Close fd) in
      let* r := sysv (Open (Some (str_in buf file)) mode) in
      if r <? 0 then fprintf 2 ("open %s failed" ++ nl) [UStr (Lit (str_in buf file))] ;; uexit 1
      else runcmd buf c
  | LIST l r =>
      let* pid := fork1 in
      uwhen (pid =? 0) (runcmd buf l) ;;
      let* _ := sysv (Wait 0) in
      runcmd buf r
  | PIPE l r =>
      let* fds := sys Pipe in
      if rv fds <? 0 then panic "pipe" else
      let p0 := nth 0 (rdata fds) 0 in
      let p1 := nth 1 (rdata fds) 0 in
      let* pid := fork1 in
      uwhen (pid =? 0)
        (let* _ := sysv (Close 1) in let* _ := sysv (Dup p1) in
         let* _ := sysv (Close p0) in let* _ := sysv (Close p1) in runcmd buf l) ;;
      let* pid := fork1 in
      uwhen (pid =? 0)
        (let* _ := sysv (Close 0) in let* _ := sysv (Dup p0) in
         let* _ := sysv (Close p0) in let* _ := sysv (Close p1) in runcmd buf r) ;;
      let* _ := sysv (Close p0) in
      let* _ := sysv (Close p1) in
      let* _ := sysv (Wait 0) in
      let* _ := sysv (Wait 0) in
      uexit 0
  | BACK c =>
      let* pid := fork1 in
      uwhen (pid =? 0) (runcmd buf c) ;;
      uexit 0
  end.

(** A bound that is enough for a line of [k] characters. *)
Definition parse_fuel (k : nat) : nat := 4 * k + 5.

(** [runcmd(parsecmd(line))] in the forked child. *)
Definition run_line (line : list Z) : U unit :=
  match parsecmd line (parse_fuel (length line)) with
  | POk (c, buf) => runcmd buf c
  | PPanic s => panic s
  | PLeftover r => fprintf 2 ("leftovers: %s" ++ nl) [UStr (Lit r)] ;; panic "syntax"
  | PFuel => fun _ _ => UNoFuel
  end.

Definition SHBUF : Z := 100.

Definition getcmd (buf nbuf : Z) : U Z :=
  let* _ := sys (Write 2 (Some (str_bytes "$ "))) in
  let* _ := memset buf 0 nbuf in
  let* _ := gets buf nbuf in
  let* c := ld buf in
  uret (if c =? 0 then -1 else 0).

Definition main (buf : Z) : U unit :=
  uloop (fun _ : unit =>
    let* fd := sysv (Open (Some (str_bytes "console")) O_RDWR) in
    if fd <? 0 then uret (inr tt)
    else if 3 <=? fd then let* _ := sysv (Close fd) in uret (inr tt)
    else uret (inl tt)) tt ;;
  uloop (fun _ : unit =>
    let* r := getcmd buf SHBUF in
    if r <? 0 then uret (inr tt) else
    let* c0 := ld buf in
    let* c1 := ld (buf + 1) in
    let* c2 := ld (buf + 2) in
    if (c0 =? 99) && (c1 =? 100) && (c2 =? 32) then
      let* n := strlen buf in
      st (buf + u32 (n - 1)) 0 ;;
      let* path := strarg (buf + 3) in
      let* r := sysv (Chdir path) in
      uwhen (r <? 0) (fprintf 2 ("cannot cd %s" ++ nl) [UStr (Ptr (buf + 3))]) ;;
      uret (inl tt)
    else
      let* pid := fork1 in
      uwhen (pid =? 0)
        (let* line := strarg buf in
         match line with Some l => run_line l | None => fun _ _ => UFault end) ;;
      let* _ := sysv (Wait 0) in
      uret (inl tt)) tt ;;
  uexit 0.

(** ** The grammar *)

(** Commands with the text of their words; a redirection is [<], [>] or
    [>>]. *)
Inductive rkind : Type := RIn | ROut | RApp.
Inductive sh : Type :=
| XExec (words : list (list Z))
| XRedir (c : sh) (k : rkind) (file : list Z)
| XPipe (l r : sh)
| XList (l r : sh)
| XBack (c : sh).

Definition rtext (k : rkind) : list Z := match k with RIn => [60] | ROut => [62] | RApp => [62; 62] end.
Definition rmode (k : rkind) : Z :=
  match k with RIn => O_RDONLY | ROut => Z.lor O_WRONLY (Z.lor O_CREATE O_TRUNC) | RApp => Z.lor O_WRONLY O_CREATE end.
Definition rfd (k : rkind) : Z := match k with RIn => 0 | _ => 1 end.

(** Printing, with parentheses where the grammar needs them. *)
Fixpoint show (level : nat) (c : sh) : list Z :=
  match c with
  | XExec ws => concat (map (fun w => w ++ [32]) ws)
  | XRedir c k f => show 3 c ++ rtext k ++ f ++ [32]
  | XPipe l r => let t := show 3 l ++ [124] ++ show 2 r in if (level <=? 2)%nat then t else [40] ++ t ++ [41]
  | XBack c => let t := show 1 c ++ [38] in if (level <=? 1)%nat then t else [40] ++ t ++ [41]
  | XList l r => let t := show 1 l ++ [59] ++ show 0 r in if (level <=? 0)%nat then t else [40] ++ t ++ [41]
  end.

Definition plain (c : Z) : Prop := is_ws c = false /\ is_sym c = false /\ c <> 0.
Definition word (w : list Z) : Prop := w <> [] /\ Forall plain w.
Fixpoint wf (c : sh) : Prop :=
  match c with
  | XExec ws => Forall word ws /\ Z.of_nat (length ws) < MAXARGS
  | XRedir c _ f => wf c /\ word f
  | XPipe l r | XList l r => wf l /\ wf r
  | XBack c => wf c
  end.

(** The command a parse result stands for. *)
Fixpoint reads (buf : list Z) (c : cmd) (x : sh) : Prop :=
  match c, x with
  | EXEC argv, XExec ws => map (str_in buf) argv = ws
  | REDIR c f mode fd, XRedir x k t => reads buf c x /\ str_in buf f = t /\ mode = rmode k /\ fd = rfd k
  | PIPE l r, XPipe x y | LIST l r, XList x y => reads buf l x /\ reads buf r y
  | BACK c, XBack x => reads buf c x
  | _, _ => False
  end.

(** ** Positions and the text that is left *)
Fixpoint dw (test : Z -> bool) (l : list Z) : list Z :=
  match l with c :: l' => if test c then dw test l' else l | [] => [] end.
Notation skip_ws := (dw is_ws).

Lemma dw_length test l : (length (dw test l) <= length l)%nat.
Proof. induction l as [|c l IH]; cbn; [lia|]. destruct (test c); cbn; lia. Qed.
Lemma dw_idem test l : dw test (dw test l) = dw test l.
Proof. induction l as [|c l IH]; cbn; [done|]. destruct (test c) eqn:E; [done|]. cbn. by rewrite E. Qed.
Lemma dw_app_all test l1 l2 : Forall (fun c => test c = true) l1 -> dw test (l1 ++ l2) = dw test l2.
Proof. induction 1 as [|c l1 Hc _ IH]; cbn; [done|]. by rewrite Hc. Qed.
Lemma dw_stop test c l : test c = false -> dw test (c :: l) = c :: l.
Proof. cbn. by intros ->. Qed.

Section Positions.
Variable line : list Z.
Notation rest s := (drop s line).
Notation esl := (es line).

Lemma chr_rest s : chr line s = hd 0 (rest s).
Proof. unfold chr. revert s. induction line as [|c l IH]; intros [|s]; cbn; try done. Qed.
Lemma rest_length s : length (rest s) = (esl - s)%nat.
Proof. apply length_drop. Qed.
Lemma rest_S s c r : rest s = c :: r -> rest (S s) = r /\ (s < esl)%nat.
Proof.
  intros E. split.
  - replace (S s) with (s + 1)%nat by lia. rewrite <- drop_drop, E. done.
  - pose proof (rest_length s) as H. rewrite E in H. cbn in H. lia.
Qed.
Lemma rest_at s w r : rest s = w ++ r -> rest (s + length w) = r.
Proof. intros E. rewrite <- drop_drop, E. by rewrite drop_app_length. Qed.

Lemma skip_spec test n s : (s <= esl)%nat -> (esl - s <= n)%nat ->
  rest (skip line test n s) = dw test (rest s) /\ (s <= skip line test n s <= esl)%nat.
Proof.
  revert s. induction n as [|n IH]; intros s Hs Hn; cbn [skip].
  - assert (E : rest s = []) by (apply drop_ge; unfold es in *; lia). rewrite E. done.
  - destruct (Nat.ltb_spec s esl) as [Hlt|Hge]; cbn [andb].
    + destruct (rest s) as [|c r] eqn:E; [pose proof (rest_length s) as H; rewrite E in H; cbn in H; lia|].
      rewrite chr_rest, E. cbn [hd dw]. destruct (test c); [|done]. destruct (rest_S s c r E) as [E' _].
      destruct (IH (S s)) as [H1 H2]; [lia|lia|]. rewrite H1, E'. split; [done|lia].
    + assert (E : rest s = []) by (apply drop_ge; unfold es in *; lia). rewrite E. done.
Qed.
Lemma skip_while_spec test s : (s <= esl)%nat ->
  rest (skip_while line test s) = dw test (rest s) /\ (s <= skip_while line test s <= esl)%nat.
Proof. intros. apply skip_spec; [done|lia]. Qed.

(** The next significant character. *)
Definition next (s : nat) : Z := hd 0 (skip_ws (rest s)).

Lemma peek_spec s toks : (s <= esl)%nat ->
  exists s', peek line s toks = (negb (next s =? 0) && bool_decide (next s ∈ toks), s') /\
    rest s' = skip_ws (rest s) /\ (s <= s' <= esl)%nat.
Proof.
  intros Hs. destruct (skip_while_spec is_ws s Hs) as [H1 H2]. exists (skip_while line is_ws s). split; [|done].
  unfold peek. rewrite chr_rest, H1. done.
Qed.

Lemma gettoken_symbol s c r : (s <= esl)%nat -> skip_ws (rest s) = c :: r ->
  c = 124 \/ c = 40 \/ c = 41 \/ c = 59 \/ c = 38 \/ c = 60 ->
  exists sp s', gettoken line s = (c, sp, s') /\ rest s' = skip_ws r /\ (s < s' <= esl)%nat.
Proof.
  intros Hs E Hc. destruct (skip_while_spec is_ws s Hs) as [H1 H2]. unfold gettoken. rewrite chr_rest, H1, E. cbn [hd].
  set (s1 := skip_while line is_ws s) in *. rewrite E in H1. destruct (rest_S s1 c r H1) as [E' Hlt].
  destruct (skip_while_spec is_ws (S s1)) as [H3 H4]; [lia|]. rewrite E' in H3.
  eexists _, (skip_while line is_ws (S s1)).
  split; [|split; [done|lia]]. destruct Hc as [->|[->|[->|[->|[->| ->]]]]]; reflexivity.
Qed.

Lemma gettoken_out s r : (s <= esl)%nat -> skip_ws (rest s) = 62 :: r -> hd 0 r <> 62 ->
  exists sp s', gettoken line s = (62, sp, s') /\ rest s' = skip_ws r /\ (s < s' <= esl)%nat.
Proof.
  intros Hs E Hc. destruct (skip_while_spec is_ws s Hs) as [H1 H2]. unfold gettoken. rewrite chr_rest, H1, E. cbn [hd].
  set (s1 := skip_while line is_ws s) in *. rewrite E in H1. destruct (rest_S s1 62 r H1) as [E' Hlt].
  destruct (skip_while_spec is_ws (S s1)) as [H3 H4]; [lia|]. rewrite E' in H3.
  eexists _, (skip_while line is_ws (S s1)). split; [|split; [done|lia]]. cbn -[skip_while chr].
  rewrite chr_rest, E'. by destruct (Z.eqb_spec (hd 0 r) 62).
Qed.
Lemma gettoken_app s r : (s <= esl)%nat -> skip_ws (rest s) = 62 :: 62 :: r ->
  exists sp s', gettoken line s = (43, sp, s') /\ rest s' = skip_ws r /\ (s < s' <= esl)%nat.
Proof.
  intros Hs E. destruct (skip_while_spec is_ws s Hs) as [H1 H2]. unfold gettoken. rewrite chr_rest, H1, E. cbn [hd].
  set (s1 := skip_while line is_ws s) in *. rewrite E in H1. destruct (rest_S s1 62 _ H1) as [E' Hlt].
  destruct (rest_S (S s1) 62 _ E') as [E'' Hlt'].
  destruct (skip_while_spec is_ws (S (S s1))) as [H3 H4]; [lia|]. rewrite E'' in H3.
  eexists _, (skip_while line is_ws (S (S s1))). split; [|split; [done|lia]]. cbn -[skip_while chr].
  rewrite chr_rest, E'. reflexivity.
Qed.
Lemma gettoken_end s : (s <= esl)%nat -> skip_ws (rest s) = [] ->
  exists sp s', gettoken line s = (0, sp, s') /\ rest s' = [] /\ (s <= s' <= esl)%nat.
Proof.
  intros Hs E. destruct (skip_while_spec is_ws s Hs) as [H1 H2]. unfold gettoken. rewrite chr_rest, H1, E. cbn [hd].
  set (s1 := skip_while line is_ws s) in *. destruct (skip_while_spec is_ws s1) as [H3 H4]; [lia|]. rewrite H1, dw_idem, E in H3.
  eexists _, (skip_while line is_ws s1). split; [reflexivity|]. split; [done|lia].
Qed.

(** A span that is the word [w], ended by something that is no word. *)
Definition tok_is (sp : span) (w : list Z) : Prop :=
  word w /\ exists r, rest sp.1 = w ++ r /\ sp.2 = (sp.1 + length w)%nat /\ ~ plain (hd 0 r).

Lemma plain_dw w r : Forall plain w -> ~ plain (hd 0 r) -> Forall (fun c => c <> 0) r ->
  dw (fun c => negb (is_ws c) && negb (is_sym c)) (w ++ r) = r.
Proof.
  intros Hw Hr Hz. induction Hw as [|c w (H1 & H2 & H3) _ IH]; cbn [app].
  - destruct r as [|d r]; [done|]. cbn in Hr |- *. apply Forall_cons in Hz as [Hd _].
    destruct (is_ws d) eqn:E1; [done|]. destruct (is_sym d) eqn:E2; [done|]. exfalso. by apply Hr.
  - cbn. by rewrite H1, H2.
Qed.

Lemma gettoken_word s w r : (s <= esl)%nat -> Forall (fun c => c <> 0) line -> skip_ws (rest s) = w ++ r -> word w -> ~ plain (hd 0 r) ->
  exists sp s', gettoken line s = (97, sp, s') /\ tok_is sp w /\ rest s' = skip_ws r /\ (s < s' <= esl)%nat.
Proof.
  intros Hs Hz E [Hne Hw] Hr. destruct (skip_while_spec is_ws s Hs) as [H1 H2]. unfold gettoken. rewrite chr_rest, H1, E.
  set (s1 := skip_while line is_ws s) in *. rewrite E in H1. destruct w as [|c w]; [done|].
  pose proof Hw as Hw'. apply Forall_cons in Hw' as [(P1 & P2 & P3) _]. cbn [app hd].
  assert (Hzr : Forall (fun c => c <> 0) r).
  { assert (H : Forall (fun c => c <> 0) (rest s1)) by (by apply Forall_drop). rewrite H1 in H. by apply Forall_app in H as [_ H]. }
  destruct (skip_while_spec (fun c => negb (is_ws c) && negb (is_sym c)) s1) as [H3 H4]; [lia|].
  rewrite H1, (plain_dw _ r Hw Hr Hzr) in H3. set (s2 := skip_while line _ s1) in *.
  destruct (skip_while_spec is_ws s2) as [H5 H6]; [lia|]. rewrite H3 in H5.
  assert (Hs2 : s2 = (s1 + length (c :: w))%nat).
  { pose proof (rest_length s1) as L1. pose proof (rest_length s2) as L2. rewrite H1, length_app in L1. rewrite H3 in L2. lia. }
  eexists (s1, s2), (skip_while line is_ws s2). cbn [length] in Hs2.
  assert (Hns : forall x, is_sym x = true -> c <> x) by (intros x Hx ->; congruence).
  destruct (Z.eqb_spec c 0); [done|].
  rewrite (proj2 (Z.eqb_neq c 124)) by (by apply Hns). rewrite (proj2 (Z.eqb_neq c 40)) by (by apply Hns).
  rewrite (proj2 (Z.eqb_neq c 41)) by (by apply Hns). rewrite (proj2 (Z.eqb_neq c 59)) by (by apply Hns).
  rewrite (proj2 (Z.eqb_neq c 38)) by (by apply Hns). rewrite (proj2 (Z.eqb_neq c 60)) by (by apply Hns).
  rewrite (proj2 (Z.eqb_neq c 62)) by (by apply Hns). cbn [orb].
  split; [reflexivity|]. split; [|split; [done|lia]]. split; [done|]. exists r. cbn [fst snd]. done.
Qed.
End Positions.

(** ** The parser inverts the printer *)
Section Roundtrip.
Variable line : list Z.
Hypothesis Hz : Forall (fun c => c <> 0) line.
Notation rest s := (drop s line).
Notation esl := (es line).

(** At [s] the text [T] comes next, up to white space. *)
Definition here (s : nat) (T : list Z) : Prop := skip_ws (rest s) = skip_ws T /\ (s <= esl)%nat.
(** After the text [R] nothing follows, or one of [toks]. *)
Definition follow (R toks : list Z) : Prop := skip_ws R = [] \/ hd 0 (skip_ws R) ∈ toks.
Notation left_at s := (length (skip_ws (rest s))).

Fixpoint denote (c : cmd) (x : sh) : Prop :=
  match c, x with
  | EXEC argv, XExec ws => Forall2 (tok_is line) argv ws
  | REDIR c f mode fd, XRedir x k t => denote c x /\ tok_is line f t /\ mode = rmode k /\ fd = rfd k
  | PIPE l r, XPipe x y | LIST l r, XList x y => denote l x /\ denote r y
  | BACK c, XBack x => denote c x
  | _, _ => False
  end.
Definition redir_is (r : span * Z * Z) (x : rkind * list Z) : Prop :=
  tok_is line r.1.1 x.2 /\ r.1.2 = rmode x.1 /\ r.2 = rfd x.1.
Definition rshow (rs : list (rkind * list Z)) : list Z := concat (map (fun x => rtext x.1 ++ x.2 ++ [32]) rs).
Definition xwrap (c : sh) (rs : list (rkind * list Z)) : sh := fold_left (fun c x => XRedir c x.1 x.2) rs c.

Lemma denote_wrap rs xs : Forall2 redir_is rs xs -> forall c x, denote c x -> denote (wrap c rs) (xwrap x xs).
Proof.
  induction 1 as [|[[f mode] fd] [k t] rs xs (H1 & H2 & H3) _ IH]; intros c x Hc; [done|]. apply IH. done.
Qed.

Lemma here_next s T : here s T -> next line s = hd 0 (skip_ws T).
Proof. intros [H _]. unfold next. by rewrite H. Qed.
Lemma here_peek s T toks : here s T -> exists s', peek line s toks = (negb (hd 0 (skip_ws T) =? 0) && bool_decide (hd 0 (skip_ws T) ∈ toks), s') /\
  here s' T /\ (s <= s')%nat.
Proof.
  intros H. destruct (peek_spec line s toks (proj2 H)) as (s' & E & H1 & H2). exists s'. rewrite E, (here_next s T H). split; [done|].
  split; [|lia]. split; [|lia]. rewrite H1, dw_idem. apply H.
Qed.
(** The next symbol is [c]. *)
Lemma here_peek_yes s T c r toks : here s T -> skip_ws T = c :: r -> c <> 0 -> c ∈ toks -> exists s', peek line s toks = (true, s') /\ here s' T /\ (s <= s')%nat.
Proof.
  intros H E Hc Ht. destruct (here_peek s T toks H) as (s' & Ep & H'). exists s'. rewrite Ep, E. cbn [hd].
  destruct (Z.eqb_spec c 0); [done|]. rewrite bool_decide_true by done. done.
Qed.
Lemma here_peek_no s T toks : here s T -> hd 0 (skip_ws T) ∉ toks -> exists s', peek line s toks = (false, s') /\ here s' T /\ (s <= s')%nat.
Proof.
  intros H Ht. destruct (here_peek s T toks H) as (s' & Ep & H'). exists s'. rewrite Ep. rewrite bool_decide_false by done. by rewrite andb_false_r.
Qed.
Lemma here_left s T : here s T -> left_at s = length (skip_ws T).
Proof. intros [H _]. by rewrite H. Qed.

Lemma take_symbol s T c r : here s T -> skip_ws T = c :: r -> c = 124 \/ c = 40 \/ c = 41 \/ c = 59 \/ c = 38 \/ c = 60 ->
  exists sp s', gettoken line s = (c, sp, s') /\ here s' r /\ (left_at s' < left_at s)%nat.
Proof.
  intros [H Hs] E Hc. rewrite E in H. destruct (gettoken_symbol line s c r Hs H Hc) as (sp & s' & E' & H1 & H2).
  exists sp, s'. split; [done|]. split; [split; [by rewrite H1, dw_idem|lia]|]. rewrite H, H1, dw_idem. cbn. pose proof (dw_length is_ws r). lia.
Qed.
Lemma take_word s w r : here s (w ++ r) -> word w -> ~ plain (hd 0 r) ->
  exists sp s', gettoken line s = (97, sp, s') /\ tok_is line sp w /\ here s' r /\ (left_at s' < left_at s)%nat.
Proof.
  intros [H Hs] Hw Hr. pose proof Hw as [Hne Hp]. destruct w as [|c w]; [done|]. apply Forall_cons in Hp as [(P1 & P2 & P3) _].
  cbn [app] in H. rewrite (dw_stop is_ws c) in H by done. change (c :: w ++ r) with ((c :: w) ++ r) in H.
  destruct (gettoken_word line s (c :: w) r Hs Hz H Hw Hr) as (sp & s' & E & H1 & H2 & H3). exists sp, s'.
  split; [done|]. split; [done|]. split; [split; [by rewrite H2, dw_idem|lia]|]. rewrite H, H2, dw_idem, length_app. cbn.
  pose proof (dw_length is_ws r). lia.
Qed.

Lemma space_not_plain : ~ plain 32.
Proof. intros (H & _). done. Qed.
Lemma word_head w r : word w -> exists c w', w ++ r = c :: w' /\ plain c.
Proof. intros [Hne Hw]. destruct w as [|c w]; [done|]. exists c, (w ++ r). split; [done|]. by apply Forall_cons in Hw as [? _]. Qed.
Lemma plain_not_in c toks : plain c -> Forall (fun t => is_sym t = true) toks -> c ∉ toks.
Proof. intros (_ & H & _) Ht Hin. rewrite Forall_forall in Ht. apply Ht in Hin. congruence. Qed.
Lemma here_space s r : here s (32 :: r) -> here s r.
Proof. intros [H Hs]. done. Qed.

(** The operator of a redirection. *)
Definition rtok (k : rkind) : Z := match k with RIn => 60 | ROut => 62 | RApp => 43 end.
Lemma take_redir s k f r : here s (rtext k ++ f ++ r) -> word f ->
  exists sp s', gettoken line s = (rtok k, sp, s') /\ here s' (f ++ r) /\ (left_at s' < left_at s)%nat.
Proof.
  intros H Hf. destruct (word_head f r Hf) as (c & w' & E & Hp). assert (Hc : c <> 62) by (intros ->; by destruct Hp as (_ & ? & _)).
  destruct H as [H Hs]. destruct k; cbn [rtext app] in H.
  - apply (take_symbol s (60 :: f ++ r)); [done|done|tauto].
  - rewrite (dw_stop is_ws 62) in H by done. destruct (gettoken_out line s (f ++ r) Hs H) as (sp & s' & E' & H1 & H2); [by rewrite E|].
    exists sp, s'. split; [done|]. split; [split; [by rewrite H1, dw_idem|lia]|]. rewrite H, H1, dw_idem. cbn. pose proof (dw_length is_ws (f ++ r)). lia.
  - rewrite (dw_stop is_ws 62) in H by done. destruct (gettoken_app line s (f ++ r) Hs H) as (sp & s' & E' & H1 & H2).
    exists sp, s'. split; [done|]. split; [split; [by rewrite H1, dw_idem|lia]|]. rewrite H, H1, dw_idem. cbn. pose proof (dw_length is_ws (f ++ r)). lia.
Qed.

Lemma parseredirs_run : forall rs n R s, here s (rshow rs ++ R) -> Forall (fun x => word x.2) rs ->
  hd 0 (skip_ws R) ∉ str_bytes "<>" -> (left_at s < n)%nat ->
  exists sps s', parseredirs line n s = POk (sps, s') /\ Forall2 redir_is sps rs /\ here s' R /\ (left_at s' <= left_at s)%nat.
Proof.
  induction rs as [|[k f] rs IH]; intros [|n] R s H Hw HR Hn; try lia; cbn [parseredirs].
  - destruct (here_peek_no s R _ H HR) as (s' & E & H' & _). rewrite E. cbn [negb]. exists [], s'.
    split; [done|]. split; [constructor|]. split; [done|]. by rewrite (here_left s _ H), (here_left s' _ H').
  - apply Forall_cons in Hw as [Hf Hw]. cbn in Hf. unfold rshow in H. cbn [map concat fst snd] in H.
    rewrite <- !app_assoc in H. cbn [app] in H.
    assert (Hyes : exists c r, skip_ws (rtext k ++ f ++ 32 :: concat (map (fun x => rtext x.1 ++ x.2 ++ [32]) rs) ++ R) = c :: r /\ c <> 0 /\ c ∈ str_bytes "<>").
    { destruct k; cbn [rtext app]; eexists _, _; (split; [apply dw_stop; done|]); (split; [done|apply (bool_decide_unpack _); exact I]). }
    destruct Hyes as (c & r & E1 & E2 & E3). destruct (here_peek_yes s _ c r _ H E1 E2 E3) as (s1 & Ep & H1 & _). rewrite Ep. cbn [negb].
    destruct (take_redir s1 k f _ H1 Hf) as (sp & s2 & Et & H2 & L2). rewrite Et.
    destruct (take_word s2 f _ H2 Hf space_not_plain) as (sp' & s3 & Et' & Hsp & H3 & L3). rewrite Et'. cbn [negb Z.eqb Pos.eqb].
    rewrite (here_left s _ H), <- (here_left s1 _ H1) in Hn |- *.
    destruct (IH n R s3 (here_space _ _ H3) Hw HR) as (sps & s' & E & HF & H' & L'); [lia|]. rewrite E. cbn [pbind].
    eexists _, s'. split; [reflexivity|]. split; [|split; [done|lia]].
    destruct k; cbn; (constructor; [split_and!; done|done]).
Qed.

Definition wshow (ws : list (list Z)) : list Z := concat (map (fun w => w ++ [32]) ws).

(** The end of the arguments. *)
Lemma parseargs_end n argv rs0 R s : here s R -> follow R (str_bytes "|)&;") ->
  exists s', parseargs line (S n) argv rs0 s = POk (argv, rs0, s') /\ here s' R /\ (left_at s' <= left_at s)%nat.
Proof.
  intros H HR. cbn [parseargs]. destruct (here_peek s R (str_bytes "|)&;") H) as (s1 & E & H1 & _). rewrite E.
  destruct HR as [HR|HR].
  - rewrite HR. cbn [hd]. rewrite Z.eqb_refl. cbn [negb andb]. destruct H1 as [H1 Hs1].
    rewrite HR in H1. destruct (gettoken_end line s1 Hs1 H1) as (sp & s2 & E2 & H2 & H3). rewrite E2. cbn [Z.eqb].
    exists s2. split; [done|]. split; [split; [by rewrite H2, HR|lia]|]. rewrite H2. cbn. lia.
  - rewrite bool_decide_true by done. destruct (Z.eqb_spec (hd 0 (skip_ws R)) 0) as [E0|E0].
    + rewrite E0 in HR. exfalso. revert HR. apply (bool_decide_unpack _). exact I.
    + cbn. exists s1. split; [done|]. split; [done|]. by rewrite (here_left s _ H), (here_left s1 _ H1).
Qed.
Lemma follow_no_redir R : follow R (str_bytes "|)&;") -> hd 0 (skip_ws R) ∉ str_bytes "<>".
Proof.
  intros [->|HR]; [by apply (bool_decide_unpack _)|]. intros H'.
  assert (Hn : Forall (fun x => x ∉ str_bytes "<>") (str_bytes "|)&;")) by (apply (bool_decide_unpack _); exact I).
  rewrite Forall_forall in Hn. by apply (Hn _ HR).
Qed.

Lemma parseargs_run : forall ws n argv rs0 rs R s, ws <> [] -> here s (wshow ws ++ rshow rs ++ R) -> Forall word ws ->
  Forall (fun x => word x.2) rs -> follow R (str_bytes "|)&;") -> Z.of_nat (length argv + length ws) < MAXARGS -> (left_at s < n)%nat ->
  exists args sps s', parseargs line n argv rs0 s = POk (argv ++ args, rs0 ++ sps, s') /\ Forall2 (tok_is line) args ws /\
    Forall2 redir_is sps rs /\ here s' R /\ (left_at s' <= left_at s)%nat.
Proof.
  induction ws as [|w ws IH]; intros [|n] argv rs0 rs R s Hne H Hw Hrs HR Hlen Hn; try done; try lia. clear Hne. cbn [parseargs].
  apply Forall_cons in Hw as [Hw Hws]. unfold wshow in H. cbn [map concat] in H. rewrite <- !app_assoc in H. cbn [app] in H.
  set (T := concat (map (fun w => w ++ [32]) ws) ++ rshow rs ++ R) in *.
  destruct (word_head w (32 :: T) Hw) as (c & w' & Ec & Hc).
  destruct (here_peek_no s _ (str_bytes "|)&;") H) as (s1 & Ep & H1 & _).
  { rewrite Ec. rewrite dw_stop by apply Hc. cbn [hd]. apply plain_not_in; [done|]. apply (bool_decide_unpack _). exact I. }
  rewrite Ep. destruct (take_word s1 w _ H1 Hw space_not_plain) as (sp & s2 & Et & Hsp & H2 & L2). rewrite Et. cbn [negb Z.eqb Pos.eqb].
  rewrite (here_left s _ H), <- (here_left s1 _ H1) in Hn |- *. apply here_space in H2. cbn [length] in Hlen.
  rewrite length_app. cbn [length]. destruct (Z.geb_spec (Z.of_nat (length argv + 1)) MAXARGS); [lia|].
  destruct (decide (ws = [])) as [->|Hne].
  - destruct (parseredirs_run rs n R s2 H2 Hrs (follow_no_redir R HR)) as (sps & s3 & E3 & HF & H3 & L3); [lia|]. rewrite E3. cbn [pbind].
    destruct n as [|n]; [lia|]. destruct (parseargs_end n (argv ++ [sp]) (rs0 ++ sps) R s3 H3 HR) as (s' & E & H' & L'). rewrite E.
    exists [sp], sps, s'. split; [done|]. split; [by constructor|]. split; [done|]. split; [done|lia].
  - destruct ws as [|v ws]; [done|]. apply Forall_cons in Hws as [Hv Hws]. clear Hne.
    destruct (word_head v (32 :: concat (map (fun w => w ++ [32]) ws) ++ rshow rs ++ R) Hv) as (c2 & w2 & Ec2 & Hc2).
    assert (ET : T = c2 :: w2) by (subst T; cbn [map concat]; rewrite <- !app_assoc; cbn [app]; done).
    destruct (parseredirs_run [] n T s2 H2 ltac:(constructor)) as (sps & s3 & E3 & HF & H3 & L3).
    { rewrite ET, dw_stop by apply Hc2. cbn [hd]. apply plain_not_in; [done|]. apply (bool_decide_unpack _). exact I. }
    { lia. }
    rewrite E3. cbn [pbind]. apply Forall2_nil_inv_r in HF as ->. rewrite app_nil_r.
    destruct (IH n (argv ++ [sp]) rs0 rs R s3) as (args & sps' & s' & E & HA & HB & H' & L'); [done|exact H3|by constructor|done|done|rewrite length_app; cbn in *; lia|lia|].
    exists (sp :: args), sps', s'. rewrite E, <- app_assoc. split; [done|]. split; [by constructor|]. split; [done|]. split; [done|lia].
Qed.

Lemma peek_char s c r toks : here s (c :: r) -> is_ws c = false -> c <> 0 -> c ∈ toks ->
  exists s', peek line s toks = (true, s') /\ here s' (c :: r) /\ (s <= s')%nat.
Proof. intros H Hc. apply (here_peek_yes s (c :: r) c r toks H). by apply dw_stop. Qed.
Lemma take_char s c r : here s (c :: r) -> is_ws c = false -> c = 124 \/ c = 40 \/ c = 41 \/ c = 59 \/ c = 38 \/ c = 60 ->
  exists sp s', gettoken line s = (c, sp, s') /\ here s' r /\ (left_at s' < left_at s)%nat.
Proof. intros H Hc. apply (take_symbol s (c :: r) c r H). by apply dw_stop. Qed.

Definition parsed (p : pres (cmd * nat)) (s : nat) (x : sh) (R : list Z) : Prop :=
  exists c s', p = POk (c, s') /\ denote c x /\ here s' R /\ (left_at s' <= left_at s)%nat.
Definition P_exec (c : sh) : Prop := forall rs n R s, wf c -> Forall (fun x => word x.2) rs ->
  here s (show 3 c ++ rshow rs ++ R) -> follow R (str_bytes "|)&;") -> (4 * left_at s + 2 <= n)%nat ->
  parsed (parseexec line n s) s (xwrap c rs) R.
Definition P_pipe (c : sh) : Prop := forall n R s, wf c -> here s (show 2 c ++ R) -> follow R (str_bytes ")&;") ->
  (4 * left_at s + 3 <= n)%nat -> parsed (parsepipe line n s) s c R.
Definition P_back (c : sh) : Prop := forall j n R s, wf c -> here s (show 1 c ++ replicate j 38 ++ R) -> follow R (str_bytes ");") ->
  (4 * left_at s + 3 <= n)%nat ->
  exists c0 s0, parsepipe line n s = POk (c0, s0) /\ parsed (parseback line n c0 s0) s (Nat.iter j XBack c) R.
Definition P_line (c : sh) : Prop := forall n R s, wf c -> here s (show 0 c ++ R) -> follow R (str_bytes ")") ->
  (4 * left_at s + 4 <= n)%nat -> parsed (parseline line n s) s c R.

Lemma follow_sub R t1 (t2 : list Z) : follow R t1 -> (forall x, x ∈ t1 -> x ∈ t2) -> follow R t2.
Proof. intros [H|H] Hs; [by left|right; by apply Hs]. Qed.
Lemma follow_not R t1 (t2 : list Z) : follow R t1 -> Forall (fun x => x ∉ t2) t1 -> 0 ∉ t2 -> hd 0 (skip_ws R) ∉ t2.
Proof. intros [->|H] Hf H0; [done|]. rewrite Forall_forall in Hf. by apply Hf. Qed.
Lemma follow_head c R (t : list Z) : is_ws c = false -> c ∈ t -> follow (c :: R) t.
Proof. intros Hc Ht. right. by rewrite dw_stop. Qed.

Lemma exec_block c : P_line c -> (forall r, show 3 c ++ r = 40 :: show 0 c ++ 41 :: r) -> P_exec c.
Proof.
  intros HL Hsh rs n R s Hwf Hrs H HR Hn. rewrite Hsh in H. destruct n as [|[|n]]; [lia|lia|]. cbn [parseexec parseblock].
  destruct (peek_char s 40 _ (str_bytes "(") H) as (s1 & E1 & H1 & _); [done|done|by left|]. rewrite E1.
  destruct (peek_char s1 40 _ (str_bytes "(") H1) as (s2 & E2 & H2 & _); [done|done|by left|]. rewrite E2. cbn [negb].
  destruct (take_char s2 40 _ H2) as (sp & s3 & E3 & H3 & L3); [done|tauto|]. rewrite E3.
  rewrite (here_left s _ H), <- (here_left s2 _ H2) in Hn.
  destruct (HL n (41 :: rshow rs ++ R) s3 Hwf H3) as (c1 & s4 & E4 & D4 & H4 & L4); [by apply follow_head; [|left]|lia|]. rewrite E4. cbn [pbind].
  destruct (peek_char s4 41 _ (str_bytes ")") H4) as (s5 & E5 & H5 & _); [done|done|by left|]. rewrite E5. cbn [negb].
  destruct (take_char s5 41 _ H5) as (sp2 & s6 & E6 & H6 & L6); [done|tauto|]. rewrite E6.
  rewrite (here_left s4 _ H4), <- (here_left s5 _ H5) in L4.
  destruct (parseredirs_run rs n R s6 H6 Hrs (follow_no_redir R HR)) as (sps & s7 & E7 & D7 & H7 & L7); [lia|]. rewrite E7. cbn [pbind].
  exists (wrap c1 sps), s7. split; [done|]. split; [by apply denote_wrap|]. split; [done|].
  rewrite (here_left s _ H), <- (here_left s2 _ H2). lia.
Qed.

Lemma rshow_head rs R : follow R (str_bytes "|)&;") -> hd 0 (skip_ws (rshow rs ++ R)) ∉ str_bytes "(".
Proof.
  intros HR. destruct rs as [|[k f] rs].
  - apply (follow_not R _ _ HR); apply (bool_decide_unpack _); exact I.
  - destruct k; cbn [rshow map concat rtext app fst snd]; rewrite dw_stop by done; cbn [hd]; apply (bool_decide_unpack _); exact I.
Qed.

Lemma exec_leaf ws : P_exec (XExec ws).
Proof.
  intros rs n R s [Hws Hlen] Hrs H HR Hn. change (show 3 (XExec ws)) with (wshow ws) in H. destruct n as [|n]; [lia|]. cbn [parseexec].
  assert (Hnp : hd 0 (skip_ws (wshow ws ++ rshow rs ++ R)) ∉ str_bytes "(").
  { destruct ws as [|w ws]; [by apply rshow_head|]. apply Forall_cons in Hws as [Hw _].
    unfold wshow. cbn [map concat]. rewrite <- !app_assoc. destruct (word_head w ([32] ++ concat (map (fun w => w ++ [32]) ws) ++ rshow rs ++ R) Hw) as (c & w' & Ec & Hc).
    rewrite Ec, dw_stop by apply Hc. cbn [hd]. apply plain_not_in; [done|]. apply (bool_decide_unpack _). exact I. }
  destruct (here_peek_no s _ (str_bytes "(") H Hnp) as (s1 & E1 & H1 & _). rewrite E1.
  rewrite (here_left s _ H), <- (here_left s1 _ H1) in Hn. unfold parsed. rewrite (here_left s _ H), <- (here_left s1 _ H1).
  destruct (decide (ws = [])) as [->|Hne].
  - destruct (parseredirs_run rs n R s1 H1 Hrs (follow_no_redir R HR)) as (sps & s2 & E2 & D2 & H2 & L2); [lia|]. rewrite E2. cbn [pbind].
    destruct n as [|n]; [lia|]. destruct (parseargs_end n [] sps R s2 H2 HR) as (s' & E & H' & L'). rewrite E. cbn [pbind].
    exists (wrap (EXEC []) sps), s'. split; [done|]. split; [apply denote_wrap; [done|constructor]|]. split; [done|lia].
  - assert (Hnr : hd 0 (skip_ws (wshow ws ++ rshow rs ++ R)) ∉ str_bytes "<>").
    { destruct ws as [|w ws]; [done|]. apply Forall_cons in Hws as [Hw _].
      unfold wshow. cbn [map concat]. rewrite <- !app_assoc. destruct (word_head w ([32] ++ concat (map (fun w => w ++ [32]) ws) ++ rshow rs ++ R) Hw) as (c & w' & Ec & Hc).
      rewrite Ec, dw_stop by apply Hc. cbn [hd]. apply plain_not_in; [done|]. apply (bool_decide_unpack _). exact I. }
    destruct (parseredirs_run [] n _ s1 H1 ltac:(constructor) Hnr) as (sps & s2 & E2 & D2 & H2 & L2); [lia|]. rewrite E2. cbn [pbind].
    apply Forall2_nil_inv_r in D2 as ->.
    destruct (parseargs_run ws n [] [] rs R s2 Hne H2 Hws Hrs HR Hlen) as (args & sps & s' & E & DA & DB & H' & L'); [lia|].
    rewrite E. cbn [pbind]. exists (wrap (EXEC args) sps), s'. split; [done|]. split; [by apply denote_wrap|]. split; [done|lia].
Qed.

Lemma exec_redir c k f : P_exec c -> P_exec (XRedir c k f).
Proof.
  intros HP rs n R s [Hwf Hf] Hrs H HR Hn. apply (HP ((k, f) :: rs) n R s); try done; [by constructor|].
  cbn [show] in H. unfold rshow in *. cbn [map concat fst snd]. by rewrite <- !app_assoc in H |- *.
Qed.

Lemma pipe_exec c : P_exec c -> show 2 c = show 3 c -> P_pipe c.
Proof.
  intros HE Hsh n R s Hwf H HR Hn. rewrite Hsh in H. destruct n as [|n]; [lia|]. cbn [parsepipe].
  destruct (HE [] n R s Hwf ltac:(constructor) H) as (c1 & s1 & E1 & D1 & H1 & L1); [|lia|].
  { apply (follow_sub _ _ _ HR). intros x Hx. by right. }
  rewrite E1. cbn [pbind]. destruct (here_peek_no s1 R (str_bytes "|") H1) as (s2 & E2 & H2 & _).
  { apply (follow_not R _ _ HR); apply (bool_decide_unpack _); exact I. }
  rewrite E2. exists c1, s2. split; [done|]. split; [done|]. split; [done|]. by rewrite (here_left s2 _ H2), <- (here_left s1 _ H1).
Qed.
Lemma pipe_pipe l r : P_exec l -> P_pipe r -> P_pipe (XPipe l r).
Proof.
  intros HE HP n R s [Hl Hr] H HR Hn. cbn [show Nat.leb] in H. rewrite <- !app_assoc in H. cbn [app] in H. destruct n as [|n]; [lia|]. cbn [parsepipe].
  destruct (HE [] n (124 :: show 2 r ++ R) s Hl ltac:(constructor) H) as (c1 & s1 & E1 & D1 & H1 & L1); [by apply follow_head; [|left]|lia|].
  rewrite E1. cbn [pbind]. destruct (peek_char s1 124 _ (str_bytes "|") H1) as (s2 & E2 & H2 & _); [done|done|by left|]. rewrite E2.
  destruct (take_char s2 124 _ H2) as (sp & s3 & E3 & H3 & L3); [done|tauto|]. rewrite E3.
  rewrite (here_left s1 _ H1), <- (here_left s2 _ H2) in L1.
  destruct (HP n R s3 Hr H3 HR) as (c4 & s4 & E4 & D4 & H4 & L4); [lia|]. rewrite E4. cbn [pbind].
  exists (PIPE c1 c4), s4. split; [done|]. split; [done|]. split; [done|lia].
Qed.

Lemma parseback_run R : follow R (str_bytes ");") -> forall j n c x s, here s (replicate j 38 ++ R) -> denote c x -> (left_at s < n)%nat ->
  parsed (parseback line n c s) s (Nat.iter j XBack x) R.
Proof.
  intros HR. induction j as [|j IH]; intros [|n] c x s H Hc Hn; try lia; cbn [parseback].
  - cbn [replicate app] in H. destruct (here_peek_no s R (str_bytes "&") H) as (s1 & E1 & H1 & _).
    { apply (follow_not R _ _ HR); apply (bool_decide_unpack _); exact I. }
    rewrite E1. cbn [negb]. exists c, s1. split; [done|]. split; [done|]. split; [done|]. by rewrite (here_left s1 _ H1), <- (here_left s _ H).
  - cbn [replicate app] in H. destruct (peek_char s 38 _ (str_bytes "&") H) as (s1 & E1 & H1 & _); [done|done|by left|]. rewrite E1. cbn [negb].
    destruct (take_char s1 38 _ H1) as (sp & s2 & E2 & H2 & L2); [done|tauto|]. rewrite E2.
    rewrite (here_left s _ H), <- (here_left s1 _ H1) in Hn.
    destruct (IH n (BACK c) (XBack x) s2 H2 Hc) as (c3 & s3 & E3 & D3 & H3 & L3); [lia|]. exists c3, s3. rewrite E3.
    rewrite Nat.iter_succ_r. split; [done|]. split; [done|]. split; [done|]. rewrite (here_left s _ H), <- (here_left s1 _ H1). lia.
Qed.
Lemma back_pipe c : P_pipe c -> show 1 c = show 2 c -> P_back c.
Proof.
  intros HP Hsh j n R s Hwf H HR Hn. rewrite Hsh in H. destruct (HP n (replicate j 38 ++ R) s Hwf H) as (c1 & s1 & E1 & D1 & H1 & L1); [|lia|].
  { destruct j as [|j]; [|apply follow_head; [done|by right; left]]. apply (follow_sub _ _ _ HR). intros x. intros [->|[->|[]%elem_of_nil]%elem_of_cons]%elem_of_cons; [by left|by right; right; left]. }
  exists c1, s1. split; [done|]. destruct (parseback_run R HR j n c1 c s1 H1 D1) as (c2 & s2 & E2 & D2 & H2 & L2); [lia|].
  exists c2, s2. split; [done|]. split; [done|]. split; [done|lia].
Qed.
Lemma back_back c : P_back c -> P_back (XBack c).
Proof.
  intros HP j n R s Hwf H HR Hn. destruct (HP (S j) n R s Hwf) as (c0 & s0 & E0 & HB); [|done|done|].
  - cbn [show Nat.leb] in H. rewrite <- app_assoc in H. exact H.
  - exists c0, s0. split; [done|]. by rewrite Nat.iter_succ_r in HB.
Qed.
Lemma line_back c : P_back c -> show 0 c = show 1 c -> P_line c.
Proof.
  intros HB Hsh n R s Hwf H HR Hn. rewrite Hsh in H. destruct n as [|n]; [lia|]. cbn [parseline].
  destruct (HB 0%nat n R s Hwf H) as (c0 & s0 & E0 & c1 & s1 & E1 & D1 & H1 & L1); [|lia|].
  { apply (follow_sub _ _ _ HR). intros x [->|[]%elem_of_nil]%elem_of_cons. by left. }
  rewrite E0. cbn [pbind]. rewrite E1. cbn [pbind]. destruct (here_peek_no s1 R (str_bytes ";") H1) as (s2 & E2 & H2 & _).
  { apply (follow_not R _ _ HR); apply (bool_decide_unpack _); exact I. }
  rewrite E2. exists c1, s2. split; [done|]. split; [done|]. split; [done|]. by rewrite (here_left s2 _ H2), <- (here_left s1 _ H1).
Qed.
Lemma line_list l r : P_back l -> P_line r -> P_line (XList l r).
Proof.
  intros HB HL n R s [Hl Hr] H HR Hn. cbn [show Nat.leb] in H. rewrite <- !app_assoc in H. cbn [app] in H. destruct n as [|n]; [lia|]. cbn [parseline].
  destruct (HB 0%nat n (59 :: show 0 r ++ R) s Hl H) as (c0 & s0 & E0 & c1 & s1 & E1 & D1 & H1 & L1); [by apply follow_head; [|right; left]|lia|].
  rewrite E0. cbn [pbind]. rewrite E1. cbn [pbind].
  destruct (peek_char s1 59 _ (str_bytes ";") H1) as (s2 & E2 & H2 & _); [done|done|by left|]. rewrite E2.
  destruct (take_char s2 59 _ H2) as (sp & s3 & E3 & H3 & L3); [done|tauto|]. rewrite E3.
  rewrite (here_left s1 _ H1), <- (here_left s2 _ H2) in L1.
  destruct (HL n R s3 Hr H3 HR) as (c4 & s4 & E4 & D4 & H4 & L4); [lia|]. rewrite E4. cbn [pbind].
  exists (LIST c1 c4), s4. split; [done|]. split; [done|]. split; [done|lia].
Qed.

Lemma all_levels c : P_exec c /\ P_pipe c /\ P_back c /\ P_line c.
Proof.
  induction c as [ws|c (E & P & B & L) k f|l (El & Pl & Bl & Ll) r (Er & Pr & Br & Lr)|l (El & Pl & Bl & Ll) r (Er & Pr & Br & Lr)|c (E & P & B & L)].
  - assert (HE := exec_leaf ws). assert (HP := pipe_exec _ HE eq_refl). assert (HB := back_pipe _ HP eq_refl).
    split_and!; try done. by apply line_back.
  - assert (HE := exec_redir c k f E). assert (HP := pipe_exec _ HE eq_refl). assert (HB := back_pipe _ HP eq_refl).
    split_and!; try done. by apply line_back.
  - assert (HP := pipe_pipe l r El Pr). assert (HB := back_pipe _ HP eq_refl). assert (HL := line_back _ HB eq_refl).
    split_and!; try done. apply exec_block; [done|]. intros x. cbn. by rewrite <- !app_assoc.
  - assert (HL := line_list l r Bl Lr). assert (HE : P_exec (XList l r)).
    { apply exec_block; [done|]. intros x. cbn. by rewrite <- !app_assoc. }
    assert (HP := pipe_exec _ HE eq_refl). split_and!; try done. by apply back_pipe.
  - assert (HB := back_back c B). assert (HL := line_back _ HB eq_refl). assert (HE : P_exec (XBack c)).
    { apply exec_block; [done|]. intros x. cbn. by rewrite <- !app_assoc. }
    split_and!; try done. by apply pipe_exec.
Qed.
End Roundtrip.

(** ** Terminated strings *)
Section Terminate.
Variable line : list Z.

Fixpoint ends (c : cmd) : list nat :=
  match c with
  | EXEC argv => map snd argv
  | REDIR c f _ _ => f.2 :: ends c
  | PIPE l r | LIST l r => ends l ++ ends r
  | BACK c => ends c
  end.

(** The line, cut only where there is no word. *)
Definition cut_line (b : list Z) : Prop :=
  forall i, (i <= es line)%nat -> b !! i = Some (chr line i) \/ (b !! i = Some 0 /\ ~ plain (chr line i)).
Definition same_zeros (b b' : list Z) : Prop := forall i, b !! i = Some 0 -> b' !! i = Some 0.

Lemma tok_end sp w : tok_is line sp w -> (sp.2 <= es line)%nat /\ ~ plain (chr line sp.2).
Proof.
  intros [[Hne _] (r & E & Es & Hp)]. split.
  - pose proof (rest_length line sp.1) as H. rewrite E, length_app in H. destruct w; [done|]. cbn in *. lia.
  - rewrite chr_rest, Es, (rest_at line sp.1 w r E). done.
Qed.
Lemma cut_insert b e : cut_line b -> (e <= es line)%nat -> ~ plain (chr line e) ->
  cut_line (<[e := 0]> b) /\ same_zeros b (<[e := 0]> b) /\ <[e := 0]> b !! e = Some 0.
Proof.
  intros Hb He Hp. assert (Hlt : (e < length b)%nat) by (apply lookup_lt_is_Some_1; destruct (Hb e He) as [->|[-> _]]; done).
  assert (Hin : forall i, <[e := 0]> b !! i = if decide (i = e) then Some 0 else b !! i).
  { intros i. case_decide as E; [subst i; by apply list_lookup_insert_eq|]. by rewrite list_lookup_insert_ne by congruence. }
  split; [|split].
  - intros i Hi. rewrite Hin. case_decide as E; [subst i; by right|by apply Hb].
  - intros i Hi. rewrite Hin. by case_decide.
  - rewrite Hin. by rewrite decide_True.
Qed.

Lemma argv_cut argv ws : Forall2 (tok_is line) argv ws -> forall b, cut_line b ->
  let b' := fold_left (fun b '(_, eq) => <[eq := 0]> b) argv b in
  cut_line b' /\ same_zeros b b' /\ forall e, e ∈ map snd argv -> b' !! e = Some 0.
Proof.
  induction 1 as [|[q e] w argv ws Ht _ IH]; intros b Hb; cbn [fold_left map].
  - split; [done|]. split; [by intros i|]. intros e []%elem_of_nil.
  - destruct (tok_end _ _ Ht) as [H1 H2]. destruct (cut_insert b e Hb H1 H2) as (C1 & C2 & C3).
    destruct (IH (<[e := 0]> b) C1) as (D1 & D2 & D3). split; [done|]. split; [intros i Hi; by apply D2, C2|].
    intros x [->|Hx]%elem_of_cons; [by apply D2|by apply D3].
Qed.

Lemma nulterminate_cut c : forall x b, denote line c x -> cut_line b ->
  let b' := nulterminate c b in cut_line b' /\ same_zeros b b' /\ forall e, e ∈ ends c -> b' !! e = Some 0.
Proof.
  induction c as [argv|c IH [q e] mode fd|l IHl r IHr|l IHl r IHr|c IH]; intros x b Hx Hb; destruct x; try done; cbn [nulterminate ends denote] in *.
  - by apply (argv_cut argv words).
  - destruct Hx as (Hx & Ht & _). destruct (IH _ b Hx Hb) as (C1 & C2 & C3). destruct (tok_end _ _ Ht) as [H1 H2].
    destruct (cut_insert _ e C1 H1 H2) as (D1 & D2 & D3). split; [done|]. split; [intros i Hi; by apply D2, C2|].
    intros y [->|Hy]%elem_of_cons; [done|by apply D2, C3].
  - destruct Hx as [Hl Hr]. destruct (IHl _ b Hl Hb) as (C1 & C2 & C3). destruct (IHr _ _ Hr C1) as (D1 & D2 & D3).
    split; [done|]. split; [intros i Hi; by apply D2, C2|]. intros y [Hy|Hy]%elem_of_app; [by apply D2, C3|by apply D3].
  - destruct Hx as [Hl Hr]. destruct (IHl _ b Hl Hb) as (C1 & C2 & C3). destruct (IHr _ _ Hr C1) as (D1 & D2 & D3).
    split; [done|]. split; [intros i Hi; by apply D2, C2|]. intros y [Hy|Hy]%elem_of_app; [by apply D2, C3|by apply D3].
  - by apply (IH x b).
Qed.

Lemma cstring_at b w : forall k, (forall i c, w !! i = Some c -> b !! (k + i)%nat = Some c /\ c <> 0) -> b !! (k + length w)%nat = Some 0 ->
  cstring (drop k b) = w.
Proof.
  induction w as [|c w IH]; intros k Hw He; cbn [length] in He.
  - rewrite Nat.add_0_r in He. by rewrite (drop_S _ _ _ He).
  - destruct (Hw 0%nat c eq_refl) as [H0 Hc]. rewrite Nat.add_0_r in H0. rewrite (drop_S _ _ _ H0). cbn [cstring].
    destruct (Z.eqb_spec c 0); [done|]. f_equal. apply IH.
    + intros i d Hi. replace (S k + i)%nat with (k + S i)%nat by lia. by apply Hw.
    + by replace (S k + length w)%nat with (k + S (length w))%nat by lia.
Qed.

Lemma str_in_tok b sp w : cut_line b -> tok_is line sp w -> b !! sp.2 = Some 0 -> str_in b sp = w.
Proof.
  intros Hb Ht He. pose proof (tok_end sp w Ht) as [Hle _]. destruct Ht as [[_ Hw] (r & E & Es & _)]. unfold str_in. apply cstring_at; [|by rewrite <- Es].
  intros i c Hi. rewrite Forall_lookup in Hw. pose proof (Hw i c Hi) as Hp. pose proof (lookup_lt_Some _ _ _ Hi). split; [|apply Hp].
  assert (Hc : chr line (sp.1 + i) = c).
  { rewrite chr_rest, <- drop_drop, E, drop_app_le by lia. rewrite (drop_S _ _ _ Hi). done. }
  destruct (Hb (sp.1 + i)%nat) as [H'|[_ H']]; [lia|by rewrite Hc in H'|by rewrite Hc in H'].
Qed.

Lemma reads_cut c : forall x b, denote line c x -> cut_line b -> (forall e, e ∈ ends c -> b !! e = Some 0) -> reads b c x.
Proof.
  induction c as [argv|c IH sp mode fd|l IHl r IHr|l IHl r IHr|c IH]; intros x b Hx Hb He; destruct x; try done; cbn [reads ends denote] in *.
  - induction Hx as [|sp w argv ws Ht _ IH]; [done|]. cbn [map]. f_equal.
    + apply str_in_tok; [done|done|]. apply He. by left.
    + apply IH. intros e He'. apply He. by right.
  - destruct Hx as (Hx & Ht & Hm & Hf). split_and!; [|by apply str_in_tok; [done|done|apply He; left]|done|done].
    apply IH; [done|done|]. intros e He'. apply He. by right.
  - destruct Hx. split; [apply IHl|apply IHr]; try done; intros e He'; apply He, elem_of_app; auto.
  - destruct Hx. split; [apply IHl|apply IHr]; try done; intros e He'; apply He, elem_of_app; auto.
  - by apply IH.
Qed.
End Terminate.

Lemma word_nonzero w : word w -> Forall (fun c => c <> 0) w.
Proof. intros [_ H]. eapply Forall_impl; [exact H|]. by intros c (_ & _ & ?). Qed.
Lemma show_nonzero c : wf c -> forall level, Forall (fun c => c <> 0) (show level c).
Proof.
  assert (Hpar : forall (b : bool) l, Forall (fun c => c <> 0) l -> Forall (fun c => c <> 0) (if b then l else [40] ++ l ++ [41])).
  { intros [] l Hl; [done|]. apply Forall_app. split; [by repeat constructor|]. apply Forall_app. split; [done|by repeat constructor]. }
  induction c as [ws|c IH k f|l IHl r IHr|l IHl r IHr|c IH]; intros Hwf level; cbn [show].
  - destruct Hwf as [Hws _]. induction Hws as [|w ws Hw _ IH]; [constructor|]. cbn. apply Forall_app. split; [|done].
    apply Forall_app. split; [by apply word_nonzero|by repeat constructor].
  - destruct Hwf as [Hc Hf]. repeat (apply Forall_app; split); [by apply IH|destruct k; by repeat constructor|by apply word_nonzero|by repeat constructor].
  - destruct Hwf. apply Hpar. repeat (apply Forall_app; split); [by apply IHl|by repeat constructor|by apply IHr].
  - destruct Hwf. apply Hpar. repeat (apply Forall_app; split); [by apply IHl|by repeat constructor|by apply IHr].
  - apply Hpar. apply Forall_app. split; [by apply IH|by repeat constructor].
Qed.

Lemma fuel_enough l : (4 * length (skip_ws (drop 0 l)) + 4 <= parse_fuel (length l))%nat.
Proof. rewrite drop_0. pose proof (dw_length is_ws l). unfold parse_fuel. lia. Qed.

(** C6: The parser of sh inverts the printer: the text of any command built
    from words, redirections, pipes, lists and background marks, parenthesised
    where the grammar requires it and followed by white space such as the
    newline, parses to exactly that command, and [nulterminate] leaves at each
    of its string pointers exactly the word that was there. *)
Theorem parse_show c ws :
  wf c -> Forall (fun x => is_ws x = true) ws ->
  let line := show 0 c ++ ws in
  exists cm buf, parsecmd line (parse_fuel (length line)) = POk (cm, buf) /\ reads buf cm c.
Proof.
  intros Hwf Hws line. assert (Hsw : skip_ws ws = []) by (rewrite <- (app_nil_r ws); by rewrite dw_app_all).
  assert (Hz : Forall (fun x => x <> 0) line).
  { apply Forall_app. split; [by apply show_nonzero|]. eapply Forall_impl; [exact Hws|]. intros x Hx ->. done. }
  destruct (all_levels line Hz c) as (_ & _ & _ & HL).
  destruct (HL (parse_fuel (length line)) ws 0%nat Hwf) as (cm & s & E & D & H & _).
  - split; [done|lia].
  - by left.
  - apply fuel_enough.
  - exists cm, (nulterminate cm (line ++ [0])). split.
    + unfold parsecmd. rewrite E. cbn [pbind]. destruct H as [H Hs]. destruct (peek_spec line s [] Hs) as (s' & Ep & H1 & H2). rewrite Ep.
      rewrite H, Hsw in H1. pose proof (rest_length line s') as Hl. rewrite H1 in Hl. cbn in Hl.
      destruct (Nat.eqb_spec s' (es line)); [done|lia].
    + destruct (nulterminate_cut line cm c (line ++ [0]) D) as (C1 & _ & C3); [|by apply (reads_cut line)].
      intros i Hi. left. unfold chr. destruct (decide (i = es line)) as [->|Hne].
      * rewrite lookup_app_r, Nat.sub_diag by done. by rewrite nth_overflow by done.
      * unfold es in *. destruct (lookup_lt_is_Some_2 line i) as [x Hx]; [lia|]. rewrite lookup_app_l, Hx by lia.
        f_equal. symmetry. by apply nth_lookup_Some.
Qed.

Definition ex_cmd : sh :=
  XList (XBack (XPipe (XRedir (XExec [str_bytes "cat"; str_bytes "f"]) RIn (str_bytes "in")) (XExec [str_bytes "wc"])))
        (XRedir (XList (XExec [str_bytes "a"]) (XExec [])) RApp (str_bytes "out")).
Lemma parse_show_witness : exists cm buf,
  parsecmd (show 0 ex_cmd ++ [10]) (parse_fuel (length (show 0 ex_cmd ++ [10]))) = POk (cm, buf) /\ reads buf cm ex_cmd.
Proof.
  apply (parse_show ex_cmd [10]).
  - repeat split; try done; repeat constructor; try done; by vm_compute.
  - by repeat constructor.
Defined.

(** ** The parser always ends *)
Section Termination.
Variable line : list Z.
Hypothesis Hz : Forall (fun c => c <> 0) line.
Notation rest s := (drop s line).
Notation esl := (es line).
Notation left_at s := (length (skip_ws (rest s))).

Definition fine {A} (p : pres (A * nat)) (s : nat) : Prop :=
  p <> PFuel /\ forall a s', p = POk (a, s') -> (s' <= esl)%nat /\ (left_at s' <= left_at s)%nat.

Lemma peek_fine s toks b s' : (s <= esl)%nat -> peek line s toks = (b, s') ->
  (s' <= esl)%nat /\ left_at s' = left_at s /\ (b = true -> (0 < left_at s)%nat).
Proof.
  intros Hs E. destruct (peek_spec line s toks Hs) as (s1 & E1 & H1 & H2). rewrite E in E1. injection E1 as -> ->.
  split; [lia|]. split; [by rewrite H1, dw_idem|]. unfold next. destruct (skip_ws (rest s)); cbn; [done|lia].
Qed.

Lemma gettoken_fine s tok sp s' : (s <= esl)%nat -> gettoken line s = (tok, sp, s') ->
  (s' <= esl)%nat /\ (left_at s' <= left_at s)%nat /\ (tok <> 0 \/ (0 < left_at s)%nat -> (left_at s' < left_at s)%nat).
Proof.
  intros Hs E. destruct (skip_ws (rest s)) as [|c r] eqn:Er.
  - destruct (gettoken_end line s Hs Er) as (sp1 & s1 & E1 & H1 & H2). rewrite E in E1. injection E1 as -> -> ->. rewrite H1. cbn. split; [lia|]. split; [lia|]. intros [?|?]; [done|lia].
  - assert (Hcase : (exists sp' s1 r', gettoken line s = (tok, sp', s1) /\ rest s1 = skip_ws r' /\ (length r' <= length r)%nat /\ (s1 <= esl)%nat)).
    { destruct (decide (c ∈ [124; 40; 41; 59; 38; 60])) as [Hin|Hin].
      - destruct (gettoken_symbol line s c r Hs Er) as (sp1 & s1 & E1 & H1 & H2).
        { rewrite !elem_of_cons, elem_of_nil in Hin. tauto. }
        exists sp1, s1, r. rewrite E in E1 |- *. injection E1 as -> -> ->. split_and!; [done|done|lia|lia].
      - destruct (decide (c = 62)) as [->|Hc].
        + destruct (decide (hd 0 r = 62)) as [Hr|Hr].
          * destruct r as [|d r]; [done|]. cbn in Hr. subst d. destruct (gettoken_app line s r Hs Er) as (sp1 & s1 & E1 & H1 & H2).
            exists sp1, s1, r. rewrite E in E1 |- *. injection E1 as -> -> ->. cbn. split_and!; [done|done|lia|lia].
          * destruct (gettoken_out line s r Hs Er Hr) as (sp1 & s1 & E1 & H1 & H2).
            exists sp1, s1, r. rewrite E in E1 |- *. injection E1 as -> -> ->. split_and!; [done|done|lia|lia].
        + destruct (skip_while_spec line is_ws s Hs) as [H1 H2]. rewrite Er in H1. revert E. unfold gettoken. rewrite chr_rest, H1. cbn [hd].
          set (s1 := skip_while line is_ws s) in *.
          assert (Hc0 : c <> 0).
          { assert (H : Forall (fun x => x <> 0) (rest s1)) by (by apply Forall_drop). rewrite H1 in H. by apply Forall_cons in H as [? _]. }
          rewrite !elem_of_cons, elem_of_nil in Hin.
          destruct (Z.eqb_spec c 0); [done|]. destruct (Z.eqb_spec c 124); [tauto|]. destruct (Z.eqb_spec c 40); [tauto|].
          destruct (Z.eqb_spec c 41); [tauto|]. destruct (Z.eqb_spec c 59); [tauto|]. destruct (Z.eqb_spec c 38); [tauto|].
          destruct (Z.eqb_spec c 60); [tauto|]. destruct (Z.eqb_spec c 62); [tauto|]. cbn [orb].
          set (test := fun c => negb (is_ws c) && negb (is_sym c)). destruct (skip_while_spec line test s1) as [H3 H4]; [lia|].
          destruct (skip_while_spec line is_ws (skip_while line test s1)) as [H5 H6]; [lia|]. rewrite H3, H1 in H5.
          intros [= <- <- <-]. eexists _, _, (dw test (c :: r)). split; [reflexivity|]. split; [exact H5|]. split; [|lia].
          assert (Htc : test c = true).
          { unfold test. assert (is_ws c = false) as ->.
            { clear -Er. revert Er. generalize (rest s). intros l. induction l as [|d l IH]; cbn; [done|]. destruct (is_ws d) eqn:Ed; [done|]. by intros [= -> ->]. }
            assert (is_sym c = false) as ->; [|done]. apply bool_decide_false. unfold symbols. cbn. rewrite !elem_of_cons, elem_of_nil. tauto. }
          cbn. rewrite Htc. apply dw_length. }
    destruct Hcase as (sp1 & s1 & r' & E1 & H1 & H2 & H3). rewrite E in E1. injection E1 as _ ->. rewrite H1, dw_idem.
    pose proof (dw_length is_ws r'). cbn. split_and!; lia.
Qed.

Lemma parseredirs_fine n : forall s, (s <= esl)%nat -> (left_at s < n)%nat -> fine (parseredirs line n s) s.
Proof.
  induction n as [|n IH]; intros s Hs Hn; [lia|]. cbn [parseredirs].
  destruct (peek line s _) as [b s1] eqn:E1. destruct (peek_fine _ _ _ _ Hs E1) as (P1 & P2 & P3).
  destruct b; cbn [negb]; [|split; [done|]; intros a s' [= _ <-]; lia].
  destruct (gettoken line s1) as [[tok sp] s2] eqn:E2. destruct (gettoken_fine _ _ _ _ P1 E2) as (G1 & G2 & G3).
  destruct (gettoken line s2) as [[t f] s3] eqn:E3. destruct (gettoken_fine _ _ _ _ G1 E3) as (F1 & F2 & F3).
  destruct (negb (t =? 97)); [split; done|]. specialize (P3 eq_refl).
  destruct (IH s3 F1) as [I1 I2]; [lia|]. destruct (parseredirs line n s3) as [[rs s4]| | |]; cbn [pbind]; try done.
  split; [done|]. intros a s' [= _ <-]. destruct (I2 rs s4 eq_refl). lia.
Qed.

Lemma parseargs_fine n : forall argv rs s, (s <= esl)%nat -> (left_at s < n)%nat -> fine (parseargs line n argv rs s) s.
Proof.
  induction n as [|n IH]; intros argv rs s Hs Hn; [lia|]. cbn [parseargs].
  destruct (peek line s _) as [b s1] eqn:E1. destruct (peek_fine _ _ _ _ Hs E1) as (P1 & P2 & _).
  destruct b; [split; [done|]; intros a s' [= _ <-]; lia|].
  destruct (gettoken line s1) as [[tok sp] s2] eqn:E2. destruct (gettoken_fine _ _ _ _ P1 E2) as (G1 & G2 & G3).
  destruct (Z.eqb_spec tok 0) as [->|Ht]; [split; [done|]; intros a s' [= _ <-]; lia|]. destruct (negb (tok =? 97)); [split; done|].
  destruct (_ >=? MAXARGS); [split; done|]. assert (L2 : (left_at s2 < left_at s1)%nat) by (apply G3; by left).
  destruct (parseredirs_fine n s2 G1) as [R1 R2]; [lia|]. destruct (parseredirs line n s2) as [[rs' s3]| | |]; cbn [pbind]; try done.
  destruct (R2 rs' s3 eq_refl) as [R3 R4]. destruct (IH (argv ++ [sp]) (rs ++ rs') s3 R3) as [I1 I2]; [lia|].
  split; [done|]. intros a s' E. destruct (I2 a s' E). lia.
Qed.

Lemma parseback_fine n : forall c s, (s <= esl)%nat -> (left_at s < n)%nat -> fine (parseback line n c s) s.
Proof.
  induction n as [|n IH]; intros c s Hs Hn; [lia|]. cbn [parseback].
  destruct (peek line s _) as [b s1] eqn:E1. destruct (peek_fine _ _ _ _ Hs E1) as (P1 & P2 & P3).
  destruct b; cbn [negb]; [|split; [done|]; intros a s' [= _ <-]; lia].
  destruct (gettoken line s1) as [[tok sp] s2] eqn:E2. destruct (gettoken_fine _ _ _ _ P1 E2) as (G1 & G2 & G3). specialize (P3 eq_refl).
  destruct (IH (BACK c) s2 G1) as [I1 I2]; [lia|]. split; [done|]. intros a s' E. destruct (I2 a s' E). lia.
Qed.

Lemma fine_weaken {A} (p : pres (A * nat)) s s0 : fine p s -> (left_at s <= left_at s0)%nat -> fine p s0.
Proof. intros [H1 H2] Hl. split; [done|]. intros a s' E. destruct (H2 a s' E). lia. Qed.
Lemma fine_bind {A B} (p : pres (A * nat)) (f : A * nat -> pres (B * nat)) s :
  fine p s -> (forall a s', (s' <= esl)%nat -> (left_at s' <= left_at s)%nat -> fine (f (a, s')) s) -> fine (pbind p f) s.
Proof.
  intros [H1 H2] Hf. destruct p as [[a s']| | |]; cbn [pbind]; try done. destruct (H2 a s' eq_refl). by apply Hf.
Qed.
Lemma fine_ok {A} (a : A) s s' : (s' <= esl)%nat -> (left_at s' <= left_at s)%nat -> fine (POk (a, s')) s.
Proof. intros. split; [done|]. by intros ? ? [= _ <-]. Qed.

(** After a separator the rest of the line is parsed. *)
Lemma fine_sep toks (k : nat -> pres (cmd * nat)) g s : (s <= esl)%nat ->
  (forall s', (s' <= esl)%nat -> (left_at s' < left_at s)%nat -> fine (k s') s) -> (forall s', (s' <= esl)%nat -> (left_at s' <= left_at s)%nat -> fine (g s') s) ->
  fine (let '(b, s) := peek line s toks in if b then let '(_, _, s) := gettoken line s in k s else g s) s.
Proof.
  intros Hs Hk Hg. destruct (peek line s toks) as [b s1] eqn:E1. destruct (peek_fine _ _ _ _ Hs E1) as (P1 & P2 & P3).
  destruct b; [|apply Hg; lia]. specialize (P3 eq_refl). destruct (gettoken line s1) as [[tok sp] s2] eqn:E2.
  destruct (gettoken_fine _ _ _ _ P1 E2) as (G1 & G2 & G3). apply Hk; lia.
Qed.

Lemma parse_fine n :
  (forall s, (s <= esl)%nat -> (4 * left_at s + 4 <= n)%nat -> fine (parseline line n s) s) /\
  (forall s, (s <= esl)%nat -> (4 * left_at s + 3 <= n)%nat -> fine (parsepipe line n s) s) /\
  (forall s, (s <= esl)%nat -> (4 * left_at s + 2 <= n)%nat -> fine (parseexec line n s) s) /\
  (forall s, (s <= esl)%nat -> (4 * left_at s + 1 <= n)%nat -> fine (parseblock line n s) s).
Proof.
  induction n as [|n (IL & IP & IE & IB)]; [split_and!; intros; lia|]. split_and!; intros s Hs Hn.
  - cbn [parseline]. apply fine_bind; [apply IP; [done|lia]|]. intros c s1 H1 L1.
    apply fine_bind; [eapply fine_weaken; [apply parseback_fine; [done|lia]|lia]|]. intros c2 s2 H2 L2.
    eapply fine_weaken; [apply (fine_sep (str_bytes ";") (fun s => let? (r, s) := parseline line n s in POk (LIST c2 r, s))); [done| |]|lia].
    + intros s3 H3 L3. apply fine_bind; [eapply fine_weaken; [apply IL; [done|lia]|lia]|]. intros. by apply fine_ok.
    + intros. by apply fine_ok.
  - cbn [parsepipe]. apply fine_bind; [apply IE; [done|lia]|]. intros c s1 H1 L1.
    eapply fine_weaken; [apply (fine_sep (str_bytes "|") (fun s => let? (r, s) := parsepipe line n s in POk (PIPE c r, s))); [done| |]|lia].
    + intros s3 H3 L3. apply fine_bind; [eapply fine_weaken; [apply IP; [done|lia]|lia]|]. intros. by apply fine_ok.
    + intros. by apply fine_ok.
  - cbn [parseexec]. destruct (peek line s (str_bytes "(")) as [b s1] eqn:E1. destruct (peek_fine _ _ _ _ Hs E1) as (P1 & P2 & P3).
    destruct b; [eapply fine_weaken; [apply IB; [done|lia]|lia]|].
    apply fine_bind; [eapply fine_weaken; [apply parseredirs_fine; [done|lia]|lia]|]. intros rs s2 H2 L2.
    destruct (parseargs_fine n [] rs s2 H2) as [A1 A2]; [lia|]. destruct (parseargs line n [] rs s2) as [[[argv rs'] s3]| | |]; cbn [pbind]; try done.
    destruct (A2 _ _ eq_refl). apply fine_ok; lia.
  - cbn [parseblock]. destruct (peek line s (str_bytes "(")) as [b s1] eqn:E1. destruct (peek_fine _ _ _ _ Hs E1) as (P1 & P2 & P3).
    destruct b; cbn [negb]; [|done]. specialize (P3 eq_refl). destruct (gettoken line s1) as [[tok sp] s2] eqn:E2.
    destruct (gettoken_fine _ _ _ _ P1 E2) as (G1 & G2 & G3).
    apply fine_bind; [eapply fine_weaken; [apply IL; [done|lia]|lia]|]. intros c s3 H3 L3.
    destruct (peek line s3 (str_bytes ")")) as [b s4] eqn:E4. destruct (peek_fine _ _ _ _ H3 E4) as (Q1 & Q2 & Q3).
    destruct b; cbn [negb]; [|done]. destruct (gettoken line s4) as [[tok2 sp2] s5] eqn:E5.
    destruct (gettoken_fine _ _ _ _ Q1 E5) as (F1 & F2 & F3).
    apply fine_bind; [eapply fine_weaken; [apply parseredirs_fine; [done|lia]|lia]|]. intros. by apply fine_ok.
Qed.
End Termination.

(** C37: The parser of sh ends on every line, well formed or not: with the
    recursion bound [parse_fuel], four steps per character, it returns a
    command or calls [panic]. *)
Theorem parsecmd_terminates line :
  Forall (fun c => c <> 0) line -> parsecmd line (parse_fuel (length line)) <> PFuel.
Proof.
  intros Hz. destruct (parse_fine line Hz (parse_fuel (length line))) as (HL & _). unfold parsecmd.
  destruct (HL 0%nat) as [H _]; [lia|apply fuel_enough|].
  destruct (parseline line (parse_fuel (length line)) 0) as [[c s]| | |]; cbn [pbind]; try done.
  destruct (peek line s []) as [b s']. by destruct (negb _).
Qed.
Lemma parsecmd_terminates_witness :
  parsecmd (str_bytes "a | ( b ; > ) x &&") (parse_fuel (length (str_bytes "a | ( b ; > ) x &&"))) <> PFuel.
Proof. apply (parsecmd_terminates (str_bytes "a | ( b ; > ) x &&")). by repeat constructor. Defined.
