(* ===== verification/Utils.v ===== *)
(** * User commands

    user/cat.c, echo.c, wc.c, ls.c, kill.c, ln.c, mkdir.c, rm.c, init.c,
    zombie.c, forktest.c and stressfs.c.
    [argv] is the list of the argument pointers, [buf] the address of the
    program's static buffer. *)

From S2P Require Import Prelude User Ulib Uprintf Grep.

Definition O_CREATE : Z := 0x200.
Definition O_RDWR : Z := 2.

(** ** cat *)
Definition CATBUF : Z := 512.
Definition cat (buf fd : Z) : U unit :=
  let* n := uloop (fun _ : unit =>
      let* r := sys (Read fd CATBUF) in
      if rv r <=? 0 then uret (inr (rv r)) else
      st_bytes buf (take (Z.to_nat (rv r)) (rdata r)) ;;
      let* data := bytesarg buf (rv r) in
      let* w := sysv (Write 1 data) in
      if negb (w =? rv r) then fprintf 2 ("cat: write error" ++ nl) [] ;; uexit 1
      else uret (inl tt)) tt in
  uwhen (n <? 0) (fprintf 2 ("cat: read error" ++ nl) [] ;; uexit 1).

Definition cat_main (buf : Z) (argv : list Z) : U unit :=
  match tail argv with
  | [] => cat buf 0 ;; uexit 0
  | files =>
      uforall files (fun f =>
        let* path := strarg f in
        let* fd := sysv (Open path 0) in
        if fd <? 0 then fprintf 2 ("cat: cannot open %s" ++ nl) [UStr (Ptr f)] ;; uexit 1
        else cat buf fd ;; let* _ := sysv (Close fd) in uret tt) ;;
      uexit 0
  end.

(** ** echo *)
Fixpoint echo_args (args : list Z) : U unit :=
  match args with
  | [] => uret tt
  | a :: rest =>
      let* n := strlen a in
      let* data := bytesarg a n in
      let* _ := sys (Write 1 data) in
      let* _ := sys (Write 1 (Some (match rest with [] => [10] | _ => [32] end))) in
      echo_args rest
  end.
Definition echo_main (argv : list Z) : U unit := echo_args (tail argv) ;; uexit 0.

(** ** wc *)
Definition WCBUF : Z := 512.
Record counts := mk_counts { wc_l : Z; wc_w : Z; wc_c : Z; wc_inword : bool }.
(** The body of the inner loop for one character. *)
Definition wc_step (s : counts) (c : Z) : counts :=
  let l := if c =? 10 then s32 (wc_l s + 1) else wc_l s in
  if bool_decide (c ∈ [32; 13; 9; 10; 11]) then mk_counts l (wc_w s) (s32 (wc_c s + 1)) false
  else if negb (wc_inword s) then mk_counts l (s32 (wc_w s + 1)) (s32 (wc_c s + 1)) true
  else mk_counts l (wc_w s) (s32 (wc_c s + 1)) (wc_inword s).
Definition wc (fd : Z) (name : cptr) : U unit :=
  let* r := uloop (fun s =>
      let* r := sys (Read fd WCBUF) in
      if rv r <=? 0 then uret (inr (rv r, s))
      else uret (inl (fold_left wc_step (take (Z.to_nat (rv r)) (rdata r)) s))) (mk_counts 0 0 0 false) in
  let '(n, s) := r in
  if n <? 0 then printf ("wc: read error" ++ nl) [] ;; uexit 1
  else printf ("%d %d %d %s" ++ nl) [UInt (wc_l s); UInt (wc_w s); UInt (wc_c s); UStr name].

Definition wc_main (argv : list Z) : U unit :=
  match tail argv with
  | [] => wc 0 (Lit []) ;; uexit 0
  | files =>
      uforall files (fun f =>
        let* path := strarg f in
        let* fd := sysv (Open path 0) in
        if fd <? 0 then printf ("wc: cannot open %s" ++ nl) [UStr (Ptr f)] ;; uexit 1
        else wc fd (Ptr f) ;; let* _ := sysv (Close fd) in uret tt) ;;
      uexit 0
  end.

(** ** kill, ln, mkdir, rm *)
Definition kill_main (argv : list Z) : U unit :=
  match tail argv with
  | [] => fprintf 2 ("usage: kill pid..." ++ nl) [] ;; uexit 1
  | args => uforall args (fun a => let* pid := atoi a in let* _ := sysv (Kill pid) in uret tt) ;; uexit 0
  end.

Definition ln_main (argv : list Z) : U unit :=
  match argv with
  | [_; old; new] =>
      let* o := strarg old in
      let* n := strarg new in
      let* r := sysv (Link o n) in
      uwhen (r <? 0) (fprintf 2 ("link %s %s: failed" ++ nl) [UStr (Ptr old); UStr (Ptr new)]) ;;
      uexit 0
  | _ => fprintf 2 ("Usage: ln old new" ++ nl) [] ;; uexit 1
  end.

(** The loop of mkdir and rm stops at the first failure. *)
Fixpoint each_file (mk : ustr -> call) (fmt : string) (files : list Z) : U unit :=
  match files with
  | [] => uret tt
  | f :: rest =>
      let* path := strarg f in
      let* r := sysv (mk path) in
      if r <? 0 then fprintf 2 fmt [UStr (Ptr f)] else each_file mk fmt rest
  end.
Definition mkdir_main (argv : list Z) : U unit :=
  match tail argv with
  | [] => fprintf 2 ("Usage: mkdir files..." ++ nl) [] ;; uexit 1
  | files => each_file Mkdir ("mkdir: %s failed to create" ++ nl) files ;; uexit 0
  end.
Definition rm_main (argv : list Z) : U unit :=
  match tail argv with
  | [] => fprintf 2 ("Usage: rm files..." ++ nl) [] ;; uexit 1
  | files => each_file Unlink ("rm: %s failed to delete" ++ nl) files ;; uexit 0
  end.

(** ** init, zombie *)
Definition CONSOLE : Z := 1.
Definition init_wait (pid : Z) : U unit :=
  uloop (fun _ : unit =>
    let* wpid := sysv (Wait 0) in
    if wpid =? pid then uret (inr tt)
    else if wpid <? 0 then printf ("init: wait returned an error" ++ nl) [] ;; uexit 1
    else uret (inl tt)) tt.
Definition init_main : U unit :=
  let console := Some (str_bytes "console") in
  let* fd := sysv (Open console O_RDWR) in
  uwhen (fd <? 0)
    (let* _ := sysv (Mknod console CONSOLE 0) in
     let* _ := sysv (Open console O_RDWR) in uret tt) ;;
  let* _ := sysv (Dup 0) in
  let* _ := sysv (Dup 0) in
  uloop (fun _ : unit =>
    printf ("EEE3535 Operating Systems: starting sh" ++ nl) [] ;;
    let* pid := sysv Fork in
    if pid <? 0 then printf ("init: fork failed" ++ nl) [] ;; uexit 1
    else if pid =? 0 then
      let* _ := sysv (Exec (Some (str_bytes "sh")) [Some (str_bytes "sh")]) in
      printf ("init: exec sh failed" ++ nl) [] ;; uexit 1
    else init_wait pid ;; uret (inl tt)) tt.

Definition zombie_main : U unit :=
  let* pid := sysv Fork in
  uwhen (pid >? 0) (let* _ := sysv (Sleep 5) in uret tt) ;;
  uexit 0.

(** ** whoami, with user/sid.h *)
Definition sid : Z := 2017134007.
Definition sname : string := "Kim won kyum".
Definition whoami_main : U unit :=
  printf ("Student ID:   %d" ++ nl) [UInt sid] ;;
  printf ("Student name: %s" ++ nl) [UStr (lit sname)] ;;
  uexit 0.

(** ** ls *)
Definition DIRSIZ : Z := 14.
Definition T_DIR : Z := 1.
Definition T_FILE : Z := 2.
Definition T_DEVICE : Z := 3.

(** The name after the last slash, padded in the static buffer [nbuf] unless
    it is long. *)
Definition fmtname (nbuf path : Z) : U Z :=
  let* n := strlen path in
  let* p := uloop (fun p =>
      if p <? path then uret (inr p) else
      let* c := ld p in
      uret (if c =? 47 then inr p else inl (p - 1))) (path + n) in
  let p := p + 1 in
  let* k := strlen p in
  if k >=? DIRSIZ then uret p else
  let* _ := memmove nbuf p k in
  let* _ := memset (nbuf + k) 32 (DIRSIZ - k) in
  uret nbuf.

(** The answer of [fstat]: dev, ino, type, nlink, size. *)
Definition st_ino (d : list Z) : Z := nth 1 d 0.
Definition st_type (d : list Z) : Z := nth 2 d 0.
Definition st_size (d : list Z) : Z := nth 4 d 0.

Definition ls_entries (nbuf buf p fd : Z) : U unit :=
  uloop (fun _ : unit =>
    let* r := sys (Read fd 16) in
    if negb (rv r =? 16) then uret (inr tt) else
    let de := rdata r in
    if le_dec (take 2 de) =? 0 then uret (inl tt) else
    st_bytes p (take 14 (drop 2 de)) ;;
    st (p + DIRSIZ) 0 ;;
    let* s := stat buf in
    (if s.1 <? 0 then printf ("ls: cannot stat %s" ++ nl) [UStr (Ptr buf)]
     else
       let* name := fmtname nbuf buf in
       printf ("%s %d %d %d" ++ nl) [UStr (Ptr name); UInt (st_type s.2); UInt (st_ino s.2); UInt (st_size s.2)]) ;;
    uret (inl tt)) tt.

(** [buf] is the 512-byte local buffer of [ls]. *)
Definition ls (nbuf buf path : Z) : U unit :=
  let* pa := strarg path in
  let* fd := sysv (Open pa 0) in
  if fd <? 0 then fprintf 2 ("ls: cannot open %s" ++ nl) [UStr (Ptr path)] else
  let* s := sys (Fstat fd) in
  if rv s <? 0 then
    fprintf 2 ("ls: cannot stat %s" ++ nl) [UStr (Ptr path)] ;;
    let* _ := sysv (Close fd) in uret tt
  else
  let ty := st_type (rdata s) in
  (if (ty =? T_DEVICE) || (ty =? T_FILE) then
     let* name := fmtname nbuf path in
     printf ("%s %d %d %l" ++ nl) [UStr (Ptr name); UInt ty; UInt (st_ino (rdata s)); UInt (st_size (rdata s))]
   else if ty =? T_DIR then
     let* n := strlen path in
     if n + 1 + DIRSIZ + 1 >? 512 then printf ("ls: path too long" ++ nl) [] else
     let* _ := strcpy buf path in
     let* k := strlen buf in
     st (buf + k) 47 ;;
     ls_entries nbuf buf (buf + k + 1) fd
   else uret tt) ;;
  let* _ := sysv (Close fd) in uret tt.

(** [dot] is the address of the literal ["."]. *)
Definition ls_main (nbuf buf dot : Z) (argv : list Z) : U unit :=
  match tail argv with
  | [] => ls nbuf buf dot ;; uexit 0
  | paths => uforall paths (ls nbuf buf) ;; uexit 0
  end.

(** ** forktest *)
Definition FORKS : Z := 1000.
Definition fprint (s : string) : U unit := let* _ := sys (Write 1 (Some (str_bytes s))) in uret tt.
Definition forktest : U unit :=
  fprint ("fork test" ++ nl) ;;
  let* n := uloop (fun n =>
      if negb (n <? FORKS) then uret (inr n) else
      let* pid := sysv Fork in
      if pid <? 0 then uret (inr n)
      else if pid =? 0 then uexit 0
      else uret (inl (n + 1))) 0 in
  if n =? FORKS then fprint ("fork claimed to work N times!" ++ nl) ;; uexit 1 else
  uloop (fun n =>
    if negb (n >? 0) then uret (inr tt) else
    let* r := sysv (Wait 0) in
    if r <? 0 then fprint ("wait stopped early" ++ nl) ;; uexit 1 else uret (inl (n - 1))) n ;;
  let* r := sysv (Wait 0) in
  if negb (r =? -1) then fprint ("wait got too many" ++ nl) ;; uexit 1 else
  fprint ("fork test OK" ++ nl).
Definition forktest_main : U unit := forktest ;; uexit 0.

(** ** stressfs *)
Definition stressfs_main : U unit :=
  printf ("stressfs starting" ++ nl) [] ;;
  let data := replicate 512 97 in
  let* i := uloop (fun i =>
      if negb (i <? 4) then uret (inr i) else
      let* pid := sysv Fork in
      uret (if pid >? 0 then inr i else inl (i + 1))) 0 in
  printf ("write %d" ++ nl) [UInt i] ;;
  let path := Some (str_bytes "stressfs" ++ [u8 (48 + i)]) in
  let* fd := sysv (Open path (Z.lor O_CREATE O_RDWR)) in
  uforall (seqZ 0 20) (fun _ => let* _ := sys (Write fd (Some data)) in uret tt) ;;
  let* _ := sysv (Close fd) in
  printf ("read" ++ nl) [] ;;
  let* fd := sysv (Open path 0) in
  uforall (seqZ 0 20) (fun _ => let* _ := sys (Read fd 512) in uret tt) ;;
  let* _ := sysv (Close fd) in
  let* _ := sysv (Wait 0) in
  uexit 0.

(** ** What wc counts *)

(** The pieces between white space. *)
Definition wc_space (c : Z) : bool := bool_decide (c ∈ [32; 13; 9; 10; 11]).
Fixpoint pieces (l : list Z) : list (list Z) :=
  match l with
  | [] => [[]]
  | c :: l' => if wc_space c then [] :: pieces l'
               else match pieces l' with p :: ps => (c :: p) :: ps | [] => [[c]] end
  end.
Definition wc_words (l : list Z) : list (list Z) := List.filter (fun p => negb (bool_decide (p = []))) (pieces l).
Definition wc_lines (l : list Z) : Z := Z.of_nat (length (List.filter (Z.eqb 10) l)).

Lemma pieces_cons l : exists p ps, pieces l = p :: ps.
Proof. induction l as [|c l (p & ps & IH)]; cbn; [eauto|]. rewrite IH. destruct (wc_space c); eauto. Qed.

Lemma wc_fold l : forall s, 0 <= wc_l s -> 0 <= wc_w s -> 0 <= wc_c s ->
  wc_l s + Z.of_nat (length l) < 2 ^ 31 -> wc_w s + Z.of_nat (length l) < 2 ^ 31 -> wc_c s + Z.of_nat (length l) < 2 ^ 31 ->
  let s' := fold_left wc_step l s in
  wc_l s' = wc_l s + wc_lines l /\ wc_c s' = wc_c s + Z.of_nat (length l) /\
  wc_w s' = wc_w s + Z.of_nat (length (wc_words l)) -
            (if wc_inword s then match pieces l with [] :: _ => 0 | _ => 1 end else 0).
Proof.
  change (2 ^ 31) with 2147483648. induction l as [|c l IH]; intros s Hl Hw Hc Bl Bw Bc; cbn [fold_left length] in *.
  - change (wc_words []) with (@nil (list Z)). unfold wc_lines. cbn. destruct (wc_inword s); lia.
  - assert (Hstep : wc_l (wc_step s c) = wc_l s + (if c =? 10 then 1 else 0) /\ wc_c (wc_step s c) = wc_c s + 1 /\
      wc_w (wc_step s c) = wc_w s + (if wc_space c then 0 else if wc_inword s then 0 else 1) /\ wc_inword (wc_step s c) = negb (wc_space c)).
    { unfold wc_step, wc_space. destruct (bool_decide _); [|destruct (wc_inword s) eqn:Ei]; cbn; rewrite ?Ei;
        (destruct (Z.eqb_spec c 10); rewrite !s32_small by lia; split_and!; (done || lia)). }
    destruct Hstep as (S1 & S2 & S3 & S4).
    assert (Hb : 0 <= (if wc_space c then 0 else if wc_inword s then 0 else 1) <= 1) by (destruct (wc_space c), (wc_inword s); lia).
    assert (Hb2 : 0 <= (if c =? 10 then 1 else 0) <= 1) by (destruct (c =? 10); lia).
    destruct (IH (wc_step s c)) as (I1 & I2 & I3); [lia..|]. rewrite I1, I2, I3, S1, S2, S3, S4. clear I1 I2 I3 S1 S2 S3 S4 IH.
    split; [|split; [lia|]].
    + unfold wc_lines. cbn [List.filter]. rewrite Z.eqb_sym. destruct (Z.eqb_spec 10 c); cbn [length]; lia.
    + unfold wc_words. destruct (pieces_cons l) as (p & ps & Ep). cbn [pieces]. rewrite Ep.
      destruct (wc_space c); cbn [negb List.filter].
      * rewrite (bool_decide_true (@nil Z = [])) by done. cbn [negb length]. destruct (wc_inword s); cbn [List.filter]; lia.
      * rewrite (bool_decide_false (c :: p = [])) by done. cbn [negb]. cbn [length].
        destruct p as [|d p]; cbn [List.filter];
          [rewrite (bool_decide_true (@nil Z = [])) by done|rewrite (bool_decide_false (d :: p = [])) by done]; cbn [negb length];
          destruct (wc_inword s); lia.
Qed.

Lemma wc_read_loop fd n m : forall k inp s f, (length inp.1 <= k)%nat -> (k < f)%nat -> exists zs,
  forall A (K : Z * counts -> umem -> uout A),
  serve inp (uobind (uiter f (fun s =>
      let* r := sys (Read fd WCBUF) in
      if rv r <=? 0 then uret (inr (rv r, s))
      else uret (inl (fold_left wc_step (take (Z.to_nat (rv r)) (rdata r)) s))) s n m) K) =
  serve ([], zs) (K (0, fold_left wc_step inp.1 s) m).
Proof.
  induction k as [|k IH]; intros inp s [|f] Hk Hf; try lia; cbn [uiter];
    pose proof (next_piece_app inp WCBUF) as Ea; destruct (next_piece_length inp WCBUF) as [_ Hpos];
    (destruct (decide (inp.1 = [])) as [He|He]; [exists (tail inp.2); intros A K; rewrite ubind_ubind_sys; cbn [uobind serve];
       unfold next_piece; rewrite He, take_nil; done|]); specialize (Hpos He ltac:(done)); set (i := next_piece inp WCBUF) in *.
  { destruct inp.1; [done|cbn in Hk; lia]. }
  destruct (IH (drop (length i) inp.1, tail inp.2) (fold_left wc_step i s) f) as [zs HK]; [cbn [fst]; rewrite Ea, length_app in Hk; lia|lia|].
  exists zs. intros A K. rewrite ubind_ubind_sys. cbn [uobind serve]. fold i. cbn [rv rdata]. destruct (Z.leb_spec (Z.of_nat (length i)) 0); [lia|].
  rewrite Nat2Z.id, take_ge by lia. rewrite ubind_uret. rewrite HK. cbn [fst]. rewrite <- fold_left_app, <- Ea. done.
Qed.

(** Wc counts right: however the input arrives in pieces, wc ends and
    prints the number of newlines, the number of words (maximal runs of
    characters between white space) and the number of characters of the whole
    input, followed by the name. *)
Lemma wc_counts fd name n m l sizes :
  (length l < n)%nat -> Z.of_nat (length l) < 2 ^ 31 -> exists zs,
  serve (l, sizes) (wc fd name n m) =
  serve ([], zs) (printf ("%d %d %d %s" ++ nl)
    [UInt (wc_lines l); UInt (Z.of_nat (length (wc_words l))); UInt (Z.of_nat (length l)); UStr name] n m).
Proof.
  intros Hn Hlen. destruct (wc_read_loop fd n m (length l) (l, sizes) (mk_counts 0 0 0 false) n) as [zs HK]; [done|done|]. exists zs.
  unfold wc, uloop. unfold ubind at 1. etrans; [apply HK|]. cbv beta iota.
  destruct (wc_fold l (mk_counts 0 0 0 false)) as (E1 & E2 & E3); [done|done|done|done|done|done|].
  cbn [wc_l wc_w wc_c wc_inword] in E1, E2, E3. rewrite Z.sub_0_r in E3. change (0 <? 0) with false. cbv iota.
  cbn [fst]. by rewrite E1, E2, E3.
Qed.
Lemma wc_counts_witness : exists zs,
  serve (str_bytes ("a bc" ++ nl), [2]%nat) (wc 0 (Lit (str_bytes "f")) 50%nat ∅) =
  serve ([], zs) (printf ("%d %d %d %s" ++ nl) [UInt 1; UInt 2; UInt 5; UStr (Lit (str_bytes "f"))] 50%nat (∅ : umem)).
Proof.
  apply (wc_counts 0 (Lit (str_bytes "f")) 50%nat ∅ (str_bytes ("a bc" ++ nl)) [2]%nat); [apply Nat.ltb_lt; by vm_compute|by vm_compute].
Defined.
