(* ===== verification/Grind.v ===== *)
(** * The stress driver

    user/grind.c: two processes that make random system calls for ever.  The
    seed and the counter are the loop's variables (each process has its own
    copies after [fork]); [buf] is the address of the static buffer, [cbuf],
    [st1] and [st2] those of locals. *)

From S2P Require Import Prelude User Ulib Uprintf Utils.

(** [do_rand]: [long] and [unsigned long] are 64 bits; [/] and [%] of C
    truncate. *)
Definition do_rand (ctx : Z) : Z * Z :=
  let x := s64 (u64 ctx mod 0x7ffffffe + 1) in
  let hi := Z.quot x 127773 in
  let lo := Z.rem x 127773 in
  let x := s64 (16807 * lo - 2836 * hi) in
  let x := if x <? 0 then s64 (x + 0x7fffffff) else x in
  let x := s64 (x - 1) in
  (u64 x, s32 x).

(** [rand] on the seed [rand_next]. *)
Definition rand (rand_next : Z) : Z * Z := do_rand rand_next.

Definition lits (s : string) : ustr := Some (str_bytes s).
Definition CREATE_RDWR : Z := Z.lor O_CREATE O_RDWR.
Definition dq : string := String (Ascii.ascii_of_nat 34) EmptyString.
Definition sys_ (c : call) : U unit := let* _ := sys c in uret tt.
(** The status [wait] stores, if it stores one. *)
Definition wait_status (r : answer) (old : Z) : Z := if rv r <? 0 then old else nth 0 (rdata r) old.
(** [printf] and [exit(1)] *)
Definition fail1 {A} (msg : string) : U A := printf ("grind: " ++ msg ++ nl) [] ;; uexit 1.
Definition fail2 {A} (msg : string) (status : Z) : U A := fprintf 2 ("grind: " ++ msg ++ nl) [] ;; uexit status.

Section Grind.
Variables (buf cbuf st1 st2 : Z).
(** What is on the stack before a local is written. *)
Variable junk : Z.

(** [close(open(path, O_CREATE|O_RDWR))] *)
Definition touch (path : string) : U unit :=
  let* fd := sysv (Open (lits path) CREATE_RDWR) in
  sys_ (Close fd).
(** A child that runs [p] and exits, waited for. *)
Definition with_child (p : U unit) (parent : Z -> U unit) : U unit :=
  let* pid := sysv Fork in
  if pid =? 0 then p ;; uexit 0
  else if pid <? 0 then fail1 "fork failed"
  else parent pid ;; sys_ (Wait 0).

(** [case 19]: a pipe written and read by the children. *)
Definition go_pipe : U unit :=
  let* r := sys Pipe in
  if rv r <? 0 then fail1 "pipe failed" else
  let fds0 := nth 0 (rdata r) 0 in
  let fds1 := nth 1 (rdata r) 0 in
  with_child
    (sys_ Fork ;; sys_ Fork ;;
     let* w := sysv (Write fds1 (lits "x")) in
     uwhen (negb (w =? 1)) (printf ("grind: pipe write failed" ++ nl) []) ;;
     let* w := sysv (Read fds0 1) in
     uwhen (negb (w =? 1)) (printf ("grind: pipe read failed" ++ nl) []))
    (fun _ => sys_ (Close fds0) ;; sys_ (Close fds1)).

(** [case 21]: a file is made, written, measured and removed. *)
Definition go_create : U unit :=
  sys_ (Unlink (lits "c")) ;;
  let* fd1 := sysv (Open (lits "c") CREATE_RDWR) in
  if fd1 <? 0 then fail1 "create c failed" else
  let* w := sysv (Write fd1 (lits "x")) in
  if negb (w =? 1) then fail1 "write c failed" else
  let* s := sys (Fstat fd1) in
  if negb (rv s =? 0) then fail1 "fstat failed" else
  if negb (st_size (rdata s) =? 1) then
    printf ("grind: fstat reports wrong size %d" ++ nl) [UInt (s32 (st_size (rdata s)))] ;; uexit 1 else
  if st_ino (rdata s) >? 200 then
    printf ("grind: fstat reports crazy i-number %d" ++ nl) [UInt (st_ino (rdata s))] ;; uexit 1 else
  sys_ (Close fd1) ;;
  sys_ (Unlink (lits "c")).

(** [case 22]: echo hi | cat *)
Definition echo_child (aa0 aa1 bb0 bb1 : Z) : U unit :=
  sys_ (Close bb0) ;; sys_ (Close bb1) ;; sys_ (Close aa0) ;; sys_ (Close 1) ;;
  let* d := sysv (Dup aa1) in
  if negb (d =? 1) then fail2 "dup failed" 1 else
  sys_ (Close aa1) ;;
  sys_ (Exec (lits "grindir/../echo") [lits "echo"; lits "hi"]) ;;
  fail2 "echo: not found" 2.
Definition cat_child (aa0 aa1 bb0 bb1 : Z) : U unit :=
  sys_ (Close aa1) ;; sys_ (Close bb0) ;; sys_ (Close 0) ;;
  let* d := sysv (Dup aa0) in
  if negb (d =? 0) then fail2 "dup failed" 4 else
  sys_ (Close aa0) ;; sys_ (Close 1) ;;
  let* d := sysv (Dup bb1) in
  if negb (d =? 1) then fail2 "dup failed" 5 else
  sys_ (Close bb1) ;;
  sys_ (Exec (lits "/cat") [lits "cat"]) ;;
  fail2 "cat: not found" 6.
Definition read1 (fd a : Z) : U unit :=
  let* r := sys (Read fd 1) in
  st_bytes a (take (Z.to_nat (rv r)) (rdata r)).
(** The output of cat and the statuses of the two. *)
Definition exec_collect (bb0 : Z) : U unit :=
  st cbuf 0 ;; st (cbuf + 1) 0 ;; st (cbuf + 2) 0 ;; st (cbuf + 3) 0 ;;
  read1 bb0 cbuf ;; read1 bb0 (cbuf + 1) ;; read1 bb0 (cbuf + 2) ;;
  sys_ (Close bb0) ;;
  let* w1 := sys (Wait st1) in
  let* w2 := sys (Wait st2) in
  let v1 := wait_status w1 junk in let v2 := wait_status w2 junk in
  let* c := strcmp (Ptr cbuf) (lit ("hi" ++ nl)) in
  if negb (v1 =? 0) || negb (v2 =? 0) || negb (c =? 0) then
    printf ("grind: exec pipeline failed %d %d " ++ dq ++ "%s" ++ dq ++ nl) [UInt v1; UInt v2; UStr (Ptr cbuf)] ;; uexit 1
  else uret tt.
Definition go_exec : U unit :=
  let* a := sys Pipe in
  if rv a <? 0 then fail2 "pipe failed" 1 else
  let* b := sys Pipe in
  if rv b <? 0 then fail2 "pipe failed" 1 else
  let aa0 := nth 0 (rdata a) 0 in let aa1 := nth 1 (rdata a) 0 in
  let bb0 := nth 0 (rdata b) 0 in let bb1 := nth 1 (rdata b) 0 in
  let* pid1 := sysv Fork in
  if pid1 =? 0 then echo_child aa0 aa1 bb0 bb1 else
  if pid1 <? 0 then fail2 "fork failed" 3 else
  let* pid2 := sysv Fork in
  if pid2 =? 0 then cat_child aa0 aa1 bb0 bb1 else
  if pid2 <? 0 then fail2 "fork failed" 7 else
  sys_ (Close aa0) ;; sys_ (Close aa1) ;; sys_ (Close bb1) ;;
  exec_collect bb0.

(** The body of the loop of [go] for one random number: the new [fd]. *)
Definition go_what (break0 fd what : Z) : U Z :=
  if what =? 1 then touch "grindir/../a" ;; uret fd else
  if what =? 2 then touch "grindir/../grindir/../b" ;; uret fd else
  if what =? 3 then sys_ (Unlink (lits "grindir/../a")) ;; uret fd else
  if what =? 4 then
    let* r := sysv (Chdir (lits "grindir")) in
    if negb (r =? 0) then fail1 "chdir grindir failed" else
    sys_ (Unlink (lits "../b")) ;; sys_ (Chdir (lits "/")) ;; uret fd else
  if what =? 5 then sys_ (Close fd) ;; sysv (Open (lits "/grindir/../a") CREATE_RDWR) else
  if what =? 6 then sys_ (Close fd) ;; sysv (Open (lits "/./grindir/./../b") CREATE_RDWR) else
  if what =? 7 then let* data := bytesarg buf 999 in sys_ (Write fd data) ;; uret fd else
  if what =? 8 then
    let* r := sys (Read fd 999) in
    st_bytes buf (take (Z.to_nat (rv r)) (rdata r)) ;; uret fd else
  if what =? 9 then
    sys_ (Mkdir (lits "grindir/../a")) ;; touch "a/../a/./a" ;; sys_ (Unlink (lits "a/a")) ;; uret fd else
  if what =? 10 then
    sys_ (Mkdir (lits "/../b")) ;; touch "grindir/../b/b" ;; sys_ (Unlink (lits "b/b")) ;; uret fd else
  if what =? 11 then
    sys_ (Unlink (lits "b")) ;; sys_ (Link (lits "../grindir/./../a") (lits "../b")) ;; uret fd else
  if what =? 12 then
    sys_ (Unlink (lits "../grindir/../a")) ;; sys_ (Link (lits ".././b") (lits "/grindir/../a")) ;; uret fd else
  if what =? 13 then with_child (uret tt) (fun _ => uret tt) ;; uret fd else
  if what =? 14 then with_child (sys_ Fork ;; sys_ Fork) (fun _ => uret tt) ;; uret fd else
  if what =? 15 then sys_ (Sbrk 6011) ;; uret fd else
  if what =? 16 then
    let* b := sysv (Sbrk 0) in
    (if u64 b >? u64 break0 then let* b := sysv (Sbrk 0) in sys_ (Sbrk (s32 (- (b - break0)))) else uret tt) ;; uret fd else
  if what =? 17 then
    with_child (touch "a") (fun pid =>
      let* r := sysv (Chdir (lits "../grindir/..")) in
      if negb (r =? 0) then fail1 "chdir failed" else sys_ (Kill pid)) ;; uret fd else
  if what =? 18 then
    with_child (let* me := sysv Getpid in sys_ (Kill me)) (fun _ => uret tt) ;; uret fd else
  if what =? 19 then go_pipe ;; uret fd else
  if what =? 20 then
    with_child
      (sys_ (Unlink (lits "a")) ;; sys_ (Mkdir (lits "a")) ;; sys_ (Chdir (lits "a")) ;; sys_ (Unlink (lits "../a")) ;;
       let* _ := sysv (Open (lits "x") CREATE_RDWR) in sys_ (Unlink (lits "x"))) (fun _ => uret tt) ;; uret fd else
  if what =? 21 then go_create ;; uret fd else
  if what =? 22 then go_exec ;; uret fd else
  uret fd.

Record gstate := mk_gstate { g_fd : Z; g_iters : Z; g_seed : Z }.
Definition go_iter (which_child break0 : Z) (s : gstate) : U gstate :=
  let iters := u64 (g_iters s + 1) in
  (if iters mod 500 =? 0 then sys_ (Write 1 (lits (if negb (which_child =? 0) then "B" else "A"))) else uret tt) ;;
  let '(seed, x) := rand (g_seed s) in
  let what := Z.rem x 23 in
  let* fd := go_what break0 (g_fd s) what in
  uret (mk_gstate fd iters seed).
Definition go (which_child rand_next : Z) : U unit :=
  let* break0 := sysv (Sbrk 0) in
  sys_ (Mkdir (lits "grindir")) ;;
  let* r := sysv (Chdir (lits "grindir")) in
  if negb (r =? 0) then fail1 "chdir grindir failed" else
  sys_ (Chdir (lits "/")) ;;
  uloop (fun s => let* s' := go_iter which_child break0 s in uret (inl s')) (mk_gstate (-1) 0 rand_next).

Definition iter (rand_next : Z) : U unit :=
  sys_ (Unlink (lits "a")) ;;
  sys_ (Unlink (lits "b")) ;;
  let* pid1 := sysv Fork in
  if pid1 <? 0 then fail1 "fork failed" else
  if pid1 =? 0 then go 0 (Z.lxor rand_next 31) ;; uexit 0 else
  let* pid2 := sysv Fork in
  if pid2 <? 0 then fail1 "fork failed" else
  if pid2 =? 0 then go 1 (Z.lxor rand_next 7177) ;; uexit 0 else
  let* w1 := sys (Wait st1) in
  uwhen (negb (wait_status w1 (-1) =? 0)) (sys_ (Kill pid1) ;; sys_ (Kill pid2)) ;;
  sys_ (Wait st2) ;;
  uexit 0.

Definition grind_main : U unit :=
  uloop (fun rand_next =>
    let* pid := sysv Fork in
    if pid =? 0 then iter rand_next ;; uexit 0 else
    uwhen (pid >? 0) (sys_ (Wait 0)) ;;
    sys_ (Sleep 20) ;;
    uret (inl (u64 (rand_next + 1)))) 1.
End Grind.

(** ** Lemmas: descriptors *)
Lemma close_opened (D : gset Z) v : fds_ok D -> (0 <= v -> v ∉ D) -> (if v <? 0 then D else {[v]} ∪ D) ∖ {[v]} = D.
Proof.
  intros Hd Hv. destruct (Z.ltb_spec v 0) as [H|H].
  - assert (v ∉ D) by (intros Hin; specialize (Hd v Hin); lia). set_solver.
  - specialize (Hv H). set_solver.
Qed.
Lemma runs_sys_ c n m D D' a m' : runs D (sys_ c n m) D' a m' -> exists r, fd_fresh D c r /\ D' = fd_effect D c r /\ m' = m.
Proof. intros (D1 & r & m1 & (Hf & -> & ->)%runs_sys & (-> & _ & ->)%runs_URet)%runs_ubind. eauto. Qed.
Lemma keeps_sys_ c : (forall D r, fd_effect D c r = D) -> keeps_fds (sys_ c).
Proof. intros Hc. apply keeps_bind; [by apply keeps_sys|auto with fds]. Qed.
Lemma keeps_strcmp p q : keeps_fds (strcmp p q).
Proof.
  apply keeps_loop. intros [p' q']. assert (Hc : forall x, keeps_fds (cderef x)) by (intros [a|[|c l]]; cbn; auto with fds). auto 6 with fds.
Qed.
#[local] Hint Resolve keeps_sys_ keeps_strcmp : fds.
Lemma keeps_touch path : keeps_fds (touch path).
Proof.
  apply keeps_scoped; [eauto|]. intros n m D D' v a m' Hd Hv (r & _ & -> & _)%runs_sys_. by apply close_opened.
Qed.
Lemma runs_fail1 {A} msg n m D D' (a : A) m' : runs D (fail1 msg n m) D' a m' -> False.
Proof. apply runs_dead. Qed.
Lemma runs_fail2 {A} msg z n m D D' (a : A) m' : runs D (fail2 msg z n m) D' a m' -> False.
Proof. apply runs_dead. Qed.
Lemma keeps_fail1 {A} msg : keeps_fds (@fail1 A msg).
Proof. by intros n m D D' a m' _ H%runs_fail1. Qed.
Lemma keeps_fail2 {A} msg z : keeps_fds (@fail2 A msg z).
Proof. by intros n m D D' a m' _ H%runs_fail2. Qed.
#[local] Hint Resolve keeps_touch keeps_fail1 keeps_fail2 : fds.
Lemma keeps_with_child p parent : (forall pid, keeps_fds (parent pid)) -> keeps_fds (with_child p parent).
Proof. intros Hp. unfold with_child. apply keeps_bind; [by apply keeps_sysv|]. intros pid. auto 6 with fds. Qed.

(** One step of a run that returns: a branch, a call, or code that keeps the
    descriptors. *)
Ltac rstep H :=
  lazymatch type of H with
  | runs _ ((if ?b then _ else _) _ _) _ _ _ => destruct b eqn:?
  | runs _ (fail1 _ _ _) _ _ _ => by apply runs_fail1 in H
  | runs _ (fail2 _ _ _ _) _ _ _ => by apply runs_fail2 in H
  | runs _ (ubind _ (fun _ => uexit _) _ _) _ _ _ => by apply runs_dead in H
  | runs _ (ubind (ubind _ _) _ _ _) _ _ _ => apply runs_assoc in H
  | runs _ (ubind (sysv _) _ _ _) _ _ _ => let H' := fresh "Hrest" in destruct (runs_ubind _ _ _ _ _ _ _ _ H) as (? & ? & ? & (? & -> & ? & -> & ->)%runs_sysv & H'); clear H; rename H' into H
  | runs _ (ubind (sys _) _ _ _) _ _ _ => let H' := fresh "Hrest" in destruct (runs_ubind _ _ _ _ _ _ _ _ H) as (? & ? & ? & (? & -> & ->)%runs_sys & H'); clear H; rename H' into H
  | runs _ (ubind (sys_ _) _ _ _) _ _ _ => let H' := fresh "Hrest" in destruct (runs_ubind _ _ _ _ _ _ _ _ H) as (? & ? & ? & (? & ? & -> & ->)%runs_sys_ & H'); clear H; rename H' into H
  | runs _ (sys_ _ _ _) _ _ _ => apply runs_sys_ in H as (? & ? & -> & ->)
  | runs _ (uret _ _ _) _ _ _ => apply runs_URet in H as (-> & -> & ->)
  end; cbn [fd_effect fd_fresh] in *; cbv zeta in *.

Lemma keeps_go_create : keeps_fds go_create.
Proof.
  unfold go_create. apply keeps_bind; [by apply keeps_sys_|]. intros _. apply keeps_scoped; [eauto|]. intros n m D D' v a m' Hd Hv H.
  repeat rstep H. pose proof (close_opened D v Hd Hv) as E. by rewrite Heqb in E.
Qed.
Lemma pipe_closed (D : gset Z) a b : a ∉ D -> b ∉ D -> ({[a; b]} ∪ D) ∖ {[a]} ∖ {[b]} = D.
Proof. set_solver. Qed.
Lemma keeps_go_pipe : keeps_fds go_pipe.
Proof.
  intros n m D D' a m' Hd H. unfold go_pipe, with_child in H. repeat rstep H. apply pipe_closed; apply H0; lia.
Qed.
Lemma keeps_read1 fd a : keeps_fds (read1 fd a).
Proof. unfold read1. auto with fds. Qed.
Lemma echo_child_ends a b c d n m D D' x m' : runs D (echo_child a b c d n m) D' x m' -> False.
Proof. intros H. unfold echo_child in H. repeat rstep H. Qed.
Lemma cat_child_ends a b c d n m D D' x m' : runs D (cat_child a b c d n m) D' x m' -> False.
Proof. intros H. unfold cat_child in H. repeat rstep H. Qed.

Lemma exec_collect_closes cbuf st1 st2 junk bb0 n m D D' x m' : fds_ok D -> 0 <= bb0 -> bb0 ∉ D ->
  runs ({[bb0]} ∪ D) (exec_collect cbuf st1 st2 junk bb0 n m) D' x m' -> D' = D.
Proof.
  intros Hd Hb Hn H. unfold exec_collect in H. assert (Hd1 : fds_ok ({[bb0]} ∪ D)) by (intros y [->%elem_of_singleton|Hy]%elem_of_union; [done|by apply Hd]).
  do 4 (apply runs_ubind in H as (? & ? & ? & ->%keeps_st & H); [|done]).
  do 3 (apply runs_ubind in H as (? & ? & ? & ->%keeps_read1 & H); [|done]).
  do 3 rstep H. assert (E : ({[bb0]} ∪ D) ∖ {[bb0]} = D) by set_solver. rewrite E in H.
  apply runs_ubind in H as (? & ? & ? & ->%keeps_strcmp & H); [|done]. rstep H; by rstep H.
Qed.
Lemma pipes_closed (D : gset Z) a0 a1 b0 b1 : a0 ∉ D -> a1 ∉ D -> b0 ∉ ({[a0; a1]} ∪ D : gset Z) -> b1 ∉ ({[a0; a1]} ∪ D : gset Z) -> b0 <> b1 ->
  ({[b0; b1]} ∪ ({[a0; a1]} ∪ D)) ∖ {[a0]} ∖ {[a1]} ∖ {[b1]} = {[b0]} ∪ D.
Proof.
  intros A0 A1 B0 B1 N. apply set_eq. intros y. rewrite !elem_of_difference, !elem_of_union, !elem_of_singleton in *. split.
  - tauto.
  - intros [->|Hy]; [tauto|]. repeat split; try tauto; intros ->; tauto.
Qed.
Lemma keeps_go_exec cbuf st1 st2 junk : keeps_fds (go_exec cbuf st1 st2 junk).
Proof.
  intros n m D D' x m' Hd H. unfold go_exec in H.
  apply runs_ubind in H as (? & a & ? & (Fa & -> & ->)%runs_sys & H). rstep H; [by rstep H|].
  apply runs_ubind in H as (? & b & ? & (Fb & -> & ->)%runs_sys & H). rstep H; [by rstep H|].
  rewrite ?Heqb, ?Heqb0 in *. destruct Fa as (A1 & A2 & A3 & A4 & A5); [lia|]. destruct Fb as (B1 & B2 & B3 & B4 & B5); [lia|].
  revert A1 A2 A3 A4 A5 B1 B2 B3 B4 B5 H. generalize (nth 0 (rdata a) 0) (nth 1 (rdata a) 0) (nth 0 (rdata b) 0) (nth 1 (rdata b) 0). intros a0 a1 b0 b1 A1 A2 A3 A4 A5 B1 B2 B3 B4 B5 H.
  apply runs_ubind in H as (? & ? & ? & (f1 & -> & _ & -> & ->)%runs_sysv & H). destruct (rv f1 =? 0); [by apply echo_child_ends in H|]. destruct (rv f1 <? 0); [by apply runs_fail2 in H|].
  apply runs_ubind in H as (? & ? & ? & (f2 & -> & _ & -> & ->)%runs_sysv & H). destruct (rv f2 =? 0); [by apply cat_child_ends in H|]. destruct (rv f2 <? 0); [by apply runs_fail2 in H|].
  do 3 (apply runs_ubind in H as (? & ? & ? & (? & _ & -> & ->)%runs_sys_ & H)). cbn [fd_effect] in H. rewrite pipes_closed in H by done.
  eapply exec_collect_closes; [exact Hd|exact B1| |exact H]. clear - B4. set_solver.
Qed.

(** The same, for code that returns [fd]. *)
Definition gives (fd : Z) (q : U Z) : Prop := forall n m D D' v m', fds_ok D -> runs D (q n m) D' v m' -> D' = D /\ v = fd.
Lemma gives_ret fd : gives fd (uret fd).
Proof. by intros n m D D' v m' _ (-> & -> & _)%runs_URet. Qed.
Lemma gives_bind {A} fd (p : U A) f : keeps_fds p -> (forall a, gives fd (f a)) -> gives fd (ubind p f).
Proof. intros Hp Hf n m D D' v m' Hd (D1 & a & m1 & H1 & H2)%runs_ubind. apply Hp in H1; [|done]. subst. by apply Hf in H2. Qed.
Lemma gives_fail1 fd msg : gives fd (fail1 msg).
Proof. by intros n m D D' v m' _ H%runs_fail1. Qed.
Lemma gives_if fd (b : bool) p q : gives fd p -> gives fd q -> gives fd (if b then p else q).
Proof. by destruct b. Qed.
#[local] Hint Resolve gives_ret gives_bind gives_fail1 gives_if keeps_with_child keeps_go_create keeps_go_pipe keeps_go_exec : fds.

(** The descriptors of the loop: those of the caller and [fd]. *)
Definition holds (B : gset Z) (fd : Z) (D : gset Z) : Prop := if fd <? 0 then D = B else fd ∉ B /\ D = {[fd]} ∪ B.
Lemma holds_ok B fd D : fds_ok B -> holds B fd D -> fds_ok D.
Proof.
  unfold holds. intros Hb H. destruct (Z.ltb_spec fd 0); [by subst|]. destruct H as [_ ->]. intros x [->%elem_of_singleton|Hx]%elem_of_union; [done|by apply Hb].
Qed.
(** [close(fd); fd = open(...)] *)
Lemma reopen_holds B fd path n m D D' v m' : fds_ok B -> holds B fd D ->
  runs D ((sys_ (Close fd) ;; sysv (Open path CREATE_RDWR)) n m) D' v m' -> holds B v D'.
Proof.
  intros Hb Hh H. rstep H. apply runs_sysv in H as (r & -> & Hf & -> & _). cbn [fd_effect fd_fresh] in *.
  assert (E : D ∖ {[fd]} = B).
  { unfold holds in Hh. destruct (Z.ltb_spec fd 0) as [Hl|Hl].
    - subst. assert (fd ∉ B) by (intros Hin; specialize (Hb fd Hin); lia). set_solver.
    - destruct Hh as [? ->]. set_solver. }
  rewrite E in *. unfold holds. destruct (Z.ltb_spec (rv r) 0); [done|]. split; [by apply Hf|done].
Qed.
Lemma go_what_holds buf cbuf st1 st2 junk break0 what B fd n m D D' v m' : fds_ok B -> holds B fd D ->
  runs D (go_what buf cbuf st1 st2 junk break0 fd what n m) D' v m' -> holds B v D'.
Proof.
  intros Hb Hh H. pose proof (holds_ok _ _ _ Hb Hh) as Hd.
  assert (Hg : forall q, gives fd q -> runs D (q n m) D' v m' -> holds B v D') by (intros q Hq [-> ->]%Hq; [done|done]).
  unfold go_what in H. repeat match type of H with
    | runs _ ((if what =? 5 then _ else _) _ _) _ _ _ => destruct (what =? 5); [by eapply reopen_holds|]
    | runs _ ((if what =? 6 then _ else _) _ _) _ _ _ => destruct (what =? 6); [by eapply reopen_holds|]
    | runs _ ((if ?b then _ else _) _ _) _ _ _ => destruct b; [revert H; apply Hg; auto 12 with fds|]
    end.
  revert H. apply Hg. auto with fds.
Qed.

(** The iterations of [go] in one process. *)
Inductive go_run (buf cbuf st1 st2 junk which_child break0 : Z) : gset Z -> gstate -> gset Z -> gstate -> Prop :=
| go_here D s : go_run buf cbuf st1 st2 junk which_child break0 D s D s
| go_next n m D s D1 s1 m1 D2 s2 : runs D (go_iter buf cbuf st1 st2 junk which_child break0 s n m) D1 s1 m1 ->
    go_run buf cbuf st1 st2 junk which_child break0 D1 s1 D2 s2 -> go_run buf cbuf st1 st2 junk which_child break0 D s D2 s2.

(** C38: grind does not run out of descriptors: after any number of
    iterations of its loop, whatever the kernel answered and whichever calls
    failed, the process holds the descriptors it started with and, when [fd]
    is not negative, that one more. *)
Theorem go_keeps_descriptors buf cbuf st1 st2 junk which_child break0 B D s D' s' :
  fds_ok B -> holds B (g_fd s) D -> go_run buf cbuf st1 st2 junk which_child break0 D s D' s' ->
  holds B (g_fd s') D' /\ (size D' <= size B + 1)%nat.
Proof.
  intros Hb Hh H. assert (Hh' : holds B (g_fd s') D').
  { induction H as [|n m D s D1 s1 m1 D2 s2 H1 _ IH]; [done|]. apply IH. unfold go_iter in H1. apply runs_ubind in H1 as (D3 & ? & m3 & H3 & H1).
    assert (D3 = D) as ->. { assert (Hk : forall b : bool, keeps_fds (if b then sys_ (Write 1 (lits (if negb (which_child =? 0) then "B" else "A"))) else uret tt)) by (intros []; auto with fds).
      eapply Hk; [|exact H3]. by eapply holds_ok. }
    destruct (rand (g_seed s)) as [seed y]. cbv zeta in H1. apply runs_ubind in H1 as (D4 & fd & m4 & H4 & (-> & -> & _)%runs_URet). cbn [g_fd]. by eapply go_what_holds. }
  split; [done|]. unfold holds in Hh'. destruct (g_fd s' <? 0); [subst; lia|]. destruct Hh' as [Hn ->]. rewrite size_union by set_solver. rewrite size_singleton. lia.
Qed.
(** The seed 21 makes [go] open a file, which the kernel answers with 3. *)
Lemma go_keeps_descriptors_witness : holds {[0; 1; 2]} 3 {[3; 0; 1; 2]}.
Proof.
  assert (H3 : ({[3]} ∪ ({[0; 1; 2]} ∖ {[-1]}) : gset Z) = {[3; 0; 1; 2]}) by (by vm_compute).
  refine (proj1 (go_keeps_descriptors 0 0 0 0 0 0 0 {[0; 1; 2]} {[0; 1; 2]} (mk_gstate (-1) 0 21) {[3; 0; 1; 2]} (mk_gstate 3 1 369753) _ _ _)).
  - intros x Hx. rewrite !elem_of_union, !elem_of_singleton in Hx. lia.
  - reflexivity.
  - apply (go_next _ _ _ _ _ _ _ 1%nat ∅ _ _ {[3; 0; 1; 2]} (mk_gstate 3 1 369753) ∅); [|apply go_here].
    match goal with |- runs _ ?o _ _ _ => let o' := eval hnf in o in change o with o' end.
    apply (runs_call _ (Close (-1)) _ (mk_answer (-1) [])); [exact I|].
    match goal with |- runs _ ?o _ _ _ => let o' := eval hnf in o in change o with o' end.
    apply (runs_call _ (Open (lits "/grindir/../a") CREATE_RDWR) _ (mk_answer 3 [])).
    + intros _. cbn. set_solver.
    + cbn [fd_effect rv Z.ltb Z.compare]. rewrite <- H3.
      match goal with |- runs _ ?o _ _ _ => let o' := eval hnf in o in change o with o' end. apply runs_ret.
Defined.

(** ** Properties of the generator *)
(** C39: [do_rand] is the minimal standard generator: for every 64-bit seed
    it returns, and stores as the next seed, 7^5 * x mod (2^31 - 1) less one,
    where x is the seed moved to 1 .. 2^31-2; the result lies in
    0 .. 0x7ffffffd, and the two products and their difference stay within 32
    bits, as its comment promises. *)
Theorem do_rand_park_miller ctx :
  let x := u64 ctx mod 0x7ffffffe + 1 in
  let r := (7 ^ 5 * x) mod (2 ^ 31 - 1) - 1 in
  do_rand ctx = (r, r) /\ 0 <= r <= 0x7ffffffd /\
  0 <= 16807 * (x mod 127773) < 2 ^ 31 /\ 0 <= 2836 * (x / 127773) < 2 ^ 31 /\
  - 2 ^ 31 < 16807 * (x mod 127773) - 2836 * (x / 127773) < 2 ^ 31.
Proof.
  intros x r. assert (Hx : 1 <= x <= 2147483646) by (unfold x; pose proof (Z.mod_pos_bound (u64 ctx) 0x7ffffffe); lia).
  unfold do_rand. fold x. assert (Hs64 : forall y, - 2 ^ 63 <= y < 2 ^ 63 -> s64 y = y).
  { intros y Hy. unfold s64, swrap. change (2 ^ 64) with 18446744073709551616. change (2 ^ (64 - 1)) with 9223372036854775808.
    change (2 ^ 63) with 9223372036854775808 in Hy. destruct (Z.ltb_spec (y mod 18446744073709551616) 9223372036854775808);
      Z.to_euclidean_division_equations; lia. }
  rewrite (Hs64 x) by lia. rewrite Z.quot_div_nonneg, Z.rem_mod_nonneg by lia.
  pose proof (Z.div_mod x 127773 ltac:(lia)) as Hdm. pose proof (Z.mod_pos_bound x 127773 ltac:(lia)) as Hlo.
  set (hi := x / 127773) in *. set (lo := x mod 127773) in *. assert (Hhi : 0 <= hi <= 16807) by lia.
  set (t := 16807 * lo - 2836 * hi). assert (Ht : - 2 ^ 31 < t < 2 ^ 31) by (unfold t; lia).
  assert (Ht0 : t <> 0).
  { unfold t. intros E. assert (Hd : (16807 | hi)).
    { apply (Z.gauss _ 2836); [exists lo; lia|reflexivity]. }
    destruct Hd as [k Hk]. assert (k = 0 \/ k = 1) as [->| ->] by lia; lia. }
  rewrite (Hs64 t) by lia.
  assert (Hr : (7 ^ 5 * x) mod (2 ^ 31 - 1) = if t <? 0 then t + 2147483647 else t).
  { change (7 ^ 5) with 16807. change (2 ^ 31 - 1) with 2147483647.
    replace (16807 * x) with (t + hi * 2147483647) by (unfold t; lia). rewrite Z.mod_add by lia.
    destruct (Z.ltb_spec t 0).
    - symmetry. apply (Z.mod_unique t 2147483647 (-1)); lia.
    - apply Z.mod_small. lia. }
  assert (Hr' : r = (if t <? 0 then t + 2147483647 else t) - 1) by (unfold r; by rewrite Hr).
  assert (Hrng : 0 <= r <= 2147483645) by (rewrite Hr'; destruct (Z.ltb_spec t 0); lia).
  split; [|split; [lia|split; [lia|split; [lia|exact Ht]]]].
  replace (if t <? 0 then s64 (t + 0x7fffffff) else t) with (if t <? 0 then t + 2147483647 else t)
    by (destruct (t <? 0); [by rewrite Hs64 by lia|done]).
  rewrite <- Hr'. rewrite (Hs64 r) by lia. rewrite u64_small, s32_small by lia. done.
Qed.

