(* ===== verification/Usertests.v ===== *)
(** * The tests of usertests

    user/usertests.c, the tests themselves; the program that runs them is in
    Testrun.  A test is a function of its name [s] that ends, or exits with a
    status.  [buf], [big] and [uninit] are the addresses of static arrays,
    [freep] and [base] those of the allocator's variables, [xst] that of a
    local [int]; arrays that a function only hands to the kernel are values.
    The tests that give the kernel a bad address to store at (copyout, rwsbrk,
    argptest, pgbug) or that depend on the permissions of pages or on the code
    itself being unmapped (textwrite, sbrkbugs) are not here: an answer of the
    kernel is data, not an address. *)

From S2P Require Import Prelude Params User Ulib Uprintf Umalloc Utils Grind.

Definition CREATE_WRONLY : Z := Z.lor O_CREATE O_WRONLY.
Definition CREATE_WRONLY_TRUNC : Z := Z.lor (Z.lor O_CREATE O_WRONLY) O_TRUNC.
Definition CREATE_RDWR_TRUNC : Z := Z.lor (Z.lor O_CREATE O_RDWR) O_TRUNC.
(** [sizeof(buf)] *)
Definition BUFSZ : Z := (MAXOPBLOCKS + 2) * BSIZE.

(** The string in a [char] array. *)
Fixpoint upto_nul (l : list Z) : list Z :=
  match l with [] => [] | c :: l' => if c =? 0 then [] else c :: upto_nul l' end.
Definition chars (l : list Z) : list Z := upto_nul (map u8 l).
Definition cname (l : list Z) : ustr := Some (chars l).

(** [if(b){ printf(fmt, args); exit(1); }], and with the test's name first. *)
Definition stop_if (b : bool) (fmt : string) (args : list uarg) : U unit :=
  uwhen b (printf fmt args ;; uexit 1).
Definition fail_if (b : bool) (s : cptr) (msg : string) : U unit := stop_if b ("%s: " ++ msg ++ nl) [UStr s].
(** [if(call ...){ printf(fmt, s); exit(1); }] *)
Definition neg (r : Z) : bool := r <? 0.
Definition nonneg (r : Z) : bool := r >=? 0.
Definition zero (r : Z) : bool := r =? 0.
Definition nonzero (r : Z) : bool := negb (r =? 0).
Definition pos (r : Z) : bool := r >? 0.
Definition bad_if (bad : Z -> bool) (s : cptr) (c : call) (fmt : string) : U unit :=
  let* r := sysv c in stop_if (bad r) fmt [UStr s].
(** [for(;;) ;] *)
Definition forever (p : U unit) : U unit := uloop (fun _ : unit => p ;; uret (inl tt)) tt.
(** Data that replaces the start of a local array. *)
Definition overlay (new old : list Z) : list Z := new ++ drop (length new) old.

Section Tests.
Variables (buf big uninit freep base xst : Z).
(** What an uninitialised local or a missing argument holds. *)
Variable junk : Z.

(** [read(fd, buf, n)] *)
Definition read_buf (fd n : Z) : U Z :=
  let* r := sys (Read fd n) in
  st_bytes buf (take (Z.to_nat (rv r)) (rdata r)) ;;
  uret (rv r).
(** [write(fd, buf, n)] *)
Definition write_buf (fd n : Z) : U Z := let* d := bytesarg buf n in sysv (Write fd d).
(** [wait(&xstatus)]: the result and [xstatus], which was [old]. *)
Definition waits (old : Z) : U (Z * Z) :=
  let* r := sys (Wait xst) in uret (rv r, wait_status r old).
(** The descriptors of [pipe(fds)]. *)
Definition pfd (i : nat) (r : answer) : Z := if rv r <? 0 then junk else nth i (rdata r) junk.
(** [sbrk] as a [char *]; its parameter is an [int]. *)
Definition usbrk (n : Z) : U Z := let* a := sbrk (s32 n) in uret (u64 a).
Definition NOMEM : Z := 0xffffffffffffffff.
Definition close_open (path : ustr) (mode : Z) : U unit := let* fd := sysv (Open path mode) in sys_ (Close fd).

(** ** Bad pointers *)
Definition copyin_test (s : cptr) : U unit :=
  uforall [0x80000000; 0xffffffffffffffff] (fun addr =>
    let* fd := sysv (Open (lits "copyin1") CREATE_WRONLY) in
    stop_if (fd <? 0) ("open(copyin1) failed" ++ nl) [] ;;
    let* d := bytesarg addr 8192 in
    let* n := sysv (Write fd d) in
    stop_if (n >=? 0) ("write(fd, %p, 8192) returned %d, not -1" ++ nl) [UInt addr; UInt n] ;;
    sys_ (Close fd) ;;
    sys_ (Unlink (lits "copyin1")) ;;
    let* n := sysv (Write 1 d) in
    stop_if (n >? 0) ("write(1, %p, 8192) returned %d, not -1 or 0" ++ nl) [UInt addr; UInt n] ;;
    let* fds := sys Pipe in
    stop_if (rv fds <? 0) ("pipe() failed" ++ nl) [] ;;
    let* n := sysv (Write (pfd 1 fds) d) in
    stop_if (n >? 0) ("write(pipe, %p, 8192) returned %d, not -1 or 0" ++ nl) [UInt addr; UInt n] ;;
    sys_ (Close (pfd 0 fds)) ;;
    sys_ (Close (pfd 1 fds))).

Definition copyinstr1 (s : cptr) : U unit :=
  uforall [0x80000000; 0xffffffffffffffff] (fun addr =>
    let* path := strarg addr in
    let* fd := sysv (Open path CREATE_WRONLY) in
    stop_if (fd >=? 0) ("open(%p) returned %d, not -1" ++ nl) [UInt addr; UInt fd]).

(** The calls with a path the kernel should refuse, in copyinstr2 and
    copyinstr3: [b] is the path as the kernel sees it, [p] as printf does. *)
Definition refused (b : ustr) (p : cptr) : U Z :=
  let* ret := sysv (Unlink b) in
  stop_if (negb (ret =? -1)) ("unlink(%s) returned %d, not -1" ++ nl) [UStr p; UInt ret] ;;
  let* fd := sysv (Open b CREATE_WRONLY) in
  stop_if (negb (fd =? -1)) ("open(%s) returned %d, not -1" ++ nl) [UStr p; UInt fd] ;;
  let* ret := sysv (Link b b) in
  stop_if (negb (ret =? -1)) ("link(%s, %s) returned %d, not -1" ++ nl) [UStr p; UStr p; UInt ret] ;;
  let* ret := sysv (Exec b [lits "xx"]) in
  stop_if (negb (ret =? -1)) ("exec(%s) returned %d, not -1" ++ nl) [UStr p; UInt fd] ;;
  uret fd.
Definition copyinstr2 (s : cptr) : U unit :=
  let b := replicate (Z.to_nat MAXPATH) 120 in
  let* fd := refused (Some b) (Lit b) in
  let* pid := sysv Fork in
  stop_if (pid <? 0) ("fork failed" ++ nl) [] ;;
  (if pid =? 0 then
     uforall (seqZ 0 PGSIZE) (fun i => st (big + i) 120) ;;
     st (big + PGSIZE) 0 ;;
     let* a := strarg big in
     let* ret := sysv (Exec (lits "echo") [a; a; a]) in
     stop_if (negb (ret =? -1)) ("exec(echo, BIG) returned %d, not -1" ++ nl) [UInt fd] ;;
     uexit 747
   else uret tt) ;;
  let* w := waits 0 in
  stop_if (negb (w.2 =? 747)) ("exec(echo, BIG) succeeded, should have failed" ++ nl) [].

Definition copyinstr3 (s : cptr) : U unit :=
  let* _ := usbrk 8192 in
  let* top := usbrk 0 in
  uwhen (negb (top mod PGSIZE =? 0)) (let* _ := usbrk (PGSIZE - top mod PGSIZE) in uret tt) ;;
  let* top := usbrk 0 in
  stop_if (negb (top mod PGSIZE =? 0)) ("oops" ++ nl) [] ;;
  let b := top - 1 in
  st b 120 ;;
  let* p := strarg b in
  let* _ := refused p (Ptr b) in
  uret tt.

Definition validatetest (s : cptr) : U unit :=
  uloop (fun p =>
    if negb (p <=? 1100 * 1024) then uret (inr tt) else
    let* path := strarg p in
    let* r := sysv (Link (lits "nosuchfile") path) in
    fail_if (negb (r =? -1)) s "link should not succeed" ;;
    uret (inl (p + PGSIZE))) 0.

Definition badarg (s : cptr) : U unit :=
  uforall (seqZ 0 50000) (fun _ =>
    let* a := strarg 0xffffffff in
    sys_ (Exec (lits "echo") [a])) ;;
  uexit 0.

(** ** Files and directories *)
Definition truncate1 (s : cptr) : U unit :=
  sys_ (Unlink (lits "truncfile")) ;;
  let* fd1 := sysv (Open (lits "truncfile") CREATE_WRONLY_TRUNC) in
  sys_ (Write fd1 (lits "abcd")) ;;
  sys_ (Close fd1) ;;
  let* fd2 := sysv (Open (lits "truncfile") O_RDONLY) in
  let* n := sysv (Read fd2 32) in
  stop_if (negb (n =? 4)) ("%s: read %d bytes, wanted 4" ++ nl) [UStr s; UInt n] ;;
  let* fd1 := sysv (Open (lits "truncfile") (Z.lor O_WRONLY O_TRUNC)) in
  let* fd3 := sysv (Open (lits "truncfile") O_RDONLY) in
  let* n := sysv (Read fd3 32) in
  uwhen (negb (n =? 0))
    (printf ("aaa fd3=%d" ++ nl) [UInt fd3] ;;
     printf ("%s: read %d bytes, wanted 0" ++ nl) [UStr s; UInt n] ;; uexit 1) ;;
  let* n := sysv (Read fd2 32) in
  uwhen (negb (n =? 0))
    (printf ("bbb fd2=%d" ++ nl) [UInt fd2] ;;
     printf ("%s: read %d bytes, wanted 0" ++ nl) [UStr s; UInt n] ;; uexit 1) ;;
  sys_ (Write fd1 (lits "abcdef")) ;;
  let* n := sysv (Read fd3 32) in
  stop_if (negb (n =? 6)) ("%s: read %d bytes, wanted 6" ++ nl) [UStr s; UInt n] ;;
  let* n := sysv (Read fd2 32) in
  stop_if (negb (n =? 2)) ("%s: read %d bytes, wanted 2" ++ nl) [UStr s; UInt n] ;;
  sys_ (Unlink (lits "truncfile")) ;;
  sys_ (Close fd1) ;; sys_ (Close fd2) ;; sys_ (Close fd3).

Definition truncate2 (s : cptr) : U unit :=
  sys_ (Unlink (lits "truncfile")) ;;
  let* fd1 := sysv (Open (lits "truncfile") CREATE_WRONLY_TRUNC) in
  sys_ (Write fd1 (lits "abcd")) ;;
  let* fd2 := sysv (Open (lits "truncfile") (Z.lor O_TRUNC O_WRONLY)) in
  let* n := sysv (Write fd1 (lits "x")) in
  stop_if (negb (n =? -1)) ("%s: write returned %d, expected -1" ++ nl) [UStr s; UInt n] ;;
  sys_ (Unlink (lits "truncfile")) ;;
  sys_ (Close fd1) ;; sys_ (Close fd2).

Definition truncate3_child (s : cptr) : U unit :=
  uforall (seqZ 0 100) (fun _ =>
    let* fd := sysv (Open (lits "truncfile") O_WRONLY) in
    fail_if (fd <? 0) s "open failed" ;;
    let* n := sysv (Write fd (lits "1234567890")) in
    stop_if (negb (n =? 10)) ("%s: write got %d, expected 10" ++ nl) [UStr s; UInt n] ;;
    sys_ (Close fd) ;;
    let* fd := sysv (Open (lits "truncfile") O_RDONLY) in
    sys_ (Read fd 32) ;;
    sys_ (Close fd)) ;;
  uexit 0.
Definition truncate3 (s : cptr) : U unit :=
  close_open (lits "truncfile") CREATE_WRONLY_TRUNC ;;
  let* pid := sysv Fork in
  fail_if (pid <? 0) s "fork failed" ;;
  (if pid =? 0 then truncate3_child s else uret tt) ;;
  uforall (seqZ 0 150) (fun _ =>
    let* fd := sysv (Open (lits "truncfile") CREATE_WRONLY_TRUNC) in
    fail_if (fd <? 0) s "open failed" ;;
    let* n := sysv (Write fd (lits "xxx")) in
    stop_if (negb (n =? 3)) ("%s: write got %d, expected 3" ++ nl) [UStr s; UInt n] ;;
    sys_ (Close fd)) ;;
  let* w := waits junk in
  sys_ (Unlink (lits "truncfile")) ;;
  uexit w.2.

Definition iputtest (s : cptr) : U unit :=
  let* r := sysv (Mkdir (lits "iputdir")) in
  fail_if (r <? 0) s "mkdir failed" ;;
  let* r := sysv (Chdir (lits "iputdir")) in
  fail_if (r <? 0) s "chdir iputdir failed" ;;
  let* r := sysv (Unlink (lits "../iputdir")) in
  fail_if (r <? 0) s "unlink ../iputdir failed" ;;
  let* r := sysv (Chdir (lits "/")) in
  fail_if (r <? 0) s "chdir / failed".

Definition exitiputtest (s : cptr) : U unit :=
  let* pid := sysv Fork in
  fail_if (pid <? 0) s "fork failed" ;;
  (if pid =? 0 then
     let* r := sysv (Mkdir (lits "iputdir")) in
     fail_if (r <? 0) s "mkdir failed" ;;
     let* r := sysv (Chdir (lits "iputdir")) in
     fail_if (r <? 0) s "child chdir failed" ;;
     let* r := sysv (Unlink (lits "../iputdir")) in
     fail_if (r <? 0) s "unlink ../iputdir failed" ;;
     uexit 0
   else uret tt) ;;
  let* w := waits junk in
  uexit w.2.

Definition openiputtest (s : cptr) : U unit :=
  let* r := sysv (Mkdir (lits "oidir")) in
  fail_if (r <? 0) s "mkdir oidir failed" ;;
  let* pid := sysv Fork in
  fail_if (pid <? 0) s "fork failed" ;;
  (if pid =? 0 then
     let* fd := sysv (Open (lits "oidir") O_RDWR) in
     fail_if (fd >=? 0) s "open directory for write succeeded" ;;
     uexit 0
   else uret tt) ;;
  sys_ (Sleep 1) ;;
  let* r := sysv (Unlink (lits "oidir")) in
  fail_if (negb (r =? 0)) s "unlink failed" ;;
  let* w := waits junk in
  uexit w.2.

Definition opentest (s : cptr) : U unit :=
  let* fd := sysv (Open (lits "echo") 0) in
  fail_if (fd <? 0) s "open echo failed!" ;;
  sys_ (Close fd) ;;
  let* fd := sysv (Open (lits "doesnotexist") 0) in
  fail_if (fd >=? 0) s "open doesnotexist succeeded!".

Definition writetest (s : cptr) : U unit :=
  let* fd := sysv (Open (lits "small") CREATE_RDWR) in
  fail_if (fd <? 0) s "error: creat small failed!" ;;
  uforall (seqZ 0 100) (fun i =>
    let* w := sysv (Write fd (lits "aaaaaaaaaa")) in
    stop_if (negb (w =? 10)) ("%s: error: write aa %d new file failed" ++ nl) [UStr s; UInt i] ;;
    let* w := sysv (Write fd (lits "bbbbbbbbbb")) in
    stop_if (negb (w =? 10)) ("%s: error: write bb %d new file failed" ++ nl) [UStr s; UInt i]) ;;
  sys_ (Close fd) ;;
  let* fd := sysv (Open (lits "small") O_RDONLY) in
  fail_if (fd <? 0) s "error: open small failed!" ;;
  let* i := read_buf fd 2000 in
  fail_if (negb (i =? 2000)) s "read failed" ;;
  sys_ (Close fd) ;;
  let* r := sysv (Unlink (lits "small")) in
  fail_if (r <? 0) s "unlink small failed".

Definition writebig (s : cptr) : U unit :=
  let* fd := sysv (Open (lits "big") CREATE_RDWR) in
  fail_if (fd <? 0) s "error: creat big failed!" ;;
  uforall (seqZ 0 MAXFILE) (fun i =>
    st_le 4 buf i ;;
    let* w := write_buf fd BSIZE in
    stop_if (negb (w =? BSIZE)) ("%s: error: write big file failed" ++ nl) [UStr s; UInt i]) ;;
  sys_ (Close fd) ;;
  let* fd := sysv (Open (lits "big") O_RDONLY) in
  fail_if (fd <? 0) s "error: open big failed!" ;;
  uloop (fun n =>
    let* i := read_buf fd BSIZE in
    if i =? 0 then
      stop_if (n =? MAXFILE - 1) "%s: read only %d blocks from big" [UStr s; UInt n] ;; uret (inr tt)
    else
      stop_if (negb (i =? BSIZE)) ("%s: read failed %d" ++ nl) [UStr s; UInt i] ;;
      let* v := ld_le 4 buf in
      stop_if (negb (s32 v =? n)) ("%s: read content of block %d is %d" ++ nl) [UStr s; UInt n; UInt (s32 v)] ;;
      uret (inl (s32 (n + 1)))) 0 ;;
  sys_ (Close fd) ;;
  let* r := sysv (Unlink (lits "big")) in
  fail_if (r <? 0) s "unlink big failed".

Definition createtest (s : cptr) : U unit :=
  uforall (seqZ 0 52) (fun i => close_open (cname [97; 48 + i]) CREATE_RDWR) ;;
  uforall (seqZ 0 52) (fun i => sys_ (Unlink (cname [97; 48 + i]))).

Definition dirtest (s : cptr) : U unit :=
  let* r := sysv (Mkdir (lits "dir0")) in
  fail_if (r <? 0) s "mkdir failed" ;;
  let* r := sysv (Chdir (lits "dir0")) in
  fail_if (r <? 0) s "chdir dir0 failed" ;;
  let* r := sysv (Chdir (lits "..")) in
  fail_if (r <? 0) s "chdir .. failed" ;;
  let* r := sysv (Unlink (lits "dir0")) in
  fail_if (r <? 0) s "unlink dir0 failed".

Definition exectest (s : cptr) : U unit :=
  sys_ (Unlink (lits "echo-ok")) ;;
  let* pid := sysv Fork in
  fail_if (pid <? 0) s "fork failed" ;;
  (if pid =? 0 then
     sys_ (Close 1) ;;
     let* fd := sysv (Open (lits "echo-ok") CREATE_WRONLY) in
     fail_if (fd <? 0) s "create failed" ;;
     fail_if (negb (fd =? 1)) s "wrong fd" ;;
     let* r := sysv (Exec (lits "echo") [lits "echo"; lits "OK"]) in
     fail_if (r <? 0) s "exec echo failed"
   else uret tt) ;;
  let* w := waits junk in
  uwhen (negb (w.1 =? pid)) (printf ("%s: wait failed!" ++ nl) [UStr s]) ;;
  uwhen (negb (w.2 =? 0)) (uexit w.2) ;;
  let* fd := sysv (Open (lits "echo-ok") O_RDONLY) in
  fail_if (fd <? 0) s "open failed" ;;
  let* r := sys (Read fd 2) in
  fail_if (negb (rv r =? 2)) s "read failed" ;;
  sys_ (Unlink (lits "echo-ok")) ;;
  if (nth 0 (rdata r) junk =? 79) && (nth 1 (rdata r) junk =? 75) then uexit 0
  else printf ("%s: wrong output" ++ nl) [UStr s] ;; uexit 1.

(** ** Processes *)

(** The reader of pipe1: [None] when it returns early. *)
Definition pipe1_check (s : cptr) (n seq : Z) : U (option Z) :=
  uloop (fun '(i, seq) =>
    if negb (i <? n) then uret (inr (Some seq)) else
    let* c := ld (buf + i) in
    if negb (Z.land c 0xff =? Z.land seq 0xff) then
      printf ("%s: pipe1 oops 2" ++ nl) [UStr s] ;; uret (inr None)
    else uret (inl (i + 1, s32 (seq + 1)))) (0, seq).
Definition pipe1_reader (s : cptr) (fd : Z) : U (option Z) :=
  uloop (fun '(seq, total, cc) =>
    let* n := read_buf fd cc in
    if negb (n >? 0) then uret (inr (Some total)) else
    let* r := pipe1_check s n seq in
    match r with
    | None => uret (inr None)
    | Some seq =>
        let cc := s32 (cc * 2) in
        uret (inl (seq, s32 (total + n), if u64 cc >? BUFSZ then BUFSZ else cc))
    end) (0, 0, 1).
Definition pipe1_writer (s : cptr) (fd : Z) : U unit :=
  uforall (seqZ 0 5) (fun n =>
    uforall (seqZ 0 1033) (fun i => st (buf + i) (n * 1033 + i)) ;;
    let* w := write_buf fd 1033 in
    fail_if (negb (w =? 1033)) s "pipe1 oops 1") ;;
  uexit 0.
Definition pipe1 (s : cptr) : U unit :=
  let* fds := sys Pipe in
  fail_if (negb (rv fds =? 0)) s "pipe() failed" ;;
  let* pid := sysv Fork in
  if pid =? 0 then sys_ (Close (pfd 0 fds)) ;; pipe1_writer s (pfd 1 fds)
  else if pid >? 0 then
    sys_ (Close (pfd 1 fds)) ;;
    let* r := pipe1_reader s (pfd 0 fds) in
    match r with
    | None => uret tt
    | Some total =>
        (* the name is missing: %s gets total *)
        stop_if (negb (total =? 5 * 1033)) ("%s: pipe1 oops 3 total %d" ++ nl) [UStr (Ptr total); UInt junk] ;;
        sys_ (Close (pfd 0 fds)) ;;
        let* w := waits junk in
        uexit w.2
    end
  else printf ("%s: fork() failed" ++ nl) [UStr s] ;; uexit 1.

Definition killstatus (s : cptr) : U unit :=
  (let* _ := uloop (fun '(i, xst0) =>
     if negb (i <? 100) then uret (inr tt) else
     let* pid1 := sysv Fork in
     fail_if (pid1 <? 0) s "fork failed" ;;
     (if pid1 =? 0 then forever (sys_ Getpid) ;; uexit 0 else uret tt) ;;
     sys_ (Sleep 1) ;;
     sys_ (Kill pid1) ;;
     let* w := waits xst0 in
     fail_if (negb (w.2 =? -1)) s "status should be -1" ;;
     uret (inl (i + 1, w.2))) (0, junk) in uret tt) ;;
  uexit 0.

Definition preempt (s : cptr) : U unit :=
  let* pid1 := sysv Fork in
  stop_if (pid1 <? 0) "%s: fork failed" [UStr s] ;;
  (if pid1 =? 0 then forever (uret tt) else uret tt) ;;
  let* pid2 := sysv Fork in
  fail_if (pid2 <? 0) s "fork failed" ;;
  (if pid2 =? 0 then forever (uret tt) else uret tt) ;;
  let* pfds := sys Pipe in
  let* pid3 := sysv Fork in
  fail_if (pid3 <? 0) s "fork failed" ;;
  (if pid3 =? 0 then
     sys_ (Close (pfd 0 pfds)) ;;
     let* w := sysv (Write (pfd 1 pfds) (lits "x")) in
     uwhen (negb (w =? 1)) (printf "%s: preempt write error" [UStr s]) ;;
     sys_ (Close (pfd 1 pfds)) ;;
     forever (uret tt)
   else uret tt) ;;
  sys_ (Close (pfd 1 pfds)) ;;
  let* n := read_buf (pfd 0 pfds) BUFSZ in
  if negb (n =? 1) then printf "%s: preempt read error" [UStr s] else
  sys_ (Close (pfd 0 pfds)) ;;
  printf "kill... " [] ;;
  sys_ (Kill pid1) ;; sys_ (Kill pid2) ;; sys_ (Kill pid3) ;;
  printf "wait... " [] ;;
  sys_ (Wait 0) ;; sys_ (Wait 0) ;; sys_ (Wait 0).

Definition exitwait (s : cptr) : U unit :=
  uforall (seqZ 0 100) (fun i =>
    let* pid := sysv Fork in
    fail_if (pid <? 0) s "fork failed" ;;
    if negb (pid =? 0) then
      let* w := waits junk in
      fail_if (negb (w.1 =? pid)) s "wait wrong pid" ;;
      fail_if (negb (i =? w.2)) s "wait wrong exit status"
    else uexit i).

Definition reparent_test (s : cptr) : U unit :=
  let* master_pid := sysv Getpid in
  uforall (seqZ 0 200) (fun _ =>
    let* pid := sysv Fork in
    fail_if (pid <? 0) s "fork failed" ;;
    if negb (pid =? 0) then
      let* w := sysv (Wait 0) in
      fail_if (negb (w =? pid)) s "wait wrong pid"
    else
      let* pid2 := sysv Fork in
      uwhen (pid2 <? 0) (sys_ (Kill master_pid) ;; uexit 1) ;;
      uexit 0) ;;
  uexit 0.

Definition twochildren (s : cptr) : U unit :=
  uforall (seqZ 0 1000) (fun _ =>
    let* pid1 := sysv Fork in
    fail_if (pid1 <? 0) s "fork failed" ;;
    if pid1 =? 0 then uexit 0 else
    let* pid2 := sysv Fork in
    fail_if (pid2 <? 0) s "fork failed" ;;
    if pid2 =? 0 then uexit 0 else
    sys_ (Wait 0) ;; sys_ (Wait 0)).

Definition forkfork (s : cptr) : U unit :=
  uforall (seqZ 0 2) (fun _ =>
    let* pid := sysv Fork in
    stop_if (pid <? 0) "%s: fork failed" [UStr s] ;;
    if pid =? 0 then
      uforall (seqZ 0 200) (fun _ =>
        let* pid1 := sysv Fork in
        uwhen (pid1 <? 0) (uexit 1) ;;
        uwhen (pid1 =? 0) (uexit 0) ;;
        sys_ (Wait 0)) ;;
      uexit 0
    else uret tt) ;;
  let* w := waits junk in
  stop_if (negb (w.2 =? 0)) "%s: fork in child failed" [UStr s] ;;
  let* w := waits w.2 in
  stop_if (negb (w.2 =? 0)) "%s: fork in child failed" [UStr s].

Definition forkforkfork (s : cptr) : U unit :=
  sys_ (Unlink (lits "stopforking")) ;;
  let* pid := sysv Fork in
  stop_if (pid <? 0) "%s: fork failed" [UStr s] ;;
  (if pid =? 0 then
     forever
       (let* fd := sysv (Open (lits "stopforking") 0) in
        uwhen (fd >=? 0) (uexit 0) ;;
        let* f := sysv Fork in
        uwhen (f <? 0) (close_open (lits "stopforking") CREATE_RDWR)) ;;
     uexit 0
   else uret tt) ;;
  sys_ (Sleep 20) ;;
  close_open (lits "stopforking") CREATE_RDWR ;;
  sys_ (Wait 0) ;;
  sys_ (Sleep 10).

Definition reparent2 (s : cptr) : U unit :=
  uforall (seqZ 0 800) (fun _ =>
    let* pid1 := sysv Fork in
    stop_if (pid1 <? 0) ("fork failed" ++ nl) [] ;;
    uwhen (pid1 =? 0) (sys_ Fork ;; sys_ Fork ;; uexit 0) ;;
    sys_ (Wait 0)) ;;
  uexit 0.

Definition mem_child (s : cptr) : U unit :=
  let* m1 := uloop (fun m1 =>
      let* m2 := malloc freep base 10001 in
      if m2 =? 0 then uret (inr m1) else
      set_ptr m2 m1 ;; uret (inl m2)) 0 in
  uloop (fun m1 =>
      if m1 =? 0 then uret (inr tt) else
      let* m2 := get_ptr m1 in
      free freep m1 ;; uret (inl m2)) m1 ;;
  let* m1 := malloc freep base (1024 * 20) in
  stop_if (m1 =? 0) ("couldn't allocate mem?!!" ++ nl) [UStr s] ;;
  free freep m1 ;;
  uexit 0.
Definition mem (s : cptr) : U unit :=
  let* pid := sysv Fork in
  if pid =? 0 then mem_child s else
  let* w := waits junk in
  uwhen (w.2 =? -1) (uexit 0) ;;
  uexit w.2.

Definition forktest_test (s : cptr) : U unit :=
  let* n := uloop (fun n =>
      if negb (n <? 1000) then uret (inr n) else
      let* pid := sysv Fork in
      if pid <? 0 then uret (inr n)
      else if pid =? 0 then uexit 0
      else uret (inl (n + 1))) 0 in
  fail_if (n =? 0) s "no fork at all!" ;;
  fail_if (n =? 1000) s "fork claimed to work 1000 times!" ;;
  uloop (fun n =>
    if negb (n >? 0) then uret (inr tt) else
    let* w := sysv (Wait 0) in
    fail_if (w <? 0) s "wait stopped early" ;;
    uret (inl (n - 1))) n ;;
  let* w := sysv (Wait 0) in
  fail_if (negb (w =? -1)) s "wait got too many".

(** ** More files *)

(** The characters of [sharedfd] are counted in the whole array, also after a
    short read. *)
Definition sharedfd_count (b : list Z) (nc np : Z) : Z * Z :=
  fold_left (fun '(nc, np) c => (if c =? 99 then s32 (nc + 1) else nc, if c =? 112 then s32 (np + 1) else np)) b (nc, np).
Definition sharedfd (s : cptr) : U unit :=
  sys_ (Unlink (lits "sharedfd")) ;;
  let* fd := sysv (Open (lits "sharedfd") CREATE_RDWR) in
  stop_if (fd <? 0) "%s: cannot open sharedfd for writing" [UStr s] ;;
  let* pid := sysv Fork in
  let b := replicate 10 (if pid =? 0 then 99 else 112) in
  uforall (seqZ 0 1000) (fun _ =>
    let* w := sysv (Write fd (Some b)) in
    fail_if (negb (w =? 10)) s "write sharedfd failed") ;;
  (if pid =? 0 then uexit 0 else
   let* w := waits junk in
   uwhen (negb (w.2 =? 0)) (uexit w.2)) ;;
  sys_ (Close fd) ;;
  let* fd := sysv (Open (lits "sharedfd") 0) in
  fail_if (fd <? 0) s "cannot open sharedfd for reading" ;;
  let* cs := uloop (fun '(b, nc, np) =>
      let* r := sys (Read fd 10) in
      if negb (rv r >? 0) then uret (inr (nc, np)) else
      let b := overlay (take (Z.to_nat (rv r)) (rdata r)) b in
      let '(nc, np) := sharedfd_count b nc np in
      uret (inl (b, nc, np))) (b, 0, 0) in
  sys_ (Close fd) ;;
  sys_ (Unlink (lits "sharedfd")) ;;
  if (cs.1 =? 10000) && (cs.2 =? 10000) then uexit 0
  else printf ("%s: nc/np test fails" ++ nl) [UStr s] ;; uexit 1.

Definition fourfiles_child (s : cptr) (pi : Z) : U unit :=
  let* fd := sysv (Open (cname [102; 48 + pi]) CREATE_RDWR) in
  stop_if (fd <? 0) ("create failed" ++ nl) [UStr s] ;;
  let* _ := memset buf (48 + pi) 500 in
  uforall (seqZ 0 12) (fun _ =>
    let* n := write_buf fd 500 in
    stop_if (negb (n =? 500)) ("write failed %d" ++ nl) [UInt n]) ;;
  uexit 0.
Definition fourfiles_read (s : cptr) (fd i : Z) : U Z :=
  uloop (fun total =>
    let* n := read_buf fd BUFSZ in
    if negb (n >? 0) then uret (inr total) else
    uforall (seqZ 0 n) (fun j =>
      let* c := ld (buf + j) in
      stop_if (negb (c =? 48 + i)) ("wrong char" ++ nl) [UStr s]) ;;
    uret (inl (s32 (total + n)))) 0.
(** [wait] for each child; its status is the test's unless it is 0. *)
Definition wait_children (n : Z) : U unit :=
  let* _ := uloop (fun '(i, x) =>
      if negb (i <? n) then uret (inr tt) else
      let* w := waits x in
      uwhen (negb (w.2 =? 0)) (uexit w.2) ;;
      uret (inl (i + 1, w.2))) (0, junk) in
  uret tt.
Definition fourfiles (s : cptr) : U unit :=
  uforall (seqZ 0 4) (fun pi =>
    sys_ (Unlink (cname [102; 48 + pi])) ;;
    let* pid := sysv Fork in
    stop_if (pid <? 0) ("fork failed" ++ nl) [UStr s] ;;
    if pid =? 0 then fourfiles_child s pi else uret tt) ;;
  wait_children 4 ;;
  uforall (seqZ 0 4) (fun i =>
    let* fd := sysv (Open (cname [102; 48 + i]) 0) in
    let* total := fourfiles_read s fd i in
    sys_ (Close fd) ;;
    stop_if (negb (total =? 12 * 500)) ("wrong length %d" ++ nl) [UInt total] ;;
    sys_ (Unlink (cname [102; 48 + i]))).

Definition createdelete_child (s : cptr) (pi : Z) : U unit :=
  uforall (seqZ 0 20) (fun i =>
    let* fd := sysv (Open (cname [112 + pi; 48 + i]) CREATE_RDWR) in
    fail_if (fd <? 0) s "create failed" ;;
    sys_ (Close fd) ;;
    if (i >? 0) && (i mod 2 =? 0) then
      let* r := sysv (Unlink (cname [112 + pi; 48 + i / 2])) in
      fail_if (r <? 0) s "unlink failed"
    else uret tt) ;;
  uexit 0.
Definition createdelete_look (s : cptr) (i pi : Z) : U unit :=
  let name := [112 + pi; 48 + i] in
  let* fd := sysv (Open (cname name) 0) in
  (if ((i =? 0) || (i >=? 10)) && (fd <? 0) then
     printf ("%s: oops createdelete %s didn't exist" ++ nl) [UStr s; UStr (Lit (chars name))] ;; uexit 1
   else if (i >=? 1) && (i <? 10) && (fd >=? 0) then
     printf ("%s: oops createdelete %s did exist" ++ nl) [UStr s; UStr (Lit (chars name))] ;; uexit 1
   else uret tt) ;;
  uwhen (fd >=? 0) (sys_ (Close fd)).
(** The last loop takes the first letter from [i], not from [pi]. *)
Definition createdelete_clean : U unit :=
  uforall (seqZ 0 20) (fun i => uforall (seqZ 0 4) (fun _ => sys_ (Unlink (cname [112 + i; 48 + i])))).
Definition createdelete (s : cptr) : U unit :=
  uforall (seqZ 0 4) (fun pi =>
    let* pid := sysv Fork in
    stop_if (pid <? 0) ("fork failed" ++ nl) [UStr s] ;;
    if pid =? 0 then createdelete_child s pi else uret tt) ;;
  (let* _ := uloop (fun '(i, x) =>
      if negb (i <? 4) then uret (inr tt) else
      let* w := waits x in
      uwhen (negb (w.2 =? 0)) (uexit 1) ;;
      uret (inl (i + 1, w.2))) (0, junk) in uret tt) ;;
  uforall (seqZ 0 20) (fun i => uforall (seqZ 0 4) (createdelete_look s i)) ;;
  createdelete_clean.

Definition unlinkread (s : cptr) : U unit :=
  let* fd := sysv (Open (lits "unlinkread") CREATE_RDWR) in
  fail_if (fd <? 0) s "create unlinkread failed" ;;
  sys_ (Write fd (lits "hello")) ;;
  sys_ (Close fd) ;;
  let* fd := sysv (Open (lits "unlinkread") O_RDWR) in
  fail_if (fd <? 0) s "open unlinkread failed" ;;
  let* r := sysv (Unlink (lits "unlinkread")) in
  fail_if (negb (r =? 0)) s "unlink unlinkread failed" ;;
  let* fd1 := sysv (Open (lits "unlinkread") CREATE_RDWR) in
  sys_ (Write fd1 (lits "yyy")) ;;
  sys_ (Close fd1) ;;
  let* n := read_buf fd BUFSZ in
  stop_if (negb (n =? 5)) "%s: unlinkread read failed" [UStr s] ;;
  let* c := ld buf in
  fail_if (negb (c =? 104)) s "unlinkread wrong data" ;;
  let* w := write_buf fd 10 in
  fail_if (negb (w =? 10)) s "unlinkread write failed" ;;
  sys_ (Close fd) ;;
  sys_ (Unlink (lits "unlinkread")).

Definition linktest (s : cptr) : U unit :=
  sys_ (Unlink (lits "lf1")) ;;
  sys_ (Unlink (lits "lf2")) ;;
  let* fd := sysv (Open (lits "lf1") CREATE_RDWR) in
  fail_if (fd <? 0) s "create lf1 failed" ;;
  let* w := sysv (Write fd (lits "hello")) in
  fail_if (negb (w =? 5)) s "write lf1 failed" ;;
  sys_ (Close fd) ;;
  let* r := sysv (Link (lits "lf1") (lits "lf2")) in
  fail_if (r <? 0) s "link lf1 lf2 failed" ;;
  sys_ (Unlink (lits "lf1")) ;;
  let* r := sysv (Open (lits "lf1") 0) in
  fail_if (r >=? 0) s "unlinked lf1 but it is still there!" ;;
  let* fd := sysv (Open (lits "lf2") 0) in
  fail_if (fd <? 0) s "open lf2 failed" ;;
  let* n := read_buf fd BUFSZ in
  fail_if (negb (n =? 5)) s "read lf2 failed" ;;
  sys_ (Close fd) ;;
  let* r := sysv (Link (lits "lf2") (lits "lf2")) in
  fail_if (r >=? 0) s "link lf2 lf2 succeeded! oops" ;;
  sys_ (Unlink (lits "lf2")) ;;
  let* r := sysv (Link (lits "lf2") (lits "lf1")) in
  fail_if (r >=? 0) s "link non-existent succeeded! oops" ;;
  let* r := sysv (Link (lits ".") (lits "lf1")) in
  fail_if (r >=? 0) s "link . lf1 succeeded! oops".

Definition concreate_make (i : Z) : U unit :=
  let file := [67; 48 + i] in
  sys_ (Unlink (cname file)) ;;
  let* pid := sysv Fork in
  (if negb (pid =? 0) && (i mod 3 =? 1) then sys_ (Link (lits "C0") (cname file))
   else if (pid =? 0) && (i mod 5 =? 1) then sys_ (Link (lits "C0") (cname file))
   else
     let* fd := sysv (Open (cname file) CREATE_RDWR) in
     stop_if (fd <? 0) ("concreate create %s failed" ++ nl) [UStr (Lit (chars file))] ;;
     sys_ (Close fd)) ;;
  if pid =? 0 then uexit 0 else
  let* w := waits junk in
  uwhen (negb (w.2 =? 0)) (uexit 1).
(** The directory is read entry by entry into [de]; [fa] marks the files. *)
Definition concreate_scan (s : cptr) (fd : Z) : U Z :=
  uloop (fun '(de, fa, n) =>
    let* r := sys (Read fd 16) in
    if negb (rv r >? 0) then uret (inr n) else
    let de := overlay (take (Z.to_nat (rv r)) (rdata r)) de in
    let name := drop 2 de in
    if le_dec (take 2 de) =? 0 then uret (inl (de, fa, n)) else
    if (nth 0 name 0 =? 67) && (nth 2 name 0 =? 0) then
      let i := nth 1 name 0 - 48 in
      stop_if ((i <? 0) || (i >=? 40)) ("%s: concreate weird file %s" ++ nl) [UStr s; UStr (Lit (chars name))] ;;
      stop_if (negb (nth (Z.to_nat i) fa 0 =? 0)) ("%s: concreate duplicate file %s" ++ nl) [UStr s; UStr (Lit (chars name))] ;;
      uret (inl (de, <[Z.to_nat i := 1]> fa, s32 (n + 1)))
    else uret (inl (de, fa, n))) (replicate 16 junk, replicate 40 0, 0).
Definition concreate_mix (s : cptr) (i : Z) : U unit :=
  let file := cname [67; 48 + i] in
  let* pid := sysv Fork in
  fail_if (pid <? 0) s "fork failed" ;;
  (if (i mod 3 =? 0) && (pid =? 0) || (i mod 3 =? 1) && negb (pid =? 0)
   then uforall (seqZ 0 6) (fun _ => close_open file 0)
   else uforall (seqZ 0 6) (fun _ => sys_ (Unlink file))) ;;
  if pid =? 0 then uexit 0 else sys_ (Wait 0).
Definition concreate (s : cptr) : U unit :=
  uforall (seqZ 0 40) concreate_make ;;
  let* fd := sysv (Open (lits ".") 0) in
  let* n := concreate_scan s fd in
  sys_ (Close fd) ;;
  fail_if (negb (n =? 40)) s "concreate not enough files in directory listing" ;;
  uforall (seqZ 0 40) (concreate_mix s).

Definition linkunlink (s : cptr) : U unit :=
  sys_ (Unlink (lits "x")) ;;
  let* pid := sysv Fork in
  fail_if (pid <? 0) s "fork failed" ;;
  (let* _ := uloop (fun '(i, x) =>
      if negb (i <? 100) then uret (inr tt) else
      let x := u32 (x * 1103515245 + 12345) in
      (if x mod 3 =? 0 then close_open (lits "x") (Z.lor O_RDWR O_CREATE)
       else if x mod 3 =? 1 then sys_ (Link (lits "cat") (lits "x"))
       else sys_ (Unlink (lits "x"))) ;;
      uret (inl (i + 1, x))) (0, if negb (pid =? 0) then 1 else 97) in uret tt) ;;
  if negb (pid =? 0) then sys_ (Wait 0) else uexit 0.

Definition subdir (s : cptr) : U unit :=
  sys_ (Unlink (lits "ff")) ;;
  bad_if nonzero s (Mkdir (lits "dd")) ("%s: mkdir dd failed" ++ nl) ;;
  let* fd := sysv (Open (lits "dd/ff") CREATE_RDWR) in
  stop_if (fd <? 0) ("%s: create dd/ff failed" ++ nl) [UStr s] ;;
  sys_ (Write fd (lits "ff")) ;;
  sys_ (Close fd) ;;
  bad_if nonneg s (Unlink (lits "dd")) ("%s: unlink dd (non-empty dir) succeeded!" ++ nl) ;;
  bad_if nonzero s (Mkdir (lits "/dd/dd")) ("subdir mkdir dd/dd failed" ++ nl) ;;
  let* fd := sysv (Open (lits "dd/dd/ff") CREATE_RDWR) in
  stop_if (fd <? 0) ("%s: create dd/dd/ff failed" ++ nl) [UStr s] ;;
  sys_ (Write fd (lits "FF")) ;;
  sys_ (Close fd) ;;
  let* fd := sysv (Open (lits "dd/dd/../ff") 0) in
  stop_if (fd <? 0) ("%s: open dd/dd/../ff failed" ++ nl) [UStr s] ;;
  let* cc := read_buf fd BUFSZ in
  (let* bad := (if negb (cc =? 2) then uret true else let* c := ld buf in uret (negb (c =? 102))) in stop_if bad ("%s: dd/dd/../ff wrong content" ++ nl) [UStr s]) ;;
  sys_ (Close fd) ;;
  bad_if nonzero s (Link (lits "dd/dd/ff") (lits "dd/dd/ffff")) ("link dd/dd/ff dd/dd/ffff failed" ++ nl) ;;
  bad_if nonzero s (Unlink (lits "dd/dd/ff")) ("%s: unlink dd/dd/ff failed" ++ nl) ;;
  bad_if nonneg s (Open (lits "dd/dd/ff") O_RDONLY) ("%s: open (unlinked) dd/dd/ff succeeded" ++ nl) ;;
  bad_if nonzero s (Chdir (lits "dd")) ("%s: chdir dd failed" ++ nl) ;;
  bad_if nonzero s (Chdir (lits "dd/../../dd")) ("%s: chdir dd/../../dd failed" ++ nl) ;;
  bad_if nonzero s (Chdir (lits "dd/../../../dd")) ("chdir dd/../../dd failed" ++ nl) ;;
  bad_if nonzero s (Chdir (lits "./..")) ("%s: chdir ./.. failed" ++ nl) ;;
  let* fd := sysv (Open (lits "dd/dd/ffff") 0) in
  stop_if (fd <? 0) ("%s: open dd/dd/ffff failed" ++ nl) [UStr s] ;;
  (let* n := read_buf fd BUFSZ in stop_if (negb (n =? 2)) ("%s: read dd/dd/ffff wrong len" ++ nl) [UStr s]) ;;
  sys_ (Close fd) ;;
  bad_if nonneg s (Open (lits "dd/dd/ff") O_RDONLY) ("%s: open (unlinked) dd/dd/ff succeeded!" ++ nl) ;;
  bad_if nonneg s (Open (lits "dd/ff/ff") CREATE_RDWR) ("%s: create dd/ff/ff succeeded!" ++ nl) ;;
  bad_if nonneg s (Open (lits "dd/xx/ff") CREATE_RDWR) ("%s: create dd/xx/ff succeeded!" ++ nl) ;;
  bad_if nonneg s (Open (lits "dd") O_CREATE) ("%s: create dd succeeded!" ++ nl) ;;
  bad_if nonneg s (Open (lits "dd") O_RDWR) ("%s: open dd rdwr succeeded!" ++ nl) ;;
  bad_if nonneg s (Open (lits "dd") O_WRONLY) ("%s: open dd wronly succeeded!" ++ nl) ;;
  bad_if zero s (Link (lits "dd/ff/ff") (lits "dd/dd/xx")) ("%s: link dd/ff/ff dd/dd/xx succeeded!" ++ nl) ;;
  bad_if zero s (Link (lits "dd/xx/ff") (lits "dd/dd/xx")) ("%s: link dd/xx/ff dd/dd/xx succeeded!" ++ nl) ;;
  bad_if zero s (Link (lits "dd/ff") (lits "dd/dd/ffff")) ("%s: link dd/ff dd/dd/ffff succeeded!" ++ nl) ;;
  bad_if zero s (Mkdir (lits "dd/ff/ff")) ("%s: mkdir dd/ff/ff succeeded!" ++ nl) ;;
  bad_if zero s (Mkdir (lits "dd/xx/ff")) ("%s: mkdir dd/xx/ff succeeded!" ++ nl) ;;
  bad_if zero s (Mkdir (lits "dd/dd/ffff")) ("%s: mkdir dd/dd/ffff succeeded!" ++ nl) ;;
  bad_if zero s (Unlink (lits "dd/xx/ff")) ("%s: unlink dd/xx/ff succeeded!" ++ nl) ;;
  bad_if zero s (Unlink (lits "dd/ff/ff")) ("%s: unlink dd/ff/ff succeeded!" ++ nl) ;;
  bad_if zero s (Chdir (lits "dd/ff")) ("%s: chdir dd/ff succeeded!" ++ nl) ;;
  bad_if zero s (Chdir (lits "dd/xx")) ("%s: chdir dd/xx succeeded!" ++ nl) ;;
  bad_if nonzero s (Unlink (lits "dd/dd/ffff")) ("%s: unlink dd/dd/ff failed" ++ nl) ;;
  bad_if nonzero s (Unlink (lits "dd/ff")) ("%s: unlink dd/ff failed" ++ nl) ;;
  bad_if zero s (Unlink (lits "dd")) ("%s: unlink non-empty dd succeeded!" ++ nl) ;;
  bad_if neg s (Unlink (lits "dd/dd")) ("%s: unlink dd/dd failed" ++ nl) ;;
  bad_if neg s (Unlink (lits "dd")) ("%s: unlink dd failed" ++ nl).

Definition fourteen (s : cptr) : U unit :=
  bad_if nonzero s (Mkdir (lits "12345678901234")) ("%s: mkdir 12345678901234 failed" ++ nl) ;;
  bad_if nonzero s (Mkdir (lits "12345678901234/123456789012345")) ("%s: mkdir 12345678901234/123456789012345 failed" ++ nl) ;;
  let* fd := sysv (Open (lits "123456789012345/123456789012345/123456789012345") O_CREATE) in
  stop_if (fd <? 0) ("%s: create 123456789012345/123456789012345/123456789012345 failed" ++ nl) [UStr s] ;;
  sys_ (Close fd) ;;
  let* fd := sysv (Open (lits "12345678901234/12345678901234/12345678901234") 0) in
  stop_if (fd <? 0) ("%s: open 12345678901234/12345678901234/12345678901234 failed" ++ nl) [UStr s] ;;
  sys_ (Close fd) ;;
  bad_if zero s (Mkdir (lits "12345678901234/12345678901234")) ("%s: mkdir 12345678901234/12345678901234 succeeded!" ++ nl) ;;
  bad_if zero s (Mkdir (lits "123456789012345/12345678901234")) ("%s: mkdir 12345678901234/123456789012345 succeeded!" ++ nl) ;;
  sys_ (Unlink (lits "123456789012345/12345678901234")) ;;
  sys_ (Unlink (lits "12345678901234/12345678901234")) ;;
  sys_ (Unlink (lits "12345678901234/12345678901234/12345678901234")) ;;
  sys_ (Unlink (lits "123456789012345/123456789012345/123456789012345")) ;;
  sys_ (Unlink (lits "12345678901234/123456789012345")) ;;
  sys_ (Unlink (lits "12345678901234")).

Definition rmdot (s : cptr) : U unit :=
  bad_if nonzero s (Mkdir (lits "dots")) ("%s: mkdir dots failed" ++ nl) ;;
  bad_if nonzero s (Chdir (lits "dots")) ("%s: chdir dots failed" ++ nl) ;;
  bad_if zero s (Unlink (lits ".")) ("%s: rm . worked!" ++ nl) ;;
  bad_if zero s (Unlink (lits "..")) ("%s: rm .. worked!" ++ nl) ;;
  bad_if nonzero s (Chdir (lits "/")) ("%s: chdir / failed" ++ nl) ;;
  bad_if zero s (Unlink (lits "dots/.")) ("%s: unlink dots/. worked!" ++ nl) ;;
  bad_if zero s (Unlink (lits "dots/..")) ("%s: unlink dots/.. worked!" ++ nl) ;;
  bad_if nonzero s (Unlink (lits "dots")) ("%s: unlink dots failed!" ++ nl).

Definition dirfile (s : cptr) : U unit :=
  let* fd := sysv (Open (lits "dirfile") O_CREATE) in
  stop_if (fd <? 0) ("%s: create dirfile failed" ++ nl) [UStr s] ;;
  sys_ (Close fd) ;;
  bad_if zero s (Chdir (lits "dirfile")) ("%s: chdir dirfile succeeded!" ++ nl) ;;
  let* fd := sysv (Open (lits "dirfile/xx") 0) in
  stop_if (fd >=? 0) ("%s: create dirfile/xx succeeded!" ++ nl) [UStr s] ;;
  let* fd := sysv (Open (lits "dirfile/xx") O_CREATE) in
  stop_if (fd >=? 0) ("%s: create dirfile/xx succeeded!" ++ nl) [UStr s] ;;
  bad_if zero s (Mkdir (lits "dirfile/xx")) ("%s: mkdir dirfile/xx succeeded!" ++ nl) ;;
  bad_if zero s (Unlink (lits "dirfile/xx")) ("%s: unlink dirfile/xx succeeded!" ++ nl) ;;
  bad_if zero s (Link (lits "README") (lits "dirfile/xx")) ("%s: link to dirfile/xx succeeded!" ++ nl) ;;
  bad_if nonzero s (Unlink (lits "dirfile")) ("%s: unlink dirfile failed!" ++ nl) ;;
  let* fd := sysv (Open (lits ".") O_RDWR) in
  stop_if (fd >=? 0) ("%s: open . for writing succeeded!" ++ nl) [UStr s] ;;
  let* fd := sysv (Open (lits ".") 0) in
  bad_if pos s (Write fd (lits "x")) ("%s: write . succeeded!" ++ nl) ;;
  sys_ (Close fd).

Definition bigwrite (s : cptr) : U unit :=
  sys_ (Unlink (lits "bigwrite")) ;;
  uloop (fun sz =>
    if negb (sz <? (MAXOPBLOCKS + 2) * BSIZE) then uret (inr tt) else
    let* fd := sysv (Open (lits "bigwrite") CREATE_RDWR) in
    fail_if (fd <? 0) s "cannot create bigwrite" ;;
    uforall (seqZ 0 2) (fun _ =>
      let* cc := write_buf fd sz in
      stop_if (negb (cc =? sz)) ("%s: write(%d) ret %d" ++ nl) [UStr s; UInt sz; UInt cc]) ;;
    sys_ (Close fd) ;;
    sys_ (Unlink (lits "bigwrite")) ;;
    uret (inl (sz + 471))) 499.

Definition bigfile_read (s : cptr) (fd : Z) : U Z :=
  uloop (fun '(i, total) =>
    let* cc := read_buf fd 300 in
    fail_if (cc <? 0) s "read bigfile failed" ;;
    if cc =? 0 then uret (inr total) else
    fail_if (negb (cc =? 300)) s "short read bigfile" ;;
    let* c0 := ld buf in
    let* bad := (if negb (c0 =? i / 2) then uret true else let* c1 := ld (buf + 299) in uret (negb (c1 =? i / 2))) in
    fail_if bad s "read bigfile wrong data" ;;
    uret (inl (i + 1, s32 (total + cc)))) (0, 0).
Definition bigfile (s : cptr) : U unit :=
  sys_ (Unlink (lits "bigfile.dat")) ;;
  let* fd := sysv (Open (lits "bigfile.dat") CREATE_RDWR) in
  stop_if (fd <? 0) "%s: cannot create bigfile" [UStr s] ;;
  uforall (seqZ 0 20) (fun i =>
    let* _ := memset buf i 600 in
    let* w := write_buf fd 600 in
    fail_if (negb (w =? 600)) s "write bigfile failed") ;;
  sys_ (Close fd) ;;
  let* fd := sysv (Open (lits "bigfile.dat") 0) in
  fail_if (fd <? 0) s "cannot open bigfile" ;;
  let* total := bigfile_read s fd in
  sys_ (Close fd) ;;
  fail_if (negb (total =? 20 * 600)) s "read bigfile wrong total" ;;
  sys_ (Unlink (lits "bigfile.dat")).

Definition iref (s : cptr) : U unit :=
  uforall (seqZ 0 (NINODE + 1)) (fun _ =>
    bad_if nonzero s (Mkdir (lits "irefd")) ("%s: mkdir irefd failed" ++ nl) ;;
    bad_if nonzero s (Chdir (lits "irefd")) ("%s: chdir irefd failed" ++ nl) ;;
    sys_ (Mkdir (lits EmptyString)) ;;
    sys_ (Link (lits "README") (lits EmptyString)) ;;
    let* fd := sysv (Open (lits EmptyString) O_CREATE) in
    uwhen (fd >=? 0) (sys_ (Close fd)) ;;
    let* fd := sysv (Open (lits "xx") O_CREATE) in
    uwhen (fd >=? 0) (sys_ (Close fd)) ;;
    sys_ (Unlink (lits "xx"))) ;;
  uforall (seqZ 0 (NINODE + 1)) (fun _ => sys_ (Chdir (lits "..")) ;; sys_ (Unlink (lits "irefd"))) ;;
  sys_ (Chdir (lits "/")).

Definition bigarg_string : list Z := str_bytes ("bigargs test: failed" ++ nl) ++ replicate 199 32.
Definition bigargtest (s : cptr) : U unit :=
  sys_ (Unlink (lits "bigarg-ok")) ;;
  let* pid := sysv Fork in
  (if pid =? 0 then
     sys_ (Exec (lits "echo") (replicate (Z.to_nat (MAXARG - 1)) (Some bigarg_string))) ;;
     close_open (lits "bigarg-ok") O_CREATE ;;
     uexit 0
   else fail_if (pid <? 0) s "bigargtest: fork failed") ;;
  let* w := waits junk in
  uwhen (negb (w.2 =? 0)) (uexit w.2) ;;
  let* fd := sysv (Open (lits "bigarg-ok") 0) in
  fail_if (fd <? 0) s "bigarg test failed!" ;;
  sys_ (Close fd).

(** fsfull is in no table. *)
Definition fsfull_name (n : Z) : list Z :=
  [102; 48 + n / 1000; 48 + (n mod 1000) / 100; 48 + (n mod 100) / 10; 48 + n mod 10].
Definition fsfull_fill (fd : Z) : U Z :=
  uloop (fun total =>
    let* cc := write_buf fd BSIZE in
    uret (if cc <? BSIZE then inr total else inl (s32 (total + cc)))) 0.
Definition fsfull : U unit :=
  printf ("fsfull test" ++ nl) [] ;;
  let* nfiles := uloop (fun nfiles =>
      let name := fsfull_name nfiles in
      printf ("writing %s" ++ nl) [UStr (Lit (chars name))] ;;
      let* fd := sysv (Open (cname name) CREATE_RDWR) in
      if fd <? 0 then printf ("open %s failed" ++ nl) [UStr (Lit (chars name))] ;; uret (inr nfiles) else
      let* total := fsfull_fill fd in
      printf ("wrote %d bytes" ++ nl) [UInt total] ;;
      sys_ (Close fd) ;;
      uret (if total =? 0 then inr nfiles else inl (nfiles + 1))) 0 in
  uloop (fun nfiles =>
    if negb (nfiles >=? 0) then uret (inr tt) else
    sys_ (Unlink (cname (fsfull_name nfiles))) ;;
    uret (inl (nfiles - 1))) nfiles ;;
  printf ("fsfull test finished" ++ nl) [].

Definition bsstest (s : cptr) : U unit :=
  uforall (seqZ 0 10000) (fun i =>
    let* c := ld (uninit + i) in
    fail_if (negb (c =? 0)) s "bss test failed").

(** ** Memory *)

(** [for(b = a; b < e; b += 4096) *b = v;] *)
Definition touch_pages (a e v : Z) : U unit :=
  uloop (fun b => if negb (b <? e) then uret (inr tt) else st b v ;; uret (inl (b + 4096))) a.
Definition sbrkbasic_grow (s : cptr) (a : Z) : U Z :=
  uloop (fun '(i, a) =>
    if negb (i <? 5000) then uret (inr a) else
    let* b := usbrk 1 in
    stop_if (negb (b =? a)) ("%s: sbrk test failed %d %x %x" ++ nl) [UStr s; UInt i; UInt a; UInt b] ;;
    st b 1 ;;
    uret (inl (i + 1, b + 1))) (0, a).
Definition sbrkbasic (s : cptr) : U unit :=
  let TOOMUCH := 1024 * 1024 * 1024 in
  let* pid := sysv Fork in
  stop_if (pid <? 0) ("fork failed in sbrkbasic" ++ nl) [] ;;
  (if pid =? 0 then
     let* a := usbrk TOOMUCH in
     uwhen (a =? NOMEM) (uexit 0) ;;
     touch_pages a (a + TOOMUCH) 99 ;;
     uexit 1
   else uret tt) ;;
  let* w := waits junk in
  fail_if (w.2 =? 1) s "too much memory allocated!" ;;
  let* a := usbrk 0 in
  let* a := sbrkbasic_grow s a in
  let* pid := sysv Fork in
  fail_if (pid <? 0) s "sbrk test fork failed" ;;
  let* _ := usbrk 1 in
  let* c := usbrk 1 in
  fail_if (negb (c =? a + 1)) s "sbrk test failed post-fork" ;;
  uwhen (pid =? 0) (uexit 0) ;;
  let* w := waits w.2 in
  uexit w.2.

Definition sbrkmuch (s : cptr) : U unit :=
  let BIG := 100 * 1024 * 1024 in
  let* oldbrk := usbrk 0 in
  let* a := usbrk 0 in
  let* p := usbrk (u64 (BIG - a)) in
  fail_if (negb (p =? a)) s "sbrk test failed to grow big address space; enough phys mem?" ;;
  let* eee := usbrk 0 in
  touch_pages a eee 1 ;;
  let lastaddr := BIG - 1 in
  st lastaddr 99 ;;
  let* a := usbrk 0 in
  let* c := usbrk (- PGSIZE) in
  fail_if (c =? NOMEM) s "sbrk could not deallocate" ;;
  let* c := usbrk 0 in
  stop_if (negb (c =? a - PGSIZE)) ("%s: sbrk deallocation produced wrong address, a %x c %x" ++ nl) [UStr s; UInt a; UInt c] ;;
  let* a := usbrk 0 in
  let* c := usbrk PGSIZE in
  let* bad := (if negb (c =? a) then uret true else let* e := usbrk 0 in uret (negb (e =? a + PGSIZE))) in
  stop_if bad ("%s: sbrk re-allocation failed, a %x c %x" ++ nl) [UStr s; UInt a; UInt c] ;;
  let* v := ld lastaddr in
  fail_if (v =? 99) s "sbrk de-allocation didn't really deallocate" ;;
  let* a := usbrk 0 in
  let* e := usbrk 0 in
  let* c := usbrk (- (e - oldbrk)) in
  stop_if (negb (c =? a)) ("%s: sbrk downsize failed, a %x c %x" ++ nl) [UStr s; UInt a; UInt c].

(** A child touches an address it does not have: the kernel kills it. *)
Definition kernmem (s : cptr) : U unit :=
  uloop (fun a =>
    if negb (a <? KERNBASE + 2000000) then uret (inr tt) else
    let* pid := sysv Fork in
    fail_if (pid <? 0) s "fork failed" ;;
    (if pid =? 0 then
       let* v := ld a in
       printf ("%s: oops could read %x = %x" ++ nl) [UStr s; UInt a; UInt v] ;; uexit 1
     else uret tt) ;;
    let* w := waits junk in
    uwhen (negb (w.2 =? -1)) (uexit 1) ;;
    uret (inl (a + 50000))) KERNBASE.
Definition MAXVAplus (s : cptr) : U unit :=
  uloop (fun a =>
    if a =? 0 then uret (inr tt) else
    let* pid := sysv Fork in
    fail_if (pid <? 0) s "fork failed" ;;
    (if pid =? 0 then
       st a 99 ;;
       printf ("%s: oops wrote %x" ++ nl) [UStr s; UInt a] ;; uexit 1
     else uret tt) ;;
    let* w := waits junk in
    uwhen (negb (w.2 =? -1)) (uexit 1) ;;
    uret (inl (u64 (Z.shiftl a 1)))) MAXVA.

Definition sbrkfail_spawn (fds : answer) : U (list Z) :=
  uloop (fun pids =>
    if negb (Z.of_nat (length pids) <? 10) then uret (inr pids) else
    let* pid := sysv Fork in
    (if pid =? 0 then
       let* e := usbrk 0 in
       let* _ := usbrk (u64 (100 * 1024 * 1024 - e)) in
       sys_ (Write (pfd 1 fds) (lits "x")) ;;
       forever (sys_ (Sleep 1000))
     else uret tt) ;;
    uwhen (negb (pid =? -1)) (sys_ (Read (pfd 0 fds) 1)) ;;
    uret (inl (pids ++ [pid]))) [].
Definition sbrkfail_child (s : cptr) : U unit :=
  let TENBIG := 10 * (100 * 1024 * 1024) in
  let* a := usbrk 0 in
  let* _ := usbrk TENBIG in
  let* n := uloop (fun '(i, n) =>
      if negb (i <? TENBIG) then uret (inr n) else
      let* v := ld (a + i) in
      uret (inl (i + PGSIZE, s32 (n + v)))) (0, 0) in
  printf ("%s: allocate a lot of memory succeeded %d" ++ nl) [UStr s; UInt n] ;; uexit 1.
Definition sbrkfail (s : cptr) : U unit :=
  let* fds := sys Pipe in
  fail_if (negb (rv fds =? 0)) s "pipe() failed" ;;
  let* pids := sbrkfail_spawn fds in
  let* c := usbrk PGSIZE in
  uforall pids (fun pid => uwhen (negb (pid =? -1)) (sys_ (Kill pid) ;; sys_ (Wait 0))) ;;
  fail_if (c =? NOMEM) s "failed sbrk leaked memory" ;;
  let* pid := sysv Fork in
  fail_if (pid <? 0) s "fork failed" ;;
  (if pid =? 0 then sbrkfail_child s else uret tt) ;;
  let* w := waits junk in
  uwhen (negb (w.2 =? -1) && negb (w.2 =? 2)) (uexit 1).

(** [pipe((int * ) a)] stores the two descriptors in the new page. *)
Definition sbrkarg (s : cptr) : U unit :=
  let* a := usbrk PGSIZE in
  let* fd := sysv (Open (lits "sbrk") CREATE_WRONLY) in
  sys_ (Unlink (lits "sbrk")) ;;
  fail_if (fd <? 0) s "open sbrk failed" ;;
  let* d := bytesarg a PGSIZE in
  let* n := sysv (Write fd d) in
  fail_if (n <? 0) s "write sbrk failed" ;;
  sys_ (Close fd) ;;
  let* a := usbrk PGSIZE in
  let* r := sys Pipe in
  (if rv r <? 0 then uret tt else st_le 4 a (nth 0 (rdata r) 0) ;; st_le 4 (a + 4) (nth 1 (rdata r) 0)) ;;
  fail_if (negb (rv r =? 0)) s "pipe() failed".

(** [sp] is the stack pointer: the page below the stack is not mapped. *)
Definition stacktest (sp : Z) (s : cptr) : U unit :=
  let* pid := sysv Fork in
  (if pid =? 0 then
     let* v := ld (sp - PGSIZE) in
     printf ("%s: stacktest: read below stack %p" ++ nl) [UStr s; UInt v] ;; uexit 1
   else fail_if (pid <? 0) s "fork failed") ;;
  let* w := waits junk in
  if w.2 =? -1 then uexit 0 else uexit w.2.

Definition sbrklast (s : cptr) : U unit :=
  let* top := usbrk 0 in
  uwhen (negb (top mod 4096 =? 0)) (let* _ := usbrk (4096 - top mod 4096) in uret tt) ;;
  let* _ := usbrk 4096 in
  let* _ := usbrk 10 in
  let* _ := usbrk (-20) in
  let* top := usbrk 0 in
  let p := top - 64 in
  st p 120 ;; st (p + 1) 0 ;;
  let* path := strarg p in
  let* fd := sysv (Open path (Z.lor O_RDWR O_CREATE)) in
  let* d := bytesarg p 1 in
  sys_ (Write fd d) ;;
  sys_ (Close fd) ;;
  let* fd := sysv (Open path O_RDWR) in
  st p 0 ;;
  let* r := sys (Read fd 1) in
  st_bytes p (take (Z.to_nat (rv r)) (rdata r)) ;;
  let* v := ld p in
  uwhen (negb (v =? 120)) (uexit 1).

Definition sbrk8000 (s : cptr) : U unit :=
  let* _ := usbrk 0x80000004 in
  let* top := usbrk 0 in
  let* v := ld (top - 1) in
  st (top - 1) (v + 1).

(** ** The tests that take long *)
Definition bigdir_name (i : Z) : list Z := [120; 48 + i / 64; 48 + i mod 64].
Definition bigdir (s : cptr) : U unit :=
  sys_ (Unlink (lits "bd")) ;;
  let* fd := sysv (Open (lits "bd") O_CREATE) in
  fail_if (fd <? 0) s "bigdir create failed" ;;
  sys_ (Close fd) ;;
  uforall (seqZ 0 500) (fun i =>
    let name := bigdir_name i in
    let* r := sysv (Link (lits "bd") (cname name)) in
    stop_if (negb (r =? 0)) ("%s: bigdir link(bd, %s) failed" ++ nl) [UStr s; UStr (Lit (chars name))]) ;;
  sys_ (Unlink (lits "bd")) ;;
  uforall (seqZ 0 500) (fun i =>
    let* r := sysv (Unlink (cname (bigdir_name i))) in
    stop_if (negb (r =? 0)) "%s: bigdir unlink failed" [UStr s]).

Definition manywrites_child (s : cptr) (ci : Z) : U unit :=
  let name := [98; 97 + ci] in
  sys_ (Unlink (cname name)) ;;
  uforall (seqZ 0 30) (fun _ =>
    uforall (seqZ 0 (ci + 1)) (fun _ =>
      let* fd := sysv (Open (cname name) CREATE_RDWR) in
      stop_if (fd <? 0) ("%s: cannot create %s" ++ nl) [UStr s; UStr (Lit (chars name))] ;;
      let* cc := write_buf fd BUFSZ in
      stop_if (negb (cc =? BUFSZ)) ("%s: write(%d) ret %d" ++ nl) [UStr s; UInt BUFSZ; UInt cc] ;;
      sys_ (Close fd)) ;;
    sys_ (Unlink (cname name))) ;;
  sys_ (Unlink (cname name)) ;;
  uexit 0.
Definition manywrites (s : cptr) : U unit :=
  uforall (seqZ 0 4) (fun ci =>
    let* pid := sysv Fork in
    stop_if (pid <? 0) ("fork failed" ++ nl) [] ;;
    if pid =? 0 then manywrites_child s ci else uret tt) ;;
  uforall (seqZ 0 4) (fun _ =>
    let* w := waits 0 in
    uwhen (negb (w.2 =? 0)) (uexit w.2)) ;;
  uexit 0.

Definition badwrite (s : cptr) : U unit :=
  sys_ (Unlink (lits "junk")) ;;
  uforall (seqZ 0 600) (fun _ =>
    let* fd := sysv (Open (lits "junk") CREATE_WRONLY) in
    stop_if (fd <? 0) ("open junk failed" ++ nl) [] ;;
    let* d := bytesarg 0xffffffffff 1 in
    sys_ (Write fd d) ;;
    sys_ (Close fd) ;;
    sys_ (Unlink (lits "junk"))) ;;
  let* fd := sysv (Open (lits "junk") CREATE_WRONLY) in
  stop_if (fd <? 0) ("open junk failed" ++ nl) [] ;;
  let* w := sysv (Write fd (lits "x")) in
  stop_if (negb (w =? 1)) ("write failed" ++ nl) [] ;;
  sys_ (Close fd) ;;
  sys_ (Unlink (lits "junk")) ;;
  uexit 0.

Definition execout (s : cptr) : U unit :=
  uforall (seqZ 0 15) (fun avail =>
    let* pid := sysv Fork in
    stop_if (pid <? 0) ("fork failed" ++ nl) [] ;;
    if pid =? 0 then
      uloop (fun _ : unit =>
        let* a := usbrk 4096 in
        if a =? NOMEM then uret (inr tt) else
        st (a + 4096 - 1) 1 ;; uret (inl tt)) tt ;;
      uforall (seqZ 0 avail) (fun _ => let* _ := usbrk (-4096) in uret tt) ;;
      sys_ (Close 1) ;;
      sys_ (Exec (lits "echo") [lits "echo"; lits "x"]) ;;
      uexit 0
    else sys_ (Wait 0)) ;;
  uexit 0.

Definition diskfull_name (fi : Z) : list Z := [98; 105; 103; 48 + fi].
Definition zz_name (i : Z) : list Z := [122; 122; 48 + i / 32; 48 + i mod 32].
(** Writes until the file or the disk is full: is it the disk? *)
Definition diskfull_fill (fd : Z) : U bool :=
  uloop (fun i =>
    if negb (i <? MAXFILE) then uret (inr false) else
    let* w := sysv (Write fd (Some (replicate (Z.to_nat BSIZE) junk))) in
    if negb (w =? BSIZE) then sys_ (Close fd) ;; uret (inr true) else uret (inl (i + 1))) 0.
(** Creates files until one fails. *)
Definition zz_create (nzz : Z) : U unit :=
  uloop (fun i =>
    if negb (i <? nzz) then uret (inr tt) else
    sys_ (Unlink (cname (zz_name i))) ;;
    let* fd := sysv (Open (cname (zz_name i)) CREATE_RDWR_TRUNC) in
    if fd <? 0 then uret (inr tt) else
    sys_ (Close fd) ;; uret (inl (i + 1))) 0.
Definition diskfull (s : cptr) : U unit :=
  sys_ (Unlink (lits "diskfulldir")) ;;
  let* fi := uloop (fun fi =>
      let name := diskfull_name fi in
      sys_ (Unlink (cname name)) ;;
      let* fd := sysv (Open (cname name) CREATE_RDWR_TRUNC) in
      if fd <? 0 then
        printf ("%s: could not create file %s" ++ nl) [UStr s; UStr (Lit (chars name))] ;; uret (inr fi)
      else
        let* done := diskfull_fill fd in
        sys_ (Close fd) ;;
        uret (if done then inr (fi + 1) else inl (fi + 1))) 0 in
  zz_create 128 ;;
  let* r := sysv (Mkdir (lits "diskfulldir")) in
  (* the name is missing *)
  uwhen (r =? 0) (printf ("%s: mkdir(diskfulldir) unexpectedly succeeded!" ++ nl) [UStr (Ptr junk)]) ;;
  sys_ (Unlink (lits "diskfulldir")) ;;
  uforall (seqZ 0 128) (fun i => sys_ (Unlink (cname (zz_name i)))) ;;
  uforall (seqZ 0 fi) (fun i => sys_ (Unlink (cname (diskfull_name i)))).

Definition outofinodes (s : cptr) : U unit :=
  zz_create (32 * 32) ;;
  uforall (seqZ 0 (32 * 32)) (fun i => sys_ (Unlink (cname (zz_name i)))).

(** [struct test] and the table of the slow tests. *)
Record test := mk_test { t_f : cptr -> U unit; t_s : string }.
Definition slowtests : list test :=
  [mk_test bigdir "bigdir"; mk_test manywrites "manywrites"; mk_test badwrite "badwrite";
   mk_test execout "execout"; mk_test diskfull "diskfull"; mk_test outofinodes "outofinodes"].
End Tests.
