(* ===== verification/Testrun.v ===== *)
(** * The test runner

    user/usertests.c, the program that runs the tests: each in a process of
    its own, whose exit status is the verdict, between two counts of the free
    pages.  The table of the quick tests is a parameter: the theorems hold for
    every table, the slow tests are those of Usertests. *)

From S2P Require Import Prelude User Ulib Uprintf Umalloc Grind Usertests.

Section Runner.
(** [xst] is the address of [xstatus]. *)
Variables (buf xst junk : Z).
Variable quicktests : list test.
Notation slow := (slowtests buf xst junk).

Definition run (f : cptr -> U unit) (s : string) : U Z :=
  printf "test %s: " [UStr (lit s)] ;;
  let* pid := sysv Fork in
  stop_if (pid <? 0) ("runtest: fork error" ++ nl) [] ;;
  if pid =? 0 then f (lit s) ;; uexit 0 else
  let* w := waits xst junk in
  (if negb (w.2 =? 0) then printf ("FAILED" ++ nl) [] else printf ("OK" ++ nl) []) ;;
  uret (cbool (w.2 =? 0)).

(** [justone] is null or a string. *)
Fixpoint runtests (tests : list test) (justone : option cptr) : U Z :=
  match tests with
  | [] => uret 0
  | t :: rest =>
      let* sel := match justone with
                  | None => uret true
                  | Some p => let* c := strcmp (lit (t_s t)) p in uret (c =? 0)
                  end in
      if (sel : bool) then
        let* ok := run (t_f t) (t_s t) in
        if ok =? 0 then printf ("SOME TESTS FAILED" ++ nl) [] ;; uret 1
        else runtests rest justone
      else runtests rest justone
  end.

Definition countfree_child (fds0 fds1 : Z) : U Z :=
  sys_ (Close fds0) ;;
  uloop (fun _ : unit =>
    let* a := usbrk 4096 in
    if a =? NOMEM then uret (inr tt) else
    st (a + 4096 - 1) 1 ;;
    let* w := sysv (Write fds1 (lits "x")) in
    stop_if (negb (w =? 1)) ("write() failed in countfree()" ++ nl) [] ;;
    uret (inl tt)) tt ;;
  uexit 0.
Definition countfree_read (fds0 : Z) : U Z :=
  uloop (fun n =>
    let* cc := sysv (Read fds0 1) in
    stop_if (cc <? 0) ("read() failed in countfree()" ++ nl) [] ;;
    uret (if cc =? 0 then inr n else inl (s32 (n + 1)))) 0.
Definition countfree : U Z :=
  let* r := sys Pipe in
  stop_if (rv r <? 0) ("pipe() failed in countfree()" ++ nl) [] ;;
  let fds0 := pfd junk 0 r in let fds1 := pfd junk 1 r in
  let* pid := sysv Fork in
  stop_if (pid <? 0) ("fork failed in countfree()" ++ nl) [] ;;
  if pid =? 0 then countfree_child fds0 fds1 else
  sys_ (Close fds1) ;;
  let* n := countfree_read fds0 in
  sys_ (Close fds0) ;;
  sys_ (Wait 0) ;;
  uret n.

(** One round of the [do] loop: 1 when it returns 1, 0 when it goes on. *)
Definition drive_slow (quick continuous : Z) (justone : option cptr) : U Z :=
  if negb (quick =? 0) then uret 0 else
  (match justone with None => printf ("usertests slow tests starting" ++ nl) [] | Some _ => uret tt end) ;;
  let* r := runtests slow justone in
  uret (cbool (negb (r =? 0) && negb (continuous =? 2))).
Definition drive_once (quick continuous : Z) (justone : option cptr) : U Z :=
  printf ("usertests starting" ++ nl) [] ;;
  let* free0 := countfree in
  let* r := runtests quicktests justone in
  if negb (r =? 0) && negb (continuous =? 2) then uret 1 else
  let* r := drive_slow quick continuous justone in
  if negb (r =? 0) then uret 1 else
  let* free1 := countfree in
  if free1 <? free0 then
    printf ("FAILED -- lost some free pages %d (out of %d)" ++ nl) [UInt free1; UInt free0] ;;
    uret (cbool (negb (continuous =? 2)))
  else uret 0.
Definition drivetests (quick continuous : Z) (justone : option cptr) : U Z :=
  uloop (fun _ : unit =>
    let* r := drive_once quick continuous justone in
    uret (if negb (r =? 0) then inr 1 else if negb (continuous =? 0) then inl tt else inr 0)) tt.

(** The arguments: [quick], [continuous], [justone]. *)
Definition usage {A} : U A := printf ("Usage: usertests [-c] [-C] [-q] [testname]" ++ nl) [] ;; uexit 1.
Definition test_args (argv : list Z) : U (Z * Z * option cptr) :=
  match argv with
  | [_; a] =>
      let* q := strcmp (Ptr a) (lit "-q") in
      if q =? 0 then uret (1, 0, None) else
      let* c := strcmp (Ptr a) (lit "-c") in
      if c =? 0 then uret (0, 1, None) else
      let* C := strcmp (Ptr a) (lit "-C") in
      if C =? 0 then uret (0, 2, None) else
      let* d := ld a in
      if negb (d =? 45) then uret (0, 0, Some (Ptr a)) else usage
  | [] | [_] => uret (0, 0, None)
  | _ => usage
  end.
Definition usertests_main (argv : list Z) : U unit :=
  let* args := test_args argv in
  let '(quick, continuous, justone) := args in
  let* r := drivetests quick continuous justone in
  if negb (r =? 0) then uexit 1 else
  printf ("ALL TESTS PASSED" ++ nl) [] ;;
  uexit 0.
End Runner.

(** ** Traces

    [trace o tr o']: the process makes the calls of [tr], gets the answers
    with them, and is then at [o']. *)
Inductive trace {A} : uout A -> list (call * answer) -> uout A -> Prop :=
| trace_nil o : trace o [] o
| trace_call c k r tr o : trace (k r) tr o -> trace (UCall c k) ((c, r) :: tr) o.

Lemma trace_uobind {A B} (o : uout A) (f : A -> umem -> uout B) : forall tr o', trace (uobind o f) tr o' ->
  (exists tr1 tr2 a m, tr = tr1 ++ tr2 /\ trace o tr1 (URet a m) /\ trace (f a m) tr2 o') \/
  (exists o1, trace o tr o1 /\ (forall a m, o1 <> URet a m) /\ o' = uobind o1 f).
Proof.
  induction o as [a m|c k IH|z| |]; intros tr o' H; cbn in H.
  - left. exists [], tr, a, m. split_and!; [done|constructor|done].
  - inversion H as [|c' k' r tr' o'' Hk]; subst; clear H.
    + right. exists (UCall c k). split_and!; [constructor|done|done].
    + destruct (IH _ _ _ Hk) as [(tr1 & tr2 & a & m & -> & H1 & H2)|(o1 & H1 & H2 & ->)].
      * left. exists ((c, r) :: tr1), tr2, a, m. split_and!; [done|by constructor|done].
      * right. exists o1. split_and!; [by constructor|done|done].
  - inversion H; subst. right. exists (UExit z). split_and!; [constructor|done|done].
  - inversion H; subst. right. exists UFault. split_and!; [constructor|done|done].
  - inversion H; subst. right. exists UNoFuel. split_and!; [constructor|done|done].
Qed.
Lemma trace_feed {A} : forall rs (o : uout A) cs o', feed rs o = (cs, o') -> trace o (zip cs rs) o'.
Proof.
  induction rs as [|r rs IH]; intros o cs o' H.
  - destruct o; cbn in H; injection H as <- <-; constructor.
  - destruct o; cbn in H; try (injection H as <- <-; constructor).
    destruct (feed rs (k r)) as [cs1 o1] eqn:E. injection H as <- <-. cbn. constructor. by apply IH.
Qed.

(** The answers of a kernel that has processes, descriptors and children to
    give, to the parent of a [fork]. *)
Definition granted (x : call * answer) : Prop :=
  match x.1 with
  | Fork => 0 < rv x.2
  | Pipe | Read _ _ => 0 <= rv x.2
  | Wait _ => 0 <= rv x.2 /\ rdata x.2 <> []
  | _ => True
  end.
(** The statuses reported to [wait(&xstatus)]. *)
Definition statuses : list (call * answer) -> list Z :=
  omap (fun x => match x.1 with Wait a => if a =? 0 then None else Some (nth 0 (rdata x.2) 0) | _ => None end).
(** The bytes read up to each end of file. *)
Definition page_step (s : list Z * Z) (x : call * answer) : list Z * Z :=
  match x.1 with Read _ _ => if rv x.2 =? 0 then (s.1 ++ [s.2], 0) else (s.1, s.2 + 1) | _ => s end.
Definition free_counts (tr : list (call * answer)) : list Z := (fold_left page_step tr ([], 0)).1.

(** A trace that reports the statuses [ss] and the counts [ps]. *)
Definition reports (tr : list (call * answer)) (ss ps : list Z) : Prop :=
  statuses tr = ss /\ forall l, fold_left page_step tr (l, 0) = (l ++ ps, 0).
Lemma reports_nil : reports [] [] [].
Proof. split; [done|]. intros l. by rewrite app_nil_r. Qed.
Lemma reports_app tr1 tr2 s1 s2 p1 p2 : reports tr1 s1 p1 -> reports tr2 s2 p2 -> reports (tr1 ++ tr2) (s1 ++ s2) (p1 ++ p2).
Proof.
  intros [<- H1] [<- H2]. split.
  - unfold statuses. apply omap_app.
  - intros l. by rewrite fold_left_app, H1, H2, app_assoc.
Qed.
Lemma reports_counts tr ss ps : reports tr ss ps -> statuses tr = ss /\ free_counts tr = ps.
Proof. intros [H1 H2]. split; [done|]. unfold free_counts. by rewrite H2. Qed.
(** Calls that report nothing. *)
Definition plain (c : call) : Prop := match c with Read _ _ => False | Wait a => a = 0 | _ => True end.
Lemma reports_plain c r : plain c -> reports [(c, r)] [] [].
Proof. intros H. split; [destruct c; try done; cbn in *; by subst|]. intros l. rewrite app_nil_r. by destruct c. Qed.

(** What holds of the runs of a piece of the parent: it waits for an answer or
    returns, leaves the memory as it is, and its result fits its trace. *)
Definition alive {A} (o : uout A) : Prop := match o with URet _ _ | UCall _ _ => True | _ => False end.
Definition spec {A} (n : nat) (m : umem) (p : U A) (Q : A -> list (call * answer) -> Prop) : Prop :=
  forall tr o, trace (p n m) tr o -> Forall granted tr -> (length tr < n)%nat ->
  alive o /\ forall a m', o = URet a m' -> m' = m /\ Q a tr.
Lemma spec_ret {A} n m (a : A) (Q : A -> list (call * answer) -> Prop) : Q a [] -> spec n m (uret a) Q.
Proof. intros H tr o Ht _ _. inversion Ht; subst. split; [done|]. by intros a' m' [= <- <-]. Qed.
Lemma spec_bind {A B} n m (p : U A) (f : A -> U B) Q R :
  spec n m p Q -> (forall a tr1, Q a tr1 -> spec n m (f a) (fun b tr2 => R b (tr1 ++ tr2))) -> spec n m (ubind p f) R.
Proof.
  intros Hp Hf tr o Ht Hg Hl. apply trace_uobind in Ht as [(tr1 & tr2 & a & m1 & -> & H1 & H2)|(o1 & H1 & H2 & ->)].
  - apply Forall_app in Hg as [G1 G2]. rewrite length_app in Hl. destruct (Hp _ _ H1 G1 ltac:(lia)) as [_ Hq].
    destruct (Hq a m1 eq_refl) as [-> Hq']. by apply (Hf a tr1 Hq' tr2 o H2 G2 ltac:(lia)).
  - destruct (Hp _ _ H1 Hg Hl) as [He _]. destruct o1; try done. by destruct (H2 a m0).
Qed.
Lemma spec_mono {A} n m (p : U A) (Q R : A -> list (call * answer) -> Prop) :
  spec n m p Q -> (forall a tr, Q a tr -> R a tr) -> spec n m p R.
Proof. intros Hp Hi tr o Ht Hg Hl. destruct (Hp tr o Ht Hg Hl) as [H1 H2]. split; [done|]. intros a m' E. destruct (H2 a m' E). auto. Qed.
Lemma spec_run {A} n m (p : U A) (a : A) (Q : A -> list (call * answer) -> Prop) : p n m = URet a m -> Q a [] -> spec n m p Q.
Proof. intros E HQ tr o Ht _ _. rewrite E in Ht. inversion Ht; subst. split; [done|]. by intros a' m' [= <- <-]. Qed.
Lemma spec_sys n m c (Q : answer -> list (call * answer) -> Prop) : (forall r, granted (c, r) -> Q r [(c, r)]) -> spec n m (sys c) Q.
Proof.
  intros HQ tr o Ht Hg _. inversion Ht as [|c' k r tr' o' Ht']; subst; [split; [done|by intros ? ? [=]]|].
  inversion Ht'; subst. split; [done|]. intros a m' [= <- <-]. split; [done|]. apply HQ. by apply Forall_cons in Hg as [? _].
Qed.
Lemma spec_sysv n m c (Q : Z -> list (call * answer) -> Prop) : (forall r, granted (c, r) -> Q (rv r) [(c, r)]) -> spec n m (sysv c) Q.
Proof.
  intros HQ. eapply spec_bind; [apply (spec_sys n m c (fun r tr => tr = [(c, r)] /\ granted (c, r))); auto|].
  intros r ? [-> Hr]. apply spec_ret. by apply HQ.
Qed.

(** Code that reports nothing: the output of a line. *)
Definition quiet {A} (n : nat) (p : U A) : Prop := forall m, spec n m p (fun _ tr => reports tr [] []).
Lemma quiet_ret {A} n (a : A) : quiet n (uret a).
Proof. intros m. apply spec_ret, reports_nil. Qed.
Lemma quiet_bind {A B} n (p : U A) (f : A -> U B) : quiet n p -> (forall a, quiet n (f a)) -> quiet n (ubind p f).
Proof.
  intros Hp Hf m. eapply spec_bind; [apply Hp|]. intros a tr1 H1. eapply spec_mono; [apply Hf|]. intros b tr2 H2.
  by apply (reports_app tr1 tr2 [] [] [] []).
Qed.
Lemma quiet_sys n c : plain c -> quiet n (sys c).
Proof. intros Hc m. apply spec_sys. intros r _. by apply reports_plain. Qed.
Lemma quiet_sys_ n c : plain c -> quiet n (sys_ c).
Proof. intros Hc. apply quiet_bind; [by apply quiet_sys|]. intros. apply quiet_ret. Qed.
Lemma quiet_forall {X} n (l : list X) body : (forall x, quiet n (body x)) -> quiet n (uforall l body).
Proof. intros Hb. induction l as [|x l IH]; [apply quiet_ret|]. by apply quiet_bind. Qed.
Create HintDb quiet.
#[local] Hint Resolve quiet_ret quiet_bind quiet_sys quiet_sys_ quiet_forall : quiet.
Lemma quiet_putc n fd c : quiet n (putc fd c).
Proof. apply quiet_bind; [by apply quiet_sys|auto with quiet]. Qed.
#[local] Hint Resolve quiet_putc : quiet.
(** A string literal of a length within the loop bound. *)
Definition arg_ok (n : nat) (x : uarg) : Prop := match x with UStr (Lit l) => (length l < n)%nat | UStr (Ptr _) => False | UInt _ => True end.
Lemma quiet_iter {S} n (body : S -> U (S + unit)) (I : S -> Prop) (rank : S -> nat) :
  (forall s m, I s -> spec n m (body s) (fun r tr => reports tr [] [] /\ match r with inl s' => I s' /\ (rank s' < rank s)%nat | inr _ => True end)) ->
  forall f s, I s -> (rank s < f)%nat -> quiet n (uiter f body s).
Proof.
  intros Hb. induction f as [|f IH]; intros s Hs Hf; [lia|]. intros m. cbn [uiter]. eapply spec_bind; [by apply Hb|].
  intros [s'|b] tr1 [H1 H2].
  - destruct H2 as [H2 H3]. eapply spec_mono; [apply IH; [done|lia]|]. intros b tr2 H4. by apply (reports_app tr1 tr2 [] [] [] []).
  - apply spec_ret. by rewrite app_nil_r.
Qed.
Lemma quiet_put_str n fd l : (length l < n)%nat -> quiet n (put_str fd (Lit l)).
Proof.
  intros Hl m. unfold put_str, uloop. apply (quiet_iter n _ (fun s => exists l, s = Lit l) (fun s => match s with Lit l => length l | _ => O end)); [|eauto|done].
  clear. intros s m [l ->]. destruct l as [|c l].
  - apply (spec_run n m _ (inr tt)); [done|]. split; [apply reports_nil|done].
  - eapply spec_bind; [apply (spec_run n m _ c (fun v tr => v = c /\ tr = [])); done|]. intros v tr1 [-> ->].
    destruct (c =? 0); [apply spec_ret; split; [apply reports_nil|done]|].
    eapply spec_bind; [apply quiet_putc|]. intros a tr1 H1. apply spec_ret. rewrite app_nil_r. split; [done|]. split; [by exists l|]. cbn. lia.
Qed.
Lemma quiet_printint n fd x b sgn : quiet n (uprintint fd x b sgn).
Proof. apply quiet_forall. auto with quiet. Qed.
Lemma quiet_printptr n fd x : quiet n (uprintptr fd x).
Proof. apply quiet_forall. auto with quiet. Qed.
#[local] Hint Resolve quiet_printint quiet_printptr : quiet.
Lemma quiet_arg_str n fd args : (6 < n)%nat -> Forall (arg_ok n) args -> quiet n (put_str fd (arg_str args)).
Proof.
  intros Hn Ha. destruct Ha as [|x args Hx _]; [by apply quiet_put_str|]. destruct x as [v|[a|l]]; [by apply quiet_put_str|done|by apply quiet_put_str].
Qed.
Lemma quiet_vprintf_from n fd fmt : (6 < n)%nat -> forall pct args, Forall (arg_ok n) args -> quiet n (vprintf_from fd pct fmt args).
Proof.
  intros Hn. induction fmt as [|c fmt IH]; intros pct args Ha; cbn [vprintf_from]; [auto with quiet|].
  assert (Ht : Forall (arg_ok n) (tail args)) by (destruct Ha; [constructor|done]). pose proof (quiet_arg_str n fd args Hn Ha).
  repeat match goal with |- quiet _ (if ?b then _ else _) => destruct b end; auto 6 with quiet.
Qed.
Lemma quiet_printf n fmt args : (6 < n)%nat -> Forall (arg_ok n) args -> quiet n (printf fmt args).
Proof. intros. by apply quiet_vprintf_from. Qed.

(** The result of a piece together with what it reports. *)
Definition shows {A} (n : nat) (m : umem) (p : U A) (R : A -> list Z -> list Z -> Prop) : Prop :=
  spec n m p (fun a tr => exists ss ps, reports tr ss ps /\ R a ss ps).
Lemma shows_ret {A} n m (a : A) (R : A -> list Z -> list Z -> Prop) : R a [] [] -> shows n m (uret a) R.
Proof. intros H. apply spec_ret. exists [], []. split; [apply reports_nil|done]. Qed.
Lemma shows_mono {A} n m (p : U A) (Q R : A -> list Z -> list Z -> Prop) :
  shows n m p Q -> (forall a ss ps, Q a ss ps -> R a ss ps) -> shows n m p R.
Proof. intros Hp Hi. eapply spec_mono; [apply Hp|]. intros a tr (ss & ps & H & HQ). eauto. Qed.
Lemma shows_bind {A B} n m (p : U A) (f : A -> U B) Q R : shows n m p Q ->
  (forall a s1 p1, Q a s1 p1 -> shows n m (f a) (fun b s2 p2 => R b (s1 ++ s2) (p1 ++ p2))) -> shows n m (ubind p f) R.
Proof.
  intros Hp Hf. eapply spec_bind; [apply Hp|]. intros a tr1 (s1 & p1 & H1 & HQ). eapply spec_mono; [apply (Hf a s1 p1 HQ)|].
  intros b tr2 (s2 & p2 & H2 & HR). exists (s1 ++ s2), (p1 ++ p2). split; [by apply reports_app|done].
Qed.
Lemma shows_quiet {A B} n m (p : U A) (f : A -> U B) R : quiet n p -> (forall a, shows n m (f a) R) -> shows n m (ubind p f) R.
Proof.
  intros Hp Hf. apply (shows_bind n m p f (fun _ ss ps => ss = [] /\ ps = [])).
  - eapply spec_mono; [apply Hp|]. intros a tr H. exists [], []. done.
  - intros a s1 p1 [-> ->]. apply Hf.
Qed.
(** A call of the parent with the answer it gets. *)
Lemma shows_sys {B} n m c (f : answer -> U B) R : plain c -> (forall r, granted (c, r) -> shows n m (f r) R) -> shows n m (ubind (sys c) f) R.
Proof.
  intros Hc Hf. apply (shows_bind n m _ f (fun r ss ps => ss = [] /\ ps = [] /\ granted (c, r))).
  - apply spec_sys. intros r Hr. exists [], []. split; [by apply reports_plain|done].
  - intros r s1 p1 (-> & -> & Hr). by apply Hf.
Qed.
Lemma shows_sysv {B} n m c (f : Z -> U B) R : plain c -> (forall r, granted (c, r) -> shows n m (f (rv r)) R) -> shows n m (ubind (sysv c) f) R.
Proof.
  intros Hc Hf. apply (shows_bind n m _ f (fun v ss ps => ss = [] /\ ps = [] /\ exists r, v = rv r /\ granted (c, r))).
  - apply spec_sysv. intros r Hr. exists [], []. split; [by apply reports_plain|eauto].
  - intros v s1 p1 (-> & -> & r & -> & Hr). by apply Hf.
Qed.
Lemma shows_run {A B} n m (p : U A) (f : A -> U B) a R : p n m = URet a m -> shows n m (f a) R -> shows n m (ubind p f) R.
Proof.
  intros E Hf. apply (shows_bind n m p f (fun v ss ps => v = a /\ ss = [] /\ ps = [])).
  - apply (spec_run n m p a); [done|]. exists [], []. split; [apply reports_nil|done].
  - by intros v s1 p1 (-> & -> & ->).
Qed.
Lemma quiet_stop_if n b fmt args : b = false -> quiet n (stop_if b fmt args).
Proof. intros ->. apply quiet_ret. Qed.

(** ** The pieces of the runner *)
Section Pieces.
Context (buf xst junk : Z) (Hxst : xst <> 0).
(** The loop bound, which the number of calls does not reach. *)
Context (n : nat) (Hn : (16 <= n)%nat) (Hmax : Z.of_nat n <= 2 ^ 31).

Definition named (t : test) : Prop := Forall (fun c => c <> 0) (str_bytes (t_s t)) /\ (length (str_bytes (t_s t)) < n)%nat.
Ltac says := apply shows_quiet; [apply quiet_printf; [lia|repeat constructor; done]|intros _].

Lemma waits_shows m : shows n m (waits xst junk) (fun w ss ps => ss = [w.2] /\ ps = []).
Proof.
  eapply spec_bind; [apply (spec_sys n m (Wait xst) (fun r tr => tr = [(Wait xst, r)] /\ granted (Wait xst, r))); auto|].
  intros r ? [-> [Hr Hd]]. cbn in Hr, Hd. apply spec_ret. exists [nth 0 (rdata r) 0], []. split.
  - split; [cbn; by destruct (Z.eqb_spec xst 0)|]. intros l. cbn. by rewrite app_nil_r.
  - cbn [snd]. unfold wait_status. destruct (Z.ltb_spec (rv r) 0); [lia|]. by destruct (rdata r).
Qed.
Lemma run_shows f s m : (length (str_bytes s) < n)%nat -> shows n m (run xst junk f s) (fun v ss ps => exists x, ss = [x] /\ ps = [] /\ v = cbool (x =? 0)).
Proof.
  intros Hs. unfold run. says. apply shows_sysv; [done|]. intros r Hr. cbn in Hr.
  apply shows_quiet; [apply quiet_stop_if; lia|]. intros _. destruct (Z.eqb_spec (rv r) 0); [lia|].
  eapply shows_bind; [apply waits_shows|]. intros w s1 p1 [-> ->].
  destruct (negb _); says; apply shows_ret; by exists w.2.
Qed.

Lemma countfree_loop fds0 m : forall f k tr o,
  trace (uiter f (fun n =>
    let* cc := sysv (Read fds0 1) in
    stop_if (cc <? 0) ("read() failed in countfree()" ++ nl) [] ;;
    uret (if cc =? 0 then inr n else inl (s32 (n + 1)))) k n m) tr o -> Forall granted tr -> 0 <= k -> k + Z.of_nat (length tr) < 2 ^ 31 -> (length tr < f)%nat ->
  alive o /\ forall v m', o = URet v m' -> m' = m /\ statuses tr = [] /\ forall l, fold_left page_step tr (l, k) = (l ++ [v], 0).
Proof.
  change (2 ^ 31) with 2147483648. induction f as [|f IH]; intros k tr o Ht Hg Hk Hl Hf; [lia|]. cbn [uiter] in Ht. unfold ubind in Ht at 1. rewrite ubind_sysv in Ht. cbn [uobind] in Ht.
  inversion Ht as [|c q r tr' o' Ht']; subst; [split; [done|by intros ? ? [=]]|]. apply Forall_cons in Hg as [Hr Hg]. cbn in Hr.
  unfold stop_if in Ht'. destruct (Z.ltb_spec (rv r) 0) as [|_]; [lia|]. cbn [uwhen] in Ht'. cbn [length] in Hl, Hf.
  destruct (Z.eqb_spec (rv r) 0) as [E|E].
  - inversion Ht'; subst. split; [done|]. intros v m' [= <- <-]. split_and!; [done|done|]. intros l. cbn. by rewrite E.
  - change (trace (uiter f (fun n => let* cc := sysv (Read fds0 1) in stop_if (cc <? 0) ("read() failed in countfree()" ++ nl) [] ;;
      uret (if cc =? 0 then inr n else inl (s32 (n + 1)))) (s32 (k + 1)) n m) tr' o) in Ht'.
    rewrite s32_small in Ht' by lia. destruct (IH (k + 1) tr' o Ht' Hg ltac:(lia) ltac:(lia) ltac:(lia)) as [H1 H2]. split; [done|].
    intros v m' Ho. destruct (H2 v m' Ho) as (-> & Hs & Hp). split_and!; [done|exact Hs|]. intros l. cbn [fold_left page_step fst snd].
    destruct (Z.eqb_spec (rv r) 0); [done|]. apply Hp.
Qed.
Lemma countfree_shows m : shows n m (countfree junk) (fun v ss ps => ss = [] /\ ps = [v]).
Proof.
  unfold countfree. apply shows_sys; [done|]. intros r Hr. cbn in Hr. apply shows_quiet; [apply quiet_stop_if; lia|]. intros _. cbv zeta.
  apply shows_sysv; [done|]. intros q Hq. cbn in Hq. apply shows_quiet; [apply quiet_stop_if; lia|]. intros _.
  destruct (Z.eqb_spec (rv q) 0); [lia|]. apply shows_quiet; [by apply quiet_sys_|]. intros _.
  apply (shows_bind _ _ _ _ (fun v ss ps => ss = [] /\ ps = [v])).
  - intros tr o Ht Hg Hl. destruct (countfree_loop _ m _ 0 tr o Ht Hg ltac:(lia) ltac:(lia) Hl) as [H1 H2]. split; [done|]. intros v m' E.
    destruct (H2 v m' E) as (-> & Hs & Hp). split; [done|]. exists [], [v]. done.
  - intros v s1 p1 [-> ->]. apply shows_quiet; [by apply quiet_sys_|]. intros _. apply shows_quiet; [by apply quiet_sys_|]. intros _. by apply shows_ret.
Qed.

(** The tests an argument selects from a table. *)
Definition chosen (just : option (list Z)) (t : test) : bool :=
  match just with None => true | Some l => bool_decide (str_bytes (t_s t) = l) end.
Definition just_at (m : umem) (justone : option cptr) (just : option (list Z)) : Prop :=
  match justone, just with None, None => True | Some p, Some l => cstr_at m p l /\ Forall (fun c => c <> 0) l | _, _ => False end.
Definition zeros (n : nat) : list Z := replicate n 0.
Definition failed (ss : list Z) : Prop := exists x, x ∈ ss /\ x <> 0.

Lemma choose_run m justone just t : just_at m justone just -> named t ->
  match justone with None => uret true | Some p => let* c := strcmp (lit (t_s t)) p in uret (c =? 0) end n m = URet (chosen just t) m.
Proof.
  intros Hj [Ht Hl0]. destruct justone as [p|], just as [l|]; try done. destruct Hj as [Hp Hl].
  erewrite ubind_ret by (apply (strcmp_run m n (str_bytes (t_s t)) _ _ l); [split; [done|exact Ht]|exact Hp|exact Hl0]).
  unfold uret. cbn [chosen]. f_equal. destruct (Z.eqb_spec (cmp (str_bytes (t_s t)) l) 0) as [E|E]; rewrite cmp_eq in E by done.
  - by rewrite bool_decide_true.
  - by rewrite bool_decide_false.
Qed.
Lemma runtests_shows m justone just : just_at m justone just -> forall tests, Forall named tests ->
  shows n m (runtests xst junk tests justone) (fun v ss ps => ps = [] /\
    (v = 0 /\ ss = zeros (length (List.filter (chosen just) tests)) \/ v = 1 /\ failed ss)).
Proof.
  intros Hj. induction tests as [|t rest IH]; intros Ha; cbn [runtests]; [apply shows_ret; split; [done|by left]|].
  apply Forall_cons in Ha as [Ht Ha]. specialize (IH Ha). eapply shows_run; [by apply choose_run|]. cbn [List.filter].
  destruct (chosen just t); [|done]. eapply shows_bind; [apply run_shows, Ht|]. intros v s1 p1 (x & -> & -> & ->).
  destruct (Z.eqb_spec x 0) as [->|Hx]; cbn [cbool Z.eqb].
  - eapply shows_mono; [exact IH|]. intros v ss ps [-> [[-> ->]|[-> (y & Hy & Hne)]]]; (split; [done|]); [by left|].
    right. split; [done|]. exists y. split; [by right|done].
  - says. apply shows_ret. split; [done|]. right. split; [done|]. exists x. split; [left|done].
Qed.

Context (quicktests : list test).
Notation slow := (slowtests buf xst junk).
(** The outcome [v] of one round that was to run [k] tests. *)
Definition verdict (k : nat) (v : Z) (ss ps : list Z) : Prop :=
  v = 0 /\ ss = zeros k /\ (exists c0 c1, ps = [c0; c1] /\ c0 <= c1) \/
  v = 1 /\ (failed ss \/ exists c0 c1, ps = [c0; c1] /\ c1 < c0).
(** The number of tests: those of the quick table and, unless [quick], of the
    slow one. *)
Definition to_run (quick : Z) (just : option (list Z)) : nat :=
  length (List.filter (chosen just) (quicktests ++ (if quick =? 0 then slow else []))).

Lemma slow_named : Forall named slow.
Proof.
  assert (H : Forall (fun t => Forall (fun c => c <> 0) (str_bytes (t_s t)) /\ (length (str_bytes (t_s t)) < 16)%nat) slow).
  { repeat (apply Forall_cons; split; [split; [apply (bool_decide_unpack _); by vm_compute|apply (bool_decide_unpack _); by vm_compute]|]). by apply Forall_nil. }
  eapply Forall_impl; [exact H|]. intros t [H1 H2]. split; [done|]. lia.
Qed.
Lemma drive_slow_shows m quick justone just : just_at m justone just ->
  shows n m (drive_slow buf xst junk quick 0 justone) (fun v ss ps => ps = [] /\
    (v = 0 /\ ss = zeros (length (List.filter (chosen just) (if quick =? 0 then slow else []))) \/ v = 1 /\ failed ss)).
Proof.
  intros Hj. unfold drive_slow. destruct (quick =? 0); cbn [negb]; [|apply shows_ret; split; [done|by left]].
  apply shows_quiet; [destruct justone; [apply quiet_ret|apply quiet_printf; [lia|constructor]]|]. intros _.
  eapply shows_bind; [apply (runtests_shows _ _ _ Hj), slow_named|]. intros v s1 p1 [-> Hv]. apply shows_ret. split; [done|].
  rewrite app_nil_r. destruct Hv as [[-> ->]|[-> Hf]]; [by left|by right].
Qed.
Lemma failed_app l1 l2 : failed l1 \/ failed l2 -> failed (l1 ++ l2).
Proof. intros [(x & Hx & Hx0)|(x & Hx & Hx0)]; exists x; (split; [apply elem_of_app; auto|done]). Qed.
Lemma drive_once_shows m quick justone just : just_at m justone just -> Forall named quicktests ->
  shows n m (drive_once buf xst junk quicktests quick 0 justone) (verdict (to_run quick just)).
Proof.
  intros Hj Hq. unfold drive_once. says.
  eapply shows_bind; [apply countfree_shows|]. intros c0 s1 p1 [-> ->].
  eapply shows_bind; [by apply (runtests_shows _ _ _ Hj)|]. intros v ss ps [-> [[-> ->]|[-> Hf]]]; cbn [Z.eqb negb andb];
    [|apply shows_ret; right; split; [done|]; left; by rewrite app_nil_r].
  eapply shows_bind; [by apply (drive_slow_shows _ _ _ _ Hj)|]. intros v ss ps [-> [[-> ->]|[-> Hf]]]; cbn [Z.eqb negb];
    [|apply shows_ret; right; split; [done|]; left; rewrite !app_nil_l, app_nil_r; apply failed_app; by right].
  eapply shows_bind; [apply countfree_shows|]. intros c1 s1 p1 [-> ->].
  assert (E : forall l1 l2 : list test, zeros (length l1) ++ zeros (length l2) = zeros (length (l1 ++ l2))) by (intros l1 l2; unfold zeros; by rewrite length_app, replicate_add).
  destruct (Z.ltb_spec c1 c0).
  - says. apply shows_ret. right. split; [done|]. right. by exists c0, c1.
  - apply shows_ret. left. split; [done|]. split; [|by exists c0, c1]. rewrite !app_nil_l, !app_nil_r. unfold to_run.
    by rewrite E, List.filter_app.
Qed.
Lemma drivetests_shows m quick justone just : just_at m justone just -> Forall named quicktests ->
  shows n m (drivetests buf xst junk quicktests quick 0 justone) (verdict (to_run quick just)).
Proof.
  intros Hj Hq. assert (H : forall k, shows n m (uiter (S k) (fun _ : unit =>
    let* r := drive_once buf xst junk quicktests quick 0 justone in
    uret (if negb (r =? 0) then inr 1 else if negb (0 =? 0) then inl tt else inr 0)) tt) (verdict (to_run quick just))).
  { intros k. cbn [uiter]. eapply (shows_bind _ _ _ _ (fun v ss ps => match v with inl _ => False | inr v => verdict (to_run quick just) v ss ps end)).
    - eapply shows_bind; [by apply (drive_once_shows _ _ _ _ Hj)|]. intros v ss ps Hv. apply shows_ret. rewrite !app_nil_r.
      destruct Hv as [(-> & Hv)|(-> & Hv)]; cbn; [by left|by right].
    - intros [[]|v] ss ps Hv; [done|]. apply shows_ret. by rewrite !app_nil_r. }
  intros tr o Ht. unfold drivetests, uloop in Ht. apply (H (pred n) tr o). by replace (S (pred n)) with n by lia.
Qed.

(** The command line of one round: no argument, [-q] or a name. *)
Definition mode (arg : option (list Z)) : Z * option (list Z) :=
  match arg with None => (0, None) | Some l => if bool_decide (l = str_bytes "-q") then (1, None) else (0, Some l) end.
Definition args_at (m : umem) (argv : list Z) (arg : option (list Z)) : Prop :=
  match argv, arg with
  | [_], None => True
  | [_; a], Some l => str_at m a l /\ (length l < n)%nat /\ (l = str_bytes "-q" \/ hd 0 l <> 45)
  | _, _ => False
  end.
Definition selected (arg : option (list Z)) : list test :=
  List.filter (chosen (mode arg).2) (quicktests ++ (if (mode arg).1 =? 0 then slow else [])).

Lemma str_at_chars m a l : str_at m a l -> Forall (fun c => c <> 0) l.
Proof. intros [H _]. apply Forall_lookup. intros i c Hi. by apply (H i c Hi). Qed.
Lemma flag_run m a l flag : str_at m a l -> (length l < n)%nat -> Forall (fun c => c <> 0) (str_bytes flag) ->
  exists c, strcmp (Ptr a) (lit flag) n m = URet c m /\ (c = 0 <-> l = str_bytes flag).
Proof.
  intros Ha Hl Hf. exists (cmp l (str_bytes flag)). split; [by apply strcmp_run|]. apply cmp_eq; [by eapply str_at_chars|done].
Qed.
Lemma test_args_run m argv arg : args_at m argv arg ->
  exists justone, test_args argv n m = URet ((mode arg).1, 0, justone) m /\ just_at m justone (mode arg).2.
Proof.
  intros H. destruct argv as [|a0 [|a [|a1 rest]]], arg as [l|]; try done; [by exists None|]. destruct H as (Ha & Hl & Hq). cbn [test_args mode].
  destruct (flag_run m a l "-q" Ha Hl) as (q & Eq & Iq); [by repeat constructor|]. rewrite (ubind_ret _ _ _ _ _ _ Eq).
  destruct (Z.eqb_spec q 0) as [->|Nq]; [rewrite bool_decide_true by tauto; by exists None|]. rewrite bool_decide_false by tauto.
  destruct Hq as [->|Hd]; [tauto|].
  assert (Hno : forall c, l <> str_bytes (String (Ascii.ascii_of_nat 45) c)) by (intros c ->; by apply Hd).
  destruct (flag_run m a l "-c" Ha Hl) as (c & Ec & Ic); [by repeat constructor|]. rewrite (ubind_ret _ _ _ _ _ _ Ec).
  destruct (Z.eqb_spec c 0) as [->|_]; [by destruct (Hno "c"); apply Ic|].
  destruct (flag_run m a l "-C" Ha Hl) as (C & EC & IC); [by repeat constructor|]. rewrite (ubind_ret _ _ _ _ _ _ EC).
  destruct (Z.eqb_spec C 0) as [->|_]; [by destruct (Hno "C"); apply IC|].
  rewrite (ubind_ret _ _ _ _ _ _ (cderef_run m (Ptr a) l n Ha)). destruct (Z.eqb_spec (hd 0 l) 45); [done|].
  exists (Some (Ptr a)). split; [done|]. split; [done|]. by eapply str_at_chars.
Qed.
Lemma quiet_exit (p : U unit) z m tr o : quiet n p -> trace ((p ;; uexit z) n m) tr o -> Forall granted tr -> (length tr < n)%nat ->
  reports tr [] [] /\ o = @UExit unit z \/ exists c k, o = UCall c k.
Proof.
  intros Hp Ht Hg Hl. apply trace_uobind in Ht as [(tr1 & tr2 & a & m1 & -> & H1 & H2)|(o1 & H1 & H2 & ->)].
  - inversion H2; subst. rewrite app_nil_r in *. left. split; [|done]. by apply (proj2 (Hp m tr1 _ H1 Hg Hl) a m1).
  - right. destruct (Hp m tr o1 H1 Hg Hl) as [Ha _]. destruct o1; try done; [by destruct (H2 a m0)|]. cbn. eauto.
Qed.
Lemma main_end v m tr o : (v = 0 \/ v = 1) ->
  trace ((if negb (v =? 0) then uexit 1 else printf ("ALL TESTS PASSED" ++ nl) [] ;; uexit 0) n m) tr o -> Forall granted tr -> (length tr < n)%nat ->
  reports tr [] [] /\ o = @UExit unit v \/ exists c k, o = UCall c k.
Proof.
  assert (Hp : quiet n (printf ("ALL TESTS PASSED" ++ nl) [])) by (apply quiet_printf; [lia|constructor]). revert Hp.
  generalize (printf ("ALL TESTS PASSED" ++ nl) []). intros p Hp [-> | ->] Ht Hg Hl.
  - by apply (quiet_exit p 0 m tr o Hp).
  - inversion Ht; subst. left. split; [apply reports_nil|done].
Qed.
End Pieces.

(** C40: the verdict of usertests is right: run without argument, with -q or
    with the name of a test, on a kernel that grants the parent's forks,
    pipes and waits, the runner never faults, and when it ends it exits with
    0 exactly if every selected test ran in a child that reported status 0
    and the count of the free pages did not fall, and with 1 exactly if some
    child reported another status or the count fell. *)
Theorem usertests_verdict buf xst junk n quicktests m argv arg tr o :
  xst <> 0 -> (16 <= n)%nat -> Z.of_nat n <= 2 ^ 31 -> Forall (named n) quicktests -> args_at n m argv arg ->
  Forall granted tr -> (length tr < n)%nat -> trace (usertests_main buf xst junk quicktests argv n m) tr o ->
  (exists c k, o = UCall c k) \/
  exists z, o = UExit z /\
    (z = 0 /\ statuses tr = zeros (length (selected buf xst junk quicktests arg)) /\
       (exists c0 c1, free_counts tr = [c0; c1] /\ c0 <= c1) \/
     z = 1 /\ (failed (statuses tr) \/ exists c0 c1, free_counts tr = [c0; c1] /\ c1 < c0)).
Proof.
  intros Hx Hn Hmax Hq Hargs Hg Hl Ht. destruct (test_args_run n m argv arg Hargs) as (justone & Ea & Hj).
  unfold usertests_main in Ht. rewrite (ubind_ret _ _ _ _ _ _ Ea) in Ht. cbv beta iota in Ht.
  pose proof (drivetests_shows buf xst junk Hx n Hn Hmax quicktests m (mode arg).1 justone (mode arg).2 Hj Hq) as Hd.
  apply trace_uobind in Ht as [(tr1 & tr2 & v & m1 & -> & H1 & H2)|(o1 & H1 & H2 & ->)].
  - apply Forall_app in Hg as [G1 G2]. rewrite length_app in Hl. destruct (Hd _ _ H1 G1 ltac:(lia)) as [_ Hv].
    destruct (Hv v m1 eq_refl) as (-> & ss & ps & Hr & Hver). assert (Hv01 : v = 0 \/ v = 1) by (destruct Hver as [[? _]|[? _]]; auto).
    destruct (main_end n Hn v m tr2 o Hv01 H2 G2 ltac:(lia)) as [[Hr2 ->]|?]; [|by left]. right. exists v. split; [done|].
    pose proof (reports_app _ _ _ _ _ _ Hr Hr2) as Hall. rewrite !app_nil_r in Hall. by apply reports_counts in Hall as [-> ->].
  - left. destruct (Hd _ _ H1 Hg Hl) as [Ha _]. destruct o1; try done; [by destruct (H2 a m0)|]. cbn. eauto.
Qed.

(** ** The files createdelete leaves behind *)

(** Code whose calls all satisfy [P]. *)
Definition only {A} (P : call -> Prop) (p : U A) : Prop := forall n m tr o, trace (p n m) tr o -> Forall (fun x => P x.1) tr.
Lemma only_bind {A B} P (p : U A) (f : A -> U B) : only P p -> (forall a, only P (f a)) -> only P (ubind p f).
Proof.
  intros Hp Hf n m tr o Ht. apply trace_uobind in Ht as [(tr1 & tr2 & a & m1 & -> & H1 & H2)|(o1 & H1 & _ & _)]; [|by eapply Hp].
  apply Forall_app. split; [by eapply Hp|by eapply Hf].
Qed.
Lemma only_ret {A} P (a : A) : only P (uret a).
Proof. intros n m tr o Ht. inversion Ht; subst. constructor. Qed.
Lemma only_sys_ (P : call -> Prop) c : P c -> only P (sys_ c).
Proof.
  intros Hc. apply only_bind; [|intros; apply only_ret]. intros n m tr o Ht. inversion Ht as [|c' k r tr' o' Ht']; subst; [constructor|].
  inversion Ht'; subst. by repeat constructor.
Qed.
Lemma only_forall {X} P (l : list X) body : (forall x, x ∈ l -> only P (body x)) -> only P (uforall l body).
Proof.
  induction l as [|x l IH]; intros Hb; [apply only_ret|]. apply only_bind; [apply Hb; left|]. intros _. apply IH. intros y Hy. apply Hb. by right.
Qed.
(** The first child creates the file [p:] (i is 10) and never unlinks it, the
    parent checks that it exists, and the last loop does not unlink it. *)
Lemma createdelete_leaves_files n m tr o : trace (createdelete_clean n m) tr o ->
  Forall (fun x => x.1 <> Unlink (cname [112 + 0; 48 + 10])) tr.
Proof.
  apply (only_forall (fun c => c <> Unlink (cname [112 + 0; 48 + 10]))). intros i Hi%elem_of_seqZ. apply only_forall. intros _ _. apply only_sys_.
  assert (H : forallb (fun i => negb (bool_decide (cname [112 + i; 48 + i] = cname [112 + 0; 48 + 10]))) (seqZ 0 20) = true) by (by vm_compute).
  rewrite forallb_forall in H. specialize (H i). rewrite <- list_elem_of_In in H. specialize (H ltac:(apply elem_of_seqZ; lia)).
  intros E. apply (f_equal (fun c => match c with Unlink p => p | _ => None end)) in E. by rewrite bool_decide_true in H.
Qed.

(** [usertests dirtest]: one page is free before and after, and the test's
    process exits with 0. *)
Definition ex_mem : umem := list_to_map (zip (seqZ 0x100 8) (str_bytes "dirtest" ++ [0])).
Definition ex_table : list test := [mk_test opentest "opentest"; mk_test dirtest "dirtest"].
Definition ex_writes (k : nat) : list answer := replicate k (mk_answer 1 []).
Definition ex_count : list answer :=
  [mk_answer 0 [3; 4]; mk_answer 7 []; mk_answer 0 []; mk_answer 1 [120]; mk_answer 0 []; mk_answer 0 []; mk_answer 7 [0]].
Definition ex_answers : list answer :=
  ex_writes 19 ++ ex_count ++ ex_writes 14 ++ [mk_answer 8 []; mk_answer 8 [0]] ++ ex_writes 3 ++ ex_count ++ ex_writes 17.
Definition ex_run : list call * uout unit := feed ex_answers (usertests_main 0 4096 0 ex_table [0; 0x100] 100%nat ex_mem).
Definition ex_trace : list (call * answer) := zip ex_run.1 ex_answers.

Lemma usertests_verdict_witness : statuses ex_trace = [0] /\ exists c0 c1, free_counts ex_trace = [c0; c1] /\ c0 <= c1.
Proof.
  assert (Ho : ex_run.2 = UExit 0) by (vm_compute; reflexivity).
  assert (Ht : trace (usertests_main 0 4096 0 ex_table [0; 0x100] 100%nat ex_mem) ex_trace (UExit 0))
    by (apply trace_feed; rewrite <- Ho; unfold ex_run; by destruct (feed _ _)).
  destruct (usertests_verdict 0 4096 0 100%nat ex_table ex_mem [0; 0x100] (Some (str_bytes "dirtest")) ex_trace (UExit 0)) as [(c & k & [=])|(z & [= <-] & [(_ & Hs & Hc)|[[=] _]])].
  - lia.
  - lia.
  - lia.
  - repeat (apply Forall_cons; split; [split; [apply (bool_decide_unpack _); vm_compute; exact I|apply (bool_decide_unpack _); vm_compute; exact I]|]). by apply Forall_nil.
  - split_and!; [|apply (bool_decide_unpack _); vm_compute; exact I|right; vm_compute; lia].
    split; [|reflexivity]. intros i c Hi. do 7 (destruct i as [|i]; [injection Hi as <-; split; [reflexivity|done]|]). discriminate Hi.
  - vm_compute. repeat (apply Forall_cons; split; [first [exact I|cbn; split; [discriminate|discriminate]|cbn; discriminate|cbn; reflexivity]|]). by apply Forall_nil.
  - vm_compute. lia.
  - exact Ht.
  - split; [rewrite Hs; vm_compute; reflexivity|exact Hc].
Defined.
