(* ===== verification/Mkfs.v ===== *)
(** * The tool that builds the disk image

    mkfs/mkfs.c runs on the host and writes fs.img: superblock, empty log,
    inodes, bitmap, and the root directory with one file per argument.  The
    image is the list of its sectors; the host is little-endian, its file
    system is the record [host] (which names can be created, and the contents
    of the files that can be opened; writes to the image succeed), and what
    is printed is left out.  [die] and a failed [assert] end the program, as
    [Panic].  The structures are those the kernel reads (Fs.v). *)

From S2P Require Import Prelude Params Kernel StringC Fs.

Record mkst := mk_mkst { img : list (list Z); freeinode : Z; freeblock : Z }.
Notation W := (M mkst).
Record host := mk_host { h_create : list Z -> bool; h_file : list Z -> option (list Z) }.

Definition die {A} (s : string) : W A := panic s.
Definition assert_ (b : bool) : W unit := if b then ret tt else panic "assert".

(** ** Layout *)
Definition NINODES : Z := 200.
Definition nbitmap : Z := FSSIZE / (BSIZE * 8) + 1.
Definition ninodeblocks : Z := NINODES / IPB + 1.
Definition nlog : Z := LOGSIZE.
Definition nmeta : Z := 2 + nlog + ninodeblocks + nbitmap.
Definition nblocks : Z := FSSIZE - nmeta.

(** The bytes of a value stored one by one and read back as an integer. *)
Definition xshort (x : Z) : Z := le_dec [u8 x; u8 (Z.shiftr x 8)].
Definition xint (x : Z) : Z := le_dec [u8 x; u8 (Z.shiftr x 8); u8 (Z.shiftr x 16); u8 (Z.shiftr x 24)].

Definition sb : superblock :=
  {| sb_magic := FSMAGIC; sb_size := xint FSSIZE; sb_nblocks := xint nblocks; sb_ninodes := xint NINODES;
     sb_nlog := xint nlog; sb_logstart := xint 2; sb_inodestart := xint (2 + nlog);
     sb_bmapstart := xint (2 + nlog + ninodeblocks) |}.
Definition sb_enc (b : superblock) : list Z :=
  concat (map (le_enc 4) [sb_magic b; sb_size b; sb_nblocks b; sb_ninodes b; sb_nlog b; sb_logstart b; sb_inodestart b; sb_bmapstart b]).

Definition zeroes : list Z := replicate (Z.to_nat BSIZE) 0.

(** ** Sectors *)
(** The sector an [lseek] to [sec * BSIZE], a [uint], reaches. *)
Definition sector_no (sec : Z) : nat := Z.to_nat (u32 (sec * BSIZE) / BSIZE).
(** Writing past the end leaves a hole of zeros. *)
Definition write_sector (i : nat) (buf : list Z) (l : list (list Z)) : list (list Z) :=
  if (i <? length l)%nat then <[i := buf]> l else l ++ replicate (i - length l) zeroes ++ [buf].
Definition wsect (sec : Z) (buf : list Z) : W unit :=
  modify (fun s => mk_mkst (write_sector (sector_no sec) buf (img s)) (freeinode s) (freeblock s)).
Definition rsect (sec : Z) : W (list Z) :=
  let* l := gets img in
  match l !! sector_no sec with Some buf => ret buf | None => die "read" end.

(** ** Inodes *)
Definition inode_off (inum : Z) : nat := Z.to_nat (64 * (inum mod IPB)).
Definition winode (inum : Z) (ip : dinode) : W unit :=
  let bn := IBLOCK inum sb in
  let* buf := rsect bn in
  wsect bn (put (inode_off inum) (dinode_enc ip) buf).
Definition rinode (inum : Z) : W dinode :=
  let bn := IBLOCK inum sb in
  let* buf := rsect bn in
  ret (dinode_dec (slice (inode_off inum) 64 buf)).

Definition ialloc (type : Z) : W Z :=
  let* inum := gets freeinode in
  modify (fun s => mk_mkst (img s) (u32 (freeinode s + 1)) (freeblock s)) ;;
  winode inum (mk_dinode (xshort type) 0 0 (xshort 1) (xint 0) (replicate 13 0)) ;;
  ret inum.

(** [freeblock++] *)
Definition take_block : W Z :=
  let* b := gets freeblock in
  modify (fun s => mk_mkst (img s) (freeinode s) (u32 (freeblock s + 1))) ;;
  ret b.

(** The bitmap of the first [used] blocks. *)
Definition balloc (used : Z) : W unit :=
  assert_ (used <? BSIZE * 8) ;;
  wsect (sb_bmapstart sb) (fold_left (fun buf i => bit_set (Z.of_nat i) buf) (seq 0 (Z.to_nat used)) zeroes).

Definition set_addr (i : Z) (v : Z) (d : dinode) : dinode :=
  mk_dinode (di_type d) (di_major d) (di_minor d) (di_nlink d) (di_size d) (aset (di_addrs d) i v).
Definition set_size (v : Z) (d : dinode) : dinode :=
  mk_dinode (di_type d) (di_major d) (di_minor d) (di_nlink d) v (di_addrs d).

(** The part of [iappend]'s loop that finds the block of [fbn], or takes one. *)
Definition iappend_block (din : dinode) (fbn : Z) : W (dinode * Z) :=
  if fbn <? NDIRECT then
    let* din :=
      (if xint (aget 0 (di_addrs din) fbn) =? 0
       then let* b := take_block in ret (set_addr fbn (xint b) din)
       else ret din) in
    ret (din, xint (aget 0 (di_addrs din) fbn))
  else
    let* din :=
      (if xint (aget 0 (di_addrs din) NDIRECT) =? 0
       then let* b := take_block in ret (set_addr NDIRECT (xint b) din)
       else ret din) in
    let ib := xint (aget 0 (di_addrs din) NDIRECT) in
    let* indirect := rsect ib in
    let i := fbn - NDIRECT in
    let* indirect :=
      (if word indirect i =? 0 then
         let* b := take_block in
         let indirect := put (4 * Z.to_nat i) (le_enc 4 (xint b)) indirect in
         wsect ib indirect ;;
         ret indirect
       else ret indirect) in
    ret (din, xint (word indirect i)).

Fixpoint iappend_loop (fuel : nat) (din : dinode) (off : Z) (p : list Z) : W (dinode * Z) :=
  match p with
  | [] => ret (din, off)
  | _ =>
    match fuel with
    | O => fun _ _ => NoFuel
    | S fuel' =>
      let n := Z.of_nat (length p) in
      let fbn := off / BSIZE in
      assert_ (fbn <? MAXFILE) ;;
      let* r := iappend_block din fbn in
      let '(din, x) := r in
      let n1 := Z.min n (u32 ((fbn + 1) * BSIZE - off)) in
      let* buf := rsect x in
      wsect x (put (Z.to_nat (off - fbn * BSIZE)) (take (Z.to_nat n1) p) buf) ;;
      iappend_loop fuel' din (u32 (off + n1)) (drop (Z.to_nat n1) p)
    end
  end.

Definition iappend (inum : Z) (p : list Z) : W unit :=
  let* din := rinode inum in
  let off := xint (di_size din) in
  let* r := iappend_loop (length p) din off p in
  let '(din, off) := r in
  winode inum (set_size (xint off) din).

(** ** The program *)
(** A directory entry: [strncpy] of the name into the zeroed structure. *)
Definition entry (inum : Z) (name : list Z) : list Z :=
  dirent_enc (mk_dirent (xshort inum) (take 14 (name ++ replicate 14 0))).

(** [while((cc = read(fd, buf, sizeof(buf))) > 0) iappend(inum, buf, cc)] *)
Fixpoint append_all (fuel : nat) (inum : Z) (data : list Z) : W unit :=
  match data with
  | [] => ret tt
  | _ =>
    match fuel with
    | O => fun _ _ => NoFuel
    | S fuel' =>
      iappend inum (take (Z.to_nat BSIZE) data) ;;
      append_all fuel' inum (drop (Z.to_nat BSIZE) data)
    end
  end.

(** The name of a file in the image. *)
Definition strip_dir (path : list Z) : list Z :=
  if bool_decide (take 5 path = str_bytes "user/") then drop 5 path else path.
Definition strip_mark (name : list Z) : list Z :=
  match name with c :: name' => if c =? 95 then name' else name | [] => [] end.

Definition add_file (h : host) (rootino : Z) (path : list Z) : W unit :=
  let shortname := strip_dir path in
  assert_ (negb (bool_decide (SLASH ∈ shortname))) ;;
  match h_file h path with
  | None => die "open"
  | Some data =>
      let shortname := strip_mark shortname in
      let* inum := ialloc T_FILE in
      iappend rootino (entry inum shortname) ;;
      append_all (length data) inum data
  end.

Definition main (h : host) (argv : list (list Z)) : W unit :=
  match argv with
  | _ :: image :: files =>
      assert_ (BSIZE mod 64 =? 0) ;;
      assert_ (BSIZE mod 16 =? 0) ;;
      if negb (h_create h image) then die "open" else
      modify (fun s => mk_mkst (img s) (freeinode s) nmeta) ;;
      forall_do (seq 0 (Z.to_nat FSSIZE)) (fun i => wsect (Z.of_nat i) zeroes) ;;
      wsect 1 (put 0 (sb_enc sb) zeroes) ;;
      let* rootino := ialloc T_DIR in
      assert_ (rootino =? ROOTINO) ;;
      iappend rootino (entry rootino (str_bytes ".")) ;;
      iappend rootino (entry rootino (str_bytes "..")) ;;
      forall_do files (add_file h rootino) ;;
      let* din := rinode rootino in
      let off := xint (di_size din) in
      let off := u32 ((off / BSIZE + 1) * BSIZE) in
      winode rootino (set_size (xint off) din) ;;
      let* used := gets freeblock in
      balloc used
  | _ => die "usage"
  end.
Definition mkst0 : mkst := mk_mkst [] 1 0.

(** ** Words and sectors *)
Notation enc4 l := (concat (map (le_enc 4) l)).

Lemma xint_u32 x : 0 <= x < 2 ^ 32 -> xint x = x.
Proof.
  intros H. unfold xint. rewrite !Z.shiftr_div_pow2 by lia. unfold le_dec. width_unfold.
  change (2 ^ 24) with 16777216. Z.to_euclidean_division_equations. lia.
Qed.
Lemma xshort_u16 x : 0 <= x < 2 ^ 16 -> xshort x = x.
Proof.
  intros H. unfold xshort. rewrite !Z.shiftr_div_pow2 by lia. unfold le_dec. width_unfold.
  Z.to_euclidean_division_equations. lia.
Qed.

Lemma put_app a b p : (length p <= length b)%nat -> put (length a) p (a ++ b) = a ++ p ++ drop (length p) b.
Proof.
  intros H. unfold put. rewrite take_app_length. do 2 f_equal. rewrite drop_app_ge by lia. f_equal. lia.
Qed.
Lemma word_enc4 l i v : l !! i = Some v -> 0 <= v < 2 ^ 32 -> word (enc4 l) (Z.of_nat i) = v.
Proof.
  intros Hi Hv. unfold word. rewrite Nat2Z.id, (slice_concat_enc4 _ _ _ Hi). by apply le_dec_enc4.
Qed.
Lemma put_enc4 l i v : (i < length l)%nat -> put (4 * i) (le_enc 4 v) (enc4 l) = enc4 (<[i := v]> l).
Proof.
  revert i. induction l as [|a l IH]; intros i Hi; [cbn in Hi; lia|]. destruct i as [|i].
  - cbn [map concat insert list_insert]. unfold put. rewrite Nat.mul_0_r, take_0, Nat.add_0_l, length_le_enc. cbn [app]. f_equal.
  - cbn [map concat insert list_insert length] in *. replace (4 * S i)%nat with (length (le_enc 4 a) + 4 * i)%nat by (rewrite length_le_enc; lia).
    rewrite <- IH by lia. unfold put. rewrite take_app_add, drop_app_ge by (rewrite length_le_enc; lia).
    rewrite <- !app_assoc. do 3 f_equal. f_equal. rewrite !length_le_enc. lia.
Qed.
Lemma enc4_zeroes k : enc4 (replicate k 0) = replicate (4 * k) 0.
Proof.
  induction k as [|k IH]; [done|]. cbn [replicate map concat]. rewrite IH. replace (4 * S k)%nat with (4 + 4 * k)%nat by lia. done.
Qed.

Definition sec (im : list (list Z)) (b : Z) : list Z := default [] (im !! Z.to_nat b).
Definition upd_sec (b : Z) (buf : list Z) (s : mkst) : mkst := mk_mkst (<[Z.to_nat b := buf]> (img s)) (freeinode s) (freeblock s).

(** An image of the right shape, whose blocks from [fb] on are unused. *)
Record img_ok (im : list (list Z)) (fb : Z) : Prop := mk_img_ok {
  io_len : length im = Z.to_nat FSSIZE;
  io_sec : Forall (fun b => length b = 1024%nat) im;
  io_free : forall b, fb <= b < FSSIZE -> sec im b = zeroes;
  io_fb : nmeta <= fb <= FSSIZE }.

Lemma sector_small b : 0 <= b < FSSIZE -> sector_no b = Z.to_nat b.
Proof.
  intros H. unfold sector_no. change BSIZE with 1024. change FSSIZE with 2000 in H. rewrite u32_small by lia. by rewrite Z.div_mul by lia.
Qed.
Lemma sec_lookup im b : length im = Z.to_nat FSSIZE -> 0 <= b < FSSIZE -> im !! Z.to_nat b = Some (sec im b).
Proof.
  intros Hl Hb. unfold sec. destruct (lookup_lt_is_Some_2 im (Z.to_nat b)) as [x Hx]; [lia|]. by rewrite Hx.
Qed.
Lemma sec_length im b : length im = Z.to_nat FSSIZE -> Forall (fun b => length b = 1024%nat) im -> 0 <= b < FSSIZE -> length (sec im b) = 1024%nat.
Proof. intros Hl Hf Hb. apply (Forall_lookup_1 _ _ _ _ Hf (sec_lookup im b Hl Hb)). Qed.
Lemma rsect_run b n s : length (img s) = Z.to_nat FSSIZE -> 0 <= b < FSSIZE -> rsect b n s = Ret (sec (img s) b) s.
Proof. intros Hl Hb. unfold rsect. kstep. rewrite sector_small by done. by rewrite (sec_lookup _ _ Hl Hb). Qed.
Lemma wsect_run b buf n s : length (img s) = Z.to_nat FSSIZE -> 0 <= b < FSSIZE -> wsect b buf n s = Ret tt (upd_sec b buf s).
Proof.
  intros Hl Hb. unfold wsect, modify, upd_sec. rewrite sector_small by done. unfold write_sector.
  destruct (Nat.ltb_spec (Z.to_nat b) (length (img s))); [done|lia].
Qed.
Lemma sec_upd_eq im b buf : length im = Z.to_nat FSSIZE -> 0 <= b < FSSIZE -> sec (<[Z.to_nat b := buf]> im) b = buf.
Proof. intros Hl Hb. unfold sec. by rewrite list_lookup_insert_eq by lia. Qed.
Lemma sec_upd_ne im b b' buf : 0 <= b -> 0 <= b' -> b <> b' -> sec (<[Z.to_nat b := buf]> im) b' = sec im b'.
Proof. intros ? ? ?. unfold sec. by rewrite list_lookup_insert_ne by lia. Qed.
Lemma img_ok_upd im fb b buf : img_ok im fb -> 0 <= b < fb -> length buf = 1024%nat -> img_ok (<[Z.to_nat b := buf]> im) fb.
Proof.
  intros [H1 H2 H3 H4] Hb Hl. constructor; [by rewrite length_insert|by apply Forall_insert| |done].
  intros b' Hb'. rewrite sec_upd_ne by lia. by apply H3.
Qed.
Lemma img_ok_take im fb : img_ok im fb -> fb < FSSIZE -> img_ok im (fb + 1).
Proof. intros [H1 H2 H3 H4] Hb. constructor; try done; [intros; apply H3; lia|lia]. Qed.

(** ** Files in the image

    A file is its type, the blocks of its content in order, its indirect
    block (0 when it has none) and its content. *)
Record afile := mk_afile { af_type : Z; af_bl : list Z; af_ib : Z; af_c : list Z }.
Definition din_of (A : afile) : dinode :=
  mk_dinode (af_type A) 0 0 1 (Z.of_nat (length (af_c A))) (take 12 (af_bl A ++ replicate 12 0) ++ [af_ib A]).
Definition blocks_of (A : afile) : list Z := af_bl A ++ (if decide (af_ib A = 0) then [] else [af_ib A]).
Definition all_blocks (Fs : list afile) : list Z := concat (map blocks_of Fs).

(** The blocks hold the content, then zeros; the indirect block lists the
    blocks from the thirteenth on. *)
Record file_ok (im : list (list Z)) (A : afile) (pad : nat) : Prop := mk_file_ok {
  fo_data : concat (map (sec im) (af_bl A)) = af_c A ++ replicate pad 0;
  fo_len : (length (af_bl A) <= 268)%nat;
  fo_direct : af_ib A = 0 -> (length (af_bl A) <= 12)%nat;
  fo_indirect : af_ib A <> 0 -> (12 <= length (af_bl A))%nat /\
    sec im (af_ib A) = enc4 (drop 12 (af_bl A) ++ replicate (268 - length (af_bl A)) 0) }.
(** Between two calls no block is allocated in vain. *)
Definition settled (im : list (list Z)) (A : afile) : Prop :=
  exists pad, file_ok im A pad /\ (pad < 1024)%nat /\ (af_ib A <> 0 -> (12 < length (af_bl A))%nat).

(** The file [A] is being extended, the others [R] are at rest; together they
    use exactly the blocks from [nmeta] to [fb]. *)
Record growing (im : list (list Z)) (fb : Z) (A : afile) (pad : nat) (R : list afile) : Prop := mk_growing {
  g_img : img_ok im fb;
  g_perm : blocks_of A ++ all_blocks R ≡ₚ seqZ nmeta (fb - nmeta);
  g_file : file_ok im A pad;
  g_rest : Forall (settled im) R }.

Lemma file_ok_upd im A pad b buf : file_ok im A pad -> 0 <= b -> b ∉ blocks_of A -> Forall (fun x => 0 <= x) (blocks_of A) ->
  file_ok (<[Z.to_nat b := buf]> im) A pad.
Proof.
  intros [H1 H2 H3 H4] Hb Hn Hp. unfold blocks_of in Hn, Hp. apply Forall_app in Hp as [Hp1 Hp2]. rewrite not_elem_of_app in Hn. destruct Hn as [Hn1 Hn2].
  constructor; try done.
  - rewrite <- H1. f_equal. apply map_ext_in. intros x Hx%list_elem_of_In. apply sec_upd_ne; [done| |set_solver].
    by apply (proj1 (Forall_forall _ _) Hp1).
  - intros Hi. destruct (H4 Hi) as [? E]. split; [done|]. rewrite <- E. rewrite decide_False in Hn2, Hp2 by done.
    apply Forall_cons in Hp2 as [? _]. apply sec_upd_ne; [done|done|set_solver].
Qed.

Section Growing.
Context {im : list (list Z)} {fb : Z} {A : afile} {pad : nat} {R : list afile}.
Hypothesis G : growing im fb A pad R.

Lemma g_bounds b : b ∈ blocks_of A ++ all_blocks R -> nmeta <= b < fb.
Proof. intros Hb. rewrite (g_perm _ _ _ _ _ G) in Hb. apply elem_of_seqZ in Hb. pose proof (io_fb _ _ (g_img _ _ _ _ _ G)). lia. Qed.
Lemma g_nodup : NoDup (blocks_of A ++ all_blocks R).
Proof. rewrite (g_perm _ _ _ _ _ G). apply NoDup_seqZ. Qed.
Lemma g_pos b : b ∈ blocks_of A -> nmeta <= b < fb.
Proof. intros. apply g_bounds, elem_of_app. by left. Qed.
Lemma g_bl b : b ∈ af_bl A -> nmeta <= b < fb.
Proof. intros. apply g_pos, elem_of_app. by left. Qed.
Lemma g_ib : af_ib A <> 0 -> af_ib A ∈ blocks_of A /\ nmeta <= af_ib A < fb.
Proof. intros H. assert (af_ib A ∈ blocks_of A) by (unfold blocks_of; rewrite decide_False by done; set_solver). split; [done|by apply g_pos]. Qed.

(** Writing a block of [A] leaves the other files alone. *)
Lemma g_rest_upd b buf : b ∈ blocks_of A -> Forall (settled (<[Z.to_nat b := buf]> im)) R.
Proof.
  intros Hb. pose proof (g_pos _ Hb) as Hbb. change nmeta with 46 in Hbb. apply Forall_forall. intros B HB. destruct (proj1 (Forall_forall _ _) (g_rest _ _ _ _ _ G) B HB) as (p & Hf & Hp).
  assert (Hsub : forall x, x ∈ blocks_of B -> x ∈ all_blocks R).
  { intros x Hx. unfold all_blocks. apply list_elem_of_In, in_concat. exists (blocks_of B). split; [apply in_map, list_elem_of_In, HB|by apply list_elem_of_In]. }
  exists p. split; [|done]. apply file_ok_upd; [done|lia| |].
  - intros Hx. pose proof g_nodup as Hn. apply NoDup_app in Hn as (_ & Hn & _). apply (Hn b Hb), Hsub, Hx.
  - apply Forall_forall. intros x Hx. pose proof (g_bounds x ltac:(apply elem_of_app; right; by apply Hsub)) as Hb2. change nmeta with 46 in Hb2. lia.
Qed.
Lemma g_concat_length (l : list Z) : (forall b, b ∈ l -> 0 <= b < FSSIZE) -> length (concat (map (sec im) l)) = (1024 * length l)%nat.
Proof.
  pose proof (g_img _ _ _ _ _ G) as [H1 H2 _ _]. induction l as [|b l IH]; intros Hl; [done|]. cbn [map concat length].
  rewrite length_app, IH by (intros; apply Hl; by right). rewrite (sec_length im b H1 H2) by (apply Hl; by left). lia.
Qed.
Lemma g_size : (1024 * length (af_bl A) = length (af_c A) + pad)%nat.
Proof.
  rewrite <- (g_concat_length (af_bl A)); [|intros b Hb; pose proof (g_bl b Hb) as Hx; pose proof (io_fb _ _ (g_img _ _ _ _ _ G)); change nmeta with 46 in *; lia].
  rewrite (fo_data _ _ _ (g_file _ _ _ _ _ G)), length_app, length_replicate. done.
Qed.
End Growing.

(** *** Writing the content *)
Definition with_c (A : afile) (c : list Z) : afile := mk_afile (af_type A) (af_bl A) (af_ib A) c.
Definition with_bl (A : afile) (bl : list Z) : afile := mk_afile (af_type A) bl (af_ib A) (af_c A).
Definition with_ib (A : afile) (ib : Z) : afile := mk_afile (af_type A) (af_bl A) ib (af_c A).

(** The data of a write goes to the end of the last block. *)
Lemma grow_write im fb A pad R bl0 x p : growing im fb A pad R -> af_bl A = bl0 ++ [x] ->
  (1024 * length bl0 <= length (af_c A))%nat -> (length p <= pad)%nat ->
  let o := (length (af_c A) - 1024 * length bl0)%nat in
  growing (<[Z.to_nat x := put o p (sec im x)]> im) fb (with_c A (af_c A ++ p)) (pad - length p) R.
Proof.
  intros G Ebl Hc Hp o. pose proof (io_fb _ _ (g_img _ _ _ _ _ G)) as Hfb. change nmeta with 46 in Hfb.
  assert (Hxb : x ∈ af_bl A) by (rewrite Ebl; apply elem_of_app; right; by left). assert (Hx : x ∈ blocks_of A) by (apply elem_of_app; by left).
  pose proof (g_pos G x Hx) as Hxr. change nmeta with 46 in Hxr. pose proof (g_img _ _ _ _ _ G) as [I1 I2 I3 I4].
  assert (Hl0 : length (concat (map (sec im) bl0)) = (1024 * length bl0)%nat).
  { apply (g_concat_length G). intros b Hb. assert (b ∈ af_bl A) as Hb' by (rewrite Ebl; apply elem_of_app; by left). pose proof (g_bl G b Hb') as Hr. change nmeta with 46 in Hr. lia. }
  pose proof (fo_data _ _ _ (g_file _ _ _ _ _ G)) as Hd. rewrite Ebl, map_app, concat_app in Hd. cbn [map concat] in Hd. rewrite app_nil_r in Hd.
  assert (E0 : concat (map (sec im) bl0) = take (1024 * length bl0) (af_c A)).
  { rewrite <- (take_app_length' (concat (map (sec im) bl0)) (sec im x) (1024 * length bl0)) by done. by rewrite Hd, take_app_le by lia. }
  assert (Ex : sec im x = drop (1024 * length bl0) (af_c A) ++ replicate pad 0).
  { rewrite <- (drop_app_length' (concat (map (sec im) bl0)) (sec im x) (1024 * length bl0)) by done. by rewrite Hd, drop_app_le by lia. }
  assert (Eo : o = length (drop (1024 * length bl0) (af_c A))) by (rewrite length_drop; done).
  assert (Eput : put o p (sec im x) = drop (1024 * length bl0) (af_c A) ++ p ++ replicate (pad - length p) 0).
  { rewrite Ex, Eo, put_app by (rewrite length_replicate; lia). by rewrite drop_replicate. }
  constructor; [| | |by apply (g_rest_upd G)].
  - apply img_ok_upd; [apply G|lia|]. rewrite length_put; [by apply sec_length; [..|lia]|]. rewrite Ex, Eo, length_app, length_replicate. lia.
  - apply (g_perm _ _ _ _ _ G).
  - destruct (g_file _ _ _ _ _ G) as [F1 F2 F3 F4]. constructor; cbn [with_c af_bl af_ib af_c]; try done.
    + rewrite Ebl, map_app, concat_app. cbn [map concat]. rewrite app_nil_r, sec_upd_eq by lia.
      replace (map (sec (<[Z.to_nat x:=put o p (sec im x)]> im)) bl0) with (map (sec im) bl0).
      * rewrite E0, Eput. rewrite app_assoc, take_drop. by rewrite <- app_assoc.
      * apply map_ext_in. intros y Hy%list_elem_of_In. symmetry. apply sec_upd_ne; [lia| |].
        -- assert (y ∈ af_bl A) as Hy' by (rewrite Ebl; apply elem_of_app; by left). pose proof (g_bl G y Hy') as Hr. change nmeta with 46 in Hr. lia.
        -- pose proof (g_nodup G) as Hn. apply NoDup_app in Hn as (Hn & _ & _). unfold blocks_of in Hn. apply NoDup_app in Hn as (Hn & _ & _).
           rewrite Ebl in Hn. apply NoDup_app in Hn as (_ & Hn & _). intros ->. apply (Hn y Hy). by left.
    + intros Hi. destruct (F4 Hi) as [? E]. split; [done|]. rewrite <- E. apply sec_upd_ne; [lia| |].
      * destruct (g_ib G Hi) as [_ Hr]. change nmeta with 46 in Hr. lia.
      * intros ->. pose proof (g_nodup G) as Hn. apply NoDup_app in Hn as (Hn & _ & _). unfold blocks_of in Hn. rewrite decide_False in Hn by done.
        apply NoDup_app in Hn as (_ & Hn & _). apply (Hn _ Hxb). by left.
Qed.

(** *** Taking blocks *)
Lemma seqZ_take fb : nmeta <= fb -> seqZ nmeta (fb + 1 - nmeta) ≡ₚ fb :: seqZ nmeta (fb - nmeta).
Proof.
  intros H. replace (fb + 1 - nmeta) with (Z.of_nat (S (Z.to_nat (fb - nmeta)))) by lia. rewrite seqZ_S.
  replace (Z.of_nat (Z.to_nat (fb - nmeta))) with (fb - nmeta) by lia. replace (nmeta + (fb - nmeta)) with fb by lia.
  rewrite Permutation_app_comm. done.
Qed.
Lemma grow_new_zero im fb A pad R : growing im fb A pad R -> fb < FSSIZE -> sec im fb = replicate 1024 0.
Proof. intros G Hfb. apply (io_free _ _ (g_img _ _ _ _ _ G)). lia. Qed.

(** A direct block. *)
Lemma grow_direct im fb A R : growing im fb A 0 R -> fb < FSSIZE -> af_ib A = 0 -> (length (af_bl A) < 12)%nat ->
  growing im (fb + 1) (with_bl A (af_bl A ++ [fb])) 1024 R.
Proof.
  intros G Hfb Hib Hl. pose proof (io_fb _ _ (g_img _ _ _ _ _ G)) as Hr. destruct (g_file _ _ _ _ _ G) as [F1 F2 F3 F4].
  constructor; [by apply img_ok_take; [apply G|]| | |apply G].
  - rewrite seqZ_take by lia. rewrite <- (g_perm _ _ _ _ _ G). unfold blocks_of. cbn [with_bl af_bl af_ib]. rewrite decide_True by done. solve_Permutation.
  - constructor; cbn [with_bl af_bl af_ib af_c].
    + rewrite map_app, concat_app, F1. cbn [map concat replicate]. by rewrite !app_nil_r, (grow_new_zero _ _ _ _ _ G Hfb).
    + rewrite length_app. cbn. lia.
    + rewrite length_app. cbn. lia.
    + done.
Qed.

(** The indirect block. *)
Lemma grow_ib im fb A R pad : growing im fb A pad R -> fb < FSSIZE -> af_ib A = 0 -> length (af_bl A) = 12%nat ->
  growing im (fb + 1) (with_ib A fb) pad R.
Proof.
  intros G Hfb Hib Hl. pose proof (io_fb _ _ (g_img _ _ _ _ _ G)) as Hr. change nmeta with 46 in Hr. destruct (g_file _ _ _ _ _ G) as [F1 F2 F3 F4].
  constructor; [by apply img_ok_take; [apply G|]| | |apply G].
  - rewrite seqZ_take by (change nmeta with 46; lia). rewrite <- (g_perm _ _ _ _ _ G). unfold blocks_of. cbn [with_ib af_bl af_ib]. rewrite (decide_True _ _ Hib), (decide_False (P := fb = 0)) by lia. solve_Permutation.
  - constructor; cbn [with_ib af_bl af_ib af_c]; try done; [lia|]. intros _. split; [lia|]. rewrite Hl, drop_ge by lia. cbn [app].
    rewrite (grow_new_zero _ _ _ _ _ G Hfb). by rewrite enc4_zeroes.
Qed.

(** A block listed in the indirect block. *)
Lemma grow_indirect im fb A R : growing im fb A 0 R -> fb < FSSIZE -> af_ib A <> 0 -> (length (af_bl A) < 268)%nat ->
  let i := (length (af_bl A) - 12)%nat in
  growing (<[Z.to_nat (af_ib A) := put (4 * i) (le_enc 4 fb) (sec im (af_ib A))]> im) (fb + 1) (with_bl A (af_bl A ++ [fb])) 1024 R.
Proof.
  intros G Hfb Hib Hl i. pose proof (io_fb _ _ (g_img _ _ _ _ _ G)) as Hr. change nmeta with 46 in Hr. destruct (g_file _ _ _ _ _ G) as [F1 F2 F3 F4].
  destruct (F4 Hib) as [H12 Eib]. destruct (g_ib G Hib) as [Hin Hibr]. change nmeta with 46 in Hibr. pose proof (g_img _ _ _ _ _ G) as [I1 I2 I3 I4].
  assert (Eput : put (4 * i) (le_enc 4 fb) (sec im (af_ib A)) = enc4 (drop 12 (af_bl A ++ [fb]) ++ replicate (268 - length (af_bl A ++ [fb])) 0)).
  { rewrite Eib, put_enc4 by (rewrite length_app, length_drop, length_replicate; unfold i; lia). f_equal. f_equal.
    rewrite drop_app_le by lia. replace (268 - length (af_bl A))%nat with (S (268 - length (af_bl A ++ [fb])))%nat by (rewrite length_app; cbn; lia).
    cbn [replicate]. rewrite insert_app_r_alt by (rewrite length_drop; unfold i; lia). rewrite length_drop. replace (i - (length (af_bl A) - 12))%nat with 0%nat by (unfold i; lia).
    cbn. by rewrite <- app_assoc. }
  constructor.
  - apply img_ok_upd; [by apply img_ok_take; [apply G|]|lia|]. rewrite length_put; [by apply sec_length; [..|lia]|].
    rewrite length_le_enc, (sec_length im (af_ib A) I1 I2) by lia. unfold i. lia.
  - rewrite seqZ_take by (change nmeta with 46; lia). rewrite <- (g_perm _ _ _ _ _ G). unfold blocks_of. cbn [with_bl af_bl af_ib]. rewrite !decide_False by done. solve_Permutation.
  - constructor; cbn [with_bl af_bl af_ib af_c].
    + rewrite map_app, concat_app. cbn [map concat]. rewrite app_nil_r, sec_upd_ne by lia. rewrite (grow_new_zero _ _ _ _ _ G Hfb).
      rewrite <- (app_nil_r (af_c A)). change [] with (replicate 0 0) at 1. rewrite <- F1. f_equal. f_equal.
      apply map_ext_in. intros y Hy%list_elem_of_In. apply sec_upd_ne; [lia|pose proof (g_bl G y Hy) as Hyr; change nmeta with 46 in Hyr; lia|].
      intros <-. pose proof (g_nodup G) as Hn. apply NoDup_app in Hn as (Hn & _ & _). unfold blocks_of in Hn. rewrite decide_False in Hn by done.
      apply NoDup_app in Hn as (_ & Hn & _). apply (Hn _ Hy). by left.
    + rewrite length_app. cbn. lia.
    + done.
    + intros _. split; [rewrite length_app; lia|]. by rewrite sec_upd_eq by lia.
  - by apply (g_rest_upd G).
Qed.

(** *** The addresses in the inode *)
Lemma din_direct A (q : nat) : (q < 12)%nat -> aget 0 (di_addrs (din_of A)) (Z.of_nat q) = nth q (af_bl A) 0.
Proof.
  intros Hq. unfold aget. rewrite Nat2Z.id. cbn [din_of di_addrs].
  assert (Hl : length (take 12 (af_bl A ++ replicate 12 0)) = 12%nat) by (rewrite length_take, length_app, length_replicate; lia).
  rewrite app_nth1 by lia.
  rewrite !nth_lookup. rewrite lookup_take_lt by lia. destruct (Nat.lt_ge_cases q (length (af_bl A))).
  - by rewrite lookup_app_l by lia.
  - rewrite lookup_app_r by lia. rewrite lookup_replicate_2 by lia. by rewrite (lookup_ge_None_2 (af_bl A)) by lia.
Qed.
Lemma din_indirect A : aget 0 (di_addrs (din_of A)) NDIRECT = af_ib A.
Proof.
  unfold aget. change (Z.to_nat NDIRECT) with 12%nat. cbn [din_of di_addrs].
  assert (Hl : length (take 12 (af_bl A ++ replicate 12 0)) = 12%nat) by (rewrite length_take, length_app, length_replicate; lia).
  rewrite app_nth2 by lia. by rewrite Hl.
Qed.
Lemma set_direct A v : (length (af_bl A) < 12)%nat -> set_addr (Z.of_nat (length (af_bl A))) v (din_of A) = din_of (with_bl A (af_bl A ++ [v])).
Proof.
  intros Hl. unfold set_addr, din_of. cbn [di_type di_major di_minor di_nlink di_size di_addrs with_bl af_type af_bl af_ib af_c]. f_equal. unfold aset. rewrite Nat2Z.id.
  rewrite insert_app_l by (rewrite length_take, length_app, length_replicate; lia). f_equal.
  rewrite !take_app_ge by (rewrite ?length_app; cbn; lia). rewrite insert_app_r_alt, Nat.sub_diag by lia. rewrite length_app. cbn [length].
  rewrite !take_replicate, <- app_assoc. f_equal. replace (12 - length (af_bl A))%nat with (S (12 - (length (af_bl A) + 1)))%nat by lia.
  rewrite !Nat.min_l by lia. done.
Qed.
Lemma set_indirect A v : set_addr NDIRECT v (din_of A) = din_of (with_ib A v).
Proof.
  unfold set_addr, din_of. cbn [di_type di_major di_minor di_nlink di_size di_addrs with_ib af_type af_bl af_ib af_c]. f_equal. unfold aset.
  change (Z.to_nat NDIRECT) with 12%nat. assert (Hl : length (take 12 (af_bl A ++ replicate 12 0)) = 12%nat) by (rewrite length_take, length_app, length_replicate; lia).
  rewrite insert_app_r_alt by lia. by rewrite Hl.
Qed.

Lemma din_long A l : (12 <= length (af_bl A))%nat -> din_of (with_bl A (af_bl A ++ l)) = din_of A.
Proof.
  intros Hl. unfold din_of. cbn [with_bl af_type af_bl af_ib af_c]. do 2 f_equal. rewrite <- app_assoc, !take_app_le by lia. done.
Qed.

(** The blocks of a file of [len] bytes, the indirect block included. *)
Definition nb (len : nat) : nat := ((len + 1023) / 1024)%nat.
Definition csz (len : nat) : nat := (nb len + if decide (12 < nb len)%nat then 1 else 0)%nat.
Lemma take_block_run n s : 0 <= freeblock s < FSSIZE -> take_block n s = Ret (freeblock s) (mk_mkst (img s) (freeinode s) (freeblock s + 1)).
Proof. intros H. unfold take_block. change FSSIZE with 2000 in H. ksteps. rewrite u32_small by lia. done. Qed.

(** What finding the next block achieves: the block of the end of the file,
    taken if there was none. *)
Definition found (s : mkst) (A : afile) (R : list afile) (q : nat) (s' : mkst) (A' : afile) (x : Z) : Prop :=
  exists bl0, growing (img s') (freeblock s') A' (1024 - length (af_c A) mod 1024)%nat R /\
    af_c A' = af_c A /\ af_type A' = af_type A /\ af_bl A' = bl0 ++ [x] /\ length bl0 = q /\ (af_ib A' <> 0 -> (12 < length (af_bl A'))%nat) /\
    freeblock s' = freeblock s + Z.of_nat (csz (length (af_c A) + 1)) - Z.of_nat (csz (length (af_c A))) /\ freeinode s' = freeinode s /\
    forall b, 0 <= b < nmeta -> sec (img s') b = sec (img s) b.

Lemma nb_eq len k : (len <= 1024 * k)%nat -> (1024 * k < len + 1024)%nat -> nb len = k.
Proof. intros H1 H2. unfold nb. symmetry. apply (Nat.div_unique _ _ _ (len + 1023 - 1024 * k)); lia. Qed.

Section FindBlock.
Context (s : mkst) (A : afile) (pad : nat) (R : list afile) (n : nat).
Hypothesis G : growing (img s) (freeblock s) A pad R.
Hypothesis Hpad : (pad < 1024)%nat.
Hypothesis Hset : af_ib A <> 0 -> (12 < length (af_bl A))%nat.
Hypothesis Hmax : Z.of_nat (length (af_c A)) < 274432.
Let q : nat := (length (af_c A) / 1024)%nat.

Lemma end_block : length (af_bl A) = (if decide (pad = 0%nat) then q else S q)%nat /\
  (1024 - length (af_c A) mod 1024 = if decide (pad = 0) then 1024 else pad)%nat.
Proof.
  pose proof (g_size G) as Hs. pose proof (Nat.div_mod_eq (length (af_c A)) 1024). pose proof (Nat.mod_upper_bound (length (af_c A)) 1024 ltac:(lia)).
  unfold q. destruct (decide (pad = 0%nat)); nia.
Qed.

Lemma csz_now : csz (length (af_c A)) = (length (af_bl A) + if decide (12 < length (af_bl A))%nat then 1 else 0)%nat.
Proof. unfold csz. rewrite (nb_eq _ (length (af_bl A))); [done|pose proof (g_size G); lia..]. Qed.
Lemma csz_next : csz (length (af_c A) + 1) = (S q + if decide (12 < S q)%nat then 1 else 0)%nat.
Proof.
  unfold csz. rewrite (nb_eq _ (S q)); [done|..]; pose proof (Nat.div_mod_eq (length (af_c A)) 1024); pose proof (Nat.mod_upper_bound (length (af_c A)) 1024 ltac:(lia)); unfold q; lia.
Qed.
Lemma block_range b : b ∈ af_bl A -> 0 < b < FSSIZE.
Proof. intros Hb. pose proof (g_bl G b Hb) as H. pose proof (io_fb _ _ (g_img _ _ _ _ _ G)). change nmeta with 46 in *. lia. Qed.

(** The block exists. *)
Lemma find_old : pad <> 0%nat -> exists x, iappend_block (din_of A) (Z.of_nat q) n s = Ret (din_of A, x) s /\ found s A R q s A x.
Proof.
  intros Hp. destruct end_block as [E1 E2]. rewrite decide_False in E1, E2 by done.
  destruct (lookup_lt_is_Some_2 (af_bl A) q) as [x Hx]; [lia|]. pose proof (list_elem_of_lookup_2 _ _ _ Hx) as Hin. pose proof (block_range x Hin) as Hr. change FSSIZE with 2000 in Hr.
  exists x. split.
  - unfold iappend_block. change NDIRECT with 12. destruct (Z.ltb_spec (Z.of_nat q) 12) as [Hq|Hq].
    + rewrite din_direct by lia. rewrite (nth_lookup_Some _ _ _ _ Hx), xint_u32 by lia. destruct (Z.eqb_spec x 0); [lia|]. ksteps.
      by rewrite din_direct, (nth_lookup_Some _ _ _ _ Hx), xint_u32 by lia.
    + change 12 with NDIRECT. destruct (g_file _ _ _ _ _ G) as [F1 F2 F3 F4]. assert (Hib : af_ib A <> 0) by (intros Hib; specialize (F3 Hib); lia).
      destruct (F4 Hib) as [_ Eib]. destruct (g_ib G Hib) as [_ Hibr]. pose proof (io_fb _ _ (g_img _ _ _ _ _ G)) as Hfb. change nmeta with 46 in *. change FSSIZE with 2000 in Hfb.
      rewrite din_indirect, xint_u32 by lia. destruct (Z.eqb_spec (af_ib A) 0); [done|]. rewrite bind_ret_l, din_indirect, xint_u32 by lia.
      rewrite (bind_ret _ _ _ _ _ _ (rsect_run (af_ib A) n s (io_len _ _ (g_img _ _ _ _ _ G)) ltac:(change FSSIZE with 2000; lia))), Eib.
      change NDIRECT with 12. replace (Z.of_nat q - 12) with (Z.of_nat (q - 12)) by lia.
      rewrite (word_enc4 _ (q - 12) x) by (try lia; rewrite lookup_app_l by (rewrite length_drop; lia); rewrite lookup_drop; by replace (12 + (q - 12))%nat with q by lia).
      destruct (Z.eqb_spec x 0); [lia|]. rewrite bind_ret_l.
      rewrite (word_enc4 _ (q - 12) x) by (try lia; rewrite lookup_app_l by (rewrite length_drop; lia); rewrite lookup_drop; by replace (12 + (q - 12))%nat with q by lia).
      by rewrite xint_u32 by lia.
  - exists (take q (af_bl A)). rewrite E2. split_and!; try done.
    + rewrite <- (take_S_r _ _ _ Hx). by rewrite take_ge by lia.
    + rewrite length_take. lia.
    + rewrite csz_now, csz_next, E1. lia.
Qed.

(** A new direct block. *)
Hypothesis Hroom : freeblock s + Z.of_nat (csz (length (af_c A) + 1)) - Z.of_nat (csz (length (af_c A))) <= FSSIZE.
Lemma fb_range : nmeta <= freeblock s <= FSSIZE.
Proof. apply (io_fb _ _ (g_img _ _ _ _ _ G)). Qed.

Lemma find_direct : pad = 0%nat -> (q < 12)%nat ->
  exists s' A' x, iappend_block (din_of A) (Z.of_nat q) n s = Ret (din_of A', x) s' /\ found s A R q s' A' x.
Proof.
  intros Hp Hq. destruct end_block as [E1 E2]. rewrite decide_True in E1, E2 by done. pose proof fb_range as Hfb. change nmeta with 46 in Hfb.
  pose proof Hroom as Hr. rewrite csz_now, csz_next, E1, !decide_False in Hr by lia.
  assert (Hib : af_ib A = 0) by (destruct (decide (af_ib A = 0)) as [|Hi]; [done|specialize (Hset Hi); lia]).
  pose proof G as G1. rewrite Hp in G1. pose proof (grow_direct _ _ _ _ G1 ltac:(lia) Hib ltac:(lia)) as G2.
  eexists (mk_mkst (img s) (freeinode s) (freeblock s + 1)), (with_bl A (af_bl A ++ [freeblock s])), (freeblock s). split.
  - unfold iappend_block. change NDIRECT with 12. destruct (Z.ltb_spec (Z.of_nat q) 12); [|lia].
    rewrite din_direct by lia. rewrite nth_overflow by lia. change (xint 0 =? 0) with true. cbv iota. change FSSIZE with 2000 in *.
    rewrite (bind_bind_ret _ _ _ _ _ _ _ (take_block_run n s ltac:(change FSSIZE with 2000; lia))), bind_ret_l. rewrite xint_u32 by lia.
    rewrite <- E1, set_direct by lia. rewrite din_direct by lia. cbn [with_bl af_bl].
    rewrite app_nth2, Nat.sub_diag by lia. cbn [nth]. by rewrite xint_u32 by lia.
  - exists (af_bl A). cbn [img freeblock freeinode with_bl af_c af_type af_bl af_ib]. rewrite E2. split_and!; try done.
    + rewrite csz_now, csz_next, E1, !decide_False by lia. lia.
Qed.

(** A new block listed in the indirect block [ib]. *)
Lemma find_entry s1 A1 : growing (img s1) (freeblock s1) A1 0 R -> af_ib A1 <> 0 -> length (af_bl A1) = q -> (12 <= q)%nat -> freeblock s1 < FSSIZE ->
  exists s', (let* indirect := rsect (xint (aget 0 (di_addrs (din_of A1)) NDIRECT)) in
     let i := Z.of_nat q - NDIRECT in
     let* indirect :=
      (if word indirect i =? 0 then
         let* b := take_block in
         let indirect := put (4 * Z.to_nat i) (le_enc 4 (xint b)) indirect in
         wsect (xint (aget 0 (di_addrs (din_of A1)) NDIRECT)) indirect ;;
         ret indirect
       else ret indirect) in
    ret (din_of A1, xint (word indirect i))) n s1 = Ret (din_of (with_bl A1 (af_bl A1 ++ [freeblock s1])), freeblock s1) s' /\
  growing (img s') (freeblock s') (with_bl A1 (af_bl A1 ++ [freeblock s1])) 1024 R /\ freeblock s' = freeblock s1 + 1 /\ freeinode s' = freeinode s1 /\
  forall b, 0 <= b < nmeta -> sec (img s') b = sec (img s1) b.
Proof.
  intros G1 Hib Hl Hq Hfb. pose proof (io_fb _ _ (g_img _ _ _ _ _ G1)) as Hfb1. change nmeta with 46 in Hfb1. destruct (g_ib G1 Hib) as [_ Hibr]. change nmeta with 46 in Hibr.
  assert (Hqm : (q < 268)%nat) by (unfold q; apply Nat.Div0.div_lt_upper_bound; lia).
  destruct (fo_indirect _ _ _ (g_file _ _ _ _ _ G1) Hib) as [_ Eib]. change FSSIZE with 2000 in *.
  pose proof (grow_indirect _ _ _ _ G1 ltac:(change FSSIZE with 2000; lia) Hib ltac:(lia)) as G2. cbn zeta in G2. rewrite Hl in G2.
  set (s2 := mk_mkst (img s1) (freeinode s1) (freeblock s1 + 1)). pose proof (io_len _ _ (g_img _ _ _ _ _ G1)) as Hlen.
  exists (upd_sec (af_ib A1) (put (4 * (q - 12)) (le_enc 4 (freeblock s1)) (sec (img s1) (af_ib A1))) s2).
  split; [|split; [exact G2|split; [done|split; [done|]]]].
  - rewrite din_indirect, xint_u32 by lia.
    rewrite (bind_ret _ _ _ _ _ _ (rsect_run (af_ib A1) n s1 Hlen ltac:(change FSSIZE with 2000; lia))), Eib, Hl.
    change NDIRECT with 12. replace (Z.of_nat q - 12) with (Z.of_nat (q - 12)) by lia. cbv zeta.
    assert (Ew : (drop 12 (af_bl A1) ++ replicate (268 - q) 0) !! (q - 12)%nat = Some 0).
    { rewrite lookup_app_r by (rewrite length_drop; lia). apply lookup_replicate_2. rewrite length_drop. lia. }
    rewrite (word_enc4 _ (q - 12) 0 Ew) by lia.
    change (0 =? 0) with true. cbv iota. rewrite (bind_bind_ret _ _ _ _ _ _ _ (take_block_run n s1 ltac:(change FSSIZE with 2000; lia))).
    fold s2. rewrite xint_u32, Nat2Z.id by lia. rewrite (bind_bind_ret _ _ _ _ _ _ _ (wsect_run (af_ib A1) _ n s2 Hlen ltac:(change FSSIZE with 2000; lia))), bind_ret_l.
    rewrite put_enc4 by (rewrite length_app, length_drop, length_replicate; lia).
    assert (Ew' : <[(q - 12)%nat := freeblock s1]> (drop 12 (af_bl A1) ++ replicate (268 - q) 0) !! (q - 12)%nat = Some (freeblock s1)).
    { apply list_lookup_insert_eq. rewrite length_app, length_drop, length_replicate. lia. }
    rewrite (word_enc4 _ (q - 12) _ Ew'), xint_u32, din_long by lia. done.
  - intros b Hb. cbn [upd_sec img s2]. apply sec_upd_ne; change nmeta with 46 in Hb; lia.
Qed.

Lemma find_indirect : pad = 0%nat -> (12 <= q)%nat ->
  exists s' A' x, iappend_block (din_of A) (Z.of_nat q) n s = Ret (din_of A', x) s' /\ found s A R q s' A' x.
Proof.
  intros Hp Hq. destruct end_block as [E1 E2]. rewrite decide_True in E1, E2 by done. pose proof fb_range as Hfb. change nmeta with 46 in Hfb.
  pose proof Hroom as Hr. rewrite csz_now, csz_next, E1 in Hr. rewrite (decide_True (P := (12 < S q)%nat)) in Hr by lia.
  pose proof G as G1. rewrite Hp in G1. unfold iappend_block. change NDIRECT with 12. destruct (Z.ltb_spec (Z.of_nat q) 12); [lia|]. change 12 with NDIRECT.
  destruct (decide (af_ib A = 0)) as [Hib|Hib].
  - assert (Hq12 : q = 12%nat) by (pose proof (fo_direct _ _ _ (g_file _ _ _ _ _ G) Hib); lia). rewrite decide_False in Hr by lia.
    pose proof (grow_ib _ _ _ _ _ G1 ltac:(lia) Hib ltac:(lia)) as G2. set (s1 := mk_mkst (img s) (freeinode s) (freeblock s + 1)).
    destruct (find_entry s1 (with_ib A (freeblock s)) G2) as (s' & E & G3 & F1 & F2 & F3); [cbn; lia|exact E1|lia|cbn [s1 freeblock]; lia|].
    exists s', (with_bl (with_ib A (freeblock s)) (af_bl A ++ [freeblock s1])), (freeblock s1). split.
    + rewrite din_indirect, Hib. change (xint 0 =? 0) with true. cbv iota. rewrite (bind_bind_ret _ _ _ _ _ _ _ (take_block_run n s ltac:(lia))), bind_ret_l.
      change FSSIZE with 2000 in *. rewrite (xint_u32 (freeblock s)) by lia. rewrite set_indirect. exact E.
    + exists (af_bl A). rewrite E2. split_and!; try done.
      * intros _. cbn. rewrite length_app. cbn. lia.
      * rewrite F1. cbn [s1 freeblock]. rewrite csz_now, csz_next, E1, (decide_True (P := (12 < S q)%nat)), decide_False by lia. lia.
  - assert (Hl : (12 < q)%nat) by (specialize (Hset Hib); lia). rewrite decide_True in Hr by lia.
    destruct (find_entry s A G1 Hib E1 Hq) as (s' & E & G3 & F1 & F2 & F3); [lia|].
    exists s', (with_bl A (af_bl A ++ [freeblock s])), (freeblock s). split.
    + destruct (g_ib G Hib) as [_ Hibr]. change nmeta with 46 in Hibr. change FSSIZE with 2000 in *.
      rewrite din_indirect, xint_u32 by lia. destruct (Z.eqb_spec (af_ib A) 0); [done|]. rewrite bind_ret_l. exact E.
    + exists (af_bl A). rewrite E2. split_and!; try done.
      * intros _. cbn. rewrite length_app. cbn. lia.
      * rewrite F1. rewrite csz_now, csz_next, E1, !decide_True by lia. lia.
Qed.

Lemma find_block : exists s' A' x, iappend_block (din_of A) (Z.of_nat q) n s = Ret (din_of A', x) s' /\ found s A R q s' A' x.
Proof.
  destruct (decide (pad = 0%nat)) as [Hp|Hp].
  - destruct (Nat.lt_ge_cases q 12); [by apply find_direct|by apply find_indirect].
  - destruct (find_old Hp) as (x & E & F). by exists s, A, x.
Qed.
End FindBlock.

Lemma nb_mono a b : (a <= b)%nat -> (nb a <= nb b)%nat.
Proof. intros. unfold nb. apply Nat.Div0.div_le_mono. lia. Qed.
Lemma csz_mono a b : (a <= b)%nat -> (csz a <= csz b)%nat.
Proof. intros H%nb_mono. unfold csz. repeat destruct (decide _); lia. Qed.
Lemma csz_block len k : (1 <= k)%nat -> (k <= 1024 - len mod 1024)%nat -> csz (len + k) = csz (len + 1).
Proof.
  intros H1 H2. unfold csz. rewrite (nb_eq (len + k) (S (len / 1024))), (nb_eq (len + 1) (S (len / 1024))); [done|..];
    pose proof (Nat.div_mod_eq len 1024); pose proof (Nat.mod_upper_bound len 1024 ltac:(lia)); lia.
Qed.

(** The size field does not matter to the search for the block. *)
Lemma iappend_block_size z d fbn n s d' x s' : iappend_block d fbn n s = Ret (d', x) s' ->
  iappend_block (set_size z d) fbn n s = Ret (set_size z d', x) s'.
Proof.
  assert (Hset : forall i a s1, (if xint (aget 0 (di_addrs d) i) =? 0 then let* b := take_block in ret (set_addr i (xint b) d) else ret d) n s = Ret a s1 ->
    (if xint (aget 0 (di_addrs d) i) =? 0 then let* b := take_block in ret (set_addr i (xint b) (set_size z d)) else ret (set_size z d)) n s = Ret (set_size z a) s1).
  { intros i a s1. destruct (_ =? 0); intros E; [|by injection E as <- <-]. kinv E. rewrite (bind_ret _ _ _ _ _ _ Hrun). by injection Hrun0 as <- <-. }
  unfold iappend_block. change (di_addrs (set_size z d)) with (di_addrs d). destruct (fbn <? NDIRECT); intros E; kinv E; rewrite (bind_ret _ _ _ _ _ _ (Hset _ _ _ Hrun)).
  - by injection Hrun0 as <- <- <-.
  - cbv zeta in Hrun0 |- *. change (di_addrs (set_size z a)) with (di_addrs a). kinv Hrun0. rewrite (bind_ret _ _ _ _ _ _ Hrun1).
    kinv Hrun2. rewrite (bind_ret _ _ _ _ _ _ Hrun0). by injection Hrun3 as <- <- <-.
Qed.

(** The loop of [iappend]. *)
Lemma iappend_loop_step fuel d (len : nat) p n s d1 x s1 : let q := (len / 1024)%nat in let n1 := Nat.min (length p) (1024 - len mod 1024) in
  p <> [] -> Z.of_nat len < 274432 -> Z.of_nat (length p) <= 274432 ->
  iappend_block d (Z.of_nat q) n s = Ret (d1, x) s1 -> length (img s1) = Z.to_nat FSSIZE -> 0 <= x < FSSIZE ->
  iappend_loop (S fuel) d (Z.of_nat len) p n s =
  iappend_loop fuel d1 (Z.of_nat (len + n1)) (drop n1 p) n (upd_sec x (put (len - 1024 * q) (take n1 p) (sec (img s1) x)) s1).
Proof.
  intros q n1 Hp Hl Hlp E Hs Hx. pose proof (Nat.div_mod_eq len 1024) as Hdm. pose proof (Nat.mod_upper_bound len 1024 ltac:(lia)) as Hmb. fold q in Hdm.
  destruct p as [|c p]; [done|]. cbn [iappend_loop]. set (p' := c :: p) in *. change BSIZE with 1024.
  assert (Eq : Z.of_nat len / 1024 = Z.of_nat q) by (unfold q; rewrite Nat2Z.inj_div; done). rewrite Eq.
  assert (Z.of_nat q <? MAXFILE = true) as -> by (apply Z.ltb_lt; change MAXFILE with 268; lia). cbn [assert_]. rewrite bind_ret_l, (bind_ret _ _ _ _ _ _ E).
  assert (En : Z.min (Z.of_nat (length p')) (u32 ((Z.of_nat q + 1) * 1024 - Z.of_nat len)) = Z.of_nat n1) by (rewrite u32_small by lia; unfold n1; lia).
  cbv zeta. rewrite En, Nat2Z.id. rewrite (bind_ret _ _ _ _ _ _ (rsect_run x n s1 Hs Hx)), (bind_ret _ _ _ _ _ _ (wsect_run x _ n s1 Hs Hx)).
  rewrite u32_small by lia. replace (Z.to_nat (Z.of_nat len - Z.of_nat q * 1024)) with (len - 1024 * q)%nat by lia. by rewrite <- Nat2Z.inj_add.
Qed.

Lemma iappend_loop_run R z n : forall fuel s A pad p, growing (img s) (freeblock s) A pad R -> (pad < 1024)%nat ->
  (af_ib A <> 0 -> (12 < length (af_bl A))%nat) -> (length p <= fuel)%nat -> Z.of_nat (length (af_c A) + length p) <= 274432 ->
  freeblock s + Z.of_nat (csz (length (af_c A) + length p)) - Z.of_nat (csz (length (af_c A))) <= FSSIZE ->
  exists s' A' pad', iappend_loop fuel (set_size z (din_of A)) (Z.of_nat (length (af_c A))) p n s =
      Ret (set_size z (din_of A'), Z.of_nat (length (af_c A'))) s' /\
    growing (img s') (freeblock s') A' pad' R /\ (pad' < 1024)%nat /\ (af_ib A' <> 0 -> (12 < length (af_bl A'))%nat) /\
    af_c A' = af_c A ++ p /\ af_type A' = af_type A /\
    freeblock s' = freeblock s + Z.of_nat (csz (length (af_c A) + length p)) - Z.of_nat (csz (length (af_c A))) /\ freeinode s' = freeinode s /\
    forall b, 0 <= b < nmeta -> sec (img s') b = sec (img s) b.
Proof.
  induction fuel as [|fuel IH]; intros s A pad p G Hpad Hset Hfuel Hmax Hroom.
  - destruct p; [|cbn in Hfuel; lia]. exists s, A, pad. rewrite app_nil_r, Nat.add_0_r. split_and!; try done. lia.
  - destruct p as [|c p0]; [exists s, A, pad; rewrite app_nil_r, Nat.add_0_r; split_and!; try done; lia|].
    set (p := c :: p0) in *. assert (Hp : (1 <= length p)%nat) by (cbn; lia). set (q := (length (af_c A) / 1024)%nat).
    pose proof (Nat.div_mod_eq (length (af_c A)) 1024) as Hdm. pose proof (Nat.mod_upper_bound (length (af_c A)) 1024 ltac:(lia)) as Hmb. fold q in Hdm.
    pose proof (csz_mono (length (af_c A) + 1) (length (af_c A) + length p) ltac:(lia)) as Hmono.
    destruct (find_block s A pad R n G Hpad Hset ltac:(lia) ltac:(lia)) as (s1 & A1 & x & E1 & bl0 & G1 & C1 & T1 & B1 & L1 & S1 & F1 & I1 & K1). fold q in E1, L1.
    set (n1 := Nat.min (length p) (1024 - length (af_c A) mod 1024)). set (buf := sec (img s1) x).
    pose proof (grow_write _ _ _ _ _ bl0 x (take n1 p) G1 B1 ltac:(rewrite C1, L1; lia) ltac:(rewrite length_take; lia)) as G2.
    assert (Hn1 : length (take n1 p) = n1) by (rewrite length_take; lia). rewrite Hn1, C1, L1 in G2. cbn zeta in G2.
    assert (Hx : x ∈ af_bl A1) by (rewrite B1; apply elem_of_app; right; by left). pose proof (g_bl G1 x Hx) as Hxr. pose proof (io_fb _ _ (g_img _ _ _ _ _ G1)) as Hfb1. change nmeta with 46 in Hxr, Hfb1.
    set (s2 := upd_sec x (put (length (af_c A) - 1024 * q) (take n1 p) buf) s1).
    destruct (IH s2 (with_c A1 (af_c A ++ take n1 p)) _ (drop n1 p) G2) as (s' & A' & pad' & E & G' & P' & S' & C' & T' & F' & I' & K').
    + lia.
    + exact S1.
    + rewrite length_drop. lia.
    + cbn [with_c af_c]. rewrite length_app, Hn1, length_drop. lia.
    + cbn [with_c af_c s2 upd_sec freeblock]. rewrite length_app, Hn1, length_drop, F1, (csz_block _ n1) by lia. replace (length (af_c A) + n1 + (length p - n1))%nat with (length (af_c A) + length p)%nat by lia. lia.
    + exists s', A', pad'. split_and!; try done.
      * rewrite (iappend_loop_step fuel (set_size z (din_of A)) (length (af_c A)) p n s _ _ _ ltac:(done) ltac:(lia) ltac:(lia) (iappend_block_size z _ _ _ _ _ _ _ E1) (io_len _ _ (g_img _ _ _ _ _ G1)) ltac:(lia)).
        fold q n1 buf s2. rewrite <- E. cbn [with_c af_c]. rewrite length_app, Hn1. done.
      * rewrite C'. cbn [with_c af_c]. by rewrite <- app_assoc, take_drop.
      * by rewrite T'.
      * rewrite F'. cbn [with_c af_c s2 upd_sec freeblock]. rewrite length_app, Hn1, length_drop, F1, (csz_block _ n1) by lia. replace (length (af_c A) + n1 + (length p - n1))%nat with (length (af_c A) + length p)%nat by lia. lia.
      * by rewrite I'.
      * intros b Hb. rewrite K' by done. cbn [s2 upd_sec img]. change nmeta with 46 in Hb. rewrite sec_upd_ne by lia. apply K1. done.
Qed.

(** ** The inode table *)
Definition ino (im : list (list Z)) (inum : Z) : list Z := slice (inode_off inum) 64 (sec im (inum / 16 + 32)).
Lemma iblock_no inum : 0 <= inum < 200 -> IBLOCK inum sb = inum / 16 + 32 /\ 32 <= inum / 16 + 32 < 45.
Proof.
  intros H. unfold IBLOCK. change (sb_inodestart sb) with 32. change IPB with 16. rewrite u32_small by (Z.to_euclidean_division_equations; lia).
  Z.to_euclidean_division_equations. lia.
Qed.
Lemma inode_off_range inum : (inode_off inum + 64 <= 1024)%nat.
Proof. unfold inode_off. change IPB with 16. pose proof (Z.mod_pos_bound inum 16 ltac:(lia)). lia. Qed.

Lemma winode_run inum d n s : img_ok (img s) (freeblock s) -> 0 <= inum < 200 -> length (dinode_enc d) = 64%nat ->
  exists s', winode inum d n s = Ret tt s' /\ img_ok (img s') (freeblock s') /\ ino (img s') inum = dinode_enc d /\
    (forall j, 0 <= j < 200 -> j <> inum -> ino (img s') j = ino (img s) j) /\
    (forall b, 0 <= b < FSSIZE -> ~ 32 <= b < 45 -> sec (img s') b = sec (img s) b) /\
    freeblock s' = freeblock s /\ freeinode s' = freeinode s.
Proof.
  intros I Hi Hd. destruct (iblock_no inum Hi) as [Eb Hb]. pose proof (io_fb _ _ I) as Hfb. change nmeta with 46 in Hfb. change FSSIZE with 2000 in *.
  pose proof (inode_off_range inum) as Hoff. set (b := inum / 16 + 32) in *.
  assert (Hl : length (sec (img s) b) = 1024%nat) by (apply sec_length; [apply I|apply I|change FSSIZE with 2000; lia]).
  unfold winode. rewrite Eb. rewrite (bind_ret _ _ _ _ _ _ (rsect_run b n s (io_len _ _ I) ltac:(change FSSIZE with 2000; lia))).
  eexists. split; [apply wsect_run; [apply I|change FSSIZE with 2000; lia]|]. cbn [upd_sec img freeblock freeinode]. split_and!; try done.
  - apply img_ok_upd; [done|lia|]. rewrite length_put; [done|lia].
  - unfold ino. fold b. rewrite sec_upd_eq by (first [exact (io_len _ _ I)|change FSSIZE with 2000; lia]). rewrite <- Hd at 1. apply slice_put_eq. lia.
  - intros j Hj Hne. unfold ino. destruct (decide (j / 16 + 32 = b)) as [E|N].
    + rewrite E, sec_upd_eq by (first [exact (io_len _ _ I)|change FSSIZE with 2000; lia]). apply slice_put_ne; [lia|]. rewrite Hd. unfold b in E. unfold inode_off. change IPB with 16.
      Z.to_euclidean_division_equations. lia.
    + destruct (iblock_no j Hj) as [_ Hbj]. by rewrite sec_upd_ne by lia.
  - intros b' Hb' Hn. apply sec_upd_ne; lia.
Qed.

(** ** The state between calls *)
Record image (s : mkst) (Fs : list afile) : Prop := mk_image {
  v_img : img_ok (img s) (freeblock s);
  v_perm : all_blocks Fs ≡ₚ seqZ nmeta (freeblock s - nmeta);
  v_files : Forall (settled (img s)) Fs;
  v_slots : forall k A, Fs !! k = Some A -> ino (img s) (Z.of_nat (S k)) = dinode_enc (din_of A);
  v_next : freeinode s = Z.of_nat (S (length Fs));
  v_count : (length Fs < 200)%nat;
  v_types : Forall (fun A => 0 <= af_type A < 32768) Fs;
  v_blank : forall j, 0 <= j < 200 -> j = 0 \/ Z.of_nat (length Fs) < j -> ino (img s) j = replicate 64 0 }.

Lemma all_blocks_mid X A Y : all_blocks (X ++ A :: Y) ≡ₚ blocks_of A ++ all_blocks (X ++ Y).
Proof. unfold all_blocks. rewrite !map_app, !concat_app. cbn [map concat]. solve_Permutation. Qed.
Lemma image_growing s Fs k A : image s Fs -> Fs !! k = Some A ->
  exists pad, growing (img s) (freeblock s) A pad (take k Fs ++ drop (S k) Fs) /\ (pad < 1024)%nat /\ (af_ib A <> 0 -> (12 < length (af_bl A))%nat).
Proof.
  intros I Hk. destruct (Forall_lookup_1 _ _ _ _ (v_files _ _ I) Hk) as (pad & F & Hp & Hi). exists pad. split; [|done].
  pose proof (take_drop_middle _ _ _ Hk) as E. constructor; [apply I| |done|].
  - rewrite <- all_blocks_mid, E. apply I.
  - pose proof (v_files _ _ I) as Hf. rewrite <- E in Hf. apply Forall_app in Hf as [? [? ?]%Forall_cons]. by apply Forall_app.
Qed.
Lemma din_wf im fb A pad R : growing im fb A pad R -> 0 <= af_type A < 32768 -> dinode_wf (din_of A) /\ Z.of_nat (length (af_c A)) <= 274432.
Proof.
  intros G Ht. pose proof (g_size G) as Hs. pose proof (fo_len _ _ _ (g_file _ _ _ _ _ G)) as Hl. pose proof (io_fb _ _ (g_img _ _ _ _ _ G)) as Hfb.
  assert (Hb : forall b, nmeta <= b < fb -> 0 <= b < 4294967296) by (intros; change nmeta with 46 in *; change FSSIZE with 2000 in *; lia).
  split; [|lia]. unfold dinode_wf. cbn [din_of di_type di_major di_minor di_nlink di_size di_addrs]. split_and!; try lia.
  - rewrite length_app, length_take, length_app, length_replicate. cbn [length]. lia.
  - apply Forall_app. split.
    + apply Forall_take, Forall_app. split; [apply Forall_forall; intros b Hin; by apply Hb, (g_bl G)|]. apply Forall_replicate. lia.
    + apply Forall_singleton. destruct (decide (af_ib A = 0)) as [->|Hi]; [lia|]. by apply Hb, (g_ib G).
Qed.
Lemma rinode_run s Fs k A n : image s Fs -> Fs !! k = Some A -> rinode (Z.of_nat (S k)) n s = Ret (din_of A) s.
Proof.
  intros I Hk. destruct (image_growing s Fs k A I Hk) as (pad & G & _). destruct (din_wf _ _ _ _ _ G (Forall_lookup_1 _ _ _ _ (v_types _ _ I) Hk)) as [Hwf _].
  pose proof (lookup_lt_Some _ _ _ Hk). pose proof (v_count _ _ I). destruct (iblock_no (Z.of_nat (S k)) ltac:(lia)) as [Eb Hb].
  unfold rinode. rewrite Eb. rewrite (bind_ret _ _ _ _ _ _ (rsect_run (Z.of_nat (S k) / 16 + 32) n s (io_len _ _ (v_img _ _ I)) ltac:(change FSSIZE with 2000; lia))).
  unfold ret. f_equal. fold (ino (img s) (Z.of_nat (S k))). rewrite (v_slots _ _ I k A Hk). by apply dinode_dec_enc.
Qed.

(** Sectors outside the inode table and the data: boot block, superblock, log, bitmap. *)
Definition keeps (s s' : mkst) : Prop := forall b, 0 <= b < nmeta -> ~ 32 <= b < 45 -> sec (img s') b = sec (img s) b.
Lemma keeps_trans s1 s2 s3 : keeps s1 s2 -> keeps s2 s3 -> keeps s1 s3.
Proof. intros H1 H2 b Hb Hn. rewrite H2 by done. by apply H1. Qed.
(** Writing inodes leaves the data alone. *)
Lemma file_ok_keep im im' B pad : file_ok im B pad -> Forall (fun b => nmeta <= b < FSSIZE) (blocks_of B) ->
  (forall b, nmeta <= b < FSSIZE -> sec im' b = sec im b) -> file_ok im' B pad.
Proof.
  intros [F1 F2 F3 F4] Hb Hk. unfold blocks_of in Hb. apply Forall_app in Hb as [Hb1 Hb2]. constructor; try done.
  - rewrite <- F1. f_equal. apply map_ext_in. intros x Hx%list_elem_of_In. apply Hk. by apply (proj1 (Forall_forall _ _) Hb1).
  - intros Hi. destruct (F4 Hi) as [? E]. split; [done|]. rewrite <- E. rewrite decide_False in Hb2 by done. apply Forall_cons in Hb2 as [? _]. by apply Hk.
Qed.
Lemma settled_keep im im' B : settled im B -> Forall (fun b => nmeta <= b < FSSIZE) (blocks_of B) ->
  (forall b, nmeta <= b < FSSIZE -> sec im' b = sec im b) -> settled im' B.
Proof. intros (pad & F & Hp) Hb Hk. exists pad. split; [by eapply file_ok_keep|done]. Qed.
Lemma perm_range l fb : l ≡ₚ seqZ nmeta (fb - nmeta) -> nmeta <= fb <= FSSIZE -> Forall (fun b => nmeta <= b < FSSIZE) l.
Proof. intros -> H. apply Forall_forall. intros b Hb%elem_of_seqZ. lia. Qed.
Lemma all_blocks_in Fs B : B ∈ Fs -> forall P, Forall P (all_blocks Fs) -> Forall P (blocks_of B).
Proof.
  intros [X [Y ->]]%list_elem_of_split P H. unfold all_blocks in H. rewrite map_app, concat_app in H. apply Forall_app in H as [_ H]. cbn [map concat] in H. by apply Forall_app in H as [? _].
Qed.

(** [iappend] appends to one file and keeps the others. *)
Lemma iappend_run s Fs k A p n : image s Fs -> Fs !! k = Some A -> Z.of_nat (length (af_c A) + length p) <= 274432 ->
  freeblock s + Z.of_nat (csz (length (af_c A) + length p)) - Z.of_nat (csz (length (af_c A))) <= FSSIZE ->
  exists s' A', iappend (Z.of_nat (S k)) p n s = Ret tt s' /\ image s' (<[k := A']> Fs) /\ af_type A' = af_type A /\ af_c A' = af_c A ++ p /\
    freeblock s' = freeblock s + Z.of_nat (csz (length (af_c A) + length p)) - Z.of_nat (csz (length (af_c A))) /\ keeps s s'.
Proof.
  intros I Hk Hmax Hroom. destruct (image_growing s Fs k A I Hk) as (pad & G & Hpad & Hset). pose proof (Forall_lookup_1 _ _ _ _ (v_types _ _ I) Hk) as Ht.
  pose proof (lookup_lt_Some _ _ _ Hk) as Hkl. pose proof (v_count _ _ I) as Hcnt.
  destruct (iappend_loop_run _ (Z.of_nat (length (af_c A))) n (length p) s A pad p G Hpad Hset ltac:(lia) Hmax Hroom) as (s1 & A' & pad' & E1 & G1 & P1 & S1 & C1 & T1 & F1 & I1 & K1).
  destruct (din_wf _ _ _ _ _ G1 ltac:(by rewrite T1)) as [Hwf' Hsz'].
  destruct (winode_run (Z.of_nat (S k)) (din_of A') n s1 (g_img _ _ _ _ _ G1) ltac:(lia)) as (s2 & E2 & I2 & J1 & J2 & J3 & J4 & J5); [apply length_dinode_enc, Hwf'|].
  exists s2, A'. assert (Hsp : <[k := A']> Fs = take k Fs ++ A' :: drop (S k) Fs) by (by apply insert_take_drop). pose proof (io_fb _ _ (g_img _ _ _ _ _ G1)) as Hfb.
  assert (Hperm : all_blocks (<[k := A']> Fs) ≡ₚ seqZ nmeta (freeblock s1 - nmeta)) by (rewrite Hsp, all_blocks_mid; apply (g_perm _ _ _ _ _ G1)).
  assert (Hk2 : forall b, nmeta <= b < FSSIZE -> sec (img s2) b = sec (img s1) b) by (intros b Hb; apply J3; change nmeta with 46 in *; lia).
  split_and!; try done.
  - unfold iappend. rewrite (bind_ret _ _ _ _ _ _ (rinode_run s Fs k A n I Hk)). cbn [din_of di_size]. rewrite xint_u32 by lia.
    change (mk_dinode (af_type A) 0 0 1 (Z.of_nat (length (af_c A))) (take 12 (af_bl A ++ replicate 12 0) ++ [af_ib A])) with (set_size (Z.of_nat (length (af_c A))) (din_of A)).
    rewrite (bind_ret _ _ _ _ _ _ E1). cbv iota. rewrite xint_u32 by (rewrite C1, length_app; lia). exact E2.
  - constructor.
    + done.
    + by rewrite J4.
    + apply Forall_forall. intros B HB. apply (settled_keep (img s1)); [|by apply (all_blocks_in _ B HB), (perm_range _ (freeblock s1))|done].
      rewrite Hsp in HB. apply elem_of_app in HB as [HB|HB]; [|apply elem_of_cons in HB as [->|HB]; [exists pad'; split; [apply (g_file _ _ _ _ _ G1)|done]|]];
        apply (proj1 (Forall_forall _ _) (g_rest _ _ _ _ _ G1)); apply elem_of_app; tauto.
    + intros j B Hj. destruct (decide (k = j)) as [<-|Hne].
      * rewrite list_lookup_insert_eq in Hj by done. by injection Hj as <-.
      * rewrite list_lookup_insert_ne in Hj by done. pose proof (lookup_lt_Some _ _ _ Hj). rewrite J2 by lia. rewrite <- (v_slots _ _ I j B Hj). unfold ino.
        destruct (iblock_no (Z.of_nat (S j)) ltac:(lia)) as [_ Hb]. f_equal. apply K1. change nmeta with 46. lia.
    + rewrite J5, I1, length_insert. apply I.
    + by rewrite length_insert.
    + apply Forall_insert; [apply I|by rewrite T1].
    + intros j Hj Hor. rewrite length_insert in Hor. rewrite J2 by lia. rewrite <- (v_blank _ _ I j Hj Hor). unfold ino.
      destruct (iblock_no j Hj) as [_ Hb]. f_equal. apply K1. change nmeta with 46. lia.
  - by rewrite J4.
  - intros b Hb Hn. rewrite J3; [by apply K1|change nmeta with 46 in Hb; change FSSIZE with 2000; lia|done].
Qed.

Lemma ialloc_run s Fs ty n : image s Fs -> (length Fs + 1 < 200)%nat -> 0 <= ty < 32768 ->
  exists s', ialloc ty n s = Ret (Z.of_nat (S (length Fs))) s' /\ image s' (Fs ++ [mk_afile ty [] 0 []]) /\ freeblock s' = freeblock s /\ keeps s s'.
Proof.
  intros I Hc Ht. unfold ialloc. rewrite bind_gets, bind_modify. set (s1 := mk_mkst _ _ _). set (A := mk_afile ty [] 0 []).
  assert (Ed : mk_dinode (xshort ty) 0 0 (xshort 1) (xint 0) (replicate 13 0) = din_of A) by (rewrite xshort_u16 by lia; done). rewrite Ed, (v_next _ _ I).
  destruct (winode_run (Z.of_nat (S (length Fs))) (din_of A) n s1 (v_img _ _ I) ltac:(lia)) as (s2 & E2 & I2 & J1 & J2 & J3 & J4 & J5); [by apply length_dinode_enc|].
  pose proof (io_fb _ _ (v_img _ _ I)) as Hfb. exists s2. rewrite (bind_ret _ _ _ _ _ _ E2). split_and!; [done| |done|].
  - constructor.
    + done.
    + rewrite J4. unfold all_blocks. rewrite map_app, concat_app. cbn. rewrite app_nil_r. apply I.
    + apply Forall_app. split.
      * apply Forall_forall. intros B HB. apply (settled_keep (img s1)).
        -- by apply (proj1 (Forall_forall _ _) (v_files _ _ I)).
        -- eapply all_blocks_in; [done|]. by apply (perm_range _ (freeblock s)); [apply I|].
        -- intros b Hb. apply J3; change nmeta with 46 in *; lia.
      * apply Forall_singleton. exists 0%nat. split; [|split; [lia|done]]. by constructor; cbn; try lia.
    + intros j B Hj. apply lookup_app_Some in Hj as [Hj|[Hj1 Hj2]].
      * pose proof (lookup_lt_Some _ _ _ Hj). rewrite J2 by lia. apply (v_slots _ _ I j B Hj).
      * apply list_lookup_singleton_Some in Hj2 as [Hj2 <-]. by replace j with (length Fs) by lia.
    + rewrite J5. cbn [s1 freeinode]. rewrite (v_next _ _ I), length_app, u32_small by lia. cbn. lia.
    + rewrite length_app. cbn. lia.
    + apply Forall_app. split; [apply I|by apply Forall_singleton].
    + intros j Hj Hor. rewrite length_app in Hor. cbn in Hor. rewrite J2 by lia. apply (v_blank _ _ I j Hj). lia.
  - intros b Hb Hn. rewrite J3; [done|change nmeta with 46 in Hb; change FSSIZE with 2000; lia|done].
Qed.

(** ** Types and contents

    The image as the list of the files' types and contents, inode 1 first. *)
Notation tree := (list (Z * list Z)).
Definition view (A : afile) : Z * list Z := (af_type A, af_c A).
Definition holds (s : mkst) (C : tree) : Prop := exists Fs, image s Fs /\ view <$> Fs = C.
Fixpoint blocks (C : tree) : nat := match C with [] => 0 | f :: C' => csz (length f.2) + blocks C' end.

Lemma blocks_app C1 C2 : blocks (C1 ++ C2) = (blocks C1 + blocks C2)%nat.
Proof. induction C1 as [|f C1 IH]; cbn [app blocks]; lia. Qed.
Lemma settled_blocks s Fs k A : image s Fs -> Fs !! k = Some A -> length (blocks_of A) = csz (length (af_c A)).
Proof.
  intros I Hk. destruct (image_growing s Fs k A I Hk) as (pad & G & Hp & Hs). pose proof (g_size G) as Hsz. destruct (g_file _ _ _ _ _ G) as [_ _ F3 _].
  unfold csz. rewrite (nb_eq _ (length (af_bl A))) by lia. unfold blocks_of. rewrite length_app. f_equal.
  destruct (decide (af_ib A = 0)) as [Hi|Hi]; [specialize (F3 Hi); destruct (decide _); [lia|done]|specialize (Hs Hi); destruct (decide _); [done|lia]].
Qed.
(** The blocks in use are those the contents need. *)
Lemma holds_blocks s C : holds s C -> freeblock s = nmeta + Z.of_nat (blocks C).
Proof.
  intros (Fs & I & <-). pose proof (Permutation_length (v_perm _ _ I)) as Hl. rewrite length_seqZ in Hl. pose proof (io_fb _ _ (v_img _ _ I)) as Hfb.
  assert (E : length (all_blocks Fs) = blocks (view <$> Fs)); [|lia].
  assert (H : Forall (fun A => length (blocks_of A) = csz (length (af_c A))) Fs) by (apply Forall_lookup; intros; by eapply settled_blocks).
  clear -H. unfold all_blocks. induction H as [|A Fs HA H IH]; [done|]. cbn [map concat fmap list_fmap blocks view snd]. by rewrite length_app, HA, IH.
Qed.
Lemma blocks_insert C k f f' : C !! k = Some f -> (blocks (<[k := f']> C) + csz (length f.2) = blocks C + csz (length f'.2))%nat.
Proof.
  intros Hk. pose proof (lookup_lt_Some _ _ _ Hk). rewrite insert_take_drop by done. rewrite <- (take_drop_middle C k f Hk) at 3. rewrite !blocks_app. cbn [blocks]. lia.
Qed.
Lemma holds_length s C : holds s C -> (length C < 200)%nat.
Proof. intros (Fs & I & <-). rewrite length_fmap. apply I. Qed.

Lemma append_holds s C k ty c p n : holds s C -> C !! k = Some (ty, c) -> Z.of_nat (length (c ++ p)) <= 274432 ->
  nmeta + Z.of_nat (blocks (<[k := (ty, c ++ p)]> C)) <= FSSIZE ->
  exists s', iappend (Z.of_nat (S k)) p n s = Ret tt s' /\ holds s' (<[k := (ty, c ++ p)]> C) /\ keeps s s'.
Proof.
  intros HC Hk Hmax Hroom. pose proof (holds_blocks s C HC) as Hfb. pose proof (blocks_insert C k _ (ty, c ++ p) Hk) as Hb. destruct HC as (Fs & I & <-).
  apply list_lookup_fmap_Some in Hk as (A & E & Hk). injection E as -> ->. cbn [snd] in Hb. rewrite length_app in Hmax, Hb.
  destruct (iappend_run s Fs k A p n I Hk Hmax) as (s' & A' & E & I' & T' & C' & _ & K'); [lia|].
  exists s'. split_and!; [done| |done]. exists (<[k := A']> Fs). split; [done|]. rewrite list_fmap_insert. unfold view at 1. by rewrite T', C'.
Qed.
Lemma alloc_holds s C ty n : holds s C -> (length C + 1 < 200)%nat -> 0 <= ty < 32768 ->
  exists s', ialloc ty n s = Ret (Z.of_nat (S (length C))) s' /\ holds s' (C ++ [(ty, [])]) /\ keeps s s'.
Proof.
  intros (Fs & I & <-) Hc Ht. rewrite length_fmap in *. destruct (ialloc_run s Fs ty n I Hc Ht) as (s' & E & I' & _ & K).
  exists s'. split_and!; [done| |done]. eexists. split; [done|]. by rewrite fmap_app.
Qed.

(** The pieces a file is read in. *)
Lemma append_all_holds k ty n : forall fuel data s C c, holds s C -> C !! k = Some (ty, c) -> (length data <= fuel)%nat ->
  Z.of_nat (length (c ++ data)) <= 274432 -> nmeta + Z.of_nat (blocks (<[k := (ty, c ++ data)]> C)) <= FSSIZE ->
  exists s', append_all fuel (Z.of_nat (S k)) data n s = Ret tt s' /\ holds s' (<[k := (ty, c ++ data)]> C) /\ keeps s s'.
Proof.
  induction fuel as [|fuel IH]; intros data s C c HC Hk Hf Hmax Hroom.
  - destruct data; [|cbn in Hf; lia]. exists s. rewrite app_nil_r, list_insert_id by done. split_and!; [done|done|by intros b].
  - destruct data as [|x data0]; [exists s; rewrite app_nil_r, list_insert_id by done; split_and!; [done|done|by intros b]|].
    set (data := x :: data0) in *. assert (Hl : (1 <= length data)%nat) by (cbn; lia). change (append_all (S fuel) (Z.of_nat (S k)) data) with
      (iappend (Z.of_nat (S k)) (take 1024 data) ;; append_all fuel (Z.of_nat (S k)) (drop 1024 data)).
    pose proof (blocks_insert C k _ (ty, c ++ data) Hk) as Hb1. pose proof (blocks_insert C k _ (ty, c ++ take 1024 data) Hk) as Hb2. cbn [snd] in Hb1, Hb2.
    assert (Hle : (length (c ++ take 1024 data) <= length (c ++ data))%nat) by (rewrite !length_app, length_take; lia).
    pose proof (csz_mono _ _ Hle) as Hm. pose proof (lookup_lt_Some _ _ _ Hk) as Hkl.
    destruct (append_holds s C k ty c (take 1024 data) n HC Hk ltac:(lia) ltac:(lia)) as (s1 & E1 & H1 & K1).
    assert (Ec : (c ++ take 1024 data) ++ drop 1024 data = c ++ data) by (by rewrite <- app_assoc, take_drop).
    destruct (IH (drop 1024 data) s1 _ (c ++ take 1024 data) H1) as (s2 & E2 & H2 & K2).
    + by apply list_lookup_insert_eq.
    + rewrite length_drop. lia.
    + by rewrite Ec.
    + rewrite Ec, list_insert_insert_eq. done.
    + exists s2. rewrite (bind_ret _ _ _ _ _ _ E1), E2. split_and!; [done| |by eapply keeps_trans].
      by rewrite Ec, list_insert_insert_eq in H2.
Qed.
