(* ===== verification/Mkimage.v ===== *)
(** * The image mkfs makes, as the kernel reads it

    The main theorem about mkfs/mkfs.c (Mkfs.v): for files that fit, the
    image is complete, and the kernel's decoding of superblock, inodes, block
    addresses and bitmap (Fs.v) finds in it exactly the files given. *)

From S2P Require Import Prelude Params Kernel StringC Fs Mkfs.

(** ** The kernel's view *)
(** The address of block [bn] of an inode, as [bmap] of kernel/fs.c finds it
    (0: not allocated, read as zeros). *)
Definition kaddr (im : list (list Z)) (d : dinode) (bn : nat) : Z :=
  if decide (bn < 12)%nat then aget 0 (di_addrs d) (Z.of_nat bn)
  else if decide (aget 0 (di_addrs d) NDIRECT = 0) then 0
  else word (sec im (aget 0 (di_addrs d) NDIRECT)) (Z.of_nat bn - NDIRECT).
Definition kblock (im : list (list Z)) (a : Z) : list Z := if decide (a = 0) then zeroes else sec im a.
Definition kblocks (d : dinode) : nat := nb (Z.to_nat (di_size d)).
(** The bytes of the whole file: what [readi] returns where the blocks are
    allocated (reading one that is not would allocate it). *)
Definition kcontent (im : list (list Z)) (d : dinode) : list Z :=
  take (Z.to_nat (di_size d)) (concat (map (fun bn => kblock im (kaddr im d bn)) (seq 0 (kblocks d)))).
(** The blocks an inode occupies. *)
Definition kused (im : list (list Z)) (d : dinode) : list Z :=
  filter (fun a => a <> 0) ((kaddr im d <$> seq 0 (kblocks d)) ++ [aget 0 (di_addrs d) NDIRECT]).
Definition kinode (im : list (list Z)) (inum : Z) : dinode := dinode_dec (ino im inum).

Lemma filter_nonzero (l : list Z) : Forall (fun a => a <> 0) l -> filter (fun a => a <> 0) l = l.
Proof. induction 1 as [|a l Ha H IH]; [done|]. by rewrite filter_cons_True, IH. Qed.
Lemma filter_zeros k : filter (fun a => a <> 0) (replicate k 0) = [].
Proof. induction k as [|k IH]; [done|]. cbn [replicate]. rewrite filter_cons_False; [done|]. by intros []. Qed.

Section View.
Context {im : list (list Z)} {fb : Z} {A : afile} {pad : nat} {R : list afile}.
Hypothesis G : growing im fb A pad R.
Hypothesis Hpad : (pad < 1024)%nat.
Let range b : b ∈ blocks_of A -> 0 < b < 4294967296.
Proof. intros Hb. pose proof (g_pos G b Hb) as Hr. pose proof (io_fb _ _ (g_img _ _ _ _ _ G)). change nmeta with 46 in *. change FSSIZE with 2000 in *. lia. Qed.

Lemma kaddr_nth sz bn : (bn < 268)%nat -> kaddr im (set_size sz (din_of A)) bn = nth bn (af_bl A) 0.
Proof.
  intros Hb. unfold kaddr. change (di_addrs (set_size sz (din_of A))) with (di_addrs (din_of A)). destruct (decide (bn < 12)%nat) as [|N]; [by apply din_direct|].
  rewrite din_indirect. destruct (g_file _ _ _ _ _ G) as [_ F2 F3 F4]. destruct (decide (af_ib A = 0)) as [Hi|Hi].
  - rewrite nth_overflow; [done|]. specialize (F3 Hi). lia.
  - destruct (F4 Hi) as [H12 E]. rewrite E. change NDIRECT with 12. replace (Z.of_nat bn - 12) with (Z.of_nat (bn - 12)) by lia.
    destruct (Nat.lt_ge_cases bn (length (af_bl A))) as [Hl|Hl].
    + destruct (lookup_lt_is_Some_2 (af_bl A) bn Hl) as [x Hx]. rewrite (nth_lookup_Some _ _ _ _ Hx). apply word_enc4.
      * rewrite lookup_app_l by (rewrite length_drop; lia). rewrite lookup_drop. by replace (12 + (bn - 12))%nat with bn by lia.
      * assert (0 < x < 4294967296); [|lia]. apply range, elem_of_app. left. by eapply list_elem_of_lookup_2.
    + rewrite nth_overflow by done. apply word_enc4; [|lia]. rewrite lookup_app_r by (rewrite length_drop; lia).
      apply lookup_replicate_2. rewrite length_drop. lia.
Qed.

(** Reading any number of blocks gives the content and zeros. *)
Lemma kblocks_read sz k : (length (af_bl A) <= k <= 268)%nat ->
  concat (map (fun bn => kblock im (kaddr im (set_size sz (din_of A)) bn)) (seq 0 k)) = af_c A ++ replicate (1024 * k - length (af_c A)) 0.
Proof.
  intros Hk. pose proof (g_size G) as Hs. replace k with (length (af_bl A) + (k - length (af_bl A)))%nat at 1 by lia. rewrite seq_app, map_app, concat_app, Nat.add_0_l.
  assert (E1 : map (fun bn => kblock im (kaddr im (set_size sz (din_of A)) bn)) (seq 0 (length (af_bl A))) = map (sec im) (af_bl A)).
  { apply list_eq. intros i. destruct (Nat.lt_ge_cases i (length (af_bl A))) as [Hi|Hi].
    - destruct (lookup_lt_is_Some_2 (af_bl A) i Hi) as [x Hx]. change (map ?f ?l) with (f <$> l). rewrite !list_lookup_fmap, Hx, lookup_seq_lt by done. cbn. f_equal.
      rewrite kaddr_nth, (nth_lookup_Some _ _ _ _ Hx) by lia. unfold kblock. rewrite decide_False; [done|]. pose proof (range x ltac:(apply elem_of_app; left; by eapply list_elem_of_lookup_2)). lia.
    - rewrite !lookup_ge_None_2; [done|rewrite length_map; lia|rewrite length_map, length_seq; lia]. }
  rewrite E1, (fo_data _ _ _ (g_file _ _ _ _ _ G)), <- app_assoc. f_equal.
  assert (E2 : forall j a, (length (af_bl A) <= a)%nat -> (a + j <= 268)%nat -> concat (map (fun bn => kblock im (kaddr im (set_size sz (din_of A)) bn)) (seq a j)) = replicate (1024 * j) 0).
  { induction j as [|j IH]; intros a Ha Hj; [done|]. cbn [seq map concat]. rewrite IH, kaddr_nth, nth_overflow by lia. unfold kblock. rewrite decide_True by done.
    change zeroes with (replicate 1024 0). rewrite <- replicate_add. f_equal. lia. }
  rewrite E2 by lia. rewrite <- replicate_add. f_equal. lia.
Qed.
Lemma kcontent_ok : kcontent im (din_of A) = af_c A.
Proof.
  pose proof (g_size G) as Hs. pose proof (fo_len _ _ _ (g_file _ _ _ _ _ G)) as Hl. unfold kcontent, kblocks. change (di_size (din_of A)) with (Z.of_nat (length (af_c A))). rewrite Nat2Z.id.
  change (kaddr im (din_of A)) with (kaddr im (set_size (Z.of_nat (length (af_c A))) (din_of A))).
  rewrite (nb_eq _ (length (af_bl A))) by lia. rewrite kblocks_read by lia. by rewrite take_app_length.
Qed.
(** The blocks in use do not depend on the size once it covers them. *)
Lemma kused_ok sz : (length (af_bl A) <= nb (Z.to_nat sz) <= 268)%nat -> kused im (set_size sz (din_of A)) = blocks_of A.
Proof.
  intros Hk. unfold kused, kblocks. change (di_size (set_size sz (din_of A))) with sz. set (k := nb (Z.to_nat sz)) in *. clearbody k.
  change (di_addrs (set_size sz (din_of A))) with (di_addrs (din_of A)). rewrite din_indirect, filter_app. unfold blocks_of. f_equal.
  - assert (E : kaddr im (set_size sz (din_of A)) <$> seq 0 k = af_bl A ++ replicate (k - length (af_bl A)) 0).
    { apply list_eq. intros i. destruct (Nat.lt_ge_cases i k) as [Hi|Hi].
      - rewrite list_lookup_fmap, lookup_seq_lt by done. cbn. rewrite kaddr_nth by lia. destruct (Nat.lt_ge_cases i (length (af_bl A))) as [Hl|Hl].
        + destruct (lookup_lt_is_Some_2 (af_bl A) i Hl) as [x Hx]. by rewrite lookup_app_l, Hx, (nth_lookup_Some _ _ _ _ Hx) by done.
        + rewrite nth_overflow, lookup_app_r by done. by rewrite lookup_replicate_2 by lia.
      - rewrite !lookup_ge_None_2; [done|rewrite length_app, length_replicate; lia|rewrite length_fmap, length_seq; lia]. }
    rewrite E, filter_app, filter_nonzero, filter_zeros; [apply app_nil_r|]. apply Forall_forall. intros b Hb. pose proof (range b ltac:(apply elem_of_app; by left)). lia.
  - destruct (decide (af_ib A = 0)) as [Hi|Hi]; [rewrite Hi; done|]. by rewrite filter_cons_True.
Qed.
End View.

(** ** The empty image *)
Lemma zero_image n m : forall k s, img s = replicate k zeroes -> (k + m <= 2000)%nat ->
  forall_do (seq k m) (fun i => wsect (Z.of_nat i) zeroes) n s = Ret tt (mk_mkst (replicate (k + m) zeroes) (freeinode s) (freeblock s)).
Proof.
  induction m as [|m IH]; intros k s Hs Hk; cbn [seq forall_do].
  - rewrite Nat.add_0_r, <- Hs. by destruct s.
  - unfold wsect at 1. rewrite bind_modify. rewrite sector_small by (change FSSIZE with 2000; lia). rewrite Nat2Z.id. unfold write_sector. rewrite Hs, length_replicate.
    destruct (Nat.ltb_spec k k); [lia|]. rewrite Nat.sub_diag. cbn [replicate app]. rewrite IH; [cbn [freeinode freeblock]; by rewrite Nat.add_succ_comm| |lia].
    cbn [img]. by rewrite <- replicate_S_end.
Qed.
Lemma sec_zeroes b : 0 <= b < FSSIZE -> sec (replicate (Z.to_nat FSSIZE) zeroes) b = zeroes.
Proof. intros Hb. unfold sec. by rewrite lookup_replicate_2 by lia. Qed.
(** With the superblock written. *)
Definition formatted : mkst := mk_mkst (<[1%nat := put 0 (sb_enc sb) zeroes]> (replicate (Z.to_nat FSSIZE) zeroes)) 1 nmeta.
Lemma formatted_holds : holds formatted [].
Proof.
  exists []. split; [|done]. constructor; try done; [|cbn; lia|].
  2:{ intros j Hj _. assert (H : forallb (fun j => bool_decide (ino (img formatted) j = replicate 64 0)) (seqZ 0 200) = true) by (by vm_compute).
    rewrite forallb_forall in H. specialize (H j ltac:(apply list_elem_of_In, elem_of_seqZ; lia)). by apply bool_decide_eq_true in H. }
  apply (img_ok_upd (replicate (Z.to_nat FSSIZE) zeroes) nmeta 1); [|by vm_compute|by vm_compute].
  constructor; [by rewrite length_replicate|by apply Forall_replicate|intros b Hb; apply sec_zeroes; change nmeta with 46 in Hb; lia|by vm_compute].
Qed.

(** ** Adding the files *)
Definition file_name (p : list Z) : list Z := strip_mark (strip_dir p).
Definition file_data (h : host) (p : list Z) : list Z := default [] (h_file h p).
Fixpoint dir_entries (inum : nat) (names : list (list Z)) : list Z :=
  match names with [] => [] | nm :: names' => entry (Z.of_nat inum) nm ++ dir_entries (S inum) names' end.
Definition can_add (h : host) (p : list Z) : Prop :=
  SLASH ∉ strip_dir p /\ is_Some (h_file h p) /\ Z.of_nat (length (file_data h p)) <= 274432.

Lemma length_entry i nm : length (entry i nm) = 16%nat.
Proof. unfold entry, dirent_enc. cbn [de_inum de_name]. rewrite length_app, length_le_enc, length_take, length_app, length_replicate. lia. Qed.
Lemma length_dir_entries names : forall i, length (dir_entries i names) = (16 * length names)%nat.
Proof. induction names as [|nm names IH]; intros i; cbn [dir_entries length]; [done|]. rewrite length_app, length_entry, IH. lia. Qed.

Lemma add_file_holds h p d L s n : holds s ((T_DIR, d) :: L) -> can_add h p -> (length L + 2 < 200)%nat -> Z.of_nat (length d) <= 10000 ->
  nmeta + Z.of_nat (blocks ((T_DIR, d ++ entry (Z.of_nat (length L + 2)) (file_name p)) :: L ++ [(T_FILE, file_data h p)])) <= FSSIZE ->
  exists s', add_file h 1 p n s = Ret tt s' /\ holds s' ((T_DIR, d ++ entry (Z.of_nat (length L + 2)) (file_name p)) :: L ++ [(T_FILE, file_data h p)]) /\ keeps s s'.
Proof.
  intros H (Hs & [data Hd] & Hdl) Hl Hdir Hroom. unfold file_data in *. rewrite Hd in *. cbn [default] in *. change (id data) with data in *. unfold add_file. rewrite (bool_decide_false (SLASH ∈ _)) by done. rewrite Hd.
  cbn [negb assert_]. rewrite bind_ret_l. set (e := entry (Z.of_nat (length L + 2)) (file_name p)) in *.
  cbn [blocks] in Hroom. rewrite blocks_app in Hroom. cbn [blocks snd length] in Hroom. assert (He : length e = 16%nat) by apply length_entry.
  destruct (alloc_holds s _ T_FILE n H) as (s1 & E1 & H1 & K1); [cbn; lia|by vm_compute|]. rewrite (bind_ret _ _ _ _ _ _ E1).
  change (Z.of_nat (S (length ((T_DIR, d) :: L)))) with (Z.of_nat (S (S (length L)))). replace (S (S (length L))) with (length L + 2)%nat by lia. fold (file_name p). fold e.
  rewrite <- app_comm_cons in H1.
  destruct (append_holds s1 ((T_DIR, d) :: L ++ [(T_FILE, [])]) 0 T_DIR d e n H1) as (s2 & E2 & H2 & K2); [done|rewrite length_app; lia| |].
  { cbn [insert list_insert blocks]. rewrite blocks_app. cbn [blocks snd length]. change (csz 0) with 0%nat. lia. }
  change (Z.of_nat 1) with 1 in E2. rewrite (bind_ret _ _ _ _ _ _ E2). cbn [insert list_insert] in H2.
  assert (Eins : forall x, <[S (length L) := x]> ((T_DIR, d ++ e) :: L ++ [(T_FILE, [])]) = (T_DIR, d ++ e) :: L ++ [x]).
  { intros x. rewrite !app_comm_cons, insert_app_r_alt by done. cbn [length]. by rewrite Nat.sub_diag. }
  destruct (append_all_holds (S (length L)) T_FILE n (length data) data s2 _ [] H2) as (s3 & E3 & H3 & K3); [cbn; by apply list_lookup_middle|done|done| |].
  { rewrite Eins. cbn [app blocks snd]. rewrite blocks_app. cbn [blocks snd]. lia. }
  exists s3. replace (length L + 2)%nat with (S (S (length L))) by lia. rewrite E3. split_and!; [done| |by eapply keeps_trans, keeps_trans].
  rewrite Eins in H3. exact H3.
Qed.

Lemma add_files_holds h n : forall files d L s, holds s ((T_DIR, d) :: L) -> Forall (can_add h) files -> (length L + length files + 1 < 200)%nat ->
  Z.of_nat (length d + 16 * length files) <= 10000 ->
  nmeta + Z.of_nat (blocks ((T_DIR, d ++ dir_entries (length L + 2) (map file_name files)) :: L ++ map (fun p => (T_FILE, file_data h p)) files)) <= FSSIZE ->
  exists s', forall_do files (add_file h 1) n s = Ret tt s' /\
    holds s' ((T_DIR, d ++ dir_entries (length L + 2) (map file_name files)) :: L ++ map (fun p => (T_FILE, file_data h p)) files) /\ keeps s s'.
Proof.
  induction files as [|p files IH]; intros d L s H Hf Hl Hd Hroom; cbn [map forall_do dir_entries].
  - exists s. rewrite !app_nil_r. split_and!; [done|done|by intros b].
  - apply Forall_cons in Hf as [Hp Hf]. cbn [map dir_entries length] in *. set (e := entry (Z.of_nat (length L + 2)) (file_name p)) in *.
    assert (El : (length (L ++ [(T_FILE, file_data h p)]) + 2)%nat = S (length L + 2)) by (rewrite length_app; cbn; lia).
    assert (Ed : (d ++ e) ++ dir_entries (S (length L + 2)) (map file_name files) = d ++ e ++ dir_entries (S (length L + 2)) (map file_name files)) by (by rewrite <- app_assoc).
    assert (EL : (L ++ [(T_FILE, file_data h p)]) ++ map (fun p => (T_FILE, file_data h p)) files = L ++ (T_FILE, file_data h p) :: map (fun p => (T_FILE, file_data h p)) files) by (by rewrite <- app_assoc).
    destruct (add_file_holds h p d L s n H Hp ltac:(lia) ltac:(lia)) as (s1 & E1 & H1 & K1).
    { cbn [blocks] in *. rewrite !blocks_app in *. cbn [blocks snd] in *. fold e.
      pose proof (csz_mono (length (d ++ e)) (length (d ++ e ++ dir_entries (S (length L + 2)) (map file_name files))) ltac:(rewrite !length_app; lia)). lia. }
    fold e in H1. destruct (IH (d ++ e) (L ++ [(T_FILE, file_data h p)]) s1 H1 Hf) as (s2 & E2 & H2 & K2).
    + rewrite length_app. cbn. lia.
    + rewrite length_app. unfold e. rewrite length_entry. lia.
    + by rewrite El, Ed, EL.
    + exists s2. rewrite (bind_ret _ _ _ _ _ _ E1), E2. rewrite El, Ed, EL in H2. split_and!; [done|done|by eapply keeps_trans].
Qed.

(** ** The last writes *)
Definition used_map (used : nat) : list Z := fold_left (fun buf i => bit_set (Z.of_nat i) buf) (seq 0 used) zeroes.
Lemma used_map_bits used : Z.of_nat used <= 8192 -> length (used_map used) = 1024%nat /\
  forall b, 0 <= b < BPB -> bit_free (used_map used) b = (Z.of_nat used <=? b).
Proof.
  unfold used_map. induction used as [|used IH]; intros Hu.
  - split; [done|]. intros b Hb. cbn [seq fold_left]. rewrite (proj2 (Z.leb_le (Z.of_nat 0) b)) by lia. unfold bit_free. unfold aget, zeroes.
    assert (nth (Z.to_nat (b / 8)) (replicate (Z.to_nat BSIZE) 0) 0 = 0) as ->; [|done].
    destruct (nth_in_or_default (Z.to_nat (b / 8)) (replicate (Z.to_nat BSIZE) 0) 0) as [Hin|]; [|done]. apply list_elem_of_In, elem_of_replicate in Hin. tauto.
  - destruct (IH ltac:(lia)) as [Hl Hb]. rewrite seq_S, fold_left_app. cbn [fold_left]. rewrite Nat.add_0_l. set (m := fold_left _ _ _) in *. split.
    + unfold bit_set. by rewrite length_aset.
    + intros b Hbr. rewrite (bit_free_set m (Z.of_nat used) Hl ltac:(change BPB with 8192; lia) b Hbr).
      destruct (decide (b = Z.of_nat used)) as [->|Hne]; [symmetry; apply Z.leb_gt; lia|]. rewrite Hb by done.
      destruct (Z.leb_spec (Z.of_nat used) b), (Z.leb_spec (Z.of_nat (S used)) b); lia || done.
Qed.

(** The data blocks decide what the kernel reads. *)
Lemma growing_keep im im' fb A pad R : growing im fb A pad R -> img_ok im' fb ->
  (forall b, nmeta <= b < FSSIZE -> sec im' b = sec im b) -> growing im' fb A pad R.
Proof.
  intros G I Hk. pose proof (io_fb _ _ I) as Hfb.
  assert (Hr : forall b, b ∈ blocks_of A ++ all_blocks R -> nmeta <= b < FSSIZE) by (intros b Hb; pose proof (g_bounds G b Hb); lia).
  constructor; [done|apply G| |].
  - eapply file_ok_keep; [apply G| |done]. apply Forall_forall. intros b Hb. apply Hr, elem_of_app. by left.
  - apply Forall_forall. intros B HB. eapply settled_keep; [by apply (proj1 (Forall_forall _ _) (g_rest _ _ _ _ _ G))| |done].
    apply (all_blocks_in R B HB). apply Forall_forall. intros b Hb. apply Hr, elem_of_app. by right.
Qed.

Definition root_size (c : list Z) : Z := (Z.of_nat (length c) / 1024 + 1) * 1024.
Lemma root_size_nb A im fb pad R : growing im fb A pad R -> (pad < 1024)%nat -> Z.of_nat (length (af_c A)) <= 100000 ->
  let k := nb (Z.to_nat (root_size (af_c A))) in (length (af_bl A) <= k <= 268)%nat /\ Z.to_nat (root_size (af_c A)) = (1024 * k)%nat.
Proof.
  intros G Hp Hc k. pose proof (g_size G) as Hs. unfold root_size in *.
  assert (Ek : k = S (length (af_c A) / 1024)).
  { unfold k. apply nb_eq; unfold root_size; pose proof (Nat.div_mod_eq (length (af_c A)) 1024); rewrite <- (Nat2Z.inj_div _ 1024); lia. }
  pose proof (Nat.div_mod_eq (length (af_c A)) 1024). pose proof (Nat.mod_upper_bound (length (af_c A)) 1024 ltac:(lia)).
  rewrite Ek, <- (Nat2Z.inj_div _ 1024). lia.
Qed.

(** The end of [main]: the rounded size of the root directory and the bitmap. *)
Definition finish : W unit :=
  let* din := rinode ROOTINO in
  let off := xint (di_size din) in
  let off := u32 ((off / BSIZE + 1) * BSIZE) in
  winode ROOTINO (set_size (xint off) din) ;;
  let* used := gets freeblock in
  balloc used.
Lemma finish_run s Fs A0 n : image s Fs -> Fs !! 0%nat = Some A0 -> Z.of_nat (length (af_c A0)) <= 100000 ->
  exists s', finish n s = Ret tt s' /\ img_ok (img s') (freeblock s) /\ (forall b, nmeta <= b < FSSIZE -> sec (img s') b = sec (img s) b) /\
    sec (img s') 1 = sec (img s) 1 /\ sec (img s') 45 = used_map (Z.to_nat (freeblock s)) /\
    ino (img s') 1 = dinode_enc (set_size (root_size (af_c A0)) (din_of A0)) /\ forall j, 0 <= j < 200 -> j <> 1 -> ino (img s') j = ino (img s) j.
Proof.
  intros I H0 Hc. destruct (image_growing s Fs 0 A0 I H0) as (pad & G & Hp & _). destruct (din_wf _ _ _ _ _ G (Forall_lookup_1 _ _ _ _ (v_types _ _ I) H0)) as [Hwf _].
  pose proof (io_fb _ _ (v_img _ _ I)) as Hfb. change nmeta with 46 in *. change FSSIZE with 2000 in *.
  unfold finish. change ROOTINO with (Z.of_nat 1) at 1. rewrite (bind_ret _ _ _ _ _ _ (rinode_run s Fs 0 A0 n I H0)).
  change (di_size (din_of A0)) with (Z.of_nat (length (af_c A0))). rewrite (xint_u32 (Z.of_nat (length (af_c A0)))) by lia. change BSIZE with 1024. cbv zeta. fold (root_size (af_c A0)).
  assert (Hrs : 0 <= root_size (af_c A0) < 2 ^ 20) by (unfold root_size; Z.to_euclidean_division_equations; lia). rewrite u32_small, xint_u32 by lia.
  destruct (winode_run 1 (set_size (root_size (af_c A0)) (din_of A0)) n s (v_img _ _ I) ltac:(lia)) as (s1 & E1 & I1 & J1 & J2 & J3 & J4 & J5).
  { apply length_dinode_enc. apply Hwf. }
  change FSSIZE with 2000 in J3. change ROOTINO with 1. rewrite (bind_ret _ _ _ _ _ _ E1), bind_gets, J4. unfold balloc. change (BSIZE * 8) with 8192.
  assert (freeblock s <? 8192 = true) as -> by (apply Z.ltb_lt; lia). cbn [assert_]. rewrite bind_ret_l. fold (used_map (Z.to_nat (freeblock s))).
  change (sb_bmapstart sb) with 45. eexists. split; [apply wsect_run; [apply I1|by vm_compute]|]. cbn [upd_sec img].
  destruct (used_map_bits (Z.to_nat (freeblock s)) ltac:(lia)) as [Hul _].
  assert (Hne : forall b, 0 <= b < 2000 -> b <> 45 -> sec (<[Z.to_nat 45 := used_map (Z.to_nat (freeblock s))]> (img s1)) b = sec (img s1) b) by (intros; apply sec_upd_ne; lia).
  assert (Hino : forall j, 0 <= j < 200 -> ino (<[Z.to_nat 45 := used_map (Z.to_nat (freeblock s))]> (img s1)) j = ino (img s1) j).
  { intros j Hj. unfold ino. destruct (iblock_no j Hj) as [_ Hb]. by rewrite Hne by lia. }
  split_and!.
  - rewrite J4 in I1. apply (img_ok_upd _ _ 45); [done|lia|done].
  - intros b Hb. rewrite Hne by lia. apply J3; lia.
  - rewrite Hne by lia. apply J3; lia.
  - apply sec_upd_eq; [apply I1|by vm_compute].
  - rewrite Hino by lia. done.
  - intros j Hj Hne1. rewrite Hino by lia. apply J2; lia.
Qed.

(** ** The theorem *)
(** The tree mkfs is asked for: the root directory, then the files. *)
Definition root_dir (files : list (list Z)) : list Z :=
  entry 1 (str_bytes ".") ++ entry 1 (str_bytes "..") ++ dir_entries 2 (map file_name files).
Definition tree_of (h : host) (files : list (list Z)) : tree :=
  (T_DIR, root_dir files) :: map (fun p => (T_FILE, file_data h p)) files.

(** An image in which the kernel finds the tree [C]. *)
Record good_image (im : list (list Z)) (C : tree) : Prop := mk_good_image {
  gi_super : sb_dec (sec im 1) = sb /\ sb_magic sb = FSMAGIC;
  gi_root : forall ty c, C !! 0%nat = Some (ty, c) -> let d := kinode im ROOTINO in
    di_type d = ty /\ di_nlink d = 1 /\ di_size d = root_size c /\
    kcontent im d = c ++ replicate (Z.to_nat (root_size c) - length c) 0;
  gi_files : forall k ty c, C !! S k = Some (ty, c) -> let d := kinode im (Z.of_nat (S (S k))) in
    di_type d = ty /\ di_nlink d = 1 /\ di_size d = Z.of_nat (length c) /\ kcontent im d = c;
  gi_addrs : forall k ty c, C !! k = Some (ty, c) -> forall bn, (bn < 268)%nat ->
    kaddr im (kinode im (Z.of_nat (S k))) bn <> 0 <-> (bn < nb (length c))%nat;
  gi_blank : forall j, 0 <= j < 200 -> j = 0 \/ Z.of_nat (length C) < j -> di_type (kinode im j) = 0;
  gi_shape : length im = Z.to_nat FSSIZE /\ Forall (fun b => length b = Z.to_nat BSIZE) im;
  gi_bitmap : forall b, 0 <= b < FSSIZE -> bit_free (sec im (sb_bmapstart sb)) b = (nmeta + Z.of_nat (blocks C) <=? b);
  gi_blocks : concat (map (fun i => kused im (kinode im (Z.of_nat (S i)))) (seq 0 (length C))) ≡ₚ seqZ nmeta (Z.of_nat (blocks C)) }.

Lemma set_size_wf A z : dinode_wf (din_of A) -> 0 <= z < 4294967296 -> dinode_wf (set_size z (din_of A)).
Proof. intros (H1 & H2 & H3 & H4 & _ & H6 & H7) Hz. exact (conj H1 (conj H2 (conj H3 (conj H4 (conj Hz (conj H6 H7)))))). Qed.

Section Finished.
Context (s s' : mkst) (Fs : list afile) (A0 : afile).
Hypothesis I : image s Fs.
Hypothesis H0 : Fs !! 0%nat = Some A0.
Hypothesis Hc : Z.of_nat (length (af_c A0)) <= 100000.
Hypothesis I' : img_ok (img s') (freeblock s).
Hypothesis Hkeep : forall b, nmeta <= b < FSSIZE -> sec (img s') b = sec (img s) b.
Hypothesis Hroot : ino (img s') 1 = dinode_enc (set_size (root_size (af_c A0)) (din_of A0)).
Hypothesis Hino : forall j, 1 < j < 200 -> ino (img s') j = ino (img s) j.

Lemma fin_growing k A : Fs !! k = Some A -> exists pad, growing (img s') (freeblock s) A pad (take k Fs ++ drop (S k) Fs) /\ (pad < 1024)%nat /\ dinode_wf (din_of A).
Proof.
  intros Hk. destruct (image_growing s Fs k A I Hk) as (pad & G & Hp & _). exists pad. split; [by apply (growing_keep (img s))|]. split; [done|].
  apply (din_wf _ _ _ _ _ G (Forall_lookup_1 _ _ _ _ (v_types _ _ I) Hk)).
Qed.
Lemma root_size_range : 0 <= root_size (af_c A0) < 4294967296.
Proof. unfold root_size. Z.to_euclidean_division_equations. lia. Qed.
Lemma fin_root : kinode (img s') 1 = set_size (root_size (af_c A0)) (din_of A0).
Proof.
  destruct (fin_growing 0 A0 H0) as (pad & _ & _ & Hwf). unfold kinode. rewrite Hroot. apply dinode_dec_enc, set_size_wf; [done|apply root_size_range].
Qed.
Lemma fin_file k A : Fs !! S k = Some A -> kinode (img s') (Z.of_nat (S (S k))) = din_of A.
Proof.
  intros Hk. destruct (fin_growing _ A Hk) as (pad & _ & _ & Hwf). pose proof (lookup_lt_Some _ _ _ Hk). pose proof (v_count _ _ I).
  unfold kinode. rewrite Hino by lia. rewrite (v_slots _ _ I _ A Hk). by apply dinode_dec_enc.
Qed.
Lemma fin_used k A : Fs !! k = Some A -> kused (img s') (kinode (img s') (Z.of_nat (S k))) = blocks_of A.
Proof.
  intros Hk. destruct (fin_growing k A Hk) as (pad & G & Hp & _). pose proof (g_size G) as Hs. pose proof (fo_len _ _ _ (g_file _ _ _ _ _ G)). destruct k as [|k].
  - rewrite H0 in Hk. injection Hk as <-. change (Z.of_nat 1) with 1. rewrite fin_root. apply (kused_ok G Hp). apply (root_size_nb A0 _ _ _ _ G Hp Hc).
  - rewrite (fin_file k A Hk). change (din_of A) with (set_size (Z.of_nat (length (af_c A))) (din_of A)). apply (kused_ok G Hp). rewrite Nat2Z.id, (nb_eq _ (length (af_bl A))) by lia. lia.
Qed.
Lemma fin_addrs k A bn : Fs !! k = Some A -> (bn < 268)%nat ->
  kaddr (img s') (kinode (img s') (Z.of_nat (S k))) bn <> 0 <-> (bn < nb (length (af_c A)))%nat.
Proof.
  intros Hk Hb. destruct (fin_growing k A Hk) as (pad & G & Hp & _). pose proof (g_size G) as Hs.
  assert (E : exists sz, kinode (img s') (Z.of_nat (S k)) = set_size sz (din_of A)).
  { destruct k as [|k]; [rewrite H0 in Hk; injection Hk as <-; eexists; exact fin_root|exists (Z.of_nat (length (af_c A))); exact (fin_file k A Hk)]. }
  destruct E as [sz ->]. rewrite (kaddr_nth G) by done. rewrite (nb_eq _ (length (af_bl A))) by lia. split; intros Hn.
  - destruct (Nat.lt_ge_cases bn (length (af_bl A))); [done|]. by rewrite nth_overflow in Hn.
  - destruct (lookup_lt_is_Some_2 (af_bl A) bn Hn) as [x Hx]. rewrite (nth_lookup_Some _ _ _ _ Hx).
    pose proof (g_bl G x ltac:(by eapply list_elem_of_lookup_2)) as Hr. change nmeta with 46 in Hr. lia.
Qed.
Lemma fin_blank j : 0 <= j < 200 -> j = 0 \/ Z.of_nat (length Fs) < j -> Fs <> [] -> ino (img s) 0 = ino (img s') 0 -> di_type (kinode (img s') j) = 0.
Proof.
  intros Hj Hor Hne Hz. unfold kinode. destruct (decide (j = 0)) as [->|Hj0].
  - rewrite <- Hz, (v_blank _ _ I 0 Hj (or_introl eq_refl)). done.
  - assert (0 < length Fs)%nat by (destruct Fs; [done|cbn; lia]). rewrite Hino by lia. by rewrite (v_blank _ _ I j Hj Hor).
Qed.
Lemma fin_all_used : concat (map (fun i => kused (img s') (kinode (img s') (Z.of_nat (S i)))) (seq 0 (length Fs))) = all_blocks Fs.
Proof.
  unfold all_blocks. f_equal. apply list_eq. intros i. change (map ?f ?l) with (f <$> l). rewrite !list_lookup_fmap. destruct (Fs !! i) as [A|] eqn:E.
  - rewrite lookup_seq_lt by (by eapply lookup_lt_Some). cbn. f_equal. by apply fin_used.
  - rewrite lookup_seq_ge; [done|]. by apply lookup_ge_None_1.
Qed.
Lemma fin_root_content : kcontent (img s') (kinode (img s') 1) = af_c A0 ++ replicate (Z.to_nat (root_size (af_c A0)) - length (af_c A0)) 0.
Proof.
  destruct (fin_growing 0 A0 H0) as (pad & G & Hp & _). destruct (root_size_nb A0 _ _ _ _ G Hp Hc) as [Hk Ek]. rewrite fin_root. unfold kcontent, kblocks.
  change (di_size (set_size (root_size (af_c A0)) (din_of A0))) with (root_size (af_c A0)). rewrite (kblocks_read G) by done.
  rewrite <- Ek. apply take_ge. rewrite length_app, length_replicate. unfold root_size. Z.to_euclidean_division_equations. lia.
Qed.
End Finished.

Lemma finished_good s s' Fs A0 : image s Fs -> Fs !! 0%nat = Some A0 -> Z.of_nat (length (af_c A0)) <= 100000 -> keeps formatted s ->
  img_ok (img s') (freeblock s) -> (forall b, nmeta <= b < FSSIZE -> sec (img s') b = sec (img s) b) ->
  sec (img s') 1 = sec (img s) 1 -> sec (img s') 45 = used_map (Z.to_nat (freeblock s)) ->
  ino (img s') 1 = dinode_enc (set_size (root_size (af_c A0)) (din_of A0)) -> (forall j, 0 <= j < 200 -> j <> 1 -> ino (img s') j = ino (img s) j) ->
  good_image (img s') (view <$> Fs).
Proof.
  intros I H0 Hc Hkf I' Hk H1 H45 Hroot Hino'. assert (Hino : forall j, 1 < j < 200 -> ino (img s') j = ino (img s) j) by (intros; apply Hino'; lia). pose proof (holds_blocks s (view <$> Fs) (ex_intro _ Fs (conj I eq_refl))) as Hfb.
  pose proof (io_fb _ _ (v_img _ _ I)) as Hr. change FSSIZE with 2000 in Hr. constructor.
  - split; [|done]. rewrite H1, Hkf by (change nmeta with 46; lia). by vm_compute.
  - intros ty c Hc0. rewrite list_lookup_fmap, H0 in Hc0. injection Hc0 as <- <-. cbn zeta. change ROOTINO with 1.
    rewrite (fin_root_content s s' Fs A0 I H0 Hc I' Hk Hroot), (fin_root s s' Fs A0 I H0 Hc I' Hk Hroot). done.
  - intros k ty c Hkc. apply list_lookup_fmap_Some in Hkc as (A & E & HA). injection E as -> ->. cbn zeta.
    rewrite (fin_file s s' Fs A0 I I' Hk Hino k A HA). destruct (fin_growing s s' Fs I I' Hk _ A HA) as (pad & G & Hp & _). split_and!; try done. by apply (kcontent_ok G Hp).
  - intros k ty c Hkc. apply list_lookup_fmap_Some in Hkc as (A & E & HA). injection E as -> ->. intros bn Hbn. by apply (fin_addrs s s' Fs A0 I H0 Hc I' Hk Hroot Hino).
  - intros j Hj Hor. rewrite length_fmap in Hor. eapply (fin_blank s s' Fs); try done; [by intros ->|]. symmetry. apply Hino'; lia.
  - split; apply I'.
  - intros b Hb. change (sb_bmapstart sb) with 45. rewrite H45, <- Hfb. destruct (used_map_bits (Z.to_nat (freeblock s)) ltac:(lia)) as [_ Hbits].
    rewrite Hbits by (change FSSIZE with 2000 in Hb; change BPB with 8192; lia). change nmeta with 46 in Hr. by rewrite Z2Nat.id by lia.
  - rewrite length_fmap, (fin_all_used s s' Fs A0 I H0 Hc I' Hk Hroot Hino), (v_perm _ _ I). replace (freeblock s - nmeta) with (Z.of_nat (blocks (view <$> Fs))) by lia. done.
Qed.

Lemma format_run n s : forall_do (seq 0 (Z.to_nat FSSIZE)) (fun i => wsect (Z.of_nat i) zeroes) n (mk_mkst [] (freeinode s) (freeblock s)) =
  Ret tt (mk_mkst (replicate (Z.to_nat FSSIZE) zeroes) (freeinode s) (freeblock s)).
Proof. rewrite (zero_image n (Z.to_nat FSSIZE) 0); [done|done|]. change (Z.to_nat FSSIZE) with 2000%nat. lia. Qed.

Lemma mkfs_good h prog image_name files n :
  h_create h image_name = true -> Forall (can_add h) files -> (length files <= 198)%nat ->
  nmeta + Z.of_nat (blocks (tree_of h files)) <= FSSIZE ->
  exists s, main h (prog :: image_name :: files) n mkst0 = Ret tt s /\ length (img s) = Z.to_nat FSSIZE /\ good_image (img s) (tree_of h files).
Proof.
  intros Hcr Hf Hl Hroom. set (dots := entry 1 (str_bytes ".") ++ entry 1 (str_bytes "..")).
  assert (Hdots : length dots = 32%nat) by (unfold dots; by rewrite length_app, !length_entry).
  assert (Er : root_dir files = dots ++ dir_entries 2 (map file_name files)) by (unfold root_dir, dots; by rewrite <- app_assoc).
  assert (Hlr : length (root_dir files) = (32 + 16 * length files)%nat) by (by rewrite Er, length_app, Hdots, length_dir_entries, length_map).
  assert (Hsmall : forall d, (length d <= 32)%nat -> nmeta + Z.of_nat (blocks [(T_DIR, d)]) <= FSSIZE).
  { intros d Hd. cbn [blocks snd]. pose proof (csz_mono (length d) 32 Hd). change (csz 32) with 1%nat in *. change nmeta with 46. change FSSIZE with 2000. lia. }
  destruct (alloc_holds formatted [] T_DIR n formatted_holds) as (s1 & E1 & H1 & K1); [cbn; lia|by vm_compute|].
  destruct (append_holds s1 _ 0 T_DIR [] (entry 1 (str_bytes ".")) n H1) as (s2 & E2 & H2 & K2); [done|by vm_compute|apply Hsmall; rewrite ?length_app, ?length_entry; cbn; lia|].
  destruct (append_holds s2 _ 0 T_DIR (entry 1 (str_bytes ".")) (entry 1 (str_bytes "..")) n H2) as (s3 & E3 & H3 & K3); [done|by vm_compute|apply Hsmall; rewrite ?length_app, ?length_entry; cbn; lia|].
  destruct (add_files_holds h n files dots [] s3 H3 Hf) as (s4 & E4 & H4 & K4); [cbn; lia|rewrite Hdots; lia| |].
  { cbn [app length Nat.add]. rewrite <- Er. exact Hroom. }
  cbn [app length Nat.add] in H4. rewrite <- Er in H4. fold (tree_of h files) in H4. destruct H4 as (Fs & I & EC).
  destruct Fs as [|A0 Fs0]; [done|]. assert (Hc : Z.of_nat (length (af_c A0)) <= 100000). { pose proof (f_equal head EC) as Ev. change (Some (view A0) = Some (T_DIR, root_dir files)) in Ev. injection Ev as _ Ev. rewrite Ev, Hlr. lia. }
  destruct (finish_run s4 _ A0 n I eq_refl Hc) as (s5 & E5 & F1 & F2 & F3 & F4 & F5 & F6).
  exists s5. split; [|split; [apply F1|]].
  - unfold main. change (BSIZE mod 64 =? 0) with true. change (BSIZE mod 16 =? 0) with true. cbn [assert_]. rewrite !bind_ret_l, Hcr. cbn [negb]. rewrite bind_modify.
    rewrite (bind_ret _ _ _ _ _ _ (format_run n (mk_mkst [] 1 nmeta))).
    cbn [freeinode freeblock]. rewrite (bind_ret _ _ _ _ _ _ (wsect_run 1 _ n (mk_mkst (replicate (Z.to_nat FSSIZE) zeroes) 1 nmeta)
      (length_replicate _ _) ltac:(by vm_compute))).
    change (upd_sec 1 _ _) with formatted. rewrite (bind_ret _ _ _ _ _ _ E1). change (Z.of_nat (S (length []))) with 1.
    change (1 =? ROOTINO) with true. cbn [assert_]. rewrite bind_ret_l, (bind_ret _ _ _ _ _ _ E2), (bind_ret _ _ _ _ _ _ E3), (bind_ret _ _ _ _ _ _ E4). exact E5.
  - rewrite <- EC. apply (finished_good s4 s5 _ A0); try done. eapply keeps_trans; [eapply keeps_trans; [eapply keeps_trans; [exact K1|exact K2]|exact K3]|exact K4].
Qed.

(** C14: mkfs makes a file system the kernel can use: given files that can be
    read, have no slash in their short names, are no longer than MAXFILE
    blocks, are at most 198 and fit on the disk together, it ends, and in the
    image it leaves the kernel decodes the superblock with its magic number;
    inode 1 is a directory with the entries of the root and of the files,
    then zeros; inode i+2 is a file with exactly the content of file i, in as
    many blocks as it takes;
    every data block belongs to exactly one file; and the bitmap marks
    exactly the blocks in use. *)
Theorem mkfs_image h prog image_name files n :
  h_create h image_name = true -> Forall (can_add h) files -> (length files <= 198)%nat ->
  nmeta + Z.of_nat (blocks (tree_of h files)) <= FSSIZE ->
  exists s, main h (prog :: image_name :: files) n mkst0 = Ret tt s /\ length (img s) = Z.to_nat FSSIZE /\ good_image (img s) (tree_of h files).
Proof. apply mkfs_good. Qed.

(** A disk with two programs and an empty file. *)
Definition ex_host : host := mk_host (fun _ => true)
  (fun p => if bool_decide (p = str_bytes "user/_cat") then Some (map Z.of_nat (seq 0 2000))
            else if bool_decide (p = str_bytes "user/_ls") then Some [127; 69; 76; 70]
            else if bool_decide (p = str_bytes "README") then Some [] else None).
Definition ex_files : list (list Z) := [str_bytes "user/_cat"; str_bytes "user/_ls"; str_bytes "README"].
Lemma mkfs_image_witness : exists s, main ex_host (str_bytes "mkfs" :: str_bytes "fs.img" :: ex_files) 0%nat mkst0 = Ret tt s /\
  kcontent (img s) (kinode (img s) 3) = [127; 69; 76; 70].
Proof.
  destruct (mkfs_image ex_host (str_bytes "mkfs") (str_bytes "fs.img") ex_files 0%nat) as (s & E & _ & G).
  - reflexivity.
  - repeat constructor; first [by vm_compute|apply (bool_decide_unpack _); by vm_compute|eexists; by vm_compute].
  - vm_compute. lia.
  - apply (bool_decide_unpack _). by vm_compute.
  - exists s. split; [exact E|]. apply (gi_files _ _ G 1%nat T_FILE [127; 69; 76; 70]). reflexivity.
Defined.
