(* ===== verification/Rootfs.v ===== *)
(** * The kernel on a fresh file system

    Putting mkfs (Mkfs.v, Mkimage.v) and the kernel's file system (Blocks.v,
    Content.v, Dir.v) together: a kernel whose root device is an image made by
    mkfs locks the inode of a file, [ilock] loading it from the disk, and
    reads exactly the bytes mkfs was given. *)

From S2P Require Import Prelude Params Kernel Spinlock StringC Kalloc Vm Proc Sleeplock Bio Log Crash Transaction Uart Printf Fs Mkfs Mkimage Blocks Balloc Content Writei Dir Namei.
Notation view := Blocks.view.

(** ** A disk that shows an image *)
Definition image_view (im : list (list Z)) (x : Z) : list Z := if decide (0 <= x < FSSIZE) then sec im x else zero_block.

Lemma mkfs_geometry : geometry Mkfs.sb 46.
Proof.
  split; [vm_compute; intuition congruence|vm_compute; done|]. intros i Hi. change (sb_ninodes Mkfs.sb) with 200 in Hi.
  destruct (iblock_no i Hi) as [-> H]. change (sb_bmapstart Mkfs.sb) with 45. lia.
Qed.

Lemma NoDup_filter_inj {A} (P : A -> Prop) `{forall x, Decision (P x)} (f : nat -> A) l : forall i j, i ∈ l -> j ∈ l ->
  NoDup l -> NoDup (filter P (f <$> l)) -> P (f i) -> f i = f j -> i = j.
Proof.
  induction l as [|a l IH]; intros i j Hi Hj Hl Hn Hp E; [by apply elem_of_nil in Hi|]. apply NoDup_cons in Hl as [Ha Hl]. rewrite fmap_cons in Hn.
  assert (Hsub : forall x, x ∈ l -> P (f x) -> f x ∈ filter P (f <$> l)).
  { intros x Hx Hpx. apply list_elem_of_filter. split; [done|]. by apply list_elem_of_fmap_2. }
  apply elem_of_cons in Hi as [->|Hi], Hj as [->|Hj]; [done| | |].
  - exfalso. rewrite filter_cons_True in Hn by done. apply NoDup_cons in Hn as [Hn _]. apply Hn. rewrite E. apply Hsub; [done|by rewrite <- E].
  - exfalso. rewrite E in Hp. rewrite filter_cons_True in Hn by done. apply NoDup_cons in Hn as [Hn _]. apply Hn. rewrite <- E. apply Hsub; [done|by rewrite E].
  - apply IH; try done. destruct (decide (P (f a))); [rewrite filter_cons_True in Hn by done; by apply NoDup_cons in Hn as [_ Hn]|by rewrite filter_cons_False in Hn].
Qed.

Section Image.
Variables (im : list (list Z)) (C : tree).
Hypothesis GI : good_image im C.
Let V := image_view im.
Let HV : forall x, V x = if decide (0 <= x < FSSIZE) then sec im x else zero_block.
Proof. done. Qed.
Hypothesis Hfits : nmeta + Z.of_nat (blocks C) <= FSSIZE.

Lemma image_vok : vok Mkfs.sb 46 V.
Proof.
  split.
  - intros x. rewrite HV. case_decide as Hx; [|done]. destruct (gi_shape _ _ GI) as [Hl Hs]. unfold sec.
    destruct (lookup_lt_is_Some_2 im (Z.to_nat x)) as [b Hb]; [change FSSIZE with 2000 in *; lia|]. rewrite Hb. cbn. by apply (Forall_lookup_1 _ _ _ _ Hs Hb).
  - intros a Ha. unfold is_free. rewrite HV. rewrite decide_True by (change (sb_bmapstart Mkfs.sb) with 45; change FSSIZE with 2000; lia).
    rewrite (gi_bitmap _ _ GI) by (change FSSIZE with 2000; lia). apply Z.leb_gt. change nmeta with 46. lia.
Qed.

Section Inode.
Variables (k : nat) (ty : Z) (c : list Z) (q : inode).
Hypothesis Hk : C !! k = Some (ty, c).
Let d := kinode im (Z.of_nat (S k)).
Hypothesis Hq : i_addrs q = di_addrs d /\ i_size q = di_size d.
Hypothesis Hsz : 0 <= di_size d <= MAXFILE * BSIZE /\ nb (Z.to_nat (di_size d)) = nb (length c).

Lemma kused_part : exists X Y, X ++ kused im d ++ Y ≡ₚ seqZ nmeta (Z.of_nat (blocks C)).
Proof.
  assert (Hl : (k < length C)%nat) by (by eapply lookup_lt_Some).
  exists (concat (map (fun i => kused im (kinode im (Z.of_nat (S i)))) (seq 0 k))), (concat (map (fun i => kused im (kinode im (Z.of_nat (S i)))) (seq (S k) (length C - S k)))).
  rewrite <- (gi_blocks _ _ GI). replace (length C) with (k + (1 + (length C - S k)))%nat at 2 by lia.
  rewrite !seq_app, !map_app, !concat_app. cbn [seq map concat]. rewrite app_nil_r, Nat.add_0_l. by rewrite (Nat.add_1_r k).
Qed.
Lemma kused_data a : a ∈ kused im d -> 46 <= a < nmeta + Z.of_nat (blocks C).
Proof.
  intros Ha. destruct kused_part as (X & Y & E). assert (Hin : a ∈ seqZ nmeta (Z.of_nat (blocks C))).
  { rewrite <- E. apply elem_of_app. right. apply elem_of_app. by left. }
  apply elem_of_seqZ in Hin. change nmeta with 46 in *. lia.
Qed.
Lemma kused_NoDup : NoDup (kused im d).
Proof.
  destruct kused_part as (X & Y & E). assert (Hn : NoDup (X ++ kused im d ++ Y)) by (rewrite E; apply NoDup_seqZ).
  apply NoDup_app in Hn as (_ & _ & Hn). by apply NoDup_app in Hn as (Hn & _).
Qed.

Lemma ind_kind : ind q = aget 0 (di_addrs d) NDIRECT.
Proof. unfold ind. by rewrite (proj1 Hq). Qed.
Lemma ind_used : ind q <> 0 -> ind q ∈ kused im d.
Proof. intros Hn. apply list_elem_of_filter. split; [done|]. apply elem_of_app. right. rewrite ind_kind. by apply list_elem_of_singleton. Qed.
Lemma image_addr bn : in_file bn -> blk_addr V q bn = kaddr im d (Z.to_nat bn).
Proof.
  intros Hb. unfold in_file in Hb. change MAXFILE with 268 in Hb. unfold blk_addr, kaddr. rewrite <- ind_kind. change NDIRECT with 12. rewrite (proj1 Hq).
  destruct (Z.ltb_spec bn 12); [rewrite decide_True by lia; by rewrite Z2Nat.id by lia|]. rewrite decide_False by lia.
  destruct (Z.eqb_spec (ind q) 0) as [E|E]; [by rewrite decide_True|]. rewrite decide_False by done. rewrite Z2Nat.id by lia.
  pose proof (kused_data _ (ind_used E)). rewrite HV, decide_True; [done|]. change FSSIZE with 2000 in *. lia.
Qed.
Lemma addr_there bn : in_file bn -> blk_addr V q bn <> 0 <-> (Z.to_nat bn < kblocks d)%nat.
Proof.
  intros Hb. rewrite image_addr by done. unfold in_file in Hb. change MAXFILE with 268 in Hb.
  pose proof (gi_addrs _ _ GI k ty c Hk (Z.to_nat bn) ltac:(lia)) as E. fold d in E. rewrite E. unfold kblocks. by rewrite (proj2 Hsz).
Qed.
Lemma addr_used bn : in_file bn -> blk_addr V q bn <> 0 -> blk_addr V q bn ∈ kused im d.
Proof.
  intros Hb Hn. apply list_elem_of_filter. split; [done|]. apply elem_of_app. left. rewrite image_addr by done. apply list_elem_of_fmap_2, elem_of_seq.
  apply (addr_there bn Hb) in Hn. lia.
Qed.

Lemma image_iwf : iwf Mkfs.sb 46 V q.
Proof.
  pose proof kused_NoDup as Hnd. unfold kused in Hnd. rewrite filter_app in Hnd. apply NoDup_app in Hnd as (Hnd & Hap & _).
  split.
  - rewrite (proj1 Hq). done.
  - rewrite (proj2 Hq). apply Hsz.
  - intros a [Hn Ha]. assert (Hin : a ∈ kused im d).
    { destruct Ha as [->|(bn & Hb & <-)]; [by apply ind_used|by apply addr_used]. }
    apply kused_data in Hin. change (sb_size Mkfs.sb) with 2000. change FSSIZE with 2000 in Hfits. change nmeta with 46 in *. split; [lia|].
    unfold is_free. rewrite HV, decide_True by (change (sb_bmapstart Mkfs.sb) with 45; change FSSIZE with 2000; lia).
    rewrite (gi_bitmap _ _ GI) by (change FSSIZE with 2000; lia). apply Z.leb_gt. change nmeta with 46. lia.
  - intros bn bn' Hb Hb' Hn E. assert (Hn' : blk_addr V q bn' <> 0) by congruence. pose proof (proj1 (addr_there bn Hb) Hn). pose proof (proj1 (addr_there bn' Hb') Hn').
    rewrite !image_addr in E by done. rewrite image_addr in Hn by done.
    assert (Z.to_nat bn = Z.to_nat bn') by (apply (NoDup_filter_inj (fun a => a <> 0) (kaddr im d) (seq 0 (kblocks d))); try done; [apply elem_of_seq; lia|apply elem_of_seq; lia|apply NoDup_seq]).
    unfold in_file in Hb, Hb'. lia.
  - intros bn Hb Hi E. assert (Hn : blk_addr V q bn <> 0) by congruence. pose proof (proj1 (addr_there bn Hb) Hn). apply (Hap (ind q)).
    + rewrite <- E. apply list_elem_of_filter. split; [done|]. rewrite image_addr by done. apply list_elem_of_fmap_2, elem_of_seq. lia.
    + rewrite <- ind_kind. rewrite filter_cons_True by done. apply elem_of_cons. by left.
  - intros bn H0 Hlt. rewrite (proj2 Hq) in Hlt. assert (Hb : in_file bn) by (unfold in_file; destruct Hsz; change MAXFILE with 268 in *; change BSIZE with 1024 in *; lia).
    apply addr_there; [done|]. unfold kblocks, nb. change BSIZE with 1024 in Hlt. apply Nat.div_lt_upper_bound || idtac.
    apply (Nat.lt_le_trans _ (S (Z.to_nat bn))); [lia|]. apply Nat.div_le_lower_bound; lia.
Qed.

(** The bytes of the inode are the content decoded from the image. *)
Lemma image_blocks j : (j <= kblocks d)%nat -> frange V q 0 (1024 * Z.of_nat j) = concat (map (fun bn => kblock im (kaddr im d bn)) (seq 0 j)).
Proof.
  induction j as [|j IH]; intros Hj; [done|]. replace (1024 * Z.of_nat (S j)) with (1024 * Z.of_nat j + 1024) by lia. rewrite frange_app, IH by lia.
  rewrite seq_S, map_app, concat_app. cbn [map concat]. rewrite app_nil_r, Nat.add_0_l, Z.add_0_l. f_equal.
  assert (Hb : in_file (Z.of_nat j)).
  { unfold in_file. change MAXFILE with 268. destruct Hsz as [Hs _]. change (MAXFILE * BSIZE) with 274432 in Hs. unfold kblocks, nb in Hj.
    assert ((Z.to_nat (di_size d) + 1023) / 1024 < 269)%nat by (apply Nat.div_lt_upper_bound; lia). lia. }
  assert (Hdiv : 1024 * Z.of_nat j / BSIZE = Z.of_nat j) by (change BSIZE with 1024; rewrite Z.mul_comm; by apply Z.div_mul).
  assert (Hmod : (1024 * Z.of_nat j) mod BSIZE = 0) by (change BSIZE with 1024; rewrite Z.mul_comm; by apply Z_mod_mult).
  assert (Hn : blk_addr V q (Z.of_nat j) <> 0) by (apply addr_there; [done|lia]). pose proof (kused_data _ (addr_used _ Hb Hn)) as Hr.
  rewrite frange_block; [|lia|rewrite Hmod; change BSIZE with 1024; lia|apply image_vok]. rewrite Hdiv, Hmod.
  rewrite HV, decide_True by (change FSSIZE with 2000 in *; lia). rewrite image_addr, Nat2Z.id in Hn |- * by done. unfold kblock. rewrite decide_False by done.
  pose proof (vo_len _ _ _ image_vok (blk_addr V q (Z.of_nat j))) as Hl. rewrite HV, decide_True, image_addr, Nat2Z.id in Hl by (done || (change FSSIZE with 2000 in *; lia)).
  rewrite <- (slice_all (sec im _)) at 2. by rewrite Hl.
Qed.
Lemma image_bytes : file_bytes V q = kcontent im d.
Proof.
  unfold file_bytes, kcontent. rewrite <- image_blocks by done. rewrite (proj2 Hq).
  assert (Hle : di_size d <= 1024 * Z.of_nat (kblocks d)).
  { unfold kblocks, nb. pose proof (Nat.div_mod_eq (Z.to_nat (di_size d) + 1023) 1024). pose proof (Nat.mod_upper_bound (Z.to_nat (di_size d) + 1023) 1024 ltac:(lia)). lia. }
  pose proof (frange_slice V q (1024 * Z.of_nat (kblocks d)) 0 (di_size d) ltac:(lia) ltac:(lia)) as E. rewrite Z.min_l in E by lia. rewrite E. done.
Qed.
End Inode.
End Image.

Lemma image_dinode im inum : 0 <= inum < 200 -> disk_inode Mkfs.sb (image_view im) inum = kinode im inum.
Proof.
  intros Hi. unfold disk_inode, kinode, ino, image_view. destruct (iblock_no inum Hi) as [-> Hb]. by rewrite decide_True by (change FSSIZE with 2000; lia).
Qed.

(** ** The root directory *)
Lemma slice_at a b (l1 l2 l3 : list Z) : length l1 = a -> length l2 = b -> slice a b (l1 ++ l2 ++ l3) = l2.
Proof. intros <- <-. unfold slice. by rewrite drop_app_length, take_app_length. Qed.
Lemma slice_dir_entries names : forall i j nm l, names !! j = Some nm -> slice (16 * j) 16 (dir_entries i names ++ l) = entry (Z.of_nat (i + j)) nm.
Proof.
  induction names as [|x names IH]; intros i j nm l Hj; [done|]. cbn [dir_entries]. rewrite <- app_assoc. destruct j as [|j].
  - injection Hj as ->. rewrite Nat.add_0_r. apply (slice_at 0 16 []); [done|apply length_entry].
  - cbn in Hj. replace (i + S j)%nat with (S i + j)%nat by lia. rewrite <- (IH (S i) j nm l Hj). unfold slice.
    rewrite drop_app_ge by (rewrite length_entry; lia). rewrite length_entry. do 2 f_equal. lia.
Qed.
Lemma root_dir_entries files : root_dir files = entry 1 (str_bytes ".") ++ entry 1 (str_bytes "..") ++ dir_entries 2 (map file_name files).
Proof. done. Qed.
Lemma dirent_entry i nm : 0 <= i < 65536 -> dirent_dec (entry i nm) = mk_dirent i (take 14 (nm ++ replicate 14 0)).
Proof.
  intros Hi. unfold entry. rewrite xshort_u16 by lia. apply dirent_dec_enc; cbn [de_inum de_name]; [done|].
  rewrite length_take, length_app, length_replicate. lia.
Qed.
Lemma dname_pad nm : dname (take 14 (nm ++ replicate 14 0)) = dname nm.
Proof.
  unfold dname. change (Z.to_nat DIRSIZ) with 14%nat.
  assert (E : forall m i, 0 <= i -> (Z.to_nat i + m <= 14)%nat -> cstrn (at_list (take 14 (nm ++ replicate 14 0))) i m = cstrn (at_list nm) i m).
  { induction m as [|m IH]; intros i Hi Hm; [done|]. cbn [cstrn].
    assert (at_list (take 14 (nm ++ replicate 14 0)) i = at_list nm i) as ->.
    { unfold at_list, aget. rewrite !nth_lookup, lookup_take_lt by lia. destruct (Nat.lt_ge_cases (Z.to_nat i) (length nm)) as [Hl|Hl].
      - by rewrite lookup_app_l by lia.
      - rewrite lookup_app_r, lookup_replicate_2, (lookup_ge_None_2 nm) by lia. done. }
    destruct (at_list nm i =? 0); [done|]. rewrite IH by lia. done. }
  apply E; cbn; lia.
Qed.
Lemma root_size_blocks (c : list Z) : (length c mod 1024 <> 0)%nat -> nb (Z.to_nat (root_size c)) = nb (length c).
Proof.
  intros Hm. unfold root_size, nb. pose proof (Nat.div_mod_eq (length c) 1024) as E. pose proof (Nat.mod_upper_bound (length c) 1024 ltac:(lia)).
  set (d := (length c / 1024)%nat) in *. set (r := (length c mod 1024)%nat) in *. rewrite E.
  replace (Z.to_nat _) with (d * 1024 + 1024)%nat by (rewrite <- (Z.div_unique (Z.of_nat (1024 * d + r)) 1024 (Z.of_nat d) (Z.of_nat r)); lia).
  rewrite <- (Nat.div_unique (d * 1024 + 1024 + 1023) 1024 (d + 1) 1023) by lia. symmetry. symmetry.
  apply (Nat.div_unique _ 1024 (d + 1) (r - 1)); lia.
Qed.

Lemma find_seq_first (f : nat -> bool) m j : (j < m)%nat -> f j = true -> (forall i, (i < j)%nat -> f i = false) -> List.find f (seq 0 m) = Some j.
Proof.
  intros Hj Hf Hn. replace m with (j + (1 + (m - S j)))%nat by lia. rewrite seq_app, find_app.
  assert (List.find f (seq 0 j) = None) as ->; [|cbn; by rewrite Hf].
  destruct (List.find f (seq 0 j)) as [x|] eqn:E; [|done]. apply List.find_some in E as [Hx Ht]. apply in_seq in Hx. rewrite Hn in Ht by lia. done.
Qed.
Lemma byte_ok_mkfs_entry i nm : Forall byte_ok nm -> Forall byte_ok (entry i nm).
Proof.
  intros Hn. unfold entry, dirent_enc. cbn [de_inum de_name]. apply Forall_app. split; [apply le_enc_byte_ok|]. apply Forall_take, Forall_app.
  split; [done|]. apply Forall_replicate. unfold byte_ok. lia.
Qed.
Lemma byte_ok_dir_entries names : forall i, Forall (Forall byte_ok) names -> Forall byte_ok (dir_entries i names).
Proof.
  induction names as [|nm names IH]; intros i Hn; cbn [dir_entries]; [constructor|]. apply Forall_cons in Hn as [H1 H2].
  apply Forall_app. split; [by apply byte_ok_mkfs_entry|by apply IH].
Qed.

Lemma file_name_no_slash h p : can_add h p -> SLASH ∉ file_name p.
Proof.
  intros [Hs _] Hin. apply Hs. unfold file_name, strip_mark in Hin. destruct (strip_dir p) as [|c l]; [done|].
  destruct (c =? 95); [|done]. apply elem_of_cons. by right.
Qed.
Lemma components_slash nm : nm <> [] -> SLASH ∉ nm -> components (SLASH :: nm) = [nm].
Proof.
  intros Hn Hs. unfold components. cbn [components_from]. change (SLASH =? SLASH) with true. cbv iota. cbn [app].
  rewrite <- (app_nil_r nm) at 1. rewrite components_from_elem; [done| |done|done].
  apply Forall_forall. intros c Hc ->. done.
Qed.


Section Root.
Variables (h : host) (files : list (list Z)) (im : list (list Z)).
Hypothesis GI : good_image im (tree_of h files).
Hypothesis Hfits : nmeta + Z.of_nat (Mkfs.blocks (tree_of h files)) <= FSSIZE.
Hypothesis Hcount : (length files <= 198)%nat.
Hypothesis Hround : (length files mod 64 <> 62)%nat.
Hypothesis Hadd : Forall (can_add h) files.
Hypothesis Hnames : Forall (fun p => Forall byte_ok (file_name p)) files.
Let V := image_view im.

Lemma length_root : length (root_dir files) = (32 + 16 * length files)%nat.
Proof. rewrite root_dir_entries, !length_app, !length_entry, length_dir_entries, length_map. lia. Qed.
Lemma root_round : (length (root_dir files) mod 1024 <> 0)%nat.
Proof.
  rewrite length_root. pose proof (Nat.div_mod_eq (length files) 64). set (d := (length files / 64)%nat) in *. set (r := (length files mod 64)%nat) in *.
  pose proof (Nat.mod_upper_bound (length files) 64 ltac:(lia)). fold r in H0. intros E.
  pose proof (Nat.div_mod_eq (32 + 16 * length files) 1024). rewrite E in H1. lia.
Qed.
(** The inodes in use are the root's and the files'. *)
Lemma image_used inum : used Mkfs.sb V inum -> exists k ty c, inum = Z.of_nat (S k) /\ tree_of h files !! k = Some (ty, c).
Proof.
  intros [Hr Ht]. change (sb_ninodes Mkfs.sb) with 200 in Hr. unfold V in Ht. rewrite (image_dinode im inum Hr) in Ht.
  destruct (decide (inum = 0 \/ Z.of_nat (length (tree_of h files)) < inum)) as [Hb|Hb]; [by destruct Ht; apply (gi_blank _ _ GI)|].
  destruct (lookup_lt_is_Some_2 (tree_of h files) (Z.to_nat (inum - 1))) as [[ty c] E]; [lia|]. exists (Z.to_nat (inum - 1)), ty, c. split; [lia|done].
Qed.
Lemma length_tree : length (tree_of h files) = S (length files).
Proof. unfold tree_of. cbn [length]. by rewrite length_map. Qed.
Lemma file_at k p : files !! k = Some p -> tree_of h files !! S k = Some (T_FILE, file_data h p).
Proof. intros Hk. change (tree_of h files !! S k) with (((fun p => (T_FILE, file_data h p)) <$> files) !! k). by rewrite list_lookup_fmap, Hk. Qed.
Lemma tree_cases k ty c : tree_of h files !! k = Some (ty, c) ->
  (k = 0%nat /\ ty = T_DIR /\ c = root_dir files) \/ (exists j p, k = S j /\ files !! j = Some p /\ ty = T_FILE /\ c = file_data h p).
Proof.
  destruct k as [|k]; intros E; [left; by injection E as <- <-|right]. change (tree_of h files !! S k) with (((fun p => (T_FILE, file_data h p)) <$> files) !! k) in E.
  rewrite list_lookup_fmap in E. destruct (files !! k) as [p|] eqn:Ep; [|done]. injection E as <- <-. by exists k, p.
Qed.
(** What the kernel finds in inode [k + 1]. *)
Lemma image_inode k ty c : tree_of h files !! k = Some (ty, c) -> let d := kinode im (Z.of_nat (S k)) in
  di_type d = ty /\ di_nlink d = 1 /\ (0 <= di_size d <= MAXFILE * BSIZE /\ nb (Z.to_nat (di_size d)) = nb (length c)) /\
  kcontent im d = c ++ replicate (Z.to_nat (di_size d) - length c) 0 /\ di_size d = (if decide (k = 0%nat) then root_size c else Z.of_nat (length c)).
Proof.
  intros Hk d. change (MAXFILE * BSIZE) with 274432. destruct (tree_cases k ty c Hk) as [(-> & -> & ->)|(j & p & -> & Hj & -> & ->)].
  - destruct (gi_root _ _ GI _ _ Hk) as (H1 & H2 & H3 & H4). change (kinode im ROOTINO) with d in H1, H2, H3, H4. rewrite H3. split_and!; try done.
    + unfold root_size. rewrite length_root. Z.to_euclidean_division_equations. lia.
    + unfold root_size. rewrite length_root. Z.to_euclidean_division_equations. lia.
    + apply root_size_blocks, root_round.
  - destruct (gi_files _ _ GI _ _ _ Hk) as (H1 & H2 & H3 & H4). fold d in H1, H2, H3, H4. rewrite H3. rewrite Nat2Z.id, Nat.sub_diag, app_nil_r. split_and!; try done; [lia|].
    by apply (Forall_lookup_1 _ _ _ _ Hadd Hj).
Qed.

Lemma inum_range k ty c : tree_of h files !! k = Some (ty, c) -> 0 <= Z.of_nat (S k) < 200.
Proof. intros Hk. apply lookup_lt_Some in Hk. rewrite length_tree in Hk. lia. Qed.
Lemma disk_kinode k ty c : tree_of h files !! k = Some (ty, c) -> disk_inode Mkfs.sb V (Z.of_nat (S k)) = kinode im (Z.of_nat (S k)).
Proof. intros Hk. by apply image_dinode, (inum_range k ty c). Qed.
Lemma inode_used k ty c : tree_of h files !! k = Some (ty, c) -> used Mkfs.sb V (Z.of_nat (S k)).
Proof.
  intros Hk. split; [exact (inum_range k ty c Hk)|]. rewrite (disk_kinode k ty c Hk). destruct (image_inode k ty c Hk) as (-> & _).
  by destruct (tree_cases k ty c Hk) as [(_ & -> & _)|(_ & _ & _ & _ & -> & _)].
Qed.
Lemma inode_bytes k ty c : tree_of h files !! k = Some (ty, c) -> let d := disk_inode Mkfs.sb V (Z.of_nat (S k)) in
  iwf Mkfs.sb 46 V (as_inode d) /\ file_bytes V (as_inode d) = c ++ replicate (Z.to_nat (di_size d) - length c) 0.
Proof.
  intros Hk d. unfold d. rewrite (disk_kinode k ty c Hk). destruct (image_inode k ty c Hk) as (_ & _ & Hsz & Hc & _). split.
  - by apply (image_iwf im _ GI Hfits k ty c).
  - rewrite <- Hc. by apply (image_bytes im _ GI Hfits k ty c).
Qed.

(** The entries of the root directory. *)
Definition root_ents : list dirent :=
  mk_dirent 1 (take 14 (str_bytes "." ++ replicate 14 0)) :: mk_dirent 1 (take 14 (str_bytes ".." ++ replicate 14 0)) ::
  imap (fun i p => mk_dirent (Z.of_nat (2 + i)) (take 14 (file_name p ++ replicate 14 0))) files.
Lemma root_entry j : let q := as_inode (disk_inode Mkfs.sb V 1) in
  (j < dir_size q)%nat -> dir_entry V q j = default (mk_dirent 0 (replicate 14 0)) (root_ents !! j).
Proof.
  intros q Hj. destruct (inode_bytes 0 T_DIR (root_dir files) eq_refl) as [_ Hb]. cbv zeta in Hb. change (Z.of_nat 1) with 1 in Hb. fold q in Hb.
  remember (Z.to_nat (di_size (disk_inode Mkfs.sb V 1)) - length (root_dir files))%nat as z eqn:Ez.
  unfold dir_entry. rewrite Hb, root_dir_entries, <- !app_assoc. destruct j as [|[|j]].
  - change (slice (16 * 0) 16 ?l) with (slice 0 16 ([] ++ l)). rewrite slice_at by (done || apply length_entry). by apply dirent_entry.
  - change (16 * 1)%nat with 16%nat. rewrite (slice_at 16 16) by apply length_entry. by apply dirent_entry.
  - replace (16 * S (S j))%nat with (length (entry 1 (str_bytes ".")) + (length (entry 1 (str_bytes "..")) + 16 * j))%nat by (rewrite !length_entry; lia).
    unfold slice. rewrite <- !drop_drop, !drop_app_length. fold (slice (16 * j) 16 (dir_entries 2 (map file_name files) ++ replicate z 0)).
    change (root_ents !! S (S j)) with (imap (fun i p => mk_dirent (Z.of_nat (2 + i)) (take 14 (file_name p ++ replicate 14 0))) files !! j).
    rewrite list_lookup_imap. destruct (files !! j) as [p|] eqn:Ep; cbn [fmap option_fmap option_map default from_option id].
    + rewrite (slice_dir_entries _ 2 j (file_name p)) by (change (map ?f ?l) with (f <$> l); by rewrite list_lookup_fmap, Ep).
      apply dirent_entry. apply lookup_lt_Some in Ep. lia.
    + apply lookup_ge_None_1 in Ep. unfold slice. rewrite drop_app_ge by (rewrite length_dir_entries, length_map; lia). rewrite length_dir_entries, length_map.
      assert (Hl : (16 * S (S j) + 16 <= Z.to_nat (di_size (disk_inode Mkfs.sb V 1)))%nat).
      { unfold dir_size in Hj. change (i_size q) with (di_size (disk_inode Mkfs.sb V 1)) in Hj. pose proof (Z.mul_div_le (di_size (disk_inode Mkfs.sb V 1)) 16 ltac:(lia)). lia. }
      rewrite length_root in Ez. rewrite drop_replicate, take_replicate, Nat.min_l by lia. done.
Qed.

Lemma root_ents_file k p : files !! k = Some p -> root_ents !! S (S k) = Some (mk_dirent (Z.of_nat (2 + k)) (take 14 (file_name p ++ replicate 14 0))).
Proof.
  intros Ep. change (root_ents !! S (S k)) with (imap (fun i p => mk_dirent (Z.of_nat (2 + i)) (take 14 (file_name p ++ replicate 14 0))) files !! k).
  by rewrite list_lookup_imap, Ep.
Qed.
Lemma root_ents_inum j e : root_ents !! j = Some e -> exists k ty c, tree_of h files !! k = Some (ty, c) /\ de_inum e = Z.of_nat (S k).
Proof.
  destruct j as [|[|j]]; [intros [= <-]; by exists 0%nat, T_DIR, (root_dir files)|intros [= <-]; by exists 0%nat, T_DIR, (root_dir files)|].
  change (root_ents !! S (S j)) with (imap (fun i p => mk_dirent (Z.of_nat (2 + i)) (take 14 (file_name p ++ replicate 14 0))) files !! j).
  rewrite list_lookup_imap. destruct (files !! j) as [p|] eqn:Ep; [|done]. intros [= <-]. exists (S j), T_FILE, (file_data h p). split; [by apply file_at|done].
Qed.
Lemma image_tree_ok : tree_ok Mkfs.sb V 46.
Proof.
  split.
  - by apply (image_vok im _ GI).
  - intros inum Hu. destruct (image_used inum Hu) as (k & ty & c & -> & Hk). by apply (inode_bytes k ty c).
  - intros inum Hu Ht. destruct (image_used inum Hu) as (k & ty & c & -> & Hk). destruct (inode_bytes k ty c Hk) as [_ ->].
    rewrite (disk_kinode k ty c Hk) in Ht |- *. destruct (image_inode k ty c Hk) as (Hty & _ & _ & _ & Hsz).
    destruct (tree_cases k ty c Hk) as [(-> & -> & ->)|(j & p & -> & _ & -> & _)]; [|rewrite Hty in Ht; done]. split.
    + rewrite Hsz. cbn [decide]. rewrite decide_True by done. unfold root_size. replace 1024 with (64 * 16) at 2 by done. rewrite Z.mul_assoc. apply Z_mod_mult.
    + apply Forall_app. split; [|apply Forall_replicate; unfold byte_ok; lia]. rewrite root_dir_entries. apply Forall_app.
      split; [apply byte_ok_mkfs_entry; repeat constructor; unfold byte_ok; lia|]. apply Forall_app.
      split; [apply byte_ok_mkfs_entry; repeat constructor; unfold byte_ok; lia|]. apply byte_ok_dir_entries. by apply Forall_fmap.
  - intros inum j Hu Ht Hj i Hi. destruct (image_used inum Hu) as (k & ty & c & -> & Hk). pose proof Ht as Ht'. rewrite (disk_kinode k ty c Hk) in Ht'.
    destruct (image_inode k ty c Hk) as (Hty & _). destruct (tree_cases k ty c Hk) as [(-> & -> & ->)|(j' & p & -> & _ & -> & _)]; [|rewrite Hty in Ht'; done].
    change (Z.of_nat 1) with 1 in *. unfold i in *. rewrite (root_entry j Hj) in Hi |- *. destruct (root_ents !! j) as [e|] eqn:Ee; [|done]. cbn [default from_option id] in *.
    destruct (root_ents_inum j e Ee) as (k' & ty' & c' & Hk' & ->). split; [by apply (inode_used k' ty' c')|left].
    rewrite (disk_kinode k' ty' c' Hk'). destruct (image_inode k' ty' c' Hk') as (_ & -> & _). done.
Qed.

(** The first file of a name is found under it. *)
Definition first_named (k : nat) (nm : list Z) : Prop :=
  dname nm <> dname (str_bytes ".") /\ dname nm <> dname (str_bytes "..") /\
  (forall p, files !! k = Some p -> dname (file_name p) = dname nm) /\
  forall i p, (i < k)%nat -> files !! i = Some p -> dname (file_name p) <> dname nm.
Lemma root_child k nm : (k < length files)%nat -> first_named k nm -> child Mkfs.sb V 1 nm = Some (Z.of_nat (S (S k))).
Proof.
  intros Hk (N1 & N2 & Hnk & Hnf). pose proof (eq_refl : tree_of h files !! 0%nat = Some (T_DIR, root_dir files)) as H0.
  pose proof (disk_kinode 0 _ _ H0) as Ed. change (Z.of_nat 1) with 1 in Ed. destruct (image_inode 0 _ _ H0) as (Hty & _ & _ & _ & Hsz). change (Z.of_nat 1) with 1 in Hty, Hsz.
  rewrite decide_True in Hsz by done. set (q := as_inode (disk_inode Mkfs.sb V 1)).
  assert (Hd : (2 + length files <= dir_size q)%nat).
  { unfold dir_size, q. change (i_size (as_inode ?d)) with (di_size d). rewrite Ed, Hsz. unfold root_size. rewrite length_root. Z.to_euclidean_division_equations. lia. }
  assert (Hre : forall j, (j < dir_size q)%nat -> dir_entry V q j = default (mk_dirent 0 (replicate 14 0)) (root_ents !! j)) by (intros j; exact (root_entry j)).
  destruct (lookup_lt_is_Some_2 files k Hk) as [p Ep].
  assert (Hf : dir_find V q nm = Some (S (S k))).
  { apply find_seq_first; [lia| |].
    - rewrite Hre, (root_ents_file k p Ep) by lia. cbn [default from_option id].
      unfold names. cbn [de_inum de_name]. rewrite dname_pad, (Hnk p Ep), bool_decide_true by done. by destruct (Z.eqb_spec (Z.of_nat (2 + k)) 0); [lia|].
    - intros i Hi. rewrite Hre by lia. unfold names. apply andb_false_iff. right. apply bool_decide_false. destruct i as [|[|i]].
      + change (dname (take 14 (str_bytes "." ++ replicate 14 0)) <> dname nm). rewrite dname_pad. congruence.
      + change (dname (take 14 (str_bytes ".." ++ replicate 14 0)) <> dname nm). rewrite dname_pad. congruence.
      + destruct (lookup_lt_is_Some_2 files i ltac:(lia)) as [p' Ep']. rewrite (root_ents_file i p' Ep'). cbn [default from_option id de_name].
        rewrite dname_pad. apply (Hnf i p'); [lia|done]. }
  unfold child. fold q. rewrite Hf, Hre, (root_ents_file k p Ep) by lia. rewrite Ed, Hty. done.
Qed.

(** Opening and reading a file. *)
Lemma kernel_reads_run {KI : KernelImage} {BD : BlockDevice} {UA : Uart16550} k path p n s :
  files !! k = Some path -> file_name path <> [] -> first_named k (file_name path) ->
  MAXFILE * BSIZE / 16 < Z.of_nat n -> walking ROOTDEV p Mkfs.sb V None s -> 2 <= unused s ->
  exists ip s1 s2 s3, namei (SLASH :: file_name path) n s = Ret (Some ip) s1 /\ ilock (Some ip) n s1 = Ret tt s2 /\
    let c := file_data h path in readi ip None 0 (Z.of_nat (length c)) n s2 = Ret (Z.of_nat (length c), c) s3.
Proof.
  intros Hk Hne Hfirst Hn W Hun. set (nm := file_name path) in *. set (c := file_data h path). pose proof image_tree_ok as Ht.
  pose proof (file_name_no_slash h path (Forall_lookup_1 _ _ _ _ Hadd Hk)) as Hs. fold nm in Hs.
  pose proof (Forall_lookup_1 _ _ _ _ Hnames Hk) as Hbn. cbv beta in Hbn. fold nm in Hbn.
  assert (Hroot : used Mkfs.sb V ROOTINO /\ di_nlink (disk_inode Mkfs.sb V ROOTINO) <> 0).
  { split; [by apply (inode_used 0 T_DIR (root_dir files))|].
    pose proof (disk_kinode 0 T_DIR (root_dir files) eq_refl) as Ed. change (Z.of_nat 1) with ROOTINO in Ed. rewrite Ed.
    destruct (image_inode 0 T_DIR (root_dir files) eq_refl) as (_ & H & _). change (Z.of_nat 1) with ROOTINO in H. by rewrite H. }
  assert (P : walk_pre ROOTDEV p Mkfs.sb V s (SLASH :: nm)).
  { split; [done|done| |done|done]. constructor; [unfold byte_ok, SLASH; lia|done]. }
  assert (Hfuel : 17152 < Z.of_nat n) by exact Hn.
  destruct (namex_run ROOTDEV p n Mkfs.sb 46 V Hn Ht eq_refl false s (SLASH :: nm) P) as (s1 & W1 & H1); [rewrite components_slash by done; cbn; lia|].
  rewrite components_slash in H1 by done. cbv zeta in H1.
  pose proof (walk_resolve Mkfs.sb V [nm] 1 []) as Er. cbn [resolve] in Er. rewrite (root_child k nm (lookup_lt_Some _ _ _ Hk) Hfirst) in Er.
  change (start_inum p s (SLASH :: nm)) with 1 in H1. destruct (tree_walk Mkfs.sb V false 1 [] [nm]) as [[t x]|]; [|done]. injection Er as ->.
  destruct H1 as (ip & E1 & A1 & I1 & _).
  destruct (walk_ilock ROOTDEV p n Mkfs.sb V Hn s1 ip W1 A1) as (s2 & E2 & W2 & [T2 _] & _). rewrite I1 in T2.
  pose proof (file_at k path Hk) as Hf. fold c in Hf. destruct (inode_bytes (S k) T_FILE c Hf) as [Hw Hb].
  destruct (image_inode (S k) T_FILE c Hf) as (_ & _ & _ & _ & Hsz). rewrite decide_False in Hsz by done. rewrite <- (disk_kinode (S k) T_FILE c Hf) in Hsz.
  set (d := disk_inode Mkfs.sb V (Z.of_nat (S (S k)))) in *. cbv zeta in Hb. rewrite Hsz, Nat2Z.id, Nat.sub_diag, app_nil_r in Hb.
  pose proof (wk_view _ _ _ _ _ _ W2) as HV2.
  assert (R : readable ROOTDEV p Mkfs.sb 46 s2 ip).
  { split; [apply W2|exact (wk_room _ _ _ _ _ _ W2)| | |].
    - apply (vok_ext Mkfs.sb 46 V); [done|apply Ht].
    - rewrite T2. apply (iwf_ext Mkfs.sb 46 V); [done|]. exact (let 'Build_iwf _ _ _ _ a b c e f g := Hw in Build_iwf _ _ _ (load_dinode d (inode_at s1 ip)) a b c e f g).
    - rewrite T2. destruct A1 as [Hip Hr]. exact (proj1 (tb_used _ _ _ _ (wk_table _ _ _ _ _ _ W1) ip Hip ltac:(lia))). }
  assert (Hc : Z.of_nat (length c) <= 274432) by (by apply (Forall_lookup_1 _ _ _ _ Hadd Hk)).
  destruct (readi_run ROOTDEV p n Mkfs.sb 46 ltac:(change HEAD with 30%nat; lia) s2 ip 0 (Z.of_nat (length c)) R ltac:(lia)) as (s3 & E3 & _); [lia|lia|].
  exists ip, s1, s2, s3. split; [unfold namei; by rewrite (bind_ret _ _ _ _ _ _ E1)|]. split; [done|]. cbv zeta. fold c. rewrite E3, T2. change (i_size (load_dinode d (inode_at s1 ip))) with (di_size d).
  assert (Hcnt : read_count (di_size d) 0 (Z.of_nat (length c)) = Z.of_nat (length c)).
  { unfold read_count. rewrite Hsz, Z.add_0_l, u32_small by lia. destruct (Z.gtb_spec 0 (Z.of_nat (length c))); [lia|]. destruct (Z.ltb_spec (Z.of_nat (length c)) 0); [lia|].
    cbn [orb]. destruct (Z.gtb_spec (Z.of_nat (length c)) (Z.of_nat (length c))); lia. }
  rewrite Hcnt. do 2 f_equal. rewrite <- Hb at 2. rewrite <- (loaded_bytes ROOTDEV V s2 d (inode_at s1 ip) HV2). unfold file_bytes.
  change (i_size (load_dinode d (inode_at s1 ip))) with (di_size d). by rewrite Hsz.
Qed.
End Root.

(** C4: the kernel finds on a disk made by mkfs the files mkfs was given:
    when mkfs made the image from files that fit (and their number is not 62
    modulo 64), a kernel whose root device shows the image, with an inode
    table that agrees with it and two entries unused, opens the path "/name"
    of any of the files (the first of that name) with [namei], locks it with
    [ilock], which loads its inode, and reads with [readi] exactly the bytes
    of the file. *)
Theorem kernel_reads_image {KI : KernelImage} {BD : BlockDevice} {UA : Uart16550} h prog image_name files m k path :
  h_create h image_name = true -> Forall (can_add h) files -> (length files <= 198)%nat ->
  nmeta + Z.of_nat (Mkfs.blocks (tree_of h files)) <= FSSIZE ->
  (length files mod 64 <> 62)%nat -> Forall (fun p => Forall byte_ok (file_name p)) files ->
  files !! k = Some path -> file_name path <> [] -> first_named files k (file_name path) ->
  exists sm, Mkfs.main h (prog :: image_name :: files) m mkst0 = Ret tt sm /\
    forall p n s, MAXFILE * BSIZE / 16 < Z.of_nat n ->
      walking ROOTDEV p Mkfs.sb (image_view (img sm)) None s -> 2 <= unused s ->
      exists ip s1 s2 s3, namei (SLASH :: file_name path) n s = Ret (Some ip) s1 /\ ilock (Some ip) n s1 = Ret tt s2 /\
        let c := file_data h path in readi ip None 0 (Z.of_nat (length c)) n s2 = Ret (Z.of_nat (length c), c) s3.
Proof.
  intros Hcr Hadd Hl Hfit Hround Hbytes Hk Hne Hfirst. destruct (mkfs_good h prog image_name files m Hcr Hadd Hl Hfit) as (sm & E & _ & GI).
  exists sm. split; [done|]. intros p n s Hn W Hun. by eapply (kernel_reads_run h files (img sm)).
Qed.

(** A kernel at boot with the disk of [ex_host]: /ls is read. *)
#[local] Existing Instance fast_line.
Lemma ex_image_state im : exists s, walking ROOTDEV 3 Mkfs.sb (image_view im) None s /\ 2 <= unused s.
Proof.
  set (d := list_to_map (map (fun x => (x, sec im x)) (seqZ 0 FSSIZE)) : gmap Z (list Z)).
  destruct (ex_tx_state d Mkfs.sb (replicate 50 inode0)) as (s & I & Hl & _ & Hs & Hi & Hlk & HV & Hsl). exists s.
  assert (Hz : forall i, (i < Z.to_nat NINODE)%nat -> inode_at s i = inode0).
  { intros i H. unfold inode_at. rewrite Hi. apply lookup_total_replicate_2. exact H. }
  split; [|unfold unused, total, inode_at; rewrite Hi; vm_compute; congruence]. split; try done.
  - rewrite Hl. vm_compute. lia.
  - intros x. change (view ROOTDEV s x) with (view 1 s x). rewrite HV. unfold image_view. case_decide as Hx.
    + assert (E : d !! x = Some (sec im x)); [|by rewrite E]. apply elem_of_list_to_map_1.
      * rewrite <- list_fmap_compose. rewrite (list_fmap_ext _ id), list_fmap_id; [apply NoDup_seqZ|done].
      * apply list_elem_of_fmap. exists x. split; [done|]. apply elem_of_seqZ. lia.
    + assert (E : d !! x = None); [|by rewrite E]. apply not_elem_of_list_to_map_1. rewrite <- list_fmap_compose. intros (y & -> & Hy)%list_elem_of_fmap.
      apply elem_of_seqZ in Hy. cbn in Hx. lia.
  - intros i H. by apply Hsl.
  - split; [by rewrite Hi|intros i H; by rewrite Hz|intros i H; by rewrite Hz|intros i j H; by rewrite Hz].
  - intros i H _. by apply Hsl.
Qed.
Lemma kernel_reads_image_witness : exists s ip s1 s2 s3,
  namei (str_bytes "/ls") (Z.to_nat 17153) s = Ret (Some ip) s1 /\ ilock (Some ip) (Z.to_nat 17153) s1 = Ret tt s2 /\
  readi ip None 0 4 (Z.to_nat 17153) s2 = Ret (4, [127; 69; 76; 70]) s3.
Proof.
  destruct (kernel_reads_image ex_host (str_bytes "mkfs") (str_bytes "fs.img") ex_files 0%nat 1%nat (str_bytes "user/_ls")) as (sm & _ & H).
  - reflexivity.
  - repeat constructor; first [by vm_compute|apply (bool_decide_unpack _); by vm_compute|eexists; by vm_compute].
  - vm_compute. lia.
  - apply (bool_decide_unpack _). by vm_compute.
  - by vm_compute.
  - repeat constructor; vm_compute; repeat constructor; intuition congruence.
  - reflexivity.
  - by vm_compute.
  - split_and!; [by vm_compute|by vm_compute|intros p [= <-]; reflexivity|].
    intros [|i] p Hi; [intros [= <-]; by vm_compute|lia].
  - destruct (ex_image_state (img sm)) as (s & W & Hu). destruct (H 3%nat (Z.to_nat 17153) s) as (ip & s1 & s2 & s3 & E1 & E2 & E3); [by vm_compute|exact W|exact Hu|].
    exists s, ip, s1, s2, s3. split; [exact E1|]. split; [exact E2|exact E3].
Defined.
