(* ===== verification/Machine.v ===== *)
(** * The machine: boot, timer interrupts, traps and context switches

    kernel/start.c, the control-register accessors of kernel/riscv.h it uses,
    and the assembly of kernel/entry.S, kernel/kernelvec.S, kernel/swtch.S and
    kernel/trampoline.S, on a model of one hart: its registers, its control
    registers, and memory as a map of aligned doublewords (every access here
    is one).  In machine mode addresses are physical; otherwise the page table
    in satp translates them, a parameter of the model.  Code runs straight
    through: instruction fetch and the delivery of a trap (which sets the
    previous mode and the return address) are the hardware's, and the states
    of the theorems are those after delivery. *)

From S2P Require Import Prelude Params.

(** ** The hart *)
Inductive reg : Type :=
| ra | sp | gp | tp | t0 | t1 | t2 | s0 | s1 | a0 | a1 | a2 | a3 | a4 | a5 | a6 | a7
| s2 | s3 | s4 | s5 | s6 | s7 | s8 | s9 | s10 | s11 | t3 | t4 | t5 | t6.
#[export] Instance reg_eq_dec : EqDecision reg.
Proof. solve_decision. Defined.

Inductive csreg : Type :=
| MHARTID | MSTATUS | MEPC | MEDELEG | MIDELEG | MIE | MIP | MSCRATCH | MTVEC | MCOUNTEREN | PMPCFG0 | PMPADDR0
| SATP | SSCRATCH | SEPC | SCAUSE | STVAL | STVEC | TIME
| SIE | SIP | SSTATUS (* views of the machine-mode registers *).
#[export] Instance csreg_eq_dec : EqDecision csreg.
Proof. solve_decision. Defined.

Inductive mode : Type := UserMode | SupervisorMode | MachineMode.

Record mach := mk_mach { x : reg -> Z; csr : csreg -> Z; mem : Z -> Z; pc : Z; priv : mode }.

Definition fset {K V} `{EqDecision K} (k : K) (v : V) (f : K -> V) : K -> V := fun k' => if decide (k' = k) then v else f k'.
Definition set_x (r : reg) (v : Z) (m : mach) : mach := mk_mach (fset r v (x m)) (csr m) (mem m) (pc m) (priv m).
Definition set_csr (c : csreg) (v : Z) (m : mach) : mach := mk_mach (x m) (fset c v (csr m)) (mem m) (pc m) (priv m).
Definition set_mem (a v : Z) (m : mach) : mach := mk_mach (x m) (csr m) (fset a v (mem m)) (pc m) (priv m).
Definition set_pc (v : Z) (m : mach) : mach := mk_mach (x m) (csr m) (mem m) v (priv m).
Definition set_priv (p : mode) (m : mach) : mach := mk_mach (x m) (csr m) (mem m) (pc m) p.

(** What the hardware and the image determine: the translation of addresses
    by a page table, the interrupts and exceptions that can be delegated to
    supervisor mode (machine-level ones cannot), and addresses of symbols. *)
Class Hart := {
  mmu : Z -> Z -> Z;
  int_deleg : Z;
  exc_deleg : Z;
  sym_main : Z;
  sym_timervec : Z;
  stack0 : Z;
  timer_scratch : Z;
  deleg_supervisor : Z.land int_deleg 0x222 = 0x222;
  deleg_machine : Z.land int_deleg 0x888 = 0;
}.

(** ** kernel/riscv.h *)
Definition MSTATUS_MPP_MASK : Z := Z.shiftl 3 11.
Definition MSTATUS_MPP_S : Z := Z.shiftl 1 11.
Definition MSTATUS_MIE : Z := Z.shiftl 1 3.
Definition SIE_SEIE : Z := Z.shiftl 1 9.
Definition SIE_STIE : Z := Z.shiftl 1 5.
Definition SIE_SSIE : Z := Z.shiftl 1 1.
Definition MIE_MTIE : Z := Z.shiftl 1 7.

Section Machine.
Context {HT : Hart}.

(** Reading and writing a control register.  sstatus, sie and sip show the
    supervisor's bits of mstatus, mie and mip; the delegation registers keep
    the bits the hardware can delegate; only the software interrupt is
    writable in sip. *)
Definition SSTATUS_MASK : Z := 0x8000_0003_000D_E162.
Definition read_csr (c : csreg) (m : mach) : Z :=
  match c with
  | SIE => Z.land (csr m MIE) (csr m MIDELEG)
  | SIP => Z.land (csr m MIP) (csr m MIDELEG)
  | SSTATUS => Z.land (csr m MSTATUS) SSTATUS_MASK
  | _ => csr m c
  end.
Definition merge (mask old new : Z) : Z := Z.lor (Z.ldiff old mask) (Z.land new mask).
Definition write_csr (c : csreg) (v : Z) (m : mach) : mach :=
  match c with
  | SIE => set_csr MIE (merge (csr m MIDELEG) (csr m MIE) v) m
  | SIP => set_csr MIP (merge (Z.land 2 (csr m MIDELEG)) (csr m MIP) v) m
  | SSTATUS => set_csr MSTATUS (merge SSTATUS_MASK (csr m MSTATUS) v) m
  | MIDELEG => set_csr MIDELEG (Z.land v int_deleg) m
  | MEDELEG => set_csr MEDELEG (Z.land v exc_deleg) m
  | MHARTID | TIME => m
  | _ => set_csr c v m
  end.

Definition putbit (i : Z) (b : bool) (v : Z) : Z := if b then Z.setbit v i else Z.clearbit v i.
(** Returning from a trap: the previous privilege and interrupt enable. *)
Definition mret_step (m : mach) : mach :=
  let st := csr m MSTATUS in
  let p := match Z.land (Z.shiftr st 11) 3 with 0 => UserMode | 1 => SupervisorMode | _ => MachineMode end in
  set_priv p (set_pc (csr m MEPC) (set_csr MSTATUS (Z.ldiff (putbit 7 true (putbit 3 (Z.testbit st 7) st)) MSTATUS_MPP_MASK) m)).
Definition sret_step (m : mach) : mach :=
  let st := csr m MSTATUS in
  let p := if Z.testbit st 8 then SupervisorMode else UserMode in
  set_priv p (set_pc (csr m SEPC) (set_csr MSTATUS (putbit 8 false (putbit 5 true (putbit 1 (Z.testbit st 5) st))) m)).

(** ** Instructions *)
Inductive instr : Type :=
| Sd (r : reg) (off : Z) (b : reg)
| Ld (r : reg) (off : Z) (b : reg)
| Li (r : reg) (v : Z)
| Addi (r a : reg) (v : Z)
| Add (r a b : reg)
| Mul (r a b : reg)
| Csrr (r : reg) (c : csreg)
| Csrw (c : csreg) (r : reg)
| Csrrw (r : reg) (c : csreg) (a : reg)
| SfenceVma
| Jr (r : reg)
| Mret
| Sret.

Definition phys (m : mach) (va : Z) : Z := match priv m with MachineMode => va | _ => mmu (csr m SATP) va end.
Definition ea (m : mach) (b : reg) (off : Z) : Z := phys m (u64 (x m b + off)).
Definition step1 (m : mach) (i : instr) : mach :=
  match i with
  | Sd r off b => set_mem (ea m b off) (x m r) m
  | Ld r off b => set_x r (mem m (ea m b off)) m
  | Li r v => set_x r v m
  | Addi r a v => set_x r (u64 (x m a + v)) m
  | Add r a b => set_x r (u64 (x m a + x m b)) m
  | Mul r a b => set_x r (u64 (x m a * x m b)) m
  | Csrr r c => set_x r (read_csr c m) m
  | Csrw c r => write_csr c (x m r) m
  | Csrrw r c a => set_x r (read_csr c m) (write_csr c (x m a) m)
  | SfenceVma => m
  | Jr r => set_pc (x m r) m
  | Mret => mret_step m
  | Sret => sret_step m
  end.
Definition run_code (l : list instr) (m : mach) : mach := fold_left step1 l m.
Lemma run_app l1 l2 m : run_code (l1 ++ l2) m = run_code l2 (run_code l1 m).
Proof. apply fold_left_app. Qed.

(** ** The assembly files *)
(** kernel/entry.S, up to the call of [start] *)
Definition entry_code : list instr :=
  [Li sp stack0; Li a0 (1024 * 4); Csrr a1 MHARTID; Addi a1 a1 1; Mul a0 a0 a1; Add sp sp a0].

(** kernel/kernelvec.S: [kernelvec] before and after the call of
    [kerneltrap], and [timervec] *)
Definition kernelvec_save : list instr :=
  [Addi sp sp (-256);
   Sd ra 0 sp; Sd sp 8 sp; Sd gp 16 sp; Sd tp 24 sp; Sd t0 32 sp; Sd t1 40 sp; Sd t2 48 sp; Sd s0 56 sp; Sd s1 64 sp;
   Sd a0 72 sp; Sd a1 80 sp; Sd a2 88 sp; Sd a3 96 sp; Sd a4 104 sp; Sd a5 112 sp; Sd a6 120 sp; Sd a7 128 sp;
   Sd s2 136 sp; Sd s3 144 sp; Sd s4 152 sp; Sd s5 160 sp; Sd s6 168 sp; Sd s7 176 sp; Sd s8 184 sp; Sd s9 192 sp;
   Sd s10 200 sp; Sd s11 208 sp; Sd t3 216 sp; Sd t4 224 sp; Sd t5 232 sp; Sd t6 240 sp].
Definition kernelvec_restore : list instr :=
  [Ld ra 0 sp; Ld sp 8 sp; Ld gp 16 sp; Ld t0 32 sp; Ld t1 40 sp; Ld t2 48 sp; Ld s0 56 sp; Ld s1 64 sp;
   Ld a0 72 sp; Ld a1 80 sp; Ld a2 88 sp; Ld a3 96 sp; Ld a4 104 sp; Ld a5 112 sp; Ld a6 120 sp; Ld a7 128 sp;
   Ld s2 136 sp; Ld s3 144 sp; Ld s4 152 sp; Ld s5 160 sp; Ld s6 168 sp; Ld s7 176 sp; Ld s8 184 sp; Ld s9 192 sp;
   Ld s10 200 sp; Ld s11 208 sp; Ld t3 216 sp; Ld t4 224 sp; Ld t5 232 sp; Ld t6 240 sp;
   Addi sp sp 256; Sret].
Definition timervec_code : list instr :=
  [Csrrw a0 MSCRATCH a0; Sd a1 0 a0; Sd a2 8 a0; Sd a3 16 a0;
   Ld a1 24 a0; Ld a2 32 a0; Ld a3 0 a1; Add a3 a3 a2; Sd a3 0 a1;
   Li a1 2; Csrw SIP a1;
   Ld a3 16 a0; Ld a2 8 a0; Ld a1 0 a0; Csrrw a0 MSCRATCH a0; Mret].

(** kernel/swtch.S *)
Definition swtch_code : list instr :=
  [Sd ra 0 a0; Sd sp 8 a0; Sd s0 16 a0; Sd s1 24 a0; Sd s2 32 a0; Sd s3 40 a0; Sd s4 48 a0; Sd s5 56 a0; Sd s6 64 a0;
   Sd s7 72 a0; Sd s8 80 a0; Sd s9 88 a0; Sd s10 96 a0; Sd s11 104 a0;
   Ld ra 0 a1; Ld sp 8 a1; Ld s0 16 a1; Ld s1 24 a1; Ld s2 32 a1; Ld s3 40 a1; Ld s4 48 a1; Ld s5 56 a1; Ld s6 64 a1;
   Ld s7 72 a1; Ld s8 80 a1; Ld s9 88 a1; Ld s10 96 a1; Ld s11 104 a1; Jr ra].

(** kernel/trampoline.S *)
Definition uservec_code : list instr :=
  [Csrw SSCRATCH a0; Li a0 TRAPFRAME;
   Sd ra 40 a0; Sd sp 48 a0; Sd gp 56 a0; Sd tp 64 a0; Sd t0 72 a0; Sd t1 80 a0; Sd t2 88 a0; Sd s0 96 a0; Sd s1 104 a0;
   Sd a1 120 a0; Sd a2 128 a0; Sd a3 136 a0; Sd a4 144 a0; Sd a5 152 a0; Sd a6 160 a0; Sd a7 168 a0;
   Sd s2 176 a0; Sd s3 184 a0; Sd s4 192 a0; Sd s5 200 a0; Sd s6 208 a0; Sd s7 216 a0; Sd s8 224 a0; Sd s9 232 a0;
   Sd s10 240 a0; Sd s11 248 a0; Sd t3 256 a0; Sd t4 264 a0; Sd t5 272 a0; Sd t6 280 a0;
   Csrr t0 SSCRATCH; Sd t0 112 a0;
   Ld sp 8 a0; Ld tp 32 a0; Ld t0 16 a0; Ld t1 0 a0;
   SfenceVma; Csrw SATP t1; SfenceVma; Jr t0].
Definition userret_code : list instr :=
  [SfenceVma; Csrw SATP a0; SfenceVma; Li a0 TRAPFRAME;
   Ld ra 40 a0; Ld sp 48 a0; Ld gp 56 a0; Ld tp 64 a0; Ld t0 72 a0; Ld t1 80 a0; Ld t2 88 a0; Ld s0 96 a0; Ld s1 104 a0;
   Ld a1 120 a0; Ld a2 128 a0; Ld a3 136 a0; Ld a4 144 a0; Ld a5 152 a0; Ld a6 160 a0; Ld a7 168 a0;
   Ld s2 176 a0; Ld s3 184 a0; Ld s4 192 a0; Ld s5 200 a0; Ld s6 208 a0; Ld s7 216 a0; Ld s8 224 a0; Ld s9 232 a0;
   Ld s10 240 a0; Ld s11 248 a0; Ld t3 256 a0; Ld t4 264 a0; Ld t5 272 a0; Ld t6 280 a0;
   Ld a0 112 a0; Sret].

(** ** The accessors of kernel/riscv.h *)
Definition r_mhartid : M mach Z := gets (read_csr MHARTID).
Definition r_mstatus : M mach Z := gets (read_csr MSTATUS).
Definition w_mstatus (v : Z) : M mach unit := modify (write_csr MSTATUS v).
Definition w_mepc (v : Z) : M mach unit := modify (write_csr MEPC v).
Definition r_sie : M mach Z := gets (read_csr SIE).
Definition w_sie (v : Z) : M mach unit := modify (write_csr SIE v).
Definition r_mie : M mach Z := gets (read_csr MIE).
Definition w_mie (v : Z) : M mach unit := modify (write_csr MIE v).
Definition r_medeleg : M mach Z := gets (read_csr MEDELEG).
Definition w_medeleg (v : Z) : M mach unit := modify (write_csr MEDELEG v).
Definition r_mideleg : M mach Z := gets (read_csr MIDELEG).
Definition w_mideleg (v : Z) : M mach unit := modify (write_csr MIDELEG v).
Definition w_mtvec (v : Z) : M mach unit := modify (write_csr MTVEC v).
Definition w_pmpcfg0 (v : Z) : M mach unit := modify (write_csr PMPCFG0 v).
Definition w_pmpaddr0 (v : Z) : M mach unit := modify (write_csr PMPADDR0 v).
Definition w_satp (v : Z) : M mach unit := modify (write_csr SATP v).
Definition w_mscratch (v : Z) : M mach unit := modify (write_csr MSCRATCH v).
Definition w_mcounteren (v : Z) : M mach unit := modify (write_csr MCOUNTEREN v).
Definition r_mcounteren : M mach Z := gets (read_csr MCOUNTEREN).
Definition r_time : M mach Z := gets (read_csr TIME).
Definition r_stvec : M mach Z := gets (read_csr STVEC).
Definition r_sp : M mach Z := gets (fun m => x m sp).
Definition r_tp : M mach Z := gets (fun m => x m tp).
Definition w_tp (v : Z) : M mach unit := modify (set_x tp v).
Definition r_ra : M mach Z := gets (fun m => x m ra).
Definition ld64 (a : Z) : M mach Z := gets (fun m => mem m (phys m a)).
Definition sd64 (a v : Z) : M mach unit := modify (fun m => set_mem (phys m a) (u64 v) m).

(** ** kernel/start.c *)
Definition CLINT : Z := 0x2000000.
Definition CLINT_MTIMECMP (hartid : Z) : Z := CLINT + 0x4000 + 8 * hartid.
Definition CLINT_MTIME : Z := CLINT + 0xBFF8.

Definition timerinit : M mach unit :=
  let* h := r_mhartid in
  let id := s32 h in
  let interval := 1000000 in
  let* now := ld64 CLINT_MTIME in
  sd64 (CLINT_MTIMECMP id) (now + interval) ;;
  let scratch := timer_scratch + 40 * id in
  sd64 (scratch + 24) (CLINT_MTIMECMP id) ;;
  sd64 (scratch + 32) interval ;;
  w_mscratch scratch ;;
  w_mtvec sym_timervec ;;
  let* st := r_mstatus in
  w_mstatus (Z.lor st MSTATUS_MIE) ;;
  let* e := r_mie in
  w_mie (Z.lor e MIE_MTIE).

Definition start : M mach unit :=
  let* st := r_mstatus in
  w_mstatus (Z.lor (Z.ldiff st MSTATUS_MPP_MASK) MSTATUS_MPP_S) ;;
  w_mepc sym_main ;;
  w_satp 0 ;;
  w_medeleg 0xffff ;;
  w_mideleg 0xffff ;;
  let* e := r_sie in
  w_sie (Z.lor (Z.lor (Z.lor e SIE_SEIE) SIE_STIE) SIE_SSIE) ;;
  w_pmpaddr0 0x3fffffffffffff ;;
  w_pmpcfg0 0xf ;;
  timerinit ;;
  let* h := r_mhartid in
  w_tp (u64 (s32 h)) ;;
  modify mret_step.

(** ** Saving and restoring registers *)
Lemma fset_eq {K V} `{EqDecision K} (k : K) (v : V) f : fset k v f k = v.
Proof. unfold fset. by rewrite decide_True. Qed.
Lemma fset_ne {K V} `{EqDecision K} (k k' : K) (v : V) f : k' <> k -> fset k v f k' = f k'.
Proof. intros. unfold fset. by rewrite decide_False. Qed.

(** What each step leaves alone. *)
Lemma x_set_x_eq r v m : x (set_x r v m) r = v.
Proof. apply fset_eq. Qed.
Lemma x_set_x_ne r r' v m : r' <> r -> x (set_x r v m) r' = x m r'.
Proof. apply fset_ne. Qed.
Lemma x_set_csr c v m r : x (set_csr c v m) r = x m r.
Proof. done. Qed.
Lemma x_set_mem a v m r : x (set_mem a v m) r = x m r.
Proof. done. Qed.
Lemma x_set_pc v m r : x (set_pc v m) r = x m r.
Proof. done. Qed.
Lemma x_set_priv p m r : x (set_priv p m) r = x m r.
Proof. done. Qed.
Lemma csr_set_csr_eq c v m : csr (set_csr c v m) c = v.
Proof. apply fset_eq. Qed.
Lemma csr_set_csr_ne c c' v m : c' <> c -> csr (set_csr c v m) c' = csr m c'.
Proof. apply fset_ne. Qed.
Lemma csr_set_x r v m c : csr (set_x r v m) c = csr m c.
Proof. done. Qed.
Lemma csr_set_mem a v m c : csr (set_mem a v m) c = csr m c.
Proof. done. Qed.
Lemma csr_set_pc v m c : csr (set_pc v m) c = csr m c.
Proof. done. Qed.
Lemma csr_set_priv p m c : csr (set_priv p m) c = csr m c.
Proof. done. Qed.
Lemma mem_set_mem a v m a' : mem (set_mem a v m) a' = if decide (a' = a) then v else mem m a'.
Proof. done. Qed.
Lemma mem_set_x r v m a : mem (set_x r v m) a = mem m a.
Proof. done. Qed.
Lemma mem_set_csr c v m a : mem (set_csr c v m) a = mem m a.
Proof. done. Qed.
Lemma mem_set_pc v m a : mem (set_pc v m) a = mem m a.
Proof. done. Qed.
Lemma mem_set_priv p m a : mem (set_priv p m) a = mem m a.
Proof. done. Qed.
Lemma pc_set_pc v m : pc (set_pc v m) = v.
Proof. done. Qed.
Lemma pc_set_priv p m : pc (set_priv p m) = pc m.
Proof. done. Qed.
Lemma pc_set_x r v m : pc (set_x r v m) = pc m.
Proof. done. Qed.
Lemma priv_set_priv p m : priv (set_priv p m) = p.
Proof. done. Qed.
Lemma priv_set_pc v m : priv (set_pc v m) = priv m.
Proof. done. Qed.
Lemma priv_set_x r v m : priv (set_x r v m) = priv m.
Proof. done. Qed.
Lemma priv_set_csr c v m : priv (set_csr c v m) = priv m.
Proof. done. Qed.
Lemma priv_set_mem a v m : priv (set_mem a v m) = priv m.
Proof. done. Qed.
Lemma ea_set_x r v m b o : b <> r -> ea (set_x r v m) b o = ea m b o.
Proof. intros. unfold ea, phys. by rewrite x_set_x_ne. Qed.
Lemma ea_set_mem a v m b o : ea (set_mem a v m) b o = ea m b o.
Proof. done. Qed.
Lemma ea_set_csr c v m b o : c <> SATP -> ea (set_csr c v m) b o = ea m b o.
Proof. intros. unfold ea, phys. rewrite csr_set_csr_ne by congruence. done. Qed.

(** A run of stores: distinct addresses. *)
Definition saves (b : reg) (l : list (reg * Z)) : list instr := map (fun '(r, o) => Sd r o b) l.
Definition loads (b : reg) (l : list (reg * Z)) : list instr := map (fun '(r, o) => Ld r o b) l.

Lemma run_saves b l : forall m, let m' := run_code (saves b l) m in
  NoDup (map (fun p => ea m b p.2) l) ->
  (forall r, x m' r = x m r) /\ (forall c, csr m' c = csr m c) /\ pc m' = pc m /\ priv m' = priv m /\
  (forall r o, (r, o) ∈ l -> mem m' (ea m b o) = x m r) /\
  (forall a, (forall r o, (r, o) ∈ l -> a <> ea m b o) -> mem m' a = mem m a).
Proof.
  induction l as [|[r o] l IH]; intros m m' Hn.
  { split_and!; try done. intros r o Hin. by apply elem_of_nil in Hin. }
  cbn [map] in Hn. apply NoDup_cons in Hn as [Hno Hn]. set (m1 := set_mem (ea m b o) (x m r) m).
  destruct (IH m1 Hn) as (H1 & H2 & H3 & H4 & H5 & H6). change (run_code (saves b l) m1) with m' in *. split_and!; try done.
  - intros r' o' [[= -> ->]|Hin]%elem_of_cons; [|by apply (H5 r' o')]. rewrite H6; [apply fset_eq|].
    intros r2 o2 Hin E. apply Hno. change (ea m b o ∈ ((fun p => ea m b p.2) <$> l)). rewrite E. apply list_elem_of_fmap. by exists (r2, o2).
  - intros a Ha. rewrite H6; [apply fset_ne, (Ha r o), elem_of_cons; by left|]. intros r' o' Hin. apply (Ha r' o'), elem_of_cons. by right.
Qed.

(** A run of loads with a base that is not loaded. *)
Lemma run_loads b l : forall m, let m' := run_code (loads b l) m in
  NoDup (map fst l) -> b ∉ map fst l ->
  (forall r o, (r, o) ∈ l -> x m' r = mem m (ea m b o)) /\ (forall r, r ∉ map fst l -> x m' r = x m r) /\
  (forall c, csr m' c = csr m c) /\ pc m' = pc m /\ priv m' = priv m /\ (forall a, mem m' a = mem m a).
Proof.
  induction l as [|[r o] l IH]; intros m m' Hn Hb.
  { split_and!; try done. intros r o Hin. by apply elem_of_nil in Hin. }
  cbn [map fst] in Hn, Hb. apply NoDup_cons in Hn as [Hno Hn]. rewrite not_elem_of_cons in Hb. destruct Hb as [Hbr Hb].
  set (m1 := set_x r (mem m (ea m b o)) m). destruct (IH m1 Hn Hb) as (H1 & H2 & H3 & H4 & H5 & H6). change (run_code (loads b l) m1) with m' in *.
  assert (Eb : x m1 b = x m b) by (by apply fset_ne). assert (Ee : forall o', ea m1 b o' = ea m b o') by (intros; unfold ea, phys; by rewrite Eb).
  split_and!; try done.
  - intros r' o' [[= -> ->]|Hin]%elem_of_cons; [rewrite H2 by done; apply fset_eq|]. rewrite (H1 r' o' Hin), Ee. done.
  - intros r' Hr'. cbn [map fst] in Hr'. rewrite not_elem_of_cons in Hr'. rewrite H2 by tauto. apply fset_ne. tauto.
Qed.
End Machine.

Create Rewrite HintDb mach.
#[export] Hint Rewrite @x_set_x_eq @x_set_csr @x_set_mem @x_set_pc @x_set_priv @csr_set_csr_eq @csr_set_x @csr_set_mem @csr_set_pc @csr_set_priv
  @mem_set_mem @mem_set_x @mem_set_csr @mem_set_pc @mem_set_priv @pc_set_pc @pc_set_priv @pc_set_x
  @priv_set_priv @priv_set_pc @priv_set_x @priv_set_csr @priv_set_mem @ea_set_mem : mach.
#[export] Hint Rewrite @x_set_x_ne @csr_set_csr_ne @ea_set_x @ea_set_csr using discriminate : mach.
#[global] Opaque set_x set_csr set_mem set_pc set_priv.
(** Symbolic execution of straight-line code. *)
Ltac mrun := cbn [run_code fold_left step1 write_csr read_csr]; autorewrite with mach.

(** The same for a register other than those written. *)
Ltac mother := repeat first [progress autorewrite with mach | rewrite x_set_x_ne by done | rewrite csr_set_csr_ne by done].

Section Code.
Context {HT : Hart}.

(** ** Traps from user space *)
(** The user registers in [struct trapframe]. *)
Definition tf_saved : list (reg * Z) :=
  [(ra, 40); (sp, 48); (gp, 56); (tp, 64); (t0, 72); (t1, 80); (t2, 88); (s0, 96); (s1, 104);
   (a1, 120); (a2, 128); (a3, 136); (a4, 144); (a5, 152); (a6, 160); (a7, 168);
   (s2, 176); (s3, 184); (s4, 192); (s5, 200); (s6, 208); (s7, 216); (s8, 224); (s9, 232); (s10, 240); (s11, 248);
   (t3, 256); (t4, 264); (t5, 272); (t6, 280)].
Definition tf_regs : list (reg * Z) := (a0, 112) :: tf_saved.
Lemma tf_regs_all r : exists o, (r, o) ∈ tf_regs /\ 40 <= o < 288.
Proof.
  assert (H : forallb (fun p => (40 <=? p.2) && (p.2 <? 288)) tf_regs = true) by (by vm_compute). rewrite forallb_forall in H.
  assert (exists o, (r, o) ∈ tf_regs) as [o Ho]; [|exists o; split; [done|]; specialize (H (r, o) ltac:(by apply list_elem_of_In)); cbn in H; lia].
  destruct r; eexists; unfold tf_regs, tf_saved; repeat first [apply list_elem_of_here|apply list_elem_of_further].
Qed.

Section Trampoline.
Variables (usatp tf : Z).
(** The user page table maps the trapframe page at [tf]. *)
Hypothesis Htf : forall o, 0 <= o < 288 -> mmu usatp (TRAPFRAME + o) = tf + o.

Lemma trapframe_ea m o : priv m = SupervisorMode -> csr m SATP = usatp -> x m a0 = TRAPFRAME -> 0 <= o < 288 -> ea m a0 o = tf + o.
Proof.
  intros Hp Hs Ha Ho. unfold ea, phys. rewrite Hp, Hs, Ha. rewrite u64_small; [by apply Htf|]. change TRAPFRAME with 274877898752. lia.
Qed.
Lemma tf_saved_range r o : (r, o) ∈ tf_saved -> 40 <= o < 288 /\ o <> 112 /\ r <> a0.
Proof.
  intros Hin. assert (H : forallb (fun p => bool_decide (40 <= p.2 < 288 /\ p.2 <> 112 /\ p.1 <> a0)) tf_saved = true) by (by vm_compute).
  rewrite forallb_forall in H. specialize (H (r, o) ltac:(by apply list_elem_of_In)). by apply bool_decide_eq_true in H.
Qed.

Definition entered (m m1 : mach) : Prop :=
  (forall r o, (r, o) ∈ tf_regs -> mem m1 (tf + o) = x m r) /\
  x m1 sp = mem m (tf + 8) /\ x m1 tp = mem m (tf + 32) /\ csr m1 SATP = mem m (tf + 0) /\ pc m1 = mem m (tf + 16) /\
  priv m1 = SupervisorMode /\ (forall a, ~ tf + 40 <= a < tf + 288 -> mem m1 a = mem m a).
Lemma uservec_run m : priv m = SupervisorMode -> csr m SATP = usatp -> entered m (run_code uservec_code m).
Proof.
  intros Hp Hs. set (m0 := set_x a0 TRAPFRAME (set_csr SSCRATCH (x m a0) m)).
  set (rest := [Csrr t0 SSCRATCH; Sd t0 112 a0; Ld sp 8 a0; Ld tp 32 a0; Ld t0 16 a0; Ld t1 0 a0; SfenceVma; Csrw SATP t1; SfenceVma; Jr t0]).
  assert (E : uservec_code = [Csrw SSCRATCH a0; Li a0 TRAPFRAME] ++ saves a0 tf_saved ++ rest) by reflexivity. rewrite E, !run_app. clear E.
  change (run_code [Csrw SSCRATCH a0; Li a0 TRAPFRAME] m) with m0.
  assert (Ea : forall o, 0 <= o < 288 -> ea m0 a0 o = tf + o) by (intros; by apply trapframe_ea).
  destruct (run_saves a0 tf_saved m0) as (R1 & C1 & _ & P1 & S1 & O1).
  { assert (E : map (fun p => ea m0 a0 p.2) tf_saved = map (fun p => tf + p.2) tf_saved).
    { apply map_ext_in. intros [r o] Hin%list_elem_of_In. apply Ea. destruct (tf_saved_range r o Hin). cbn. lia. }
    rewrite E. change (map (fun p => tf + p.2) tf_saved) with (Z.add tf <$> (snd <$> tf_saved)).
    apply NoDup_fmap_2; [intros ? ? ?; lia|]. apply (bool_decide_unpack _). by vm_compute. }
  assert (X0 : forall r, r <> a0 -> x m0 r = x m r) by (intros r Hr; unfold m0; by rewrite x_set_x_ne, x_set_csr by done).
  set (ms := run_code (saves a0 tf_saved) m0) in *. clearbody ms.
  assert (EA : forall o, 0 <= o < 288 -> ea ms a0 o = tf + o).
  { intros o Ho. apply trapframe_ea; [by rewrite P1|rewrite C1; unfold m0; by autorewrite with mach|rewrite R1; unfold m0; by autorewrite with mach|done]. }
  assert (EC : csr ms SSCRATCH = x m a0) by (rewrite C1; unfold m0; by autorewrite with mach).
  assert (Hlow : forall o, 0 <= o < 40 -> mem ms (tf + o) = mem m (tf + o)).
  { intros o Ho. rewrite O1; [unfold m0; by autorewrite with mach|]. intros r o' Hin%tf_saved_range. rewrite Ea by lia. lia. }
  unfold rest. split_and!; mrun; rewrite ?EA, ?EC by lia; rewrite ?decide_False by lia; try (by apply Hlow).
  - intros r o Hin. autorewrite with mach. case_decide as E.
    + assert (o = 112) as -> by lia. apply elem_of_cons in Hin as [[= ->]|Hin]; [done|]. by destruct (tf_saved_range r 112 Hin) as (_ & ? & _).
    + apply elem_of_cons in Hin as [[= -> ->]|Hin]; [lia|]. destruct (tf_saved_range r o Hin) as (? & _ & Hr).
      rewrite <- (Ea o) by lia. rewrite (S1 r o Hin). by apply X0.
  - by rewrite P1.
  - intros a Ha. autorewrite with mach. rewrite decide_False by lia. rewrite O1; [unfold m0; by autorewrite with mach|].
    intros r o Hin%tf_saved_range. rewrite Ea by lia. lia.
Qed.

Definition resumed (m m3 : mach) : Prop :=
  (forall r o, (r, o) ∈ tf_regs -> x m3 r = mem m (tf + o)) /\ csr m3 SATP = usatp /\ pc m3 = csr m SEPC /\
  priv m3 = (if Z.testbit (csr m MSTATUS) 8 then SupervisorMode else UserMode) /\ forall a, mem m3 a = mem m a.
Lemma userret_run m : priv m = SupervisorMode -> x m a0 = usatp -> resumed m (run_code userret_code m).
Proof.
  intros Hp Ha. set (m0 := set_x a0 TRAPFRAME (set_csr SATP (x m a0) m)).
  assert (E : userret_code = [SfenceVma; Csrw SATP a0; SfenceVma; Li a0 TRAPFRAME] ++ loads a0 tf_saved ++ [Ld a0 112 a0; Sret]) by reflexivity.
  rewrite E, !run_app. clear E. change (run_code [SfenceVma; Csrw SATP a0; SfenceVma; Li a0 TRAPFRAME] m) with m0.
  assert (S0 : csr m0 SATP = usatp) by (unfold m0; autorewrite with mach; done).
  assert (Ea : forall o, 0 <= o < 288 -> ea m0 a0 o = tf + o).
  { intros. apply trapframe_ea; [done|done|unfold m0; by autorewrite with mach|done]. }
  destruct (run_loads a0 tf_saved m0) as (L1 & R1 & C1 & _ & P1 & M1); [apply (bool_decide_unpack _); by vm_compute|apply (bool_decide_unpack _); by vm_compute|].
  set (ml := run_code (loads a0 tf_saved) m0) in *. clearbody ml.
  assert (EA : ea ml a0 112 = tf + 112).
  { apply trapframe_ea; [by rewrite P1|by rewrite C1|rewrite R1; [unfold m0; by autorewrite with mach|apply (bool_decide_unpack _); by vm_compute]|lia]. }
  split_and!; mrun; unfold sret_step; autorewrite with mach.
  - intros r o Hin. autorewrite with mach. apply elem_of_cons in Hin as [[= -> ->]|Hin].
    + autorewrite with mach. rewrite EA, M1. unfold m0. by autorewrite with mach.
    + destruct (tf_saved_range r o Hin) as (? & _ & Hr). rewrite x_set_x_ne by done. rewrite (L1 r o Hin), Ea by lia. unfold m0. by autorewrite with mach.
  - by rewrite C1.
  - rewrite C1. unfold m0. by autorewrite with mach.
  - rewrite C1. unfold m0. by autorewrite with mach.
  - intros a. autorewrite with mach. rewrite M1. unfold m0. by autorewrite with mach.
Qed.
End Trampoline.

(** ** Timer interrupts *)
(** The hart's scratch area, as [timerinit] sets it up. *)
Definition timer_ready (m : mach) (id : Z) : Prop :=
  csr m MSCRATCH = timer_scratch + 40 * id /\ mem m (timer_scratch + 40 * id + 24) = CLINT_MTIMECMP id /\
  mem m (timer_scratch + 40 * id + 32) = 1000000.
Definition scratch_ok (id : Z) : Prop :=
  0 <= id < NCPU /\ 0 <= timer_scratch < 2 ^ 63 /\ (CLINT_MTIMECMP id < timer_scratch \/ timer_scratch + 40 * NCPU <= CLINT_MTIMECMP id).

Lemma timervec_run m id : priv m = MachineMode -> timer_ready m id -> scratch_ok id -> Z.testbit (csr m MIDELEG) 1 = true ->
  let m' := run_code timervec_code m in let c := CLINT_MTIMECMP id in
  (forall r, x m' r = x m r) /\ timer_ready m' id /\ mem m' c = u64 (mem m c + 1000000) /\ Z.testbit (read_csr SIP m') 1 = true /\
  pc m' = csr m MEPC /\ (forall a, a <> c -> ~ timer_scratch + 40 * id <= a < timer_scratch + 40 * id + 24 -> mem m' a = mem m a).
Proof.
  intros Hp (R1 & R2 & R3) ((Hid & Hid') & Hs & Hd) Hb m' c. change NCPU with 8 in *. change (2 ^ 63) with 9223372036854775808 in Hs.
  set (sc := timer_scratch + 40 * id) in *. assert (Hc : 0 <= c < 9223372036854775808) by (unfold c, CLINT_MTIMECMP; change CLINT with 33554432; lia).
  assert (Hne : forall k, 0 <= k < 40 -> c <> sc + k) by (intros; unfold c, sc in *; lia).
  assert (E : timervec_code = [Csrrw a0 MSCRATCH a0; Sd a1 0 a0; Sd a2 8 a0; Sd a3 16 a0] ++ [Ld a1 24 a0; Ld a2 32 a0; Ld a3 0 a1; Add a3 a3 a2; Sd a3 0 a1; Li a1 2; Csrw SIP a1]
    ++ [Ld a3 16 a0; Ld a2 8 a0; Ld a1 0 a0; Csrrw a0 MSCRATCH a0; Mret]) by reflexivity.
  unfold m'. clear m'. rewrite E, !run_app. clear E. set (m1 := run_code [Csrrw a0 MSCRATCH a0; Sd a1 0 a0; Sd a2 8 a0; Sd a3 16 a0] m).
  assert (A1 : (forall r, r <> a0 -> x m1 r = x m r) /\ x m1 a0 = sc /\ csr m1 MSCRATCH = x m a0 /\ priv m1 = MachineMode /\
    (forall c, c <> MSCRATCH -> csr m1 c = csr m c) /\ mem m1 sc = x m a1 /\ mem m1 (sc + 8) = x m a2 /\ mem m1 (sc + 16) = x m a3 /\
    forall a, ~ sc <= a < sc + 24 -> mem m1 a = mem m a).
  { unfold m1. mrun. rewrite R1. assert (Ee : forall o, 0 <= o < 40 -> ea (set_x a0 sc (set_csr MSCRATCH (x m a0) m)) a0 o = sc + o).
    { intros o Ho. unfold ea, phys. autorewrite with mach. rewrite Hp. apply u64_small. unfold sc. lia. }
    rewrite !Ee by lia. rewrite Z.add_0_r. split_and!; try done; intros; autorewrite with mach; try done.
    - by mother.
    - by mother.
    - rewrite !decide_False by lia. by rewrite decide_True.
    - rewrite decide_False by lia. by rewrite decide_True.
    - by rewrite decide_True.
    - rewrite !decide_False by lia. done. }
  destruct A1 as (X1 & X1a & C1 & P1 & C1o & M1a & M1b & M1c & M1o). clearbody m1.
  set (m2 := run_code [Ld a1 24 a0; Ld a2 32 a0; Ld a3 0 a1; Add a3 a3 a2; Sd a3 0 a1; Li a1 2; Csrw SIP a1] m1).
  assert (Ee1 : forall o, 0 <= o < 40 -> ea m1 a0 o = sc + o).
  { intros o Ho. unfold ea, phys. rewrite P1, X1a. apply u64_small. unfold sc. lia. }
  assert (A2 : (forall r, r <> a1 -> r <> a2 -> r <> a3 -> x m2 r = x m1 r) /\ (forall c, c <> MIP -> csr m2 c = csr m1 c) /\ priv m2 = MachineMode /\
    Z.testbit (csr m2 MIP) 1 = true /\ forall a, mem m2 a = if decide (a = c) then u64 (mem m c + 1000000) else mem m1 a).
  { unfold m2. mrun. rewrite !(ea_set_x a1 _ m1 a0) by discriminate. rewrite !Ee1 by lia. rewrite (M1o (sc + 24)), (M1o (sc + 32)), R2, R3 by lia. fold c.
    assert (Ec : ea (set_x a1 c m1) a1 0 = c).
    { unfold ea, phys. autorewrite with mach. rewrite P1, Z.add_0_r. apply u64_small. lia. }
    rewrite !Ec, (M1o c) by (pose proof (Hne 0); pose proof (Hne 8); unfold c, sc in *; lia). split_and!; try done; intros; autorewrite with mach; try done.
    - by mother.
    - by mother.
    - unfold merge. rewrite (C1o MIDELEG) by done. rewrite Z.lor_spec, !Z.land_spec, Hb. by rewrite orb_true_r. }
  destruct A2 as (X2 & C2 & P2 & S2 & M2). clearbody m2.
  assert (Ee2 : forall o, 0 <= o < 40 -> ea m2 a0 o = sc + o).
  { intros o Ho. unfold ea, phys. rewrite P2, X2, X1a by done. apply u64_small. unfold sc. lia. }
  mrun. unfold mret_step. rewrite !Ee2 by lia. rewrite !M2, !decide_False by (pose proof (Hne 0); pose proof (Hne 8); pose proof (Hne 16); lia). rewrite Z.add_0_r, M1a, M1b, M1c.
  rewrite !C2, C1, X2, X1a by done. split_and!; intros; autorewrite with mach; try done.
  - destruct (decide (r = a0)) as [->|N0]; [by autorewrite with mach|]. destruct (decide (r = a1)) as [->|N1]; [by autorewrite with mach|].
    destruct (decide (r = a2)) as [->|N2]; [by autorewrite with mach|]. destruct (decide (r = a3)) as [->|N3]; [by autorewrite with mach|].
    mother. by rewrite X2, X1.
  - unfold timer_ready. fold sc. autorewrite with mach. rewrite !M2, !decide_False by (pose proof (Hne 24); pose proof (Hne 32); lia). rewrite !M1o by lia. done.
  - rewrite M2. by rewrite decide_True.
  - rewrite Z.land_spec, S2, C2, C1o by done. by rewrite Hb.
  - rewrite C2, C1o by done. done.
  - rewrite M2, decide_False by done. apply M1o. lia.
Qed.

(** ** Boot *)
Lemma testbit_land_eq a b c i : Z.land a b = c -> Z.testbit b i = true -> Z.testbit a i = Z.testbit c i.
Proof. intros <- Hb. by rewrite Z.land_spec, Hb, andb_true_r. Qed.
(** The previous privilege after [start] changed mstatus. *)
Lemma mpp_supervisor st : Z.land (Z.shiftr (Z.lor (Z.lor (Z.ldiff st MSTATUS_MPP_MASK) MSTATUS_MPP_S) MSTATUS_MIE) 11) 3 = 1.
Proof.
  apply Z.bits_inj'. intros i Hi. rewrite Z.land_spec, Z.shiftr_spec, !Z.lor_spec, Z.ldiff_spec by done.
  destruct (decide (i = 0)) as [->|N0]; [change (Z.testbit MSTATUS_MPP_MASK (0 + 11)) with true; by rewrite andb_false_r|].
  destruct (decide (i = 1)) as [->|N1]; [change (Z.testbit MSTATUS_MPP_MASK (1 + 11)) with true; by rewrite andb_false_r|].
  assert (Z.testbit 3 i = false) as -> by (apply (Z.bits_above_log2 3); [lia|cbn; lia]).
  rewrite andb_false_r. symmetry. apply (Z.bits_above_log2 1); [lia|cbn; lia].
Qed.

Definition booted (m m' : mach) (id : Z) : Prop :=
  priv m' = SupervisorMode /\ pc m' = sym_main /\ csr m' SATP = 0 /\ x m' tp = id /\ csr m' PMPCFG0 = 0xf /\ csr m' PMPADDR0 = 0x3fffffffffffff /\
  csr m' MTVEC = sym_timervec /\ timer_ready m' id /\ mem m' (CLINT_MTIMECMP id) = u64 (mem m CLINT_MTIME + 1000000) /\
  (forall i, i = 1 \/ i = 5 \/ i = 9 -> Z.testbit (csr m' MIDELEG) i = true /\ Z.testbit (read_csr SIE m') i = true) /\
  Z.testbit (csr m' MIDELEG) 7 = false /\ Z.testbit (csr m' MIE) 7 = true.

Lemma phys_machine m a : priv m = MachineMode -> phys m a = a.
Proof. unfold phys. by intros ->. Qed.
Definition timer_state (m : mach) (id : Z) : mach :=
  let sc := timer_scratch + 40 * id in
  let m1 := set_csr MTVEC sym_timervec (set_csr MSCRATCH sc (set_mem (sc + 32) 1000000 (set_mem (sc + 24) (CLINT_MTIMECMP id)
    (set_mem (CLINT_MTIMECMP id) (u64 (mem m CLINT_MTIME + 1000000)) m)))) in
  set_csr MIE (Z.lor (csr m MIE) MIE_MTIE) (set_csr MSTATUS (Z.lor (csr m MSTATUS) MSTATUS_MIE) m1).
Lemma timerinit_run n m id : priv m = MachineMode -> csr m MHARTID = id -> 0 <= id < 8 -> timerinit n m = Ret tt (timer_state m id).
Proof.
  intros Hp Hh Hid. unfold timerinit, r_mhartid. rewrite bind_gets. cbn [read_csr]. rewrite Hh, s32_small by lia. cbv zeta.
  unfold ld64, sd64, w_mscratch, w_mtvec, r_mstatus, w_mstatus, r_mie, w_mie. rewrite bind_gets, (phys_machine m) by done. rewrite !bind_modify.
  rewrite !phys_machine by (by autorewrite with mach). rewrite bind_gets, bind_modify, bind_gets. cbn [read_csr write_csr]. unfold modify. f_equal.
  unfold timer_state. autorewrite with mach. rewrite !(u64_small (CLINT_MTIMECMP _)) by (unfold CLINT_MTIMECMP; change CLINT with 33554432; lia).
  by rewrite (u64_small 1000000) by lia.
Qed.
(** The state in which [start] calls [timerinit]. *)
Definition early_state (m : mach) : mach :=
  let m1 := set_csr MIDELEG (Z.land 0xffff int_deleg) (set_csr MEDELEG (Z.land 0xffff exc_deleg) (set_csr SATP 0 (set_csr MEPC sym_main
    (set_csr MSTATUS (Z.lor (Z.ldiff (csr m MSTATUS) MSTATUS_MPP_MASK) MSTATUS_MPP_S) m)))) in
  set_csr PMPCFG0 0xf (set_csr PMPADDR0 0x3fffffffffffff
    (write_csr SIE (Z.lor (Z.lor (Z.lor (read_csr SIE m1) SIE_SEIE) SIE_STIE) SIE_SSIE) m1)).
Lemma start_steps n m id : priv m = MachineMode -> csr m MHARTID = id -> 0 <= id < 8 ->
  start n m = Ret tt (mret_step (set_x tp id (timer_state (early_state m) id))).
Proof.
  intros Hp Hh Hid. unfold start, r_mstatus, w_mstatus, w_mepc, w_satp, w_medeleg, w_mideleg, r_sie, w_sie, w_pmpaddr0, w_pmpcfg0.
  rewrite bind_gets, !bind_modify, bind_gets, !bind_modify. cbn [read_csr write_csr].
  set (m1 := set_csr PMPCFG0 _ _). assert (E1 : m1 = early_state m) by (unfold m1, early_state; cbn [read_csr write_csr]; done).
  assert (P1 : priv m1 = MachineMode /\ csr m1 MHARTID = id) by (unfold m1; autorewrite with mach; done).
  rewrite (bind_ret _ _ _ _ _ _ (timerinit_run n m1 id (proj1 P1) (proj2 P1) Hid)). unfold r_mhartid, w_tp. rewrite bind_gets, bind_modify. cbn [read_csr].
  assert (Eh : csr (timer_state m1 id) MHARTID = id) by (unfold timer_state; autorewrite with mach; apply P1).
  rewrite Eh, s32_small, u64_small by lia. unfold modify. by rewrite E1.
Qed.

Lemma start_run n m id : priv m = MachineMode -> csr m MHARTID = id -> scratch_ok id ->
  exists m', start n m = Ret tt m' /\ booted m m' id.
Proof.
  intros Hp Hh (Hid & Hs & Hd). change NCPU with 8 in *. change (2 ^ 63) with 9223372036854775808 in Hs.
  exists (mret_step (set_x tp id (timer_state (early_state m) id))). split; [by apply start_steps|].
  assert (Hdel : forall i, i = 1 \/ i = 5 \/ i = 9 -> Z.testbit (Z.land 0xffff int_deleg) i = true).
  { intros i Hi. rewrite Z.land_spec. destruct Hi as [->|[->| ->]]; rewrite (testbit_land_eq _ _ _ _ deleg_supervisor) by done; done. }
  unfold booted, mret_step, timer_state, early_state, timer_ready. cbn [read_csr write_csr]. autorewrite with mach. rewrite mpp_supervisor.
  split_and!; try done.
  - rewrite decide_False, decide_True by lia. done.
  - by rewrite decide_True.
  - rewrite !decide_False by (change (timer_scratch + 40 * 8) with (timer_scratch + 320) in Hd; lia). by rewrite decide_True.
  - intros i Hi. rewrite (Hdel i Hi). split; [done|]. rewrite Z.land_spec, (Hdel i Hi), Z.lor_spec, andb_true_r. unfold merge.
    rewrite Z.lor_spec, (Z.land_spec (Z.lor _ _)), (Hdel i Hi), !Z.lor_spec, andb_true_r. destruct Hi as [->|[->| ->]].
    + change (Z.testbit SIE_SSIE 1) with true. by rewrite !orb_true_r.
    + change (Z.testbit SIE_STIE 5) with true. by rewrite orb_true_r, orb_true_l, orb_true_r.
    + change (Z.testbit SIE_SEIE 9) with true. by rewrite orb_true_r, !orb_true_l, orb_true_r.
  - rewrite Z.land_spec. by rewrite (testbit_land_eq _ _ _ 7 deleg_machine).
  - rewrite Z.lor_spec. by rewrite orb_true_r.
Qed.

(** ** Kernel traps and context switches *)
(** [kernelvec]: everything but tp is as before the trap, whatever the C
    handler does with the registers and the memory outside the saved area. *)
Definition kv_saved : list (reg * Z) :=
  [(ra, 0); (sp, 8); (gp, 16); (tp, 24); (t0, 32); (t1, 40); (t2, 48); (s0, 56); (s1, 64);
   (a0, 72); (a1, 80); (a2, 88); (a3, 96); (a4, 104); (a5, 112); (a6, 120); (a7, 128);
   (s2, 136); (s3, 144); (s4, 152); (s5, 160); (s6, 168); (s7, 176); (s8, 184); (s9, 192); (s10, 200); (s11, 208);
   (t3, 216); (t4, 224); (t5, 232); (t6, 240)].
Definition kv_high : list (reg * Z) := filter (fun p => p.1 <> ra /\ p.1 <> sp /\ p.1 <> tp) kv_saved.

Lemma kv_range r o : (r, o) ∈ kv_saved -> 0 <= o < 248.
Proof.
  intros Hin. assert (H : forallb (fun p => bool_decide (0 <= p.2 < 248)) kv_saved = true) by (by vm_compute).
  rewrite forallb_forall in H. specialize (H (r, o) ltac:(by apply list_elem_of_In)). by apply bool_decide_eq_true in H.
Qed.
Lemma kv_high_all r : r <> ra -> r <> sp -> r <> tp -> exists o, (r, o) ∈ kv_high /\ (r, o) ∈ kv_saved.
Proof.
  intros N1 N2 N3. assert (exists o, (r, o) ∈ kv_saved) as [o Ho]; [|exists o; split; [|done]; by apply list_elem_of_filter].
  destruct r; try done; eexists; unfold kv_saved; repeat first [apply list_elem_of_here|apply list_elem_of_further].
Qed.

(** [swtch]: the registers a C function must preserve. *)
Definition ctx_regs : list (reg * Z) :=
  [(ra, 0); (sp, 8); (s0, 16); (s1, 24); (s2, 32); (s3, 40); (s4, 48); (s5, 56); (s6, 64); (s7, 72); (s8, 80); (s9, 88); (s10, 96); (s11, 104)].
Lemma ctx_range r o : (r, o) ∈ ctx_regs -> 0 <= o < 112 /\ r <> a0 /\ r <> a1.
Proof.
  intros Hin. assert (H : forallb (fun p => bool_decide (0 <= p.2 < 112 /\ p.1 <> a0 /\ p.1 <> a1)) ctx_regs = true) by (by vm_compute).
  rewrite forallb_forall in H. specialize (H (r, o) ltac:(by apply list_elem_of_In)). by apply bool_decide_eq_true in H.
Qed.

(** The base register [b] addresses the doublewords from [A] on. *)
Definition based (m : mach) (b : reg) (A : Z) (len : Z) : Prop := forall o, 0 <= o < len -> ea m b o = A + o.
Lemma based_nodup m b A len (l : list (reg * Z)) : based m b A len -> Forall (fun p => 0 <= p.2 < len) l -> NoDup (map snd l) -> NoDup (map (fun p => ea m b p.2) l).
Proof.
  intros Hb Hl Hn. assert (E : map (fun p => ea m b p.2) l = Z.add A <$> map snd l).
  { rewrite <- list_fmap_compose. apply map_ext_in. intros p Hp%list_elem_of_In. apply Hb. by apply (proj1 (Forall_forall _ _) Hl). }
  rewrite E. apply NoDup_fmap_2; [intros ? ? ?; lia|done].
Qed.

(** The frame of [kernelvec] at the physical address [A], and the handler: it
    returns with the stack pointer, the page table and the frame as they were. *)
Definition handled (m1 m2 : mach) (A : Z) : Prop :=
  x m2 sp = x m1 sp /\ csr m2 SATP = csr m1 SATP /\ priv m2 = SupervisorMode /\ forall o, 0 <= o < 256 -> mem m2 (A + o) = mem m1 (A + o).
Lemma kernelvec_run m A : priv m = SupervisorMode -> 256 <= x m sp < 2 ^ 64 ->
  (forall o, 0 <= o < 256 -> mmu (csr m SATP) (x m sp - 256 + o) = A + o) ->
  let m1 := run_code kernelvec_save m in x m1 sp = x m sp - 256 /\ (forall a, ~ A <= a < A + 256 -> mem m1 a = mem m a) /\
  forall m2, handled m1 m2 A -> let m3 := run_code kernelvec_restore m2 in
    (forall r, r <> tp -> x m3 r = x m r) /\ x m3 tp = x m2 tp /\ pc m3 = csr m2 SEPC /\ forall a, mem m3 a = mem m2 a.
Proof.
  change (2 ^ 64) with 18446744073709551616. intros Hp Hsp Hmap m1. set (m0 := set_x sp (x m sp - 256) m).
  assert (E1 : m1 = run_code (saves sp kv_saved) m0).
  { unfold m1. assert (E : kernelvec_save = [Addi sp sp (-256)] ++ saves sp kv_saved) by reflexivity. rewrite E, run_app. f_equal. mrun.
    rewrite u64_small by lia. done. }
  clearbody m1.
  assert (B0 : based m0 sp A 256).
  { intros o Ho. unfold ea, phys, m0. autorewrite with mach. rewrite Hp, u64_small by lia. by apply Hmap. }
  destruct (run_saves sp kv_saved m0) as (R1 & C1 & _ & P1 & S1 & O1).
  { apply (based_nodup m0 sp A 256); [done|apply (bool_decide_unpack _); by vm_compute|apply (bool_decide_unpack _); by vm_compute]. }
  rewrite <- E1 in *. assert (X0 : x m0 sp = x m sp - 256 /\ (forall r, r <> sp -> x m0 r = x m r)) by (unfold m0; split; intros; by mother).
  assert (M0 : forall a, mem m0 a = mem m a) by (intros; unfold m0; by mother). assert (S0 : csr m0 SATP = csr m SATP) by (unfold m0; by mother). clearbody m0.
  split; [rewrite R1; apply X0|]. split; [intros a Ha; rewrite O1; [apply M0|]; intros r o Hin%kv_range; rewrite B0 by lia; lia|].
  intros m2 (Hs2 & Hc2 & Hp2 & Hm2) m3.
  assert (V2 : forall r o, (r, o) ∈ kv_saved -> mem m2 (A + o) = x m0 r).
  { intros r o Hin. pose proof (kv_range r o Hin). rewrite Hm2 by lia. rewrite <- (B0 o) by lia. by apply S1. }
  assert (E2 : forall o, 0 <= o < 256 -> ea m2 sp o = A + o).
  { intros o Ho. unfold ea, phys. rewrite Hp2, Hs2, Hc2, R1, C1, S0, (proj1 X0), u64_small by lia. by apply Hmap. }
  assert (E : kernelvec_restore = [Ld ra 0 sp; Ld sp 8 sp] ++ loads sp kv_high ++ [Addi sp sp 256; Sret]) by reflexivity.
  unfold m3. rewrite E, !run_app. clear E m3. set (m2' := run_code [Ld ra 0 sp; Ld sp 8 sp] m2).
  assert (X2 : x m2' ra = x m ra /\ x m2' sp = x m sp - 256 /\ (forall r, r <> ra -> r <> sp -> x m2' r = x m2 r) /\ (forall c, csr m2' c = csr m2 c) /\ priv m2' = SupervisorMode /\
    forall a, mem m2' a = mem m2 a).
  { unfold m2'. mrun. rewrite !E2 by lia. rewrite (V2 ra 0), (V2 sp 8) by (unfold kv_saved; repeat first [apply list_elem_of_here|apply list_elem_of_further]).
    split_and!; intros; mother; try done; apply X0; done. }
  destruct X2 as (X2a & X2b & X2o & C2 & P2 & M2). clearbody m2'.
  assert (E3 : forall o, 0 <= o < 256 -> ea m2' sp o = A + o).
  { intros o Ho. rewrite <- (E2 o Ho). unfold ea, phys. by rewrite P2, Hp2, C2, X2b, Hs2, R1, (proj1 X0). }
  destruct (run_loads sp kv_high m2') as (L3 & R3 & C3 & _ & P3 & M3); [apply (bool_decide_unpack _); by vm_compute|apply (bool_decide_unpack _); by vm_compute|].
  set (m4 := run_code (loads sp kv_high) m2') in *. clearbody m4.
  assert (Hnot : ra ∉ map fst kv_high /\ sp ∉ map fst kv_high /\ tp ∉ map fst kv_high) by (split_and!; apply (bool_decide_unpack _); by vm_compute).
  destruct Hnot as (N1 & N2 & N3). mrun. unfold sret_step. split_and!; intros; mother.
  - destruct (decide (r = sp)) as [->|Nsp]; [mother; rewrite R3, X2b, u64_small by (done || lia); lia|]. mother.
    destruct (decide (r = ra)) as [->|Nra]; [by rewrite R3|]. destruct (kv_high_all r Nra Nsp H) as (o & H1 & H2). pose proof (kv_range r o H2).
    rewrite (L3 r o H1), E3, M2, (V2 r o H2) by lia. by apply X0.
  - rewrite R3 by done. by apply X2o.
  - by rewrite C3, C2.
  - by rewrite M3, M2.
Qed.

Lemma swtch_run m old new : based m a0 old 112 -> based m a1 new 112 -> old + 112 <= new \/ new + 112 <= old ->
  let m' := run_code swtch_code m in
  (forall r o, (r, o) ∈ ctx_regs -> mem m' (old + o) = x m r /\ x m' r = mem m (new + o)) /\
  (forall r, r ∉ map fst ctx_regs -> x m' r = x m r) /\ pc m' = mem m (new + 0) /\ (forall c, csr m' c = csr m c) /\ priv m' = priv m /\
  (forall a, ~ old <= a < old + 112 -> mem m' a = mem m a).
Proof.
  intros B0 B1 Hd m'. unfold m'. assert (E : swtch_code = saves a0 ctx_regs ++ loads a1 ctx_regs ++ [Jr ra]) by reflexivity. rewrite E, !run_app. clear E m'.
  destruct (run_saves a0 ctx_regs m) as (R1 & C1 & _ & P1 & S1 & O1).
  { apply (based_nodup m a0 old 112); [done|apply (bool_decide_unpack _); by vm_compute|apply (bool_decide_unpack _); by vm_compute]. }
  set (m1 := run_code (saves a0 ctx_regs) m) in *. clearbody m1.
  assert (O1' : forall a, ~ old <= a < old + 112 -> mem m1 a = mem m a).
  { intros a Ha. apply O1. intros r o Hin%ctx_range. rewrite B0 by lia. lia. }
  assert (E1 : forall o, ea m1 a1 o = ea m a1 o) by (intros; unfold ea, phys; by rewrite P1, C1, R1).
  destruct (run_loads a1 ctx_regs m1) as (L2 & R2 & C2 & _ & P2 & M2); [apply (bool_decide_unpack _); by vm_compute|apply (bool_decide_unpack _); by vm_compute|].
  set (m2 := run_code (loads a1 ctx_regs) m1) in *. clearbody m2.
  assert (Hl : forall r o, (r, o) ∈ ctx_regs -> x m2 r = mem m (new + o)).
  { intros r o Hin. pose proof (ctx_range r o Hin). rewrite (L2 r o Hin), E1, B1 by lia. apply O1'. lia. }
  mrun. split_and!; intros; autorewrite with mach.
  - split; [|by apply Hl]. pose proof (ctx_range r o H). rewrite M2, <- (B0 o) by lia. by apply S1.
  - rewrite R2 by done. apply R1.
  - apply Hl. apply elem_of_cons. by left.
  - by rewrite C2.
  - by rewrite P2.
  - rewrite M2. by apply O1'.
Qed.

Lemma entry_run m : 0 <= csr m MHARTID < NCPU -> 0 <= stack0 < 2 ^ 63 -> x (run_code entry_code m) sp = stack0 + 4096 * (csr m MHARTID + 1).
Proof.
  change NCPU with 8. change (2 ^ 63) with 9223372036854775808. intros Hh Hs. unfold entry_code. mrun. rewrite (u64_small (csr m MHARTID + 1)) by lia.
  rewrite (u64_small (1024 * 4 * _)) by lia. rewrite u64_small by lia. lia.
Qed.
End Code.

(** ** Properties *)

(** C11: a hart boots into the kernel with its timer running: from machine
    mode [start] ends, in supervisor mode at [main], with paging off, the hart
    number in tp, all of memory open, the supervisor's software, timer and
    external interrupts delegated and enabled, machine timer interrupts
    enabled but kept in machine mode, going to [timervec], and the first one
    due a million cycles from now.  Each one that comes, with the scratch area
    as [timerinit] left it, is invisible to the interrupted code: [timervec]
    returns to it with every register as before, the next interrupt a million
    cycles later, a supervisor software interrupt pending, and no other memory
    changed than the three saved doublewords and the compare register. *)
Theorem boot_and_timer {HT : Hart} n m id :
  priv m = MachineMode -> csr m MHARTID = id -> scratch_ok id ->
  exists m', start n m = Ret tt m' /\ booted m m' id /\
    forall m2, priv m2 = MachineMode -> timer_ready m2 id -> csr m2 MIDELEG = csr m' MIDELEG ->
      let m3 := run_code timervec_code m2 in let c := CLINT_MTIMECMP id in
      (forall r, x m3 r = x m2 r) /\ timer_ready m3 id /\ mem m3 c = u64 (mem m2 c + 1000000) /\ Z.testbit (read_csr SIP m3) 1 = true /\
      pc m3 = csr m2 MEPC /\ (forall a, a <> c -> ~ timer_scratch + 40 * id <= a < timer_scratch + 40 * id + 24 -> mem m3 a = mem m2 a).
Proof.
  intros Hp Hh Hs. destruct (start_run n m id Hp Hh Hs) as (m' & E & B). exists m'. split; [done|]. split; [done|].
  intros m2 Hp2 Ht Hd. apply timervec_run; try done. rewrite Hd. destruct B as (_ & _ & _ & _ & _ & _ & _ & _ & _ & Hb & _). by apply Hb; left.
Qed.

(** C9: a trap from user space and back is transparent: [uservec], entered in
    supervisor mode with the user's page table, which maps the trapframe page,
    stores every user register in its field of the trapframe and goes to the
    handler with the kernel's stack, hart number and page table taken from
    it, writing no other memory; [userret] loads every register from its
    field and returns to the address in sepc with the user's page table; so
    when the kernel leaves the saved fields alone, all registers of the
    program are what they were. *)
Theorem trampoline_roundtrip {HT : Hart} usatp tf m m2 :
  (forall o, 0 <= o < 288 -> mmu usatp (TRAPFRAME + o) = tf + o) ->
  priv m = SupervisorMode -> csr m SATP = usatp -> priv m2 = SupervisorMode -> x m2 a0 = usatp ->
  let m1 := run_code uservec_code m in let m3 := run_code userret_code m2 in
  entered tf m m1 /\ resumed usatp tf m2 m3 /\
  ((forall o, 40 <= o < 288 -> mem m2 (tf + o) = mem m1 (tf + o)) -> forall r, x m3 r = x m r).
Proof.
  intros Htf Hp Hs Hp2 Ha m1 m3. pose proof (uservec_run usatp tf Htf m Hp Hs) as He. pose proof (userret_run usatp tf Htf m2 Hp2 Ha) as Hl.
  fold m1 in He. fold m3 in Hl. split; [done|]. split; [done|]. intros Hsame r. destruct (tf_regs_all r) as (o & Hin & Ho).
  destruct Hl as (Hl & _). destruct He as (He & _). rewrite (Hl r o Hin), (Hsame o Ho). by apply He.
Qed.

(** C10: kernel code is resumed as it was left.  [swtch] saves the registers
    a C function preserves in the old context and continues with those of the
    new one, so that a later switch back, with the context untouched,
    returns behind the first call with those registers restored.  A trap in
    the kernel is transparent but for tp: [kernelvec] stores all registers in
    a frame below the stack pointer, and after a handler that keeps the frame
    and the stack pointer, restores every register but the hart number and
    returns to sepc. *)
Theorem kernel_code_resumes {HT : Hart} m old new m2 other A :
  based m a0 old 112 -> based m a1 new 112 -> old + 112 <= new \/ new + 112 <= old ->
  based m2 a1 old 112 -> based m2 a0 other 112 -> other + 112 <= old \/ old + 112 <= other ->
  priv m = SupervisorMode -> 256 <= x m sp < 2 ^ 64 -> (forall o, 0 <= o < 256 -> mmu (csr m SATP) (x m sp - 256 + o) = A + o) ->
  let m1 := run_code swtch_code m in
  ((forall r o, (r, o) ∈ ctx_regs -> mem m1 (old + o) = x m r /\ x m1 r = mem m (new + o)) /\ pc m1 = mem m (new + 0) /\
   (forall a, ~ old <= a < old + 112 -> mem m1 a = mem m a)) /\
  ((forall o, 0 <= o < 112 -> mem m2 (old + o) = mem m1 (old + o)) ->
     let m3 := run_code swtch_code m2 in pc m3 = x m ra /\ forall r, r ∈ map fst ctx_regs -> x m3 r = x m r) /\
  (let k1 := run_code kernelvec_save m in (forall a, ~ A <= a < A + 256 -> mem k1 a = mem m a) /\
   forall k2, handled k1 k2 A -> let k3 := run_code kernelvec_restore k2 in
     (forall r, r <> tp -> x k3 r = x m r) /\ x k3 tp = x k2 tp /\ pc k3 = csr k2 SEPC).
Proof.
  intros B0 B1 Hd B1' B0' Hd' Hp Hsp Hmap m1. destruct (swtch_run m old new B0 B1 Hd) as (H1 & _ & H2 & _ & _ & H3). fold m1 in H1, H2, H3. split; [done|]. split.
  - intros Hsame m3. destruct (swtch_run m2 other old B0' B1' Hd') as (H1' & _ & H2' & _ & _ & _). fold m3 in H1', H2'.
    assert (Hr : forall r o, (r, o) ∈ ctx_regs -> x m3 r = x m r).
    { intros r o Hin. pose proof (ctx_range r o Hin). rewrite (proj2 (H1' r o Hin)), Hsame by lia. by apply H1. }
    split; [rewrite H2', Hsame by lia; by apply H1, elem_of_cons; left|]. intros r ([r' o] & -> & Hin)%list_elem_of_fmap. by apply (Hr r' o).
  - destruct (kernelvec_run m A Hp Hsp Hmap) as (_ & Hk & H). cbv zeta in *. split; [done|]. intros k2 Hh. destruct (H k2 Hh) as (? & ? & ? & _). done.
Qed.

(** ** A hart with an identity mapping *)
Definition ex_hart : Hart :=
  {| mmu := fun _ va => va; int_deleg := 0x222; exc_deleg := 0xb1ff; sym_main := 0x80000e00; sym_timervec := 0x80005c00;
     stack0 := 0x80009000; timer_scratch := 0x80008000; deleg_supervisor := eq_refl; deleg_machine := eq_refl |}.
Definition ex_mach (p : mode) (satp : Z) : mach :=
  mk_mach (fun r => if decide (r = a0) then 0x80010000 else if decide (r = a1) then 0x80020000 else 0x80030000)
    (fun c => match c with SATP => satp | MHARTID => 2 | _ => 0 end) (fun _ => 7) 0x80000000 p.

Lemma boot_and_timer_witness : exists m', @start ex_hart 0%nat (ex_mach MachineMode 0) = Ret tt m' /\ pc m' = 0x80000e00 /\ x m' tp = 2.
Proof.
  destruct (@boot_and_timer ex_hart 0%nat (ex_mach MachineMode 0) 2) as (m' & E & B & _).
  - reflexivity.
  - reflexivity.
  - unfold scratch_ok. change NCPU with 8. unfold CLINT_MTIMECMP, CLINT. cbn [timer_scratch ex_hart]. lia.
  - exists m'. split; [exact E|]. destruct B as (_ & H1 & _ & H2 & _). split; [exact H1|exact H2].
Defined.
Lemma trampoline_roundtrip_witness :
  x (@run_code ex_hart userret_code (set_x a0 5 (@run_code ex_hart uservec_code (ex_mach SupervisorMode 5)))) a0 = 0x80010000 /\
  x (@run_code ex_hart userret_code (set_x a0 5 (@run_code ex_hart uservec_code (ex_mach SupervisorMode 5)))) t6 = 0x80030000.
Proof.
  destruct (@trampoline_roundtrip ex_hart 5 TRAPFRAME (ex_mach SupervisorMode 5) (set_x a0 5 (@run_code ex_hart uservec_code (ex_mach SupervisorMode 5)))) as (_ & _ & H).
  - reflexivity.
  - reflexivity.
  - reflexivity.
  - rewrite priv_set_x. reflexivity.
  - apply x_set_x_eq.
  - assert (Hr := H (fun o _ => mem_set_x _ _ _ _)). split; [exact (Hr a0)|exact (Hr t6)].
Defined.
Lemma kernel_code_resumes_witness : pc (@run_code ex_hart swtch_code (ex_mach SupervisorMode 5)) = 7.
Proof.
  destruct (@kernel_code_resumes ex_hart (ex_mach SupervisorMode 5) 0x80010000 0x80020000 (set_x a1 0x80010000 (set_x a0 0x80020000 (ex_mach SupervisorMode 5))) 0x80020000 (0x80030000 - 256))
    as ((_ & H & _) & _).
  - intros o Ho. unfold ea, phys. cbn [priv ex_mach csr mmu ex_hart]. apply u64_small. change (x (ex_mach SupervisorMode 5) a0) with 0x80010000. lia.
  - intros o Ho. unfold ea, phys. cbn [priv ex_mach csr mmu ex_hart]. apply u64_small. change (x (ex_mach SupervisorMode 5) a1) with 0x80020000. lia.
  - lia.
  - intros o Ho. unfold ea, phys. autorewrite with mach. cbn [priv ex_mach csr mmu ex_hart]. apply u64_small. lia.
  - intros o Ho. unfold ea, phys. autorewrite with mach. cbn [priv ex_mach csr mmu ex_hart]. apply u64_small. lia.
  - lia.
  - reflexivity.
  - change (x (ex_mach SupervisorMode 5) sp) with 0x80030000. lia.
  - intros o Ho. reflexivity.
  - exact H.
Defined.
